(* ===== verification/_CoqProject ===== *)
-Q . S2P
Prelude.v
JsValue.v
JsString.v
Json.v
Effects.v
Base64.v
OAuthPkce.v
ApiClient.v
Access.v
TenantResolve.v
Provider.v
ReactNative.v
MobileApp.v
ErpNode.v
Webauthn.v
Hooks.v
Streams.v
ErpReact.v
AuthGuard.v
Login.v
Callback.v
SignInFlow.v
StorageTypes.v
Sessions.v
RnStore.v
Saml.v
Palette.v
Impersonation.v
Shell.v
Sidebar.v
Resources.v
DemoHooks.v
UserImport.v
Parents.v
JsSort.v
JsNumber.v
JsDate.v
OrgTree.v
RoleMatrix.v
PermMatrix.v
CondAccess.v
SessionList.v
JsUrl.v
AuditQuery.v
AuditLog.v
AuditCharts.v
JsonPretty.v
Passwords.v
PasswordPolicy.v
PolicyEditor.v
UsersPage.v
Toasts.v
Widgets.v
LdapSync.v
