(* ===== verification/Prelude.v ===== *)
(** * GGID TypeScript clients: verification library

    GGID is an identity provider: Go services behind a gateway, and TypeScript clients of
    them.  This library models the clients (the administration console, the React and React
    Native SDKs, the example applications) and proves what makes them correct: who is signed
    in, what a page may show, what is written to the browser's storages, what is sent to the
    servers.  The servers are arbitrary here: every theorem holds whatever they answer, unless
    it says otherwise.

    ** How a program is modelled

    - JsValue, JsString, Json, JsonPretty: values once the types are erased, the string
      operations of the standard library, [JSON.stringify], plain and indented, and
      [JSON.parse].
    - Effects: an async function is a tree of operations ([prog]) on the component's state,
      the three storages and the outside world.  Two semantics share the tree: [run], a call on
      its own against an environment [env] that answers its requests (clock, randomness,
      servers and platform are functions of the trace), and [reachable], any number of calls
      in flight, each resumed at its [await]s in any order.  The proof rules are there: [safe]
      for invariants of the second, [tame] and [stores_ok] for state, observations and
      storages, [no_throw], [fetches_le], [ends] for quiescence, lenses for components of one page.
    - JsSort, JsNumber, JsDate, JsUrl: the stable sort of arrays, the numbers, dates and query
      strings a page reads from texts.
    - Parents: lists whose elements point to a parent in the list, chains of parents and
      forests; the specification side of OrgTree and RoleMatrix.
    - Prelude (this file): notation, automation and lemmas on lists and strings.

    A React component is a record of its state cells.  A handler is a closure over a render:
    the cells it reads from that render are arguments, the cells it updates functionally are
    read when the update runs.  An effect is called with its dependencies.  Router, location
    and document changes are events of the trace; markup is modelled where it decides
    something (which of page, spinner or login form is shown, which rows are listed).

    ** The files and the sources they model

    Console (src/console/src):
    - OAuthPkce: lib/oauth-pkce.ts.  Base64: the base64url codecs of lib/oauth-pkce.ts,
      lib/webauthn-conditional.ts and sdk/react/src/passkey.ts, with [btoa] and [atob].
    - ApiClient: lib/api.ts, [apiFetch] with its refresh and retry, [useAuth], [useUsers].
    - Access: the rest of lib/api.ts (roles, permissions), the links of components/sidebar.tsx,
      components/PermissionGuard.tsx.  Sidebar: the sidebar's own state.
    - TenantResolve: lib/api-config.ts and middleware.ts.
    - AuthGuard: components/auth-guard.tsx.  Login: app/login, register, forgot-password and
      setup.  Callback: app/auth/callback and components/auth/passwordless-login.tsx.
    - Impersonation: app/admin/impersonate and components/impersonation-banner.tsx.
    - UserImport: app/users/import, with the CSV exports of app/users and app/activity.
    - OrgTree: app/organizations/tree.  RoleMatrix: app/roles/matrix.  PermMatrix:
      app/roles/permission-matrix.  CondAccess: app/settings/conditional-access.
      SessionList: app/sessions.  AuditQuery: app/audit/advanced.
      AuditLog: app/audit, with what its dashboard is drawn from in AuditCharts.
      UsersPage: app/users.  PolicyEditor: app/policies.  LdapSync:
      app/settings/ldap-sync-config.
    - Passwords: the two ratings of a password.  PasswordPolicy, a Module for each page:
      app/settings/password (InBrowser), app/settings/password-policy (OnServer) and the
      settings of app/settings/password-strength (Tester).
    - Palette: components/CommandPalette.tsx, Pagination.tsx.  Shell: language, theme, tenant
      switcher, confirmation dialog, passkey prompt, copy button, [asArray].
      Toasts: components/Toast.tsx, a step relation with time.  Widgets: the small modules of
      lib/, the service worker, and the error boundary of the React SDK.
    - Webauthn: lib/auth-helpers.ts, lib/webauthn-conditional.ts and sdk/react/src/passkey.ts.

    React SDK (src/sdk/react/src):
    - Provider: GGIDProvider.tsx, useTokenRefresh.ts, useUser.ts, useRoles.ts, usePermissions.ts,
      RequireScope.tsx, ProtectedRoute.tsx, LogoutButton.tsx.
    - Hooks: the hooks with lists and changes (a Module per hook).  Resources: the hooks that
      are one text around an address.  DemoHooks: the hooks with sample data.  Streams: the
      three event-stream hooks as a state machine over their inputs.  Saml: saml.ts.

    React Native SDK (src/sdk/react-native/src): ReactNative, client.ts; RnStore, index.ts.
    Examples (src/examples): MobileApp, mobile-app/lib/ggid.ts; ErpNode, erp-node/src (the
    middleware, every router over its in-memory store and the application they are mounted
    in); ErpReact, erp-react/src/lib/auth.ts.

    ** How the parts meet

    The console's pages share nothing but the browser's storages.  SignInFlow composes what
    the sign-in pages write with what the route guard reads; StorageTypes states the shapes of
    the shared items as an invariant of all writers under every interleaving, and that readers
    of such items do not fail; Callback follows a flow from the page that starts it to the page
    that ends it, across a redirect; Impersonation has the page and the banner meet in one
    item.  Sessions gives an abstract machine of one session, an interface [SessionSystem]
    with the simulation a client promises, two instances (the provider and a console tab), and
    what follows for every history from the interface alone.

    ** What the theorems show

    - Sessions: [clients_refine_machine], [console_sessions_granted], [provider_sessions_granted],
      [provider_session_invariant]: no session out of nothing and none after a logout; state
      and storage agree whatever is in flight.
    - Requests: [apiFetch_direct], [apiFetch_refresh_retry], [apiFetch_bounded]: what one call
      sends, returns and stores, at most three requests.  [hooks_fetch], [hooks_change],
      [rest_calls_settle], [demo_hooks_hide_failures]: the data hooks.
    - Signing in: [login_page_outcome], [setup_sends_valid], [oauth_flow_validates],
      [callback_outcome], [passwordless_round_trip], [ticket_verifier_bounds],
      [authorize_binds_exchange].
    - What is shown and allowed: [guard_admits], [guard_expired], [guard_settles],
      [login_then_guard], [hasPermission_hierarchy], [changes_need_permission],
      [reads_and_errors_change_nothing], [checkPermission_fails_closed],
      [impersonation_needs_reason], [impersonation_outcome], [impersonation_ends].
    - Administration: [tree_sound], [drop_keeps_forest], [search_shows] (the tree of
      organizations), [chain_complete], [inherited_effective], [save_sends_changes] (roles and
      what they inherit), [evaluate_first_match], [saved_policies_allow],
      [move_keeps_verdict] (conditional access), [processed_sorted],
      [revoke_reports_success] (the list of sessions), [query_edits], [nothing_is_saved],
      [stored_lists_return] (the search of the audit log), [detect_spec], [address_filters],
      [pages_in_range], [actors_counted] (the audit log), [csv_read_back], [import_outcome],
      [csv_import_accounts], [delete_together], [create_outcome] (users), [requests_known],
      [export_then_import] (policies), [mapping_stays_listed], [presets_mix] (directories).
    - Passwords: [score_spec], [meter_grows] (the ratings), [verdicts_meet] (the verdict of
      both policy pages is what the policy asks), [policy_stays_valid], [saved_policy_returns],
      [save_falls_back] (what is kept, sent and read again).
    - Tenants: [middleware_refuses_only_refused], [resolveTenantSlug_never_mixes].
    - State machines and data: [stream_hooks_sound], [toasts_leave], [kept_by_others],
      [timings_kept], [error_is_shown], [palette_enter], [storage_stays_shaped],
      [shaped_readers_succeed], [base64url_roundtrip], [base64url_encoders_agree],
      [escape_roundtrip], [expired_session_diverges].

    The other lemmas of each file complete its functional behaviour on every branch.  Several
    state behaviour that is hardly intended, as the code has it: a refresh that undoes a logout
    (Provider), a store that loads for ever (RnStore), an impersonation that always reports a
    failure (Impersonation), a spinner that never stops (Sidebar), hooks that show invented data
    in place of an error (DemoHooks), a branch of organizations that disappears (OrgTree),
    policies that no longer match once saved (CondAccess), a refused revocation reported as
    done (SessionList), searches that cannot be saved (AuditQuery), an address that is erased
    before it is read (AuditLog), a policy that is sent to the server and read from the browser
    only (PasswordPolicy), policies that are made anew where they should change (PolicyEditor),
    users that are deleted though they are not shown (UsersPage), notifications that stay while
    others come (Toasts), a status that is never asked for again (LdapSync), a service that
    gives its own tokens to anyone (ErpNode).

    ** Bounds

    Numbers are integers; where a width matters (the 32 bits of a timer's delay, the words of a
    verifier) it is written out.  Strings are sequences of code units below 256, the range of
    [btoa]; text beyond is written in UTF-8.  Dates are those of RFC 3339, with or without a
    time.  A number typed into a field of the password policy or of the sessions' limits is whole
    or none at all (NaN): the fractions those fields would take are left out; other numbers in
    texts are decimals.  Fuel occurs in six places.  The JSON parser has twice the length of
    the text plus two: every two nested calls consume a character.
    [to_hex] has eight digits for a 32-bit word.  The decoder of escaped text (Saml) has the
    length of the text, and its theorem holds for any fuel that large.  [getSession] and
    [logout] of the React Native client call each other: their result is [None] when the fuel
    is out, and the theorems say which sessions need one unit and that others exhaust any.
    The loops over parents (the search of OrgTree, the inheritance of RoleMatrix) give [None]
    when it is out: the length of the list is enough where the parents form a forest, and no
    fuel is where they form a circle.

    ** Not modelled

    The Go services and the SDKs in other languages.  Markup, styles and dictionaries.  The
    remaining pages of the console (under app/), which call [apiFetch] and render what it
    returns, and the remaining hooks of the React SDK, which repeat the patterns of Hooks,
    Resources and DemoHooks.  Digests, key generation, the authenticator, the browser prompt
    of expo-auth-session and the Node SDK's token verification are the platform's: parameters
    or operations the environment answers. *)

From stdpp Require Export strings gmap list.
From Stdlib Require Export ZArith Lia Ascii.

#[global] Open Scope stdpp_scope.

(** ** Automation shared by the development *)

Create HintDb js discriminated.
Create Rewrite HintDb js.

#[global] Arguments String.append !_ _ : simpl nomatch.

(** Case split on the first [match]/[if] scrutinee of the goal. *)
Ltac split_match :=
  match goal with
  | |- context [match ?x with _ => _ end] =>
      lazymatch x with
      | context [match _ with _ => _ end] => fail
      | _ => let E := fresh "E" in destruct x eqn:E
      end
  end.

(** Same, in a hypothesis. *)
Ltac split_match_in H :=
  match type of H with
  | context [match ?x with _ => _ end] =>
      lazymatch x with
      | context [match _ with _ => _ end] => fail
      | _ => let E := fresh "E" in destruct x eqn:E
      end
  end.

Ltac split_matches := repeat (split_match; simplify_eq/=).
Ltac split_matches_in H := repeat (split_match_in H; simplify_eq/=).

(** Boolean connectives to propositions, in hypotheses and goal. *)
Ltac bool_prop :=
  repeat match goal with
    | H : (_ && _)%bool = true |- _ => apply andb_true_iff in H as [? ?]
    | H : (_ || _)%bool = false |- _ => apply orb_false_iff in H as [? ?]
    | H : (_ || _)%bool = true |- _ => apply orb_true_iff in H
    | H : (_ && _)%bool = false |- _ => apply andb_false_iff in H
    | H : negb _ = true |- _ => apply negb_true_iff in H
    | H : negb _ = false |- _ => apply negb_false_iff in H
    | H : String.eqb _ _ = true |- _ => apply String.eqb_eq in H
    | H : String.eqb _ _ = false |- _ => apply String.eqb_neq in H
    end.

(** ** Booleans of string equality *)

Lemma eqb_refl_str (s : string) : String.eqb s s = true.
Proof. apply String.eqb_refl. Qed.

Lemma eqb_str_false (s t : string) : s <> t -> String.eqb s t = false.
Proof. apply String.eqb_neq. Qed.

#[export] Hint Rewrite eqb_refl_str : js.
#[export] Hint Resolve eqb_str_false : js.

(** ** Strings as byte sequences *)

Lemma str_app_nil_r (s : string) : s +:+ EmptyString = s.
Proof. induction s as [|c s IH]; cbn; [done|]. by f_equal. Qed.

Lemma str_app_assoc (a b c : string) : (a +:+ b) +:+ c = a +:+ (b +:+ c).
Proof. induction a as [|x a IH]; cbn; [done|]. by f_equal. Qed.

Lemma str_length_app (a b : string) :
  String.length (a +:+ b) = String.length a + String.length b.
Proof. induction a as [|x a IH]; cbn; [done|]. by f_equal. Qed.

Lemma str_app_inj_r (a b c : string) : a +:+ b = a +:+ c -> b = c.
Proof. induction a as [|x a IH]; cbn; [done|]. intros [= H]. by apply IH. Qed.

#[export] Hint Rewrite str_app_nil_r str_app_assoc str_length_app : js.

(** All characters of a string satisfy [P]. *)
Fixpoint str_forall (P : Ascii.ascii -> bool) (s : string) : bool :=
  match s with
  | EmptyString => true
  | String c s' => P c && str_forall P s'
  end.

(** Characterwise rewriting of a string: each character becomes a string. *)
Fixpoint str_flat_map (f : Ascii.ascii -> string) (s : string) : string :=
  match s with
  | EmptyString => EmptyString
  | String c s' => f c +:+ str_flat_map f s'
  end.

Lemma str_forall_app P (a b : string) :
  str_forall P (a +:+ b) = str_forall P a && str_forall P b.
Proof. induction a as [|x a IH]; cbn; [done|]. by rewrite IH, andb_assoc. Qed.

Lemma str_flat_map_app f (a b : string) :
  str_flat_map f (a +:+ b) = str_flat_map f a +:+ str_flat_map f b.
Proof. induction a as [|x a IH]; cbn; [done|]. by rewrite IH, str_app_assoc. Qed.

Lemma str_forall_flat_map P f (s : string) :
  (forall c, str_forall P (f c) = true) -> str_forall P (str_flat_map f s) = true.
Proof.
  intros H. induction s as [|c s IH]; cbn; [done|].
  by rewrite str_forall_app, H, IH.
Qed.

Lemma str_forall_impl (P Q : Ascii.ascii -> bool) (s : string) :
  (forall c, P c = true -> Q c = true) -> str_forall P s = true -> str_forall Q s = true.
Proof.
  intros H. induction s as [|c s IH]; simpl; [done|]. intros ?; bool_prop.
  by rewrite H, IH.
Qed.

Lemma str_flat_map_id f (P : Ascii.ascii -> bool) (s : string) :
  (forall c, P c = true -> f c = String c EmptyString) ->
  str_forall P s = true -> str_flat_map f s = s.
Proof.
  intros H. induction s as [|c s IH]; simpl; [done|]. intros ?; bool_prop.
  rewrite H, IH by done. done.
Qed.

#[export] Hint Rewrite str_forall_app str_flat_map_app : js.

(** ** Lists *)

Lemma Forall_existsb_false {A} (P : A -> bool) (l : list A) :
  existsb P l = false <-> Forall (fun x => P x = false) l.
Proof.
  induction l as [|x l IH]; simpl; [by split|].
  rewrite orb_false_iff, IH, Forall_cons. done.
Qed.

Lemma existsb_In {A} (P : A -> bool) (l : list A) :
  existsb P l = true <-> exists x, In x l /\ P x = true.
Proof. apply existsb_exists. Qed.

Definition str_mem (s : string) (l : list string) : bool := existsb (String.eqb s) l.

Lemma str_mem_In (s : string) (l : list string) : str_mem s l = true <-> In s l.
Proof.
  unfold str_mem. rewrite existsb_exists. split.
  - intros (x & Hx & E). apply String.eqb_eq in E. by subst.
  - intros H. exists s. by rewrite String.eqb_refl.
Qed.

Lemma str_mem_false (s : string) (l : list string) : str_mem s l = false <-> ~ In s l.
Proof. rewrite <- str_mem_In. destruct (str_mem s l); naive_solver. Qed.

Lemma lookup_foldr_delete {V} (ks : list string) (m : gmap string V) k :
  In k ks -> foldr delete m ks !! k = None.
Proof.
  induction ks as [|k' ks IH]; cbn; [done|]. intros Hk.
  destruct (decide (k' = k)) as [->|Hne]; [apply lookup_delete_eq|].
  rewrite lookup_delete_ne by done. apply IH. by destruct Hk.
Qed.

Lemma lookup_foldr_delete_ne {V} (ks : list string) (m : gmap string V) k :
  ~ In k ks -> foldr delete m ks !! k = m !! k.
Proof.
  induction ks as [|k' ks IH]; cbn; [done|]. intros Hk.
  rewrite lookup_delete_ne by naive_solver. apply IH. naive_solver.
Qed.
