(* ===== verification/JsValue.v ===== *)
(** * JavaScript values

    The values the TypeScript sources compute with once their types are erased:
    what [resp.json()] returns, what is kept in React state, what is written to a
    storage.  Numbers are the integers (every number the modelled code computes
    with is an integer below 2^53); objects are association lists in insertion
    order.  The operators below are the ones the sources use: [??], [||],
    property access, optional chaining, template-literal conversion, spread. *)

From Stdlib Require Import DecimalString DecimalZ.
From S2P Require Import Prelude.

Unset Elimination Schemes.
Inductive js : Type :=
| JUndef
| JNull
| JBool (b : bool)
| JNum (z : Z)
| JStr (s : string)
| JArr (l : list js)
| JObj (l : list (string * js)).
Set Elimination Schemes.

(** Induction through the two nested lists. *)
Section js_ind'.
Context (P : js -> Prop).
Hypothesis (Hundef : P JUndef) (Hnull : P JNull) (Hbool : forall b, P (JBool b))
  (Hnum : forall z, P (JNum z)) (Hstr : forall s, P (JStr s))
  (Harr : forall l, Forall P l -> P (JArr l))
  (Hobj : forall l, Forall (fun kv => P kv.2) l -> P (JObj l)).

Fixpoint js_ind' (v : js) : P v :=
  match v with
  | JUndef => Hundef
  | JNull => Hnull
  | JBool b => Hbool b
  | JNum z => Hnum z
  | JStr s => Hstr s
  | JArr l =>
      Harr l ((fix go (l : list js) : Forall P l :=
                 match l with
                 | [] => Forall_nil_2 P
                 | x :: l' => Forall_cons_2 P x l' (js_ind' x) (go l')
                 end) l)
  | JObj l =>
      Hobj l ((fix go (l : list (string * js)) : Forall (fun kv => P kv.2) l :=
                 match l with
                 | [] => Forall_nil_2 _
                 | x :: l' => Forall_cons_2 _ x l' (js_ind' x.2) (go l')
                 end) l)
  end.
End js_ind'.

#[export] Instance js_eq_dec : EqDecision js.
Proof.
  refine (fix go (x y : js) : Decision (x = y) :=
    match x, y with
    | JUndef, JUndef => left eq_refl
    | JNull, JNull => left eq_refl
    | JBool a, JBool b => cast_if (decide (a = b))
    | JNum a, JNum b => cast_if (decide (a = b))
    | JStr a, JStr b => cast_if (decide (a = b))
    | JArr a, JArr b => cast_if (@list_eq_dec _ go a b)
    | JObj a, JObj b =>
        cast_if (@list_eq_dec _ (fun p q => @prod_eq_dec _ _ _ go p q) a b)
    | _, _ => right _
    end); clear go; abstract congruence.
Defined.

(** ** Objects *)

Fixpoint assoc (k : string) (l : list (string * js)) : option js :=
  match l with
  | [] => None
  | (k', v) :: l' => if String.eqb k k' then Some v else assoc k l'
  end.

(** [obj[k] = v]: an existing key keeps its place, a new one goes last. *)
Fixpoint assoc_set (k : string) (v : js) (l : list (string * js)) : list (string * js) :=
  match l with
  | [] => [(k, v)]
  | (k', v') :: l' => if String.eqb k k' then (k, v) :: l' else (k', v') :: assoc_set k v l'
  end.

(** [{ ...l, ...m }]. *)
Definition spread (l m : list (string * js)) : list (string * js) :=
  fold_left (fun acc kv => assoc_set kv.1 kv.2 acc) m l.

(** [v.k] on a value whose own properties decide the result; [None] is the
    TypeError raised for [null] and [undefined]. *)
Definition prop (v : js) (k : string) : option js :=
  match v with
  | JUndef | JNull => None
  | JObj l => Some (default JUndef (assoc k l))
  | _ => Some JUndef
  end.

(** [v?.k]. *)
Definition opt_prop (v : js) (k : string) : js := default JUndef (prop v k).

(** ** Operators *)

Definition truthy (v : js) : bool :=
  match v with
  | JUndef | JNull => false
  | JBool b => b
  | JNum z => negb (z =? 0)%Z
  | JStr s => negb (String.eqb s "")
  | JArr _ | JObj _ => true
  end.

Definition is_nullish (v : js) : bool :=
  match v with JUndef | JNull => true | _ => false end.

(** [a || b] and [a ?? b]. *)
Definition js_or (a b : js) : js := if truthy a then a else b.
Definition js_nullish (a b : js) : js := if is_nullish a then b else a.

Definition is_array (v : js) : bool := match v with JArr _ => true | _ => false end.
Definition elements_of (v : js) : list js := match v with JArr l => l | _ => [] end.

(** [v === s] for a string [s]. *)
Definition js_is_str (v : js) (s : string) : bool :=
  match v with JStr t => String.eqb t s | _ => false end.

(** [s || t] on strings. *)
Definition str_or (s t : string) : string := if String.eqb s "" then t else s.

(** A value of type [string | null] as [option string]. *)
Definition js_of_opt (o : option string) : js :=
  match o with Some s => JStr s | None => JNull end.

(** ** Number and template-literal conversion *)

Definition string_of_Z (z : Z) : string := NilZero.string_of_int (Z.to_int z).
Definition Z_of_string (s : string) : option Z := Z.of_int <$> NilZero.int_of_string s.

Fixpoint join (sep : string) (l : list string) : string :=
  match l with
  | [] => ""
  | [x] => x
  | x :: l' => x +:+ sep +:+ join sep l'
  end.

Fixpoint to_str (v : js) : string :=
  match v with
  | JUndef => "undefined"
  | JNull => "null"
  | JBool b => if b then "true" else "false"
  | JNum z => string_of_Z z
  | JStr s => s
  | JArr l =>
      join "," (map (fun x => match x with JUndef | JNull => "" | _ => to_str x end) l)
  | JObj _ => "[object Object]"
  end.

(** ** Lemmas *)

Lemma assoc_set_eq k v l : assoc k (assoc_set k v l) = Some v.
Proof.
  induction l as [|[k' v'] l IH]; simpl.
  - by rewrite String.eqb_refl.
  - destruct (String.eqb k k') eqn:E; simpl; [by rewrite String.eqb_refl|]. by rewrite E.
Qed.

Lemma assoc_set_ne k k' v l : k <> k' -> assoc k' (assoc_set k v l) = assoc k' l.
Proof.
  intros Hne. induction l as [|[k2 v2] l IH]; simpl.
  - by rewrite eqb_str_false by congruence.
  - destruct (String.eqb k k2) eqn:E; simpl.
    + apply String.eqb_eq in E as ->. by rewrite eqb_str_false by congruence.
    + by rewrite IH.
Qed.

Lemma assoc_set_fresh k v l : ~ In k (map fst l) -> assoc_set k v l = l ++ [(k, v)].
Proof.
  induction l as [|[k' v'] l IH]; simpl; [done|]. intros Hn.
  rewrite eqb_str_false by naive_solver. f_equal. apply IH. naive_solver.
Qed.

Lemma join_cons2 sep x y l : join sep (x :: y :: l) = x +:+ sep +:+ join sep (y :: l).
Proof. done. Qed.

Lemma to_int_not_nil z : Z.to_int z <> Decimal.Pos Decimal.Nil /\ Z.to_int z <> Decimal.Neg Decimal.Nil.
Proof.
  destruct z as [|p|p]; simpl; split; try done;
    intros [= H]; by apply DecimalPos.Unsigned.to_uint_nonnil in H.
Qed.

Lemma Z_of_string_of_Z z : Z_of_string (string_of_Z z) = Some z.
Proof.
  unfold Z_of_string, string_of_Z. destruct (to_int_not_nil z).
  rewrite NilZero.isi by done. simpl. by rewrite of_to.
Qed.

Lemma string_of_Z_inj z1 z2 : string_of_Z z1 = string_of_Z z2 -> z1 = z2.
Proof. intros H%(f_equal Z_of_string). rewrite !Z_of_string_of_Z in H. congruence. Qed.

#[export] Hint Rewrite assoc_set_eq Z_of_string_of_Z : js.
#[export] Hint Resolve assoc_set_ne : js.
