(* ===== verification/JsString.v ===== *)
(** * String operations of the JavaScript standard library

    Strings are sequences of code units below 256 (Rocq's [string]), the range on
    which [btoa]/[atob] are defined.  The operations are the ones the sources
    call; the two regular expressions they match with are written out. *)

From S2P Require Import Prelude JsValue.

Definition code (c : Ascii.ascii) : nat := Ascii.nat_of_ascii c.
Definition chr (n : nat) : Ascii.ascii := Ascii.ascii_of_nat n.

(** The double quote, which a literal cannot hold. *)
Definition dq : string := String (chr 34) "".

(** [s.startsWith(p)], [s.includes(p)]. *)
Definition starts_with (p s : string) : bool := String.prefix p s.

Fixpoint str_includes (p s : string) : bool :=
  starts_with p s || match s with String _ s' => str_includes p s' | EmptyString => false end.

(** What follows the prefix [p] of [s]. *)
Fixpoint strip_prefix (p s : string) : option string :=
  match p, s with
  | EmptyString, _ => Some s
  | String c p', String x s' => if Ascii.eqb c x then strip_prefix p' s' else None
  | _, EmptyString => None
  end.

(** [s.split(c)] for a one-character separator. *)
Fixpoint split_on (c : Ascii.ascii) (s : string) : list string :=
  match s with
  | EmptyString => [""]
  | String x s' =>
      if Ascii.eqb x c then "" :: split_on c s'
      else match split_on c s' with
           | [] => [String x ""]
           | p :: ps => String x p :: ps
           end
  end.

(** [s.toLowerCase()] on the Latin-1 range. *)
Definition lower_char (c : Ascii.ascii) : Ascii.ascii :=
  let n := code c in
  if ((65 <=? n) && (n <=? 90) || (192 <=? n) && (n <=? 222) && negb (n =? 215))%nat
  then chr (n + 32) else c.

Definition to_lower (s : string) : string :=
  str_flat_map (fun c => String (lower_char c) "") s.

(** [s.replace(/c/g, r)]. *)
Definition replace_char (c : Ascii.ascii) (r s : string) : string :=
  str_flat_map (fun x => if Ascii.eqb x c then r else String x "") s.

(** [\s] and the characters [trim] removes, below 256. *)
Definition is_space (c : Ascii.ascii) : bool :=
  let n := code c in ((9 <=? n) && (n <=? 13) || (n =? 32) || (n =? 160))%nat.

Fixpoint trim_start (s : string) : string :=
  match s with
  | String c s' => if is_space c then trim_start s' else s
  | EmptyString => ""
  end.

(** Drop the trailing characters that satisfy [P]. *)
Fixpoint strip_end (P : Ascii.ascii -> bool) (s : string) : string :=
  match s with
  | EmptyString => ""
  | String c s' =>
      match strip_end P s' with
      | EmptyString => if P c then "" else String c ""
      | r => String c r
      end
  end.

Definition trim (s : string) : string := strip_end is_space (trim_start s).

Definition is_digit (c : Ascii.ascii) : bool :=
  let n := code c in ((48 <=? n) && (n <=? 57))%nat.

Fixpoint drop_while (P : Ascii.ascii -> bool) (s : string) : string :=
  match s with
  | String c s' => if P c then drop_while P s' else s
  | EmptyString => ""
  end.

(** [\d+]: the rest after at least one digit, greedily. *)
Definition eat_digits (s : string) : option string :=
  match s with
  | String c s' => if is_digit c then Some (drop_while is_digit s') else None
  | EmptyString => None
  end.

Definition eat_char (c : Ascii.ascii) (s : string) : option string :=
  match s with
  | String x s' => if Ascii.eqb x c then Some s' else None
  | EmptyString => None
  end.

(** What is left after matching [^\d+\.\d+\.\d+\.\d+]. *)
Definition eat_ipv4 (s : string) : option string :=
  a ← eat_digits s; a ← eat_char "."%char a;
  b ← eat_digits a; b ← eat_char "."%char b;
  c ← eat_digits b; c ← eat_char "."%char c;
  eat_digits c.

(** [/^\d+\.\d+\.\d+\.\d+/.test(s)] and the same pattern closed by [$]. *)
Definition ipv4_prefix (s : string) : bool := bool_decide (is_Some (eat_ipv4 s)).
Definition ipv4_exact (s : string) : bool :=
  match eat_ipv4 s with Some r => String.eqb r "" | None => false end.

(** [s.replace(/^Bearer\s+/i, '')]. *)
Definition strip_bearer (s : string) : string :=
  match strip_prefix "bearer" (to_lower s) with
  | Some _ =>
      match String.substring 6 (String.length s - 6) s with
      | String c s' => if is_space c then trim_start s' else s
      | EmptyString => s
      end
  | None => s
  end.

(** ** Percent encoding *)

Definition hex_digit (n : nat) : Ascii.ascii :=
  match String.get n "0123456789ABCDEF" with Some c => c | None => "0"%char end.

Definition percent (n : nat) : string :=
  String "%"%char (String (hex_digit (n / 16)) (String (hex_digit (n mod 16)) "")).

(** The UTF-8 bytes of a code unit below 256, as [TextEncoder] produces them. *)
Definition utf8_char (c : Ascii.ascii) : list nat :=
  let n := code c in if (n <? 128)%nat then [n] else [192 + n / 64; 128 + n mod 64]%nat.

Fixpoint utf8 (s : string) : list nat :=
  match s with EmptyString => [] | String c s' => utf8_char c ++ utf8 s' end.

Definition is_alnum (c : Ascii.ascii) : bool :=
  let n := code c in
  ((48 <=? n) && (n <=? 57) || (65 <=? n) && (n <=? 90) || (97 <=? n) && (n <=? 122))%nat.

Definition in_set (l : string) (c : Ascii.ascii) : bool :=
  negb (str_forall (fun x => negb (Ascii.eqb x c)) l).

Definition pct_char (c : Ascii.ascii) : string :=
  fold_right String.append "" (map percent (utf8_char c)).

Definition encodeURIComponent (s : string) : string :=
  str_flat_map (fun c => if is_alnum c || in_set "-_.!~*'()" c then String c ""
                         else pct_char c) s.

(** The application/x-www-form-urlencoded serializer of [URLSearchParams]. *)
Definition form_encode (s : string) : string :=
  str_flat_map (fun c => if is_alnum c || in_set "*-._" c then String c ""
                         else if Ascii.eqb c " "%char then "+" else pct_char c) s.

Definition URLSearchParams (l : list (string * string)) : string :=
  join "&" (map (fun kv => form_encode kv.1 +:+ "=" +:+ form_encode kv.2) l).

(** ** Array methods on an untyped value *)

(** [v.some(f)], stopping at the first [true]. *)
Fixpoint some_loop (f : js -> option bool) (l : list js) : option bool :=
  match l with
  | [] => Some false
  | x :: l' => b ← f x; if (b : bool) then Some true else some_loop f l'
  end.

Definition js_some (v : js) (f : js -> option bool) : option bool :=
  match v with JArr l => some_loop f l | _ => None end.

(** [v.includes(s)]: arrays and strings have it. *)
Definition js_includes (v : js) (s : string) : option bool :=
  match v with
  | JArr l => Some (existsb (fun x => js_is_str x s) l)
  | JStr t => Some (str_includes s t)
  | _ => None
  end.

(** The own members a spread copies. *)
Definition own_members (v : js) : list (string * js) :=
  match v with
  | JObj l => l
  | JArr l => imap (fun i x => (string_of_Z (Z.of_nat i), x)) l
  | JStr s => imap (fun i a => (string_of_Z (Z.of_nat i), JStr (String a ""))) (String.list_ascii_of_string s)
  | _ => []
  end.

(** [v.toLowerCase()]. *)
Definition js_lower (v : js) : option string :=
  match v with JStr s => Some (to_lower s) | _ => None end.

(** [v.length > 0]. *)
Definition js_nonempty (v : js) : option bool :=
  match v with
  | JArr l => Some (match l with [] => false | _ => true end)
  | JStr s => Some (negb (String.eqb s ""))
  | JObj _ => Some (match opt_prop v "length" with JNum n => (0 <? n)%Z | _ => false end)
  | JUndef | JNull => None
  | _ => Some false
  end.

(** ** Lemmas *)

Lemma split_on_nonempty c s : split_on c s <> [].
Proof.
  destruct s as [|x s]; simpl; [done|].
  destruct (Ascii.eqb x c); [done|]. by destruct (split_on c s).
Qed.

Lemma split_on_join c s : join (String c "") (split_on c s) = s.
Proof.
  induction s as [|x s IH]; simpl; [done|].
  destruct (Ascii.eqb x c) eqn:E.
  - apply Ascii.eqb_eq in E as ->. pose proof (split_on_nonempty c s).
    destruct (split_on c s) eqn:Es; [done|]. simpl. by rewrite <- IH.
  - destruct (split_on c s) as [|p ps] eqn:Es; [by apply split_on_nonempty in Es|].
    simpl in *. rewrite <- IH. by destruct ps.
Qed.

(** A string without the character [c]. *)
Definition lacks (c : Ascii.ascii) : string -> bool := str_forall (fun x => negb (Ascii.eqb x c)).

Lemma split_on_lacks c s : lacks c s = true -> split_on c s = [s].
Proof.
  unfold lacks. induction s as [|x s IH]; simpl; [done|]. intros ?; bool_prop.
  rewrite H. by rewrite IH.
Qed.

Lemma split_on_app c s t : lacks c s = true -> split_on c (s +:+ String c t) = s :: split_on c t.
Proof.
  unfold lacks. induction s as [|x s IH]; simpl.
  - by rewrite Ascii.eqb_refl.
  - intros ?; bool_prop. rewrite H. by rewrite IH.
Qed.

Lemma starts_with_spec p s : starts_with p s = true <-> exists r, s = p +:+ r.
Proof.
  unfold starts_with. revert s. induction p as [|c p IH]; intros s; cbn.
  - split; [intros _; by exists s|by destruct s].
  - destruct s as [|x s]; cbn; [split; [done|by intros (r & ?)]|]. destruct (Ascii.ascii_dec c x) as [->|Hne].
    + rewrite IH. split; intros (r & Hr); exists r; [by rewrite Hr|by injection Hr].
    + split; [done|]. intros (r & Hr). by injection Hr.
Qed.

Lemma str_includes_spec p s : str_includes p s = true <-> exists a b, s = a +:+ p +:+ b.
Proof.
  induction s as [|x s IH]; cbn [str_includes]; rewrite orb_true_iff, starts_with_spec.
  - split; [intros [(r & Hr)|?]; [by exists "", r|done]|]. intros (a & b & H). destruct a; [left; by exists b|done].
  - rewrite IH. split.
    + intros [(r & ->)|(a & b & ->)]; [by exists "", r|by exists (String x a), b].
    + intros ([|y a] & b & H); [left; by exists b|right]. injection H as -> ->. by exists a, b.
Qed.

Lemma to_lower_length s : String.length (to_lower s) = String.length s.
Proof. induction s as [|c s IH]; cbn; [done|]. by f_equal. Qed.

Lemma code_chr n : (n < 256)%nat -> code (chr n) = n.
Proof. apply Ascii.nat_ascii_embedding. Qed.

Lemma chr_code c : chr (code c) = c.
Proof. apply Ascii.ascii_nat_embedding. Qed.

Lemma code_lt c : (code c < 256)%nat.
Proof. apply Ascii.nat_ascii_bounded. Qed.

#[export] Hint Rewrite chr_code split_on_join to_lower_length : js.

(** ** String arrays *)

(** A string array. *)
Definition strs (l : list string) : js := JArr (map JStr l).

Lemma js_some_strs f (g : string -> bool) l :
  (forall s, f (JStr s) = Some (g s)) -> js_some (strs l) f = Some (existsb g l).
Proof.
  intros H. unfold js_some, strs. induction l as [|s l IH]; cbn; [done|].
  rewrite H. cbn. destruct (g s); [done|apply IH].
Qed.

Lemma js_includes_strs l s : js_includes (strs l) s = Some (str_mem s l).
Proof.
  unfold js_includes, strs, str_mem. f_equal. induction l as [|x l IH]; cbn; [done|].
  by rewrite IH, String.eqb_sym.
Qed.

#[global] Arguments URLSearchParams : simpl never.
#[global] Arguments form_encode : simpl never.
#[global] Arguments encodeURIComponent : simpl never.
#[global] Arguments to_lower : simpl never.
#[global] Arguments utf8 : simpl never.
#[global] Arguments str_includes : simpl never.
#[global] Arguments split_on : simpl never.
#[global] Arguments strip_bearer : simpl never.
