(* ===== verification/Json.v ===== *)
(** * JSON.stringify and JSON.parse

    The serialisation every storage access and request body of the sources goes
    through.  Number literals with a fraction or an exponent and [\u] escapes
    above 255 are outside the value model, and the parser fails on them.  The
    parser's fuel, twice the length of the text plus two, bounds the depth of its
    recursion: every two nested calls consume a character.  The round trip
    [JSON_parse_stringify] is what the session stores rely on. *)

From Stdlib Require Import DecimalString.
From S2P Require Import Prelude JsValue JsString.

(** ** Printing *)

Definition hex_lower (n : nat) : Ascii.ascii :=
  match String.get n "0123456789abcdef" with Some c => c | None => "0"%char end.

Definition quote_char (c : Ascii.ascii) : string :=
  let n := code c in
  let esc (x : Ascii.ascii) := String "\"%char (String x "") in
  if (n =? 34)%nat then esc (chr 34)
  else if (n =? 92)%nat then esc "\"%char
  else if (n =? 8)%nat then esc "b"%char
  else if (n =? 9)%nat then esc "t"%char
  else if (n =? 10)%nat then esc "n"%char
  else if (n =? 12)%nat then esc "f"%char
  else if (n =? 13)%nat then esc "r"%char
  else if (n <? 32)%nat then
    "\u00" +:+ String (hex_lower (n / 16)) (String (hex_lower (n mod 16)) "")
  else String c "".

Definition quote (s : string) : string := dq +:+ str_flat_map quote_char s +:+ dq.

(** [undefined] prints as [null] in an array and is left out of an object. *)
Fixpoint stringify (v : js) : string :=
  match v with
  | JUndef | JNull => "null"
  | JBool b => if b then "true" else "false"
  | JNum z => string_of_Z z
  | JStr s => quote s
  | JArr l => "[" +:+ join "," (map stringify l) +:+ "]"
  | JObj l =>
      let fix members (l : list (string * js)) : list string :=
        match l with
        | [] => []
        | (_, JUndef) :: l' => members l'
        | (k, x) :: l' => (quote k +:+ ":" +:+ stringify x) :: members l'
        end in
      "{" +:+ join "," (members l) +:+ "}"
  end.

(** ** Parsing *)

Definition is_ws (c : Ascii.ascii) : bool :=
  let n := code c in ((n =? 32) || (n =? 9) || (n =? 10) || (n =? 13))%nat.

Definition skip_ws (s : string) : string := drop_while is_ws s.

Definition hex_val (c : Ascii.ascii) : option nat :=
  let n := code c in
  if ((48 <=? n) && (n <=? 57))%nat then Some (n - 48)
  else if ((97 <=? n) && (n <=? 102))%nat then Some (n - 87)
  else if ((65 <=? n) && (n <=? 70))%nat then Some (n - 55)
  else None.

Definition unescape (c : Ascii.ascii) : option Ascii.ascii :=
  let n := code c in
  if ((n =? 34) || (n =? 92) || (n =? 47))%nat then Some c
  else if (n =? 98)%nat then Some (chr 8)
  else if (n =? 116)%nat then Some (chr 9)
  else if (n =? 110)%nat then Some (chr 10)
  else if (n =? 102)%nat then Some (chr 12)
  else if (n =? 114)%nat then Some (chr 13)
  else None.

(** The body of a string literal, after its opening quote. *)
Fixpoint parse_str (s : string) : option (string * string) :=
  match s with
  | EmptyString => None
  | String c r =>
      if (code c =? 34)%nat then Some ("", r)
      else if (code c =? 92)%nat then
        match r with
        | String "u" (String "0" (String "0" (String a (String b r')))) =>
            x ← hex_val a; y ← hex_val b;
            '(t, rest) ← parse_str r'; Some (String (chr (16 * x + y)) t, rest)
        | String e r' =>
            x ← unescape e; '(t, rest) ← parse_str r'; Some (String x t, rest)
        | EmptyString => None
        end
      else if (code c <? 32)%nat then None
      else '(t, rest) ← parse_str r; Some (String c t, rest)
  end.

Definition num_char (c : Ascii.ascii) : bool :=
  is_digit c || in_set "-+.eE" c.

Fixpoint take_num (s : string) : string * string :=
  match s with
  | String c r => if num_char c then let '(t, r') := take_num r in (String c t, r')
                  else ("", s)
  | EmptyString => ("", "")
  end.

(** An integer literal of the JSON grammar: canonical decimal, or [-0]. *)
Definition parse_num (s : string) : option (js * string) :=
  let '(t, r) := take_num s in
  z ← Z_of_string t;
  if String.eqb (string_of_Z z) t || String.eqb t "-0" then Some (JNum z, r) else None.

Definition expect (w : string) (v : js) (s : string) : option (js * string) :=
  r ← strip_prefix w s; Some (v, r).

Fixpoint parse_value (n : nat) (s : string) {struct n} : option (js * string) :=
  match n with
  | O => None
  | S n =>
      match skip_ws s with
      | EmptyString => None
      | String "{" r =>
          match skip_ws r with
          | String "}" r' => Some (JObj [], r')
          | r0 => '(kvs, r') ← parse_members n r0; Some (JObj (spread [] kvs), r')
          end
      | String "[" r =>
          match skip_ws r with
          | String "]" r' => Some (JArr [], r')
          | r0 => '(vs, r') ← parse_elems n r0; Some (JArr vs, r')
          end
      | String "t" _ as r => expect "true" (JBool true) r
      | String "f" _ as r => expect "false" (JBool false) r
      | String "n" _ as r => expect "null" JNull r
      | String c r => if (code c =? 34)%nat
                      then '(t, r') ← parse_str r; Some (JStr t, r')
                      else parse_num (String c r)
      end
  end
with parse_elems (n : nat) (s : string) {struct n} : option (list js * string) :=
  match n with
  | O => None
  | S n =>
      '(v, r) ← parse_value n s;
      match skip_ws r with
      | String "," r' => '(vs, r'') ← parse_elems n r'; Some (v :: vs, r'')
      | String "]" r' => Some ([v], r')
      | _ => None
      end
  end
with parse_members (n : nat) (s : string) {struct n} : option (list (string * js) * string) :=
  match n with
  | O => None
  | S n =>
      match skip_ws s with
      | String q r =>
          if (code q =? 34)%nat then
            '(k, r1) ← parse_str r;
            match skip_ws r1 with
            | String ":" r2 =>
                '(v, r3) ← parse_value n r2;
                match skip_ws r3 with
                | String "," r' => '(kvs, r'') ← parse_members n r'; Some ((k, v) :: kvs, r'')
                | String "}" r' => Some ([(k, v)], r')
                | _ => None
                end
            | _ => None
            end
          else None
      | EmptyString => None
      end
  end.

Definition JSON_parse (s : string) : option js :=
  '(v, r) ← parse_value (2 * String.length s + 2) s;
  if String.eqb (skip_ws r) "" then Some v else None.

(** ** Round trip *)

(** Values JSON can represent: no [undefined] inside, distinct keys. *)
Fixpoint json_wf (v : js) : bool :=
  match v with
  | JUndef => false
  | JArr l => forallb json_wf l
  | JObj l =>
      let fix go (l : list (string * js)) : bool :=
        match l with
        | [] => true
        | (k, x) :: l' => negb (str_mem k (map fst l')) && json_wf x && go l'
        end in go l
  | _ => true
  end.

Definition members_wf (l : list (string * js)) : bool := json_wf (JObj l).

Definition members_text (l : list (string * js)) : list string :=
  map (fun kv => quote kv.1 +:+ ":" +:+ stringify kv.2) l.

(** Recursion depth that is enough to read a value back. *)
Fixpoint jsize (v : js) : nat :=
  match v with
  | JArr l => 1 + list_sum (map (fun x => 1 + jsize x) l)
  | JObj l => 1 + list_sum (map (fun kv => 1 + jsize kv.2) l)
  | _ => 1
  end.

(** What may follow a value in a document. *)
Definition stops (rest : string) : bool :=
  match rest with String c _ => negb (num_char c) | EmptyString => true end.

Lemma members_wf_cons k x l :
  members_wf ((k, x) :: l) = true ->
  ~ In k (map fst l) /\ json_wf x = true /\ members_wf l = true.
Proof.
  unfold members_wf; simpl. intros H; bool_prop. split; [|done].
  by apply str_mem_false.
Qed.

Lemma stringify_obj l :
  members_wf l = true -> stringify (JObj l) = "{" +:+ join "," (members_text l) +:+ "}".
Proof.
  intros H. cbn [stringify]. f_equal. f_equal. f_equal.
  induction l as [|[k x] l IH]; [done|].
  apply members_wf_cons in H as (_ & Hx & Hl).
  specialize (IH Hl). unfold members_text in *. cbn [map fst snd]. rewrite <- IH.
  by destruct x.
Qed.

Lemma parse_str_quote (s rest : string) :
  parse_str (str_flat_map quote_char s +:+ dq +:+ rest) = Some (s, rest).
Proof.
  induction s as [|c s IH]; [done|]. cbn [str_flat_map]. rewrite str_app_assoc.
  revert IH. generalize (str_flat_map quote_char s +:+ dq +:+ rest) as t. intros t IH.
  destruct c as [[] [] [] [] [] [] [] []];
    match goal with |- context [quote_char ?a] =>
      let x := eval vm_compute in (quote_char a) in change (quote_char a) with x end;
    cbn; rewrite IH; reflexivity.
Qed.

Lemma num_chars_uint u : str_forall num_char (NilEmpty.string_of_uint u) = true.
Proof. induction u; cbn; done. Qed.

Lemma num_chars_Z z : str_forall num_char (string_of_Z z) = true.
Proof.
  unfold string_of_Z, NilZero.string_of_int, NilZero.string_of_uint.
  destruct (Z.to_int z) as [u|u]; destruct u; cbn; try done; apply num_chars_uint.
Qed.

Lemma take_num_app (t rest : string) :
  str_forall num_char t = true -> stops rest = true -> take_num (t +:+ rest) = (t, rest).
Proof.
  intros Ht Hr. induction t as [|c t IH]; cbn in *.
  - destruct rest as [|c r]; cbn in *; [done|]. by apply negb_true_iff in Hr as ->.
  - bool_prop. rewrite H. by rewrite IH.
Qed.

Lemma parse_num_Z z rest :
  stops rest = true -> parse_num (string_of_Z z +:+ rest) = Some (JNum z, rest).
Proof.
  intros H. unfold parse_num. rewrite take_num_app by (done || apply num_chars_Z).
  rewrite Z_of_string_of_Z. cbn. by rewrite String.eqb_refl.
Qed.

(** Reduction of one parser step on a known first character. *)
Ltac parser_step :=
  cbn [parse_value parse_elems parse_members];
  lazy -[str_flat_map quote_char dq parse_str parse_value parse_elems parse_members
         parse_num spread stringify join String.append quote string_of_Z].

Lemma quote_app s rest :
  quote s +:+ rest = String "034"%char (str_flat_map quote_char s +:+ dq +:+ rest).
Proof. unfold quote. by rewrite !str_app_assoc. Qed.

(** The first character of a printed value decides the parser's branch. *)
Lemma parse_str_value n s rest :
  parse_value (S n) (quote s +:+ rest) = Some (JStr s, rest).
Proof. rewrite quote_app. parser_step. by rewrite parse_str_quote. Qed.

Lemma string_of_Z_head z :
  exists c r, string_of_Z z = String c r /\ (is_digit c = true \/ c = "-"%char).
Proof.
  unfold string_of_Z, NilZero.string_of_int, NilZero.string_of_uint.
  destruct (Z.to_int z) as [u|u]; destruct u; cbn; eauto 10.
Qed.

Lemma string_of_Z_nonempty z : string_of_Z z <> "".
Proof. by destruct (string_of_Z_head z) as (c & r & -> & _). Qed.

Lemma parse_num_value n z rest :
  stops rest = true -> parse_value (S n) (string_of_Z z +:+ rest) = Some (JNum z, rest).
Proof.
  intros Hr. pose proof (parse_num_Z z rest Hr) as H.
  destruct (string_of_Z_head z) as (c & r & E & Hc). rewrite E in *.
  destruct c as [[] [] [] [] [] [] [] []]; destruct Hc as [Hc|Hc]; cbn in Hc; try done;
    cbn in *; exact H.
Qed.

Lemma skip_ws_quote s rest : skip_ws (quote s +:+ rest) = quote s +:+ rest.
Proof. done. Qed.

Lemma skip_ws_stringify v rest : skip_ws (stringify v +:+ rest) = stringify v +:+ rest.
Proof.
  destruct v as [| |[]|z|s|l|l]; try done. cbn [stringify].
  destruct (string_of_Z_head z) as (c & r & E & Hc). rewrite E.
  destruct c as [[] [] [] [] [] [] [] []]; destruct Hc as [Hc|Hc]; cbn in Hc; done.
Qed.

(** What the induction hypothesis of the round trip says of one value. *)
Definition reads_back (v : js) : Prop :=
  json_wf v = true -> forall n rest, jsize v <= n -> stops rest = true ->
  parse_value n (stringify v +:+ rest) = Some (v, rest).

Lemma jsize_pos v : 1 <= jsize v.
Proof. destruct v; simpl; lia. Qed.

Lemma parse_elems_comma n s v r :
  parse_value n s = Some (v, String ","%char r) ->
  parse_elems (S n) s = '(vs, r') ← parse_elems n r; Some (v :: vs, r').
Proof. intros H. cbn [parse_elems]. rewrite H. reflexivity. Qed.

Lemma parse_elems_close n s v r :
  parse_value n s = Some (v, String "]"%char r) -> parse_elems (S n) s = Some ([v], r).
Proof. intros H. cbn [parse_elems]. rewrite H. reflexivity. Qed.

Lemma parse_members_comma n k s v r :
  parse_value n s = Some (v, String ","%char r) ->
  parse_members (S n) (quote k +:+ ":" +:+ s)
  = '(kvs, r') ← parse_members n r; Some ((k, v) :: kvs, r').
Proof.
  intros H. rewrite quote_app. parser_step. rewrite parse_str_quote. parser_step.
  change (String.append ":" s) with (String ":"%char s). parser_step.
  rewrite H. reflexivity.
Qed.

Lemma parse_members_close n k s v r :
  parse_value n s = Some (v, String "}"%char r) ->
  parse_members (S n) (quote k +:+ ":" +:+ s) = Some ([(k, v)], r).
Proof.
  intros H. rewrite quote_app. parser_step. rewrite parse_str_quote. parser_step.
  change (String.append ":" s) with (String ":"%char s). parser_step.
  rewrite H. reflexivity.
Qed.

Lemma parse_elems_print l x n rest :
  Forall reads_back (x :: l) -> forallb json_wf (x :: l) = true ->
  list_sum (map (fun v => 1 + jsize v) (x :: l)) <= n ->
  parse_elems n (join "," (map stringify (x :: l)) +:+ "]" +:+ rest) = Some (x :: l, rest).
Proof.
  revert x n. induction l as [|y l IH]; intros x n HF Hwf Hn;
    apply Forall_cons in HF as [Hx HF]; apply andb_true_iff in Hwf as [Hwx Hwf];
    (destruct n as [|n]; [simpl in Hn; lia|]); pose proof (jsize_pos x); cbn [map].
  - apply parse_elems_close, Hx; simpl in *; done || lia.
  - rewrite join_cons2, !str_app_assoc.
    erewrite parse_elems_comma by (apply Hx; simpl in *; done || lia).
    specialize (IH y n HF). cbn [map] in IH.
    rewrite IH by (done || simpl in *; lia). done.
Qed.

Lemma parse_members_print l kv n rest :
  Forall (fun kv => reads_back kv.2) (kv :: l) -> members_wf (kv :: l) = true ->
  list_sum (map (fun kv => 1 + jsize kv.2) (kv :: l)) <= n ->
  parse_members n (join "," (members_text (kv :: l)) +:+ "}" +:+ rest) = Some (kv :: l, rest).
Proof.
  revert kv n. induction l as [|kv' l IH]; intros [k x] n HF Hwf Hn;
    apply Forall_cons in HF as [Hx HF]; apply members_wf_cons in Hwf as (_ & Hwx & Hwf);
    (destruct n as [|n]; [simpl in Hn; lia|]); pose proof (jsize_pos x);
    unfold members_text; cbn [map fst snd].
  - cbn [join]. rewrite !str_app_assoc.
    apply parse_members_close, Hx; simpl in *; done || lia.
  - rewrite join_cons2, !str_app_assoc.
    erewrite parse_members_comma by (apply Hx; simpl in *; done || lia).
    specialize (IH kv' n HF Hwf). unfold members_text in IH. cbn [map fst snd] in IH.
    rewrite IH by (simpl in *; lia). done.
Qed.

Lemma spread_wf l acc :
  members_wf l = true -> (forall k, In k (map fst l) -> ~ In k (map fst acc)) ->
  spread acc l = acc ++ l.
Proof.
  unfold spread. revert acc. induction l as [|[k x] l IH]; intros acc Hwf Hd; simpl.
  - by rewrite app_nil_r.
  - apply members_wf_cons in Hwf as (Hk & _ & Hwf).
    rewrite assoc_set_fresh by (apply Hd; simpl; auto). rewrite IH; [|done|].
    + by rewrite <- app_assoc.
    + intros k' Hk'. rewrite map_app, in_app_iff. simpl.
      intros [Hin|[<-|[]]]; [|done]. by apply (Hd k'); [right|].
Qed.

Lemma parse_value_obj n (kv : string * js) l rest :
  parse_members n (join "," (members_text (kv :: l)) +:+ "}" +:+ rest) = Some (kv :: l, rest) ->
  parse_value (S n) (("{" +:+ join "," (members_text (kv :: l)) +:+ "}") +:+ rest)
  = Some (JObj (spread [] (kv :: l)), rest).
Proof.
  rewrite !str_app_assoc.
  assert (exists t, join "," (members_text (kv :: l)) = String "034"%char t) as [t ->].
  { unfold members_text. cbn [map]. destruct l as [|kv' l]; cbn [map];
      [cbn [join]|rewrite join_cons2]; unfold quote; rewrite !str_app_assoc; by eexists. }
  cbn [String.append]. intros H. parser_step. rewrite H. reflexivity.
Qed.

Lemma skip_ws_char c t : is_ws c = false -> skip_ws (String c t) = String c t.
Proof. intros H. unfold skip_ws. cbn [drop_while]. by rewrite H. Qed.

(** The first character of a printed value closes no array. *)
Lemma stringify_head v : exists c r, stringify v = String c r /\ is_ws c = false /\ c <> "]"%char.
Proof.
  destruct v as [| |[]|z|s|l|l]; try (by repeat eexists).
  destruct (string_of_Z_head z) as (c & r & E & Hc). exists c, r. split; [done|].
  destruct c as [[] [] [] [] [] [] [] []]; destruct Hc as [Hc|Hc]; cbn in Hc; done.
Qed.

Lemma parse_value_arr n x l rest :
  parse_elems n (join "," (map stringify (x :: l)) +:+ "]" +:+ rest) = Some (x :: l, rest) ->
  parse_value (S n) (("[" +:+ join "," (map stringify (x :: l)) +:+ "]") +:+ rest)
  = Some (JArr (x :: l), rest).
Proof.
  rewrite !str_app_assoc.
  assert (exists c t, join "," (map stringify (x :: l)) = String c t
                      /\ is_ws c = false /\ c <> "]"%char) as (c & t & -> & Hws & Hc).
  { destruct (stringify_head x) as (c & r & E & ?). cbn [map].
    destruct l as [|y l]; cbn [map]; [cbn [join]|rewrite join_cons2]; rewrite E;
      cbn [String.append]; eauto. }
  cbn [String.append]. intros H. cbn [parse_value].
  rewrite (skip_ws_char "["%char) by done. cbv iota beta.
  rewrite (skip_ws_char c) by done.
  destruct c as [[] [] [] [] [] [] [] []]; try (rewrite H; reflexivity); done.
Qed.

Lemma reads_back_all v : reads_back v.
Proof.
  induction v as [| |b|z|s|l IH|l IH] using js_ind'; intros Hwf [|n] rest Hn Hr;
    try done; try (simpl in Hn; lia).
  - by destruct b.
  - by apply parse_num_value.
  - apply parse_str_value.
  - destruct l as [|x l]; [done|]. apply parse_value_arr, parse_elems_print; try done.
    simpl in *. lia.
  - destruct l as [|kv l]; [done|]. rewrite stringify_obj by done.
    rewrite parse_value_obj; [by rewrite spread_wf by (done || naive_solver)|].
    apply parse_members_print; try done. simpl in *. lia.
Qed.

Lemma jsize_elems_length l :
  Forall (fun v => json_wf v = true -> jsize v <= String.length (stringify v)) l ->
  forallb json_wf l = true ->
  list_sum (map (fun x => 1 + jsize x) l) <= 1 + String.length (join "," (map stringify l)).
Proof.
  induction 1 as [|x l Hx Hl IH]; [simpl; lia|]. intros [Hwx Hwf]%andb_true_iff.
  specialize (Hx Hwx). specialize (IH Hwf). destruct l as [|y l]; [simpl in *; lia|].
  cbn [map] in *. rewrite join_cons2, !str_length_app.
  change (String.length ",") with 1. unfold list_sum in *. cbn [foldr] in *. lia.
Qed.

Lemma jsize_members_length l :
  Forall (fun kv => json_wf kv.2 = true -> jsize kv.2 <= String.length (stringify kv.2)) l ->
  members_wf l = true ->
  list_sum (map (fun kv => 1 + jsize kv.2) l) <= 1 + String.length (join "," (members_text l)).
Proof.
  induction 1 as [|[k x] l Hx Hl IH]; [simpl; lia|]. intros (_ & Hwx & Hwf)%members_wf_cons.
  specialize (Hx Hwx). specialize (IH Hwf). unfold members_text in *. cbn [map fst snd] in *.
  destruct l as [|y l]; cbn [map] in *; [cbn [join]|rewrite join_cons2];
    rewrite !str_length_app; change (String.length ",") with 1;
    change (String.length ":") with 1; unfold list_sum in *; cbn [foldr] in *; lia.
Qed.

Lemma jsize_le_length v : json_wf v = true -> jsize v <= String.length (stringify v).
Proof.
  induction v as [| |b|z|s|l IH|l IH] using js_ind'; intros Hwf; try (simpl; lia).
  - by destruct b; simpl; lia.
  - cbn [stringify]. destruct (string_of_Z_head z) as (c & r & -> & _). simpl. lia.
  - apply jsize_elems_length in IH; [|done]. cbn [jsize stringify].
    rewrite !str_length_app. change (String.length "[") with 1.
    change (String.length "]") with 1. lia.
  - apply jsize_members_length in IH; [|done]. rewrite stringify_obj by done.
    cbn [jsize]. rewrite !str_length_app. change (String.length "{") with 1.
    change (String.length "}") with 1. lia.
Qed.

(** [JSON.parse(JSON.stringify(v))] is [v]. *)
Lemma JSON_parse_stringify v : json_wf v = true -> JSON_parse (stringify v) = Some v.
Proof.
  intros Hwf. unfold JSON_parse. pose proof (jsize_le_length v Hwf).
  rewrite <- (str_app_nil_r (stringify v)) at 2. rewrite reads_back_all by (done || lia).
  done.
Qed.

#[export] Hint Rewrite JSON_parse_stringify using done : js.

#[global] Arguments JSON_parse : simpl never.
#[global] Arguments stringify : simpl never.
#[global] Arguments quote : simpl never.

(** ** What parsing returns *)

Lemma assoc_set_keys k k' v l : In k' (map fst (assoc_set k v l)) -> k' = k \/ In k' (map fst l).
Proof.
  induction l as [|[k2 v2] l IH]; cbn; [naive_solver|].
  destruct (String.eqb k k2) eqn:E; bool_prop; subst; cbn; naive_solver.
Qed.

Lemma members_wf_intro k x l :
  ~ In k (map fst l) -> json_wf x = true -> members_wf l = true -> members_wf ((k, x) :: l) = true.
Proof.
  unfold members_wf. cbn. intros Hk -> ->. by apply str_mem_false in Hk as ->.
Qed.

Lemma assoc_set_wf k v l : json_wf v = true -> members_wf l = true -> members_wf (assoc_set k v l) = true.
Proof.
  intros Hv. induction l as [|[k2 v2] l IH]; intros Hl; [cbn [assoc_set]; apply members_wf_intro; cbn; auto|].
  apply members_wf_cons in Hl as (Hk & Hx & Hl). cbn [assoc_set].
  destruct (String.eqb k k2) eqn:E; bool_prop; subst; apply members_wf_intro; auto.
  intros [->|Hin]%assoc_set_keys; done.
Qed.

Lemma spread_members_wf l m :
  members_wf l = true -> Forall (fun kv => json_wf kv.2 = true) m -> members_wf (spread l m) = true.
Proof.
  unfold spread. revert l. induction m as [|[k v] m IH]; intros l Hl Hm; [done|].
  inversion Hm; subst. cbn. apply IH; [|done]. by apply assoc_set_wf.
Qed.

Lemma parse_wf n :
  (forall s v r, parse_value n s = Some (v, r) -> json_wf v = true)
  /\ (forall s l r, parse_elems n s = Some (l, r) -> forallb json_wf l = true)
  /\ (forall s l r, parse_members n s = Some (l, r) -> Forall (fun kv => json_wf kv.2 = true) l).
Proof.
  induction n as [|n (IHv & IHe & IHm)]; [done|]. split_and!.
  - intros s v r. cbn [parse_value]. destruct (skip_ws s) as [|c t]; [done|].
    assert (forall s v, parse_num s = Some (v, r) -> json_wf v = true) as Hnum.
    { unfold parse_num. intros s0 v0. destruct (take_num s0) as [u q].
      destruct (Z_of_string u); cbn; [|done]. destruct (_ || _); [|done]. by intros [= <- <-]. }
    assert (forall w v0 s, json_wf v0 = true -> expect w v0 s = Some (v, r) -> json_wf v = true) as Hexp.
    { unfold expect. intros w v0 s0 Hw. destruct (strip_prefix w s0); cbn; [|done]. by intros [= <- <-]. }
    assert (forall s, parse_str s ≫= (fun '(t0, r') => Some (JStr t0, r')) = Some (v, r) -> json_wf v = true) as Hstr.
    { intros s0. destruct (parse_str s0) as [[t0 r0]|]; cbn; [|done]. by intros [= <- <-]. }
    assert (forall s, parse_elems n s ≫= (fun '(vs, r') => Some (JArr vs, r')) = Some (v, r) ->
      json_wf v = true) as Harr.
    { intros s0. destruct (parse_elems n s0) as [[vs r0]|] eqn:E; cbn; [|done]. intros [= <- <-].
      by eapply IHe. }
    assert (forall s, parse_members n s ≫= (fun '(kvs, r') => Some (JObj (spread [] kvs), r')) = Some (v, r) ->
      json_wf v = true) as Hobj.
    { intros s0. destruct (parse_members n s0) as [[kvs r0]|] eqn:E; cbn; [|done]. intros [= <- <-].
      apply (spread_members_wf []); [done|]. by eapply IHm. }
    clear IHv IHe IHm.
    repeat case_match;
      first [apply Hstr | apply Harr | apply Hobj | apply Hnum | by apply Hexp | by intros [= <- <-]].
  - intros s l r. cbn [parse_elems].
    destruct (parse_value n s) as [[v r1]|] eqn:Ev; cbn [mbind option_bind]; [|done].
    apply IHv in Ev.
    assert (forall s, parse_elems n s ≫= (fun '(vs, r'') => Some (v :: vs, r'')) = Some (l, r) ->
      forallb json_wf l = true) as Hc.
    { intros s0. destruct (parse_elems n s0) as [[vs r0]|] eqn:E; cbn; [|done]. intros [= <- <-]. cbn.
      rewrite Ev. by eapply IHe. }
    clear IHv IHe IHm.
    repeat case_match; first [done | apply Hc | intros [= <- <-]; cbn; by rewrite Ev].
  - intros s l r. cbn [parse_members].
    destruct (skip_ws s) as [|q t]; [done|]. destruct (code q =? 34)%nat; [|done].
    destruct (parse_str t) as [[k r1]|]; cbn [mbind option_bind]; [|done].
    assert (forall s, parse_value n s ≫= (fun '(v, r3) =>
        match skip_ws r3 with
        | String "," r' => '(kvs, r'') ← parse_members n r'; Some ((k, v) :: kvs, r'')
        | String "}" r' => Some ([(k, v)], r')
        | _ => None
        end) = Some (l, r) -> Forall (fun kv => json_wf kv.2 = true) l) as Hv.
    { intros s0. destruct (parse_value n s0) as [[v r3]|] eqn:Ev; cbn [mbind option_bind]; [|done].
      apply IHv in Ev.
      assert (forall s, parse_members n s ≫= (fun '(kvs, r'') => Some ((k, v) :: kvs, r'')) = Some (l, r) ->
        Forall (fun kv => json_wf kv.2 = true) l) as Hc.
      { intros s1. destruct (parse_members n s1) as [[kvs r0]|] eqn:E; cbn; [|done]. intros [= <- <-].
        constructor; [done|]. by eapply IHm. }
      clear IHv IHe IHm.
      repeat case_match; first [done | apply Hc | intros [= <- <-]; by constructor]. }
    clear IHv IHe IHm. repeat case_match; first [done | apply Hv].
Qed.

(** A parsed value has no [undefined] inside and no key twice, so printing it loses
    nothing. *)
Lemma JSON_parse_wf s v : JSON_parse s = Some v -> json_wf v = true.
Proof.
  unfold JSON_parse. destruct (parse_value _ s) as [[v' r]|] eqn:E; cbn; [|done].
  destruct (String.eqb _ ""); [|done]. intros [= <-]. by eapply parse_wf.
Qed.

Lemma JSON_parse_reprint s v : JSON_parse s = Some v -> JSON_parse (stringify v) = Some v.
Proof. intros H. by eapply JSON_parse_stringify, JSON_parse_wf. Qed.
