(* ===== verification/Effects.v ===== *)
(** * Asynchronous JavaScript programs

    An async function is a tree of operations.  Between two suspension points
    ([fetch], a promise of the platform, [await] of a settled promise) JavaScript
    runs to completion, so the same tree has two readings:
    - [run], one call on its own against an environment that answers requests;
    - [step], any number of calls in flight, resumed in any order ([reachable]).
    The state type [S] is the component's: React state and refs, or the module's
    variables.  [safe] is the proof rule for invariants of the second reading. *)

From S2P Require Import Prelude JsValue JsString Json.

(** ** Data *)

Inductive method := GET | POST | PUT | PATCH | DELETE.
#[export] Instance method_eq_dec : EqDecision method.
Proof. solve_decision. Defined.

Record request := Request {
  rq_method : method;
  rq_url : string;
  rq_headers : list (string * string);
  rq_body : option string
}.

Record response := Response { rs_status : Z; rs_body : string }.

(** [resp.ok]. *)
Definition rs_ok (r : response) : bool := ((200 <=? rs_status r) && (rs_status r <=? 299))%Z.

(** A thrown value: every one the sources throw or receive is an [Error]. *)
Record exn := Exn { e_name : string; e_message : string; e_fields : list (string * js) }.

Definition error (msg : string) : exn := Exn "Error" msg [].
(** The engine's own errors, with V8's texts. *)
Definition type_error (msg : string) : exn := Exn "TypeError" msg [].
Definition syntax_error : exn := Exn "SyntaxError" "Unexpected token in JSON" [].
Definition network_error : exn := type_error "Failed to fetch".

Inductive area := Local | Session | Secure.
#[export] Instance area_eq_dec : EqDecision area.
Proof. solve_decision. Defined.

(** What a call does that its environment can see, newest first in a trace. *)
Inductive obs :=
| ObsFetch (r : request)
| ObsHost (f : string) (arg : js)
| ObsEmit (e : string) (arg : js)
| ObsNow
| ObsRand (n : nat).

Inductive op (S : Type) : Type -> Type :=
| OGet : op S S
| OUpd (f : S -> S) : op S unit
| OStGet (a : area) (k : string) : op S (option string)
| OStSet (a : area) (k v : string) : op S unit
| OStDel (a : area) (k : string) : op S unit
| ONow : op S Z
| ORand (n : nat) : op S (list Z)
| OEmit (e : string) (arg : js) : op S unit
| OFetch (r : request) : op S (option response)
| OFetchAll (rs : list request) : op S (option (list response))
| OHost (f : string) (arg : js) : op S (option js)
| OYield : op S unit.
Arguments OGet {S}.
Arguments OUpd {S}.
Arguments OStGet {S}.
Arguments OStSet {S}.
Arguments OStDel {S}.
Arguments ONow {S}.
Arguments ORand {S}.
Arguments OEmit {S}.
Arguments OFetch {S}.
Arguments OFetchAll {S}.
Arguments OHost {S}.
Arguments OYield {S}.

(** The operations at which an async function suspends. *)
Definition is_async {S R} (o : op S R) : bool :=
  match o with OFetch _ | OFetchAll _ | OHost _ _ | OYield => true | _ => false end.

Unset Elimination Schemes.
Inductive prog (S A : Type) : Type :=
| Ret (a : A)
| Throw (x : exn)
| Act {R : Type} (o : op S R) (k : R -> prog S A).
Set Elimination Schemes.
Arguments Ret {S A}.
Arguments Throw {S A}.
Arguments Act {S A R}.

Section prog_ind.
Context {S A : Type} (P : prog S A -> Prop).
Hypothesis (Hret : forall a, P (Ret a)) (Hthrow : forall x, P (Throw x))
  (Hact : forall R (o : op S R) k, (forall r, P (k r)) -> P (Act o k)).

Fixpoint prog_ind (p : prog S A) : P p :=
  match p with
  | Ret a => Hret a
  | Throw x => Hthrow x
  | Act o k => Hact _ o k (fun r => prog_ind (k r))
  end.
End prog_ind.

(** ** Control *)

Fixpoint prog_bind {S A B} (f : A -> prog S B) (p : prog S A) : prog S B :=
  match p with
  | Ret a => f a
  | Throw x => Throw x
  | Act o k => Act o (fun r => prog_bind f (k r))
  end.

#[export] Instance prog_mret S : MRet (prog S) := fun A a => Ret a.
#[export] Instance prog_mbind S : MBind (prog S) := fun A B f p => prog_bind f p.

(** [try { p } catch (x) { h x }]. *)
Fixpoint try_catch {S A} (p : prog S A) (h : exn -> prog S A) : prog S A :=
  match p with
  | Ret a => Ret a
  | Throw x => h x
  | Act o k => Act o (fun r => try_catch (k r) h)
  end.

(** [try { p } finally { f }]. *)
Fixpoint finally {S A} (p : prog S A) (f : prog S unit) : prog S A :=
  match p with
  | Ret a => prog_bind (fun _ => Ret a) f
  | Throw x => prog_bind (fun _ => Throw x) f
  | Act o k => Act o (fun r => finally (k r) f)
  end.

(** A call whose outcome is looked at later. *)
Definition settle {S A} (p : prog S A) : prog S (exn + A) :=
  try_catch (prog_bind (fun a => Ret (inr a)) p) (fun x => Ret (inl x)).

Fixpoint settle_all {S A} (ps : list (prog S A)) : prog S (list (exn + A)) :=
  match ps with
  | [] => Ret []
  | p :: ps' => prog_bind (fun o => prog_bind (fun os => Ret (o :: os)) (settle_all ps')) (settle p)
  end.

Fixpoint all_values {A} (os : list (exn + A)) : exn + list A :=
  match os with
  | [] => inr []
  | inl x :: _ => inl x
  | inr a :: os' => match all_values os' with inl x => inl x | inr l => inr (a :: l) end
  end.

(** [await Promise.all([...])] of async calls: every call is made, and a failure is raised
    when all have ended.  The calls follow each other here; they share nothing but the server. *)
Definition promise_all {S A} (ps : list (prog S A)) : prog S (list A) :=
  prog_bind (fun os => match all_values os with inl x => Throw x | inr l => Ret l end) (settle_all ps).

Section Ops.
Context {S : Type}.

Definition get_state : prog S S := Act OGet Ret.
Definition upd (f : S -> S) : prog S unit := Act (OUpd f) Ret.
Definition getItem (a : area) (k : string) : prog S (option string) := Act (OStGet a k) Ret.
Definition setItem (a : area) (k v : string) : prog S unit := Act (OStSet a k v) Ret.
Definition removeItem (a : area) (k : string) : prog S unit := Act (OStDel a k) Ret.
Definition now : prog S Z := Act ONow Ret.
Definition random_bytes (n : nat) : prog S (list Z) := Act (ORand n) Ret.
Definition emit (e : string) (arg : js) : prog S unit := Act (OEmit e arg) Ret.

(** [await fetch(...)]: a rejected promise throws. *)
Definition fetch (r : request) : prog S response :=
  Act (OFetch r) (fun o => match o with Some x => Ret x | None => Throw network_error end).

(** [await Promise.all([fetch(...), ...])]. *)
Definition fetch_all (rs : list request) : prog S (list response) :=
  Act (OFetchAll rs) (fun o => match o with Some x => Ret x | None => Throw network_error end).

(** [await] of a call into the platform; [None] is a rejection. *)
Definition host (f : string) (arg : js) : prog S (option js) := Act (OHost f arg) Ret.

(** [await resp.json()], [await resp.text()]. *)
Definition resp_json (r : response) : prog S js :=
  Act OYield (fun _ => match JSON_parse (rs_body r) with
                       | Some v => Ret v
                       | None => Throw syntax_error
                       end).
Definition resp_text (r : response) : prog S string := Act OYield (fun _ => Ret (rs_body r)).

(** [v.k] as an expression that may throw. *)
Definition get (v : js) (k : string) : prog S js :=
  match prop v k with
  | Some x => Ret x
  | None => Throw (type_error ("Cannot read properties of " +:+ to_str v
                               +:+ " (reading '" +:+ k +:+ "')"))
  end.

(** An expression that throws [x] where its value is undefined. *)
Definition or_throw {A} (x : exn) (o : option A) : prog S A :=
  match o with Some a => Ret a | None => Throw x end.

(** [JSON.parse(s)]. *)
Definition json_parse (s : string) : prog S js :=
  match JSON_parse s with Some v => Ret v | None => Throw syntax_error end.
End Ops.

(** ** One call on its own *)

Record world (S : Type) := World {
  w_st : S;
  w_local : gmap string string;
  w_session : gmap string string;
  w_secure : gmap string string;
  w_trace : list obs
}.
Arguments World {S}.
Arguments w_st {S}.
Arguments w_local {S}.
Arguments w_session {S}.
Arguments w_secure {S}.
Arguments w_trace {S}.

Section World.
Context {S : Type}.

Definition w_area (a : area) (w : world S) : gmap string string :=
  match a with Local => w_local w | Session => w_session w | Secure => w_secure w end.

Definition set_area (a : area) (f : gmap string string -> gmap string string)
    (w : world S) : world S :=
  let '(World s l e c t) := w in
  match a with
  | Local => World s (f l) e c t
  | Session => World s l (f e) c t
  | Secure => World s l e (f c) t
  end.

Definition set_st (f : S -> S) (w : world S) : world S :=
  let '(World s l e c t) := w in World (f s) l e c t.

Definition log (o : obs) (w : world S) : world S :=
  let '(World s l e c t) := w in World s l e c (o :: t).
End World.

(** The environment: every answer may depend on everything done so far. *)
Record env := Env {
  server : list obs -> request -> option response;
  clock : list obs -> Z;
  entropy : list obs -> nat -> list Z;
  platform : list obs -> string -> js -> option js
}.

(** The requests of one [Promise.all]: all are sent, and one rejection rejects. *)
Fixpoint serve_all (e : env) (t : list obs) (rs : list request) : option (list response) :=
  match rs with
  | [] => Some []
  | r :: rs' =>
      let t' := ObsFetch r :: t in
      match server e t' r, serve_all e t' rs' with
      | Some x, Some xs => Some (x :: xs)
      | _, _ => None
      end
  end.

Definition log_all {S} (rs : list request) (w : world S) : world S :=
  fold_left (fun w r => log (ObsFetch r) w) rs w.

Definition handle {S R} (e : env) (o : op S R) (w : world S) : R * world S :=
  match o in op _ R return R * world S with
  | OGet => (w_st w, w)
  | OUpd f => (tt, set_st f w)
  | OStGet a k => (w_area a w !! k, w)
  | OStSet a k v => (tt, set_area a (<[k := v]>) w)
  | OStDel a k => (tt, set_area a (delete k) w)
  | ONow => (clock e (w_trace w), log ObsNow w)
  | ORand n => (entropy e (w_trace w) n, log (ObsRand n) w)
  | OEmit ev arg => (tt, log (ObsEmit ev arg) w)
  | OFetch r => let w' := log (ObsFetch r) w in (server e (w_trace w') r, w')
  | OFetchAll rs => (serve_all e (w_trace w) rs, log_all rs w)
  | OHost f arg => let w' := log (ObsHost f arg) w in (platform e (w_trace w') f arg, w')
  | OYield => (tt, w)
  end.

Inductive outcome (A : Type) := Done (a : A) | Raised (x : exn).
Arguments Done {A}.
Arguments Raised {A}.

Fixpoint run {S A} (e : env) (p : prog S A) (w : world S) : outcome A * world S :=
  match p with
  | Ret a => (Done a, w)
  | Throw x => (Raised x, w)
  | Act o k => let '(r, w') := handle e o w in run e (k r) w'
  end.

(** ** Calls in flight together *)

(** Run a call up to its next suspension; the request it waits for is sent. *)
Definition issue {S R} (o : op S R) (w : world S) : world S :=
  match o with
  | OFetch r => log (ObsFetch r) w
  | OFetchAll rs => log_all rs w
  | OHost f arg => log (ObsHost f arg) w
  | _ => w
  end.

Fixpoint sync {S A} (e : env) (p : prog S A) (w : world S) : prog S A * world S :=
  match p with
  | Ret _ | Throw _ => (p, w)
  | Act o k => if is_async o then (p, issue o w)
               else let '(r, w') := handle e o w in sync e (k r) w'
  end.

Definition config (S : Type) : Type := world S * list (prog S unit).

(** [spawn w p]: the program [p] may be called when the world is [w].
    [answers o r]: the platform may settle the promise of [o] with [r]. *)
Section Interleaving.
Context {S : Type} (e : env) (spawn : world S -> prog S unit -> Prop)
  (answers : forall R, op S R -> R -> Prop).

Inductive step : config S -> config S -> Prop :=
| step_spawn w ts p p' w' :
    spawn w p -> sync e p w = (p', w') -> step (w, ts) (w', ts ++ [p'])
| step_resume w ts i R (o : op S R) k r p' w' :
    ts !! i = Some (Act o k) -> is_async o = true -> answers R o r ->
    sync e (k r) w = (p', w') -> step (w, ts) (w', <[i := p']> ts).

Inductive reachable (w0 : world S) : config S -> Prop :=
| reach_init : reachable w0 (w0, [])
| reach_step c c' : reachable w0 c -> step c c' -> reachable w0 c'.
End Interleaving.

(** The two steps, computed. *)
Section Reach.
Context {S : Type} (e : env) (spawn : world S -> prog S unit -> Prop)
  (answers : forall R, op S R -> R -> Prop).

Lemma reach_spawn w0 w ts p :
  reachable e spawn answers w0 (w, ts) -> spawn w p ->
  reachable e spawn answers w0 ((sync e p w).2, ts ++ [(sync e p w).1]).
Proof.
  intros Hr Hp. eapply reach_step; [done|]. eapply step_spawn; [done|].
  by destruct (sync e p w).
Qed.

Lemma reach_answer w0 w ts i rq k r :
  reachable e spawn answers w0 (w, ts) -> ts !! i = Some (Act (OFetch rq) k) ->
  answers _ (OFetch rq) r ->
  reachable e spawn answers w0 ((sync e (k r) w).2, <[i := (sync e (k r) w).1]> ts).
Proof.
  intros Hr Hi Ha. eapply reach_step; [done|]. eapply step_resume; [done..|].
  by destruct (sync e (k r) w).
Qed.
End Reach.

(** What a synchronous operation may do, whatever the environment. *)
Definition sync_step {S R} (o : op S R) (w : world S) : R -> world S -> Prop :=
  match o in op _ R return R -> world S -> Prop with
  | OGet => fun r w' => r = w_st w /\ w' = w
  | OUpd f => fun _ w' => w' = set_st f w
  | OStGet a k => fun r w' => r = w_area a w !! k /\ w' = w
  | OStSet a k v => fun _ w' => w' = set_area a (<[k := v]>) w
  | OStDel a k => fun _ w' => w' = set_area a (delete k) w
  | ONow => fun _ w' => w' = log ObsNow w
  | ORand n => fun _ w' => w' = log (ObsRand n) w
  | OEmit ev arg => fun _ w' => w' = log (ObsEmit ev arg) w
  | _ => fun _ _ => False
  end.

(** Entered in [w], the program [p] reaches each suspension with [I] and ends with
    [Q], provided the other calls keep [I] while it waits. *)
Fixpoint wp {S A} (answers : forall R, op S R -> R -> Prop) (I : world S -> Prop)
    (Q : outcome A -> world S -> Prop) (p : prog S A) (w : world S) : Prop :=
  match p with
  | Ret a => Q (Done a) w
  | Throw x => Q (Raised x) w
  | Act o k =>
      if is_async o
      then I (issue o w) /\ forall r w', answers _ o r -> I w' -> wp answers I Q (k r) w'
      else forall r w', sync_step o w r w' -> wp answers I Q (k r) w'
  end.

(** [I] holds whenever [p], entered in [w], suspends or ends. *)
Definition safe {S A} answers (I : world S -> Prop) (p : prog S A) (w : world S) : Prop :=
  wp answers I (fun _ w' => I w') p w.

(** No exception leaves [p], whatever the environment answers. *)
Fixpoint no_throw {S A} (p : prog S A) : Prop :=
  match p with
  | Ret _ => True
  | Throw _ => False
  | Act _ k => forall r, no_throw (k r)
  end.

(** At most [n] requests on every path. *)
Fixpoint fetches_le {S A} (n : nat) (p : prog S A) : Prop :=
  match p with
  | Ret _ | Throw _ => True
  | Act o k =>
      match o with
      | OFetch _ => match n with
                    | O => False
                    | Datatypes.S m => forall r, fetches_le m (k r)
                    end
      | OFetchAll rs => length rs <= n /\ forall r, fetches_le (n - length rs) (k r)
      | _ => forall r, fetches_le n (k r)
      end
  end.

(** No state update on any path. *)
Fixpoint keeps_st {S A} (p : prog S A) : Prop :=
  match p with
  | Ret _ | Throw _ => True
  | Act o k => match o with OUpd _ => False | _ => True end /\ forall r, keeps_st (k r)
  end.

(** The requests among the observations. *)
Definition fetches (t : list obs) : list request :=
  omap (fun o => match o with ObsFetch r => Some r | _ => None end) t.

(** ** Running composed programs *)

Section Run.
Context {S : Type} (e : env).

Lemma run_bind {A B} (p : prog S A) (f : A -> prog S B) w :
  run e (prog_bind f p) w =
  match run e p w with
  | (Done a, w') => run e (f a) w'
  | (Raised x, w') => (Raised x, w')
  end.
Proof.
  revert w. induction p as [a|x|R o k IH] using prog_ind; intros w; simpl; [done..|].
  destruct (handle e o w). apply IH.
Qed.

Lemma run_try {A} (p : prog S A) h w :
  run e (try_catch p h) w =
  match run e p w with
  | (Done a, w') => (Done a, w')
  | (Raised x, w') => run e (h x) w'
  end.
Proof.
  revert w. induction p as [a|x|R o k IH] using prog_ind; intros w; simpl; [done..|].
  destruct (handle e o w). apply IH.
Qed.

Lemma run_finally {A} (p : prog S A) f w :
  run e (finally p f) w =
  let '(r, w') := run e p w in
  match run e f w' with
  | (Done _, w'') => (r, w'')
  | (Raised x, w'') => (Raised x, w'')
  end.
Proof.
  revert w. induction p as [a|x|R o k IH] using prog_ind; intros w; simpl.
  - rewrite run_bind. by destruct (run e f w) as [[]].
  - rewrite run_bind. by destruct (run e f w) as [[]].
  - destruct (handle e o w). apply IH.
Qed.

Lemma no_throw_run {A} (p : prog S A) w :
  no_throw p -> exists a w', run e p w = (Done a, w').
Proof.
  revert w. induction p as [a|x|R o k IH] using prog_ind; intros w H; simpl in *;
    [eauto|done|]. destruct (handle e o w). by apply IH.
Qed.
End Run.

(** ** The operations, run *)

Create Rewrite HintDb run.

Section RunOps.
Context {S : Type} (e : env) (w : world S).

Lemma run_mbind {A B} (p : prog S A) (f : A -> prog S B) :
  run e (p ≫= f) w =
  match run e p w with
  | (Done a, w') => run e (f a) w'
  | (Raised x, w') => (Raised x, w')
  end.
Proof. apply run_bind. Qed.

Lemma run_mret {A} (a : A) : run e (mret a : prog S A) w = (Done a, w).
Proof. done. Qed.

Lemma run_ret {A} (a : A) : run e (Ret a : prog S A) w = (Done a, w).
Proof. done. Qed.

Lemma run_throw {A} x : run e (Throw x : prog S A) w = (Raised x, w).
Proof. done. Qed.

Lemma run_get_state : run e get_state w = (Done (w_st w), w).
Proof. done. Qed.

Lemma run_upd f : run e (upd f) w = (Done tt, set_st f w).
Proof. done. Qed.

Lemma run_getItem a k : run e (getItem a k) w = (Done (w_area a w !! k), w).
Proof. done. Qed.

Lemma run_setItem a k v : run e (setItem a k v) w = (Done tt, set_area a (<[k := v]>) w).
Proof. done. Qed.

Lemma run_removeItem a k : run e (removeItem a k) w = (Done tt, set_area a (delete k) w).
Proof. done. Qed.

Lemma run_now : run e now w = (Done (clock e (w_trace w)), log ObsNow w).
Proof. done. Qed.

Lemma run_random n :
  run e (random_bytes n) w = (Done (entropy e (w_trace w) n), log (ObsRand n) w).
Proof. done. Qed.

Lemma run_emit ev arg : run e (emit ev arg) w = (Done tt, log (ObsEmit ev arg) w).
Proof. done. Qed.

Lemma run_fetch r :
  run e (fetch r) w =
  let w' := log (ObsFetch r) w in
  (match server e (w_trace w') r with Some x => Done x | None => Raised network_error end, w').
Proof. unfold fetch. simpl. by destruct (server e _ r). Qed.

Lemma run_host f arg :
  run e (host f arg) w =
  let w' := log (ObsHost f arg) w in (Done (platform e (w_trace w') f arg), w').
Proof. done. Qed.

Lemma run_resp_json r :
  run e (resp_json r) w =
  (match JSON_parse (rs_body r) with Some v => Done v | None => Raised syntax_error end, w).
Proof. unfold resp_json. simpl. by destruct (JSON_parse _). Qed.

Lemma run_resp_text r : run e (resp_text r) w = (Done (rs_body r), w).
Proof. done. Qed.

Lemma run_json_parse s :
  run e (json_parse s) w =
  (match JSON_parse s with Some v => Done v | None => Raised syntax_error end, w).
Proof. unfold json_parse. by destruct (JSON_parse _). Qed.

Lemma run_or_throw {A} x (o : option A) :
  run e (or_throw x o : prog S A) w = (match o with Some a => Done a | None => Raised x end, w).
Proof. by destruct o. Qed.

Lemma run_get v k x : prop v k = Some x -> run e (get v k) w = (Done x, w).
Proof. unfold get. by intros ->. Qed.
End RunOps.

#[export] Hint Rewrite @run_mbind @run_try @run_finally @run_mret @run_ret @run_throw
  @run_get_state @run_upd @run_getItem @run_setItem @run_removeItem @run_now @run_random @run_emit
  @run_fetch @run_host @run_resp_json @run_resp_text @run_json_parse @run_or_throw : run.

(** Runs the head of a program as far as the operations' answers are known. *)
Ltac run_steps := repeat progress (autorewrite with run; cbn beta match zeta).

Lemma run_settle {S A} (e : env) (p : prog S A) w :
  run e (settle p) w
  = (Done (match (run e p w).1 with Done a => inr a | Raised x => inl x end), (run e p w).2).
Proof. unfold settle. rewrite run_try, run_bind. by destruct (run e p w) as [[a|x] w']. Qed.

(** What was observed stays observed. *)
Lemma run_trace {S A} (e : env) (p : prog S A) w : exists t, w_trace (run e p w).2 = t ++ w_trace w.
Proof.
  assert (forall rs (w : world S), exists t, w_trace (log_all rs w) = t ++ w_trace w) as Hall.
  { unfold log_all. induction rs as [|r rs IH]; intros w0; [by exists []|]. cbn.
    destruct (IH (log (ObsFetch r) w0)) as [t ->]. exists (t ++ [ObsFetch r]). destruct w0. cbn. by rewrite <- app_assoc. }
  revert w. induction p as [a|x|R o k IH] using prog_ind; intros w; [by exists []..|].
  cbn [run]. destruct (handle e o w) as [v w'] eqn:E. destruct (IH v w') as [t ->].
  assert (exists t', w_trace w' = t' ++ w_trace w) as [t' ->]; [|exists (t ++ t'); by rewrite app_assoc].
  destruct o; cbn in E; injection E as <- <-; try (apply Hall); destruct w; try destruct a; cbn;
    first [by exists [] | by eexists [_]].
Qed.

Lemma run_trace_In {S A} (e : env) (p : prog S A) w o : In o (w_trace w) -> In o (w_trace (run e p w).2).
Proof. intros H. destruct (run_trace e p w) as [t ->]. apply in_or_app. by right. Qed.

Lemma run_settle_all {S A} (e : env) (p : prog S A) ps w :
  run e (settle_all (p :: ps)) w
  = let '(o, w1) := run e p w in
    let '(os, w2) := run e (settle_all ps) w1 in
    (match os with
     | Done l => Done (match o with Done a => inr a | Raised x => inl x end :: l)
     | Raised x => Raised x
     end, w2).
Proof.
  cbn [settle_all]. rewrite run_bind, run_settle. destruct (run e p w) as [o w1]. cbn [fst snd].
  rewrite run_bind. by destruct (run e (settle_all ps) w1) as [[l|x] w2].
Qed.

(** [Promise.all] makes every call, whatever becomes of the others. *)
Lemma settle_all_done {S A} (e : env) (ps : list (prog S A)) w :
  exists os w', run e (settle_all ps) w = (Done os, w')
  /\ forall p (Q : obs -> Prop), In p ps ->
     (forall w, exists o, Q o /\ In o (w_trace (run e p w).2)) -> exists o, Q o /\ In o (w_trace w').
Proof.
  revert w. induction ps as [|p ps IH]; intros w; [by exists [], w|].
  rewrite run_settle_all. destruct (run e p w) as [o w1] eqn:E. destruct (IH w1) as (os & w2 & Hr & Hq). rewrite Hr.
  eexists _, w2. split; [reflexivity|]. intros p' Q [<-|Hp] Hlog; [|by apply (Hq p')].
  destruct (Hlog w) as (ob & HQ & Hin). rewrite E in Hin. exists ob. split; [done|].
  replace w2 with (run e (settle_all ps) w1).2 by by rewrite Hr. by apply run_trace_In.
Qed.

(** The outcome of a call, as [settle] holds it. *)
Definition settled {A} (o : outcome A) : exn + A := match o with Done a => inr a | Raised x => inl x end.

(** The outcomes are those of the calls, in their order. *)
Lemma settle_all_each {S A} (e : env) (ps : list (prog S A)) w os w' :
  run e (settle_all ps) w = (Done os, w') -> Forall2 (fun p o => exists w0, o = settled (run e p w0).1) ps os.
Proof.
  revert w os w'. induction ps as [|p ps IH]; intros w os w'; [by intros [= <- _]|].
  rewrite run_settle_all. destruct (run e p w) as [o w1] eqn:E. destruct (settle_all_done e ps w1) as (os1 & w2 & Hr & _). rewrite Hr.
  intros [= <- _]. constructor; [|by eapply IH]. exists w. rewrite E. by destruct o.
Qed.

Lemma run_promise_all {S A} (e : env) (ps : list (prog S A)) w :
  exists os w', run e (settle_all ps) w = (Done os, w')
  /\ run e (promise_all ps) w = (match all_values os with inl x => Raised x | inr l => Done l end, w').
Proof.
  destruct (settle_all_done e ps w) as (os & w' & Hr & _). exists os, w'. split; [done|].
  unfold promise_all. rewrite run_bind, Hr. by destruct (all_values os).
Qed.

(** Reads of a world through its setters. *)
Section WorldReads.
Context {S : Type} (w : world S).

Lemma w_st_log o : w_st (log o w) = w_st w.
Proof. by destruct w. Qed.
Lemma w_local_log o : w_local (log o w) = w_local w.
Proof. by destruct w. Qed.
Lemma w_session_log o : w_session (log o w) = w_session w.
Proof. by destruct w. Qed.
Lemma w_secure_log o : w_secure (log o w) = w_secure w.
Proof. by destruct w. Qed.
Lemma w_trace_log o : w_trace (log o w) = o :: w_trace w.
Proof. by destruct w. Qed.
Lemma w_st_set f : w_st (set_st f w) = f (w_st w).
Proof. by destruct w. Qed.
Lemma w_local_set_st f : w_local (set_st f w) = w_local w.
Proof. by destruct w. Qed.
Lemma w_secure_set_st f : w_secure (set_st f w) = w_secure w.
Proof. by destruct w. Qed.
Lemma w_trace_set_st f : w_trace (set_st f w) = w_trace w.
Proof. by destruct w. Qed.
Lemma w_st_set_area a f : w_st (set_area a f w) = w_st w.
Proof. by destruct w, a. Qed.
Lemma w_trace_set_area a f : w_trace (set_area a f w) = w_trace w.
Proof. by destruct w, a. Qed.
Lemma w_local_set_local f : w_local (set_area Local f w) = f (w_local w).
Proof. by destruct w. Qed.
Lemma w_secure_set_secure f : w_secure (set_area Secure f w) = f (w_secure w).
Proof. by destruct w. Qed.
Lemma set_st_set_st f g : set_st f (set_st g w) = set_st (fun s => f (g s)) w.
Proof. by destruct w. Qed.
Lemma set_area_set_area a f g : set_area a f (set_area a g w) = set_area a (fun m => f (g m)) w.
Proof. by destruct w, a. Qed.
End WorldReads.

(** [["a", "b"].forEach(k => localStorage.removeItem(k))]. *)
Definition remove_all {S} (ks : list string) : prog S unit :=
  foldr (fun k rest => removeItem Local k;; rest) (mret tt) ks.

Lemma run_remove_all {S} (e : env) ks (w : world S) :
  run e (remove_all ks) w = (Done tt, set_area Local (fun l => foldr delete l (rev ks)) w).
Proof.
  unfold remove_all.
  revert w. induction ks as [|k ks IH]; intros w; cbn [foldr]; run_steps; [by destruct w|].
  rewrite IH. destruct w. cbn [rev set_area]. by rewrite foldr_app.
Qed.

#[export] Hint Rewrite @run_remove_all : run.

#[global] Arguments remove_all : simpl never.

Create Rewrite HintDb world.

#[export] Hint Rewrite @w_st_log @w_local_log @w_session_log @w_secure_log @w_trace_log
  @w_st_set @w_local_set_st @w_secure_set_st @w_trace_set_st @w_st_set_area @w_trace_set_area
  @w_local_set_local @w_secure_set_secure : world.

Section Control.
Context {S : Type}.

Lemma no_throw_bind {A B} (p : prog S A) (f : A -> prog S B) :
  no_throw p -> (forall a, no_throw (f a)) -> no_throw (prog_bind f p).
Proof. induction p using prog_ind; simpl; auto. Qed.

Lemma no_throw_try {A} (p : prog S A) h :
  (forall x, no_throw (h x)) -> no_throw (try_catch p h).
Proof. intros Hh. induction p using prog_ind; simpl; auto. Qed.

Lemma no_throw_finally {A} (p : prog S A) f :
  no_throw p -> no_throw f -> no_throw (finally p f).
Proof.
  intros Hp Hf. induction p using prog_ind; simpl in *; auto; [|done].
  by apply no_throw_bind.
Qed.
End Control.

Section KeepsState.
Context {S : Type}.

Lemma keeps_st_bind {A B} (p : prog S A) (f : A -> prog S B) :
  keeps_st p -> (forall a, keeps_st (f a)) -> keeps_st (p ≫= f).
Proof.
  intros Hp Hf. unfold mbind, prog_mbind.
  induction p using prog_ind; cbn in *; [auto..|]. destruct Hp. split; auto.
Qed.

Lemma keeps_st_try {A} (p : prog S A) h :
  keeps_st p -> (forall x, keeps_st (h x)) -> keeps_st (try_catch p h).
Proof.
  intros Hp Hh. induction p using prog_ind; cbn in *; [auto..|]. destruct Hp. split; auto.
Qed.

Lemma handle_keeps_st {R} e (o : op S R) w :
  match o with OUpd _ => False | _ => True end -> w_st (handle e o w).2 = w_st w.
Proof.
  destruct o; try done; cbn; intros _; try (by destruct w); try (by destruct w, a).
  unfold log_all. revert w. induction rs as [|r rs IH]; intros w; [done|].
  cbn. rewrite IH. by destruct w.
Qed.

Lemma keeps_st_run {A} e (p : prog S A) w : keeps_st p -> w_st (run e p w).2 = w_st w.
Proof.
  revert w. induction p as [a|x|R o k IH] using prog_ind; intros w H; cbn in *; [done..|].
  destruct H as [Ho Hk]. pose proof (handle_keeps_st e o w Ho) as E.
  destruct (handle e o w) as [r w']. cbn in E. by rewrite IH.
Qed.

Lemma fetches_le_mono {A} m n (p : prog S A) : m <= n -> fetches_le m p -> fetches_le n p.
Proof.
  revert m n. induction p as [a|x|R o k IH] using prog_ind; intros m n Hmn H; [done..|].
  destruct o; cbn in *; eauto.
  - destruct m as [|m], n as [|n]; [done|done|lia|]. intros r0. apply (IH r0 m n); [lia|auto].
  - destruct H as [Hl H]. split; [lia|]. intros r. apply (IH r (m - length rs)); [lia|auto].
Qed.

Lemma fetches_le_bind {A B} m n (p : prog S A) (f : A -> prog S B) :
  fetches_le m p -> (forall a, fetches_le n (f a)) -> fetches_le (m + n) (p ≫= f).
Proof.
  unfold mbind, prog_mbind.
  revert m. induction p as [a|x|R o k IH] using prog_ind; intros m Hp Hf; cbn in *.
  - apply (fetches_le_mono n); [lia|auto].
  - done.
  - destruct o; cbn in *; auto.
    + destruct m as [|m]; [done|]. cbn. auto.
    + destruct Hp as [Hl Hp]. split; [lia|]. intros r.
      replace (m + n - length rs) with (m - length rs + n) by lia. apply IH; auto.
Qed.

Lemma fetches_le_try {A} n (p : prog S A) h :
  fetches_le n p -> (forall x, fetches_le 0 (h x)) -> fetches_le n (try_catch p h).
Proof.
  revert n. induction p as [a|x|R o k IH] using prog_ind; intros n Hp Hf; cbn in *; auto.
  - apply (fetches_le_mono 0); [lia|auto].
  - destruct o; cbn in *; auto.
    + destruct n; [done|]. auto.
    + destruct Hp; auto.
Qed.
End KeepsState.

(** ** Items a program leaves alone *)

(** The item [k] of the local storage is neither stored nor removed. *)
Fixpoint keeps_item {S A} (k : string) (p : prog S A) : Prop :=
  match p with
  | Ret _ | Throw _ => True
  | Act o c =>
      match o with OStSet Local k' _ | OStDel Local k' => k' <> k | _ => True end
      /\ forall r, keeps_item k (c r)
  end.

Section KeepsItem.
Context {S : Type} (k : string).

Lemma keeps_item_bind {A B} (p : prog S A) (f : A -> prog S B) :
  keeps_item k p -> (forall a, keeps_item k (f a)) -> keeps_item k (p ≫= f).
Proof.
  intros Hp Hf. unfold mbind, prog_mbind.
  induction p using prog_ind; cbn in *; [auto..|]. destruct Hp. split; auto.
Qed.

Lemma keeps_item_try {A} (p : prog S A) h :
  keeps_item k p -> (forall x, keeps_item k (h x)) -> keeps_item k (try_catch p h).
Proof.
  intros Hp Hh. induction p using prog_ind; cbn in *; [auto..|]. destruct Hp. split; auto.
Qed.

Lemma keeps_item_run {A} (e : env) (p : prog S A) w :
  keeps_item k p -> w_local (run e p w).2 !! k = w_local w !! k.
Proof.
  revert w. induction p as [a|x|R o c IH] using prog_ind; intros w Hp; [done..|].
  destruct Hp as [Ho Hk]. cbn [run]. destruct (handle e o w) as [r w'] eqn:E. rewrite (IH r w' (Hk r)).
  assert (forall rs (w : world S), w_local (log_all rs w) = w_local w) as Hall.
  { unfold log_all. induction rs as [|x rs IHrs]; intros w0; [done|]. cbn. rewrite IHrs. by destruct w0. }
  destruct o; cbn in E; injection E as <- <-; try (by rewrite ?Hall); destruct w; try destruct a; cbn; try done.
  - by apply lookup_insert_ne.
  - by apply lookup_delete_ne.
Qed.
End KeepsItem.

#[export] Hint Resolve keeps_st_bind keeps_st_try : js.
#[export] Hint Resolve no_throw_bind no_throw_try no_throw_finally : js.

(** ** The invariant rule *)

Section Invariant.
Context {S : Type} (e : env) (spawn : world S -> prog S unit -> Prop)
  (answers : forall R, op S R -> R -> Prop) (I : world S -> Prop).

Lemma handle_sync_step {R} (o : op S R) w r w' :
  is_async o = false -> handle e o w = (r, w') -> sync_step o w r w'.
Proof. destruct o; simpl; intros; simplify_eq; done. Qed.

(** A suspended call is ready for any answer in any world satisfying [I]. *)
Definition ready (p : prog S unit) : Prop :=
  match p with
  | Act o k => forall r w', answers _ o r -> I w' -> safe answers I (k r) w'
  | _ => True
  end.

Lemma sync_safe p w p' w' :
  safe answers I p w -> sync e p w = (p', w') -> I w' /\ ready p'.
Proof.
  unfold safe. revert w. induction p as [a|x|R o k IH] using prog_ind;
    intros w Hs E; simpl in *; simplify_eq; [done..|]. destruct (is_async o) eqn:Ha; simplify_eq/=.
  - by destruct Hs.
  - destruct (handle e o w) as [r w1] eqn:Eh. eapply IH; [|done].
    apply Hs. by apply handle_sync_step.
Qed.

Lemma step_safe (c c' : config S) :
  (forall w p, I w -> spawn w p -> safe answers I p w) ->
  I c.1 /\ Forall ready c.2 -> step e spawn answers c c' -> I c'.1 /\ Forall ready c'.2.
Proof.
  intros Hsp [HI Hr] Hstep. destruct Hstep as [w ts p p' w' Hp E|w ts i R o k r p' w' Hi Ha Han E];
    simpl in *.
  - destruct (sync_safe p w p' w') as [? ?]; [by apply Hsp|done|].
    split; [done|]. by apply Forall_app_2; [|apply Forall_singleton].
  - eapply Forall_lookup_1 in Hr as Hk; [|done]. simpl in Hk.
    destruct (sync_safe (k r) w p' w') as [? ?]; [by apply Hk|done|].
    split; [done|]. by apply Forall_insert.
Qed.

(** An invariant kept by every atomic stretch of every call holds in every
    configuration the calls can reach together. *)
Lemma safe_reachable w0 c :
  I w0 -> (forall w p, I w -> spawn w p -> safe answers I p w) ->
  reachable e spawn answers w0 c -> I c.1 /\ Forall ready c.2.
Proof.
  intros H0 Hsp Hr. induction Hr as [|c c' Hr IH Hst]; [done|]. by eapply step_safe.
Qed.
End Invariant.

(** ** The rule for quiescence *)

Definition finished {S A} (p : prog S A) : Prop :=
  match p with Act _ _ => False | _ => True end.

Section Quiescence.
Context {S : Type} (e : env) (spawn : world S -> prog S unit -> Prop)
  (answers : forall R, op S R -> R -> Prop) (Q : world S -> Prop).

(** Every end of [p] leaves [Q], whatever happens while it waits. *)
Definition ends {A} (p : prog S A) (w : world S) : Prop := wp answers (fun _ => True) (fun _ w' => Q w') p w.

Definition ends_later (p : prog S unit) : Prop :=
  match p with
  | Act o k => forall r w', answers _ o r -> ends (k r) w'
  | _ => True
  end.

Lemma sync_ends p w p' w' :
  ends p w -> sync e p w = (p', w') -> (finished p' -> Q w') /\ ends_later p'.
Proof.
  unfold ends. revert w. induction p as [a|x|R o k IH] using prog_ind;
    intros w Hs E; simpl in *; simplify_eq; [done..|]. destruct (is_async o) eqn:Ha; simplify_eq/=.
  - split; [done|]. intros r w' Hr. by apply Hs.
  - destruct (handle e o w) as [r w1] eqn:Eh. eapply IH; [|done]. apply Hs. by eapply handle_sync_step.
Qed.

(** If every call ends with [Q], then [Q] holds whenever no call is in flight. *)
Lemma quiescent w0 c :
  Q w0 -> (forall w p, spawn w p -> ends p w) ->
  reachable e spawn answers w0 c -> (Forall finished c.2 -> Q c.1) /\ Forall ends_later c.2.
Proof.
  intros H0 Hsp Hr. induction Hr as [|c c' Hr [IH1 IH2] Hst]; [done|].
  destruct Hst as [w ts p p' w' Hp E|w ts i R o k r p' w' Hi Ha Han E]; simpl in *.
  - destruct (sync_ends p w p' w') as [? ?]; [by apply Hsp|done|]. split.
    + rewrite Forall_app, Forall_singleton. intros [_ Hf]. auto.
    + by apply Forall_app_2; [|apply Forall_singleton].
  - eapply Forall_lookup_1 in IH2 as Hk; [|done]. simpl in Hk.
    destruct (sync_ends (k r) w p' w') as [? ?]; [by apply Hk|done|]. split.
    + intros Hf. apply H. rewrite Forall_lookup in Hf. apply (Hf i), list_lookup_insert_eq. by eapply lookup_lt_Some.
    + by apply Forall_insert.
Qed.

Lemma ends_then {A B} (f : A -> prog S B) p w :
  (forall a, finished (f a)) -> ends p w -> ends (prog_bind f p) w.
Proof.
  unfold ends. intros Hf. revert w. induction p as [a|x|R o k IH] using prog_ind; intros w H; simpl in *.
  - specialize (Hf a). by destruct (f a).
  - done.
  - destruct (is_async o); [split; [done|]; intros r w' Hr _; apply IH; by apply H|].
    intros r w' Hs. apply IH. by apply H.
Qed.

(** What a [finally] block leaves, its statement leaves. *)
Lemma ends_finally {A} (p : prog S A) f : (forall w, ends f w) -> forall w, ends (finally p f) w.
Proof.
  intros Hf. unfold ends. induction p as [a|x|R o k IH] using prog_ind; intros w; simpl.
  - by apply ends_then.
  - by apply ends_then.
  - destruct (is_async o); [split; [done|]|]; intros; apply IH.
Qed.
End Quiescence.

(** Answers to requests that satisfy [P]; every other promise settles freely. *)
Definition on_server {S} (P : request -> option response -> Prop) (R : Type) (o : op S R) : R -> Prop :=
  match o in op _ R return R -> Prop with
  | OFetch rq => fun r => P rq r
  | _ => fun _ => True
  end.

(** ** Rules of the calculus *)

Section Rules.
Context {S : Type} (answers : forall R, op S R -> R -> Prop) (I : world S -> Prop).

Lemma wp_mono {A} (Q Q' : outcome A -> world S -> Prop) p w :
  (forall o w, Q o w -> Q' o w) -> wp answers I Q p w -> wp answers I Q' p w.
Proof.
  intros HQ. revert w. induction p as [a|x|R o k IH] using prog_ind; intros w H; simpl in *;
    auto. destruct (is_async o); [destruct H as [? H]; split|]; auto.
Qed.

Lemma wp_bind {A B} (Q : outcome B -> world S -> Prop) (p : prog S A) f w :
  wp answers I (fun o w' => match o with
                            | Done a => wp answers I Q (f a) w'
                            | Raised x => Q (Raised x) w'
                            end) p w ->
  wp answers I Q (prog_bind f p) w.
Proof.
  revert w. induction p as [a|x|R o k IH] using prog_ind; intros w H; simpl in *; auto.
  destruct (is_async o); [destruct H as [? H]; split|]; auto.
Qed.

Lemma wp_mbind {A B} (Q : outcome B -> world S -> Prop) (p : prog S A) (f : A -> prog S B) w :
  wp answers I (fun o w' => match o with
                            | Done a => wp answers I Q (f a) w'
                            | Raised x => Q (Raised x) w'
                            end) p w ->
  wp answers I Q (p ≫= f) w.
Proof. apply wp_bind. Qed.

Lemma wp_upd (Q : outcome unit -> world S -> Prop) f w :
  Q (Done tt) (set_st f w) -> wp answers I Q (upd f) w.
Proof. cbn. by intros H [] w' ->. Qed.

Lemma wp_get_state (Q : outcome S -> world S -> Prop) w :
  Q (Done (w_st w)) w -> wp answers I Q get_state w.
Proof. cbn. by intros H r w' [-> ->]. Qed.

Lemma wp_try {A} (Q : outcome A -> world S -> Prop) p h w :
  wp answers I (fun o w' => match o with
                            | Done a => Q (Done a) w'
                            | Raised x => wp answers I Q (h x) w'
                            end) p w ->
  wp answers I Q (try_catch p h) w.
Proof.
  revert w. induction p as [a|x|R o k IH] using prog_ind; intros w H; simpl in *; auto.
  destruct (is_async o); [destruct H as [? H]; split|]; auto.
Qed.

Lemma wp_finally {A} (Q : outcome A -> world S -> Prop) p f w :
  wp answers I (fun o w' => wp answers I (fun o' w'' => match o' with
                                              | Done _ => Q o w''
                                              | Raised x => Q (Raised x) w''
                                              end) f w') p w ->
  wp answers I Q (finally p f) w.
Proof.
  revert w. induction p as [a|x|R o k IH] using prog_ind; intros w H; simpl in *.
  - apply wp_bind. eapply wp_mono; [|exact H]. by intros [].
  - apply wp_bind. eapply wp_mono; [|exact H]. by intros [].
  - destruct (is_async o); [destruct H as [? H]; split|]; auto.
Qed.
End Rules.

(** ** A component inside a larger state

    A module variable or an object used by a component: the state [T] of its programs
    is a part of the component's state [S]. *)

Record lens (S T : Type) := Lens { view : S -> T; over : (T -> T) -> S -> S }.
Arguments Lens {S T}.
Arguments view {S T}.
Arguments over {S T}.

Class LensLaws {S T} (l : lens S T) : Prop := {
  view_over f s : view l (over l f s) = f (view l s);
  over_over f g s : over l f (over l g s) = over l (fun t => f (g t)) s;
  over_const s : over l (fun _ => view l s) s = s;
  over_ext f g s : f (view l s) = g (view l s) -> over l f s = over l g s
}.

Fixpoint zoom {S T A} (l : lens S T) (p : prog T A) : prog S A :=
  match p with
  | Ret a => Ret a
  | Throw x => Throw x
  | Act o k =>
      match o in op _ R return (R -> prog S A) -> prog S A with
      | OGet => fun z => Act OGet (fun s => z (view l s))
      | OUpd f => fun z => Act (OUpd (over l f)) z
      | OStGet a key => fun z => Act (OStGet a key) z
      | OStSet a key v => fun z => Act (OStSet a key v) z
      | OStDel a key => fun z => Act (OStDel a key) z
      | ONow => fun z => Act ONow z
      | ORand n => fun z => Act (ORand n) z
      | OEmit ev arg => fun z => Act (OEmit ev arg) z
      | OFetch r => fun z => Act (OFetch r) z
      | OFetchAll rs => fun z => Act (OFetchAll rs) z
      | OHost f arg => fun z => Act (OHost f arg) z
      | OYield => fun z => Act OYield z
      end (fun r => zoom l (k r))
  end.

(** The part's world inside the whole's, and the whole's after the part's run. *)
Definition focus {S T} (l : lens S T) (w : world S) : world T :=
  let '(World s lo se sc t) := w in World (view l s) lo se sc t.

Definition unfocus {S T} (l : lens S T) (s : S) (w : world T) : world S :=
  let '(World t lo se sc tr) := w in World (over l (fun _ => t) s) lo se sc tr.

Lemma log_all_world {S} (rs : list request) (w : world S) :
  log_all rs w = let '(World s lo se sc t) := w in
                 World s lo se sc (rev (map ObsFetch rs) ++ t).
Proof.
  unfold log_all. revert w. induction rs as [|r rs IH]; intros [s lo se sc t]; [done|].
  cbn. rewrite IH. cbn. by rewrite <- app_assoc.
Qed.

Section Zoom.
Context {S T : Type} (l : lens S T) `{!LensLaws l}.

Lemma unfocus_focus w : unfocus l (w_st w) (focus l w) = w.
Proof. destruct w. cbn. by rewrite over_const. Qed.

Lemma unfocus_over s f w : unfocus l (over l f s) w = unfocus l s w.
Proof. destruct w. cbn. by rewrite over_over. Qed.

(** Running the part inside the whole is running the part. *)
Lemma run_zoom {A} (e : env) (p : prog T A) (w : world S) :
  run e (zoom l p) w =
  let '(o, w') := run e p (focus l w) in (o, unfocus l (w_st w) w').
Proof.
  revert w. induction p as [a|x|R o k IH] using prog_ind; intros w; cbn.
  - by rewrite unfocus_focus.
  - by rewrite unfocus_focus.
  - destruct o as [|f|ar key|ar key v|ar key| | | | |rs| |]; cbn; rewrite IH;
      destruct w as [s lo se sc t]; try done; try (by destruct ar); cbn.
    + rewrite view_over. destruct (run e _ _). by rewrite unfocus_over.
    + by rewrite !log_all_world.
Qed.

Lemma keeps_fetches_zoom {A} n (p : prog T A) : fetches_le n p -> fetches_le n (zoom l p).
Proof.
  revert n. induction p as [a|x|R o k IH] using prog_ind; intros n H; [done..|].
  destruct o; cbn in *; auto. destruct n; [done|auto]. destruct H; auto.
Qed.

Lemma no_throw_zoom {A} (p : prog T A) : no_throw p -> no_throw (zoom l p).
Proof.
  induction p as [a|x|R o k IH] using prog_ind; intros H; [done..|]. destruct o; cbn in *; auto.
Qed.
End Zoom.

#[export] Hint Resolve no_throw_zoom : js.

(** ** Programs that cannot break an invariant

    Every update on every path keeps [P] of the state, and everything the program lets
    the environment see satisfies [O]: whatever the interleaving, the invariant made of
    the two survives. *)

Fixpoint tame {S A} (P : S -> Prop) (O : obs -> Prop) (p : prog S A) : Prop :=
  match p with
  | Ret _ | Throw _ => True
  | Act o k =>
      match o with
      | OUpd f => forall s, P s -> P (f s)
      | ONow => O ObsNow
      | ORand n => O (ObsRand n)
      | OEmit ev arg => O (ObsEmit ev arg)
      | OFetch r => O (ObsFetch r)
      | OFetchAll rs => Forall (fun r => O (ObsFetch r)) rs
      | OHost f arg => O (ObsHost f arg)
      | _ => True
      end /\ forall r, tame P O (k r)
  end.

Section Tame.
Context {S : Type} (P : S -> Prop) (O : obs -> Prop).

Definition tame_inv (w : world S) : Prop := P (w_st w) /\ Forall O (w_trace w).

Lemma tame_bind {A B} (p : prog S A) (f : A -> prog S B) :
  tame P O p -> (forall a, tame P O (f a)) -> tame P O (p ≫= f).
Proof.
  unfold mbind, prog_mbind. intros Hp Hf.
  induction p as [a|x|R o k IH] using prog_ind; cbn in *; [auto..|]. destruct Hp. split; auto.
Qed.

Lemma tame_try {A} (p : prog S A) h :
  tame P O p -> (forall x, tame P O (h x)) -> tame P O (try_catch p h).
Proof.
  intros Hp Hh.
  induction p as [a|x|R o k IH] using prog_ind; cbn in *; [auto..|]. destruct Hp. split; auto.
Qed.

Lemma tame_finally {A} (p : prog S A) f : tame P O p -> tame P O f -> tame P O (finally p f).
Proof.
  intros Hp Hf.
  induction p as [a|x|R o k IH] using prog_ind; cbn in *.
  - by apply tame_bind.
  - by apply tame_bind.
  - destruct Hp. split; auto.
Qed.

Lemma tame_log o w : O o -> tame_inv w -> tame_inv (log o w).
Proof. destruct w. intros ? [? ?]. split; [done|]. by constructor. Qed.

Lemma tame_log_all rs w : Forall (fun r => O (ObsFetch r)) rs -> tame_inv w -> tame_inv (log_all rs w).
Proof.
  unfold log_all. revert w. induction rs as [|r rs IH]; intros w Hr Hw; [done|].
  inversion Hr; subst. cbn. apply IH; [done|]. by apply tame_log.
Qed.

Lemma tame_set_area a f w : tame_inv w -> tame_inv (set_area a f w).
Proof. by destruct w, a. Qed.

Lemma tame_set_st f w : (P (w_st w) -> P (f (w_st w))) -> tame_inv w -> tame_inv (set_st f w).
Proof. destruct w. intros H [HP Ht]. split; [by apply H|done]. Qed.

Lemma tame_safe {A} answers (p : prog S A) w :
  tame P O p -> tame_inv w -> safe answers tame_inv p w.
Proof.
  unfold safe. revert w. induction p as [a|x|R o k IH] using prog_ind; intros w Hp Hw; [done..|].
  destruct Hp as [Ho Hk].
  assert (forall r w', tame_inv w' ->
    wp answers tame_inv (fun _ w' => tame_inv w') (k r) w') as H by (intros; by apply IH).
  destruct o; cbn in *.
  - by intros r w' [_ ->]; apply H.
  - intros r w' ->. apply H. apply tame_set_st; [apply Ho|done].
  - by intros r w' [_ ->]; apply H.
  - intros r w' ->. by apply H, tame_set_area.
  - intros r w' ->. by apply H, tame_set_area.
  - intros r w' ->. by apply H, tame_log.
  - intros r w' ->. by apply H, tame_log.
  - intros r w' ->. by apply H, tame_log.
  - split; [by apply tame_log|]. intros. by apply H.
  - split; [by apply tame_log_all|]. intros. by apply H.
  - split; [by apply tame_log|]. intros. by apply H.
  - split; [done|]. intros. by apply H.
Qed.

Lemma tame_run {A} (e : env) (p : prog S A) w : tame P O p -> tame_inv w -> tame_inv (run e p w).2.
Proof.
  revert w. induction p as [a|x|R o k IH] using prog_ind; intros w Hp Hw; [done..|].
  destruct Hp as [Ho Hk]. cbn [run]. destruct (handle e o w) as [r w'] eqn:E. apply IH; [done|].
  destruct o; cbn in E, Ho; injection E as <- <-; try done.
  - by apply tame_set_st; [apply Ho|].
  - by apply tame_set_area.
  - by apply tame_set_area.
  - by apply tame_log.
  - by apply tame_log.
  - by apply tame_log.
  - by apply tame_log.
  - by apply tame_log_all.
  - by apply tame_log.
Qed.
End Tame.


Lemma tame_upd {S} (P : S -> Prop) O f : (forall s, P s -> P (f s)) -> tame P O (upd f).
Proof. by split. Qed.

Lemma tame_setItem {S} (P : S -> Prop) O a k v : tame P O (setItem a k v).
Proof. by split. Qed.

Lemma tame_get {S} (P : S -> Prop) O v k : tame P O (get v k).
Proof. unfold get. by destruct (prop v k). Qed.

Lemma tame_json {S} (P : S -> Prop) O r : tame P O (resp_json r).
Proof. split; [done|]. intros []. by destruct (JSON_parse _). Qed.

(** What is read from an answer is well formed. *)
Lemma tame_json_bind {S A} (P : S -> Prop) O r (f : js -> prog S A) :
  (forall v, json_wf v = true -> tame P O (f v)) -> tame P O (resp_json r ≫= f).
Proof.
  intros Hf. split; [done|]. intros [].
  destruct (JSON_parse (rs_body r)) as [v|] eqn:E; cbn; [|done]. apply Hf. by eapply JSON_parse_wf.
Qed.

Lemma tame_fetch {S} (P : S -> Prop) (O : obs -> Prop) r : O (ObsFetch r) -> tame P O (fetch r).
Proof. split; [done|]. by intros []. Qed.

Lemma tame_mret {S A} (P : S -> Prop) O (a : A) : tame P O (mret a).
Proof. done. Qed.

Lemma tame_settle_all {S A} (P : S -> Prop) O (ps : list (prog S A)) :
  Forall (tame P O) ps -> tame P O (settle_all ps).
Proof.
  induction 1 as [|p ps Hp Hps IH]; [done|]. cbn [settle_all]. apply (tame_bind P O).
  - apply tame_try; [|done]. by apply (tame_bind P O).
  - intros o. by apply (tame_bind P O).
Qed.

Lemma tame_promise_all {S A} (P : S -> Prop) O (ps : list (prog S A)) :
  Forall (tame P O) ps -> tame P O (promise_all ps).
Proof. intros H. apply (tame_bind P O); [by apply tame_settle_all|]. intros os. by destruct (all_values os). Qed.

(** Goes through a program, leaving its updates, requests and events as goals. *)
Ltac tame_prog :=
  repeat match goal with
    | |- tame _ _ (_ ≫= _) => apply tame_bind
    | |- tame _ _ (try_catch _ _) => apply tame_try
    | |- tame _ _ (finally _ _) => apply tame_finally
    | |- tame _ _ (setItem _ _ _) => apply tame_setItem
    | |- tame _ _ (get _ _) => apply tame_get
    | |- tame _ _ (resp_json _) => apply tame_json
    | |- tame _ _ (fetch _) => apply tame_fetch
    | |- tame _ _ (mret _) => exact I
    | |- tame _ _ (Throw _) => exact I
    | |- tame _ _ (Ret _) => exact I
    | |- tame _ _ (match ?x with _ => _ end) => destruct x
    | |- forall _, tame _ _ _ => intros ?
    end.

(** ** What a program may store

    [stores_ok W p]: every item [p] stores, on whatever path, satisfies [W].  Then an
    item of the storage keeps [W] under any interleaving of such programs. *)

Fixpoint stores_ok {S A} (W : area -> string -> string -> Prop) (p : prog S A) : Prop :=
  match p with
  | Ret _ | Throw _ => True
  | Act o c => match o with OStSet a k v => W a k v | _ => True end /\ forall r, stores_ok W (c r)
  end.

(** Every item of the storages satisfies [W]. *)
Definition stored_ok {S} (W : area -> string -> string -> Prop) (w : world S) : Prop :=
  forall a k v, w_area a w !! k = Some v -> W a k v.

Section Stores.
Context {S : Type} (W : area -> string -> string -> Prop).

Lemma stores_ok_bind {A B} (p : prog S A) (f : A -> prog S B) :
  stores_ok W p -> (forall a, stores_ok W (f a)) -> stores_ok W (p ≫= f).
Proof.
  unfold mbind, prog_mbind. intros Hp Hf.
  induction p as [a|x|R o c IH] using prog_ind; cbn in *; [auto..|]. destruct Hp. split; auto.
Qed.

Lemma stores_ok_try {A} (p : prog S A) h :
  stores_ok W p -> (forall x, stores_ok W (h x)) -> stores_ok W (try_catch p h).
Proof.
  intros Hp Hh. induction p as [a|x|R o c IH] using prog_ind; cbn in *; [auto..|].
  destruct Hp. split; auto.
Qed.

Lemma stores_ok_finally {A} (p : prog S A) f : stores_ok W p -> stores_ok W f -> stores_ok W (finally p f).
Proof.
  intros Hp Hf. induction p as [a|x|R o c IH] using prog_ind; cbn in *.
  - by apply stores_ok_bind.
  - by apply stores_ok_bind.
  - destruct Hp. split; auto.
Qed.

Lemma stores_ok_zoom {T A} (l : lens S T) (p : prog T A) : stores_ok W p -> stores_ok W (zoom l p).
Proof.
  induction p as [a|x|R o c IH] using prog_ind; intros Hp; [done..|].
  destruct o; cbn in *; destruct Hp; auto.
Qed.

Lemma stores_ok_remove_all ks : stores_ok (S:=S) W (remove_all ks).
Proof. unfold remove_all. induction ks; cbn; [done|]. by repeat split. Qed.

(** The body of an answer is a value JSON can write. *)
Lemma stores_ok_json {B} (f : js -> prog S B) r :
  (forall v, json_wf v = true -> stores_ok W (f v)) -> stores_ok W (resp_json r ≫= f).
Proof.
  intros Hf. unfold resp_json, json_parse. split; [done|]. intros _.
  destruct (JSON_parse (rs_body r)) as [v|] eqn:E; cbn; [|done]. apply Hf. by eapply JSON_parse_wf.
Qed.

Lemma stored_ok_set a k v (w : world S) : W a k v -> stored_ok W w -> stored_ok W (set_area a (<[k := v]>) w).
Proof.
  intros Hv Hw b j x. destruct (decide (b = a)) as [->|Hne].
  - assert (w_area a (set_area a (<[k := v]>) w) = <[k := v]> (w_area a w)) as -> by (by destruct w, a).
    destruct (decide (k = j)) as [<-|Hk]; [rewrite lookup_insert_eq; by intros [= <-]|].
    rewrite lookup_insert_ne by done. apply Hw.
  - assert (w_area b (set_area a (<[k := v]>) w) = w_area b w) as -> by (by destruct w, a, b). apply Hw.
Qed.

Lemma stored_ok_delete a k (w : world S) : stored_ok W w -> stored_ok W (set_area a (delete k) w).
Proof.
  intros Hw b j x. destruct (decide (b = a)) as [->|Hne].
  - assert (w_area a (set_area a (delete k) w) = delete k (w_area a w)) as -> by (by destruct w, a).
    intros Hj. apply Hw. by apply lookup_delete_Some in Hj as [_ ?].
  - assert (w_area b (set_area a (delete k) w) = w_area b w) as -> by (by destruct w, a, b). apply Hw.
Qed.

Lemma stored_ok_same (w w' : world S) : (forall a, w_area a w' = w_area a w) -> stored_ok W w -> stored_ok W w'.
Proof. intros H Hw a k v. rewrite H. apply Hw. Qed.

Lemma stored_ok_log_all rs (w : world S) : stored_ok W w -> stored_ok W (log_all rs w).
Proof. apply stored_ok_same. intros a. rewrite log_all_world. by destruct w, a. Qed.

Lemma stores_ok_safe {A} answers (p : prog S A) w :
  stores_ok W p -> stored_ok W w -> safe answers (stored_ok W) p w.
Proof.
  unfold safe. revert w. induction p as [a|x|R o k IH] using prog_ind; intros w Hp Hw; [done..|].
  destruct Hp as [Ho Hk].
  assert (forall r w', stored_ok W w' ->
    wp answers (stored_ok W) (fun _ w' => stored_ok W w') (k r) w') as H by (intros; by apply IH).
  destruct o; cbn in *.
  - by intros r w' [_ ->]; apply H.
  - intros r w' ->. apply H. eapply stored_ok_same, Hw. by destruct w.
  - by intros r w' [_ ->]; apply H.
  - intros r w' ->. by apply H, stored_ok_set.
  - intros r w' ->. by apply H, stored_ok_delete.
  - intros r w' ->. apply H. eapply stored_ok_same, Hw. by destruct w.
  - intros r w' ->. apply H. eapply stored_ok_same, Hw. by destruct w.
  - intros r w' ->. apply H. eapply stored_ok_same, Hw. by destruct w.
  - split; [eapply stored_ok_same, Hw; by destruct w|]. intros. by apply H.
  - split; [by apply stored_ok_log_all|]. intros. by apply H.
  - split; [eapply stored_ok_same, Hw; by destruct w|]. intros. by apply H.
  - split; [done|]. intros. by apply H.
Qed.
End Stores.

(** Two invariants kept apart are kept together. *)
Lemma safe_both {S A} answers (I J : world S -> Prop) (p : prog S A) w :
  safe answers I p w -> safe answers J p w -> safe answers (fun w => I w /\ J w) p w.
Proof.
  unfold safe. revert w. induction p as [a|x|R o k IH] using prog_ind; intros w HI HJ; [by split..|].
  cbn [wp] in *. destruct (is_async o).
  - destruct HI as [HI1 HI2], HJ as [HJ1 HJ2]. split; [by split|]. intros r w' Ha [HIw HJw]. by apply IH; [apply HI2|apply HJ2].
  - intros r w' Hs. by apply IH; [apply HI|apply HJ].
Qed.

(** Goes through a program, leaving what it stores as goals. *)
Ltac stores_prog :=
  repeat match goal with
    | |- stores_ok _ (resp_json _ ≫= _) => apply stores_ok_json; intros ? ?
    | |- stores_ok _ (_ ≫= _) => apply stores_ok_bind
    | |- stores_ok _ (try_catch _ _) => apply stores_ok_try
    | |- stores_ok _ (finally _ _) => apply stores_ok_finally
    | |- stores_ok _ (zoom _ _) => apply stores_ok_zoom
    | |- stores_ok _ (remove_all _) => apply stores_ok_remove_all
    | |- stores_ok _ (mret _) => exact I
    | |- stores_ok _ (Throw _) => exact I
    | |- stores_ok _ (Ret _) => exact I
    | |- stores_ok _ (Act (OStSet _ _ _) _) => split
    | |- stores_ok _ (Act _ _) => split; [exact I|]
    | |- stores_ok _ (match ?x with _ => _ end) => destruct x eqn:?
    | |- forall _, stores_ok _ _ => intros ?
    end.

(** ** Concrete worlds and environments, for examples *)

Definition empty_world {S} (s : S) : world S := World s ∅ ∅ ∅ [].

(** Answers every request with [resp]; the clock counts the observations. *)
Definition const_env (resp : option response) (bytes : Z) : env := {|
  server := fun _ _ => resp;
  clock := fun t => Z.of_nat (length t);
  entropy := fun _ n => repeat bytes n;
  platform := fun _ _ _ => None
|}.

(** The [n]-th request gets the [n]-th answer, whatever it asks. *)
Definition script_env (answers : list (option response)) (clk : list obs -> Z)
    (plat : list obs -> string -> js -> option js) : env := {|
  server := fun t _ => nth (length (fetches t) - 1) answers None;
  clock := clk;
  entropy := fun _ n => repeat 0%Z n;
  platform := plat
|}.

(** A page with the storage [l] and nothing done yet. *)
Definition page {S} (s : S) (l : gmap string string) : world S := World s l ∅ ∅ [].

(** How often an event was emitted. *)
Definition emitted (e : string) (t : list obs) : nat :=
  length (List.filter (fun o => match o with ObsEmit e' _ => String.eqb e' e | _ => false end) t).
