(* ===== verification/Base64.v ===== *)
(** * Base64 in the clients

    Three implementations of base64url occur in the sources: a table-driven one
    (console/src/lib/oauth-pkce.ts) and two that go through [btoa]/[atob]
    (console/src/lib/webauthn-conditional.ts, sdk/react/src/passkey.ts, which are
    the same text).  [btoa] and [atob] are the platform's, written from RFC 4648
    and the forgiving decoder of the Infra standard.  Byte arrays are lists of
    integers in [0, 256). *)

From S2P Require Import Prelude JsValue JsString.
Local Open Scope Z_scope.

Definition byte_ok (b : Z) : Prop := 0 <= b < 256.
Definition bytes_ok (l : list Z) : Prop := Forall byte_ok l.

Definition bytes_of (s : string) : list Z := map (fun c => Z.of_nat (code c)) (String.list_ascii_of_string s).
Definition from_char_codes (l : list Z) : string :=
  String.string_of_list_ascii (map (fun b => chr (Z.to_nat b)) l).

(** ** The platform's btoa and atob *)

Definition std_chars : string := "ABCDEFGHIJKLMNOPQRSTUVWXYZabcdefghijklmnopqrstuvwxyz0123456789+/".
Definition url_chars : string := "ABCDEFGHIJKLMNOPQRSTUVWXYZabcdefghijklmnopqrstuvwxyz0123456789-_".

(** Character [k] of an alphabet. *)
Definition sextet (al : string) (k : Z) : Ascii.ascii :=
  default "A"%char (String.get (Z.to_nat k) al).

(** RFC 4648 encoding without padding, by 24-bit groups. *)
Fixpoint encode (al : string) (l : list Z) : string :=
  match l with
  | [] => ""
  | [a] => String (sextet al (a / 4)) (String (sextet al (a mod 4 * 16)) "")
  | [a; b] => String (sextet al (a / 4)) (String (sextet al (a mod 4 * 16 + b / 16))
                (String (sextet al (b mod 16 * 4)) ""))
  | a :: b :: c :: r =>
      String (sextet al (a / 4)) (String (sextet al (a mod 4 * 16 + b / 16))
        (String (sextet al (b mod 16 * 4 + c / 64)) (String (sextet al (c mod 64))
           (encode al r))))
  end.

Definition pad_of (n : nat) : string :=
  match (n mod 3)%nat with 1%nat => "==" | 2%nat => "=" | _ => "" end.

Definition btoa (s : string) : string :=
  encode std_chars (bytes_of s) +:+ pad_of (String.length s).

Fixpoint index_from (i : Z) (c : Ascii.ascii) (s : string) : option Z :=
  match s with
  | EmptyString => None
  | String x s' => if Ascii.eqb x c then Some i else index_from (i + 1) c s'
  end.

Definition sextet_val (c : Ascii.ascii) : option Z := index_from 0 c std_chars.

(** The decoding loop: whole groups, then the two- or three-character rest. *)
Fixpoint decode (s : string) : option (list Z) :=
  match s with
  | EmptyString => Some []
  | String c1 (String c2 EmptyString) =>
      a ← sextet_val c1; b ← sextet_val c2; Some [a * 4 + b / 16]
  | String c1 (String c2 (String c3 EmptyString)) =>
      a ← sextet_val c1; b ← sextet_val c2; c ← sextet_val c3;
      Some [a * 4 + b / 16; b mod 16 * 16 + c / 4]
  | String c1 (String c2 (String c3 (String c4 r))) =>
      a ← sextet_val c1; b ← sextet_val c2; c ← sextet_val c3; d ← sextet_val c4;
      t ← decode r;
      Some (a * 4 + b / 16 :: b mod 16 * 16 + c / 4 :: c mod 4 * 64 + d :: t)
  | String _ EmptyString => None
  end.

Definition is_b64_ws (c : Ascii.ascii) : bool :=
  let n := code c in ((n =? 9) || (n =? 10) || (n =? 12) || (n =? 13) || (n =? 32))%nat.

(** At most two trailing [=], removed when the length is a multiple of four. *)
Fixpoint drop_pad (s : string) : string :=
  match s with
  | "=" | "==" => ""
  | String c r => String c (drop_pad r)
  | EmptyString => ""
  end.

(** [atob(s)]; [None] is the InvalidCharacterError. *)
Definition atob (s : string) : option string :=
  let s := str_flat_map (fun c => if is_b64_ws c then "" else String c "") s in
  let s := if (String.length s mod 4 =? 0)%nat then drop_pad s else s in
  from_char_codes <$> decode s.

(** ** oauth-pkce.ts: base64UrlEncode *)

Definition char_at (s : string) (i : Z) : string :=
  match String.get (Z.to_nat i) s with Some c => String c "" | None => "undefined" end.

Fixpoint base64UrlEncode_loop (bytes : list Z) : string :=
  match bytes with
  | [] => ""
  | x1 :: t =>
      let b1 := Z.land x1 255 in
      let b2 := match t with x2 :: _ => Z.land x2 255 | [] => 0 end in
      let b3 := match t with _ :: x3 :: _ => Z.land x3 255 | _ => 0 end in
      char_at url_chars (Z.shiftr b1 2)
      +:+ char_at url_chars (Z.lor (Z.shiftl (Z.land b1 3) 4) (Z.shiftr b2 4))
      +:+ match t with
          | _ :: _ => char_at url_chars (Z.lor (Z.shiftl (Z.land b2 15) 2) (Z.shiftr b3 6))
          | [] => "="
          end
      +:+ match t with
          | _ :: _ :: _ => char_at url_chars (Z.land b3 63)
          | _ => "="
          end
      +:+ match t with _ :: _ :: r => base64UrlEncode_loop r | _ => "" end
  end.

Definition base64UrlEncode (bytes : list Z) : string :=
  strip_end (fun c => Ascii.eqb c "="%char) (base64UrlEncode_loop bytes).

(** ** webauthn-conditional.ts and passkey.ts *)

Definition b64urlToBuffer (b64url : string) : option (list Z) :=
  let padding :=
    String.string_of_list_ascii (repeat "="%char ((4 - String.length b64url mod 4) mod 4)) in
  let base64 := replace_char "_" "/" (replace_char "-" "+" (b64url +:+ padding)) in
  binary ← atob base64; Some (bytes_of binary).

Definition bufferToB64url (buffer : list Z) : string :=
  let binary := from_char_codes buffer in
  replace_char "=" "" (replace_char "/" "_" (replace_char "+" "-" (btoa binary))).

(** passkey.ts and the ERP client inline the same two helpers. *)
Definition base64urlToBuffer (b64url : string) : option (list Z) :=
  let padding :=
    String.string_of_list_ascii (repeat "="%char ((4 - String.length b64url mod 4) mod 4)) in
  let base64 := replace_char "_" "/" (replace_char "-" "+" (b64url +:+ padding)) in
  binary ← atob base64; Some (bytes_of binary).

Definition bufferToBase64url (buffer : list Z) : string :=
  let binary := from_char_codes buffer in
  replace_char "=" "" (replace_char "/" "_" (replace_char "+" "-" (btoa binary))).

(** ** Finite checks *)

Definition below (n : nat) : list Z := map Z.of_nat (seq 0 n).

Lemma below_spec n k : 0 <= k < Z.of_nat n -> In k (below n).
Proof.
  intros H. apply in_map_iff. exists (Z.to_nat k). split; [lia|]. apply in_seq. lia.
Qed.

Lemma check_below n (P : Z -> bool) :
  forallb P (below n) = true -> forall k, 0 <= k < Z.of_nat n -> P k = true.
Proof. intros H k Hk. rewrite forallb_forall in H. by apply H, below_spec. Qed.

Lemma check_below2 n (P : Z -> Z -> bool) :
  forallb (fun a => forallb (P a) (below n)) (below n) = true ->
  forall a b, 0 <= a < Z.of_nat n -> 0 <= b < Z.of_nat n -> P a b = true.
Proof. intros H a b Ha Hb. eapply check_below in H; [|exact Ha]. by eapply check_below in H. Qed.

Lemma byte_mask b : byte_ok b -> Z.land b 255 = b.
Proof.
  intros H. apply Z.eqb_eq. revert b H. apply (check_below 256 (fun b => Z.land b 255 =? b)).
  vm_compute. done.
Qed.

Lemma byte_hi b : byte_ok b -> Z.shiftr b 2 = b / 4.
Proof. intros _. by rewrite Z.shiftr_div_pow2 by lia. Qed.

Lemma byte_mid a b : byte_ok a -> byte_ok b ->
  Z.lor (Z.shiftl (Z.land a 3) 4) (Z.shiftr b 4) = a mod 4 * 16 + b / 16.
Proof.
  intros Ha Hb. apply Z.eqb_eq. revert a b Ha Hb.
  apply (check_below2 256 (fun a b =>
    Z.lor (Z.shiftl (Z.land a 3) 4) (Z.shiftr b 4) =? a mod 4 * 16 + b / 16)).
  vm_compute. done.
Qed.

Lemma byte_lo a b : byte_ok a -> byte_ok b ->
  Z.lor (Z.shiftl (Z.land a 15) 2) (Z.shiftr b 6) = a mod 16 * 4 + b / 64.
Proof.
  intros Ha Hb. apply Z.eqb_eq. revert a b Ha Hb.
  apply (check_below2 256 (fun a b =>
    Z.lor (Z.shiftl (Z.land a 15) 2) (Z.shiftr b 6) =? a mod 16 * 4 + b / 64)).
  vm_compute. done.
Qed.

Lemma byte_mid0 a : byte_ok a -> Z.lor (Z.shiftl (Z.land a 3) 4) 0 = a mod 4 * 16.
Proof. intros H. pose proof (byte_mid a 0 H ltac:(done)) as E. rewrite Z.add_0_r in E. exact E. Qed.

Lemma byte_lo0 a : byte_ok a -> Z.lor (Z.shiftl (Z.land a 15) 2) 0 = a mod 16 * 4.
Proof. intros H. pose proof (byte_lo a 0 H ltac:(done)) as E. rewrite Z.add_0_r in E. exact E. Qed.

Lemma byte_last b : byte_ok b -> Z.land b 63 = b mod 64.
Proof. intros _. change 63 with (Z.ones 6). by rewrite Z.land_ones by lia. Qed.

(** A table character is a legal base64url character, not padding or blank. *)
Definition is_url_char (c : Ascii.ascii) : bool := is_alnum c || in_set "-_" c.

Lemma url_sextet k : 0 <= k < 64 ->
  is_url_char (sextet url_chars k) = true /\ char_at url_chars k = String (sextet url_chars k) "".
Proof.
  intros H.
  assert ((is_url_char (sextet url_chars k)
           && String.eqb (char_at url_chars k) (String (sextet url_chars k) "")) = true) as E.
  { revert k H. apply (check_below 64). vm_compute. done. }
  by bool_prop.
Qed.

(** The two alphabets correspond under the [-+]/[_/] exchange, and the decoder
    inverts the standard one. *)
Definition swap_url (c : Ascii.ascii) : Ascii.ascii :=
  if Ascii.eqb c "-"%char then "+"%char else if Ascii.eqb c "_"%char then "/"%char else c.
Definition swap_std (c : Ascii.ascii) : Ascii.ascii :=
  if Ascii.eqb c "+"%char then "-"%char else if Ascii.eqb c "/"%char then "_"%char else c.

Lemma alphabets k : 0 <= k < 64 ->
  swap_url (sextet url_chars k) = sextet std_chars k
  /\ swap_std (sextet std_chars k) = sextet url_chars k
  /\ sextet_val (sextet std_chars k) = Some k
  /\ is_b64_ws (sextet std_chars k) = false
  /\ sextet std_chars k <> "="%char.
Proof.
  intros H.
  assert (bool_decide (swap_url (sextet url_chars k) = sextet std_chars k
    /\ swap_std (sextet std_chars k) = sextet url_chars k
    /\ sextet_val (sextet std_chars k) = Some k
    /\ is_b64_ws (sextet std_chars k) = false
    /\ sextet std_chars k <> "="%char) = true) as E.
  { revert k H. apply (check_below 64). vm_compute. done. }
  by apply bool_decide_eq_true in E.
Qed.

Lemma list_ind3 {A} (P : list A -> Prop) :
  P [] -> (forall a, P [a]) -> (forall a b, P [a; b]) ->
  (forall a b c l, P l -> P (a :: b :: c :: l)) -> forall l, P l.
Proof.
  intros H0 H1 H2 H3. refine (fix go l := _). destruct l as [|a [|b [|c l]]];
    [exact H0|exact (H1 a)|exact (H2 a b)|exact (H3 a b c l (go l))].
Qed.

(** ** All three encoders compute the RFC 4648 encoding *)

Ltac sextet_range := unfold byte_ok in *; Z.div_mod_to_equations; lia.

Ltac bytes_inv :=
  unfold bytes_ok in *;
  repeat match goal with
    | H : Forall byte_ok (_ :: _) |- _ => apply Forall_cons in H as [? H]
    end.

Lemma encode_url_chars l :
  bytes_ok l -> str_forall is_url_char (encode url_chars l) = true.
Proof.
  induction l as [|a|a b|a b c l IH] using list_ind3; intros H; bytes_inv; cbn [encode str_forall];
    repeat match goal with
      | |- context [is_url_char (sextet url_chars ?k)] =>
          rewrite (proj1 (url_sextet k ltac:(sextet_range)))
      end; auto.
Qed.

Lemma pad_of_3 n : pad_of (S (S (S n))) = pad_of n.
Proof.
  unfold pad_of. replace (S (S (S n))) with (n + 1 * 3)%nat by lia.
  by rewrite Nat.Div0.mod_add.
Qed.

Lemma base64UrlEncode_loop_encode l :
  bytes_ok l -> base64UrlEncode_loop l = encode url_chars l +:+ pad_of (length l).
Proof.
  induction l as [|a|a b|a b c l IH] using list_ind3; intros H; bytes_inv;
    cbn [base64UrlEncode_loop encode length]; rewrite ?byte_mask by done;
    change (Z.shiftr 0 4) with 0; change (Z.shiftr 0 6) with 0;
    rewrite ?byte_hi, ?byte_mid, ?byte_lo, ?byte_mid0, ?byte_lo0, ?byte_last by done;
    repeat match goal with
      | |- context [char_at url_chars ?k] =>
          rewrite (proj2 (url_sextet k ltac:(sextet_range)))
      end; rewrite ?pad_of_3, ?IH by done; done.
Qed.

Lemma strip_end_app P (s t : string) :
  str_forall (fun c => negb (P c)) s = true -> strip_end P (s +:+ t) = s +:+ strip_end P t.
Proof.
  induction s as [|c s IH]; cbn [str_forall]; [done|]. intros H; bool_prop.
  cbn [String.append strip_end]. rewrite IH by done.
  destruct s; cbn [String.append]; [|done]. destruct (strip_end P t) eqn:E; [|done].
  by rewrite H.
Qed.

Lemma base64UrlEncode_encode l : bytes_ok l -> base64UrlEncode l = encode url_chars l.
Proof.
  intros H. unfold base64UrlEncode. rewrite base64UrlEncode_loop_encode by done.
  rewrite strip_end_app.
  - unfold pad_of. destruct (length l mod 3)%nat as [|[|[|]]]; apply str_app_nil_r.
  - eapply str_forall_impl; [|by apply encode_url_chars]. intros c Hc.
    apply negb_true_iff. apply Ascii.eqb_neq. by intros ->.
Qed.

Lemma bytes_of_char_codes l : bytes_ok l -> bytes_of (from_char_codes l) = l.
Proof.
  unfold bytes_of, from_char_codes. rewrite String.list_ascii_of_string_of_list_ascii.
  induction 1 as [|b l Hb Hl IH]; cbn; [done|].
  rewrite IH, code_chr by (unfold byte_ok in Hb; lia). f_equal. unfold byte_ok in Hb. lia.
Qed.

Lemma length_char_codes l : String.length (from_char_codes l) = length l.
Proof. unfold from_char_codes. induction l; cbn; auto. Qed.

Definition str_map (f : Ascii.ascii -> Ascii.ascii) : string -> string :=
  str_flat_map (fun c => String (f c) "").

Lemma replace_to_url s :
  replace_char "/" "_" (replace_char "+" "-" s) = str_map swap_std s.
Proof.
  unfold replace_char, str_map. induction s as [|c s IH]; cbn; [done|].
  rewrite str_flat_map_app, IH. unfold swap_std.
  destruct (Ascii.eqb c "+"%char) eqn:E; [done|]. cbn.
  by destruct (Ascii.eqb c "/"%char).
Qed.

Lemma replace_to_std s :
  replace_char "_" "/" (replace_char "-" "+" s) = str_map swap_url s.
Proof.
  unfold replace_char, str_map. induction s as [|c s IH]; cbn; [done|].
  rewrite str_flat_map_app, IH. unfold swap_url.
  destruct (Ascii.eqb c "-"%char) eqn:E; [done|]. cbn.
  by destruct (Ascii.eqb c "_"%char).
Qed.

Lemma str_map_encode f al al' l :
  (forall k, 0 <= k < 64 -> f (sextet al k) = sextet al' k) ->
  bytes_ok l -> str_map f (encode al l) = encode al' l.
Proof.
  intros Hf. unfold str_map.
  induction l as [|a|a b|a b c l IH] using list_ind3; intros H; bytes_inv;
    cbn [encode str_flat_map String.append]; rewrite ?Hf by sextet_range;
    rewrite ?IH by done; done.
Qed.

Lemma str_forall_encode P al l :
  (forall k, 0 <= k < 64 -> P (sextet al k) = true) ->
  bytes_ok l -> str_forall P (encode al l) = true.
Proof.
  intros Hf. induction l as [|a|a b|a b c l IH] using list_ind3; intros H; bytes_inv;
    cbn [encode str_forall]; rewrite ?Hf by sextet_range; rewrite ?IH by done; done.
Qed.

Lemma bufferToB64url_encode l : bytes_ok l -> bufferToB64url l = encode url_chars l.
Proof.
  intros H. unfold bufferToB64url, btoa. rewrite bytes_of_char_codes, length_char_codes by done.
  rewrite replace_to_url. unfold str_map. rewrite str_flat_map_app.
  fold (str_map swap_std (encode std_chars l)).
  rewrite (str_map_encode swap_std std_chars url_chars) by (done || apply alphabets).
  unfold replace_char. rewrite str_flat_map_app.
  rewrite (str_flat_map_id _ is_url_char).
  - unfold pad_of. destruct (length l mod 3)%nat as [|[|[|]]]; apply str_app_nil_r.
  - intros c Hc. destruct (Ascii.eqb_spec c "="%char) as [->|]; [done|]. done.
  - by apply encode_url_chars.
Qed.

Lemma decode_encode l : bytes_ok l -> decode (encode std_chars l) = Some l.
Proof.
  assert (forall k, 0 <= k < 64 -> sextet_val (sextet std_chars k) = Some k) as Hv.
  { intros k Hk. by destruct (alphabets k Hk) as (_ & _ & ? & _). }
  induction l as [|a|a b|a b c l IH] using list_ind3; intros H; bytes_inv;
    cbn [encode decode]; rewrite ?Hv by sextet_range; cbn; rewrite ?IH by done; cbn;
    repeat f_equal; sextet_range.
Qed.

Lemma length_encode al l :
  (String.length (encode al l) mod 4 = match length l mod 3 with 1 => 2 | 2 => 3 | _ => 0 end)%nat.
Proof.
  induction l as [|a|a b|a b c l IH] using list_ind3; [done..|].
  cbn [encode String.length length].
  replace (S (S (S (length l)))) with (length l + 1 * 3)%nat by lia.
  replace (S (S (S (S (String.length (encode al l))))))
    with (String.length (encode al l) + 1 * 4)%nat by lia.
  by rewrite !Nat.Div0.mod_add.
Qed.

Lemma drop_pad_app s t :
  str_forall (fun c => negb (Ascii.eqb c "="%char)) s = true ->
  drop_pad (s +:+ t) = s +:+ drop_pad t.
Proof.
  induction s as [|c s IH]; cbn [str_forall]; [done|]. intros H; bool_prop.
  cbn [String.append]. rewrite <- IH by done. apply Ascii.eqb_neq in H.
  destruct c as [[] [] [] [] [] [] [] []]; try reflexivity. done.
Qed.

Lemma atob_encode l :
  bytes_ok l -> atob (encode std_chars l +:+ pad_of (length l)) = Some (from_char_codes l).
Proof.
  intros H. unfold atob. rewrite str_flat_map_app.
  rewrite (str_flat_map_id _ (fun c => negb (is_b64_ws c))); cycle 1.
  { intros c Hc. by apply negb_true_iff in Hc as ->. }
  { apply str_forall_encode; [|done]. intros k Hk.
    by destruct (alphabets k Hk) as (_ & _ & _ & -> & _). }
  pose proof (length_encode std_chars l) as Hlen.
  assert (str_forall (fun c => negb (Ascii.eqb c "="%char)) (encode std_chars l) = true) as Hp.
  { apply str_forall_encode; [|done]. intros k Hk. apply negb_true_iff, Ascii.eqb_neq.
    by destruct (alphabets k Hk) as (_ & _ & _ & _ & ?). }
  assert (length l mod 3 < 3)%nat as Hm by (apply Nat.mod_upper_bound; lia).
  unfold pad_of. destruct (length l mod 3)%nat as [|[|[|m]]] eqn:E; [..|lia].
  all: match goal with |- context [str_flat_map ?f ?p] =>
         let x := eval vm_compute in (str_flat_map f p) in change (str_flat_map f p) with x end.
  all: rewrite str_length_app, Nat.Div0.add_mod, Hlen;
       match goal with |- context [Nat.eqb ?a ?b] =>
         let x := eval vm_compute in (Nat.eqb a b) in change (Nat.eqb a b) with x end.
  all: cbv iota; rewrite drop_pad_app by done; cbn [drop_pad]; rewrite str_app_nil_r;
       by rewrite decode_encode.
Qed.

(** What [b64urlToBuffer] appends is the padding [btoa] would have written. *)
Lemma padding_encode al l :
  String.string_of_list_ascii
    (repeat "="%char ((4 - String.length (encode al l) mod 4) mod 4)) = pad_of (length l).
Proof.
  rewrite length_encode. unfold pad_of.
  assert (length l mod 3 < 3)%nat as Hm by (apply Nat.mod_upper_bound; lia).
  by destruct (length l mod 3)%nat as [|[|[|m]]]; [..|lia].
Qed.

Lemma b64urlToBuffer_encode l :
  bytes_ok l -> b64urlToBuffer (encode url_chars l) = Some l.
Proof.
  intros H. unfold b64urlToBuffer. rewrite padding_encode, replace_to_std.
  unfold str_map. rewrite str_flat_map_app. fold (str_map swap_url (encode url_chars l)).
  rewrite (str_map_encode swap_url url_chars std_chars) by (done || apply alphabets).
  assert (str_flat_map (fun c => String (swap_url c) "") (pad_of (length l)) = pad_of (length l)) as ->.
  { unfold pad_of. by destruct (length l mod 3)%nat as [|[|[|m]]]. }
  rewrite atob_encode by done. cbn. by rewrite bytes_of_char_codes.
Qed.

Lemma encode_inj al l1 l2 :
  al = url_chars -> bytes_ok l1 -> bytes_ok l2 -> encode al l1 = encode al l2 -> l1 = l2.
Proof.
  intros -> H1 H2 E%(f_equal b64urlToBuffer). rewrite !b64urlToBuffer_encode in E by done.
  congruence.
Qed.

(** ** What [atob] accepts *)

Definition is_sextet (c : Ascii.ascii) : bool := bool_decide (is_Some (sextet_val c)).
Definition b64_char (c : Ascii.ascii) : bool := is_b64_ws c || Ascii.eqb c "="%char || is_sextet c.

Lemma string_ind4 (P : string -> Prop) :
  P "" -> (forall a, P (String a "")) -> (forall a b, P (String a (String b ""))) ->
  (forall a b c, P (String a (String b (String c "")))) ->
  (forall a b c d r, P r -> P (String a (String b (String c (String d r))))) -> forall s, P s.
Proof.
  intros H0 H1 H2 H3 H4. fix IH 1.
  intros [|a [|b [|c [|d r]]]]; [exact H0|apply H1|apply H2|apply H3|apply H4, IH].
Qed.

Lemma decode_chars s : is_Some (decode s) -> str_forall is_sextet s = true.
Proof.
  unfold is_sextet.
  induction s as [|a|a b|a b c|a b c d r IH] using string_ind4; intros [l Hl]; [done|done|..];
    revert Hl; cbn [decode str_forall];
    repeat match goal with |- context [sextet_val ?x] =>
      destruct (sextet_val x); [|done] end; [done|done|].
  destruct (decode r) eqn:E; [|done]. intros _. cbn. apply IH. eauto.
Qed.

Lemma drop_pad_chars s :
  str_forall is_sextet (drop_pad s) = true -> str_forall b64_char s = true.
Proof.
  induction s as [|c s IH]; [done|].
  assert (String c s = "=" \/ String c s = "==" \/ drop_pad (String c s) = String c (drop_pad s))
    as [E|[E|E]].
  { destruct c as [[] [] [] [] [] [] [] []]; auto. destruct s as [|d s]; auto.
    destruct d as [[] [] [] [] [] [] [] []]; auto. destruct s; auto. }
  - by rewrite E.
  - by rewrite E.
  - rewrite E. cbn. intros H; bool_prop. rewrite IH by done. unfold b64_char.
    rewrite H. by rewrite orb_true_r.
Qed.

Lemma atob_chars s : is_Some (atob s) -> str_forall b64_char s = true.
Proof.
  unfold atob. set (t := str_flat_map _ s). intros [x Hx].
  assert (str_forall b64_char t = true) as Ht.
  { apply fmap_Some in Hx as (l & Hl & _). destruct (String.length t mod 4 =? 0)%nat.
    - apply drop_pad_chars, decode_chars. by rewrite Hl.
    - eapply str_forall_impl; [|apply decode_chars; by rewrite Hl].
      intros c Hc. unfold b64_char. rewrite Hc. by rewrite orb_true_r. }
  subst t. clear Hx. induction s as [|c s IH]; [done|]. cbn in *.
  rewrite str_forall_app in Ht. bool_prop. rewrite IH by done. rewrite andb_true_r.
  destruct (is_b64_ws c) eqn:E; [unfold b64_char; by rewrite E|]. cbn in H. by bool_prop.
Qed.

(** A base64url text that uses [-] or [_] is no base64 text. *)
Lemma atob_url s :
  str_forall (fun c => negb (in_set "-_" c)) s = false -> atob s = None.
Proof.
  intros H. apply eq_None_not_Some. intros Ha. apply atob_chars in Ha.
  assert (str_forall (fun c => negb (in_set "-_" c)) s = true) as Hs; [|congruence].
  eapply str_forall_impl; [|exact Ha]. intros c Hc. apply negb_true_iff.
  revert Hc. by destruct c as [[] [] [] [] [] [] [] []].
Qed.

(** Padding may be missing. *)
Lemma atob_unpadded l : bytes_ok l -> atob (encode std_chars l) = Some (from_char_codes l).
Proof.
  intros H. unfold atob. rewrite (str_flat_map_id _ (fun c => negb (is_b64_ws c))); cycle 1.
  { intros c Hc. by apply negb_true_iff in Hc as ->. }
  { apply str_forall_encode; [|done]. intros k Hk.
    by destruct (alphabets k Hk) as (_ & _ & _ & -> & _). }
  assert (drop_pad (encode std_chars l) = encode std_chars l) as Hd.
  { rewrite <- (str_app_nil_r (encode std_chars l)) at 1. rewrite drop_pad_app; [apply str_app_nil_r|].
    apply str_forall_encode; [|done]. intros k Hk. apply negb_true_iff, Ascii.eqb_neq.
    by destruct (alphabets k Hk) as (_ & _ & _ & _ & ?). }
  rewrite Hd. destruct (_ =? 0)%nat; by rewrite decode_encode.
Qed.

Lemma atob_swapped l :
  bytes_ok l ->
  atob (replace_char "_" "/" (replace_char "-" "+" (encode url_chars l))) = Some (from_char_codes l).
Proof.
  intros H. rewrite replace_to_std, (str_map_encode swap_url url_chars std_chars)
    by (done || apply alphabets). by apply atob_unpadded.
Qed.

#[export] Hint Resolve encode_url_chars : js.
#[export] Hint Rewrite base64UrlEncode_encode bufferToB64url_encode
  b64urlToBuffer_encode using done : js.

#[global] Arguments base64UrlEncode : simpl never.
#[global] Arguments bufferToB64url : simpl never.
#[global] Arguments bufferToBase64url : simpl never.
#[global] Arguments b64urlToBuffer : simpl never.
#[global] Arguments base64urlToBuffer : simpl never.
#[global] Arguments btoa : simpl never.
#[global] Arguments atob : simpl never.

(** C27. The base64url text the PKCE code produces decodes, with the WebAuthn
    decoder of the same console, to exactly the bytes it was made from. *)
Theorem base64url_roundtrip bytes :
  bytes_ok bytes -> b64urlToBuffer (base64UrlEncode bytes) = Some bytes.
Proof. intros H. by rewrite base64UrlEncode_encode, b64urlToBuffer_encode. Qed.

Lemma base64url_roundtrip_witness :
  b64urlToBuffer (base64UrlEncode [0; 62; 63; 255; 254]%Z) = Some [0; 62; 63; 255; 254]%Z.
Proof. apply base64url_roundtrip. repeat constructor; done. Defined.

(** The hand-written encoder of the PKCE module and the [btoa]-based encoders
    of the WebAuthn module and of the React SDK compute the same function on byte
    arrays, the unpadded base64url encoding of RFC 4648. *)
Lemma base64url_encoders_agree bytes :
  bytes_ok bytes ->
  base64UrlEncode bytes = encode url_chars bytes
  /\ bufferToB64url bytes = base64UrlEncode bytes
  /\ bufferToBase64url bytes = base64UrlEncode bytes.
Proof.
  intros H. rewrite base64UrlEncode_encode by done. split; [done|].
  split; by apply bufferToB64url_encode.
Qed.

Lemma base64url_encoders_agree_witness :
  base64UrlEncode [251; 255]%Z = encode url_chars [251; 255]%Z
  /\ bufferToB64url [251; 255]%Z = base64UrlEncode [251; 255]%Z
  /\ bufferToBase64url [251; 255]%Z = base64UrlEncode [251; 255]%Z.
Proof. apply base64url_encoders_agree. repeat constructor; done. Defined.
