(* ===== verification/OAuthPkce.v ===== *)
(** * Console: the OAuth PKCE flow (console/src/lib/oauth-pkce.ts)

    The digest is the platform's ([crypto.subtle.digest]), a parameter [sha256]
    here; [crypto.getRandomValues] is the environment's [entropy]. *)

From S2P Require Import Prelude JsValue JsString Json Effects Base64.

Section OAuthPkce.
Context {S : Type} (sha256 : list Z -> list Z).

Definition generateCodeVerifier : prog S string :=
  array ← random_bytes 32; mret (base64UrlEncode array).

Definition generateCodeChallenge (verifier : string) : prog S string :=
  let data := map Z.of_nat (utf8 verifier) in
  digest ← Act OYield (fun _ => Ret (sha256 data));
  mret (base64UrlEncode digest).

Definition generateState : prog S string :=
  array ← random_bytes 16; mret (base64UrlEncode array).

Record OAuthFlowState := {
  code_verifier : string;
  code_challenge : string;
  state : string;
  redirect_uri : string;
  client_id : string;
  scope : string
}.

Definition flow_js (f : OAuthFlowState) : js :=
  JObj [("code_verifier", JStr (code_verifier f)); ("code_challenge", JStr (code_challenge f));
        ("state", JStr (state f)); ("redirect_uri", JStr (redirect_uri f));
        ("client_id", JStr (client_id f)); ("scope", JStr (scope f))].

Definition flow_key : string := "ggid_oauth_flow".

Definition initOAuthFlow (authorizeUrl clientId redirectUri tenantId scope : string)
    : prog S string :=
  code_verifier ← generateCodeVerifier;
  code_challenge ← generateCodeChallenge code_verifier;
  state ← generateState;
  let flowState := Build_OAuthFlowState code_verifier code_challenge state redirectUri
                     clientId scope in
  setItem Session flow_key (stringify (flow_js flowState));;
  let params := URLSearchParams [
    ("response_type", "code"); ("client_id", clientId); ("redirect_uri", redirectUri);
    ("scope", scope); ("state", state); ("code_challenge", code_challenge);
    ("code_challenge_method", "S256"); ("tenant_id", tenantId)] in
  mret (authorizeUrl +:+ "?" +:+ params).

Definition default_scope : string := "openid profile email offline_access".

Definition validateCallback (state code : string) : prog S js :=
  stored ← getItem Session flow_key;
  match stored with
  | None | Some "" => Throw (error "No OAuth flow in progress")
  | Some stored =>
      flow ← json_parse stored;
      flow_state ← get flow "state";
      if negb (js_is_str flow_state state)
      then Throw (error "State mismatch — possible CSRF attack")
      else if String.eqb code "" then Throw (error "No authorization code received")
      else mret flow
  end.

Definition exchangeCodeForTokens (tokenUrl code : string) (flow : js) : prog S js :=
  redirect_uri ← get flow "redirect_uri";
  client_id ← get flow "client_id";
  code_verifier ← get flow "code_verifier";
  let body := URLSearchParams [
    ("grant_type", "authorization_code"); ("code", code);
    ("redirect_uri", to_str redirect_uri); ("client_id", to_str client_id);
    ("code_verifier", to_str code_verifier)] in
  resp ← fetch (Request POST tokenUrl
                  [("Content-Type", "application/x-www-form-urlencoded")] (Some body));
  if negb (rs_ok resp) then
    err ← resp_text resp; Throw (error ("Token exchange failed: " +:+ err))
  else
    removeItem Session flow_key;; resp_json resp.
End OAuthPkce.

#[global] Arguments validateCallback : simpl never.

(** ** Lemmas *)

(** What [crypto.getRandomValues] guarantees: it fills the array with bytes. *)
Definition entropy_ok (e : env) : Prop :=
  forall t n, length (entropy e t n) = n /\ bytes_ok (entropy e t n).

Lemma base64UrlEncode_length l n :
  bytes_ok l -> length l = (3 * n)%nat + 2 -> String.length (base64UrlEncode l) = 4 * n + 3.
Proof.
  intros H. rewrite base64UrlEncode_encode by done. clear H. revert n.
  induction l as [|a|a b|a b c l IH] using list_ind3; cbn [encode String.length length];
    intros n Hn; try lia. destruct n as [|n]; [lia|]. rewrite (IH n); lia.
Qed.

Lemma flow_js_wf f : json_wf (flow_js f) = true.
Proof. reflexivity. Qed.

Lemma flow_text_nonempty f : exists c r, stringify (flow_js f) = String c r.
Proof. destruct (stringify_head (flow_js f)) as (c & r & ? & _); eauto. Qed.

(** The flow a login attempt leaves behind, and the address it sends the user to. *)
Definition flow_of (sha256 : list Z -> list Z) (r32 r16 : list Z)
    (clientId redirectUri scope : string) : OAuthFlowState :=
  let v := base64UrlEncode r32 in
  Build_OAuthFlowState v (base64UrlEncode (sha256 (map Z.of_nat (utf8 v))))
    (base64UrlEncode r16) redirectUri clientId scope.

Section Flow.
Context {S : Type} (sha256 : list Z -> list Z) (e : env).

Lemma run_initOAuthFlow (w : world S) url cid ruri tid sc :
  let r32 := entropy e (w_trace w) 32 in
  let r16 := entropy e (ObsRand 32 :: w_trace w) 16 in
  let f := flow_of sha256 r32 r16 cid ruri sc in
  run e (initOAuthFlow sha256 url cid ruri tid sc) w =
    (Done (url +:+ "?" +:+ URLSearchParams [
       ("response_type", "code"); ("client_id", cid); ("redirect_uri", ruri); ("scope", sc);
       ("state", state f); ("code_challenge", code_challenge f);
       ("code_challenge_method", "S256"); ("tenant_id", tid)]),
     set_area Session (<[flow_key := stringify (flow_js f)]>)
       (log (ObsRand 16) (log (ObsRand 32) w))).
Proof. by destruct w. Qed.

Lemma run_validateCallback (w : world S) f st code :
  w_session w !! flow_key = Some (stringify (flow_js f)) ->
  run e (validateCallback st code) w =
  ((if negb (String.eqb (state f) st) then
      Raised (error "State mismatch — possible CSRF attack")
    else if String.eqb code "" then Raised (error "No authorization code received")
    else Done (flow_js f)), w).
Proof.
  intros Hs. unfold validateCallback. simpl. rewrite Hs.
  destruct (flow_text_nonempty f) as (c & r & E). rewrite E. cbn -[json_parse].
  unfold json_parse. rewrite <- E, JSON_parse_stringify by apply flow_js_wf. cbn.
  by repeat case_match.
Qed.

Lemma run_validateCallback_none (w : world S) st code :
  w_session w !! flow_key = None ->
  run e (validateCallback st code) w = (Raised (error "No OAuth flow in progress"), w).
Proof. intros Hs. unfold validateCallback. simpl. by rewrite Hs. Qed.
End Flow.

(** ** Properties *)

(** A generated code verifier meets RFC 7636: 43 characters, all unreserved,
    and it determines the random bytes it was drawn from, so two different draws
    never give the same verifier. *)
Lemma code_verifier_rfc7636 {S} (e : env) (w : world S) :
  entropy_ok e ->
  exists v, run e generateCodeVerifier w = (Done v, log (ObsRand 32) w)
  /\ String.length v = 43
  /\ str_forall is_url_char v = true
  /\ b64urlToBuffer v = Some (entropy e (w_trace w) 32).
Proof.
  intros He. destruct (He (w_trace w) 32) as [Hlen Hok].
  exists (base64UrlEncode (entropy e (w_trace w) 32)). split; [done|]. split_and!.
  - by rewrite (base64UrlEncode_length _ 10) by (done || lia).
  - rewrite base64UrlEncode_encode by done. by apply encode_url_chars.
  - rewrite base64UrlEncode_encode by done. by apply b64urlToBuffer_encode.
Qed.

Lemma code_verifier_rfc7636_witness :
  exists v, run (const_env None 200) generateCodeVerifier (empty_world tt)
            = (Done v, log (ObsRand 32) (empty_world tt))
  /\ String.length v = 43
  /\ str_forall is_url_char v = true
  /\ b64urlToBuffer v = Some (repeat 200%Z 32).
Proof.
  apply (code_verifier_rfc7636 (const_env None 200) (empty_world tt)).
  intros t n. split; [apply repeat_length|]. apply Forall_forall. intros x Hx.
  apply list_elem_of_In, repeat_spec in Hx as ->. done.
Defined.

(** C12. After [initOAuthFlow], the callback that comes back with the state put in
    the address and a code returns the stored flow (verifier included); any other
    state is refused as a possible forgery, and a missing code is refused.  The
    address carries the S256 challenge of the verifier. *)
Theorem oauth_flow_validates {S} (sha256 : list Z -> list Z) (e : env) (w : world S)
    url cid ruri tid sc r32 r16 flow st code :
  entropy e (w_trace w) 32 = r32 ->
  entropy e (ObsRand 32 :: w_trace w) 16 = r16 ->
  flow = flow_of sha256 r32 r16 cid ruri sc ->
  exists w',
    run e (initOAuthFlow sha256 url cid ruri tid sc) w =
      (Done (url +:+ "?" +:+ URLSearchParams [
         ("response_type", "code"); ("client_id", cid); ("redirect_uri", ruri); ("scope", sc);
         ("state", state flow); ("code_challenge", code_challenge flow);
         ("code_challenge_method", "S256"); ("tenant_id", tid)]), w')
    /\ (code <> "" -> run e (validateCallback (state flow) code) w' = (Done (flow_js flow), w'))
    /\ (st <> state flow ->
        run e (validateCallback st code) w'
        = (Raised (error "State mismatch — possible CSRF attack"), w'))
    /\ run e (validateCallback (state flow) "") w'
       = (Raised (error "No authorization code received"), w').
Proof.
  intros <- <- ->. eexists. split; [apply run_initOAuthFlow|].
  set (f := flow_of _ _ _ _ _ _). set (w' := set_area _ _ _).
  assert (w_session w' !! flow_key = Some (stringify (flow_js f))) as Hs.
  { destruct w. apply lookup_insert_eq. }
  split_and!; intros; rewrite (run_validateCallback _ _ f) by done.
  - by rewrite String.eqb_refl, (eqb_str_false code).
  - by rewrite (eqb_str_false (state f) st).
  - by rewrite String.eqb_refl.
Qed.

(** A successful exchange consumes the pending flow, so the same callback
    cannot be replayed; a refused exchange (or a network failure) leaves it. *)
Lemma exchange_consumes_flow {S} (e : env) (w : world S) f url code st code' :
  w_session w !! flow_key = Some (stringify (flow_js f)) ->
  let '(r, w') := run e (exchangeCodeForTokens url code (flow_js f)) w in
  match r with
  | Done _ => run e (validateCallback st code') w'
              = (Raised (error "No OAuth flow in progress"), w')
  | Raised x =>
      e_name x <> "SyntaxError" -> w_session w' !! flow_key = Some (stringify (flow_js f))
  end.
Proof.
  intros Hs. destruct w as [s l se c t]. unfold exchangeCodeForTokens. cbn -[URLSearchParams].
  set (rq := Request _ _ _ _). destruct (server e (ObsFetch rq :: t) rq) as [resp|]; cbn.
  - destruct (rs_ok resp); cbn; [|done].
    destruct (JSON_parse (rs_body resp)); cbn; [|done].
    apply run_validateCallback_none. simpl. apply lookup_delete_eq.
  - done.
Qed.

Definition demo_flow : OAuthFlowState := flow_of (fun l => l) (repeat 7%Z 32) (repeat 7%Z 16) "c" "r" "s".

Lemma oauth_flow_validates_witness :
  exists w',
    run (const_env None 7) (initOAuthFlow (fun l => l) "u" "c" "r" "t" "s") (empty_world tt) =
      (Done ("u" +:+ "?" +:+ URLSearchParams [
         ("response_type", "code"); ("client_id", "c"); ("redirect_uri", "r"); ("scope", "s");
         ("state", state demo_flow); ("code_challenge", code_challenge demo_flow);
         ("code_challenge_method", "S256"); ("tenant_id", "t")]), w')
    /\ ("k" <> "" -> run (const_env None 7) (validateCallback (state demo_flow) "k") w'
                     = (Done (flow_js demo_flow), w'))
    /\ ("x" <> state demo_flow ->
        run (const_env None 7) (validateCallback "x" "k") w'
        = (Raised (error "State mismatch — possible CSRF attack"), w'))
    /\ run (const_env None 7) (validateCallback (state demo_flow) "") w'
       = (Raised (error "No authorization code received"), w').
Proof.
  apply (oauth_flow_validates (fun l => l) (const_env None 7) (empty_world tt)
           "u" "c" "r" "t" "s" (repeat 7%Z 32) (repeat 7%Z 16) demo_flow "x" "k");
    reflexivity.
Defined.

Lemma exchange_consumes_flow_witness :
  let w := World tt ∅ {[flow_key := stringify (flow_js demo_flow)]} ∅ [] in
  let e := const_env (Some (Response 200 "{}")) 0 in
  let '(r, w') := run e (exchangeCodeForTokens "u" "k" (flow_js demo_flow)) w in
  match r with
  | Done _ => run e (validateCallback "x" "k") w'
              = (Raised (error "No OAuth flow in progress"), w')
  | Raised x =>
      e_name x <> "SyntaxError" -> w_session w' !! flow_key = Some (stringify (flow_js demo_flow))
  end.
Proof.
  apply (exchange_consumes_flow (const_env (Some (Response 200 "{}")) 0)
           (World tt ∅ {[flow_key := stringify (flow_js demo_flow)]} ∅ []) demo_flow
           "u" "k" "x" "k").
  apply lookup_singleton_eq.
Defined.
