(* ===== verification/ApiClient.v ===== *)
(** * Console: the API client (console/src/lib/api.ts, lines 1-200 and 420-456)

    [browser] is [typeof window !== "undefined"]; [API_BASE] and [TENANT_ID] are
    the module constants read when the module loads. *)

From S2P Require Import Prelude JsValue JsString Json Effects Base64.
Local Open Scope Z_scope.

(** ** Errors *)

Definition statusMap (status : Z) : option string :=
  match status with
  | 400 => Some "Bad Request"
  | 401 => Some "Unauthorized"
  | 403 => Some "Forbidden"
  | 404 => Some "Not Found"
  | 409 => Some "Conflict"
  | 422 => Some "Validation Error"
  | 429 => Some "Too Many Requests"
  | 500 => Some "Internal Server Error"
  | 502 => Some "Bad Gateway"
  | 503 => Some "Service Unavailable"
  | _ => None
  end.

Definition js_or_list (l : list js) (d : js) : js := fold_right js_or d l.

(** title, detail, requestId, code of a response body. *)
Definition error_parts (body : string) : js * js * js * js :=
  let title := JStr "Request Failed" in
  let detail := JStr body in
  match JSON_parse body with
  | Some ((JBool _ | JNum _ | JStr _ | JArr _ | JObj _) as parsed) =>
      let err := opt_prop parsed "error" in
      (js_or_list [opt_prop err "title"; opt_prop parsed "title"; opt_prop err "code"] title,
       js_or_list [opt_prop err "detail"; opt_prop parsed "detail"; opt_prop err "message";
                   opt_prop parsed "message"] detail,
       js_or_list [opt_prop parsed "request_id"; opt_prop err "request_id"] JNull,
       js_or_list [opt_prop err "code"; opt_prop parsed "code"] JNull)
  | _ =>
      (title,
       (if (200 <? Z.of_nat (String.length body)) then JStr "Internal server error" else detail),
       JNull, JNull)
  end.

Definition parseApiError (status : Z) (body : string) : exn :=
  let '(title, detail, requestId, code) := error_parts body in
  let title := if js_is_str title "Request Failed" then
                 match statusMap status with Some t => JStr t | None => title end
               else title in
  Exn "Error" (to_str title +:+ ": " +:+ to_str detail)
    [("status", JNum status); ("title", title); ("detail", detail);
     ("requestId", requestId); ("code", code)].

(** ** Requests *)

(** [Object.assign] on header objects. *)
Fixpoint hset (k v : string) (l : list (string * string)) : list (string * string) :=
  match l with
  | [] => [(k, v)]
  | (k', v') :: l' => if String.eqb k k' then (k, v) :: l' else (k', v') :: hset k v l'
  end.

Definition hassign (l m : list (string * string)) : list (string * string) :=
  fold_left (fun acc kv => hset kv.1 kv.2 acc) m l.

Fixpoint hget (k : string) (l : list (string * string)) : option string :=
  match l with
  | [] => None
  | (k', v) :: l' => if String.eqb k k' then Some v else hget k l'
  end.

Record RequestInit := {
  ri_method : option method;
  ri_headers : list (string * string);
  ri_body : option string
}.

(** [JSON.parse(atob(token.split(".")[1]))]; [None] is any of its exceptions. *)
Definition jwt_payload (token : js) : option js :=
  match token with
  | JStr t => s ← atob (nth 1 (split_on "."%char t) "undefined"); JSON_parse s
  | _ => None
  end.

(** [Array.isArray(v) ? v : [v]]. *)
Definition as_array (v : js) : js := if is_array v then v else JArr [v].

Definition nonempty (o : option string) : option string :=
  match o with Some "" => None | _ => o end.

Section ApiClient.
Context {S : Type} (browser : bool) (API_BASE TENANT_ID DEFAULT_TENANT_ID : string).

Definition getTenantId : prog S string :=
  if browser then
    t ← getItem Local "ggid_tenant_id"; mret (default DEFAULT_TENANT_ID (nonempty t))
  else mret DEFAULT_TENANT_ID.

Definition getAuthToken : prog S (option string) :=
  if browser then getItem Local "ggid_access_token" else mret None.

(** The headers [apiFetch] sends, given the stored token. *)
Definition api_headers (token : option string) (options : option RequestInit)
    : list (string * string) :=
  let headers := [("Content-Type", "application/json"); ("X-Tenant-ID", TENANT_ID)] in
  let headers := match nonempty token with
                 | Some t => hset "Authorization" ("Bearer " +:+ t) headers
                 | None => headers
                 end in
  match options with Some o => hassign headers (ri_headers o) | None => headers end.

Definition api_request (path : string) (options : option RequestInit)
    (headers : list (string * string)) : request :=
  Request (default GET (o ← options; ri_method o)) (API_BASE +:+ path) headers
    (o ← options; ri_body o).

Definition session_expired {A} : prog S A :=
  emit "ggid:unauthorized" JUndef;;
  Throw (parseApiError 401 ("{" +:+ dq +:+ "detail" +:+ dq +:+ ":" +:+ dq
                            +:+ "Session expired" +:+ dq +:+ "}")).

(** Lines 132-137: the scopes of the refreshed token, ignoring any failure. *)
Definition update_scopes (access_token : js) : prog S unit :=
  match jwt_payload access_token with
  | Some ((JBool _ | JNum _ | JStr _ | JArr _ | JObj _) as payload) =>
      let newScopes := js_or_list [opt_prop payload "scopes"; opt_prop payload "roles"]
                         (JArr [JStr "user"]) in
      setItem Local "ggid_user_scopes" (stringify (as_array newScopes))
  | _ => mret tt
  end.

(** Lines 121-157: [Some v] when the call returns [v] from inside the [try]. *)
Definition refresh_and_retry (path : string) (options : option RequestInit)
    (headers : list (string * string)) (refreshToken : string) : prog S (option js) :=
  try_catch (
    refreshResp ← fetch (Request POST (API_BASE +:+ "/oauth/token")
      [("Content-Type", "application/x-www-form-urlencoded")]
      (Some (URLSearchParams [("grant_type", "refresh_token");
                              ("refresh_token", refreshToken);
                              ("client_id", "gcid-console")])));
    if rs_ok refreshResp then
      tokens ← resp_json refreshResp;
      access_token ← get tokens "access_token";
      if truthy access_token then
        setItem Local "ggid_access_token" (to_str access_token);;
        let refresh_token := opt_prop tokens "refresh_token" in
        (if truthy refresh_token
         then setItem Local "ggid_refresh_token" (to_str refresh_token) else mret tt);;
        update_scopes access_token;;
        let retryHeaders := hset "Authorization" ("Bearer " +:+ to_str access_token) headers in
        retryResp ← fetch (api_request path options retryHeaders);
        if rs_status retryResp =? 401 then session_expired
        else if negb (rs_ok retryResp) then
          text ← resp_text retryResp; Throw (parseApiError (rs_status retryResp) text)
        else if rs_status retryResp =? 204 then mret (Some (JObj []))
        else v ← resp_json retryResp; mret (Some v)
      else mret None
    else mret None)
  (fun _ => mret None).

Definition apiFetch (path : string) (options : option RequestInit) : prog S js :=
  token ← getAuthToken;
  let headers := api_headers token options in
  resp ← fetch (api_request path options headers);
  if (rs_status resp =? 401) && browser && negb (str_includes "/auth/" path) then
    refreshToken ← getItem Local "ggid_refresh_token";
    returned ← match nonempty refreshToken with
               | Some r => refresh_and_retry path options headers r
               | None => mret None
               end;
    match returned with
    | Some v => mret v
    | None => session_expired
    end
  else if negb (rs_ok resp) then
    text ← resp_text resp; Throw (parseApiError (rs_status resp) text)
  else if rs_status resp =? 204 then mret (JObj [])
  else resp_json resp.
End ApiClient.

(** ** useUsers and useAuth *)

Record users_state := {
  users : js;
  users_loading : bool;
  users_error : option string
}.

Section UseUsers.
Context (browser : bool) (API_BASE TENANT_ID : string).

Definition useUsers_init : users_state := Build_users_state (JArr []) true None.

Definition setLoading (b : bool) : prog users_state unit :=
  upd (fun s => Build_users_state (users s) b (users_error s)).
Definition setUsers (v : js) : prog users_state unit :=
  upd (fun s => Build_users_state v (users_loading s) (users_error s)).
Definition setError (o : option string) : prog users_state unit :=
  upd (fun s => Build_users_state (users s) (users_loading s) o).

Definition useUsers_refresh : prog users_state unit :=
  setLoading true;;
  finally (try_catch (
    data ← apiFetch browser API_BASE TENANT_ID "/api/v1/users" None;
    us ← get data "users";
    setUsers (js_or_list [us; opt_prop data "items"] (JArr []));;
    setError None)
    (fun err => setError (Some (e_message err))))
  (setLoading false).
End UseUsers.

Record auth_state := { isAuthenticated : bool; auth_loading : bool }.

(** The keys [logout] clears. *)
Definition session_keys : list string :=
  ["ggid_access_token"; "ggid_refresh_token"; "ggid_session_id"; "ggid_tenant_id";
   "ggid_user_id"; "ggid_user_name"; "ggid_user_email"; "ggid_user_scopes";
   "ggid_user_permissions"].

Section UseAuth.
Context (browser : bool) (API_BASE_URL : string).

Definition useAuth_init : auth_state := Build_auth_state false true.

Definition useAuth_mount : prog auth_state unit :=
  token ← getAuthToken browser;
  upd (fun _ => Build_auth_state (bool_decide (is_Some (nonempty token))) false).

Definition useAuth_logout : prog auth_state unit :=
  token ← getAuthToken browser;
  match nonempty token with
  | Some t =>
      try_catch (fetch (Request POST (API_BASE_URL +:+ "/api/v1/auth/logout")
                   [("Content-Type", "application/json"); ("Authorization", "Bearer " +:+ t)]
                   None);; mret tt)
        (fun _ => mret tt)
  | None => mret tt
  end;;
  (if browser then remove_all session_keys else mret tt);;
  upd (fun s => Build_auth_state false (auth_loading s)).
End UseAuth.

#[global] Arguments parseApiError : simpl never.
#[global] Arguments apiFetch : simpl never.
#[global] Arguments refresh_and_retry : simpl never.
#[global] Arguments update_scopes : simpl never.
#[global] Arguments jwt_payload : simpl never.

(** ** Lemmas *)

Lemma nonempty_some s : s <> "" -> nonempty (Some s) = Some s.
Proof. by destruct s. Qed.

Lemma hget_hset k v l : hget k (hset k v l) = Some v.
Proof.
  induction l as [|[k' v'] l IH]; cbn; [by rewrite eqb_refl_str|].
  destruct (String.eqb k k') eqn:E; cbn; [by rewrite eqb_refl_str|]. by rewrite E.
Qed.

Lemma hget_hset_ne k k' v l : k <> k' -> hget k (hset k' v l) = hget k l.
Proof.
  intros Hk. induction l as [|[k2 v2] l IH]; cbn; [by rewrite eqb_str_false|].
  destruct (String.eqb k' k2) eqn:E; cbn.
  - apply String.eqb_eq in E as <-. by rewrite eqb_str_false.
  - by rewrite IH.
Qed.

(** The last of the assigned headers wins, over those that were there. *)
Lemma hget_hassign k l m :
  hget k (hassign l m) = match hget k (rev m) with Some v => Some v | None => hget k l end.
Proof.
  induction m as [|[k' v'] m IH] using rev_ind; [done|].
  unfold hassign in *. rewrite fold_left_app, rev_app_distr. cbn.
  destruct (String.eqb k k') eqn:E.
  - apply String.eqb_eq in E as ->. apply hget_hset.
  - apply String.eqb_neq in E. by rewrite hget_hset_ne.
Qed.

Definition unauthorized : obs := ObsEmit "ggid:unauthorized" JUndef.

Definition expired_error : exn :=
  Exn "Error" "Unauthorized: Session expired"
    [("status", JNum 401); ("title", JStr "Unauthorized"); ("detail", JStr "Session expired");
     ("requestId", JNull); ("code", JNull)].

Lemma expired_error_eq :
  parseApiError 401 ("{" +:+ dq +:+ "detail" +:+ dq +:+ ":" +:+ dq
                     +:+ "Session expired" +:+ dq +:+ "}") = expired_error.
Proof. by vm_compute. Qed.

(** What a response gives the caller when the session is not at stake. *)
Definition api_result (resp : response) : outcome js :=
  if negb (rs_ok resp) then Raised (parseApiError (rs_status resp) (rs_body resp))
  else if rs_status resp =? 204 then Done (JObj [])
  else match JSON_parse (rs_body resp) with
       | Some v => Done v
       | None => Raised syntax_error
       end.

(** The scopes the refresh leaves in the storage. *)
Definition scopes_after (access_token : js) (l : gmap string string) : gmap string string :=
  match jwt_payload access_token with
  | Some ((JBool _ | JNum _ | JStr _ | JArr _ | JObj _) as payload) =>
      <["ggid_user_scopes" := stringify (as_array (js_or_list
          [opt_prop payload "scopes"; opt_prop payload "roles"] (JArr [JStr "user"])))]> l
  | _ => l
  end.

Definition tokens_after (access_token refresh_token : js) (l : gmap string string)
    : gmap string string :=
  let l := <["ggid_access_token" := to_str access_token]> l in
  scopes_after access_token
    (if truthy refresh_token then <["ggid_refresh_token" := to_str refresh_token]> l else l).

(** ** Parts of JSON values *)

Lemma assoc_wf k l : members_wf l = true -> forall v, assoc k l = Some v -> json_wf v = true.
Proof.
  induction l as [|[k' x] l IH]; intros Hl v; [done|]. apply members_wf_cons in Hl as (_ & Hx & Hl).
  cbn [assoc]. destruct (String.eqb k k'); [by intros [= <-]|by apply IH].
Qed.

(** A property that counts as true is a JSON value of its own. *)
Lemma opt_prop_wf v k : json_wf v = true -> truthy (opt_prop v k) = true -> json_wf (opt_prop v k) = true.
Proof.
  intros Hv. unfold opt_prop. destruct v; try done. cbn [prop default]. intros Ht.
  destruct (assoc k l) as [x|] eqn:E; [|done]. by apply (assoc_wf k l Hv).
Qed.

Lemma or_list_wf v ks d :
  json_wf v = true -> json_wf d = true -> json_wf (js_or_list (map (opt_prop v) ks) d) = true.
Proof.
  intros Hv Hd. induction ks as [|k ks IH]; cbn [map js_or_list fold_right]; [done|].
  unfold js_or. destruct (truthy (opt_prop v k)) eqn:Ht; [by apply opt_prop_wf|done].
Qed.

Lemma jwt_payload_wf token payload : jwt_payload token = Some payload -> json_wf payload = true.
Proof.
  unfold jwt_payload. destruct token as [| | | |t| |]; try done. destruct (atob _); cbn; [|done]. apply JSON_parse_wf.
Qed.

Definition refresh_request (API_BASE refreshToken : string) : request :=
  Request POST (API_BASE +:+ "/oauth/token")
    [("Content-Type", "application/x-www-form-urlencoded")]
    (Some (URLSearchParams [("grant_type", "refresh_token");
                            ("refresh_token", refreshToken);
                            ("client_id", "gcid-console")])).

Section Run.
Context {S : Type} (e : env) (API_BASE TENANT_ID : string).

Lemma run_update_scopes (w : world S) t :
  run e (update_scopes t) w = (Done tt, set_area Local (scopes_after t) w).
Proof.
  unfold update_scopes, scopes_after. destruct w, (jwt_payload t) as [[]|]; reflexivity.
Qed.

Lemma run_session_expired {A} (w : world S) :
  run e (@session_expired S A) w = (Raised expired_error, log unauthorized w).
Proof. unfold session_expired. rewrite expired_error_eq. by destruct w. Qed.

Lemma run_plain (w : world S) resp :
  run e (if negb (rs_ok resp) then
           text ← resp_text resp; Throw (parseApiError (rs_status resp) text)
         else if rs_status resp =? 204 then mret (JObj []) else resp_json resp) w
  = (api_result resp, w).
Proof.
  unfold api_result. destruct (rs_ok resp); cbn; [|done].
  destruct (rs_status resp =? 204); cbn; [done|]. by destruct (JSON_parse (rs_body resp)).
Qed.
End Run.

(** The stored access token. *)
Definition stored_token (l : gmap string string) : option string := l !! "ggid_access_token".

Section ApiFetch.
Context {S : Type} (e : env) (API_BASE TENANT_ID : string).

Definition first_request (path : string) (options : option RequestInit)
    (l : gmap string string) : request :=
  api_request API_BASE path options (api_headers TENANT_ID (stored_token l) options).

(** The header [k] the caller gave. *)
Definition caller_header (options : option RequestInit) (k : string) : option string :=
  o ← options; hget k (rev (ri_headers o)).

Lemma first_request_headers path options l k :
  hget k (rq_headers (first_request path options l))
  = match caller_header options k with
    | Some v => Some v
    | None => hget k ([("Content-Type", "application/json"); ("X-Tenant-ID", TENANT_ID)]
                ++ match nonempty (stored_token l) with
                   | Some t => [("Authorization", "Bearer " +:+ t)]
                   | None => []
                   end)
    end.
Proof.
  unfold first_request, api_headers, caller_header. cbn [rq_headers api_request].
  destruct options as [o|]; cbn [mbind option_bind].
  - rewrite hget_hassign. destruct (hget k (rev (ri_headers o))); [done|].
    by destruct (nonempty _).
  - by destruct (nonempty _).
Qed.

(** The answer to the first request, and the world in which it arrives. *)
Definition first_world (w : world S) path options : world S :=
  log (ObsFetch (first_request path options (w_local w))) w.

Definition first_answer (w : world S) path options : option response :=
  let w1 := first_world w path options in
  server e (w_trace w1) (first_request path options (w_local w)).

Lemma run_apiFetch (w : world S) path options :
  run e (apiFetch true API_BASE TENANT_ID path options) w =
  let w1 := first_world w path options in
  match first_answer w path options with
  | None => (Raised network_error, w1)
  | Some resp =>
      if (rs_status resp =? 401) && negb (str_includes "/auth/" path) then
        run e (returned ← match nonempty (w_local w !! "ggid_refresh_token") with
                          | Some r => refresh_and_retry API_BASE path options
                               (api_headers TENANT_ID (stored_token (w_local w)) options) r
                          | None => mret None
                          end;
               match returned with Some v => mret v | None => session_expired end) w1
      else (api_result resp, w1)
  end.
Proof.
  unfold apiFetch, first_answer, first_world, getAuthToken. destruct w as [s l se c t].
  cbn -[str_includes]. unfold first_request, stored_token. cbn -[str_includes].
  destruct (server e _ _) as [resp|]; cbn -[str_includes]; [|done].
  rewrite andb_true_r. destruct (rs_status resp =? 401); cbn -[str_includes].
  - destruct (str_includes "/auth/" path); cbn; [apply (run_plain e (World s l se c _))|done].
  - apply (run_plain e (World s l se c _)).
Qed.
End ApiFetch.

Section Retry.
Context {S : Type} (e : env) (API_BASE TENANT_ID : string).

Definition retry_request path options headers (access_token : js) : request :=
  api_request API_BASE path options
    (hset "Authorization" ("Bearer " +:+ to_str access_token) headers).

Definition retry_world (w : world S) r tokens path options headers : world S :=
  let access_token := opt_prop tokens "access_token" in
  log (ObsFetch (retry_request path options headers access_token))
    (set_area Local (tokens_after access_token (opt_prop tokens "refresh_token"))
      (log (ObsFetch (refresh_request API_BASE r)) w)).

(** The tokens a refresh answer grants, when it grants any. *)
Definition granted (o : option response) : option js :=
  resp ← o;
  if rs_ok resp then
    tokens ← JSON_parse (rs_body resp);
    if truthy (opt_prop tokens "access_token") then Some tokens else None
  else None.

Lemma run_store_refresh (w : world S) v :
  run e (if truthy v then setItem Local "ggid_refresh_token" (to_str v) else mret tt) w
  = (Done tt, set_area Local (fun l => if truthy v
                                       then <["ggid_refresh_token" := to_str v]> l else l) w).
Proof. by destruct (truthy v), w. Qed.

Lemma run_refresh_granted (w : world S) path options headers r tokens :
  let w2 := log (ObsFetch (refresh_request API_BASE r)) w in
  let w4 := retry_world w r tokens path options headers in
  granted (server e (w_trace w2) (refresh_request API_BASE r)) = Some tokens ->
  run e (refresh_and_retry API_BASE path options headers r) w =
  match server e (w_trace w4) (retry_request path options headers
                                 (opt_prop tokens "access_token")) with
  | Some resp =>
      if rs_status resp =? 401 then (Done None, log unauthorized w4)
      else match api_result resp with
           | Done v => (Done (Some v), w4)
           | Raised _ => (Done None, w4)
           end
  | None => (Done None, w4)
  end.
Proof.
  intros w2 w4. unfold granted.
  destruct (server e (w_trace w2) _) as [resp|] eqn:Es; [|done]. cbn.
  destruct (rs_ok resp) eqn:Eok; [|done].
  destruct (JSON_parse (rs_body resp)) as [tk|] eqn:Ej; [|done]. cbn.
  destruct (truthy (opt_prop tk "access_token")) eqn:Et; [|done]. intros [= ->].
  destruct (prop tokens "access_token") as [at_|] eqn:Ep.
  2: { unfold opt_prop in Et. by rewrite Ep in Et. }
  assert (opt_prop tokens "access_token" = at_) as Eat by (unfold opt_prop; by rewrite Ep).
  rewrite Eat in *. subst w2. unfold refresh_and_retry. run_steps.
  fold (refresh_request API_BASE r). rewrite Es. cbn match. rewrite Eok.
  run_steps. rewrite Ej. run_steps. rewrite (run_get _ _ _ _ _ Ep).
  cbn beta match. rewrite Et. run_steps. rewrite run_store_refresh.
  cbn match. run_steps. rewrite run_update_scopes. cbn match. run_steps.
  replace (log _ (set_area Local (scopes_after at_) _)) with w4.
  2: { subst w4. unfold retry_world. rewrite Eat. destruct w. done. }
  fold (retry_request path options headers at_).
  destruct (server e (w_trace w4) _) as [resp3|]; cbn match; run_steps; [|done].
  unfold api_result. destruct (rs_status resp3 =? 401).
  { by rewrite run_session_expired. }
  destruct (rs_ok resp3); cbn; run_steps; [|done].
  destruct (rs_status resp3 =? 204); run_steps; [done|].
  by destruct (JSON_parse (rs_body resp3)).
Qed.

(** A refresh that grants nothing changes nothing but the trace. *)
Lemma run_refresh_refused (w : world S) path options headers r :
  let w2 := log (ObsFetch (refresh_request API_BASE r)) w in
  granted (server e (w_trace w2) (refresh_request API_BASE r)) = None ->
  run e (refresh_and_retry API_BASE path options headers r) w = (Done None, w2).
Proof.
  intros w2. unfold granted, refresh_and_retry. run_steps. subst w2.
  fold (refresh_request API_BASE r). set (w2 := log _ w).
  destruct (server e (w_trace w2) _) as [resp|]; cbn match; run_steps; [|done].
  destruct (rs_ok resp) eqn:Eok; cbn; rewrite Eok; run_steps; [|done].
  destruct (JSON_parse (rs_body resp)) as [tk|]; cbn; [|done].
  unfold opt_prop, get. destruct (prop tk "access_token") as [v|]; cbn; [|done].
  by destruct (truthy v).
Qed.
End Retry.

(** ** What the operations leave alone *)

Section Frame.
Context {S : Type}.

Lemma keeps_st_apiFetch browser API_BASE TENANT_ID path options :
  keeps_st (apiFetch (S:=S) browser API_BASE TENANT_ID path options).
Proof.
  unfold apiFetch, getAuthToken, session_expired, refresh_and_retry, update_scopes, emit,
    fetch, resp_json, resp_text, get, setItem.
  repeat first [ apply keeps_st_bind | apply keeps_st_try | intro | split_match
               | split | exact I ].
Qed.

(** The items a refresh stores. *)
Definition token_keys : list string := ["ggid_access_token"; "ggid_refresh_token"; "ggid_user_scopes"].

Lemma keeps_item_apiFetch k browser API_BASE TENANT_ID path options :
  ~ In k token_keys -> keeps_item k (apiFetch (S:=S) browser API_BASE TENANT_ID path options).
Proof.
  intros Hk. assert (forall k', In k' token_keys -> k' <> k) as Hne by (intros k' Hk' ->; done). clear Hk.
  unfold apiFetch, getAuthToken, session_expired, refresh_and_retry, update_scopes, emit,
    fetch, resp_json, resp_text, get, setItem.
  repeat first [ apply keeps_item_bind | apply keeps_item_try | (apply Hne; cbn; tauto) | intro | split_match
               | split | exact I ].
Qed.

Lemma fetches_le_update_scopes t : fetches_le (S:=S) 0 (update_scopes t).
Proof. unfold update_scopes. by destruct (jwt_payload t) as [[]|]; cbn. Qed.

Lemma fetches_le_refresh API_BASE path options headers r :
  fetches_le (S:=S) 2 (refresh_and_retry API_BASE path options headers r).
Proof.
  apply fetches_le_try; [|done]. apply (fetches_le_bind 1 1); [by intros [|]; cbn|].
  intros resp. destruct (rs_ok resp); [|done].
  apply (fetches_le_bind 0 1); [by intros; cbn; split_matches|]. intros tokens.
  apply (fetches_le_bind 0 1); [by unfold get; split_matches|]. intros t.
  destruct (truthy t); [|done]. apply (fetches_le_bind 0 1); [done|]. intros _.
  apply (fetches_le_bind 0 1); [by split_matches|]. intros _.
  apply (fetches_le_bind 0 1); [apply fetches_le_update_scopes|]. intros _.
  apply (fetches_le_bind 1 0); [by intros [|]; cbn|]. intros resp'.
  unfold resp_json, resp_text, session_expired. cbn. by repeat (split_match || intros ?; cbn).
Qed.
End Frame.

(** ** Properties *)

(** C1. When the session is not at stake (any status but 401, or a call under
    /auth/), [apiFetch] is one request, carrying the stored token unless the caller
    gave its own Authorization header, and its result is exactly the response's: the
    structured error of [parseApiError] when not ok, [{}] for 204, the JSON else. *)
Theorem apiFetch_direct {S} (e : env) (w : world S) API_BASE TENANT_ID path options resp :
  first_answer e API_BASE TENANT_ID w path options = Some resp ->
  rs_status resp <> 401 \/ str_includes "/auth/" path = true ->
  run e (apiFetch true API_BASE TENANT_ID path options) w
  = (api_result resp, first_world API_BASE TENANT_ID w path options)
  /\ let rq := first_request API_BASE TENANT_ID path options (w_local w) in
     let header k := hget k (rq_headers rq) in
     let given k d := match caller_header options k with Some v => Some v | None => d end in
     rq_url rq = API_BASE +:+ path
     /\ header "Authorization"
        = given "Authorization" (String.append "Bearer " <$> nonempty (stored_token (w_local w)))
     /\ header "X-Tenant-ID" = given "X-Tenant-ID" (Some TENANT_ID)
     /\ header "Content-Type" = given "Content-Type" (Some "application/json").
Proof.
  intros Ha Hs. split.
  2: { cbv beta zeta. rewrite !first_request_headers. split_and!; [done|..];
         destruct (caller_header _ _); by try destruct (nonempty _). }
  rewrite run_apiFetch, Ha. cbn zeta.
  destruct (Z.eqb_spec (rs_status resp) 401) as [E|E]; [|done].
  destruct Hs as [?|Hs]; [done|]. by rewrite Hs.
Qed.

(** A 401 that cannot be refreshed (no refresh token stored, or the token
    endpoint grants nothing: unreachable, refused, malformed) logs the user out:
    exactly one [ggid:unauthorized] event, a 401 "Session expired" error, and no
    change to what is stored. *)
Lemma apiFetch_unrefreshable {S} (e : env) (w : world S) API_BASE TENANT_ID path options resp :
  let w1 := first_world API_BASE TENANT_ID w path options in
  let refresh := nonempty (w_local w !! "ggid_refresh_token") in
  let w2 r := log (ObsFetch (refresh_request API_BASE r)) w1 in
  first_answer e API_BASE TENANT_ID w path options = Some resp ->
  rs_status resp = 401 -> str_includes "/auth/" path = false ->
  (forall r, refresh = Some r ->
     granted (server e (w_trace (w2 r)) (refresh_request API_BASE r)) = None) ->
  run e (apiFetch true API_BASE TENANT_ID path options) w
  = (Raised expired_error,
     log unauthorized (match refresh with Some r => w2 r | None => w1 end)).
Proof.
  intros w1 refresh w2 Ha Hs Hp Hg. rewrite run_apiFetch, Ha, Hs, Hp. cbn zeta match.
  fold refresh. rewrite run_mbind. destruct refresh as [r|] eqn:Er.
  - rewrite run_refresh_refused by by apply Hg. apply run_session_expired.
  - apply run_session_expired.
Qed.

(** C2. A 401 whose refresh is granted stores the new access token (and the new
    refresh token and scopes when given), then repeats the request with the new
    token.  A retry that succeeds is the result, with no logout event.  A retry that
    fails in any way (403, 500, network) is reported as an expired session all the
    same, and a second 401 raises the logout event twice. *)
Theorem apiFetch_refresh_retry {S} (e : env) (w : world S) API_BASE TENANT_ID path options
    resp r tokens :
  let headers := api_headers TENANT_ID (stored_token (w_local w)) options in
  let w1 := first_world API_BASE TENANT_ID w path options in
  let w2 := log (ObsFetch (refresh_request API_BASE r)) w1 in
  let w4 := retry_world API_BASE w1 r tokens path options headers in
  let retry := retry_request API_BASE path options headers (opt_prop tokens "access_token") in
  first_answer e API_BASE TENANT_ID w path options = Some resp ->
  rs_status resp = 401 -> str_includes "/auth/" path = false ->
  nonempty (w_local w !! "ggid_refresh_token") = Some r ->
  granted (server e (w_trace w2) (refresh_request API_BASE r)) = Some tokens ->
  run e (apiFetch true API_BASE TENANT_ID path options) w =
  match server e (w_trace w4) retry with
  | None => (Raised expired_error, log unauthorized w4)
  | Some resp' =>
      if rs_status resp' =? 401
      then (Raised expired_error, log unauthorized (log unauthorized w4))
      else match api_result resp' with
           | Done v => (Done v, w4)
           | Raised _ => (Raised expired_error, log unauthorized w4)
           end
  end.
Proof.
  intros headers w1 w2 w4 retry Ha Hs Hp Hr Hg. rewrite run_apiFetch, Ha, Hs, Hp, Hr.
  cbn zeta. rewrite run_mbind. fold headers w1. rewrite (run_refresh_granted _ _ _ _ _ _ _ tokens) by done.
  fold w4 retry. destruct (server e (w_trace w4) retry) as [resp'|]; [|apply run_session_expired].
  destruct (rs_status resp' =? 401); [apply run_session_expired|].
  destruct (api_result resp'); [done|apply run_session_expired].
Qed.

(** Whatever the server answers, one call makes at most three requests: the
    request, one refresh, one retry.  It never loops on 401s. *)
Lemma apiFetch_bounded {S} browser API_BASE TENANT_ID path options :
  fetches_le (S:=S) 3 (apiFetch browser API_BASE TENANT_ID path options).
Proof.
  unfold apiFetch. apply (fetches_le_bind 0 3); [by destruct browser|]. intros token.
  apply (fetches_le_bind 1 2); [by intros [|]; cbn|]. intros resp.
  destruct (_ && _ && _).
  - apply (fetches_le_bind 0 2); [done|]. intros r. apply (fetches_le_bind 2 0).
    + destruct (nonempty r); [apply fetches_le_refresh|done].
    + intros [v|]; [done|]. by cbn.
  - apply (fetches_le_mono 0); [lia|]. unfold resp_json, resp_text. cbn.
    by repeat (split_match || intros ?; cbn).
Qed.

(** An error body that is not JSON (a proxy's page, an empty body) is reported
    under the name of its status, with its text when it is short; a text of more than
    200 bytes never reaches the message. *)
Lemma parseApiError_text status body :
  JSON_parse body = None ->
  e_message (parseApiError status body)
  = default "Request Failed" (statusMap status) +:+ ": "
    +:+ (if 200 <? Z.of_nat (String.length body) then "Internal server error" else body)
  /\ assoc "status" (e_fields (parseApiError status body)) = Some (JNum status)
  /\ assoc "code" (e_fields (parseApiError status body)) = Some JNull.
Proof.
  intros Hb. unfold parseApiError, error_parts. rewrite Hb. cbn [js_is_str]. rewrite eqb_refl_str.
  split; [|done]. cbn. destruct (statusMap status), (200 <? _); reflexivity.
Qed.

(** Loading the user list never throws: whatever the API does, the call ends
    with [loading] false; on success the list is [users], or else [items], or else
    empty, and the error is cleared; on any failure the previous list stays and the
    error is the failure's message. *)
Lemma useUsers_refresh_settles (e : env) w browser API_BASE TENANT_ID :
  let '(o, w1) := run e (data ← apiFetch browser API_BASE TENANT_ID "/api/v1/users" None;
                         us ← get data "users"; mret (data, us))
                    (set_st (fun s => Build_users_state (users s) true (users_error s)) w) in
  exists w', run e (useUsers_refresh browser API_BASE TENANT_ID) w = (Done tt, w')
  /\ w_local w' = w_local w1
  /\ w_st w' = match o with
               | Done (data, us) =>
                   Build_users_state (js_or_list [us; opt_prop data "items"] (JArr [])) false None
               | Raised x => Build_users_state (users (w_st w)) false (Some (e_message x))
               end.
Proof.
  unfold useUsers_refresh, setLoading, setUsers, setError. run_steps.
  set (w0 := set_st _ w).
  pose proof (keeps_st_run e (apiFetch browser API_BASE TENANT_ID "/api/v1/users" None) w0
                (keeps_st_apiFetch _ _ _ _ _)) as Hst.
  destruct (run e (apiFetch _ _ _ _ _) w0) as [[data|x] w1]; cbn [snd] in Hst; cbn match.
  - unfold get at 1 2. destruct (prop data "users") as [us|]; run_steps.
    + eexists; split; [done|]. destruct w1; done.
    + eexists; split; [done|]. destruct w1, w; cbn in *; subst; done.
  - run_steps. eexists; split; [done|]. destruct w1, w; cbn in *; subst; done.
Qed.

Lemma run_useAuth_logout (e : env) w API_BASE_URL :
  exists w', run e (useAuth_logout true API_BASE_URL) w = (Done tt, w')
  /\ isAuthenticated (w_st w') = false
  /\ (forall k, In k session_keys -> w_local w' !! k = None)
  /\ (forall k, ~ In k session_keys -> w_local w' !! k = w_local w !! k).
Proof.
  unfold useAuth_logout, getAuthToken. run_steps.
  destruct (nonempty _) as [t|]; run_steps; [destruct (server e _ _); run_steps|];
    (eexists; split; [done|]; autorewrite with world; split; [done|]; split; intros k Hk;
     [by apply lookup_foldr_delete, in_rev|apply lookup_foldr_delete_ne; by rewrite <- in_rev]).
Qed.

(** Logging out never fails, even when the server cannot be reached: it makes at
    most one request, leaves the state unauthenticated, removes every session key
    from the storage and touches no other key. *)
Lemma useAuth_logout_clears (e : env) w API_BASE_URL :
  exists w', run e (useAuth_logout true API_BASE_URL) w = (Done tt, w')
  /\ isAuthenticated (w_st w') = false
  /\ (forall k, In k session_keys -> w_local w' !! k = None)
  /\ (forall k, ~ In k session_keys -> w_local w' !! k = w_local w !! k).
Proof. apply run_useAuth_logout. Qed.

(** [apiFetch] touches no state, and sends its request, with some headers, and a refresh. *)
Lemma tame_apiFetch {S} (P : S -> Prop) (O : obs -> Prop) API_BASE TENANT_ID path options :
  (forall headers, O (ObsFetch (api_request API_BASE path options headers))) ->
  (forall r, O (ObsFetch (refresh_request API_BASE r))) -> O (ObsEmit "ggid:unauthorized" JUndef) ->
  tame P O (apiFetch true API_BASE TENANT_ID path options).
Proof.
  intros Hq Hr He.
  assert (forall A, tame P O (session_expired (A := A))) as Hs by (intros A; by split).
  unfold apiFetch, getAuthToken, refresh_and_retry, update_scopes, resp_text. tame_prog; auto.
  all: first [exact (Hr _) | by repeat split].
Qed.

(** [apiFetch] sends its request, with some headers. *)
Lemma apiFetch_sends {S} (e : env) API_BASE TENANT_ID path options (w : world S) :
  exists o, (exists headers, o = ObsFetch (api_request API_BASE path options headers))
  /\ In o (w_trace (run e (apiFetch true API_BASE TENANT_ID path options) w).2).
Proof.
  unfold apiFetch, getAuthToken. rewrite run_mbind, run_getItem.
  set (headers := api_headers _ _ _). exists (ObsFetch (api_request API_BASE path options headers)).
  split; [by exists headers|]. rewrite run_mbind, run_fetch. cbn zeta.
  set (w1 := log _ w). assert (In (ObsFetch (api_request API_BASE path options headers)) (w_trace w1)) as Hin
    by (unfold w1; destruct w; by left).
  destruct (server e (w_trace w1) _); [by apply run_trace_In|done].
Qed.

(** ** Witnesses *)

Definition demo_json (k v : string) : string := stringify (JObj [(k, JStr v)]).

Definition demo_refresh : response :=
  Response 200 (stringify (JObj [("access_token", JStr "new"); ("refresh_token", JStr "r2")])).

Definition demo_storage : gmap string string :=
  {["ggid_access_token" := "old"; "ggid_refresh_token" := "r1"]}.

Definition demo_env (l : list (option response)) : env :=
  script_env l (fun _ => 0) (fun _ _ _ => None).

Lemma apiFetch_direct_witness :
  run (demo_env [Some (Response 204 "")]) (apiFetch true "" "t" "/x" None) (page tt demo_storage)
  = (Done (JObj []), first_world "" "t" (page tt demo_storage) "/x" None).
Proof.
  refine (proj1 (apiFetch_direct (demo_env [Some (Response 204 "")]) (page tt demo_storage)
           "" "t" "/x" None (Response 204 "") _ _)); [reflexivity|left; done].
Defined.

Lemma apiFetch_unrefreshable_witness :
  run (demo_env [Some (Response 401 ""); Some (Response 400 "")])
    (apiFetch true "" "t" "/x" None) (page tt demo_storage)
  = (Raised expired_error,
     log unauthorized (log (ObsFetch (refresh_request "" "r1"))
       (first_world "" "t" (page tt demo_storage) "/x" None))).
Proof.
  apply (apiFetch_unrefreshable (demo_env [Some (Response 401 ""); Some (Response 400 "")])
           (page tt demo_storage) "" "t" "/x" None (Response 401 "")); try reflexivity.
Defined.

Definition demo_retry (third : response) : outcome js * nat :=
  let '(o, w) := run (demo_env [Some (Response 401 ""); Some demo_refresh; Some third])
                   (apiFetch true "" "t" "/x" None) (page tt demo_storage) in
  (o, emitted "ggid:unauthorized" (w_trace w)).

(** A retry answered 401 raises the event twice; one answered 403 is an expired session. *)
Example demo_retry_results :
  demo_retry (Response 200 (demo_json "a" "b")) = (Done (JObj [("a", JStr "b")]), 0%nat)
  /\ demo_retry (Response 403 "") = (Raised expired_error, 1%nat)
  /\ demo_retry (Response 401 "") = (Raised expired_error, 2%nat).
Proof. vm_compute. done. Qed.

Lemma apiFetch_refresh_retry_witness :
  exists w', run (demo_env [Some (Response 401 ""); Some demo_refresh; Some (Response 204 "")])
    (apiFetch true "" "t" "/x" None) (page tt demo_storage) = (Done (JObj []), w').
Proof.
  eexists. etransitivity.
  - apply (apiFetch_refresh_retry
             (demo_env [Some (Response 401 ""); Some demo_refresh; Some (Response 204 "")])
             (page tt demo_storage) "" "t" "/x" None (Response 401 "") "r1"
             (JObj [("access_token", JStr "new"); ("refresh_token", JStr "r2")])); reflexivity.
  - reflexivity.
Defined.

Lemma parseApiError_text_witness :
  e_message (parseApiError 503 "") = "Service Unavailable: "
  /\ assoc "status" (e_fields (parseApiError 503 "")) = Some (JNum 503)
  /\ assoc "code" (e_fields (parseApiError 503 "")) = Some JNull.
Proof. apply (parseApiError_text 503 ""). reflexivity. Defined.
