(* ===== verification/Access.v ===== *)
(** * Console: roles, permissions and the sidebar (console/src/lib/api.ts, lines 202-418;
    console/src/components/sidebar.tsx, PermissionGuard.tsx)

    A value read back from the storage has the type [string[]] only by assertion,
    so the functions below take a JavaScript value; [None] is the TypeError thrown
    when it is not what the code expects. *)

From S2P Require Import Prelude JsValue JsString Json Effects ApiClient.
Local Open Scope Z_scope.

Inductive UserRole := user | tenant_admin | platform_admin.
#[export] Instance UserRole_eq_dec : EqDecision UserRole.
Proof. solve_decision. Defined.

(** ** Roles *)

Section Scopes.
Context {S : Type} (browser : bool).

Definition getUserScopes : prog S js :=
  if browser then
    raw ← getItem Local "ggid_user_scopes";
    match nonempty raw with
    | Some raw => mret (default (JArr [JStr "user"]) (JSON_parse raw))
    | None => mret (JArr [JStr "user"])
    end
  else mret (JArr [JStr "user"]).

Definition is_platform_scope (s : js) : option bool :=
  ls ← js_lower s;
  Some (String.eqb ls "platform:admin" || String.eqb ls "platform administrator"
        || String.eqb ls "platform_admin").

Definition is_tenant_scope (s : js) : option bool :=
  ls ← js_lower s;
  Some (String.eqb ls "tenant:admin" || String.eqb ls "manager"
        || String.eqb ls "tenant administrator" || String.eqb ls "tenant_admin"
        || String.eqb ls "administrator").

Definition role_of_scopes (scopes : js) : option UserRole :=
  isPlatform ← js_some scopes is_platform_scope;
  if (isPlatform : bool) then Some platform_admin
  else isTenant ← js_some scopes is_tenant_scope;
       Some (if (isTenant : bool) then tenant_admin else user).

Definition getUserRole : prog S UserRole :=
  scopes ← getUserScopes;
  match role_of_scopes scopes with
  | Some r => mret r
  | None => Throw (type_error "not a list of scopes")
  end.
End Scopes.

(** [k.replace(/[:_]/g, " ")]. *)
Definition spaced (k : string) : string := replace_char "_"%char " " (replace_char ":"%char " " k).

Definition role_matches (k : string) (ls : string) : bool :=
  let normalized := to_lower (spaced k) in
  String.eqb ls normalized || String.eqb ls (to_lower k) || String.eqb ls (spaced normalized)
  || (str_includes "admin" k
      && (String.eqb ls "administrator" || String.eqb ls "platform:admin"
          || String.eqb ls "tenant:admin")).

Definition hasRole (scopes : list string) (keys : list string) : bool :=
  existsb (fun k => str_mem k scopes
                    || existsb (role_matches k) (map to_lower scopes)) keys.

(** The elements of an array of strings; [None]: [s.toLowerCase] throws while rendering. *)
Definition scope_list (scopes : js) : option (list string) :=
  match scopes with
  | JArr l => mapM (fun v => match v with JStr s => Some s | _ => None end) l
  | _ => None
  end.

Definition role_of_list (scopes : list string) : UserRole :=
  if hasRole scopes ["platform:admin"; "platform administrator"] then platform_admin
  else if hasRole scopes ["tenant:admin"; "manager"; "administrator"] then tenant_admin
  else user.

Record user_role := {
  ur_role : UserRole;
  ur_scopes : list string;
  isPlatformAdmin : bool;
  isTenantAdmin : bool;
  isAdmin : bool
}.

(** A render of [useUserRole] whose state holds [scopes]. *)
Definition useUserRole (scopes : js) : option user_role :=
  l ← scope_list scopes;
  let role := role_of_list l in
  Some {| ur_role := role;
          ur_scopes := l;
          isPlatformAdmin := bool_decide (role = platform_admin);
          isTenantAdmin := bool_decide (role = tenant_admin);
          isAdmin := bool_decide (role = platform_admin) || bool_decide (role = tenant_admin) |}.

(** PermissionGuard: whether the children are shown. *)
Definition PermissionGuard (r : user_role) (requiredScope : string) : bool :=
  isPlatformAdmin r || str_mem requiredScope (ur_scopes r).

(** ** Permissions *)

(** [scopeOrder[s] || 0]: a rank, or for a name every object inherits the text the
    inherited value converts to. *)
Inductive rank := Rank (n : Z) | Inherited (text : string).

Definition native (f : string) : rank := Inherited ("function " +:+ f +:+ "() { [native code] }").

Definition scope_rank (s : string) : rank :=
  if String.eqb s "own" then Rank 1
  else if String.eqb s "department" then Rank 2
  else if String.eqb s "tenant" then Rank 3
  else if String.eqb s "all" then Rank 4
  else if String.eqb s "__proto__" then Inherited "[object Object]"
  else if String.eqb s "constructor" then native "Object"
  else if str_mem s ["hasOwnProperty"; "isPrototypeOf"; "propertyIsEnumerable"; "toString";
                     "valueOf"; "toLocaleString"; "__defineGetter__"; "__defineSetter__";
                     "__lookupGetter__"; "__lookupSetter__"] then native s
  else Rank 0.

Fixpoint str_geb (a b : string) : bool :=
  match a, b with
  | _, EmptyString => true
  | EmptyString, String _ _ => false
  | String x a', String y b' =>
      if (code y <? code x)%nat then true
      else if (code x <? code y)%nat then false else str_geb a' b'
  end.

(** [a >= b]: two texts compare as strings; a text against a number is NaN. *)
Definition rank_geb (a b : rank) : bool :=
  match a, b with
  | Rank m, Rank n => n <=? m
  | Inherited s, Inherited t => str_geb s t
  | _, _ => false
  end.

(** The predicate of lines 402-405, on one permission. *)
Definition covers (resource action : string) (required : rank) (p : js) : option bool :=
  match p with
  | JStr p =>
      Some (match split_on ":"%char p with
            | pp0 :: pp1 :: pp2 :: _ =>
                String.eqb pp0 resource && String.eqb pp1 action
                && rank_geb (scope_rank pp2) required
            | _ => false
            end)
  | _ => None
  end.

Definition hasPermission (isPlatformAdmin isTenantAdmin : bool) (permissions : js)
    (key : string) : option bool :=
  if isPlatformAdmin || isTenantAdmin then Some true
  else
    platform ← js_includes permissions "platform:admin";
    system ← js_includes permissions "system:admin";
    if (platform || system : bool) then Some true
    else
      exact ← js_includes permissions key;
      if (exact : bool) then Some true
      else match split_on ":"%char key with
           | resource :: action :: s :: _ =>
               js_some permissions (covers resource action (scope_rank s))
           | _ => Some false
           end.

Definition getUserPermissions {S} (browser : bool) : prog S js :=
  if browser then
    raw ← getItem Local "ggid_user_permissions";
    match nonempty raw with
    | Some raw => mret (default (JArr []) (JSON_parse raw))
    | None => mret (JArr [])
    end
  else mret (JArr []).

(** The hook's state, and the window's [__permissionsFailTs]. *)
Record perm_state := { permissions : js; perm_loading : bool; failTs : Z }.

Section UserPermissions.
Context (browser : bool) (API_BASE_URL DEFAULT_TENANT_ID : string).

Definition perm_init : perm_state := Build_perm_state (JArr []) true 0.

Definition setPermissions (v : js) : prog perm_state unit :=
  upd (fun s => Build_perm_state v (perm_loading s) (failTs s)).
Definition setPermLoading (b : bool) : prog perm_state unit :=
  upd (fun s => Build_perm_state (permissions s) b (failTs s)).
Definition cache_failure : prog perm_state unit :=
  if browser then t ← now; upd (fun s => Build_perm_state (permissions s) (perm_loading s) t)
  else mret tt.

Definition permissions_request (token : string) : request :=
  Request GET (API_BASE_URL +:+ "/api/v1/me/permissions")
    [("Authorization", "Bearer " +:+ token); ("X-Tenant-ID", DEFAULT_TENANT_ID)] None.

(** [None] is the [null] of the source. *)
Definition fetchUserPermissions : prog perm_state (option js) :=
  recent ← (if browser then
              s ← get_state; t ← now; mret (t - failTs s <? 60000)
            else mret false);
  if (recent : bool) then mret None
  else
    try_catch (
      token ← getAuthToken browser;
      match nonempty token with
      | None => mret None
      | Some token =>
          res ← fetch (permissions_request token);
          if negb (rs_ok res) then cache_failure;; mret None
          else
            data ← resp_json res;
            perms ← get data "permissions";
            let perms := js_or_list [perms; opt_prop data "items"] data in
            mret (if is_array perms then Some perms else None)
      end)
    (fun _ => cache_failure;; mret None).

(** The effect of [useUserPermissions]. *)
Definition permissions_effect : prog perm_state unit :=
  cached ← getUserPermissions browser;
  (match js_nonempty cached with
   | None => Throw (type_error "Cannot read properties of null (reading 'length')")
   | Some true => setPermissions cached;; setPermLoading false
   | Some false => mret tt
   end);;
  perms ← fetchUserPermissions;
  (match perms with
   | Some (JArr (_ :: _) as p) =>
       setItem Local "ggid_user_permissions" (stringify p);; setPermissions p
   | _ => mret tt
   end);;
  setPermLoading false.
End UserPermissions.

(** ** The sidebar *)

Definition NAV_PERMISSION_MAP : list (string * list string) :=
  [("/dashboard", []);
   ("/sessions", []);
   ("/access-requests", []);
   ("/users", ["users:read:tenant"]);
   ("/roles", ["roles:read:tenant"]);
   ("/organizations", ["orgs:read:tenant"]);
   ("/organizations/analytics", ["orgs:read:tenant"]);
   ("/settings/nhi", ["identity:read:tenant"]);
   ("/settings/migration", ["identity:read:tenant"]);
   ("/settings/attribute-mapping", ["identity:read:tenant"]);
   ("/settings/import-wizard", ["identity:write:tenant"]);
   ("/settings/import-monitor", ["identity:read:tenant"]);
   ("/settings/review-schedules", ["identity:read:tenant"]);
   ("/security/session-detail", ["security:read:tenant"]);
   ("/security/cae-monitor", ["security:read:tenant"]);
   ("/security/privileged-activity", ["security:read:tenant"]);
   ("/security/risk-score", ["security:read:tenant"]);
   ("/security/posture", ["security:read:tenant"]);
   ("/settings/conditional-access", ["policies:read:tenant"]);
   ("/settings/security-policy", ["security:read:tenant"]);
   ("/settings/password-migration", ["security:read:tenant"]);
   ("/settings/password-strength", ["security:read:tenant"]);
   ("/settings/password-policy", ["security:read:tenant"]);
   ("/settings/enrollment-campaign", ["security:read:tenant"]);
   ("/settings/passkey-management", ["security:read:tenant"]);
   ("/settings/mfa", ["security:read:tenant"]);
   ("/settings/sod-matrix", ["governance:read:tenant"]);
   ("/settings/delegations", ["governance:read:tenant"]);
   ("/policies", ["policies:read:tenant"]);
   ("/audit", ["audit:read:tenant"]);
   ("/audit/explorer", ["audit:read:tenant"]);
   ("/audit/ccm", ["audit:read:tenant"]);
   ("/oauth-clients", ["oauth_clients:read:tenant"]);
   ("/webhooks", ["webhooks:read:tenant"]);
   ("/api-keys", ["api_keys:read:tenant"]);
   ("/settings/scim", ["identity:read:tenant"]);
   ("/settings/ldap-config", ["identity:read:tenant"]);
   ("/settings/ldap-sync-config", ["identity:read:tenant"]);
   ("/settings", ["settings:read:tenant"]);
   ("/settings/branding", ["settings:read:tenant"]);
   ("/settings/feature-flags", ["settings:feature_flags:tenant"]);
   ("/admin/tenants", ["tenants:read:all"; "tenants:read:tenant"; "tenants:read:own"]);
   ("/docs", []);
   ("/monitoring", [])].

Record NavItem := { href : string; item_label : string; item_scope : option string }.
Record NavGroup := { group_label : string; group_scope : option string; items : list NavItem }.

Definition navGroups : list NavGroup :=
  [Build_NavGroup "Overview" None
     [Build_NavItem "/dashboard" "Dashboard" None;
      Build_NavItem "/sessions" "My Sessions" None;
      Build_NavItem "/access-requests" "Access Requests" None];
   Build_NavGroup "Identity" (Some "manager")
     [Build_NavItem "/users" "Users" None;
      Build_NavItem "/roles" "Roles" None;
      Build_NavItem "/organizations" "Organizations" None;
      Build_NavItem "/settings/import-wizard" "Import" None;
      Build_NavItem "/settings/review-schedules" "Access Reviews" None];
   Build_NavGroup "Security" (Some "manager")
     [Build_NavItem "/security/itdr" "ITDR Dashboard" None;
      Build_NavItem "/security/session-detail" "Sessions" None;
      Build_NavItem "/security/cae-monitor" "CAE Monitor" None;
      Build_NavItem "/security/risk-score" "Risk Score" None;
      Build_NavItem "/security/posture" "Posture" None;
      Build_NavItem "/settings/conditional-access" "Conditional Access" None;
      Build_NavItem "/settings/password-policy" "Password Policy" None;
      Build_NavItem "/settings/mfa" "MFA" None;
      Build_NavItem "/settings/passkey-management" "Passkeys" None];
   Build_NavGroup "Audit" (Some "manager")
     [Build_NavItem "/audit" "Audit Log" None;
      Build_NavItem "/policies" "Policies" None];
   Build_NavGroup "Applications" (Some "manager")
     [Build_NavItem "/oauth-clients" "OAuth Clients" None;
      Build_NavItem "/webhooks" "Webhooks" None;
      Build_NavItem "/api-keys" "API Keys" None;
      Build_NavItem "/settings/scim" "SCIM" None;
      Build_NavItem "/settings/ldap-config" "LDAP" None;
      Build_NavItem "/settings/rate-limits" "Rate Limits" None;
      Build_NavItem "/api-explorer" "API Explorer" None;
      Build_NavItem "/settings/branding" "Branding" None;
      Build_NavItem "/settings/feature-flags" "Feature Flags" None];
   Build_NavGroup "Administration" (Some "manager")
     [Build_NavItem "/admin/impersonate" "Impersonation" None;
      Build_NavItem "/admin/secrets" "Secrets" None;
      Build_NavItem "/admin/key-rotation" "Key Rotation" None;
      Build_NavItem "/admin/backup" "Backup & DR" None;
      Build_NavItem "/admin/health" "System Health" None];
   Build_NavGroup "Platform" (Some "platform")
     [Build_NavItem "/admin/tenants" "Tenants" None;
      Build_NavItem "/admin/audit/global" "Global Audit" None;
      Build_NavItem "/admin/threats" "Threat Dashboard" None]].

Section Sidebar.
Context (r : user_role) (perms : js).

Definition hasScope (required : option string) : bool :=
  match nonempty required with
  | None => true
  | Some s =>
      if String.eqb s "platform" then isPlatformAdmin r
      else if String.eqb s "manager" then isTenantAdmin r
      else if String.eqb s "admin" then isPlatformAdmin r || isTenantAdmin r
      else str_mem s (ur_scopes r)
  end.

Definition nav_permissions (h : string) : option (list string) :=
  snd <$> List.find (fun kv => String.eqb h kv.1) NAV_PERMISSION_MAP.

(** [requiredPerms.some(p => hasPermission(p))]. *)
Fixpoint any_permission (l : list string) : option bool :=
  match l with
  | [] => Some false
  | p :: l' =>
      b ← hasPermission (isPlatformAdmin r) (isTenantAdmin r) perms p;
      if (b : bool) then Some true else any_permission l'
  end.

Definition hasRoutePermission (h : string) : option bool :=
  match nav_permissions h with
  | None | Some [] => Some true
  | Some requiredPerms =>
      if isPlatformAdmin r || isTenantAdmin r then Some true else any_permission requiredPerms
  end.

(** [items.filter(i => hasScope(i.requiredScope) && hasRoutePermission(i.href))]. *)
Fixpoint filter_items (l : list NavItem) : option (list NavItem) :=
  match l with
  | [] => Some []
  | i :: l' =>
      keep ← (if hasScope (item_scope i) then hasRoutePermission (href i) else Some false);
      rest ← filter_items l';
      Some (if (keep : bool) then i :: rest else rest)
  end.

Fixpoint filter_groups (l : list NavGroup) : option (list NavGroup) :=
  match l with
  | [] => Some []
  | g :: l' =>
      if hasScope (group_scope g) then
        its ← filter_items (items g);
        rest ← filter_groups l';
        Some (match its with
              | [] => rest
              | _ => Build_NavGroup (group_label g) (group_scope g) its :: rest
              end)
      else filter_groups l'
  end.

Definition roleFilteredGroups : option (list NavGroup) := filter_groups navGroups.
End Sidebar.

(** The search box: lines 156-159. *)
Definition filtered (search : string) (groups : list NavGroup) : list NavGroup :=
  if String.eqb (trim search) "" then groups
  else List.filter (fun g => match items g with [] => false | _ => true end)
         (map (fun g => Build_NavGroup (group_label g) (group_scope g)
                 (List.filter (fun i => str_includes (to_lower search) (to_lower (item_label i)))
                    (items g))) groups).

#[global] Arguments hasPermission : simpl never.

(** ** Lemmas *)

Lemma scope_list_strs l : scope_list (strs l) = Some l.
Proof. unfold scope_list, strs. induction l as [|s l IH]; cbn in *; [done|]. by rewrite IH. Qed.

(** Some scope of [l], in lower case, is one of [ks]. *)
Definition any_scope (ks l : list string) : bool := existsb (fun s => str_mem (to_lower s) ks) l.

Lemma existsb_map_str (f : string -> string) g l :
  existsb g (map f l) = existsb (fun s => g (f s)) l.
Proof. induction l as [|x l IH]; cbn; [done|]. by rewrite IH. Qed.

Lemma existsb_orb {A} (f g : A -> bool) l :
  existsb f l || existsb g l = existsb (fun x => f x || g x) l.
Proof.
  induction l as [|x l IH]; cbn; [done|]. rewrite <- IH.
  by destruct (f x), (g x), (existsb f l).
Qed.

Lemma existsb_same {A} (f g : A -> bool) l : (forall x, f x = g x) -> existsb f l = existsb g l.
Proof. intros H. induction l as [|x l IH]; cbn; [done|]. by rewrite H, IH. Qed.

(** A key that matches its own lower case is found by the case-insensitive search. *)
Lemma hasRole_key k l :
  role_matches k (to_lower k) = true ->
  str_mem k l || existsb (role_matches k) (map to_lower l)
  = existsb (fun s => role_matches k (to_lower s)) l.
Proof.
  intros Hk. rewrite existsb_map_str. unfold str_mem.
  rewrite existsb_orb. apply existsb_same. intros s.
  destruct (String.eqb_spec k s) as [<-|]; [|done]. by rewrite Hk.
Qed.

(** A boolean identity about comparisons of one string with literals. *)
Ltac eqb_cases t :=
  let E := fresh "E" in
  cbn [mbind option_bind]; unfold role_matches, str_mem; cbn [existsb];
  set (E := String.eqb t); clearbody E; vm_compute;
  repeat match goal with |- context [E ?a] => destruct (E a); try reflexivity end.

Lemma hasRole_platform l :
  hasRole l ["platform:admin"; "platform administrator"]
  = any_scope ["platform:admin"; "platform admin"; "platform administrator";
               "administrator"; "tenant:admin"] l.
Proof.
  unfold hasRole, any_scope. cbn [existsb]. rewrite !hasRole_key by reflexivity.
  rewrite orb_false_r, existsb_orb. apply existsb_same. intros s. unfold role_matches, str_mem.
  generalize (to_lower s). intros t. eqb_cases t.
Qed.

Lemma hasRole_tenant l :
  hasRole l ["tenant:admin"; "manager"; "administrator"]
  = any_scope ["tenant:admin"; "tenant admin"; "administrator"; "platform:admin"; "manager"] l.
Proof.
  unfold hasRole, any_scope. cbn [existsb]. rewrite !hasRole_key by reflexivity.
  rewrite orb_false_r, !existsb_orb. apply existsb_same. intros s. unfold role_matches, str_mem.
  generalize (to_lower s). intros t. eqb_cases t.
Qed.

Lemma any_scope_incl ks ks' l :
  (forall k, In k ks -> In k ks') -> any_scope ks l = true -> any_scope ks' l = true.
Proof.
  unfold any_scope. rewrite !existsb_exists. intros H (s & Hs & Hk). exists s.
  split; [done|]. apply str_mem_In, H, str_mem_In, Hk.
Qed.

(** ** The two readings of a list of scopes *)

(** The role [useUserRole] renders and the role [getUserRole] computes, as scope sets. *)
Definition hook_role (l : list string) : UserRole :=
  if any_scope ["platform:admin"; "platform admin"; "platform administrator";
                "administrator"; "tenant:admin"] l then platform_admin
  else if any_scope ["tenant admin"; "manager"] l then tenant_admin else user.

Definition function_role (l : list string) : UserRole :=
  if any_scope ["platform:admin"; "platform administrator"; "platform_admin"] l
  then platform_admin
  else if any_scope ["tenant:admin"; "manager"; "tenant administrator"; "tenant_admin";
                     "administrator"] l then tenant_admin else user.

Lemma role_of_list_any l : role_of_list l = hook_role l.
Proof.
  unfold hook_role.
  unfold role_of_list. rewrite hasRole_platform, hasRole_tenant.
  destruct (any_scope ["platform:admin"; _; _; _; _] l) eqn:Ep; [done|].
  apply Forall_existsb_false in Ep. unfold any_scope.
  assert (forall ks ks', (forall s, In s l -> str_mem (to_lower s) ks = str_mem (to_lower s) ks') ->
    existsb (fun s => str_mem (to_lower s) ks) l = existsb (fun s => str_mem (to_lower s) ks') l)
    as Hext.
  { intros ks ks'. clear Ep. induction l as [|x l IH]; cbn; [done|]. intros H.
    rewrite H, IH by auto. done. }
  erewrite Hext; [done|]. intros s Hs. apply list_elem_of_In in Hs.
  rewrite Forall_forall in Ep. specialize (Ep s Hs).
  revert Ep. generalize (to_lower s). intros t. unfold str_mem. cbn [existsb].
  generalize (String.eqb t). intros E.
  repeat match goal with |- context [E ?a] => destruct (E a); try done end.
Qed.

Lemma role_of_scopes_strs l : role_of_scopes (strs l) = Some (function_role l).
Proof.
  unfold function_role.
  unfold role_of_scopes.
  rewrite (js_some_strs is_platform_scope (fun s => str_mem (to_lower s)
    ["platform:admin"; "platform administrator"; "platform_admin"])).
  2: { intros s. unfold is_platform_scope, js_lower. generalize (to_lower s). intros t. eqb_cases t. }
  cbn [mbind option_bind]. unfold any_scope. destruct (existsb _ l); [done|].
  rewrite (js_some_strs is_tenant_scope (fun s => str_mem (to_lower s)
    ["tenant:admin"; "manager"; "tenant administrator"; "tenant_admin"; "administrator"])).
  2: { intros s. unfold is_tenant_scope, js_lower. generalize (to_lower s). intros t. eqb_cases t. }
  done.
Qed.

(** The render of [useUserRole] on a list of scopes. *)
Lemma useUserRole_strs l r :
  useUserRole (strs l) = Some r -> ur_scopes r = l /\ ur_role r = role_of_list l
  /\ isPlatformAdmin r = bool_decide (ur_role r = platform_admin)
  /\ isTenantAdmin r = bool_decide (ur_role r = tenant_admin).
Proof. unfold useUserRole. rewrite scope_list_strs. cbn. intros [= <-]. done. Qed.

(** The scopes of a tenant administrator that the hook takes for the platform's. *)
Lemma role_of_list_tenant l :
  any_scope ["tenant:admin"; "administrator"] l = true -> role_of_list l = platform_admin.
Proof.
  intros Ht. rewrite role_of_list_any. unfold hook_role.
  rewrite (any_scope_incl ["tenant:admin"; "administrator"]); [done| |done]. intros k. cbn. tauto.
Qed.

Definition role_sees (r : UserRole) (g : NavGroup) : bool :=
  match group_scope g with
  | None => true
  | Some s => String.eqb s "platform" && bool_decide (r = platform_admin)
              || String.eqb s "manager" && bool_decide (r = tenant_admin)
  end.

(** The sidebar, by the role. *)
Lemma sidebar_groups scopes r perms :
  useUserRole scopes = Some r ->
  roleFilteredGroups r perms = Some (List.filter (role_sees (ur_role r)) navGroups).
Proof.
  unfold useUserRole. destruct (scope_list scopes) as [l|]; [|done]. cbn. intros [= <-].
  by destruct (role_of_list l).
Qed.

(** ** Properties: roles and navigation *)

(** [useUserRole] and [getUserRole], on every list of scopes.  The hook counts
    "tenant:admin" and "administrator" as platform administrators, which
    [getUserRole] never does, and does not know the scopes "platform_admin",
    "tenant_admin" and "tenant administrator", which [getUserRole] does. *)
Lemma roles_characterised l :
  role_of_list l =
    (if any_scope ["platform:admin"; "platform admin"; "platform administrator";
                   "administrator"; "tenant:admin"] l then platform_admin
     else if any_scope ["tenant admin"; "manager"] l then tenant_admin else user)
  /\ role_of_scopes (strs l) = Some
    (if any_scope ["platform:admin"; "platform administrator"; "platform_admin"] l
     then platform_admin
     else if any_scope ["tenant:admin"; "manager"; "tenant administrator"; "tenant_admin";
                        "administrator"] l then tenant_admin else user).
Proof. split; [apply role_of_list_any|apply role_of_scopes_strs]. Qed.

(** A user whose only administrative scope is the tenant's is treated by every
    page guard as a platform administrator: [PermissionGuard] lets them through
    whatever scope the page requires, although [getUserRole] calls the same scopes
    tenant administrator. *)
Lemma tenant_admin_passes_platform_guard l r requiredScope :
  any_scope ["tenant:admin"; "administrator"] l = true ->
  any_scope ["platform:admin"; "platform administrator"; "platform_admin"] l = false ->
  useUserRole (strs l) = Some r ->
  role_of_scopes (strs l) = Some tenant_admin
  /\ ur_role r = platform_admin
  /\ PermissionGuard r requiredScope = true.
Proof.
  intros Ht Hp Hr. destruct (useUserRole_strs l r Hr) as (_ & Hrole & Hpa & _).
  pose proof (role_of_list_tenant l Ht) as E.
  rewrite role_of_scopes_strs. unfold function_role. rewrite Hp. rewrite (any_scope_incl ["tenant:admin"; "administrator"]); [|intros k; cbn; tauto|done].
  unfold PermissionGuard. rewrite Hpa, Hrole, E. split_and!; done.
Qed.

(** What the sidebar shows is decided by the role alone: the groups without a
    required scope, the "platform" group for platform administrators and the
    "manager" groups for tenant administrators, each with all its items.  So the
    permission map never hides an item, a platform administrator sees none of the
    manager groups, and with [roles_characterised] a user with the scope "tenant:admin" does not
    either. *)
Lemma sidebar_by_role scopes r perms :
  useUserRole scopes = Some r ->
  roleFilteredGroups r perms = Some (List.filter (role_sees (ur_role r)) navGroups).
Proof. apply sidebar_groups. Qed.

Lemma tenant_admin_passes_platform_guard_witness :
  role_of_scopes (strs ["Tenant:Admin"]) = Some tenant_admin
  /\ role_of_list ["Tenant:Admin"] = platform_admin
  /\ PermissionGuard (Build_user_role platform_admin ["Tenant:Admin"] true false true)
       "platform:secrets" = true.
Proof.
  apply (tenant_admin_passes_platform_guard ["Tenant:Admin"]
           (Build_user_role platform_admin ["Tenant:Admin"] true false true) "platform:secrets");
    reflexivity.
Defined.

Lemma sidebar_by_role_witness :
  roleFilteredGroups (Build_user_role platform_admin ["tenant:admin"] true false true) (JArr [])
  = Some (List.filter (role_sees platform_admin) navGroups)
  /\ map group_label (List.filter (role_sees platform_admin) navGroups) = ["Overview"; "Platform"].
Proof.
  split; [|reflexivity].
  apply (sidebar_by_role (strs ["tenant:admin"])
           (Build_user_role platform_admin ["tenant:admin"] true false true)). reflexivity.
Defined.

(** ** Properties: permissions *)

(** [hasPermission] of a user who is no administrator, on one permission. *)
Definition grants (p key : string) : bool :=
  String.eqb p "platform:admin" || String.eqb p "system:admin" || String.eqb p key
  || match split_on ":"%char key with
     | resource :: action :: s :: _ =>
         match split_on ":"%char p with
         | r :: a :: s' :: _ =>
             String.eqb r resource && String.eqb a action && rank_geb (scope_rank s') (scope_rank s)
         | _ => false
         end
     | _ => false
     end.

Lemma str_mem_existsb k l : str_mem k l = existsb (fun p => String.eqb p k) l.
Proof. apply existsb_same. intros x. apply String.eqb_sym. Qed.

Lemma hasPermission_grants l key :
  hasPermission false false (strs l) key = Some (existsb (fun p => grants p key) l).
Proof.
  unfold hasPermission. cbn [orb]. rewrite !js_includes_strs. cbn [mbind option_bind].
  unfold grants. rewrite <- !existsb_orb, <- !str_mem_existsb.
  destruct (str_mem "platform:admin" l || str_mem "system:admin" l); [done|].
  destruct (str_mem key l); [done|]. cbn [orb].
  assert (existsb (fun _ : string => false) l = false) as Hf.
  { clear. induction l; [done|]. cbn. done. }
  destruct (split_on ":"%char key) as [|r [|a [|s ?]]]; rewrite ?Hf; try done.
  apply js_some_strs. done.
Qed.

Definition perm_key (resource action s : string) : string :=
  resource +:+ String ":"%char (action +:+ String ":"%char s).

Lemma split_perm_key r a s :
  lacks ":"%char r = true -> lacks ":"%char a = true ->
  exists rest, split_on ":"%char (perm_key r a s) = r :: a :: rest /\ rest = split_on ":"%char s.
Proof. intros Hr Ha. eexists. split; [|done]. unfold perm_key. by rewrite !split_on_app. Qed.

(** Permissions are decided one by one: a user who is no administrator has a
    permission exactly when one of the permissions held grants it.  So the answer
    does not depend on the order or repetition of the list, and holding more never
    takes a permission away. *)
Lemma hasPermission_monotone l l' key :
  (exists b, hasPermission false false (strs l) key = Some b)
  /\ (hasPermission false false (strs l) key = Some true <->
      exists p, In p l /\ hasPermission false false (strs [p]) key = Some true)
  /\ ((forall p, In p l -> In p l') ->
      hasPermission false false (strs l) key = Some true ->
      hasPermission false false (strs l') key = Some true).
Proof.
  rewrite !hasPermission_grants. split; [by eexists|].
  assert (forall m, Some (existsb (fun p => grants p key) m) = Some true
                    <-> exists p, In p m /\ grants p key = true) as H.
  { intros m. rewrite <- existsb_exists. split; congruence. }
  split.
  - rewrite H. split; intros (p & Hp & Hg); exists p; rewrite hasPermission_grants in *;
      cbn in *; rewrite orb_false_r in *; (split; [done|congruence]).
  - rewrite !H. naive_solver.
Qed.

(** C19. The scope hierarchy all > tenant > department > own, on the permissions of
    the form resource:action:scope: one grants another exactly when the resource and
    the action are the same and its scope ranks at least as high.  A required scope
    outside the hierarchy has rank 0, so any permission on the same resource and
    action grants it. *)
Theorem hasPermission_hierarchy r a s n r' a' s' n' :
  Forall (fun x => lacks ":"%char x = true) [r; a; s; r'; a'; s'] ->
  scope_rank s = Rank n -> scope_rank s' = Rank n' ->
  hasPermission false false (strs [perm_key r' a' s']) (perm_key r a s)
  = Some (String.eqb r' r && String.eqb a' a && (n <=? n')).
Proof.
  intros Hl Hn Hn'. rewrite !Forall_cons in Hl. destruct Hl as (Hr & Ha & Hs & Hr' & Ha' & Hs' & _).
  rewrite hasPermission_grants. cbn [existsb]. rewrite orb_false_r. f_equal. unfold grants.
  destruct (split_perm_key r a s) as (? & Hk & ->); [done..|].
  destruct (split_perm_key r' a' s') as (? & Hk' & ->); [done..|].
  rewrite Hk, Hk', !split_on_lacks, Hn, Hn' by done.
  assert (forall k, length (split_on ":"%char k) = 2%nat -> String.eqb (perm_key r' a' s') k = false)
    as Hadm.
  { intros k Hlen. apply eqb_str_false. intros <-. rewrite Hk', split_on_lacks in Hlen by done.
    done. }
  rewrite !Hadm by reflexivity. cbn [orb rank_geb].
  destruct (String.eqb_spec (perm_key r' a' s') (perm_key r a s)) as [E|E]; [|done].
  rewrite E, Hk, !(split_on_lacks _ s), !(split_on_lacks _ s') in Hk' by done.
  injection Hk' as -> -> ->. rewrite Hn in Hn'. injection Hn' as ->.
  rewrite !eqb_refl_str. cbn. symmetry. apply Z.leb_refl.
Qed.

Lemma hasPermission_monotone_witness :
  hasPermission false false (strs ["a:b"; "users:read:all"]) "users:read:own" = Some true.
Proof.
  apply (hasPermission_monotone ["users:read:all"] ["a:b"; "users:read:all"] "users:read:own").
  - intros p Hp. right. done.
  - reflexivity.
Defined.

Lemma hasPermission_hierarchy_witness :
  hasPermission false false (strs [perm_key "users" "read" "tenant"]) (perm_key "users" "read" "own")
    = Some true
  /\ hasPermission false false (strs [perm_key "users" "read" "own"]) (perm_key "users" "read" "tenant")
    = Some false.
Proof.
  split.
  - apply (hasPermission_hierarchy "users" "read" "own" 1 "users" "read" "tenant" 3);
      [repeat constructor|reflexivity..].
  - apply (hasPermission_hierarchy "users" "read" "tenant" 3 "users" "read" "own" 1);
      [repeat constructor|reflexivity..].
Defined.

(** A permission request that fails (the API answers an error, or cannot be
    reached) yields no permissions and no exception, and for the next 60 seconds
    every further call returns at once without a request. *)
Lemma permissions_failure_cooldown (e e' : env) w API_BASE_URL TID token answer :
  60000 <= clock e (w_trace w) - failTs (w_st w) ->
  nonempty (w_local w !! "ggid_access_token") = Some token ->
  let rq := permissions_request API_BASE_URL TID token in
  server e (ObsFetch rq :: ObsNow :: w_trace w) rq = answer ->
  match answer with Some res => rs_ok res = false | None => True end ->
  exists w', run e (fetchUserPermissions true API_BASE_URL TID) w = (Done None, w')
  /\ fetches (w_trace w') = rq :: fetches (w_trace w)
  /\ permissions (w_st w') = permissions (w_st w)
  /\ (clock e' (w_trace w') < clock e (ObsFetch rq :: ObsNow :: w_trace w) + 60000 ->
      run e' (fetchUserPermissions true API_BASE_URL TID) w' = (Done None, log ObsNow w')).
Proof.
  intros Hold Htok rq Hans Hfail.
  assert (forall e1 w1, clock e1 (w_trace w1) - failTs (w_st w1) < 60000 ->
    run e1 (fetchUserPermissions true API_BASE_URL TID) w1 = (Done None, log ObsNow w1)) as Hrecent.
  { intros e1 w1 H. unfold fetchUserPermissions. run_steps. apply Z.ltb_lt in H. by rewrite H. }
  set (t := clock e (ObsFetch rq :: ObsNow :: w_trace w)).
  exists (log ObsNow (set_st (fun s => Build_perm_state (permissions s) (perm_loading s) t)
            (log (ObsFetch rq) (log ObsNow w)))).
  split; [|destruct w; split_and!; [done|done|]; intros Hc; apply Hrecent; cbn in *; lia].
  unfold fetchUserPermissions, getAuthToken, cache_failure. run_steps.
  replace (clock e (w_trace w) - failTs (w_st w) <? 60000) with false
    by (symmetry; apply Z.ltb_ge; lia).
  run_steps. autorewrite with world.
  replace (w_area Local (log ObsNow w)) with (w_local w) by by destruct w.
  rewrite Htok. cbn match. run_steps. autorewrite with world. fold rq. rewrite Hans.
  destruct answer as [res|]; run_steps; [rewrite Hfail; cbn [negb]|];
    run_steps; autorewrite with world; by destruct w.
Qed.

Lemma permissions_failure_cooldown_witness :
  let w := page (Build_perm_state (JArr []) true 0) {["ggid_access_token" := "tok"]} in
  let e := script_env [Some (Response 404 "")] (fun t => 70000 + Z.of_nat (length t))
             (fun _ _ _ => None) in
  let rq := permissions_request "" "t" "tok" in
  exists w', run e (fetchUserPermissions true "" "t") w = (Done None, w')
  /\ fetches (w_trace w') = rq :: fetches (w_trace w)
  /\ permissions (w_st w') = permissions (w_st w)
  /\ (clock e (w_trace w') < clock e (ObsFetch rq :: ObsNow :: w_trace w) + 60000 ->
      run e (fetchUserPermissions true "" "t") w' = (Done None, log ObsNow w')).
Proof.
  intros w e rq.
  apply (permissions_failure_cooldown e e w "" "t" "tok" (Some (Response 404 "")));
    [done|reflexivity..].
Defined.
