(* ===== verification/TenantResolve.v ===== *)
(** * Console: tenants by subdomain (console/src/lib/api-config.ts, console/src/middleware.ts)

    The browser side resolves the tenant of the page it runs on; the Next.js
    middleware refuses pages of tenants that do not exist.  [hostname] and [params]
    are [window.location.hostname] and the pairs of [URLSearchParams]. *)

From S2P Require Import Prelude JsValue JsString Json Effects ApiClient.
Local Open Scope Z_scope.

(** ** The browser side *)

Section Client.
Context (browser : bool) (hostname : string) (params : list (string * string)).

Definition getTenantSlugFromSubdomain : string :=
  if negb browser then ""
  else if String.eqb hostname "localhost" || ipv4_exact hostname then ""
  else
    match split_on "."%char hostname with
    | slug :: p1 :: _ :: _ :: _ =>
        if String.eqb p1 "ggid-console" then
          if String.eqb slug "www" || String.eqb slug "ggid-console" then "" else slug
        else ""
    | _ => ""
    end.

Definition getEffectiveTenantSlug : string :=
  if negb browser then "default"
  else
    match nonempty (hget "tenant" params) with
    | Some urlTenant => urlTenant
    | None => str_or getTenantSlugFromSubdomain "default"
    end.
End Client.

(** The module variable [cachedTenantResolve]. *)
Record CachedTenant := { ct_slug : string; ct_id : js; ct_ts : Z }.
Definition resolve_state : Type := option CachedTenant.

Record HealthResult := { online : bool; latencyMs : option Z }.

Section ApiConfig.
Context (API_BASE_URL DEFAULT_TENANT_ID : string).

Definition resolve_request (slug : string) : request :=
  Request GET (API_BASE_URL +:+ "/api/v1/tenants/resolve?slug=" +:+ encodeURIComponent slug)
    [("Content-Type", "application/json")] None.

(** The cached id, when it is this slug's and younger than 5 minutes. *)
Definition cached_id (slug : string) : prog resolve_state (option js) :=
  cached ← get_state;
  match cached with
  | Some c =>
      if String.eqb (ct_slug c) slug then
        t ← now; mret (if t - ct_ts c <? 300000 then Some (ct_id c) else None)
      else mret None
  | None => mret None
  end.

(** [None] is the [null] of the source. *)
Definition resolveTenantSlug (slug : string) : prog resolve_state (option js) :=
  if String.eqb slug "" then mret None
  else
    hit ← cached_id slug;
    match hit with
    | Some id => mret (Some id)
    | None =>
        try_catch (
          resp ← fetch (resolve_request slug);
          if negb (rs_ok resp) then mret None
          else
            data ← resp_json resp;
            id ← get data "id";
            let id := js_or_list [id; opt_prop data "tenant_id"] (opt_prop data "tenantId") in
            if truthy id then
              ts ← now;
              upd (fun _ => Some {| ct_slug := slug; ct_id := id; ct_ts := ts |});;
              mret (Some id)
            else mret None)
        (fun _ => mret None)
    end.

Definition buildUrl (path : string) : string :=
  if starts_with "http" path then path else API_BASE_URL +:+ path.

Definition checkApiHealthDetailed {S} : prog S HealthResult :=
  try_catch (
    start ← now;
    resp ← fetch (Request GET (API_BASE_URL +:+ "/healthz")
                    [("X-Tenant-ID", DEFAULT_TENANT_ID)] None);
    stop ← now;
    mret {| online := rs_ok resp; latencyMs := Some (stop - start) |})
  (fun _ => mret {| online := false; latencyMs := None |}).

Definition checkApiHealth {S} : prog S bool :=
  result ← checkApiHealthDetailed; mret (online result).
End ApiConfig.

(** ** The middleware *)

Definition SKIP_PATHS : list string :=
  ["/_next/"; "/favicon.ico"; "/manifest.json"; "/icon.svg"; "/apple-icon.png"; "/sw.js";
   "/workbox-"].

Definition CACHE_TTL : Z := 60000.

Definition getTenantSlugFromHost (host : string) : option string :=
  if String.eqb host "" || str_includes "localhost" host || ipv4_prefix host then None
  else
    match split_on "."%char host with
    | slug :: p1 :: _ :: _ :: _ =>
        if String.eqb p1 "ggid-console" then
          if String.eqb slug "ggid-console" then None else Some slug
        else None
    | _ => None
    end.

Record cache_entry := { valid : bool; ts : Z }.
Notation mw_cache := (gmap string cache_entry).

Record page_request := { pathname : string; host_header : option string }.

(** [NextResponse.next()], or a page of its own. *)
Inductive next_response :=
| Next
| Page (status : Z) (headers : list (string * string)) (html : string).

Section Middleware.
Context (GATEWAY_URL not_found_html : string).

Definition tenantNotFound : next_response :=
  Page 404 [("Content-Type", "text/html; charset=utf-8"); ("Cache-Control", "no-store")]
    not_found_html.

Definition gateway_request (slug : string) : request :=
  Request GET (str_or GATEWAY_URL "http://localhost:8080"
               +:+ "/api/v1/tenants/resolve?slug=" +:+ encodeURIComponent slug) [] None.

(** Lines 179-185: the answer of the cache, when it has one young enough. *)
Definition cache_lookup (slug : string) : prog mw_cache (option next_response) :=
  cache ← get_state;
  match cache !! slug with
  | Some cached =>
      t ← now;
      mret (if t - ts cached <? CACHE_TTL
            then Some (if valid cached then Next else tenantNotFound) else None)
  | None => mret None
  end.

Definition middleware (rq : page_request) : prog mw_cache next_response :=
  if existsb (fun p => starts_with p (pathname rq)) SKIP_PATHS then mret Next
  else
    match nonempty (getTenantSlugFromHost (default "" (host_header rq))) with
    | None => mret Next
    | Some slug =>
        hit ← cache_lookup slug;
        match hit with
        | Some r => mret r
        | None =>
            refused ← try_catch (
              resp ← fetch (gateway_request slug);
              t ← now;
              upd (fun cache => <[slug := {| valid := rs_ok resp; ts := t |}]> cache);;
              mret (negb (rs_ok resp)))
              (fun _ => mret false);
            mret (if (refused : bool) then tenantNotFound else Next)
        end
    end.
End Middleware.

#[global] Arguments getTenantSlugFromHost : simpl never.
#[global] Arguments gateway_request : simpl never.
#[global] Arguments resolve_request : simpl never.
#[global] Arguments starts_with : simpl never.

(** ** Lemmas *)

(** [refused] are the slugs, any at all, to whose lookups the gateway may give an answer that
    is no success: 404, but an error of its own or a limit as well.  It need not answer. *)
Definition gateway_answers (GATEWAY_URL : string) (refused : string -> Prop)
    (rq : request) (r : option response) : Prop :=
  forall slug resp, rq = gateway_request GATEWAY_URL slug -> r = Some resp ->
  rs_ok resp = false -> refused slug.

(** One request to the console: what the server does with the middleware's answer. *)
Definition console_request (GATEWAY_URL html : string) (rq : page_request) : prog mw_cache unit :=
  r ← middleware GATEWAY_URL html rq;
  match r with
  | Next => mret tt
  | Page status _ _ => emit "response" (JArr [JNum status; js_of_opt (host_header rq)])
  end.

Section MiddlewareSafety.
Context (GATEWAY_URL html : string) (refused : string -> Prop).

Definition refused_ok (o : obs) : Prop :=
  match o with
  | ObsEmit "response" (JArr [JNum status; h]) =>
      exists host slug, h = JStr host /\ getTenantSlugFromHost host = Some slug
                        /\ status = 404 /\ slug <> "" /\ refused slug
  | _ => True
  end.

Definition mw_inv (w : world mw_cache) : Prop :=
  (forall slug c, w_st w !! slug = Some c -> valid c = false -> refused slug)
  /\ Forall refused_ok (w_trace w).

Let answers := on_server (S:=mw_cache) (gateway_answers GATEWAY_URL refused).

Lemma mw_inv_log o w : mw_inv w -> refused_ok o -> mw_inv (log o w).
Proof. destruct w. intros [Hc Ht] Ho. split; [done|]. by constructor. Qed.

Lemma wp_refusal (rq : page_request) slug r w :
  getTenantSlugFromHost (default "" (host_header rq)) = Some slug -> slug <> "" ->
  (r = Next \/ r = tenantNotFound html /\ refused slug) -> mw_inv w ->
  safe answers mw_inv (match r with
                       | Next => mret tt
                       | Page status _ _ =>
                           emit "response" (JArr [JNum status; js_of_opt (host_header rq)])
                       end) w.
Proof.
  intros Hh Hne [->|[-> Hs]] Hw; unfold safe; [done|]. cbn. intros _ w' ->.
  apply mw_inv_log; [done|]. destruct (host_header rq) as [h|]; [|done]. by exists h, slug.
Qed.

Lemma console_request_safe rq w : mw_inv w -> safe answers mw_inv (console_request GATEWAY_URL html rq) w.
Proof.
  intros Hw. unfold console_request, middleware, safe. destruct (existsb _ SKIP_PATHS); [done|].
  destruct (getTenantSlugFromHost _) as [slug|] eqn:Eh; [|done].
  destruct slug as [|c0 s0] eqn:Es; [done|]. rewrite <- Es in *.
  assert (slug <> "") as Hne by by subst.
  replace (nonempty (Some slug)) with (Some slug) by by subst.
  clear Es. unfold cache_lookup. cbn -[tenantNotFound gateway_request]. intros ca w1 [-> ->].
  assert (forall w2, mw_inv w2 -> safe answers mw_inv (
    r ← (refused ← try_catch (
           resp ← fetch (gateway_request GATEWAY_URL slug);
           t ← now;
           upd (fun cache => <[slug := {| valid := rs_ok resp; ts := t |}]> cache);;
           mret (negb (rs_ok resp))) (fun _ => mret false);
         mret (if (refused : bool) then tenantNotFound html else Next));
    match r with
    | Next => mret tt
    | Page status _ _ => emit "response" (JArr [JNum status; js_of_opt (host_header rq)])
    end) w2) as Hmiss.
  { intros w2 Hw2. unfold safe. cbn -[tenantNotFound]. split; [by apply mw_inv_log|].
    intros [resp|] w3 Hresp Hw3; cbn -[tenantNotFound]; [|done].
    intros t w4 ->. intros _ w5 ->. specialize (Hresp slug resp eq_refl eq_refl).
    apply (wp_refusal rq slug); [done..| |].
    { destruct (rs_ok resp); cbn; [by left|right; auto]. }
    destruct Hw3 as [Hc Ht]. split; autorewrite with world; [|by constructor].
    intros slug' c'. destruct (decide (slug' = slug)) as [->|Hd].
    - rewrite lookup_insert_eq. by intros [= <-].
    - rewrite lookup_insert_ne by done. apply Hc. }
  destruct (w_st w !! slug) as [c|] eqn:Ec; cbn -[tenantNotFound gateway_request].
  - intros t w2 ->. assert (mw_inv (log ObsNow w)) by by apply mw_inv_log.
    destruct (t - ts c <? CACHE_TTL); [|by apply Hmiss].
    apply (wp_refusal rq slug); [done..| |done].
    destruct Hw as [Hc _]. specialize (Hc _ _ Ec). destruct (valid c); [by left|right; auto].
  - by apply Hmiss.
Qed.
End MiddlewareSafety.

(** ** Properties *)

(** C11. However many requests the middleware serves at once, and however the gateway's
    answers are delayed and interleaved with them, a page is refused only when its host names
    a tenant to whose lookup the gateway has given an answer that is no success, now or when
    it was cached.  Nobody is refused for the tenant of another host, for a gateway that does
    not answer, or on the bare domain; but a gateway that answers with an error of its own
    does have a page refused whose tenant exists ([middleware_outage]). *)
Theorem middleware_refuses_only_refused e GATEWAY_URL html refused w0 c :
  (forall slug en, w_st w0 !! slug = Some en -> valid en = false -> refused slug) -> w_trace w0 = [] ->
  reachable e (fun _ p => exists rq, p = console_request GATEWAY_URL html rq)
    (on_server (gateway_answers GATEWAY_URL refused)) w0 c ->
  forall status h, In (ObsEmit "response" (JArr [JNum status; h])) (w_trace c.1) ->
  exists host slug, h = JStr host /\ getTenantSlugFromHost host = Some slug /\ status = 404 /\ slug <> "" /\ refused slug.
Proof.
  intros H0 Ht Hr status h Hin.
  edestruct (safe_reachable e (fun _ p => exists rq, p = console_request GATEWAY_URL html rq)
    (on_server (gateway_answers GATEWAY_URL refused)) (mw_inv refused)) as [[_ Hf] _]; [| |done|].
  - split; [done|]. by rewrite Ht.
  - intros w p Hw [rq ->]. by apply console_request_safe.
  - rewrite Forall_forall in Hf. apply list_elem_of_In in Hin. apply (Hf _ Hin).
Qed.

(** Browser and middleware read the same tenant off a host name, except that the
    browser treats "www" as the bare domain and the middleware asks for a tenant of
    that name. *)
Lemma slug_agreement h :
  str_includes "localhost" h = false -> ipv4_prefix h = false ->
  getTenantSlugFromSubdomain true h =
  match getTenantSlugFromHost h with
  | Some slug => if String.eqb slug "www" then "" else slug
  | None => ""
  end.
Proof.
  intros Hl Hi. unfold getTenantSlugFromSubdomain, getTenantSlugFromHost. rewrite Hl, Hi.
  replace (ipv4_exact h) with false.
  2: { unfold ipv4_exact, ipv4_prefix in *. by destruct (eat_ipv4 h). }
  destruct (String.eqb_spec h "localhost") as [->|_]; [done|].
  destruct (String.eqb_spec h "") as [->|_]; [done|]. cbn [orb negb].
  destruct (split_on "."%char h) as [|slug [|p1 [|? [|? ?]]]]; try done.
  destruct (String.eqb p1 "ggid-console"); [|done].
  destruct (String.eqb_spec slug "www") as [->|Hw]; [done|].
  destruct (String.eqb slug "ggid-console"); [done|]. by rewrite eqb_str_false.
Qed.

(** How an outage of the gateway is handled on a host whose tenant is not cached.
    A gateway that cannot be reached lets the page through and caches nothing; one
    that answers any error (503, 429) is taken for "no such tenant": the visitor
    gets the 404 page, and so does everyone else for the next minute, with no
    further request. *)
Lemma middleware_outage (e e' : env) w GATEWAY_URL html rq slug answer :
  existsb (fun p => starts_with p (pathname rq)) SKIP_PATHS = false ->
  nonempty (getTenantSlugFromHost (default "" (host_header rq))) = Some slug ->
  w_st w !! slug = None ->
  let greq := gateway_request GATEWAY_URL slug in
  server e (ObsFetch greq :: w_trace w) greq = answer ->
  exists w',
    fetches (w_trace w') = greq :: fetches (w_trace w)
    /\ match answer with
       | None => run e (middleware GATEWAY_URL html rq) w = (Done Next, w') /\ w_st w' = w_st w
       | Some resp =>
           rs_ok resp = false ->
           run e (middleware GATEWAY_URL html rq) w = (Done (tenantNotFound html), w')
           /\ (clock e' (w_trace w') < clock e (ObsFetch greq :: w_trace w) + CACHE_TTL ->
               run e' (middleware GATEWAY_URL html rq) w'
               = (Done (tenantNotFound html), log ObsNow w'))
       end.
Proof.
  intros Hskip Hslug Hnone greq Hans.
  assert (forall e1 w1, run e1 (middleware GATEWAY_URL html rq) w1
    = run e1 (hit ← cache_lookup html slug;
              match hit with
              | Some r => mret r
              | None =>
                  refused ← try_catch (
                    resp ← fetch greq; t ← now;
                    upd (fun cache => <[slug := {| valid := rs_ok resp; ts := t |}]> cache);;
                    mret (negb (rs_ok resp))) (fun _ => mret false);
                  mret (if (refused : bool) then tenantNotFound html else Next)
              end) w1) as Hmw.
  { intros e1 w1. unfold middleware. by rewrite Hskip, Hslug. }
  set (w1 := log (ObsFetch greq) w).
  assert (server e (w_trace w1) greq = answer) as Hans1 by by destruct w.
  destruct answer as [resp|].
  - exists (set_st (fun cache => <[slug := {| valid := rs_ok resp;
              ts := clock e (w_trace w1) |}]> cache) (log ObsNow w1)).
    split; [by destruct w|]. intros Hok. rewrite !Hmw. unfold cache_lookup. split.
    + run_steps. rewrite Hnone. run_steps. fold w1. rewrite Hans1. run_steps. by rewrite Hok.
    + intros Hc. run_steps. autorewrite with world. rewrite lookup_insert_eq. run_steps. cbn [valid ts].
      rewrite Hok. rewrite w_trace_set_st in *.
      replace (_ <? CACHE_TTL) with true; [done|]. symmetry. apply Z.ltb_lt.
      subst w1. autorewrite with world in *. lia.
  - exists w1. split; [by destruct w|]. rewrite Hmw. unfold cache_lookup. split; [|by destruct w].
    run_steps. rewrite Hnone. run_steps. fold w1. by rewrite Hans1.
Qed.

(** ** The browser's cache slot *)

(** The id in the body of a resolve answer. *)
Definition id_of_body (data : js) : js :=
  js_or_list [opt_prop data "id"; opt_prop data "tenant_id"] (opt_prop data "tenantId").

(** The API names one id for each slug. *)
Definition resolver_ok (API : string) (tenant_id : string -> js)
    (rq : request) (r : option response) : Prop :=
  forall slug resp data, rq = resolve_request API slug -> r = Some resp -> rs_ok resp = true ->
  JSON_parse (rs_body resp) = Some data -> truthy (id_of_body data) = true ->
  id_of_body data = tenant_id slug.

(** A call and what its caller does with the id. *)
Definition use_tenant (API slug : string) : prog resolve_state unit :=
  id ← resolveTenantSlug API slug;
  match id with Some id => emit "tenant" (JArr [JStr slug; id]) | None => mret tt end.

Section ResolverSafety.
Context (API : string) (tenant_id : string -> js).

Definition used_ok (o : obs) : Prop :=
  match o with
  | ObsEmit "tenant" (JArr [JStr slug; id]) => id = tenant_id slug
  | _ => True
  end.

Definition slot_inv (w : world resolve_state) : Prop :=
  (forall c, w_st w = Some c -> ct_id c = tenant_id (ct_slug c)) /\ Forall used_ok (w_trace w).

Let answers := on_server (S:=resolve_state) (resolver_ok API tenant_id).

Lemma slot_inv_log o w : slot_inv w -> used_ok o -> slot_inv (log o w).
Proof. destruct w. intros [Hc Ht] Ho. split; [done|]. by constructor. Qed.

Lemma use_tenant_safe slug w : slot_inv w -> safe answers slot_inv (use_tenant API slug) w.
Proof.
  intros Hw. unfold use_tenant, resolveTenantSlug, safe. destruct (String.eqb slug ""); [done|].
  assert (forall w2, slot_inv w2 -> safe answers slot_inv (
    id ← try_catch (
      resp ← fetch (resolve_request API slug);
      if negb (rs_ok resp) then mret None
      else
        data ← resp_json resp;
        id ← get data "id";
        let id := js_or_list [id; opt_prop data "tenant_id"] (opt_prop data "tenantId") in
        if truthy id then
          ts ← now;
          upd (fun _ => Some {| ct_slug := slug; ct_id := id; ct_ts := ts |});;
          mret (Some id)
        else mret None) (fun _ => mret None);
    match id with Some id => emit "tenant" (JArr [JStr slug; id]) | None => mret tt end) w2)
    as Hmiss.
  { intros w2 Hw2. unfold safe. cbn -[js_or_list]. split; [by apply slot_inv_log|].
    intros [resp|] w3 Hresp Hw3; cbn -[js_or_list]; [|done].
    destruct (rs_ok resp) eqn:Eok; cbn -[js_or_list]; [|done]. split; [done|].
    intros _ w4 _ Hw4. destruct (JSON_parse (rs_body resp)) as [data|] eqn:Ej; cbn -[js_or_list]; [|done].
    unfold get. destruct (prop data "id") as [id|] eqn:Ep; cbn -[js_or_list]; [|done].
    assert (js_or_list [id; opt_prop data "tenant_id"] (opt_prop data "tenantId") = id_of_body data)
      as -> by (unfold id_of_body, opt_prop at 3; by rewrite Ep).
    destruct (truthy (id_of_body data)) eqn:Et; cbn; [|done].
    specialize (Hresp slug resp data eq_refl eq_refl Eok Ej Et).
    intros t w5 ->. intros _ w6 ->. intros _ w7 ->. apply slot_inv_log; [|done].
    destruct Hw4 as [Hc Ht]. split; autorewrite with world; [|by constructor]. by intros c [= <-]. }
  unfold cached_id. cbn. intros st w1 [-> ->].
  destruct (w_st w) as [c|] eqn:Ec; [|by apply Hmiss].
  destruct (String.eqb_spec (ct_slug c) slug) as [E|E]; [|by apply Hmiss]. cbn. intros t w2 ->.
  destruct (t - ct_ts c <? 300000); [|by apply Hmiss, slot_inv_log].
  cbn. intros _ w3 ->. apply slot_inv_log; [by apply slot_inv_log|]. cbn.
  destruct Hw as [Hc _]. by rewrite (Hc c Ec), E.
Qed.
End ResolverSafety.

(** C21. Several resolutions may be in flight at once and share the one cache slot.
    Whatever the order in which they are answered, a caller is never given the id of
    another tenant: every id handed out is the one the API names for the slug asked. *)
Theorem resolveTenantSlug_never_mixes e API tenant_id c :
  reachable e (fun _ p => exists slug, p = use_tenant API slug)
    (on_server (resolver_ok API tenant_id)) (empty_world None) c ->
  forall slug id, In (ObsEmit "tenant" (JArr [JStr slug; id])) (w_trace c.1) -> id = tenant_id slug.
Proof.
  intros Hr slug id Hin.
  edestruct (safe_reachable e (fun _ p => exists slug, p = use_tenant API slug)
    (on_server (resolver_ok API tenant_id)) (slot_inv tenant_id)) as [[_ Hf] _]; [| |done|].
  - split; [done|]. by constructor.
  - intros w p Hw [s ->]. by apply use_tenant_safe.
  - rewrite Forall_forall in Hf. apply list_elem_of_In in Hin. apply (Hf _ Hin).
Qed.

(** ** Witnesses *)

Definition demo_page : page_request := Build_page_request "/" (Some "evil.ggid-console.iot2.win").
Definition demo_cache : world mw_cache := page ∅ ∅.

(** A visitor of a tenant that does not exist, answered by the gateway. *)
Lemma demo_refusal :
  exists c, reachable (const_env None 0) (fun _ p => exists rq, p = console_request "g" "x" rq)
              (on_server (gateway_answers "g" (fun slug => gateway_request "g" slug = gateway_request "g" "evil"))) demo_cache c
  /\ In (ObsEmit "response" (JArr [JNum 404; JStr "evil.ggid-console.iot2.win"])) (w_trace c.1).
Proof.
  eexists. split.
  - eapply reach_answer with (i := O) (r := Some (Response 404 "")).
    + eapply reach_spawn; [apply reach_init|]. exists demo_page. reflexivity.
    + reflexivity.
    + intros slug resp Hrq [= <-] _. by rewrite <- Hrq.
  - vm_compute. left. reflexivity.
Qed.

Lemma middleware_refuses_only_refused_witness :
  exists host slug, JStr "evil.ggid-console.iot2.win" = JStr host
  /\ getTenantSlugFromHost host = Some slug /\ 404 = 404 /\ slug <> "" /\ gateway_request "g" slug = gateway_request "g" "evil".
Proof.
  destruct demo_refusal as (c & Hr & Hin).
  apply (middleware_refuses_only_refused (const_env None 0) "g" "x" (fun slug => gateway_request "g" slug = gateway_request "g" "evil") demo_cache c)
    with (status := 404); [|reflexivity|exact Hr|exact Hin].
  intros slug en H. discriminate H.
Defined.

Lemma slug_agreement_witness :
  getTenantSlugFromSubdomain true "www.ggid-console.iot2.win" = ""
  /\ getTenantSlugFromHost "www.ggid-console.iot2.win" = Some "www".
Proof.
  split; [|reflexivity].
  etransitivity; [apply slug_agreement; reflexivity|reflexivity].
Defined.

Lemma middleware_outage_witness :
  let rq := Build_page_request "/users" (Some "acme.ggid-console.iot2.win") in
  exists w',
    fetches (w_trace w') = [gateway_request "g" "acme"]
    /\ (false = false ->
        run (const_env (Some (Response 503 "")) 0) (middleware "g" "x" rq) demo_cache
        = (Done (tenantNotFound "x"), w')
        /\ (clock (const_env None 0) (w_trace w') < 1 + CACHE_TTL ->
            run (const_env None 0) (middleware "g" "x" rq) w'
            = (Done (tenantNotFound "x"), log ObsNow w'))).
Proof.
  apply (middleware_outage (const_env (Some (Response 503 "")) 0) (const_env None 0) demo_cache
           "g" "x" (Build_page_request "/users" (Some "acme.ggid-console.iot2.win")) "acme"
           (Some (Response 503 ""))); reflexivity.
Defined.

Definition demo_tenant : string := stringify (JObj [("id", JStr "T")]).

Lemma demo_resolution :
  exists c, reachable (const_env None 0) (fun _ p => exists slug, p = use_tenant "" slug)
              (on_server (resolver_ok "" (fun _ => JStr "T"))) (empty_world None) c
  /\ In (ObsEmit "tenant" (JArr [JStr "acme"; JStr "T"])) (w_trace c.1).
Proof.
  eexists. split.
  - eapply reach_step.
    + eapply reach_answer with (i := O) (r := Some (Response 200 demo_tenant)).
      * eapply reach_spawn; [apply reach_init|]. exists "acme". reflexivity.
      * reflexivity.
      * intros slug resp data _ [= <-] _ Hj _. vm_compute in Hj. injection Hj as <-. reflexivity.
    + eapply step_resume with (i := O) (r := tt); reflexivity.
  - vm_compute. left. reflexivity.
Qed.

Lemma resolveTenantSlug_never_mixes_witness : JStr "T" = (fun _ : string => JStr "T") "acme".
Proof.
  destruct demo_resolution as (c & Hr & Hin).
  apply (resolveTenantSlug_never_mixes (const_env None 0) "" (fun _ => JStr "T") c Hr "acme"
           (JStr "T") Hin).
Defined.
