(* ===== verification/Provider.v ===== *)
(** * React SDK: the authentication provider (sdk/react/src/GGIDProvider.tsx,
    useTokenRefresh.ts, useUser.ts, useRoles.ts, usePermissions.ts, RequireScope.tsx,
    ProtectedRoute.tsx, LogoutButton.tsx)

    The state is the component's React state together with its ref
    [refreshPromiseRef]; [refreshing] says that the ref holds a promise.  The only
    caller of [refreshToken] is a timer, which ignores the result, so a call that
    joins the promise in flight has nothing left to do. *)

From S2P Require Import Prelude JsValue JsString Json Effects ApiClient.
Local Open Scope Z_scope.

Record GGIDAuthState := {
  user : js;
  tokenSet : js;
  isLoading : bool;
  isAuthenticated : bool;
  error_text : option string;
  refreshing : bool
}.

Record GGIDConfig := { apiBaseUrl : string; tenantId : string; storageKey : option string }.

(** [setState({ ... })], which leaves the ref alone. *)
Definition setState (u t : js) (l a : bool) (er : option string) : prog GGIDAuthState unit :=
  upd (fun s => Build_GGIDAuthState u t l a er (refreshing s)).

Definition set_refreshing (b : bool) : prog GGIDAuthState unit :=
  upd (fun s => Build_GGIDAuthState (user s) (tokenSet s) (isLoading s) (isAuthenticated s)
                  (error_text s) b).

(** ** Token timers *)

(** When the access token expires, in milliseconds; [None]: unknown.  Both claims are
    numbers when present. *)
Definition jwt_expiry (access_token : js) : option Z :=
  payload ← jwt_payload access_token;
  match opt_prop payload "exp" with JNum exp => Some (exp * 1000) | _ => None end.

Definition expires_at (ts : js) : option Z :=
  let e := opt_prop ts "expires_at" in
  if truthy e then
    match e with JNum n => Some (if 1000000000000 <? n then n else n * 1000) | _ => None end
  else jwt_expiry (opt_prop ts "access_token").

(** The delay handed to [setTimeout]; [None]: no timer is set. *)
Definition refresh_delay (ts : js) (now : Z) : option Z :=
  if truthy (opt_prop ts "access_token") then
    match expires_at ts with
    | Some at_ =>
        if at_ =? 0 then None
        else
          let delay := Z.max (at_ - now - 60000) 5000 in
          if delay <=? 0 then None else Some delay
    | None => None
    end
  else None.

(** [setTimeout] takes a 32-bit signed delay, and a negative one is 0. *)
Definition timer_delay (d : Z) : Z :=
  let r := d mod 2 ^ 32 in Z.max (if r <? 2 ^ 31 then r else r - 2 ^ 32) 0.

Section Provider.
Context (config : GGIDConfig).

Definition storage_key : string := default "ggid_token" (nonempty (storageKey config)).

Definition loadTokenSet {S} : prog S js :=
  raw ← getItem Local storage_key;
  match nonempty raw with
  | Some raw => mret (default JNull (JSON_parse raw))
  | None => mret JNull
  end.

Definition saveTokenSet {S} (ts : js) : prog S unit :=
  if truthy ts then setItem Local storage_key (stringify ts) else removeItem Local storage_key.

(** The initial state of a page whose storage holds [ts]. *)
Definition init_state (ts : js) : GGIDAuthState :=
  {| user := JNull; tokenSet := ts; isLoading := truthy ts; isAuthenticated := truthy ts;
     error_text := None; refreshing := false |}.

Definition provider_mount : prog GGIDAuthState unit :=
  ts ← loadTokenSet; upd (fun _ => init_state ts).

Definition me_request (token : js) : request :=
  Request GET (apiBaseUrl config +:+ "/api/v1/users/me")
    [("Authorization", "Bearer " +:+ to_str token); ("X-Tenant-ID", tenantId config)] None.

(** The effect of lines 59-78, run once after the first render. *)
Definition load_user : prog GGIDAuthState unit :=
  s ← get_state;
  if truthy (tokenSet s) then
    try_catch (
      r ← fetch (me_request (opt_prop (tokenSet s) "access_token"));
      if negb (rs_ok r) then Throw (error "Failed to load user")
      else
        user ← resp_json r;
        upd (fun s => Build_GGIDAuthState user (tokenSet s) false (isAuthenticated s)
                        (error_text s) (refreshing s)))
    (fun _ => saveTokenSet JNull;; setState JNull JNull false false None)
  else mret tt.

Definition refresh_request (refresh_token : js) : request :=
  Request POST (apiBaseUrl config +:+ "/api/v1/oauth/token")
    [("Content-Type", "application/x-www-form-urlencoded"); ("X-Tenant-ID", tenantId config)]
    (Some (URLSearchParams [("grant_type", "refresh_token");
                            ("refresh_token", to_str refresh_token)])).

Definition refreshToken : prog GGIDAuthState unit :=
  s ← get_state;
  if refreshing s then mret tt
  else
    current ← loadTokenSet;
    let refresh_token := opt_prop current "refresh_token" in
    if negb (truthy refresh_token) then mret tt
    else
      set_refreshing true;;
      finally (try_catch (
        resp ← fetch (refresh_request refresh_token);
        if negb (rs_ok resp) then Throw (error "Token refresh failed")
        else
          newTokenSet ← resp_json resp;
          saveTokenSet newTokenSet;;
          upd (fun s => Build_GGIDAuthState (user s) newTokenSet (isLoading s)
                          (isAuthenticated s) (error_text s) (refreshing s)))
        (fun _ => saveTokenSet JNull;;
                  setState JNull JNull false false (Some "Session expired")))
      (set_refreshing false).

Definition login_request (username password : string) : request :=
  Request POST (apiBaseUrl config +:+ "/api/v1/auth/login")
    [("Content-Type", "application/json"); ("X-Tenant-ID", tenantId config)]
    (Some (stringify (JObj [("username", JStr username); ("password", JStr password)]))).

Definition login (username password : string) : prog GGIDAuthState unit :=
  upd (fun s => Build_GGIDAuthState (user s) (tokenSet s) true (isAuthenticated s) None
                  (refreshing s));;
  try_catch (
    resp ← fetch (login_request username password);
    if negb (rs_ok resp) then
      data ← try_catch (resp_json resp) (fun _ => mret (JObj []));
      err ← get data "error";
      Throw (error (to_str (js_or_list [err; opt_prop data "message"] (JStr "Login failed"))))
    else
      ts ← resp_json resp;
      saveTokenSet ts;;
      setState JNull ts false true None)
  (fun err =>
     upd (fun s => Build_GGIDAuthState (user s) (tokenSet s) false (isAuthenticated s)
                     (Some (e_message err)) (refreshing s));;
     Throw err).

Definition logout : prog GGIDAuthState unit :=
  saveTokenSet JNull;; setState JNull JNull false false None.
End Provider.

(** ** What the context offers *)

(** [v?.includes(x) ?? false]; [None]: TypeError. *)
Definition opt_includes (v : js) (x : string) : option bool :=
  if is_nullish v then Some false else js_includes v x.

Definition getAccessToken (s : GGIDAuthState) : js :=
  js_or (opt_prop (tokenSet s) "access_token") JNull.
Definition ctx_hasRole (s : GGIDAuthState) (role : string) : option bool :=
  opt_includes (opt_prop (user s) "roles") role.
Definition ctx_hasScope (s : GGIDAuthState) (scope : string) : option bool :=
  opt_includes (opt_prop (user s) "scopes") scope.
Definition ctx_hasPermission (s : GGIDAuthState) (permission : string) : option bool :=
  let permissions := opt_prop (user s) "permissions" in
  if negb (truthy permissions) then Some false
  else
    admin ← js_includes permissions "admin";
    if (admin : bool) then Some true else js_includes permissions permission.

(** ** useRoles, usePermissions *)

(** [l.some(f)] and [l.every(f)] for a test that may throw. *)
Fixpoint some_of (f : string -> option bool) (l : list string) : option bool :=
  match l with
  | [] => Some false
  | x :: l' => b ← f x; if (b : bool) then Some true else some_of f l'
  end.

Fixpoint every_of (f : string -> option bool) (l : list string) : option bool :=
  match l with
  | [] => Some true
  | x :: l' => b ← f x; if (b : bool) then every_of f l' else Some false
  end.

Section UseRoles.
Context (s : GGIDAuthState).

(** [user?.k ?? []]. *)
Definition claim (k : string) : js := js_nullish (opt_prop (user s) k) (JArr []).

Definition roles_hasRole (role : string) : option bool := js_includes (claim "roles") role.
Definition roles_hasScope (scope : string) : option bool := js_includes (claim "scopes") scope.
Definition hasAnyRole : list string -> option bool := some_of roles_hasRole.
Definition hasAllRoles : list string -> option bool := every_of roles_hasRole.
Definition hasAnyScope : list string -> option bool := some_of roles_hasScope.
Definition roles_isAdmin : option bool :=
  a ← roles_hasRole "admin"; if (a : bool) then Some true else roles_hasScope "admin".

Definition normalizePermission (perm : string) : string := to_lower (trim perm).

Definition permissionMatches (userPerm requiredPerm : string) : bool :=
  if String.eqb userPerm requiredPerm then true
  else
    let u := split_on ":"%char userPerm in
    let r := split_on ":"%char requiredPerm in
    let action := nth_error u 1 in
    (match nth_error u 0, nth_error r 0 with
     | Some userResource, Some reqResource =>
         String.eqb userResource reqResource
         && (bool_decide (action = Some "*") || bool_decide (action = Some "admin"))
     | _, _ => false
     end)
    || (String.eqb userPerm "*" || String.eqb userPerm "admin" || String.eqb userPerm "admin:*").

Definition usePermissions_hasPermission (permission : string) : option bool :=
  let normalized := normalizePermission permission in
  js_some (claim "permissions") (fun p =>
    match p with JStr p => Some (permissionMatches p normalized) | _ => None end).

Definition hasAnyPermission : list string -> option bool := some_of usePermissions_hasPermission.
Definition hasAllPermissions : list string -> option bool := every_of usePermissions_hasPermission.
End UseRoles.

(** ** Guards *)

Inductive rendered := Loading | Fallback | Redirect (url : string) | Children.

Definition RequireScope (s : GGIDAuthState) (scope : option string) (anyOf allOf : option (list string))
    : option rendered :=
  if isLoading s then Some Loading
  else
    a ← match nonempty scope with Some x => ctx_hasScope s x | None => Some true end;
    b ← match anyOf with
        | Some ((_ :: _) as l) => if (a : bool) then some_of (ctx_hasScope s) l else Some false
        | _ => Some a
        end;
    c ← match allOf with
        | Some ((_ :: _) as l) => if (b : bool) then every_of (ctx_hasScope s) l else Some false
        | _ => Some b
        end;
    Some (if (c : bool) then Children else Fallback).

Definition ProtectedRoute (s : GGIDAuthState) (loginPath currentPath : string) : rendered :=
  if isLoading s then Loading
  else if negb (isAuthenticated s)
       then Redirect (loginPath +:+ "?redirect=" +:+ encodeURIComponent currentPath)
       else Children.

Definition LogoutButton_click (config : GGIDConfig) (redirectAfterLogout : string)
    : prog GGIDAuthState unit :=
  logout config;; emit "navigate" (JStr redirectAfterLogout).

(** useTokenRefresh: what its timer does when it fires. *)
Definition useTokenRefresh_fire {S} : prog S unit := emit "ggid:token-refresh" JNull.

(** ** useUser *)

Record use_user := { uu_user : js; uu_isLoading : bool; uu_error : option string }.

Section UseUser.
Context (apiBase tenant : string).

Definition fetchUser (tok : js) : prog use_user unit :=
  if negb (truthy tok) then mret tt
  else
    upd (fun s => Build_use_user (uu_user s) true (uu_error s));;
    upd (fun s => Build_use_user (uu_user s) (uu_isLoading s) None);;
    finally (try_catch (
      resp ← fetch (Request GET (apiBase +:+ "/api/v1/users/me")
               [("Authorization", "Bearer " +:+ to_str tok); ("X-Tenant-ID", tenant)] None);
      if negb (rs_ok resp) then Throw (error "Failed to fetch user")
      else
        data ← resp_json resp;
        upd (fun s => Build_use_user data (uu_isLoading s) (uu_error s)))
      (fun err => upd (fun s => Build_use_user (uu_user s) (uu_isLoading s)
                                  (Some (e_message err)))))
    (upd (fun s => Build_use_user (uu_user s) false (uu_error s))).
End UseUser.

#[global] Arguments refresh_request : simpl never.
#[global] Arguments login_request : simpl never.
#[global] Arguments me_request : simpl never.
#[global] Arguments storage_key : simpl never.

(** ** The session invariant *)

(** Successful answers of the API carry JSON objects. *)
Definition json_objects (rq : request) (r : option response) : Prop :=
  forall resp v, r = Some resp -> rs_ok resp = true -> JSON_parse (rs_body resp) = Some v ->
  truthy v = true.

(** The calls the provider's users and timers make. *)
Inductive provider_call (config : GGIDConfig) : prog GGIDAuthState unit -> Prop :=
| call_load_user : provider_call config (load_user config)
| call_refresh : provider_call config (refreshToken config)
| call_login u p : provider_call config (login config u p)
| call_logout : provider_call config (logout config).

Section Session.
Context (config : GGIDConfig).

(** Authenticated implies a token set, and the storage holds it exactly when there
    is one. *)
Definition session_ok (w : world GGIDAuthState) : Prop :=
  let ts := tokenSet (w_st w) in
  (isAuthenticated (w_st w) = true -> truthy ts = true)
  /\ match w_local w !! storage_key config with
     | None => truthy ts = false
     | Some raw => truthy ts = true /\ (raw = stringify ts \/ JSON_parse raw = Some ts)
     end.

Let answers := on_server (S:=GGIDAuthState) json_objects.

Lemma session_log o w : session_ok w -> session_ok (log o w).
Proof. by destruct w. Qed.

(** A state change that keeps the tokens and the flag. *)
Lemma session_upd f w :
  session_ok w -> tokenSet (f (w_st w)) = tokenSet (w_st w) ->
  isAuthenticated (f (w_st w)) = isAuthenticated (w_st w) -> session_ok (set_st f w).
Proof. unfold session_ok. autorewrite with world. by intros H -> ->. Qed.

(** Storing a token set [ts] and keeping it in the state. *)
Lemma session_saved ts f w :
  truthy ts = true -> tokenSet (f (w_st w)) = ts ->
  session_ok (set_st f (set_area Local (<[storage_key config := stringify ts]>) w)).
Proof.
  intros Ht Hf. unfold session_ok. autorewrite with world. rewrite Hf, lookup_insert_eq.
  split; [done|]. split; [done|by left].
Qed.

Lemma session_cleared f w :
  tokenSet (f (w_st w)) = JNull -> isAuthenticated (f (w_st w)) = false ->
  session_ok (set_st f (set_area Local (delete (storage_key config)) w)).
Proof.
  intros Ht Ha. unfold session_ok. autorewrite with world. rewrite Ht, Ha, lookup_delete_eq.
  done.
Qed.

Lemma logout_safe w : session_ok w -> safe answers session_ok (logout config) w.
Proof. intros Hw. unfold safe. cbn. intros _ w1 ->. intros _ w2 ->. by apply session_cleared. Qed.

Lemma load_user_safe w : session_ok w -> safe answers session_ok (load_user config) w.
Proof.
  intros Hw. unfold safe, load_user. cbn. intros st w0 [-> ->].
  destruct (truthy (tokenSet (w_st w))); cbn; [|done]. split; [by apply session_log|].
  assert (forall w1, forall (_ : unit) w2, w2 = set_area Local (delete (storage_key config)) w1 ->
    forall (_ : unit) w3, w3 = set_st (fun s => Build_GGIDAuthState JNull JNull false false None
      (refreshing s)) w2 -> session_ok w3) as Hclear.
  { intros w1 _ w2 -> _ w3 ->. by apply session_cleared. }
  intros [r|] w1 _ Hw1; cbn; [|apply Hclear]. destruct (rs_ok r); cbn; [|apply Hclear].
  split; [done|]. intros _ w2 _ Hw2. destruct (JSON_parse (rs_body r)); cbn; [|apply Hclear].
  intros _ w3 ->. by apply session_upd.
Qed.

Lemma wp_load (Q : outcome js -> world GGIDAuthState -> Prop) w :
  (forall v, Q (Done v) w) -> wp answers session_ok Q (loadTokenSet config) w.
Proof. intros H. cbn. intros raw w1 [-> ->]. match goal with |- context [nonempty ?x] => destruct (nonempty x) end; apply H. Qed.

(** [saveTokenSet(ts); setState(...)] in one synchronous stretch. *)
Lemma wp_save ts f (Q : outcome unit -> world GGIDAuthState -> Prop) w :
  truthy ts = true -> (forall s, tokenSet (f s) = ts) ->
  (forall w', session_ok w' -> Q (Done tt) w') ->
  wp answers session_ok Q (saveTokenSet config ts;; upd f) w.
Proof.
  intros Ht Hf HQ. unfold saveTokenSet. rewrite Ht. cbn. intros _ w1 -> [] w2 ->.
  by apply HQ, session_saved.
Qed.

Lemma wp_clear f (Q : outcome unit -> world GGIDAuthState -> Prop) w :
  (forall s, tokenSet (f s) = JNull /\ isAuthenticated (f s) = false) ->
  (forall w', session_ok w' -> Q (Done tt) w') ->
  wp answers session_ok Q (saveTokenSet config JNull;; upd f) w.
Proof.
  intros Hf HQ. cbn. intros _ w1 -> [] w2 ->. apply HQ, session_cleared; apply Hf.
Qed.

Lemma set_refreshing_safe b w : session_ok w -> safe answers session_ok (set_refreshing b) w.
Proof. intros Hw. unfold safe. cbn. intros _ w1 ->. by apply session_upd. Qed.

Lemma refresh_safe w : session_ok w -> safe answers session_ok (refreshToken config) w.
Proof.
  intros Hw. unfold safe, refreshToken. apply wp_mbind, wp_get_state.
  destruct (refreshing (w_st w)); [done|]. apply wp_mbind, wp_load. intros cur.
  destruct (truthy (opt_prop cur "refresh_token")); [|done].
  cbn [negb]. apply wp_mbind, wp_upd. apply wp_finally, wp_try.
  assert (forall w', session_ok w' -> wp answers session_ok
    (fun o w'' => wp answers session_ok (fun o' w3 => match o' with
       | Done _ => session_ok w3 | Raised _ => session_ok w3 end) (set_refreshing false) w'')
    (saveTokenSet config JNull;; setState JNull JNull false false (Some "Session expired")) w')
    as Hfail.
  { intros w' _. apply wp_clear; [done|]. intros w2 Hw2. eapply wp_mono; [|by apply set_refreshing_safe].
    by intros [] ?. }
  cbn -[saveTokenSet set_refreshing setState]. split; [by apply session_log, session_upd|].
  intros [r|] w2 Hr Hw2; [|by apply Hfail]. cbn -[saveTokenSet set_refreshing setState].
  destruct (rs_ok r) eqn:Eok; [|by apply Hfail]. cbn -[saveTokenSet set_refreshing setState].
  split; [done|]. intros _ w3 _ Hw3. destruct (JSON_parse (rs_body r)) as [v|] eqn:Ej;
    [|by apply Hfail]. cbn -[saveTokenSet set_refreshing setState].
  apply wp_save; [by eapply Hr|done|]. intros w4 Hw4.
  eapply wp_mono; [|by apply set_refreshing_safe]. by intros [] ?.
Qed.

Lemma login_safe u p w : session_ok w -> safe answers session_ok (login config u p) w.
Proof.
  intros Hw. unfold safe, login. cbn -[saveTokenSet js_or_list setState]. intros _ w1 ->.
  split; [by apply session_log, session_upd|].
  intros [r|] w2 Hr Hw2; [|by intros _ ? ->; apply session_upd]. cbn -[saveTokenSet js_or_list setState].
  destruct (rs_ok r) eqn:Eok; cbn -[saveTokenSet js_or_list setState]; (split; [done|]);
    intros _ w3 _ Hw3.
  - destruct (JSON_parse (rs_body r)) as [v|] eqn:Ej; cbn -[saveTokenSet js_or_list setState];
      [|by intros _ ? ->; apply session_upd].
    apply wp_try, wp_save; [by eapply Hr|done..].
  - destruct (JSON_parse (rs_body r)) as [v|]; cbn -[saveTokenSet js_or_list setState];
      [|by intros _ ? ->; apply session_upd].
    unfold get. destruct (prop v "error"); intros _ ? ->; by apply session_upd.
Qed.
End Session.

(** ** Properties *)

Lemma mount_session_ok (config : GGIDConfig) e w :
  match w_local w !! storage_key config with
  | Some raw => exists ts, raw <> "" /\ JSON_parse raw = Some ts /\ truthy ts = true
  | None => True
  end ->
  session_ok config (run e (provider_mount config) w).2.
Proof.
  unfold provider_mount, loadTokenSet. intros H. run_steps. cbn [w_area].
  destruct (w_local w !! storage_key config) as [raw|] eqn:El.
  - destruct H as (ts & Hne & Hj & Ht). replace (nonempty (Some raw)) with (Some raw) by by destruct raw.
    run_steps. rewrite Hj. cbn [from_option id snd]. unfold session_ok. autorewrite with world.
    rewrite El. cbn. auto.
  - cbn [nonempty]. run_steps. cbn [snd]. unfold session_ok. autorewrite with world. rewrite El. done.
Qed.

(** C3. Starting from a page load, whatever calls are in flight together (the profile
    request of the first render, refreshes, logins, logouts) and in whatever order
    the API answers them: the provider never reports an authenticated user without a
    token set, and the storage holds a token set exactly when the state does, the
    same one. *)
Theorem provider_session_invariant (config : GGIDConfig) e w c :
  match w_local w !! storage_key config with
  | Some raw => exists ts, raw <> "" /\ JSON_parse raw = Some ts /\ truthy ts = true
  | None => True
  end ->
  reachable e (fun _ p => provider_call config p) (on_server json_objects)
    (run e (provider_mount config) w).2 c ->
  let s := w_st c.1 in
  (isAuthenticated s = true -> truthy (tokenSet s) = true)
  /\ match w_local c.1 !! storage_key config with
     | None => truthy (tokenSet s) = false
     | Some raw => truthy (tokenSet s) = true
                   /\ (raw = stringify (tokenSet s) \/ JSON_parse raw = Some (tokenSet s))
     end.
Proof.
  intros H0 Hr.
  edestruct (safe_reachable e (fun _ p => provider_call config p) (on_server json_objects)
    (session_ok config)) as [HI _]; [by apply mount_session_ok| |exact Hr|exact HI].
  intros w' p Hw' []; [by apply load_user_safe|by apply refresh_safe|by apply login_safe
    |by apply logout_safe].
Qed.

(** A logout does not cancel a refresh that is in flight.  The refresh answered
    after it writes its tokens back: the user is shown as logged out, but the
    storage holds a live session, and the next page load is authenticated. *)
Lemma logout_during_refresh (config : GGIDConfig) e w raw cur resp tokens :
  refreshing (w_st w) = false ->
  w_local w !! storage_key config = Some raw -> raw <> "" -> JSON_parse raw = Some cur ->
  truthy (opt_prop cur "refresh_token") = true ->
  rs_ok resp = true -> JSON_parse (rs_body resp) = Some tokens -> truthy tokens = true ->
  let '(pending, w1) := sync e (refreshToken config) w in
  let w2 := (run e (logout config) w1).2 in
  exists k w3,
    pending = Act (OFetch (refresh_request config (opt_prop cur "refresh_token"))) k
    /\ w_local w2 !! storage_key config = None
    /\ run e (k (Some resp)) w2 = (Done tt, w3)
    /\ isAuthenticated (w_st w3) = false
    /\ w_local w3 !! storage_key config = Some (stringify tokens)
    /\ (JSON_parse (stringify tokens) = Some tokens ->
        isAuthenticated (w_st (run e (provider_mount config) w3).2) = true).
Proof.
  intros Hnr Hl Hne Hp Hrt Hok Hj Ht. unfold refreshToken, loadTokenSet.
  destruct w as [s l se sc t]. cbn -[saveTokenSet logout provider_mount run] in *.
  rewrite Hnr. cbn -[saveTokenSet logout provider_mount run]. rewrite Hl.
  replace (nonempty (Some raw)) with (Some raw) by by destruct raw.
  cbn -[saveTokenSet logout provider_mount run]. rewrite Hp. cbn -[saveTokenSet logout provider_mount run].
  rewrite Hrt. cbn -[saveTokenSet logout provider_mount run].
  eexists _, _. split; [done|]. split; [cbn; apply lookup_delete_eq|].
  split.
  { rewrite run_finally, run_try. unfold saveTokenSet. cbn. rewrite Hok. cbn. rewrite Hj. cbn.
    rewrite Ht. cbn. done. }
  cbn -[provider_mount run]. split; [done|]. split; [apply lookup_insert_eq|].
  intros Hrp. unfold provider_mount, loadTokenSet. run_steps. cbn [w_area w_local].
  rewrite lookup_insert_eq. destruct (stringify_head tokens) as (c0 & r & E & _).
  rewrite E. cbn [nonempty]. run_steps. cbn [snd]. autorewrite with world. cbn.
  rewrite <- E, Hrp. done.
Qed.

(** A refresh that is answered ok replaces the token set by the answer as it is:
    user and authentication flag stay.  When the answer brings no new refresh token
    (which OAuth allows, the old one staying valid), the old one is lost and every
    later refresh returns without a request.  Any failure ends the session with
    "Session expired" and clears the storage.  No exception leaves the call. *)
Lemma refreshToken_outcome (config : GGIDConfig) (e e' : env) w raw cur :
  refreshing (w_st w) = false ->
  w_local w !! storage_key config = Some raw -> raw <> "" -> JSON_parse raw = Some cur ->
  truthy (opt_prop cur "refresh_token") = true ->
  let rq := refresh_request config (opt_prop cur "refresh_token") in
  let answer := server e (ObsFetch rq :: w_trace w) rq in
  exists w', run e (refreshToken config) w = (Done tt, w')
  /\ w_trace w' = ObsFetch rq :: w_trace w
  /\ refreshing (w_st w') = false
  /\ match resp ← answer; if rs_ok resp then JSON_parse (rs_body resp) else None with
     | Some tokens =>
         tokenSet (w_st w') = tokens
         /\ user (w_st w') = user (w_st w)
         /\ isAuthenticated (w_st w') = isAuthenticated (w_st w)
         /\ w_local w' !! storage_key config
            = (if truthy tokens then Some (stringify tokens) else None)
         /\ (json_wf tokens = true -> truthy (opt_prop tokens "refresh_token") = false ->
             run e' (refreshToken config) w' = (Done tt, w'))
     | None =>
         tokenSet (w_st w') = JNull /\ isAuthenticated (w_st w') = false
         /\ error_text (w_st w') = Some "Session expired"
         /\ w_local w' !! storage_key config = None
     end.
Proof.
  intros Hnr Hl Hne Hp Hrt rq answer. subst answer. unfold refreshToken at 1, loadTokenSet.
  run_steps. rewrite Hnr. run_steps. cbn [w_area]. rewrite Hl.
  replace (nonempty (Some raw)) with (Some raw) by by destruct raw. run_steps. rewrite Hp.
  cbn [from_option id]. rewrite Hrt. cbn [negb]. unfold set_refreshing. run_steps. fold rq.
  autorewrite with world. destruct (server e _ rq) as [resp|]; cbn [mbind option_bind].
  2: { unfold saveTokenSet, setState. cbn. eexists. split; [done|]. destruct w. cbn.
       rewrite lookup_delete_eq. done. }
  run_steps. destruct (rs_ok resp); cbn [negb]; run_steps.
  2: { unfold saveTokenSet, setState. cbn. eexists. split; [done|]. destruct w. cbn.
       rewrite lookup_delete_eq. done. }
  destruct (JSON_parse (rs_body resp)) as [tokens|]; run_steps.
  2: { unfold saveTokenSet, setState. cbn. eexists. split; [done|]. destruct w. cbn.
       rewrite lookup_delete_eq. done. }
  unfold saveTokenSet. destruct (truthy tokens) eqn:Ht; cbn; eexists; (split; [done|]); destruct w;
    cbn; do 5 (split; [done|]); rewrite ?lookup_insert_eq, ?lookup_delete_eq; (split; [done|]);
    intros Hwf Hn; [|done].
  destruct (stringify_head tokens) as (c0 & r & E & _). rewrite E. cbn. rewrite <- E.
  rewrite JSON_parse_stringify by done. cbn. by rewrite Hn.
Qed.

(** A login that is refused or fails keeps the session as it was, reports the
    server's [error], or else its [message], or else "Login failed", and throws it;
    a login that succeeds stores the tokens and is authenticated, with no user: the
    profile request belongs to the first render only. *)
Lemma login_outcome (config : GGIDConfig) e w u p :
  let rq := login_request config u p in
  let answer := server e (ObsFetch rq :: w_trace w) rq in
  exists w', w_trace w' = ObsFetch rq :: w_trace w /\ isLoading (w_st w') = false /\
  match answer with
  | None => run e (login config u p) w = (Raised network_error, w')
            /\ tokenSet (w_st w') = tokenSet (w_st w) /\ w_local w' = w_local w
  | Some resp =>
      if rs_ok resp then
        match JSON_parse (rs_body resp) with
        | Some tokens =>
            run e (login config u p) w = (Done tt, w')
            /\ tokenSet (w_st w') = tokens /\ isAuthenticated (w_st w') = true
            /\ user (w_st w') = JNull
            /\ (truthy tokens = true ->
                w_local w' !! storage_key config = Some (stringify tokens))
        | None => run e (login config u p) w = (Raised syntax_error, w')
                  /\ tokenSet (w_st w') = tokenSet (w_st w) /\ w_local w' = w_local w
        end
      else
        let data := default (JObj []) (JSON_parse (rs_body resp)) in
        is_nullish data = false ->
        let msg := to_str (js_or_list [opt_prop data "error"; opt_prop data "message"]
                             (JStr "Login failed")) in
        run e (login config u p) w = (Raised (error msg), w')
        /\ error_text (w_st w') = Some msg
        /\ tokenSet (w_st w') = tokenSet (w_st w) /\ w_local w' = w_local w
        /\ isAuthenticated (w_st w') = isAuthenticated (w_st w)
  end.
Proof.
  intros rq answer. subst answer. unfold login. run_steps. fold rq. autorewrite with world.
  destruct (server e _ rq) as [resp|]; run_steps.
  2: { eexists. split_and!; [| |done|..]; by destruct w. }
  destruct (rs_ok resp); cbn [negb]; run_steps.
  - destruct (JSON_parse (rs_body resp)) as [tokens|]; run_steps.
    + unfold saveTokenSet, setState. destruct (truthy tokens) eqn:Ht; run_steps;
        eexists; (split_and!; [| |done|..]); destruct w; cbn; try done.
      intros _. apply lookup_insert_eq.
    + eexists. split_and!; [| |done|..]; by destruct w.
  - destruct (JSON_parse (rs_body resp)) as [data|]; cbn [from_option id]; run_steps.
    + unfold get. destruct (prop data "error") as [er|] eqn:Ee; run_steps.
      * replace (opt_prop data "error") with er by (unfold opt_prop; by rewrite Ee). eexists.
        split; [|split; [|intros _; split; [done|]]]; by destruct w.
      * exists (log (ObsFetch rq) (set_st (fun s => Build_GGIDAuthState (user s) (tokenSet s) false
                  (isAuthenticated s) None (refreshing s)) w)).
        split; [by destruct w|]. split; [by destruct w|]. intros Hn. by destruct data.
    + eexists. split; [|split; [|intros _; split; [done|]]]; by destruct w.
Qed.

(** The refresh timer of the provider and of [useTokenRefresh].  A token whose
    expiry is known is always given a timer, 60 seconds before it expires and never
    in less than 5: the test [delay <= 0] is never true, so a token that has already
    expired is scheduled too.  The delay overflows the 32 bits of [setTimeout] for a
    token that lives longer than 2^31 ms (about 25 days): its refresh runs at once. *)
Lemma refresh_timer ts now at_ :
  truthy (opt_prop ts "access_token") = true -> expires_at ts = Some at_ -> at_ <> 0 ->
  exists d, refresh_delay ts now = Some d
  /\ d = Z.max (at_ - now - 60000) 5000
  /\ (at_ <= now -> d = 5000)
  /\ (at_ - now - 60000 < 2 ^ 31 -> timer_delay d = d)
  /\ (2 ^ 31 <= at_ - now - 60000 < 2 ^ 32 -> timer_delay d = 0).
Proof.
  intros Ht He Hz. unfold refresh_delay. rewrite Ht, He.
  destruct (Z.eqb_spec at_ 0) as [|_]; [done|].
  destruct (Z.leb_spec (Z.max (at_ - now - 60000) 5000) 0); [lia|].
  eexists. split; [done|]. split; [done|]. split; [lia|].
  unfold timer_delay. generalize (at_ - now - 60000). intros z. split; intros Hz'.
  - rewrite Z.mod_small by lia. destruct (Z.ltb_spec (Z.max z 5000) (2 ^ 31)); lia.
  - rewrite Z.mod_small by lia. destruct (Z.ltb_spec (Z.max z 5000) (2 ^ 31)); lia.
Qed.

Definition with_permissions (ps : list string) (s : GGIDAuthState) : Prop :=
  opt_prop (user s) "permissions" = strs ps.

Lemma usePermissions_strs s ps q :
  with_permissions ps s ->
  usePermissions_hasPermission s q
  = Some (existsb (fun p => permissionMatches p (normalizePermission q)) ps).
Proof.
  unfold with_permissions, usePermissions_hasPermission, claim. intros H. rewrite !H.
  by apply js_some_strs.
Qed.

Lemma ctx_hasPermission_strs s ps q :
  with_permissions ps s -> ctx_hasPermission s q = Some (str_mem "admin" ps || str_mem q ps).
Proof.
  unfold with_permissions, ctx_hasPermission. intros H. rewrite !H. replace (truthy (strs ps)) with true by done.
  cbn [negb]. rewrite !js_includes_strs. cbn [mbind option_bind]. by destruct (str_mem "admin" ps).
Qed.

(** The two permission checks the SDK offers.  On a permission written in lower
    case without surrounding spaces, whatever the context's [hasPermission] grants
    [usePermissions] grants too, and a wildcard "resource:*" grants every action of
    its resource.  Only the permission asked for is normalised, not the ones the
    user holds, so a permission held as "Users:Read" is granted by the context and
    refused by [usePermissions], even when asked for by that very name. *)
Lemma permission_checks_compared s ps q :
  with_permissions ps s ->
  (normalizePermission q = q -> ctx_hasPermission s q = Some true ->
   usePermissions_hasPermission s q = Some true)
  /\ (forall r a, lacks ":"%char r = true -> normalizePermission q = r +:+ String ":"%char a ->
      In (r +:+ ":*") ps -> usePermissions_hasPermission s q = Some true)
  /\ (ps = [q] -> normalizePermission q <> q -> q <> "*" -> q <> "admin" ->
      ~ In (nth_error (split_on ":"%char q) 1) [Some "*"; Some "admin"] ->
      ctx_hasPermission s q = Some true /\ usePermissions_hasPermission s q = Some false).
Proof.
  intros H. rewrite (usePermissions_strs s ps) by done.
  rewrite (ctx_hasPermission_strs s ps) by done. split; [|split].
  - intros Hn [= Hg]. f_equal. rewrite Hn. apply existsb_exists. bool_prop.
    destruct Hg as [Hg|Hg]; apply str_mem_In in Hg; eexists; (split; [exact Hg|]);
      unfold permissionMatches.
    + rewrite !orb_true_r. by destruct (String.eqb "admin" q).
    + by rewrite String.eqb_refl.
  - intros r a Hr Hq Hin. f_equal. apply existsb_exists. exists (r +:+ ":*"). split; [done|].
    rewrite Hq. unfold permissionMatches. destruct (String.eqb _ _); [done|].
    change (r +:+ ":*") with (r +:+ String ":"%char "*"). rewrite !split_on_app by done. cbn.
    by rewrite String.eqb_refl.
  - intros -> Hne Hstar Hadm Hact. cbn [str_mem existsb]. rewrite String.eqb_refl, orb_true_r.
    split; [done|]. f_equal. rewrite orb_false_r. unfold permissionMatches.
    rewrite eqb_str_false by congruence. rewrite (eqb_str_false q "*"), (eqb_str_false q "admin") by done.
    rewrite (eqb_str_false q "admin:*") by (intros ->; apply Hact; left; reflexivity).
    rewrite !bool_decide_eq_false_2 by (intros E; apply Hact; rewrite E; cbn; auto).
    destruct (nth_error (split_on ":"%char q) 0), (nth_error (split_on ":"%char (normalizePermission q)) 0);
      try done. by rewrite andb_false_r.
Qed.

(** ** Witnesses *)

Definition demo_config : GGIDConfig := Build_GGIDConfig "https://api" "t" None.

Definition demo_tokens : js := JObj [("access_token", JStr "a"); ("refresh_token", JStr "r")].

Definition demo_session : world GGIDAuthState :=
  page (init_state demo_tokens) {["ggid_token" := stringify demo_tokens]}.

Definition blank : GGIDAuthState := init_state JNull.

Lemma demo_login :
  exists c, reachable (const_env None 0) (fun _ p => provider_call demo_config p)
              (on_server json_objects)
              (run (const_env None 0) (provider_mount demo_config) (page blank ∅)).2 c
  /\ isAuthenticated (w_st c.1) = true.
Proof.
  eexists. split.
  - eapply reach_step.
    + eapply reach_answer with (i := O) (r := Some (Response 200 (stringify demo_tokens))).
      * eapply reach_spawn; [apply reach_init|]. apply (call_login demo_config "u" "p").
      * reflexivity.
      * intros resp v [= <-] _ Hj. vm_compute in Hj. injection Hj as <-. reflexivity.
    + eapply step_resume with (i := O) (r := tt); reflexivity.
  - reflexivity.
Qed.

Lemma provider_session_invariant_witness :
  exists ts, truthy ts = true.
Proof.
  destruct demo_login as (c & Hr & Ha).
  destruct (provider_session_invariant demo_config (const_env None 0) (page blank ∅) c) as [H _];
    [exact I|exact Hr|].
  exists (tokenSet (w_st c.1)). apply H, Ha.
Defined.

Lemma logout_during_refresh_witness :
  exists k w3,
    (sync (const_env None 0) (refreshToken demo_config) demo_session).1
      = Act (OFetch (refresh_request demo_config (JStr "r"))) k
    /\ run (const_env None 0) (k (Some (Response 200 (stringify demo_tokens))))
         (run (const_env None 0) (logout demo_config)
            (sync (const_env None 0) (refreshToken demo_config) demo_session).2).2 = (Done tt, w3)
    /\ isAuthenticated (w_st w3) = false
    /\ w_local w3 !! "ggid_token" = Some (stringify demo_tokens).
Proof.
  pose proof (logout_during_refresh demo_config (const_env None 0) demo_session
    (stringify demo_tokens) demo_tokens (Response 200 (stringify demo_tokens)) demo_tokens) as H.
  destruct H as (k & w3 & H1 & _ & H2 & H3 & H4 & _); try reflexivity; [discriminate|].
  exists k, w3. split_and!; assumption.
Defined.

Lemma refreshToken_outcome_witness :
  exists w', run (const_env (Some (Response 400 "")) 0) (refreshToken demo_config) demo_session
             = (Done tt, w') /\ error_text (w_st w') = Some "Session expired".
Proof.
  destruct (refreshToken_outcome demo_config (const_env (Some (Response 400 "")) 0) (const_env None 0)
    demo_session (stringify demo_tokens) demo_tokens) as (w' & H1 & _ & _ & _ & _ & H2 & _);
    try reflexivity; [discriminate|].
  exists w'. split; assumption.
Defined.

Lemma login_outcome_witness :
  exists w', run (const_env (Some (Response 401 (stringify (JObj [("error", JStr "no")])))) 0)
               (login demo_config "u" "p") (page blank ∅) = (Raised (error "no"), w')
             /\ error_text (w_st w') = Some "no".
Proof.
  destruct (login_outcome demo_config
    (const_env (Some (Response 401 (stringify (JObj [("error", JStr "no")])))) 0)
    (page blank ∅) "u" "p") as (w' & _ & _ & H).
  destruct H as (H1 & H2 & _); [reflexivity|]. exists w'. split; [exact H1|exact H2].
Defined.

Lemma refresh_timer_witness :
  let ts := JObj [("access_token", JStr "a"); ("expires_at", JNum 4000000000)] in
  exists d, refresh_delay ts 1700000000000 = Some d
  /\ d = Z.max (4000000000000 - 1700000000000 - 60000) 5000
  /\ (4000000000000 <= 1700000000000 -> d = 5000)
  /\ (4000000000000 - 1700000000000 - 60000 < 2 ^ 31 -> timer_delay d = d)
  /\ (2 ^ 31 <= 4000000000000 - 1700000000000 - 60000 < 2 ^ 32 -> timer_delay d = 0).
Proof. apply refresh_timer; [reflexivity|reflexivity|discriminate]. Defined.

Lemma permission_checks_compared_witness :
  let s := Build_GGIDAuthState (JObj [("permissions", strs ["Users:Read"])]) JNull false true None false in
  ctx_hasPermission s "Users:Read" = Some true
  /\ usePermissions_hasPermission s "Users:Read" = Some false.
Proof.
  apply (permission_checks_compared
    (Build_GGIDAuthState (JObj [("permissions", strs ["Users:Read"])]) JNull false true None false)
    ["Users:Read"] "Users:Read"); try reflexivity; try discriminate.
  cbn. intros [H|[H|[]]]; discriminate H.
Defined.
