(* ===== verification/ReactNative.v ===== *)
(** * React Native SDK: the client (sdk/react-native/src/client.ts)

    [getSession] and [logout] call each other, so they are defined with fuel: the
    result [None] says that the fuel ran out, [Some v] that the call returned [v].
    The browser prompt and the code exchange are expo-auth-session's: calls of the
    platform.  The client's field [discovery] is the state. *)

From S2P Require Import Prelude JsValue JsString Json Effects ApiClient.
Local Open Scope Z_scope.

Record GGIDConfig := {
  baseUrl : string;
  tenantId : string;
  clientId : string;
  redirectUri : string;
  scopes : option string
}.

Record DiscoveryDocument := {
  authorizationEndpoint : string;
  tokenEndpoint : string;
  revocationEndpoint : string;
  userInfoEndpoint : string
}.

Definition SESSION_KEY : string := "ggid_session".

(** [z > v] on the values [expiresAt] takes ([undefined] and text compare as NaN). *)
Definition js_after (z : Z) (v : js) : bool :=
  match v with JNum n => n <? z | JNull => 0 <? z | _ => false end.

(** [Date.now() + (v || 3600) * 1000] for an optional number [v]. *)
Definition expiry_from (now : Z) (v : js) : js :=
  match js_or v (JNum 3600) with JNum n => JNum (now + n * 1000) | _ => JNull end.

Section Client.
Context (config : GGIDConfig) (codeVerifier : js).

Notation prog := (prog (option DiscoveryDocument)).

Definition secure_get (k : string) : prog (option string) :=
  Act OYield (fun _ => getItem Secure k).
Definition secure_set (k v : string) : prog unit := Act OYield (fun _ => setItem Secure k v).
Definition secure_del (k : string) : prog unit := Act OYield (fun _ => removeItem Secure k).

Definition discovery_document : DiscoveryDocument :=
  {| authorizationEndpoint := baseUrl config +:+ "/api/v1/oauth/authorize";
     tokenEndpoint := baseUrl config +:+ "/api/v1/oauth/token";
     revocationEndpoint := baseUrl config +:+ "/api/v1/oauth/revoke";
     userInfoEndpoint := baseUrl config +:+ "/api/v1/oauth/userinfo" |}.

Definition getDiscovery : prog DiscoveryDocument :=
  d ← get_state;
  match d with
  | Some d => mret d
  | None => upd (fun _ => Some discovery_document);; mret discovery_document
  end.

Definition userinfo_request (accessToken : js) : request :=
  Request GET (baseUrl config +:+ "/api/v1/oauth/userinfo")
    [("Authorization", "Bearer " +:+ to_str accessToken); ("X-Tenant-ID", tenantId config)] None.

Definition user_of (data : js) : js :=
  JObj [("sub", opt_prop data "sub"); ("name", opt_prop data "name");
        ("email", opt_prop data "email"); ("roles", js_or (opt_prop data "roles") (JArr []));
        ("picture", opt_prop data "picture")].

Definition getUserInfo (accessToken : js) : prog js :=
  try_catch (
    resp ← fetch (userinfo_request accessToken);
    if negb (rs_ok resp) then mret JNull
    else
      data ← resp_json resp;
      _ ← get data "sub";
      mret (user_of data))
  (fun _ => mret JNull).

Definition session_of (accessToken refreshToken expiresAt user : js) : js :=
  JObj [("accessToken", accessToken); ("refreshToken", refreshToken);
        ("expiresAt", expiresAt); ("user", user)].

Definition saveSession (session : js) : prog unit := secure_set SESSION_KEY (stringify session).

Definition token_request (refreshToken : js) : request :=
  Request POST (tokenEndpoint discovery_document)
    [("Content-Type", "application/x-www-form-urlencoded")]
    (Some (URLSearchParams [("grant_type", "refresh_token");
                            ("refresh_token", to_str refreshToken);
                            ("client_id", clientId config); ("tenant_id", tenantId config)])).

Definition refreshToken (refresh_token : js) : prog js :=
  discovery ← getDiscovery;
  try_catch (
    resp ← fetch (Request POST (tokenEndpoint discovery)
             (rq_headers (token_request refresh_token)) (rq_body (token_request refresh_token)));
    if negb (rs_ok resp) then mret JNull
    else
      data ← resp_json resp;
      access_token ← get data "access_token";
      user ← getUserInfo access_token;
      t ← now;
      let session := session_of access_token
        (js_or (opt_prop data "refresh_token") refresh_token)
        (expiry_from t (opt_prop data "expires_in")) user in
      saveSession session;;
      mret session)
  (fun _ => mret JNull).

Definition revoke_request (discovery : DiscoveryDocument) (accessToken : js) : request :=
  Request POST (revocationEndpoint discovery)
    [("Content-Type", "application/x-www-form-urlencoded")]
    (Some ("token=" +:+ to_str accessToken +:+ "&client_id=" +:+ clientId config)).

(** [logout], given what [this.getSession()] does. *)
Definition logout_with (getSession : prog (option js)) : prog (option unit) :=
  session ← getSession;
  match session with
  | None => mret None
  | Some session =>
      (if truthy (opt_prop session "accessToken") then
         try_catch (
           discovery ← getDiscovery;
           fetch (revoke_request discovery (opt_prop session "accessToken"));;
           mret tt)
         (fun _ => mret tt)
       else mret tt);;
      secure_del SESSION_KEY;;
      mret (Some tt)
  end.

Fixpoint getSession (fuel : nat) : prog (option js) :=
  match fuel with
  | O => mret None
  | Datatypes.S fuel =>
      raw ← secure_get SESSION_KEY;
      match nonempty raw with
      | None => mret (Some JNull)
      | Some raw =>
          try_catch (
            session ← json_parse raw;
            t ← now;
            expiresAt ← get session "expiresAt";
            if js_after t expiresAt then
              refreshed ← (let r := opt_prop session "refreshToken" in
                           if truthy r then refreshToken r else mret JNull);
              if truthy refreshed then mret (Some refreshed)
              else
                done_ ← logout_with (getSession fuel);
                mret (match done_ with Some _ => Some JNull | None => None end)
            else mret (Some session))
          (fun _ => mret (Some JNull))
      end
  end.

Definition logout (fuel : nat) : prog (option unit) := logout_with (getSession fuel).

(** The platform's answer to [request.promptAsync] and [AuthSession.exchangeCodeAsync];
    a rejection is an exception of the call. *)
Definition expo (f : string) (arg : js) : prog js :=
  r ← host f arg;
  match r with Some v => mret v | None => Throw (error (f +:+ " failed")) end.

Definition auth_request : js :=
  JObj [("clientId", JStr (clientId config)); ("redirectUri", JStr (redirectUri config));
        ("scopes", strs (split_on " "%char
           (str_or (default "" (scopes config)) "openid profile email")));
        ("extraParams", JObj [("tenant_id", JStr (tenantId config))]); ("usePKCE", JBool true)].

Definition exchange_request (code : js) : js :=
  JObj [("clientId", JStr (clientId config)); ("code", code);
        ("redirectUri", JStr (redirectUri config));
        ("extraParams", JObj [("tenant_id", JStr (tenantId config))]);
        ("codeVerifier", codeVerifier)].

Definition login : prog js :=
  getDiscovery;;
  result ← expo "promptAsync" auth_request;
  if negb (js_is_str (opt_prop result "type") "success") then mret JNull
  else
    params ← get result "params";
    code ← get params "code";
    if negb (truthy code) then mret JNull
    else
      tokenResult ← expo "exchangeCodeAsync" (exchange_request code);
      accessToken ← get tokenResult "accessToken";
      if negb (truthy accessToken) then mret JNull
      else
        user ← getUserInfo accessToken;
        t ← now;
        let session := session_of accessToken (opt_prop tokenResult "refreshToken")
                         (expiry_from t (opt_prop tokenResult "expiresIn")) user in
        saveSession session;;
        mret session.

(** The claims, or [JNull]. *)
Definition decodeClaims (token : js) : js :=
  match token with
  | JStr t =>
      if negb (Nat.eqb (length (split_on "."%char t)) 3) then JNull
      else
        match jwt_payload token with
        | Some JUndef | Some JNull | None => JNull
        | Some payload =>
            let f k d := (k, js_or (opt_prop payload k) d) in
            JObj [f "sub" (JStr ""); f "tenant_id" (JStr ""); f "roles" (JArr []);
                  f "scope" (JStr ""); f "exp" (JNum 0); f "iat" (JNum 0); f "iss" (JStr "")]
        end
  | _ => JNull
  end.

Definition check_request (session userId : js) (resource action : string) : request :=
  Request POST (baseUrl config +:+ "/api/v1/policies/check")
    [("Authorization", "Bearer " +:+ to_str (opt_prop session "accessToken"));
     ("Content-Type", "application/json"); ("X-Tenant-ID", tenantId config)]
    (Some (stringify (JObj [("user_id", userId); ("resource", JStr resource);
                            ("action", JStr action)]))).

Definition checkPermission (fuel : nat) (resource action : string) : prog (option bool) :=
  session ← getSession fuel;
  match session with
  | None => mret None
  | Some session =>
      if negb (truthy session) then mret (Some false)
      else
        let claims := decodeClaims (opt_prop session "accessToken") in
        let userId := js_or (opt_prop claims "sub") (JStr "") in
        try_catch (
          resp ← fetch (check_request session userId resource action);
          if negb (rs_ok resp) then mret (Some false)
          else
            data ← resp_json resp;
            allowed ← get data "allowed";
            mret (Some (match allowed with JBool b => b | _ => false end)))
        (fun _ => mret (Some false))
  end.

(** [session.user.roles.includes(role)] may throw: [user.roles] is what the API sent. *)
Definition hasRole (fuel : nat) (role : string) : prog (option bool) :=
  session ← getSession fuel;
  match session with
  | None => mret None
  | Some session =>
      let user := opt_prop session "user" in
      if negb (truthy user) then mret (Some false)
      else
        roles ← get user "roles";
        match js_includes roles role with
        | Some b => mret (Some b)
        | None => Throw (type_error "user.roles.includes is not a function")
        end
  end.

Definition getAuthHeader (fuel : nat) : prog (option (option string)) :=
  session ← getSession fuel;
  mret (s ← session;
        Some (if truthy s then Some ("Bearer " +:+ to_str (opt_prop s "accessToken")) else None)).
End Client.

#[global] Arguments token_request : simpl never.
#[global] Arguments userinfo_request : simpl never.
#[global] Arguments check_request : simpl never.
#[global] Arguments revoke_request : simpl never.

(** ** Lemmas *)

Section RunSecure.
Context (e : env) (w : world (option DiscoveryDocument)).

Lemma run_secure_get k : run e (secure_get k) w = (Done (w_secure w !! k), w).
Proof. done. Qed.
Lemma run_secure_set k v : run e (secure_set k v) w = (Done tt, set_area Secure (<[k := v]>) w).
Proof. done. Qed.
Lemma run_secure_del k : run e (secure_del k) w = (Done tt, set_area Secure (delete k) w).
Proof. done. Qed.
End RunSecure.
#[export] Hint Rewrite run_secure_get run_secure_set run_secure_del : run.

Lemma run_getDiscovery config e w :
  match w_st w with Some d => d = discovery_document config | None => True end ->
  exists w', run e (getDiscovery config) w = (Done (discovery_document config), w')
  /\ w_secure w' = w_secure w /\ w_trace w' = w_trace w
  /\ w_st w' = Some (discovery_document config).
Proof.
  unfold getDiscovery. run_steps. destruct (w_st w) as [d|] eqn:Ed; run_steps.
  - intros ->. by exists w.
  - intros _. eexists. split; [done|]. by destruct w.
Qed.

(** The token endpoint grants nothing: unreachable, or not ok. *)
Definition refuses (o : option response) : Prop :=
  match o with Some resp => rs_ok resp = false | None => True end.

Definition client_ok (config : GGIDConfig) (w : world (option DiscoveryDocument)) : Prop :=
  match w_st w with Some d => d = discovery_document config | None => True end.

Lemma run_refreshToken_refused config e w r :
  client_ok config w -> (forall t rq, refuses (server e t rq)) ->
  exists w', run e (refreshToken config r) w = (Done JNull, w')
  /\ w_secure w' = w_secure w /\ client_ok config w'.
Proof.
  intros Hc Href. unfold refreshToken. run_steps.
  destruct (run_getDiscovery config e w Hc) as (w1 & -> & Hs & Ht & Hd). run_steps.
  assert (forall o, client_ok config (log o w1)) as Hok.
  { intros o. unfold client_ok. autorewrite with world. by rewrite Hd. }
  match goal with |- context [server e ?t ?rq] =>
    pose proof (Href t rq) as Hr; destruct (server e t rq) as [resp|] end; run_steps.
  - cbn in Hr. rewrite Hr. run_steps. eexists. split; [done|]. split; [|apply Hok].
    by autorewrite with world.
  - eexists. split; [done|]. split; [|apply Hok]. by autorewrite with world.
Qed.

(** A session that has expired and is not refreshed: every round of [getSession] ends in
    the next one. *)
Lemma getSession_expired config e w raw session exp fuel :
  client_ok config w ->
  w_secure w !! SESSION_KEY = Some raw -> raw <> "" -> JSON_parse raw = Some session ->
  prop session "expiresAt" = Some (JNum exp) ->
  (forall t, exp < clock e t) ->
  truthy (opt_prop session "refreshToken") = false \/ (forall t rq, refuses (server e t rq)) ->
  exists w1, run e (getSession config fuel) w = (Done None, w1)
  /\ w_secure w1 !! SESSION_KEY = Some raw /\ client_ok config w1.
Proof.
  intros Hc Hraw Hne Hj Hexp Hclk Href.
  revert w Hc Hraw. induction fuel as [|fuel IH]; intros w Hc Hraw; [by exists w|].
  cbn [getSession]. run_steps. rewrite Hraw.
  replace (nonempty (Some raw)) with (Some raw) by by destruct raw.
  run_steps. rewrite Hj. run_steps. rewrite (run_get _ _ _ _ _ Hexp). run_steps. cbn [js_after].
  replace (exp <? clock e (w_trace w)) with true by (symmetry; apply Z.ltb_lt; apply Hclk).
  run_steps. assert (client_ok config (log ObsNow w)) as Hc1 by by destruct w.
  assert (exists w2, run e (if truthy (opt_prop session "refreshToken")
                    then refreshToken config (opt_prop session "refreshToken") else mret JNull)
                    (log ObsNow w) = (Done JNull, w2)
          /\ w_secure w2 !! SESSION_KEY = Some raw /\ client_ok config w2)
    as (w2 & -> & Hs2 & Hc2).
  { destruct (truthy (opt_prop session "refreshToken")).
    - destruct Href as [|Href]; [done|].
      destruct (run_refreshToken_refused config e (log ObsNow w)
        (opt_prop session "refreshToken") Hc1 Href) as (w2 & -> & Hs & Hd).
      exists w2. rewrite Hs. autorewrite with world. done.
    - eexists. split; [done|]. by autorewrite with world. }
  run_steps. cbn [truthy]. run_steps. unfold logout_with. run_steps.
  destruct (IH w2 Hc2 Hs2) as (w3 & -> & ? & ?). run_steps. by exists w3.
Qed.

(** ** Properties *)

(** A session that has expired and cannot be refreshed is never cleared:
    [getSession] calls [logout] to clear it, [logout] calls [getSession] first, and
    so on without end.  However much fuel they are given, neither call returns and
    the stored session stays.  (Every round that has a refresh token also asks the
    token endpoint again.) *)
Lemma expired_session_diverges config e w raw session exp fuel :
  client_ok config w ->
  w_secure w !! SESSION_KEY = Some raw -> raw <> "" -> JSON_parse raw = Some session ->
  prop session "expiresAt" = Some (JNum exp) ->
  (forall t, exp < clock e t) ->
  truthy (opt_prop session "refreshToken") = false \/ (forall t rq, refuses (server e t rq)) ->
  exists w1 w2,
    run e (getSession config fuel) w = (Done None, w1)
    /\ run e (logout config fuel) w = (Done None, w2)
    /\ w_secure w1 !! SESSION_KEY = Some raw /\ w_secure w2 !! SESSION_KEY = Some raw.
Proof.
  intros Hc Hraw Hne Hj Hexp Hclk Href.
  destruct (getSession_expired config e w raw session exp fuel) as (w1 & H1 & H2 & _); [done..|].
  exists w1, w1. split; [done|]. split; [|done].
  unfold logout, logout_with. run_steps. by rewrite H1.
Qed.

Lemma getUserInfo_run config e w tok :
  exists user w', run e (getUserInfo config tok) w = (Done user, w')
  /\ w_secure w' = w_secure w /\ w_st w' = w_st w.
Proof.
  unfold getUserInfo. run_steps. destruct (server e _ _) as [resp|]; run_steps.
  2: { eexists _, _. split; [done|]. by autorewrite with world. }
  destruct (rs_ok resp); cbn [negb]; run_steps.
  2: { eexists _, _. split; [done|]. by autorewrite with world. }
  destruct (JSON_parse (rs_body resp)) as [data|]; run_steps.
  2: { eexists _, _. split; [done|]. by autorewrite with world. }
  unfold get. destruct (prop data "sub"); run_steps; eexists _, _; (split; [done|]);
    by autorewrite with world.
Qed.

(** A stored session that has not expired is returned without any request. *)
Lemma getSession_stored config e w session exp fuel :
  w_secure w !! SESSION_KEY = Some (stringify session) -> json_wf session = true ->
  prop session "expiresAt" = Some (JNum exp) -> clock e (w_trace w) <= exp ->
  run e (getSession config (Datatypes.S fuel)) w = (Done (Some session), log ObsNow w).
Proof.
  intros Hs Hwf Hexp Hclk. cbn [getSession]. run_steps. rewrite Hs.
  destruct (stringify_head session) as (c0 & r & E & _). rewrite E. cbn [nonempty]. rewrite <- E.
  run_steps. rewrite JSON_parse_stringify by done. run_steps.
  rewrite (run_get _ _ _ _ _ Hexp). run_steps. cbn [js_after].
  replace (exp <? clock e (w_trace w)) with false by (symmetry; apply Z.ltb_ge; lia).
  by run_steps.
Qed.

(** A refresh that the token endpoint grants returns a session with the new access
    token, and with the old refresh token when no new one came (unlike the React
    SDK's provider); it is stored, and until it expires [getSession] returns that very
    session, without a request. *)
Lemma refreshed_session_restored config (e e' : env) w r resp data fuel :
  client_ok config w ->
  server e (ObsFetch (token_request config r) :: w_trace w) (token_request config r) = Some resp ->
  rs_ok resp = true -> JSON_parse (rs_body resp) = Some data -> is_nullish data = false ->
  exists session w', run e (refreshToken config r) w = (Done session, w')
  /\ opt_prop session "accessToken" = opt_prop data "access_token"
  /\ opt_prop session "refreshToken" = js_or (opt_prop data "refresh_token") r
  /\ w_secure w' !! SESSION_KEY = Some (stringify session)
  /\ (forall exp, json_wf session = true -> prop session "expiresAt" = Some (JNum exp) ->
      clock e' (w_trace w') <= exp ->
      run e' (getSession config (Datatypes.S fuel)) w' = (Done (Some session), log ObsNow w')).
Proof.
  intros Hc Hs Hok Hj Hn. unfold refreshToken. run_steps.
  destruct (run_getDiscovery config e w Hc) as (w1 & -> & Hs1 & Ht & Hd). run_steps.
  change (Request POST _ _ _) with (token_request config r). autorewrite with world.
  rewrite Ht, Hs. run_steps. rewrite Hok. cbn [negb]. run_steps. rewrite Hj. run_steps.
  destruct (prop data "access_token") as [at_|] eqn:Ea; [|by destruct data].
  rewrite (run_get _ _ _ _ _ Ea). run_steps.
  destruct (getUserInfo_run config e (log (ObsFetch (token_request config r)) w1) at_)
    as (user & w2 & -> & Hs2 & _). run_steps. unfold saveSession. run_steps.
  eexists _, _. split; [done|]. split; [unfold opt_prop; by rewrite Ea|]. split; [done|].
  assert (forall v, w_secure (set_area Secure (<[SESSION_KEY := v]>) (log ObsNow w2)) !! SESSION_KEY
                    = Some v) as Hst.
  { intros v. autorewrite with world. apply lookup_insert_eq. }
  split; [apply Hst|]. intros exp Hwf Hexp Hclk. by eapply getSession_stored.
Qed.

(** The policy check fails closed: it answers [true] only when the policy endpoint
    itself, asked last, with the session's token, answered ok with [allowed] equal
    to [true].  No session, an error status, a malformed answer, or an unreachable
    service all give [false]. *)
Lemma checkPermission_fails_closed config e w fuel resource action w' :
  run e (checkPermission config fuel resource action) w = (Done (Some true), w') ->
  exists session t userId resp data,
    let rq := check_request config session userId resource action in
    run e (getSession config fuel) w = (Done (Some session), t)
    /\ w_trace w' = ObsFetch rq :: w_trace t
    /\ server e (w_trace w') rq = Some resp
    /\ rs_ok resp = true
    /\ JSON_parse (rs_body resp) = Some data
    /\ opt_prop data "allowed" = JBool true.
Proof.
  unfold checkPermission. run_steps.
  destruct (run e (getSession config fuel) w) as [[[session|]|x] t]; cbn match; try done.
  destruct (truthy session); cbn [negb]; run_steps; [|done].
  set (rq := check_request _ _ _ _ _). set (t1 := log (ObsFetch rq) t).
  destruct (server e (w_trace t1) rq) as [resp|] eqn:Es; run_steps; [|done].
  destruct (rs_ok resp) eqn:Eok; cbn [negb]; run_steps; [|done].
  destruct (JSON_parse (rs_body resp)) as [data|] eqn:Ej; run_steps; [|done].
  unfold get. destruct (prop data "allowed") as [a|] eqn:Ea; run_steps; [|done].
  intros [= Hb <-]. destruct a as [| |b| | | |]; try done. subst b.
  exists session, t, (js_or (opt_prop (decodeClaims (opt_prop session "accessToken")) "sub") (JStr "")),
    resp, data. split; [done|]. split; [by destruct t|]. split_and!; [done..|].
  unfold opt_prop. by rewrite Ea.
Qed.

(** ** Witnesses *)

Definition demo_config : GGIDConfig := Build_GGIDConfig "https://api" "t" "c" "app://" None.

Definition demo_stored (exp : Z) : js :=
  session_of (JStr "a") (JStr "r") (JNum exp) (JObj [("sub", JStr "u"); ("roles", JArr [])]).

Definition demo_phone (exp : Z) : world (option DiscoveryDocument) :=
  World None ∅ ∅ {[SESSION_KEY := stringify (demo_stored exp)]} [].

Definition late (r : option response) : env :=
  {| server := fun _ _ => r; clock := fun _ => 100; entropy := fun _ n => repeat 0 n;
     platform := fun _ _ _ => None |}.

Lemma expired_session_diverges_witness :
  exists w1 w2,
    run (late None) (getSession demo_config 7) (demo_phone 10) = (Done None, w1)
    /\ run (late None) (logout demo_config 7) (demo_phone 10) = (Done None, w2)
    /\ w_secure w1 !! SESSION_KEY = Some (stringify (demo_stored 10))
    /\ w_secure w2 !! SESSION_KEY = Some (stringify (demo_stored 10)).
Proof.
  apply (expired_session_diverges demo_config (late None) (demo_phone 10)
           (stringify (demo_stored 10)) (demo_stored 10) 10 7); try reflexivity.
  - discriminate.
  - right. intros t rq. exact I.
Defined.

Definition demo_grant : response :=
  Response 200 (stringify (JObj [("access_token", JStr "b"); ("expires_in", JNum 60);
    ("sub", JStr "u"); ("name", JStr "n"); ("email", JStr "e"); ("picture", JStr "p")])).

Lemma refreshed_session_restored_witness :
  exists session w', run (late (Some demo_grant)) (refreshToken demo_config (JStr "r")) (demo_phone 10)
                     = (Done session, w')
  /\ opt_prop session "refreshToken" = JStr "r"
  /\ w_secure w' !! SESSION_KEY = Some (stringify session)
  /\ run (late None) (getSession demo_config 1) w' = (Done (Some session), log ObsNow w').
Proof.
  destruct (refreshed_session_restored demo_config (late (Some demo_grant)) (late None)
    (demo_phone 10) (JStr "r") demo_grant
    (JObj [("access_token", JStr "b"); ("expires_in", JNum 60);
           ("sub", JStr "u"); ("name", JStr "n"); ("email", JStr "e"); ("picture", JStr "p")]) 0)
    as (session & w' & H1 & _ & H2 & H3 & H4); try reflexivity.
  exists session, w'. split; [exact H1|]. split; [exact H2|]. split; [exact H3|].
  vm_compute in H1. injection H1 as <- <-. apply (H4 60100); [reflexivity|reflexivity|].
  vm_compute. discriminate.
Defined.

Lemma checkPermission_fails_closed_witness :
  exists session, exists w', run (late (Some (Response 200 (stringify (JObj [("allowed", JBool true)])))))
    (checkPermission demo_config 1 "doc" "read") (demo_phone 200) = (Done (Some true), w')
  /\ run (late (Some (Response 200 (stringify (JObj [("allowed", JBool true)])))))
       (getSession demo_config 1) (demo_phone 200) = (Done (Some session), log ObsNow (demo_phone 200)).
Proof.
  destruct (checkPermission_fails_closed demo_config
    (late (Some (Response 200 (stringify (JObj [("allowed", JBool true)])))))
    (demo_phone 200) 1 "doc" "read"
    (log (ObsFetch (check_request demo_config (demo_stored 200) (JStr "") "doc" "read"))
       (log ObsNow (demo_phone 200)))) as (session & t & u & resp & data & H1 & _);
    [vm_compute; reflexivity|].
  exists session. eexists. split; [vm_compute; reflexivity|].
  vm_compute in H1. injection H1 as <- <-. vm_compute. reflexivity.
Defined.
