(* ===== verification/MobileApp.v ===== *)
(** * Expo example: the OAuth client (examples/mobile-app/lib/ggid.ts)

    [subtle] is [globalThis.crypto.subtle.digest] where the platform has it, and
    [searchParams] the pairs of [new URL(u).searchParams], [None] when [u] is no URL.
    A draw of [Math.floor(Math.random() * 66)] is an entropy value modulo 66. *)

From S2P Require Import Prelude JsValue JsString Json Effects Base64 ApiClient ReactNative.
Local Open Scope Z_scope.

Record app_config := {
  GGID_URL : string;
  CLIENT_ID : string;
  REDIRECT_URI : string
}.
Definition TENANT_ID : string := "00000000-0000-0000-0000-000000000001".
Definition SCOPES : string := "openid profile email".

Definition TOKEN_KEY : string := "ggid_access_token".
Definition REFRESH_KEY : string := "ggid_refresh_token".
Definition USERINFO_KEY : string := "ggid_userinfo".
Definition VERIFIER_KEY : string := "ggid_code_verifier".

Definition random_chars : string :=
  "ABCDEFGHIJKLMNOPQRSTUVWXYZabcdefghijklmnopqrstuvwxyz0123456789-._~".

(** The text of a list of draws. *)
Fixpoint text_of_draws (l : list Z) : string :=
  match l with
  | [] => ""
  | z :: l' => char_at random_chars (z mod 66) +:+ text_of_draws l'
  end.

(** [btoa(s).replace(/\+/g, '-').replace(/\//g, '_').replace(/=+$/, '')]. *)
Definition btoa_url (s : string) : string :=
  strip_end (fun c => Ascii.eqb c "="%char)
    (replace_char "/"%char "_" (replace_char "+"%char "-" (btoa s))).

Section App.
Context {S : Type} (cfg : app_config) (subtle : option (list Z -> list Z))
  (searchParams : string -> option (list (string * string))).

Definition secure_get (k : string) : prog S (option string) :=
  Act OYield (fun _ => getItem Secure k).
Definition secure_set (k v : string) : prog S unit := Act OYield (fun _ => setItem Secure k v).
Definition secure_del (k : string) : prog S unit := Act OYield (fun _ => removeItem Secure k).

Definition generateRandomString (length : nat) : prog S string :=
  draws ← random_bytes length; mret (text_of_draws draws).

Definition sha256 (plain : string) : prog S string :=
  match subtle with
  | Some digest =>
      Act OYield (fun _ => Ret (btoa_url (from_char_codes (digest (map Z.of_nat (utf8 plain))))))
  | None => mret (btoa_url plain)
  end.

Definition saveSession (token userInfo : js) : prog S unit :=
  access ← get token "access_token";
  secure_set TOKEN_KEY (to_str access);;
  (let refresh := opt_prop token "refresh_token" in
   if truthy refresh then secure_set REFRESH_KEY (to_str refresh) else mret tt);;
  secure_set USERINFO_KEY (stringify userInfo).

Definition getStoredToken : prog S (option string) := secure_get TOKEN_KEY.

Definition getStoredUserInfo : prog S js :=
  raw ← secure_get USERINFO_KEY;
  match nonempty raw with
  | Some raw => mret (default JNull (JSON_parse raw))
  | None => mret JNull
  end.

Definition clearSession : prog S unit :=
  secure_del TOKEN_KEY;; secure_del REFRESH_KEY;; secure_del USERINFO_KEY.

Definition authorize_url (state codeChallenge : string) : string :=
  GGID_URL cfg +:+ "/oauth/authorize?" +:+ URLSearchParams [
    ("client_id", CLIENT_ID cfg); ("redirect_uri", REDIRECT_URI cfg); ("response_type", "code");
    ("scope", SCOPES); ("state", state); ("code_challenge", codeChallenge);
    ("code_challenge_method", "S256")].

Definition mismatch : exn := error "Invalid OAuth redirect: code or state mismatch".

Definition authorize : prog S (option string) :=
  state ← generateRandomString 32;
  codeVerifier ← generateRandomString 64;
  codeChallenge ← sha256 codeVerifier;
  answer ← host "openAuthSessionAsync"
    (JArr [JStr (authorize_url state codeChallenge); JStr (REDIRECT_URI cfg)]);
  match answer with
  | None => Throw (error "openAuthSessionAsync failed")
  | Some result =>
      if negb (js_is_str (opt_prop result "type") "success") then mret None
      else
        match searchParams (to_str (opt_prop result "url")) with
        | None => Throw (type_error "Invalid URL")
        | Some ps =>
            match nonempty (hget "code" ps) with
            | Some code =>
                if bool_decide (hget "state" ps = Some state) then
                  secure_set VERIFIER_KEY codeVerifier;; mret (Some code)
                else Throw mismatch
            | None => Throw mismatch
            end
        end
  end.

Definition exchange_request (code : string) (codeVerifier : option string) : request :=
  Request POST (GGID_URL cfg +:+ "/api/v1/oauth/token")
    [("Content-Type", "application/x-www-form-urlencoded"); ("X-Tenant-ID", TENANT_ID)]
    (Some (URLSearchParams (
      [("grant_type", "authorization_code"); ("code", code);
       ("redirect_uri", REDIRECT_URI cfg); ("client_id", CLIENT_ID cfg)]
      ++ match nonempty codeVerifier with Some v => [("code_verifier", v)] | None => [] end))).

Definition exchangeToken (code : string) : prog S js :=
  codeVerifier ← secure_get VERIFIER_KEY;
  secure_del VERIFIER_KEY;;
  res ← fetch (exchange_request code codeVerifier);
  if negb (rs_ok res) then
    err ← resp_text res;
    Throw (error ("Token exchange failed: " +:+ string_of_Z (rs_status res) +:+ " " +:+ err))
  else resp_json res.

Definition getUserInfo (accessToken : js) : prog S js :=
  res ← fetch (Request GET (GGID_URL cfg +:+ "/api/v1/oauth/userinfo")
           [("Authorization", "Bearer " +:+ to_str accessToken); ("X-Tenant-ID", TENANT_ID)] None);
  if negb (rs_ok res) then Throw (error ("UserInfo failed: " +:+ string_of_Z (rs_status res)))
  else resp_json res.

Definition login : prog S (js * js) :=
  code ← authorize;
  match code with
  | None => Throw (error "Authorization cancelled")
  | Some code =>
      token ← exchangeToken code;
      access ← get token "access_token";
      userInfo ← getUserInfo access;
      saveSession token userInfo;;
      mret (token, userInfo)
  end.

Definition logout : prog S unit := clearSession.
End App.

(** The claims of a token, unverified; [{}] when it is no JWT. *)
Definition parseJWT (token : string) : js :=
  match split_on "."%char token with
  | [_; p; _] =>
      default (JObj [])
        (s ← atob (replace_char "_"%char "/" (replace_char "-"%char "+" p)); JSON_parse s)
  | _ => JObj []
  end.

#[global] Arguments authorize_url : simpl never.
#[global] Arguments exchange_request : simpl never.
#[global] Arguments btoa_url : simpl never.
#[global] Arguments text_of_draws : simpl never.

(** ** Lemmas *)

Lemma btoa_url_encode l : bytes_ok l -> btoa_url (from_char_codes l) = encode url_chars l.
Proof.
  intros H. unfold btoa_url, btoa. rewrite bytes_of_char_codes, length_char_codes by done.
  rewrite replace_to_url. unfold str_map. rewrite str_flat_map_app.
  fold (str_map swap_std (encode std_chars l)).
  rewrite (str_map_encode swap_std std_chars url_chars) by (done || apply alphabets).
  rewrite strip_end_app.
  - unfold pad_of. destruct (length l mod 3)%nat as [|[|[|]]]; apply str_app_nil_r.
  - eapply str_forall_impl; [|by apply encode_url_chars]. intros c Hc.
    apply negb_true_iff, Ascii.eqb_neq. by intros ->.
Qed.

Lemma bytes_of_ok s : bytes_ok (bytes_of s).
Proof.
  unfold bytes_of, bytes_ok. apply Forall_forall. intros b Hb.
  apply list_elem_of_In, in_map_iff in Hb as (c & <- & _). unfold byte_ok. pose proof (code_lt c). lia.
Qed.

Lemma from_char_codes_of s : from_char_codes (bytes_of s) = s.
Proof.
  unfold from_char_codes, bytes_of. rewrite map_map.
  rewrite (map_ext _ (fun c => c)); [|intros c; by rewrite Nat2Z.id, chr_code].
  rewrite map_id. apply String.string_of_list_ascii_of_string.
Qed.

(** The state and the verifier of an authorization whose draws are [r32], [r64]. *)
Section AuthorizeRun.
Context {S : Type} (cfg : app_config) (subtle : option (list Z -> list Z))
  (searchParams : string -> option (list (string * string))) (e : env).

Definition challenge_of (v : string) : string :=
  match subtle with
  | Some digest => btoa_url (from_char_codes (digest (map Z.of_nat (utf8 v))))
  | None => btoa_url v
  end.

Definition draws_done (w : world S) : world S := log (ObsRand 64) (log (ObsRand 32) w).

Lemma run_sha256 v (w : world S) : run e (sha256 subtle v) w = (Done (challenge_of v), w).
Proof. unfold sha256, challenge_of. by destruct subtle. Qed.

Lemma run_authorize (w : world S) st v result ps :
  st = text_of_draws (entropy e (w_trace w) 32) ->
  v = text_of_draws (entropy e (ObsRand 32 :: w_trace w) 64) ->
  let arg := JArr [JStr (authorize_url cfg st (challenge_of v)); JStr (REDIRECT_URI cfg)] in
  let w1 := log (ObsHost "openAuthSessionAsync" arg) (draws_done w) in
  platform e (w_trace w1) "openAuthSessionAsync" arg = Some result ->
  js_is_str (opt_prop result "type") "success" = true ->
  searchParams (to_str (opt_prop result "url")) = Some ps ->
  run e (authorize cfg subtle searchParams) w =
  match nonempty (hget "code" ps) with
  | Some code => if bool_decide (hget "state" ps = Some st)
                 then (Done (Some code), set_area Secure (<[VERIFIER_KEY := v]>) w1)
                 else (Raised mismatch, w1)
  | None => (Raised mismatch, w1)
  end.
Proof.
  intros Hst Hv arg w1 Hp Ht Hs. unfold authorize, generateRandomString. run_steps.
  autorewrite with world. rewrite <- Hst, <- Hv, run_sha256. run_steps. fold arg.
  fold (draws_done w). fold w1. rewrite Hp. run_steps. rewrite Ht. cbn [negb]. rewrite Hs.
  destruct (nonempty (hget "code" ps)) as [code|]; [|done].
  by destruct (bool_decide _).
Qed.
End AuthorizeRun.

(** ** Properties *)

(** C18. The code the app exchanges is bound to the login it started.  A redirect whose
    state is not the one put in the address is refused and stores nothing.  After an
    accepted one, the exchange sends exactly the verifier whose challenge was in the
    address, and forgets it: the verifier is used at most once, whatever the answer. *)
Theorem authorize_binds_exchange {S} cfg subtle searchParams (e e' : env) (w : world S) st v result ps :
  st = text_of_draws (entropy e (w_trace w) 32) ->
  v = text_of_draws (entropy e (ObsRand 32 :: w_trace w) 64) -> v <> "" ->
  let arg := JArr [JStr (authorize_url cfg st (challenge_of subtle v)); JStr (REDIRECT_URI cfg)] in
  platform e (ObsHost "openAuthSessionAsync" arg :: ObsRand 64 :: ObsRand 32 :: w_trace w)
    "openAuthSessionAsync" arg = Some result ->
  js_is_str (opt_prop result "type") "success" = true ->
  searchParams (to_str (opt_prop result "url")) = Some ps ->
  (hget "state" ps <> Some st ->
   exists w', run e (authorize cfg subtle searchParams) w = (Raised mismatch, w')
              /\ w_secure w' = w_secure w)
  /\ (forall code, hget "state" ps = Some st -> hget "code" ps = Some code -> code <> "" ->
      exists w', run e (authorize cfg subtle searchParams) w = (Done (Some code), w')
      /\ let '(_, w2) := run e' (exchangeToken cfg code) w' in
         w_trace w2 = ObsFetch (exchange_request cfg code (Some v)) :: w_trace w'
         /\ w_secure w2 !! VERIFIER_KEY = None).
Proof.
  intros Hst Hv Hne arg Hp Ht Hs.
  assert (w_trace (log (ObsHost "openAuthSessionAsync" arg) (draws_done w))
          = ObsHost "openAuthSessionAsync" arg :: ObsRand 64 :: ObsRand 32 :: w_trace w) as Htr
    by by destruct w.
  pose proof (run_authorize cfg subtle searchParams e w st v result ps Hst Hv) as Hrun.
  cbn zeta in Hrun. fold arg in Hrun. rewrite Htr in Hrun. specialize (Hrun Hp Ht Hs).
  rewrite Hrun. split.
  - intros Hne'. rewrite bool_decide_eq_false_2 by done. eexists.
    split; [by destruct (nonempty _)|]. by destruct w.
  - intros code Hstate Hcode Hcne. rewrite Hcode.
    replace (nonempty (Some code)) with (Some code) by by destruct code.
    rewrite bool_decide_eq_true_2 by done. eexists. split; [done|].
    unfold exchangeToken, secure_get, secure_del. destruct w as [s l se sc t].
    cbn -[exchange_request]. rewrite lookup_insert_eq.
    destruct (server e' _ _) as [res|]; cbn -[exchange_request].
    + destruct (rs_ok res); cbn; [destruct (JSON_parse (rs_body res))|]; cbn;
        (split; [done|]); apply lookup_delete_eq.
    + split; [done|]. apply lookup_delete_eq.
Qed.

(** Where the platform has no [crypto.subtle] the challenge announced as S256 is the
    verifier itself in base64url: whoever sees the address can read the verifier off
    it, which is what PKCE is there to prevent. *)
Lemma fallback_challenge_reveals_verifier {S} (e : env) (w : world S) v :
  exists c, run e (sha256 None v) w = (Done c, w) /\ b64urlToBuffer c = Some (bytes_of v).
Proof.
  eexists. split; [apply run_sha256|]. unfold challenge_of.
  rewrite <- (from_char_codes_of v) at 1.
  rewrite btoa_url_encode by apply bytes_of_ok. apply b64urlToBuffer_encode, bytes_of_ok.
Qed.

(** Reading a token's claims.  [parseJWT] decodes the payload of every token, for
    base64url texts are what tokens carry.  The other clients hand the payload to
    [atob] as it is: on any token whose payload uses [-] or [_] the React Native
    client finds no claims, the console keeps the old scopes after a refresh, and
    the React provider sets no refresh timer. *)
Lemma jwt_decoders_compared h payload sig :
  lacks "."%char h = true -> lacks "."%char sig = true ->
  let p := encode url_chars (bytes_of payload) in
  let token := h +:+ String "."%char (p +:+ String "."%char sig) in
  parseJWT token = default (JObj []) (JSON_parse payload)
  /\ (str_forall (fun c => negb (in_set "-_" c)) p = false ->
      decodeClaims (JStr token) = JNull /\ jwt_payload (JStr token) = None).
Proof.
  intros Hh Hs p token.
  assert (lacks "."%char p = true) as Hp.
  { subst p. eapply str_forall_impl; [|apply encode_url_chars, bytes_of_ok].
    intros c Hc. apply negb_true_iff, Ascii.eqb_neq. by intros ->. }
  assert (split_on "."%char token = [h; p; sig]) as Hsp.
  { subst token. rewrite !split_on_app, split_on_lacks by done. done. }
  split.
  - unfold parseJWT. rewrite Hsp. subst p. rewrite atob_swapped by apply bytes_of_ok.
    cbn. by rewrite from_char_codes_of.
  - intros Hu. assert (jwt_payload (JStr token) = None) as Hj.
    { unfold jwt_payload. rewrite Hsp. cbn [nth]. by rewrite atob_url. }
    split; [|done]. unfold decodeClaims. rewrite Hsp, Hj. done.
Qed.

(** ** Witnesses *)

Definition demo_app : app_config := Build_app_config "https://g" "c" "app://".

Definition demo_redirect : js := JObj [("type", JStr "success"); ("url", JStr "u")].

Definition demo_state : string := text_of_draws (repeat 0 32).
Definition demo_verifier : string := text_of_draws (repeat 0 64).

Definition demo_platform : env :=
  {| server := fun _ _ => Some (Response 200 "{}"); clock := fun _ => 0;
     entropy := fun _ n => repeat 0 n; platform := fun _ _ _ => Some demo_redirect |}.

Lemma authorize_binds_exchange_witness :
  exists w', run demo_platform (authorize demo_app None
               (fun _ => Some [("code", "k"); ("state", demo_state)])) (empty_world tt)
             = (Done (Some "k"), w')
  /\ let '(_, w2) := run demo_platform (exchangeToken demo_app "k") w' in
     w_trace w2 = ObsFetch (exchange_request demo_app "k" (Some demo_verifier)) :: w_trace w'
     /\ w_secure w2 !! VERIFIER_KEY = None.
Proof.
  apply (authorize_binds_exchange demo_app None
    (fun _ => Some [("code", "k"); ("state", demo_state)]) demo_platform demo_platform
    (empty_world tt) demo_state demo_verifier demo_redirect
    [("code", "k"); ("state", demo_state)]); try reflexivity; discriminate.
Defined.

Lemma jwt_decoders_compared_witness :
  let token := "h." +:+ encode url_chars (bytes_of "{}>?") +:+ ".s" in
  decodeClaims (JStr token) = JNull /\ jwt_payload (JStr token) = None.
Proof. apply (jwt_decoders_compared "h" "{}>?" "s"); reflexivity. Defined.
