(* ===== verification/ErpNode.v ===== *)
(** * ERP example, the Node backend (examples/erp-node/src)

    middleware/auth.ts and the routers of routes/.  The stores are the arrays the
    modules keep in memory, [tokenCache] the Map of middleware/auth.ts.  A request is
    given with the segments of its path, those below the mount point for a router.  Its body
    is an object or an array, all that express.json leaves there.  The calls of the Node SDK
    are the platform's, [None] when they reject.  A handler that throws answers 500, Express's
    default. *)

From S2P Require Import Prelude JsValue JsString Json Effects ApiClient.
Local Open Scope Z_scope.

Record http_request := {
  hq_method : method;
  hq_path : list string;
  hq_authorization : option string;
  hq_body : js
}.
Record http_response := { hs_status : Z; hs_json : js }.

Record erp := {
  tokenCache : gmap string js;
  orders : list js;
  inventory : list js;
  users : list js;
  roles : list js;
  orgs : list js
}.

Definition err_json (code message : string) : js :=
  JObj [("error", JObj [("code", JStr code); ("message", JStr message)])].
Definition err_text (message : string) : js := JObj [("error", JStr message)].

(** ** middleware/auth.ts *)

Section Auth.
Context (TENANT : string).

Definition user_of_claims (claims : js) : js :=
  let c k := opt_prop claims k in
  JObj [("user_id", js_or (c "sub") (JStr ""));
        ("username", js_or_list [c "username"; c "preferred_username"; c "sub"] (JStr "user"));
        ("email", js_or (c "email") (JStr "")); ("tenant_id", js_or (c "tenant_id") (JStr TENANT));
        ("roles", js_or (c "roles") (JArr [])); ("permissions", js_or (c "permissions") (JArr []))].

Definition set_cache (f : gmap string js -> gmap string js) (s : erp) : erp :=
  {| tokenCache := f (tokenCache s); orders := orders s; inventory := inventory s;
     users := users s; roles := roles s; orgs := orgs s |}.

(** The timer of line 46. *)
Definition evict (token : string) : prog erp unit := upd (set_cache (delete token)).

Definition verifyToken (token : string) : prog erp (option js) :=
  s ← get_state;
  match tokenCache s !! token with
  | Some user => mret (Some user)
  | None =>
      claims ← host "verifyToken" (JStr token);
      match claims with
      | None => mret None
      | Some claims =>
          match claims with
          | JUndef | JNull => mret None
          | _ =>
              let user := user_of_claims claims in
              upd (set_cache (<[token := user]>));; mret (Some user)
          end
      end
  end.

Definition hasPermission (user : js) (perm : string) : option bool :=
  let permissions := opt_prop user "permissions" in
  admin ← js_includes permissions "admin";
  if (admin : bool) then Some true
  else
    direct ← js_includes permissions perm;
    if (direct : bool) then Some true else js_includes permissions (perm +:+ ":all").

Definition unauthenticated (message : string) : http_response :=
  {| hs_status := 401; hs_json := err_json "unauthenticated" message |}.

(** The user of the request, or the refusal. *)
Definition requireAuth (rq : http_request) : prog erp (http_response + js) :=
  match nonempty (strip_bearer <$> hq_authorization rq) with
  | None => mret (inl (unauthenticated "Missing token"))
  | Some token =>
      user ← verifyToken token;
      match user with
      | None => mret (inl (unauthenticated "Invalid token"))
      | Some user =>
          let tenant := opt_prop user "tenant_id" in
          if truthy tenant && negb (js_is_str tenant TENANT)
          then mret (inl {| hs_status := 401; hs_json :=
                 err_json "tenant_mismatch" "Token tenant does not match this service" |})
          else mret (inr user)
      end
  end.

Definition forbidden (perm : string) : http_response :=
  {| hs_status := 403; hs_json := err_json "forbidden" ("Requires permission: " +:+ perm) |}.

Definition any_of (user : js) : list string -> option bool :=
  fix go (perms : list string) : option bool :=
    match perms with
    | [] => Some false
    | p :: ps => b ← hasPermission user p; if (b : bool) then Some true else go ps
    end.

(** The middleware of [requireAny(...perms)]: [None] lets the request through. *)
Definition requireAny (user : js) (perms : list string) : option http_response :=
  match any_of user perms with
  | Some true => None
  | Some false => Some {| hs_status := 403; hs_json :=
      err_json "forbidden" ("Requires any of: " +:+ join ", " perms) |}
  | None => Some {| hs_status := 500; hs_json := JUndef |}
  end.

(** A handler, after the guards: [None] is an exception. *)
Definition handler : Type := js -> erp -> option (http_response * erp).

(** A router: the permission a request's route requires and its handler. *)
Definition router : Type := http_request -> option (string * handler).

Definition serve (r : router) (rq : http_request) : prog erp http_response :=
  auth ← requireAuth rq;
  match auth with
  | inl refusal => mret refusal
  | inr user =>
      match r rq with
      | None => mret {| hs_status := 404; hs_json := JUndef |}
      | Some (perm, h) =>
          s ← get_state;
          match hasPermission user perm with
          | None => mret {| hs_status := 500; hs_json := JUndef |}
          | Some false => mret (forbidden perm)
          | Some true =>
              match h user s with
              | None => mret {| hs_status := 500; hs_json := JUndef |}
              | Some (resp, s') => upd (fun _ => s');; mret resp
              end
          end
      end
  end.
End Auth.

(** ** What the routers share *)

Definition ok (v : js) : http_response := {| hs_status := 200; hs_json := v |}.
Definition created (v : js) : http_response := {| hs_status := 201; hs_json := v |}.
Definition not_found : http_response := {| hs_status := 404; hs_json := err_text "not found" |}.

Definition has_id (id : string) (o : js) : bool := js_is_str (opt_prop o "id") id.

(** [l.findIndex(o => o.id === id)]. *)
Fixpoint findIndex (id : string) (l : list js) : option nat :=
  match l with
  | [] => None
  | o :: l' => if has_id id o then Some O else Datatypes.S <$> findIndex id l'
  end.

Definition find_id (id : string) (l : list js) : option js := List.find (has_id id) l.

(** The own properties a spread copies. *)
Fixpoint indexed (i : Z) (l : list js) : list (string * js) :=
  match l with [] => [] | x :: l' => (string_of_Z i, x) :: indexed (i + 1) l' end.
Definition own (v : js) : list (string * js) :=
  match v with JObj l => l | JArr l => indexed 0 l | _ => [] end.

(** [{ ...o, ...body }]. *)
Definition merge (o body : js) : js := JObj (spread (own o) (own body)).

(** [l.splice(i, 1)]. *)
Definition splice1 (i : nat) (l : list js) : list js := take i l ++ drop (Datatypes.S i) l.

(** [s.padStart(3, '0')]. *)
Definition padStart3 (s : string) : string :=
  match String.length s with O => "000" | 1%nat => "00" +:+ s | 2%nat => "0" +:+ s | _ => s end.

Section Store.
(** A store of the state and how to replace it. *)
Context (get : erp -> list js) (set : list js -> erp -> erp).

Definition get_one (id : string) : handler := fun _ s =>
  Some (match find_id id (get s) with Some o => ok o | None => not_found end, s).

Definition put_one (id : string) (body : js) : handler := fun _ s =>
  Some (match findIndex id (get s) with
        | None => (not_found, s)
        | Some i =>
            let o := merge (nth i (get s) JUndef) body in
            (ok o, set (<[i := o]> (get s)) s)
        end).

Definition delete_one (id : string) (answer : js) : handler := fun _ s =>
  Some (match findIndex id (get s) with
        | None => (not_found, s)
        | Some i => (ok answer, set (splice1 i (get s)) s)
        end).

Definition push (o : js) (s : erp) : option (http_response * erp) :=
  Some (created o, set (get s ++ [o]) s).
End Store.

(** ** routes/orders.ts *)

Definition order (id customer : string) (amount : Z) (status org group : string) : js :=
  JObj [("id", JStr id); ("customer", JStr customer); ("amount", JNum amount);
        ("status", JStr status); ("org_id", JStr org); ("group_id", JStr group)].

Definition initial_orders : list js :=
  [order "ORD-001" "Alice Corp" 1200 "pending" "sales" "team-a";
   order "ORD-002" "Bob Inc" 3400 "approved" "sales" "team-b"].

Definition set_orders (l : list js) (s : erp) : erp :=
  {| tokenCache := tokenCache s; orders := l; inventory := inventory s; users := users s;
     roles := roles s; orgs := orgs s |}.

Definition listing (k : string) (l : list js) : js :=
  JObj [(k, JArr l); ("total", JNum (Z.of_nat (length l)))].

Definition orders_list : handler := fun user s =>
  all ← hasPermission user "orders:read:all";
  everything ← (if (all : bool) then Some true else hasPermission user "admin");
  let filtered := if (everything : bool) then orders s
                  else List.filter (fun o => js_is_str (opt_prop o "org_id") "sales") (orders s) in
  Some (ok (listing "items" filtered), s).

Definition order_id (n : Z) : string := "ORD-" +:+ padStart3 (string_of_Z n).

Definition orders_create (body : js) : handler := fun _ s =>
  customer ← prop body "customer";
  amount ← prop body "amount";
  push orders set_orders
    (JObj [("id", JStr (order_id (Z.of_nat (length (orders s)) + 1))); ("customer", customer);
           ("amount", amount); ("status", JStr "pending"); ("org_id", JStr "sales");
           ("group_id", JStr "team-a")]) s.

(** [order.status = 'approved']. *)
Definition approved (o : js) : js :=
  match o with JObj l => JObj (assoc_set "status" (JStr "approved") l) | _ => o end.

Definition orders_approve (id : string) : handler := fun _ s =>
  Some (match findIndex id (orders s) with
        | None => (not_found, s)
        | Some i =>
            let o := nth i (orders s) JUndef in
            if negb (js_is_str (opt_prop o "status") "pending")
            then ({| hs_status := 400; hs_json := err_text "order not pending" |}, s)
            else (ok (approved o), set_orders (<[i := approved o]> (orders s)) s)
        end).

Definition deleted : js := JObj [("status", JStr "deleted")].
Definition deleted_id (id : string) : js := JObj [("status", JStr "deleted"); ("id", JStr id)].

Definition orderRoutes : router := fun rq =>
  match hq_method rq, hq_path rq with
  | GET, [] => Some ("orders:read", orders_list)
  | GET, [id] => Some ("orders:read", get_one orders id)
  | POST, [] => Some ("orders:write", orders_create (hq_body rq))
  | POST, [id; "approve"] => Some ("orders:approve", orders_approve id)
  | PUT, [id] => Some ("orders:write", put_one orders set_orders id (hq_body rq))
  | DELETE, [id] => Some ("orders:delete", delete_one orders set_orders id deleted)
  | _, _ => None
  end.

(** ** routes/inventory.ts *)

(** [user.roles[0]?.toLowerCase()]; [None] is a TypeError. *)
Definition first_role (user : js) : option js :=
  match opt_prop user "roles" with
  | JArr (JStr r :: _) => Some (JStr (to_lower r))
  | JArr (x :: _) => if is_nullish x then Some JUndef else None
  | JStr (String c _) => Some (JStr (to_lower (String c "")))
  | JUndef | JNull => None
  | v => match opt_prop v "0" with
         | JStr r => Some (JStr (to_lower r))
         | x => if is_nullish x then Some JUndef else None
         end
  end.

Definition set_inventory (l : list js) (s : erp) : erp :=
  {| tokenCache := tokenCache s; orders := orders s; inventory := l; users := users s;
     roles := roles s; orgs := orgs s |}.

Definition inventory_list : handler := fun user s =>
  admin ← hasPermission user "admin";
  all ← (if (admin : bool) then Some true else hasPermission user "inventory:read:all");
  filtered ← (if (all : bool) then Some (inventory s)
              else match inventory s with
                   | [] => Some []
                   | l => role ← first_role user;
                          Some (List.filter (fun i => bool_decide (opt_prop i "org_id" = role) || true) l)
                   end);
  Some (ok (listing "items" filtered), s).

Definition inventory_create (body : js) : handler := fun user s =>
  sku ← prop body "sku"; name ← prop body "name"; stock ← prop body "stock";
  price ← prop body "price"; role ← first_role user;
  push inventory set_inventory
    (JObj [("id", JStr (string_of_Z (Z.of_nat (length (inventory s)) + 1))); ("sku", sku);
           ("name", name); ("stock", stock); ("price", price);
           ("org_id", js_or role (JStr "sales"))]) s.

Definition inventoryRoutes : router := fun rq =>
  match hq_method rq, hq_path rq with
  | GET, [] => Some ("inventory:read", inventory_list)
  | GET, [id] => Some ("inventory:read", get_one inventory id)
  | POST, [] => Some ("inventory:write", inventory_create (hq_body rq))
  | PUT, [id] => Some ("inventory:write", put_one inventory set_inventory id (hq_body rq))
  | DELETE, [id] => Some ("inventory:delete", delete_one inventory set_inventory id (deleted_id id))
  | _, _ => None
  end.

(** ** routes/users.ts, roles.ts, orgs.ts *)

Definition set_users (l : list js) (s : erp) : erp :=
  {| tokenCache := tokenCache s; orders := orders s; inventory := inventory s; users := l;
     roles := roles s; orgs := orgs s |}.

Definition users_create (body : js) : handler := fun _ s =>
  username ← prop body "username"; email ← prop body "email"; role ← prop body "role";
  push users set_users
    (JObj [("id", JStr (string_of_Z (Z.of_nat (length (users s)) + 1))); ("username", username);
           ("email", email); ("role", role); ("status", JStr "active")]) s.

Definition userRoutes : router := fun rq =>
  match hq_method rq, hq_path rq with
  | GET, [] => Some ("users:read", fun _ s => Some (ok (listing "users" (users s)), s))
  | GET, [id] => Some ("users:read", get_one users id)
  | POST, [] => Some ("users:write", users_create (hq_body rq))
  | PUT, [id] => Some ("users:write", put_one users set_users id (hq_body rq))
  | DELETE, [id] => Some ("users:delete", delete_one users set_users id (deleted_id id))
  | _, _ => None
  end.

Definition set_roles (l : list js) (s : erp) : erp :=
  {| tokenCache := tokenCache s; orders := orders s; inventory := inventory s; users := users s;
     roles := l; orgs := orgs s |}.

Definition roles_create (body : js) : handler := fun _ s =>
  name ← prop body "name"; permissions ← prop body "permissions";
  push roles set_roles
    (JObj [("id", JStr (string_of_Z (Z.of_nat (length (roles s)) + 1))); ("name", name);
           ("permissions", permissions)]) s.

Definition roleRoutes : router := fun rq =>
  match hq_method rq, hq_path rq with
  | GET, [] => Some ("roles:read", fun _ s => Some (ok (JObj [("roles", JArr (roles s))]), s))
  | POST, [] => Some ("roles:write", roles_create (hq_body rq))
  | DELETE, [id] => Some ("roles:delete", delete_one roles set_roles id deleted)
  | _, _ => None
  end.

Definition set_orgs (l : list js) (s : erp) : erp :=
  {| tokenCache := tokenCache s; orders := orders s; inventory := inventory s; users := users s;
     roles := roles s; orgs := l |}.

Definition orgs_create (body : js) : handler := fun _ s =>
  name ← prop body "name"; code ← prop body "code"; parent_id ← prop body "parent_id";
  push orgs set_orgs
    (JObj [("id", JStr (string_of_Z (Z.of_nat (length (orgs s)) + 1))); ("name", name);
           ("code", code); ("parent_id", parent_id)]) s.

Definition orgRoutes : router := fun rq =>
  match hq_method rq, hq_path rq with
  | GET, [] => Some ("orgs:read", fun _ s => Some (ok (JObj [("orgs", JArr (orgs s))]), s))
  | POST, [] => Some ("orgs:write", orgs_create (hq_body rq))
  | DELETE, [id] => Some ("orgs:delete", delete_one orgs set_orgs id deleted)
  | _, _ => None
  end.

(** ** routes/audit.ts, auth.ts *)

Definition audit_event (id event_type actor action timestamp : string) : js :=
  JObj [("id", JStr id); ("event_type", JStr event_type); ("actor", JStr actor);
        ("action", JStr action); ("result", JStr "success"); ("timestamp", JStr timestamp)].

(** [t] is the time the module was loaded. *)
Definition audit_events (t : string) : list js :=
  [audit_event "1" "user.login" "admin" "login" t;
   audit_event "2" "order.create" "sales" "create" t;
   audit_event "3" "inventory.update" "warehouse" "update" t].

Definition auditRoutes (t : string) : router := fun rq =>
  match hq_method rq, hq_path rq with
  | GET, [] => Some ("audit:read", fun _ s => Some (ok (listing "events" (audit_events t)), s))
  | _, _ => None
  end.

(** [await ggidClient.verifyToken(token)]; [None]: it rejected. *)
Definition sdk_verify (token : js) : prog erp (option js) := host "verifyToken" token.

Definition auth_verify (rq : http_request) : prog erp http_response :=
  match nonempty (strip_bearer <$> hq_authorization rq) with
  | None => mret (unauthenticated "Missing token")
  | Some token =>
      claims ← sdk_verify (JStr token);
      mret (match claims with Some c => ok c | None => unauthenticated "Invalid token" end)
  end.

Definition auth_introspect (rq : http_request) : prog erp http_response :=
  let token := opt_prop (hq_body rq) "token" in
  if negb (truthy token) then mret {| hs_status := 400; hs_json := err_text "missing token" |}
  else
    claims ← sdk_verify token;
    mret (match claims with
          | None | Some JUndef | Some JNull => ok (JObj [("active", JBool false)])
          | Some c =>
              ok (JObj [("active", JBool true); ("sub", opt_prop c "sub");
                        ("username", opt_prop c "username"); ("email", opt_prop c "email");
                        ("permissions", js_or (opt_prop c "permissions") (JArr []));
                        ("exp", opt_prop c "exp")])
          end).

Definition auth_my_permissions (rq : http_request) : prog erp http_response :=
  match nonempty (strip_bearer <$> hq_authorization rq) with
  | None => mret (unauthenticated "Missing token")
  | Some token =>
      claims ← sdk_verify (JStr token);
      let invalid := unauthenticated "Invalid token" in
      mret (match claims with
            | None | Some JUndef | Some JNull => invalid
            | Some c =>
                let perms := js_or (opt_prop c "permissions") (JArr []) in
                let hasPerm p := a ← js_includes perms p;
                                 if (a : bool) then Some true else js_includes perms "admin" in
                match hasPerm "orders:write", hasPerm "orders:approve" with
                | Some w, Some a =>
                    ok (JObj [("permissions", perms); ("can_write_orders", JBool w);
                              ("can_approve", JBool a)])
                | _, _ => invalid
                end
            end)
  end.

Section App.
(** What the process was started with, and when. *)
Context (TENANT CLIENT_ID CLIENT_SECRET started : string).

Definition client_credentials (body : js) : js :=
  JObj [("clientId", js_or (opt_prop body "client_id") (JStr CLIENT_ID));
        ("clientSecret", js_or (opt_prop body "client_secret") (JStr CLIENT_SECRET));
        ("scope", js_or (opt_prop body "scope") JUndef); ("tenantId", JStr TENANT)].

(** The message of a rejection is the platform's too. *)
Definition auth_token (rq : http_request) : prog erp http_response :=
  tokens ← host "clientCredentials" (client_credentials (hq_body rq));
  match tokens with
  | Some tokens => mret (ok tokens)
  | None =>
      message ← host "clientCredentials.message" JUndef;
      mret {| hs_status := 401; hs_json :=
        JObj [("error", JObj [("code", JStr "token_exchange_failed");
          ("message", js_or (default JUndef message) (JStr "Client credentials authentication failed"))])] |}
  end.

Definition unknown : http_response := {| hs_status := 404; hs_json := JUndef |}.

(** The router of routes/auth.ts: no token is needed to get there. *)
Definition authRoutes (rq : http_request) : prog erp http_response :=
  match hq_method rq, hq_path rq with
  | POST, ["token"] => auth_token rq
  | GET, ["verify"] => auth_verify rq
  | POST, ["introspect"] => auth_introspect rq
  | GET, ["my-permissions"] => auth_my_permissions rq
  | _, _ => mret unknown
  end.

(** ** index.ts *)

(** [app.use("/api/<name>", router)]. *)
Definition mounted (name : string) : option router :=
  match name with
  | "users" => Some userRoutes
  | "roles" => Some roleRoutes
  | "orgs" => Some orgRoutes
  | "inventory" => Some inventoryRoutes
  | "orders" => Some orderRoutes
  | "audit" => Some (auditRoutes started)
  | _ => None
  end.

(** The request as a router sees it. *)
Definition below (path : list string) (rq : http_request) : http_request :=
  {| hq_method := hq_method rq; hq_path := path; hq_authorization := hq_authorization rq; hq_body := hq_body rq |}.

Definition app (rq : http_request) : prog erp http_response :=
  match hq_path rq with
  | ["health"] => mret (if bool_decide (hq_method rq = GET) then ok (JObj [("status", JStr "ok")]) else unknown)
  | "api" :: "auth" :: path => authRoutes (below path rq)
  | "api" :: name :: path =>
      match mounted name with Some r => serve TENANT r (below path rq) | None => mret unknown end
  | _ => mret unknown
  end.
End App.

(** ** Lemmas *)

(** The stores, without the token cache. *)
Definition data (s : erp) : list (list js) := [orders s; inventory s; users s; roles s; orgs s].

(** [user] is who the SDK says [token] belongs to, now or when it was cached. *)
Definition known_user (TENANT : string) (e : env) (w : world erp) (token : string) (user : js) : Prop :=
  tokenCache (w_st w) !! token = Some user
  \/ exists claims, platform e (ObsHost "verifyToken" (JStr token) :: w_trace w) "verifyToken"
                      (JStr token) = Some claims
                    /\ user = user_of_claims TENANT claims.

Definition in_tenant (TENANT : string) (user : js) : Prop :=
  truthy (opt_prop user "tenant_id") = true -> opt_prop user "tenant_id" = JStr TENANT.

Section Guards.
Context (TENANT : string) (e : env).

Lemma run_verifyToken w token :
  exists o w1, run e (verifyToken TENANT token) w = (Done o, w1)
  /\ data (w_st w1) = data (w_st w)
  /\ forall user, o = Some user -> known_user TENANT e w token user.
Proof.
  unfold verifyToken, known_user. run_steps. destruct (tokenCache (w_st w) !! token) as [u|] eqn:Ec; run_steps.
  - eexists _, _. split; [done|]. split; [done|]. intros user [= ->]. by left.
  - autorewrite with world.
    assert (forall o, data (w_st (log o w)) = data (w_st w)) as Hl by by destruct w.
    destruct (platform e _ _ _) as [claims|] eqn:Ep; run_steps.
    2: { eexists _, _. split; [done|]. split; [apply Hl|]. done. }
    destruct claims; run_steps; eexists _, _; (split; [done|]); (split; [by destruct w|]);
      intros user H; try done; injection H as <-; right; eexists; split; done.
Qed.

Lemma run_requireAuth w rq :
  exists a w1, run e (requireAuth TENANT rq) w = (Done a, w1)
  /\ data (w_st w1) = data (w_st w)
  /\ match a with
     | inl resp => hs_status resp = 401
     | inr user => exists token, nonempty (strip_bearer <$> hq_authorization rq) = Some token
                   /\ known_user TENANT e w token user /\ in_tenant TENANT user
     end.
Proof.
  unfold requireAuth. destruct (nonempty _) as [token|]; run_steps; [|by eexists _, _].
  destruct (run_verifyToken w token) as (o & w1 & -> & Hd & Hu). run_steps.
  destruct o as [user|]; run_steps; [|by eexists _, _].
  destruct (truthy (opt_prop user "tenant_id")) eqn:Et; cbn [andb].
  - destruct (js_is_str (opt_prop user "tenant_id") TENANT) eqn:Es; cbn [negb]; run_steps;
      [|by eexists _, _].
    eexists _, _. split; [done|]. split; [done|]. exists token. split; [done|].
    split; [by apply Hu|]. intros _. destruct (opt_prop user "tenant_id"); try done.
    cbn in Es. bool_prop. by subst.
  - run_steps. eexists _, _. split; [done|]. split; [done|]. exists token. split; [done|].
    split; [by apply Hu|]. intros H. congruence.
Qed.

(** What [serve] does once the guards are passed. *)
Lemma run_serve w r rq :
  exists resp w', run e (serve TENANT r rq) w = (Done resp, w')
  /\ ((data (w_st w') = data (w_st w) /\ (400 <=? hs_status resp) = true)
      \/ exists token user perm h s s',
           nonempty (strip_bearer <$> hq_authorization rq) = Some token
           /\ known_user TENANT e w token user /\ in_tenant TENANT user
           /\ r rq = Some (perm, h) /\ hasPermission user perm = Some true
           /\ data s = data (w_st w) /\ h user s = Some (resp, s') /\ w_st w' = s').
Proof.
  unfold serve. run_steps. destruct (run_requireAuth w rq) as (a & w1 & -> & Hd & Ha). run_steps.
  destruct a as [resp|user]; run_steps.
  { eexists _, _. split; [done|]. left. split; [done|]. by rewrite Ha. }
  destruct Ha as (token & Htok & Hu & Ht). destruct (r rq) as [[perm h]|] eqn:Er; run_steps.
  2: { eexists _, _. split; [done|]. by left. }
  destruct (hasPermission user perm) as [[|]|] eqn:Ep; run_steps;
    [|eexists _, _; (split; [done|]); by left..].
  destruct (h user (w_st w1)) as [[resp s']|] eqn:Eh; run_steps.
  2: { eexists _, _. split; [done|]. by left. }
  eexists _, _. split; [done|]. right. exists token, user, perm, h, (w_st w1), s'.
  split_and!; try done. by autorewrite with world.
Qed.
End Guards.

(** ** Properties *)

(** The routes of routes/auth.ts keep all the state. *)
Lemma auth_keeps TENANT ID SECRET rq : keeps_st (authRoutes TENANT ID SECRET rq).
Proof.
  unfold authRoutes, auth_token, auth_verify, auth_introspect, auth_my_permissions, sdk_verify.
  destruct (hq_method rq), (hq_path rq) as [|p [|]]; try done; repeat case_match; try done;
    split; try done; intros [v|]; done.
Qed.

(** A request to the application is one to a router behind the guards, or keeps the state. *)
Lemma app_routes TENANT ID SECRET t rq :
  (exists name path r, hq_path rq = "api" :: name :: path /\ mounted t name = Some r
     /\ app TENANT ID SECRET t rq = serve TENANT r (below path rq))
  \/ keeps_st (app TENANT ID SECRET t rq).
Proof.
  destruct rq as [m path a body]. unfold app. cbn [hq_path].
  destruct path as [|api [|name path]]; [by right|by right; repeat case_match|].
  destruct (decide (api = "api")) as [->|Hapi].
  - destruct (decide (name = "auth")) as [->|Hauth]; [right; apply auth_keeps|].
    destruct (mounted t name) as [r|] eqn:Em.
    + left. exists name, path, r. split; [done|]. split; [done|]. unfold mounted in Em. by repeat case_match.
    + right. repeat case_match; simplify_eq/=; try done.
  - right. by repeat case_match.
Qed.

(** C15. Nothing an unauthorised caller sends changes the data: whenever a request to the
    application changes a store, it was one to a router, carried a token that the SDK
    verified (now, or within the cache's lifetime), and its user belongs to this service's
    tenant and holds the permission of the route. *)
Theorem changes_need_permission TENANT ID SECRET t e w rq resp w' :
  run e (app TENANT ID SECRET t rq) w = (Done resp, w') -> data (w_st w') <> data (w_st w) ->
  exists name path r token user perm h,
    hq_path rq = "api" :: name :: path /\ mounted t name = Some r
    /\ nonempty (strip_bearer <$> hq_authorization rq) = Some token
    /\ known_user TENANT e w token user
    /\ in_tenant TENANT user
    /\ r (below path rq) = Some (perm, h) /\ hasPermission user perm = Some true.
Proof.
  intros Hrun Hne. destruct (app_routes TENANT ID SECRET t rq) as [(name & path & r & Hp & Hm & Happ)|Hk].
  2: { apply (keeps_st_run e _ w) in Hk. rewrite Hrun in Hk. cbn in Hk. by rewrite Hk in Hne. }
  rewrite Happ in Hrun. destruct (run_serve TENANT e w r (below path rq)) as (resp' & w'' & Hrun' & H).
  rewrite Hrun in Hrun'. injection Hrun' as <- <-.
  destruct H as [[Hd _]|(token & user & perm & h & s & s' & ? & ? & ? & ? & ? & ?)]; [done|].
  by exists name, path, r, token, user, perm, h.
Qed.

(** The route of tokens has no guard and falls back to the credentials of the service: an
    empty request gets the tokens of the service itself, with any scope it names. *)
Lemma anyone_gets_service_tokens TENANT ID SECRET t e w scope tokens :
  let asked := JObj [("clientId", JStr ID); ("clientSecret", JStr SECRET); ("scope", JStr scope); ("tenantId", JStr TENANT)] in
  scope <> "" -> platform e (ObsHost "clientCredentials" asked :: w_trace w) "clientCredentials" asked = Some tokens ->
  (run e (app TENANT ID SECRET t (Build_http_request POST ["api"; "auth"; "token"] None (JObj [("scope", JStr scope)]))) w).1 = Done (ok tokens).
Proof.
  cbv zeta. intros Hs Hp. destruct scope as [|c scope]; [done|]. unfold app. cbn [hq_path]. unfold authRoutes, below.
  cbn [hq_method hq_path hq_authorization hq_body]. unfold auth_token, client_credentials. cbn -[host mret run].
  run_steps. autorewrite with world. rewrite Hp. by run_steps.
Qed.

(** The routers of the application. *)
Inductive erp_router : router -> Prop :=
| r_orders : erp_router orderRoutes
| r_inventory : erp_router inventoryRoutes
| r_users : erp_router userRoutes
| r_roles : erp_router roleRoutes
| r_orgs : erp_router orgRoutes
| r_audit t : erp_router (auditRoutes t).

(** A handler that answers an error, or that only reads, keeps the data. *)
Definition honest (m : method) (h : handler) : Prop :=
  forall user s resp s', h user s = Some (resp, s') ->
  400 <= hs_status resp \/ m = GET -> data s' = data s.

Lemma get_one_honest f id m : honest m (get_one f id).
Proof. intros user s resp s' [= <- <-] _. done. Qed.

Lemma put_one_honest f g id body : honest PUT (put_one f g id body).
Proof.
  intros user s resp s' H [Hs|?]; [|done]. unfold put_one in H.
  destruct (findIndex id (f s)); simplify_eq/=; [lia|done].
Qed.

Lemma delete_one_honest f g id a : honest DELETE (delete_one f g id a).
Proof.
  intros user s resp s' H [Hs|?]; [|done]. unfold delete_one in H.
  destruct (findIndex id (f s)); simplify_eq/=; [lia|done].
Qed.

Lemma push_honest f g o s resp s' :
  push f g o s = Some (resp, s') -> 400 <= hs_status resp \/ POST = GET -> data s' = data s.
Proof. intros H [Hs|?]; [|done]. unfold push in H. simplify_eq/=. lia. Qed.

Lemma approve_honest id : honest POST (orders_approve id).
Proof.
  intros user s resp s' H [Hs|?]; [|done]. unfold orders_approve in H.
  destruct (findIndex id (orders s)); simplify_eq/=; [|done].
  destruct (js_is_str _ _); simplify_eq/=; [lia|done].
Qed.

Lemma orders_list_honest : honest GET orders_list.
Proof.
  intros user s resp s' H _. unfold orders_list in H.
  destruct (hasPermission user "orders:read:all") as [[|]|]; [by simplify_eq/=| |done].
  cbn in H. destruct (hasPermission user "admin") as [[|]|]; by simplify_eq/=.
Qed.

Lemma inventory_list_honest : honest GET inventory_list.
Proof.
  intros user s resp s' H _. unfold inventory_list in H.
  destruct (hasPermission user "admin") as [[|]|]; [by simplify_eq/=| |done]. cbn in H.
  destruct (hasPermission user "inventory:read:all") as [[|]|]; [by simplify_eq/=| |done]. cbn in H.
  destruct (inventory s); [by simplify_eq/=|]. by destruct (first_role user); simplify_eq/=.
Qed.

(** The routers keep HTTP's promises: a GET, and every request answered with an
    error (401, 403, 404, 400, 500), leave all the stores as they were. *)
Lemma reads_and_errors_change_nothing TENANT e w r rq resp w' :
  erp_router r -> run e (serve TENANT r rq) w = (Done resp, w') ->
  hq_method rq = GET \/ 400 <= hs_status resp ->
  data (w_st w') = data (w_st w).
Proof.
  intros Hr Hrun Hcase. destruct (run_serve TENANT e w r rq) as (resp' & w'' & Hrun' & H).
  rewrite Hrun in Hrun'. injection Hrun' as <- <-.
  destruct H as [[Hd _]|(token & user & perm & h & s & s' & _ & _ & _ & Hroute & _ & Hd & Hh & ->)];
    [done|]. rewrite <- Hd.
  assert (honest (hq_method rq) h) as Hhon; [|apply (Hhon _ _ _ _ Hh); tauto].
  assert (forall f s resp s', Some (f s, s) = Some (resp, s') -> data s' = data s) as Hid
    by (intros ? ? ? ? [= _ <-]; done).
  destruct Hr; destruct rq as [[] [|id [|a [|? ?]]] ? body]; cbn in Hroute; try done;
    try (destruct (decide (a = "approve")) as [->|Hna]);
    repeat case_match; simplify_eq/=;
    eauto using get_one_honest, put_one_honest, delete_one_honest, approve_honest,
      orders_list_honest, inventory_list_honest.
  all: intros u s0 r0 s0' Hc; unfold orders_create, inventory_create, users_create, roles_create,
    orgs_create in Hc; repeat match type of Hc with
      | context [prop ?b ?k] => destruct (prop b k); [cbn in Hc|done]
      | context [first_role ?b] => destruct (first_role b); [cbn in Hc|done]
      end; try (by intros; eapply push_honest); by simplify_eq/=.
Qed.

Lemma findIndex_nth id l i : findIndex id l = Some i -> has_id id (nth i l JUndef) = true /\ (i < length l)%nat.
Proof.
  revert i. induction l as [|o l IH]; intros i; cbn; [done|].
  destruct (has_id id o) eqn:E; [intros [= <-]; split; [done|lia]|].
  destruct (findIndex id l) as [j|]; [|done]. intros [= <-]. destruct (IH j eq_refl). split; [done|lia].
Qed.

Lemma findIndex_insert id l i o :
  findIndex id l = Some i -> has_id id o = true -> findIndex id (<[i := o]> l) = Some i.
Proof.
  revert i. induction l as [|x l IH]; intros i; cbn; [done|].
  destruct (has_id id x) eqn:E; [intros [= <-] Ho; cbn; by rewrite Ho|].
  destruct (findIndex id l) as [j|]; [|done]. intros [= <-] Ho.
  change (<[Datatypes.S j := o]> (x :: l)) with (x :: <[j := o]> l). cbn [findIndex]. rewrite E.
  by rewrite (IH j).
Qed.

Lemma has_id_approved id o : has_id id o = true -> has_id id (approved o) = true.
Proof.
  destruct o as [| | | | | |l]; try done. unfold has_id, approved, opt_prop. cbn.
  by rewrite assoc_set_ne by done.
Qed.

Lemma status_approved l : opt_prop (JObj (assoc_set "status" (JStr "approved") l)) "status" = JStr "approved".
Proof. unfold opt_prop. cbn. by rewrite assoc_set_eq. Qed.

Lemma nth_insert_eq (i : nat) (l : list js) o : (i < length l)%nat -> nth i (<[i := o]> l) JUndef = o.
Proof.
  revert i. induction l as [|x l IH]; intros [|i]; cbn; intros; [lia..|done|]. apply IH. lia.
Qed.

(** Approval of an order.  The approve route turns a pending order, and only a
    pending one, into an approved one, once: a second approval is refused.  The
    update route, which asks for "orders:write" only, sets the status just as well,
    whatever it was: who may write orders needs no approval permission. *)
Lemma approval_and_its_bypass id i fields user s :
  findIndex id (orders s) = Some i -> nth i (orders s) JUndef = JObj fields ->
  let status := opt_prop (JObj fields) "status" in
  (status <> JStr "pending" ->
   exists resp, orders_approve id user s = Some (resp, s) /\ hs_status resp = 400)
  /\ (status = JStr "pending" ->
      exists s', orders_approve id user s = Some (ok (approved (JObj fields)), s')
      /\ orders s' = <[i := approved (JObj fields)]> (orders s)
      /\ exists resp, orders_approve id user s' = Some (resp, s') /\ hs_status resp = 400)
  /\ (forall auth, exists s' o,
      let body := JObj [("status", JStr "approved")] in
      let rq := Build_http_request PUT [id] auth body in
      orderRoutes rq = Some ("orders:write", put_one orders set_orders id body)
      /\ put_one orders set_orders id body user s = Some (ok o, s')
      /\ orders s' = <[i := o]> (orders s) /\ opt_prop o "status" = JStr "approved").
Proof.
  intros Hi Hn status. destruct (findIndex_nth _ _ _ Hi) as [Hid Hlt]. unfold orders_approve.
  rewrite Hi, Hn. cbv zeta. split; [|split].
  - intros Hs. assert (js_is_str (opt_prop (JObj fields) "status") "pending" = false) as ->.
    { fold status. destruct status; cbn; try done. by apply eqb_str_false; congruence. }
    by eexists.
  - intros Hs. fold status. rewrite Hs. cbn [js_is_str]. rewrite eqb_refl_str. cbn [negb].
    eexists. split; [done|]. split; [done|]. cbn [orders set_orders].
    rewrite findIndex_insert by (try apply has_id_approved; by rewrite <- ?Hn).
    rewrite nth_insert_eq by done. cbn [approved]. rewrite status_approved. by eexists.
  - intros auth. unfold put_one. rewrite Hi, Hn. eexists _, _. split; [done|]. split; [done|].
    split; [done|]. unfold merge. cbn. apply status_approved.
Qed.

(** An order created after another was deleted takes the id of the last one, which
    every route by id finds first: the new order cannot be reached. *)
Lemma order_id_reused l i last user s customer amount :
  orders s = l ++ [last] -> (i < length l)%nat ->
  has_id (order_id (Z.of_nat (length l) + 1)) last = true ->
  let s1 := set_orders (splice1 i (orders s)) s in
  exists o s2,
    orders_create (JObj [("customer", customer); ("amount", amount)]) user s1 = Some (created o, s2)
    /\ orders s2 = splice1 i l ++ [last; o]
    /\ has_id (order_id (Z.of_nat (length l) + 1)) o = true.
Proof.
  intros Hl Hi Hid s1.
  assert (orders s1 = splice1 i l ++ [last]) as Ho.
  { subst s1. cbn. rewrite Hl. unfold splice1. rewrite take_app_le by lia.
    rewrite drop_app_le by lia. by rewrite app_assoc. }
  assert (Z.of_nat (length (orders s1)) + 1 = Z.of_nat (length l) + 1) as Hlen.
  { rewrite Ho. unfold splice1. rewrite !length_app, length_take, length_drop. cbn. lia. }
  set (o := JObj [("id", JStr (order_id (Z.of_nat (length (orders s1)) + 1)));
    ("customer", customer); ("amount", amount); ("status", JStr "pending"); ("org_id", JStr "sales");
    ("group_id", JStr "team-a")]).
  exists o, (set_orders (orders s1 ++ [o]) s1). split; [done|]. split.
  - change (orders (set_orders (orders s1 ++ [o]) s1)) with (orders s1 ++ [o]).
    rewrite Ho. by rewrite <- app_assoc.
  - subst o. rewrite Hlen. apply eqb_refl_str.
Qed.

(** The row filter of the inventory lets every row through: its test ends in [|| true]. *)
Lemma inventory_filter_lets_all user s resp s' :
  inventory_list user s = Some (resp, s') -> resp = ok (listing "items" (inventory s)).
Proof.
  unfold inventory_list. destruct (hasPermission user "admin") as [a|]; [|done]. cbn [mbind option_bind].
  destruct (if a then Some true else _) as [[|]|]; cbn [mbind option_bind]; [by intros [= <- <-]| |done].
  destruct (inventory s) as [|x l] eqn:E; [by intros [= <- <-]|].
  destruct (first_role user) as [role|]; cbn [mbind option_bind]; [|done]. intros [= <- <-].
  assert (forall m, List.filter (fun i => bool_decide (opt_prop i "org_id" = role) || true) m = m) as Hf.
  { induction m as [|y m IH]; [done|]. cbn [List.filter]. by rewrite orb_true_r, IH. }
  by rewrite orb_true_r, Hf.
Qed.

(** ** Witnesses *)

Definition demo_claims (perms : list string) : js :=
  JObj [("sub", JStr "u"); ("tenant_id", JStr "T"); ("permissions", strs perms)].

Definition sdk (claims : js) : env :=
  {| server := fun _ _ => None; clock := fun _ => 0; entropy := fun _ n => repeat 0 n;
     platform := fun _ _ _ => Some claims |}.

Definition demo_erp : erp := Build_erp ∅ initial_orders [] [] [] [].

Definition demo_put : http_request :=
  Build_http_request PUT ["ORD-001"] (Some "Bearer tok") (JObj [("status", JStr "approved")]).

Lemma anyone_gets_service_tokens_witness :
  (run (sdk (strs ["access"])) (app "T" "id" "secret" "t" (Build_http_request POST ["api"; "auth"; "token"] None (JObj [("scope", JStr "all")])))
     (page demo_erp ∅)).1 = Done (ok (strs ["access"])).
Proof.
  apply (anyone_gets_service_tokens "T" "id" "secret" "t" (sdk (strs ["access"])) (page demo_erp ∅) "all" (strs ["access"])); [discriminate|reflexivity].
Defined.

Definition demo_request : http_request := below ["api"; "orders"; "ORD-001"] demo_put.

Lemma changes_need_permission_witness :
  exists name path r token user perm h,
    hq_path demo_request = "api" :: name :: path /\ mounted "t" name = Some r
    /\ nonempty (strip_bearer <$> hq_authorization demo_request) = Some token
    /\ known_user "T" (sdk (demo_claims ["orders:write"])) (page demo_erp ∅) token user
    /\ in_tenant "T" user
    /\ r (below path demo_request) = Some (perm, h) /\ hasPermission user perm = Some true.
Proof.
  eapply (changes_need_permission "T" "id" "secret" "t" (sdk (demo_claims ["orders:write"])) (page demo_erp ∅)
            demo_request).
  - vm_compute. reflexivity.
  - vm_compute. intros H. discriminate H.
Defined.

Lemma reads_and_errors_change_nothing_witness :
  data (w_st (run (sdk (demo_claims ["orders:read"])) (serve "T" orderRoutes demo_put)
                (page demo_erp ∅)).2) = data demo_erp.
Proof.
  apply (reads_and_errors_change_nothing "T" (sdk (demo_claims ["orders:read"])) (page demo_erp ∅)
           orderRoutes demo_put (forbidden "orders:write")); [apply r_orders|reflexivity|].
  right. vm_compute. intros H. discriminate H.
Defined.

Lemma approval_and_its_bypass_witness :
  exists resp, orders_approve "ORD-002" JUndef demo_erp = Some (resp, demo_erp) /\ hs_status resp = 400.
Proof.
  apply (approval_and_its_bypass "ORD-002" 1 [("id", JStr "ORD-002"); ("customer", JStr "Bob Inc");
    ("amount", JNum 3400); ("status", JStr "approved"); ("org_id", JStr "sales");
    ("group_id", JStr "team-b")] JUndef demo_erp); [reflexivity|reflexivity|discriminate].
Defined.
