(* ===== verification/Webauthn.v ===== *)
(** * Passkeys (console/src/lib/webauthn-conditional.ts, auth-helpers.ts;
    sdk/react/src/passkey.ts)

    The authenticator is the browser's: [navigator.credentials] and the static
    methods of [PublicKeyCredential] are calls of the platform, [None] when they
    reject.  A byte buffer is the array of its bytes. *)

From S2P Require Import Prelude JsValue JsString Json Effects Base64 ApiClient.
Local Open Scope Z_scope.

Definition js_bytes (l : list Z) : js := JArr (map JNum l).
Definition buffer_bytes (v : js) : list Z :=
  map (fun x => match x with JNum n => n | _ => 0 end) (elements_of v).

(** [b64urlToBuffer(v)] as an expression: [None] when [v] is no text or no base64url. *)
Definition to_buffer (v : js) : option js :=
  match v with JStr s => js_bytes <$> b64urlToBuffer s | _ => None end.

Definition throw_none {S A} (o : option A) : prog S A :=
  match o with Some a => Ret a | None => Throw (error "InvalidCharacterError") end.

(** ** auth-helpers.ts *)

Definition add_header (k : string) (o : option string) (l : list (string * string))
    : list (string * string) :=
  match nonempty o with Some v => hset k v l | None => l end.

Section Console.
Context {S : Type} (browser : bool) (API_BASE : string).

(** [authHeader()]. *)
Definition authHeader : prog S (list (string * string)) :=
  token ← getAuthToken browser;
  let headers := match nonempty token with
                 | Some t => [("Authorization", "Bearer " +:+ t)] | None => [] end in
  if browser then
    uid ← getItem Local "ggid_user_id";
    tid ← getItem Local "ggid_tenant_id";
    mret (add_header "X-Tenant-ID" tid (add_header "X-User-ID" uid headers))
  else mret headers.

Definition isAuthenticated : prog S bool :=
  token ← getAuthToken browser; mret (bool_decide (is_Some token)).

(** ** webauthn-conditional.ts *)

Definition WEBAUTHN_TENANT_ID : string := "".

(** [{ ...authHeader(), ...extra, "X-Tenant-ID": TENANT_ID }]. *)
Definition webauthn_headers (auth extra : list (string * string)) : list (string * string) :=
  hassign auth (extra ++ [("X-Tenant-ID", WEBAUTHN_TENANT_ID)]).

Definition json_type : list (string * string) := [("Content-Type", "application/json")].

(** [present] is [typeof PublicKeyCredential !== "undefined"] with the method. *)
Definition isConditionalCreateSupported (present : bool) : prog S bool :=
  if negb present then mret false
  else
    r ← host "isConditionalMediationAvailable" JUndef;
    mret (match r with Some v => truthy v | None => false end).

Definition userHasPasskey (userId : string) : prog S bool :=
  try_catch (
    auth ← authHeader;
    res ← fetch (Request GET (API_BASE +:+ "/api/v1/auth/webauthn/credentials?user_id=" +:+ userId)
            (webauthn_headers auth []) None);
    if negb (rs_ok res) then mret false
    else
      data ← resp_json res;
      credentials ← get data "credentials";
      mret (match credentials with JArr (_ :: _) => true | _ => false end))
  (fun _ => mret false).

Definition exclude_credential (c : js) : option js :=
  i ← prop c "id"; id ← to_buffer i;
  Some (JObj (spread (spread [("type", JStr "public-key")]
                        (match c with JObj l => l | _ => [] end)) [("id", id)])).

Definition decodeCreationOptions (options : js) : option js :=
  challenge ← to_buffer (opt_prop options "challenge");
  let user := opt_prop options "user" in
  id ← to_buffer (opt_prop user "id");
  exclude ← (match opt_prop options "excludeCredentials" with
             | JUndef | JNull => Some JUndef
             | JArr l => JArr <$> mapM exclude_credential l
             | _ => None
             end);
  Some (JObj [("challenge", challenge); ("rp", opt_prop options "rp");
    ("user", JObj (spread (match user with JObj l => l | _ => [] end) [("id", id)]));
    ("pubKeyCredParams", opt_prop options "pubKeyCredParams");
    ("timeout", opt_prop options "timeout"); ("excludeCredentials", exclude);
    ("authenticatorSelection", opt_prop options "authenticatorSelection");
    ("attestation", opt_prop options "attestation")]).

Definition encodeAttestation (credential : js) : option js :=
  let response := opt_prop credential "response" in
  let b64 v := JStr (bufferToB64url (buffer_bytes v)) in
  att ← prop response "attestationObject";
  client ← prop response "clientDataJSON";
  Some (JObj [("id", opt_prop credential "id"); ("rawId", b64 (opt_prop credential "rawId"));
    ("type", opt_prop credential "type");
    ("response", JObj [("attestationObject", b64 att); ("clientDataJSON", b64 client)]);
    ("authenticatorAttachment", opt_prop credential "authenticatorAttachment")]).

Definition begin_request (auth : list (string * string)) (userId : string) : request :=
  Request POST (API_BASE +:+ "/api/v1/webauthn/register/begin") (webauthn_headers auth json_type)
    (Some (stringify (JObj [("user_id", JStr userId)]))).

Definition finish_request (auth : list (string * string)) (attestation : js) : request :=
  Request POST (API_BASE +:+ "/api/v1/webauthn/register/finish") (webauthn_headers auth json_type)
    (Some (stringify attestation)).

(** A call into the platform whose rejection is an exception. *)
Definition platform_call (f : string) (arg : js) : prog S js :=
  r ← host f arg;
  match r with Some v => mret v | None => Throw (Exn "AbortError" f []) end.

Definition offerPasskeyUpgrade (present : bool) (userId : string) : prog S bool :=
  supported ← isConditionalCreateSupported present;
  if negb supported then mret false
  else
    hasPasskey ← userHasPasskey userId;
    if (hasPasskey : bool) then mret false
    else
      try_catch (
        auth ← authHeader;
        beginRes ← fetch (begin_request auth userId);
        if negb (rs_ok beginRes) then mret false
        else
          beginData ← resp_json beginRes;
          publicKey ← get beginData "publicKey";
          decodedOptions ← throw_none (decodeCreationOptions (js_or publicKey beginData));
          credential ← platform_call "credentials.create"
            (JObj [("publicKey", decodedOptions); ("mediation", JStr "optional")]);
          if negb (truthy credential) then mret false
          else
            attestation ← throw_none (encodeAttestation credential);
            auth ← authHeader;
            finishRes ← fetch (finish_request auth attestation);
            mret (rs_ok finishRes))
      (fun _ => mret false).

(** The Signal API. [signal f] says which of its methods the browser has. *)
Context (signal : string -> bool) (hostname : string).

Definition isSignalApiSupported : bool := signal "signalAllAcceptedCredentials".

Definition fetchValidCredentialIds : prog S js :=
  try_catch (
    auth ← authHeader;
    res ← fetch (Request GET (API_BASE +:+ "/api/v1/auth/webauthn/credentials/valid-ids")
            (webauthn_headers auth []) None);
    if negb (rs_ok res) then mret JNull else resp_json res)
  (fun _ => mret JNull).

(** [!l || l.length === 0]. *)
Definition no_elements (l : js) : bool :=
  negb (truthy l) || match l with JArr [] => true | _ => false end.

(** [v || undefined]. *)
Definition or_undefined (v : js) : js := js_or v JUndef.

Definition syncSignalAfterLogin : prog S unit :=
  if negb isSignalApiSupported then mret tt
  else
    try_catch (
      data ← fetchValidCredentialIds;
      let ids := opt_prop data "credential_ids" in
      if negb (truthy data) || no_elements ids then mret tt
      else
        userId ← throw_none (to_buffer (opt_prop data "user_id"));
        credIds ← throw_none (match ids with JArr l => mapM to_buffer l | _ => None end);
        platform_call "signalAllAcceptedCredentials"
          (JObj [("rpId", JStr hostname); ("userId", userId);
                 ("allAcceptedCredentialIds", JArr credIds)]);;
        if signal "signalCurrentUserDetails" then
          platform_call "signalCurrentUserDetails"
            (JObj [("userId", userId); ("name", or_undefined (opt_prop data "user_name"));
                   ("displayName", or_undefined (opt_prop data "display_name"))]);;
          mret tt
        else mret tt)
    (fun _ => mret tt).

Definition signalCredentialRemoved (credentialId : string) : prog S unit :=
  if negb isSignalApiSupported then mret tt
  else
    try_catch (
      if signal "signalUnknownCredential" then
        id ← throw_none (to_buffer (JStr credentialId));
        platform_call "signalUnknownCredential"
          (JObj [("rpId", JStr hostname); ("credentialId", id)]);;
        mret tt
      else mret tt)
    (fun _ => mret tt).
End Console.

(** ** sdk/react/src/passkey.ts: usePasskey *)

Record UsePasskeyOptions := {
  apiBaseUrl : string;
  authToken : option string;
  opt_tenantId : option string
}.

Record passkey_state := { pk_loading : bool; pk_error : option string; pk_success : bool }.

Section UsePasskey.
Context (opts : UsePasskeyOptions) (webauthn : bool).

Definition pk_setLoading (b : bool) : prog passkey_state unit :=
  upd (fun s => Build_passkey_state b (pk_error s) (pk_success s)).
Definition pk_setError (o : option string) : prog passkey_state unit :=
  upd (fun s => Build_passkey_state (pk_loading s) o (pk_success s)).
Definition pk_setSuccess (b : bool) : prog passkey_state unit :=
  upd (fun s => Build_passkey_state (pk_loading s) (pk_error s) b).

Definition register_headers : list (string * string) :=
  add_header "X-Tenant-ID" (opt_tenantId opts)
    (match nonempty (authToken opts) with
     | Some t => hset "Authorization" ("Bearer " +:+ t) json_type
     | None => json_type
     end).

Definition creation_options (o : js) : option js :=
  challenge ← to_buffer (opt_prop o "challenge");
  let user := opt_prop o "user" in
  id ← (i ← prop user "id"; to_buffer i);
  Some (JObj [("challenge", challenge); ("rp", opt_prop o "rp");
    ("user", JObj (spread (match user with JObj l => l | _ => [] end) [("id", id)]));
    ("pubKeyCredParams", opt_prop o "pubKeyCredParams"); ("timeout", opt_prop o "timeout");
    ("authenticatorSelection", opt_prop o "authenticatorSelection");
    ("attestation", opt_prop o "attestation")]).

(** The attestation of passkey.ts has no [authenticatorAttachment]. *)
Definition attestation_of (credential : js) : option js :=
  let response := opt_prop credential "response" in
  let b64 v := JStr (bufferToBase64url (buffer_bytes v)) in
  att ← prop response "attestationObject";
  client ← prop response "clientDataJSON";
  Some (JObj [("id", opt_prop credential "id"); ("rawId", b64 (opt_prop credential "rawId"));
    ("type", opt_prop credential "type");
    ("response", JObj [("attestationObject", b64 att); ("clientDataJSON", b64 client)])]).

Definition register (userId : string) : prog passkey_state bool :=
  if negb webauthn then
    pk_setError (Some "WebAuthn is not supported in this browser");; mret false
  else
    pk_setLoading true;; pk_setError None;; pk_setSuccess false;;
    finally (try_catch (
      beginRes ← fetch (Request POST (apiBaseUrl opts +:+ "/api/v1/webauthn/register/begin")
        register_headers (Some (stringify (JObj [("user_id", JStr userId)]))));
      if negb (rs_ok beginRes) then Throw (error "Failed to start registration")
      else
        beginData ← resp_json beginRes;
        publicKey ← get beginData "publicKey";
        decodedOptions ← throw_none (creation_options (js_or publicKey beginData));
        credential ← platform_call "credentials.create" (JObj [("publicKey", decodedOptions)]);
        if negb (truthy credential) then
          pk_setError (Some "Registration cancelled");; mret false
        else
          attestation ← throw_none (attestation_of credential);
          finishRes ← fetch (Request POST (apiBaseUrl opts +:+ "/api/v1/webauthn/register/finish")
            register_headers (Some (stringify attestation)));
          if rs_ok finishRes then pk_setSuccess true;; mret true
          else Throw (error "Failed to verify passkey"))
      (fun e => pk_setError (Some (e_message e));; mret false))
    (pk_setLoading false).

Definition request_options (o : js) : option js :=
  challenge ← to_buffer (opt_prop o "challenge");
  Some (JObj [("challenge", challenge); ("rpId", opt_prop o "rpId");
    ("timeout", opt_prop o "timeout"); ("userVerification", opt_prop o "userVerification")]).

Definition assertion_of (assertion : js) : option js :=
  let response := opt_prop assertion "response" in
  let b64 v := JStr (bufferToBase64url (buffer_bytes v)) in
  data ← prop response "authenticatorData";
  client ← prop response "clientDataJSON";
  signature ← prop response "signature";
  handle ← prop response "userHandle";
  Some (JObj [("id", opt_prop assertion "id"); ("rawId", b64 (opt_prop assertion "rawId"));
    ("type", opt_prop assertion "type");
    ("response", JObj [("authenticatorData", b64 data); ("clientDataJSON", b64 client);
      ("signature", b64 signature);
      ("userHandle", if truthy handle then b64 handle else JNull)])]).

Definition authenticate : prog passkey_state js :=
  if negb webauthn then pk_setError (Some "WebAuthn is not supported");; mret JNull
  else
    pk_setLoading true;; pk_setError None;;
    finally (try_catch (
      beginRes ← fetch (Request POST (apiBaseUrl opts +:+ "/api/v1/auth/webauthn/auth/begin")
        (add_header "X-Tenant-ID" (opt_tenantId opts) json_type) None);
      if negb (rs_ok beginRes) then Throw (error "Failed to start authentication")
      else
        beginData ← resp_json beginRes;
        publicKey ← get beginData "publicKey";
        decodedOptions ← throw_none (request_options (js_or publicKey beginData));
        assertion ← platform_call "credentials.get" (JObj [("publicKey", decodedOptions)]);
        if negb (truthy assertion) then mret JNull
        else throw_none (assertion_of assertion))
      (fun e => pk_setError (Some (e_message e));; mret JNull))
    (pk_setLoading false).

Definition reset : prog passkey_state unit := pk_setError None;; pk_setSuccess false.
End UsePasskey.

#[global] Arguments webauthn_headers : simpl never.
#[global] Arguments begin_request : simpl never.
#[global] Arguments finish_request : simpl never.
#[global] Arguments decodeCreationOptions : simpl never.
#[global] Arguments encodeAttestation : simpl never.
#[global] Arguments creation_options : simpl never.
#[global] Arguments attestation_of : simpl never.
#[global] Arguments request_options : simpl never.
#[global] Arguments assertion_of : simpl never.

(** ** Lemmas *)

(** The stored tenant never reaches the server: the module's own empty one does. *)
Lemma webauthn_headers_tenant auth extra : hget "X-Tenant-ID" (webauthn_headers auth extra) = Some "".
Proof. unfold webauthn_headers, hassign. rewrite fold_left_app. apply hget_hset. Qed.

Section Silent.
Context {S : Type} (browser : bool) (API_BASE : string).

Lemma no_throw_authHeader : no_throw (S:=S) (authHeader browser).
Proof. unfold authHeader, getAuthToken. by destruct browser. Qed.

Lemma no_throw_supported b : no_throw (S:=S) (isConditionalCreateSupported b).
Proof. by destruct b. Qed.
End Silent.

(** ** Properties *)

(** The passkey upgrade after a login is silent: neither it nor the Signal API calls
    let an exception out, whatever the browser and the server do.  It answers [true]
    only after the server accepted the attestation it sent last.  That request, like
    every one of the module, names the tenant "": the tenant the helper reads from
    the storage is overwritten by the module's empty constant. *)
Lemma passkey_upgrade_silent {S} browser API_BASE present userId signal host_ credentialId :
  no_throw (S:=S) (offerPasskeyUpgrade browser API_BASE present userId)
  /\ no_throw (S:=S) (syncSignalAfterLogin browser API_BASE signal host_)
  /\ no_throw (S:=S) (signalCredentialRemoved signal host_ credentialId)
  /\ forall e (w : world S) w',
      run e (offerPasskeyUpgrade browser API_BASE present userId) w = (Done true, w') ->
      exists auth attestation resp t,
        let rq := finish_request API_BASE auth attestation in
        w_trace w' = ObsFetch rq :: t /\ server e (w_trace w') rq = Some resp
        /\ rs_ok resp = true /\ hget "X-Tenant-ID" (rq_headers rq) = Some "".
Proof.
  split; [|split; [|split]].
  - unfold offerPasskeyUpgrade. apply no_throw_bind; [apply no_throw_supported|].
    intros [|]; [|done]. apply no_throw_bind; [by apply no_throw_try|]. intros [|]; [done|].
    by apply no_throw_try.
  - unfold syncSignalAfterLogin. destruct (isSignalApiSupported signal); [|done].
    by apply no_throw_try.
  - unfold signalCredentialRemoved. destruct (isSignalApiSupported signal); [|done].
    by apply no_throw_try.
  - intros e w w'. unfold offerPasskeyUpgrade, platform_call, throw_none. run_steps.
    destruct (run e (isConditionalCreateSupported present) w) as [[[|]|] w1]; cbn [negb]; run_steps; try done.
    destruct (run e (userHasPasskey browser API_BASE userId) w1) as [[[|]|] w2]; run_steps; try done.
    destruct (run e (authHeader browser) w2) as [[auth|] w3]; run_steps; try done.
    destruct (server e _ _) as [r1|]; run_steps; try done.
    destruct (rs_ok r1); cbn [negb]; run_steps; try done.
    destruct (JSON_parse (rs_body r1)) as [v|]; run_steps; try done.
    unfold get. destruct (prop v "publicKey") as [pk|]; run_steps; try done.
    destruct (decodeCreationOptions _) as [opts|]; run_steps; try done.
    destruct (platform e _ _ _) as [cred|]; run_steps; try done.
    destruct (truthy cred); cbn [negb]; run_steps; try done.
    destruct (encodeAttestation cred) as [att|]; run_steps; try done.
    destruct (run e (authHeader browser) _) as [[auth2|] w4]; run_steps; try done.
    set (rq := finish_request API_BASE auth2 att). autorewrite with world.
    destruct (server e _ rq) as [r2|] eqn:Es; run_steps; try done.
    intros [= Hok <-]. exists auth2, att, r2, (w_trace w4). autorewrite with world.
    split; [done|]. split; [done|]. split; [done|]. apply webauthn_headers_tenant.
Qed.

(** Closes a finished path of [register]. *)
Ltac settle w := eexists _, _; split; [done|]; destruct w; naive_solver.

(** Registering a passkey with [usePasskey] always settles: no exception, [loading]
    back to false; success is reported together with no error, and any failure (no
    WebAuthn, refused or malformed challenge, dismissed prompt, rejected attestation,
    network) leaves an error and no success. *)
Lemma register_settles opts webauthn e w userId :
  exists b w', run e (register opts webauthn userId) w = (Done b, w')
  /\ (pk_loading (w_st w) = false -> pk_loading (w_st w') = false)
  /\ (b = true -> pk_success (w_st w') = true /\ pk_error (w_st w') = None)
  /\ (b = false -> exists m, pk_error (w_st w') = Some m)
  /\ (b = false -> pk_success (w_st w) = false -> pk_success (w_st w') = false).
Proof.
  unfold register, platform_call, throw_none, pk_setLoading, pk_setError, pk_setSuccess.
  destruct webauthn; cbn [negb]; run_steps; [|eexists _, _; split; [done|]; destruct w; naive_solver].
  set (w0 := set_st _ (set_st _ (set_st _ w))).
  assert (pk_error (w_st w0) = None /\ pk_success (w_st w0) = false) as Hw0 by by destruct w.
  match goal with |- exists b w', ?r = (Done b, w') /\ _ =>
    enough (exists b w', r = (Done b, w') /\ pk_loading (w_st w') = false
      /\ (b = true -> pk_success (w_st w') = true /\ pk_error (w_st w') = None)
      /\ (b = false -> (exists m, pk_error (w_st w') = Some m) /\ pk_success (w_st w') = false))
      as (b & w' & Hr & Hl & Ht & Hf) by (exists b, w'; naive_solver) end.
  clearbody w0. clear w. rename w0 into w.
  destruct (server e _ _) as [r1|]; run_steps; [|settle w].
  destruct (rs_ok r1); cbn [negb]; run_steps; [|settle w].
  destruct (JSON_parse (rs_body r1)) as [v|]; run_steps; [|settle w].
  unfold get. destruct (prop v "publicKey") as [pk|]; run_steps; [|settle w].
  destruct (creation_options _) as [o|]; run_steps; [|settle w].
  destruct (platform e _ _ _) as [cred|]; run_steps; [|settle w].
  destruct (truthy cred); cbn [negb]; run_steps; [|settle w].
  destruct (attestation_of cred) as [att|]; run_steps; [|settle w].
  destruct (server e _ _) as [r2|]; run_steps; [|settle w].
  destruct (rs_ok r2); run_steps; settle w.
Qed.

(** ** Witness *)

Definition demo_browser : env :=
  {| server := fun t rq => if str_includes "/begin" (rq_url rq)
       then Some (Response 200 (stringify (JObj [("challenge", JStr "AQID");
              ("user", JObj [("id", JStr "dQ")])])))
       else Some (Response 200 "{}");
     clock := fun _ => 0; entropy := fun _ n => repeat 0 n;
     platform := fun _ f _ => Some (JObj [("id", JStr "c"); ("rawId", js_bytes [1; 2]);
       ("type", JStr "public-key"); ("response", JObj [("attestationObject", js_bytes [3]);
         ("clientDataJSON", js_bytes [4])])]) |}.

Lemma passkey_upgrade_silent_witness :
  exists auth attestation resp t,
    let rq := finish_request "" auth attestation in
    w_trace (run demo_browser (offerPasskeyUpgrade true "" true "u")
               (page tt {["ggid_tenant_id" := "T"]})).2 = ObsFetch rq :: t
    /\ server demo_browser (w_trace (run demo_browser (offerPasskeyUpgrade true "" true "u")
               (page tt {["ggid_tenant_id" := "T"]})).2) rq = Some resp
    /\ rs_ok resp = true /\ hget "X-Tenant-ID" (rq_headers rq) = Some "".
Proof.
  destruct (passkey_upgrade_silent (S:=unit) true "" true "u" (fun _ => true) "h" "c") as (_ & _ & _ & H).
  apply (H demo_browser (page tt {["ggid_tenant_id" := "T"]})). vm_compute. reflexivity.
Defined.

Lemma register_settles_witness :
  exists w', run demo_browser (register (Build_UsePasskeyOptions "" None None) true "u")
               (page (Build_passkey_state false None false) ∅) = (Done true, w')
  /\ pk_success (w_st w') = true.
Proof.
  destruct (register_settles (Build_UsePasskeyOptions "" None None) true demo_browser
    (page (Build_passkey_state false None false) ∅) "u") as (b & w' & Hr & _ & Ht & _).
  vm_compute in Hr. injection Hr as <- <-.
  eexists. split; [vm_compute; reflexivity|]. apply Ht. reflexivity.
Defined.
