(* ===== verification/Hooks.v ===== *)
(** * The data hooks of the React SDK (sdk/react/src/use*.ts)

    Every hook keeps the same three pieces of React state, reads the token of the
    render it was created in, and offers one request per operation.  The shared
    pieces come first; each hook is a Module with one definition per callback.

    A callback closes over the render that made it: [c : client] is that render's
    token, base URL and tenant, and the callbacks that read the list of their
    render take it as the argument [captured].  [crashed] records an updater that
    threw, which React raises again while it renders. *)

From S2P Require Import Prelude JsValue JsString Json Effects.

Record hook := Hook {
  items : js;
  extra : js;
  isLoading : bool;
  h_error : option string;
  crashed : bool
}.

Definition hook_init : hook := Hook (JArr []) JNull false None false.

Definition setItems (v : js) : prog hook unit :=
  upd (fun s => Hook v (extra s) (isLoading s) (h_error s) (crashed s)).
Definition setExtra (v : js) : prog hook unit :=
  upd (fun s => Hook (items s) v (isLoading s) (h_error s) (crashed s)).
Definition setIsLoading (b : bool) : prog hook unit :=
  upd (fun s => Hook (items s) (extra s) b (h_error s) (crashed s)).
Definition setError (o : option string) : prog hook unit :=
  upd (fun s => Hook (items s) (extra s) (isLoading s) o (crashed s)).

(** [setItems((prev) => f(prev))]; [None] is an updater that throws. *)
Definition update_items (f : js -> option js) : prog hook unit :=
  upd (fun s => match f (items s) with
                | Some v => Hook v (extra s) (isLoading s) (h_error s) (crashed s)
                | None => Hook (items s) (extra s) (isLoading s) (h_error s) true
                end).

(** ** Array methods on values of unknown shape *)

Definition js_map (f : js -> option js) (v : js) : option js :=
  match v with JArr l => JArr <$> mapM f l | _ => None end.

Fixpoint filterM (f : js -> option bool) (l : list js) : option (list js) :=
  match l with
  | [] => Some []
  | x :: l' =>
      b ← f x;
      r ← filterM f l';
      Some (if b : bool then x :: r else r)
  end.

Definition js_filter (f : js -> option bool) (v : js) : option js :=
  match v with JArr l => JArr <$> filterM f l | _ => None end.

(** The own properties a spread copies. *)
Definition own_props (v : js) : list (string * js) :=
  match v with
  | JObj l => l
  | JArr l => imap (fun i x => (string_of_Z (Z.of_nat i), x)) l
  | JStr s => imap (fun i a => (string_of_Z (Z.of_nat i), JStr (String a "")))
                (String.list_ascii_of_string s)
  | _ => []
  end.

(** [{ ...v, k: x }]. *)
Definition with_prop (k : string) (x v : js) : js := JObj (assoc_set k x (own_props v)).

(** [v.id === id]. *)
Definition has_id (id : string) (v : js) : option bool :=
  (fun x => js_is_str x id) <$> prop v "id".

(** [prev.filter((x) => x.id !== id)]. *)
Definition without (id : string) : js -> option js :=
  js_filter (fun x => negb <$> has_id id x).

(** [prev.map((x) => x.id === id ? f(x) : x)]. *)
Definition map_id (id : string) (f : js -> js) : js -> option js :=
  js_map (fun x => b ← has_id id x; Some (if b : bool then f x else x)).

(** [{ ...d, k: !d.k }]. *)
Definition toggled (k : string) (d : js) : js :=
  with_prop k (JBool (negb (truthy (opt_prop d k)))) d.

Fixpoint find_loop (id : string) (l : list js) : option (option js) :=
  match l with
  | [] => Some None
  | x :: l' => b ← has_id id x; if b : bool then Some (Some x) else find_loop id l'
  end.

Definition not_a_function (m : string) : exn := type_error (m +:+ " is not a function").

(** [v.find((x) => x.id === id)]. *)
Definition find_by_id (v : js) (id : string) : prog hook (option js) :=
  match v with
  | JArr l => match find_loop id l with
              | Some o => Ret o
              | None => Throw (type_error "Cannot read properties of null (reading 'id')")
              end
  | _ => Throw (not_a_function "find")
  end.

(** ** The pieces every hook repeats *)

(** What a render hands to its callbacks. *)
Record client := Client { tok : option string; apiBaseUrl : string; tenantId : string }.

Definition render_client (token : option string) (l : gmap string string) : client :=
  Client token (default "" (l !! "ggid_api_base")) (default "" (l !! "ggid_tenant_id")).

Section Pieces.
Context (c : client).

Definition makeHeaders : list (string * string) :=
  [("Content-Type", "application/json");
   ("Authorization", "Bearer " +:+ to_str (js_of_opt (tok c)));
   ("X-Tenant-ID", tenantId c)].

Definition hook_request (m : method) (path : string) (body : option js) : request :=
  Request m (apiBaseUrl c +:+ path) makeHeaders (stringify <$> body).

Definition call (m : method) (path : string) (body : option js) : prog hook response :=
  fetch (hook_request m path body).

(** [`${msg} (${resp.status})`]. *)
Definition failed (msg : string) (r : response) : exn :=
  error (msg +:+ " (" +:+ string_of_Z (rs_status r) +:+ ")").

Definition ensure_ok (msg : string) (r : response) : prog hook unit :=
  if rs_ok r then mret tt else Throw (failed msg r).

Definition of_outcome {A} (o : outcome A) : prog hook A :=
  match o with Done a => Ret a | Raised x => Throw x end.

(** [data.k1 ?? data.k2 ?? []]. *)
Definition either (k1 k2 : string) (data : js) : outcome js :=
  match prop data k1 with
  | Some a => Done (js_nullish a (js_nullish (opt_prop data k2) (JArr [])))
  | None => Raised (type_error ("Cannot read properties of " +:+ to_str data
                                +:+ " (reading '" +:+ k1 +:+ "')"))
  end.

(** [data.k ?? []]. *)
Definition only (k : string) (data : js) : outcome js :=
  match prop data k with
  | Some a => Done (js_nullish a (JArr []))
  | None => Raised (type_error ("Cannot read properties of " +:+ to_str data
                                +:+ " (reading '" +:+ k +:+ "')"))
  end.

(** [catch (err) { setError(err.message); return d }]. *)
Definition or_else {A} (d : A) (p : prog hook A) : prog hook A :=
  try_catch p (fun err => setError (Some (e_message err));; mret d).

(** The list request of a hook, [clears] when its [catch] empties the list. *)
Definition fetch_list (rq : request) (msg : string) (pick : js -> outcome js)
    (clears : bool) : prog hook unit :=
  match tok c with
  | None => mret tt
  | Some t =>
      if String.eqb t "" then mret tt
      else
        setIsLoading true;;
        setError None;;
        finally (try_catch (
          resp ← fetch rq;
          ensure_ok msg resp;;
          data ← resp_json resp;
          v ← of_outcome (pick data);
          setItems v)
          (fun err => setError (Some (e_message err));;
                      if clears then setItems (JArr []) else mret tt))
        (setIsLoading false)
  end.

(** A change followed by [await refetch()], reported as a boolean. *)
Definition change (m : method) (path : string) (body : option js) (msg : string)
    (refetch : prog hook unit) : prog hook bool :=
  or_else false (
    resp ← call m path body;
    ensure_ok msg resp;;
    refetch;;
    mret true).

(** A change that returns what the server made, or [null]. *)
Definition create (path : string) (body : option js) (msg : string)
    (refetch : prog hook unit) : prog hook js :=
  or_else JNull (
    resp ← call POST path body;
    ensure_ok msg resp;;
    created ← resp_json resp;
    refetch;;
    mret created).

(** [useEffect(() => { if (isAuthenticated) fetchX(); })]. *)
Definition mount_effect (isAuthenticated : bool) (fetchX : prog hook unit) : prog hook unit :=
  if isAuthenticated then fetchX else mret tt.
End Pieces.

(** ** useUsers.ts *)

Module Users.
Section Users.
Context (c : client).

Definition fetchUsers : prog hook unit :=
  fetch_list c (hook_request c GET "/api/v1/users" None) "Failed to fetch users"
    (either "users" "items") true.

Definition createUser (input : js) : prog hook js :=
  create c "/api/v1/users" (Some input) "Failed to create user" fetchUsers.

Definition updateUser (id : string) (input : js) : prog hook bool :=
  change c PATCH ("/api/v1/users/" +:+ id) (Some input) "Failed to update user" fetchUsers.

Definition deleteUser (id : string) : prog hook bool :=
  change c DELETE ("/api/v1/users/" +:+ id) None "Failed to delete user" fetchUsers.

Definition assignRole (userId roleId : string) : prog hook bool :=
  change c POST ("/api/v1/users/" +:+ userId +:+ "/roles")
    (Some (JObj [("role_id", JStr roleId)])) "Failed to assign role" fetchUsers.

Definition removeRole (userId roleId : string) : prog hook bool :=
  change c DELETE ("/api/v1/users/" +:+ userId +:+ "/roles/" +:+ roleId) None
    "Failed to remove role" fetchUsers.
End Users.
End Users.

(** ** useSessions.ts *)

Module Sessions.
Section Sessions.
Context (c : client).

Definition fetchSessions : prog hook unit :=
  fetch_list c (hook_request c GET "/api/v1/security/sessions" None) "Failed to fetch sessions"
    (either "sessions" "items") true.

Definition revokeSession (id : string) : prog hook bool :=
  or_else false (
    resp ← call c DELETE ("/api/v1/security/sessions/" +:+ id) None;
    ensure_ok "Failed to revoke session" resp;;
    update_items (without id);;
    mret true).

(** [for (const s of others) { const ok = await revokeSession(s.id); if (ok) revoked++ }];
    a session is given by its [id] and [current]. *)
Fixpoint revoke_loop (others : list (string * bool)) (revoked : Z) : prog hook Z :=
  match others with
  | [] => mret revoked
  | s :: rest =>
      ok ← revokeSession s.1;
      revoke_loop rest (if ok : bool then revoked + 1 else revoked)%Z
  end.

Definition revokeAllOthers (sessions : list (string * bool)) : prog hook Z :=
  revoke_loop (List.filter (fun s => negb s.2) sessions) 0.
End Sessions.
End Sessions.

(** ** useAlerts.ts *)

Module Alerts.
Section Alerts.
Context (c : client).

Definition rules_path : string := "/api/v1/settings/alerting/rules".

Definition fetchRules : prog hook unit :=
  fetch_list c (hook_request c GET rules_path None) "Failed to fetch alert rules"
    (only "rules") true.

Definition createRule (input : js) : prog hook js :=
  create c rules_path (Some input) "Failed to create alert rule" fetchRules.

Definition updateRule (id : string) (input : js) : prog hook bool :=
  change c PATCH (rules_path +:+ "/" +:+ id) (Some input) "Failed to update alert rule"
    fetchRules.

Definition deleteRule (id : string) : prog hook bool :=
  change c DELETE (rules_path +:+ "/" +:+ id) None "Failed to delete alert rule" fetchRules.

Definition toggleRule (captured : js) (id : string) : prog hook bool :=
  rule ← find_by_id captured id;
  match rule with
  | None => mret false
  | Some r => updateRule id (JObj [("enabled", JBool (negb (truthy (opt_prop r "enabled"))))])
  end.

Definition testRule (id : string) : prog hook js :=
  or_else JNull (
    resp ← call c POST (rules_path +:+ "/" +:+ id +:+ "/test") None;
    ensure_ok "Failed to test alert rule" resp;;
    resp_json resp).

(** [opts?.ruleId] and [opts?.limit]. *)
Definition alertHistory (ruleId : option string) (limit : option Z) : prog hook js :=
  or_else (JArr []) (
    let params := match ruleId with
                  | Some r => if String.eqb r "" then [] else [("rule_id", r)]
                  | None => []
                  end ++ [("limit", string_of_Z (default 50%Z limit))] in
    resp ← call c GET ("/api/v1/settings/alerting/history?" +:+ URLSearchParams params) None;
    ensure_ok "Failed to fetch alert history" resp;;
    data ← resp_json resp;
    of_outcome (either "items" "history" data)).
End Alerts.
End Alerts.

(** ** useWebhooks.ts *)

Module Webhooks.
Section Webhooks.
Context (c : client).

Definition fetchWebhooks : prog hook unit :=
  fetch_list c (hook_request c GET "/api/v1/webhooks" None) "Failed to fetch webhooks"
    (either "webhooks" "items") true.

Definition createWebhook (input : js) : prog hook js :=
  create c "/api/v1/webhooks" (Some input) "Failed to create webhook" fetchWebhooks.

Definition updateWebhook (id : string) (input : js) : prog hook bool :=
  change c PATCH ("/api/v1/webhooks/" +:+ id) (Some input) "Failed to update webhook"
    fetchWebhooks.

Definition deleteWebhook (id : string) : prog hook bool :=
  change c DELETE ("/api/v1/webhooks/" +:+ id) None "Failed to delete webhook" fetchWebhooks.

Record delivery := Delivery { success : bool; statusCode : js; message : js }.

Definition testWebhook (id : string) : prog hook delivery :=
  try_catch (
    resp ← call c POST ("/api/v1/webhooks/" +:+ id +:+ "/test") None;
    data ← try_catch (resp_json resp) (fun _ => mret (JObj []));
    code ← get data "status_code";
    msg ← get data "message";
    mret (Delivery (rs_ok resp) (js_nullish code (JNum (rs_status resp)))
            (js_nullish msg (JStr (if rs_ok resp then "Delivery successful"
                                   else "Delivery failed")))))
    (fun err => mret (Delivery false (JNum 0) (JStr (e_message err)))).
End Webhooks.
End Webhooks.

(** ** useGroups.ts *)

Module Groups.
Section Groups.
Context (c : client).

Definition fetchGroups : prog hook unit :=
  fetch_list c (hook_request c GET "/api/v1/groups" None) "Failed to fetch groups"
    (either "groups" "items") true.

Definition createGroup (input : js) : prog hook js :=
  create c "/api/v1/groups" (Some input) "Failed to create group" fetchGroups.

Definition updateGroup (id : string) (input : js) : prog hook bool :=
  change c PATCH ("/api/v1/groups/" +:+ id) (Some input) "Failed to update group" fetchGroups.

Definition deleteGroup (id : string) : prog hook bool :=
  change c DELETE ("/api/v1/groups/" +:+ id) None "Failed to delete group" fetchGroups.

Definition getMembers (groupId : string) : prog hook js :=
  or_else (JArr []) (
    resp ← call c GET ("/api/v1/groups/" +:+ groupId +:+ "/members") None;
    ensure_ok "Failed to fetch members" resp;;
    data ← resp_json resp;
    of_outcome (either "members" "items" data)).

(** No list to fetch again: the members are not kept by the hook. *)
Definition addMember (groupId userId : string) (role : option string) : prog hook bool :=
  change c POST ("/api/v1/groups/" +:+ groupId +:+ "/members")
    (Some (JObj [("user_id", JStr userId); ("role", JStr (default "member" role))]))
    "Failed to add member" (mret tt).

Definition removeMember (groupId userId : string) : prog hook bool :=
  change c DELETE ("/api/v1/groups/" +:+ groupId +:+ "/members/" +:+ userId) None
    "Failed to remove member" (mret tt).
End Groups.
End Groups.

(** ** useNotifications.ts: the preferences are the [extra] state *)

Module Notifications.
Section Notifications.
Context (c : client).

Definition fetchNotifications : prog hook unit :=
  fetch_list c (hook_request c GET "/api/v1/notifications" None)
    "Failed to fetch notifications" (either "notifications" "items") true.

Definition read_item : js -> js := with_prop "read" (JBool true).

(** The list changes before the request, and the answer only decides the result. *)
Definition optimistic (f : js -> option js) (m : method) (path : string) : prog hook bool :=
  update_items f;;
  try_catch (resp ← call c m path None; mret (rs_ok resp)) (fun _ => mret false).

Definition markRead (id : string) : prog hook bool :=
  optimistic (map_id id read_item) POST ("/api/v1/notifications/" +:+ id +:+ "/read").

Definition markAllRead : prog hook bool :=
  optimistic (js_map (fun n => Some (read_item n))) POST "/api/v1/notifications/read-all".

Definition deleteNotification (id : string) : prog hook bool :=
  optimistic (without id) DELETE ("/api/v1/notifications/" +:+ id).

Definition fetchPreferences : prog hook unit :=
  or_else tt (
    resp ← call c GET "/api/v1/notifications/preferences" None;
    if rs_ok resp then data ← resp_json resp; setExtra data else mret tt).

Definition updatePreferences (prefs : js) : prog hook bool :=
  try_catch (
    resp ← call c PUT "/api/v1/notifications/preferences" (Some prefs);
    if rs_ok resp then data ← resp_json resp; setExtra data;; mret true else mret false)
    (fun _ => mret false).
End Notifications.

(** [notifications.filter((n) => !n.read).length]; [None] when rendering throws. *)
Definition unreadCount (notifications : js) : option nat :=
l ← js_filter (fun n => (fun r => negb (truthy r)) <$> prop n "read") notifications;
Some (length (elements_of l)).
End Notifications.

(** ** useAccessRequests.ts *)

Module AccessRequests.
Section AccessRequests.
Context (c : client).

(** This hook writes its headers out, without a content type on the list request. *)
Definition fetchRequests (statusFilter : option string) : prog hook unit :=
  let params := match statusFilter with
                | Some s => if String.eqb s "" then [] else [("status", s)]
                | None => []
                end in
  fetch_list c
    (Request GET (apiBaseUrl c +:+ "/api/v1/access-requests?" +:+ URLSearchParams params)
       [("Authorization", "Bearer " +:+ to_str (js_of_opt (tok c)));
        ("X-Tenant-ID", tenantId c)] None)
    "Failed to fetch access requests" (either "requests" "items") true.

(** [if (!tok) return d]. *)
Definition signed_in {A} (d : A) (p : prog hook A) : prog hook A :=
  match tok c with
  | Some t => if String.eqb t "" then mret d else p
  | None => mret d
  end.

Definition createRequest (statusFilter : option string) (input : js) : prog hook js :=
  signed_in JNull
    (create c "/api/v1/access-requests" (Some input) "Failed to create access request"
       (fetchRequests statusFilter)).

Definition approveRequest (statusFilter : option string) (id : string) (comment : js)
    : prog hook bool :=
  signed_in false
    (change c POST ("/api/v1/access-requests/" +:+ id +:+ "/approve")
       (Some (JObj [("comment", comment)])) "Failed to approve" (fetchRequests statusFilter)).

Definition rejectRequest (statusFilter : option string) (id : string) (comment : js)
    : prog hook bool :=
  signed_in false
    (change c POST ("/api/v1/access-requests/" +:+ id +:+ "/reject")
       (Some (JObj [("comment", comment)])) "Failed to reject" (fetchRequests statusFilter)).
End AccessRequests.
End AccessRequests.

(** ** useClientCerts.ts: the list request keeps the old list when it fails *)

Module ClientCerts.
Section ClientCerts.
Context (c : client).

Definition fetchCerts (clientId : option string) : prog hook unit :=
  let q := match clientId with
           | Some i => if String.eqb i "" then "" else "?client_id=" +:+ encodeURIComponent i
           | None => ""
           end in
  fetch_list c (hook_request c GET ("/api/v1/oauth/client-certs" +:+ q) None) "Failed"
    Done false.

Definition rotate (certId : string) : prog hook js :=
  create c ("/api/v1/oauth/client-certs/" +:+ certId +:+ "/rotate") None "Rotate failed"
    (fetchCerts None).

Definition revoke (certId : string) : prog hook bool :=
  or_else false (
    resp ← call c POST ("/api/v1/oauth/client-certs/" +:+ certId +:+ "/revoke") None;
    ensure_ok "Revoke failed" resp;;
    update_items (map_id certId (with_prop "status" (JStr "revoked")));;
    mret true).

Definition toggleAutoRotate (captured : js) (certId : string) : prog hook bool :=
  or_else false (
    cert ← find_by_id captured certId;
    match cert with
    | None => mret false
    | Some d =>
        resp ← call c PATCH ("/api/v1/oauth/client-certs/" +:+ certId)
                 (Some (JObj [("auto_rotate", JBool (negb (truthy (opt_prop d "auto_rotate"))))]));
        ensure_ok "Toggle failed" resp;;
        update_items (map_id certId (toggled "auto_rotate"));;
        mret true
    end).
End ClientCerts.
End ClientCerts.

(** ** useTrustedDevices.ts *)

Module TrustedDevices.
Section TrustedDevices.
Context (c : client).

Definition device_path (id : string) : string := "/api/v1/auth/trusted-devices/" +:+ id.

Definition fetchDevices : prog hook unit :=
  fetch_list c (hook_request c GET "/api/v1/auth/trusted-devices" None) "Failed" Done false.

Definition removeTrust (id : string) : prog hook bool :=
  or_else false (
    resp ← call c DELETE (device_path id) None;
    ensure_ok "Remove failed" resp;;
    update_items (without id);;
    mret true).

Definition bypass_body (dev : js) : js :=
  JObj [("mfa_bypass_enabled", JBool (negb (truthy (opt_prop dev "mfa_bypass_enabled"))))].

(** The value sent comes from the captured list, the flip is of the current one. *)
Definition toggleMfaBypass (captured : js) (id : string) : prog hook bool :=
  dev ← find_by_id captured id;
  match dev with
  | None => mret false
  | Some d =>
      or_else false (
        resp ← call c PATCH (device_path id) (Some (bypass_body d));
        ensure_ok "Toggle failed" resp;;
        update_items (map_id id (toggled "mfa_bypass_enabled"));;
        mret true)
  end.
End TrustedDevices.
End TrustedDevices.

(** ** useApprovals.ts: the history is the [extra] state *)

Module Approvals.
Section Approvals.
Context (c : client).

Definition approvals_path : string := "/api/v1/policy/approvals".

Definition fetchPending : prog hook unit :=
  fetch_list c (hook_request c GET (approvals_path +:+ "?status=pending") None) "Failed"
    Done false.

Definition fetchHistory : prog hook unit :=
  match tok c with
  | None => mret tt
  | Some t =>
      if String.eqb t "" then mret tt
      else or_else tt (
        resp ← call c GET (approvals_path +:+ "?status=completed") None;
        ensure_ok "Failed" resp;;
        data ← resp_json resp;
        setExtra data)
  end.

Definition approve (id : string) (comment : js) : prog hook bool :=
  change c POST (approvals_path +:+ "/" +:+ id +:+ "/approve")
    (Some (JObj [("comment", comment)])) "Approve failed" fetchPending.

Definition reject (id : string) (comment : js) : prog hook bool :=
  change c POST (approvals_path +:+ "/" +:+ id +:+ "/reject")
    (Some (JObj [("comment", comment)])) "Reject failed" fetchPending.

Definition cancel (id : string) : prog hook bool :=
  change c POST (approvals_path +:+ "/" +:+ id +:+ "/cancel") None "Cancel failed" fetchPending.
End Approvals.
End Approvals.

(** ** useTenants.ts *)

Module Tenants.
Section Tenants.
Context (c : client).

Definition fetchTenants : prog hook unit :=
  fetch_list c (hook_request c GET "/api/v1/tenants" None) "Failed to fetch tenants"
    (either "tenants" "items") true.

Definition createTenant (input : js) : prog hook js :=
  create c "/api/v1/tenants" (Some input) "Failed to create tenant" fetchTenants.

Definition updateTenant (id : string) (input : js) : prog hook bool :=
  change c PATCH ("/api/v1/tenants/" +:+ id) (Some input) "Failed to update tenant" fetchTenants.

Definition deleteTenant (id : string) : prog hook bool :=
  change c DELETE ("/api/v1/tenants/" +:+ id) None "Failed to delete tenant" fetchTenants.

Definition updateBranding (id : string) (branding : js) : prog hook bool :=
  change c PUT ("/api/v1/tenants/" +:+ id +:+ "/branding") (Some branding)
    "Failed to update branding" fetchTenants.
End Tenants.
End Tenants.

(** ** useOrgs.ts *)

Module Orgs.
Section Orgs.
Context (c : client).

Definition fetchOrgs : prog hook unit :=
  fetch_list c (hook_request c GET "/api/v1/orgs" None) "Failed to fetch organizations"
    (either "orgs" "items") true.

Definition createOrg (input : js) : prog hook js :=
  create c "/api/v1/orgs" (Some input) "Failed to create organization" fetchOrgs.

Definition updateOrg (id : string) (input : js) : prog hook bool :=
  change c PATCH ("/api/v1/orgs/" +:+ id) (Some input) "Failed to update organization" fetchOrgs.

Definition deleteOrg (id : string) : prog hook bool :=
  change c DELETE ("/api/v1/orgs/" +:+ id) None "Failed to delete organization" fetchOrgs.

Definition getOrgTree : prog hook js :=
  or_else (JArr []) (
    resp ← call c GET "/api/v1/orgs/tree" None;
    ensure_ok "Failed to fetch org tree" resp;;
    data ← resp_json resp;
    of_outcome (either "orgs" "tree" data)).
End Orgs.
End Orgs.

(** ** useFeatureFlags.ts *)

Module FeatureFlags.
Section FeatureFlags.
Context (c : client).

Definition fetchFlags : prog hook unit :=
  fetch_list c (hook_request c GET "/api/v1/feature-flags" None) "Failed to fetch feature flags"
    (either "flags" "items") true.

Definition createFlag (input : js) : prog hook js :=
  create c "/api/v1/feature-flags" (Some input) "Failed to create flag" fetchFlags.

Definition updateFlag (id : string) (input : js) : prog hook bool :=
  change c PATCH ("/api/v1/feature-flags/" +:+ id) (Some input) "Failed to update flag"
    fetchFlags.

Definition deleteFlag (id : string) : prog hook bool :=
  change c DELETE ("/api/v1/feature-flags/" +:+ id) None "Failed to delete flag" fetchFlags.

Definition toggleFlag (captured : js) (id : string) : prog hook bool :=
  flag ← find_by_id captured id;
  match flag with
  | None => mret false
  | Some f => updateFlag id (JObj [("enabled", JBool (negb (truthy (opt_prop f "enabled"))))])
  end.

Definition setTenantOverride (flagId tenantId : string) (value : js) : prog hook bool :=
  change c PUT ("/api/v1/feature-flags/" +:+ flagId +:+ "/tenants/" +:+ tenantId)
    (Some (JObj [("value", value)])) "Failed to set override" fetchFlags.
End FeatureFlags.

(** [flags.find((f) => f.key === key)]; [None] when an element before it is [null]. *)
Fixpoint find_key (key : string) (l : list js) : option (option js) :=
match l with
| [] => Some None
| f :: l' =>
    k ← prop f "key";
    if js_is_str k key then Some (Some f) else find_key key l'
end.

(** The value [isEnabled(key)] returns for the flags of its render. *)
Definition isEnabled (currentTenantId : string) (flags : list js) (key : string) : option js :=
flag ← find_key key flags;
match flag with
| None => Some (JBool false)
| Some f =>
    match opt_prop (opt_prop f "per_tenant") currentTenantId with
    | JUndef => Some (opt_prop f "enabled")
    | override => Some (JBool (truthy override))
    end
end.
End FeatureFlags.

(** ** useMFA.ts: the list is the credentials, the [extra] state the status *)

Module MFA.
Section MFA.
Context (c : client).

(** The two requests go out together; this hook does not clear the previous error. *)
Definition fetchStatus : prog hook unit :=
  match tok c with
  | None => mret tt
  | Some t =>
      if String.eqb t "" then mret tt
      else
        setIsLoading true;;
        finally (try_catch (
          rs ← fetch_all [hook_request c GET "/api/v1/mfa/status" None;
                          hook_request c GET "/api/v1/webauthn/credentials" None];
          match rs with
          | [sRes; cRes] =>
              (if rs_ok sRes then d ← resp_json sRes; setExtra d else mret tt);;
              (if rs_ok cRes then
                 cData ← resp_json cRes;
                 v ← of_outcome (either "credentials" "items" cData);
                 setItems v
               else mret tt)
          | _ => mret tt
          end)
          (fun err => setError (Some (e_message err))))
        (setIsLoading false)
  end.

Definition enrollTOTP : prog hook js :=
  or_else JNull (
    resp ← call c POST "/api/v1/mfa/totp/enroll" None;
    ensure_ok "Enroll failed" resp;;
    resp_json resp).

(** A change whose failure is only its result. *)
Definition quiet_change (m : method) (path : string) (body : option js) : prog hook bool :=
  try_catch (
    resp ← call c m path body;
    if rs_ok resp then fetchStatus;; mret true else mret false)
    (fun _ => mret false).

Definition verifyTOTP (code : string) : prog hook bool :=
  quiet_change POST "/api/v1/mfa/totp/verify" (Some (JObj [("code", JStr code)])).

Definition disableTOTP : prog hook bool := quiet_change DELETE "/api/v1/mfa/totp" None.

(** [toISOString] renders the clock. *)
Definition generateBackupCodes (toISOString : Z -> string) : prog hook js :=
  or_else JNull (
    resp ← call c POST "/api/v1/mfa/backup-codes" None;
    ensure_ok "Generate failed" resp;;
    data ← resp_json resp;
    fetchStatus;;
    codes ← get data "codes";
    at_ ← get data "generated_at";
    generated_at ← (if is_nullish at_ then t ← now; mret (JStr (toISOString t)) else mret at_);
    mret (JObj [("codes", js_nullish codes (JArr [])); ("generated_at", generated_at)])).

Definition registerWebAuthn (name : string) : prog hook bool :=
  quiet_change POST "/api/v1/webauthn/register" (Some (JObj [("name", JStr name)])).

Definition registerPlatformAuthenticator (isPlatformSupported : bool) (name : string)
    : prog hook bool :=
  if negb isPlatformSupported then
    setError (Some "Platform authenticator not available on this device");; mret false
  else
    quiet_change POST "/api/v1/webauthn/register"
      (Some (JObj [("name", JStr name); ("attachment", JStr "platform");
                   ("user_verification", JStr "required")])).

Definition unregisterWebAuthn (id : string) : prog hook bool :=
  quiet_change DELETE ("/api/v1/webauthn/credentials/" +:+ id) None.
End MFA.

Definition is_platform (cr : js) : bool :=
js_is_str (opt_prop cr "platform") "platform" || js_is_str (opt_prop cr "device_type") "platform".

(** Of credentials that are objects. *)
Definition platformCredentials (credentials : list js) : list js :=
List.filter is_platform credentials.
Definition crossPlatformCredentials (credentials : list js) : list js :=
List.filter (fun cr => negb (js_is_str (opt_prop cr "platform") "platform")
                       && negb (js_is_str (opt_prop cr "device_type") "platform")) credentials.
End MFA.

(** ** The shared pieces, run *)

(** What a list request's answer amounts to. *)
Definition fetch_outcome (msg : string) (pick : js -> outcome js) (answer : option response)
    : outcome js :=
  match answer with
  | None => Raised network_error
  | Some r => if rs_ok r
              then match JSON_parse (rs_body r) with
                   | Some d => pick d
                   | None => Raised syntax_error
                   end
              else Raised (failed msg r)
  end.

Definition settle (clears : bool) (o : outcome js) (s : hook) : hook :=
  match o with
  | Done v => Hook v (extra s) false None (crashed s)
  | Raised x => Hook (if clears then JArr [] else items s) (extra s) false
                  (Some (e_message x)) (crashed s)
  end.

Section Pieces.
Context (e : env) (c : client).

Lemma run_of_outcome {A} (o : outcome A) w : run e (of_outcome o) w = (o, w).
Proof. by destruct o. Qed.

Lemma run_ensure_ok msg r w :
  run e (ensure_ok msg r) w = (if rs_ok r then Done tt else Raised (failed msg r), w).
Proof. unfold ensure_ok. by destruct (rs_ok r). Qed.

Lemma run_fetch_list rq msg pick clears w t :
  tok c = Some t -> t <> "" ->
  let w1 := log (ObsFetch rq) w in
  run e (fetch_list c rq msg pick clears) w
  = (Done tt, set_st (settle clears (fetch_outcome msg pick (server e (w_trace w1) rq))) w1).
Proof.
  intros Ht Hne. unfold fetch_list, setIsLoading, setError, setItems.
  rewrite Ht, eqb_str_false by done. run_steps. autorewrite with world.
  destruct w as [s l se sc t0]. cbn [set_st log w_trace w_st].
  destruct (server e _ rq) as [r|]; cbn match.
  - run_steps. rewrite run_ensure_ok. unfold fetch_outcome. destruct (rs_ok r); run_steps.
    + destruct (JSON_parse _) as [d|]; run_steps.
      * rewrite run_of_outcome. destruct (pick d); run_steps; [done|].
        by destruct clears; run_steps.
      * by destruct clears; run_steps.
    + by destruct clears; run_steps.
  - by destruct clears; run_steps.
Qed.

Lemma no_throw_fetch_list rq msg pick clears : no_throw (fetch_list c rq msg pick clears).
Proof.
  unfold fetch_list. destruct (tok c) as [t|]; [|done]. destruct (String.eqb t ""); [done|].
  apply no_throw_bind; [done|]. intros _. apply no_throw_bind; [done|]. intros _.
  apply no_throw_finally; [|done]. apply no_throw_try. intros x.
  apply no_throw_bind; [done|]. intros _. by destruct clears.
Qed.

(** A change that is refused costs one request and keeps the list; one that is
    accepted is a success whatever becomes of the list request after it. *)
Lemma run_change m path body msg refetch w :
  no_throw refetch ->
  let rq := hook_request c m path body in
  let w1 := log (ObsFetch rq) w in
  run e (change c m path body msg refetch) w
  = match server e (w_trace w1) rq with
    | Some r =>
        if rs_ok r then (Done true, (run e refetch w1).2)
        else (Done false, (run e (setError (Some (e_message (failed msg r)))) w1).2)
    | None => (Done false, (run e (setError (Some (e_message network_error))) w1).2)
    end.
Proof.
  intros Hn rq w1. unfold change, or_else, call, setError. fold rq. run_steps. fold w1.
  destruct (server e (w_trace w1) rq) as [r|]; cbn match; run_steps; [|done].
  rewrite run_ensure_ok. destruct (rs_ok r); run_steps; [|done].
  destruct (no_throw_run e refetch w1 Hn) as (? & w' & ->). by run_steps.
Qed.
End Pieces.

#[export] Hint Rewrite run_of_outcome run_ensure_ok : run.

(** ** The operations, tabulated *)

Definition accepted (answer : option response) : bool :=
  match answer with Some r => rs_ok r | None => false end.

(** A list request: where it goes and which members of the body are looked for
    (none: the body itself is taken). *)
Record listing := Listing {
  ls_op : prog hook unit;
  ls_path : string;
  ls_keys : list string;
  ls_clears : bool
}.

Definition list_in (keys : list string) (d : js) : option js :=
  match keys with
  | [] => Some d
  | _ => if is_nullish d then None
         else Some (foldr (fun k v => js_nullish (opt_prop d k) v) (JArr []) keys)
  end.

Definition access_query (filter : option string) : string :=
  match filter with
  | Some f => if String.eqb f "" then "" else URLSearchParams [("status", f)]
  | None => ""
  end.

Definition cert_query (clientId : option string) : string :=
  match clientId with
  | Some i => if String.eqb i "" then "" else "?client_id=" +:+ encodeURIComponent i
  | None => ""
  end.

Definition listings (c : client) (filter clientId : option string) : list listing := [
  Listing (Users.fetchUsers c) "/api/v1/users" ["users"; "items"] true;
  Listing (Sessions.fetchSessions c) "/api/v1/security/sessions" ["sessions"; "items"] true;
  Listing (Alerts.fetchRules c) "/api/v1/settings/alerting/rules" ["rules"] true;
  Listing (Webhooks.fetchWebhooks c) "/api/v1/webhooks" ["webhooks"; "items"] true;
  Listing (Groups.fetchGroups c) "/api/v1/groups" ["groups"; "items"] true;
  Listing (Notifications.fetchNotifications c) "/api/v1/notifications"
    ["notifications"; "items"] true;
  Listing (AccessRequests.fetchRequests c filter)
    ("/api/v1/access-requests?" +:+ access_query filter) ["requests"; "items"] true;
  Listing (Tenants.fetchTenants c) "/api/v1/tenants" ["tenants"; "items"] true;
  Listing (Orgs.fetchOrgs c) "/api/v1/orgs" ["orgs"; "items"] true;
  Listing (FeatureFlags.fetchFlags c) "/api/v1/feature-flags" ["flags"; "items"] true;
  Listing (ClientCerts.fetchCerts c clientId)
    ("/api/v1/oauth/client-certs" +:+ cert_query clientId) [] false;
  Listing (TrustedDevices.fetchDevices c) "/api/v1/auth/trusted-devices" [] false;
  Listing (Approvals.fetchPending c) "/api/v1/policy/approvals?status=pending" [] false
].

(** What an answer sets the list to: the first member named that is neither missing nor
    [null], [[]] when there is none, or the whole body; [None]: it is no success, or its body
    no JSON, or [null] where a member is looked for. *)
Definition answered_list (keys : list string) (answer : option response) : option js :=
  match answer with
  | Some r => if rs_ok r then JSON_parse (rs_body r) ≫= list_in keys else None
  | None => None
  end.

(** A change: the request it makes and the list request it repeats, if it repeats one. *)
Record change_op := Change {
  ch_op : prog hook bool;
  ch_method : method;
  ch_path : string;
  ch_body : option js;
  ch_refetch : option (prog hook unit);
  ch_guarded : bool
}.

Definition changes (c : client) (filter role : option string) (id id2 : string) (input : js)
    : list change_op :=
  let users := Some (Users.fetchUsers c) in
  let rules := Some (Alerts.fetchRules c) in
  let hooks := Some (Webhooks.fetchWebhooks c) in
  let groups := Some (Groups.fetchGroups c) in
  let requests := Some (AccessRequests.fetchRequests c filter) in
  let pending := Some (Approvals.fetchPending c) in
  let u := "/api/v1/users/" +:+ id in
  let r := "/api/v1/settings/alerting/rules/" +:+ id in
  let h := "/api/v1/webhooks/" +:+ id in
  let g := "/api/v1/groups/" +:+ id in
  let a := "/api/v1/access-requests/" +:+ id in
  let p := "/api/v1/policy/approvals/" +:+ id in
  let tenants := Some (Tenants.fetchTenants c) in
  let orgs := Some (Orgs.fetchOrgs c) in
  let flags := Some (FeatureFlags.fetchFlags c) in
  let t := "/api/v1/tenants/" +:+ id in
  let o := "/api/v1/orgs/" +:+ id in
  let f := "/api/v1/feature-flags/" +:+ id in
  let comment := Some (JObj [("comment", input)]) in
  [Change (Users.updateUser c id input) PATCH u (Some input) users false;
   Change (Users.deleteUser c id) DELETE u None users false;
   Change (Users.assignRole c id id2) POST (u +:+ "/roles")
     (Some (JObj [("role_id", JStr id2)])) users false;
   Change (Users.removeRole c id id2) DELETE (u +:+ "/roles/" +:+ id2) None users false;
   Change (Alerts.updateRule c id input) PATCH r (Some input) rules false;
   Change (Alerts.deleteRule c id) DELETE r None rules false;
   Change (Webhooks.updateWebhook c id input) PATCH h (Some input) hooks false;
   Change (Webhooks.deleteWebhook c id) DELETE h None hooks false;
   Change (Groups.updateGroup c id input) PATCH g (Some input) groups false;
   Change (Groups.deleteGroup c id) DELETE g None groups false;
   Change (Groups.addMember c id id2 role) POST (g +:+ "/members")
     (Some (JObj [("user_id", JStr id2); ("role", JStr (default "member" role))])) None false;
   Change (Groups.removeMember c id id2) DELETE (g +:+ "/members/" +:+ id2) None None false;
   Change (Tenants.updateTenant c id input) PATCH t (Some input) tenants false;
   Change (Tenants.deleteTenant c id) DELETE t None tenants false;
   Change (Tenants.updateBranding c id input) PUT (t +:+ "/branding") (Some input) tenants false;
   Change (Orgs.updateOrg c id input) PATCH o (Some input) orgs false;
   Change (Orgs.deleteOrg c id) DELETE o None orgs false;
   Change (FeatureFlags.updateFlag c id input) PATCH f (Some input) flags false;
   Change (FeatureFlags.deleteFlag c id) DELETE f None flags false;
   Change (FeatureFlags.setTenantOverride c id id2 input) PUT (f +:+ "/tenants/" +:+ id2)
     (Some (JObj [("value", input)])) flags false;
   Change (AccessRequests.approveRequest c filter id input) POST (a +:+ "/approve")
     comment requests true;
   Change (AccessRequests.rejectRequest c filter id input) POST (a +:+ "/reject")
     comment requests true;
   Change (Approvals.approve c id input) POST (p +:+ "/approve") comment pending false;
   Change (Approvals.reject c id input) POST (p +:+ "/reject") comment pending false;
   Change (Approvals.cancel c id) POST (p +:+ "/cancel") None pending false].

(** ** Properties *)

Lemma answered_list_outcome msg pick keys answer :
  (forall d, match list_in keys d with
             | Some v => pick d = Done v
             | None => exists x, pick d = Raised x
             end) ->
  match answered_list keys answer with
  | Some v => fetch_outcome msg pick answer = Done v
  | None => exists x, fetch_outcome msg pick answer = Raised x
  end.
Proof.
  intros Hp. unfold answered_list, fetch_outcome. destruct answer as [r|]; [|eauto].
  destruct (rs_ok r); [|eauto]. destruct (JSON_parse _) as [d|]; cbn; [|eauto]. apply Hp.
Qed.

Lemma either_list k1 k2 d :
  match list_in [k1; k2] d with
  | Some v => either k1 k2 d = Done v
  | None => exists x, either k1 k2 d = Raised x
  end.
Proof. unfold either, opt_prop. destruct d; cbn; eauto. Qed.

Lemma only_list k d :
  match list_in [k] d with
  | Some v => only k d = Done v
  | None => exists x, only k d = Raised x
  end.
Proof. unfold only, opt_prop. destruct d; cbn; eauto. Qed.

(** How a list request is one of the table: the request and the pick it makes. *)
Lemma listings_shape c filter clientId l :
  In l (listings c filter clientId) ->
  exists rq msg pick, ls_op l = fetch_list c rq msg pick (ls_clears l)
  /\ rq_method rq = GET /\ rq_url rq = apiBaseUrl c +:+ ls_path l /\ rq_body rq = None
  /\ In ("Authorization", "Bearer " +:+ to_str (js_of_opt (tok c))) (rq_headers rq)
  /\ In ("X-Tenant-ID", tenantId c) (rq_headers rq)
  /\ forall d, match list_in (ls_keys l) d with
               | Some v => pick d = Done v
               | None => exists x, pick d = Raised x
               end.
Proof.
  intros H. repeat destruct H as [<-|H]; [..|done];
    do 3 eexists; (split; [reflexivity|]); cbn [rq_method rq_url rq_body rq_headers hook_request ls_path ls_keys];
    (split; [done|]);
    (split; [|split; [done|]; split; [cbn; by auto|]; split; [cbn; by auto|];
      intros d; first [apply either_list | apply only_list | done]]);
    try done.
  destruct filter as [f|]; [|done]. cbn. by destruct (String.eqb f "").
Qed.

(** C25. The list requests of the hooks, those of [listings].  Without a token nothing happens.
    With one it is one GET of the hook's path with that token and the tenant; it never throws,
    [isLoading] is false again and the rest of the state is kept.  The list becomes what a
    successful answer names, unchecked: the first of the members asked for that is neither
    missing nor [null], [[]] when there is none, or the whole body, and the error is cleared.
    No connection, a refusal, a body that is no JSON, or [null] where a member is asked for,
    is an error message, with the list emptied by the hooks that empty it and kept by the
    others. *)
Theorem hooks_fetch (e : env) (c : client) (filter clientId : option string) (l : listing) w :
  In l (listings c filter clientId) ->
  (tok c = None \/ tok c = Some "" -> run e (ls_op l) w = (Done tt, w))
  /\ forall t, tok c = Some t -> t <> "" ->
     exists rq w', rq_method rq = GET /\ rq_url rq = apiBaseUrl c +:+ ls_path l /\ rq_body rq = None
     /\ In ("Authorization", "Bearer " +:+ t) (rq_headers rq) /\ In ("X-Tenant-ID", tenantId c) (rq_headers rq)
     /\ run e (ls_op l) w = (Done tt, w')
     /\ w_trace w' = ObsFetch rq :: w_trace w
     /\ isLoading (w_st w') = false
     /\ extra (w_st w') = extra (w_st w) /\ crashed (w_st w') = crashed (w_st w)
     /\ match answered_list (ls_keys l) (server e (ObsFetch rq :: w_trace w) rq) with
        | Some v => items (w_st w') = v /\ h_error (w_st w') = None
        | None => items (w_st w') = (if ls_clears l then JArr [] else items (w_st w))
                  /\ is_Some (h_error (w_st w'))
        end.
Proof.
  intros Hin. destruct (listings_shape c filter clientId l Hin) as (rq & msg & pick & -> & Hm & Hu & Hb & Ha & Ht & Hp).
  split; [unfold fetch_list; by intros [-> | ->]|]. intros t Hc Hne. rewrite Hc in Ha. exists rq.
  rewrite (run_fetch_list e c rq msg pick (ls_clears l) w t Hc Hne).
  eexists. do 6 (split; [done|]). autorewrite with world. split; [done|].
  pose proof (answered_list_outcome msg pick (ls_keys l)
                (server e (ObsFetch rq :: w_trace w) rq) Hp) as Hl.
  destruct (answered_list _ _) as [v|].
  - rewrite Hl. by destruct w.
  - destruct Hl as [x ->]. destruct w. cbn. eauto.
Qed.

Lemma changes_shape c filter role id id2 input t ch :
  In ch (changes c filter role id id2 input) ->
  (ch_guarded ch = true -> tok c = Some t /\ t <> "") ->
  exists msg, ch_op ch = change c (ch_method ch) (ch_path ch) (ch_body ch) msg (default (mret tt) (ch_refetch ch))
  /\ no_throw (default (mret tt) (ch_refetch ch)).
Proof.
  intros H Hg.
  repeat destruct H as [<-|H]; [..|done];
    unfold AccessRequests.approveRequest, AccessRequests.rejectRequest, AccessRequests.signed_in;
    cbn [ch_guarded ch_op] in *;
    try (destruct (Hg eq_refl) as [-> Hne]; rewrite (eqb_str_false _ _ Hne));
    eexists; (split; [reflexivity|]); first [apply no_throw_fetch_list | done].
Qed.

Lemma changes_guarded (e : env) c filter role id id2 input ch w :
  In ch (changes c filter role id id2 input) -> ch_guarded ch = true -> tok c = None \/ tok c = Some "" ->
  run e (ch_op ch) w = (Done false, w).
Proof.
  intros H Hg Ht. repeat destruct H as [<-|H]; [..|done]; try discriminate Hg;
    unfold ch_op, AccessRequests.approveRequest, AccessRequests.rejectRequest, AccessRequests.signed_in;
    by destruct Ht as [-> | ->].
Qed.

(** *** Local lists *)

Section Local.
Context (c : client) (id : string).

(** The three optimistic operations with the change each makes to the list. *)
Definition optimistics : list (prog hook bool * (js -> option js) * method * string) := [
  (Notifications.markRead c id, map_id id Notifications.read_item, POST,
   "/api/v1/notifications/" +:+ id +:+ "/read");
  (Notifications.markAllRead c, js_map (fun n => Some (Notifications.read_item n)), POST,
   "/api/v1/notifications/read-all");
  (Notifications.deleteNotification c id, without id, DELETE,
   "/api/v1/notifications/" +:+ id)
].
End Local.

(** The optimistic operations of useNotifications change the list whatever the
    server says: the result reports its answer, one request is made, but a refused or
    undelivered change stays in the list and no error is set. *)
Lemma optimistic_never_undone (e : env) (c : client) id op f m path l l' w :
  In (op, f, m, path) (optimistics c id) ->
  items (w_st w) = l -> f l = Some l' ->
  let rq := hook_request c m path None in
  exists w', run e op w = (Done (accepted (server e (ObsFetch rq :: w_trace w) rq)), w')
  /\ items (w_st w') = l' /\ h_error (w_st w') = h_error (w_st w)
  /\ w_trace w' = ObsFetch rq :: w_trace w.
Proof.
  intros Hin Hl Hf rq.
  assert (op = Notifications.optimistic c f m path) as ->
    by (repeat destruct Hin as [[= <- <- <- <-]|Hin]; done).
  unfold Notifications.optimistic, update_items, call. fold rq. run_steps.
  autorewrite with world.
  destruct (server e _ rq) as [r|]; cbn match; run_steps; cbn [accepted];
    (eexists; split; [reflexivity|]); autorewrite with world; by rewrite Hl, Hf.
Qed.

(** C26. The changes of the hooks.  Those of [changes] are one request each, of the method,
    path and body tabulated, and their result says whether the server accepted it.  Refused or
    unreachable, the result is [false], the error is set, the list is kept and nothing more is
    sent; accepted, it is [true], and what follows is the list request of the table, whose own
    failure does not change the result, or nothing for the two that change the members of a
    group.  Without a token the two changes of an access request do nothing; the others are
    sent with the credential [Bearer null].  The three changes of the notifications change the
    list first: the result is the server's, but a refused change stays and sets no error. *)
Theorem hooks_change (e : env) (c : client) filter role id id2 input w :
  (forall ch, In ch (changes c filter role id id2 input) ->
     let rq := hook_request c (ch_method ch) (ch_path ch) (ch_body ch) in
     let sent := log (ObsFetch rq) w in
     (ch_guarded ch = true -> tok c = None \/ tok c = Some "" -> run e (ch_op ch) w = (Done false, w))
     /\ ((ch_guarded ch = true -> tok c <> None /\ tok c <> Some "") ->
         In ("Authorization", "Bearer " +:+ match tok c with Some t => t | None => "null" end) (rq_headers rq)
         /\ if accepted (server e (w_trace sent) rq)
            then run e (ch_op ch) w
                 = (Done true, match ch_refetch ch with Some refetch => (run e refetch sent).2 | None => sent end)
            else exists w', run e (ch_op ch) w = (Done false, w')
                 /\ w_trace w' = w_trace sent /\ items (w_st w') = items (w_st w) /\ is_Some (h_error (w_st w'))))
  /\ (forall op f m path l', In (op, f, m, path) (optimistics c id) -> f (items (w_st w)) = Some l' ->
     let rq := hook_request c m path None in
     exists w', run e op w = (Done (accepted (server e (ObsFetch rq :: w_trace w) rq)), w')
     /\ items (w_st w') = l' /\ h_error (w_st w') = h_error (w_st w) /\ w_trace w' = ObsFetch rq :: w_trace w).
Proof.
  split; [|intros op f m path l' Hin Hf; by eapply optimistic_never_undone].
  intros ch Hin rq sent. split; [by eapply changes_guarded|]. intros Hg.
  split; [cbn; right; left; by destruct (tok c)|].
  assert (exists t, ch_guarded ch = true -> tok c = Some t /\ t <> "") as [t Ht].
  { destruct (tok c) as [t|]; [exists t|exists ""]; intros H; destruct (Hg H) as [H1 H2]; [|done].
    split; [done|]. intros ->. by apply H2. }
  destruct (changes_shape c filter role id id2 input t ch Hin Ht) as (msg & -> & Hn).
  rewrite run_change by done. cbv zeta. fold rq sent.
  destruct (server e _ rq) as [r|]; cbn [accepted]; [destruct (rs_ok r)|].
  - by destruct (ch_refetch ch).
  - eexists. split; [reflexivity|]. unfold setError, sent. by destruct w.
  - eexists. split; [reflexivity|]. unfold setError, sent. by destruct w.
Qed.

Lemma assoc_set_same k v l : assoc k l = Some v -> assoc_set k v l = l.
Proof.
  induction l as [|[k' v'] l IH]; cbn; [done|]. destruct (String.eqb k k') eqn:E.
  - apply String.eqb_eq in E as ->. by intros [= ->].
  - intros H. by rewrite IH.
Qed.

Lemma assoc_set_twice k u v l : assoc_set k v (assoc_set k u l) = assoc_set k v l.
Proof.
  induction l as [|[k' v'] l IH]; cbn; [by rewrite String.eqb_refl|].
  destruct (String.eqb k k') eqn:E; cbn; [by rewrite String.eqb_refl|]. by rewrite E, IH.
Qed.

(** An object whose member [k] is a boolean. *)
Definition flagged (k : string) (d : js) : Prop :=
  exists l b, d = JObj l /\ assoc k l = Some (JBool b).

Lemma toggled_flagged k d : flagged k d -> flagged k (toggled k d).
Proof.
  intros (l & b & -> & H). eexists _, _. split; [reflexivity|]. apply assoc_set_eq.
Qed.

Lemma toggled_twice k d : flagged k d -> toggled k (toggled k d) = d.
Proof.
  intros (l & b & -> & H). unfold toggled, with_prop, opt_prop. cbn -[assoc_set].
  rewrite assoc_set_eq. cbn -[assoc_set]. rewrite assoc_set_twice, H.
  f_equal. apply assoc_set_same. rewrite H. by destruct b.
Qed.

Lemma has_id_toggled k id d : k <> "id" -> flagged k d -> has_id id (toggled k d) = has_id id d.
Proof.
  intros Hk (l & b & -> & H). unfold has_id, toggled, with_prop. cbn -[assoc_set].
  by rewrite assoc_set_ne.
Qed.

(** Flipping the member [k] of the entries named [id], twice. *)
Lemma map_id_toggled k id l :
  k <> "id" -> Forall (flagged k) l ->
  exists l', map_id id (toggled k) (JArr l) = Some (JArr l')
  /\ map_id id (toggled k) (JArr l') = Some (JArr l).
Proof.
  intros Hk. induction 1 as [|d l Hd Hl (l' & H1 & H2)]; [by exists []|].
  cbn in H1, H2 |- *.
  assert (exists b, has_id id d = Some b) as [b Hb]
    by (destruct Hd as (m & ? & -> & _); by eexists).
  destruct (mapM _ l) as [m1|] eqn:E1; [|done]. cbn in H1. injection H1 as ->.
  exists ((if b then toggled k d else d) :: l'). rewrite Hb. cbn. split; [done|].
  destruct (mapM _ l') as [m2|] eqn:E2; [|done]. cbn in H2. injection H2 as ->.
  destruct b.
  - rewrite has_id_toggled, Hb by done. cbn -[toggled]. by rewrite toggled_twice.
  - by rewrite Hb.
Qed.

Section DoubleToggle.
Context (e : env) (c : client) (id : string) (l : list js) (d : js).

Definition bypass_request : request :=
  hook_request c PATCH (TrustedDevices.device_path id) (Some (TrustedDevices.bypass_body d)).

Hypothesis Hfind : find_loop id l = Some (Some d).
Hypothesis Hok : forall t, accepted (server e t bypass_request) = true.

Lemma run_toggle w v v' :
  items (w_st w) = v -> map_id id (toggled "mfa_bypass_enabled") v = Some v' ->
  exists w', run e (TrustedDevices.toggleMfaBypass c (JArr l) id) w = (Done true, w')
  /\ items (w_st w') = v' /\ w_trace w' = ObsFetch bypass_request :: w_trace w.
Proof.
  intros Hi Hm. unfold TrustedDevices.toggleMfaBypass, find_by_id, or_else, call.
  rewrite Hfind. run_steps. fold bypass_request.
  specialize (Hok (w_trace (log (ObsFetch bypass_request) w))).
  destruct (server e _ bypass_request) as [r|]; [|done]. cbn in Hok. cbn match. run_steps.
  rewrite Hok. unfold update_items. run_steps. autorewrite with world.
  eexists. split; [reflexivity|]. autorewrite with world. by rewrite Hi, Hm.
Qed.
End DoubleToggle.

(** Two toggles of a device from one render send the server the same value, the
    negation of what that render shows, and flip the local entry twice: both report
    success, the server has the new value and the list shows the old one. *)
Lemma double_toggle_diverges (e : env) (c : client) id l d w :
  items (w_st w) = JArr l -> Forall (flagged "mfa_bypass_enabled") l ->
  find_loop id l = Some (Some d) ->
  (forall t, accepted (server e t (bypass_request c id d)) = true) ->
  let toggle := TrustedDevices.toggleMfaBypass c (JArr l) id in
  exists w', run e (a ← toggle; b ← toggle; mret (a, b)) w = (Done (true, true), w')
  /\ w_trace w' = ObsFetch (bypass_request c id d) :: ObsFetch (bypass_request c id d)
                    :: w_trace w
  /\ items (w_st w') = JArr l.
Proof.
  intros Hi Hl Hf Hok toggle.
  destruct (map_id_toggled "mfa_bypass_enabled" id l) as (l' & H1 & H2); [done..|].
  destruct (run_toggle e c id l d Hf Hok w _ _ Hi H1) as (w1 & R1 & I1 & T1).
  destruct (run_toggle e c id l d Hf Hok w1 _ _ I1 H2) as (w2 & R2 & I2 & T2).
  exists w2. unfold toggle. rewrite run_mbind, R1. cbn match. rewrite run_mbind, R2.
  cbn match. split; [done|]. by rewrite T2, T1.
Qed.

(** Revoking the other sessions: one DELETE for each, in order, none for the current
    one, and the number of accepted ones is returned. *)
Lemma revokeAllOthers_counts (e : env) (c : client) (srv : request -> option response) sessions w :
  (forall t rq, server e t rq = srv rq) ->
  let others := map fst (List.filter (fun s => negb s.2) sessions) in
  let rq id := hook_request c DELETE ("/api/v1/security/sessions/" +:+ id) None in
  exists w', run e (Sessions.revokeAllOthers c sessions) w
             = (Done (Z.of_nat (length (List.filter (fun id => accepted (srv (rq id))) others))), w')
  /\ w_trace w' = rev (map (fun id => ObsFetch (rq id)) others) ++ w_trace w.
Proof.
  intros Hs others rq. unfold Sessions.revokeAllOthers.
  enough (forall n, exists w', run e (Sessions.revoke_loop c (List.filter (fun s => negb s.2) sessions) n) w
    = (Done (n + Z.of_nat (length (List.filter (fun id => accepted (srv (rq id))) others)))%Z, w')
    /\ w_trace w' = rev (map (fun id => ObsFetch (rq id)) others) ++ w_trace w) as H by apply H.
  unfold others. clear others. generalize (List.filter (fun s : string * bool => negb s.2) sessions).
  intros os. revert w. induction os as [|[id b] os IH]; intros w n;
    cbn [map fst rev List.filter length app Sessions.revoke_loop].
  - exists w. run_steps. cbn. by rewrite Z.add_0_r.
  - assert (forall w1 k z, w_trace w1 = ObsFetch (rq id) :: w_trace w ->
      (k + Z.of_nat (length (List.filter (fun id => accepted (srv (rq id))) (map fst os))))%Z = z ->
      exists w', run e (Sessions.revoke_loop c os k) w1 = (Done z, w')
      /\ w_trace w' = (rev (map (fun id => ObsFetch (rq id)) (map fst os)) ++ [ObsFetch (rq id)])
                         ++ w_trace w) as Hrest.
    { intros w1 k z Ht <-. destruct (IH w1 k) as (w' & R & T). exists w'. split; [done|].
      by rewrite T, Ht, <- app_assoc. }
    unfold Sessions.revokeSession, or_else, call, update_items, setError.
    fold (rq id). run_steps.
    rewrite Hs. destruct (srv (rq id)) as [r|]; cbn [accepted]; run_steps;
      [destruct (rs_ok r); run_steps|];
      (apply Hrest; [by autorewrite with world|cbn [length]; lia]).
Qed.

(** A tenant's override decides its flag, whatever the flag itself says; [null] is off. *)
Lemma isEnabled_override tenant key f rest override :
  opt_prop f "key" = JStr key -> opt_prop (opt_prop f "per_tenant") tenant = override ->
  override <> JUndef ->
  FeatureFlags.isEnabled tenant (f :: rest) key = Some (JBool (truthy override)).
Proof.
  intros Hk Ho Hu. unfold FeatureFlags.isEnabled, opt_prop in *. cbn.
  destruct (prop f "key") as [k|]; [|done]. cbn in *. subst k. cbn. rewrite String.eqb_refl. cbn.
  rewrite Ho. by destruct override.
Qed.

(** Every credential is in exactly one of the two lists of useMFA. *)
Lemma credentials_partition l :
  MFA.platformCredentials l ++ MFA.crossPlatformCredentials l ≡ₚ l.
Proof.
  unfold MFA.platformCredentials, MFA.crossPlatformCredentials.
  induction l as [|x l IH]; [done|]. cbn [List.filter]. unfold MFA.is_platform.
  destruct (js_is_str (opt_prop x "platform") "platform"),
    (js_is_str (opt_prop x "device_type") "platform"); cbn [orb negb andb app];
    try (by apply perm_skip, IH).
  etrans; [symmetry; apply Permutation_middle|]. by apply perm_skip, IH.
Qed.

(** ** Witnesses *)

Definition demo_client : client := Client (Some "tok") "" "t1".

Definition demo_answer (v : js) : env := const_env (Some (Response 200 (stringify v))) 0.
Definition demo_refusal : env := const_env (Some (Response 403 "")) 0.

Definition demo_users : listing := Listing (Users.fetchUsers demo_client) "/api/v1/users" ["users"; "items"] true.

Lemma hooks_fetch_witness :
  exists rq w', rq_method rq = GET /\ rq_url rq = "/api/v1/users"
  /\ run (demo_answer (JObj [("items", JArr [JStr "ann"])]))
       (Users.fetchUsers demo_client) (empty_world hook_init) = (Done tt, w')
  /\ items (w_st w') = JArr [JStr "ann"].
Proof.
  destruct (hooks_fetch (demo_answer (JObj [("items", JArr [JStr "ann"])])) demo_client None None demo_users
              (empty_world hook_init) ltac:(left; reflexivity)) as [_ H].
  destruct (H "tok" eq_refl ltac:(discriminate)) as (rq & w' & Hm & Hu & _ & _ & _ & Hr & _ & _ & _ & _ & Hi).
  exists rq, w'. cbn in Hu. split; [exact Hm|]. split; [exact Hu|]. split; [exact Hr|].
  assert (answered_list ["users"; "items"]
            (Some (Response 200 (stringify (JObj [("items", JArr [JStr "ann"])]))))
          = Some (JArr [JStr "ann"])) as E by (vm_compute; reflexivity).
  cbn [server demo_answer const_env ls_keys demo_users] in Hi. rewrite E in Hi. apply Hi.
Defined.

(** What is no list is kept as the list; an answer that names none is an empty list. *)
Example answers_unchecked :
  items (w_st (run (demo_answer (JObj [("users", JNum 5)])) (Users.fetchUsers demo_client) (empty_world hook_init)).2) = JNum 5
  /\ let w := (run (demo_answer (JObj [])) (Users.fetchUsers demo_client) (empty_world hook_init)).2 in
     items (w_st w) = JArr [] /\ h_error (w_st w) = None.
Proof. vm_compute. done. Qed.

Definition demo_delete : change_op :=
  Change (Users.deleteUser demo_client "u1") DELETE "/api/v1/users/u1" None (Some (Users.fetchUsers demo_client)) false.

Lemma hooks_change_witness :
  exists w', run demo_refusal (Users.deleteUser demo_client "u1") (empty_world hook_init) = (Done false, w')
  /\ w_trace w' = [ObsFetch (hook_request demo_client DELETE "/api/v1/users/u1" None)].
Proof.
  destruct (hooks_change demo_refusal demo_client None None "u1" "r1" JNull (empty_world hook_init)) as [H _].
  destruct (H demo_delete ltac:(right; left; reflexivity)) as [_ Hs].
  destruct (Hs ltac:(discriminate)) as [_ (w' & Hr & Ht & _)].
  exists w'. split; [exact Hr|exact Ht].
Defined.

Definition demo_note : js := JObj [("id", JStr "n1"); ("read", JBool false)].

Lemma optimistic_never_undone_witness :
  exists w', run demo_refusal (Notifications.deleteNotification demo_client "n1")
               (empty_world (Hook (JArr [demo_note]) JNull false None false)) = (Done false, w')
  /\ items (w_st w') = JArr [].
Proof.
  destruct (optimistic_never_undone demo_refusal demo_client "n1" _ _ _ _ (JArr [demo_note])
              (JArr []) (empty_world (Hook (JArr [demo_note]) JNull false None false))
              ltac:(right; right; left; reflexivity) eq_refl eq_refl) as (w' & Hr & Hi & _).
  exists w'. split; [exact Hr|exact Hi].
Defined.

Definition demo_device : js := JObj [("id", JStr "d1"); ("mfa_bypass_enabled", JBool false)].

Lemma double_toggle_diverges_witness :
  exists w', run (demo_answer (JObj []))
      (a ← TrustedDevices.toggleMfaBypass demo_client (JArr [demo_device]) "d1";
       b ← TrustedDevices.toggleMfaBypass demo_client (JArr [demo_device]) "d1"; mret (a, b))
      (empty_world (Hook (JArr [demo_device]) JNull false None false)) = (Done (true, true), w')
  /\ items (w_st w') = JArr [demo_device].
Proof.
  destruct (double_toggle_diverges (demo_answer (JObj [])) demo_client "d1" [demo_device]
              demo_device (empty_world (Hook (JArr [demo_device]) JNull false None false)))
    as (w' & Hr & _ & Hi).
  - reflexivity.
  - constructor; [|constructor]. do 2 eexists. split; reflexivity.
  - reflexivity.
  - reflexivity.
  - exists w'. split; [exact Hr|exact Hi].
Defined.

(** A test delivery whose answer is the text [null] counts as failed although the
    server answered 200. *)
Example testWebhook_null_body :
  (run (const_env (Some (Response 200 "null")) 0) (Webhooks.testWebhook demo_client "h1")
     (empty_world hook_init)).1
  = Done (Webhooks.Delivery false (JNum 0)
            (JStr "Cannot read properties of null (reading 'status_code')")).
Proof. vm_compute. reflexivity. Qed.
