(* ===== verification/Streams.v ===== *)
(** * Event streams (sdk/react/src/useAuditStream.ts, useTokenEvents.ts, useThreatFeed.ts)

    The three hooks keep a bounded list of server-sent events and reconnect on a
    timer.  The model keeps every [EventSource] ever opened and every pending
    [setTimeout], so that a connection or a timer nobody refers to any more stays
    visible; [input]s are what can happen to a mounted hook, in any order.  A closed
    [EventSource] fires no events, a cleared or fired timer does not fire.

    What a callback closes over is kept with it: a source and a timer carry the
    [config] of the render whose [connect] made them. *)

From S2P Require Import Prelude JsValue JsString Json.
Local Open Scope Z_scope.

(** What [connect] closes over; [cf_sse] is [!!window.EventSource]. *)
Record config := Config {
  cf_token : option string;
  cf_api : string;
  cf_tenant : string;
  cf_max : nat;
  cf_sse : bool
}.

Record source := Source { so_url : string; so_cfg : config; so_open : bool }.

Record stream := Stream {
  events : list js;
  isConnected : bool;
  error : option string;
  attempts : Z;
  paused : bool;
  pausedRef : bool;
  sources : list source;
  sourceRef : option nat;
  timers : gmap nat (Z * config);
  timerRef : option nat;
  nextTimer : nat
}.

Definition stream_init : stream :=
  Stream [] false None 0 false false [] None ∅ None 0.

(** ** State updates *)

Definition setEvents (l : list js) (s : stream) : stream :=
  Stream l (isConnected s) (error s) (attempts s) (paused s) (pausedRef s)
    (sources s) (sourceRef s) (timers s) (timerRef s) (nextTimer s).
Definition setStatus (connected : bool) (err : option string) (s : stream) : stream :=
  Stream (events s) connected err (attempts s) (paused s) (pausedRef s)
    (sources s) (sourceRef s) (timers s) (timerRef s) (nextTimer s).
Definition setAttempts (n : Z) (s : stream) : stream :=
  Stream (events s) (isConnected s) (error s) n (paused s) (pausedRef s)
    (sources s) (sourceRef s) (timers s) (timerRef s) (nextTimer s).
Definition setPaused (b : bool) (s : stream) : stream :=
  Stream (events s) (isConnected s) (error s) (attempts s) b b
    (sources s) (sourceRef s) (timers s) (timerRef s) (nextTimer s).
Definition setSources (l : list source) (r : option nat) (s : stream) : stream :=
  Stream (events s) (isConnected s) (error s) (attempts s) (paused s) (pausedRef s)
    l r (timers s) (timerRef s) (nextTimer s).
Definition setTimers (m : gmap nat (Z * config)) (r : option nat) (n : nat) (s : stream)
    : stream :=
  Stream (events s) (isConnected s) (error s) (attempts s) (paused s) (pausedRef s)
    (sources s) (sourceRef s) m r n.

(** [es.close()]. *)
Definition shut (so : source) : source := Source (so_url so) (so_cfg so) false.
Definition close (i : nat) (s : stream) : stream :=
  setSources (alter shut i (sources s)) (sourceRef s) s.

(** [if (eventSourceRef.current) eventSourceRef.current.close()]. *)
Definition close_current (s : stream) : stream :=
  match sourceRef s with Some i => close i s | None => s end.

(** [if (reconnectTimer.current) clearTimeout(reconnectTimer.current)]. *)
Definition clear_timer (s : stream) : stream :=
  match timerRef s with
  | Some t => setTimers (delete t (timers s)) (timerRef s) (nextTimer s) s
  | None => s
  end.

(** [reconnectTimer.current = setTimeout(() => connect(), delay)]. *)
Definition set_timer (delay : Z) (c : config) (s : stream) : stream :=
  setTimers (<[nextTimer s := (delay, c)]> (timers s)) (Some (nextTimer s))
    (nextTimer s + 1)%nat s.

(** ** The pieces the three hooks share *)

(** [connect()] of the hook whose endpoint is [path]. *)
Definition connect (path : string) (c : config) (s : stream) : stream :=
  match cf_token c with
  | Some tok =>
      if String.eqb tok "" || negb (cf_sse c) then s
      else
        let s := close_current s in
        let url := cf_api c +:+ path +:+ "?token=" +:+ encodeURIComponent tok
                   +:+ "&tenant_id=" +:+ encodeURIComponent (cf_tenant c) in
        setSources (sources s ++ [Source url c true]) (Some (length (sources s))) s
  | None => s
  end.

(** The function the effect returns. *)
Definition cleanup (s : stream) : stream := clear_timer (close_current s).

(** [setEvents((prev) => [event, ...prev].slice(0, maxEvents))]. *)
Definition push (maxEvents : nat) (event : js) (s : stream) : stream :=
  setEvents (take maxEvents (event :: events s)) s.

Definition lost (n : Z) : string :=
  "Connection lost (attempt " +:+ string_of_Z n +:+ "). Reconnecting...".

(** [Math.min(5000 * Math.pow(2, attempts - 1), 30000)]. *)
Definition backoff (attempts : Z) : Z := Z.min (5000 * 2 ^ (attempts - 1)) 30000.

Definition pause : stream -> stream := setPaused true.
Definition resume : stream -> stream := setPaused false.
Definition clear : stream -> stream := setEvents [].

(** ** useAuditStream.ts *)

Module Audit.
Definition path : string := "/api/v1/audit/stream".

(** The parsed message with its severity; [None] when the handler's [try] gives up:
    [null] has no properties, and a primitive takes none.  (An array takes one, which
    [severity] below gives back.) *)
Definition with_severity (v : js) : option js :=
  match v with
  | JObj l =>
      if truthy (opt_prop v "severity") then Some v
      else
        let r := opt_prop v "result" in
        let sev := if js_is_str r "failure" || js_is_str r "denied"
                   then "warning" else "info" in
        Some (JObj (assoc_set "severity" (JStr sev) l))
  | JArr _ => Some v
  | _ => None
  end.

Definition onopen (i : nat) (s : stream) : stream := setStatus true None s.

Definition onmessage (so : source) (data : string) (s : stream) : stream :=
  match JSON_parse data ≫= with_severity with
  | Some event => push (cf_max (so_cfg so)) event s
  | None => s
  end.

Definition onerror (i : nat) (so : source) (s : stream) : stream :=
  let n := attempts s + 1 in
  let s := close i (setStatus false (Some (lost n)) (setAttempts n s)) in
  set_timer (backoff n) (so_cfg so) (clear_timer s).

(** The effect of a signed-in render. *)
Definition start (c : config) (s : stream) : stream := connect path c (setAttempts 0 s).

Definition severity (v : js) : js :=
  match v with JArr _ => JStr "info" | _ => opt_prop v "severity" end.

Definition filteredEvents (severityFilter : string) (l : list js) : list js :=
  List.filter (fun e =>
    if String.eqb severityFilter "all" then true
    else if String.eqb severityFilter "warning+"
         then js_is_str (severity e) "warning" || js_is_str (severity e) "critical"
         else js_is_str (severity e) severityFilter) l.
End Audit.

(** ** useTokenEvents.ts *)

Module TokenEvents.
Definition path : string := "/api/v1/oauth/token-events/stream".

Definition onopen (i : nat) (s : stream) : stream := setAttempts 0 (setStatus true None s).

Definition onmessage (so : source) (data : string) (s : stream) : stream :=
  if pausedRef s then s
  else match JSON_parse data with
       | Some event => push (cf_max (so_cfg so)) event s
       | None => s
       end.

Definition onerror (i : nat) (so : source) (s : stream) : stream :=
  let n := attempts s + 1 in
  let s := close i (setStatus false (Some (lost n)) (setAttempts n s)) in
  set_timer (backoff n) (so_cfg so) (clear_timer s).

Definition start (c : config) (s : stream) : stream := connect path c s.
End TokenEvents.

(** ** useThreatFeed.ts *)

Module ThreatFeed.
Definition path : string := "/api/v1/audit/threat-feed/stream".

Definition onopen (i : nat) (s : stream) : stream := setStatus true None s.

Definition onmessage (so : source) (data : string) (s : stream) : stream :=
  if pausedRef s then s
  else match JSON_parse data with
       | Some threat => push (cf_max (so_cfg so)) threat s
       | None => s
       end.

(** The previous timer is not cleared. *)
Definition onerror (i : nat) (so : source) (s : stream) : stream :=
  set_timer 5000 (so_cfg so) (close i (setStatus false (error s) s)).

Definition start (c : config) (s : stream) : stream := connect path c s.
End ThreatFeed.

(** ** A mounted hook *)

Inductive input :=
| Effect (isAuthenticated : bool) (c : config)   (** mount, or a render with new deps *)
| Unmount
| Opened (i : nat)
| Message (i : nat) (data : string)
| Errored (i : nat)
| Fires (t : nat)
| Reconnect (c : config)
| Pause
| Resume
| Clear.

(** What the three hooks offer to the page that uses them. *)
Class StreamHook := {
  sh_path : string;
  sh_reconnect : bool;   (** [reconnect] is returned to the page *)
  sh_pausable : bool;    (** [pause] and [resume] are *)
  sh_start : config -> stream -> stream;
  sh_open : nat -> stream -> stream;
  sh_message : source -> string -> stream -> stream;
  sh_error : nat -> source -> stream -> stream
}.

Definition audit_stream : StreamHook := {|
  sh_path := Audit.path; sh_reconnect := true; sh_pausable := false;
  sh_start := Audit.start; sh_open := Audit.onopen; sh_message := Audit.onmessage;
  sh_error := Audit.onerror |}.

Definition token_events : StreamHook := {|
  sh_path := TokenEvents.path; sh_reconnect := false; sh_pausable := true;
  sh_start := TokenEvents.start; sh_open := TokenEvents.onopen;
  sh_message := TokenEvents.onmessage; sh_error := TokenEvents.onerror |}.

Definition threat_feed : StreamHook := {|
  sh_path := ThreatFeed.path; sh_reconnect := false; sh_pausable := true;
  sh_start := ThreatFeed.start; sh_open := ThreatFeed.onopen;
  sh_message := ThreatFeed.onmessage; sh_error := ThreatFeed.onerror |}.

Section Mounted.
Context (H : StreamHook).

Definition on_source (i : nat) (f : source -> stream -> stream) (s : stream) : stream :=
  match sources s !! i with
  | Some so => if so_open so then f so s else s
  | None => s
  end.

Definition feed_step (x : input) (s : stream) : stream :=
  match x with
  | Effect auth c => if auth then sh_start c (cleanup s) else cleanup s
  | Unmount => cleanup s
  | Opened i => on_source i (fun _ => sh_open i) s
  | Message i data => on_source i (fun so => sh_message so data) s
  | Errored i => on_source i (fun so => sh_error i so) s
  | Fires t =>
      match timers s !! t with
      | Some (_, c) =>
          connect sh_path c (setTimers (delete t (timers s)) (timerRef s) (nextTimer s) s)
      | None => s
      end
  | Reconnect c => if sh_reconnect then connect sh_path c s else s
  | Pause => if sh_pausable then pause s else s
  | Resume => if sh_pausable then resume s else s
  | Clear => clear s
  end.

Definition feed (l : list input) (s : stream) : stream :=
  fold_left (fun s x => feed_step x s) l s.
End Mounted.

(** ** The invariant *)

Definition live (s : stream) (i : nat) : Prop :=
  exists so, sources s !! i = Some so /\ so_open so = true.

(** Only the current source is open, only the current timer is pending, a hook without
    a manual reconnect never has both, and the buffer is bounded. *)
Record sound (manual : bool) (n : nat) (s : stream) : Prop := {
  sound_source : forall i, live s i -> sourceRef s = Some i;
  sound_timer : forall t d c, timers s !! t = Some (d, c) ->
    timerRef s = Some t /\ 5000 <= d <= 30000 /\ (cf_max c <= n)%nat;
  sound_max : Forall (fun so => (cf_max (so_cfg so) <= n)%nat) (sources s);
  sound_quiet : manual = false -> forall i, live s i -> timers s = ∅;
  sound_events : (length (events s) <= n)%nat;
  sound_attempts : 0 <= attempts s
}.

(** What a hook promises of its handlers. *)
Class StreamLaws (H : StreamHook) : Prop := {
  law_start n c s : sound sh_reconnect n s -> timers s = ∅ -> (cf_max c <= n)%nat ->
    sound sh_reconnect n (sh_start c s);
  law_open n i s : sound sh_reconnect n s -> sound sh_reconnect n (sh_open i s);
  law_message n i so data s : sound sh_reconnect n s -> sources s !! i = Some so ->
    sound sh_reconnect n (sh_message so data s);
  law_error n i so s : sound sh_reconnect n s -> sources s !! i = Some so ->
    so_open so = true -> sound sh_reconnect n (sh_error i so s)
}.

Lemma backoff_bounds n : 1 <= n -> 5000 <= backoff n <= 30000.
Proof.
  intros Hn. unfold backoff.
  assert (1 <= 2 ^ (n - 1)) by (apply (Z.pow_le_mono_r 2 0); lia). lia.
Qed.

Section Pieces.
Context (m : bool) (n : nat).

Lemma live_close s i j : live (close i s) j <-> live s j /\ j <> i.
Proof.
  unfold live, close. cbn. split.
  - intros (so & Hl & Ho). destruct (decide (j = i)) as [->|Hne].
    + rewrite list_lookup_alter_eq in Hl. destruct (sources s !! i); [|done].
      cbn in Hl. injection Hl as <-. done.
    + rewrite list_lookup_alter_ne in Hl by congruence. eauto.
  - intros [(so & Hl & Ho) Hne]. exists so. by rewrite list_lookup_alter_ne by congruence.
Qed.

Lemma sound_close i s : sound m n s -> sound m n (close i s).
Proof.
  intros [H1 H2 H3 H4 H5 H6]. split; cbn; auto.
  - intros j [Hj _]%live_close. auto.
  - apply Forall_alter; [done|]. by intros [].
  - intros Hm j [Hj _]%live_close. eauto.
Qed.

Lemma sound_close_current s :
  sound m n s -> sound m n (close_current s) /\ forall j, ~ live (close_current s) j.
Proof.
  intros Hs. unfold close_current. destruct (sourceRef s) as [i|] eqn:E.
  - split; [by apply sound_close|]. intros j [Hj Hne]%live_close.
    apply (sound_source _ _ _ Hs) in Hj. congruence.
  - split; [done|]. intros j Hj%(sound_source _ _ _ Hs). congruence.
Qed.

Lemma sound_clear_timer s :
  sound m n s -> sound m n (clear_timer s) /\ timers (clear_timer s) = ∅.
Proof.
  intros Hs. destruct Hs as [H1 H2 H3 H4 H5 H6].
  assert (timers (clear_timer s) = ∅) as E.
  { unfold clear_timer. apply map_eq. intros t.
    destruct (timerRef s) as [r|] eqn:Er; cbn; rewrite lookup_empty.
    - destruct (decide (t = r)) as [->|]; [by rewrite lookup_delete_eq|].
      rewrite lookup_delete_ne by done. destruct (timers s !! t) as [[d c]|] eqn:Et; [|done].
      apply H2 in Et as [? _]. congruence.
    - destruct (timers s !! t) as [[d c]|] eqn:Et; [|done].
      apply H2 in Et as [? _]. congruence. }
  split; [|done]. unfold clear_timer in *. destruct (timerRef s) as [r|] eqn:Er; [|by split; rewrite ?Er].
  split; cbn in *; rewrite ?E, ?Er; auto.
  intros t d c. by rewrite lookup_empty.
Qed.

Lemma sound_cleanup s :
  sound m n s ->
  sound m n (cleanup s) /\ timers (cleanup s) = ∅ /\ forall i, ~ live (cleanup s) i.
Proof.
  intros Hs. unfold cleanup.
  destruct (sound_close_current s Hs) as [Hc Hl].
  destruct (sound_clear_timer _ Hc) as [Ht He]. split; [done|]. split; [done|].
  intros i Hi. apply (Hl i). unfold clear_timer in Hi. by destruct (timerRef _).
Qed.

Lemma sound_connect path c s :
  sound m n s -> (m = false -> timers s = ∅) -> (cf_max c <= n)%nat ->
  sound m n (connect path c s).
Proof.
  intros Hs Hq Hc. unfold connect. destruct (cf_token c) as [tok|]; [|done].
  destruct (_ || _)%bool; [done|].
  destruct (sound_close_current s Hs) as [[H1 H2 H3 H4 H5 H6] Hl].
  assert (timers (close_current s) = timers s) as Et
    by (unfold close_current; by destruct (sourceRef s)).
  split; cbn; auto.
  - intros j (so & Hj & Ho). cbn in Hj. apply lookup_app_Some in Hj as [Hj|[Hj Hj']].
    + destruct (Hl j). by exists so.
    + destruct (j - _)%nat as [|k] eqn:Ek; [|done]. f_equal. lia.
  - apply Forall_app_2; [done|]. by apply Forall_singleton.
  - intros Hm _ _. rewrite Et. auto.
Qed.

Lemma sound_push k v s : (k <= n)%nat -> sound m n s -> sound m n (push k v s).
Proof.
  intros Hk [H1 H2 H3 H4 H5 H6]. split; auto.
  change (length (take k (v :: events s)) <= n)%nat. rewrite length_take. lia.
Qed.

(** Arming a timer when none is pending, with no source open. *)
Lemma sound_set_timer delay c s :
  sound m n s -> timers s = ∅ -> (forall i, ~ live s i) -> 5000 <= delay <= 30000 ->
  (cf_max c <= n)%nat -> sound m n (set_timer delay c s).
Proof.
  intros [H1 H2 H3 H4 H5 H6] He Hl Hd Hc. split; cbn; auto.
  - intros t d c'. rewrite He. intros [[<- [= <- <-]]|[_ Ht]]%lookup_insert_Some; [done|].
    by rewrite lookup_empty in Ht.
  - intros _ i Hi. by destruct (Hl i).
Qed.

Lemma sound_status b o s : sound m n s -> sound m n (setStatus b o s).
Proof. intros []. by split. Qed.

Lemma sound_set_attempts k s : 0 <= k -> sound m n s -> sound m n (setAttempts k s).
Proof. intros ? []. by split. Qed.

Lemma closed_none_live i s :
  sound m n s -> live s i -> forall j, ~ live (close i s) j.
Proof.
  intros Hs Hi j [Hj Hne]%live_close. apply (sound_source _ _ _ Hs) in Hj, Hi. congruence.
Qed.
End Pieces.

#[export] Hint Resolve sound_status sound_set_attempts sound_push sound_close sound_connect : js.

(** Both backing-off hooks end their connection and arm the only timer. *)
Lemma sound_backing_off m n i so s :
  sound m n s -> sources s !! i = Some so -> so_open so = true ->
  let s' := close i (setStatus false (Some (lost (attempts s + 1)))
                       (setAttempts (attempts s + 1) s)) in
  sound m n (set_timer (backoff (attempts s + 1)) (so_cfg so) (clear_timer s')).
Proof.
  intros Hs Hi Ho s'. pose proof (sound_attempts _ _ _ Hs).
  set (s1 := setStatus false _ _) in s'.
  assert (sound m n s1) as Hs1 by (apply sound_status, sound_set_attempts; [lia|done]).
  assert (sound m n s') as Hs' by by apply sound_close.
  destruct (sound_clear_timer _ _ _ Hs') as [Hc He].
  apply sound_set_timer; [done..| | |].
  - intros j Hj. apply (closed_none_live m n i s1 Hs1 ltac:(by exists so) j).
    unfold clear_timer in Hj. by destruct (timerRef s').
  - apply backoff_bounds. lia.
  - by eapply (Forall_lookup_1 _ _ _ _ (sound_max _ _ _ Hs)).
Qed.

Lemma source_max m n s i so :
  sound m n s -> sources s !! i = Some so -> (cf_max (so_cfg so) <= n)%nat.
Proof. intros Hs. apply (Forall_lookup_1 _ _ _ _ (sound_max _ _ _ Hs)). Qed.

#[export] Hint Resolve source_max : js.

#[export] Instance audit_stream_laws : StreamLaws audit_stream.
Proof.
  split; cbn; intros.
  - apply sound_connect; auto. by apply sound_set_attempts.
  - by apply sound_status.
  - unfold Audit.onmessage. destruct (_ ≫= _); eauto with js.
  - by apply sound_backing_off.
Qed.

#[export] Instance token_events_laws : StreamLaws token_events.
Proof.
  split; cbn; intros.
  - by apply sound_connect.
  - apply sound_set_attempts; [done|]. by apply sound_status.
  - unfold TokenEvents.onmessage. destruct (pausedRef s), (JSON_parse data); eauto with js.
  - by apply sound_backing_off.
Qed.

#[export] Instance threat_feed_laws : StreamLaws threat_feed.
Proof.
  split; cbn; intros.
  - by apply sound_connect.
  - by apply sound_status.
  - unfold ThreatFeed.onmessage. destruct (pausedRef s), (JSON_parse data); eauto with js.
  - unfold ThreatFeed.onerror.
    assert (live s i) as Hl by by exists so.
    apply sound_set_timer; [by apply sound_close, sound_status| | |lia|by eapply source_max].
    + cbn. by eapply sound_quiet.
    + eapply closed_none_live; [by apply sound_status|done].
Qed.

(** The buffer size of the renders that make a [connect]. *)
Definition input_max (n : nat) (x : input) : Prop :=
  match x with Effect _ c | Reconnect c => (cf_max c <= n)%nat | _ => True end.

Section Invariant.
Context (H : StreamHook) {L : StreamLaws H} (n : nat).

Lemma sound_init : sound sh_reconnect n stream_init.
Proof.
  split; cbn; try lia; try done.
  by intros i (so & Hi & _).
Qed.

Lemma sound_on_source i f s :
  (forall so, sources s !! i = Some so -> so_open so = true -> sound sh_reconnect n (f so s)) ->
  sound sh_reconnect n s -> sound sh_reconnect n (on_source i f s).
Proof.
  intros Hf Hs. unfold on_source. destruct (sources s !! i) as [so|] eqn:E; [|done].
  destruct (so_open so) eqn:Eo; auto.
Qed.

Lemma sound_step x s :
  input_max n x -> sound sh_reconnect n s -> sound sh_reconnect n (feed_step H x s).
Proof.
  intros Hx Hs. destruct (sound_cleanup _ _ _ Hs) as (Hc & He & _).
  destruct x as [auth c| |i|i data|i|t|c| | |]; cbn in Hx |- *.
  - destruct auth; [by apply law_start|done].
  - done.
  - apply sound_on_source; [|done]. intros. by apply law_open.
  - apply sound_on_source; [|done]. intros. by eapply law_message.
  - apply sound_on_source; [|done]. intros. by apply law_error.
  - destruct (timers s !! t) as [[d c]|] eqn:Et; [|done].
    destruct (sound_timer _ _ _ Hs t d c Et) as (Hr & _ & Hm).
    assert (delete t (timers s) = ∅) as Ed.
    { apply map_eq. intros u. rewrite lookup_empty. apply lookup_delete_None.
      destruct (timers s !! u) as [[d' c']|] eqn:Eu; [left|by right].
      apply (sound_timer _ _ _ Hs) in Eu as [Hr' _]. congruence. }
    rewrite Ed. apply sound_connect; [|done..].
    destruct Hs as [H1 H2 H3 H4 H5 H6]. by split.
  - destruct (@sh_reconnect H) eqn:E; [by apply sound_connect|done].
  - destruct sh_pausable; [|done]. by destruct Hs.
  - destruct sh_pausable; [|done]. by destruct Hs.
  - destruct Hs as [H1 H2 H3 H4 H5 H6]. split; cbn; auto. lia.
Qed.

Lemma sound_feed l s :
  Forall (input_max n) l -> sound sh_reconnect n s -> sound sh_reconnect n (feed H l s).
Proof. intros Hl. revert s. induction Hl as [|x l Hx Hl IH]; intros s Hs; [done|]. by apply IH, sound_step. Qed.
End Invariant.

Definition stream_hooks : list StreamHook := [audit_stream; token_events; threat_feed].

Lemma stream_hooks_laws H : In H stream_hooks -> StreamLaws H.
Proof. intros [<-|[<-|[<-|[]]]]; apply _. Qed.

(** C17. Whatever happens to a mounted stream hook, in any order: at most one
    [EventSource] is open, and it is the one the hook will close; at most one timer is
    pending, the one the hook will clear, and it waits between 5 and 30 seconds; the
    event list never outgrows the buffer; and unmounting leaves no connection open and
    no timer pending. *)
Theorem stream_hooks_sound (H : StreamHook) n l :
  In H stream_hooks -> Forall (input_max n) l ->
  let s := feed H l stream_init in
  (forall i, live s i -> sourceRef s = Some i)
  /\ (forall t d c, timers s !! t = Some (d, c) -> timerRef s = Some t /\ 5000 <= d <= 30000)
  /\ (length (events s) <= n)%nat
  /\ let s' := feed_step H Unmount s in timers s' = ∅ /\ forall i, ~ live s' i.
Proof.
  intros L%stream_hooks_laws Hl s. pose proof (sound_feed H n l _ Hl (sound_init H n)) as Hs. fold s in Hs.
  split; [apply Hs|]. split; [intros t d c Ht; apply (sound_timer _ _ _ Hs) in Ht; tauto|].
  split; [apply Hs|]. apply (sound_cleanup _ _ _ Hs).
Qed.

(** ** Reconnecting *)

(** A hook mounted signed in whose connections open and drop, [k] reconnections long. *)
Definition drops (c : config) (k : nat) : list input :=
  Effect true c :: concat (map (fun i => [Opened i; Errored i; Fires i]) (seq 0 k))
  ++ [Opened k; Errored k].

Section Rounds.
Context (H : StreamHook) (c : config) (tok : string) (o en dl : Z -> Z).
Hypothesis (Htok : cf_token c = Some tok) (Hne : tok <> "") (Hsse : cf_sse c = true).

(** What the rounds need of the handlers. *)
Hypothesis Hstart : forall s, attempts s = 0 -> sh_start c s = connect sh_path c s.
Hypothesis Hopen : forall i s, sh_open i s = setAttempts (o (attempts s)) (setStatus true None s).
Hypothesis Herror : forall i so s, timers s = ∅ ->
  let s' := sh_error i so s in
  sources s' = alter shut i (sources s) /\ sourceRef s' = sourceRef s
  /\ timers s' = {[nextTimer s := (dl (attempts s), so_cfg so)]}
  /\ nextTimer s' = (nextTimer s + 1)%nat /\ attempts s' = en (attempts s).

Definition alive : source :=
  Source (cf_api c +:+ sh_path +:+ "?token=" +:+ encodeURIComponent tok
          +:+ "&tenant_id=" +:+ encodeURIComponent (cf_tenant c)) c true.

(** Connected for the [k]-th time after [a] counted failures. *)
Record round (k : nat) (a : Z) (s : stream) : Prop := {
  rd_sources : sources s = replicate k (shut alive) ++ [alive];
  rd_ref : sourceRef s = Some k;
  rd_timers : timers s = ∅;
  rd_next : nextTimer s = k;
  rd_attempts : attempts s = a
}.

(** Waiting for the [k]-th timer. *)
Record waiting (k : nat) (d a : Z) (s : stream) : Prop := {
  wt_sources : sources s = replicate (S k) (shut alive);
  wt_ref : sourceRef s = Some k;
  wt_timers : timers s = {[k := (d, c)]};
  wt_next : nextTimer s = S k;
  wt_attempts : attempts s = a
}.

Lemma connect_signed_in s :
  let s1 := close_current s in
  connect sh_path c s
  = setSources (sources s1 ++ [alive]) (Some (length (sources s1))) s1.
Proof. unfold connect. by rewrite Htok, eqb_str_false, Hsse by done. Qed.

Lemma round_start : round 0 0 (feed_step H (Effect true c) stream_init).
Proof. cbn [feed_step]. rewrite Hstart by done. rewrite connect_signed_in. by split. Qed.

Lemma last_source k : (replicate k (shut alive) ++ [alive]) !! k = Some alive.
Proof. rewrite lookup_app_r; rewrite length_replicate; [|done]. by rewrite Nat.sub_diag. Qed.

Lemma round_drop k a s :
  round k a s ->
  waiting k (dl (o a)) (en (o a)) (feed H [Opened k; Errored k] s).
Proof.
  intros [R1 R2 R3 R4 R5]. cbn [feed fold_left feed_step]. unfold on_source.
  rewrite R1, last_source. cbn match. cbn [so_open alive].
  rewrite Hopen, R5. set (s1 := setAttempts _ _).
  change (sources s1) with (sources s). rewrite R1, last_source. cbn match.
  cbn [so_open alive].
  destruct (Herror k alive s1 R3) as (E1 & E2 & E3 & E4 & E5).
  split.
  - rewrite E1. change (sources s1) with (sources s). rewrite R1.
    pose proof (alter_app_r shut (replicate k (shut alive)) [alive] 0) as Ea.
    rewrite length_replicate, Nat.add_0_r in Ea. rewrite Ea.
    cbn. by rewrite replicate_cons_app.
  - by rewrite E2.
  - rewrite E3. cbn. by rewrite R4.
  - rewrite E4. cbn. rewrite R4. lia.
  - by rewrite E5.
Qed.

Lemma waiting_fires k d a s : waiting k d a s -> round (S k) a (feed_step H (Fires k) s).
Proof.
  intros [W1 W2 W3 W4 W5]. cbn [feed_step]. rewrite W3, lookup_singleton_eq.
  rewrite connect_signed_in. unfold close_current. cbn [setTimers sourceRef]. rewrite W2.
  set (s1 := close k _).
  assert (sources s1 = replicate (S k) (shut alive)) as E.
  { unfold s1, close. cbn [setSources sources setTimers]. rewrite W1.
    rewrite replicate_S_end. pose proof (alter_app_r shut (replicate k (shut alive)) [shut alive] 0) as Ea.
    rewrite length_replicate, Nat.add_0_r in Ea. by rewrite Ea. }
  rewrite E, length_replicate. split; cbn; try done. by rewrite delete_singleton_eq.
Qed.

Lemma rounds k :
  round k (Nat.iter k (fun a => en (o a)) 0)
    (feed H (Effect true c :: concat (map (fun i => [Opened i; Errored i; Fires i]) (seq 0 k)))
       stream_init).
Proof.
  induction k as [|k IH].
  - apply round_start.
  - rewrite seq_S, map_app, concat_app. unfold feed in *. cbn [fold_left] in IH |- *.
    rewrite fold_left_app. cbn [map concat Nat.add app fold_left] in IH |- *.
    eapply waiting_fires. apply (round_drop k _ _ IH).
Qed.

Lemma drops_waiting k :
  let a := Nat.iter k (fun a => en (o a)) 0 in
  waiting k (dl (o a)) (en (o a)) (feed H (drops c k) stream_init).
Proof.
  intros a. unfold drops, feed. cbn [fold_left]. rewrite fold_left_app.
  apply round_drop. apply (rounds k).
Qed.
End Rounds.

Lemma backing_off_fields i so s :
  timers s = ∅ ->
  let s' := Audit.onerror i so s in
  sources s' = alter shut i (sources s) /\ sourceRef s' = sourceRef s
  /\ timers s' = {[nextTimer s := (backoff (attempts s + 1), so_cfg so)]}
  /\ nextTimer s' = (nextTimer s + 1)%nat /\ attempts s' = attempts s + 1.
Proof.
  intros He. unfold Audit.onerror, clear_timer. cbn.
  destruct (timerRef s); cbn; rewrite He, ?delete_empty; repeat split.
Qed.

Lemma iter_count k : Nat.iter k (fun a => a + 1) 0 = Z.of_nat k.
Proof. induction k as [|k IH]; [done|]. change (Nat.iter k (fun a => a + 1) 0 + 1 = Z.of_nat (S k)). lia. Qed.

(** A connection that opens and drops again and again: useAuditStream never resets
    its attempt counter, so the delay doubles from 5 to 30 seconds and stays there and the
    counter keeps growing, while useTokenEvents counts from the last opening and
    useThreatFeed does not count: both wait 5 seconds each time.  Each time exactly one
    timer is pending. *)
Lemma reconnect_delays c tok k :
  cf_token c = Some tok -> tok <> "" -> cf_sse c = true ->
  let audit := feed audit_stream (drops c k) stream_init in
  let token := feed token_events (drops c k) stream_init in
  let threat := feed threat_feed (drops c k) stream_init in
  timers audit = {[k := (Z.min (5000 * 2 ^ Z.of_nat k) 30000, c)]}
  /\ attempts audit = Z.of_nat k + 1
  /\ timers token = {[k := (5000, c)]} /\ attempts token = 1
  /\ timers threat = {[k := (5000, c)]}.
Proof.
  intros Htok Hne Hsse. cbv zeta.
  pose proof (drops_waiting audit_stream c tok (fun a => a) (fun a => a + 1)
                (fun a => backoff (a + 1)) Htok Hne Hsse) as Wa.
  pose proof (drops_waiting token_events c tok (fun _ => 0) (fun a => a + 1)
                (fun a => backoff (a + 1)) Htok Hne Hsse) as Wt.
  pose proof (drops_waiting threat_feed c tok (fun a => a) (fun a => a)
                (fun _ => 5000) Htok Hne Hsse) as Wf.
  destruct (Wa ltac:(intros [] ?; cbn in *; by subst) ltac:(done)
              ltac:(intros; apply backing_off_fields; done) k) as [_ _ Ta _ Aa].
  destruct (Wt ltac:(done) ltac:(done)
              ltac:(intros; apply backing_off_fields; done) k) as [_ _ Tt _ At].
  destruct (Wf ltac:(done) ltac:(intros ? []; done)
              ltac:(intros i so s He; cbn; rewrite He; repeat split) k) as [_ _ Tf _ _].
  rewrite Ta, Aa, Tt, At, Tf, iter_count. split; [|done].
  unfold backoff. do 3 f_equal. f_equal. f_equal. lia.
Qed.

(** Every event the audit stream keeps has a severity to filter by. *)
Lemma with_severity_set v v' : Audit.with_severity v = Some v' -> truthy (Audit.severity v') = true.
Proof.
  destruct v as [| | | | |l|l]; try done; unfold Audit.with_severity.
  - by intros [= <-].
  - destruct (truthy _) eqn:E; intros [= <-]; [done|].
    cbn -[assoc_set]. unfold opt_prop, prop. rewrite assoc_set_eq.
    cbn [from_option id]. by destruct (_ || _)%bool.
Qed.

(** A manual [reconnect] of the audit stream leaves the pending timer armed: when it
    fires it closes the connection that was opened meanwhile. *)
Example manual_reconnect_dropped (c : config) :
  cf_token c = Some "t" -> cf_sse c = true ->
  let s := feed audit_stream [Effect true c; Errored 0; Reconnect c; Opened 1; Fires 0]
             stream_init in
  map so_open (sources s) = [false; false; true] /\ isConnected s = true.
Proof. destruct c; cbn; intros -> ->. by split. Qed.

(** ** Witnesses *)

Definition demo_config : config := Config (Some "t") "" "t1" 2 true.

Definition demo_feed : list input :=
  [Effect true demo_config; Opened 0;
   Message 0 (stringify (JObj [("id", JStr "1")]));
   Message 0 (stringify (JObj [("id", JStr "2"); ("result", JStr "denied")]));
   Message 0 (stringify (JObj [("id", JStr "3")])); Message 0 "{";
   Errored 0].

Example demo_feed_state :
  let s := feed audit_stream demo_feed stream_init in
  map (fun v => to_str (opt_prop v "id")) (events s) = ["3"; "2"]
  /\ map Audit.severity (events s) = [JStr "info"; JStr "warning"]
  /\ error s = Some "Connection lost (attempt 1). Reconnecting...".
Proof. vm_compute. auto. Qed.

Lemma stream_hooks_sound_witness :
  let s := feed audit_stream demo_feed stream_init in
  (length (events s) <= 2)%nat /\ timers (feed_step audit_stream Unmount s) = ∅.
Proof.
  destruct (stream_hooks_sound audit_stream 2 demo_feed) as (_ & _ & Hl & Ht & _).
  - left. reflexivity.
  - unfold demo_feed, demo_config. repeat constructor.
  - split; [exact Hl|exact Ht].
Defined.

Lemma reconnect_delays_witness :
  timers (feed audit_stream (drops demo_config 3) stream_init) = {[3%nat := (30000, demo_config)]}.
Proof.
  destruct (reconnect_delays demo_config "t" 3) as (H & _); [reflexivity|discriminate|reflexivity|].
  exact H.
Defined.
