(* ===== verification/ErpReact.v ===== *)
(** * ERP example, the browser (examples/erp-react/src/lib/auth.ts)

    The state is the module's two variables.  A verification that [getUser] starts and
    does not wait for is returned beside its result; the caller runs it as a call of
    its own.  The digest is the platform's, a parameter. *)

From S2P Require Import Prelude JsValue JsString Json Effects Base64 ApiClient.

Record erp_config := {
  GGID_URL : string;
  CLIENT_ID : string;
  REDIRECT_URI : string;
  API_BASE : string
}.

Definition TENANT : string := "00000000-0000-0000-0000-000000000003".

Record erp_tab := { cachedUser : js; cachedToken : js }.
Definition erp_init : erp_tab := {| cachedUser := JNull; cachedToken := JNull |}.

Definition set_user (u : js) : prog erp_tab unit :=
  upd (fun s => Build_erp_tab u (cachedToken s)).
Definition set_token (t : js) : prog erp_tab unit :=
  upd (fun s => Build_erp_tab (cachedUser s) t).

Definition hasPermission (user : js) (perm : string) : option bool :=
  if negb (truthy user) then Some false
  else
    let permissions := opt_prop user "permissions" in
    admin ← js_includes permissions "admin";
    if (admin : bool) then Some true
    else
      direct ← js_includes permissions perm;
      if (direct : bool) then Some true else js_includes permissions (perm +:+ ":all").

Section ErpReact.
Context (cfg : erp_config) (browser : bool) (sha256 : list Z -> list Z).

Definition user_of (data : js) : js :=
  let d k := opt_prop data k in
  JObj [("user_id", js_or_list [d "sub"; d "user_id"] (JStr ""));
        ("username", js_or_list [d "username"; d "preferred_username"] (JStr "user"));
        ("email", js_or (d "email") (JStr "")); ("roles", js_or (d "roles") (JArr []));
        ("permissions", js_or (d "permissions") (JArr []))].

Definition verify_request (token : js) : request :=
  Request GET (API_BASE cfg +:+ "/api/auth/verify")
    [("Authorization", "Bearer " +:+ to_str token)] None.

(** A token is a string, so [===] is equality. *)
Definition verifyToken (token : js) : prog erp_tab js :=
  s ← get_state;
  if bool_decide (cachedToken s = token) && truthy (cachedUser s) then mret (cachedUser s)
  else
    try_catch (
      res ← fetch (verify_request token);
      if negb (rs_ok res) then mret JNull
      else
        data ← resp_json res;
        get data "sub";;
        let user := user_of data in
        set_token token;;
        set_user user;;
        mret user)
      (fun _ => mret JNull).

Definition getToken : prog erp_tab (option string) :=
  if browser then getItem Local "erp_token" else mret None.

(** [if (u) cachedUser = u]. *)
Definition keep_user (u : js) : prog erp_tab unit :=
  if truthy u then set_user u else mret tt.

(** The user it returns, and the verification it leaves running. *)
Definition getUser : prog erp_tab (js * option (prog erp_tab unit)) :=
  if negb browser then mret (JNull, None)
  else
    s ← get_state;
    if truthy (cachedUser s) then mret (cachedUser s, None)
    else
      token ← getToken;
      match nonempty token with
      | None => mret (JNull, None)
      | Some token => mret (JNull, Some (u ← verifyToken (JStr token); keep_user u))
      end.

Definition getUserAsync : prog erp_tab js :=
  if negb browser then mret JNull
  else
    token ← getToken;
    match nonempty token with
    | None => mret JNull
    | Some token => verifyToken (JStr token)
    end.

Definition authHeader : prog erp_tab (list (string * string)) :=
  t ← getToken;
  mret (("X-Tenant-ID", TENANT)
        :: match nonempty t with
           | Some t => [("Authorization", "Bearer " +:+ t)]
           | None => []
           end).

Definition logout : prog erp_tab unit :=
  removeItem Local "erp_token";;
  removeItem Local "erp_pkce_verifier";;
  set_user JNull;;
  set_token JNull;;
  emit "navigate" (JStr "/login").

(** [{ verifier, challenge: '' }]. *)
Definition generatePKCE : prog erp_tab (string * string) :=
  array ← random_bytes 32; mret (bufferToB64url array, "").

Definition auth_url (challenge : string) : string :=
  GGID_URL cfg +:+ "/api/v1/oauth/authorize?" +:+ URLSearchParams [
    ("response_type", "code"); ("client_id", CLIENT_ID cfg);
    ("redirect_uri", REDIRECT_URI cfg); ("scope", "openid profile email");
    ("state", "erp-react-pkce"); ("code_challenge", challenge);
    ("code_challenge_method", "S256")].

Definition buildAuthUrl : prog erp_tab string :=
  pkce ← generatePKCE;
  let verifier := pkce.1 in
  setItem Local "erp_pkce_verifier" verifier;;
  digest ← Act OYield (fun _ => Ret (sha256 (map Z.of_nat (utf8 verifier))));
  mret (auth_url (bufferToB64url digest)).

Definition exchange_request (code verifier : string) : request :=
  Request POST (GGID_URL cfg +:+ "/api/v1/oauth/token")
    [("Content-Type", "application/x-www-form-urlencoded"); ("X-Tenant-ID", TENANT)]
    (Some (URLSearchParams [
      ("grant_type", "authorization_code"); ("code", code);
      ("redirect_uri", REDIRECT_URI cfg); ("client_id", CLIENT_ID cfg);
      ("code_verifier", verifier)])).

Definition exchangeCodeForToken (code : string) : prog erp_tab js :=
  verifier ← getItem Local "erp_pkce_verifier";
  match nonempty verifier with
  | None => mret JNull
  | Some verifier =>
      res ← fetch (exchange_request code verifier);
      if negb (rs_ok res) then mret JNull
      else
        data ← resp_json res;
        access_token ← get data "access_token";
        setItem Local "erp_token" (to_str access_token);;
        removeItem Local "erp_pkce_verifier";;
        user ← verifyToken access_token;
        keep_user user;;
        mret access_token
  end.
End ErpReact.

#[global] Arguments exchange_request : simpl never.
#[global] Arguments verify_request : simpl never.

(** ** Properties *)

(** The login round trip needs the verifier the page kept, and uses it once. *)
Lemma exchange_needs_verifier cfg e w code :
  nonempty (w_local w !! "erp_pkce_verifier") = None ->
  run e (exchangeCodeForToken cfg code) w = (Done JNull, w).
Proof. intros H. unfold exchangeCodeForToken. run_steps. cbn [w_area]. by rewrite H. Qed.

(** A synchronous [getUser] trusts the cache, whatever token the storage holds. *)
Lemma getUser_cached cfg e w :
  truthy (cachedUser (w_st w)) = true ->
  run e (getUser cfg true) w = (Done (cachedUser (w_st w), None), w).
Proof. intros H. unfold getUser. cbn [negb]. run_steps. by rewrite H. Qed.

Lemma truthy_user_of data : truthy (user_of data) = true.
Proof. done. Qed.

(** Logging out clears the token, the verifier and both caches; but a verification
    that was waiting for the server caches its user when the answer comes, so the page
    shows a signed-in user with no token in the storage: [getUser] returns the user who
    logged out, and requests go out without a credential. *)
Lemma logout_during_verification (cfg : erp_config) (e : env) w token resp data :
  (cachedToken (w_st w) <> token \/ truthy (cachedUser (w_st w)) = false) ->
  rs_ok resp = true -> JSON_parse (rs_body resp) = Some data -> is_nullish data = false ->
  let '(pending, w1) := sync e (verifyToken cfg token) w in
  let w2 := (run e logout w1).2 in
  cachedUser (w_st w2) = JNull /\ w_local w2 !! "erp_token" = None
  /\ w_local w2 !! "erp_pkce_verifier" = None
  /\ exists k w3, pending = Act (OFetch (verify_request cfg token)) k
     /\ run e (k (Some resp)) w2 = (Done (user_of data), w3)
     /\ run e (getUser cfg true) w3 = (Done (user_of data, None), w3)
     /\ run e (authHeader true) w3 = (Done [("X-Tenant-ID", TENANT)], w3).
Proof.
  intros Hc Hok Hj Hn. destruct w as [s l se sc t]. unfold verifyToken.
  cbn -[logout getUser authHeader run verify_request bool_decide] in *.
  replace (bool_decide (cachedToken s = token) && truthy (cachedUser s))%bool with false.
  2: { destruct Hc as [Hc| ->]; [by rewrite bool_decide_eq_false_2|by rewrite andb_false_r]. }
  cbn -[logout getUser authHeader run]. unfold logout at 1 2 3, set_user, set_token. run_steps.
  cbn [snd w_st w_local set_area set_st log].
  split; [done|]. split; [by rewrite lookup_delete_ne, lookup_delete_eq|].
  split; [by rewrite lookup_delete_eq|].
  do 2 eexists. split; [reflexivity|]. split.
  { unfold logout, set_user, set_token. run_steps. cbn [snd]. cbn. rewrite Hok. cbn. rewrite Hj. cbn.
    unfold get. destruct data; try done; cbn; reflexivity. }
  split; [by rewrite getUser_cached|].
  unfold authHeader, getToken. run_steps. cbn. by rewrite lookup_delete_ne, lookup_delete_eq.
Qed.

(** ** Witnesses *)

Definition demo_cfg : erp_config := Build_erp_config "https://g" "c" "https://app/callback" "https://api".

Definition demo_claims : js := JObj [("sub", JStr "u1")].

Definition demo_tab : world erp_tab := page erp_init {["erp_token" := "t"]}.

Lemma logout_during_verification_witness :
  exists k w3,
    (sync (const_env None 0) (verifyToken demo_cfg (JStr "t")) demo_tab).1
      = Act (OFetch (verify_request demo_cfg (JStr "t"))) k
    /\ run (const_env None 0) (k (Some (Response 200 (stringify demo_claims))))
         (run (const_env None 0) logout
            (sync (const_env None 0) (verifyToken demo_cfg (JStr "t")) demo_tab).2).2
       = (Done (user_of demo_claims), w3)
    /\ run (const_env None 0) (getUser demo_cfg true) w3
       = (Done (user_of demo_claims, None), w3).
Proof.
  pose proof (logout_during_verification demo_cfg (const_env None 0) demo_tab (JStr "t")
    (Response 200 (stringify demo_claims)) demo_claims) as H.
  destruct H as (_ & _ & _ & k & w3 & H1 & H2 & H3 & _);
    [right; reflexivity|reflexivity|vm_compute; reflexivity|reflexivity|].
  exists k, w3. split; [exact H1|]. split; [exact H2|exact H3].
Defined.

(** A code exchanged while the backend cannot verify the token: the new token is stored
    and returned, the cached user is still the previous one. *)
Example exchange_keeps_old_user :
  let w := page (Build_erp_tab (JStr "old user") (JStr "old token"))
             {["erp_pkce_verifier" := "v"]} in
  let '(o, w') := run (script_env [Some (Response 200 (stringify (JObj [("access_token", JStr "new")])));
                                   Some (Response 503 "")] (fun _ => 0%Z) (fun _ _ _ => None))
                    (exchangeCodeForToken demo_cfg "code") w in
  o = Done (JStr "new") /\ w_local w' !! "erp_token" = Some "new"
  /\ cachedUser (w_st w') = JStr "old user".
Proof. vm_compute. auto. Qed.
