(* ===== verification/AuthGuard.v ===== *)
(** * The console's route guard

    console/src/components/auth-guard.tsx: the component around every page of the
    console.  An effect, run on every navigation, validates the stored token and
    checks the scopes stored at login against a table of path prefixes; a listener
    reacts to the event [apiFetch] emits when a session cannot be refreshed; the
    render shows the page, a spinner or the bare public page.  The Next.js router
    and the window's location are events ("router.push", "router.replace",
    "location.replace"). *)

From S2P Require Import Prelude JsValue JsString Json Effects ApiClient Access.

Definition PUBLIC_PATHS : list string :=
  ["/login"; "/register"; "/forgot-password"; "/reset-password"; "/setup"].

(** [PUBLIC_PATHS.some((p) => pathname === p || pathname.startsWith(p))]. *)
Definition is_public (pathname : string) : bool :=
  existsb (fun p => String.eqb pathname p || starts_with p pathname) PUBLIC_PATHS.

(** [Object.entries(ADMIN_PREFIXES)]: string keys keep the order of the literal. *)
Definition ADMIN_PREFIXES : list (string * string) :=
  [("/users", "tenant"); ("/roles", "tenant"); ("/audit", "tenant");
   ("/organizations", "tenant"); ("/sessions", "user");
   ("/settings", "tenant"); ("/api-keys", "tenant"); ("/oauth-clients", "tenant");
   ("/webhooks", "tenant"); ("/policies", "tenant"); ("/security/", "tenant");
   ("/access-requests", "user"); ("/analytics/", "tenant"); ("/monitoring/", "tenant");
   ("/admin/tenants", "platform");
   ("/admin/audit", "platform");
   ("/admin/threats", "platform");
   ("/admin/impersonate", "tenant");
   ("/admin/secrets", "tenant");
   ("/admin/key-rotation", "tenant");
   ("/admin/backup", "tenant");
   ("/admin/settings", "tenant");
   ("/admin/feature-flags", "tenant");
   ("/admin/health", "tenant");
   ("/devices", "tenant");
   ("/access-reviews", "tenant");
   ("/activity", "user");
   ("/exports", "tenant");
   ("/providers/config", "tenant")].

Record guard_state := Guard { g_authenticated : bool; g_checked : bool }.

Definition guard_init : guard_state := Guard false false.

Definition setIsAuthenticated (b : bool) : prog guard_state unit :=
  upd (fun s => Guard b (g_checked s)).
Definition setChecked (b : bool) : prog guard_state unit :=
  upd (fun s => Guard (g_authenticated s) b).

Definition router_push {S} (url : string) : prog S unit := emit "router.push" (JStr url).
Definition router_replace {S} (url : string) : prog S unit := emit "router.replace" (JStr url).

(** [/login?redirect_to=...]. *)
Definition login_url (path : string) : string :=
  "/login?redirect_to=" +:+ encodeURIComponent path.

(** What the setup page clears, what an expired token clears, what the event clears. *)
Definition setup_keys : list string :=
  ["ggid_access_token"; "ggid_refresh_token"; "ggid_user_scopes"; "ggid_user_id"; "ggid_tenant_id"].
Definition expired_keys : list string :=
  ["ggid_access_token"; "ggid_refresh_token"; "ggid_session_id"; "ggid_user_scopes"; "ggid_user_id"].
Definition unauthorized_keys : list string :=
  ["ggid_access_token"; "ggid_refresh_token"; "ggid_session_id"; "ggid_tenant_id"; "ggid_user_id";
   "ggid_user_name"; "ggid_user_email"; "ggid_user_scopes"; "ggid_user_permissions"].

(** [userScopes.some] or [s.toLowerCase] is not a function. *)
Definition not_a_function : exn := type_error "is not a function".

(** The two scope tests of the effect; [None]: [s.toLowerCase] is not a function. *)
Definition guard_platform (s : js) : option bool :=
  ls ← js_lower s;
  Some (String.eqb ls "platform:admin" || String.eqb ls "platform administrator"
        || String.eqb ls "platform_admin").

Definition guard_tenant (s : js) : option bool :=
  ls ← js_lower s;
  Some (String.eqb ls "tenant:admin" || String.eqb ls "manager"
        || String.eqb ls "tenant administrator" || String.eqb ls "tenant_admin").

(** The text [["user:self"]] the scopes default to. *)
Definition user_self : string := "[" +:+ dq +:+ "user:self" +:+ dq +:+ "]".

(** The loop over the prefixes: whether it ends by redirecting. *)
Fixpoint prefix_denies (pathname : string) (isPlatform isTenant : bool)
    (l : list (string * string)) : bool :=
  match l with
  | [] => false
  | (prefix, scope) :: l' =>
      if starts_with prefix pathname
      then (String.eqb scope "tenant" && negb isTenant)
           || (String.eqb scope "platform" && negb isPlatform)
      else prefix_denies pathname isPlatform isTenant l'
  end.

Section AuthGuard.
(** [pathname] is the router's path; [window_path] is the window's location when the
    status request fails. *)
Context (pathname window_path : string).

(** No token on a page that needs one: the system's status decides where to go. *)
Definition guard_status : prog guard_state unit :=
  try_catch (
    resp ← fetch (Request GET "/api/v1/system/status" [] None);
    data ← resp_json resp;
    initialized ← get data "initialized";
    (if bool_decide (initialized = JBool false) then router_replace "/setup"
     else router_push (login_url pathname));;
    setChecked true)
    (fun _ => router_push (login_url window_path);; setChecked true).

(** The token's validation; [true]: it is expired and the effect ends. *)
Definition guard_verify (token : string) : prog guard_state bool :=
  try_catch (
    verifyResp ← fetch (Request GET "/api/v1/users/me" [("Authorization", "Bearer " +:+ token)] None);
    if (rs_status verifyResp =? 401)%Z then
      remove_all expired_keys;;
      setIsAuthenticated false;;
      setChecked true;;
      (if negb (is_public pathname) then router_push (login_url pathname) else mret tt);;
      mret true
    else mret false)
    (fun _ => mret false).

(** The route check, on the scopes stored at login. *)
Definition guard_routes : prog guard_state unit :=
  stored ← getItem Local "ggid_user_scopes";
  userScopes ← json_parse (default user_self (nonempty stored));
  isPlatform ← or_throw not_a_function (js_some userScopes guard_platform);
  isTenant ← or_throw not_a_function (js_some userScopes guard_tenant);
  if prefix_denies pathname isPlatform isTenant ADMIN_PREFIXES
  then router_replace "/dashboard";; setChecked true
  else setChecked true.

(** The effect of a navigation to [pathname]. *)
Definition guard_effect : prog guard_state unit :=
  stored ← getItem Local "ggid_access_token";
  let token := nonempty stored in
  if String.eqb pathname "/setup" then remove_all setup_keys;; setChecked true
  else if negb (bool_decide (is_Some token)) && negb (is_public pathname) then guard_status
  else match token with
       | Some t =>
           expired ← guard_verify t;
           if (expired : bool) then mret tt
           else setIsAuthenticated true;; guard_routes
       | None => setIsAuthenticated false;; setChecked true
       end.
End AuthGuard.

(** The listener of "ggid:unauthorized", on the window's current path. *)
Definition handleUnauthorized (currentPath : string) : prog guard_state unit :=
  if is_public currentPath then mret tt
  else
    remove_all unauthorized_keys;;
    setIsAuthenticated false;;
    emit "location.replace" (JStr (login_url currentPath)).

(** The render. *)
Inductive view := Spinner | BarePage | ConsolePage.

Definition guard_render (pathname : string) (s : guard_state) : view :=
  if negb (g_checked s) then Spinner
  else if is_public pathname then BarePage
  else if negb (g_authenticated s) then Spinner
  else ConsolePage.

#[global] Arguments guard_routes : simpl never.
#[global] Arguments guard_verify : simpl never.
#[global] Arguments guard_status : simpl never.

(** ** The policy the table stands for *)

(** The scopes the guard takes for each administrator. *)
Definition platform_scopes : list string :=
  ["platform:admin"; "platform administrator"; "platform_admin"].
Definition tenant_scopes : list string :=
  ["tenant:admin"; "manager"; "tenant administrator"; "tenant_admin"].

(** Whether a user with the scopes [l] lacks what the need [scope] of an entry asks. *)
Definition lacks_need (l : list string) (scope : string) : bool :=
  (String.eqb scope "tenant" && negb (any_scope tenant_scopes l))
  || (String.eqb scope "platform" && negb (any_scope platform_scopes l)).

(** A path is denied when some entry of the table covers it and its need is lacking. *)
Definition route_denied (l : list string) (pathname : string) : bool :=
  existsb (fun kv => starts_with kv.1 pathname && lacks_need l kv.2) ADMIN_PREFIXES.

Lemma starts_with_comparable p q s :
  starts_with p s = true -> starts_with q s = true ->
  starts_with p q = true \/ starts_with q p = true.
Proof.
  unfold starts_with. revert q s. induction p as [|c p IH]; intros q s; [left; by destruct q|].
  destruct q as [|d q]; [by right|]. destruct s as [|x s]; cbn; [done|].
  destruct (Ascii.ascii_dec c x) as [->|]; [|done].
  destruct (Ascii.ascii_dec d x) as [->|]; [|done].
  intros Hp Hq. destruct (Ascii.ascii_dec x x); [|done]. by apply (IH q s).
Qed.

(** No entry of a table covers another. *)
Fixpoint disjoint_prefixes (l : list (string * string)) : bool :=
  match l with
  | [] => true
  | (p, _) :: l' =>
      forallb (fun kv => negb (starts_with p kv.1) && negb (starts_with kv.1 p)) l'
      && disjoint_prefixes l'
  end.

Lemma disjoint_tail p scope l s :
  disjoint_prefixes ((p, scope) :: l) = true -> starts_with p s = true ->
  Forall (fun kv => starts_with kv.1 s = false) l.
Proof.
  cbn. intros H Hp. bool_prop. rewrite forallb_forall in H. apply Forall_forall.
  intros [q sc] Hin. specialize (H (q, sc)). rewrite list_elem_of_In in Hin.
  specialize (H Hin). cbn [fst] in *. bool_prop.
  destruct (starts_with q s) eqn:Hq; [|done].
  destruct (starts_with_comparable p q s Hp Hq); congruence.
Qed.

(** On such a table the first match is the only one, so the order of the literal is
    irrelevant. *)
Lemma prefix_denies_any s l t :
  disjoint_prefixes t = true ->
  prefix_denies s (any_scope platform_scopes l) (any_scope tenant_scopes l) t
  = existsb (fun kv => starts_with kv.1 s && lacks_need l kv.2) t.
Proof.
  induction t as [|[p scope] t IH]; [done|]. intros Hd.
  cbn [prefix_denies existsb fst snd]. destruct (starts_with p s) eqn:Hp; cbn [andb orb].
  - assert (existsb (fun kv => starts_with kv.1 s && lacks_need l kv.2) t = false) as ->.
    { apply Forall_existsb_false. eapply Forall_impl; [by eapply disjoint_tail|].
      cbn. by intros kv ->. }
    by rewrite orb_false_r.
  - apply IH. cbn in Hd. by bool_prop.
Qed.

Lemma guard_platform_str s : guard_platform (JStr s) = Some (str_mem (to_lower s) platform_scopes).
Proof. unfold guard_platform, js_lower. generalize (to_lower s). intros t. eqb_cases t. Qed.

Lemma guard_tenant_str s : guard_tenant (JStr s) = Some (str_mem (to_lower s) tenant_scopes).
Proof. unfold guard_tenant, js_lower. generalize (to_lower s). intros t. eqb_cases t. Qed.

(** The stored scopes are the texts [l], as every login page writes them; none stored
    stands for ["user:self"]. *)
Definition scopes_stored (m : gmap string string) (l : list string) : Prop :=
  match nonempty (m !! "ggid_user_scopes") with
  | Some text => JSON_parse text = Some (strs l)
  | None => l = ["user:self"]
  end.

Lemma scopes_stored_parse m l :
  scopes_stored m l -> JSON_parse (default user_self (nonempty (m !! "ggid_user_scopes"))) = Some (strs l).
Proof.
  unfold scopes_stored. destruct (nonempty _) as [text|]; [done|]. by intros ->.
Qed.

Section GuardRun.
Context (e : env) (pathname window_path : string).

Lemma run_guard_routes w l :
  scopes_stored (w_local w) l ->
  run e (guard_routes pathname) w =
  (Done tt, set_st (fun s => Guard (g_authenticated s) true)
              (if route_denied l pathname
               then log (ObsEmit "router.replace" (JStr "/dashboard")) w else w)).
Proof.
  intros Hs%scopes_stored_parse. unfold guard_routes. run_steps.
  cbn [w_area]. rewrite Hs. cbn match.
  rewrite (js_some_strs guard_platform _ l guard_platform_str). run_steps.
  rewrite (js_some_strs guard_tenant _ l guard_tenant_str). run_steps.
  change (existsb (fun s => str_mem (to_lower s) ?ks) l) with (any_scope ks l).
  fold (any_scope platform_scopes l) (any_scope tenant_scopes l).
  rewrite (prefix_denies_any pathname l ADMIN_PREFIXES) by done.
  unfold route_denied. destruct (existsb _ ADMIN_PREFIXES); unfold router_replace, setChecked; by run_steps.
Qed.

(** The request that validates the token, and the world it is answered in. *)
Definition me_request (t : string) : request :=
  Request GET "/api/v1/users/me" [("Authorization", "Bearer " +:+ t)] None.

Definition me_answer (t : string) (w : world guard_state) : option response :=
  server e (ObsFetch (me_request t) :: w_trace w) (me_request t).

(** The answer says the token is no longer valid. *)
Definition rejected (o : option response) : bool :=
  match o with Some r => (rs_status r =? 401)%Z | None => false end.

Lemma run_guard_verify w t :
  run e (guard_verify pathname t) w =
  if rejected (me_answer t w)
  then (Done true, (if is_public pathname then fun w => w
                    else log (ObsEmit "router.push" (JStr (login_url pathname))))
          (set_st (fun _ => Guard false true)
             (set_area Local (fun l => foldr delete l (rev expired_keys)) (log (ObsFetch (me_request t)) w))))
  else (Done false, log (ObsFetch (me_request t)) w).
Proof.
  unfold guard_verify, me_answer, me_request, setIsAuthenticated, setChecked, router_push. run_steps.
  autorewrite with world.
  destruct (server e _ _) as [r|]; cbn [rejected]; [|done].
  destruct (rs_status r =? 401)%Z; [|done]. run_steps.
  destruct (is_public pathname); cbn [negb]; run_steps; by destruct w.
Qed.
End GuardRun.

Lemma run_guard_token (e : env) w pathname window_path t :
  nonempty (w_local w !! "ggid_access_token") = Some t -> pathname <> "/setup" ->
  run e (guard_effect pathname window_path) w =
  run e (expired ← guard_verify pathname t;
         if (expired : bool) then mret tt else setIsAuthenticated true;; guard_routes pathname) w.
Proof.
  intros Ht Hp. unfold guard_effect. rewrite run_mbind, run_getItem. cbn [w_area].
  rewrite Ht, (eqb_str_false pathname) by done. rewrite bool_decide_true by eauto. done.
Qed.

(** What the storage holds after the keys [ks] were removed. *)
Definition forgets (ks : list string) (m m' : gmap string string) : Prop :=
  (forall k, In k ks -> m' !! k = None) /\ (forall k, ~ In k ks -> m' !! k = m !! k).

Lemma forgets_remove ks m : forgets ks m (foldr delete m (rev ks)).
Proof.
  split; intros k Hk; [apply lookup_foldr_delete; by rewrite <- in_rev|].
  apply lookup_foldr_delete_ne. by rewrite <- in_rev.
Qed.

Section GuardOutcomes.
Context (e : env) (w : world guard_state) (pathname window_path t : string).
Hypothesis (Ht : nonempty (w_local w !! "ggid_access_token") = Some t)
  (Hp : pathname <> "/setup").

Lemma run_guard_accepted l :
  rejected (me_answer e t w) = false -> scopes_stored (w_local w) l ->
  exists w', run e (guard_effect pathname window_path) w = (Done tt, w')
  /\ w_st w' = Guard true true
  /\ w_local w' = w_local w
  /\ w_trace w' =
       (if route_denied l pathname then [ObsEmit "router.replace" (JStr "/dashboard")] else [])
         ++ ObsFetch (me_request t) :: w_trace w.
Proof.
  intros Hr Hs. rewrite (run_guard_token e w pathname window_path t) by done.
  rewrite run_mbind, run_guard_verify, Hr. unfold setIsAuthenticated. run_steps.
  rewrite (run_guard_routes e pathname _ l) by by autorewrite with world.
  eexists. split; [done|]. destruct (route_denied l pathname); autorewrite with world; done.
Qed.

Lemma run_guard_rejected :
  rejected (me_answer e t w) = true ->
  exists w', run e (guard_effect pathname window_path) w = (Done tt, w')
  /\ w_st w' = Guard false true
  /\ forgets expired_keys (w_local w) (w_local w')
  /\ w_trace w' =
       (if is_public pathname then [] else [ObsEmit "router.push" (JStr (login_url pathname))])
         ++ ObsFetch (me_request t) :: w_trace w.
Proof.
  intros Hr. rewrite (run_guard_token e w pathname window_path t) by done.
  rewrite run_mbind, run_guard_verify, Hr. run_steps.
  eexists. split; [done|]. destruct (is_public pathname) eqn:E; autorewrite with world;
    (split_and!; [done|apply forgets_remove|done]).
Qed.

Lemma run_guard_bad_scopes text :
  rejected (me_answer e t w) = false ->
  nonempty (w_local w !! "ggid_user_scopes") = Some text -> JSON_parse text = None ->
  run e (guard_effect pathname window_path) w =
  (Raised syntax_error, set_st (fun s => Guard true (g_checked s)) (log (ObsFetch (me_request t)) w)).
Proof.
  intros Hr Hm Hj. rewrite (run_guard_token e w pathname window_path t) by done.
  rewrite run_mbind, run_guard_verify, Hr. unfold setIsAuthenticated, guard_routes. run_steps.
  cbn [w_area]. autorewrite with world. rewrite Hm. cbn [default from_option id]. by rewrite Hj.
Qed.
End GuardOutcomes.

(** ** Properties *)

(** C6. A navigation with a token that the server does not reject (it accepts it, or
    cannot be reached), when the stored scopes are an array of texts: the guard ends
    authenticated and checked, so it shows the page, having sent one request and left
    the storage alone; and it redirects to the dashboard exactly when some entry of the
    table covers the path and its administrator is not among the scopes, whatever the
    order of the entries. *)
Theorem guard_admits (e : env) (w : world guard_state) pathname window_path t l :
  nonempty (w_local w !! "ggid_access_token") = Some t ->
  pathname <> "/setup" ->
  rejected (me_answer e t w) = false ->
  scopes_stored (w_local w) l ->
  exists w', run e (guard_effect pathname window_path) w = (Done tt, w')
  /\ w_local w' = w_local w
  /\ w_trace w' =
       (if route_denied l pathname then [ObsEmit "router.replace" (JStr "/dashboard")] else [])
         ++ ObsFetch (me_request t) :: w_trace w
  /\ guard_render pathname (w_st w') = (if is_public pathname then BarePage else ConsolePage).
Proof.
  intros Ht Hp Hr Hs.
  destruct (run_guard_accepted e w pathname window_path t Ht Hp l Hr Hs) as (w' & Hrun & Hst & Hl & Htr).
  exists w'. split_and!; [done..|]. rewrite Hst. cbn. by destruct (is_public pathname).
Qed.

(** A navigation with a token the server rejects: the guard forgets the token, the
    refresh token, the session, the scopes and the user, and nothing else, ends
    unauthenticated, and sends the user to the login page with the way back, except on
    a public page, which it shows. *)
Lemma guard_expired (e : env) (w : world guard_state) pathname window_path t :
  nonempty (w_local w !! "ggid_access_token") = Some t ->
  pathname <> "/setup" ->
  rejected (me_answer e t w) = true ->
  exists w', run e (guard_effect pathname window_path) w = (Done tt, w')
  /\ forgets expired_keys (w_local w) (w_local w')
  /\ w_trace w' =
       (if is_public pathname then [] else [ObsEmit "router.push" (JStr (login_url pathname))])
         ++ ObsFetch (me_request t) :: w_trace w
  /\ guard_render pathname (w_st w') = (if is_public pathname then BarePage else Spinner).
Proof.
  intros Ht Hp Hr.
  destruct (run_guard_rejected e w pathname window_path t Ht Hp Hr) as (w' & Hrun & Hst & Hl & Htr).
  exists w'. split_and!; [done..|]. rewrite Hst. cbn. by destruct (is_public pathname).
Qed.

(** The last thing done was a redirect. *)
Definition redirected (t : list obs) : Prop :=
  exists f url t', t = ObsEmit f (JStr url) :: t' /\ (f = "router.push" \/ f = "router.replace").

Lemma run_guard_status e w pathname window_path :
  exists w', run e (guard_status pathname window_path) w = (Done tt, w')
  /\ g_checked (w_st w') = true /\ redirected (w_trace w').
Proof.
  unfold guard_status, router_push, router_replace, setChecked. run_steps.
  assert (forall w1 f url, (f = "router.push" \/ f = "router.replace") ->
    exists w', (Done (A:=unit) tt, set_st (fun s => Guard (g_authenticated s) true)
                          (log (ObsEmit f (JStr url)) w1)) = (Done tt, w')
    /\ g_checked (w_st w') = true /\ redirected (w_trace w')) as H.
  { intros w1 f url Hf. eexists. split; [done|]. autorewrite with world. split; [done|].
    by eexists _, _, _. }
  destruct (server e _ _) as [r|]; run_steps; [|eauto].
  destruct (JSON_parse (rs_body r)) as [data|]; run_steps; [|eauto].
  unfold get. destruct (prop data "initialized") as [v|]; run_steps; [|eauto].
  destruct (bool_decide _); run_steps; eauto.
Qed.

(** C22. When the guard decides.  With stored scopes that are an array of texts, or none, the
    check is over after the effect, whatever the servers answer or when they do not, and a
    spinner that is left is one behind which a redirect was just issued.  With scopes that
    are not JSON and a token that is not rejected it never decides: the effect ends in an
    exception and leaves the spinner with no redirect. *)
Theorem guard_settles (e : env) (w : world guard_state) pathname window_path l :
  scopes_stored (w_local w) l ->
  (exists w', run e (guard_effect pathname window_path) w = (Done tt, w')
   /\ g_checked (w_st w') = true
   /\ (guard_render pathname (w_st w') = Spinner -> redirected (w_trace w')))
  /\ (forall text m t, nonempty (m !! "ggid_user_scopes") = Some text -> JSON_parse text = None ->
      nonempty (m !! "ggid_access_token") = Some t -> pathname <> "/setup" ->
      let w0 := World guard_init m ∅ ∅ [] in
      rejected (me_answer e t w0) = false ->
      exists w', run e (guard_effect pathname window_path) w0 = (Raised syntax_error, w')
      /\ guard_render pathname (w_st w') = Spinner /\ ~ redirected (w_trace w')).
Proof.
  intros Hs. split.
  - destruct (decide (pathname = "/setup")) as [->|Hp].
    { unfold guard_effect, setChecked. run_steps. rewrite String.eqb_refl. run_steps.
      eexists. split; [done|]. by autorewrite with world. }
    destruct (nonempty (w_local w !! "ggid_access_token")) as [t|] eqn:Ht.
    + destruct (rejected (me_answer e t w)) eqn:Hr.
      * destruct (run_guard_rejected e w pathname window_path t Ht Hp Hr) as (w' & Hrun & Hst & _ & Htr).
        exists w'. rewrite Hst, Htr. split_and!; [done..|].
        unfold guard_render. destruct (is_public pathname); cbn; [by intros [=]|]. intros _.
        eexists _, _, _. split; [done|]. by left.
      * destruct (run_guard_accepted e w pathname window_path t Ht Hp l Hr Hs) as (w' & Hrun & Hst & _).
        exists w'. rewrite Hst. split_and!; [done..|].
        unfold guard_render. destruct (is_public pathname); cbn; by intros [=].
    + unfold guard_effect, setIsAuthenticated, setChecked. run_steps. cbn [w_area]. rewrite Ht.
      rewrite (eqb_str_false pathname) by done.
      rewrite bool_decide_false by (by intros [? [=]]). cbn [negb andb].
      destruct (is_public pathname) eqn:Hpub; cbn [negb]; run_steps.
      * eexists. split; [done|]. autorewrite with world. split; [done|]. unfold guard_render.
        by rewrite Hpub.
      * destruct (run_guard_status e w pathname window_path) as (w' & -> & Hc & Hd). by eauto.
  - intros text m t Hm Hj Ht Hp w0 Hr.
    rewrite (run_guard_bad_scopes e w0 pathname window_path t Ht Hp text Hr Hm Hj).
    eexists. split; [done|]. split; [done|]. by intros (f & url & t' & [=] & _).
Qed.

(** ** The guard and the sidebar *)

(** The paths of the groups with a required scope. *)
Definition nav_hrefs (scope : string) : list string :=
  flat_map (fun g => if bool_decide (group_scope g = Some scope) then map href (items g) else [])
    navGroups.

Definition shown_hrefs (gs : list NavGroup) : list string := flat_map (fun g => map href (items g)) gs.

(** A tenant administrator known by the scope "tenant:admin" alone: the sidebar
    shows every link of the platform group, and the guard sends each of them back to
    the dashboard; the guard lets them open every page of the manager groups, and the
    sidebar shows none of these links. *)
Lemma tenant_admin_dead_links l r perms :
  any_scope ["tenant:admin"] l = true ->
  any_scope platform_scopes l = false ->
  useUserRole (strs l) = Some r ->
  exists gs, roleFilteredGroups r perms = Some gs
  /\ (forall h, In h (nav_hrefs "platform") -> In h (shown_hrefs gs) /\ route_denied l h = true)
  /\ (forall h, In h (nav_hrefs "manager") -> ~ In h (shown_hrefs gs) /\ route_denied l h = false).
Proof.
  intros Ht Hp Hr. destruct (useUserRole_strs l r Hr) as (_ & Hrole & _).
  rewrite (role_of_list_tenant l) in Hrole by (eapply any_scope_incl; [|done]; cbn; tauto).
  assert (any_scope tenant_scopes l = true) as Ht' by (eapply any_scope_incl; [|done]; cbn; tauto).
  rewrite (sidebar_groups (strs l) r perms Hr), Hrole. eexists. split; [done|].
  assert (forall h, route_denied l h =
    existsb (fun kv => starts_with kv.1 h && ((String.eqb kv.2 "tenant" && negb true)
                                              || (String.eqb kv.2 "platform" && negb false)))
      ADMIN_PREFIXES) as Hd by (intros h; unfold route_denied, lacks_need; by rewrite Ht', Hp).
  split; intros h Hin; rewrite Hd, <- ?str_mem_In.
  - apply andb_true_iff. revert h Hin. by apply forallb_forall.
  - assert (negb (str_mem h (shown_hrefs (List.filter (role_sees platform_admin) navGroups)))
            && negb (existsb (fun kv => starts_with kv.1 h
                 && ((String.eqb kv.2 "tenant" && negb true) || (String.eqb kv.2 "platform" && negb false)))
                 ADMIN_PREFIXES) = true) as H
      by (revert h Hin; by apply forallb_forall).
    bool_prop. split; [congruence|done].
Qed.

(** Pages the table does not cover are open to every signed-in user; the platform's
    start page and the security overview are among them. *)
Example uncovered_pages l : Forall (fun h => route_denied l h = false)
  ["/admin"; "/security"; "/analytics"; "/monitoring"; "/api-explorer"; "/onboarding"].
Proof. by repeat constructor. Qed.

(** ** Witnesses *)

Definition demo_guard (scopes : string) : world guard_state :=
  page guard_init ({["ggid_access_token" := "T"; "ggid_user_scopes" := scopes]}).

Definition status_env (n : Z) : env := const_env (Some (Response n "{}")) 0.

(** A response to no listener: the network is down. *)
Definition offline : env := const_env None 0.

Lemma guard_admits_witness :
  exists w', run offline (guard_effect "/users/7" "/") (demo_guard (stringify (strs ["User"])))
             = (Done tt, w')
  /\ w_local w' = w_local (demo_guard (stringify (strs ["User"])))
  /\ w_trace w' = (if route_denied ["User"] "/users/7"
                   then [ObsEmit "router.replace" (JStr "/dashboard")] else [])
                  ++ ObsFetch (me_request "T") :: []
  /\ guard_render "/users/7" (w_st w') = (if is_public "/users/7" then BarePage else ConsolePage).
Proof.
  apply (guard_admits offline (demo_guard (stringify (strs ["User"]))) "/users/7" "/" "T" ["User"]);
    vm_compute; done.
Defined.

Lemma guard_expired_witness :
  exists w', run (status_env 401) (guard_effect "/users" "/") (demo_guard "") = (Done tt, w')
  /\ forgets expired_keys (w_local (demo_guard "")) (w_local w')
  /\ w_trace w' = (if is_public "/users" then []
                   else [ObsEmit "router.push" (JStr (login_url "/users"))])
                  ++ ObsFetch (me_request "T") :: []
  /\ guard_render "/users" (w_st w') = (if is_public "/users" then BarePage else Spinner).
Proof. apply (guard_expired (status_env 401) (demo_guard "") "/users" "/" "T"); vm_compute; done. Defined.

Lemma guard_settles_witness :
  exists w', run offline (guard_effect "/users" "/") (demo_guard "") = (Done tt, w')
   /\ g_checked (w_st w') = true
   /\ (guard_render "/users" (w_st w') = Spinner -> redirected (w_trace w')).
Proof. apply (guard_settles offline (demo_guard "") "/users" "/" ["user:self"]). reflexivity. Defined.

Lemma tenant_admin_dead_links_witness :
  exists gs, roleFilteredGroups (Build_user_role platform_admin ["tenant:admin"] true false true)
               (JArr []) = Some gs
  /\ (forall h, In h (nav_hrefs "platform") ->
      In h (shown_hrefs gs) /\ route_denied ["tenant:admin"] h = true)
  /\ (forall h, In h (nav_hrefs "manager") ->
      ~ In h (shown_hrefs gs) /\ route_denied ["tenant:admin"] h = false).
Proof.
  apply (tenant_admin_dead_links ["tenant:admin"]
    (Build_user_role platform_admin ["tenant:admin"] true false true) (JArr [])); reflexivity.
Defined.

(** The session ends while a token is being validated: the answer still opens the page,
    with no token left in the storage. *)
Example unauthorized_during_verification :
  let e := status_env 200 in
  let '(p, w1) := sync e (guard_effect "/users" "/users") (demo_guard "") in
  let '(_, w2) := run e (handleUnauthorized "/users") w1 in
  let '(_, w3) := run e p w2 in
  w_local w3 !! "ggid_access_token" = None
  /\ guard_render "/users" (w_st w2) = Spinner
  /\ guard_render "/users" (w_st w3) = ConsolePage.
Proof. vm_compute. done. Qed.
