(* ===== verification/Login.v ===== *)
(** * The console's sign-in pages

    console/src/app/login/page.tsx, register/page.tsx, forgot-password/page.tsx and
    setup/page.tsx.  A handler is a closure over the render it was created in: the
    form fields and the tenant it reads are arguments.  The state cells of the login
    page fall into three independent parts (the form, the tenant, what the servers say
    the page offers), one record each. *)

From S2P Require Import Prelude JsValue JsString Json Effects Base64 ApiClient TenantResolve.

(** ** What a sign-in writes *)

Definition login_failure (x : exn) : string := e_message x.

(** [localStorage.setItem(k, v)] of an untyped value. *)
Definition store {S} (k : string) (v : js) : prog S unit := setItem Local k (to_str v).

(** The two tokens of an answer, as every sign-in of the login page keeps them. *)
Definition store_tokens {S} (data : js) : prog S unit :=
  access_token ← get data "access_token";
  store "ggid_access_token" access_token;;
  refresh_token ← get data "refresh_token";
  if truthy refresh_token then store "ggid_refresh_token" refresh_token else mret tt.

(** [try { payload = JSON.parse(atob(token.split(".")[1])); ... } catch {}]: the body runs
    on a payload that is an object or another value with properties. *)
Definition with_payload {S} (token : js) (body : js -> prog S unit) : prog S unit :=
  match jwt_payload token with
  | Some ((JBool _ | JNum _ | JStr _ | JArr _ | JObj _) as payload) => body payload
  | _ => mret tt
  end.

(** [payload.scopes || payload.roles || ["user"]], stored as an array. *)
Definition store_scopes {S} (payload : js) : prog S unit :=
  let userScopes := js_or_list [opt_prop payload "scopes"; opt_prop payload "roles"]
                      (JArr [JStr "user"]) in
  setItem Local "ggid_user_scopes" (stringify (as_array userScopes)).

(** ** The form *)

Inductive Step := credentials | mfa.

Record form_state := Form {
  f_step : Step;
  mfaToken : js;
  f_error : string;
  rateLimitSeconds : js;
  f_loading : bool
}.

Definition form_init : form_state := Form credentials (JStr "") "" (JNum 0) false.

Definition setStep (v : Step) : prog form_state unit :=
  upd (fun s => Form v (mfaToken s) (f_error s) (rateLimitSeconds s) (f_loading s)).
Definition setMfaToken (v : js) : prog form_state unit :=
  upd (fun s => Form (f_step s) v (f_error s) (rateLimitSeconds s) (f_loading s)).
Definition setError (v : string) : prog form_state unit :=
  upd (fun s => Form (f_step s) (mfaToken s) v (rateLimitSeconds s) (f_loading s)).
Definition setRateLimitSeconds (v : js) : prog form_state unit :=
  upd (fun s => Form (f_step s) (mfaToken s) (f_error s) v (f_loading s)).
Definition setLoading (v : bool) : prog form_state unit :=
  upd (fun s => Form (f_step s) (mfaToken s) (f_error s) (rateLimitSeconds s) v).

(** One tick of the countdown: the timer fires while the seconds are positive. *)
Definition countdown (seconds : Z) : option Z :=
  if (seconds <=? 0)%Z then None else Some (seconds - 1)%Z.

Section Form.
Context (API_BASE resolvedTenantId username password redirectTo : string).

Definition password_grant (extra : list (string * string)) : list (string * string) :=
  [("grant_type", "password"); ("username", username); ("password", password);
   ("client_id", "gcid-console"); ("scope", "openid profile email offline_access")] ++ extra.

Definition token_request (extra : list (string * string)) : request :=
  Request POST (API_BASE +:+ "/oauth/token")
    [("Content-Type", "application/x-www-form-urlencoded"); ("X-Tenant-ID", resolvedTenantId)]
    (Some (URLSearchParams (password_grant extra))).

(** [data.error_description || data.error || fallback]. *)
Definition refusal (data : js) (fallback : string) : js :=
  js_or_list [opt_prop data "error_description"; opt_prop data "error"] (JStr fallback).

(** The call of [syncSignalAfterLogin] (Webauthn.v), started and not awaited. *)
Definition sync_signal : prog form_state unit := emit "syncSignalAfterLogin" JUndef.

Definition handleCredentials : prog form_state unit :=
  setLoading true;;
  setError "";;
  try_catch (
    resp ← fetch (token_request []);
    data ← resp_json resp;
    if negb (rs_ok resp) then
      get data "error_description";;
      let msg := refusal data "Login failed" in
      if js_is_str (opt_prop data "error") "mfa_required" || truthy (opt_prop data "mfa_required")
      then
        setMfaToken (js_or_list [opt_prop data "mfa_token"; opt_prop data "access_token"] (JStr ""));;
        setStep mfa;;
        setLoading false
      else
        (if (rs_status resp =? 429)%Z && truthy (opt_prop data "retry_after")
         then setRateLimitSeconds (opt_prop data "retry_after") else mret tt);;
        Throw (error (to_str msg))
    else
      store_tokens data;;
      setItem Local "ggid_tenant_id" resolvedTenantId;;
      with_payload (opt_prop data "access_token") (fun payload =>
        store_scopes payload;;
        let permissions := opt_prop payload "permissions" in
        if truthy permissions then setItem Local "ggid_user_permissions" (stringify permissions)
        else mret tt);;
      sync_signal;;
      emit "router.replace" (JStr redirectTo))
    (fun err => setError (login_failure err);; setLoading false).

Context (useBackupCode : bool) (totpCode backupCode : string).

Definition handleMfa : prog form_state unit :=
  setLoading true;;
  setError "";;
  try_catch (
    resp ← fetch (token_request [("mfa_code", if useBackupCode then "" else totpCode);
                                 ("backup_code", if useBackupCode then backupCode else "")]);
    data ← resp_json resp;
    if negb (rs_ok resp) then
      get data "error_description";;
      Throw (error (to_str (refusal data "MFA verification failed")))
    else
      store_tokens data;;
      with_payload (opt_prop data "access_token") store_scopes;;
      emit "router.replace" (JStr redirectTo))
    (fun err => setError (login_failure err);; setLoading false).

(** [window.location.href = ...]. *)
Definition handleSocialLogin (origin provider : string) : prog form_state unit :=
  emit "location.href" (JStr (API_BASE +:+ "/api/v1/auth/social/" +:+ provider +:+ "?"
    +:+ URLSearchParams [("tenant_id", resolvedTenantId);
                         ("redirect_uri", origin +:+ "/auth/callback")])).
End Form.

(** ** The tenant *)

Record tenant_state := Tenant {
  tenantSlug : string;
  resolvedTenantId : js;
  tenantError : string;
  tenantResolved : bool;
  resolver : resolve_state
}.

Definition setTenantSlug (v : string) : prog tenant_state unit :=
  upd (fun s => Tenant v (resolvedTenantId s) (tenantError s) (tenantResolved s) (resolver s)).
Definition setResolvedTenantId (v : js) : prog tenant_state unit :=
  upd (fun s => Tenant (tenantSlug s) v (tenantError s) (tenantResolved s) (resolver s)).
Definition setTenantError (v : string) : prog tenant_state unit :=
  upd (fun s => Tenant (tenantSlug s) (resolvedTenantId s) v (tenantResolved s) (resolver s)).
Definition setTenantResolved (v : bool) : prog tenant_state unit :=
  upd (fun s => Tenant (tenantSlug s) (resolvedTenantId s) (tenantError s) v (resolver s)).

(** The module variable of api-config.ts that [resolveTenantSlug] keeps. *)
Definition resolver_lens : lens tenant_state resolve_state :=
  Lens resolver (fun f s => Tenant (tenantSlug s) (resolvedTenantId s) (tenantError s)
                              (tenantResolved s) (f (resolver s))).

#[export] Instance resolver_laws : LensLaws resolver_lens.
Proof. split; [done|done|by intros []|]. intros f g [] H. cbn in *. by rewrite H. Qed.

(** [/^[0-9a-f]{8}-[0-9a-f]{4}-[0-9a-f]{4}-[0-9a-f]{4}-[0-9a-f]{12}$/i]. *)
Definition is_hex (c : Ascii.ascii) : bool :=
  let n := code c in
  ((48 <=? n) && (n <=? 57) || (97 <=? n) && (n <=? 102) || (65 <=? n) && (n <=? 70))%nat.

Definition is_uuid (s : string) : bool :=
  match split_on "-"%char s with
  | [a; b; c; d; e] =>
      forallb (fun p => (String.length p.1 =? p.2)%nat && str_forall is_hex p.1)
        [(a, 8); (b, 4); (c, 4); (d, 4); (e, 12)]
  | _ => false
  end.

Section Tenant.
Context (API_BASE DEFAULT_TENANT_ID : string).

(** The lookup of a tenant, sent without a header. *)
Definition lookup_request (slug : string) : request :=
  Request GET (API_BASE +:+ "/api/v1/tenants/resolve?slug=" +:+ slug) [] None.

(** The effect on mount; [slug] is [getEffectiveTenantSlug()]. *)
Definition tenant_mount (slug : string) : prog tenant_state unit :=
  let effectiveSlug := str_or slug "default" in
  setTenantSlug effectiveSlug;;
  id ← zoom resolver_lens (resolveTenantSlug API_BASE effectiveSlug);
  match id with
  | Some id => setResolvedTenantId id;; store "ggid_tenant_id" id
  | None =>
      try_catch (
        r ← fetch (lookup_request "default");
        d ← (if rs_ok r then resp_json r else mret JNull);
        let fallbackId := js_or_list [opt_prop d "id"; opt_prop d "tenant_id"]
                            (JStr DEFAULT_TENANT_ID) in
        setResolvedTenantId fallbackId;;
        store "ggid_tenant_id" fallbackId)
        (fun _ => setResolvedTenantId (JStr DEFAULT_TENANT_ID))
  end.

(** The blur of the tenant field. *)
Definition resolveTenant (slug : string) : prog tenant_state unit :=
  if String.eqb slug "" || String.eqb slug DEFAULT_TENANT_ID then
    setTenantError "";;
    setTenantResolved false;;
    setResolvedTenantId (JStr DEFAULT_TENANT_ID)
  else if is_uuid slug then
    setTenantError "";;
    setTenantResolved true;;
    setResolvedTenantId (JStr slug);;
    setItem Local "ggid_tenant_id" slug
  else
    try_catch (
      res ← fetch (lookup_request (encodeURIComponent slug));
      if rs_ok res then
        data ← resp_json res;
        id ← get data "id";
        let tid := js_or_list [id; opt_prop data "tenant_id"] (opt_prop data "tenantId") in
        setTenantError "";;
        setTenantResolved true;;
        (if truthy tid then setResolvedTenantId tid;; store "ggid_tenant_id" tid else mret tt)
      else
        setTenantError "Organization not found";;
        setTenantResolved false)
      (fun _ => setTenantError "";; setTenantResolved false).

(** The text typed into the field. *)
Definition tenant_change (value : string) : prog tenant_state unit :=
  setTenantSlug value;; setTenantResolved false;; setTenantError "".
End Tenant.

(** ** What the page offers *)

Record offer_state := Offer {
  connectors : js;
  connectorsLoaded : bool;
  authMethods : js;
  systemInitialized : option bool;
  initUserCount : js
}.

Definition offer_init : offer_state := Offer (JArr []) false (strs ["password"]) None (JNum 0).

Definition setConnectors (v : js) : prog offer_state unit :=
  upd (fun s => Offer v (connectorsLoaded s) (authMethods s) (systemInitialized s) (initUserCount s)).
Definition setConnectorsLoaded (v : bool) : prog offer_state unit :=
  upd (fun s => Offer (connectors s) v (authMethods s) (systemInitialized s) (initUserCount s)).
Definition setAuthMethods (v : js) : prog offer_state unit :=
  upd (fun s => Offer (connectors s) (connectorsLoaded s) v (systemInitialized s) (initUserCount s)).
Definition setSystemInitialized (v : bool) : prog offer_state unit :=
  upd (fun s => Offer (connectors s) (connectorsLoaded s) (authMethods s) (Some v) (initUserCount s)).
Definition setInitUserCount (v : js) : prog offer_state unit :=
  upd (fun s => Offer (connectors s) (connectorsLoaded s) (authMethods s) (systemInitialized s) v).

(** Whether the provider behind a configured method is ready. *)
Definition method_ready (status m : js) : bool :=
  if js_is_str m "password" then true
  else if js_is_str m "passkey" then true
  else if js_is_str m "sms_otp" then bool_decide (opt_prop status "sms_otp" = JBool true)
  else if js_is_str m "email_otp" then bool_decide (opt_prop status "email_otp" = JBool true)
  else true.

Section Offer.
Context (API_BASE resolvedTenantId : string) (auth : list (string * string)).

(** [auth] is [authHeader()], whose headers come last in the first request and first in
    the second. *)
Definition fetch_auth_methods : prog offer_state unit :=
  try_catch (
    r ← fetch (Request GET (API_BASE +:+ "/api/v1/oauth/clients/gcid-console")
          (hassign [("X-Tenant-ID", resolvedTenantId)] auth) None);
    data ← (if rs_ok r then resp_json r else mret JNull);
    if truthy data then
      let client := js_or (opt_prop data "client") data in
      let methods := js_or (opt_prop client "auth_methods") (strs ["password"]) in
      try_catch (
        r ← fetch (Request GET (API_BASE +:+ "/api/v1/providers/status?tenant_id="
              +:+ resolvedTenantId +:+ "&client_id=gcid-console") [] None);
        status ← (if rs_ok r then resp_json r else mret JNull);
        if truthy status then
          match methods with
          | JArr l =>
              let available := List.filter (method_ready status) l in
              setAuthMethods (match available with [] => strs ["password"] | _ => JArr available end)
          | _ => Throw (type_error "methods.filter is not a function")
          end
        else setAuthMethods methods)
        (fun _ => setAuthMethods methods)
    else mret tt)
    (fun _ => mret tt).

Definition load_connectors : prog offer_state unit :=
  try_catch (
    r ← fetch (Request GET (API_BASE +:+ "/api/v1/auth/social/connectors")
          (hset "X-Tenant-ID" resolvedTenantId auth) None);
    data ← (if rs_ok r then resp_json r else mret JNull);
    (if is_array (opt_prop data "connectors") then setConnectors (opt_prop data "connectors") else mret tt);;
    setConnectorsLoaded true)
    (fun _ => setConnectorsLoaded true).

Definition check_initialized : prog offer_state unit :=
  try_catch (
    r ← fetch (Request GET (API_BASE +:+ "/api/v1/system/initialized") [] None);
    data ← (if rs_ok r then resp_json r else mret JNull);
    if truthy data && bool_decide (opt_prop data "initialized" = JBool false)
    then emit "location.href" (JStr "/setup")
    else
      setSystemInitialized true;;
      setInitUserCount (js_nullish (opt_prop data "user_count") (JNum 1)))
    (fun _ => setSystemInitialized true;; setInitUserCount (JNum 1)).
End Offer.

(** [connectorsLoaded && connectors.length > 0 ? connectors : []]. *)
Definition socialButtons (s : offer_state) : list js :=
  if connectorsLoaded s then elements_of (connectors s) else [].

(** Which of the four panels is rendered. *)
Inductive panel := Initializing | NotInitialized | CredentialsPanel | MfaPanel.

Definition login_render (o : offer_state) (f : form_state) : panel :=
  match systemInitialized o with
  | None => Initializing
  | Some _ =>
      if bool_decide (initUserCount o = JNum 0) then NotInitialized
      else match f_step f with credentials => CredentialsPanel | mfa => MfaPanel end
  end.

(** ** Registration and password reset *)

Record account_state := Account { a_loading : bool; a_error : js; a_sent : bool }.

Definition account_init : account_state := Account false (JStr "") false.

Definition accLoading (v : bool) : prog account_state unit :=
  upd (fun s => Account v (a_error s) (a_sent s)).
Definition accError (v : js) : prog account_state unit :=
  upd (fun s => Account (a_loading s) v (a_sent s)).
Definition accSent (v : bool) : prog account_state unit :=
  upd (fun s => Account (a_loading s) (a_error s) v).

(** [typeof data.error === "string" ? data.error : data.error?.message || ...]. *)
Definition api_error_text (data : js) (fallback : string) : js :=
  match opt_prop data "error" with
  | JStr s => JStr s
  | err => js_or_list [opt_prop err "message"; opt_prop err "code"; opt_prop data "message"]
             (JStr fallback)
  end.

Section Account.
Context (API_BASE DEFAULT_TENANT_ID : string) (auth : list (string * string)).

Definition account_request (path : string) (body : js) : request :=
  Request POST (API_BASE +:+ path)
    (hassign auth [("Content-Type", "application/json"); ("X-Tenant-ID", DEFAULT_TENANT_ID)])
    (Some (stringify body)).

Definition register_submit (username email password : string) : prog account_state unit :=
  accLoading true;;
  accError (JStr "");;
  finally (try_catch (
    resp ← fetch (account_request "/api/v1/auth/register"
      (JObj [("username", JStr username); ("email", JStr email); ("password", JStr password)]));
    data ← resp_json resp;
    if rs_ok resp then emit "router.push" (JStr "/login?registered=1")
    else
      get data "error";;
      accError (api_error_text data "Registration failed"))
    (fun _ => accError (JStr "Network error — is the API running?")))
    (accLoading false).

Definition forgot_submit (email : string) : prog account_state unit :=
  accLoading true;;
  accError (JStr "");;
  finally (try_catch (
    resp ← fetch (account_request "/api/v1/auth/password/reset" (JObj [("email", JStr email)]));
    if rs_ok resp then accSent true
    else
      data ← try_catch (resp_json resp) (fun _ => mret (JObj []));
      get data "error";;
      accError (api_error_text data "Reset failed"))
    (fun _ => accError (JStr "Network error — is the API running?")))
    (accLoading false).
End Account.

(** The hints under the password fields of the login and register pages. *)
Definition has_upper (s : string) : bool :=
  negb (str_forall (fun c => negb ((65 <=? code c) && (code c <=? 90))%nat) s).
Definition has_digit (s : string) : bool := negb (str_forall (fun c => negb (is_digit c)) s).

Definition login_pw_feedback (pw : string) : string :=
  if (String.length pw =? 0)%nat then ""
  else if (String.length pw <? 8)%nat then "Password is too short (min 8 characters)"
  else if negb (has_upper pw) || negb (has_digit pw)
  then "Add uppercase and numbers for stronger security"
  else "".

Definition register_pw_feedback (pw : string) : string :=
  if (String.length pw =? 0)%nat then ""
  else if (String.length pw <? 12)%nat then "Minimum 12 characters required"
  else if negb (has_upper pw) || negb (has_digit pw)
  then "Add uppercase letters and numbers for stronger security"
  else "Strong password".

(** ** The setup wizard *)

Record setup_form := SetupForm {
  adminUsername : string;
  adminEmail : string;
  adminPassword : string;
  confirmPassword : string;
  orgName : string
}.

Record setup_state := Setup {
  s_step : Z;
  s_loading : bool;
  s_error : js;
  s_score : js;
  s_form : setup_form
}.

Definition setup_init : setup_state :=
  Setup 1 false (JStr "") (JNum 0) (SetupForm "" "" "" "" "").

Definition setupStep (v : Z) : prog setup_state unit :=
  upd (fun s => Setup v (s_loading s) (s_error s) (s_score s) (s_form s)).
Definition setupLoading (v : bool) : prog setup_state unit :=
  upd (fun s => Setup (s_step s) v (s_error s) (s_score s) (s_form s)).
Definition setupError (v : js) : prog setup_state unit :=
  upd (fun s => Setup (s_step s) (s_loading s) v (s_score s) (s_form s)).
Definition setupScore (v : js) : prog setup_state unit :=
  upd (fun s => Setup (s_step s) (s_loading s) (s_error s) v (s_form s)).

(** [update(k, v)]. *)
Inductive field := FUsername | FEmail | FPassword | FConfirm | FOrg.

Definition update_field (k : field) (v : string) (f : setup_form) : setup_form :=
  let '(SetupForm u e p c o) := f in
  match k with
  | FUsername => SetupForm v e p c o
  | FEmail => SetupForm u v p c o
  | FPassword => SetupForm u e v c o
  | FConfirm => SetupForm u e p v o
  | FOrg => SetupForm u e p c v
  end.

Definition update (k : field) (v : string) : prog setup_state unit :=
  upd (fun s => Setup (s_step s) (s_loading s) (s_error s) (s_score s) (update_field k v (s_form s))).

(** The inputs rendered in each step. *)
Definition field_step (k : field) : Z :=
  match k with FOrg => 1 | FUsername | FEmail => 2 | FPassword | FConfirm => 3 end.

(** [/^[^@]+@[^@]+\.[^@]+$/]. *)
Definition is_email (s : string) : bool :=
  match split_on "@"%char s with
  | [a; b] =>
      negb (String.eqb a "") && str_includes "." (String.substring 1 (String.length b - 2) b)
  | _ => false
  end.

(** [score < 2]: the score is a number, as the service answers and the [|| 0] supplies. *)
Definition score_below_2 (v : js) : bool := match v with JNum z => (z <? 2)%Z | _ => false end.

(** The strength request of a password, sent 300 ms after it was typed; the answer is
    stored whatever was typed since. *)
Definition check_strength (password : string) : prog setup_state unit :=
  if String.eqb password "" then setupScore (JNum 0)
  else
    Act OYield (fun _ =>
    try_catch (
      resp ← fetch (Request POST "/api/v1/auth/password/strength"
        [("Content-Type", "application/json")]
        (Some (stringify (JObj [("password", JStr password)]))));
      if rs_ok resp then
        data ← resp_json resp;
        score ← get data "score";
        setupScore (js_or score (JNum 0))
      else mret tt)
      (fun _ => mret tt)).

Definition bootstrap_request (f : setup_form) : request :=
  Request POST "/api/v1/system/bootstrap" [("Content-Type", "application/json")]
    (Some (stringify (JObj [("admin_username", JStr (adminUsername f));
                            ("admin_email", JStr (adminEmail f));
                            ("admin_password", JStr (adminPassword f));
                            ("tenant_name", JStr (orgName f))]))).

Definition handleBootstrap (form : setup_form) : prog setup_state unit :=
  setupLoading true;;
  setupError (JStr "");;
  finally (try_catch (
    resp ← fetch (bootstrap_request form);
    data ← resp_json resp;
    if negb (rs_ok resp) && negb (rs_status resp =? 200)%Z then
      err ← get data "error";
      Throw (error (to_str (js_or_list [opt_prop err "message"; err; opt_prop data "detail"]
                              (JStr "Setup failed"))))
    else
      access_token ← get data "access_token";
      (if truthy access_token then
         store "ggid_access_token" access_token;;
         (if truthy (opt_prop data "refresh_token")
          then store "ggid_refresh_token" (opt_prop data "refresh_token") else mret tt);;
         with_payload access_token (fun payload =>
           (if truthy (opt_prop payload "tenant_id")
            then store "ggid_tenant_id" (opt_prop payload "tenant_id") else mret tt);;
           (if truthy (opt_prop payload "sub")
            then store "ggid_user_id" (opt_prop payload "sub") else mret tt);;
           setItem Local "ggid_user_scopes"
             (stringify (js_or (opt_prop payload "scopes") (strs ["user"]))))
       else mret tt);;
      setupStep 4)
    (fun e => setupError (JStr (e_message e))))
    (setupLoading false).

(** The continue button. *)
Definition next : prog setup_state unit :=
  s ← get_state;
  let f := s_form s in
  setupError (JStr "");;
  if (s_step s =? 1)%Z then
    if String.eqb (trim (orgName f)) "" then setupError (JStr "Organization name is required")
    else setupStep 2
  else if (s_step s =? 2)%Z then
    if String.eqb (trim (adminUsername f)) "" then setupError (JStr "Username is required")
    else if String.eqb (trim (adminEmail f)) "" then setupError (JStr "Email is required")
    else if negb (is_email (adminEmail f)) then setupError (JStr "Invalid email format")
    else setupStep 3
  else if (s_step s =? 3)%Z then
    if score_below_2 (s_score s)
    then setupError (JStr "Password is too weak. Please use a stronger password.")
    else if negb (String.eqb (adminPassword f) (confirmPassword f))
    then setupError (JStr "Passwords do not match")
    else handleBootstrap f
  else mret tt.

Definition back : prog setup_state unit := s ← get_state; setupStep (s_step s - 1).

(** What the rendered page lets the user and its timers do. *)
Inductive setup_spawn (w : world setup_state) : prog setup_state unit -> Prop :=
| spawn_update k v : field_step k = s_step (w_st w) -> setup_spawn w (update k v)
| spawn_next : s_loading (w_st w) = false -> (s_step (w_st w) < 4)%Z -> setup_spawn w next
| spawn_back : (1 < s_step (w_st w) < 4)%Z -> setup_spawn w back
| spawn_strength pw : setup_spawn w (check_strength pw).

(** ** What the sign-in leaves in the storage *)

Definition after_tokens (data : js) (m : gmap string string) : gmap string string :=
  let m := <["ggid_access_token" := to_str (opt_prop data "access_token")]> m in
  if truthy (opt_prop data "refresh_token")
  then <["ggid_refresh_token" := to_str (opt_prop data "refresh_token")]> m else m.

(** The effect of [body] on a payload that has properties. *)
Definition on_payload (token : js) (f : js -> gmap string string -> gmap string string)
    (m : gmap string string) : gmap string string :=
  match jwt_payload token with
  | Some ((JBool _ | JNum _ | JStr _ | JArr _ | JObj _) as payload) => f payload m
  | _ => m
  end.

Definition after_scopes (payload : js) : gmap string string -> gmap string string :=
  insert "ggid_user_scopes"
    (stringify (as_array (js_or_list [opt_prop payload "scopes"; opt_prop payload "roles"]
                            (JArr [JStr "user"])))).

Definition after_permissions (payload : js) (m : gmap string string) : gmap string string :=
  if truthy (opt_prop payload "permissions")
  then <["ggid_user_permissions" := stringify (opt_prop payload "permissions")]> m else m.

Definition after_login (tenant : string) (data : js) (m : gmap string string) : gmap string string :=
  on_payload (opt_prop data "access_token") (fun p m => after_permissions p (after_scopes p m))
    (<["ggid_tenant_id" := tenant]> (after_tokens data m)).

Definition after_mfa (data : js) (m : gmap string string) : gmap string string :=
  on_payload (opt_prop data "access_token") after_scopes (after_tokens data m).

Lemma prop_opt v k : is_nullish v = false -> prop v k = Some (opt_prop v k).
Proof. by destruct v. Qed.

Section LoginRun.
Context {S : Type} (e : env).

Lemma run_get_nonnull (w : world S) v k :
  is_nullish v = false -> run e (get v k) w = (Done (opt_prop v k), w).
Proof. intros H. apply run_get. by apply prop_opt. Qed.

Lemma run_store_tokens (w : world S) data :
  is_nullish data = false ->
  run e (store_tokens data) w = (Done tt, set_area Local (after_tokens data) w).
Proof.
  intros H. unfold store_tokens, store, after_tokens. run_steps.
  rewrite (run_get_nonnull _ data "access_token") by done. run_steps.
  rewrite (run_get_nonnull _ data "refresh_token") by done.
  destruct (truthy _); run_steps; by destruct w.
Qed.

Lemma run_with_payload (w : world S) token body f :
  (forall p w, run e (body p) w = (Done tt, set_area Local (f p) w)) ->
  run e (with_payload token body) w = (Done tt, set_area Local (on_payload token f) w).
Proof.
  intros H. unfold with_payload, on_payload. destruct (jwt_payload token) as [[]|]; try apply H; by destruct w.
Qed.

Lemma run_store_scopes (w : world S) payload :
  run e (store_scopes payload) w = (Done tt, set_area Local (after_scopes payload) w).
Proof. done. Qed.
End LoginRun.

(** A token answer the page takes for a success. *)
Definition token_granted (o : option response) : option js :=
  match o with
  | Some r => if rs_ok r then v ← JSON_parse (rs_body r); if is_nullish v then None else Some v else None
  | None => None
  end.

(** A refusal that asks for a second factor. *)
Definition mfa_asked (o : option response) : option js :=
  match o with
  | Some r =>
      if rs_ok r then None
      else v ← JSON_parse (rs_body r);
           if is_nullish v then None
           else if js_is_str (opt_prop v "error") "mfa_required" || truthy (opt_prop v "mfa_required")
                then Some v else None
  | None => None
  end.

Section Handlers.
Context (e : env) (w : world form_state) (API_BASE tenant username password redirectTo : string).

Definition answer_to (extra : list (string * string)) : option response :=
  let rq := token_request API_BASE tenant username password extra in
  server e (ObsFetch rq :: w_trace w) rq.

(** The state while the answer is awaited. *)
Definition submitted (s : form_state) : form_state :=
  Form (f_step s) (mfaToken s) "" (rateLimitSeconds s) true.

Lemma run_credentials_granted data :
  token_granted (answer_to []) = Some data ->
  exists w', run e (handleCredentials API_BASE tenant username password redirectTo) w = (Done tt, w')
  /\ w_st w' = submitted (w_st w)
  /\ w_local w' = after_login tenant data (w_local w)
  /\ w_trace w' = ObsEmit "router.replace" (JStr redirectTo) :: ObsEmit "syncSignalAfterLogin" JUndef
       :: ObsFetch (token_request API_BASE tenant username password []) :: w_trace w.
Proof.
  unfold token_granted, answer_to, handleCredentials, setLoading, setError. intros Hd. run_steps.
  autorewrite with world in *. destruct (server e _ _) as [r|]; [|done]. run_steps.
  destruct (rs_ok r) eqn:Hok; [|done].
  destruct (JSON_parse (rs_body r)) as [v|]; [|done]. cbn in Hd. destruct (is_nullish v) eqn:Hn; [done|].
  injection Hd as ->. cbn [negb]. run_steps. rewrite run_store_tokens by done. run_steps.
  rewrite (run_with_payload e _ _ _ (fun p m => after_permissions p (after_scopes p m))).
  2: { intros p w1. run_steps. rewrite run_store_scopes. run_steps. unfold after_permissions.
       destruct (truthy _); run_steps; by destruct w1. }
  unfold sync_signal. run_steps. eexists. split; [done|]. autorewrite with world.
  split_and!; [by destruct (w_st w)|done|done].
Qed.

Lemma run_credentials_mfa data :
  mfa_asked (answer_to []) = Some data ->
  exists w', run e (handleCredentials API_BASE tenant username password redirectTo) w = (Done tt, w')
  /\ w_st w' = Form mfa (js_or_list [opt_prop data "mfa_token"; opt_prop data "access_token"] (JStr ""))
                 "" (rateLimitSeconds (w_st w)) false
  /\ w_local w' = w_local w
  /\ w_trace w' = ObsFetch (token_request API_BASE tenant username password []) :: w_trace w.
Proof.
  unfold mfa_asked, answer_to, handleCredentials, setLoading, setError, setMfaToken, setStep.
  intros Hd. run_steps. autorewrite with world in *. destruct (server e _ _) as [r|]; [|done]. run_steps.
  destruct (rs_ok r) eqn:Hok; [done|].
  destruct (JSON_parse (rs_body r)) as [v|]; [|done]. cbn in Hd. destruct (is_nullish v) eqn:Hn; [done|].
  destruct (_ || _) eqn:Hm; [|done]. injection Hd as ->. cbn [negb]. run_steps.
  rewrite run_get_nonnull by done. run_steps.
  eexists. split; [done|]. autorewrite with world. done.
Qed.

Lemma run_credentials_refused :
  token_granted (answer_to []) = None -> mfa_asked (answer_to []) = None ->
  exists w', run e (handleCredentials API_BASE tenant username password redirectTo) w = (Done tt, w')
  /\ f_step (w_st w') = f_step (w_st w) /\ f_loading (w_st w') = false
  /\ w_local w' = w_local w
  /\ w_trace w' = ObsFetch (token_request API_BASE tenant username password []) :: w_trace w.
Proof.
  unfold token_granted, mfa_asked, answer_to, handleCredentials, setLoading, setError, setRateLimitSeconds.
  intros Hg Hm. run_steps. autorewrite with world in *.
  destruct (server e _ _) as [r|]; run_steps; [|eexists; split; [done|]; by autorewrite with world].
  destruct (JSON_parse (rs_body r)) as [v|]; run_steps; [|eexists; split; [done|]; by autorewrite with world].
  destruct (rs_ok r) eqn:Hok; cbn in Hg, Hm; cbn [negb].
  - destruct v; try done; run_steps; eexists; (split; [done|]; by autorewrite with world).
  - destruct (is_nullish v) eqn:Hn.
    + destruct v; try done; run_steps; eexists; (split; [done|]; by autorewrite with world).
    + run_steps. rewrite run_get_nonnull by done. destruct (_ || _); [done|].
      destruct (_ && _); run_steps; eexists; (split; [done|]; by autorewrite with world).
Qed.
End Handlers.

Lemma run_mfa_granted (e : env) w API_BASE tenant username password redirectTo
    (useBackup : bool) totp backup data :
  token_granted (answer_to e w API_BASE tenant username password
    [("mfa_code", if useBackup then "" else totp); ("backup_code", if useBackup then backup else "")])
    = Some data ->
  exists w', run e (handleMfa API_BASE tenant username password redirectTo useBackup totp backup) w
             = (Done tt, w')
  /\ w_st w' = submitted (w_st w)
  /\ w_local w' = after_mfa data (w_local w).
Proof.
  unfold token_granted, answer_to, handleMfa, setLoading, setError. intros Hd. run_steps.
  autorewrite with world in *. destruct (server e _ _) as [r|]; [|done]. run_steps.
  destruct (rs_ok r) eqn:Hok; [|done].
  destruct (JSON_parse (rs_body r)) as [v|]; [|done]. cbn in Hd. destruct (is_nullish v) eqn:Hn; [done|].
  injection Hd as ->. cbn [negb]. run_steps. rewrite run_store_tokens by done. run_steps.
  rewrite (run_with_payload e _ _ _ after_scopes) by (intros; apply run_store_scopes).
  run_steps. eexists. split; [done|]. autorewrite with world. split; [by destruct (w_st w)|done].
Qed.

Lemma on_payload_frame token f m k :
  (forall p m, f p m !! k = m !! k) -> on_payload token f m !! k = m !! k.
Proof. intros H. unfold on_payload. by destruct (jwt_payload token) as [[]|]. Qed.

Lemma after_tokens_frame data m k :
  k <> "ggid_access_token" -> k <> "ggid_refresh_token" -> after_tokens data m !! k = m !! k.
Proof.
  intros. unfold after_tokens. destruct (truthy _); by rewrite ?lookup_insert_ne by congruence.
Qed.

(** ** Properties: signing in *)

(** C7. Submitting the credentials never fails with an exception, sends exactly one
    token request carrying the tenant resolved for the page, and has three outcomes.
    A granted answer stores the tokens, the tenant, and the scopes and permissions read
    from the token, then leaves for the page asked for.  A demand for a second factor
    opens the second step and stores nothing.  Anything else (a refusal, an answer that
    is not JSON, no answer) stays on the step, unlocks the form and stores nothing. *)
Theorem login_page_outcome (e : env) w API_BASE tenant username password redirectTo :
  let answer := answer_to e w API_BASE tenant username password [] in
  let sent := ObsFetch (token_request API_BASE tenant username password []) :: w_trace w in
  exists w', run e (handleCredentials API_BASE tenant username password redirectTo) w = (Done tt, w')
  /\ match token_granted answer, mfa_asked answer with
     | Some data, _ =>
         w_local w' = after_login tenant data (w_local w)
         /\ w_trace w' = ObsEmit "router.replace" (JStr redirectTo)
                           :: ObsEmit "syncSignalAfterLogin" JUndef :: sent
     | None, Some data =>
         f_step (w_st w') = mfa /\ f_loading (w_st w') = false
         /\ w_local w' = w_local w /\ w_trace w' = sent
     | None, None =>
         f_step (w_st w') = f_step (w_st w) /\ f_loading (w_st w') = false
         /\ w_local w' = w_local w /\ w_trace w' = sent
     end.
Proof.
  intros answer sent. destruct (token_granted answer) as [data|] eqn:Hg.
  - destruct (run_credentials_granted e w API_BASE tenant username password redirectTo data Hg)
      as (w' & Hr & _ & Hl & Ht). by exists w'.
  - destruct (mfa_asked answer) as [data|] eqn:Hm.
    + destruct (run_credentials_mfa e w API_BASE tenant username password redirectTo data Hm)
        as (w' & Hr & Hs & Hl & Ht). exists w'. by rewrite Hs.
    + destruct (run_credentials_refused e w API_BASE tenant username password redirectTo Hg Hm)
        as (w' & Hr & Hs & Hlo & Hl & Ht). by exists w'.
Qed.

(** A sign-in completed through the second factor stores the same tokens and the
    same scopes as one without, but neither the tenant nor the permissions of the
    token: what the storage held for both, of whoever signed in before, stays. *)
Lemma mfa_keeps_permissions (e : env) w API_BASE tenant username password redirectTo (useBackup : bool)
    totp backup data :
  token_granted (answer_to e w API_BASE tenant username password
    [("mfa_code", if useBackup then "" else totp); ("backup_code", if useBackup then backup else "")])
    = Some data ->
  exists w', run e (handleMfa API_BASE tenant username password redirectTo useBackup totp backup) w
             = (Done tt, w')
  /\ (forall k, In k ["ggid_user_permissions"; "ggid_tenant_id"] -> w_local w' !! k = w_local w !! k)
  /\ (forall k, ~ In k ["ggid_user_permissions"; "ggid_tenant_id"] ->
      w_local w' !! k = after_login tenant data (w_local w) !! k).
Proof.
  intros Hd. destruct (run_mfa_granted _ _ _ _ _ _ redirectTo _ _ _ _ Hd) as (w' & Hr & _ & Hl).
  exists w'. split; [done|]. rewrite Hl. unfold after_mfa, after_login. split; intros k Hk.
  - rewrite on_payload_frame.
    + apply after_tokens_frame; intros ->; cbn in Hk; naive_solver.
    + intros p m. unfold after_scopes. apply lookup_insert_ne. intros <-. cbn in Hk. naive_solver.
  - cbn in Hk. unfold on_payload.
    assert (<["ggid_tenant_id":=tenant]> (after_tokens data (w_local w)) !! k
            = after_tokens data (w_local w) !! k) as E by (apply lookup_insert_ne; naive_solver).
    assert (forall p m, after_permissions p m !! k = m !! k) as E2.
    { intros p m. unfold after_permissions. destruct (truthy _); [|done]. apply lookup_insert_ne. naive_solver. }
    destruct (jwt_payload _) as [[]|]; rewrite ?E2; unfold after_scopes; try done;
      destruct (decide ("ggid_user_scopes" = k)) as [<-|Hne];
      rewrite ?lookup_insert_eq, ?lookup_insert_ne by done; done.
Qed.

(** ** The setup wizard sends only what it validated *)

#[local] Open Scope Z_scope.

Definition org_ok (f : setup_form) : Prop := trim (orgName f) <> "".
Definition admin_ok (f : setup_form) : Prop :=
  trim (adminUsername f) <> "" /\ trim (adminEmail f) <> "" /\ is_email (adminEmail f) = true.

Definition wizard_ok (s : setup_state) : Prop :=
  (s_step s = 2 -> org_ok (s_form s)) /\ (s_step s = 3 -> org_ok (s_form s) /\ admin_ok (s_form s)).

(** Every bootstrap request sent carries a complete form. *)
Definition bootstrap_ok (o : obs) : Prop :=
  match o with
  | ObsFetch rq =>
      rq_url rq = "/api/v1/system/bootstrap" ->
      exists f, rq = bootstrap_request f /\ org_ok f /\ admin_ok f /\ adminPassword f = confirmPassword f
  | _ => True
  end.

Definition wizard_inv : world setup_state -> Prop := tame_inv wizard_ok bootstrap_ok.

Lemma step4_ok s l er sc : s = 4 -> forall f, wizard_ok (Setup s l er sc f).
Proof. intros -> f. split; cbn; lia. Qed.

Lemma tame_bootstrap f :
  org_ok f -> admin_ok f -> adminPassword f = confirmPassword f ->
  tame wizard_ok bootstrap_ok (handleBootstrap f).
Proof.
  intros Ho Ha Hc. unfold handleBootstrap, setupLoading, setupError, setupStep, store, with_payload.
  assert (forall g : setup_state -> setup_state,
    (forall s, s_step (g s) = s_step s /\ s_form (g s) = s_form s \/ s_step (g s) = 4) ->
    tame wizard_ok bootstrap_ok (upd g)) as Hu.
  { intros g Hg. apply tame_upd. intros s Hs. unfold wizard_ok in *.
    destruct (Hg s) as [[-> ->]| -> ]; [done|]. split; lia. }
  tame_prog; try apply Hu; try (intros s; cbn; tauto). intros _. by exists f.
Qed.

Lemma next_safe answers w :
  wizard_inv w -> safe answers wizard_inv next w.
Proof.
  intros Hw. unfold next. apply wp_mbind, wp_get_state. cbn zeta.
  assert (forall (g : setup_state -> setup_state), wizard_ok (g (w_st w)) ->
    wizard_inv (set_st g w)) as Hset.
  { intros g Hg. by apply tame_set_st. }
  destruct w as [s lo se sc t]. cbn [w_st] in *. destruct Hw as [[H2 H3] Ht]. cbn [w_st w_trace] in *.
  unfold setupError at 1. apply wp_mbind, wp_upd. cbn [set_st].
  destruct (s_step s =? 1) eqn:E1; [apply Z.eqb_eq in E1|destruct (s_step s =? 2) eqn:E2;
    [apply Z.eqb_eq in E2|destruct (s_step s =? 3) eqn:E3; [apply Z.eqb_eq in E3|]]].
  - destruct (String.eqb (trim _) "") eqn:Eo; bool_prop; apply wp_upd; (split; [|done]); cbn;
      (split; cbn; [|lia]); [lia|done].
  - specialize (H2 E2). destruct (String.eqb (trim (adminUsername _)) "") eqn:Eu;
      [|destruct (String.eqb (trim (adminEmail _)) "") eqn:Ee; [|destruct (is_email _) eqn:Em]];
      bool_prop; apply wp_upd; (split; [|done]); cbn; (split; cbn; try lia); try done.
  - specialize (H3 E3) as [Ho Ha].
    destruct (score_below_2 _); [apply wp_upd; split; [|done]; cbn; split; cbn; [lia|done]|].
    destruct (String.eqb (adminPassword _) (confirmPassword _)) eqn:Ec; cbn [negb]; bool_prop.
    + apply tame_safe; [by apply tame_bootstrap|]. split; [|done]. split; cbn; [lia|done].
    + apply wp_upd; split; [|done]; cbn; split; cbn; [lia|done].
  - cbn. split; [|done]. split; cbn; intros; lia.
Qed.

Lemma setup_spawn_safe answers w p :
  wizard_inv w -> setup_spawn w p -> safe answers wizard_inv p w.
Proof.
  intros Hw Hp. destruct Hp as [k v Hk| | |pw].
  - apply wp_upd. apply tame_set_st; [|done]. destruct (w_st w) as [st l er sc [u em p c o]].
    cbn in *. intros [H2 H3]. unfold wizard_ok, org_ok, admin_ok in *.
    destruct k; cbn in *; subst; split; cbn in *; try lia; auto; intros; try lia.
  - by apply next_safe.
  - unfold back. apply wp_mbind, wp_get_state, wp_upd. apply tame_set_st; [|done].
    destruct (w_st w) as [st l er sc f]. cbn in *. intros [H2 H3]. split; cbn in *; [|lia].
    intros. apply H3. lia.
  - apply tame_safe; [|done]. unfold check_strength, setupScore.
    destruct (String.eqb pw ""); [apply tame_upd; by intros []|]. split; [done|]. intros _.
    tame_prog; [by intros [=]|]. apply tame_upd. by intros [].
Qed.

Lemma setup_init_ok : wizard_ok setup_init.
Proof. split; cbn; lia. Qed.

(** However the user types, continues and goes back, while strength checks and a
    setup request are in flight and whatever they are answered, every setup request
    sent carries an organization, a user name and a mail address that are not blank, an
    address of the accepted form, and a password confirmed identically.  The wizard
    starts in [setup_init], or resumes in any state its invariant allows. *)
Lemma setup_sends_valid (e : env) answers s0 c rq :
  wizard_ok s0 ->
  reachable e setup_spawn answers (page s0 ∅) c ->
  In (ObsFetch rq) (w_trace c.1) -> rq_url rq = "/api/v1/system/bootstrap" ->
  exists f, rq = bootstrap_request f /\ trim (orgName f) <> "" /\ trim (adminUsername f) <> ""
  /\ trim (adminEmail f) <> "" /\ is_email (adminEmail f) = true
  /\ adminPassword f = confirmPassword f.
Proof.
  intros H0 Hr Hin Hurl.
  destruct (safe_reachable e setup_spawn answers wizard_inv (page s0 ∅) c) as [[_ Ht] _]; [| |done|].
  - split; [done|by constructor].
  - intros w p Hw Hp. by apply setup_spawn_safe.
  - rewrite Forall_forall in Ht. apply list_elem_of_In in Hin.
    destruct (Ht _ Hin Hurl) as (f & -> & ? & (? & ? & ?) & ?). by exists f.
Qed.

(** ** Witnesses *)

Definition demo_form_world : world form_state := page form_init {["ggid_user_permissions" := "old"]}.

Definition demo_grant : response :=
  Response 200 (stringify (JObj [("access_token", JStr "T"); ("refresh_token", JStr "R")])).

Lemma mfa_keeps_permissions_witness :
  exists w', run (const_env (Some demo_grant) 0) (handleMfa "" "t" "u" "p" "/" false "123456" "")
               demo_form_world = (Done tt, w')
  /\ (forall k, In k ["ggid_user_permissions"; "ggid_tenant_id"] ->
      w_local w' !! k = w_local demo_form_world !! k)
  /\ (forall k, ~ In k ["ggid_user_permissions"; "ggid_tenant_id"] ->
      w_local w' !! k = after_login "t" (JObj [("access_token", JStr "T"); ("refresh_token", JStr "R")])
                          (w_local demo_form_world) !! k).
Proof.
  apply (mfa_keeps_permissions (const_env (Some demo_grant) 0) demo_form_world "" "t" "u" "p" "/"
           false "123456" ""). vm_compute. reflexivity.
Defined.

Definition demo_setup_form : setup_form := SetupForm "root" "root@acme.io" "pw" "pw" "Acme".

Definition demo_wizard : setup_state := Setup 3 false (JStr "") (JNum 3) demo_setup_form.

Lemma demo_setup :
  exists c, reachable (const_env None 0) setup_spawn (fun _ _ _ => True) (page demo_wizard ∅) c
  /\ In (ObsFetch (bootstrap_request demo_setup_form)) (w_trace c.1).
Proof.
  eexists. split.
  - eapply reach_spawn; [apply reach_init|]. apply spawn_next; [done|cbn; lia].
  - vm_compute. left. reflexivity.
Qed.

Lemma setup_sends_valid_witness :
  exists f, bootstrap_request demo_setup_form = bootstrap_request f /\ trim (orgName f) <> ""
  /\ trim (adminUsername f) <> "" /\ trim (adminEmail f) <> "" /\ is_email (adminEmail f) = true
  /\ adminPassword f = confirmPassword f.
Proof.
  destruct demo_setup as (c & Hr & Hin).
  apply (setup_sends_valid (const_env None 0) (fun _ _ _ => True) demo_wizard c);
    [|exact Hr|exact Hin|reflexivity].
  split; [cbn; lia|]. intros _. repeat split; vm_compute; discriminate.
Defined.

(** The strength of a password that was typed over is still the score that lets the next
    one through. *)
Example stale_strength_accepted :
  let e := const_env (Some (Response 200 (stringify (JObj [("score", JNum 4)])))) 0 in
  let typing := Setup 3 false (JStr "") (JNum 0) (SetupForm "root" "root@acme.io" "long phrase" "" "Acme") in
  let '(pending, w1) := sync e (check_strength "long phrase") (page typing ∅) in
  let w2 := (run e (update FPassword "a";; update FConfirm "a") w1).2 in
  let w3 := (run e pending w2).2 in
  let w4 := (run e next w3).2 in
  In (ObsFetch (bootstrap_request (SetupForm "root" "root@acme.io" "a" "a" "Acme"))) (w_trace w4).
Proof. vm_compute. left. reflexivity. Qed.
