(* ===== verification/Callback.v ===== *)
(** * The end of a sign-in: the callback page and the passwordless component

    console/src/app/auth/callback/page.tsx and
    console/src/components/auth/passwordless-login.tsx.  The component turns the
    ticket of a passkey or a one-time code into tokens, directly or by leaving for the
    authorization server after storing a flow that the callback page finishes.  The
    digest is a parameter, as in OAuthPkce.v; the address a response redirects to,
    which the browser may hide, is the parameter [location_of]. *)

From S2P Require Import Prelude JsValue JsString Json Effects Base64 ApiClient OAuthPkce Webauthn.
From S2P Require Import AuthGuard Login.

(** [params.get(k)] on a parsed query or fragment. *)
Definition get_param (k : string) (params : list (string * string)) : option string := hget k params.

Definition redirect_key : string := "ggid_redirect_after_login".

(** ** The callback page *)

(** The page's only state is its error text. *)
Definition cb_error (msg : string) : prog string unit := upd (fun _ => msg).

(** [sessionStorage.getItem(...) || fallback], removed, then [router.replace]. *)
Definition leave_login (fallback : string) : prog string unit :=
  stored ← getItem Session redirect_key;
  removeItem Session redirect_key;;
  router_replace (default fallback (nonempty stored)).

Section Callback.
Context (API_BASE_URL : string) (hash_params params : list (string * string)).

(** A token in the fragment: the end of a social sign-in. *)
Definition social_callback (accessToken : string) : prog string unit :=
  setItem Local "ggid_access_token" accessToken;;
  match nonempty (get_param "refresh_token" hash_params) with
  | Some r => setItem Local "ggid_refresh_token" r
  | None => mret tt
  end;;
  with_payload (JStr accessToken) (fun payload =>
    (if truthy (opt_prop payload "tenant_id")
     then store "ggid_tenant_id" (opt_prop payload "tenant_id") else mret tt);;
    (if truthy (opt_prop payload "sub")
     then store "ggid_user_id" (opt_prop payload "sub") else mret tt);;
    let scopes := js_or_list [opt_prop payload "scope"; opt_prop payload "scopes";
                              opt_prop payload "roles"] (JArr [JStr "user"]) in
    setItem Local "ggid_user_scopes" (stringify (as_array scopes)));;
  leave_login "/dashboard".

Definition exchange_request (code : string) (flow : js) : request :=
  Request POST (API_BASE_URL +:+ "/oauth/token")
    [("Content-Type", "application/x-www-form-urlencoded")]
    (Some (URLSearchParams [("grant_type", "authorization_code"); ("code", code);
      ("redirect_uri", to_str (opt_prop flow "redirect_uri"));
      ("client_id", to_str (opt_prop flow "client_id"));
      ("code_verifier", to_str (opt_prop flow "code_verifier"))])).

(** The promise chain of the exchange. *)
Definition callback_exchange (code : string) (flow : js) : prog string unit :=
  try_catch (
    resp ← fetch (exchange_request code flow);
    data ← resp_json resp;
    if negb (rs_ok resp) then
      get data "error_description";;
      Throw (error (to_str (refusal data "Token exchange failed")))
    else
      store_tokens data;;
      removeItem Session flow_key;;
      leave_login "/")
    (fun err => cb_error (e_message err);; removeItem Session flow_key).

(** [state && flow.state && state !== flow.state]. *)
Definition state_mismatch (state : option string) (flow : js) : prog string bool :=
  match nonempty state with
  | None => mret false
  | Some st =>
      flow_state ← get flow "state";
      mret (truthy flow_state && negb (js_is_str flow_state st))
  end.

Definition callback_effect : prog string unit :=
  match nonempty (get_param "access_token" hash_params) with
  | Some accessToken => social_callback accessToken
  | None =>
      match nonempty (get_param "code" params) with
      | None => cb_error "No authorization code received"
      | Some code =>
          flowStr ← getItem Session flow_key;
          match nonempty flowStr with
          | None => cb_error "Missing PKCE flow state. Please try logging in again."
          | Some flowStr =>
              flow ← json_parse flowStr;
              mismatch ← state_mismatch (get_param "state" params) flow;
              if (mismatch : bool) then
                cb_error "State mismatch — possible CSRF attack. Please try again.";;
                removeItem Session flow_key
              else
                get flow "redirect_uri";;
                callback_exchange code flow
          end
      end
  end.
End Callback.

(** ** The passwordless component *)

Record otp_state := Otp {
  o_loading : bool;
  identifier : string;
  otpCode : string;
  otpSent : bool;
  o_countdown : Z
}.

Definition otp_init : otp_state := Otp false "" "" false 0.

Definition otpLoading (v : bool) : prog otp_state unit :=
  upd (fun s => Otp v (identifier s) (otpCode s) (otpSent s) (o_countdown s)).
Definition setOtpSent (v : bool) : prog otp_state unit :=
  upd (fun s => Otp (o_loading s) (identifier s) (otpCode s) v (o_countdown s)).
Definition setCountdown (v : Z) : prog otp_state unit :=
  upd (fun s => Otp (o_loading s) (identifier s) (otpCode s) (otpSent s) v).

(** The timer of the resend button: [true] when it starts another. *)
Definition tick : prog otp_state bool :=
  s ← get_state;
  if (1 <? o_countdown s)%Z then setCountdown (o_countdown s - 1);; mret true
  else setCountdown 0;; mret false.

(** [crypto.getRandomValues(new Uint32Array(n))] on a little-endian machine. *)
Fixpoint words32 (bytes : list Z) : list Z :=
  match bytes with
  | a :: b :: c :: d :: l => (a + 256 * b + 65536 * c + 16777216 * d)%Z :: words32 l
  | _ => []
  end.

(** [n.toString(16)]: at most eight digits for 32 bits. *)
Definition hex_lower (n : Z) : Ascii.ascii :=
  match String.get (Z.to_nat n) "0123456789abcdef" with Some c => c | None => "0"%char end.

Fixpoint to_hex_loop (fuel : nat) (n : Z) (acc : string) : string :=
  match fuel with
  | O => acc
  | Datatypes.S fuel' =>
      let acc := String (hex_lower (n mod 16)) acc in
      if (n <? 16)%Z then acc else to_hex_loop fuel' (n / 16)%Z acc
  end.

Definition to_hex (n : Z) : string := to_hex_loop 8 n "".

(** [s.padStart(2, "0")]. *)
Definition pad_start2 (s : string) : string :=
  match s with "" => "00" | String c "" => String "0" s | _ => s end.

Definition ticket_verifier (words : list Z) : string :=
  fold_left (fun s b => s +:+ pad_start2 (to_hex b)) words "".

(** [loc.match(/code=([^&]+)/)?.[1]]: the first place where it matches. *)
Fixpoint take_until_amp (s : string) : string :=
  match s with
  | String c s' => if Ascii.eqb c "&"%char then "" else String c (take_until_amp s')
  | EmptyString => ""
  end.

Fixpoint match_code (s : string) : option string :=
  match strip_prefix "code=" s with
  | Some ((String c _) as rest) =>
      if Ascii.eqb c "&"%char then match s with String _ s' => match_code s' | _ => None end
      else Some (take_until_amp rest)
  | _ => match s with String _ s' => match_code s' | EmptyString => None end
  end.

(** [await] of a promise the platform fulfils with [a]. *)
Definition settled {S A} (a : A) : prog S A := Act OYield (fun _ => Ret a).

Lemma run_settled {S A} (e : env) (a : A) (w : world S) : run e (settled a) w = (Done a, w).
Proof. done. Qed.

#[export] Hint Rewrite @run_settled : run.

Section Passwordless.
(** The component's state is a part of its parent's; [onSuccess] and [onError] are the
    parent's. *)
Context {S : Type} (own : lens S otp_state) (onSuccess : js -> prog S unit)
  (onError : string -> prog S unit).
Context (sha256 : list Z -> list Z) (location_of : response -> option string)
  (apiBase tenantId authMethod origin : string).

Definition code_challenge_of (verifier : string) : string :=
  bufferToB64url (sha256 (map Z.of_nat (utf8 verifier))).

Definition ticket_redirect_uri : string := origin +:+ "/auth/callback".

Definition authorize_url (ticket challenge state : string) : string :=
  apiBase +:+ "/oauth/authorize?auth_ticket=" +:+ ticket
  +:+ "&client_id=gcid-console&redirect_uri=" +:+ encodeURIComponent ticket_redirect_uri
  +:+ "&response_type=code&scope=openid+profile+email+offline_access&code_challenge=" +:+ challenge
  +:+ "&code_challenge_method=S256&state=" +:+ state.

(** The flow left for the callback page. *)
Definition ticket_flow (verifier state : string) : js :=
  JObj [("code_verifier", JStr verifier); ("redirect_uri", JStr ticket_redirect_uri);
        ("client_id", JStr "gcid-console"); ("state", JStr state)].

Definition ticket_exchange (authCode verifier : string) : request :=
  Request POST (apiBase +:+ "/oauth/token")
    [("Content-Type", "application/x-www-form-urlencoded"); ("X-Tenant-ID", tenantId)]
    (Some (URLSearchParams [("grant_type", "authorization_code"); ("code", authCode);
      ("client_id", "gcid-console"); ("redirect_uri", ticket_redirect_uri);
      ("code_verifier", verifier)])).

Definition exchangeTicketForToken (ticket : string) : prog S unit :=
  try_catch (
    stateBytes ← random_bytes 32;
    let state := join "" (map string_of_Z (words32 stateBytes)) in
    verifierBytes ← random_bytes 128;
    let codeVerifier := ticket_verifier (words32 verifierBytes) in
    codeChallenge ← settled (code_challenge_of codeVerifier);
    let authorizeUrl := authorize_url ticket codeChallenge state in
    authCode ← try_catch (
      codeResp ← fetch (Request GET authorizeUrl [("X-Tenant-ID", tenantId)] None);
      mret (default "" (match_code (default "" (location_of codeResp)))))
      (fun _ => mret "");
    if String.eqb authCode "" then
      setItem Session flow_key (stringify (ticket_flow codeVerifier state));;
      emit "location.href" (JStr authorizeUrl)
    else
      tokenResp ← fetch (ticket_exchange authCode codeVerifier);
      tokenData ← resp_json tokenResp;
      access_token ← get tokenData "access_token";
      if negb (truthy access_token) then Throw (error "Failed to obtain access token")
      else onSuccess tokenData)
    (fun err => onError (e_message err)).

(** [atob(s.replace(/-/g, "+").replace(/_/g, "/"))] as bytes. *)
Definition ticket_b64urlToBuf (v : js) : option js :=
  match v with
  | JStr s => binary ← atob (replace_char "_" "/" (replace_char "-" "+" s)); Some (js_bytes (bytes_of binary))
  | _ => None
  end.

(** The options of the authenticator, decoded in place. *)
Definition decode_challenge (pk : js) : option js :=
  match opt_prop pk "challenge", pk with
  | JStr "", _ => Some pk
  | JStr s, JObj l => b ← ticket_b64urlToBuf (JStr s); Some (JObj (assoc_set "challenge" b l))
  | _, _ => Some pk
  end.

Definition allow_credential (c : js) : option js :=
  i ← prop c "id"; id ← ticket_b64urlToBuf i;
  Some (JObj (spread (match c with JObj l => l | _ => [] end) [("id", id)])).

Definition decode_allow (pk : js) : option js :=
  let allow := opt_prop pk "allowCredentials" in
  if negb (truthy allow) then Some pk
  else match allow, pk with
       | JArr l, JObj o => ids ← mapM allow_credential l; Some (JObj (assoc_set "allowCredentials" (JArr ids) o))
       | _, _ => None
       end.

Definition assert_body (credential : js) : option js :=
  let response := opt_prop credential "response" in
  let b64 v := JStr (bufferToB64url (buffer_bytes v)) in
  data ← prop response "authenticatorData";
  client ← prop response "clientDataJSON";
  signature ← prop response "signature";
  handle ← prop response "userHandle";
  Some (JObj [("id", opt_prop credential "id"); ("rawId", b64 (opt_prop credential "rawId"));
    ("type", opt_prop credential "type");
    ("response", JObj [("authenticatorData", b64 data); ("clientDataJSON", b64 client);
      ("signature", b64 signature);
      ("userHandle", if truthy handle then b64 handle else JNull)])]).

Definition post_json (path : string) (body : option string) : request :=
  Request POST (apiBase +:+ path) [("Content-Type", "application/json"); ("X-Tenant-ID", tenantId)] body.

(** The text of a refused begin request; its [includes] needs a text. *)
Definition passkey_refusal (errData : js) : prog S string :=
  err ← get errData "error";
  match match err with
        | JStr s => JStr s
        | _ => js_or_list [opt_prop err "message"; err] (JStr "Passkey login not available")
        end with
  | JStr msg =>
      mret (if str_includes "no credentials" msg || str_includes "Found no credentials" msg
            then "No passkey registered. Please log in with password first, then register a passkey in Settings."
            else msg)
  | _ => Throw not_a_function
  end.

(** [get_rejection] is what [navigator.credentials.get] rejects with. *)
Definition handlePasskey (get_rejection : exn) : prog S unit :=
  zoom own (otpLoading true);;
  onError "";;
  try_catch (
    beginResp ← fetch (post_json "/api/v1/auth/webauthn/login/begin" None);
    if negb (rs_ok beginResp) then
      errData ← try_catch (resp_json beginResp) (fun _ => mret (JObj []));
      msg ← passkey_refusal errData;
      Throw (error msg)
    else
      options ← resp_json beginResp;
      publicKey ← get options "publicKey";
      let pk := js_or_list [publicKey; opt_prop options "response"] options in
      pk ← or_throw (error "InvalidCharacterError") (decode_challenge pk);
      pk ← or_throw (error "InvalidCharacterError") (decode_allow pk);
      answer ← host "credentials.get" (JObj [("publicKey", pk)]);
      credential ← or_throw get_rejection answer;
      if negb (truthy credential) then Throw (error "No credential returned")
      else
        body ← or_throw not_a_function (assert_body credential);
        finishResp ← fetch (post_json "/api/v1/auth/webauthn/login/finish" (Some (stringify body)));
        result ← resp_json finishResp;
        if negb (rs_ok finishResp) then
          err ← get result "error";
          Throw (error (to_str (js_or err (JStr "Passkey verification failed"))))
        else
          ticket ← get result "auth_ticket";
          if negb (truthy ticket) then Throw (error "No auth ticket")
          else exchangeTicketForToken (to_str ticket))
    (fun err => onError (if String.eqb (e_name err) "NotAllowedError"
                         then "Passkey authentication cancelled" else e_message err));;
  zoom own (otpLoading false).

Definition otp_channel : string := if String.eqb authMethod "sms_otp" then "sms" else "email".

(** The first timer of the countdown is the event "setTimeout". *)
Definition handleSendOTP : prog S unit :=
  s ← zoom own get_state;
  if String.eqb (identifier s) "" then
    onError ("Please enter your " +:+ (if String.eqb authMethod "sms_otp" then "phone number" else "email"))
  else
    zoom own (otpLoading true);;
    onError "";;
    try_catch (
      resp ← fetch (post_json "/api/v1/auth/otp/send"
        (Some (stringify (JObj [("identifier", JStr (identifier s)); ("channel", JStr otp_channel)]))));
      data ← resp_json resp;
      if negb (rs_ok resp) then
        err ← get data "error"; Throw (error (to_str (js_or err (JStr "Failed to send code"))))
      else
        zoom own (setOtpSent true);;
        zoom own (setCountdown 60);;
        emit "setTimeout" (JNum 1000))
      (fun err => onError (e_message err));;
    zoom own (otpLoading false).

Definition handleVerifyOTP : prog S unit :=
  s ← zoom own get_state;
  if String.eqb (otpCode s) "" then onError "Please enter the code"
  else
    zoom own (otpLoading true);;
    onError "";;
    try_catch (
      resp ← fetch (post_json "/api/v1/auth/otp/verify"
        (Some (stringify (JObj [("identifier", JStr (identifier s)); ("code", JStr (otpCode s));
                                ("channel", JStr otp_channel)]))));
      result ← resp_json resp;
      if negb (rs_ok resp) then
        err ← get result "error"; Throw (error (to_str (js_or err (JStr "Verification failed"))))
      else
        ticket ← get result "auth_ticket";
        if negb (truthy ticket) then Throw (error "No auth ticket")
        else exchangeTicketForToken (to_str ticket))
      (fun err => onError (e_message err));;
    zoom own (otpLoading false).
End Passwordless.

(** The login page's two callbacks (login/page.tsx). *)
Definition otp_parent : Type := form_state * otp_state.

Definition fst_lens {A B} : lens (A * B) A := Lens fst (fun f s => (f s.1, s.2)).
Definition snd_lens {A B} : lens (A * B) B := Lens snd (fun f s => (s.1, f s.2)).

#[export] Instance fst_laws {A B} : LensLaws (@fst_lens A B).
Proof. split; [done|done|by intros []|]. intros f g [] H. cbn in *. by rewrite H. Qed.

#[export] Instance snd_laws {A B} : LensLaws (@snd_lens A B).
Proof. split; [done|done|by intros []|]. intros f g [] H. cbn in *. by rewrite H. Qed.

Definition passwordless_success (tenant redirectTo : string) (d : js) : prog otp_parent unit :=
  store_tokens d;;
  setItem Local "ggid_tenant_id" tenant;;
  router_replace redirectTo.

Definition passwordless_error (m : string) : prog otp_parent unit := zoom fst_lens (setError m).

#[global] Arguments exchangeTicketForToken : simpl never.
#[global] Arguments ticket_verifier : simpl never.
#[global] Arguments authorize_url : simpl never.

(** ** The callback page, run *)

Section CallbackRun.
Context (e : env) (API : string).

Definition token_answer (w : world string) (code : string) (flow : js) : option response :=
  let rq := exchange_request API code flow in server e (ObsFetch rq :: w_trace w) rq.

Lemma run_leave_login fallback w :
  run e (leave_login fallback) w =
  (Done tt, log (ObsEmit "router.replace" (JStr (default fallback (nonempty (w_session w !! redirect_key)))))
              (set_area Session (delete redirect_key) w)).
Proof. unfold leave_login, router_replace. by run_steps. Qed.

Lemma w_local_set_session {S} f (w : world S) : w_local (set_area Session f w) = w_local w.
Proof. by destruct w. Qed.
Lemma w_session_set_session {S} f (w : world S) : w_session (set_area Session f w) = f (w_session w).
Proof. by destruct w. Qed.
Lemma w_session_set_local {S} f (w : world S) : w_session (set_area Local f w) = w_session w.
Proof. by destruct w. Qed.
Lemma w_session_set_st {S} f (w : world S) : w_session (set_st f w) = w_session w.
Proof. by destruct w. Qed.

#[local] Hint Rewrite @w_local_set_session @w_session_set_session @w_session_set_local
  @w_session_set_st : world.

(** The exchange consumes the flow whatever the answer, and stores tokens only. *)
Lemma run_callback_exchange w code flow :
  exists w', run e (callback_exchange API code flow) w = (Done tt, w')
  /\ w_session w' !! flow_key = None
  /\ (forall k, k <> flow_key -> k <> redirect_key -> w_session w' !! k = w_session w !! k)
  /\ match token_granted (token_answer w code flow) with
     | Some data => w_local w' = after_tokens data (w_local w) /\ w_st w' = w_st w
     | None => w_local w' = w_local w /\ fetches (w_trace w') = exchange_request API code flow :: fetches (w_trace w)
     end.
Proof.
  assert (forall (m : gmap string string) (P : Prop), P -> delete flow_key m !! flow_key = None
    /\ (forall k, k <> flow_key -> k <> redirect_key -> delete flow_key m !! k = m !! k) /\ P) as Hdel.
  { intros m P HP. split; [apply lookup_delete_eq|]. split; [|done]. intros k H1 _. by rewrite lookup_delete_ne. }
  unfold token_granted, token_answer, callback_exchange, cb_error. run_steps. autorewrite with world.
  destruct (server e _ _) as [r|]; run_steps;
    [|eexists; split; [done|]; autorewrite with world; by apply Hdel].
  destruct (JSON_parse (rs_body r)) as [v|]; run_steps;
    [|eexists; split; [done|]; autorewrite with world; apply Hdel; by destruct (rs_ok r)].
  destruct (rs_ok r); cbn [negb mbind option_bind]; run_steps.
  - destruct (is_nullish v) eqn:Hn.
    + destruct v; try done; run_steps; eexists; split; try done; autorewrite with world; by apply Hdel.
    + rewrite run_store_tokens by done. run_steps. rewrite run_leave_login.
      eexists. split; [done|]. autorewrite with world. split; [by rewrite lookup_delete_ne, lookup_delete_eq by done|].
      split; [|done]. intros k H1 H2. by rewrite !lookup_delete_ne by done.
  - destruct (is_nullish v) eqn:Hn.
    + destruct v; try done; run_steps; eexists; split; try done; autorewrite with world; by apply Hdel.
    + rewrite run_get_nonnull by done. run_steps. eexists. split; [done|]. autorewrite with world. by apply Hdel.
Qed.

(** A flow pending in the session, as both pages that start one store it: an object
    with a state that is not empty. *)
Definition pending_flow (w : world string) (flow : js) (st : string) : Prop :=
  (exists text, w_session w !! flow_key = Some text /\ text <> "" /\ JSON_parse text = Some flow)
  /\ is_nullish flow = false /\ opt_prop flow "state" = JStr st /\ st <> "".

Lemma run_callback_pending w flow st code state :
  pending_flow w flow st -> code <> "" ->
  run e (callback_effect API [] (("code", code) :: match state with Some s => [("state", s)] | None => [] end)) w =
  if match nonempty state with Some s => negb (String.eqb s st) | None => false end
  then (Done tt, set_area Session (delete flow_key)
                   (set_st (fun _ => "State mismatch — possible CSRF attack. Please try again.") w))
  else run e (callback_exchange API code flow) w.
Proof.
  intros ((text & Hs & Hne & Hj) & Hn & Hst & Hst') Hc. unfold callback_effect, get_param.
  change (nonempty (hget "access_token" [])) with (@None string). cbn match.
  assert (forall l, hget "code" (("code", code) :: l) = Some code) as -> by done.
  destruct code as [|c0 code0] eqn:Ecode; [done|]. rewrite <- Ecode in *. clear Hc.
  assert (nonempty (Some code) = Some code) as -> by (by subst).
  run_steps. cbn [w_area]. rewrite Hs.
  assert (nonempty (Some text) = Some text) as -> by (by destruct text).
  run_steps. rewrite Hj.
  assert (hget "state" (("code", code) :: match state with Some s => [("state", s)] | None => [] end) = state)
    as -> by (by destruct state).
  unfold state_mismatch. destruct (nonempty state) as [s|]; run_steps.
  - rewrite run_get_nonnull by done. run_steps. rewrite Hst. cbn [truthy js_is_str].
    rewrite (eqb_str_false st "") by done. cbn [negb andb]. rewrite String.eqb_sym.
    destruct (String.eqb s st); cbn [negb]; [|unfold cb_error; by run_steps].
    run_steps. by rewrite run_get_nonnull by done.
  - by rewrite run_get_nonnull by done.
Qed.
End CallbackRun.

(** ** Properties: the callback page *)

(** The callback page checks the state only when it is given one.  A state other
    than the pending flow's is refused: no request, nothing stored, the flow discarded.
    But a callback with no state at all behaves exactly as one with the right state, so
    it is exchanged; [validateCallback] of oauth-pkce.ts refuses the same callback. *)
Lemma callback_state_optional (e : env) (w : world string) API flow st code st' :
  pending_flow w flow st -> code <> "" -> st' <> "" -> st' <> st ->
  (exists w', run e (callback_effect API [] [("code", code); ("state", st')]) w = (Done tt, w')
   /\ w_trace w' = w_trace w /\ w_local w' = w_local w /\ w_session w' !! flow_key = None)
  /\ run e (callback_effect API [] [("code", code)]) w
     = run e (callback_effect API [] [("code", code); ("state", st)]) w
  /\ run e (validateCallback "" code) w
     = (Raised (error "State mismatch — possible CSRF attack"), w).
Proof.
  intros Hp Hc Hne Hst'. pose proof Hp as ((text & Hs & Ht & Hj) & Hn & Hst & Hst0). split_and!.
  - rewrite (run_callback_pending e API w flow st code (Some st')) by done.
    assert (nonempty (Some st') = Some st') as -> by (by destruct st').
    rewrite eqb_str_false by done. cbn [negb]. eexists. split; [done|].
    destruct w. cbn. split_and!; [done..|apply lookup_delete_eq].
  - rewrite (run_callback_pending e API w flow st code None) by done.
    rewrite (run_callback_pending e API w flow st code (Some st)) by done.
    assert (nonempty (Some st) = Some st) as -> by (by destruct st).
    by rewrite String.eqb_refl.
  - unfold validateCallback. run_steps. cbn [w_area]. rewrite Hs. destruct text as [|c text]; [done|].
    run_steps. rewrite Hj. run_steps. rewrite run_get_nonnull by done. run_steps. rewrite Hst.
    cbn [js_is_str]. rewrite (eqb_str_false st "") by done. done.
Qed.

(** C13. Finishing a flow consumes it whatever the server answers (a refusal, an answer
    that is not JSON, no answer), so a code is tried once; a granted answer stores the
    access token, and the refresh token when there is one, and nothing else.  So the user, the
    tenant, the scopes and the permissions the console reads afterwards are those of whoever
    signed in before: the page reads them from the token of a social sign-in only. *)
Theorem callback_outcome (e : env) (w : world string) API flow st code :
  pending_flow w flow st -> code <> "" ->
  exists w', run e (callback_effect API [] [("code", code); ("state", st)]) w = (Done tt, w')
  /\ w_session w' !! flow_key = None
  /\ (forall k, k <> flow_key -> k <> redirect_key -> w_session w' !! k = w_session w !! k)
  /\ (forall k, k <> "ggid_access_token" -> k <> "ggid_refresh_token" -> w_local w' !! k = w_local w !! k)
  /\ match token_granted (token_answer e API w code flow) with
     | Some data =>
         w_local w' !! "ggid_access_token" = Some (to_str (opt_prop data "access_token"))
         /\ w_local w' !! "ggid_refresh_token"
            = (if truthy (opt_prop data "refresh_token") then Some (to_str (opt_prop data "refresh_token"))
               else w_local w !! "ggid_refresh_token")
     | None => w_local w' = w_local w
     end.
Proof.
  intros Hp Hc. pose proof Hp as (_ & _ & _ & Hst0).
  rewrite (run_callback_pending e API w flow st code (Some st)) by done.
  assert (nonempty (Some st) = Some st) as -> by (by destruct st).
  rewrite String.eqb_refl. cbn [negb].
  destruct (run_callback_exchange e API w code flow) as (w' & Hr & Hs & Hf & Ht).
  exists w'. split_and!; [done|done|done|..].
  - intros k H1 H2. destruct (token_granted _); destruct Ht as [-> _]; [by apply after_tokens_frame|done].
  - destruct (token_granted _) as [data|]; destruct Ht as [-> _]; [|done]. unfold after_tokens.
    destruct (truthy _); [split; [rewrite lookup_insert_ne by done|]; apply lookup_insert_eq|].
    split; [apply lookup_insert_eq|by rewrite lookup_insert_ne].
Qed.

(** A fragment with a token is taken as a finished social sign-in by whoever made the
    link: no flow was started, and one that was is left pending. *)
Lemma fragment_signs_in (e : env) (w : world string) API token params :
  token <> "" ->
  exists w', run e (callback_effect API [("access_token", token)] params) w = (Done tt, w')
  /\ w_local w' !! "ggid_access_token" = Some token /\ fetches (w_trace w') = fetches (w_trace w)
  /\ w_session w' !! flow_key = w_session w !! flow_key.
Proof.
  intros Ht. unfold callback_effect, get_param.
  assert (nonempty (hget "access_token" [("access_token", token)]) = Some token) as -> by (by destruct token).
  unfold social_callback, get_param. change (nonempty (hget "refresh_token" [("access_token", token)])) with (@None string).
  run_steps.
  rewrite (run_with_payload e _ _ _ (fun payload m =>
    <["ggid_user_scopes" := stringify (as_array (js_or_list [opt_prop payload "scope";
        opt_prop payload "scopes"; opt_prop payload "roles"] (JArr [JStr "user"])))]>
    ((if truthy (opt_prop payload "sub") then insert "ggid_user_id" (to_str (opt_prop payload "sub")) else id)
      ((if truthy (opt_prop payload "tenant_id") then insert "ggid_tenant_id" (to_str (opt_prop payload "tenant_id"))
        else id) m)))).
  2: { intros p w1. unfold store. destruct (truthy _), (truthy _); run_steps; by destruct w1. }
  run_steps. rewrite run_leave_login. eexists. split; [done|].
  destruct w as [s l se sc t]. cbn [w_local w_session w_trace set_area log fetches omap list_omap].
  split_and!; [|done|by rewrite lookup_delete_ne].
  rewrite on_payload_frame; [apply lookup_insert_eq|].
  intros p m. rewrite lookup_insert_ne by done.
  destruct (truthy _), (truthy _); unfold id; by rewrite ?lookup_insert_ne by done.
Qed.

(** ** Properties: the passwordless component *)

Lemma to_hex_length n : (0 <= n < 2 ^ 32)%Z ->
  1 <= String.length (to_hex n) <= 8 /\ ((2 ^ 28 <= n)%Z -> String.length (to_hex n) = 8).
Proof.
  intros Hn. unfold to_hex. cbn [to_hex_loop].
  repeat match goal with
    | |- context [if (?a <? 16)%Z then _ else _] => destruct (a <? 16)%Z eqn:?
    end; cbn [String.length]; rewrite ?Z.ltb_lt, ?Z.ltb_ge in *; split; try lia;
    intros Hb; try done; exfalso; Z.to_euclidean_division_equations; lia.
Qed.

Definition word_ok (n : Z) : Prop := (0 <= n < 2 ^ 32)%Z.

Definition is_lower_hex (c : Ascii.ascii) : bool := in_set "0123456789abcdef" c.

Lemma to_hex_loop_chars fuel n acc :
  str_forall is_lower_hex acc = true -> str_forall is_lower_hex (to_hex_loop fuel n acc) = true.
Proof.
  revert n acc. induction fuel as [|fuel IH]; intros n acc H; cbn [to_hex_loop]; [done|].
  assert (is_lower_hex (hex_lower (n mod 16)) = true) as Hc.
  { pose proof (Z.mod_pos_bound n 16 eq_refl) as Hb. revert Hb. generalize (n mod 16)%Z. intros k Hk.
    apply (check_below 16 (fun k => is_lower_hex (hex_lower k))); [by vm_compute|lia]. }
  destruct (n <? 16)%Z; [|apply IH]; cbn [str_forall]; by rewrite Hc, H.
Qed.

Lemma pad_start2_length s : 1 <= String.length s <= 8 ->
  2 <= String.length (pad_start2 s) <= 8 /\ (String.length s = 8 -> String.length (pad_start2 s) = 8).
Proof. destruct s as [|a [|b s]]; cbn; lia. Qed.

Lemma pad_start2_chars s : str_forall is_lower_hex s = true -> str_forall is_lower_hex (pad_start2 s) = true.
Proof. destruct s as [|a [|b s]]; done. Qed.

(** The words that need all eight digits. *)
Definition wide (l : list Z) : nat := length (List.filter (fun n => 2 ^ 28 <=? n)%Z l).

Lemma ticket_verifier_spec l : Forall word_ok l ->
  2 * length l + 6 * wide l <= String.length (ticket_verifier l) <= 8 * length l
  /\ str_forall is_lower_hex (ticket_verifier l) = true.
Proof.
  unfold ticket_verifier. induction l as [|n l IH] using rev_ind; intros H; [done|].
  apply Forall_app in H as [Hl Hn]. inversion Hn as [|? ? Hw _]; subst.
  destruct (IH Hl) as [Hlen Hchars]. rewrite fold_left_app. cbn [fold_left].
  rewrite str_length_app, str_forall_app, length_app. unfold wide in *.
  rewrite List.filter_app, length_app. cbn [List.filter].
  destruct (to_hex_length n Hw) as [H1 H2]. destruct (pad_start2_length _ H1) as [H3 H4]. split.
  - destruct (2 ^ 28 <=? n)%Z eqn:E; cbn [length]; [apply Z.leb_le in E|]; [|lia].
    rewrite (H4 (H2 E)). lia.
  - rewrite Hchars. apply pad_start2_chars. unfold to_hex. by apply to_hex_loop_chars.
Qed.

(** The verifier drawn by the passwordless component: between 64 and 256 lower-case
    hexadecimal digits, so never shorter than the 43 characters RFC 7636 asks for; but
    as soon as eleven of the 32 words need all their digits it is longer than the 128
    the RFC allows, which a server may refuse. *)
Lemma ticket_verifier_bounds words :
  length words = 32 -> Forall word_ok words ->
  64 <= String.length (ticket_verifier words) <= 256
  /\ str_forall is_lower_hex (ticket_verifier words) = true
  /\ (11 <= wide words -> 128 < String.length (ticket_verifier words)).
Proof. intros Hl Hw. destruct (ticket_verifier_spec words Hw). split_and!; [lia..|done|lia]. Qed.

Section TicketRun.
Context {S : Type} (own : lens S otp_state) (onSuccess : js -> prog S unit)
  (onError : string -> prog S unit) (sha256 : list Z -> list Z)
  (location_of : response -> option string) (apiBase tenantId origin : string) (e : env) (w : world S).

(** The texts drawn by one call. *)
Definition drawn_state : string := join "" (map string_of_Z (words32 (entropy e (w_trace w) 32))).
Definition drawn_verifier : string :=
  ticket_verifier (words32 (entropy e (ObsRand 32 :: w_trace w) 128)).

Lemma run_ticket_hidden ticket :
  (forall r, location_of r = None) ->
  exists w', run e (exchangeTicketForToken onSuccess onError sha256 location_of apiBase tenantId origin ticket) w
             = (Done tt, w')
  /\ w_session w' !! flow_key = Some (stringify (ticket_flow origin drawn_verifier drawn_state))
  /\ w_local w' = w_local w
  /\ exists t, w_trace w' = ObsEmit "location.href" (JStr (authorize_url apiBase origin ticket
       (code_challenge_of sha256 drawn_verifier) drawn_state)) :: t.
Proof.
  intros Hl. unfold exchangeTicketForToken. run_steps. autorewrite with world.
  fold drawn_state drawn_verifier.
  destruct (server e _ _) as [r|]; rewrite ?Hl; run_steps; change (String.eqb "" "") with true;
    run_steps; (eexists; split; [done|]); destruct w as [s l se sc t]; cbn;
    (split_and!; [apply lookup_insert_eq|done|by eexists]).
Qed.
End TicketRun.

Lemma drawn_state_nonempty {S} e (w : world S) : entropy_ok e -> drawn_state e w <> "".
Proof.
  intros He. destruct (He (w_trace w) 32) as [Hl _]. unfold drawn_state.
  destruct (entropy e (w_trace w) 32) as [|a [|b [|c [|d l]]]]; try done. cbn [words32 map].
  pose proof (string_of_Z_nonempty (a + 256 * b + 65536 * c + 16777216 * d)) as Hz.
  destruct (string_of_Z _) as [|x s]; [done|]. by destruct (map _ _).
Qed.

(** The callback page opened in the tab a component left from. *)
Definition back_in_tab {S} (w : world S) : world string :=
  World "" (w_local w) (w_session w) (w_secure w) (w_trace w).

(** C14. A passwordless sign-in through the authorization server, end to end.  When the
    browser hides the address of the redirect, the component leaves for an address that
    carries the S256 challenge of a verifier and a state, having stored both; and when
    the server sends the user back with a code and that state, the callback page sends
    the code with the verifier behind the challenge, to the same redirect address, and
    stores the token it is granted. *)
Theorem passwordless_round_trip {S} (onSuccess : js -> prog S unit) onError sha256 location_of
    apiBase tenantId origin (e e' : env) (w : world S) ticket code :
  entropy_ok e -> (forall r, location_of r = None) -> code <> "" ->
  exists w1 verifier state t,
    run e (exchangeTicketForToken onSuccess onError sha256 location_of apiBase tenantId origin ticket) w
      = (Done tt, w1)
    /\ w_trace w1 = ObsEmit "location.href" (JStr (authorize_url apiBase origin ticket
         (bufferToB64url (sha256 (map Z.of_nat (utf8 verifier)))) state)) :: t
    /\ exists w2, run e' (callback_effect apiBase [] [("code", code); ("state", state)]) (back_in_tab w1)
                  = (Done tt, w2)
    /\ let rq := Request POST (apiBase +:+ "/oauth/token")
         [("Content-Type", "application/x-www-form-urlencoded")]
         (Some (URLSearchParams [("grant_type", "authorization_code"); ("code", code);
           ("redirect_uri", origin +:+ "/auth/callback"); ("client_id", "gcid-console");
           ("code_verifier", verifier)])) in
       match token_granted (server e' (ObsFetch rq :: w_trace w1) rq) with
       | Some data => w_local w2 !! "ggid_access_token" = Some (to_str (opt_prop data "access_token"))
       | None => w_local w2 = w_local w
       end.
Proof.
  intros He Hl Hc.
  destruct (run_ticket_hidden onSuccess onError sha256 location_of apiBase tenantId origin e w ticket Hl)
    as (w1 & Hr & Hs & Hloc & t & Ht).
  exists w1, (drawn_verifier e w), (drawn_state e w), t. split_and!; [done|done|].
  set (flow := ticket_flow origin (drawn_verifier e w) (drawn_state e w)).
  assert (pending_flow (back_in_tab w1) flow (drawn_state e w)) as Hp.
  { split_and!; [|done|done|by apply drawn_state_nonempty].
    exists (stringify flow). destruct (stringify_head flow) as (c & r & E & _).
    split_and!; [done|by rewrite E|by apply JSON_parse_stringify]. }
  rewrite (run_callback_pending e' apiBase _ flow _ code (Some (drawn_state e w))) by done.
  pose proof (drawn_state_nonempty e w He) as Hne.
  assert (nonempty (Some (drawn_state e w)) = Some (drawn_state e w)) as -> by (by destruct (drawn_state e w)).
  rewrite String.eqb_refl. cbn [negb].
  destruct (run_callback_exchange e' apiBase (back_in_tab w1) code flow) as (w2 & Hr2 & _ & _ & Hd).
  exists w2. split; [done|].
  change (match token_granted (token_answer e' apiBase (back_in_tab w1) code flow) with
    | Some data => w_local w2 !! "ggid_access_token" = Some (to_str (opt_prop data "access_token"))
    | None => w_local w2 = w_local w end).
  destruct (token_granted _) as [data|]; destruct Hd as [-> _]; [|done].
  unfold after_tokens. destruct (truthy _); [rewrite lookup_insert_ne by done|]; apply lookup_insert_eq.
Qed.

(** ** Witnesses *)

Definition demo_ticket_flow : js := ticket_flow "https://c" "v" "s".

Definition demo_callback : world string :=
  World "" ∅ {[flow_key := stringify demo_ticket_flow]} ∅ [].

Lemma demo_pending : pending_flow demo_callback demo_ticket_flow "s".
Proof.
  split_and!; [|done|done|done]. exists (stringify demo_ticket_flow). split_and!; [done|done|by vm_compute].
Qed.

Lemma callback_state_optional_witness :
  run (const_env None 0) (callback_effect "" [] [("code", "c")]) demo_callback
  = run (const_env None 0) (callback_effect "" [] [("code", "c"); ("state", "s")]) demo_callback.
Proof.
  apply (callback_state_optional (const_env None 0) demo_callback "" demo_ticket_flow "s" "c" "t");
    [exact demo_pending|discriminate..].
Defined.

Lemma callback_outcome_witness :
  exists w', run (const_env None 0) (callback_effect "" [] [("code", "c"); ("state", "s")]) demo_callback
             = (Done tt, w')
  /\ w_session w' !! flow_key = None.
Proof.
  destruct (callback_outcome (const_env None 0) demo_callback "" demo_ticket_flow "s" "c")
    as (w' & Hr & Hs & _); [exact demo_pending|discriminate|].
  exists w'. split; [exact Hr|exact Hs].
Defined.

Lemma ticket_verifier_bounds_witness :
  64 <= String.length (ticket_verifier (repeat (2 ^ 31)%Z 32)) <= 256
  /\ str_forall is_lower_hex (ticket_verifier (repeat (2 ^ 31)%Z 32)) = true
  /\ (11 <= wide (repeat (2 ^ 31)%Z 32) -> 128 < String.length (ticket_verifier (repeat (2 ^ 31)%Z 32))).
Proof.
  apply (ticket_verifier_bounds (repeat (2 ^ 31)%Z 32)); [reflexivity|].
  repeat constructor; discriminate.
Defined.

Lemma passwordless_round_trip_witness :
  exists w1 verifier state t,
    run (const_env None 7) (exchangeTicketForToken (S:=unit) (fun _ => mret tt) (fun _ => mret tt)
      (fun l => l) (fun _ => None) "" "t" "https://c" "T") (empty_world tt) = (Done tt, w1)
    /\ w_trace w1 = ObsEmit "location.href" (JStr (authorize_url "" "https://c" "T"
         (bufferToB64url (map Z.of_nat (utf8 verifier))) state)) :: t.
Proof.
  destruct (passwordless_round_trip (S:=unit) (fun _ => mret tt) (fun _ => mret tt) (fun l => l)
    (fun _ => None) "" "t" "https://c" (const_env None 7) (const_env None 7) (empty_world tt) "T" "c")
    as (w1 & verifier & state & t & Hr & Ht & _); [|reflexivity|discriminate|].
  - intros t n. split; [apply repeat_length|]. apply Forall_forall. intros x Hx.
    apply list_elem_of_In, repeat_spec in Hx as ->. done.
  - exists w1, verifier, state, t. split; [exact Hr|exact Ht].
Defined.
