(* ===== verification/SignInFlow.v ===== *)
(** * Signing in, then navigating

    What the sign-in pages leave in the storage, read back by the route guard: the
    composition of Login.v, Callback.v and AuthGuard.v through the key
    "ggid_user_scopes". *)

From S2P Require Import Prelude JsValue JsString Json Effects Base64 ApiClient Access AuthGuard Login.

(** The scopes a token carries: an array of texts, or one text. *)
Definition carries (v : js) (l : list string) : Prop :=
  (v = strs l /\ l <> []) \/ exists s, v = JStr s /\ s <> "" /\ l = [s].

Lemma json_wf_strs l : json_wf (strs l) = true.
Proof. unfold strs. cbn. induction l; [done|]. cbn. done. Qed.

Lemma carries_array v l : carries v l -> truthy v = true /\ as_array v = strs l.
Proof.
  intros [[-> _]|(s & -> & Hs & ->)]; [done|]. cbn. by rewrite (eqb_str_false s) by done.
Qed.

(** Storing an array of texts is storing the list. *)
Lemma scopes_stored_insert l m : scopes_stored (<["ggid_user_scopes" := stringify (strs l)]> m) l.
Proof.
  unfold scopes_stored. rewrite lookup_insert_eq.
  destruct (stringify_head (strs l)) as (c & r & E & _). rewrite E. cbn [nonempty]. rewrite <- E.
  apply JSON_parse_stringify, json_wf_strs.
Qed.

Lemma scopes_stored_ext m m' l :
  m !! "ggid_user_scopes" = m' !! "ggid_user_scopes" -> scopes_stored m l -> scopes_stored m' l.
Proof. unfold scopes_stored. by intros ->. Qed.

(** A payload of a token, with properties. *)
Definition has_payload (data payload : js) : Prop :=
  jwt_payload (opt_prop data "access_token") = Some payload /\ is_nullish payload = false.

Lemma on_payload_some token payload f m :
  jwt_payload token = Some payload -> is_nullish payload = false -> on_payload token f m = f payload m.
Proof. unfold on_payload. intros ->. by destruct payload. Qed.

Lemma login_stores_scopes tenant data payload l m :
  has_payload data payload -> carries (opt_prop payload "scopes") l ->
  scopes_stored (after_login tenant data m) l.
Proof.
  intros [Hp Hn] [Ht Ha]%carries_array. unfold after_login.
  rewrite (on_payload_some _ payload) by done.
  apply (scopes_stored_ext (<["ggid_user_scopes" := stringify (strs l)]> m)); [|apply scopes_stored_insert].
  unfold after_permissions, after_scopes. cbn [js_or_list fold_right].
  assert (forall x, js_or (opt_prop payload "scopes") x = opt_prop payload "scopes") as E
    by (intros x; unfold js_or; by rewrite Ht).
  rewrite !E, Ha.
  destruct (truthy (opt_prop payload "permissions")); rewrite ?(lookup_insert_ne _ "ggid_user_permissions") by done;
    by rewrite !lookup_insert_eq.
Qed.

(** ** The setup wizard's sign-in *)

Definition bootstrap_payload (p : js) (m : gmap string string) : gmap string string :=
  <["ggid_user_scopes" := stringify (js_or (opt_prop p "scopes") (strs ["user"]))]>
    ((if truthy (opt_prop p "sub") then insert "ggid_user_id" (to_str (opt_prop p "sub")) else id)
      ((if truthy (opt_prop p "tenant_id")
        then insert "ggid_tenant_id" (to_str (opt_prop p "tenant_id")) else id) m)).

Definition after_bootstrap (data : js) (m : gmap string string) : gmap string string :=
  on_payload (opt_prop data "access_token") bootstrap_payload (after_tokens data m).

Lemma run_bootstrap_granted (e : env) w f data :
  token_granted (let rq := bootstrap_request f in server e (ObsFetch rq :: w_trace w) rq) = Some data ->
  truthy (opt_prop data "access_token") = true ->
  exists w', run e (handleBootstrap f) w = (Done tt, w')
  /\ s_step (w_st w') = 4%Z /\ s_loading (w_st w') = false
  /\ w_local w' = after_bootstrap data (w_local w).
Proof.
  unfold token_granted, handleBootstrap, setupLoading, setupError, setupStep, store. intros Hd Ht. run_steps.
  autorewrite with world in *. cbn zeta in Hd. destruct (server e _ _) as [r|]; [|done]. run_steps.
  destruct (rs_ok r) eqn:Hok; [|done].
  destruct (JSON_parse (rs_body r)) as [v|]; [|done]. cbn in Hd. destruct (is_nullish v) eqn:Hn; [done|].
  injection Hd as ->. cbn [negb andb]. run_steps.
  rewrite (run_get_nonnull _ _ data "access_token") by done. run_steps. rewrite Ht. run_steps.
  destruct (truthy (opt_prop data "refresh_token")) eqn:Hrt; run_steps;
    (rewrite (run_with_payload e _ _ _ bootstrap_payload);
     [|intros p w1; unfold bootstrap_payload;
       destruct (truthy (opt_prop p "tenant_id")), (truthy (opt_prop p "sub")); run_steps; by destruct w1]);
    run_steps; eexists; (split; [done|]); autorewrite with world;
    (split; [done|]; split; [done|]); unfold after_bootstrap, after_tokens; by rewrite Hrt.
Qed.

(** The guard on scopes stored as one text: the array method it calls does not exist. *)
Lemma run_guard_text (e : env) w pathname window_path t s text :
  nonempty (w_local w !! "ggid_access_token") = Some t -> pathname <> "/setup" ->
  rejected (me_answer e t w) = false ->
  nonempty (w_local w !! "ggid_user_scopes") = Some text -> JSON_parse text = Some (JStr s) ->
  run e (guard_effect pathname window_path) w =
  (Raised not_a_function, set_st (fun s => Guard true (g_checked s)) (log (ObsFetch (me_request t)) w)).
Proof.
  intros Ht Hp Hr Hm Hj. rewrite (run_guard_token e w pathname window_path t) by done.
  rewrite run_mbind, run_guard_verify, Hr. unfold setIsAuthenticated, guard_routes. run_steps.
  cbn [w_area]. autorewrite with world. rewrite Hm. cbn [default from_option id]. rewrite Hj. by run_steps.
Qed.

Lemma truthy_to_str_nonempty v : truthy v = true -> (forall l, v <> JArr l) -> to_str v <> "".
Proof.
  destruct v as [| |[]|z|s|l|l]; cbn; try done; intros H Hl.
  - intros E. pose proof (Z_of_string_of_Z z) as Hz. by rewrite E in Hz.
  - by bool_prop.
  - by destruct (Hl l).
Qed.

Lemma after_tokens_token data m :
  after_tokens data m !! "ggid_access_token" = Some (to_str (opt_prop data "access_token")).
Proof.
  unfold after_tokens. destruct (truthy _); [rewrite lookup_insert_ne by done|]; apply lookup_insert_eq.
Qed.

(** A page of the console opened with the storage [m]. *)
Definition opened (m : gmap string string) : world guard_state := World guard_init m ∅ ∅ [].

(** ** Properties *)

(** C8. After a password sign-in granted with a token that names its scopes, as an array
    or as one text, the guard opened on any page of the console shows it, and redirects
    to the dashboard exactly when these scopes lack what the page needs: what the server
    put in the token decides, whatever the storage held before. *)
Theorem login_then_guard (e e' : env) w API tenant username password redirectTo data payload t l
    pathname window_path :
  token_granted (answer_to e w API tenant username password []) = Some data ->
  opt_prop data "access_token" = JStr t -> t <> "" ->
  has_payload data payload -> carries (opt_prop payload "scopes") l ->
  pathname <> "/setup" -> is_public pathname = false ->
  exists w', run e (handleCredentials API tenant username password redirectTo) w = (Done tt, w')
  /\ (rejected (me_answer e' t (opened (w_local w'))) = false ->
      exists w2, run e' (guard_effect pathname window_path) (opened (w_local w')) = (Done tt, w2)
      /\ guard_render pathname (w_st w2) = ConsolePage
      /\ (In (ObsEmit "router.replace" (JStr "/dashboard")) (w_trace w2) <-> route_denied l pathname = true)).
Proof.
  intros Hd Hat Hne Hp Hc Hpath Hpub.
  destruct (run_credentials_granted e w API tenant username password redirectTo data Hd)
    as (w' & Hr & _ & Hl & _).
  exists w'. split; [done|]. intros Hrej.
  assert (nonempty (w_local w' !! "ggid_access_token") = Some t) as Htok.
  { rewrite Hl. unfold after_login. rewrite on_payload_frame.
    - rewrite lookup_insert_ne, after_tokens_token, Hat by done. by apply nonempty_some.
    - intros p m. unfold after_permissions, after_scopes.
      destruct (truthy _); by rewrite ?lookup_insert_ne by done. }
  destruct (run_guard_accepted e' (opened (w_local w')) pathname window_path t Htok Hpath l Hrej)
    as (w2 & Hr2 & Hst & _ & Htr).
  { cbn. rewrite Hl. by eapply login_stores_scopes. }
  exists w2. rewrite Hst, Htr. split; [done|]. split; [unfold guard_render; by rewrite Hpub|].
  destruct (route_denied l pathname); cbn; [tauto|]. split; [|done]. by intros [?|[]].
Qed.

(** The setup wizard stores the scopes of the first administrator's token as they
    come.  When the token names them as one text, which every other sign-in page turns
    into an array, the wizard ends normally, and the guard of the first page opened
    afterwards raises an exception and shows its spinner for good. *)
Lemma setup_scopes_stick_guard (e e' : env) w f data payload t s pathname window_path :
  token_granted (let rq := bootstrap_request f in server e (ObsFetch rq :: w_trace w) rq) = Some data ->
  opt_prop data "access_token" = JStr t -> t <> "" ->
  has_payload data payload -> opt_prop payload "scopes" = JStr s -> s <> "" ->
  pathname <> "/setup" ->
  exists w', run e (handleBootstrap f) w = (Done tt, w') /\ s_step (w_st w') = 4%Z
  /\ (rejected (me_answer e' t (opened (w_local w'))) = false ->
      exists w2, run e' (guard_effect pathname window_path) (opened (w_local w'))
                 = (Raised not_a_function, w2)
      /\ guard_render pathname (w_st w2) = Spinner).
Proof.
  intros Hd Hat Hne [Hp Hn] Hsc Hs Hpath.
  destruct (run_bootstrap_granted e w f data Hd) as (w' & Hr & H4 & _ & Hl).
  { rewrite Hat. cbn. by rewrite (eqb_str_false t). }
  exists w'. split_and!; [done..|]. intros Hrej.
  rewrite (run_guard_text e' (opened (w_local w')) pathname window_path t s (stringify (JStr s))).
  - eexists. split; [done|]. done.
  - cbn [opened w_local]. rewrite Hl. unfold after_bootstrap. rewrite on_payload_frame.
    + rewrite after_tokens_token, Hat. by apply nonempty_some.
    + intros p m. unfold bootstrap_payload. rewrite lookup_insert_ne by done.
      destruct (truthy _), (truthy _); unfold id; by rewrite ?lookup_insert_ne by done.
  - done.
  - done.
  - cbn [opened w_local]. rewrite Hl. unfold after_bootstrap. rewrite (on_payload_some _ payload) by done.
    unfold bootstrap_payload. rewrite lookup_insert_eq, Hsc. unfold js_or. cbn [truthy]. rewrite (eqb_str_false s) by done. cbn [negb].
    destruct (stringify_head (JStr s)) as (c & r & E & _). by rewrite E.
  - by apply JSON_parse_stringify.
Qed.

(** ** Witnesses *)

(** A token whose payload names the scopes [v]. *)
Definition demo_token (v : js) : string := "h." +:+ btoa (stringify (JObj [("scopes", v)])) +:+ ".s".

Definition demo_answer (v : js) : response :=
  Response 200 (stringify (JObj [("access_token", JStr (demo_token v))])).

Lemma login_then_guard_witness :
  exists w', run (const_env (Some (demo_answer (strs ["user"]))) 0) (handleCredentials "" "t" "u" "p" "/")
               (page form_init ∅) = (Done tt, w').
Proof.
  destruct (login_then_guard (const_env (Some (demo_answer (strs ["user"]))) 0) offline
    (page form_init ∅) "" "t" "u" "p" "/" (JObj [("access_token", JStr (demo_token (strs ["user"])))])
    (JObj [("scopes", strs ["user"])]) (demo_token (strs ["user"])) ["user"] "/users" "/users")
    as (w' & Hr & _); try (vm_compute; done).
  - left. split; [reflexivity|discriminate].
  - exists w'. exact Hr.
Defined.

Lemma setup_scopes_stick_guard_witness :
  exists w', run (const_env (Some (demo_answer (JStr "platform:admin"))) 0) (handleBootstrap demo_setup_form)
               (page demo_wizard ∅) = (Done tt, w') /\ s_step (w_st w') = 4%Z.
Proof.
  destruct (setup_scopes_stick_guard (const_env (Some (demo_answer (JStr "platform:admin"))) 0) offline
    (page demo_wizard ∅) demo_setup_form (JObj [("access_token", JStr (demo_token (JStr "platform:admin")))])
    (JObj [("scopes", JStr "platform:admin")]) (demo_token (JStr "platform:admin")) "platform:admin"
    "/dashboard" "/dashboard") as (w' & Hr & H4 & _); try (vm_compute; done).
  exists w'. split; [exact Hr|exact H4].
Defined.
