(* ===== verification/StorageTypes.v ===== *)
(** * The shapes of the console's stored items

    The pages of the console share their browser's storages and nothing else: what one
    writes, another parses.  This file states the shapes the readers expect of three
    items (the scopes and the permissions of the local storage, the pending flow of the
    session's), shows that the writers keep them under any interleaving, all but the setup
    wizard with the scopes as a list and with the wizard as JSON, and that readers of
    well-shaped items do not fail. *)

From S2P Require Import Prelude JsValue JsString Json Effects Base64 ApiClient Access OAuthPkce.
From S2P Require Import AuthGuard Login Callback.

(** ** Shapes *)

(** JSON that is not [null]. *)
Definition json_text (v : string) : Prop := exists x, JSON_parse v = Some x /\ is_nullish x = false.

(** The scopes: a JSON array; the permissions: JSON; the flow: a JSON object. *)
Definition shape (a : area) (k v : string) : Prop :=
  match a with
  | Local =>
      if String.eqb k "ggid_user_scopes" then exists l, JSON_parse v = Some (JArr l)
      else if String.eqb k "ggid_user_permissions" then json_text v
      else True
  | Session => if String.eqb k flow_key then exists l, JSON_parse v = Some (JObj l) else True
  | Secure => True
  end.

Definition well_shaped {S} (w : world S) : Prop := stored_ok shape w.

(** The same, but for the scopes: any JSON. *)
Definition loose_shape (a : area) (k v : string) : Prop :=
  match a with
  | Local => if String.eqb k "ggid_user_scopes" then json_text v else shape a k v
  | _ => shape a k v
  end.

Definition json_shaped {S} (w : world S) : Prop := stored_ok loose_shape w.

(** What the parent of the passwordless component passes it. *)
Definition parent_ok {S} (onSuccess : js -> prog S unit) (onError : string -> prog S unit) : Prop :=
  (forall d, stores_ok shape (onSuccess d)) /\ (forall m, stores_ok shape (onError m)).

(** The calls of the console that write its storages, on the states of the components
    that make them: the parts [form], [auth], ... of a page's state [S]. *)
Inductive console_call {S : Type} : prog S unit -> Prop :=
| call_login (form : lens S form_state) API tenant u p redirectTo :
    console_call (zoom form (handleCredentials API tenant u p redirectTo))
| call_mfa (form : lens S form_state) API tenant u p redirectTo backup totp code :
    console_call (zoom form (handleMfa API tenant u p redirectTo backup totp code))
| call_callback (err : lens S string) API hash_params params :
    console_call (zoom err (callback_effect API hash_params params))
| call_flow sha256 base client_id tenant redirect_uri scope :
    console_call (initOAuthFlow sha256 base client_id tenant redirect_uri scope;; mret tt)
| call_passkey (own : lens S otp_state) onSuccess onError sha256 location_of API tenant origin rejection :
    parent_ok onSuccess onError ->
    console_call (handlePasskey own onSuccess onError sha256 location_of API tenant origin rejection)
| call_verify (own : lens S otp_state) onSuccess onError sha256 location_of API tenant method origin :
    parent_ok onSuccess onError ->
    console_call (handleVerifyOTP own onSuccess onError sha256 location_of API tenant method origin)
| call_fetch browser API tenant path options :
    console_call (apiFetch browser API tenant path options;; mret tt)
| call_permissions (perm : lens S perm_state) browser API tenant :
    console_call (zoom perm (permissions_effect browser API tenant))
| call_navigate (guard : lens S guard_state) pathname window_path :
    console_call (zoom guard (guard_effect pathname window_path))
| call_unauthorized (guard : lens S guard_state) currentPath :
    console_call (zoom guard (handleUnauthorized currentPath))
| call_logout (auth : lens S auth_state) browser API :
    console_call (zoom auth (useAuth_logout browser API)).

(** All writers: these, and the wizard that makes the first administrator. *)
Inductive any_call {S : Type} : prog S unit -> Prop :=
| any_console p : console_call p -> any_call p
| any_setup (wizard : lens S setup_state) : any_call (zoom wizard next).

(** ** Every writer keeps the shapes *)

(** What every sign-in stores as scopes is an array. *)
Lemma scopes_shape v ks d :
  json_wf v = true -> json_wf d = true ->
  shape Local "ggid_user_scopes" (stringify (as_array (js_or_list (map (opt_prop v) ks) d))).
Proof.
  intros Hv Hd. cbn [shape String.eqb Ascii.eqb Bool.eqb]. pose proof (or_list_wf v ks d Hv Hd) as Hw. unfold as_array.
  destruct (is_array _) eqn:Ha.
  - destruct (js_or_list _ _); try done. eexists. by apply JSON_parse_stringify.
  - eexists. apply JSON_parse_stringify. cbn [json_wf forallb]. by rewrite Hw.
Qed.

Section Writers.
Context {S : Type}.

Lemma stores_get W v k : stores_ok (S:=S) W (get v k).
Proof. unfold get. by destruct (prop v k). Qed.

Lemma stores_resp_json W r : stores_ok (S:=S) W (resp_json r).
Proof. unfold resp_json, json_parse. split; [done|]. intros _. by destruct (JSON_parse _). Qed.

(** Every result of [p] satisfies [Q]. *)
Fixpoint returns {A} (Q : A -> Prop) (p : prog S A) : Prop :=
  match p with
  | Ret a => Q a
  | Throw _ => True
  | Act _ k => forall r, returns Q (k r)
  end.

Lemma returns_bind {A B} (Q : B -> Prop) (p : prog S A) f :
  (forall a, returns Q (f a)) -> returns Q (p ≫= f).
Proof.
  unfold mbind, prog_mbind. intros Hf. induction p as [a|x|R o c IH] using prog_ind; cbn; auto.
Qed.

Lemma returns_try {A} (Q : A -> Prop) (p : prog S A) h :
  returns Q p -> (forall x, returns Q (h x)) -> returns Q (try_catch p h).
Proof. intros Hp Hh. induction p as [a|x|R o c IH] using prog_ind; cbn in *; auto. Qed.

Lemma returns_json {B} (Q : B -> Prop) r (f : js -> prog S B) :
  (forall v, json_wf v = true -> returns Q (f v)) -> returns Q (resp_json r ≫= f).
Proof.
  intros Hf. unfold resp_json, json_parse. cbn. intros _.
  destruct (JSON_parse (rs_body r)) as [v|] eqn:E; cbn; [|done]. apply Hf. by eapply JSON_parse_wf.
Qed.

Lemma stores_ok_bind_returns {A B} W (Q : A -> Prop) (p : prog S A) (f : A -> prog S B) :
  stores_ok W p -> returns Q p -> (forall a, Q a -> stores_ok W (f a)) -> stores_ok W (p ≫= f).
Proof.
  unfold mbind, prog_mbind. intros Hp HQ Hf.
  induction p as [a|x|R o c IH] using prog_ind; cbn in *; [auto..|]. destruct Hp. split; auto.
Qed.

Lemma stores_payload W token (body : js -> prog S unit) :
  (forall payload, json_wf payload = true -> stores_ok W (body payload)) ->
  stores_ok W (with_payload token body).
Proof.
  intros H. unfold with_payload. destruct (jwt_payload token) as [p|] eqn:E; [|done].
  apply jwt_payload_wf in E. destruct p; try exact I; by apply H.
Qed.
End Writers.

Lemma permissions_shape v k :
  json_wf v = true -> truthy (opt_prop v k) = true ->
  shape Local "ggid_user_permissions" (stringify (opt_prop v k)).
Proof.
  intros Hv Ht. eexists. split; [apply JSON_parse_stringify; by apply opt_prop_wf|]. by destruct (opt_prop v k).
Qed.

#[local] Ltac shapes :=
  repeat first
    [ progress stores_prog
    | match goal with
      | |- stores_ok _ (get _ _) => apply stores_get
      | |- stores_ok _ (resp_json _) => apply stores_resp_json
      | |- stores_ok _ (with_payload _ _) => apply stores_payload; intros ? ?
      | |- shape Local "ggid_user_scopes" (stringify (as_array (js_or_list [?a ?v ?x; ?a ?v ?y; ?a ?v ?z] _))) =>
          apply (scopes_shape v [x; y; z])
      | |- shape Local "ggid_user_scopes" (stringify (as_array (js_or_list [?a ?v ?x; ?a ?v ?y] _))) =>
          apply (scopes_shape v [x; y])
      | |- shape Local "ggid_access_token" _ => exact I
      | |- shape Local "ggid_refresh_token" _ => exact I
      | |- shape Local "ggid_tenant_id" _ => exact I
      | |- shape Local "ggid_user_id" _ => exact I
      end ].

Section Calls.
Context {S : Type}.

Lemma login_shapes API tenant u p redirectTo :
  stores_ok shape (handleCredentials API tenant u p redirectTo).
Proof.
  unfold handleCredentials, store_tokens, store, store_scopes, sync_signal, fetch, emit, setItem,
    Login.setLoading, Login.setError, setStep, setMfaToken, setRateLimitSeconds, upd.
  shapes; try done. by apply permissions_shape.
Qed.

Lemma mfa_shapes API tenant u p redirectTo backup totp code :
  stores_ok shape (handleMfa API tenant u p redirectTo backup totp code).
Proof.
  unfold handleMfa, store_tokens, store, store_scopes, fetch, emit, setItem, Login.setLoading, Login.setError, upd.
  shapes; try done.
Qed.

Lemma callback_shapes API hash_params params : stores_ok shape (callback_effect API hash_params params).
Proof.
  unfold callback_effect, social_callback, callback_exchange, state_mismatch, cb_error, leave_login, router_replace,
    store_tokens, store, json_parse, fetch, emit, getItem, setItem, removeItem, upd.
  shapes; try done.
Qed.

Lemma flow_shapes sha256 base client_id tenant redirect_uri scope :
  stores_ok (S:=S) shape (initOAuthFlow sha256 base client_id tenant redirect_uri scope).
Proof.
  unfold initOAuthFlow, generateCodeVerifier, generateCodeChallenge, generateState, random_bytes, setItem.
  shapes. eexists. by apply JSON_parse_stringify.
Qed.

Lemma ticket_shapes onSuccess onError sha256 location_of API tenant origin ticket :
  parent_ok onSuccess onError ->
  stores_ok (S:=S) shape (exchangeTicketForToken onSuccess onError sha256 location_of API tenant origin ticket).
Proof.
  intros [Hs He]. unfold exchangeTicketForToken, random_bytes, settled, fetch, emit, setItem. shapes; try done.
  eexists. by apply JSON_parse_stringify.
Qed.

Lemma passkey_shapes own onSuccess onError sha256 location_of API tenant origin rejection :
  parent_ok onSuccess onError ->
  stores_ok (S:=S) shape (handlePasskey own onSuccess onError sha256 location_of API tenant origin rejection).
Proof.
  intros Hp. pose proof Hp as [Hs He].
  unfold handlePasskey, passkey_refusal, or_throw, otpLoading, host, fetch, upd. shapes; try done; by apply ticket_shapes.
Qed.

Lemma verify_shapes own onSuccess onError sha256 location_of API tenant method origin :
  parent_ok onSuccess onError ->
  stores_ok (S:=S) shape (handleVerifyOTP own onSuccess onError sha256 location_of API tenant method origin).
Proof.
  intros Hp. pose proof Hp as [Hs He].
  unfold handleVerifyOTP, otpLoading, get_state, fetch, upd. shapes; try done; by apply ticket_shapes.
Qed.

(** The login page is such a parent. *)
Lemma login_page_parent tenant redirectTo : parent_ok (passwordless_success tenant redirectTo) passwordless_error.
Proof.
  split; [intros d|intros m]; unfold passwordless_success, passwordless_error, store_tokens, store, router_replace,
    Login.setError, setItem, emit, upd; shapes.
Qed.

Lemma fetch_shapes browser API tenant path options :
  stores_ok (S:=S) shape (apiFetch browser API tenant path options).
Proof.
  unfold apiFetch, refresh_and_retry, update_scopes, session_expired, getAuthToken, resp_text, fetch, emit, getItem, setItem.
  shapes; try done; subst; by eapply jwt_payload_wf.
Qed.

Lemma fetch_permissions_wf browser API tenant :
  returns (fun o => match o with Some p => json_wf p = true | None => True end)
    (fetchUserPermissions browser API tenant).
Proof.
  unfold fetchUserPermissions. apply returns_bind. intros recent. destruct recent; [exact I|].
  apply returns_try; [|intros x; by apply returns_bind].
  apply returns_bind. intros token. destruct (nonempty token) as [t|]; [|exact I].
  apply returns_bind. intros res. destruct (negb (rs_ok res)); [by apply returns_bind|].
  apply returns_json. intros data Hd. unfold get.
  destruct (prop data "permissions") as [perms|] eqn:Ep; [|exact I].
  cbn [mbind prog_mbind prog_bind mret prog_mret returns].
  assert (perms = opt_prop data "permissions") as -> by (unfold opt_prop; by rewrite Ep).
  destruct (is_array _) eqn:Ha; [|exact I]. by apply (or_list_wf data ["permissions"; "items"]).
Qed.

Lemma permissions_shapes browser API tenant : stores_ok shape (permissions_effect browser API tenant).
Proof.
  unfold permissions_effect. apply stores_ok_bind.
  { unfold getUserPermissions, getItem. shapes. }
  intros cached. apply stores_ok_bind; [unfold setPermissions, setPermLoading, upd; shapes|].
  intros _. eapply stores_ok_bind_returns; [|apply fetch_permissions_wf|].
  - unfold fetchUserPermissions, getAuthToken, cache_failure, now, get_state, fetch, getItem, upd. shapes.
  - intros o Ho. unfold setPermissions, setPermLoading, setItem, upd. shapes. eexists. split; [by apply JSON_parse_stringify|done].
Qed.

Lemma guard_shapes pathname window_path : stores_ok shape (guard_effect pathname window_path).
Proof.
  unfold guard_effect, guard_status, guard_verify, guard_routes, setIsAuthenticated, setChecked,
    router_push, router_replace, fetch, json_parse, or_throw, getItem, emit, upd.
  shapes.
Qed.

Lemma unauthorized_shapes currentPath : stores_ok shape (handleUnauthorized currentPath).
Proof. unfold handleUnauthorized, setIsAuthenticated, emit, upd. shapes. Qed.

Lemma logout_shapes browser API : stores_ok shape (useAuth_logout browser API).
Proof. unfold useAuth_logout, getAuthToken, fetch, getItem, upd. shapes. Qed.
End Calls.

Lemma console_call_shapes {S} (p : prog S unit) : console_call p -> stores_ok shape p.
Proof.
  intros []; try apply stores_ok_zoom; eauto using login_shapes, mfa_shapes, callback_shapes, passkey_shapes,
    verify_shapes, permissions_shapes, guard_shapes, unauthorized_shapes, logout_shapes.
  - apply stores_ok_bind; [apply flow_shapes|done].
  - apply stores_ok_bind; [apply fetch_shapes|done].
Qed.

Lemma shape_loose a k v : shape a k v -> loose_shape a k v.
Proof.
  destruct a; [|done..]. unfold loose_shape. destruct (String.eqb k "ggid_user_scopes") eqn:E; [|done].
  unfold shape. rewrite E. intros [l Hl]. by exists (JArr l).
Qed.

Lemma stores_ok_mono {S A} (W W' : area -> string -> string -> Prop) (p : prog S A) :
  (forall a k v, W a k v -> W' a k v) -> stores_ok W p -> stores_ok W' p.
Proof.
  intros HW. induction p as [a|x|R o c IH] using prog_ind; [done..|]. cbn. intros [Ho Hc]. split; [|auto]. destruct o; auto.
Qed.

Lemma or_json v k d :
  json_wf v = true -> json_wf d = true -> is_nullish d = false -> json_text (stringify (js_or (opt_prop v k) d)).
Proof.
  intros Hv Hd Hn. exists (js_or (opt_prop v k) d). unfold js_or. destruct (truthy (opt_prop v k)) eqn:Et.
  - split; [by apply JSON_parse_stringify, opt_prop_wf|by destruct (opt_prop v k)].
  - split; [by apply JSON_parse_stringify|done].
Qed.

(** The wizard stores the scopes of the token as they are. *)
Lemma setup_shapes : stores_ok loose_shape next.
Proof.
  assert (forall f, stores_ok loose_shape (handleBootstrap f)) as Hb.
  { intros f. unfold handleBootstrap, setupLoading, setupError, setupStep, store, fetch, setItem, upd. shapes; try done.
    by apply or_json. }
  unfold next, get_state, setupError, setupStep, upd. shapes; try done; apply Hb.
Qed.

Lemma any_call_shapes {S} (p : prog S unit) : any_call p -> stores_ok loose_shape p.
Proof.
  intros [q Hq|wizard].
  - apply (stores_ok_mono shape); [apply shape_loose|by apply console_call_shapes].
  - apply stores_ok_zoom, setup_shapes.
Qed.

(** ** Properties *)

(** C9. The shapes are an invariant of the console, whatever the servers and the platform
    answer and however the calls overlap.  From a storage whose scopes and permissions are
    JSON and whose pending flow is an object, any number of sign-ins (the setup wizard's
    too), callbacks, API calls with their refreshes, permission requests, guards and logouts
    lead to such a storage again; and where the scopes are a list they stay one as long as
    the wizard, which stores the token's scopes as they are, does not run. *)
Theorem storage_stays_shaped {S} (e : env) answers (w0 : world S) c :
  (json_shaped w0 -> reachable e (fun _ => any_call) answers w0 c -> json_shaped c.1)
  /\ (well_shaped w0 -> reachable e (fun _ => console_call) answers w0 c -> well_shaped c.1).
Proof.
  split; intros H0 Hr.
  - apply (safe_reachable e (fun _ => any_call) answers json_shaped w0 c); [done| |done].
    intros w p Hw Hp. apply stores_ok_safe; [by apply any_call_shapes|done].
  - apply (safe_reachable e (fun _ => console_call) answers well_shaped w0 c); [done| |done].
    intros w p Hw Hp. apply stores_ok_safe; [by apply console_call_shapes|done].
Qed.

Lemma shaped_item {S} (w : world S) a k text :
  well_shaped w -> nonempty (w_area a w !! k) = Some text -> shape a k text.
Proof. unfold nonempty. intros Hw. destruct (w_area a w !! k) as [[|c v]|] eqn:E; try done. intros [= <-]. by apply Hw. Qed.

(** A value the guard's scope tests can read. *)
Definition is_text (v : js) : bool := match v with JStr _ => true | _ => false end.

Lemma some_loop_texts f l :
  forallb is_text l = true -> (forall s, is_Some (f (JStr s))) -> is_Some (some_loop f l).
Proof.
  intros Hl Hf. induction l as [|x l IH]; [by eexists|]. cbn in Hl |- *. bool_prop. destruct x; try done.
  destruct (Hf s) as [b ->]. destruct b; [by eexists|auto].
Qed.

Lemma guard_routes_texts (e : env) w pathname l :
  JSON_parse (default user_self (nonempty (w_local w !! "ggid_user_scopes"))) = Some (JArr l) ->
  forallb is_text l = true -> exists w', run e (guard_routes pathname) w = (Done tt, w').
Proof.
  intros Hp Hl. unfold guard_routes, json_parse, or_throw. run_steps. cbn [w_area]. rewrite Hp. cbn match. run_steps.
  cbn [js_some].
  destruct (some_loop_texts guard_platform l Hl) as [b1 ->]; [intros s; by eexists|]. run_steps.
  destruct (some_loop_texts guard_tenant l Hl) as [b2 ->]; [intros s; by eexists|]. run_steps.
  unfold router_replace, setChecked. destruct (prefix_denies _ _ _ _); run_steps; by eexists.
Qed.

Lemma guard_texts (e : env) pathname window_path (w : world guard_state) l :
  JSON_parse (default user_self (nonempty (w_local w !! "ggid_user_scopes"))) = Some (JArr l) ->
  forallb is_text l = true ->
  exists w', run e (guard_effect pathname window_path) w = (Done tt, w').
Proof.
  intros Hp Hl. destruct (decide (pathname = "/setup")) as [->|Hne].
  { unfold guard_effect. rewrite run_mbind, run_getItem, String.eqb_refl. unfold setChecked. run_steps. by eexists. }
  destruct (nonempty (w_local w !! "ggid_access_token")) as [t|] eqn:Ht.
  - rewrite (run_guard_token e w pathname window_path t Ht Hne), run_mbind, run_guard_verify.
    destruct (rejected _); cbn match; [by eexists|]. unfold setIsAuthenticated. rewrite run_mbind, run_upd.
    apply (guard_routes_texts e _ pathname l); [|done]. by destruct w.
  - unfold guard_effect. rewrite run_mbind, run_getItem. cbn [w_area]. rewrite Ht, (eqb_str_false pathname) by done.
    rewrite bool_decide_false by (by intros []). cbn [negb andb].
    destruct (is_public pathname); cbn [negb].
    + unfold setIsAuthenticated, setChecked. run_steps. by eexists.
    + destruct (run_guard_status e w pathname window_path) as (w' & -> & _). by exists w'.
Qed.

(** The callback page lets no exception out once its flow is read. *)
Lemma social_no_throw hash_params token : no_throw (social_callback hash_params token).
Proof.
  unfold social_callback, with_payload, leave_login, store, router_replace, setItem, getItem, removeItem, emit.
  apply no_throw_bind; [done|]. intros _. apply no_throw_bind; [by destruct (nonempty _)|]. intros _.
  apply no_throw_bind; [|done]. destruct (jwt_payload _) as [[]|]; try done.
  all: apply no_throw_bind; [by destruct (truthy _)|]; intros _;
    by (apply no_throw_bind; [by destruct (truthy _)|]).
Qed.

Lemma callback_shaped (e : env) API hash_params params (w : world string) :
  well_shaped w -> exists w', run e (callback_effect API hash_params params) w = (Done tt, w').
Proof.
  intros Hw. unfold callback_effect.
  assert (forall p : prog string unit, no_throw p -> exists w', run e p w = (Done tt, w')) as Hn.
  { intros p Hp. destruct (no_throw_run e p w Hp) as ([] & w' & ->). by eexists. }
  destruct (nonempty (get_param "access_token" _)); [apply Hn, social_no_throw|].
  destruct (nonempty (get_param "code" _)) as [code|]; [|by apply Hn].
  run_steps. cbn [w_area]. destruct (nonempty (w_session w !! flow_key)) as [text|] eqn:Et; [|by apply Hn].
  destruct (shaped_item w Session flow_key text Hw Et) as [l Hl].
  unfold json_parse. run_steps. rewrite Hl. cbn match. run_steps.
  assert (forall b : bool, exists w', run e
    (if b then cb_error "State mismatch — possible CSRF attack. Please try again.";; removeItem Session flow_key
     else get (JObj l) "redirect_uri";; callback_exchange API code (JObj l)) w = (Done tt, w')) as Hb.
  { intros []; [by eexists|]. run_steps. rewrite run_get_nonnull by done. run_steps. apply Hn.
    unfold callback_exchange. by apply no_throw_try. }
  unfold state_mismatch. destruct (nonempty (get_param "state" params)); run_steps; [|exact (Hb false)].
  rewrite run_get_nonnull by done. run_steps. apply Hb.
Qed.

Lemma permissions_shaped (e : env) browser API tenant (w : world perm_state) :
  well_shaped w -> exists w', run e (permissions_effect browser API tenant) w = (Done tt, w').
Proof.
  intros Hw. unfold permissions_effect.
  assert (exists v, run e (getUserPermissions browser) w = (Done v, w) /\ is_nullish v = false) as (v & Hr & Hn).
  { unfold getUserPermissions. destruct browser; [|by eexists]. run_steps. cbn [w_area].
    destruct (nonempty (w_local w !! "ggid_user_permissions")) as [text|] eqn:Et; [|by eexists].
    destruct (shaped_item w Local _ text Hw Et) as (v & Hv & Hn). exists v. run_steps. by rewrite Hv. }
  rewrite run_mbind, Hr. cbn iota beta.
  assert (forall p : prog perm_state unit, no_throw p -> exists w', run e p w = (Done tt, w')) as Hrun.
  { intros p Hp. destruct (no_throw_run e p w Hp) as ([] & w' & ->). by eexists. }
  apply Hrun. unfold setPermissions, setPermLoading. apply no_throw_bind.
  - destruct v as [| | | | | |]; try done; cbn; repeat case_match; done.
  - intros _. apply no_throw_bind; [|intros [[]|]; repeat case_match; done].
    unfold fetchUserPermissions. apply no_throw_bind.
    + by destruct browser.
    + intros []; [done|]. apply no_throw_try. intros x. unfold cache_failure. by destruct browser.
Qed.

(** C10. Readers of well-shaped items do not fail: the callback page ends without an
    exception, whatever it is called with and whatever the exchange answers; so does the
    effect that shows the stored permissions and asks for new ones; the scopes are read as a
    list; and the guard of a navigation ends without an exception when the elements of that
    list are texts, which the shape does not say. *)
Theorem shaped_readers_succeed (e : env) API hash_params params pathname window_path browser tenant
    (wc : world string) (wp : world perm_state) (wg : world guard_state) :
  well_shaped wc -> well_shaped wp -> well_shaped wg ->
  (exists w', run e (callback_effect API hash_params params) wc = (Done tt, w'))
  /\ (exists w', run e (permissions_effect browser API tenant) wp = (Done tt, w'))
  /\ (exists l, run e (getUserScopes true) wg = (Done (JArr l), wg)
      /\ (forallb is_text l = true ->
          exists w', run e (guard_effect pathname window_path) wg = (Done tt, w'))).
Proof.
  intros Hc Hp Hg. split; [by apply callback_shaped|]. split; [by apply permissions_shaped|].
  assert (exists l, JSON_parse (default user_self (nonempty (w_local wg !! "ggid_user_scopes"))) = Some (JArr l)
    /\ run e (getUserScopes true) wg = (Done (match nonempty (w_local wg !! "ggid_user_scopes") with
         Some _ => JArr l | None => JArr [JStr "user"] end), wg)) as (l & Hl & Hr).
  { unfold getUserScopes. rewrite run_mbind, run_getItem. cbn [w_area].
    destruct (nonempty (w_local wg !! "ggid_user_scopes")) as [text|] eqn:Et.
    - destruct (shaped_item wg Local _ text Hg Et) as [l Hl]. exists l. cbn [default]. by rewrite Hl.
    - exists [JStr "user:self"]. done. }
  exists (match nonempty (w_local wg !! "ggid_user_scopes") with Some _ => l | None => [JStr "user"] end).
  split; [rewrite Hr; by destruct (nonempty _)|]. intros Ht.
  apply (guard_texts e pathname window_path wg l); [done|].
  destruct (nonempty (w_local wg !! "ggid_user_scopes")) eqn:Et; [done|].
  vm_compute in Hl. by injection Hl as <-.
Qed.

(** A list with a number in it is well shaped and makes the guard raise. *)
Example number_stops_guard :
  let w := World guard_init {["ggid_access_token" := "T"; "ggid_user_scopes" := stringify (JArr [JNum 1])]} ∅ ∅ [] in
  match (run (const_env (Some (Response 200 "{}")) 0) (guard_effect "/users" "/users") w).1 with Raised _ => true | Done _ => false end = true.
Proof. vm_compute. done. Qed.

(** ** Witnesses *)

(** A tab signed in as a tenant administrator with a passwordless sign-in pending. *)
Definition demo_tab {S} (s : S) : world S :=
  World s {["ggid_access_token" := "T"; "ggid_user_scopes" := stringify (strs ["tenant:admin"]);
            "ggid_user_permissions" := stringify (strs ["users:read"])]}
    {[flow_key := stringify (ticket_flow "https://console" "v" "s")]} ∅ [].

Lemma demo_shaped {S} (s : S) : well_shaped (demo_tab s).
Proof.
  intros a k v. destruct a; cbn [w_area demo_tab w_local w_session w_secure].
  - intros H. apply lookup_insert_Some in H as [[<- <-]|[_ H]]; [exact I|].
    apply lookup_insert_Some in H as [[<- <-]|[_ H]]; [by eexists|].
    apply lookup_singleton_Some in H as [<- <-]. by exists (strs ["users:read"]).
  - intros H. apply lookup_singleton_Some in H as [<- <-]. by eexists.
  - done.
Qed.

Definition demo_granted : response :=
  Response 200 (stringify (JObj [("access_token",
    JStr ("h." +:+ btoa (stringify (JObj [("scopes", JStr "auditor")])) +:+ ".s"))])).

Definition demo_login : prog (form_state * auth_state) unit :=
  zoom fst_lens (handleCredentials "https://api" "t" "u" "p" "/").
Definition demo_logout : prog (form_state * auth_state) unit :=
  zoom snd_lens (useAuth_logout true "https://api").

Lemma reach_yield {S} (e : env) spawn answers (w0 w : world S) ts i k :
  reachable e spawn answers w0 (w, ts) -> ts !! i = Some (Act OYield k) -> answers _ OYield tt ->
  reachable e spawn answers w0 ((sync e (k tt) w).2, <[i := (sync e (k tt) w).1]> ts).
Proof.
  intros Hr Hi Ha. eapply reach_step; [done|]. eapply step_resume; [done..|]. by destruct (sync e (k tt) w).
Qed.

(** A logout is asked for while a login is in flight; the login is answered last, with a
    token whose scopes are a text. *)
Lemma demo_interleaving :
  exists c : config (form_state * auth_state),
    reachable (const_env None 0) (fun _ => console_call) (fun _ _ _ => True)
      (demo_tab (form_init, useAuth_init)) c
    /\ w_local c.1 !! "ggid_user_scopes" = Some (stringify (strs ["auditor"])).
Proof.
  set (e := const_env None 0). set (any := fun (R : Type) (_ : op (form_state * auth_state) R) (_ : R) => True).
  pose proof (reach_init e (fun _ => console_call) any (demo_tab (form_init, useAuth_init))) as H.
  apply (reach_spawn e _ any) with (p := demo_login) in H; [|apply (call_login fst_lens)].
  apply (reach_spawn e _ any) with (p := demo_logout) in H; [|apply (call_logout snd_lens)].
  eapply (reach_answer e _ any) with (i := 1) (r := None) in H; [|reflexivity|exact I].
  eapply (reach_answer e _ any) with (i := 0) (r := Some demo_granted) in H; [|reflexivity|exact I].
  eapply (reach_yield e _ any) with (i := 0) in H; [|reflexivity|exact I].
  eexists. split; [exact H|].
  vm_compute. reflexivity.
Qed.

(** The wizard runs beside a sign-in's page, and is answered with the same token: its scopes
    are a text again, which is JSON and no list. *)
Lemma demo_setup_run :
  exists c : config (setup_state * auth_state),
    reachable (const_env None 0) (fun _ => any_call) (fun _ _ _ => True) (demo_tab (demo_wizard, useAuth_init)) c
    /\ w_local c.1 !! "ggid_user_scopes" = Some (stringify (JStr "auditor")).
Proof.
  set (e := const_env None 0). set (any := fun (R : Type) (_ : op (setup_state * auth_state) R) (_ : R) => True).
  pose proof (reach_init e (fun _ => any_call) any (demo_tab (demo_wizard, useAuth_init))) as H.
  apply (reach_spawn e _ any) with (p := zoom fst_lens next) in H; [|apply (any_setup fst_lens)].
  eapply (reach_answer e _ any) with (i := 0) (r := Some demo_granted) in H; [|reflexivity|exact I].
  eapply (reach_yield e _ any) with (i := 0) in H; [|reflexivity|exact I].
  eexists. split; [exact H|].
  vm_compute. reflexivity.
Qed.

Lemma storage_stays_shaped_witness :
  (exists c : config (form_state * auth_state),
    w_local c.1 !! "ggid_user_scopes" = Some (stringify (strs ["auditor"])) /\ well_shaped c.1)
  /\ exists c : config (setup_state * auth_state),
    w_local c.1 !! "ggid_user_scopes" = Some (stringify (JStr "auditor")) /\ json_shaped c.1.
Proof.
  split.
  - destruct demo_interleaving as (c & Hr & Hs). exists c. split; [exact Hs|].
    exact (proj2 (storage_stays_shaped (const_env None 0) (fun _ _ _ => True) (demo_tab (form_init, useAuth_init)) c)
      (demo_shaped _) Hr).
  - destruct demo_setup_run as (c & Hr & Hs). exists c. split; [exact Hs|].
    exact (proj1 (storage_stays_shaped (const_env None 0) (fun _ _ _ => True) (demo_tab (demo_wizard, useAuth_init)) c)
      (fun a k v H => shape_loose a k v (demo_shaped _ a k v H)) Hr).
Defined.

Lemma shaped_readers_succeed_witness :
  (exists w', run (const_env None 0) (callback_effect "https://api" [] [("code", "c")]) (demo_tab "") = (Done tt, w'))
  /\ (exists w', run (const_env None 0) (permissions_effect true "https://api" "t") (demo_tab perm_init) = (Done tt, w'))
  /\ exists w', run (const_env None 0) (guard_effect "/users" "/users") (demo_tab guard_init) = (Done tt, w').
Proof.
  destruct (shaped_readers_succeed (const_env None 0) "https://api" [] [("code", "c")] "/users" "/users" true "t"
    (demo_tab "") (demo_tab perm_init) (demo_tab guard_init) (demo_shaped _) (demo_shaped _) (demo_shaped _)) as (H & Hp & l & Hr & Hg).
  split; [exact H|]. split; [exact Hp|]. apply Hg. vm_compute in Hr. injection Hr as <-. reflexivity.
Defined.
