(* ===== verification/Sessions.v ===== *)
(** * Sessions: an abstract machine and the two web clients that implement it

    A client has at most one session.  The machine below says what each kind of
    operation may do to it; [SessionSystem] is the interface a client implements, with
    the simulation it promises; what holds of every history of operations is proved
    once, against the interface.  The provider of the React SDK and the console (its
    sign-in page, its guard and its logout, composed over one browser tab) are the two
    implementations. *)

From S2P Require Import Prelude JsValue JsString Json Effects ApiClient Access Provider.
From S2P Require Import AuthGuard Login Callback SignInFlow.

(** ** The machine *)

Inductive op_kind := Login | Refresh | Check | Logout.

#[export] Instance op_kind_eq_dec : EqDecision op_kind.
Proof. solve_decision. Defined.

(** [session_step k g s s']: an operation of kind [k], to which the server granted [g],
    may move the session from [s] to [s']. *)
Inductive session_step {V : Type} : op_kind -> option V -> option V -> option V -> Prop :=
| step_granted k v s : k = Login \/ k = Refresh -> session_step k (Some v) s (Some v)
| step_kept k s : k <> Logout -> session_step k None s s
| step_ended k s : k <> Login -> session_step k None s None.

(** ** The interface *)

Class SessionSystem (S V Op : Type) := {
  kind : Op -> op_kind;
  exec : Op -> prog S unit;
  session : world S -> option V;
  consistent : world S -> Prop;
  (** the session the server's answers grant to an operation started in a world *)
  grant : env -> world S -> Op -> option V;
  (** what is assumed of the servers *)
  admissible : env -> Prop
}.

Class SessionLaws {S V Op} (Sys : SessionSystem S V Op) : Prop := {
  exec_refines e w o :
    admissible e -> consistent w ->
    exists out w', run e (exec o) w = (out, w') /\ consistent w'
    /\ session_step (kind o) (grant e w o) (session w) (session w')
}.

Section Histories.
Context {S V Op : Type} `{SessionLaws S V Op} (e : env).

(** Operations one after the other, each in the world the previous one left. *)
Definition exec_all (os : list Op) (w : world S) : world S :=
  fold_left (fun w o => (run e (exec o) w).2) os w.

(** The machine's run along the history. *)
Inductive abs_run : world S -> list Op -> option V -> Prop :=
| abs_nil w : abs_run w [] (session w)
| abs_snoc w os o s s' :
    abs_run w os s -> session_step (kind o) (grant e (exec_all os w) o) s s' ->
    abs_run w (os ++ [o]) s'.

Lemma exec_all_snoc os o w : exec_all (os ++ [o]) w = (run e (exec o) (exec_all os w)).2.
Proof. unfold exec_all. by rewrite fold_left_app. Qed.

Lemma exec_all_consistent os w :
  admissible e -> consistent w -> consistent (exec_all os w).
Proof.
  intros He Hw. induction os as [|o os IH] using rev_ind; [done|]. rewrite exec_all_snoc.
  destruct (exec_refines e (exec_all os w) o He IH) as (out & w' & Hr & Hc & _). by rewrite Hr.
Qed.

Lemma exec_all_step os o w :
  admissible e -> consistent w ->
  session_step (kind o) (grant e (exec_all os w) o) (session (exec_all os w)) (session (exec_all (os ++ [o]) w)).
Proof.
  intros He Hw. rewrite exec_all_snoc.
  destruct (exec_refines e (exec_all os w) o He (exec_all_consistent os w He Hw)) as (out & w' & Hr & _ & Hs).
  by rewrite Hr.
Qed.

(** Every history is simulated by the machine. *)
Lemma history_refines os w :
  admissible e -> consistent w -> abs_run w os (session (exec_all os w)).
Proof.
  intros He Hw. induction os as [|o os IH] using rev_ind; [constructor|].
  econstructor; [exact IH|]. by apply exec_all_step.
Qed.

(** A session at the end of a history that began without one was granted by the server
    to a login or a refresh of the history, and no logout came after it. *)
Lemma session_granted os w v :
  admissible e -> consistent w -> session w = None -> session (exec_all os w) = Some v ->
  exists os1 o os2, os = os1 ++ o :: os2
  /\ (kind o = Login \/ kind o = Refresh) /\ grant e (exec_all os1 w) o = Some v
  /\ Forall (fun o' => kind o' <> Logout) os2.
Proof.
  intros He Hw H0. induction os as [|o os IH] using rev_ind; intros Hv; [cbn in Hv; congruence|].
  pose proof (exec_all_step os o w He Hw) as Hs. rewrite Hv in Hs. revert Hs IH.
  generalize (session (exec_all os w)). intros s Hs IH.
  inversion Hs as [k v' s0 Hk Hk1 Hg|k s0 Hk Hk1 Hg|]; subst.
  - exists os, o, []. split_and!; [done|naive_solver|congruence|constructor].
  - destruct (IH eq_refl) as (os1 & o1 & os2 & -> & Hk2 & Hg2 & Hf).
    exists os1, o1, (os2 ++ [o]). split_and!; [by rewrite <- app_assoc|done|done|].
    apply Forall_app_2; [done|]. by constructor.
Qed.

(** A logout ends the session. *)
Lemma logout_ends os o w :
  admissible e -> consistent w -> kind o = Logout -> session (exec_all (os ++ [o]) w) = None.
Proof.
  intros He Hw Hk. pose proof (exec_all_step os o w He Hw) as Hs. rewrite Hk in Hs.
  inversion Hs; subst; naive_solver.
Qed.
End Histories.

(** ** The provider of the React SDK *)

(** The JSON of an answer that is ok. *)
Definition ok_json (o : option response) : option js :=
  match o with Some r => if rs_ok r then JSON_parse (rs_body r) else None | None => None end.

Lemma falsy_prop v k : truthy v = false -> opt_prop v k = JUndef.
Proof. by destruct v. Qed.

Section ProviderSystem.
Context (config : GGIDConfig).

Inductive provider_op := PLogin (username password : string) | PRefresh | PLoad | PLogout.

Definition provider_kind (o : provider_op) : op_kind :=
  match o with PLogin _ _ => Login | PRefresh => Refresh | PLoad => Check | PLogout => Logout end.

Definition provider_exec (o : provider_op) : prog GGIDAuthState unit :=
  match o with
  | PLogin u p => Provider.login config u p
  | PRefresh => Provider.refreshToken config
  | PLoad => Provider.load_user config
  | PLogout => Provider.logout config
  end.

Definition provider_session (w : world GGIDAuthState) : option js :=
  if truthy (tokenSet (w_st w)) then Some (tokenSet (w_st w)) else None.

(** The storage holds the state's token set, and nothing is in flight. *)
Definition provider_consistent (w : world GGIDAuthState) : Prop :=
  refreshing (w_st w) = false
  /\ match w_local w !! storage_key config with
     | None => truthy (tokenSet (w_st w)) = false
     | Some raw => raw <> "" /\ JSON_parse raw = Some (tokenSet (w_st w)) /\ truthy (tokenSet (w_st w)) = true
     end.

Definition provider_grant (e : env) (w : world GGIDAuthState) (o : provider_op) : option js :=
  let ask rq := ok_json (server e (ObsFetch rq :: w_trace w) rq) in
  match o with
  | PLogin u p => ask (login_request config u p)
  | PRefresh =>
      let r := opt_prop (tokenSet (w_st w)) "refresh_token" in
      if truthy r then ask (Provider.refresh_request config r) else None
  | _ => None
  end.

Definition provider_admissible (e : env) : Prop := forall t rq, json_objects rq (server e t rq).

#[export] Instance provider_system : SessionSystem GGIDAuthState js provider_op := {
  kind := provider_kind;
  exec := provider_exec;
  session := provider_session;
  consistent := provider_consistent;
  grant := provider_grant;
  admissible := provider_admissible
}.

Lemma consistent_saved v f w :
  truthy v = true -> json_wf v = true -> tokenSet (f (w_st w)) = v -> refreshing (f (w_st w)) = false ->
  provider_consistent (set_st f (set_area Local (<[storage_key config := stringify v]>) w)).
Proof.
  intros Ht Hw Hf Hr. unfold provider_consistent. autorewrite with world. rewrite Hf, Hr, lookup_insert_eq.
  destruct (stringify_head v) as (c & r & E & _).
  split_and!; [done|by rewrite E|by apply JSON_parse_stringify|done].
Qed.

Lemma consistent_cleared f w :
  truthy (tokenSet (f (w_st w))) = false -> refreshing (f (w_st w)) = false ->
  provider_consistent (set_st f (set_area Local (delete (storage_key config)) w)).
Proof.
  intros Ht Hr. unfold provider_consistent. autorewrite with world. rewrite lookup_delete_eq. done.
Qed.

Lemma consistent_upd f w :
  provider_consistent w -> tokenSet (f (w_st w)) = tokenSet (w_st w) ->
  refreshing (f (w_st w)) = refreshing (w_st w) -> provider_consistent (set_st f w).
Proof. unfold provider_consistent. autorewrite with world. by intros H -> ->. Qed.

Lemma consistent_log o w : provider_consistent w -> provider_consistent (log o w).
Proof. by destruct w. Qed.

Lemma session_set f (w : world GGIDAuthState) :
  provider_session (set_st f w)
  = if truthy (tokenSet (f (w_st w))) then Some (tokenSet (f (w_st w))) else None.
Proof. unfold provider_session. by autorewrite with world. Qed.

Lemma session_log_eq o w : provider_session (log o w) = provider_session w.
Proof. by destruct w. Qed.

(** What the provider finds when it reads the token set back. *)
Lemma run_load_consistent e w :
  provider_consistent w ->
  exists cur, run e (loadTokenSet config) w = (Done cur, w)
  /\ opt_prop cur "refresh_token" = opt_prop (tokenSet (w_st w)) "refresh_token".
Proof.
  intros [_ Hl]. unfold loadTokenSet. run_steps. cbn [w_area].
  destruct (w_local w !! storage_key config) as [raw|].
  - destruct Hl as (Hne & Hj & Ht). rewrite nonempty_some by done. run_steps. rewrite Hj. by eexists.
  - cbn [nonempty]. run_steps. eexists. split; [done|]. by rewrite (falsy_prop (tokenSet (w_st w))).
Qed.

Ltac done_step w' := exists w'; split_and!; [reflexivity|..].

(** The three ways an operation ends. *)
Lemma provider_keeps f w k (w1 : world GGIDAuthState) :
  k <> Logout -> provider_consistent w1 -> provider_session w1 = provider_session w ->
  tokenSet (f (w_st w1)) = tokenSet (w_st w1) -> refreshing (f (w_st w1)) = refreshing (w_st w1) ->
  provider_consistent (set_st f w1)
  /\ session_step k None (provider_session w) (provider_session (set_st f w1)).
Proof.
  intros Hk Hc Hs Ht Hr. split; [by apply consistent_upd|]. rewrite session_set, Ht, <- Hs. by constructor.
Qed.

Lemma provider_ends f w k (w1 : world GGIDAuthState) :
  k <> Login -> truthy (tokenSet (f (w_st w1))) = false -> refreshing (f (w_st w1)) = false ->
  let w' := set_st f (set_area Local (delete (storage_key config)) w1) in
  provider_consistent w' /\ session_step k None (provider_session w) (provider_session w').
Proof.
  intros Hk Ht Hr w'. subst w'. split; [by apply consistent_cleared|].
  rewrite session_set. autorewrite with world. rewrite Ht. by constructor.
Qed.

Lemma provider_grants f w k v (w1 : world GGIDAuthState) :
  k = Login \/ k = Refresh ->
  truthy v = true -> json_wf v = true ->
  tokenSet (f (w_st w1)) = v -> refreshing (f (w_st w1)) = false ->
  let w' := set_st f (set_area Local (<[storage_key config := stringify v]>) w1) in
  provider_consistent w' /\ session_step k (Some v) (provider_session w) (provider_session w').
Proof.
  intros Hk Ht Hw Hf Hr w'. subst w'. split; [by apply consistent_saved|].
  rewrite session_set. autorewrite with world. rewrite Hf, Ht. by constructor.
Qed.

Lemma login_refines e w u p :
  provider_admissible e -> provider_consistent w ->
  exists out w', run e (Provider.login config u p) w = (out, w') /\ provider_consistent w'
  /\ session_step Login (provider_grant e w (PLogin u p)) (provider_session w) (provider_session w').
Proof.
  intros He Hw. pose proof Hw as [Hr _].
  set (rq := login_request config u p).
  set (w1 := log (ObsFetch rq) (set_st (fun s => Build_GGIDAuthState (Provider.user s) (tokenSet s)
          true (Provider.isAuthenticated s) None (refreshing s)) w)).
  assert (provider_consistent w1) as Hc1 by (by apply consistent_log, consistent_upd).
  assert (provider_session w1 = provider_session w) as Hs1.
  { unfold w1. rewrite session_log_eq, session_set. done. }
  assert (refreshing (w_st w1) = false) as Hr1 by apply Hc1.
  assert (forall x,
    exists out w', (Raised x : outcome unit, set_st (fun s => Build_GGIDAuthState (Provider.user s) (tokenSet s) false
          (Provider.isAuthenticated s) (Some (e_message x)) (refreshing s)) w1) = (out, w')
    /\ provider_consistent w'
    /\ session_step Login None (provider_session w) (provider_session w')) as Hfail.
  { intros x. eexists _, _. split; [done|]. by apply provider_keeps. }
  unfold Provider.login. run_steps. autorewrite with world. fold rq w1.
  cbn [provider_grant]. fold rq.
  destruct (server e _ rq) as [resp|] eqn:Es; cbn [ok_json]; run_steps; [|by apply Hfail].
  destruct (rs_ok resp) eqn:Eok; cbn [negb]; run_steps.
  - destruct (JSON_parse (rs_body resp)) as [v|] eqn:Ej; run_steps; [|by apply Hfail].
    assert (truthy v = true) as Ht by by eapply He.
    unfold saveTokenSet, setState. rewrite Ht. run_steps. eexists _, _. split; [done|].
    apply provider_grants; auto. by eapply JSON_parse_wf.
  - destruct (JSON_parse (rs_body resp)) as [v|]; run_steps.
    + unfold get. destruct (prop v "error"); run_steps; by apply Hfail.
    + unfold get. cbn [prop]. run_steps. by apply Hfail.
Qed.

Lemma refresh_refines e w :
  provider_admissible e -> provider_consistent w ->
  exists out w', run e (Provider.refreshToken config) w = (out, w') /\ provider_consistent w'
  /\ session_step Refresh (provider_grant e w PRefresh) (provider_session w) (provider_session w').
Proof.
  intros He Hw. pose proof Hw as [Hr _]. unfold Provider.refreshToken. run_steps. rewrite Hr.
  destruct (run_load_consistent e w Hw) as (cur & Hcur & Hrt). run_steps. rewrite Hcur, Hrt.
  cbn [provider_grant]. set (r := opt_prop (tokenSet (w_st w)) "refresh_token").
  destruct (truthy r) eqn:Htr; cbn [negb].
  2: { run_steps. eexists _, _. split; [done|]. split; [done|]. by constructor. }
  set (rq := Provider.refresh_request config r). unfold set_refreshing. run_steps.
  autorewrite with world. fold rq.
  destruct (server e _ rq) as [resp|] eqn:Es; cbn [ok_json]; unfold saveTokenSet, setState; run_steps.
  2: { eexists _, _. split; [done|]. rewrite set_st_set_st. by apply provider_ends. }
  destruct (rs_ok resp) eqn:Eok; cbn [negb]; run_steps.
  2: { eexists _, _. split; [done|]. rewrite set_st_set_st. by apply provider_ends. }
  destruct (JSON_parse (rs_body resp)) as [v|] eqn:Ej; run_steps.
  2: { eexists _, _. split; [done|]. rewrite set_st_set_st. by apply provider_ends. }
  assert (truthy v = true) as Ht by by eapply He. rewrite Ht. run_steps.
  eexists _, _. split; [done|]. rewrite set_st_set_st. apply provider_grants; auto. by eapply JSON_parse_wf.
Qed.

Lemma load_refines e w :
  provider_admissible e -> provider_consistent w ->
  exists out w', run e (Provider.load_user config) w = (out, w') /\ provider_consistent w'
  /\ session_step Check None (provider_session w) (provider_session w').
Proof.
  intros He Hw. unfold Provider.load_user. run_steps.
  destruct (truthy (tokenSet (w_st w))) eqn:Htok; run_steps.
  2: { eexists _, _. split; [done|]. split; [done|]. by constructor. }
  autorewrite with world. set (rq := Provider.me_request _ _).
  pose proof Hw as [Hr _].
  destruct (server e _ rq) as [resp|]; unfold saveTokenSet, setState; run_steps.
  2: { eexists _, _. split; [done|]. apply provider_ends; [done|done|]. by autorewrite with world. }
  destruct (rs_ok resp); cbn [negb]; run_steps.
  2: { eexists _, _. split; [done|]. apply provider_ends; [done|done|]. by autorewrite with world. }
  destruct (JSON_parse (rs_body resp)) as [v|]; run_steps.
  2: { eexists _, _. split; [done|]. apply provider_ends; [done|done|]. by autorewrite with world. }
  eexists _, _. split; [done|]. apply provider_keeps; try done; [by apply consistent_log|apply session_log_eq].
Qed.

#[export] Instance provider_laws : SessionLaws provider_system.
Proof.
  split. intros e w [u p| | |] He Hw; cbn [exec kind provider_system].
  - by apply login_refines.
  - by apply refresh_refines.
  - by apply load_refines.
  - unfold provider_exec, Provider.logout, saveTokenSet, setState. cbn [truthy].
    run_steps. eexists _, _. split; [done|]. apply provider_ends; try done. apply Hw.
Qed.
End ProviderSystem.

(** ** The console, over one browser tab *)

Lemma focus_local {S T} (l : lens S T) w : w_local (focus l w) = w_local w.
Proof. by destruct w. Qed.
Lemma unfocus_local {S T} (l : lens S T) s w : w_local (unfocus l s w) = w_local w.
Proof. by destruct w. Qed.

(** No item of the local storage is stored under the key [k]. *)
Definition never_stores {S A} (k : string) (p : prog S A) : Prop :=
  stores_ok (fun a k' _ => a = Local -> k' <> k) p.

(** Such a program leaves the item, or removes it. *)
Lemma never_stores_run {S A} (e : env) k (p : prog S A) w :
  never_stores k p ->
  w_local (run e p w).2 !! k = w_local w !! k \/ w_local (run e p w).2 !! k = None.
Proof.
  revert w. induction p as [a|x|R o c IH] using prog_ind; intros w Hp; [by left..|].
  destruct Hp as [Ho Hk]. cbn [run]. destruct (handle e o w) as [r w'] eqn:E.
  assert (w_local w' !! k = w_local w !! k \/ w_local w' !! k = None) as Hw.
  { destruct o as [|f|ar k'|ar k' v|ar k'| | | | |rs| |]; cbn in E; injection E as <- <-;
      try (left; by destruct w).
    - left. destruct w, ar; cbn; [apply lookup_insert_ne; by apply Ho|done|done].
    - destruct w, ar; cbn; [|by left|by left].
      destruct (decide (k' = k)) as [->|Hne]; [right; apply lookup_delete_eq|left; by apply lookup_delete_ne].
    - left. rewrite log_all_world. by destruct w. }
  destruct (IH r w' (Hk r)) as [->| ->]; [done|by right].
Qed.

Section ConsoleSystem.
Context (API_BASE TENANT_ID : string).

(** The states of the sign-in form, of the logout hook and of the guard. *)
Definition tab : Type := form_state * (auth_state * guard_state).

Definition form_lens : lens tab form_state := fst_lens.
Definition auth_lens : lens tab auth_state :=
  Lens (fun s => s.2.1) (fun f s => (s.1, (f s.2.1, s.2.2))).
Definition guard_lens : lens tab guard_state :=
  Lens (fun s => s.2.2) (fun f s => (s.1, (s.2.1, f s.2.2))).

#[export] Instance auth_lens_laws : LensLaws auth_lens.
Proof. split; [done|done|by intros [? []]|]. intros f g [? []] H. cbn in *. by rewrite H. Qed.
#[export] Instance guard_lens_laws : LensLaws guard_lens.
Proof. split; [done|done|by intros [? []]|]. intros f g [? []] H. cbn in *. by rewrite H. Qed.

Inductive console_op :=
| CLogin (tenant username password redirectTo : string)
| CFetch (path : string) (options : option RequestInit)
| CNavigate (pathname window_path : string)
| CUnauthorized (currentPath : string)
| CLogout.

Definition console_kind (o : console_op) : op_kind :=
  match o with
  | CLogin _ _ _ _ => Login
  | CFetch _ _ => Refresh
  | CNavigate _ _ | CUnauthorized _ => Check
  | CLogout => Logout
  end.

Definition console_exec (o : console_op) : prog tab unit :=
  match o with
  | CLogin tenant u p redirectTo => zoom form_lens (handleCredentials API_BASE tenant u p redirectTo)
  | CFetch path options => apiFetch true API_BASE TENANT_ID path options;; mret tt
  | CNavigate pathname window_path => zoom guard_lens (guard_effect pathname window_path)
  | CUnauthorized currentPath => zoom guard_lens (handleUnauthorized currentPath)
  | CLogout => zoom auth_lens (useAuth_logout true API_BASE)
  end.

Definition stored_session (m : gmap string string) : option string := nonempty (m !! "ggid_access_token").

(** The tokens a refresh of [apiFetch] is granted. *)
Definition fetch_grant (e : env) (w : world tab) path options : option js :=
  match first_answer e API_BASE TENANT_ID w path options, nonempty (w_local w !! "ggid_refresh_token") with
  | Some resp, Some r =>
      if (rs_status resp =? 401)%Z && negb (str_includes "/auth/" path)
      then granted (server e (ObsFetch (ApiClient.refresh_request API_BASE r)
             :: w_trace (first_world API_BASE TENANT_ID w path options)) (ApiClient.refresh_request API_BASE r))
      else None
  | _, _ => None
  end.

Definition console_grant (e : env) (w : world tab) (o : console_op) : option string :=
  match o with
  | CLogin tenant u p _ =>
      data ← token_granted (answer_to e (focus form_lens w) API_BASE tenant u p []);
      Some (to_str (opt_prop data "access_token"))
  | CFetch path options => data ← fetch_grant e w path options; Some (to_str (opt_prop data "access_token"))
  | _ => None
  end.

(** The tokens a server grants are not empty. *)
Definition console_admissible (e : env) : Prop :=
  forall t rq data, token_granted (server e t rq) = Some data -> to_str (opt_prop data "access_token") <> "".

#[export] Instance console_system : SessionSystem tab string console_op := {
  kind := console_kind;
  exec := console_exec;
  session := fun w => stored_session (w_local w);
  consistent := fun _ => True;
  grant := console_grant;
  admissible := console_admissible
}.

Lemma fetch_refines e w path options :
  console_admissible e ->
  exists out w', run e (apiFetch true API_BASE TENANT_ID path options) w = (out, w')
  /\ session_step Refresh (console_grant e w (CFetch path options)) (stored_session (w_local w))
       (stored_session (w_local w')).
Proof.
  intros He. rewrite run_apiFetch. cbn [console_grant]. unfold fetch_grant. cbn zeta.
  set (w1 := first_world API_BASE TENANT_ID w path options).
  assert (w_local w1 = w_local w) as Hw1 by (unfold w1, first_world; by autorewrite with world).
  assert (forall s : option string, session_step Refresh None s s) as Hkept by (intros; by constructor).
  destruct (first_answer e API_BASE TENANT_ID w path options) as [resp|].
  2: { eexists _, _. split; [done|]. rewrite Hw1. apply Hkept. }
  destruct (nonempty (w_local w !! "ggid_refresh_token")) as [r|].
  2: { destruct (_ && _); [|eexists _, _; split; [done|]; rewrite Hw1; apply Hkept].
       run_steps. rewrite run_session_expired. eexists _, _. split; [done|]. autorewrite with world.
       rewrite Hw1. apply Hkept. }
  destruct (_ && _); [|eexists _, _; split; [done|]; rewrite Hw1; apply Hkept].
  assert (forall (o : option js) w2, exists out w', run e (match o with
      | Some v => mret v | None => session_expired end : prog tab js) w2 = (out, w')
      /\ w_local w' = w_local w2) as Hend.
  { intros [v|] w2; [by eexists _, _|]. rewrite run_session_expired. eexists _, _. split; [done|].
    by autorewrite with world. }
  run_steps.
  destruct (granted (server e _ (ApiClient.refresh_request API_BASE r))) as [tokens|] eqn:Hg; cbn [mbind option_bind].
  - rewrite (run_refresh_granted e API_BASE w1 path options _ r tokens) by (autorewrite with world; done).
    set (w4 := retry_world _ _ _ _ _ _ _).
    assert (stored_session (w_local w4) = Some (to_str (opt_prop tokens "access_token"))) as Hs.
    { unfold w4, retry_world. autorewrite with world. unfold stored_session, tokens_after, scopes_after.
      assert (to_str (opt_prop tokens "access_token") <> "") as Hne.
      { unfold granted in Hg. destruct (server e _ _) as [r0|] eqn:Er; [|done]. cbn in Hg.
        destruct (rs_ok r0) eqn:Eok; [|done]. destruct (JSON_parse (rs_body r0)) as [v|] eqn:Ej; [|done].
        cbn in Hg. destruct (truthy (opt_prop v "access_token")) eqn:Et; [|done]. injection Hg as ->.
        eapply He. unfold token_granted. rewrite Er, Eok. cbn. rewrite Ej. cbn.
        assert (is_nullish tokens = false) as -> by (by destruct tokens). done. }
      rewrite <- (nonempty_some _ Hne). f_equal.
      destruct (jwt_payload _) as [[]|]; rewrite ?(lookup_insert_ne _ "ggid_user_scopes") by done;
        destruct (truthy _); rewrite ?(lookup_insert_ne _ "ggid_refresh_token") by done; apply lookup_insert_eq. }
    assert (forall (o : option js) w2, stored_session (w_local w2) = stored_session (w_local w4) ->
      exists out w', run e (match o with Some v => mret v | None => session_expired end : prog tab js) w2 = (out, w')
      /\ session_step Refresh (Some (to_str (opt_prop tokens "access_token"))) (stored_session (w_local w))
           (stored_session (w_local w'))) as Hdone.
    { intros o w2 H2. destruct (Hend o w2) as (out & w' & -> & Hl). eexists _, _. split; [done|].
      rewrite Hl, H2, Hs. constructor. by right. }
    destruct (server e (w_trace w4) _) as [resp3|]; cbn match; [|by apply (Hdone None)].
    destruct (rs_status resp3 =? 401)%Z; [apply (Hdone None); by autorewrite with world|].
    destruct (api_result resp3) as [v|]; [by apply (Hdone (Some v))|by apply (Hdone None)].
  - rewrite (run_refresh_refused e API_BASE w1 path options _ r) by (autorewrite with world; done).
    cbn match. destruct (Hend None (log (ObsFetch (ApiClient.refresh_request API_BASE r)) w1)) as (out & w' & -> & Hl).
    eexists _, _. split; [done|]. rewrite Hl. autorewrite with world. rewrite Hw1. apply Hkept.
Qed.

(** An operation that stores no token leaves the session or ends it. *)
Lemma checked_refines {A} e (p : prog tab A) w :
  never_stores "ggid_access_token" p ->
  exists out w', run e p w = (out, w')
  /\ session_step Check None (stored_session (w_local w)) (stored_session (w_local w')).
Proof.
  intros Hp. destruct (run e p w) as [out w'] eqn:E. exists out, w'. split; [done|].
  pose proof (never_stores_run e _ p w Hp) as Hw. rewrite E in Hw. cbn [snd] in Hw.
  unfold stored_session at 2. destruct Hw as [->| ->]; by constructor.
Qed.

Lemma guard_never_stores pathname window_path :
  never_stores "ggid_access_token" (guard_effect pathname window_path).
Proof.
  unfold never_stores, guard_effect, guard_status, guard_verify, guard_routes, setIsAuthenticated, setChecked,
    router_push, router_replace, fetch, get, json_parse, or_throw, getItem, emit, upd.
  stores_prog.
Qed.

Lemma unauthorized_never_stores currentPath :
  never_stores "ggid_access_token" (handleUnauthorized currentPath).
Proof. unfold never_stores, handleUnauthorized, setIsAuthenticated, emit, upd. stores_prog. Qed.

#[export] Instance console_laws : SessionLaws console_system.
Proof.
  split. intros e w [tenant u p redirectTo|path options|pathname window_path|currentPath|] He _;
    cbn [exec kind session grant console_system console_exec console_kind console_grant].
  - rewrite run_zoom by apply _.
    pose proof (focus_local form_lens w) as Hloc.
    destruct (token_granted (answer_to e (focus form_lens w) API_BASE tenant u p [])) as [data|] eqn:Hg;
      cbn [mbind option_bind].
    + destruct (run_credentials_granted e _ API_BASE tenant u p redirectTo data Hg) as (w' & -> & _ & Hl & _).
      eexists _, _. split; [done|]. split; [done|].
      rewrite unfocus_local, Hl. unfold stored_session at 2, after_login.
      rewrite on_payload_frame.
      * rewrite lookup_insert_ne, after_tokens_token by done.
        rewrite (nonempty_some _ (He _ _ _ Hg)). constructor. by left.
      * intros q m. unfold after_permissions, after_scopes.
        destruct (truthy _); by rewrite ?lookup_insert_ne by done.
    + assert (exists w', run e (handleCredentials API_BASE tenant u p redirectTo) (focus form_lens w) = (Done tt, w')
        /\ w_local w' = w_local w) as (w' & -> & Hl).
      { destruct (mfa_asked (answer_to e (focus form_lens w) API_BASE tenant u p [])) as [data|] eqn:Hm.
        - destruct (run_credentials_mfa e _ API_BASE tenant u p redirectTo data Hm) as (w' & -> & _ & Hl & _).
          exists w'. by rewrite Hl.
        - destruct (run_credentials_refused e _ API_BASE tenant u p redirectTo Hg Hm) as (w' & -> & _ & _ & Hl & _).
          exists w'. by rewrite Hl. }
      eexists _, _. split; [done|]. split; [done|]. rewrite unfocus_local, Hl. by constructor.
  - rewrite run_mbind. destruct (fetch_refines e w path options He) as (out & w' & -> & Hs).
    destruct out; eexists _, _; split_and!; done.
  - destruct (checked_refines e (zoom guard_lens (guard_effect pathname window_path)) w) as (out & w' & -> & Hs);
      [apply stores_ok_zoom, guard_never_stores|]. by exists out, w'.
  - destruct (checked_refines e (zoom guard_lens (handleUnauthorized currentPath)) w) as (out & w' & -> & Hs);
      [apply stores_ok_zoom, unauthorized_never_stores|]. by exists out, w'.
  - rewrite run_zoom by apply _.
    destruct (run_useAuth_logout e (focus auth_lens w) API_BASE) as (w' & -> & _ & Hk & _).
    eexists _, _. split; [done|]. split; [done|]. rewrite unfocus_local. unfold stored_session at 2.
    rewrite Hk by (cbn; tauto). by constructor.
Qed.
End ConsoleSystem.

(** ** Properties *)

(** The two clients' histories. *)
Definition provider_history (config : GGIDConfig) (e : env) :
    list provider_op -> world GGIDAuthState -> world GGIDAuthState :=
  exec_all (Sys := provider_system config) e.

Definition console_history (API_BASE TENANT_ID : string) (e : env) :
    list console_op -> world tab -> world tab :=
  exec_all (Sys := console_system API_BASE TENANT_ID) e.

(** C4. Both clients implement the session machine: along every history of sign-ins,
    refreshes, checks and logouts, against servers that answer or not, each operation
    terminates and moves the client's session as the machine allows for the operation's
    kind and what the servers granted it.  The provider also keeps its storage and its
    state in agreement. *)
Theorem clients_refine_machine config API_BASE TENANT_ID (e : env) :
  (forall os w, provider_admissible e -> provider_consistent config w ->
   abs_run (Sys := provider_system config) e w os (provider_session (provider_history config e os w))
   /\ provider_consistent config (provider_history config e os w))
  /\ (forall os w, console_admissible e ->
      abs_run (Sys := console_system API_BASE TENANT_ID) e w os
        (stored_session (w_local (console_history API_BASE TENANT_ID e os w)))).
Proof.
  split; intros os w He.
  - intros Hw. split; [by apply (history_refines (Sys := provider_system config))|].
    by apply (exec_all_consistent (Sys := provider_system config)).
  - by apply (history_refines (Sys := console_system API_BASE TENANT_ID)).
Qed.

(** No session out of nothing, and none after a logout, for the provider: a session
    held at the end of a history that began without one was granted by the API to a
    login or a refresh of that history, after which no logout came. *)
Lemma provider_sessions_granted config (e : env) os w v :
  provider_admissible e -> provider_consistent config w ->
  provider_session w = None -> provider_session (provider_history config e os w) = Some v ->
  exists os1 o os2, os = os1 ++ o :: os2
  /\ (o = PRefresh \/ exists u p, o = PLogin u p)
  /\ provider_grant config e (provider_history config e os1 w) o = Some v
  /\ ~ In PLogout os2.
Proof.
  intros He Hw H0 Hv.
  destruct (session_granted (Sys := provider_system config) e os w v He Hw H0 Hv)
    as (os1 & o & os2 & -> & Hk & Hg & Hf).
  exists os1, o, os2. split_and!; [done| |done|].
  - destruct o; cbn in Hk; naive_solver.
  - intros Hin. rewrite Forall_forall in Hf. apply list_elem_of_In in Hin. by apply (Hf PLogout).
Qed.

(** C5. The same for the console, whatever mixture of sign-ins, API calls (which may
    refresh), navigations (whose guard may end the session), expiry events and logouts
    a tab goes through. *)
Theorem console_sessions_granted API_BASE TENANT_ID (e : env) os w token :
  console_admissible e ->
  stored_session (w_local w) = None ->
  stored_session (w_local (console_history API_BASE TENANT_ID e os w)) = Some token ->
  exists os1 o os2, os = os1 ++ o :: os2
  /\ ((exists path options, o = CFetch path options) \/ exists t u p r, o = CLogin t u p r)
  /\ console_grant API_BASE TENANT_ID e (console_history API_BASE TENANT_ID e os1 w) o = Some token
  /\ ~ In CLogout os2.
Proof.
  intros He H0 Hv.
  destruct (session_granted (Sys := console_system API_BASE TENANT_ID) e os w token He I H0 Hv)
    as (os1 & o & os2 & -> & Hk & Hg & Hf).
  exists os1, o, os2. split_and!; [done| |done|].
  - destruct o; cbn in Hk; destruct Hk as [[=]|[=]]; eauto 8.
  - intros Hin. rewrite Forall_forall in Hf. apply list_elem_of_In in Hin. by apply (Hf CLogout).
Qed.

(** ** Witnesses *)

Definition demo_provider : GGIDConfig := Build_GGIDConfig "https://api" "t" None.

Definition demo_tokens : js := JObj [("access_token", JStr "T"); ("refresh_token", JStr "R")].

Definition granting : env := const_env (Some (Response 200 (stringify demo_tokens))) 0.

Lemma granting_admissible : provider_admissible granting /\ console_admissible granting.
Proof.
  assert (JSON_parse (stringify demo_tokens) = Some demo_tokens) as Hj by by vm_compute.
  split.
  - intros t rq resp v [= <-] _. cbn [rs_body]. rewrite Hj. by intros [= <-].
  - intros t rq data. cbn [granting const_env server token_granted rs_body].
    change (rs_ok (Response 200 (stringify demo_tokens))) with true. cbn match. rewrite Hj. cbn.
    intros [= <-]. discriminate.
Qed.

Definition demo_start : world GGIDAuthState := page (Provider.init_state JNull) ∅.

Lemma demo_consistent : provider_consistent demo_provider demo_start.
Proof. done. Qed.

Lemma provider_sessions_granted_witness :
  exists os1 o os2, [PLogout; PLogin "u" "p"; PRefresh] = os1 ++ o :: os2
  /\ (o = PRefresh \/ exists u p, o = PLogin u p)
  /\ provider_grant demo_provider granting (provider_history demo_provider granting os1 demo_start) o
     = Some demo_tokens
  /\ ~ In PLogout os2.
Proof.
  apply (provider_sessions_granted demo_provider granting [PLogout; PLogin "u" "p"; PRefresh] demo_start);
    [apply granting_admissible|exact demo_consistent|reflexivity|vm_compute; reflexivity].
Defined.

Definition demo_tab : world tab :=
  page (form_init, (Build_auth_state false true, guard_init)) ∅.

Lemma console_sessions_granted_witness :
  exists os1 o os2, [CLogin "t" "u" "p" "/"; CNavigate "/users" "/users"] = os1 ++ o :: os2
  /\ ((exists path options, o = CFetch path options) \/ exists t u p r, o = CLogin t u p r)
  /\ console_grant "" "t" granting (console_history "" "t" granting os1 demo_tab) o = Some "T"
  /\ ~ In CLogout os2.
Proof.
  apply (console_sessions_granted "" "t" granting [CLogin "t" "u" "p" "/"; CNavigate "/users" "/users"]
    demo_tab); [apply granting_admissible|reflexivity|vm_compute; reflexivity].
Defined.

Lemma clients_refine_machine_witness :
  abs_run (Sys := provider_system demo_provider) granting demo_start [PLogin "u" "p"; PLogout]
    (provider_session (provider_history demo_provider granting [PLogin "u" "p"; PLogout] demo_start))
  /\ provider_session (provider_history demo_provider granting [PLogin "u" "p"; PLogout] demo_start) = None.
Proof.
  split; [|vm_compute; reflexivity].
  apply (clients_refine_machine demo_provider "" "t" granting);
    [apply granting_admissible|exact demo_consistent].
Defined.
