(* ===== verification/RnStore.v ===== *)
(** * React Native SDK: the store (sdk/react-native/src/index.ts)

    A zustand store around the client of ReactNative.v.  A client is an object with a
    private field (its discovery document): the store's state has a heap of these
    fields, [discovered], and [client] is a reference into it, so that a call started
    on one client goes on with it when [init] puts another in its place. *)

From S2P Require Import Prelude JsValue JsString Json Effects ApiClient ReactNative.

Record store := Store {
  client : option (nat * GGIDConfig);
  discovered : gmap nat DiscoveryDocument;
  next_client : nat;
  st_session : js;
  st_loading : bool;
  st_error : option string
}.

Definition store_init : store := Store None ∅ 0 JNull false None.

(** The field of the client [i]. *)
Definition client_lens (i : nat) : lens store (option DiscoveryDocument) :=
  Lens (fun s => discovered s !! i)
    (fun f s => Store (client s) (partial_alter f i (discovered s)) (next_client s) (st_session s)
                  (st_loading s) (st_error s)).

#[export] Instance client_lens_laws i : LensLaws (client_lens i).
Proof.
  assert (forall (m m' : gmap nat DiscoveryDocument), m !! i = m' !! i ->
    (forall j, j <> i -> m !! j = m' !! j) -> m = m') as Heq.
  { intros m m' Hi Hj. apply map_eq. intros j. destruct (decide (j = i)) as [->|]; auto. }
  split.
  - intros f s. cbn. apply lookup_partial_alter_eq.
  - intros f g s. cbn. f_equal. apply Heq; [by rewrite !lookup_partial_alter_eq|].
    intros j Hj. by rewrite !lookup_partial_alter_ne.
  - intros []. cbn. f_equal. apply Heq; [by rewrite lookup_partial_alter_eq|].
    intros j Hj. by rewrite lookup_partial_alter_ne.
  - intros f g s H. cbn in *. f_equal. apply Heq; [by rewrite !lookup_partial_alter_eq|].
    intros j Hj. by rewrite !lookup_partial_alter_ne.
Qed.

(** [set({ session })], [set({ loading })], [set({ error })]. *)
Definition set_session (v : js) : prog store unit :=
  upd (fun s => Store (client s) (discovered s) (next_client s) v (st_loading s) (st_error s)).
Definition set_loading (b : bool) : prog store unit :=
  upd (fun s => Store (client s) (discovered s) (next_client s) (st_session s) b (st_error s)).
Definition set_error (o : option string) : prog store unit :=
  upd (fun s => Store (client s) (discovered s) (next_client s) (st_session s) (st_loading s) o).

Section Store.
Context (codeVerifier : js) (fuel : nat).

Definition init (config : GGIDConfig) : prog store unit :=
  upd (fun s => Store (Some (next_client s, config)) (discovered s) (S (next_client s)) (st_session s)
                  (st_loading s) (st_error s)).

Definition store_login : prog store unit :=
  s ← get_state;
  match client s with
  | None => mret tt
  | Some (i, config) =>
      set_loading true;; set_error None;;
      try_catch (
        session ← zoom (client_lens i) (login config codeVerifier);
        set_session session;; set_loading false)
      (fun e => set_error (Some (e_message e));; set_loading false)
  end.

(** [None]: the client's call does not return. *)
Definition store_logout : prog store (option unit) :=
  s ← get_state;
  match client s with
  | None => mret (Some tt)
  | Some (i, config) =>
      done_ ← zoom (client_lens i) (logout config fuel);
      match done_ with
      | None => mret None
      | Some _ => set_session JNull;; mret (Some tt)
      end
  end.

Definition store_restore : prog store (option unit) :=
  s ← get_state;
  match client s with
  | None => mret (Some tt)
  | Some (i, config) =>
      set_loading true;;
      session ← zoom (client_lens i) (getSession config fuel);
      match session with
      | None => mret None
      | Some session => set_session session;; set_loading false;; mret (Some tt)
      end
  end.

Definition store_checkPermission (resource action : string) : prog store (option bool) :=
  s ← get_state;
  match client s with
  | None => mret (Some false)
  | Some (i, config) => zoom (client_lens i) (checkPermission config fuel resource action)
  end.
End Store.

(** The selectors of the three hooks. *)
Definition useUser (s : store) : js := js_nullish (opt_prop (st_session s) "user") JNull.
Definition useIsAuthenticated (s : store) : bool := negb (bool_decide (st_session s = JNull)).
Definition useToken (s : store) : js := js_nullish (opt_prop (st_session s) "accessToken") JNull.

(** ** Lemmas *)

(** A result of the browser prompt that is no success: dismissed, cancelled, refused. *)
Definition not_success (result : js) : Prop := js_is_str (opt_prop result "type") "success" = false.

Lemma run_login_cancelled config codeVerifier e w result :
  (forall t, platform e t "promptAsync" (auth_request config) = Some result) -> not_success result ->
  exists w', run e (login config codeVerifier) w = (Done JNull, w')
  /\ w_secure w' = w_secure w /\ w_trace w' = ObsHost "promptAsync" (auth_request config) :: w_trace w.
Proof.
  intros Hp Hn. unfold login, getDiscovery, expo. run_steps.
  destruct (w_st w) as [d|]; run_steps; autorewrite with world; rewrite Hp; run_steps; rewrite Hn;
    cbn [negb]; run_steps; eexists; (split; [done|]); by autorewrite with world.
Qed.

Lemma unfocus_secure {S T} (l : lens S T) s w : w_secure (unfocus l s w) = w_secure w.
Proof. by destruct w. Qed.
Lemma focus_secure {S T} (l : lens S T) w : w_secure (focus l w) = w_secure w.
Proof. by destruct w. Qed.
Lemma unfocus_trace {S T} (l : lens S T) s w : w_trace (unfocus l s w) = w_trace w.
Proof. by destruct w. Qed.
Lemma focus_trace {S T} (l : lens S T) w : w_trace (focus l w) = w_trace w.
Proof. by destruct w. Qed.
Lemma unfocus_st {S T} (l : lens S T) s w : w_st (unfocus l s w) = over l (fun _ => w_st w) s.
Proof. by destruct w. Qed.

(** ** Properties *)

(** A sign-in that the user dismisses in the browser signs the store out: its session
    becomes null, whatever it was, and no error is reported; but the session in the
    secure storage stays, so [restore] signs the user in again with it, as long as it has
    not expired. *)
Lemma cancelled_login_forgets config codeVerifier fuel (e e' : env) (w : world store) i result session exp :
  client (w_st w) = Some (i, config) ->
  (forall t, platform e t "promptAsync" (auth_request config) = Some result) -> not_success result ->
  w_secure w !! SESSION_KEY = Some (stringify session) -> json_wf session = true ->
  prop session "expiresAt" = Some (JNum exp) -> (forall t, (clock e' t <= exp)%Z) ->
  exists w', run e (store_login codeVerifier) w = (Done tt, w')
  /\ useIsAuthenticated (w_st w') = false /\ st_loading (w_st w') = false /\ st_error (w_st w') = None
  /\ exists w2, run e' (store_restore (S fuel)) w' = (Done (Some tt), w2)
     /\ st_session (w_st w2) = session /\ st_loading (w_st w2) = false.
Proof.
  intros Hc Hp Hn Hs Hwf Hexp Hclk. unfold store_login. run_steps. rewrite Hc.
  unfold set_loading, set_error, set_session. run_steps. rewrite run_zoom by apply _.
  match goal with |- context [run e (login config codeVerifier) ?x] =>
    destruct (run_login_cancelled config codeVerifier e x result Hp Hn) as (w1 & -> & Hsec & Htr) end.
  run_steps. eexists. split; [done|]. autorewrite with world. rewrite unfocus_st.
  split; [done|]. split; [done|]. split; [done|]. unfold store_restore. run_steps. autorewrite with world. rewrite unfocus_st.
  cbn [client over client_lens]. autorewrite with world. cbn [client]. rewrite Hc.
  unfold set_loading, set_session. run_steps. rewrite run_zoom by apply _.
  rewrite (getSession_stored config e' _ session exp fuel).
  - run_steps. eexists. split; [done|]. autorewrite with world. by rewrite unfocus_st.
  - rewrite focus_secure. autorewrite with world. rewrite unfocus_secure, Hsec, focus_secure.
    by autorewrite with world.
  - done.
  - done.
  - apply Hclk.
Qed.

(** A store that restores a session which has expired and cannot be refreshed loads
    for ever: the client's call does not return, however long it runs, so neither the
    loading flag nor the session is ever set, and the stored session stays. *)
Lemma expired_restore_hangs config fuel (e : env) (w : world store) i raw session exp :
  client (w_st w) = Some (i, config) ->
  client_ok config (focus (client_lens i) w) ->
  w_secure w !! SESSION_KEY = Some raw -> raw <> "" -> JSON_parse raw = Some session ->
  prop session "expiresAt" = Some (JNum exp) -> (forall t, (exp < clock e t)%Z) ->
  truthy (opt_prop session "refreshToken") = false \/ (forall t rq, refuses (server e t rq)) ->
  exists w', run e (store_restore fuel) w = (Done None, w')
  /\ st_loading (w_st w') = true /\ st_session (w_st w') = st_session (w_st w)
  /\ w_secure w' !! SESSION_KEY = Some raw.
Proof.
  intros Hc Hok Hraw Hne Hj Hexp Hclk Href. unfold store_restore. run_steps. rewrite Hc.
  unfold set_loading. run_steps. rewrite run_zoom by apply _.
  match goal with |- context [run e (getSession config fuel) ?x] =>
    destruct (getSession_expired config e x raw session exp fuel) as (w1 & -> & Hs1 & _) end;
    [unfold client_ok in *; by destruct w|rewrite focus_secure; by autorewrite with world|done..|].
  run_steps. eexists. split; [done|]. rewrite unfocus_st, unfocus_secure. autorewrite with world. done.
Qed.

(** ** Witnesses *)

Definition demo_store (exp : Z) : world store :=
  World (Store (Some (0, demo_config)) ∅ 1 (demo_stored exp) false None) ∅ ∅
    {[SESSION_KEY := stringify (demo_stored exp)]} [].

Definition dismissed : env :=
  {| server := fun _ _ => None; clock := fun _ => 100%Z; entropy := fun _ n => repeat 0%Z n;
     platform := fun _ _ _ => Some (JObj [("type", JStr "dismiss")]) |}.

Lemma cancelled_login_forgets_witness :
  exists w', run dismissed (store_login JNull) (demo_store 200) = (Done tt, w')
  /\ useIsAuthenticated (w_st w') = false.
Proof.
  destruct (cancelled_login_forgets demo_config JNull 0 dismissed dismissed (demo_store 200) 0
    (JObj [("type", JStr "dismiss")]) (demo_stored 200) 200) as (w' & Hr & Ha & _); try reflexivity.
  - intros t. discriminate.
  - exists w'. split; [exact Hr|exact Ha].
Defined.

Lemma expired_restore_hangs_witness :
  exists w', run (late None) (store_restore 5) (demo_store 10) = (Done None, w')
  /\ st_loading (w_st w') = true.
Proof.
  destruct (expired_restore_hangs demo_config 5 (late None) (demo_store 10) 0 (stringify (demo_stored 10))
    (demo_stored 10) 10) as (w' & Hr & Hl & _); try reflexivity.
  - discriminate.
  - right. intros t rq. exact I.
  - exists w'. split; [exact Hr|exact Hl].
Defined.
