(* ===== verification/Saml.v ===== *)
(** * React SDK: SAML utilities (sdk/react/src/saml.ts)

    Text templates and regular expressions.  The identifier and the instant of a
    request, drawn from [Math.random] and the clock, are arguments. *)

From S2P Require Import Prelude JsValue JsString Json Effects Base64.

(** ** Escaping *)

(** The five replacements, in the order of the source. *)
Definition escapeXml (str : string) : string :=
  replace_char "'" "&apos;"
    (replace_char (chr 34) "&quot;"
      (replace_char ">" "&gt;" (replace_char "<" "&lt;" (replace_char "&" "&amp;" str)))).

(** ** The metadata of a service provider *)

Record SAMLConfig := {
  entityId : string;
  acsUrl : string;
  sloUrl : option string;
  signRequests : option bool
}.

Definition nl : string := String (chr 10) "".
Definition quoted (s : string) : string := dq +:+ s +:+ dq.

Definition slo_element (config : SAMLConfig) : string :=
  match sloUrl config with
  | None | Some "" => ""
  | Some url =>
      "  <SingleLogoutService Binding=" +:+ quoted "urn:oasis:names:tc:SAML:2.0:bindings:HTTP-Redirect"
      +:+ " Location=" +:+ quoted (escapeXml url) +:+ " />" +:+ nl
  end.

Definition generateSPMetadata (config : SAMLConfig) : string :=
  "<?xml version=" +:+ quoted "1.0" +:+ " encoding=" +:+ quoted "UTF-8" +:+ "?>" +:+ nl
  +:+ "<EntityDescriptor xmlns=" +:+ quoted "urn:oasis:names:tc:SAML:2.0:metadata"
  +:+ " entityID=" +:+ quoted (escapeXml (entityId config)) +:+ ">" +:+ nl
  +:+ "  <SPSSODescriptor protocolSupportEnumeration="
  +:+ quoted "urn:oasis:names:tc:SAML:2.0:protocol" +:+ ">" +:+ nl
  +:+ "    <NameIDFormat>urn:oasis:names:tc:SAML:1.1:nameid-format:emailAddress</NameIDFormat>" +:+ nl
  +:+ "    <AssertionConsumerService Binding="
  +:+ quoted "urn:oasis:names:tc:SAML:2.0:bindings:HTTP-POST" +:+ nl
  +:+ "      Location=" +:+ quoted (escapeXml (acsUrl config)) +:+ " index=" +:+ quoted "0" +:+ " />" +:+ nl
  +:+ slo_element config +:+ "  </SPSSODescriptor>" +:+ nl
  +:+ "</EntityDescriptor>".

(** [s.replace(/\/$/, "")]. *)
Definition strip_slash (s : string) : string :=
  match String.length s with
  | O => s
  | Datatypes.S n =>
      match String.get n s with
      | Some "/"%char => String.substring 0 n s
      | _ => s
      end
  end.

Definition fetchIdPMetadata {S} (ggidBaseUrl : string) : prog S string :=
  res ← fetch (Request GET (strip_slash ggidBaseUrl +:+ "/saml/metadata") [] None);
  if negb (rs_ok res)
  then Throw (error ("Failed to fetch IdP metadata: " +:+ string_of_Z (rs_status res)))
  else resp_text res.

(** ** Reading metadata *)

(** [([^Q]+)Q] at the start, for the double quote Q: the captured text. *)
Fixpoint capture (s : string) : option string :=
  match s with
  | EmptyString => None
  | String c r => if (code c =? 34)%nat then Some "" else t ← capture r; Some (String c t)
  end.

Definition capture1 (s : string) : option string :=
  match capture s with Some "" => None | o => o end.

(** [pQ([^Q]+)Q] at the start of [s], for a literal [p]. *)
Definition match_attr (p s : string) : option string :=
  r ← strip_prefix (p +:+ dq) s; capture1 r.

(** The leftmost match of [m]. *)
Fixpoint leftmost {A} (m : string -> option A) (s : string) : option A :=
  match m s with
  | Some x => Some x
  | None => match s with String _ s' => leftmost m s' | EmptyString => None end
  end.

(** [[^>]*] followed by [m]: the run is greedy and gives back. *)
Fixpoint greedy_then {A} (m : string -> option A) (s : string) : option A :=
  match s with
  | String c s' =>
      match (if Ascii.eqb c ">"%char then None else greedy_then m s') with
      | Some x => Some x
      | None => m s
      end
  | EmptyString => m s
  end.

Definition parseEntityId (metadataXml : string) : option string :=
  leftmost (match_attr "entityID=") metadataXml.

Definition parseSsoUrl (metadataXml : string) : option string :=
  leftmost (fun s => r ← strip_prefix "SingleSignOnService" s; greedy_then (match_attr "Location=") r)
    metadataXml.

(** ** Authentication requests *)

Definition authn_request (id instant ssoUrl entityId acsUrl : string) : string :=
  "<samlp:AuthnRequest xmlns:samlp=" +:+ quoted "urn:oasis:names:tc:SAML:2.0:protocol"
  +:+ " ID=" +:+ quoted id +:+ " Version=" +:+ quoted "2.0" +:+ " IssueInstant=" +:+ quoted instant
  +:+ " Destination=" +:+ quoted (escapeXml ssoUrl)
  +:+ " AssertionConsumerServiceURL=" +:+ quoted (escapeXml acsUrl)
  +:+ "><saml:Issuer xmlns:saml=" +:+ quoted "urn:oasis:names:tc:SAML:2.0:assertion" +:+ ">"
  +:+ escapeXml entityId +:+ "</saml:Issuer></samlp:AuthnRequest>".

(** [Buffer.from(s).toString("base64")] encodes the UTF-8 bytes, [btoa(s)] the code units. *)
Definition encode_request (buffer : bool) (request : string) : string :=
  if buffer then btoa (from_char_codes (map Z.of_nat (utf8 request))) else btoa request.

Definition buildAuthnRequestUrl (buffer : bool) (id instant ssoUrl entityId acsUrl : string)
    (relayState : option string) : string :=
  let encoded := encode_request buffer (authn_request id instant ssoUrl entityId acsUrl) in
  let params := ("SAMLRequest", encoded) ::
    match relayState with None | Some "" => [] | Some r => [("RelayState", r)] end in
  let sep := if str_includes "?" ssoUrl then "&" else "?" in
  ssoUrl +:+ sep +:+ URLSearchParams params.

#[global] Arguments escapeXml : simpl never.
#[global] Arguments slo_element : simpl never.

(** ** Escaping, character by character *)

Definition escape_char (c : Ascii.ascii) : string :=
  if Ascii.eqb c "&" then "&amp;"
  else if Ascii.eqb c "<" then "&lt;"
  else if Ascii.eqb c ">" then "&gt;"
  else if Ascii.eqb c (chr 34) then "&quot;"
  else if Ascii.eqb c "'" then "&apos;"
  else String c "".

Lemma replace_char_app c r s t : replace_char c r (s +:+ t) = replace_char c r s +:+ replace_char c r t.
Proof. apply str_flat_map_app. Qed.

Lemma escapeXml_app s t : escapeXml (s +:+ t) = escapeXml s +:+ escapeXml t.
Proof. unfold escapeXml. by rewrite !replace_char_app. Qed.

Lemma escapeXml_char c : escapeXml (String c "") = escape_char c.
Proof. destruct c as [[] [] [] [] [] [] [] []]; reflexivity. Qed.

(** The five passes never touch what an earlier pass wrote. *)
Lemma escapeXml_flat_map s : escapeXml s = str_flat_map escape_char s.
Proof.
  induction s as [|c s IH]; [done|]. change (String c s) with (String c "" +:+ s).
  by rewrite escapeXml_app, escapeXml_char, IH.
Qed.

(** The characters that delimit markup and attribute values. *)
Definition markup_free (c : Ascii.ascii) : bool :=
  negb (Ascii.eqb c "<") && negb (Ascii.eqb c ">") && negb (Ascii.eqb c (chr 34)) && negb (Ascii.eqb c "'").

Definition plain (c : Ascii.ascii) : bool := markup_free c && negb (Ascii.eqb c "&").

Lemma escape_char_markup_free c : str_forall markup_free (escape_char c) = true.
Proof. destruct c as [[] [] [] [] [] [] [] []]; reflexivity. Qed.

Lemma escape_char_length c : (1 + (if plain c then 0 else 3) <= String.length (escape_char c))%nat.
Proof. destruct c as [[] [] [] [] [] [] [] []]; vm_compute; lia. Qed.

Lemma escape_char_plain c : plain c = true -> escape_char c = String c "".
Proof. destruct c as [[] [] [] [] [] [] [] []]; done. Qed.

(** ** The reader of attribute values, for reference *)

Definition entities : list (string * Ascii.ascii) :=
  [("&amp;", "&"%char); ("&lt;", "<"%char); ("&gt;", ">"%char); ("&quot;", chr 34); ("&apos;", "'"%char)].

Fixpoint read_entity (l : list (string * Ascii.ascii)) (s : string) : option (Ascii.ascii * string) :=
  match l with
  | [] => None
  | (e, c) :: l' => match strip_prefix e s with Some r => Some (c, r) | None => read_entity l' s end
  end.

Fixpoint xml_decode (n : nat) (s : string) : string :=
  match n, s with
  | O, _ => ""
  | _, EmptyString => ""
  | Datatypes.S n, String c r =>
      match read_entity entities s with
      | Some (x, rest) => String x (xml_decode n rest)
      | None => String c (xml_decode n r)
      end
  end.

Lemma read_escaped c rest :
  read_entity entities (escape_char c +:+ rest) = (if plain c then None else Some (c, rest))
  /\ (plain c = true -> escape_char c +:+ rest = String c rest).
Proof. destruct c as [[] [] [] [] [] [] [] []]; split; try done; reflexivity. Qed.

Lemma xml_decode_escape s n : (String.length (escapeXml s) <= n)%nat -> xml_decode n (escapeXml s) = s.
Proof.
  rewrite escapeXml_flat_map. revert n. induction s as [|c s IH]; intros n Hn; cbn [str_flat_map] in *.
  - by destruct n.
  - rewrite str_length_app in Hn. pose proof (escape_char_length c) as Hl. destruct n as [|n]; [lia|].
    destruct (read_escaped c (str_flat_map escape_char s)) as [Hr Hp].
    destruct (plain c) eqn:Epl.
    + rewrite (Hp eq_refl) in *. cbn [xml_decode]. rewrite Hr, IH by lia. done.
    + destruct (escape_char c +:+ str_flat_map escape_char s) as [|d r] eqn:Ed.
      { apply (f_equal String.length) in Ed. rewrite str_length_app in Ed. cbn in Ed. lia. }
      cbn [xml_decode]. rewrite Hr, IH by lia. done.
Qed.

Lemma escapeXml_plain s : str_forall plain s = true -> escapeXml s = s.
Proof. rewrite escapeXml_flat_map. apply str_flat_map_id. apply escape_char_plain. Qed.

Lemma escapeXml_grows s :
  (String.length s <= String.length (escapeXml s))%nat
  /\ (str_forall plain s = false -> (String.length s < String.length (escapeXml s))%nat).
Proof.
  rewrite escapeXml_flat_map. induction s as [|c s [IH1 IH2]]; cbn [str_flat_map str_forall String.length]; [done|].
  rewrite str_length_app. pose proof (escape_char_length c). destruct (plain c); cbn [andb]; split; intros;
    try lia. specialize (IH2 H0). lia.
Qed.

(** ** Reading back what was generated *)

Lemma capture_app t r : lacks (chr 34) t = true -> capture (t +:+ String (chr 34) r) = Some t.
Proof.
  unfold lacks. induction t as [|c t IH]; [done|]. cbn [str_forall String.append capture]. intros H; bool_prop.
  replace (code c =? 34)%nat with false.
  - by rewrite IH.
  - symmetry. apply Nat.eqb_neq. intros E. apply Ascii.eqb_neq in H. apply H. by rewrite <- (chr_code c), E.
Qed.

Lemma escapeXml_lacks_quote s : lacks (chr 34) (escapeXml s) = true.
Proof.
  rewrite escapeXml_flat_map. apply str_forall_flat_map. intros c.
  eapply str_forall_impl; [|apply escape_char_markup_free]. intros d Hd. unfold markup_free in Hd. bool_prop. by rewrite H1.
Qed.

Lemma parse_generated config :
  entityId config <> "" -> parseEntityId (generateSPMetadata config) = Some (escapeXml (entityId config)).
Proof.
  intros Hne. unfold parseEntityId, match_attr, generateSPMetadata, quoted, nl.
  pose proof (escapeXml_lacks_quote (entityId config)) as Hq.
  assert (escapeXml (entityId config) <> "") as Hne'.
  { intros E. pose proof (proj1 (escapeXml_grows (entityId config))) as Hg. rewrite E in Hg.
    destruct (entityId config); [done|cbn in Hg; lia]. }
  revert Hq Hne'. generalize (escapeXml (entityId config)) as E. intros E Hq Hne'.
  pose proof (fun r => capture_app E r Hq) as Hc. unfold dq. change (chr 34) with "034"%char in *. change (chr 10) with "010"%char.
  rewrite !str_app_assoc. cbn -[capture1 slo_element escapeXml].
  unfold capture1. rewrite Hc. by destruct E.
Qed.

Definition ascii7 (c : Ascii.ascii) : bool := (code c <? 128)%nat.

Lemma utf8_ascii s : str_forall ascii7 s = true -> from_char_codes (map Z.of_nat (utf8 s)) = s.
Proof.
  induction s as [|c s IH]; [done|]. cbn [str_forall]. intros [Hc Hs]%andb_prop.
  change (utf8 (String c s)) with (utf8_char c ++ utf8 s). unfold utf8_char. unfold ascii7 in Hc. rewrite Hc.
  cbn [app map]. unfold from_char_codes in *. cbn [map]. rewrite Nat2Z.id, chr_code.
  change (String.string_of_list_ascii (c :: ?l)) with (String c (String.string_of_list_ascii l)).
  by rewrite IH.
Qed.

Lemma atob_btoa s : atob (btoa s) = Some s.
Proof.
  unfold btoa.
  replace (String.length s) with (length (bytes_of s)).
  2:{ unfold bytes_of. rewrite length_map. by induction s as [|c s IH]; cbn; [|rewrite IH]. }
  rewrite atob_encode.
  - f_equal. unfold from_char_codes, bytes_of. rewrite map_map.
    induction s as [|c s IH]; [done|]. cbn -[Z.of_nat Z.to_nat]. rewrite Nat2Z.id, chr_code. by f_equal.
  - unfold bytes_of. induction s as [|c s IH]; constructor; [|done]. pose proof (code_lt c). unfold byte_ok. lia.
Qed.

(** The escaping of the SAML utilities is faithful: a reader of attribute values gets back
    every string that was escaped, the escaped text holds no character that delimits markup or
    an attribute value, and text grows only where something was escaped. *)
Lemma escape_roundtrip s n :
  (String.length (escapeXml s) <= n)%nat ->
  xml_decode n (escapeXml s) = s /\ str_forall markup_free (escapeXml s) = true
  /\ (escapeXml s = s <-> str_forall plain s = true).
Proof.
  intros Hn. split; [by apply xml_decode_escape|]. split.
  { rewrite escapeXml_flat_map. apply str_forall_flat_map. apply escape_char_markup_free. }
  split; [|apply escapeXml_plain]. intros E. destruct (str_forall plain s) eqn:Hp; [done|].
  pose proof (proj2 (escapeXml_grows s) Hp). rewrite E in H. lia.
Qed.

Lemma escape_roundtrip_witness :
  escapeXml "https://sp/a?b=1&c='2'" = "https://sp/a?b=1&amp;c=&apos;2&apos;"
  /\ xml_decode 40 (escapeXml "https://sp/a?b=1&c='2'") = "https://sp/a?b=1&c='2'".
Proof. split; [reflexivity|]. apply (escape_roundtrip "https://sp/a?b=1&c='2'" 40). vm_compute. lia. Defined.

(** The entity identifier of generated metadata reads back escaped: [parseEntityId] returns
    the text between the quotes, from which the identifier decodes; it is the identifier itself
    exactly when no character of it needed escaping. *)
Lemma metadata_entity_id config :
  entityId config <> "" ->
  exists t, parseEntityId (generateSPMetadata config) = Some t
    /\ xml_decode (String.length t) t = entityId config
    /\ (t = entityId config <-> str_forall plain (entityId config) = true).
Proof.
  intros Hne. exists (escapeXml (entityId config)). split; [by apply parse_generated|].
  split; [by apply xml_decode_escape|]. split; [|apply escapeXml_plain].
  intros E. destruct (str_forall plain (entityId config)) eqn:Hp; [done|].
  pose proof (proj2 (escapeXml_grows _) Hp). rewrite E in H. lia.
Qed.

Lemma metadata_entity_id_witness :
  let config := Build_SAMLConfig "urn:sp?a&b" "https://sp/acs" None None in
  parseEntityId (generateSPMetadata config) = Some "urn:sp?a&amp;b"
  /\ exists t, parseEntityId (generateSPMetadata config) = Some t
      /\ xml_decode (String.length t) t = entityId config.
Proof.
  intros config. split; [vm_compute; reflexivity|].
  destruct (metadata_entity_id config) as (t & H1 & H2 & _); [done|]. by exists t.
Defined.

(** The encoded request decodes to the request, whichever encoder the host has, for a request of
    ASCII text, and both encoders give the same URL. *)
Lemma authn_request_encoding id instant ssoUrl sp acs relay :
  let request := authn_request id instant ssoUrl sp acs in
  atob (encode_request false request) = Some request
  /\ (str_forall ascii7 request = true ->
       atob (encode_request true request) = Some request
       /\ buildAuthnRequestUrl true id instant ssoUrl sp acs relay
          = buildAuthnRequestUrl false id instant ssoUrl sp acs relay).
Proof.
  intros request. split; [apply atob_btoa|]. intros Ha. unfold buildAuthnRequestUrl. fold request.
  assert (encode_request true request = encode_request false request) as ->; [|split; [apply atob_btoa|done]].
  unfold encode_request. by rewrite utf8_ascii.
Qed.

Lemma authn_request_encoding_witness :
  let request := authn_request "_a1" "2024-01-01T00:00:00.000Z" "https://idp/sso" "sp&1" "https://sp/acs" in
  atob (encode_request true request) = Some request.
Proof.
  intros request.
  destruct (authn_request_encoding "_a1" "2024-01-01T00:00:00.000Z" "https://idp/sso" "sp&1" "https://sp/acs" None)
    as [_ H].
  apply H. vm_compute. reflexivity.
Defined.

(** Outside ASCII the two disagree: [btoa] writes Latin-1 where the request declares nothing and
    XML readers assume UTF-8. *)
Example encoders_differ :
  encode_request true (String (chr 233) "") = "w6k=" /\ encode_request false (String (chr 233) "") = "6Q==".
Proof. by vm_compute. Qed.

(** The pattern of [parseSsoUrl] takes the first service, whatever its binding. *)
Example sso_url_first :
  parseSsoUrl ("<SingleSignOnService Binding=" +:+ quoted "POST" +:+ " Location=" +:+ quoted "https://a" +:+ "/>"
    +:+ "<SingleSignOnService Location=" +:+ quoted "https://b" +:+ "/>") = Some "https://a".
Proof. reflexivity. Qed.
