(* ===== verification/Palette.v ===== *)
(** * The console's quick navigation and its pages of results

    components/CommandPalette.tsx, a searchable list of the console's pages opened with
    Ctrl+K, and components/Pagination.tsx.  Keyboard and mouse events are the steps of a
    state machine whose output is the address the router is sent to.  The arrow in two
    labels is written in UTF-8; a search for text of one byte per character is the
    source's. *)

From Stdlib Require Import Permutation.
From S2P Require Import Prelude JsValue JsString Json Effects Access AuthGuard.
#[local] Open Scope Z_scope.

(** ** The commands *)

Record CommandItem := Command { c_id : string; c_label : string; c_href : string; c_group : string }.

Definition ALL_COMMANDS : list CommandItem :=
  [Command "dashboard" "Dashboard" "/dashboard" "Overview";
   Command "sessions" "My Sessions" "/sessions" "Overview";
   Command "access-requests" "Access Requests" "/access-requests" "Overview";
   Command "users" "Users" "/users" "Identity";
   Command "roles" "Roles & Permissions" "/roles" "Identity";
   Command "organizations" "Organizations" "/organizations" "Identity";
   Command "org-tree" "Organization Tree" "/organizations/tree" "Identity";
   Command "api-keys" "API Keys" "/api-keys" "Identity";
   Command "import" "Import Users" "/settings/import-wizard" "Identity";
   Command "itdr" "ITDR Dashboard" "/security/itdr" "Security";
   Command "security-sessions" "Security → Sessions" "/security/session-detail" "Security";
   Command "risk-score" "Risk Score" "/security/risk-score" "Security";
   Command "posture" "Security Posture" "/security/posture" "Security";
   Command "conditional-access" "Conditional Access" "/settings/conditional-access" "Security";
   Command "password-policy" "Password Policy" "/settings/password-policy" "Security";
   Command "mfa" "MFA Configuration" "/settings/mfa" "Security";
   Command "passkeys" "Passkey Management" "/settings/passkey-management" "Security";
   Command "webauthn" "WebAuthn Configuration" "/settings/webauthn-config" "Security";
   Command "audit" "Audit Log" "/audit" "Audit";
   Command "audit-alerts" "Audit Alerts" "/audit/alerts" "Audit";
   Command "audit-anomalies" "Anomaly Detection" "/audit/anomalies" "Audit";
   Command "audit-advanced" "Advanced Audit Search" "/audit/advanced" "Audit";
   Command "policies" "Policies" "/policies" "Audit";
   Command "access-reviews" "Access Reviews" "/audit/access-reviews" "Audit";
   Command "oauth-clients" "OAuth Clients" "/oauth-clients" "Applications";
   Command "webhooks" "Webhooks" "/webhooks" "Applications";
   Command "scim" "SCIM Configuration" "/settings/scim" "Applications";
   Command "ldap" "LDAP Configuration" "/settings/ldap-config" "Applications";
   Command "rate-limits" "Rate Limits" "/settings/rate-limits" "Applications";
   Command "api-explorer" "API Explorer" "/api-explorer" "Applications";
   Command "saml" "SAML Configuration" "/settings/saml-config" "Applications";
   Command "settings" "All Settings" "/settings" "Settings";
   Command "branding" "Branding" "/settings/branding" "Settings";
   Command "feature-flags" "Feature Flags" "/settings/feature-flags" "Settings";
   Command "notifications" "Notifications" "/settings/notifications" "Settings";
   Command "analytics-iam" "IAM Metrics" "/analytics/iam-metrics" "Analytics";
   Command "analytics-identity" "Identity Analytics" "/analytics/identity" "Analytics";
   Command "analytics-login" "Login Security Analytics" "/analytics/login-security" "Analytics";
   Command "admin" "Platform → Tenants" "/admin" "Platform";
   Command "admin-audit" "Global Audit" "/admin/audit/global" "Platform";
   Command "admin-threats" "Threat Dashboard" "/admin/threats" "Platform";
   Command "admin-health" "System Health" "/admin/health" "Platform";
   Command "profile" "My Profile" "/profile" "Account";
   Command "activity" "My Activity" "/activity" "Account";
   Command "onboarding" "Create New Organization" "/onboarding" "Account"].

(** The filter of the palette. *)
Definition matches (q : string) (c : CommandItem) : bool :=
  str_includes q (to_lower (c_label c)) || str_includes q (to_lower (c_group c))
  || str_includes q (to_lower (c_href c)).

Definition filtered_commands (query : string) : list CommandItem :=
  let q := trim (to_lower query) in
  if String.eqb q "" then ALL_COMMANDS else List.filter (matches q) ALL_COMMANDS.

(** [groups[item.group].push(item)]: the keys of the object keep the order of their first
    assignment. *)
Fixpoint group_push (item : CommandItem) (groups : list (string * list CommandItem))
    : list (string * list CommandItem) :=
  match groups with
  | [] => [(c_group item, [item])]
  | (g, items) :: groups' =>
      if String.eqb g (c_group item) then (g, items ++ [item]) :: groups'
      else (g, items) :: group_push item groups'
  end.

Definition grouped (items : list CommandItem) : list (string * list CommandItem) :=
  fold_left (fun groups item => group_push item groups) items [].

(** [Object.values(grouped).flat()]. *)
Definition flatList (query : string) : list CommandItem :=
  concat (map snd (grouped (filtered_commands query))).

(** ** The palette *)

Record palette := Palette { p_open : bool; p_query : string; p_selected : Z }.

Definition palette_init : palette := Palette false "" 0.

(** [setOpen], with the effect that resets the search when the palette opens. *)
Definition set_open (b : bool) (s : palette) : palette :=
  if b && negb (p_open s) then Palette true "" 0 else Palette b (p_query s) (p_selected s).

Inductive palette_event :=
| KeyToggle            (* Ctrl+K *)
| KeyEscape
| OpenButton
| Backdrop
| TypeQuery (v : string)
| ArrowDown
| ArrowUp
| Enter
| Hover (idx : nat)    (* the pointer enters the row [idx] of the list *)
| Click (idx : nat).

(** What the rendered palette lets happen: the button when it is closed, the field and the
    rows when it is open. *)
Definition enabled (s : palette) (ev : palette_event) : bool :=
  match ev with
  | KeyToggle | KeyEscape => true
  | OpenButton => negb (p_open s)
  | Hover i | Click i => p_open s && (i <? length (flatList (p_query s)))%nat
  | _ => p_open s
  end.

(** [flatList[i]]: out of range is [undefined]. *)
Definition row (s : palette) (i : Z) : option CommandItem :=
  if i <? 0 then None else flatList (p_query s) !! Z.to_nat i.

Definition navigate (s : palette) (item : CommandItem) : palette * option string :=
  (set_open false s, Some (c_href item)).

Definition palette_step (s : palette) (ev : palette_event) : palette * option string :=
  let len := Z.of_nat (length (flatList (p_query s))) in
  match ev with
  | KeyToggle => (set_open (negb (p_open s)) s, None)
  | KeyEscape | Backdrop => (set_open false s, None)
  | OpenButton => (set_open true s, None)
  | TypeQuery v => (Palette (p_open s) v 0, None)
  | ArrowDown => (Palette (p_open s) (p_query s) (Z.min (p_selected s + 1) (len - 1)), None)
  | ArrowUp => (Palette (p_open s) (p_query s) (Z.max (p_selected s - 1) 0), None)
  | Enter => match row s (p_selected s) with
             | Some item => navigate s item
             | None => (s, None)
             end
  | Hover i => (Palette (p_open s) (p_query s) (Z.of_nat i), None)
  | Click i => match flatList (p_query s) !! i with
               | Some item => navigate s item
               | None => (s, None)
               end
  end.

Inductive palette_run : palette -> list (option string) -> Prop :=
| run_start : palette_run palette_init []
| run_event s outs ev :
    palette_run s outs -> enabled s ev = true ->
    palette_run (palette_step s ev).1 ((palette_step s ev).2 :: outs).

(** ** Pagination *)

Definition ceil_div (a b : Z) : Z := (a + b - 1) / b.

Definition totalPages (total pageSize : Z) : Z := Z.max 1 (ceil_div total pageSize).

(** [None]: nothing is rendered.  Otherwise the first and last result shown. *)
Definition page_range (page pageSize total : Z) : option (Z * Z) :=
  if total <=? pageSize then None
  else Some ((page - 1) * pageSize + 1, Z.min (page * pageSize) total).

(** The four buttons: the page each asks for, unless it is disabled. *)
Inductive page_button := First | Previous | Next | Last.

Definition press (b : page_button) (page pageSize total : Z) : option Z :=
  match b with
  | First => if page =? 1 then None else Some 1
  | Previous => if page =? 1 then None else Some (page - 1)
  | Next => if page =? totalPages total pageSize then None else Some (page + 1)
  | Last => if page =? totalPages total pageSize then None else Some (totalPages total pageSize)
  end.

(** ** Grouping keeps the order of the commands *)

Definition GROUPS : list string :=
  ["Overview"; "Identity"; "Security"; "Audit"; "Applications"; "Settings"; "Analytics"; "Platform"; "Account"].

Fixpoint rank_in (l : list string) (g : string) : nat :=
  match l with [] => O | x :: l' => if String.eqb x g then O else S (rank_in l' g) end.

Definition rank (g : string) : nat := rank_in GROUPS g.

Lemma rank_in_inj l g g' : In g l -> rank_in l g = rank_in l g' -> g = g'.
Proof.
  induction l as [|x l IH]; [done|]. cbn. intros Hin.
  destruct (String.eqb_spec x g) as [E|Hg], (String.eqb_spec x g') as [E'|Hg']; try congruence.
  intros [= H]. apply IH; [by destruct Hin|done].
Qed.

Lemma rank_inj g g' : In g GROUPS -> rank g = rank g' -> g = g'.
Proof. apply rank_in_inj. Qed.

(** Commands listed group by group, in the order of [GROUPS]. *)
Inductive by_group : list CommandItem -> Prop :=
| by_nil : by_group []
| by_cons c l :
    In (c_group c) GROUPS -> Forall (fun d => (rank (c_group c) <= rank (c_group d))%nat) l ->
    by_group l -> by_group (c :: l).

Fixpoint by_groupb (l : list CommandItem) : bool :=
  match l with
  | [] => true
  | c :: l' => str_mem (c_group c) GROUPS
               && forallb (fun d => (rank (c_group c) <=? rank (c_group d))%nat) l' && by_groupb l'
  end.

Lemma by_groupb_spec l : by_groupb l = true -> by_group l.
Proof.
  induction l as [|c l IH]; cbn; [constructor|]. intros [[Hin Hle]%andb_prop Hl]%andb_prop.
  constructor; [by apply str_mem_In| |auto].
  apply Forall_forall. intros d Hd. apply list_elem_of_In in Hd. rewrite forallb_forall in Hle.
  by apply Nat.leb_le, Hle.
Qed.

Lemma by_group_filter f l : by_group l -> by_group (List.filter f l).
Proof.
  induction 1 as [|c l Hin Hle Hl IH]; cbn; [constructor|]. destruct (f c); [|done].
  constructor; [done| |done]. rewrite Forall_forall in *. intros d Hd. apply Hle.
  apply list_elem_of_In. apply list_elem_of_In in Hd. by apply filter_In in Hd as [? _].
Qed.

(** The groups built so far: keys in rank order, none after [g]. *)
Inductive groups_upto : list (string * list CommandItem) -> Prop :=
| upto_nil : groups_upto []
| upto_cons k items gs :
    In k GROUPS -> Forall (fun g => (rank k < rank g.1)%nat) gs -> groups_upto gs -> groups_upto ((k, items) :: gs).

Lemma group_push_last c gs :
  In (c_group c) GROUPS -> groups_upto gs -> Forall (fun g => (rank g.1 <= rank (c_group c))%nat) gs ->
  concat (map snd (group_push c gs)) = concat (map snd gs) ++ [c]
  /\ groups_upto (group_push c gs)
  /\ Forall (fun g => (rank g.1 <= rank (c_group c))%nat) (group_push c gs).
Proof.
  intros Hc Hgs. induction Hgs as [|k items gs Hk Hlt Hgs IH]; intros Hle; cbn [group_push].
  - cbn. split_and!; [done|by apply upto_cons; [|constructor|constructor]|by repeat constructor].
  - inversion_clear Hle as [|? ? Hk' Hle']. cbn [fst] in Hk'.
    destruct (String.eqb_spec k (c_group c)) as [->|Hne]; cbn [map concat snd].
    + assert (gs = []) as ->.
      { destruct gs as [|g gs]; [done|]. inversion_clear Hlt. inversion_clear Hle'. lia. }
      cbn. rewrite !app_nil_r. split_and!; [done|by apply upto_cons; [|constructor|constructor]|by repeat constructor].
    + destruct (IH Hle') as (-> & Hup & Hall). rewrite app_assoc. split_and!; [done| |by constructor].
      constructor; [done| |done].
      assert (rank k < rank (c_group c))%nat as Hkc.
      { destruct (Nat.eq_dec (rank k) (rank (c_group c))) as [E|]; [|lia]. by apply rank_inj in E. }
      clear -Hlt Hkc. induction gs as [|[g items'] gs IH]; cbn [group_push].
      * by repeat constructor.
      * inversion_clear Hlt. destruct (String.eqb g (c_group c)); constructor; auto.
Qed.

Lemma grouped_in_order l gs :
  by_group l -> groups_upto gs ->
  Forall (fun g => Forall (fun c => (rank g.1 <= rank (c_group c))%nat) l) gs ->
  concat (map snd (fold_left (fun groups item => group_push item groups) l gs)) = concat (map snd gs) ++ l.
Proof.
  intros Hl. revert gs. induction Hl as [|c l Hin Hle Hl IH]; intros gs Hgs Hall; cbn [fold_left].
  - by rewrite app_nil_r.
  - destruct (group_push_last c gs Hin Hgs) as (Hc & Hup & Hmax).
    { eapply Forall_impl; [exact Hall|]. intros g Hg. by inversion_clear Hg. }
    rewrite IH; [rewrite Hc; by rewrite <- app_assoc|done|].
    eapply Forall_impl; [exact Hmax|]. intros g Hg. cbn in Hg. eapply Forall_impl; [exact Hle|]. cbn. intros d. lia.
Qed.

Lemma commands_by_group query : by_group (filtered_commands query).
Proof.
  unfold filtered_commands. assert (by_group ALL_COMMANDS) as H by (apply by_groupb_spec; by vm_compute).
  destruct (String.eqb _ ""); [done|by apply by_group_filter].
Qed.

Lemma flatList_filtered query : flatList query = filtered_commands query.
Proof. unfold flatList, grouped. rewrite grouped_in_order; [done|apply commands_by_group|constructor|constructor]. Qed.

(** ** The highlighted row *)

(** While the palette is open the highlight is on a row, or the list is empty. *)
Definition palette_ok (s : palette) : Prop :=
  p_open s = true ->
  let n := Z.of_nat (length (flatList (p_query s))) in
  0 <= p_selected s < n \/ (n = 0 /\ -1 <= p_selected s <= 0).

Lemma all_commands_shown : Z.of_nat (length (flatList "")) = 45.
Proof. by rewrite flatList_filtered. Qed.

Lemma set_open_ok b s : palette_ok s -> palette_ok (set_open b s).
Proof.
  unfold palette_ok, set_open. intros H. destruct b, (p_open s) eqn:E; cbn; try done; auto.
  intros _. left. rewrite all_commands_shown. lia.
Qed.

Lemma palette_step_ok s ev : palette_ok s -> enabled s ev = true -> palette_ok (palette_step s ev).1.
Proof.
  intros Hs He. destruct ev; cbn [palette_step fst enabled] in *; try by apply set_open_ok.
  - intros _. cbn. lia.
  - intros Ho. cbn in Ho |- *. specialize (Hs Ho). cbn in Hs. lia.
  - intros Ho. cbn in Ho |- *. specialize (Hs Ho). cbn in Hs. lia.
  - destruct (row s (p_selected s)); [by apply set_open_ok|done].
  - intros Ho. cbn in Ho |- *. bool_prop. apply Nat.ltb_lt in H0. lia.
  - destruct (flatList (p_query s) !! idx); [by apply set_open_ok|done].
Qed.

Lemma palette_run_ok s outs : palette_run s outs -> palette_ok s.
Proof. induction 1; [done|by apply palette_step_ok]. Qed.

Lemma shown_commands query c :
  In c (flatList query) <->
  In c ALL_COMMANDS /\ (trim (to_lower query) = "" \/ matches (trim (to_lower query)) c = true).
Proof.
  rewrite flatList_filtered. unfold filtered_commands. destruct (String.eqb_spec (trim (to_lower query)) "") as [E|Hne].
  - tauto.
  - rewrite filter_In. tauto.
Qed.

Lemma step_output s ev h :
  (palette_step s ev).2 = Some h -> exists c, In c (flatList (p_query s)) /\ h = c_href c.
Proof.
  destruct ev; cbn; try done.
  - unfold row. destruct (_ <? 0); [done|]. destruct (_ !! _) as [c|] eqn:E; [|done]. intros [= <-].
    exists c. split; [|done]. apply list_elem_of_In. by eapply list_elem_of_lookup_2.
  - destruct (_ !! _) as [c|] eqn:E; [|done]. intros [= <-].
    exists c. split; [|done]. apply list_elem_of_In. by eapply list_elem_of_lookup_2.
Qed.

(** ** Properties *)

(** After any keys, typing and pointer movements, the open palette highlights one of the
    rows it lists whenever it lists any, in the order of the commands; Enter closes it and
    goes to that row's page, and does nothing when the search found nothing.  Whatever the
    router was ever sent to is the page of a listed command. *)
Lemma palette_enter s outs :
  palette_run s outs -> p_open s = true ->
  (if decide (flatList (p_query s) = []) then palette_step s Enter = (s, None)
   else exists c i, flatList (p_query s) !! i = Some c /\ p_selected s = Z.of_nat i
        /\ palette_step s Enter = (Palette false (p_query s) (p_selected s), Some (c_href c)))
  /\ flatList (p_query s) = filtered_commands (p_query s)
  /\ (forall h, In (Some h) outs -> exists c, In c ALL_COMMANDS /\ h = c_href c).
Proof.
  intros Hr Ho. pose proof (palette_run_ok s outs Hr Ho) as Hok. cbn in Hok. split_and!.
  - destruct (decide (flatList (p_query s) = [])) as [E|Hne].
    + cbn [palette_step]. unfold row. rewrite E. by destruct (_ <? 0).
    + assert (0 < length (flatList (p_query s)))%nat as Hlen by (destruct (flatList _); [done|cbn; lia]).
      destruct (lookup_lt_is_Some_2 (flatList (p_query s)) (Z.to_nat (p_selected s))) as [c Hc]; [lia|].
      exists c, (Z.to_nat (p_selected s)). split_and!; [done|lia|]. cbn [palette_step]. unfold row.
      assert (p_selected s <? 0 = false) as -> by (apply Z.ltb_ge; lia). by rewrite Hc.
  - apply flatList_filtered.
  - clear Ho Hok. intros h. induction Hr as [|s outs ev Hr IH He]; [done|]. intros [Hh|Hh]; [|auto].
    destruct (step_output s ev h Hh) as (c & Hc & ->). exists c. split; [|done]. by apply shown_commands in Hc as [? _].
Qed.

(** The palette lists every page to everyone; a user without an administrator's scope is sent
    back to the dashboard from most of them. *)
Lemma palette_ignores_roles l :
  any_scope tenant_scopes l = false -> any_scope platform_scopes l = false ->
  length (List.filter (fun c => route_denied l (c_href c)) (flatList "")) = 37%nat.
Proof.
  intros Ht Hp. rewrite flatList_filtered. unfold route_denied, lacks_need. rewrite Ht, Hp. by vm_compute.
Qed.

Lemma ceil_div_bounds a b : 0 < b -> 0 < a -> (ceil_div a b - 1) * b < a <= ceil_div a b * b.
Proof.
  intros Hb Ha. unfold ceil_div. pose proof (Z.div_mod (a + b - 1) b ltac:(lia)).
  pose proof (Z.mod_pos_bound (a + b - 1) b Hb). nia.
Qed.

(** The pages cut the results without gap or overlap: every result is on exactly one
    page, every page shows some results, and the buttons that are not disabled lead to a
    page that exists. *)
Lemma pages_partition pageSize total :
  0 < pageSize -> pageSize < total ->
  (forall i, 1 <= i <= total ->
   exists! page, 1 <= page <= totalPages total pageSize
     /\ exists first last, page_range page pageSize total = Some (first, last) /\ first <= i <= last)
  /\ (forall page first last, 1 <= page <= totalPages total pageSize ->
      page_range page pageSize total = Some (first, last) -> 1 <= first <= last /\ last <= total)
  /\ (forall b page page', 1 <= page <= totalPages total pageSize ->
      press b page pageSize total = Some page' -> 1 <= page' <= totalPages total pageSize).
Proof.
  intros Hs Ht. pose proof (ceil_div_bounds total pageSize Hs ltac:(lia)) as Hc.
  assert (totalPages total pageSize = ceil_div total pageSize) as HT by (unfold totalPages; nia).
  rewrite HT. set (n := ceil_div total pageSize) in *.
  unfold page_range. assert (total <=? pageSize = false) as -> by (apply Z.leb_gt; lia). split_and!.
  - intros i Hi. exists ((i - 1) / pageSize + 1).
    pose proof (Z.div_mod (i - 1) pageSize ltac:(lia)). pose proof (Z.mod_pos_bound (i - 1) pageSize Hs).
    set (q := (i - 1) / pageSize) in *. split.
    + split; [nia|]. do 2 eexists. split; [done|]. nia.
    + intros p' [Hp' (a & b & [= <- <-] & Hab)]. nia.
  - intros page a b Hp [= <- <-]. nia.
  - intros b page page' Hp. unfold press. rewrite HT. fold n.
    destruct b; match goal with |- context [if ?x =? ?y then _ else _] => destruct (Z.eqb_spec x y) end;
      intros [= <-]; lia.
Qed.

(** ** Witnesses *)

(** Ctrl+K, a search, two steps down. *)
Definition demo_palette : palette := Palette true "Audit" 2.

Lemma demo_palette_run : palette_run demo_palette [None; None; None; None].
Proof.
  pose proof run_start as H.
  apply (run_event _ _ KeyToggle) in H; [|done].
  apply (run_event _ _ (TypeQuery "Audit")) in H; [|done].
  apply (run_event _ _ ArrowDown) in H; [|done].
  apply (run_event _ _ ArrowDown) in H; [|done].
  vm_compute in H. exact H.
Qed.

Lemma palette_enter_witness :
  exists c i, flatList "Audit" !! i = Some c /\ 2 = Z.of_nat i
  /\ palette_step demo_palette Enter = (Palette false "Audit" 2, Some (c_href c)).
Proof.
  destruct (palette_enter demo_palette _ demo_palette_run eq_refl) as [H _].
  change (p_query demo_palette) with "Audit" in H. change (p_selected demo_palette) with 2 in H.
  assert (flatList "Audit" <> []) as Hne by (intros E; vm_compute in E; discriminate).
  rewrite decide_False in H by exact Hne. exact H.
Defined.

Lemma pages_partition_witness :
  exists! page, 1 <= page <= totalPages 45 20
    /\ exists first last, page_range page 20 45 = Some (first, last) /\ first <= 41 <= last.
Proof. apply (pages_partition 20 45); lia. Defined.
