(* ===== verification/Impersonation.v ===== *)
(** * Impersonation (console/src/app/admin/impersonate/page.tsx,
    console/src/components/impersonation-banner.tsx)

    The page on which an administrator searches a user, gives a reason and starts to act
    as that user, and the banner of the other pages while such a session lasts.  Both go
    through [apiFetch] (ApiClient.v) and share two items of the local storage.  A search
    is debounced: the pending timer is a part of the state, its firing an event. *)

From S2P Require Import Prelude JsValue JsString Json Effects Base64 ApiClient Hooks.
#[local] Open Scope Z_scope.

(** ** [Date.prototype.toISOString], for the years 0 to 9999 *)

Definition civil (days : Z) : Z * Z * Z :=
  let z := days + 719468 in
  let era := z / 146097 in
  let doe := z mod 146097 in
  let yoe := (doe - doe / 1460 + doe / 36524 - doe / 146096) / 365 in
  let doy := doe - (365 * yoe + yoe / 4 - yoe / 100) in
  let mp := (5 * doy + 2) / 153 in
  let d := doy - (153 * mp + 2) / 5 + 1 in
  let m := if mp <? 10 then mp + 3 else mp - 9 in
  let y := yoe + era * 400 + (if m <=? 2 then 1 else 0) in
  (y, m, d).

(** [s.padStart(n, "0")]. *)
Definition zero_pad (n : nat) (z : Z) : string :=
  let s := string_of_Z z in
  String.string_of_list_ascii (repeat "0"%char (n - String.length s)) +:+ s.

Definition toISOString (ms : Z) : string :=
  let '(y, m, d) := civil (ms / 86400000) in
  let t := ms mod 86400000 in
  zero_pad 4 y +:+ "-" +:+ zero_pad 2 m +:+ "-" +:+ zero_pad 2 d +:+ "T"
  +:+ zero_pad 2 (t / 3600000) +:+ ":" +:+ zero_pad 2 (t / 60000 mod 60) +:+ ":"
  +:+ zero_pad 2 (t / 1000 mod 60) +:+ "." +:+ zero_pad 3 (t mod 1000) +:+ "Z".

(** ** The page *)

Definition STORAGE_KEY : string := "ggid_impersonation_state".
Definition TOKEN_KEY : string := "ggid_impersonation_token".

Record imp_state := Imp {
  searchQuery : string;
  searchResults : js;
  searching : bool;
  showResults : bool;
  debounce : option string;
  selectedUser : option js;
  reason : string;
  reasonError : option string;
  reasonTouched : bool;
  impersonating : js;
  submitting : bool;
  msg : option (string * string);
  history : js;
  loadingHistory : bool;
  broken : bool            (* an updater threw while rendering *)
}.

Definition imp_init : imp_state :=
  Imp "" (JArr []) false false None None "" None false JNull false None (JArr []) false false.

Definition setSearchQuery v (s : imp_state) : imp_state :=
  Imp v (searchResults s) (searching s) (showResults s) (debounce s) (selectedUser s) (reason s) (reasonError s)
    (reasonTouched s) (impersonating s) (submitting s) (msg s) (history s) (loadingHistory s) (broken s).
Definition setSearchResults v (s : imp_state) : imp_state :=
  Imp (searchQuery s) v (searching s) (showResults s) (debounce s) (selectedUser s) (reason s) (reasonError s)
    (reasonTouched s) (impersonating s) (submitting s) (msg s) (history s) (loadingHistory s) (broken s).
Definition setSearching v (s : imp_state) : imp_state :=
  Imp (searchQuery s) (searchResults s) v (showResults s) (debounce s) (selectedUser s) (reason s) (reasonError s)
    (reasonTouched s) (impersonating s) (submitting s) (msg s) (history s) (loadingHistory s) (broken s).
Definition setShowResults v (s : imp_state) : imp_state :=
  Imp (searchQuery s) (searchResults s) (searching s) v (debounce s) (selectedUser s) (reason s) (reasonError s)
    (reasonTouched s) (impersonating s) (submitting s) (msg s) (history s) (loadingHistory s) (broken s).
Definition setDebounce v (s : imp_state) : imp_state :=
  Imp (searchQuery s) (searchResults s) (searching s) (showResults s) v (selectedUser s) (reason s) (reasonError s)
    (reasonTouched s) (impersonating s) (submitting s) (msg s) (history s) (loadingHistory s) (broken s).
Definition setSelectedUser v (s : imp_state) : imp_state :=
  Imp (searchQuery s) (searchResults s) (searching s) (showResults s) (debounce s) v (reason s) (reasonError s)
    (reasonTouched s) (impersonating s) (submitting s) (msg s) (history s) (loadingHistory s) (broken s).
Definition setReason v (s : imp_state) : imp_state :=
  Imp (searchQuery s) (searchResults s) (searching s) (showResults s) (debounce s) (selectedUser s) v (reasonError s)
    (reasonTouched s) (impersonating s) (submitting s) (msg s) (history s) (loadingHistory s) (broken s).
Definition setReasonError v (s : imp_state) : imp_state :=
  Imp (searchQuery s) (searchResults s) (searching s) (showResults s) (debounce s) (selectedUser s) (reason s) v
    (reasonTouched s) (impersonating s) (submitting s) (msg s) (history s) (loadingHistory s) (broken s).
Definition setTouched v (s : imp_state) : imp_state :=
  Imp (searchQuery s) (searchResults s) (searching s) (showResults s) (debounce s) (selectedUser s) (reason s)
    (reasonError s) v (impersonating s) (submitting s) (msg s) (history s) (loadingHistory s) (broken s).
Definition setImpersonating v (s : imp_state) : imp_state :=
  Imp (searchQuery s) (searchResults s) (searching s) (showResults s) (debounce s) (selectedUser s) (reason s)
    (reasonError s) (reasonTouched s) v (submitting s) (msg s) (history s) (loadingHistory s) (broken s).
Definition setSubmitting v (s : imp_state) : imp_state :=
  Imp (searchQuery s) (searchResults s) (searching s) (showResults s) (debounce s) (selectedUser s) (reason s)
    (reasonError s) (reasonTouched s) (impersonating s) v (msg s) (history s) (loadingHistory s) (broken s).
Definition setMsg v (s : imp_state) : imp_state :=
  Imp (searchQuery s) (searchResults s) (searching s) (showResults s) (debounce s) (selectedUser s) (reason s)
    (reasonError s) (reasonTouched s) (impersonating s) (submitting s) v (history s) (loadingHistory s) (broken s).
Definition setHistory v (s : imp_state) : imp_state :=
  Imp (searchQuery s) (searchResults s) (searching s) (showResults s) (debounce s) (selectedUser s) (reason s)
    (reasonError s) (reasonTouched s) (impersonating s) (submitting s) (msg s) v (loadingHistory s) (broken s).
Definition setLoadingHistory v (s : imp_state) : imp_state :=
  Imp (searchQuery s) (searchResults s) (searching s) (showResults s) (debounce s) (selectedUser s) (reason s)
    (reasonError s) (reasonTouched s) (impersonating s) (submitting s) (msg s) (history s) v (broken s).
Definition setBroken (s : imp_state) : imp_state :=
  Imp (searchQuery s) (searchResults s) (searching s) (showResults s) (debounce s) (selectedUser s) (reason s)
    (reasonError s) (reasonTouched s) (impersonating s) (submitting s) (msg s) (history s) (loadingHistory s) true.

Definition too_short : string :=
  "Reason for impersonation is required for compliance (minimum 10 characters)".

(** A read of a variable that is not in scope. *)
Definition reference_error (name : string) : exn := Exn "ReferenceError" (name +:+ " is not defined") [].

Section Page.
Context (API_BASE TENANT_ID : string).

Definition post (body : js) : option RequestInit :=
  Some {| ri_method := Some POST; ri_headers := []; ri_body := Some (stringify body) |}.

(** [apiFetch(...).catch(() => null)]. *)
Definition fetch_or_null {S} (path : string) (options : option RequestInit) : prog S js :=
  try_catch (apiFetch true API_BASE TENANT_ID path options) (fun _ => mret JNull).

(** The restoring effect. *)
Definition restore : prog imp_state unit :=
  stored ← getItem Local STORAGE_KEY;
  match nonempty stored with
  | None => mret tt
  | Some text => match JSON_parse text with
                 | Some state => upd (setImpersonating state)
                 | None => removeItem Local STORAGE_KEY
                 end
  end.

Definition loadHistory : prog imp_state unit :=
  upd (setLoadingHistory true);;
  data ← fetch_or_null "/api/v1/impersonate/active?limit=20" None;
  (if truthy data then
     let raw := if is_array data then data
                else js_or_list [opt_prop data "sessions"; opt_prop data "items"] (JArr []) in
     upd (setHistory (if is_array raw then raw else JArr []))
   else mret tt);;
  upd (setLoadingHistory false).

Definition persistImpersonation (state : js) : prog imp_state unit :=
  upd (setImpersonating state);;
  if truthy state then setItem Local STORAGE_KEY (stringify state) else removeItem Local STORAGE_KEY.

(** One role of a search result, and its result with the roles as texts; [None] is the
    TypeError of a [null] result. *)
Definition role_name (r : js) : js :=
  match r with
  | JStr _ => r
  | _ => js_or_list [opt_prop r "role_name"; opt_prop r "name"; opt_prop r "key"] (JStr "")
  end.

Definition normalize_user (u : js) : option js :=
  roles ← prop u "roles";
  Some (with_prop "roles"
    (JArr match roles with
          | JArr l => List.filter truthy (map role_name l)
          | JStr _ => [roles]
          | _ => []
          end) u).

Definition performSearch (query : string) : prog imp_state unit :=
  if String.eqb (trim query) "" then
    upd (setSearchResults (JArr []));; upd (setSearching false)
  else
    data ← fetch_or_null ("/api/v1/users?search=" +:+ encodeURIComponent query +:+ "&page_size=10") None;
    (if truthy data then
       let list := if is_array data then data
                   else js_or_list [opt_prop data "users"; opt_prop data "items"] (JArr []) in
       upd (setSearchResults (default (JArr []) (js_map normalize_user list)))
     else upd (setSearchResults (JArr [])));;
    upd (setSearching false).

(** Typing, and the timer of 300 ms. *)
Definition handleSearchChange (value : string) : prog imp_state unit :=
  upd (setSearchQuery value);;
  upd (setShowResults true);;
  upd (setSelectedUser None);;
  upd (setDebounce None);;
  if String.eqb (trim value) "" then upd (setSearchResults (JArr []))
  else upd (setSearching true);; upd (setDebounce (Some value)).

Definition search_timer : prog imp_state unit :=
  s ← get_state;
  match debounce s with
  | Some value => upd (setDebounce None);; performSearch value
  | None => mret tt
  end.

(** The cross of the search field, and that of the selected user. *)
Definition clear_search : prog imp_state unit :=
  upd (setSearchQuery "");; upd (setSearchResults (JArr []));; upd (setSelectedUser None).
Definition clear_selection : prog imp_state unit :=
  upd (setSelectedUser None);; upd (setSearchQuery "").

Definition handleSelectUser (user : js) : prog imp_state unit :=
  upd (setSelectedUser (Some user));;
  upd (setSearchQuery (to_str (opt_prop user "username")));;
  upd (setShowResults false).

(** The text area, with the effect of its new value. *)
Definition reason_error (touched : bool) (reason : string) : option string :=
  if touched && (String.length (trim reason) <? 10)%nat && (0 <? String.length reason)%nat then Some too_short
  else if touched && (String.length reason =? 0)%nat
  then Some "Reason for impersonation is required for compliance"
  else None.

Definition change_reason (value : string) : prog imp_state unit :=
  upd (setTouched true);;
  upd (setReason value);;
  upd (setReasonError (reason_error true value)).

Definition impersonate_body (uid target tid : js) (reason : string) : js :=
  JObj [("impersonator_id", uid); ("target_user_id", target); ("tenant_id", tid); ("reason", JStr (trim reason))].

(** [JSON.parse(atob(token.split(".")[1])).jti || ""]. *)
Definition token_id (token : js) : js :=
  match jwt_payload token with Some payload => js_or (opt_prop payload "jti") (JStr "") | None => JStr "" end.

Definition session_js (user : js) (reason started : string) : list (string * js) :=
  [("userId", opt_prop user "id"); ("username", opt_prop user "username"); ("email", opt_prop user "email");
   ("reason", JStr (trim reason)); ("startedAt", JStr started)].

(** [newSession] is declared in each branch and read after both, where it is not in
    scope; the lines that follow that read are not reached. *)
Definition handleImpersonate (selected : option js) (reason : string) : prog imp_state unit :=
  match selected with
  | None => upd (setMsg (Some ("error", "Please select a user first")))
  | Some user =>
      if (String.length (trim reason) <? 10)%nat then
        upd (setTouched true);; upd (setReasonError (Some too_short))
      else
        upd (setSubmitting true);;
        upd (setReasonError None);;
        finally (try_catch (
          uid ← getItem Local "ggid_user_id";
          tid ← getItem Local "ggid_tenant_id";
          impResp ← fetch_or_null "/api/v1/auth/impersonate"
            (post (impersonate_body (JStr (default "" uid)) (opt_prop user "id") (JStr (default "" tid)) reason));
          let token := js_or_list [opt_prop impResp "access_token"; opt_prop impResp "token"] (JStr "") in
          (if truthy impResp && truthy token then
             setItem Local TOKEN_KEY (to_str token);;
             started ← now;
             persistImpersonation
               (JObj (session_js user reason (toISOString started) ++ [("tokenId", token_id token)]))
           else
             started ← now;
             persistImpersonation (JObj (session_js user reason (toISOString started))));;
          now;;
          Throw (reference_error "newSession"))
          (fun _ => upd (setMsg (Some ("error", "Failed to start impersonation")))))
        (upd (setSubmitting false))
  end.

(** [h.endTime === null] of the first entry; [None] is the TypeError of a [null] entry. *)
Definition open_entry (history : js) : option bool :=
  match history with
  | JArr (h :: _) => e ← prop h "endTime"; Some (bool_decide (e = JNull))
  | _ => Some false
  end.

(** [{ ...h, endTime }] in its place. *)
Definition close_entry (ended : string) (history : js) : js :=
  match history with
  | JArr (h :: l) => JArr (with_prop "endTime" (JStr ended) h :: l)
  | v => v
  end.

Definition handleEndImpersonation (impersonating : js) : prog imp_state unit :=
  upd (setSubmitting true);;
  fetch_or_null "/api/v1/auth/impersonate/revoke"
    (post (JObj [("token_id", js_or (opt_prop impersonating "tokenId") (JStr ""))]));;
  removeItem Local TOKEN_KEY;;
  s ← get_state;
  (match open_entry (history s) with
   | Some true => t ← now; upd (fun s => setHistory (close_entry (toISOString t) (history s)) s)
   | Some false => mret tt
   | None => upd setBroken
   end);;
  persistImpersonation JNull;;
  upd (setMsg (Some ("success", "Impersonation of "
    +:+ to_str (js_or (opt_prop impersonating "username") (JStr "user")) +:+ " ended")));;
  upd (setSubmitting false).

(** ** The banner *)

Record banner_state := Banner {
  active : bool;
  b_username : js;
  b_email : js;
  b_reason : js;
  b_tokenId : js;
  ending : bool
}.

Definition banner_init : banner_state := Banner false (JStr "") (JStr "") (JStr "") (JStr "") false.

Definition banner_mount : prog banner_state unit :=
  raw ← getItem Local STORAGE_KEY;
  match raw' ← nonempty raw; JSON_parse raw' with
  | Some imp =>
      if truthy imp && truthy (opt_prop imp "userId") then
        upd (fun s => Banner true (js_or (opt_prop imp "username") (JStr "unknown user"))
                        (js_or (opt_prop imp "email") (JStr "")) (js_or (opt_prop imp "reason") (JStr ""))
                        (js_or (opt_prop imp "tokenId") (JStr "")) (ending s))
      else mret tt
  | None => mret tt
  end.

Definition handleEnd (tokenId : js) : prog banner_state unit :=
  upd (fun s => Banner (active s) (b_username s) (b_email s) (b_reason s) (b_tokenId s) true);;
  fetch_or_null "/api/v1/auth/impersonate/revoke" (post (JObj [("token_id", tokenId)]));;
  removeItem Local STORAGE_KEY;;
  removeItem Local TOKEN_KEY;;
  upd (fun s => Banner false (b_username s) (b_email s) (b_reason s) (b_tokenId s) (ending s));;
  emit "location.reload" JUndef.
End Page.

(** The duration of a session, from its two instants in milliseconds. *)
Definition formatDuration (startMs endMs : Z) : string :=
  let diffMs := endMs - startMs in
  let mins := diffMs / 60000 in
  let secs := Z.rem diffMs 60000 / 1000 in
  if 60 <=? mins
  then string_of_Z (mins / 60) +:+ "h " +:+ string_of_Z (Z.rem mins 60) +:+ "m"
  else if 0 <? mins then string_of_Z mins +:+ "m " +:+ string_of_Z secs +:+ "s"
  else string_of_Z secs +:+ "s".

Example iso_epoch : toISOString 0 = "1970-01-01T00:00:00.000Z".
Proof. reflexivity. Qed.
Example iso_leap : toISOString 1709210096789 = "2024-02-29T12:34:56.789Z".
Proof. reflexivity. Qed.

(** What the page lets the administrator and its timer do. *)
Inductive imp_spawn (API_BASE TENANT_ID : string) (w : world imp_state) : prog imp_state unit -> Prop :=
| spawn_restore : imp_spawn API_BASE TENANT_ID w restore
| spawn_history : imp_spawn API_BASE TENANT_ID w (loadHistory API_BASE TENANT_ID)
| spawn_search v : imp_spawn API_BASE TENANT_ID w (handleSearchChange v)
| spawn_timer : imp_spawn API_BASE TENANT_ID w (search_timer API_BASE TENANT_ID)
| spawn_clear_search : imp_spawn API_BASE TENANT_ID w clear_search
| spawn_clear_selection : imp_spawn API_BASE TENANT_ID w clear_selection
| spawn_select u : In u (elements_of (searchResults (w_st w))) -> imp_spawn API_BASE TENANT_ID w (handleSelectUser u)
| spawn_reason v : imp_spawn API_BASE TENANT_ID w (change_reason v)
| spawn_start :
    submitting (w_st w) = false -> is_Some (selectedUser (w_st w)) ->
    imp_spawn API_BASE TENANT_ID w
      (handleImpersonate API_BASE TENANT_ID (selectedUser (w_st w)) (reason (w_st w)))
| spawn_end :
    submitting (w_st w) = false -> truthy (impersonating (w_st w)) = true ->
    imp_spawn API_BASE TENANT_ID w (handleEndImpersonation API_BASE TENANT_ID (impersonating (w_st w))).

#[global] Arguments toISOString : simpl never.
#[global] Arguments fetch_or_null : simpl never.

(** ** Requests of the page *)

(** What every request to start an impersonation carries. *)
Definition start_url (API_BASE : string) : string := API_BASE +:+ "/api/v1/auth/impersonate".

Definition start_ok (API_BASE : string) (o : obs) : Prop :=
  match o with
  | ObsFetch rq =>
      rq_url rq = start_url API_BASE ->
      exists uid target tid why, rq_body rq = Some (stringify (impersonate_body uid target tid why))
        /\ (10 <= String.length (trim why))%nat
  | _ => True
  end.

Section PageRun.
Context (API_BASE TENANT_ID : string).

Local Notation tame_page := (tame (fun _ : imp_state => True) (start_ok API_BASE)).

Lemma tame_other path options :
  starts_with "/api/v1/auth/impersonate" path = false \/ starts_with "/api/v1/auth/impersonate/" path = true ->
  tame_page (fetch_or_null API_BASE TENANT_ID path options).
Proof.
  intros Hp. unfold fetch_or_null. apply tame_try; [|done]. apply tame_apiFetch; [|intros r Hu|done].
  - intros headers Hu. unfold api_request, start_url in Hu. cbn in Hu. apply str_app_inj_r in Hu as ->.
    destruct Hp as [H|H]; vm_compute in H; discriminate.
  - unfold refresh_request, start_url in Hu. cbn in Hu. by apply str_app_inj_r in Hu.
Qed.

Lemma tame_updates f : tame_page (upd f).
Proof. by apply tame_upd. Qed.

#[local] Hint Resolve tame_updates : core.

Lemma tame_start selected why : tame_page (handleImpersonate API_BASE TENANT_ID selected why).
Proof.
  unfold handleImpersonate. destruct selected as [user|]; [|apply tame_updates].
  destruct (Nat.ltb_spec (String.length (trim why)) 10) as [Hl|Hl];
    [apply tame_bind; intros; apply tame_updates|].
  unfold persistImpersonation, now. tame_prog; try apply tame_updates; try (by repeat split).
  unfold fetch_or_null. apply tame_try; [|done]. apply tame_apiFetch; [|intros r Hu|done].
  - intros headers _. do 4 eexists. split; [reflexivity|done].
  - unfold refresh_request, start_url in Hu. cbn in Hu. by apply str_app_inj_r in Hu.
Qed.

Lemma tame_spawn w p : imp_spawn API_BASE TENANT_ID w p -> tame_page p.
Proof.
  intros []; unfold restore, loadHistory, handleSearchChange, search_timer, performSearch, clear_search,
    clear_selection, handleSelectUser, change_reason, handleEndImpersonation, persistImpersonation, getItem,
    removeItem, get_state, now; try apply tame_start;
    tame_prog; try apply tame_updates; try (by repeat split);
    try (apply tame_other; by vm_compute; auto).
Qed.
End PageRun.

Lemma run_fetch_or_null {S} (e : env) API_BASE TENANT_ID path options (w : world S) :
  exists v w1, run e (fetch_or_null API_BASE TENANT_ID path options) w = (Done v, w1) /\ w_st w1 = w_st w.
Proof.
  assert (no_throw (fetch_or_null (S := S) API_BASE TENANT_ID path options)) as Hn by by apply no_throw_try.
  destruct (no_throw_run e _ w Hn) as (v & w1 & Hr). exists v, w1. split; [done|].
  assert (tame (fun s => s = w_st w) (fun _ => True) (fetch_or_null API_BASE TENANT_ID path options)) as Ht.
  { unfold fetch_or_null. apply tame_try; [|done]. by apply tame_apiFetch. }
  pose proof (tame_run _ _ e _ w Ht) as H. rewrite Hr in H. apply H. split; [done|].
  by apply Forall_true.
Qed.

(** ** Properties *)

(** C16. No impersonation without a reason: whatever the administrator types, selects, starts
    and ends on the page, however its requests, searches and refreshes interleave and
    whatever the servers answer, every request to start an impersonation carries the reason
    given, without its outer blanks, of at least ten characters. *)
Theorem impersonation_needs_reason API_BASE TENANT_ID (e : env) answers s0 l c rq :
  reachable e (imp_spawn API_BASE TENANT_ID) answers (page s0 l) c ->
  In (ObsFetch rq) (w_trace c.1) -> rq_url rq = start_url API_BASE ->
  exists uid target tid why, rq_body rq = Some (stringify (impersonate_body uid target tid why))
    /\ (10 <= String.length (trim why))%nat.
Proof.
  intros Hr Hin Hurl.
  assert (tame_inv (fun _ => True) (start_ok API_BASE) c.1) as [_ Ht].
  { apply (safe_reachable e (imp_spawn API_BASE TENANT_ID) answers
      (tame_inv (fun _ => True) (start_ok API_BASE)) (page s0 l) c); [by split; [|constructor]| |done].
    intros w p Hw Hp. apply tame_safe; [by eapply tame_spawn|done]. }
  rewrite Forall_forall in Ht. apply list_elem_of_In in Hin. by apply (Ht _ Hin).
Qed.

(** The item the start leaves in the storage: the session shown, with the identifier of the
    token when one was granted. *)
Definition session_stored (user : js) (why : string) (w : world imp_state) : Prop :=
  exists started extra,
    impersonating (w_st w) = JObj (session_js user why started ++ extra)
    /\ w_local w !! STORAGE_KEY = Some (stringify (impersonating (w_st w)))
    /\ (extra = [] \/ exists token, extra = [("tokenId", token_id token)]
                     /\ w_local w !! TOKEN_KEY = Some (to_str token)).

Lemma impersonation_run API_BASE TENANT_ID (e : env) (w : world imp_state) user why :
  (10 <= String.length (trim why))%nat ->
  exists w', run e (handleImpersonate API_BASE TENANT_ID (Some user) why) w = (Done tt, w')
  /\ session_stored user why w'
  /\ msg (w_st w') = Some ("error", "Failed to start impersonation") /\ submitting (w_st w') = false
  /\ selectedUser (w_st w') = selectedUser (w_st w) /\ history (w_st w') = history (w_st w)
  /\ reason (w_st w') = reason (w_st w).
Proof.
  intros Hw. unfold handleImpersonate. rewrite (proj2 (Nat.ltb_ge _ _) Hw). run_steps.
  match goal with |- context [run e (fetch_or_null _ _ _ ?o) ?w0] =>
    destruct (run_fetch_or_null e API_BASE TENANT_ID "/api/v1/auth/impersonate" o w0) as (v & w1 & -> & Hst) end.
  autorewrite with world in Hst. unfold session_stored, persistImpersonation.
  destruct (truthy v && truthy _); run_steps; cbn [truthy]; run_steps;
    (eexists; split; [reflexivity|]); autorewrite with world; rewrite ?lookup_insert_eq, ?Hst;
    (split_and!; [|reflexivity..]).
  - do 2 eexists. split_and!; [reflexivity..|]. right. eexists. split; [reflexivity|].
    rewrite lookup_insert_ne by done. apply lookup_insert_eq.
  - exists (toISOString (clock e (w_trace w1))), []. rewrite app_nil_r. split_and!; [reflexivity..|by left].
Qed.

(** What starting an impersonation does.  Whatever the server answers (a token, a refusal,
    nothing at all), the page stores an impersonation of the selected user with the reason
    given and shows it as active; and it always reports a failure, keeps the selection and
    the reason and writes nothing into the history, because the code after the request reads
    a variable of another scope. *)
Lemma impersonation_outcome API_BASE TENANT_ID (e : env) (w : world imp_state) user why :
  (10 <= String.length (trim why))%nat ->
  exists w', run e (handleImpersonate API_BASE TENANT_ID (Some user) why) w = (Done tt, w')
  /\ session_stored user why w'
  /\ msg (w_st w') = Some ("error", "Failed to start impersonation") /\ submitting (w_st w') = false
  /\ selectedUser (w_st w') = selectedUser (w_st w) /\ history (w_st w') = history (w_st w)
  /\ reason (w_st w') = reason (w_st w).
Proof. apply impersonation_run. Qed.

Lemma token_id_wf token : json_wf (token_id token) = true.
Proof.
  unfold token_id. destruct (jwt_payload token) as [p|] eqn:E; [|done]. unfold js_or.
  destruct (truthy _) eqn:Ht; [|done]. eapply opt_prop_wf; [by eapply jwt_payload_wf|done].
Qed.

Lemma session_wf user why started extra :
  json_wf (opt_prop user "id") = true -> json_wf (opt_prop user "username") = true ->
  json_wf (opt_prop user "email") = true ->
  (extra = [] \/ exists token, extra = [("tokenId", token_id token)]) ->
  json_wf (JObj (session_js user why started ++ extra)) = true.
Proof.
  intros Hi Hu He Hx. unfold session_js.
  destruct Hx as [->|(token & ->)]; cbn [app json_wf map fst str_mem existsb]; by rewrite Hi, Hu, He, ?token_id_wf.
Qed.

Lemma run_banner_mount (e : env) (w : world banner_state) imp :
  w_local w !! STORAGE_KEY = Some (stringify imp) -> json_wf imp = true -> stringify imp <> "" ->
  truthy imp = true -> truthy (opt_prop imp "userId") = true ->
  run e banner_mount w =
  (Done tt, set_st (fun s => Banner true (js_or (opt_prop imp "username") (JStr "unknown user"))
     (js_or (opt_prop imp "email") (JStr "")) (js_or (opt_prop imp "reason") (JStr ""))
     (js_or (opt_prop imp "tokenId") (JStr "")) (ending s)) w).
Proof.
  intros Hs Hw Hne Ht Hu. unfold banner_mount. run_steps. cbn [w_area]. rewrite Hs.
  assert (nonempty (Some (stringify imp)) = Some (stringify imp)) as -> by (by destruct (stringify imp)).
  cbn [mbind option_bind]. rewrite JSON_parse_stringify, Ht, Hu by done. cbn [andb]. by run_steps.
Qed.

(** The banner agrees with the page: on any page loaded after a start, the banner names the
    user the page shows as impersonated, with the reason given for it. *)
Lemma impersonation_banner API_BASE TENANT_ID (e e' : env) (w : world imp_state) user why id name :
  (10 <= String.length (trim why))%nat ->
  opt_prop user "id" = JStr id -> id <> "" -> opt_prop user "username" = JStr name -> name <> "" ->
  json_wf (opt_prop user "email") = true ->
  exists w1, run e (handleImpersonate API_BASE TENANT_ID (Some user) why) w = (Done tt, w1)
  /\ exists w2, run e' banner_mount (page banner_init (w_local w1)) = (Done tt, w2)
     /\ active (w_st w2) = true /\ b_username (w_st w2) = JStr name /\ b_reason (w_st w2) = JStr (trim why).
Proof.
  intros Hw Hid Hi Hname Hn He.
  destruct (impersonation_run API_BASE TENANT_ID e w user why Hw) as (w1 & Hr & (started & extra & Himp & Hs & Hx) & _).
  exists w1. split; [done|]. rewrite Himp in Hs.
  assert (json_wf (JObj (session_js user why started ++ extra)) = true) as Hwf.
  { apply session_wf; rewrite ?Hid, ?Hname; try done. destruct Hx as [->|(t & -> & _)]; eauto. }
  rewrite (run_banner_mount e' _ (JObj (session_js user why started ++ extra))); [|done|done|..].
  - eexists. split; [done|]. unfold session_js. rewrite Hid, Hname. cbn -[trim js_or].
    split_and!; [done|by destruct name|by destruct (trim why)].
  - by rewrite (stringify_obj _ Hwf).
  - done.
  - unfold session_js. rewrite Hid. by destruct id.
Qed.

(** Ending an impersonation, from the banner or from the page, always ends it: whatever the
    server answers, no exception leaves the handler, the session and its token are removed
    from the storage and the page or the banner shows none. *)
Lemma impersonation_ends API_BASE TENANT_ID (e : env) tokenId imp (wb : world banner_state) (wp : world imp_state) :
  (exists w, run e (handleEnd API_BASE TENANT_ID tokenId) wb = (Done tt, w) /\ active (w_st w) = false
   /\ w_local w !! STORAGE_KEY = None /\ w_local w !! TOKEN_KEY = None)
  /\ (exists w, run e (handleEndImpersonation API_BASE TENANT_ID imp) wp = (Done tt, w)
      /\ impersonating (w_st w) = JNull /\ submitting (w_st w) = false
      /\ w_local w !! STORAGE_KEY = None /\ w_local w !! TOKEN_KEY = None).
Proof.
  split.
  - unfold handleEnd. run_steps.
    match goal with |- context [run e (fetch_or_null _ _ _ ?o) ?w0] =>
      destruct (run_fetch_or_null e API_BASE TENANT_ID "/api/v1/auth/impersonate/revoke" o w0) as (v & w1 & -> & _) end.
    run_steps. eexists. split; [reflexivity|]. autorewrite with world.
    split_and!; [done|by rewrite lookup_delete_ne, lookup_delete_eq|apply lookup_delete_eq].
  - unfold handleEndImpersonation, persistImpersonation. run_steps.
    match goal with |- context [run e (fetch_or_null _ _ _ ?o) ?w0] =>
      destruct (run_fetch_or_null e API_BASE TENANT_ID "/api/v1/auth/impersonate/revoke" o w0) as (v & w1 & -> & _) end.
    run_steps. destruct (open_entry _) as [[|]|]; run_steps; cbn [truthy]; run_steps; eexists; (split; [reflexivity|]);
      autorewrite with world; (split_and!; [done|done|apply lookup_delete_eq|]);
      by rewrite lookup_delete_ne, lookup_delete_eq.
Qed.

(** ** Witnesses *)

Definition demo_user : js :=
  JObj [("id", JStr "u7"); ("username", JStr "ada"); ("email", JStr "ada@acme.io")].

Definition demo_imp : imp_state :=
  setReason "ticket 1234: SSO login fails" (setSelectedUser (Some demo_user) imp_init).

Lemma demo_start :
  exists c rq, reachable (const_env None 0) (imp_spawn "https://api" "t") (fun _ _ _ => True) (page demo_imp ∅) c
  /\ In (ObsFetch rq) (w_trace c.1) /\ rq_url rq = start_url "https://api".
Proof.
  do 2 eexists. split; [|split].
  - eapply reach_spawn; [apply reach_init|]. apply spawn_start; [done|by eexists].
  - vm_compute. left. reflexivity.
  - reflexivity.
Qed.

Lemma impersonation_needs_reason_witness :
  exists uid target tid why body, body = stringify (impersonate_body uid target tid why)
  /\ (10 <= String.length (trim why))%nat.
Proof.
  destruct demo_start as (c & rq & Hr & Hin & Hu).
  destruct (impersonation_needs_reason "https://api" "t" (const_env None 0) (fun _ _ _ => True) demo_imp ∅ c rq Hr Hin Hu)
    as (uid & target & tid & why & Hb & Hl).
  exists uid, target, tid, why, (stringify (impersonate_body uid target tid why)). split; [reflexivity|exact Hl].
Defined.

Definition demo_refused : env := const_env (Some (Response 403 "no")) 0.

Lemma impersonation_outcome_witness :
  exists w', run demo_refused (handleImpersonate "https://api" "t" (Some demo_user) (reason demo_imp)) (page demo_imp ∅)
             = (Done tt, w')
  /\ session_stored demo_user (reason demo_imp) w'
  /\ msg (w_st w') = Some ("error", "Failed to start impersonation").
Proof.
  destruct (impersonation_outcome "https://api" "t" demo_refused (page demo_imp ∅) demo_user (reason demo_imp))
    as (w' & Hr & Hs & Hm & _); [vm_compute; lia|].
  exists w'. split; [exact Hr|]. split; [exact Hs|exact Hm].
Defined.

Lemma impersonation_banner_witness :
  exists w1, run demo_refused (handleImpersonate "https://api" "t" (Some demo_user) (reason demo_imp)) (page demo_imp ∅)
             = (Done tt, w1)
  /\ exists w2, run demo_refused banner_mount (page banner_init (w_local w1)) = (Done tt, w2)
     /\ active (w_st w2) = true /\ b_username (w_st w2) = JStr "ada"
     /\ b_reason (w_st w2) = JStr (trim (reason demo_imp)).
Proof.
  apply (impersonation_banner "https://api" "t" demo_refused demo_refused (page demo_imp ∅) demo_user
    (reason demo_imp) "u7" "ada"); try reflexivity; try discriminate. vm_compute. lia.
Defined.

(** A search cleared within the debounce leaves the list saying "Searching..." for good: the
    timer that would have ended the search is gone. *)
Example cleared_search_hangs :
  let w := (run demo_refused (handleSearchChange "a";; handleSearchChange "") (page imp_init ∅)).2 in
  searching (w_st w) = true /\ debounce (w_st w) = None.
Proof. by vm_compute. Qed.
