(* ===== verification/Shell.v ===== *)
(** * The console's shell

    The providers and widgets around every page: lib/i18n.tsx with lib/i18n/index.ts,
    lib/theme.tsx, lib/safe-array.ts, components/TenantSwitcher.tsx, ConfirmDialog.tsx,
    LanguageSwitcher.tsx (its [setLocale] is i18n.tsx's), passkey-prompt.tsx and
    ui/copy-button.tsx.  Dictionaries are data: the English one and those of the other
    languages are parameters.  What the shell does to the document is an event. *)

From Stdlib Require Import DecimalString.
From S2P Require Import Prelude JsValue JsString Json Effects ApiClient Webauthn.
#[local] Open Scope Z_scope.

(** ** safe-array.ts *)

Definition wrapper_keys : list string :=
  ["items"; "data"; "users"; "roles"; "tenants"; "events"; "organizations"].

Definition asArray (value : js) : js :=
  match value with
  | JArr _ => value
  | JObj _ =>
      match List.filter is_array (map (opt_prop value) wrapper_keys) with
      | v :: _ => v
      | [] => JArr []
      end
  | _ => JArr []
  end.

(** ** i18n.tsx *)

Abbreviation Dict := (gmap string string).

Definition LOCALES : list string :=
  ["en"; "zh"; "zh-TW"; "es"; "hi"; "fr"; "ar"; "pt"; "ru"; "de"; "ja"; "ko"; "tr"; "vi"; "id"].

Definition RTL_LOCALES : list string := ["ar"].

(** The provider's state and the module's cache. *)
Record i18n_state := I18n { locale : string; activeDict : Dict; localeCache : gmap string Dict }.

Section I18n.
(** [dicts l] is the dictionary that the language file of [l] exports. *)
Context (en : Dict) (dicts : string -> Dict).

Definition i18n_init : i18n_state := I18n "en" en {["en" := en]}.

Definition setActiveDict (d : Dict) : prog i18n_state unit :=
  upd (fun s => I18n (locale s) d (localeCache s)).

(** [loadLocale(locale)]: [None] for a locale without a loader; a rejected import raises. *)
Definition loadLocale (l : string) : prog i18n_state (option Dict) :=
  if str_mem l LOCALES then
    r ← host "import" (JStr l);
    match r with Some _ => mret (Some (dicts l)) | None => Throw (error "import failed") end
  else Act OYield (fun _ => Ret None).

(** The effect of a new locale. *)
Definition locale_effect (l : string) : prog i18n_state unit :=
  if String.eqb l "en" then setActiveDict en
  else
    s ← get_state;
    match localeCache s !! l with
    | Some d => setActiveDict d
    | None =>
        try_catch (
          d ← loadLocale l;
          match d with
          | Some d => upd (fun s => I18n (locale s) (activeDict s) (<[l := d]> (localeCache s)));; setActiveDict d
          | None => mret tt
          end)
          (fun _ => setActiveDict en)
    end.

(** [setLocaleState(l)], with the effect of the render that follows when it changed. *)
Definition setLocaleState (l : string) : prog i18n_state unit :=
  s ← get_state;
  upd (fun s => I18n l (activeDict s) (localeCache s));;
  if String.eqb (locale s) l then mret tt else locale_effect l.

(** The effects of the first render. *)
Definition i18n_mount : prog i18n_state unit :=
  setActiveDict en;;
  saved ← getItem Local "ggid_locale";
  match nonempty saved with
  | Some l => if str_mem l LOCALES then setLocaleState l else mret tt
  | None => mret tt
  end.

Definition setLocale (l : string) : prog i18n_state unit :=
  setItem Local "ggid_locale" l;;
  emit "document.dir" (JStr (if str_mem l RTL_LOCALES then "rtl" else "ltr"));;
  emit "document.lang" (JStr l);;
  setLocaleState l.

(** [activeDict[key] || en[key] || key]. *)
Definition translate (s : i18n_state) (key : string) : string :=
  match nonempty (activeDict s !! key), nonempty (en !! key) with
  | Some t, _ => t
  | None, Some t => t
  | None, None => key
  end.
End I18n.

(** ** theme.tsx *)

Inductive Theme := light | dark.
Inductive ThemeMode := mlight | mdark | msystem.
#[export] Instance ThemeMode_eq_dec : EqDecision ThemeMode.
Proof. solve_decision. Defined.

Definition mode_text (m : ThemeMode) : string :=
  match m with mlight => "light" | mdark => "dark" | msystem => "system" end.
Definition mode_of (s : option string) : ThemeMode :=
  match s with Some "dark" => mdark | Some "light" => mlight | _ => msystem end.

(** The last field is whether the document has the class "dark". *)
Record theme_state := ThemeState { t_mode : ThemeMode; theme : Theme; mounted : bool; dark_class : bool }.

Definition theme_init : theme_state := ThemeState msystem light false false.

Section Theme.
(** [getSystemTheme()], as the platform answers it now. *)
Context (system : Theme).

Definition resolved (m : ThemeMode) : Theme :=
  match m with mlight => light | mdark => dark | msystem => system end.

Definition applyDOMTheme (t : Theme) : prog theme_state unit :=
  upd (fun s => ThemeState (t_mode s) (theme s) (mounted s) (match t with dark => true | light => false end)).

Definition setTheme (t : Theme) : prog theme_state unit :=
  upd (fun s => ThemeState (t_mode s) t (mounted s) (dark_class s)).

(** The effect of [mode] and [mounted]. *)
Definition theme_effect : prog theme_state unit :=
  s ← get_state;
  if negb (mounted s) then mret tt
  else
    setTheme (resolved (t_mode s));;
    applyDOMTheme (resolved (t_mode s));;
    setItem Local "darkMode" (mode_text (t_mode s)).

Definition theme_mount : prog theme_state unit :=
  saved ← getItem Local "darkMode";
  theme_effect;;
  upd (fun s => ThemeState (mode_of saved) (theme s) true (dark_class s));;
  theme_effect.

(** [setModeState(m)] and the effect of a changed mode. *)
Definition setMode (m : ThemeMode) : prog theme_state unit :=
  s ← get_state;
  upd (fun s => ThemeState m (theme s) (mounted s) (dark_class s));;
  if bool_decide (t_mode s = m) then mret tt else theme_effect.

Definition toggle : prog theme_state unit :=
  s ← get_state;
  setMode (match t_mode s with mlight => mdark | mdark => msystem | msystem => mlight end).

(** The listener of the system's preference, registered while the mode is "system". *)
Definition system_changed : prog theme_state unit :=
  s ← get_state;
  if bool_decide (t_mode s = msystem) && mounted s then setTheme system;; applyDOMTheme system else mret tt.
End Theme.

(** ** TenantSwitcher.tsx *)

Record switcher_state := Switcher { sw_open : bool; tenants : js; sw_loading : bool; currentId : option js }.

Definition switcher_init : switcher_state := Switcher false (JArr []) false None.

Section Switcher.
Context (API_BASE_URL : string).

Definition switcher_mount : prog switcher_state unit :=
  id ← getItem Local "ggid_tenant_id";
  upd (fun s => Switcher (sw_open s) (tenants s) (sw_loading s) (JStr <$> id)).

Definition loadTenants : prog switcher_state unit :=
  upd (fun s => Switcher (sw_open s) (tenants s) true (currentId s));;
  try_catch (
    auth ← authHeader true;
    res ← fetch (Request GET (API_BASE_URL +:+ "/api/v1/tenants") auth None);
    if rs_ok res then
      d ← resp_json res;
      first ← get d "tenants";
      let v := js_or_list [first; opt_prop d "items"] (if is_array d then d else JArr []) in
      upd (fun s => Switcher (sw_open s) v (sw_loading s) (currentId s))
    else mret tt)
    (fun _ => mret tt);;
  upd (fun s => Switcher (sw_open s) (tenants s) false (currentId s)).

(** [open] and [tenants] are those of the render; the list is loaded without being awaited. *)
Definition handleOpen (open : bool) (tenants_ : js) : prog switcher_state bool :=
  upd (fun s => Switcher (negb open) (tenants s) (sw_loading s) (currentId s));;
  mret (negb open && bool_decide (tenants_ = JArr [])).

Definition switchTenant (tenant : js) : prog switcher_state unit :=
  setItem Local "ggid_tenant_id" (to_str (opt_prop tenant "id"));;
  upd (fun s => Switcher false (tenants s) (sw_loading s) (Some (opt_prop tenant "id")));;
  emit "location.reload" JUndef.
End Switcher.

(** ** ConfirmDialog.tsx *)

(** [None]: no dialog; the dialog [i] runs [actions i] when it is confirmed. *)
Record confirm_state := Confirm { dialog : option nat; c_loading : bool }.

Definition confirm_init : confirm_state := Confirm None false.

Definition setDialog (d : option nat) : prog confirm_state unit := upd (fun s => Confirm d (c_loading s)).
Definition setConfirmLoading (b : bool) : prog confirm_state unit := upd (fun s => Confirm (dialog s) b).

Section Confirm.
Context (actions : nat -> prog confirm_state unit).

Definition confirm (i : nat) : prog confirm_state unit := setDialog (Some i).

(** The closure of the render that shows [dialog]. *)
Definition handleConfirm (dialog : option nat) : prog confirm_state unit :=
  match dialog with
  | None => mret tt
  | Some i =>
      setConfirmLoading true;;
      finally (actions i) (setConfirmLoading false;; setDialog None)
  end.

Definition handleCancel : prog confirm_state unit := setDialog None.
End Confirm.

(** ** passkey-prompt.tsx *)

Definition DISMISS_KEY : string := "passkey_prompt_dismissed".

Inductive prompt_status := idle | loading | success | failure.

Record prompt_state := Prompt { show : bool; status : prompt_status; errorMsg : string }.

Definition prompt_init : prompt_state := Prompt false idle "".

Fixpoint take_digits (s : string) : string :=
  match s with
  | String c s' => if is_digit c then String c (take_digits s') else ""
  | EmptyString => ""
  end.

(** [parseInt(s)] of a text of decimal digits, as [Date.now().toString()] writes it; [None]
    is [NaN], which compares to nothing. *)
Definition parseInt (s : string) : option Z := Z_of_string (take_digits (trim_start s)).

Section Prompt.
(** [supported] is [typeof PublicKeyCredential !== "undefined"]. *)
Context (API_BASE : string) (supported : bool).

(** [(Date.now() - parseInt(dismissed)) / 86400000 < 7]. *)
Definition dismissed_recently : prog prompt_state bool :=
  dismissed ← getItem Local DISMISS_KEY;
  match nonempty dismissed with
  | None => mret false
  | Some text =>
      t ← now;
      mret (match parseInt text with Some d => t - d <? 7 * 86400000 | None => false end)
  end.

Definition prompt_check : prog prompt_state unit :=
  recent ← dismissed_recently;
  if (recent : bool) then mret tt
  else if negb supported then mret tt
  else
    userId ← getItem Local "ggid_user_id";
    match nonempty userId with
    | None => mret tt
    | Some userId =>
        try_catch (
          has ← userHasPasskey true API_BASE userId;
          if (has : bool) then mret tt else upd (fun s => Prompt true (status s) (errorMsg s)))
          (fun _ => mret tt)
    end.

Definition setStatus (v : prompt_status) (m : string) : prog prompt_state unit :=
  upd (fun s => Prompt (show s) v m).

Definition handleBind : prog prompt_state unit :=
  setStatus loading "";;
  token ← getItem Local "ggid_access_token";
  userId ← getItem Local "ggid_user_id";
  match nonempty token, nonempty userId with
  | Some _, Some userId =>
      try_catch (
        ok ← offerPasskeyUpgrade true API_BASE supported userId;
        if (ok : bool) then setStatus success "";; emit "setTimeout" (JNum 3000)
        else setStatus failure "Passkey creation was cancelled or failed. Try again.")
        (fun _ => setStatus failure "Something went wrong. Please try again.")
  | _, _ => setStatus failure "Not logged in"
  end.

(** The timer of the success message. *)
Definition hide : prog prompt_state unit := upd (fun s => Prompt false (status s) (errorMsg s)).

Definition handleDismiss : prog prompt_state unit :=
  t ← now;
  setItem Local DISMISS_KEY (string_of_Z t);;
  hide.
End Prompt.

(** ** ui/copy-button.tsx *)

(** The bullets are written in UTF-8. *)
Definition displayValue (masked : bool) (value : string) : string :=
  if masked then
    if (12 <? String.length value)%nat
    then String.substring 0 8 value +:+ "••••" +:+ String.substring (String.length value - 4) 4 value
    else "••••••••"
  else value.

(** The state is [copied]. *)
Definition setCopied (v : bool) : prog bool unit := upd (fun _ => v).

(** [supported]: the browser has the Clipboard API; the copy through a text area is an event. *)
Definition handleCopy (supported : bool) (value : string) : prog bool unit :=
  try_catch
    ((if supported then
        r ← host "clipboard.writeText" (JStr value);
        match r with Some _ => mret tt | None => Throw (error "NotAllowedError") end
      else emit "execCommand.copy" (JStr value));;
     setCopied true;;
     emit "setTimeout" (JNum 2000))
    (fun _ => mret tt).

(** The timer. *)
Definition copied_timer : prog bool unit := setCopied false.

(** The text of the button; the icon is drawn apart. *)
Definition button_text (copied : bool) (label : option string) (ghost masked : bool) (value : string) : option string :=
  match nonempty label with
  | Some l => Some (if copied then "Copied!" else l)
  | None => if ghost then nonempty (Some (displayValue masked value)) else None
  end.
Definition button_title (title : option string) : string := default "Copy to clipboard" (nonempty title).

#[global] Arguments theme_effect : simpl never.
#[global] Arguments theme_mount : simpl never.

(** ** Lists *)

Lemma asArray_array v : is_array (asArray v) = true.
Proof.
  destruct v as [| | | | | |l]; try done. unfold asArray.
  destruct (List.filter is_array _) as [|x xs] eqn:E; [done|].
  assert (In x (List.filter is_array (map (opt_prop (JObj l)) wrapper_keys))) as Hin by (rewrite E; by left).
  by apply filter_In in Hin as [_ ?].
Qed.

(** ** Texts *)

(** A text is always found for a key: the active language's, else the English one, else
    the key. *)
Lemma translate_nonempty en s key : key <> "" -> translate en s key <> "".
Proof.
  unfold translate, nonempty. intros Hk.
  destruct (activeDict s !! key) as [[|c t]|], (en !! key) as [[|c' t']|]; done.
Qed.

Section I18nRun.
Context (en : Dict) (dicts : string -> Dict) (e : env).

(** The cache holds dictionaries of the right language. *)
Definition cache_ok (s : i18n_state) : Prop :=
  forall l d, localeCache s !! l = Some d -> d = if String.eqb l "en" then en else dicts l.

(** The dictionary of [l], or the English one when its file could not be loaded. *)
Definition shows (l : string) (s : i18n_state) : Prop :=
  if String.eqb l "en" then activeDict s = en else activeDict s = dicts l \/ activeDict s = en.

(** A change of language on its own shows that language. *)
Lemma run_locale_effect l w :
  cache_ok (w_st w) -> str_mem l LOCALES = true ->
  exists w', run e (locale_effect en dicts l) w = (Done tt, w')
  /\ locale (w_st w') = locale (w_st w) /\ shows l (w_st w') /\ cache_ok (w_st w').
Proof.
  intros Hc Hl. unfold locale_effect, shows, setActiveDict.
  destruct (String.eqb_spec l "en") as [->|Hne].
  { run_steps. eexists. split; [done|]. autorewrite with world. done. }
  run_steps. destruct (localeCache (w_st w) !! l) as [d|] eqn:Ed.
  - run_steps. eexists. split; [done|]. autorewrite with world. cbn. split_and!; [done| |done].
    left. rewrite (Hc l d Ed). by rewrite eqb_str_false.
  - unfold loadLocale. rewrite Hl. run_steps.
    destruct (platform e _ _ _); run_steps; eexists; (split; [done|]); autorewrite with world; cbn;
      (split_and!; [done| |]); auto.
    intros l' d'. cbn. destruct (decide (l = l')) as [<-|Hn].
    + rewrite lookup_insert_eq. intros [= <-]. by rewrite eqb_str_false.
    + rewrite lookup_insert_ne by done. apply Hc.
Qed.
End I18nRun.

(** Two changes in flight: the language file of the first arrives after the second, and is
    shown although the language chosen is English. *)
Lemma language_race en dicts (e : env) :
  exists w p k, sync e (setLocale en dicts "zh") (page (i18n_init en) ∅) = (p, w)
  /\ p = Act (OHost "import" (JStr "zh")) k
  /\ let w1 := (run e (setLocale en dicts "en") w).2 in
     let w2 := (run e (k (Some JUndef)) w1).2 in
     locale (w_st w2) = "en" /\ w_local w2 !! "ggid_locale" = Some "en" /\ activeDict (w_st w2) = dicts "zh".
Proof. do 3 eexists. split; [reflexivity|]. split; [reflexivity|]. by cbn. Qed.

(** The direction of the text is set when a language is chosen, and not when it is restored:
    after a reload Arabic is shown from left to right. *)
Lemma direction_not_restored en dicts (e : env) w' :
  run e (i18n_mount en dicts) (page (i18n_init en) {["ggid_locale" := "ar"]}) = (Done tt, w') ->
  locale (w_st w') = "ar" /\ forall dir, ~ In (ObsEmit "document.dir" dir) (w_trace w').
Proof.
  unfold i18n_mount, setActiveDict, setLocaleState, locale_effect, loadLocale. run_steps. cbn [w_area].
  autorewrite with world. cbn [page w_local]. rewrite lookup_singleton_eq. cbn [nonempty].
  change (str_mem "ar" LOCALES) with true. change (String.eqb "ar" "en") with false. run_steps.
  match goal with |- context [if ?b then mret tt else _] => change b with false end. run_steps.
  cbn [locale localeCache page w_st i18n_init set_st]. rewrite lookup_singleton_ne by done. run_steps.
  match goal with |- context [platform e ?t ?f ?x] => destruct (platform e t f x) end; cbn; intros [= <-]; cbn; (split; [done|]); intros dir [H|[]]; discriminate.
Qed.

(** ** Themes *)

Lemma mode_of_text m : mode_of (Some (mode_text m)) = m.
Proof. by destruct m. Qed.

Lemma run_theme_effect (e : env) system w :
  run e (theme_effect system) w =
  (Done tt, if mounted (w_st w)
            then set_area Local (<["darkMode" := mode_text (t_mode (w_st w))]>)
                   (set_st (fun s => ThemeState (t_mode s) (resolved system (t_mode s)) (mounted s)
                              (match resolved system (t_mode s) with dark => true | light => false end)) w)
            else w).
Proof.
  unfold theme_effect, setTheme, applyDOMTheme. run_steps. destruct (mounted (w_st w)) eqn:E; cbn [negb]; run_steps; [|done].
  by destruct w as [[] ? ? ? ?].
Qed.

(** A mode that was chosen is the mode of every later page, and its theme is the one both the
    state and the document have. *)
Lemma theme_survives_reload (e e' : env) system m w :
  mounted (w_st w) = true -> t_mode (w_st w) <> m ->
  let w1 := (run e (setMode system m) w).2 in
  let w2 := (run e' (theme_mount system) (page theme_init (w_local w1))).2 in
  t_mode (w_st w2) = m /\ theme (w_st w2) = resolved system m
  /\ dark_class (w_st w2) = dark_class (w_st w1) /\ w_local w2 = w_local w1.
Proof.
  intros Hm Hne w1. unfold setMode in w1. revert w1. rewrite run_mbind, run_get_state, run_mbind, run_upd.
  rewrite bool_decide_false by done. rewrite run_theme_effect. destruct w as [[t0 th mo dc] lo se sc tr]. cbn in Hm |- *.
  subst mo. cbn. unfold theme_mount. rewrite run_mbind, run_getItem, run_mbind, run_theme_effect. cbn -[mode_of].
  rewrite run_theme_effect. cbn -[mode_of]. rewrite lookup_insert_eq, mode_of_text. split_and!; [done..|].
  by rewrite insert_insert_eq.
Qed.

(** The button goes through the three modes. *)
Lemma run_theme_toggle (e : env) system w :
  exists w', run e (toggle system) w = (Done tt, w')
  /\ t_mode (w_st w') = match t_mode (w_st w) with mlight => mdark | mdark => msystem | msystem => mlight end.
Proof.
  unfold toggle, setMode. destruct w as [[[] th [] dc] lo se sc tr]; run_steps; cbn [w_st t_mode];
    rewrite bool_decide_false by done; rewrite run_theme_effect; eexists; (split; [reflexivity|]); done.
Qed.

Lemma toggle_cycles (e : env) system w :
  t_mode (w_st (run e (toggle system;; toggle system;; toggle system) w).2) = t_mode (w_st w).
Proof.
  destruct (run_theme_toggle e system w) as (w1 & E1 & H1). destruct (run_theme_toggle e system w1) as (w2 & E2 & H2).
  destruct (run_theme_toggle e system w2) as (w3 & E3 & H3).
  rewrite run_mbind, E1. cbn [snd fst]. rewrite run_mbind, E2, E3. cbn [snd fst]. rewrite H3, H2, H1. by destruct (t_mode (w_st w)).
Qed.

(** ** Dialogs *)

(** However its action ends, a confirmed dialog is closed and its button is free again: it
    cannot hang, unless the action does. *)
Lemma confirm_closes actions (e : env) i w o w' :
  run e (actions i) (set_st (fun s => Confirm (dialog s) true) w) = (o, w') ->
  exists w'', run e (handleConfirm actions (Some i)) w = (o, w'') /\ w_st w'' = Confirm None false.
Proof.
  intros H. unfold handleConfirm, setConfirmLoading, setDialog. run_steps. rewrite H.
  destruct o; run_steps; eexists; (split; [reflexivity|]); by autorewrite with world.
Qed.

(** The end of an action closes whatever dialog is open then: here one that was asked for
    while the first action was running, and that nobody answered. *)
Lemma confirm_closes_another (e : env) :
  let actions i := if Nat.eqb i 0 then (_ ← fetch (Request DELETE "/api/v1/users/u-1" [] None); mret tt) else mret tt in
  exists w k, sync e (handleConfirm actions (Some 0%nat)) (page (Confirm (Some 0%nat) false) ∅)
    = (Act (OFetch (Request DELETE "/api/v1/users/u-1" [] None)) k, w)
  /\ let w1 := (run e (confirm 1) w).2 in
     dialog (w_st w1) = Some 1%nat
     /\ forall r, dialog (w_st (run e (k r) w1).2) = None.
Proof. do 2 eexists. split; [reflexivity|]. split; [done|]. intros [r|]; reflexivity. Qed.

(** ** The passkey prompt *)

Lemma take_digits_all s : str_forall is_digit s = true -> take_digits s = s.
Proof. induction s as [|c s IH]; cbn; [done|]. intros [-> H]%andb_prop. by rewrite IH. Qed.

Lemma digits_uint u : str_forall is_digit (NilEmpty.string_of_uint u) = true.
Proof. induction u; cbn; done. Qed.

Lemma parseInt_string_of_Z t : 0 <= t -> parseInt (string_of_Z t) = Some t.
Proof.
  intros Ht. unfold parseInt. assert (str_forall is_digit (string_of_Z t) = true) as Hd.
  { unfold string_of_Z, NilZero.string_of_int, NilZero.string_of_uint.
    destruct t as [|p|p]; [done| |done]. cbn [Z.to_int]. destruct (Pos.to_uint p); cbn; try done; apply digits_uint. }
  destruct (string_of_Z_head t) as (c & r & E & _). rewrite E in *.
  assert (trim_start (String c r) = String c r) as ->.
  { cbn in Hd. apply andb_prop in Hd as [Hc _]. cbn [trim_start].
    destruct c as [[] [] [] [] [] [] [] []]; (discriminate Hc || reflexivity). }
  by rewrite take_digits_all, <- E, Z_of_string_of_Z.
Qed.

(** A dismissed prompt stays away for seven days, and no longer because of that dismissal. *)
Lemma dismissal_lasts (e e' : env) w :
  let t := clock e (w_trace w) in
  let w1 := page prompt_init (w_local (run e handleDismiss w).2) in
  0 <= t ->
  show (w_st (run e handleDismiss w).2) = false
  /\ (run e' dismissed_recently w1).1 = Done (clock e' (w_trace w1) - t <? 7 * 86400000).
Proof.
  intros t w1 Ht. subst w1. unfold handleDismiss, hide, dismissed_recently. run_steps. cbn [snd]. autorewrite with world.
  split; [done|]. fold t. cbn [w_area page w_local]. rewrite lookup_insert_eq, nonempty_some by apply string_of_Z_nonempty.
  run_steps. by rewrite parseInt_string_of_Z.
Qed.

(** ** Tenants *)

(** The tenant that is chosen is the one every later request of the helpers names, with the
    session it had. *)
Lemma switched_tenant_sent (e e' : env) t name w :
  t <> "" ->
  let l := w_local (run e (switchTenant (JObj [("id", JStr t); ("name", name)])) w).2 in
  exists h w', run e' (authHeader true) (page switcher_init l) = (Done h, w')
  /\ hget "X-Tenant-ID" h = Some t /\ l !! "ggid_access_token" = w_local w !! "ggid_access_token".
Proof.
  intros Ht l. assert (l = <["ggid_tenant_id" := t]> (w_local w)) as ->.
  { subst l. unfold switchTenant. run_steps. by destruct w. }
  unfold authHeader, getAuthToken. run_steps. autorewrite with world. cbn [w_area page w_local].
  do 2 eexists. split; [reflexivity|]. unfold add_header. rewrite lookup_insert_eq, nonempty_some by done.
  split; [apply hget_hset|by rewrite lookup_insert_ne].
Qed.

(** ** The copy button *)

Lemma substring_start a b : String.substring 0 (String.length a) (a +:+ b) = a.
Proof. induction a as [|x a IH]; cbn; [by destruct b|by rewrite IH]. Qed.

Lemma substring_end a b : String.substring (String.length a) (String.length b) (a +:+ b) = b.
Proof. induction a as [|x a IH]; cbn; [|done]. by induction b as [|x b IH]; cbn; [|rewrite IH]. Qed.

(** The button says it copied when the clipboard took the text, or when it cannot tell; a
    clipboard that refuses leaves it as it was, without a word. *)
Lemma copy_outcome (e : env) supported value w :
  exists w', run e (handleCopy supported value) w = (Done tt, w')
  /\ w_st w' = (if supported then
        match platform e (ObsHost "clipboard.writeText" (JStr value) :: w_trace w) "clipboard.writeText" (JStr value) with
        | Some _ => true | None => w_st w end
      else true)
  /\ In (if supported then ObsHost "clipboard.writeText" (JStr value) else ObsEmit "execCommand.copy" (JStr value)) (w_trace w').
Proof.
  unfold handleCopy, setCopied. destruct supported; run_steps.
  - autorewrite with world. destruct (platform e _ _ _); run_steps; (eexists; split; [reflexivity|]); destruct w; cbn; tauto.
  - eexists. split; [reflexivity|]. destruct w; cbn; tauto.
Qed.

(** What a masked value still shows: its first eight characters and its last four, so a
    value of thirteen characters is hidden but for one, ... *)
Lemma mask_leaks a b c :
  String.length a = 8%nat -> String.length c = 4%nat -> b <> "" ->
  displayValue true (a +:+ b +:+ c) = a +:+ "••••" +:+ c.
Proof.
  intros Ha Hc Hb. unfold displayValue. rewrite !str_length_app, Ha, Hc.
  assert (0 < String.length b)%nat by (destruct b; [done|cbn; lia]).
  destruct (Nat.ltb_spec 12 (8 + (String.length b + 4))) as [_|?]; [|lia].
  rewrite <- (str_app_assoc a b c). replace (8 + (String.length b + 4) - 4)%nat with (String.length (a +:+ b)) by (rewrite str_length_app; lia).
  rewrite <- Ha, <- Hc, substring_end, str_app_assoc, substring_start. done.
Qed.

(** ... and a shorter one not at all. *)
Lemma mask_hides v : (String.length v <= 12)%nat -> displayValue true v = "••••••••".
Proof. intros H. unfold displayValue. by destruct (Nat.ltb_spec 12 (String.length v)); [lia|]. Qed.
