(* ===== verification/Sidebar.v ===== *)
(** * Console: the sidebar's state (console/src/components/sidebar.tsx)

    Access.v decides which links a role is shown; this file holds what the component keeps
    besides: the search box, the collapsed groups, the polling of the gateway's health with
    its timer, and the sign-out button.  Timers are numbered in the order they are set;
    [armed] is the set of those that have neither fired nor been cleared. *)

From S2P Require Import Prelude JsValue JsString Json Effects ApiClient Access TenantResolve Impersonation.

(** ** State *)

Record sidebar_state := SidebarState {
  mobileOpen : bool;
  search : string;
  collapsedGroups : gset string;
  health : option HealthResult;
  reconnecting : bool;
  intervalRef : option nat;
  armed : gset nat;
  next_timer : nat
}.

Definition sidebar_init : sidebar_state := SidebarState false "" ∅ None false None ∅ 0.

Definition setMobileOpen (v : bool) (s : sidebar_state) : sidebar_state :=
  SidebarState v (search s) (collapsedGroups s) (health s) (reconnecting s) (intervalRef s) (armed s) (next_timer s).
Definition setSearch (v : string) (s : sidebar_state) : sidebar_state :=
  SidebarState (mobileOpen s) v (collapsedGroups s) (health s) (reconnecting s) (intervalRef s) (armed s) (next_timer s).
Definition setCollapsedGroups (v : gset string) (s : sidebar_state) : sidebar_state :=
  SidebarState (mobileOpen s) (search s) v (health s) (reconnecting s) (intervalRef s) (armed s) (next_timer s).
Definition setHealth (v : HealthResult) (s : sidebar_state) : sidebar_state :=
  SidebarState (mobileOpen s) (search s) (collapsedGroups s) (Some v) (reconnecting s) (intervalRef s) (armed s)
    (next_timer s).
Definition setReconnecting (v : bool) (s : sidebar_state) : sidebar_state :=
  SidebarState (mobileOpen s) (search s) (collapsedGroups s) (health s) v (intervalRef s) (armed s) (next_timer s).

(** [if (intervalRef.current) clearTimeout(intervalRef.current)]. *)
Definition clear_interval (s : sidebar_state) : sidebar_state :=
  SidebarState (mobileOpen s) (search s) (collapsedGroups s) (health s) (reconnecting s) (intervalRef s)
    (match intervalRef s with Some i => armed s ∖ {[i]} | None => armed s end) (next_timer s).

(** [intervalRef.current = setTimeout(...)]. *)
Definition set_interval (s : sidebar_state) : sidebar_state :=
  SidebarState (mobileOpen s) (search s) (collapsedGroups s) (health s) (reconnecting s) (Some (next_timer s))
    (armed s ∪ {[next_timer s]}) (S (next_timer s)).

(** ** The gateway's health *)

Section Health.
Context (API_BASE_URL DEFAULT_TENANT_ID : string).

Definition scheduleNext (online : bool) : prog sidebar_state unit :=
  upd (fun s => set_interval (clear_interval s));;
  emit "setTimeout" (JNum (if online then 30000 else 5000)).

(** The closure of the render in which [reconnecting] was [rc]. *)
Definition doHealthCheck (rc : bool) : prog sidebar_state unit :=
  result ← checkApiHealthDetailed API_BASE_URL DEFAULT_TENANT_ID;
  upd (setHealth result);;
  (if online result && rc then upd (setReconnecting false) else mret tt);;
  (if online result then mret tt else upd (setReconnecting true));;
  scheduleNext (online result).

(** The effect without dependencies runs the closure of the first render, and every timer
    it sets the same closure again: the flag they see is the initial one. *)
Definition first_closure : bool := reconnecting sidebar_init.

Definition sidebar_mount : prog sidebar_state unit := doHealthCheck first_closure.

Definition sidebar_unmount : prog sidebar_state unit := upd clear_interval.

(** A timer that fires is not armed any more. *)
Definition fired (i : nat) (s : sidebar_state) : sidebar_state :=
  SidebarState (mobileOpen s) (search s) (collapsedGroups s) (health s) (reconnecting s) (intervalRef s)
    (armed s ∖ {[i]}) (next_timer s).

(** Timer [i] is due. *)
Definition health_timer (i : nat) : prog sidebar_state unit :=
  s ← get_state;
  if bool_decide (i ∈ armed s) then
    upd (fired i);;
    doHealthCheck first_closure
  else mret tt.
End Health.

(** The sign and the text of the health line. *)
Inductive health_sign := Spinning | Green | Alert.

Definition health_icon (s : sidebar_state) : health_sign :=
  if reconnecting s then Spinning
  else match health s with Some h => if online h then Green else Alert | None => Alert end.

Definition health_text (offline : string) (s : sidebar_state) : string :=
  match health s with
  | Some h =>
      if online h
      then "API: " +:+ match latencyMs h with Some t => string_of_Z t | None => "?" end +:+ "ms"
      else offline
  | None => offline
  end.

(** ** The groups *)

(** [collapsed] is the set of the render the button belongs to. *)
Definition toggleGroup (collapsed : gset string) (label : string) : prog sidebar_state unit :=
  upd (setCollapsedGroups (if bool_decide (label ∈ collapsed) then collapsed ∖ {[label]} else collapsed ∪ {[label]})).

Definition isGroupCollapsed (s : sidebar_state) (label : string) : bool :=
  if String.eqb (trim (search s)) "" then bool_decide (label ∈ collapsedGroups s) else false.

(** What is drawn of the groups a role is shown. *)
Definition drawn (s : sidebar_state) (groups : list NavGroup) : list (string * list NavItem) :=
  map (fun g => (group_label g, if isGroupCollapsed s (group_label g) then [] else items g))
    (filtered (search s) groups).

Definition item_active (path : string) (item : NavItem) : bool :=
  String.eqb path (href item)
  || negb (String.eqb (href item) "/") && negb (String.eqb (href item) "/dashboard") && starts_with (href item) path.

(** ** The user *)

Definition user_label (l : gmap string string) : string :=
  match nonempty (l !! "ggid_user_email"), nonempty (l !! "ggid_user_name") with
  | Some s, _ => s
  | None, Some s => s
  | None, None => "User"
  end.

Definition sign_out_keys : list string :=
  ["ggid_access_token"; "ggid_refresh_token"; "ggid_session_id"; "ggid_tenant_id"; "ggid_user_id";
   "ggid_user_name"; "ggid_user_email"; "ggid_user_scopes"; "ggid_user_permissions"; "ggid_redirect_after_login"].

Definition sign_out : prog sidebar_state unit :=
  remove_all sign_out_keys;;
  emit "location.replace" (JStr "/login").

(** What may happen to the component: it is mounted once, at the start. *)
Inductive sidebar_spawn API TENANT (w : world sidebar_state) : prog sidebar_state unit -> Prop :=
| spawn_mount : w_trace w = [] -> sidebar_spawn API TENANT w (sidebar_mount API TENANT)
| spawn_timer i : sidebar_spawn API TENANT w (health_timer API TENANT i)
| spawn_unmount : sidebar_spawn API TENANT w sidebar_unmount
| spawn_search v : sidebar_spawn API TENANT w (upd (setSearch v))
| spawn_mobile v : sidebar_spawn API TENANT w (upd (setMobileOpen v))
| spawn_toggle label : sidebar_spawn API TENANT w (toggleGroup (collapsedGroups (w_st w)) label)
| spawn_sign_out : sidebar_spawn API TENANT w sign_out.

(** ** Polling *)

Section Polling.
Context (API TENANT : string).

(** What each update of the component keeps. *)
Record kept (P : sidebar_state -> Prop) : Prop := Kept {
  kept_health h s : P s -> P (setHealth h s);
  kept_reconnecting s : P s -> P (setReconnecting true s);
  kept_clear s : P s -> P (clear_interval s);
  kept_set s : P s -> P (set_interval (clear_interval s));
  kept_fired i s : P s -> P (fired i s);
  kept_search v s : P s -> P (setSearch v s);
  kept_mobile v s : P s -> P (setMobileOpen v s);
  kept_groups v s : P s -> P (setCollapsedGroups v s)
}.

Lemma tame_check (P : sidebar_state -> Prop) :
  kept P -> tame P (fun _ => True) (doHealthCheck API TENANT first_closure).
Proof.
  intros K. unfold doHealthCheck, checkApiHealthDetailed, scheduleNext, first_closure, now. cbn [reconnecting sidebar_init].
  apply tame_bind; [|intros result; rewrite andb_false_r]; tame_prog; try (by repeat split);
    apply tame_upd; intros; by apply K.
Qed.

Lemma tame_sidebar (P : sidebar_state -> Prop) w p :
  kept P -> sidebar_spawn API TENANT w p -> tame P (fun _ => True) p.
Proof.
  intros K [?|i| |v|v|label|]; try (apply tame_upd; intros; by apply K).
  - by apply tame_check.
  - unfold health_timer, get_state. tame_prog; [by repeat split|apply tame_upd; intros; by apply K|by apply tame_check].
  - unfold sign_out. tame_prog; by repeat split.
Qed.

(** What every update keeps holds in every reachable state. *)
Lemma kept_reachable (P : sidebar_state -> Prop) (e : env) answers s0 l c :
  kept P -> P s0 -> reachable e (sidebar_spawn API TENANT) answers (page s0 l) c -> P (w_st c.1).
Proof.
  intros K H0 Hr.
  destruct (safe_reachable e (sidebar_spawn API TENANT) answers (tame_inv P (fun _ => True)) (page s0 l) c)
    as [[H _] _]; [|intros w p Hw Hp; apply tame_safe; [by eapply tame_sidebar|done]|done|done].
  split; [done|]. by apply Forall_true.
Qed.

(** At most one timer is armed, and it is the one the component can clear. *)
Lemma one_health_timer (e : env) answers l c i :
  reachable e (sidebar_spawn API TENANT) answers (page sidebar_init l) c ->
  i ∈ armed (w_st c.1) -> intervalRef (w_st c.1) = Some i.
Proof.
  intros Hr. apply (kept_reachable (fun s => forall i, i ∈ armed s -> intervalRef s = Some i)) with (3 := Hr);
    [|by intros j ?%elem_of_empty].
  split; cbn; try done; intros; destruct (intervalRef s) eqn:E; set_solver.
Qed.

(** Once the gateway was found offline the sign keeps spinning, although later checks find
    the gateway online and the text beside it says so. *)
Lemma spins_for_ever (e : env) answers s0 l c :
  reconnecting s0 = true -> reachable e (sidebar_spawn API TENANT) answers (page s0 l) c ->
  health_icon (w_st c.1) = Spinning.
Proof.
  intros H0 Hr. unfold health_icon.
  by rewrite (kept_reachable (fun s => reconnecting s = true) e answers s0 l c) by (done || by split).
Qed.

Lemma run_check (e : env) w :
  exists w' result, run e (doHealthCheck API TENANT first_closure) w = (Done tt, w')
  /\ health (w_st w') = Some result
  /\ reconnecting (w_st w') = reconnecting (w_st w) || negb (online result)
  /\ (exists i, intervalRef (w_st w') = Some i /\ i ∈ armed (w_st w')).
Proof.
  unfold doHealthCheck, checkApiHealthDetailed, scheduleNext, first_closure. cbn [reconnecting sidebar_init]. run_steps.
  destruct (server e _ _) as [r|]; run_steps; [destruct (rs_ok r)|]; cbn [online andb]; run_steps;
    do 2 eexists; (split; [reflexivity|]); autorewrite with world; cbn;
    (split; [reflexivity|]); cbn; rewrite ?orb_true_r, ?orb_false_r; (split; [done|]); eexists; (split; [done|]); set_solver.
Qed.
End Polling.

(** A sidebar that is gone while its check is in flight goes on polling. *)
Lemma polls_after_unmount API TENANT (e : env) :
  exists w k, sync e (sidebar_mount API TENANT) (page sidebar_init ∅)
    = (Act (OFetch (Request GET (API +:+ "/healthz") [("X-Tenant-ID", TENANT)] None)) k, w)
  /\ let w1 := (run e sidebar_unmount w).2 in
     armed (w_st w1) = ∅ /\ forall r, armed (w_st (run e (k r) w1).2) = {[0]}.
Proof.
  do 2 eexists. split; [reflexivity|]. split; [done|]. intros [r|]; cbn; [|done].
  by destruct (rs_ok r).
Qed.

(** ** Groups *)

Lemma toggle_twice s label :
  let s1 := setCollapsedGroups (if bool_decide (label ∈ collapsedGroups s)
              then collapsedGroups s ∖ {[label]} else collapsedGroups s ∪ {[label]}) s in
  isGroupCollapsed s1 label = (if String.eqb (trim (search s)) "" then negb (isGroupCollapsed s label) else false).
Proof.
  unfold isGroupCollapsed. cbn. destruct (String.eqb _ _); [|done].
  destruct (decide (label ∈ collapsedGroups s)) as [H|H];
    [rewrite (bool_decide_true _ H)|rewrite (bool_decide_false _ H)]; cbn; [apply bool_decide_false|apply bool_decide_true]; set_solver.
Qed.

(** While something is searched for, all that is found is drawn, whatever is collapsed. *)
Lemma search_expands s groups :
  trim (search s) <> "" ->
  drawn s groups = map (fun g => (group_label g, items g)) (filtered (search s) groups).
Proof. intros H. unfold drawn, isGroupCollapsed. by rewrite eqb_str_false. Qed.

(** On the page of a link that link alone is marked, though the marking is by prefix. *)
Lemma one_link_active path :
  In path (map href (concat (map items navGroups))) ->
  map href (List.filter (item_active path) (concat (map items navGroups))) = [path].
Proof.
  intros H. assert (forallb (fun p => bool_decide (map href (List.filter (item_active p) (concat (map items navGroups))) = [p]))
    (map href (concat (map items navGroups))) = true) as Hall by (vm_compute; reflexivity).
  rewrite forallb_forall in Hall. apply Hall, bool_decide_eq_true in H. exact H.
Qed.

(** ** Signing out *)

(** Signing out removes the keys of the session, and no request tells the server. *)
Lemma run_sign_out (e : env) w :
  exists w', run e sign_out w = (Done tt, w')
  /\ w_trace w' = ObsEmit "location.replace" (JStr "/login") :: w_trace w
  /\ (forall k, In k sign_out_keys -> w_local w' !! k = None)
  /\ (forall k, ~ In k sign_out_keys -> w_local w' !! k = w_local w !! k).
Proof.
  unfold sign_out. run_steps. eexists. split; [done|]. autorewrite with world. split_and!; [done| |]; intros k Hk.
  - by apply lookup_foldr_delete, in_rev.
  - apply lookup_foldr_delete_ne. by rewrite <- in_rev.
Qed.

Lemma sign_out_covers_session k : In k session_keys -> In k sign_out_keys.
Proof. intros H. repeat destruct H as [<-|H]; cbn; tauto. Qed.

(** An impersonation outlives the session of the administrator who started it: the banner
    shows it to whoever signs in next. *)
Lemma impersonation_survives_sign_out (e e' : env) w :
  w_st (run e' banner_mount (page banner_init (w_local (run e sign_out w).2))).2
  = w_st (run e' banner_mount (page banner_init (w_local w))).2.
Proof.
  destruct (run_sign_out e w) as (w' & -> & _ & _ & H). unfold banner_mount. rewrite !run_mbind, !run_getItem.
  cbn [snd w_area page w_local]. rewrite H by (cbn; intuition discriminate).
  destruct (_ ≫= _) as [imp|]; [|done]. by destruct (_ && _).
Qed.
