(* ===== verification/Resources.v ===== *)
(** * Hooks of one resource (sdk/react/src/use*.ts)

    More than a hundred hooks of the React SDK are one text around another address: a value,
    a loading flag and an error; a request that replaces the value, and for settings a
    request that changes them.  They differ in the address, in how the answer is read, in
    whether a failure clears the value and in what an accepted change leaves in the state.
    A [RestHook] is these differences; the operations are written once.  [baseUrl] is the
    hook's argument. *)

From S2P Require Import Prelude JsValue JsString Json Effects ApiClient.

Record resource := ResourceState { r_value : js; r_loading : bool; r_error : option string }.

Definition setValue (v : js) : prog resource unit := upd (fun s => ResourceState v (r_loading s) (r_error s)).
Definition setLoading (b : bool) : prog resource unit := upd (fun s => ResourceState (r_value s) b (r_error s)).
Definition setError (m : option string) : prog resource unit := upd (fun s => ResourceState (r_value s) (r_loading s) m).

(** How an answer is read: as it is, or [data.k || data || []]. *)
Inductive reading := Whole | Field (k : string).

(** What an accepted change leaves in the state and returns: the answer, or what was sent
    and [true].  A failed one returns [null] or [false]. *)
Inductive update_kind := Answered | Sent.

Record rest_update := Update { u_method : method; u_path : string; u_kind : update_kind }.

(** [clears]: a failed request sets the value to [null]. *)
Record rest_hook := RestHook {
  path : string; read : reading; clears : bool; update : option rest_update }.

Definition resource_init (h : rest_hook) : resource :=
  ResourceState (match read h with Whole => JNull | Field _ => JArr [] end) false None.

Section Operations.
Context (baseUrl : string).

Definition read_answer (r : reading) (data : js) : prog resource js :=
  match r with
  | Whole => mret data
  | Field k => v ← get data k; mret (js_or_list [v; data] (JArr []))
  end.

Definition http_error (res : response) : exn := error ("HTTP " +:+ string_of_Z (rs_status res)).

(** The frame of every operation. *)
Definition guarded {A} (d : A) (clears : bool) (p : prog resource A) : prog resource A :=
  setLoading true;;
  setError None;;
  finally (try_catch p (fun e =>
      setError (Some (e_message e));;
      (if clears then setValue JNull else mret tt);;
      mret d))
    (setLoading false).

Definition fetch_request (h : rest_hook) : request := Request GET (baseUrl +:+ path h) [] None.

(** [fetchConfig], [fetchHealth], ... *)
Definition fetch_resource (h : rest_hook) : prog resource unit :=
  guarded tt (clears h) (
    res ← fetch (fetch_request h);
    if negb (rs_ok res) then Throw (http_error res)
    else
      data ← resp_json res;
      v ← read_answer (read h) data;
      setValue v).

Definition update_request (u : rest_update) (arg : js) : request :=
  Request (u_method u) (baseUrl +:+ u_path u) [("Content-Type", "application/json")] (Some (stringify arg)).

(** [updateConfig], [saveConfig]. *)
Definition update_resource (u : rest_update) (arg : js) : prog resource js :=
  guarded (match u_kind u with Answered => JNull | Sent => JBool false end) false (
    res ← fetch (update_request u arg);
    if negb (rs_ok res) then Throw (http_error res)
    else
      match u_kind u with
      | Answered => data ← resp_json res; setValue data;; mret data
      | Sent => setValue arg;; mret (JBool true)
      end).
End Operations.

(** ** The hooks *)

(** A setting whose accepted change is the server's answer, or what was sent; a report; a list
    that may come wrapped. *)
Definition setting (p : string) : rest_hook := RestHook p Whole false (Some (Update PUT p Answered)).
Definition setting_sent (p : string) : rest_hook := RestHook p Whole false (Some (Update PUT p Sent)).
Definition report (p : string) : rest_hook := RestHook p Whole false None.
Definition report_cleared (p : string) : rest_hook := RestHook p Whole true None.
Definition listing (p k : string) : rest_hook := RestHook p (Field k) false None.

Definition useAbacConditionConfig : rest_hook := setting "/api/v1/settings/abac-condition-config".
Definition useAccessRequestLifecycleConfig : rest_hook := setting
  "/api/v1/settings/access-request-lifecycle-config".
Definition useAdaptiveAuthDesign : rest_hook := setting "/api/v1/settings/adaptive-auth-design".
Definition useAgentIdentityDelegationConfig : rest_hook := setting
  "/api/v1/settings/agent-identity-delegation-config".
Definition useAuditExportScheduleConfig : rest_hook := setting
  "/api/v1/settings/audit-export-schedule-config".
Definition useAuditQueryOptimizationConfig : rest_hook := setting
  "/api/v1/settings/audit-query-optimization-config".
Definition useAuditTamperDetectionConfig : rest_hook := setting
  "/api/v1/settings/audit-tamper-detection-config".
Definition useAuthMtlsConfig : rest_hook := setting "/api/v1/settings/auth-mtls-config".
Definition useCanaryDeploymentConfig : rest_hook := setting "/api/v1/settings/canary-deployment-config".
Definition useComplianceAutomationConfig : rest_hook := setting
  "/api/v1/settings/compliance-automation-config".
Definition useConnectionPoolTuning : rest_hook := setting "/api/v1/settings/connection-pool-tuning".
Definition useCorsConfig : rest_hook := setting "/api/v1/settings/cors-config".
Definition useDataSovereigntyConfig : rest_hook := setting "/api/v1/settings/data-sovereignty-config".
Definition useDatabaseMigrationConfig : rest_hook := setting
  "/api/v1/settings/database-migration-config".
Definition useDeviceAuthorizationFlowConfig : rest_hook := setting
  "/api/v1/settings/device-authorization-flow-config".
Definition useDistributedTracingConfig : rest_hook := setting
  "/api/v1/settings/distributed-tracing-config".
Definition useEventDrivenAuditConfig : rest_hook := setting
  "/api/v1/settings/event-driven-audit-config".
Definition useFeatureFlagArchitectureConfig : rest_hook := setting
  "/api/v1/settings/feature-flag-architecture-config".
Definition useFederationPatternsConfig : rest_hook := setting
  "/api/v1/settings/federation-patterns-config".
Definition useHealthCheckDesignConfig : rest_hook := setting
  "/api/v1/settings/health-check-design-config".
Definition useIdentityAttributeSchemaConfig : rest_hook := setting
  "/api/v1/settings/identity-attribute-schema-config".
Definition useIdentityProofingConfig : rest_hook := setting "/api/v1/settings/identity-proofing-config".
Definition useIdentityRecoveryConfig : rest_hook := setting "/api/v1/settings/identity-recovery-config".
Definition useIdentityTokenPrefetchConfig : rest_hook := setting
  "/api/v1/settings/identity-token-prefetch-config".
Definition useJwtClaimValidationConfig : rest_hook := setting
  "/api/v1/settings/jwt-claim-validation-config".
Definition useLdapDirectoryConfig : rest_hook := setting "/api/v1/settings/ldap-directory-config".
Definition useLogAggregationConfig : rest_hook := setting "/api/v1/settings/log-aggregation-config".
Definition useOAuth21ComplianceChecker : rest_hook := setting
  "/api/v1/settings/oauth-2-1-compliance-checker".
Definition useOAuthBackpressureConfig : rest_hook := setting
  "/api/v1/settings/oauth-backpressure-config".
Definition useOAuthClientMigrationConfig : rest_hook := setting
  "/api/v1/settings/oauth-client-migration-config".
Definition useOAuthErrorCatalogConfig : rest_hook := setting
  "/api/v1/settings/oauth-error-catalog-config".
Definition useOAuthIntrospectionCacheConfig : rest_hook := setting
  "/api/v1/settings/oauth-introspection-cache-config".
Definition useOAuthScopeConsentMatrixConfig : rest_hook := setting
  "/api/v1/settings/oauth-scope-consent-matrix-config".
Definition useOAuthScopeTieringConfig : rest_hook := setting
  "/api/v1/settings/oauth-scope-tiering-config".
Definition useOAuthStateManagementConfig : rest_hook := setting
  "/api/v1/settings/oauth-state-management-config".
Definition useOAuthTokenExchangeConfig : rest_hook := setting
  "/api/v1/settings/oauth-token-exchange-config".
Definition useOauthConsentFlowConfig : rest_hook := setting
  "/api/v1/settings/oauth-consent-flow-config".
Definition usePkceDeepDiveConfig : rest_hook := setting "/api/v1/settings/pkce-deep-dive-config".
Definition usePolicyBreakGlassConfig : rest_hook := setting
  "/api/v1/settings/policy-break-glass-config".
Definition usePolicyDryRunConfig : rest_hook := setting "/api/v1/settings/policy-dry-run-config".
Definition usePolicyEvaluationEngineConfig : rest_hook := setting
  "/api/v1/settings/policy-evaluation-engine-config".
Definition usePolicyHotReloadConfig : rest_hook := setting "/api/v1/settings/policy-hot-reload-config".
Definition usePostQuantumMigrationConfig : rest_hook := setting
  "/api/v1/settings/post-quantum-migration-config".
Definition useRbacDesignConfig : rest_hook := setting "/api/v1/settings/rbac-design-config".
Definition useRefreshTokenRotationConfig : rest_hook := setting
  "/api/v1/settings/refresh-token-rotation-config".
Definition useSamlMetadataManagement : rest_hook := setting "/api/v1/settings/saml-metadata-management".
Definition useSamlSpConfig : rest_hook := setting "/api/v1/settings/saml-sp-config".
Definition useSecretSprawlPreventionConfig : rest_hook := setting
  "/api/v1/settings/secret-sprawl-prevention-config".
Definition useServiceMeshConfig : rest_hook := setting "/api/v1/settings/service-mesh-config".
Definition useSessionClusteringConfig : rest_hook := setting
  "/api/v1/settings/session-clustering-config".
Definition useTenantProvisioningConfig : rest_hook := setting
  "/api/v1/settings/tenant-provisioning-config".
Definition useTokenBindingComparison : rest_hook := setting "/api/v1/settings/token-binding-comparison".
Definition useTokenIntrospectionDesign : rest_hook := setting
  "/api/v1/settings/token-introspection-design".
Definition useUserLifecycleConfig : rest_hook := setting "/api/v1/settings/user-lifecycle-config".
Definition useUserProvisioningPipelineConfig : rest_hook := setting
  "/api/v1/settings/user-provisioning-pipeline-config".
Definition useWebauthnRecoveryConfig : rest_hook := setting "/api/v1/settings/webauthn-recovery-config".
Definition useWebauthnServerConfig : rest_hook := setting "/api/v1/settings/webauthn-server-config".
Definition useZeroTrustNetworkConfig : rest_hook := setting
  "/api/v1/settings/zero-trust-network-config".
Definition useCibaConfig : rest_hook := setting "/api/v1/settings/ciba-config".
Definition useJarConfig : rest_hook := setting "/api/v1/settings/jar-config".
Definition useOidcFederationConfig : rest_hook := setting "/api/v1/settings/oidc-federation-config".
Definition useSessionBindingConfig : rest_hook := setting "/api/v1/settings/session-binding-config".
Definition useAdminSettings : rest_hook := setting_sent "/api/v1/admin/settings".
Definition useApiGatewayConfig : rest_hook := setting_sent "/api/v1/admin/gateway-config".
Definition useBruteForceConfig : rest_hook := setting_sent "/api/v1/auth/brute-force-config".
Definition useMfaChallengeConfig : rest_hook := setting_sent "/api/v1/auth/mfa-challenge-config".
Definition useOauthConsentFlow : rest_hook := setting_sent "/api/v1/oauth/consent-flow-config".
Definition useParConfig : rest_hook := setting_sent "/api/v1/oauth/par-config".
Definition usePasswordPolicyConfig : rest_hook := setting_sent "/api/v1/auth/password-policy-config".
Definition usePkceEnforcement : rest_hook := setting_sent "/api/v1/oauth/pkce-enforcement".
Definition useRiskScoringConfig : rest_hook := setting_sent "/api/v1/auth/risk-scoring-config".
Definition useSessionTimeoutConfig : rest_hook := setting_sent "/api/v1/auth/session-timeout-config".
Definition useAnomalyScoring : rest_hook := report "/api/v1/auth/anomaly-scoring".
Definition useAuthorizeFlowAnalytics : rest_hook := report "/api/v1/oauth/authorize-flow-analytics".
Definition useBackchannelLogoutStats : rest_hook := report "/api/v1/auth/backchannel-logout-stats".
Definition useBudgetTracking : rest_hook := report "/api/v1/identity/budget-tracking".
Definition useCostCenters : rest_hook := report "/api/v1/identity/cost-centers".
Definition useCoverageMatrix : rest_hook := report "/api/v1/policy/coverage-matrix".
Definition useCredentialStuffingStats : rest_hook := report "/api/v1/auth/credential-stuffing-stats".
Definition useDatabaseHealth : rest_hook := report "/api/v1/admin/database-health".
Definition useDevicePosture : rest_hook := report "/api/v1/identity/device-posture".
Definition useForensicsTimeline : rest_hook := report "/api/v1/audit/forensics-timeline".
Definition useFrameworkCoverage : rest_hook := report "/api/v1/audit/framework-coverage".
Definition useGrantTypeStats : rest_hook := report "/api/v1/oauth/grant-type-stats".
Definition useIntrospectionStats : rest_hook := report "/api/v1/oauth/introspection-stats".
Definition useJoinerFlowDashboard : rest_hook := report "/api/v1/identity/joiner-dashboard".
Definition useLoginPatterns : rest_hook := report "/api/v1/audit/login-patterns".
Definition useMFAEnrollmentStats : rest_hook := report "/api/v1/auth/mfa-enrollment-stats".
Definition useNatsJetstream : rest_hook := report "/api/v1/admin/nats-health".
Definition useOAuthHealthCheck : rest_hook := report "/api/v1/oauth/health-check".
Definition useOAuthScopeConsentMatrix : rest_hook := report "/api/v1/oauth/scope-consent-matrix".
Definition usePasswordlessStats : rest_hook := report "/api/v1/auth/passwordless-stats".
Definition useReportingStructure : rest_hook := report "/api/v1/identity/reporting-structure".
Definition useRiskPostureDashboard : rest_hook := report "/api/v1/audit/risk-posture".
Definition useRiskQuantification : rest_hook := report "/api/v1/audit/risk-quantification".
Definition useRolePermissionMatrix : rest_hook := report "/api/v1/policy/role-permission-matrix".
Definition useSamlSpHealth : rest_hook := report "/api/v1/oauth/saml-sp-health".
Definition useScimProvisioning : rest_hook := report "/api/v1/identity/scim-provisioning".
Definition useScimSyncHealth : rest_hook := report "/api/v1/identity/scim-sync-health".
Definition useSessionAnalytics : rest_hook := report "/api/v1/auth/session-analytics".
Definition useSessionGeoStats : rest_hook := report "/api/v1/audit/session-geo-stats".
Definition useTeamInsights : rest_hook := report "/api/v1/identity/team-insights".
Definition useTokenBindingStats : rest_hook := report "/api/v1/oauth/token-binding-stats".
Definition useTokenLifecycleDashboard : rest_hook := report "/api/v1/oauth/token-lifecycle".
Definition useTokenRevocationStats : rest_hook := report "/api/v1/oauth/token-revocation-stats".
Definition useDirectorySnapshot : rest_hook := report_cleared "/api/v1/identity/directory-snapshot".
Definition usePasswordStrength : rest_hook := report_cleared "/api/v1/auth/password-strength".
Definition useTokenLifetime : rest_hook := report_cleared "/api/v1/oauth/token-lifetime".
Definition useAttributeGovernance : rest_hook := listing "/api/v1/identity/attribute-governance"
  "attributes".
Definition useClientHealth : rest_hook := listing "/api/v1/oauth/client-health" "clients".
Definition useConsentHistory : rest_hook := listing "/api/v1/oauth/consent-history" "entries".
Definition useDepartmentAnalytics : rest_hook := listing "/api/v1/org/department-analytics"
  "departments".
Definition useGrantHistory : rest_hook := listing "/api/v1/oauth/grant-history" "events".
Definition useGroupAnalytics : rest_hook := listing "/api/v1/org/group-analytics" "groups".
Definition usePolicyConflicts : rest_hook := listing "/api/v1/policy/conflicts" "conflicts".
Definition usePolicyDecisionLog : rest_hook := listing "/api/v1/policy/decision-log" "decisions".
Definition useSIEMHealth : rest_hook := listing "/api/v1/audit/siem-health" "destinations".
Definition useScopeLifecycle : rest_hook := listing "/api/v1/oauth/scope-lifecycle" "requests".
Definition useTokenReuse : rest_hook := listing "/api/v1/auth/token-reuse" "reuses".
Definition useVendorManagement : rest_hook := listing "/api/v1/identity/vendors" "vendors".
Definition useCacheHealth : rest_hook := listing "/api/v1/admin/cache-health" "instances".
Definition useGroupPermissionTree : rest_hook := listing "/api/v1/policy/group-permission-tree" "tree".
Definition useScimGroupMapping : rest_hook := listing "/api/v1/identity/scim-group-mapping" "mappings".

(** Hooks that read and change a setting. *)
Definition settings_hooks : list rest_hook :=
  [useAbacConditionConfig; useAccessRequestLifecycleConfig; useAdaptiveAuthDesign;
  useAgentIdentityDelegationConfig; useAuditExportScheduleConfig; useAuditQueryOptimizationConfig;
  useAuditTamperDetectionConfig; useAuthMtlsConfig; useCanaryDeploymentConfig;
  useComplianceAutomationConfig; useConnectionPoolTuning; useCorsConfig; useDataSovereigntyConfig;
  useDatabaseMigrationConfig; useDeviceAuthorizationFlowConfig; useDistributedTracingConfig;
  useEventDrivenAuditConfig; useFeatureFlagArchitectureConfig; useFederationPatternsConfig;
  useHealthCheckDesignConfig; useIdentityAttributeSchemaConfig; useIdentityProofingConfig;
  useIdentityRecoveryConfig; useIdentityTokenPrefetchConfig; useJwtClaimValidationConfig;
  useLdapDirectoryConfig; useLogAggregationConfig; useOAuth21ComplianceChecker;
  useOAuthBackpressureConfig; useOAuthClientMigrationConfig; useOAuthErrorCatalogConfig;
  useOAuthIntrospectionCacheConfig; useOAuthScopeConsentMatrixConfig; useOAuthScopeTieringConfig;
  useOAuthStateManagementConfig; useOAuthTokenExchangeConfig; useOauthConsentFlowConfig;
  usePkceDeepDiveConfig; usePolicyBreakGlassConfig; usePolicyDryRunConfig;
  usePolicyEvaluationEngineConfig; usePolicyHotReloadConfig; usePostQuantumMigrationConfig;
  useRbacDesignConfig; useRefreshTokenRotationConfig; useSamlMetadataManagement; useSamlSpConfig;
  useSecretSprawlPreventionConfig; useServiceMeshConfig; useSessionClusteringConfig;
  useTenantProvisioningConfig; useTokenBindingComparison; useTokenIntrospectionDesign;
  useUserLifecycleConfig; useUserProvisioningPipelineConfig; useWebauthnRecoveryConfig;
  useWebauthnServerConfig; useZeroTrustNetworkConfig; useCibaConfig; useJarConfig;
  useOidcFederationConfig; useSessionBindingConfig; useAdminSettings; useApiGatewayConfig;
  useBruteForceConfig; useMfaChallengeConfig; useOauthConsentFlow; useParConfig;
  usePasswordPolicyConfig; usePkceEnforcement; useRiskScoringConfig; useSessionTimeoutConfig].

(** Hooks that only read. *)
Definition report_hooks : list rest_hook :=
  [useAnomalyScoring; useAuthorizeFlowAnalytics; useBackchannelLogoutStats; useBudgetTracking;
  useCostCenters; useCoverageMatrix; useCredentialStuffingStats; useDatabaseHealth; useDevicePosture;
  useForensicsTimeline; useFrameworkCoverage; useGrantTypeStats; useIntrospectionStats;
  useJoinerFlowDashboard; useLoginPatterns; useMFAEnrollmentStats; useNatsJetstream;
  useOAuthHealthCheck; useOAuthScopeConsentMatrix; usePasswordlessStats; useReportingStructure;
  useRiskPostureDashboard; useRiskQuantification; useRolePermissionMatrix; useSamlSpHealth;
  useScimProvisioning; useScimSyncHealth; useSessionAnalytics; useSessionGeoStats; useTeamInsights;
  useTokenBindingStats; useTokenLifecycleDashboard; useTokenRevocationStats; useDirectorySnapshot;
  usePasswordStrength; useTokenLifetime; useAttributeGovernance; useClientHealth; useConsentHistory;
  useDepartmentAnalytics; useGrantHistory; useGroupAnalytics; usePolicyConflicts; usePolicyDecisionLog;
  useSIEMHealth; useScopeLifecycle; useTokenReuse; useVendorManagement; useCacheHealth;
  useGroupPermissionTree; useScimGroupMapping].

(** ** One operation *)

(** What a request for the value leaves: the value read, or the message of the failure. *)
Definition fetched (r : reading) (answer : option response) : js + string :=
  match answer with
  | None => inr (e_message network_error)
  | Some res =>
      if rs_ok res then
        match JSON_parse (rs_body res) with
        | None => inr (e_message syntax_error)
        | Some data =>
            match r with
            | Whole => inl data
            | Field k =>
                match prop data k with
                | Some v => inl (js_or_list [v; data] (JArr []))
                | None => inr ("Cannot read properties of " +:+ to_str data +:+ " (reading '" +:+ k +:+ "')")
                end
            end
        end
      else inr ("HTTP " +:+ string_of_Z (rs_status res))
  end.

Definition changed (u : rest_update) (arg : js) (answer : option response) : js + string :=
  match u_kind u, answer with
  | Sent, Some res => if rs_ok res then inl arg else inr ("HTTP " +:+ string_of_Z (rs_status res))
  | _, _ => fetched Whole answer
  end.

Section Run.
Context (e : env) (baseUrl : string).

Definition answer_of (w : world resource) (rq : request) : option response := server e (ObsFetch rq :: w_trace w) rq.

Lemma run_guarded {A} (d : A) b (p : prog resource A) w o w1 :
  run e p (set_st (fun s => ResourceState (r_value s) true None) w) = (o, w1) ->
  run e (guarded d b p) w =
  match o with
  | Done a => (Done a, set_st (fun s => ResourceState (r_value s) false (r_error s)) w1)
  | Raised x => (Done d, set_st (fun s => ResourceState (if b then JNull else r_value s) false (Some (e_message x))) w1)
  end.
Proof.
  intros H. unfold guarded, setLoading, setError, setValue. rewrite run_mbind, run_upd, run_mbind, run_upd.
  rewrite run_finally, run_try. replace (set_st _ (set_st _ w)) with (set_st (fun s => ResourceState (r_value s) true None) w)
    by by destruct w. rewrite H. destruct o as [a|x]; [by rewrite run_upd; destruct w1|].
  destruct b; run_steps; by destruct w1.
Qed.

(** Whatever is answered, a request ends normally, idle, with the value read or with the
    error shown beside the value there was (or [null], where the hook clears it). *)
Lemma fetch_outcome h w :
  exists w', run e (fetch_resource baseUrl h) w = (Done tt, w')
  /\ w_trace w' = ObsFetch (fetch_request baseUrl h) :: w_trace w
  /\ w_st w' = match fetched (read h) (answer_of w (fetch_request baseUrl h)) with
               | inl v => ResourceState v false None
               | inr m => ResourceState (if clears h then JNull else r_value (w_st w)) false (Some m)
               end.
Proof.
  unfold answer_of, fetched.
  destruct (run e (res ← fetch (fetch_request baseUrl h);
     if negb (rs_ok res) then Throw (http_error res)
     else data ← resp_json res; v ← read_answer (read h) data; setValue v)
     (set_st (fun s => ResourceState (r_value s) true None) w)) as [o w1] eqn:E.
  unfold fetch_resource. rewrite (run_guarded _ _ _ _ _ _ E). revert E. unfold read_answer, setValue, get. run_steps.
  autorewrite with world.
  destruct (server e _ _) as [res|]; run_steps; [destruct (rs_ok res); cbn [negb]; run_steps;
    [destruct (JSON_parse (rs_body res)) as [data|]; run_steps; [destruct (read h) as [|k];
      [|destruct (prop data k)]; run_steps|]|]|];
    intros [= <- <-]; (eexists; split; [reflexivity|]); autorewrite with world; by destruct (clears h).
Qed.

(** A change: the same, and what it returns. *)
Lemma update_outcome u arg w :
  exists v w', run e (update_resource baseUrl u arg) w = (Done v, w')
  /\ w_trace w' = ObsFetch (update_request baseUrl u arg) :: w_trace w
  /\ match changed u arg (answer_of w (update_request baseUrl u arg)) with
     | inl x => w_st w' = ResourceState x false None /\ v = match u_kind u with Answered => x | Sent => JBool true end
     | inr m => w_st w' = ResourceState (r_value (w_st w)) false (Some m)
                /\ v = match u_kind u with Answered => JNull | Sent => JBool false end
     end.
Proof.
  unfold answer_of, changed, fetched.
  destruct (run e (res ← fetch (update_request baseUrl u arg);
     if negb (rs_ok res) then Throw (http_error res)
     else match u_kind u with
          | Answered => data ← resp_json res; setValue data;; mret data
          | Sent => setValue arg;; mret (JBool true)
          end) (set_st (fun s => ResourceState (r_value s) true None) w)) as [o w1] eqn:E.
  unfold update_resource. rewrite (run_guarded _ _ _ _ _ _ E). revert E. unfold setValue. run_steps. autorewrite with world.
  destruct (u_kind u), (server e _ _) as [res|]; run_steps; try (destruct (rs_ok res); cbn [negb]; run_steps);
    try (destruct (JSON_parse (rs_body res)) as [data|]; run_steps);
    intros [= <- <-]; do 2 eexists; (split; [reflexivity|]); by autorewrite with world.
Qed.
End Run.

(** ** Operations in flight together *)

Inductive resource_spawn baseUrl h (w : world resource) : prog resource unit -> Prop :=
| spawn_fetch : resource_spawn baseUrl h w (fetch_resource baseUrl h)
| spawn_update u arg : update h = Some u -> resource_spawn baseUrl h w (update_resource baseUrl u arg;; mret tt).

Definition idle (w : world resource) : Prop := r_loading (w_st w) = false.

Lemma guarded_ends {A} answers (d : A) b p w : ends answers idle (guarded d b p) w.
Proof.
  unfold guarded. intros r w1 ->. intros r2 w2 ->. apply ends_finally. clear.
  intros w u w1 H. cbn in H. subst w1. by destruct w.
Qed.

Lemma spawn_ends answers baseUrl h w p : resource_spawn baseUrl h w p -> ends answers idle p w.
Proof.
  intros [|u arg _]; [apply guarded_ends|]. apply ends_then; [done|]. apply guarded_ends.
Qed.

(** A fetch that was sent before a change and answered after it puts the old value back: the
    page shows what the server no longer has. *)
Lemma stale_fetch_wins (e : env) baseUrl h w :
  read h = Whole ->
  exists w' k, sync e (fetch_resource baseUrl h) w = (Act (OFetch (fetch_request baseUrl h)) k, w')
  /\ forall old data w1, rs_ok old = true -> JSON_parse (rs_body old) = Some data ->
     r_value (w_st (run e (k (Some old)) w1).2) = data.
Proof.
  intros Hw. do 2 eexists. split; [reflexivity|]. intros old data w1 Hok Hj.
  cbn. rewrite Hok. cbn. rewrite Hj. cbn. rewrite Hw. cbn. by destruct w1.
Qed.

(** The settings hooks write where they read, no two of them the same setting, and no two
    hooks of this file read the same address. *)
Lemma settings_apart :
  NoDup (map path (settings_hooks ++ report_hooks))
  /\ Forall (fun h => exists u, update h = Some u /\ u_path u = path h /\ u_method u = PUT) settings_hooks
  /\ Forall (fun h => update h = None) report_hooks.
Proof.
  split; [by apply (bool_decide_unpack _); vm_compute|].
  split; repeat (constructor; [eauto|]); constructor.
Qed.

(** No request of these hooks carries a credential. *)
Lemma no_credentials baseUrl h u arg :
  hget "Authorization" (rq_headers (fetch_request baseUrl h)) = None
  /\ hget "Authorization" (rq_headers (update_request baseUrl u arg)) = None.
Proof. done. Qed.

(** ** Properties *)

(** C32. The loading flag of a resource hook tells the truth in the end: however fetches and
    changes of one hook overlap, and in whatever order and with whatever their requests are
    answered, once none is in flight the hook is not loading. *)
Theorem rest_calls_settle baseUrl h (e : env) answers l c :
  reachable e (resource_spawn baseUrl h) answers (page (resource_init h) l) c ->
  Forall finished c.2 -> r_loading (w_st c.1) = false.
Proof.
  intros Hr. apply (quiescent e (resource_spawn baseUrl h) answers idle (page (resource_init h) l)); [done| |done].
  intros w p. apply spawn_ends.
Qed.

(** ** Witnesses *)

(** Two operations overlap; the change is accepted, the fetch refused. *)
Lemma demo_overlap :
  exists c, reachable (const_env None 0) (resource_spawn "" useAdminSettings) (fun _ _ _ => True)
              (page (resource_init useAdminSettings) ∅) c
  /\ Forall finished c.2 /\ length c.2 = 2%nat /\ r_value (w_st c.1) = JStr "new".
Proof.
  set (e := const_env None 0). set (any := fun (R : Type) (_ : op resource R) (_ : R) => True).
  set (calls := resource_spawn "" useAdminSettings).
  pose proof (reach_init e calls any (page (resource_init useAdminSettings) ∅)) as H.
  apply (reach_spawn e calls any) with (p := fetch_resource "" useAdminSettings) in H; [|apply spawn_fetch].
  apply (reach_spawn e calls any) with
    (p := update_resource "" (Update PUT "/api/v1/admin/settings" Sent) (JStr "new");; mret tt) in H;
    [|by apply spawn_update].
  eapply (reach_answer e calls any) with (i := 1%nat) (r := Some (Response 200 "")) in H; [|reflexivity|exact I].
  eapply (reach_answer e calls any) with (i := 0%nat) (r := Some (Response 403 "no")) in H; [|reflexivity|exact I].
  eexists. split; [exact H|]. split; [by apply Forall_cons; split; [|apply Forall_singleton]|]. by split.
Qed.

Lemma rest_calls_settle_witness :
  exists c : config resource, Forall finished c.2 /\ length c.2 = 2%nat /\ r_value (w_st c.1) = JStr "new" /\ r_loading (w_st c.1) = false.
Proof.
  destruct demo_overlap as (c & Hr & Hf & Hl & Hv). exists c. split; [exact Hf|]. split; [exact Hl|]. split; [exact Hv|].
  exact (rest_calls_settle "" useAdminSettings (const_env None 0) (fun _ _ _ => True) ∅ c Hr Hf).
Defined.
