(* ===== verification/DemoHooks.v ===== *)
(** * Hooks with sample data (sdk/react/src/use*.ts)

    About 150 hooks of the React SDK ask the server for their data and, where it does not
    answer, show a sample instead.  They are one text around different samples; the forty
    with the smallest ones are translated here.  The text of the second [catch] is for thrown
    values that are no errors, which do not occur. *)

From S2P Require Import Prelude JsValue JsString Json Effects.

Record demo_state := Demo { d_data : js; isDemoData : bool; d_loading : bool; d_error : option string }.

Definition demo_init : demo_state := Demo JNull true true None.

Definition setData (v : js) : prog demo_state unit :=
  upd (fun s => Demo v (isDemoData s) (d_loading s) (d_error s)).
Definition setIsDemoData (b : bool) : prog demo_state unit :=
  upd (fun s => Demo (d_data s) b (d_loading s) (d_error s)).
Definition setLoading (b : bool) : prog demo_state unit :=
  upd (fun s => Demo (d_data s) (isDemoData s) b (d_error s)).
Definition setError (m : option string) : prog demo_state unit :=
  upd (fun s => Demo (d_data s) (isDemoData s) (d_loading s) m).

Definition demo_request : request :=
  Request GET "/api/v1/data" [("Content-Type", "application/json")] None.

(** [fetchData], run after the first render and by [refresh]. *)
Definition fetchData (sample : js) : prog demo_state unit :=
  setLoading true;;
  setError None;;
  finally (try_catch (
      res ← try_catch (r ← fetch demo_request; mret (Some r)) (fun _ => mret None);
      match res with
      | Some r =>
          if rs_ok r then d ← resp_json r; setData d;; setIsDemoData false
          else setIsDemoData true;; setData sample
      | None => setIsDemoData true;; setData sample
      end)
      (fun e => setError (Some (e_message e))))
    (setLoading false).

(** ** The samples *)

Definition useAdaptiveAuthConfig : js := JObj [("risk_thresholds", JArr [JObj [("level", JStr "low");
  ("score_range", JStr "0-30"); ("required_factor", JStr "password")]; JObj [("level", JStr "medium");
  ("score_range", JStr "31-60"); ("required_factor", JStr "password + OTP")]; JObj [("level", JStr
  "high"); ("score_range", JStr "61-85"); ("required_factor", JStr "password + WebAuthn")]; JObj
  [("level", JStr "critical"); ("score_range", JStr "86-100"); ("required_factor", JStr "deny")]]);
  ("signal_weights", JArr [JObj [("signal", JStr "geo_anomaly"); ("weight", JNum 30)]; JObj [("signal",
  JStr "device_trust"); ("weight", JNum 25)]; JObj [("signal", JStr "time_of_day"); ("weight", JNum 15)];
  JObj [("signal", JStr "ip_reputation"); ("weight", JNum 20)]; JObj [("signal", JStr "frequency");
  ("weight", JNum 10)]]); ("step_up_triggers", JArr [JStr "sensitive_action:delete_user"; JStr
  "policy_change:modify_rbac"; JStr "admin_access:panel"; JStr "data_export:bulk_pii"]);
  ("role_overrides", JArr [JObj [("role", JStr "admin"); ("min_factor", JStr "webauthn")]; JObj [("role",
  JStr "developer"); ("min_factor", JStr "totp")]; JObj [("role", JStr "user"); ("min_factor", JStr
  "password")]])].
Definition useAuditEventCorrelation : js := JObj [("engine_status", JStr "running");
  ("correlated_incidents", JArr [JObj [("id", JStr "ci-001"); ("title", JStr "Brute Force Pattern");
  ("description", JStr "12 failed logins from 203.0.113.50 targeting 4 users"); ("severity", JStr
  "critical"); ("event_count", JNum 12); ("correlation_key", JStr "source_ip"); ("timestamp", JStr
  "2h ago"); ("events", JArr [JStr "auth.login.failed x8"; JStr "auth.login.failed x4"])]; JObj [("id",
  JStr "ci-002"); ("title", JStr "Token Reuse"); ("description", JStr
  "Refresh token used from 2 different IPs"); ("severity", JStr "high"); ("event_count", JNum 3);
  ("correlation_key", JStr "token_id"); ("timestamp", JStr "5h ago"); ("events", JArr [JStr
  "oauth.token.refresh"; JStr "oauth.token.refresh"; JStr "session.anomaly"])]]); ("correlation_rules",
  JArr [JObj [("rule", JStr "Multiple failed logins same IP"); ("window", JStr "5 min"); ("min_events",
  JNum 5); ("action", JStr "Create incident")]; JObj [("rule", JStr "Token reuse from different IPs");
  ("window", JStr "1 hour"); ("min_events", JNum 2); ("action", JStr "Alert security")]; JObj [("rule",
  JStr "Privilege escalation chain"); ("window", JStr "30 min"); ("min_events", JNum 3); ("action", JStr
  "Auto-block")]; JObj [("rule", JStr "After-hours admin access"); ("window", JStr "1 hour");
  ("min_events", JNum 1); ("action", JStr "Notify on-call")]])].
Definition useAuthBackChannelAuth : js := JObj [("enabled", JBool true); ("binding_message_config", JObj
  [("required", JBool true); ("max_length", JNum 128); ("format_pattern", JStr "^[a-zA-Z0-9 ]+$")]);
  ("max_polling_interval_seconds", JNum 10); ("requested_expiry_max_seconds", JNum 1200);
  ("token_delivery_mode", JStr "poll"); ("per_client_ciba", JArr [JObj [("client_id", JStr
  "client-banking-app"); ("delivery_mode", JStr "ping"); ("enabled", JBool true)]; JObj [("client_id",
  JStr "client-kiosk-001"); ("delivery_mode", JStr "poll"); ("enabled", JBool true)]; JObj [("client_id",
  JStr "client-mobile-002"); ("delivery_mode", JStr "push"); ("enabled", JBool false)]]); ("usage_stats",
  JObj [("ciba_requests_24h", JNum 342); ("successful_24h", JNum 298); ("rejected_24h", JNum 24);
  ("timeouts_24h", JNum 20)])].
Definition useAuthPasswordlessConfig : js := JObj [("enabled_methods", JArr [JObj [("method", JStr
  "magic_link"); ("description", JStr "Send a one-time login link to user email"); ("enabled", JBool
  true)]; JObj [("method", JStr "passkey"); ("description", JStr
  "FIDO2/WebAuthn passkeys (platform authenticators)"); ("enabled", JBool true)]; JObj [("method", JStr
  "webauthn"); ("description", JStr "WebAuthn with security keys (YubiKey, Titan, etc.)"); ("enabled",
  JBool true)]; JObj [("method", JStr "biometric"); ("description", JStr
  "Touch ID / Face ID via platform authenticator"); ("enabled", JBool false)]]);
  ("magic_link_expiry_minutes", JNum 15); ("passkey_rp_id", JStr "idp.example.com");
  ("webauthn_timeout_seconds", JNum 300); ("fallback_to_password", JBool true); ("per_role_requirement",
  JArr [JObj [("role", JStr "admin"); ("required_method", JStr "webauthn"); ("enforcement", JStr
  "required"); ("grace_period_days", JNum 0)]; JObj [("role", JStr "security_analyst");
  ("required_method", JStr "passkey"); ("enforcement", JStr "required"); ("grace_period_days", JNum 7)];
  JObj [("role", JStr "developer"); ("required_method", JStr "passkey"); ("enforcement", JStr
  "recommended"); ("grace_period_days", JNum 30)]; JObj [("role", JStr "user"); ("required_method", JStr
  "magic_link"); ("enforcement", JStr "optional"); ("grace_period_days", JNum 90)]])].
Definition useAuthSessionBinding : js := JObj [("binding_method", JStr "DPoP");
  ("per_application_binding", JArr [JObj [("app", JStr "Web Dashboard"); ("method", JStr "cookie");
  ("enforce", JBool true)]; JObj [("app", JStr "Mobile App"); ("method", JStr "DPoP"); ("enforce", JBool
  true)]; JObj [("app", JStr "API Gateway"); ("method", JStr "mTLS"); ("enforce", JBool true)]; JObj
  [("app", JStr "Service-to-Service"); ("method", JStr "bearer"); ("enforce", JBool false)]]);
  ("binding_rotation_policy", JStr "every 90 days"); ("session_hijack_protection", JBool true);
  ("cross_device_session_transfer", JObj [("enabled", JBool true); ("transfer_window_seconds", JNum 120);
  ("verification_required", JBool true); ("max_per_day", JNum 5)]); ("fallback_method", JStr "cookie")].
Definition useAuthStepUpOrchestrator : js := JObj [("step_up_flows", JArr [JObj [("trigger_action", JStr
  "sensitive_action"); ("required_factors", JArr [JStr "otp"]); ("max_attempts", JNum 3);
  ("timeout_seconds", JNum 120); ("success_rate_pct", JNum 94)]; JObj [("trigger_action", JStr
  "policy_change"); ("required_factors", JArr [JStr "webauthn"]); ("max_attempts", JNum 2);
  ("timeout_seconds", JNum 60); ("success_rate_pct", JNum 88)]; JObj [("trigger_action", JStr
  "admin_access"); ("required_factors", JArr [JStr "webauthn"; JStr "otp"]); ("max_attempts", JNum 2);
  ("timeout_seconds", JNum 90); ("success_rate_pct", JNum 91)]; JObj [("trigger_action", JStr
  "data_export"); ("required_factors", JArr [JStr "otp"]); ("max_attempts", JNum 3); ("timeout_seconds",
  JNum 180); ("success_rate_pct", JNum 96)]]); ("active_challenges", JArr [JObj [("id", JStr "ch-1");
  ("user", JStr "alice.chen"); ("challenge_type", JStr "webauthn"); ("started_at", JStr "30s ago");
  ("expires_in_seconds", JNum 30)]; JObj [("id", JStr "ch-2"); ("user", JStr "bob.martinez");
  ("challenge_type", JStr "otp"); ("started_at", JStr "1m ago"); ("expires_in_seconds", JNum 60)]]);
  ("avg_success_rate_pct", JNum 92); ("challenge_timeout_policy", JStr "expire_and_retry")].
Definition useAuthWebauthnConfig : js := JObj [("rp_id", JStr "auth.ggid.dev"); ("rp_name", JStr
  "GGID Identity Platform"); ("origin", JStr "https://auth.ggid.dev"); ("attestation_requirement", JStr
  "direct"); ("user_verification", JStr "required"); ("supported_algs", JArr [JObj [("name", JStr
  "RS256"); ("cose_id", JNum (-257))]; JObj [("name", JStr "ES256"); ("cose_id", JNum (-7))]; JObj
  [("name", JStr "EdDSA"); ("cose_id", JNum (-8))]]); ("timeout_seconds", JNum 300);
  ("per_platform_config", JArr [JObj [("platform", JStr "web"); ("authenticator_type", JStr
  "cross_platform"); ("attachment", JStr "cross_platform"); ("discoverable_credentials", JBool true)];
  JObj [("platform", JStr "ios"); ("authenticator_type", JStr "platform"); ("attachment", JStr
  "platform"); ("discoverable_credentials", JBool true)]; JObj [("platform", JStr "android");
  ("authenticator_type", JStr "platform"); ("attachment", JStr "platform"); ("discoverable_credentials",
  JBool true)]])].
Definition useCertExpiryTracker : js := JObj [("certs", JArr [JObj [("name", JStr "*.ggid.dev");
  ("type", JStr "TLS"); ("issuer", JStr "Let's Encrypt"); ("expiry_date", JStr "2026-08-10");
  ("days_remaining", JNum 29); ("auto_renewal_enabled", JBool false)]; JObj [("name", JStr
  "auth-signing-key"); ("type", JStr "JWT Signing"); ("issuer", JStr "Internal CA"); ("expiry_date", JStr
  "2026-09-15"); ("days_remaining", JNum 65); ("auto_renewal_enabled", JBool false)]; JObj [("name", JStr
  "oauth-mTLS"); ("type", JStr "mTLS"); ("issuer", JStr "Internal CA"); ("expiry_date", JStr
  "2026-07-20"); ("days_remaining", JNum 8); ("auto_renewal_enabled", JBool false)]; JObj [("name", JStr
  "saml-idp-cert"); ("type", JStr "SAML Signing"); ("issuer", JStr "DigiCert"); ("expiry_date", JStr
  "2026-12-01"); ("days_remaining", JNum 142); ("auto_renewal_enabled", JBool false)]; JObj [("name", JStr
  "gateway-tls"); ("type", JStr "TLS"); ("issuer", JStr "Let's Encrypt"); ("expiry_date", JStr
  "2026-07-14"); ("days_remaining", JNum 2); ("auto_renewal_enabled", JBool false)]; JObj [("name", JStr
  "ldap-tls"); ("type", JStr "TLS"); ("issuer", JStr "Internal CA"); ("expiry_date", JStr "2026-06-30");
  ("days_remaining", JNum (-14)); ("auto_renewal_enabled", JBool false)]]); ("alert_config", JObj
  [("first_alert_days", JNum 60); ("escalation_days", JNum 14); ("channels", JArr [JStr "email"; JStr
  "slack"; JStr "pagerduty"])])].
Definition useEmailTemplateConfig : js := JObj [("templates", JArr [JObj [("id", JStr "welcome");
  ("name", JStr "Welcome Email"); ("body_html", JStr
  "<h1>Welcome {{user_name}}!</h1><p>Your account is ready.</p>"); ("variables", JArr [JStr
  "{{user_name}}"]); ("enabled", JBool true)]; JObj [("id", JStr "password_reset"); ("name", JStr
  "Password Reset"); ("body_html", JStr
  "<h1>Reset Your Password</h1><p>Click <a href='{{reset_link}}'>here</a>.</p>"); ("variables", JArr [JStr
  "{{user_name}}"; JStr "{{reset_link}}"]); ("enabled", JBool true)]; JObj [("id", JStr "mfa_setup");
  ("name", JStr "MFA Setup"); ("body_html", JStr
  "<h1>Set Up MFA</h1><p>Scan the QR code in your app.</p>"); ("variables", JArr [JStr "{{user_name}}";
  JStr "{{qr_code}}"]); ("enabled", JBool true)]; JObj [("id", JStr "account_locked"); ("name", JStr
  "Account Locked"); ("body_html", JStr "<h1>Account Locked</h1><p>Too many failed attempts.</p>");
  ("variables", JArr [JStr "{{user_name}}"; JStr "{{unlock_link}}"]); ("enabled", JBool true)]; JObj
  [("id", JStr "access_granted"); ("name", JStr "Access Granted"); ("body_html", JStr
  "<h1>New Access</h1><p>You now have {{role}} access.</p>"); ("variables", JArr [JStr "{{user_name}}";
  JStr "{{role}}"]); ("enabled", JBool false)]])].
Definition useFraudDetection : js := JObj [("flagged_accounts", JArr [JObj [("user", JStr
  "suspicious@temp.com"); ("score", JNum 92); ("signals", JArr [JStr "new_device"; JStr "velocity_burst";
  JStr "known_bad_ip"]); ("action_taken", JStr "blocked")]; JObj [("user", JStr
  "user.account@ legit.com"); ("score", JNum 67); ("signals", JArr [JStr "device_mismatch"; JStr
  "off_hours"]); ("action_taken", JStr "challenged")]; JObj [("user", JStr "new.signup@mail.com");
  ("score", JNum 45); ("signals", JArr [JStr "velocity_warning"]); ("action_taken", JStr "flagged")]]);
  ("velocity_rules", JArr [JObj [("rule", JStr "Signups per IP / hour"); ("threshold", JNum 10);
  ("current_rate", JNum 7); ("triggered_count", JNum 3)]; JObj [("rule", JStr "Login attempts / min");
  ("threshold", JNum 5); ("current_rate", JNum 2); ("triggered_count", JNum 12)]; JObj [("rule", JStr
  "Password resets / hour"); ("threshold", JNum 3); ("current_rate", JNum 1); ("triggered_count", JNum
  5)]; JObj [("rule", JStr "Account creations / day"); ("threshold", JNum 50); ("current_rate", JNum 34);
  ("triggered_count", JNum 0)]]); ("device_fingerprint_count", JNum 15420); ("blocked_entities", JObj
  [("ips", JNum 1247); ("emails", JNum 89); ("devices", JNum 34); ("total", JNum 1370)]);
  ("score_distribution", JArr [JNum 120; JNum 80; JNum 200; JNum 150; JNum 90; JNum 45; JNum 30; JNum 15;
  JNum 8; JNum 3])].
Definition useGeoFencingConfig : js := JObj [("enabled", JBool true); ("rules", JArr [JObj [("id", JStr
  "r1"); ("country", JStr "US"); ("cidr", JStr "0.0.0.0/0"); ("action", JStr "allow"); ("label", JStr
  "Corporate VPN")]; JObj [("id", JStr "r2"); ("country", JStr "CN"); ("cidr", JStr "0.0.0.0/0");
  ("action", JStr "deny"); ("label", JStr "Blocked region")]; JObj [("id", JStr "r3"); ("country", JStr
  "RU"); ("cidr", JStr "0.0.0.0/0"); ("action", JStr "challenge"); ("label", JStr "Step-up required")]]);
  ("whitelist_ips", JArr [JStr "10.0.0.0/8"; JStr "172.16.0.0/12"; JStr "192.168.1.100"])].
Definition useIdentityDeprovisioningAutomation : js := JObj [("automation_rules", JArr [JObj
  [("trigger", JStr "last_login_days"); ("action", JStr "disable"); ("delay_hours", JNum 24); ("enabled",
  JBool true)]; JObj [("trigger", JStr "manager_request"); ("action", JStr "revoke"); ("delay_hours", JNum
  0); ("enabled", JBool true)]; JObj [("trigger", JStr "hr_system"); ("action", JStr "archive");
  ("delay_hours", JNum 72); ("enabled", JBool true)]; JObj [("trigger", JStr "contract_end"); ("action",
  JStr "revoke"); ("delay_hours", JNum 0); ("enabled", JBool true)]]); ("pending_actions", JArr [JObj
  [("user", JStr "alice.chen"); ("action", JStr "disable"); ("trigger_reason", JStr "last_login_90d");
  ("scheduled_at", JStr "in 2h")]; JObj [("user", JStr "bob.martinez"); ("action", JStr "revoke");
  ("trigger_reason", JStr "contract_end"); ("scheduled_at", JStr "in 30m")]; JObj [("user", JStr
  "carol.jones"); ("action", JStr "archive"); ("trigger_reason", JStr "hr_terminated"); ("scheduled_at",
  JStr "in 48h")]]); ("dry_run", JBool false); ("success_rate_pct", JNum 98); ("processed_7d", JNum 14)].
Definition useLockoutPolicyConfig : js := JObj [("max_failed_attempts", JNum 5);
  ("lockout_duration_minutes", JNum 15); ("progressive_backoff", JBool true); ("captcha_after", JNum 3);
  ("auto_unlock_after", JNum 30); ("current_lockouts", JArr [JObj [("username", JStr "user_js");
  ("attempts", JNum 5); ("unlock_at", JStr "12m")]]); ("per_endpoint", JArr [JObj [("endpoint", JStr
  "/auth/login"); ("threshold", JNum 5); ("lockout_min", JNum 15)]; JObj [("endpoint", JStr
  "/auth/refresh"); ("threshold", JNum 10); ("lockout_min", JNum 5)]; JObj [("endpoint", JStr "/admin/*");
  ("threshold", JNum 3); ("lockout_min", JNum 60)]])].
Definition useMitreAttackMapping : js := JObj [("techniques", JArr [JObj [("t_id", JStr "T1595.002");
  ("name", JStr "Active Scanning: Vulnerability Scanning"); ("tactic", JStr "reconnaissance");
  ("detection_status", JStr "detected")]; JObj [("t_id", JStr "T1592.004"); ("name", JStr
  "Gather Victim Host Info: Client Config"); ("tactic", JStr "reconnaissance"); ("detection_status", JStr
  "mitigated")]; JObj [("t_id", JStr "T1110.004"); ("name", JStr "Credential Stuffing"); ("tactic", JStr
  "credential_access"); ("detection_status", JStr "detected")]; JObj [("t_id", JStr "T1550.002"); ("name",
  JStr "Pass the Hash"); ("tactic", JStr "lateral_movement"); ("detection_status", JStr "detected")]; JObj
  [("t_id", JStr "T1558.001"); ("name", JStr "Golden Ticket"); ("tactic", JStr "lateral_movement");
  ("detection_status", JStr "mitigated")]; JObj [("t_id", JStr "T1528"); ("name", JStr
  "Steal Application Access Token"); ("tactic", JStr "credential_access"); ("detection_status", JStr
  "detected")]; JObj [("t_id", JStr "T1530"); ("name", JStr "Data from Cloud Storage"); ("tactic", JStr
  "exfiltration"); ("detection_status", JStr "unknown")]; JObj [("t_id", JStr "T1537"); ("name", JStr
  "Transfer Data to Cloud Account"); ("tactic", JStr "exfiltration"); ("detection_status", JStr
  "unknown")]])].
Definition useNotificationPrefConfig : js := JObj [("matrix", JArr [JObj [("event", JStr
  "security_alert"); ("event_label", JStr "Security Alert"); ("channels", JArr [JStr "email"; JStr "push";
  JStr "webhook"])]; JObj [("event", JStr "access_change"); ("event_label", JStr "Access Change");
  ("channels", JArr [JStr "email"])]; JObj [("event", JStr "mfa_event"); ("event_label", JStr
  "MFA Event"); ("channels", JArr [JStr "email"; JStr "push"])]; JObj [("event", JStr
  "compliance_deadline"); ("event_label", JStr "Compliance Deadline"); ("channels", JArr [JStr "email";
  JStr "webhook"])]]); ("quiet_hours", JObj [("start", JStr "22:00"); ("end", JStr "07:00"); ("timezone",
  JStr "Asia/Shanghai")]); ("digest_frequency", JStr "daily"); ("emergency_override", JBool true)].
Definition useOAuthCrossTenant : js := JObj [("trusted_tenants", JArr [JObj [("tenant_id", JStr
  "tenant-acme-corp"); ("trust_direction", JStr "bidirectional"); ("scopes_allowed", JArr [JStr "openid";
  JStr "profile"; JStr "email"]); ("expires_at", JStr "2025-12-31")]; JObj [("tenant_id", JStr
  "tenant-partner-org"); ("trust_direction", JStr "inbound"); ("scopes_allowed", JArr [JStr "openid"; JStr
  "profile"]); ("expires_at", JStr "2025-09-30")]; JObj [("tenant_id", JStr "tenant-vendor-co");
  ("trust_direction", JStr "outbound"); ("scopes_allowed", JArr [JStr "openid"]); ("expires_at", JStr
  "2025-06-30")]]); ("revocation_policy", JObj [("type", JStr "grace_period"); ("grace_period_hours", JNum
  24)]); ("audit_trail", JArr [JObj [("action", JStr "trust_created"); ("actor", JStr "admin@ggid.dev");
  ("timestamp", JStr "2d ago")]; JObj [("action", JStr "scope_modified"); ("actor", JStr
  "admin@ggid.dev"); ("timestamp", JStr "5d ago")]; JObj [("action", JStr "trust_revoked"); ("actor", JStr
  "security@ggid.dev"); ("timestamp", JStr "1w ago")]]); ("per_app_sharing", JArr [JObj [("app_id", JStr
  "app-dashboard"); ("app_name", JStr "Analytics Dashboard"); ("shared_with_tenant_ids", JArr [JStr
  "tenant-acme-corp"]); ("enabled", JBool true)]; JObj [("app_id", JStr "app-mobile"); ("app_name", JStr
  "Mobile App"); ("shared_with_tenant_ids", JArr []); ("enabled", JBool false)]])].
Definition useOAuthFederationMetadata : js := JObj [("federated_entities", JArr [JObj [("entity_id",
  JStr "https://idp.corp.com"); ("role", JStr "OP (OpenID Provider)"); ("metadata_url", JStr
  "https://idp.corp.com/.well-known/openid-configuration"); ("trust_status", JStr "trusted");
  ("last_refresh", JStr "2h ago"); ("entity_categories", JArr [JStr "SPID"; JStr "REFEDS"])]; JObj
  [("entity_id", JStr "https://rp.partner.io"); ("role", JStr "RP (Relying Party)"); ("metadata_url", JStr
  "https://rp.partner.io/metadata.xml"); ("trust_status", JStr "trusted"); ("last_refresh", JStr
  "5h ago"); ("entity_categories", JArr [JStr "REFEDS"])]; JObj [("entity_id", JStr
  "https://auth.contractor.net"); ("role", JStr "OP"); ("metadata_url", JStr
  "https://auth.contractor.net/.well-known/openid-configuration"); ("trust_status", JStr "pending");
  ("last_refresh", JStr "1d ago"); ("entity_categories", JArr [])]]); ("auto_refresh_schedule", JStr
  "Every 24h (02:00 UTC)"); ("next_refresh", JStr "in 18h")].
Definition useOAuthIssuerMetadataConfig : js := JObj [("issuer_url", JStr "https://auth.ggid.dev");
  ("response_types", JArr [JStr "code"; JStr "token"; JStr "id_token"; JStr "code id_token"; JStr
  "code token"]); ("subject_types", JArr [JStr "public"; JStr "pairwise"]); ("claim_types", JArr [JStr
  "normal"; JStr "aggregated"; JStr "distributed"]); ("request_param_supported", JBool true);
  ("request_uri_supported", JBool true); ("require_request_uri", JBool false); ("well_known", JObj
  [("issuer", JStr "https://auth.ggid.dev"); ("authorization_endpoint", JStr
  "https://auth.ggid.dev/oauth/authorize"); ("token_endpoint", JStr "https://auth.ggid.dev/oauth/token");
  ("jwks_uri", JStr "https://auth.ggid.dev/.well-known/jwks.json"); ("scopes_supported", JArr [JStr
  "openid"; JStr "profile"; JStr "email"; JStr "offline_access"]); ("response_types_supported", JArr [JStr
  "code"; JStr "token"; JStr "id_token"])])].
Definition useOAuthJarConfig : js := JObj [("require_jar", JBool true); ("jar_lifetime_seconds", JNum
  300); ("signing_alg", JStr "RS256"); ("encryption_optional", JBool true); ("per_client_override", JArr
  [JObj [("client_id", JStr "client-web-001"); ("jar_required", JBool false); ("signing_alg", JStr
  "RS256"); ("lifetime_seconds", JNum 600)]; JObj [("client_id", JStr "client-mobile-002");
  ("jar_required", JBool true); ("signing_alg", JStr "ES256"); ("lifetime_seconds", JNum 300)]; JObj
  [("client_id", JStr "client-api-003"); ("jar_required", JBool true); ("signing_alg", JStr "PS256");
  ("lifetime_seconds", JNum 180)]]); ("request_object_preview", JObj [("iss", JStr "client-mobile-002");
  ("aud", JStr "https://auth.ggid.dev"); ("response_type", JStr "code"); ("client_id", JStr
  "client-mobile-002"); ("redirect_uri", JStr "myapp://callback"); ("scope", JStr "openid profile");
  ("state", JStr "xyz123"); ("nonce", JStr "abc456"); ("exp", JNum 1735341600); ("iat", JNum
  1735341300)]); ("jar_usage_stats", JObj [("total_requests_24h", JNum 15420); ("jar_requests_24h", JNum
  11200); ("adoption_rate_pct", JNum 73); ("validation_failures_24h", JNum 4)])].
Definition useOAuthMtlsConfig : js := JObj [("require_mtls", JBool true); ("trusted_ca_certs", JArr
  [JObj [("name", JStr "Internal PKI Root CA"); ("fingerprint", JStr "SHA256:A1B2C3D4E5F6..."); ("expiry",
  JStr "2028-12-31"); ("status", JStr "valid")]; JObj [("name", JStr "Let's Encrypt R3"); ("fingerprint",
  JStr "SHA256:G7H8I9J0K1L2..."); ("expiry", JStr "2025-09-15"); ("status", JStr "valid")]; JObj [("name",
  JStr "DigiCert Global Root"); ("fingerprint", JStr "SHA256:M3N4O5P6Q7R8..."); ("expiry", JStr
  "2031-04-18"); ("status", JStr "valid")]]); ("per_client_mtls", JArr [JObj [("client", JStr
  "client-api-003"); ("required", JBool true); ("cert_thumbprint_binding", JStr "SHA256:X1Y2Z3...")]; JObj
  [("client", JStr "client-mobile-002"); ("required", JBool false); ("cert_thumbprint_binding", JNull)];
  JObj [("client", JStr "client-web-001"); ("required", JBool false); ("cert_thumbprint_binding",
  JNull)]]); ("certificate_revocation_check", JStr "OCSP"); ("allow_self_signed", JBool false);
  ("mtls_adoption_pct", JNum 34)].
Definition useOAuthParUsage : js := JObj [("total_pushed", JNum 18500); ("active_requests", JArr [JObj
  [("request_uri", JStr "urn:ietf:params:oauth:request_uri:abc123"); ("client", JStr "web-console");
  ("pushed_at", JStr "1m ago"); ("expires_at", JStr "59s"); ("consumed", JBool false)]; JObj
  [("request_uri", JStr "urn:ietf:params:oauth:request_uri:def456"); ("client", JStr "mobile-app");
  ("pushed_at", JStr "30s ago"); ("expires_at", JStr "30s"); ("consumed", JBool false)]; JObj
  [("request_uri", JStr "urn:ietf:params:oauth:request_uri:ghi789"); ("client", JStr "ci-cd-bot");
  ("pushed_at", JStr "55s ago"); ("expires_at", JStr "5s"); ("consumed", JBool true)]]); ("cache_size",
  JNum 42); ("hit_rate", JNum 94); ("per_client", JArr [JObj [("client", JStr "web-console"); ("count",
  JNum 8200); ("pct", JNum 44)]; JObj [("client", JStr "mobile-app"); ("count", JNum 5100); ("pct", JNum
  28)]; JObj [("client", JStr "ci-cd-bot"); ("count", JNum 3200); ("pct", JNum 17)]; JObj [("client", JStr
  "partner-api"); ("count", JNum 2000); ("pct", JNum 11)]]); ("errors", JArr [JObj [("error", JStr
  "invalid_request_uri"); ("count", JNum 45)]; JObj [("error", JStr "expired_request"); ("count", JNum
  28)]; JObj [("error", JStr "client_mismatch"); ("count", JNum 12)]])].
Definition useOidcClaimMappingConfig : js := JObj [("claims", JArr [JObj [("name", JStr "sub");
  ("source", JStr "user_attr:id"); ("transform", JStr "direct"); ("token_type", JStr "id_token+access")];
  JObj [("name", JStr "email"); ("source", JStr "user_attr:email"); ("transform", JStr "direct");
  ("token_type", JStr "id_token")]; JObj [("name", JStr "groups"); ("source", JStr "group"); ("transform",
  JStr "flatten"); ("token_type", JStr "access_token")]; JObj [("name", JStr "roles"); ("source", JStr
  "group:role"); ("transform", JStr "regex:^role_(.+)"); ("token_type", JStr "access_token")]; JObj
  [("name", JStr "tenant"); ("source", JStr "static"); ("transform", JStr "constant:default");
  ("token_type", JStr "both")]]); ("all_claims", JArr [JStr "sub"; JStr "email"; JStr "groups"; JStr
  "roles"; JStr "tenant"]); ("scope_matrix", JArr [JObj [("scope", JStr "openid"); ("claims", JArr [JStr
  "sub"])]; JObj [("scope", JStr "profile"); ("claims", JArr [JStr "sub"; JStr "groups"])]; JObj
  [("scope", JStr "email"); ("claims", JArr [JStr "sub"; JStr "email"])]; JObj [("scope", JStr "admin");
  ("claims", JArr [JStr "sub"; JStr "groups"; JStr "roles"; JStr "tenant"])]])].
Definition usePasswordlessConfig : js := JObj [("methods", JArr [JObj [("id", JStr "magic_link");
  ("label", JStr "Magic Link"); ("description", JStr "Email-based one-click login"); ("enabled", JBool
  true)]; JObj [("id", JStr "passkey"); ("label", JStr "Passkey"); ("description", JStr
  "Device-bound credential (FIDO2)"); ("enabled", JBool true)]; JObj [("id", JStr "webauthn"); ("label",
  JStr "WebAuthn"); ("description", JStr "Hardware security key"); ("enabled", JBool true)]; JObj [("id",
  JStr "biometric"); ("label", JStr "Biometric"); ("description", JStr "Face ID / Touch ID"); ("enabled",
  JBool false)]]); ("magic_link_expiry_minutes", JNum 15); ("passkey_rp_id", JStr "auth.ggid.dev");
  ("fallback_to_password", JBool true); ("per_role", JArr [JObj [("role", JStr "admin"); ("method", JStr
  "webauthn")]; JObj [("role", JStr "developer"); ("method", JStr "passkey")]; JObj [("role", JStr
  "user"); ("method", JStr "magic_link")]])].
Definition usePolicyApprovalWorkflowConfig : js := JObj [("pipeline", JArr [JObj [("name", JStr
  "Draft"); ("assignee", JStr "Requester"); ("enabled", JBool true)]; JObj [("name", JStr "Review");
  ("assignee", JStr "Security Team"); ("enabled", JBool true)]; JObj [("name", JStr "Approve");
  ("assignee", JStr "Policy Owner"); ("enabled", JBool true)]; JObj [("name", JStr "Activate");
  ("assignee", JStr "System"); ("enabled", JBool true)]]); ("reviewers", JArr [JObj [("category", JStr
  "access_control"); ("reviewer", JStr "Alice (Security)")]; JObj [("category", JStr "data_protection");
  ("reviewer", JStr "Bob (DPO)")]; JObj [("category", JStr "compliance"); ("reviewer", JStr
  "Carol (Compliance)")]]); ("freeze_windows", JArr [JObj [("name", JStr "Year-end Freeze"); ("period",
  JStr "Dec 20 - Jan 5")]; JObj [("name", JStr "Quarterly Freeze"); ("period", JStr
  "Last 3 days of quarter")]]); ("sod_enforced", JBool true); ("emergency_bypass_enabled", JBool false)].
Definition usePolicyDecisionStats : js := JObj [("allow_count", JNum 145200); ("deny_count", JNum 8400);
  ("avg_eval_time_ms", JNum 38); ("cache_hit_rate", JNum 87); ("by_policy", JArr [JObj [("policy", JStr
  "admin-access"); ("allow", JNum 1200); ("deny", JNum 45)]; JObj [("policy", JStr "api-access");
  ("allow", JNum 89000); ("deny", JNum 5200)]; JObj [("policy", JStr "data-access"); ("allow", JNum
  45000); ("deny", JNum 2800)]; JObj [("policy", JStr "service-account"); ("allow", JNum 10000); ("deny",
  JNum 355)]]); ("by_resource_type", JArr [JObj [("type", JStr "API Endpoint"); ("pct", JNum 55)]; JObj
  [("type", JStr "Database"); ("pct", JNum 22)]; JObj [("type", JStr "Dashboard"); ("pct", JNum 15)]; JObj
  [("type", JStr "File Storage"); ("pct", JNum 8)]]); ("top_denied_actions", JArr [JObj [("action", JStr
  "admin:delete_user"); ("count", JNum 1200)]; JObj [("action", JStr "data:export_pii"); ("count", JNum
  850)]; JObj [("action", JStr "config:modify"); ("count", JNum 420)]; JObj [("action", JStr
  "policy:override"); ("count", JNum 180)]])].
Definition usePolicyImportExport : js := JObj [("total_policies", JNum 48); ("import_log", JObj
  [("imported", JNum 12); ("skipped", JNum 3); ("errored", JNum 1)]); ("template_gallery", JArr [JObj
  [("name", JStr "RBAC Starter Pack"); ("description", JStr "Basic role-based access control policies");
  ("compatible", JBool true)]; JObj [("name", JStr "Zero Trust Template"); ("description", JStr
  "Default-deny with explicit allow rules"); ("compatible", JBool true)]; JObj [("name", JStr
  "SOC2 Compliance Set"); ("description", JStr "Policies mapped to SOC2 controls"); ("compatible", JBool
  true)]; JObj [("name", JStr "Legacy v1.x Export"); ("description", JStr "Import from GGID v1.x");
  ("compatible", JBool false)]])].
Definition usePolicyLifecycleDashboard : js := JObj [("policies_by_status", JObj [("draft", JNum 8);
  ("active", JNum 42); ("quarantined", JNum 3); ("deprecated", JNum 12)]); ("approval_pipeline", JObj
  [("submitted", JNum 5); ("reviewing", JNum 3); ("approved", JNum 2); ("active", JNum 42)]);
  ("avg_approval_time_hours", JNum 36); ("recent_changes", JArr [JObj [("policy_name", JStr
  "MFA Required for Admin API"); ("action", JStr "activated"); ("author", JStr "security_team");
  ("timestamp", JStr "2h ago")]; JObj [("policy_name", JStr "Session Timeout Policy"); ("action", JStr
  "updated"); ("author", JStr "platform_admin"); ("timestamp", JStr "5h ago")]; JObj [("policy_name", JStr
  "IP Allowlist for Finance"); ("action", JStr "quarantined"); ("author", JStr "compliance");
  ("timestamp", JStr "1d ago")]; JObj [("policy_name", JStr "OAuth Scope Restriction"); ("action", JStr
  "drafted"); ("author", JStr "dev_team"); ("timestamp", JStr "2d ago")]]); ("rollback_count", JNum 2);
  ("policy_age_histogram", JArr [JObj [("range", JStr "<7d"); ("count", JNum 6)]; JObj [("range", JStr
  "1-4w"); ("count", JNum 15)]; JObj [("range", JStr "1-3m"); ("count", JNum 22)]; JObj [("range", JStr
  "3-6m"); ("count", JNum 12)]; JObj [("range", JStr "6m+"); ("count", JNum 10)]])].
Definition usePolicySoDConfig : js := JObj [("conflicting_roles", JArr [JObj [("role_a", JStr
  "Payment Initiator"); ("role_b", JStr "Payment Approver"); ("conflict_type", JStr "approval")]; JObj
  [("role_a", JStr "User Creator"); ("role_b", JStr "Access Assigner"); ("conflict_type", JStr
  "creation")]; JObj [("role_a", JStr "Admin"); ("role_b", JStr "Audit Reviewer"); ("conflict_type", JStr
  "access")]; JObj [("role_a", JStr "Config Editor"); ("role_b", JStr "Config Deployer");
  ("conflict_type", JStr "approval")]]); ("sod_violations", JArr [JObj [("user", JStr "alice.chen");
  ("conflicting_roles", JArr [JStr "Payment Initiator"; JStr "Payment Approver"]); ("detected_at", JStr
  "2h ago"); ("action_required", JStr "immediate")]; JObj [("user", JStr "bob.martinez");
  ("conflicting_roles", JArr [JStr "Admin"; JStr "Audit Reviewer"]); ("detected_at", JStr "1d ago");
  ("action_required", JStr "review")]]); ("auto_enforce", JBool false); ("bypass_requires_c_level", JBool
  true)].
Definition usePolicyTimeBasedAccess : js := JObj [("time_window_rules", JArr [JObj [("policy", JStr
  "Production Access"); ("allowed_days", JArr [JStr "Mon"; JStr "Tue"; JStr "Wed"; JStr "Thu"; JStr
  "Fri"]); ("start_time", JStr "08:00"); ("end_time", JStr "18:00"); ("timezone", JStr
  "America/New_York")]; JObj [("policy", JStr "Admin Console"); ("allowed_days", JArr [JStr "Mon"; JStr
  "Tue"; JStr "Wed"; JStr "Thu"; JStr "Fri"]); ("start_time", JStr "09:00"); ("end_time", JStr "17:00");
  ("timezone", JStr "America/New_York")]; JObj [("policy", JStr "DB Access"); ("allowed_days", JArr [JStr
  "Mon"; JStr "Tue"; JStr "Wed"; JStr "Thu"; JStr "Fri"; JStr "Sat"]); ("start_time", JStr "07:00");
  ("end_time", JStr "20:00"); ("timezone", JStr "UTC")]]); ("per_role_restrictions", JArr [JObj [("role",
  JStr "Developer"); ("allowed_days", JArr [JStr "Mon"; JStr "Tue"; JStr "Wed"; JStr "Thu"; JStr "Fri"]);
  ("start_time", JStr "08:00"); ("end_time", JStr "19:00")]; JObj [("role", JStr "Admin");
  ("allowed_days", JArr [JStr "Mon"; JStr "Tue"; JStr "Wed"; JStr "Thu"; JStr "Fri"]); ("start_time", JStr
  "07:00"); ("end_time", JStr "18:00")]]); ("holiday_calendar", JArr [JObj [("name", JStr
  "New Year's Day"); ("date", JStr "2026-01-01"); ("access", JStr "blocked")]; JObj [("name", JStr
  "Memorial Day"); ("date", JStr "2026-05-25"); ("access", JStr "emergency_only")]; JObj [("name", JStr
  "Independence Day"); ("date", JStr "2026-07-04"); ("access", JStr "blocked")]]);
  ("grace_period_minutes", JNum 15); ("violations_24h", JNum 3)].
Definition useRoleMiningResults : js := JObj [("creep_score", JNum 62); ("unused_permissions", JArr
  [JObj [("permission", JStr "admin:billing:read"); ("user", JStr "user_js"); ("last_used_days", JNum
  120)]; JObj [("permission", JStr "data:export:pii"); ("user", JStr "user_mk"); ("last_used_days", JNum
  95)]; JObj [("permission", JStr "config:ssl:modify"); ("user", JStr "user_al"); ("last_used_days", JNum
  200)]]); ("suggested_consolidation", JArr [JObj [("merge_target", JStr "developer-fullstack");
  ("roles_to_merge", JArr [JStr "dev-frontend"; JStr "dev-backend"; JStr "dev-infra"]);
  ("reduction_benefit", JNum 28)]; JObj [("merge_target", JStr "analyst-readonly"); ("roles_to_merge",
  JArr [JStr "data-viewer"; JStr "report-reader"]); ("reduction_benefit", JNum 15)]]); ("over_assigned",
  JArr [JObj [("user", JStr "user_jd"); ("role", JStr "admin"); ("excess_permissions", JNum 8)]; JObj
  [("user", JStr "user_sm"); ("role", JStr "developer"); ("excess_permissions", JNum 3)]])].
Definition useScimGroupMappingConfig : js := JObj [("mappings", JArr [JObj [("id", JStr "s1");
  ("external_group", JStr "Azure-Admin"); ("local_role", JStr "admin"); ("auto_provision", JBool false);
  ("sync_direction", JStr "bidirectional")]; JObj [("id", JStr "s2"); ("external_group", JStr
  "GitHub-Devs"); ("local_role", JStr "developer"); ("auto_provision", JBool false); ("sync_direction",
  JStr "inbound")]; JObj [("id", JStr "s3"); ("external_group", JStr "Okta-Readonly"); ("local_role", JStr
  "viewer"); ("auto_provision", JBool false); ("sync_direction", JStr "inbound")]]); ("per_app", JArr
  [JObj [("app", JStr "Slack"); ("mapping_count", JNum 3)]; JObj [("app", JStr "Jira"); ("mapping_count",
  JNum 2)]; JObj [("app", JStr "GitHub"); ("mapping_count", JNum 5)]]); ("last_sync", JObj [("status",
  JStr "success"); ("synced_at", JStr "5m ago"); ("added", JNum 2); ("removed", JNum 0); ("errors", JNum
  0)])].
Definition useSecurityKPITracker : js := JObj [("kpi_definitions", JArr [JObj [("name", JStr
  "Critical vuln remediation SLA"); ("target", JNum 7); ("current", JNum 5); ("unit", JStr "days");
  ("trend", JStr "down"); ("owner", JStr "sec-ops")]; JObj [("name", JStr
  "Phishing simulation click rate"); ("target", JNum 5); ("current", JNum 3); ("unit", JStr "%");
  ("trend", JStr "down"); ("owner", JStr "sec-awareness")]; JObj [("name", JStr "MFA enrollment");
  ("target", JNum 100); ("current", JNum 94); ("unit", JStr "%"); ("trend", JStr "up"); ("owner", JStr
  "identity-team")]; JObj [("name", JStr "Patch lead time"); ("target", JNum 14); ("current", JNum 18);
  ("unit", JStr "days"); ("trend", JStr "up"); ("owner", JStr "infra")]; JObj [("name", JStr
  "Security training completion"); ("target", JNum 90); ("current", JNum 87); ("unit", JStr "%");
  ("trend", JStr "up"); ("owner", JStr "hr-sec")]]); ("monthly_history", JArr [JObj [("month", JStr
  "Jul"); ("value", JNum 72)]; JObj [("month", JStr "Aug"); ("value", JNum 75)]; JObj [("month", JStr
  "Sep"); ("value", JNum 73)]; JObj [("month", JStr "Oct"); ("value", JNum 78)]; JObj [("month", JStr
  "Nov"); ("value", JNum 80)]; JObj [("month", JStr "Dec"); ("value", JNum 82)]]); ("alert_thresholds",
  JArr [JObj [("kpi", JStr "Patch lead time"); ("threshold", JStr "14d"); ("triggered", JBool true)]; JObj
  [("kpi", JStr "MFA enrollment"); ("threshold", JStr "95%"); ("triggered", JBool false)]; JObj [("kpi",
  JStr "Critical vuln SLA"); ("threshold", JStr "7d"); ("triggered", JBool false)]])].
Definition useSecurityMetricsDash : js := JObj [("mttd_minutes", JNum 8); ("mttr_hours", JNum 4);
  ("open_vulns", JNum 23); ("patch_compliance_pct", JNum 94); ("incidents_30d", JArr [JNum 2; JNum 1; JNum
  3; JNum 0; JNum 1; JNum 2; JNum 4; JNum 1; JNum 0; JNum 2; JNum 1; JNum 3; JNum 2; JNum 0; JNum 1; JNum
  2; JNum 1; JNum 0; JNum 1; JNum 3; JNum 2; JNum 1; JNum 0; JNum 1; JNum 2; JNum 1; JNum 3; JNum 0; JNum
  1; JNum 2]); ("sla_breaches", JNum 3); ("top_10_risks", JArr [JObj [("risk", JStr
  "Missing mTLS between services"); ("category", JStr "Infrastructure"); ("score", JNum 9); ("status",
  JStr "mitigated")]; JObj [("risk", JStr "OAuth introspection no auth"); ("category", JStr
  "Access Control"); ("score", JNum 8); ("status", JStr "open")]; JObj [("risk", JStr
  "Webhook SSRF exposure"); ("category", JStr "Data Protection"); ("score", JNum 7); ("status", JStr
  "mitigated")]; JObj [("risk", JStr "No audit hash chain"); ("category", JStr "Audit"); ("score", JNum
  6); ("status", JStr "open")]; JObj [("risk", JStr "Password pepper not enforced"); ("category", JStr
  "Identity"); ("score", JNum 5); ("status", JStr "mitigated")]])].
Definition useSecurityPostureScoring : js := JObj [("overall_score", JNum 78); ("by_category", JArr
  [JObj [("category", JStr "identity"); ("score", JNum 85); ("delta", JNum 3)]; JObj [("category", JStr
  "access"); ("score", JNum 82); ("delta", JNum 2)]; JObj [("category", JStr "data"); ("score", JNum 70);
  ("delta", JNum (-1))]; JObj [("category", JStr "infra"); ("score", JNum 75); ("delta", JNum 5)]; JObj
  [("category", JStr "compliance"); ("score", JNum 80); ("delta", JNum 1)]]); ("benchmark_comparison",
  JObj [("industry_avg", JNum 72); ("top_10_pct", JNum 88)]); ("trend_30d", JArr [JNum 72; JNum 73; JNum
  71; JNum 74; JNum 75; JNum 73; JNum 76; JNum 75; JNum 77; JNum 76; JNum 78; JNum 77; JNum 78]);
  ("improvement_recommendations", JArr [JObj [("recommendation", JStr "Enable DPoP for all SPA clients");
  ("category", JStr "access"); ("potential_gain", JNum 4)]; JObj [("recommendation", JStr
  "Implement data loss prevention policies"); ("category", JStr "data"); ("potential_gain", JNum 6)]; JObj
  [("recommendation", JStr "Enforce mTLS between all microservices"); ("category", JStr "infra");
  ("potential_gain", JNum 3)]; JObj [("recommendation", JStr "Complete PCI-DSS QSA assessment");
  ("category", JStr "compliance"); ("potential_gain", JNum 5)]])].
Definition useSessionTokenBindingCoverage : js := JObj [("coverage_pct", JNum 73); ("bound_tokens", JNum
  8760); ("unbound_tokens", JNum 3240); ("compliance_threshold", JNum 90); ("per_client", JArr [JObj
  [("client", JStr "web-console"); ("bound_pct", JNum 98); ("binding_method", JStr "DPoP");
  ("last_checked", JStr "5m ago")]; JObj [("client", JStr "mobile-app"); ("bound_pct", JNum 85);
  ("binding_method", JStr "DPoP"); ("last_checked", JStr "10m ago")]; JObj [("client", JStr "ci-cd-bot");
  ("bound_pct", JNum 100); ("binding_method", JStr "mTLS"); ("last_checked", JStr "2m ago")]; JObj
  [("client", JStr "legacy-api"); ("bound_pct", JNum 12); ("binding_method", JStr "none");
  ("last_checked", JStr "1h ago")]]); ("unbound_list", JArr [JObj [("token_id", JStr "tok_a1b2c3");
  ("client", JStr "legacy-api"); ("issued_at", JStr "2h ago")]; JObj [("token_id", JStr "tok_d4e5f6");
  ("client", JStr "legacy-api"); ("issued_at", JStr "3h ago")]; JObj [("token_id", JStr "tok_g7h8i9");
  ("client", JStr "mobile-app"); ("issued_at", JStr "30m ago")]])].
Definition useSessionTokenForgery : js := JObj [("forged_tokens", JArr [JObj [("token", JStr
  "eyJhbGciOiJSUzI1NiIsInR5cCI6IkpXVCJ9.eyJzdWIiOiJhZG1pbiIsImlzc"); ("detection_method", JStr
  "signature_invalid"); ("user_claimed", JStr "admin@ggid.dev"); ("actual_source", JStr "203.0.113.50");
  ("timestamp", JStr "10m ago")]; JObj [("token", JStr
  "eyJhbGciOiJSUzI1NiIsInR5cCI6IkpXVCJ9.eyJzdWIiOiJ1c2VyIiwib3J"); ("detection_method", JStr
  "claim_mismatch"); ("user_claimed", JStr "user@ggid.dev"); ("actual_source", JStr "198.51.100.22");
  ("timestamp", JStr "30m ago")]; JObj [("token", JStr
  "eyJhbGciOiJub25lIiwidHlwIjoiSldUIn0.eyJzdWIiOiJndWVzdCIsIm5hb"); ("detection_method", JStr
  "issuer_unknown"); ("user_claimed", JStr "guest@ggid.dev"); ("actual_source", JStr "203.0.113.99");
  ("timestamp", JStr "1h ago")]]); ("detection_stats", JObj [("blocked_attempts_24h", JNum 47);
  ("token_validation_failures", JNum 156); ("detection_rate_pct", JNum 99)])].
Definition useTokenFamilyAnalysis : js := JObj [("families", JArr [JObj [("family_id", JStr "fam_001");
  ("root_token_hash", JStr "sha256:abc123..."); ("child_count", JNum 3); ("status", JStr "active")]; JObj
  [("family_id", JStr "fam_002"); ("root_token_hash", JStr "sha256:def456..."); ("child_count", JNum 1);
  ("status", JStr "active")]; JObj [("family_id", JStr "fam_003"); ("root_token_hash", JStr
  "sha256:ghi789..."); ("child_count", JNum 5); ("status", JStr "revoked")]]); ("reuse_alerts", JArr [JObj
  [("id", JStr "ra1"); ("family_id", JStr "fam_003"); ("description", JStr
  "Refresh token used after revocation from different IP"); ("detected_at", JStr "2h ago")]])].
Definition useUserBehaviorAnalytics : js := JObj [("baseline", JObj [("login_time_range", JStr
  "08:00 - 18:00 UTC"); ("typical_devices", JArr [JStr "MacBook Pro (Work)"; JStr "iPhone 15"]);
  ("geo_patterns", JArr [JStr "San Francisco, CA"; JStr "Remote: US West"]); ("access_patterns", JArr
  [JStr "Dashboard read"; JStr "User list view"; JStr "Audit query"])]); ("deviation_score", JNum 35);
  ("anomalies", JArr [JObj [("type", JStr "unusual_time"); ("description", JStr
  "Login at 03:14 UTC (outside baseline 08:00-18:00)"); ("severity", JStr "medium"); ("timestamp", JStr
  "2h ago")]; JObj [("type", JStr "new_device"); ("description", JStr
  "Access from unrecognized Android device"); ("severity", JStr "high"); ("timestamp", JStr "5h ago")];
  JObj [("type", JStr "new_location"); ("description", JStr "Login from Lagos, Nigeria (new geo)");
  ("severity", JStr "high"); ("timestamp", JStr "1d ago")]; JObj [("type", JStr "unusual_access");
  ("description", JStr "Bulk export of user data (outside baseline)"); ("severity", JStr "medium");
  ("timestamp", JStr "2d ago")]]); ("trend_7d", JArr [JNum 15; JNum 22; JNum 18; JNum 45; JNum 35; JNum
  50; JNum 35])].
Definition useVelocityRulesConfig : js := JObj [("rules", JArr [JObj [("rule_name", JStr
  "Rapid Signups"); ("metric", JStr "registrations"); ("window", JStr "per_hour"); ("threshold", JNum 10);
  ("action", JStr "challenge"); ("current_rate", JNum 4); ("triggered_24h", JNum 3)]; JObj [("rule_name",
  JStr "Login Brute Force"); ("metric", JStr "logins"); ("window", JStr "per_minute"); ("threshold", JNum
  5); ("action", JStr "block"); ("current_rate", JNum 2); ("triggered_24h", JNum 12)]; JObj [("rule_name",
  JStr "Password Spray"); ("metric", JStr "password_changes"); ("window", JStr "per_hour"); ("threshold",
  JNum 20); ("action", JStr "block"); ("current_rate", JNum 8); ("triggered_24h", JNum 5)]; JObj
  [("rule_name", JStr "API Rate Limit"); ("metric", JStr "api_calls"); ("window", JStr "per_minute");
  ("threshold", JNum 100); ("action", JStr "throttle"); ("current_rate", JNum 67); ("triggered_24h", JNum
  28)]; JObj [("rule_name", JStr "Account Recovery Abuse"); ("metric", JStr "password_changes");
  ("window", JStr "per_day"); ("threshold", JNum 3); ("action", JStr "challenge"); ("current_rate", JNum
  1); ("triggered_24h", JNum 2)]]); ("scope", JStr "per_device"); ("geographic_velocity_check", JBool
  true)].
Definition useWebauthnConfig : js := JObj [("rp_id", JStr "auth.ggid.dev"); ("rp_name", JStr "GGID");
  ("origin", JStr "https://auth.ggid.dev"); ("attestation_requirement", JStr "indirect");
  ("user_verification", JStr "preferred"); ("timeout_seconds", JNum 300); ("supported_algorithms", JArr
  [JObj [("id", JStr "RS256"); ("cose_id", JNum (-257)); ("enabled", JBool true)]; JObj [("id", JStr
  "ES256"); ("cose_id", JNum (-7)); ("enabled", JBool true)]; JObj [("id", JStr "EdDSA"); ("cose_id", JNum
  (-8)); ("enabled", JBool false)]]); ("per_platform", JArr [JObj [("platform", JStr "Web (Chrome/Edge)");
  ("authenticator_type", JStr "platform"); ("attachment", JStr "internal"); ("enabled", JBool true)]; JObj
  [("platform", JStr "iOS (Face ID/Touch ID)"); ("authenticator_type", JStr "platform"); ("attachment",
  JStr "internal"); ("enabled", JBool true)]; JObj [("platform", JStr "Security Key (USB/NFC)");
  ("authenticator_type", JStr "cross-platform"); ("attachment", JStr "cross-platform"); ("enabled", JBool
  true)]])].

Definition demo_hooks : list (string * js) :=
  [("useAdaptiveAuthConfig", useAdaptiveAuthConfig); ("useAuditEventCorrelation",
  useAuditEventCorrelation); ("useAuthBackChannelAuth", useAuthBackChannelAuth);
  ("useAuthPasswordlessConfig", useAuthPasswordlessConfig); ("useAuthSessionBinding",
  useAuthSessionBinding); ("useAuthStepUpOrchestrator", useAuthStepUpOrchestrator);
  ("useAuthWebauthnConfig", useAuthWebauthnConfig); ("useCertExpiryTracker", useCertExpiryTracker);
  ("useEmailTemplateConfig", useEmailTemplateConfig); ("useFraudDetection", useFraudDetection);
  ("useGeoFencingConfig", useGeoFencingConfig); ("useIdentityDeprovisioningAutomation",
  useIdentityDeprovisioningAutomation); ("useLockoutPolicyConfig", useLockoutPolicyConfig);
  ("useMitreAttackMapping", useMitreAttackMapping); ("useNotificationPrefConfig",
  useNotificationPrefConfig); ("useOAuthCrossTenant", useOAuthCrossTenant);
  ("useOAuthFederationMetadata", useOAuthFederationMetadata); ("useOAuthIssuerMetadataConfig",
  useOAuthIssuerMetadataConfig); ("useOAuthJarConfig", useOAuthJarConfig); ("useOAuthMtlsConfig",
  useOAuthMtlsConfig); ("useOAuthParUsage", useOAuthParUsage); ("useOidcClaimMappingConfig",
  useOidcClaimMappingConfig); ("usePasswordlessConfig", usePasswordlessConfig);
  ("usePolicyApprovalWorkflowConfig", usePolicyApprovalWorkflowConfig); ("usePolicyDecisionStats",
  usePolicyDecisionStats); ("usePolicyImportExport", usePolicyImportExport);
  ("usePolicyLifecycleDashboard", usePolicyLifecycleDashboard); ("usePolicySoDConfig",
  usePolicySoDConfig); ("usePolicyTimeBasedAccess", usePolicyTimeBasedAccess); ("useRoleMiningResults",
  useRoleMiningResults); ("useScimGroupMappingConfig", useScimGroupMappingConfig);
  ("useSecurityKPITracker", useSecurityKPITracker); ("useSecurityMetricsDash", useSecurityMetricsDash);
  ("useSecurityPostureScoring", useSecurityPostureScoring); ("useSessionTokenBindingCoverage",
  useSessionTokenBindingCoverage); ("useSessionTokenForgery", useSessionTokenForgery);
  ("useTokenFamilyAnalysis", useTokenFamilyAnalysis); ("useUserBehaviorAnalytics",
  useUserBehaviorAnalytics); ("useVelocityRulesConfig", useVelocityRulesConfig); ("useWebauthnConfig",
  useWebauthnConfig)].

(** ** Behaviour *)

(** The request is a relative one, so no server of another origin is asked, and carries no
    credential. *)
Lemma demo_request_anonymous : map fst (rq_headers demo_request) = ["Content-Type"].
Proof. done. Qed.

(** Every outcome.  The flag says which data are shown, except that an answer that is not
    JSON leaves data and flag as they were. *)
Lemma run_fetchData (e : env) sample w :
  let answer := server e (ObsFetch demo_request :: w_trace w) demo_request in
  exists w', run e (fetchData sample) w = (Done tt, w') /\ w_trace w' = ObsFetch demo_request :: w_trace w
  /\ w_st w' =
     match answer with
     | Some r =>
         if rs_ok r then
           match JSON_parse (rs_body r) with
           | Some d => Demo d false false None
           | None => Demo (d_data (w_st w)) (isDemoData (w_st w)) false (Some (e_message syntax_error))
           end
         else Demo sample true false None
     | None => Demo sample true false None
     end.
Proof.
  cbn zeta. unfold fetchData, setLoading, setError, setData, setIsDemoData. run_steps. autorewrite with world.
  destruct (server e _ _) as [r|]; run_steps;
    [destruct (rs_ok r); run_steps; [destruct (JSON_parse (rs_body r)); run_steps|]|];
    (eexists; split; [reflexivity|]); by autorewrite with world.
Qed.

Lemma nodup_snd {A B} (l : list (A * B)) a1 a2 b :
  NoDup (map snd l) -> In (a1, b) l -> In (a2, b) l -> a1 = a2.
Proof.
  induction l as [|[a b'] l IH]; cbn; [done|]. intros Hnd. apply NoDup_cons in Hnd as [Hn Hnd].
  assert (forall a', In (a', b') l -> False) as Hf.
  { intros a' H. apply Hn, list_elem_of_In. change b' with (snd (a', b')). by apply in_map. }
  intros [[= -> ->]|H1] [[= ->]|H2]; [done|by apply Hf in H2| |by apply IH].
  subst. by apply Hf in H1.
Qed.

Lemma samples_differ n1 n2 s1 s2 :
  In (n1, s1) demo_hooks -> In (n2, s2) demo_hooks -> n1 <> n2 -> s1 <> s2.
Proof.
  intros H1 H2 Hne <-. apply Hne. refine (nodup_snd demo_hooks n1 n2 s1 _ H1 H2).
  apply (bool_decide_unpack _). vm_compute. exact I.
Qed.

(** ** Properties *)

(** The hooks with samples hide every failure, and are one hook.  A refusal of any kind
    (no credentials, no permission, no such address, a server that is down) is no error: the
    invented sample is shown, and only [isDemoData] tells.  And since all of them ask the same
    address, an answer that is accepted makes any two of them show the same data, whatever
    each is about, while two different samples stay different. *)
Lemma demo_hooks_hide_failures (e : env) name1 name2 s1 s2 l :
  In (name1, s1) demo_hooks -> In (name2, s2) demo_hooks -> name1 <> name2 ->
  let answer := server e [ObsFetch demo_request] demo_request in
  let shown s := w_st (run e (fetchData s) (page demo_init l)).2 in
  match answer with
  | Some r =>
      if rs_ok r then d_data (shown s1) = d_data (shown s2)
      else shown s1 = Demo s1 true false None /\ shown s2 = Demo s2 true false None /\ s1 <> s2
  | None => shown s1 = Demo s1 true false None /\ shown s2 = Demo s2 true false None /\ s1 <> s2
  end.
Proof.
  intros H1 H2 Hne answer shown.
  assert (s1 <> s2) as Hs by by apply (samples_differ name1 name2).
  destruct (run_fetchData e s1 (page demo_init l)) as (w1 & E1 & _ & S1).
  destruct (run_fetchData e s2 (page demo_init l)) as (w2 & E2 & _ & S2). cbn zeta in S1, S2. cbn [w_trace page] in S1, S2.
  unfold shown. rewrite E1, E2. cbn [snd]. rewrite S1, S2. unfold answer.
  destruct (server e _ _) as [r|]; [|done]. destruct (rs_ok r); [|done]. by destruct (JSON_parse (rs_body r)).
Qed.

(** ** Witnesses *)

Lemma demo_hooks_hide_failures_witness :
  let e := const_env (Some (Response 403 "no")) 0 in
  w_st (run e (fetchData useLockoutPolicyConfig) (page demo_init ∅)).2 = Demo useLockoutPolicyConfig true false None
  /\ useLockoutPolicyConfig <> useGeoFencingConfig.
Proof.
  destruct (demo_hooks_hide_failures (const_env (Some (Response 403 "no")) 0) "useLockoutPolicyConfig" "useGeoFencingConfig"
    useLockoutPolicyConfig useGeoFencingConfig ∅) as (H & _ & Hne);
    [by vm_compute; tauto|by vm_compute; tauto|discriminate|].
  split; [exact H|exact Hne].
Defined.
