(* ===== verification/UserImport.v ===== *)
(** * Importing users (console/src/app/users/import/page.tsx)

    The wizard that reads a CSV text, maps its columns to fields, validates the rows and
    creates a user per valid row; and the CSV export of app/users/page.tsx and
    app/audit/explorer, activity and audit/visualization, which quote their cells alike.
    A mapping is a JavaScript object from headers to fields.  Headers named like a member of
    [Object.prototype] are mapped to a function there, whose text is no field: they are
    unmapped, as here. *)

From S2P Require Import Prelude JsValue JsString Json Effects ApiClient.
#[local] Open Scope Z_scope.

Definition dquote : Ascii.ascii := "034"%char.
Definition newline : Ascii.ascii := "010"%char.
Definition return_ : Ascii.ascii := "013"%char.

(** ** Writing CSV *)

(** The cell of the exports: quoted, its quotes doubled. *)
Definition csv_cell (v : string) : string :=
  String dquote (replace_char dquote (String dquote (String dquote "")) v +:+ String dquote "").

Definition csv_row (cells : list string) : string := join "," (map csv_cell cells).

(** [[headers, ...rows].map(...).join("\n")]. *)
Definition csv_table (headers : list string) (rows : list (list string)) : string :=
  join (String newline "") (map csv_row (headers :: rows)).

(** A user of the list, and the export of the list. *)
Record user := User {
  username : string; u_email : string; u_display_name : string; u_phone : string; status : string; created_at : string }.

Definition export_header : string := "username,email,displayName,phone,status,created_at".

Definition user_cells (u : user) : list string :=
  [username u; u_email u; u_display_name u; u_phone u; if String.eqb (status u) "" then "active" else status u; created_at u].

Definition export_users (l : list user) : string :=
  export_header +:+ String newline "" +:+ join (String newline "") (map (fun u => csv_row (user_cells u)) l).

(** ** Reading CSV *)

Fixpoint parse_csv (line current : string) (inQuotes : bool) : list string :=
  match line with
  | EmptyString => [trim current]
  | String ch rest =>
      if Ascii.eqb ch dquote then
        match rest with
        | String ch2 rest2 =>
            if Ascii.eqb ch2 dquote then parse_csv rest2 (current +:+ String dquote "") inQuotes
            else parse_csv rest current (negb inQuotes)
        | EmptyString => parse_csv rest current (negb inQuotes)
        end
      else if Ascii.eqb ch ","%char && negb inQuotes then trim current :: parse_csv rest "" inQuotes
      else parse_csv rest (current +:+ String ch "") inQuotes
  end.

Definition parseCsvLine (line : string) : list string := parse_csv line "" false.

(** [text.split(/\r?\n/)]: a return before a newline belongs to the separator. *)
Fixpoint chop_return (s : string) : string :=
  match s with
  | EmptyString => ""
  | String c EmptyString => if Ascii.eqb c return_ then "" else s
  | String c s' => String c (chop_return s')
  end.

Fixpoint chop_returns (l : list string) : list string :=
  match l with
  | [] => []
  | [last] => [last]
  | s :: l' => chop_return s :: chop_returns l'
  end.

Definition split_lines (text : string) : list string := chop_returns (split_on newline text).

Definition parseCsvText (text : string) : list string * list (list string) :=
  match List.filter (fun l => negb (String.eqb (trim l) "")) (split_lines (trim text)) with
  | [] => ([], [])
  | h :: l => (parseCsvLine h, map parseCsvLine l)
  end.

(** ** Fields and mappings *)

Record GgidField := Field { key : string; label : string; required : bool }.

Definition GGID_FIELDS : list GgidField :=
  [Field "email" "Email" true; Field "display_name" "Display Name" true; Field "first_name" "First Name" false;
   Field "last_name" "Last Name" false; Field "phone" "Phone" false; Field "department" "Department" false;
   Field "title" "Title" false; Field "role" "Role" false; Field "external_id" "External ID" false].

Definition aliases : list (string * list string) :=
  [("email", ["email"; "e-mail"; "mail"; "email_address"]);
   ("display_name", ["display_name"; "displayname"; "name"; "full_name"; "fullname"]);
   ("first_name", ["first_name"; "firstname"; "given_name"; "fname"]);
   ("last_name", ["last_name"; "lastname"; "family_name"; "lname"]);
   ("phone", ["phone"; "phone_number"; "tel"; "telephone"; "mobile"]);
   ("department", ["department"; "dept"; "division"]);
   ("title", ["title"; "job_title"; "position"]);
   ("role", ["role"; "role_name"; "group"]);
   ("external_id", ["external_id"; "ext_id"; "employee_id"; "emp_id"])].

Notation ColumnMap := (gmap string string).

Definition detect (header : string) : option string :=
  fst <$> List.find (fun fn => str_mem (trim (to_lower header)) fn.2) aliases.

Definition autoDetectMapping (headers : list string) : ColumnMap :=
  fold_left (fun m h => match detect h with Some f => <[h := f]> m | None => m end) headers ∅.

(** The updater of [handleMappingChange]. *)
Definition change_mapping (csvHeader fieldKey : string) (prev : ColumnMap) : ColumnMap :=
  if String.eqb fieldKey "" then delete csvHeader prev
  else <[csvHeader := fieldKey]> (filter (fun kv => kv.2 <> fieldKey) prev).

Definition requiredFieldsMapped (mapping : ColumnMap) : bool :=
  forallb (fun f => bool_decide (map_Exists (fun _ v => v = key f) mapping)) (List.filter required GGID_FIELDS).

(** ** Validation *)

(** [/^[^\s@]+@[^\s@]+\.[^\s@]+$/]. *)
Definition isValidEmail (s : string) : bool :=
  str_forall (fun c => negb (is_space c)) s
  && match split_on "@"%char s with
     | [a; b] => negb (String.eqb a "") && str_includes "." (String.substring 1 (String.length b - 2) b)
     | _ => false
     end.

Record RowError := RowErr { e_row : Z; e_field : string; message : string }.

(** The fields of a row; where two columns have a field, the later one counts. *)
Fixpoint mapped_from (i : nat) (headers row : list string) (mapping : ColumnMap) (acc : gmap string string)
    : gmap string string :=
  match headers with
  | [] => acc
  | h :: hs =>
      mapped_from (S i) hs row mapping
        (match nonempty (mapping !! h) with
         | Some field => <[field := default "" (row !! i)]> acc
         | None => acc
         end)
  end.

Definition mapped (headers row : list string) (mapping : ColumnMap) : gmap string string :=
  mapped_from 0 headers row mapping ∅.

(** [mapped.email] where it is truthy. *)
Definition given (m : gmap string string) (k : string) : option string := nonempty (m !! k).

Definition missing_errors (m : gmap string string) (rowIndex : Z) : list RowError :=
  flat_map (fun f =>
    if required f && match given m (key f) with Some v => String.eqb (trim v) "" | None => true end
    then [RowErr rowIndex (key f) ("Missing required field: " +:+ label f)] else []) GGID_FIELDS.

(** The errors of a row and the addresses seen after it. *)
Definition validateRow (row headers : list string) (mapping : ColumnMap) (rowIndex : Z) (seenEmails : gset string)
    : list RowError * gset string :=
  let m := mapped headers row mapping in
  let missing := missing_errors m rowIndex in
  match given m "email" with
  | None => (missing, seenEmails)
  | Some email =>
      if negb (isValidEmail email)
      then (missing ++ [RowErr rowIndex "email" ("Invalid email: " +:+ email)], seenEmails)
      else if bool_decide (to_lower email ∈ seenEmails)
      then (missing ++ [RowErr rowIndex "email" ("Duplicate email: " +:+ email)], seenEmails)
      else (missing, seenEmails ∪ {[to_lower email]})
  end.

(** The rows from index [i] on, each with its errors. *)
Fixpoint validate_rows (i : Z) (rows : list (list string)) (headers : list string) (mapping : ColumnMap)
    (seen : gset string) : list (list RowError) :=
  match rows with
  | [] => []
  | row :: rows' =>
      let '(errs, seen') := validateRow row headers mapping (i + 2) seen in
      errs :: validate_rows (i + 1) rows' headers mapping seen'
  end.

Definition allRowErrors (headers : list string) (rows : list (list string)) (mapping : ColumnMap) : list RowError :=
  match headers, rows with
  | [], _ | _, [] => []
  | _, _ => concat (validate_rows 0 rows headers mapping ∅)
  end.

Definition getRowFieldErrors (header : string) (mapping : ColumnMap) (rowIndex : Z) (allErrors : list RowError) : bool :=
  match nonempty (mapping !! header) with
  | None => false
  | Some field => existsb (fun e => (e_row e =? rowIndex) && String.eqb (e_field e) field) allErrors
  end.

Record ValidationResult := Validation { valid : Z; errors : Z; duplicates : Z; errorList : list RowError }.

Definition count {A} (P : A -> bool) (l : list A) : Z := Z.of_nat (length (List.filter P l)).

(** The loop of [runFullValidation]. *)
Definition full_validation (headers : list string) (rows : list (list string)) (mapping : ColumnMap) : ValidationResult :=
  let per_row := validate_rows 0 rows headers mapping ∅ in
  Validation
    (count (fun errs => bool_decide (length errs = 0%nat)) per_row)
    (Z.of_nat (length (concat per_row)))
    (count (fun errs => existsb (fun e => str_includes "Duplicate" (message e)) errs) per_row)
    (concat per_row).

(** ** The wizard *)

Inductive ImportStatus := idle | importing | done_.

Record ImportStats := Stats { created : Z; skipped : Z; failed : Z }.

Record wizard := Wizard {
  step : Z;
  fileName : option string;
  fileSize : Z;
  csvText : string;
  pasteText : string;
  headers : list string;
  rows : list (list string);
  mapping : ColumnMap;
  validating : bool;
  validationResult : option ValidationResult;
  importStatus : ImportStatus;
  importProgress : Z;
  importStats : ImportStats
}.

Definition wizard_init : wizard := Wizard 0 None 0 "" "" [] [] ∅ false None idle 0 (Stats 0 0 0).

Definition setStep (v : Z) (s : wizard) : wizard :=
  Wizard v (fileName s) (fileSize s) (csvText s) (pasteText s) (headers s) (rows s) (mapping s) (validating s)
    (validationResult s) (importStatus s) (importProgress s) (importStats s).
Definition setFile (name : string) (size : Z) (s : wizard) : wizard :=
  Wizard (step s) (Some name) size (csvText s) (pasteText s) (headers s) (rows s) (mapping s) (validating s)
    (validationResult s) (importStatus s) (importProgress s) (importStats s).
Definition setPasteText (v : string) (s : wizard) : wizard :=
  Wizard (step s) (fileName s) (fileSize s) (csvText s) v (headers s) (rows s) (mapping s) (validating s)
    (validationResult s) (importStatus s) (importProgress s) (importStats s).
(** [setCsvText], [setHeaders], [setRows] and [setMapping], which are always called together. *)
Definition setParsed (text : string) (s : wizard) : wizard :=
  let parsed := parseCsvText text in
  Wizard (step s) (fileName s) (fileSize s) text (pasteText s) parsed.1 parsed.2 (autoDetectMapping parsed.1)
    (validating s) (validationResult s) (importStatus s) (importProgress s) (importStats s).
Definition setMapping (f : ColumnMap -> ColumnMap) (s : wizard) : wizard :=
  Wizard (step s) (fileName s) (fileSize s) (csvText s) (pasteText s) (headers s) (rows s) (f (mapping s)) (validating s)
    (validationResult s) (importStatus s) (importProgress s) (importStats s).
Definition setValidating (v : bool) (s : wizard) : wizard :=
  Wizard (step s) (fileName s) (fileSize s) (csvText s) (pasteText s) (headers s) (rows s) (mapping s) v
    (validationResult s) (importStatus s) (importProgress s) (importStats s).
Definition setValidationResult (v : ValidationResult) (s : wizard) : wizard :=
  Wizard (step s) (fileName s) (fileSize s) (csvText s) (pasteText s) (headers s) (rows s) (mapping s) (validating s)
    (Some v) (importStatus s) (importProgress s) (importStats s).
Definition setImportStatus (v : ImportStatus) (s : wizard) : wizard :=
  Wizard (step s) (fileName s) (fileSize s) (csvText s) (pasteText s) (headers s) (rows s) (mapping s) (validating s)
    (validationResult s) v (importProgress s) (importStats s).
Definition setImportProgress (v : Z) (s : wizard) : wizard :=
  Wizard (step s) (fileName s) (fileSize s) (csvText s) (pasteText s) (headers s) (rows s) (mapping s) (validating s)
    (validationResult s) (importStatus s) v (importStats s).
Definition setImportStats (v : ImportStats) (s : wizard) : wizard :=
  Wizard (step s) (fileName s) (fileSize s) (csvText s) (pasteText s) (headers s) (rows s) (mapping s) (validating s)
    (validationResult s) (importStatus s) (importProgress s) v.

(** A file and what the reader, which answers later, finds in it. *)
Record file := File { f_name : string; f_size : Z; f_text : string }.

Definition processFile (f : file) : prog wizard unit :=
  upd (setFile (f_name f) (f_size f));;
  Act OYield (fun _ => upd (setParsed (f_text f))).

Definition handleFileInput (f : option file) : prog wizard unit :=
  match f with Some f => processFile f | None => mret tt end.

(** [name.endsWith(".csv")]. *)
Definition is_csv (name : string) : bool := String.eqb (String.substring (String.length name - 4) 4 name) ".csv".

Definition handleDrop (f : option file) : prog wizard unit :=
  match f with Some f => if is_csv (f_name f) then processFile f else mret tt | None => mret tt end.

Definition handlePasteSubmit (pasteText_ : string) : prog wizard unit :=
  let text := trim pasteText_ in
  if String.eqb text "" then mret tt
  else
    upd (setFile "pasted-data.csv" (Z.of_nat (length (utf8 text))));;
    upd (setParsed text);;
    upd (setStep 1).

Definition handleMappingChange (csvHeader fieldKey : string) : prog wizard unit :=
  upd (setMapping (change_mapping csvHeader fieldKey)).

(** The closure of the render with these columns. *)
Definition runFullValidation (headers : list string) (rows : list (list string)) (mapping : ColumnMap) : prog wizard unit :=
  upd (setValidating true);;
  Act OYield (fun _ =>
    upd (setValidationResult (full_validation headers rows mapping));;
    upd (setValidating false)).

Definition canProceed (s : wizard) (st : Z) : bool :=
  if st =? 0 then match headers s, rows s with _ :: _, _ :: _ => true | _, _ => false end
  else if st =? 1 then requiredFieldsMapped (mapping s)
  else true.

(** The buttons of the steps bar, Back, Next and Proceed. *)
Definition go_to (i : Z) : prog wizard unit :=
  s ← get_state; if i <=? step s then upd (setStep i) else mret tt.
Definition back : prog wizard unit :=
  s ← get_state; if step s <? 4 then upd (setStep (Z.max 0 (step s - 1))) else mret tt.
Definition next : prog wizard unit :=
  s ← get_state;
  if (step s <? 3) && canProceed s (step s) then upd (setStep (step s + 1)) else mret tt.
Definition proceed : prog wizard unit :=
  s ← get_state;
  match validationResult s with Some _ => if step s =? 3 then upd (setStep 4) else mret tt | None => mret tt end.

Definition reset : prog wizard unit := upd (fun s => Wizard 0 None 0 "" "" [] [] ∅ (validating s) None idle 0 (Stats 0 0 0)).

(** The properties of the new user, [undefined] ones left out by [JSON.stringify]. *)
Definition user_body (payload : gmap string string) : js :=
  let field k := match payload !! k with Some v => JStr v | None => JUndef end in
  let or_empty k := default "" (payload !! k) in
  JObj [("username", js_or (field "email") (field "display_name"));
        ("email", field "email");
        ("display_name", js_or_list [field "display_name"; JStr (trim (or_empty "first_name" +:+ " " +:+ or_empty "last_name"))] JUndef);
        ("phone", js_or (field "phone") JUndef)].

Section FileImport.
Context (API_BASE TENANT_ID : string).
Context (headers : list string) (mapping : ColumnMap) (allErrors : list RowError).

Definition create_user (row : list string) : prog wizard js :=
  apiFetch true API_BASE TENANT_ID "/api/v1/users"
    (Some {| ri_method := Some POST; ri_headers := [];
             ri_body := Some (stringify (user_body (mapped headers row mapping))) |}).

(** The rows from index [i] on, with the counters so far. *)
Fixpoint import_rows (i : Z) (rows : list (list string)) (st : ImportStats) : prog wizard unit :=
  match rows with
  | [] => mret tt
  | row :: rows' =>
      if existsb (fun e => e_row e =? i + 2) allErrors then
        let st' := Stats (created st) (skipped st + 1) (failed st) in
        upd (setImportStats st');;
        upd (setImportProgress (i + 1));;
        import_rows (i + 1) rows' st'
      else
        ok ← try_catch (create_user row;; mret true) (fun _ => mret false);
        let st' := if ok : bool then Stats (created st + 1) (skipped st) (failed st)
                   else Stats (created st) (skipped st) (failed st + 1) in
        upd (setImportStats st');;
        upd (setImportProgress (i + 1));;
        import_rows (i + 1) rows' st'
  end.

Definition startImport (rows : list (list string)) : prog wizard unit :=
  upd (setImportStatus importing);;
  upd (setImportProgress 0);;
  import_rows 0 rows (Stats 0 0 0);;
  upd (setImportStatus done_).
End FileImport.

#[global] Arguments parse_csv : simpl never.
#[global] Arguments create_user : simpl never.

(** ** What the reader makes of the writer's text *)

(** A cell as the reader takes it: one of quotes alone, the empty one too, gains a quote. *)
Fixpoint misread (v : string) : string :=
  match v with
  | EmptyString => String dquote ""
  | String c v' => if Ascii.eqb c dquote then String c (misread v') else v
  end.

Definition all_quotes (v : string) : bool := str_forall (fun c => Ascii.eqb c dquote) v.

Lemma misread_spec v : misread v = if all_quotes v then v +:+ String dquote "" else v.
Proof.
  unfold all_quotes. induction v as [|c v IH]; [done|]. cbn. destruct (Ascii.eqb c dquote); [|done].
  cbn. rewrite IH. by destruct (str_forall _ v).
Qed.

(** What may follow a cell: a comma, the end of the row. *)
Definition cell_end (rest : string) : bool :=
  match rest with EmptyString => true | String c _ => Ascii.eqb c ","%char end.

Definition escaped (v : string) : string := replace_char dquote (String dquote (String dquote "")) v.

Lemma escaped_cons c v :
  escaped (String c v) = (if Ascii.eqb c dquote then String dquote (String dquote "") else String c "") +:+ escaped v.
Proof. done. Qed.

Lemma parse_csv_cons c c2 rest cur q :
  c <> dquote -> parse_csv (String c (String c2 rest)) cur q =
  (if Ascii.eqb c ","%char && negb q then trim cur :: parse_csv (String c2 rest) "" q
   else parse_csv (String c2 rest) (cur +:+ String c "") q).
Proof. intros H. unfold parse_csv. fold parse_csv. by destruct (Ascii.eqb_spec c dquote). Qed.

Lemma parse_toggle c rest cur q :
  c <> dquote -> parse_csv (String dquote (String c rest)) cur q = parse_csv (String c rest) cur (negb q).
Proof.
  intros H%Ascii.eqb_neq.
  change (parse_csv (String dquote (String c rest)) cur q)
    with (if Ascii.eqb c dquote then parse_csv rest (cur +:+ String dquote "") q else parse_csv (String c rest) cur (negb q)).
  by rewrite H.
Qed.

Lemma parse_close rest cur :
  cell_end rest = true -> parse_csv (String dquote rest) cur true = parse_csv rest cur false.
Proof.
  destruct rest as [|c rest]; [done|]. cbn [cell_end]. intros H%Ascii.eqb_eq. by subst c.
Qed.

Lemma parse_quoted v rest cur :
  cell_end rest = true ->
  parse_csv (escaped v +:+ String dquote rest) cur true = parse_csv rest (cur +:+ v) false.
Proof.
  intros Hr. revert cur. induction v as [|c v IH]; intros cur.
  - rewrite str_app_nil_r. by apply parse_close.
  - rewrite escaped_cons, str_app_assoc. destruct (Ascii.eqb_spec c dquote) as [->|Hc].
    + change (parse_csv (escaped v +:+ String dquote rest) (cur +:+ String dquote "") true
        = parse_csv rest (cur +:+ String dquote v) false).
      by rewrite IH, str_app_assoc.
    + cbn [String.append]. transitivity (parse_csv (escaped v +:+ String dquote rest) (cur +:+ String c "") true).
      * destruct (escaped v +:+ String dquote rest) as [|c2 r] eqn:E; [by destruct (escaped v)|].
        rewrite parse_csv_cons by done. by rewrite andb_false_r.
      * by rewrite IH, str_app_assoc.
Qed.

Lemma parse_cell v rest cur :
  cell_end rest = true ->
  parse_csv (String dquote (escaped v +:+ String dquote rest)) cur false = parse_csv rest (cur +:+ misread v) false.
Proof.
  intros Hr. revert cur. induction v as [|c v IH]; intros cur; [done|].
  rewrite escaped_cons, str_app_assoc. cbn [misread]. destruct (Ascii.eqb_spec c dquote) as [->|Hc].
  - change (parse_csv (String dquote (escaped v +:+ String dquote rest)) (cur +:+ String dquote "") false
      = parse_csv rest (cur +:+ String dquote (misread v)) false).
    by rewrite IH, str_app_assoc.
  - transitivity (parse_csv (escaped (String c v) +:+ String dquote rest) cur true); [|by apply parse_quoted].
    rewrite escaped_cons. destruct (Ascii.eqb_spec c dquote); [done|]. cbn [String.append].
    by rewrite parse_toggle.
Qed.

Lemma parse_row cells :
  cells <> [] -> parseCsvLine (csv_row cells) = map (fun v => trim (misread v)) cells.
Proof.
  unfold parseCsvLine, csv_row. induction cells as [|v [|v' cells] IH]; [done| |]; intros _.
  - cbn [map join]. unfold csv_cell. fold (escaped v). by rewrite parse_cell.
  - cbn [map]. rewrite join_cons2. unfold csv_cell at 1. fold (escaped v).
    cbn [String.append]. rewrite str_app_assoc. cbn [String.append]. rewrite parse_cell by done.
    change (trim (misread v) :: parse_csv (join "," (map csv_cell (v' :: cells))) "" false
      = trim (misread v) :: map (fun v => trim (misread v)) (v' :: cells)).
    f_equal. by apply IH.
Qed.

(** ** Lines *)

(** A line that begins and ends with no blank and holds no newline. *)
Definition tight (s : string) : Prop :=
  s <> "" /\ trim_start s = s /\ strip_end is_space s = s /\ lacks newline s = true /\ chop_return s = s.

Lemma strip_end_kept P a b : strip_end P b <> "" -> strip_end P (a +:+ b) = a +:+ strip_end P b.
Proof.
  intros H. induction a as [|c a IH]; [done|]. cbn [String.append strip_end]. rewrite IH.
  destruct a; cbn; [by destruct (strip_end P b)|done].
Qed.

Lemma trim_start_app a b : a <> "" -> trim_start a = a -> trim_start (a +:+ b) = a +:+ b.
Proof.
  destruct a as [|c a]; [done|]. cbn. intros _. destruct (is_space c) eqn:E; [|done].
  intros H. exfalso. assert (forall s, (String.length (trim_start s) <= String.length s)%nat) as Hl.
  { clear. induction s as [|c s IH]; cbn; [lia|]. destruct (is_space c); cbn; lia. }
  specialize (Hl a). rewrite H in Hl. cbn in Hl. lia.
Qed.

Lemma tight_trim s : tight s -> trim s = s.
Proof. intros (_ & H1 & H2 & _). unfold trim. by rewrite H1. Qed.

Lemma trim_lines l : Forall tight l -> l <> [] -> trim (join (String newline "") l) = join (String newline "") l.
Proof.
  intros Hl Hne. unfold trim. assert (trim_start (join (String newline "") l) = join (String newline "") l) as ->.
  { destruct l as [|s [|s' l]]; [done|by apply Forall_singleton in Hl as (_ & ? & _)|].
    apply Forall_cons in Hl as [(Hs & Ht & _) _]. rewrite join_cons2. by apply trim_start_app. }
  assert (strip_end is_space (join (String newline "") l) = join (String newline "") l /\ join (String newline "") l <> "") as [? _];
    [|done].
  induction Hl as [|s l (Hs & _ & He & _) Hl IH]; [done|]. destruct l as [|s' l]; [done|].
  destruct IH as [IH1 IH2]; [done|]. rewrite join_cons2. split; [|by destruct s].
  rewrite <- str_app_assoc, strip_end_kept; rewrite IH1; done.
Qed.

Lemma split_tight l : Forall tight l -> l <> [] -> split_lines (join (String newline "") l) = l.
Proof.
  intros Hl Hne. unfold split_lines. assert (split_on newline (join (String newline "") l) = l) as ->.
  { induction Hl as [|s l (_ & _ & _ & Hn & _) Hl IH]; [done|]. destruct l as [|s' l]; [by apply split_on_lacks|].
    rewrite join_cons2. change (String newline "" +:+ ?x) with (String newline x).
    rewrite split_on_app by done. by rewrite IH. }
  clear Hne. induction Hl as [|s l (_ & _ & _ & _ & Hc) Hl IH]; [done|]. destruct l; [done|].
  cbn [chop_returns]. cbn [chop_returns] in IH. by rewrite Hc, IH.
Qed.

Lemma parse_tight h l :
  Forall tight (h :: l) -> parseCsvText (join (String newline "") (h :: l)) = (parseCsvLine h, map parseCsvLine l).
Proof.
  intros Hl. unfold parseCsvText. rewrite trim_lines, split_tight by done.
  assert (List.filter (fun l => negb (String.eqb (trim l) "")) (h :: l) = h :: l) as ->; [|done].
  induction Hl as [|s l' Hs Hl IH]; [done|]. cbn [List.filter]. rewrite (tight_trim s Hs).
  destruct Hs as [Hs _]. rewrite eqb_str_false by done. cbn [negb]. by rewrite IH.
Qed.

Lemma chop_last x c : c <> return_ -> chop_return (x +:+ String c "") = x +:+ String c "".
Proof.
  intros Hc%Ascii.eqb_neq. induction x as [|a x IH]; cbn [String.append].
  - cbn. by rewrite Hc.
  - destruct x as [|b x]; cbn [String.append] in *; [cbn; by rewrite Hc|].
    change (chop_return (String a (String b (x +:+ String c "")))) with
      (String a (chop_return (String b (x +:+ String c "")))). by rewrite IH.
Qed.

Lemma row_last cells : cells <> [] -> exists x, csv_row cells = String dquote (x +:+ String dquote "").
Proof.
  unfold csv_row. induction cells as [|v [|v' cells] IH]; [done| |]; intros _.
  - by eexists.
  - destruct IH as [x Hx]; [done|]. exists ((escaped v +:+ String dquote "") +:+ "," +:+ String dquote x).
    cbn [map]. rewrite join_cons2. cbn [map] in Hx. rewrite Hx. unfold csv_cell. fold (escaped v).
    cbn [String.append]. by rewrite !str_app_assoc.
Qed.

Lemma lacks_escaped v : lacks newline v = true -> lacks newline (escaped v) = true.
Proof.
  unfold lacks, escaped, replace_char. induction v as [|c v IH]; [done|]. cbn. intros [Hc Hv]%andb_prop.
  rewrite str_forall_app, (IH Hv), andb_true_r. destruct (Ascii.eqb c dquote); cbn; [done|by rewrite Hc].
Qed.

Lemma lacks_row cells : Forall (fun v => lacks newline v = true) cells -> lacks newline (csv_row cells) = true.
Proof.
  unfold csv_row, lacks. induction 1 as [|v cells Hv Hc IH]; [done|].
  assert (str_forall (fun x => negb (Ascii.eqb x newline)) (csv_cell v) = true) as Hq.
  { unfold csv_cell. cbn. rewrite str_forall_app. apply lacks_escaped in Hv. unfold lacks, escaped in Hv. by rewrite Hv. }
  destruct cells as [|v' cells]; [done|]. cbn [map] in *. by rewrite join_cons2, !str_forall_app, Hq, IH.
Qed.

Lemma row_tight cells : cells <> [] -> Forall (fun v => lacks newline v = true) cells -> tight (csv_row cells).
Proof.
  intros Hne Hl. pose proof (lacks_row cells Hl) as Hn. destruct (row_last cells Hne) as [x Hx]. unfold tight.
  rewrite Hx in *. split_and!; [done|done| |done|].
  - change (String dquote (x +:+ String dquote "")) with (String dquote x +:+ String dquote "").
    by rewrite strip_end_kept.
  - change (String dquote (x +:+ String dquote "")) with (String dquote x +:+ String dquote "").
    by apply chop_last.
Qed.

(** ** Re-importing the exported users *)

Definition users_mapping : ColumnMap :=
  {["email" := "email"; "displayName" := "display_name"; "phone" := "phone"]}.

Lemma header_read :
  parseCsvLine export_header = ["username"; "email"; "displayName"; "phone"; "status"; "created_at"]
  /\ autoDetectMapping (parseCsvLine export_header) = users_mapping.
Proof. split; vm_compute; reflexivity. Qed.

Lemma exported_users_read l :
  l <> [] -> Forall (fun u => Forall (fun v => lacks newline v = true) (user_cells u)) l ->
  parseCsvText (export_users l)
  = (parseCsvLine export_header, map (fun u => map (fun v => trim (misread v)) (user_cells u)) l).
Proof.
  intros Hne Hl. unfold export_users.
  assert (export_header +:+ String newline "" +:+ join (String newline "") (map (fun u => csv_row (user_cells u)) l)
    = join (String newline "") (export_header :: map (fun u => csv_row (user_cells u)) l)) as -> by by destruct l.
  rewrite parse_tight.
  - rewrite map_map. f_equal. apply map_ext. intros u. by apply parse_row.
  - apply Forall_cons. split; [by repeat split|]. apply Forall_map. eapply Forall_impl; [done|].
    intros u Hu. by apply row_tight.
Qed.

(** ** Valid rows *)

Section Valid.
Context (headers : list string) (mapping : ColumnMap).

Local Notation fields row := (mapped headers row mapping).
Local Notation errors_of := (fun i rows seen => validate_rows i rows headers mapping seen).

(** The address a valid row brings, and its name. *)
Definition row_ok (row : list string) (email : string) : Prop :=
  given (fields row) "email" = Some email /\ isValidEmail email = true
  /\ exists name, given (fields row) "display_name" = Some name /\ trim name <> "".

Lemma validateRow_clean row i seen :
  (validateRow row headers mapping i seen).1 = [] ->
  exists email, row_ok row email /\ to_lower email ∉ seen
  /\ (validateRow row headers mapping i seen).2 = seen ∪ {[to_lower email]}.
Proof.
  unfold validateRow, row_ok. set (m := fields row). unfold missing_errors. cbn [GGID_FIELDS flat_map required key label andb].
  destruct (given m "email") as [email|]; [|done].
  destruct (isValidEmail email) eqn:Ev; cbn [negb]; [|cbn [fst]; intros [_ H]%app_nil; done].
  case_bool_decide as Hs; [cbn [fst]; intros [_ H]%app_nil; done|].
  intros H. exists email. split_and!; [done|done| |done|done]. cbn [fst] in H.
  destruct (String.eqb (trim email) ""); [done|]. cbn in H.
  destruct (given m "display_name") as [name|]; [|done].
  exists name. split; [done|]. destruct (String.eqb_spec (trim name) ""); done.
Qed.

Lemma validateRow_seen row i seen : seen ⊆ (validateRow row headers mapping i seen).2.
Proof.
  unfold validateRow. destruct (given _ _); [|done]. destruct (negb _); [done|].
  case_bool_decide; [done|]. cbn. set_solver.
Qed.

Lemma validateRow_row row i seen : Forall (fun e => e_row e = i) (validateRow row headers mapping i seen).1.
Proof.
  assert (forall m, Forall (fun e => e_row e = i) (missing_errors m i)) as Hm.
  { intros m. unfold missing_errors. induction GGID_FIELDS as [|f l IH]; [constructor|]. cbn. apply Forall_app. split; [|done].
    destruct (_ && _); by repeat constructor. }
  unfold validateRow. destruct (given _ _); [|apply Hm].
  destruct (negb _); [|case_bool_decide]; cbn [fst]; [| |apply Hm]; (apply Forall_app; split; [apply Hm|by repeat constructor]).
Qed.

Lemma validate_rows_cons i row rows seen :
  validate_rows i (row :: rows) headers mapping seen
  = (validateRow row headers mapping (i + 2) seen).1
    :: validate_rows (i + 1) rows headers mapping (validateRow row headers mapping (i + 2) seen).2.
Proof. cbn [validate_rows]. by destruct (validateRow _ _ _ _ _). Qed.

Lemma validate_rows_length i rows seen : length (errors_of i rows seen) = length rows.
Proof.
  revert i seen. induction rows as [|row rows IH]; intros i seen; [done|]. rewrite validate_rows_cons. cbn. by rewrite IH.
Qed.

(** A row without errors is valid, and its address was not seen before. *)
Lemma clean_unseen i rows seen k row :
  errors_of i rows seen !! k = Some [] -> rows !! k = Some row ->
  exists email, row_ok row email /\ to_lower email ∉ seen.
Proof.
  revert i seen k. induction rows as [|r rows IH]; intros i seen k; [done|]. rewrite validate_rows_cons.
  destruct k as [|k]; cbn [lookup list_lookup].
  - intros [= H] [= ->]. destruct (validateRow_clean _ _ _ H) as (email & ? & ? & _). by exists email.
  - intros H Hk. destruct (IH _ _ _ H Hk) as (email & ? & Hn). exists email. split; [done|].
    pose proof (validateRow_seen r (i + 2) seen). set_solver.
Qed.

(** No two rows without errors have the same address. *)
Lemma clean_rows_distinct i rows seen k k' row row' email email' :
  (k < k')%nat -> errors_of i rows seen !! k = Some [] -> errors_of i rows seen !! k' = Some [] ->
  rows !! k = Some row -> rows !! k' = Some row' -> row_ok row email -> row_ok row' email' ->
  to_lower email <> to_lower email'.
Proof.
  revert i seen k k'. induction rows as [|r rows IH]; intros i seen k k' Hlt; [done|]. rewrite validate_rows_cons.
  destruct k' as [|k']; [lia|]. destruct k as [|k]; cbn [lookup list_lookup].
  - intros [= H] H' [= ->] Hk' (He & _) (He' & _).
    destruct (validateRow_clean _ _ _ H) as (em & (Hem & _) & _ & Hs). rewrite Hs in H'.
    destruct (clean_unseen _ _ _ _ _ H' Hk') as (em' & (Hem' & _) & Hn'). simplify_eq. set_solver.
  - intros. eapply IH with (k := k) (k' := k'); eauto. lia.
Qed.

Lemma errors_rows i rows seen k errs :
  errors_of i rows seen !! k = Some errs -> Forall (fun e => e_row e = i + Z.of_nat k + 2) errs.
Proof.
  revert i seen k. induction rows as [|row rows IH]; intros i seen k; [done|]. rewrite validate_rows_cons.
  destruct k as [|k]; cbn [lookup list_lookup].
  - intros [= <-]. eapply Forall_impl; [apply validateRow_row|]. cbn. lia.
  - intros H. eapply Forall_impl; [by eapply IH|]. cbn. lia.
Qed.

(** The import's test of a row finds exactly the errors of that row. *)
Lemma dirty_test rows k errs :
  errors_of 0 rows ∅ !! k = Some errs ->
  existsb (fun e => e_row e =? Z.of_nat k + 2) (concat (errors_of 0 rows ∅)) = negb (bool_decide (length errs = 0%nat)).
Proof.
  intros H. pose proof (errors_rows 0 rows ∅ k errs H) as Hr. destruct errs as [|e0 errs].
  - cbn. apply not_true_iff_false. rewrite existsb_exists. intros (e & Hin & He%Z.eqb_eq).
    apply in_concat in Hin as (errs & Hc & Hin). apply list_elem_of_In, list_elem_of_lookup in Hc as [k' Hk'].
    pose proof (errors_rows 0 rows ∅ k' errs Hk') as Hr'. rewrite Forall_forall in Hr'.
    apply list_elem_of_In in Hin. pose proof (Hr' _ Hin) as He'. cbn in He'. assert (k' = k) as -> by lia.
    rewrite H in Hk'. injection Hk' as <-. by apply elem_of_nil in Hin.
  - cbn. rewrite existsb_exists. exists e0. apply Forall_cons in Hr as [Hr _]. split; [|lia].
    apply in_concat. exists (e0 :: errs). split; [|by left]. apply list_elem_of_In. by eapply list_elem_of_lookup_2.
Qed.
End Valid.

(** ** The import *)

Section ImportRun.
Context (e : env) (API_BASE TENANT_ID : string) (headers : list string) (mapping : ColumnMap).
Context (allErrors : list RowError).

Definition attempt (row : list string) : prog wizard bool :=
  try_catch (create_user API_BASE TENANT_ID headers mapping row;; mret true) (fun _ => mret false).

Lemma run_attempt row w : exists b w1, run e (attempt row) w = (Done b, w1) /\ w_st w1 = w_st w.
Proof.
  assert (no_throw (attempt row)) as Hn by by apply no_throw_try.
  destruct (no_throw_run e _ w Hn) as (b & w1 & Hr). exists b, w1. split; [done|].
  assert (tame (fun s => s = w_st w) (fun _ => True) (attempt row)) as Ht.
  { unfold attempt. apply tame_try; [|done]. apply tame_bind; [by apply tame_apiFetch|done]. }
  pose proof (tame_run _ _ e _ w Ht) as H. rewrite Hr in H. apply H. split; [done|]. by apply Forall_true.
Qed.

(** The rows with errors among those from index [i] on. *)
Fixpoint dirty_from (i : Z) (rows : list (list string)) : Z :=
  match rows with
  | [] => 0
  | _ :: rows' => (if existsb (fun x => e_row x =? i + 2) allErrors then 1 else 0) + dirty_from (i + 1) rows'
  end.

Definition total (st : ImportStats) : Z := created st + skipped st + failed st.

Lemma run_import_rows i rows st w :
  importStats (w_st w) = st -> importProgress (w_st w) = i ->
  exists w', run e (import_rows API_BASE TENANT_ID headers mapping allErrors i rows st) w = (Done tt, w')
  /\ total (importStats (w_st w')) = total st + Z.of_nat (length rows)
  /\ skipped (importStats (w_st w')) = skipped st + dirty_from i rows
  /\ importProgress (w_st w') = i + Z.of_nat (length rows).
Proof.
  revert i st w. induction rows as [|row rows IH]; intros i st w Hst Hi.
  - exists w. rewrite Hst, Hi. cbn. split; [done|]. lia.
  - cbn [import_rows dirty_from length]. destruct (existsb _ _).
    + rewrite run_mbind, run_upd, run_mbind, run_upd.
      match goal with |- context [run e _ ?w2] => destruct (IH (i + 1) (Stats (created st) (skipped st + 1) (failed st)) w2)
        as (w' & -> & H1 & H2 & H3) end; [by autorewrite with world..|].
      exists w'. split; [done|]. unfold total in *. cbn in H1, H2. lia.
    + fold (attempt row). rewrite run_mbind. destruct (run_attempt row w) as (b & w1 & -> & _).
      rewrite run_mbind, run_upd, run_mbind, run_upd.
      match goal with |- context [import_rows _ _ _ _ _ _ _ ?st'] =>
        match goal with |- context [run e _ ?w2] => destruct (IH (i + 1) st' w2) as (w' & -> & H1 & H2 & H3) end end;
        [by autorewrite with world..|].
      exists w'. split; [done|]. unfold total in *. destruct b; cbn in H1, H2; lia.
Qed.
End ImportRun.

Lemma dirty_suffix headers rows mapping i suffix :
  (forall k row, suffix !! k = Some row -> rows !! (i + k)%nat = Some row) -> length rows = (i + length suffix)%nat ->
  let per_row := validate_rows 0 rows headers mapping ∅ in
  dirty_from (concat per_row) (Z.of_nat i) suffix
  = count (fun errs => negb (bool_decide (length errs = 0%nat))) (drop i per_row).
Proof.
  intros Hs Hlen per_row. revert i Hs Hlen. induction suffix as [|row suffix IH]; intros i Hs Hlen.
  - cbn [dirty_from]. rewrite drop_ge; [done|]. unfold per_row. rewrite validate_rows_length. cbn in Hlen. lia.
  - destruct (lookup_lt_is_Some_2 per_row i) as [errs He].
    { unfold per_row. rewrite validate_rows_length. cbn in Hlen. lia. }
    rewrite (drop_S per_row errs i He). cbn [dirty_from]. unfold per_row at 1. rewrite (dirty_test headers mapping rows i errs He).
    replace (Z.of_nat i + 1) with (Z.of_nat (S i)) by lia. rewrite IH.
    + unfold count. cbn [List.filter]. destruct (negb _); cbn [length]; lia.
    + intros k r Hk. replace (S i + k)%nat with (i + S k)%nat by lia. by apply Hs.
    + cbn in Hlen. lia.
Qed.

Lemma count_split {A} (P : A -> bool) l : count (fun x => negb (P x)) l = Z.of_nat (length l) - count P l.
Proof. unfold count. induction l as [|x l IH]; [done|]. cbn [List.filter length]. destruct (P x); cbn [negb length] in *; lia. Qed.

(** What may be asked of the users' address. *)
Definition clean_request API_BASE headers rows mapping (o : obs) : Prop :=
  match o with
  | ObsFetch rq =>
      rq_url rq = API_BASE +:+ "/api/v1/users" ->
      exists k row email, rows !! k = Some row
        /\ validate_rows 0 rows headers mapping ∅ !! k = Some []
        /\ row_ok headers mapping row email
        /\ rq_body rq = Some (stringify (user_body (mapped headers row mapping)))
  | _ => True
  end.

Lemma tame_import API_BASE TENANT_ID headers rows mapping i suffix st :
  (forall k row, suffix !! k = Some row -> rows !! (i + k)%nat = Some row) ->
  tame (fun _ => True) (clean_request API_BASE headers rows mapping)
    (import_rows API_BASE TENANT_ID headers mapping (concat (validate_rows 0 rows headers mapping ∅)) (Z.of_nat i) suffix st).
Proof.
  revert i st. induction suffix as [|row suffix IH]; intros i st Hs; [done|]. cbn [import_rows].
  assert (forall st', tame (fun _ => True) (clean_request API_BASE headers rows mapping)
    (import_rows API_BASE TENANT_ID headers mapping (concat (validate_rows 0 rows headers mapping ∅)) (Z.of_nat i + 1) suffix st'))
    as Hrest.
  { intros st'. replace (Z.of_nat i + 1) with (Z.of_nat (S i)) by lia. apply IH. intros k r Hk.
    replace (S i + k)%nat with (i + S k)%nat by lia. by apply Hs. }
  specialize (Hs 0%nat row eq_refl) as Hrow. rewrite Nat.add_0_r in Hrow.
  destruct (lookup_lt_is_Some_2 (validate_rows 0 rows headers mapping ∅) i) as [errs He].
  { rewrite validate_rows_length. by eapply lookup_lt_Some. }
  rewrite (dirty_test headers mapping rows i errs He). destruct errs as [|x errs]; cbn [length bool_decide negb].
  - rewrite bool_decide_true by done. cbn [negb]. apply tame_bind.
    + apply tame_try; [|done]. apply tame_bind; [|done]. unfold create_user. apply tame_apiFetch; [|intros r Hu|done].
      * intros hs _. destruct (clean_unseen _ _ _ _ _ _ _ He Hrow) as (email & Hok & _). by exists i, row, email.
      * unfold refresh_request in Hu. cbn in Hu. by apply str_app_inj_r in Hu.
    + intros b. apply tame_bind; [by apply tame_upd|intros _]. apply tame_bind; [by apply tame_upd|done].
  - rewrite bool_decide_false by done. cbn [negb]. apply tame_bind; [by apply tame_upd|intros _].
    apply tame_bind; [by apply tame_upd|done].
Qed.

(** ** Mappings and dry runs *)

(** After a choice the field belongs to that column alone. *)
Lemma change_mapping_exclusive h f m h' :
  f <> "" -> change_mapping h f m !! h' = Some f <-> h' = h.
Proof.
  intros Hf. unfold change_mapping. rewrite eqb_str_false by done. split.
  - intros H. destruct (decide (h = h')) as [|Hne]; [done|].
    rewrite lookup_insert_ne in H by done. apply map_lookup_filter_Some in H as [_ H]. by cbn in H.
  - intros ->. apply lookup_insert_eq.
Qed.

(** The dry run counts every row once as valid or with errors. *)
Lemma dry_run_accounts headers rows mapping :
  valid (full_validation headers rows mapping)
  + count (fun errs => negb (bool_decide (length errs = 0%nat))) (validate_rows 0 rows headers mapping ∅)
  = Z.of_nat (length rows).
Proof. rewrite count_split, validate_rows_length. unfold full_validation. cbn [valid]. lia. Qed.

(** Fields other than these are mapped, shown and validated, and sent to nobody. *)
Lemma unsent_fields k v m :
  ~ In k ["email"; "display_name"; "first_name"; "last_name"; "phone"] -> user_body (<[k := v]> m) = user_body m.
Proof.
  intros Hk. unfold user_body. cbn in Hk. rewrite !(lookup_insert_ne m k) by (intros ->; tauto). done.
Qed.

(** The result of a dry run outlives the mapping it was made with. *)
Lemma stale_dry_run (e : env) h f w :
  validationResult (w_st (run e (handleMappingChange h f) w).2) = validationResult (w_st w).
Proof. unfold handleMappingChange. rewrite run_upd. cbn [snd]. by autorewrite with world. Qed.

(** A user exported without a telephone number comes back with a quote for one. *)
Example reimported_phone :
  let '(headers, rows) := parseCsvText (export_users [User "ada" "ada@example.org" "Ada" "" "" "2026"]) in
  map (fun row => mapped headers row (autoDetectMapping headers) !! "phone") rows = [Some (String dquote "")].
Proof. vm_compute. reflexivity. Qed.

(** A row that fails for another reason still takes its address: the valid row after it is
    skipped as its duplicate, and the user is not created at all. *)
Example shadowed_by_invalid :
  let mapping := {["mail" := "email"; "name" := "display_name"]} : ColumnMap in
  map (map message) (validate_rows 0 [["a@b.c"; ""]; ["a@b.c"; "Ada"]] ["mail"; "name"] mapping ∅)
  = [["Missing required field: Display Name"]; ["Duplicate email: a@b.c"]].
Proof. vm_compute. reflexivity. Qed.

(** ** Properties *)

(** Cells that survive: without outer blanks, and not of quotes alone. *)
Definition lossless (v : string) : Prop := trim v = v /\ all_quotes v = false.

Lemma lossless_read cells : Forall lossless cells -> map (fun v => trim (misread v)) cells = cells.
Proof.
  induction 1 as [|v cells [Ht Hq] Hc IH]; [done|]. cbn [map]. by rewrite misread_spec, Hq, Ht, IH.
Qed.

Lemma lossless_rows rows : Forall (Forall lossless) rows -> map (map (fun v => trim (misread v))) rows = rows.
Proof. induction 1 as [|r rows Hr Hrs IH]; [done|]. cbn [map]. by rewrite lossless_read, IH. Qed.

(** C20. The wizard reads back what the exports of the console write when no cell holds a
    newline (one that does is split into rows, [two_lines_split]): every quote, comma and number of columns survives, the outer blanks of a cell
    are lost, and a cell of quotes alone, the empty cell among them, gains a quote.  So cells
    that are neither blank at an end nor empty nor quotes come back as they were, and an
    empty one never does. *)
Theorem csv_read_back headers rows :
  headers <> [] -> Forall (fun r => r <> []) rows ->
  Forall (Forall (fun v => lacks newline v = true)) (headers :: rows) ->
  parseCsvText (csv_table headers rows)
    = (map (fun v => trim (misread v)) headers, map (map (fun v => trim (misread v))) rows)
  /\ (Forall (Forall lossless) (headers :: rows) -> parseCsvText (csv_table headers rows) = (headers, rows))
  /\ (forall i row k, rows !! i = Some row -> row !! k = Some "" ->
      ((parseCsvText (csv_table headers rows)).2 !! i) ≫= (fun r => r !! k) = Some (String dquote "")).
Proof.
  intros Hh Hr Hl. assert (parseCsvText (csv_table headers rows)
    = (map (fun v => trim (misread v)) headers, map (map (fun v => trim (misread v))) rows)) as Hp.
  { unfold csv_table. cbn [map]. rewrite parse_tight.
    - rewrite parse_row, map_map by done. f_equal. apply map_ext_in. intros r Hin. apply parse_row.
      rewrite Forall_forall in Hr. by apply Hr, list_elem_of_In.
    - apply Forall_cons in Hl as [Hlh Hlr]. apply Forall_cons. split; [by apply row_tight|].
      apply Forall_map. rewrite Forall_forall in *. intros r Hin. apply row_tight; auto. }
  split_and!; [done| |].
  - intros Hc. apply Forall_cons in Hc as [Hch Hcr]. by rewrite Hp, lossless_read, lossless_rows.
  - intros i row k Hi Hk. rewrite Hp. cbn [snd]. rewrite list_lookup_fmap, Hi. cbn.
    by rewrite list_lookup_fmap, Hk.
Qed.

(** An import runs to its end whatever the server answers, accounts for every row, and
    attempts exactly the rows the dry run announced as valid.  Every user it asks the server
    to create is the content of a row with a well-formed address, a name that is not blank,
    and an address no other such row has, whatever the case of its letters. *)
Lemma import_outcome API_BASE TENANT_ID (e : env) headers rows mapping s l :
  headers <> [] -> rows <> [] -> importStats s = Stats 0 0 0 ->
  exists w', run e (startImport API_BASE TENANT_ID headers mapping (allRowErrors headers rows mapping) rows) (page s l)
             = (Done tt, w')
  /\ importStatus (w_st w') = done_ /\ importProgress (w_st w') = Z.of_nat (length rows)
  /\ total (importStats (w_st w')) = Z.of_nat (length rows)
  /\ created (importStats (w_st w')) + failed (importStats (w_st w')) = valid (full_validation headers rows mapping)
  /\ (forall rq, In (ObsFetch rq) (w_trace w') -> rq_url rq = API_BASE +:+ "/api/v1/users" ->
      exists k row email, rows !! k = Some row /\ row_ok headers mapping row email
        /\ rq_body rq = Some (stringify (user_body (mapped headers row mapping)))
        /\ forall k' row' email', k' <> k -> rows !! k' = Some row' ->
           validate_rows 0 rows headers mapping ∅ !! k' = Some [] -> row_ok headers mapping row' email' ->
           to_lower email' <> to_lower email).
Proof.
  intros Hh Hr Hst. assert (allRowErrors headers rows mapping = concat (validate_rows 0 rows headers mapping ∅)) as ->
    by by destruct headers, rows.
  set (w0 := set_st (setImportProgress 0) (set_st (setImportStatus importing) (page s l))).
  destruct (run_import_rows e API_BASE TENANT_ID headers mapping (concat (validate_rows 0 rows headers mapping ∅)) 0 rows
    (Stats 0 0 0) w0) as (w1 & Hrun & Ht & Hs & Hp); [done..|].
  exists (set_st (setImportStatus done_) w1). split_and!.
  - unfold startImport. rewrite run_mbind, run_upd, run_mbind, run_upd, run_mbind. fold w0. by rewrite Hrun, run_upd.
  - by autorewrite with world.
  - autorewrite with world. cbn. by rewrite Hp.
  - autorewrite with world. cbn [importStats setImportStatus]. by rewrite Ht.
  - autorewrite with world. cbn [importStats setImportStatus]. revert Hs.
    pose proof (dirty_suffix headers rows mapping 0 rows (fun _ _ H => H) eq_refl) as Hd. cbn zeta in Hd.
    change (Z.of_nat 0) with 0 in Hd. rewrite Hd, drop_0, count_split, validate_rows_length. unfold total in Ht. cbn [full_validation valid created skipped failed] in *. lia.
  - intros rq Hin Hu. rewrite w_trace_set_st in Hin.
    pose proof (tame_run _ _ e _ w0 (tame_import API_BASE TENANT_ID headers rows mapping 0 rows (Stats 0 0 0) (fun _ _ H => H)))
      as Hinv. change (Z.of_nat 0) with 0 in Hinv. rewrite Hrun in Hinv. destruct Hinv as [_ Hinv]; [by split; [|constructor]|].
    cbn [snd] in Hinv. rewrite Forall_forall in Hinv. apply list_elem_of_In in Hin. specialize (Hinv _ Hin Hu).
    destruct Hinv as (k & row & email & Hk & Hc & Hok & Hb). exists k, row, email. split_and!; [done..|].
    intros k' row' email' Hne Hk' Hc' Hok'. destruct (Nat.lt_total k k') as [H|[->|H]]; [|done|].
    + apply not_eq_sym. by apply (clean_rows_distinct headers mapping 0 rows ∅ k k' row row').
    + by apply (clean_rows_distinct headers mapping 0 rows ∅ k' k row' row).
Qed.

(** ** Witnesses *)

(** A cell of two lines, which the exports write in quotes, is read as two rows. *)
Example two_lines_split :
  parseCsvText (csv_table ["note"] [["one" +:+ String newline "two"]]) = (["note"], [["one"]; ["two"]]).
Proof. vm_compute. reflexivity. Qed.

Lemma csv_read_back_witness :
  parseCsvText (csv_table ["name"; "note"] [["Ada"; "a,b"]; ["Bob"; "says " +:+ String dquote ("hi" +:+ String dquote "")]])
  = (["name"; "note"], [["Ada"; "a,b"]; ["Bob"; "says " +:+ String dquote ("hi" +:+ String dquote "")]]).
Proof.
  apply (csv_read_back ["name"; "note"] [["Ada"; "a,b"]; ["Bob"; "says " +:+ String dquote ("hi" +:+ String dquote "")]]);
    [discriminate|repeat constructor; discriminate|repeat constructor|].
  repeat (apply List.Forall_cons || apply List.Forall_nil); split; vm_compute; reflexivity.
Defined.

Definition demo_mapping : ColumnMap := {["mail" := "email"; "name" := "display_name"]}.
Definition demo_rows : list (list string) := [["ada@example.org"; "Ada"]; ["nobody"; "Bob"]; ["ADA@example.org"; "Again"]].

Lemma import_outcome_witness :
  exists w', run (const_env (Some (Response 200 "{}")) 0)
               (startImport "https://api" "t" ["mail"; "name"] demo_mapping
                 (allRowErrors ["mail"; "name"] demo_rows demo_mapping) demo_rows) (page wizard_init ∅) = (Done tt, w')
  /\ total (importStats (w_st w')) = 3 /\ created (importStats (w_st w')) + failed (importStats (w_st w')) = 1.
Proof.
  destruct (import_outcome "https://api" "t" (const_env (Some (Response 200 "{}")) 0) ["mail"; "name"] demo_rows demo_mapping
    wizard_init ∅) as (w' & Hr & _ & _ & Ht & Hc & _); [discriminate|discriminate|reflexivity|].
  exists w'. split; [exact Hr|]. split; [exact Ht|]. rewrite Hc. vm_compute. reflexivity.
Defined.
