(* ===== verification/Parents.v ===== *)
(** * Parent pointers

    Organizations and roles come from the server as flat lists whose entries name their
    parent.  A missing parent is the empty text, a parent that is not listed counts as none.
    Keys are distinct where a lemma says so; the pointers may form cycles. *)

From S2P Require Import Prelude.

Lemma NoDup_map_inj {A B} (f : A -> B) l x y :
  NoDup (map f l) -> In x l -> In y l -> f x = f y -> x = y.
Proof.
  induction l as [|z l IH]; [done|]. cbn. intros Hn Hx Hy E. apply NoDup_cons in Hn as [Hz Hn].
  destruct Hx as [->|Hx], Hy as [->|Hy]; [done|..|by apply IH].
  - destruct Hz. rewrite E. apply list_elem_of_In. by apply in_map.
  - destruct Hz. rewrite <- E. apply list_elem_of_In. by apply in_map.
Qed.

Section Parents.
Context {A : Type} (key parent : A -> string).

Definition find_key (l : list A) (x : string) : option A := List.find (fun o => String.eqb (key o) x) l.

(** The listed parent. *)
Definition parent_in (l : list A) (o : A) : option A :=
  if String.eqb (parent o) "" then None else find_key l (parent o).

Fixpoint nth_parent (l : list A) (j : nat) (o : A) : option A :=
  match j with O => Some o | S j' => parent_in l o ≫= nth_parent l j' end.

Definition rooted_in (l : list A) (k : nat) (o : A) : Prop :=
  exists r, nth_parent l k o = Some r /\ parent_in l r = None.

(** Everything has a root above it. *)
Definition forest (l : list A) : Prop := forall o, In o l -> exists k, rooted_in l k o.

Section Listing.
Context (l : list A).
Hypothesis (Hkeys : NoDup (map key l)).

Lemma find_key_Some x o : find_key l x = Some o <-> In o l /\ key o = x.
Proof.
  unfold find_key. split.
  - intros H. apply find_some in H as [Hin Hx]. apply String.eqb_eq in Hx. done.
  - intros [Hin <-]. destruct (List.find _ l) as [o'|] eqn:E.
    + apply find_some in E as [Hin' Hx]. apply String.eqb_eq in Hx. f_equal. by eapply NoDup_map_inj.
    + apply (find_none _ _ E) in Hin. by rewrite eqb_refl_str in Hin.
Qed.

Lemma parent_In o p : parent_in l o = Some p -> In p l.
Proof. unfold parent_in. destruct (String.eqb _ _); [done|]. by intros [H _]%find_key_Some. Qed.

Lemma nth_parent_In j o a : In o l -> nth_parent l j o = Some a -> In a l.
Proof.
  revert o. induction j as [|j IH]; cbn; intros o Hin H; [by injection H as <-|].
  destruct (parent_in l o) as [p|] eqn:E; [|done]. cbn in H. apply (IH p); [by eapply parent_In|done].
Qed.

Lemma nth_parent_add i j o : nth_parent l (i + j) o = nth_parent l i o ≫= nth_parent l j.
Proof. revert o. induction i as [|i IH]; intros o; [done|]. cbn. destruct (parent_in l o); [apply IH|done]. Qed.

Lemma rooted_unique k k' o : rooted_in l k o -> rooted_in l k' o -> k = k'.
Proof.
  assert (forall k k', (k < k')%nat -> rooted_in l k o -> rooted_in l k' o -> False) as H.
  { intros i i' Hlt (r & Hr & Hu) (r' & Hr' & _). replace i' with (i + S (i' - S i))%nat in Hr' by lia.
    rewrite nth_parent_add, Hr in Hr'. cbn in Hr'. by rewrite Hu in Hr'. }
  intros H1 H2. destruct (Nat.lt_total k k') as [Hlt|[->|Hlt]]; [|done|]; by destruct (H _ _ Hlt).
Qed.

Lemma rooted_up k o p : parent_in l o = Some p -> rooted_in l k p -> rooted_in l (S k) o.
Proof. intros Hu (r & Hr & Hn). exists r. cbn. by rewrite Hu. Qed.

Lemma rooted_nth i k o a : rooted_in l k o -> nth_parent l i o = Some a -> (i <= k)%nat /\ rooted_in l (k - i) a.
Proof.
  intros (r & Hr & Hn) Ha. destruct (le_lt_dec i k) as [Hle|Hlt].
  - split; [done|]. replace k with (i + (k - i))%nat in Hr by lia. rewrite nth_parent_add, Ha in Hr. by exists r.
  - replace i with (k + S (i - S k))%nat in Ha by lia. rewrite nth_parent_add, Hr in Ha. cbn in Ha. by rewrite Hn in Ha.
Qed.

(** A chain of ancestors has no repetition, so it is no longer than the listing. *)
Lemma rooted_bound k o : In o l -> rooted_in l k o -> (k < length l)%nat.
Proof.
  intros Ho Hr.
  set (chain := map (fun i => default o (nth_parent l i o)) (seq 0 (S k))).
  assert (forall i, (i <= k)%nat -> exists a, nth_parent l i o = Some a /\ In a l /\ rooted_in l (k - i) a) as Hc.
  { intros i Hi. destruct Hr as (r & Hr & Hn). replace k with (i + (k - i))%nat in Hr by lia.
    rewrite nth_parent_add in Hr. destruct (nth_parent l i o) as [a|] eqn:E; [|done].
    exists a. split_and!; [done|by eapply nth_parent_In|]. by exists r. }
  assert (List.NoDup chain) as Hnd.
  { apply Finite.Injective_map_NoDup_in; [|apply seq_NoDup]. intros i j Hi Hj E.
    apply in_seq in Hi, Hj. destruct (Hc i) as (a & Ha & _ & Hra); [lia|]. destruct (Hc j) as (b & Hb & _ & Hrb); [lia|].
    rewrite Ha, Hb in E. cbn in E. subst b. pose proof (rooted_unique _ _ _ Hra Hrb). lia. }
  assert (incl chain l) as Hincl.
  { intros a (i & <- & Hi)%in_map_iff. apply in_seq in Hi. destruct (Hc i) as (b & -> & Hb & _); [lia|done]. }
  pose proof (NoDup_incl_length Hnd Hincl) as H. unfold chain in H. rewrite length_map, length_seq in H. lia.
Qed.

(** Two organizations at the same height share nothing below them. *)
Lemma apart k o o' x i j :
  rooted_in l k o -> rooted_in l k o' -> nth_parent l i x = Some o -> nth_parent l j x = Some o' -> o = o'.
Proof.
  intros Hr Hr' Hi Hj. assert (rooted_in l (i + k) x) as Hx.
  { destruct Hr as (r & Hr & Hn). exists r. by rewrite nth_parent_add, Hi. }
  assert (rooted_in l (j + k) x) as Hx'.
  { destruct Hr' as (r & Hr' & Hn). exists r. by rewrite nth_parent_add, Hj. }
  pose proof (rooted_unique _ _ _ Hx Hx'). replace j with i in Hj by lia. rewrite Hi in Hj. by injection Hj.
Qed.

Lemma find_key_rev x : find_key (rev l) x = find_key l x.
Proof.
  destruct (find_key l x) as [o|] eqn:E.
  - apply find_key_Some in E as [Hin <-]. unfold find_key. destruct (List.find _ (rev l)) as [o'|] eqn:E'.
    + apply find_some in E' as [Hin' Hx]. apply in_rev in Hin'. apply String.eqb_eq in Hx. f_equal. by eapply NoDup_map_inj.
    + apply in_rev in Hin. apply (find_none _ _ E') in Hin. by rewrite eqb_refl_str in Hin.
  - unfold find_key in *. destruct (List.find _ (rev l)) as [o'|] eqn:E'; [|done].
    apply find_some in E' as [Hin' Hx]. apply in_rev in Hin'. by rewrite (find_none _ _ E o' Hin') in Hx.
Qed.

(** In a forest the depth is a rank that grows from every parent to its children. *)
Fixpoint height (fuel : nat) (o : A) : nat :=
  match fuel with
  | O => O
  | S fuel' => match parent_in l o with Some p => S (height fuel' p) | None => O end
  end.

Lemma height_rooted k : forall fuel o, rooted_in l k o -> (k <= fuel)%nat -> height fuel o = k.
Proof.
  induction k as [|k IH]; intros fuel o (r & Hr & Hu) Hf.
  - injection Hr as ->. destruct fuel; [done|]. cbn. by rewrite Hu.
  - destruct fuel as [|fuel]; [lia|]. cbn in *. destruct (parent_in l o) as [p|]; [|done]. f_equal. apply IH; [by exists r|lia].
Qed.

Lemma forest_rank : forest l -> exists h : string -> nat, forall o, In o l -> parent o <> "" -> (h (parent o) < h (key o))%nat.
Proof.
  intros Hf. exists (fun x => match find_key l x with Some o => S (height (length l) o) | None => O end).
  intros o Ho Hp. assert (find_key l (key o) = Some o) as -> by by apply find_key_Some.
  destruct (find_key l (parent o)) as [p|] eqn:E; [|lia].
  assert (parent_in l o = Some p) as Hu by (unfold parent_in; by rewrite eqb_str_false).
  assert (In p l) as Hin by by eapply parent_In. destruct (Hf p Hin) as (k & Hk).
  pose proof (rooted_up _ _ _ Hu Hk) as Hk'. pose proof (rooted_bound _ _ Ho Hk').
  rewrite (height_rooted k), (height_rooted (S k)) by (done || lia). lia.
Qed.
End Listing.
End Parents.
