(* ===== verification/JsSort.v ===== *)
(** * Sorting as JavaScript does

    [Array.prototype.sort] is stable: with a comparison that is a total preorder its result is
    determined, whatever the algorithm.  It is computed by insertion here. *)

From S2P Require Import Prelude JsString.
From Stdlib Require Export Sorted.

Lemma find_filter {A} (Q : A -> bool) l : List.find Q l = hd_error (List.filter Q l).
Proof. induction l as [|x l IH]; [done|]. cbn. by destruct (Q x). Qed.

Lemma find_sub {A} (P Q : A -> bool) l x :
  List.find P l = Some x -> Q x = true -> (forall y, Q y = true -> P y = true) -> List.find Q l = Some x.
Proof.
  intros H HQ Hsub. induction l as [|y l IH]; [done|]. cbn in *. destruct (P y) eqn:E.
  - injection H as ->. by rewrite HQ.
  - destruct (Q y) eqn:Ey; [by rewrite (Hsub y Ey) in E|by apply IH].
Qed.

Section Sort.
Context {A : Type} (le : A -> A -> bool).

Fixpoint insert_sorted (x : A) (l : list A) : list A :=
  match l with
  | [] => [x]
  | y :: l' => if le x y then x :: l else y :: insert_sorted x l'
  end.

Definition stable_sort (l : list A) : list A := foldr insert_sorted [] l.

Lemma insert_perm x l : insert_sorted x l ≡ₚ x :: l.
Proof.
  induction l as [|y l IH]; [done|]. cbn. destruct (le x y); [done|]. rewrite IH. apply Permutation_swap.
Qed.

Lemma sort_perm l : stable_sort l ≡ₚ l.
Proof. induction l as [|x l IH]; [done|]. cbn. by rewrite insert_perm, IH. Qed.

Lemma sort_In x l : In x (stable_sort l) <-> In x l.
Proof. rewrite <- !list_elem_of_In. by rewrite sort_perm. Qed.

Hypothesis (le_trans : forall x y z, le x y = true -> le y z = true -> le x z = true)
  (le_total : forall x y, le x y = true \/ le y x = true).

Notation sorted := (StronglySorted (fun x y => le x y = true)).

Lemma insert_sorted_sorted x l : sorted l -> sorted (insert_sorted x l).
Proof.
  induction 1 as [|y l Hl IH Hy]; [repeat constructor|]. cbn. destruct (le x y) eqn:E.
  - constructor; [by constructor|]. constructor; [done|]. eapply List.Forall_impl; [|exact Hy]. intros z Hz. by eapply le_trans.
  - constructor; [done|]. apply List.Forall_forall. intros z Hz. rewrite List.Forall_forall in Hy.
    apply list_elem_of_In in Hz. rewrite insert_perm in Hz. apply elem_of_cons in Hz as [->|Hz].
    + by destruct (le_total x y) as [H|H]; [rewrite E in H|].
    + by apply Hy, list_elem_of_In.
Qed.

Lemma sort_sorted l : sorted (stable_sort l).
Proof. induction l as [|x l IH]; [constructor|]. by apply insert_sorted_sorted. Qed.

(** Elements that compare equal keep their order. *)
Lemma insert_filter (P : A -> bool) x l :
  (forall y, P x = true -> P y = true -> le x y = true) ->
  List.filter P (insert_sorted x l) = List.filter P (x :: l).
Proof.
  intros H. induction l as [|y l IH]; [done|]. cbn. destruct (le x y) eqn:E; [done|]. cbn in *. rewrite IH.
  destruct (P x) eqn:Ex, (P y) eqn:Ey; try done. by rewrite (H y eq_refl Ey) in E.
Qed.

Lemma sort_stable (P : A -> bool) l :
  (forall x y, P x = true -> P y = true -> le x y = true) -> List.filter P (stable_sort l) = List.filter P l.
Proof.
  intros H. induction l as [|x l IH]; [done|]. cbn [stable_sort foldr]. rewrite insert_filter; [|by intros y; apply H].
  cbn. by rewrite <- IH.
Qed.

(** The first element of the sorted list with a property is one of the least with it. *)
Lemma find_sorted (P : A -> bool) l x :
  sorted l -> List.find P l = Some x -> In x l /\ P x = true /\ forall y, In y l -> P y = true -> le x y = true.
Proof.
  induction 1 as [|z l Hl IH Hz]; [done|]. cbn. destruct (P z) eqn:E.
  - intros [= ->]. split_and!; [by left|done|]. intros y [<-|Hy] _; [by destruct (le_total x x)|].
    rewrite List.Forall_forall in Hz. by apply Hz.
  - intros H. destruct (IH H) as (H1 & H2 & H3). split_and!; [by right|done|]. intros y [<-|Hy] Hp; [congruence|by apply H3].
Qed.

Lemma find_sort (P : A -> bool) l x :
  List.find P (stable_sort l) = Some x -> In x l /\ P x = true /\ forall y, In y l -> P y = true -> le x y = true.
Proof.
  intros H. apply find_sorted in H as (H1 & H2 & H3); [|apply sort_sorted]. rewrite sort_In in H1.
  split_and!; [done..|]. intros y Hy. apply H3. by apply sort_In.
Qed.

Lemma find_sort_None (P : A -> bool) l : List.find P (stable_sort l) = None -> forall y, In y l -> P y = false.
Proof. intros H y Hy. apply (find_none _ _ H). by apply sort_In. Qed.
(** Among those that compare equal it is the first of the unsorted list. *)
Lemma find_sort_first (P Q : A -> bool) l x :
  List.find P (stable_sort l) = Some x -> Q x = true -> (forall y, Q y = true -> P y = true) ->
  (forall y z, Q y = true -> Q z = true -> le y z = true) -> List.find Q l = Some x.
Proof.
  intros H HQ HQP Hle. rewrite find_filter, <- (sort_stable Q l Hle), <- find_filter. by apply (find_sub P).
Qed.
End Sort.

(** Only the comparisons of elements of the list count. *)
Lemma stable_sort_ext {A} (le le' : A -> A -> bool) l :
  (forall x y, In x l -> In y l -> le x y = le' x y) -> stable_sort le l = stable_sort le' l.
Proof.
  induction l as [|x l IH]; intros H; [done|]. cbn [stable_sort foldr]. fold (stable_sort le l) (stable_sort le' l).
  rewrite <- IH by (intros y z Hy Hz; apply H; by right).
  assert (forall y, In y (stable_sort le l) -> le x y = le' x y) as Hx.
  { intros y Hy. apply sort_In in Hy. apply H; [by left|by right]. }
  clear IH. induction (stable_sort le l) as [|y m IHm]; [done|]. cbn. rewrite Hx by by left. destruct (le' x y); [done|].
  f_equal. apply IHm. intros z Hz. apply Hx. by right.
Qed.

Lemma StronglySorted_on {A} (R R' : A -> A -> Prop) l :
  (forall x y, In x l -> In y l -> R x y -> R' x y) -> StronglySorted R l -> StronglySorted R' l.
Proof.
  intros H Hs. induction Hs as [|x l Hl IH Hx]; [constructor|]. constructor.
  - apply IH. intros y z Hy Hz. apply H; by right.
  - apply List.Forall_forall. intros y Hy. rewrite List.Forall_forall in Hx. apply H; [by left|by right|by apply Hx].
Qed.

(** ** Texts are compared by their code units *)

Fixpoint str_ltb (s t : string) : bool :=
  match s, t with
  | _, EmptyString => false
  | EmptyString, String _ _ => true
  | String a s', String b t' =>
      if (code a <? code b)%nat then true else if (code b <? code a)%nat then false else str_ltb s' t'
  end.

Lemma str_ltb_asym s : forall t, str_ltb s t = true -> str_ltb t s = false.
Proof.
  induction s as [|a s IH]; intros [|b t] H; cbn [str_ltb] in *; try done.
  destruct (Nat.ltb_spec (code a) (code b)), (Nat.ltb_spec (code b) (code a)); try done; [lia|by apply IH].
Qed.

Lemma str_ltb_neg_trans s : forall t u, str_ltb s t = false -> str_ltb t u = false -> str_ltb s u = false.
Proof.
  induction s as [|a s IH]; intros [|b t] [|c u] H1 H2; cbn [str_ltb] in *; try done.
  destruct (Nat.ltb_spec (code a) (code b)), (Nat.ltb_spec (code b) (code a)),
    (Nat.ltb_spec (code b) (code c)), (Nat.ltb_spec (code c) (code b)),
    (Nat.ltb_spec (code a) (code c)), (Nat.ltb_spec (code c) (code a)); try done; try lia.
  by apply (IH t u).
Qed.
