(* ===== verification/JsNumber.v ===== *)
(** * Numerals

    [parseFloat] reads decimals without exponent, kept as a whole number and a scale;
    [Number] is followed on integers, other numerals counting as text. *)

From S2P Require Import Prelude JsValue JsString.
#[local] Open Scope Z_scope.

(** ** Numerals *)

(** The number [mant / 10^scale]. *)
Record decimal := Dec { mant : Z; scale : nat }.

Definition dec_lt (a b : decimal) : bool :=
  mant a * 10 ^ Z.of_nat (scale b) <? mant b * 10 ^ Z.of_nat (scale a).

Fixpoint digits (acc : Z) (n : nat) (s : string) : Z * nat * string :=
  match s with
  | String c s' => if is_digit c then digits (acc * 10 + (Z.of_nat (code c) - 48)) (S n) s' else (acc, n, s)
  | EmptyString => (acc, n, s)
  end.

Definition sign (s : string) : Z * string :=
  match s with
  | String "-" s' => (-1, s')
  | String "+" s' => (1, s')
  | _ => (1, s)
  end.

Definition parseFloat (s : string) : option decimal :=
  let '(sg, s1) := sign (trim_start s) in
  let '(m, n, r) := digits 0 0 s1 in
  match r with
  | String "." r' =>
      let '(m', k, _) := digits m 0 r' in
      if Nat.eqb (n + k) 0 then None else Some (Dec (sg * m') k)
  | _ => if Nat.eqb n 0 then None else Some (Dec (sg * m) 0)
  end.

(** [parseFloat(s) || 0]. *)
Definition float_or_0 (s : string) : decimal := default (Dec 0 0) (parseFloat s).

(** [isNaN(Number(s)) ? s : Number(s)], an integer or the text. *)
Definition number_or_text (s : string) : js :=
  let '(sg, r) := sign (trim s) in
  let '(m, n, rest) := digits 0 0 r in
  if String.eqb (trim s) "" then JNum 0
  else if String.eqb rest "" && negb (Nat.eqb n 0) then JNum (sg * m) else JStr s.

(** [n || d] of what [Number] reads: a whole number, or [None] for NaN. *)
Definition num_or (d : Z) (n : option Z) : Z :=
  match n with Some z => if z =? 0 then d else z | None => d end.

(** [Number(s) || d] of a text that is a whole number or none at all. *)
Definition number_or (d : Z) (s : string) : Z :=
  num_or d (match number_or_text s with JNum z => Some z | _ => None end).

Example parseFloat_reads :
  parseFloat " 12.50kg" = Some (Dec 1250 2) /\ parseFloat "-3" = Some (Dec (-3) 0) /\ parseFloat "x1" = None
  /\ parseFloat ".5" = Some (Dec 5 1) /\ dec_lt (Dec 5 1) (Dec 75 2) = true.
Proof. vm_compute. done. Qed.

Example number_reads :
  map number_or_text ["50"; " 7 "; ""; "CN"; "-1"; "1a"] = [JNum 50; JNum 7; JNum 0; JStr "CN"; JNum (-1); JStr "1a"].
Proof. vm_compute. done. Qed.
