(* ===== verification/JsDate.v ===== *)
(** * Dates of the server

    [new Date(s).getTime()] for the date-times the Go services write (RFC 3339): a date, a
    time, an optional fraction, and "Z" or an offset; a date alone is midnight UTC.  Anything
    else is not a number here; a date-time without offset, which is read in local time, is not
    followed.  Times are milliseconds since 1970. *)

From S2P Require Import Prelude JsValue JsString.
#[local] Open Scope Z_scope.

(** ** The calendar *)

Definition is_leap (y : Z) : bool := (y mod 4 =? 0) && (negb (y mod 100 =? 0) || (y mod 400 =? 0)).

Definition days_in_month (y m : Z) : Z :=
  if m =? 2 then (if is_leap y then 29 else 28)
  else if (m =? 4) || (m =? 6) || (m =? 9) || (m =? 11) then 30 else 31.

Definition valid_date (y m d : Z) : bool := (1 <=? m) && (m <=? 12) && (1 <=? d) && (d <=? days_in_month y m).

(** The days since 1970-01-01; years count from March. *)
Definition days_from_civil (y m d : Z) : Z :=
  let y' := if m <=? 2 then y - 1 else y in
  let m' := if m <=? 2 then m + 9 else m - 3 in
  365 * y' + y' / 4 - y' / 100 + y' / 400 + (153 * m' + 2) / 5 + d - 1 - 719468.

(** The day after. *)
Definition next_day (y m d : Z) : Z * Z * Z :=
  if d <? days_in_month y m then (y, m, d + 1) else if m <? 12 then (y, m + 1, 1) else (y + 1, 1, 1).

(** ** Reading *)

(** [n] decimal digits. *)
Fixpoint number (n : nat) (acc : Z) (s : string) : option (Z * string) :=
  match n with
  | O => Some (acc, s)
  | S n' =>
      match s with
      | String c s' => if is_digit c then number n' (acc * 10 + (Z.of_nat (code c) - 48)) s' else None
      | EmptyString => None
      end
  end.

Definition expect (c : Ascii.ascii) (s : string) : option string :=
  match s with String c' s' => if Ascii.eqb c c' then Some s' else None | EmptyString => None end.

(** The digits of a fraction: milliseconds, the rest cut off. *)
Fixpoint fraction (weight acc : Z) (s : string) : Z * string :=
  match s with
  | String c s' => if is_digit c then fraction (weight / 10) (acc + weight * (Z.of_nat (code c) - 48)) s' else (acc, s)
  | EmptyString => (acc, s)
  end.

Definition zone (s : string) : option Z :=
  match s with
  | String "Z" "" => Some 0
  | String c r =>
      '(h, r1) ← number 2 0 r; r2 ← expect ":" r1; '(m, r3) ← number 2 0 r2;
      if String.eqb r3 "" && (h <=? 23) && (m <=? 59) then
        (if Ascii.eqb c "+" then Some (h * 60 + m) else if Ascii.eqb c "-" then Some (- (h * 60 + m)) else None)
      else None
  | EmptyString => None
  end.

Definition time_of (s : string) : option Z :=
  '(y, r1) ← number 4 0 s; r2 ← expect "-" r1; '(mo, r3) ← number 2 0 r2; r4 ← expect "-" r3; '(d, r5) ← number 2 0 r4;
  if negb (valid_date y mo d) then None
  else
    let day := days_from_civil y mo d * 86400000 in
    if String.eqb r5 "" then Some day
    else
      r6 ← expect "T" r5; '(h, r7) ← number 2 0 r6; r8 ← expect ":" r7; '(mi, r9) ← number 2 0 r8;
      r10 ← expect ":" r9; '(se, r11) ← number 2 0 r10;
      let '(ms, r12) := match r11 with String "." r => fraction 100 0 r | _ => (0, r11) end in
      offset ← zone r12;
      if (h <=? 23) && (mi <=? 59) && (se <=? 59)
      then Some (day + (h * 60 + mi - offset) * 60000 + se * 1000 + ms) else None.

(** ** Printing *)

(** The date of a day counted from 1970-01-01, by cycles of 400 years that begin in March. *)
Definition civil_of_days (days : Z) : Z * Z * Z :=
  let z := days + 719468 in
  let era := z / 146097 in
  let doe := z mod 146097 in
  let yoe := (doe - doe / 1460 + doe / 36524 - doe / 146096) / 365 in
  let doy := doe - (365 * yoe + yoe / 4 - yoe / 100) in
  let mp := (5 * doy + 2) / 153 in
  let m := if mp <? 10 then mp + 3 else mp - 9 in
  (yoe + 400 * era + (if m <=? 2 then 1 else 0), m, doy - (153 * mp + 2) / 5 + 1).

(** [n] digits, with zeros in front. *)
Fixpoint padded (n : nat) (z : Z) : string :=
  match n with O => "" | S n' => padded n' (z / 10) +:+ string_of_Z (z mod 10) end.

(** [new Date(t).toISOString()], for the years 0 to 9999. *)
Definition toISOString (t : Z) : string :=
  let '(y, m, d) := civil_of_days (t / 86400000) in
  let ms := t mod 86400000 in
  padded 4 y +:+ "-" +:+ padded 2 m +:+ "-" +:+ padded 2 d +:+ "T" +:+ padded 2 (ms / 3600000) +:+ ":"
  +:+ padded 2 (ms / 60000 mod 60) +:+ ":" +:+ padded 2 (ms / 1000 mod 60) +:+ "." +:+ padded 3 (ms mod 1000) +:+ "Z".

(** ** Facts *)

Example iso_reads_back : toISOString 1782901815123 = "2026-07-01T10:30:15.123Z"
  /\ time_of (toISOString 1782901815123) = Some 1782901815123 /\ time_of (toISOString 1709164800000) = Some 1709164800000.
Proof. vm_compute. done. Qed.

(** The cycle of 400 years has 146097 days. *)
Lemma cycle_years doe : 0 <= doe < 146097 ->
  let yoe := (doe - doe / 1460 + doe / 36524 - doe / 146096) / 365 in
  0 <= yoe < 400 /\ 0 <= doe - (365 * yoe + yoe / 4 - yoe / 100) <= 365.
Proof. cbv zeta. intros H. Z.div_mod_to_equations. lia. Qed.

Lemma civil_of_days_spec days : let '(y, m, d) := civil_of_days days in days_from_civil y m d = days.
Proof.
  unfold civil_of_days, days_from_civil. cbv zeta. set (z := days + 719468).
  pose proof (Z.div_mod z 146097 ltac:(lia)) as Ez. pose proof (Z.mod_pos_bound z 146097 eq_refl) as Hdoe.
  apply cycle_years in Hdoe. cbv zeta in Hdoe. revert Ez Hdoe.
  generalize (z / 146097) as era, (z mod 146097) as doe. intros era doe Ez Hdoe.
  set (yoe := (doe - doe / 1460 + doe / 36524 - doe / 146096) / 365) in *. clearbody yoe. destruct Hdoe as [Hy Hd].
  set (doy := doe - (365 * yoe + yoe / 4 - yoe / 100)) in *. set (mp := (5 * doy + 2) / 153).
  assert (0 <= mp < 12) as Hm by (subst mp; clearbody doy; Z.div_mod_to_equations; lia). clearbody mp.
  assert ((yoe + 400 * era) / 4 = yoe / 4 + 100 * era /\ (yoe + 400 * era) / 100 = yoe / 100 + 4 * era
          /\ (yoe + 400 * era) / 400 = era) as (E4 & E100 & E400).
  { split_and!.
    - rewrite <- Z.div_add by lia. f_equal. lia.
    - rewrite <- Z.div_add by lia. f_equal. lia.
    - replace (400 * era) with (era * 400) by lia. rewrite Z.div_add, Z.div_small; lia. }
  destruct (Z.ltb_spec mp 10).
  - replace (mp + 3 <=? 2) with false by lia. rewrite Z.add_0_r, E4, E100, E400. replace (mp + 3 - 3) with mp by lia. lia.
  - replace (mp - 9 <=? 2) with true by lia. replace (yoe + 400 * era + 1 - 1) with (yoe + 400 * era) by lia.
    rewrite E4, E100, E400. replace (mp - 9 + 9) with mp by lia. lia.
Qed.


Example epoch : time_of "1970-01-01T00:00:00Z" = Some 0 /\ time_of "2024-02-29" = Some 1709164800000
  /\ time_of "2026-07-01T12:30:15.123456789+02:00" = Some 1782901815123 /\ time_of "yesterday" = None /\ time_of "2023-02-29" = None.
Proof. vm_compute. done. Qed.

Lemma leap_years y : (if is_leap y then 1 else 0) = (y / 4 - y / 100 + y / 400) - ((y - 1) / 4 - (y - 1) / 100 + (y - 1) / 400).
Proof.
  unfold is_leap. destruct (Z.eqb_spec (y mod 4) 0), (Z.eqb_spec (y mod 100) 0), (Z.eqb_spec (y mod 400) 0); cbn [andb orb negb];
    Z.div_mod_to_equations; lia.
Qed.

(** Computes the sums and quotients of numerals. *)
Ltac fold_numerals :=
  repeat match goal with
    | |- context [Z.add (Zpos ?a) (Zpos ?b)] => let c := eval vm_compute in (Z.add (Zpos a) (Zpos b)) in change (Z.add (Zpos a) (Zpos b)) with c
    | |- context [Z.sub (Zpos ?a) (Zpos ?b)] => let c := eval vm_compute in (Z.sub (Zpos a) (Zpos b)) in change (Z.sub (Zpos a) (Zpos b)) with c
    | |- context [Z.mul (Zpos ?a) (Zpos ?b)] => let c := eval vm_compute in (Z.mul (Zpos a) (Zpos b)) in change (Z.mul (Zpos a) (Zpos b)) with c
    | |- context [Z.mul (Zpos ?a) Z0] => change (Z.mul (Zpos a) Z0) with Z0
    | |- context [Z.add Z0 (Zpos ?b)] => change (Z.add Z0 (Zpos b)) with (Zpos b)
    | |- context [Z.div (Zpos ?a) (Zpos ?b)] => let c := eval vm_compute in (Z.div (Zpos a) (Zpos b)) in change (Z.div (Zpos a) (Zpos b)) with c
    end.

(** The count of days follows the calendar: every valid date is one more than the day before. *)
Lemma next_day_succ y m d :
  valid_date y m d = true ->
  let '(y', m', d') := next_day y m d in
  valid_date y' m' d' = true /\ days_from_civil y' m' d' = days_from_civil y m d + 1.
Proof.
  intros Hv. unfold valid_date in Hv. bool_prop.
  assert (m = 1 \/ m = 2 \/ m = 3 \/ m = 4 \/ m = 5 \/ m = 6 \/ m = 7 \/ m = 8 \/ m = 9 \/ m = 10 \/ m = 11 \/ m = 12) as Hm by lia.
  unfold next_day. destruct (Z.ltb_spec d (days_in_month y m)) as [Hd|Hd].
  - split; [unfold valid_date; rewrite !andb_true_iff, !Z.leb_le; lia|]. unfold days_from_civil. lia.
  - assert (d = days_in_month y m) as -> by lia. clear Hd. pose proof (leap_years y) as Hl.
    destruct_or! Hm; subst m; unfold days_in_month, days_from_civil; cbn -[Z.div Z.mul Z.add Z.sub is_leap]; fold_numerals;
      (split; [unfold valid_date, days_in_month; cbn -[is_leap]; try reflexivity; by destruct (is_leap _)|]);
      cbn -[Z.div Z.mul Z.add Z.sub is_leap]; fold_numerals; try destruct (is_leap y);
      replace (y + 1 - 1) with y by lia; lia.
Qed.
