(* ===== verification/OrgTree.v ===== *)
(** * The organization tree (console/src/app/organizations/tree/page.tsx)

    The page turns the flat list of organizations into a forest whose nodes share the member
    counts of their descendants, and lets one organization be dropped on another.  The nodes
    are objects that the map of [buildTree] and their parents share, so [buildTree] is modelled
    on a store of nodes and read back as a value.  Optional texts are "" when absent: the page
    only tests whether they are truthy.  A listing is read as the interface [Organization]
    declares. *)

From S2P Require Import Prelude Parents JsValue JsString Json Effects ApiClient.
#[local] Open Scope Z_scope.

(** ** Data *)

Record Organization := Org {
  id : string; name : string; path : string; parent_id : string; description : string }.

#[export] Instance organization_eq_dec : EqDecision Organization.
Proof. solve_decision. Defined.

Unset Elimination Schemes.
Inductive OrgNode := Node (org : Organization) (children : list OrgNode) (totalMembers : Z).
Set Elimination Schemes.

Section OrgNode_ind.
Context (P : OrgNode -> Prop).
Hypothesis (Hnode : forall o cs t, Forall P cs -> P (Node o cs t)).

Fixpoint OrgNode_ind (n : OrgNode) : P n :=
  match n with
  | Node o cs t =>
      Hnode o cs t ((fix go cs : Forall P cs :=
        match cs with
        | [] => @List.Forall_nil _ P
        | c :: cs' => @List.Forall_cons _ P _ _ (OrgNode_ind c) (go cs')
        end) cs)
  end.
End OrgNode_ind.

Definition n_org (n : OrgNode) : Organization := let '(Node o _ _) := n in o.
Definition n_id (n : OrgNode) : string := id (n_org n).
Definition n_children (n : OrgNode) : list OrgNode := let '(Node _ cs _) := n in cs.
Definition n_total (n : OrgNode) : Z := let '(Node _ _ t) := n in t.

(** ** buildTree *)

(** A node object; its children are references, named by the key the map has them under. *)
Record cell := Cell { c_org : Organization; c_children : list string; c_total : Z }.
Notation store := (gmap string cell).

(** The first loop. *)
Definition alloc (counts : gmap string Z) (orgs : list Organization) : store :=
  fold_left (fun h o => <[id o := Cell o [] (default 0 (counts !! id o))]> h) orgs ∅.

Definition push_child (c : string) (n : cell) : cell := Cell (c_org n) (c_children n ++ [c]) (c_total n).

(** The second loop: the store and [roots]. *)
Definition link_one (st : store * list string) (o : Organization) : store * list string :=
  let '(h, roots) := st in
  if negb (String.eqb (parent_id o) "") && bool_decide (is_Some (h !! parent_id o))
  then (alter (push_child (id o)) (parent_id o) h, roots)
  else (h, roots ++ [id o]).

Definition link (orgs : list Organization) (h : store) : store * list string :=
  fold_left link_one orgs (h, []).

Definition set_total (t : Z) (n : cell) : cell := Cell (c_org n) (c_children n) t.

(** [propagate]; [None] is the stack overflow of a recursion deeper than [fuel]. *)
Fixpoint propagate (fuel : nat) (h : store) (x : string) : option (store * Z) :=
  match fuel with
  | O => None
  | S fuel' =>
      n ← h !! x;
      '(h', sum) ← foldl (fun acc c =>
          '(h, sum) ← acc; '(h', t) ← propagate fuel' h c; Some (h', sum + t))
        (Some (h, c_total n)) (c_children n);
      Some (alter (set_total sum) x h', sum)
  end.

Definition propagate_all (fuel : nat) (h : store) (roots : list string) : option store :=
  foldl (fun acc x => h ← acc; '(h', _) ← propagate fuel h x; Some h') (Some h) roots.

(** The node a reference stands for. *)
Fixpoint read_node (fuel : nat) (h : store) (x : string) : option OrgNode :=
  match fuel with
  | O => None
  | S fuel' =>
      n ← h !! x;
      cs ← mapM (read_node fuel' h) (c_children n);
      Some (Node (c_org n) cs (c_total n))
  end.

Definition buildTree (orgs : list Organization) (counts : gmap string Z) : option (list OrgNode) :=
  let fuel := S (length orgs) in
  let '(h, roots) := link orgs (alloc counts orgs) in
  h' ← propagate_all fuel h roots;
  mapM (read_node fuel h') roots.

(** ** Searching the tree *)

(** [findNode], depth first. *)
Fixpoint find_in (x : string) (n : OrgNode) : option OrgNode :=
  let '(Node o cs _) := n in
  if String.eqb (id o) x then Some n
  else (fix go cs := match cs with
        | [] => None
        | c :: cs' => match find_in x c with Some found => Some found | None => go cs' end
        end) cs.

Fixpoint findNode (nodes : list OrgNode) (x : string) : option OrgNode :=
  match nodes with
  | [] => None
  | n :: nodes' => match find_in x n with Some found => Some found | None => findNode nodes' x end
  end.

Fixpoint isDescendant (n : OrgNode) (targetId : string) : bool :=
  let '(Node o cs _) := n in String.eqb (id o) targetId || existsb (fun c => isDescendant c targetId) cs.

Definition getSiblings (nodes : list OrgNode) (parentId : string) (excludeId : option string) : list OrgNode :=
  let siblings :=
    if String.eqb parentId "" then nodes
    else match findNode nodes parentId with Some parent => n_children parent | None => [] end in
  List.filter (fun n => match excludeId with Some x => negb (String.eqb (n_id n) x) | None => true end) siblings.

Fixpoint find_index {A} (P : A -> bool) (l : list A) : Z :=
  match l with
  | [] => -1
  | x :: l' => if P x then 0 else let i := find_index P l' in if i =? -1 then -1 else i + 1
  end.

(** ** The forest of a listing *)

Notation org_at := (find_key id).
Notation up := (parent_in id parent_id).
Notation nth_up := (nth_parent id parent_id).
Notation rooted := (rooted_in id parent_id).
Notation is_forest := (forest id parent_id).
Notation org_at_Some := (find_key_Some id).
Notation up_In := (parent_In id parent_id).
Notation nth_up_In := (nth_parent_In id parent_id).
Notation nth_up_add := (nth_parent_add id parent_id).
Notation rooted_unique := (Parents.rooted_unique id parent_id).
Notation rooted_up := (Parents.rooted_up id parent_id).
Notation rooted_nth := (Parents.rooted_nth id parent_id).
Notation rooted_bound := (Parents.rooted_bound id parent_id).
Notation apart := (Parents.apart id parent_id).

Definition is_root (orgs : list Organization) (o : Organization) : bool := bool_decide (up orgs o = None).
Definition is_child (orgs : list Organization) (x : string) (o : Organization) : bool :=
  match up orgs o with Some p => String.eqb (id p) x | None => false end.

Definition roots_of (orgs : list Organization) : list Organization := List.filter (is_root orgs) orgs.
Definition kids (orgs : list Organization) (o : Organization) : list Organization :=
  List.filter (is_child orgs (id o)) orgs.

Fixpoint flatten (n : OrgNode) : list Organization :=
  let '(Node o cs _) := n in o :: flat_map flatten cs.

Definition sum_Z (l : list Z) : Z := foldr Z.add 0 l.

Definition members (counts : gmap string Z) (o : Organization) : Z := default 0 (counts !! id o).

(** The tree under an organization, cut at a depth. *)
Fixpoint grow (orgs : list Organization) (counts : gmap string Z) (fuel : nat) (o : Organization) : OrgNode :=
  match fuel with
  | O => Node o [] (members counts o)
  | S fuel' =>
      let cs := map (grow orgs counts fuel') (kids orgs o) in
      Node o cs (members counts o + sum_Z (map n_total cs))
  end.

Definition subtree orgs counts o : gset string :=
  list_to_set (map id (flatten (grow orgs counts (length orgs) o))).

Lemma grow_org orgs counts f o : n_org (grow orgs counts f o) = o.
Proof. by destruct f. Qed.


Lemma mapM_map {A B C} (f : B -> option C) (g : A -> B) (h : A -> C) (l : list A) :
  (forall x, In x l -> f (g x) = Some (h x)) -> mapM f (map g l) = Some (map h l).
Proof.
  induction l as [|x l IH]; intros H; [done|]. cbn. rewrite (H x) by by left. cbn. by rewrite IH by (intros; apply H; by right).
Qed.

Section Forest.
Context (orgs : list Organization) (counts : gmap string Z).
Hypothesis (Hids : NoDup (map id orgs)).


Lemma kid_rooted k o c : rooted orgs k o -> In o orgs -> In c (kids orgs o) -> In c orgs /\ up orgs c = Some o /\ rooted orgs (S k) c.
Proof.
  intros Hr Ho [Hc Hb]%filter_In. unfold is_child in Hb. destruct (up orgs c) as [p|] eqn:E; [|done].
  apply String.eqb_eq in Hb. assert (p = o) as -> by (apply (NoDup_map_inj id orgs); auto; by eapply up_In).
  split_and!; [done..|]. by eapply rooted_up.
Qed.


Lemma grow_stable f f' k o :
  In o orgs -> rooted orgs k o -> (length orgs <= f + k)%nat -> (length orgs <= f' + k)%nat ->
  grow orgs counts f o = grow orgs counts f' o.
Proof.
  revert f' k o. induction f as [|f IH]; intros f' k o Ho Hr H1 H2.
  - pose proof (rooted_bound orgs Hids k o Ho Hr). lia.
  - destruct f' as [|f']; [pose proof (rooted_bound orgs Hids k o Ho Hr); lia|]. cbn.
    assert (map (grow orgs counts f) (kids orgs o) = map (grow orgs counts f') (kids orgs o)) as ->; [|done].
    apply map_ext_in. intros c Hc. destruct (kid_rooted k o c Hr Ho Hc) as (Hc' & _ & Hrc).
    apply (IH f' (S k)); [done..|lia|lia].
Qed.

Lemma grow_eq k o :
  In o orgs -> rooted orgs k o ->
  grow orgs counts (length orgs) o
  = let cs := map (grow orgs counts (length orgs)) (kids orgs o) in Node o cs (members counts o + sum_Z (map n_total cs)).
Proof.
  intros Ho Hr. transitivity (grow orgs counts (S (length orgs)) o); [apply (grow_stable _ _ k); auto; lia|done].
Qed.

(** The organizations of a tree are those that reach its root by their parents. *)
Lemma flatten_grow f k o x :
  In o orgs -> rooted orgs k o -> (length orgs <= f + k)%nat ->
  In x (flatten (grow orgs counts f o)) <-> In x orgs /\ exists j, nth_up orgs j x = Some o.
Proof.
  revert k o x. induction f as [|f IH]; intros k o x Ho Hr Hf; [pose proof (rooted_bound orgs Hids k o Ho Hr); lia|].
  cbn [grow flatten In]. rewrite in_flat_map. split.
  - intros [<-|(n & (c & <- & Hc)%in_map_iff & Hx)]; [split; [done|by exists 0%nat]|].
    destruct (kid_rooted k o c Hr Ho Hc) as (Hc' & Hu & Hrc).
    apply (IH (S k) c x Hc' Hrc) in Hx as [Hx (j & Hj)]; [|lia]. split; [done|].
    exists (j + 1)%nat. rewrite nth_up_add, Hj. cbn. by rewrite Hu.
  - intros [Hx (j & Hj)]. destruct j as [|j]; [injection Hj as ->; by left|]. right.
    replace (S j) with (j + 1)%nat in Hj by lia. rewrite nth_up_add in Hj.
    destruct (nth_up orgs j x) as [c|] eqn:E; [|done]. cbn in Hj. destruct (up orgs c) as [p|] eqn:Eu; [|done].
    injection Hj as ->. assert (In c (kids orgs o)) as Hc.
    { apply filter_In. split; [by eapply nth_up_In|]. unfold is_child. by rewrite Eu, String.eqb_refl. }
    exists (grow orgs counts f c). split; [by apply in_map|].
    destruct (kid_rooted k o c Hr Ho Hc) as (Hc' & _ & Hrc). apply (IH (S k)); [done..|lia|]. split; [done|by exists j].
Qed.


Lemma orgs_NoDup : List.NoDup orgs.
Proof. apply NoDup_ListNoDup in Hids. by apply NoDup_map_inv in Hids. Qed.

Lemma kids_NoDup o : List.NoDup (kids orgs o).
Proof. apply List.NoDup_filter, orgs_NoDup. Qed.

Lemma NoDup_flat_map {A B} (f : A -> list B) (l : list A) :
  List.NoDup l -> (forall x, In x l -> List.NoDup (f x)) ->
  (forall x y z, In x l -> In y l -> In z (f x) -> In z (f y) -> x = y) -> List.NoDup (flat_map f l).
Proof.
  induction l as [|a l IH]; intros Hl Hf Hd; [constructor|]. cbn. inversion Hl as [|? ? Ha Hl']; subst.
  apply List.NoDup_app; [apply Hf; by left|apply IH; [done|intros; apply Hf; by right|intros x y z Hx Hy; apply Hd; by right]|].
  intros z Hz (y & Hy & Hz')%in_flat_map. apply Ha. rewrite (Hd a y z); [done|by left|by right|done..].
Qed.

Lemma flatten_NoDup f k o :
  In o orgs -> rooted orgs k o -> (length orgs <= f + k)%nat -> List.NoDup (flatten (grow orgs counts f o)).
Proof.
  revert k o. induction f as [|f IH]; intros k o Ho Hr Hf; [pose proof (rooted_bound orgs Hids k o Ho Hr); lia|].
  cbn [grow flatten]. rewrite flat_map_concat_map, map_map, <- flat_map_concat_map.
  assert (forall c, In c (kids orgs o) -> In c orgs /\ up orgs c = Some o /\ rooted orgs (S k) c) as Hk
    by (intros c; by apply kid_rooted).
  assert (forall c x, In c (kids orgs o) -> In x (flatten (grow orgs counts f c)) -> exists j, nth_up orgs j x = Some c) as Hd.
  { intros c x Hc Hx. destruct (Hk c Hc) as (Hc' & _ & Hrc). apply (flatten_grow f (S k)) in Hx as [_ H]; [done|done|done|lia]. }
  constructor.
  - intros (c & Hc & Hx)%in_flat_map. destruct (Hd _ _ Hc Hx) as (j & Hj). destruct (Hk c Hc) as (_ & _ & Hrc).
    destruct (rooted_nth orgs j k o c Hr Hj) as [_ H]. pose proof (rooted_unique _ _ _ _ H Hrc). lia.
  - apply NoDup_flat_map; [apply kids_NoDup| |].
    + intros c Hc. destruct (Hk c Hc) as (Hc' & _ & Hrc). apply (IH (S k)); [done..|lia].
    + intros c c' x Hc Hc' Hx Hx'. destruct (Hd _ _ Hc Hx) as (i & Hi), (Hd _ _ Hc' Hx') as (j & Hj).
      destruct (Hk c Hc) as (_ & _ & H1), (Hk c' Hc') as (_ & _ & H2). by apply (apart orgs (S k) c c' x i j).
Qed.

(** *** The store *)

(** The node of an organization once the loops are through, [done] being the organizations
    whose total is propagated. *)
Definition total_of (o : Organization) : Z := n_total (grow orgs counts (length orgs) o).

Definition node_cell (D : gset string) (o : Organization) : cell :=
  Cell o (map id (kids orgs o)) (if bool_decide (id o ∈ D) then total_of o else members counts o).

Definition holds (h : store) (D : gset string) : Prop :=
  forall x, h !! x = node_cell D <$> org_at orgs x.

Lemma alloc_lookup l (h : store) x :
  NoDup (map id l) ->
  fold_left (fun h o => <[id o := Cell o [] (default 0 (counts !! id o))]> h) l h !! x
  = match org_at l x with Some o => Some (Cell o [] (members counts o)) | None => h !! x end.
Proof.
  revert h. induction l as [|o l IH]; intros h Hl; [done|]. cbn [map] in Hl. apply NoDup_cons in Hl as [Ho Hl].
  cbn [fold_left]. rewrite IH by done. unfold find_key. cbn [List.find].
  destruct (String.eqb_spec (id o) x) as [<-|Hne].
  - destruct (List.find _ l) as [o'|] eqn:E; [|by rewrite lookup_insert_eq].
    apply find_some in E as [Hin He]. apply String.eqb_eq in He. destruct Ho. rewrite <- He.
    apply list_elem_of_In. by apply in_map.
  - destruct (List.find _ l); [done|]. by rewrite lookup_insert_ne.
Qed.

Lemma linkable (h : store) (o : Organization) :
  (forall x, is_Some (h !! x) <-> is_Some (org_at orgs x)) ->
  negb (String.eqb (parent_id o) "") && bool_decide (is_Some (h !! parent_id o)) = negb (is_root orgs o)
  /\ (is_root orgs o = false -> forall x, is_child orgs x o = String.eqb (parent_id o) x).
Proof.
  intros Hh. unfold is_root, is_child, parent_in. destruct (String.eqb (parent_id o) "") eqn:E; [done|].
  cbn [negb andb]. rewrite (bool_decide_ext _ _ (Hh (parent_id o))).
  destruct (org_at orgs (parent_id o)) as [p|] eqn:Ep; [|done]. split; [done|]. intros _ x.
  apply (org_at_Some orgs Hids) in Ep as [_ ->]. done.
Qed.

Lemma link_lookup l (h : store) roots :
  (forall x, is_Some (h !! x) <-> is_Some (org_at orgs x)) ->
  exists h', fold_left link_one l (h, roots) = (h', roots ++ map id (List.filter (is_root orgs) l))
  /\ forall x, h' !! x = (fun n => Cell (c_org n) (c_children n ++ map id (List.filter (is_child orgs x) l)) (c_total n)) <$> h !! x.
Proof.
  revert h roots. induction l as [|o l IH]; intros h roots Hh.
  - exists h. cbn. rewrite app_nil_r. split; [done|]. intros x. destruct (h !! x) as [[]|]; [|done]. cbn. by rewrite app_nil_r.
  - cbn [fold_left link_one List.filter]. destruct (linkable h o Hh) as [-> Hc]. destruct (is_root orgs o) eqn:Er; cbn [negb].
    + destruct (IH h (roots ++ [id o]) Hh) as (h' & -> & Hl). exists h'. cbn [map]. rewrite <- app_assoc. split; [done|].
      intros x. rewrite Hl. unfold is_child at 2. apply bool_decide_eq_true in Er. by rewrite Er.
    + destruct (IH (alter (push_child (id o)) (parent_id o) h) roots) as (h' & -> & Hl).
      { intros x. rewrite <- Hh. destruct (decide (parent_id o = x)) as [<-|Hne].
        - rewrite lookup_alter_eq. by destruct (h !! parent_id o).
        - by rewrite lookup_alter_ne. }
      exists h'. split; [done|]. intros x. rewrite Hl, (Hc eq_refl).
      destruct (String.eqb_spec (parent_id o) x) as [<-|Hne].
      * rewrite lookup_alter_eq. destruct (h !! parent_id o); [|done]. cbn. by rewrite <- app_assoc.
      * by rewrite lookup_alter_ne.
Qed.

Lemma linked : exists h, link orgs (alloc counts orgs) = (h, map id (roots_of orgs)) /\ holds h ∅.
Proof.
  assert (forall x, alloc counts orgs !! x = (fun o => Cell o [] (members counts o)) <$> org_at orgs x) as Ha.
  { intros x. unfold alloc. rewrite alloc_lookup by done. by destruct (org_at orgs x). }
  destruct (link_lookup orgs (alloc counts orgs) []) as (h & Hl & Hh).
  { intros x. rewrite Ha. apply fmap_is_Some. }
  exists h. unfold link. rewrite Hl. split; [done|]. intros x. rewrite Hh, Ha. destruct (org_at orgs x) as [o|] eqn:E; [|done].
  apply (org_at_Some orgs Hids) in E as [_ <-]. done.
Qed.

Lemma subtree_In k o x :
  In o orgs -> rooted orgs k o ->
  x ∈ subtree orgs counts o <-> exists y, id y = x /\ In y orgs /\ exists j, nth_up orgs j y = Some o.
Proof.
  intros Ho Hr. unfold subtree. rewrite elem_of_list_to_set, list_elem_of_In, in_map_iff.
  split; intros (y & <- & Hy); exists y; (split; [done|]); by apply (flatten_grow (length orgs) k); auto; lia.
Qed.

Lemma holds_total h D o :
  In o orgs -> holds h D -> holds (alter (set_total (total_of o)) (id o) h) ({[id o]} ∪ D).
Proof.
  intros Ho Hh x. unfold holds in Hh. destruct (decide (id o = x)) as [<-|Hne].
  - rewrite lookup_alter_eq, Hh. assert (org_at orgs (id o) = Some o) as -> by by apply org_at_Some.
    cbn. unfold node_cell, set_total. cbn. by rewrite bool_decide_eq_true_2 by set_solver.
  - rewrite lookup_alter_ne by done. rewrite Hh. destruct (org_at orgs x) as [o'|] eqn:E; [|done]. cbn. f_equal.
    apply (org_at_Some orgs Hids) in E as [_ <-]. unfold node_cell. by rewrite (bool_decide_ext _ (id o' ∈ {[id o]} ∪ D)) by set_solver.
Qed.

(** [propagate] on the children: each settles the totals of its own subtree. *)
Lemma propagate_kids f ks : forall h D sum,
  holds h D -> List.NoDup ks ->
  (forall c h D, In c ks -> holds h D -> subtree orgs counts c ## D ->
    exists h', propagate f h (id c) = Some (h', total_of c) /\ holds h' (subtree orgs counts c ∪ D)) ->
  (forall c, In c ks -> subtree orgs counts c ## D) ->
  (forall c c', In c ks -> In c' ks -> c <> c' -> subtree orgs counts c ## subtree orgs counts c') ->
  exists h', foldl (fun acc c => '(h, sum) ← acc; '(h', t) ← propagate f h c; Some (h', sum + t)) (Some (h, sum)) (map id ks)
             = Some (h', sum + sum_Z (map total_of ks))
  /\ holds h' (⋃ (map (subtree orgs counts) ks) ∪ D).
Proof.
  induction ks as [|c ks IH]; intros h D sum Hh Hnd Hp HD Hd.
  - exists h. cbn. rewrite Z.add_0_r. split; [done|]. by replace (∅ ∪ D) with D by set_solver.
  - inversion Hnd as [|? ? Hc Hnd']; subst. cbn [map foldl].
    destruct (Hp c h D) as (h1 & H1 & Hh1); [by left|done|apply HD; by left|]. cbn [mbind option_bind]. rewrite H1. cbn [mbind option_bind].
    destruct (IH h1 (subtree orgs counts c ∪ D) (sum + total_of c)) as (h2 & H2 & Hh2).
    + done.
    + done.
    + intros c' h' D' Hin. apply Hp. by right.
    + intros c' Hin. apply disjoint_union_r. split; [|apply HD; by right].
      apply Hd; [by right|by left|]. by intros ->.
    + intros c1 c2 Hin1 Hin2. apply Hd; by right.
    + exists h2. rewrite H2. split; [do 2 f_equal; cbn [map sum_Z foldr]; unfold sum_Z; lia|].
      replace (⋃ map (subtree orgs counts) (c :: ks) ∪ D) with (⋃ map (subtree orgs counts) ks ∪ (subtree orgs counts c ∪ D)); [done|].
      cbn [map union_list foldr]. set_solver.
Qed.

Lemma apart_subtrees k (o o' : Organization) :
  In o orgs -> In o' orgs -> rooted orgs k o -> rooted orgs k o' -> o <> o' -> subtree orgs counts o ## subtree orgs counts o'.
Proof.
  intros Ho Ho' Hr Hr' Hne x Hx Hx'. apply (subtree_In k) in Hx as (y & <- & Hy & i & Hi); [|done..].
  apply (subtree_In k) in Hx' as (y' & E & Hy' & j & Hj); [|done..].
  assert (y' = y) as -> by by apply (NoDup_map_inj id orgs). destruct Hne. by apply (apart orgs k o o' y i j).
Qed.

Lemma subtree_eq k o :
  In o orgs -> rooted orgs k o -> subtree orgs counts o = {[id o]} ∪ ⋃ (map (subtree orgs counts) (kids orgs o)).
Proof.
  intros Ho Hr. apply set_eq. intros x. unfold subtree at 1. rewrite (grow_eq k) by done. cbn [flatten map list_to_set].
  rewrite !elem_of_union. apply or_iff_compat_l. rewrite elem_of_list_to_set, list_elem_of_In, elem_of_union_list.
  split.
  - intros (y & <- & (n & (c & <- & Hc)%in_map_iff & Hy)%in_flat_map)%in_map_iff.
    exists (subtree orgs counts c). split; [apply list_elem_of_In; by apply in_map|].
    unfold subtree. rewrite elem_of_list_to_set, list_elem_of_In. by apply in_map.
  - intros (X & HX & Hx). apply list_elem_of_In, in_map_iff in HX as (c & <- & Hc).
    unfold subtree in Hx. rewrite elem_of_list_to_set, list_elem_of_In in Hx. apply in_map_iff in Hx as (y & <- & Hy).
    apply in_map. apply in_flat_map. exists (grow orgs counts (length orgs) c). split; [by apply in_map|done].
Qed.

Lemma total_eq k o : In o orgs -> rooted orgs k o -> total_of o = members counts o + sum_Z (map total_of (kids orgs o)).
Proof. intros Ho Hr. unfold total_of at 1. rewrite (grow_eq k) by done. cbn. by rewrite map_map. Qed.

Lemma propagate_spec f : forall k o h D,
  In o orgs -> rooted orgs k o -> (length orgs <= f + k)%nat -> holds h D -> subtree orgs counts o ## D ->
  exists h', propagate f h (id o) = Some (h', total_of o) /\ holds h' (subtree orgs counts o ∪ D).
Proof.
  induction f as [|f IH]; intros k o h D Ho Hr Hf Hh HD; [pose proof (rooted_bound orgs Hids k o Ho Hr); lia|].
  assert (org_at orgs (id o) = Some o) as Hat by by apply org_at_Some.
  rewrite (subtree_eq k) in HD |- * by done.
  assert (forall c, In c (kids orgs o) -> In c orgs /\ up orgs c = Some o /\ rooted orgs (S k) c) as Hk
    by (intros c; by apply kid_rooted).
  destruct (propagate_kids f (kids orgs o) h D (members counts o) Hh (kids_NoDup o)) as (h' & Hp & Hh').
  - intros c h1 D1 Hc. destruct (Hk c Hc) as (Hc' & _ & Hrc). apply (IH (S k)); [done..|lia].
  - intros c Hc. assert (subtree orgs counts c ⊆ ⋃ map (subtree orgs counts) (kids orgs o)); [|set_solver].
    intros x Hx. apply elem_of_union_list. exists (subtree orgs counts c). split; [|done].
    apply list_elem_of_In. by apply in_map.
  - intros c c' Hc Hc'. destruct (Hk c Hc) as (H1 & _ & H2), (Hk c' Hc') as (H3 & _ & H4). by apply (apart_subtrees (S k)).
  - exists (alter (set_total (total_of o)) (id o) h'). cbn [propagate]. rewrite Hh, Hat. cbn [fmap option_fmap option_map mbind option_bind].
    unfold node_cell. cbn [c_total c_children]. rewrite bool_decide_eq_false_2 by set_solver. rewrite Hp. cbn [mbind option_bind].
    rewrite (total_eq k o Ho Hr). split; [done|]. rewrite <- (total_eq k o Ho Hr).
    rewrite <- (assoc_L (∪)). by apply holds_total.
Qed.

Lemma read_spec f : forall k o h D,
  In o orgs -> rooted orgs k o -> (length orgs <= f + k)%nat -> holds h D -> subtree orgs counts o ⊆ D ->
  read_node f h (id o) = Some (grow orgs counts (length orgs) o).
Proof.
  induction f as [|f IH]; intros k o h D Ho Hr Hf Hh HD; [pose proof (rooted_bound orgs Hids k o Ho Hr); lia|].
  assert (org_at orgs (id o) = Some o) as Hat by by apply org_at_Some.
  rewrite (subtree_eq k) in HD by done. cbn [read_node]. rewrite Hh, Hat. cbn [fmap option_fmap option_map mbind option_bind].
  unfold node_cell. cbn [c_org c_children c_total].
  assert (mapM (read_node f h) (map id (kids orgs o)) = Some (map (grow orgs counts (length orgs)) (kids orgs o))) as ->.
  { apply mapM_map. intros c Hc.
    destruct (kid_rooted k o c Hr Ho Hc) as (Hc' & _ & Hrc). apply (IH (S k) c h D); [done..|lia|done|].
    intros x Hx. apply HD, elem_of_union_r, elem_of_union_list. exists (subtree orgs counts c). split; [|done].
    apply list_elem_of_In. by apply in_map. }
  cbn. rewrite bool_decide_eq_true_2 by set_solver. unfold total_of. by rewrite (grow_eq k) by done.
Qed.

Lemma root_In o : In o (roots_of orgs) <-> In o orgs /\ rooted orgs 0 o.
Proof.
  unfold roots_of. rewrite filter_In. unfold is_root. rewrite bool_decide_eq_true. split; intros [Ho H]; (split; [done|]).
  - by exists o.
  - destruct H as (r & Hr & Hu). by injection Hr as <-.
Qed.

Lemma propagate_roots ks : forall h D,
  holds h D -> List.NoDup ks -> incl ks (roots_of orgs) ->
  (forall c, In c ks -> subtree orgs counts c ## D) ->
  exists h', propagate_all (S (length orgs)) h (map id ks) = Some h'
  /\ holds h' (⋃ (map (subtree orgs counts) ks) ∪ D).
Proof.
  unfold propagate_all. induction ks as [|c ks IH]; intros h D Hh Hnd Hi HD.
  - exists h. split; [done|]. cbn. by replace (∅ ∪ D) with D by set_solver.
  - inversion Hnd as [|? ? Hc Hnd']; subst. cbn [map foldl].
    destruct (proj1 (root_In c)) as [Ho Hr]; [apply Hi; by left|].
    destruct (propagate_spec (S (length orgs)) 0 c h D) as (h1 & H1 & Hh1); [done|done|lia|done|apply HD; by left|].
    cbn [mbind option_bind]. rewrite H1. cbn [mbind option_bind].
    destruct (IH h1 (subtree orgs counts c ∪ D)) as (h2 & H2 & Hh2); [done|done|intros x Hx; apply Hi; by right| |].
    + intros c' Hin. apply disjoint_union_r. split; [|apply HD; by right].
      destruct (proj1 (root_In c')) as [Ho' Hr']; [apply Hi; by right|]. apply (apart_subtrees 0); [done..|]. by intros ->.
    + exists h2. split; [done|].
      replace (⋃ map (subtree orgs counts) (c :: ks) ∪ D) with (⋃ map (subtree orgs counts) ks ∪ (subtree orgs counts c ∪ D)); [done|].
      cbn [map union_list foldr]. set_solver.
Qed.

Lemma roots_NoDup : List.NoDup (roots_of orgs).
Proof. apply List.NoDup_filter, orgs_NoDup. Qed.

Lemma buildTree_grow : buildTree orgs counts = Some (map (grow orgs counts (length orgs)) (roots_of orgs)).
Proof.
  unfold buildTree. destruct linked as (h & -> & Hh).
  destruct (propagate_roots (roots_of orgs) h ∅ Hh roots_NoDup (incl_refl _)) as (h' & -> & Hh'); [set_solver|].
  cbn [mbind option_bind]. apply mapM_map. intros o Ho. pose proof (proj1 (root_In o) Ho) as [Hin Hr].
  apply (read_spec _ 0 o h' (⋃ map (subtree orgs counts) (roots_of orgs) ∪ ∅)); [done|done|lia|done|].
  intros x Hx. apply elem_of_union_l, elem_of_union_list. exists (subtree orgs counts o). split; [|done].
  apply list_elem_of_In. by apply in_map.
Qed.

(** What the tree of an organization must be: its children are the organizations naming it
    as parent, in the order of the listing, and its total sums the members of its subtree. *)
Inductive node_ok : OrgNode -> Prop :=
| node_ok_intro o cs t :
    In o orgs -> map n_org cs = kids orgs o -> Forall node_ok cs ->
    t = sum_Z (map (members counts) (flatten (Node o cs t))) -> node_ok (Node o cs t).

Lemma sum_Z_app l l' : sum_Z (l ++ l') = sum_Z l + sum_Z l'.
Proof. induction l as [|x l IH]; cbn; [done|]. unfold sum_Z in *. lia. Qed.

Lemma node_ok_total n : node_ok n -> n_total n = sum_Z (map (members counts) (flatten n)).
Proof. by inversion 1. Qed.

Lemma sum_subtrees cs :
  Forall node_ok cs -> sum_Z (map n_total cs) = sum_Z (map (members counts) (flat_map flatten cs)).
Proof.
  induction 1 as [|n cs Hn Hcs IH]; [done|]. cbn [map flat_map]. rewrite map_app, sum_Z_app, <- IH, <- node_ok_total by done. done.
Qed.

Lemma grow_ok f k o : In o orgs -> rooted orgs k o -> (length orgs <= f + k)%nat -> node_ok (grow orgs counts f o).
Proof.
  revert k o. induction f as [|f IH]; intros k o Ho Hr Hf; [pose proof (rooted_bound orgs Hids k o Ho Hr); lia|].
  assert (Forall node_ok (map (grow orgs counts f) (kids orgs o))) as Hok.
  { apply Forall_forall. intros n Hn. apply list_elem_of_In, in_map_iff in Hn as (c & <- & Hc).
    destruct (kid_rooted k o c Hr Ho Hc) as (Hc' & _ & Hrc). apply (IH (S k)); [done..|lia]. }
  cbn [grow]. constructor; [done| |done|].
  - rewrite map_map. erewrite map_ext; [apply map_id|]. intros c. apply grow_org.
  - cbn [flatten map sum_Z foldr]. f_equal. by apply sum_subtrees.
Qed.

Lemma is_rooted o : In o orgs -> (exists k, rooted orgs k o) <-> exists r j, In r (roots_of orgs) /\ nth_up orgs j o = Some r.
Proof.
  intros Ho. split.
  - intros (k & r & Hr & Hu). exists r, k. split; [|done]. apply root_In. split; [by eapply nth_up_In|]. by exists r.
  - intros (r & j & [_ (r' & Hr' & Hu)]%root_In & Hj). injection Hr' as <-. by exists j, r.
Qed.

Lemma forest_In x : In x (flat_map flatten (map (grow orgs counts (length orgs)) (roots_of orgs))) <-> In x orgs /\ exists k, rooted orgs k x.
Proof.
  rewrite in_flat_map. split.
  - intros (n & (r & <- & Hr)%in_map_iff & Hx). pose proof (proj1 (root_In r) Hr) as [Hin H0].
    apply (flatten_grow _ 0) in Hx as [Hx (j & Hj)]; [|done|done|lia]. split; [done|]. apply is_rooted; [done|]. by exists r, j.
  - intros [Hx Hk]. apply is_rooted in Hk as (r & j & Hr & Hj); [|done]. exists (grow orgs counts (length orgs) r).
    split; [by apply in_map|]. pose proof (proj1 (root_In r) Hr) as [Hin H0].
    apply (flatten_grow _ 0); [done|done|lia|]. split; [done|by exists j].
Qed.

Lemma forest_NoDup : List.NoDup (flat_map flatten (map (grow orgs counts (length orgs)) (roots_of orgs))).
Proof.
  rewrite flat_map_concat_map, map_map, <- flat_map_concat_map. apply NoDup_flat_map; [apply roots_NoDup| |].
  - intros r [Hin H0]%root_In. apply (flatten_NoDup _ 0); [done|done|lia].
  - intros r r' x [Hin H0]%root_In [Hin' H0']%root_In Hx Hx'.
    apply (flatten_grow _ 0) in Hx as [_ (i & Hi)]; [|done|done|lia].
    apply (flatten_grow _ 0) in Hx' as [_ (j & Hj)]; [|done|done|lia]. by apply (apart orgs 0 r r' x i j).
Qed.

Lemma isDescendant_spec n x : isDescendant n x = true <-> exists y, In y (flatten n) /\ id y = x.
Proof.
  induction n as [o cs t IH]. cbn [isDescendant flatten In]. rewrite orb_true_iff, String.eqb_eq, existsb_exists. split.
  - intros [<-|(c & Hc & Hd)]; [by exists o; auto|]. rewrite Forall_forall in IH.
    apply IH in Hd as (y & Hy & <-); [|by apply list_elem_of_In]. exists y. split; [|done]. right. apply in_flat_map. by exists c.
  - intros (y & [<-|Hy] & <-); [by left|]. right. apply in_flat_map in Hy as (c & Hc & Hy). exists c. split; [done|].
    rewrite Forall_forall in IH. apply IH; [by apply list_elem_of_In|]. by exists y.
Qed.
End Forest.

(** ** Moving *)

Definition reparent (s t : string) (o : Organization) : Organization :=
  if String.eqb (id o) s then Org (id o) (name o) (path o) t (description o) else o.

(** The optimistic update of [handleDrop]. *)
Definition move_org (s t : string) (orgs : list Organization) : list Organization := map (reparent s t) orgs.

Lemma reparent_id s t o : id (reparent s t o) = id o.
Proof. unfold reparent. by destruct (String.eqb _ _). Qed.

Lemma move_ids s t orgs : map id (move_org s t orgs) = map id orgs.
Proof. unfold move_org. rewrite map_map. apply map_ext, reparent_id. Qed.

Lemma move_at s t orgs x : org_at (move_org s t orgs) x = reparent s t <$> org_at orgs x.
Proof.
  unfold find_key, move_org. induction orgs as [|o orgs IH]; [done|]. cbn. rewrite reparent_id. by destruct (String.eqb _ _).
Qed.

Section Move.
Context (orgs : list Organization) (a b : Organization).
Hypothesis (Hids : NoDup (map id orgs)) (Ha : In a orgs) (Hb : In b orgs) (Hne : id b <> "").

Notation moved := (move_org (id a) (id b) orgs).
Notation f := (reparent (id a) (id b)).

Lemma up_moved_a : up moved (f a) = Some (f b).
Proof.
  unfold parent_in, reparent at 1 2. rewrite String.eqb_refl. cbn [parent_id]. rewrite eqb_str_false, move_at by done.
  by assert (org_at orgs (id b) = Some b) as -> by by apply org_at_Some.
Qed.

Lemma up_moved o : In o orgs -> o <> a -> up moved (f o) = f <$> up orgs o.
Proof.
  intros Ho Hoa. assert (f o = o) as E.
  { unfold reparent. rewrite eqb_str_false; [done|]. intros E. destruct Hoa. by apply (NoDup_map_inj id orgs). }
  rewrite E. unfold parent_in. destruct (String.eqb _ _); [done|]. apply move_at.
Qed.

Lemma rooted_moved k x :
  In x orgs -> rooted orgs k x -> (exists k', rooted moved k' (f b)) \/ (forall j, nth_up orgs j x <> Some a) ->
  exists k', rooted moved k' (f x).
Proof.
  revert x. induction k as [|k IH]; intros x Hx (r & Hr & Hu) Hor.
  - injection Hr as ->. destruct (decide (r = a)) as [->|Hra].
    + destruct Hor as [(k' & Hk')|Hno]; [|by destruct (Hno 0%nat)]. exists (S k'). apply (rooted_up _ _ _ (f b)); [apply up_moved_a|done].
    + exists 0%nat, (f r). split; [done|]. by rewrite up_moved, Hu.
  - destruct (decide (x = a)) as [->|Hxa].
    + destruct Hor as [(k' & Hk')|Hno]; [|by destruct (Hno 0%nat)]. exists (S k'). apply (rooted_up _ _ _ (f b)); [apply up_moved_a|done].
    + cbn in Hr. destruct (up orgs x) as [p|] eqn:E; [|done]. cbn in Hr.
      destruct (IH p) as (k' & Hk'); [by eapply up_In|by exists r| |].
      * destruct Hor as [H|Hno]; [by left|right]. intros j Hj. apply (Hno (S j)). cbn. by rewrite E.
      * exists (S k'). apply (rooted_up _ _ _ (f p)); [by rewrite up_moved, E|done].
Qed.

Lemma chain_moved j x : In x orgs -> (forall i, (i < j)%nat -> nth_up orgs i x <> Some a) ->
  nth_up moved j (f x) = f <$> nth_up orgs j x.
Proof.
  revert x. induction j as [|j IH]; intros x Hx Hno; [done|]. cbn [nth_up].
  rewrite up_moved; [|done|intros ->; by apply (Hno 0%nat); [lia|]].
  destruct (up orgs x) as [p|] eqn:E; [|done]. cbn. apply IH; [by eapply up_In|].
  intros i Hi Hp. apply (Hno (S i)); [lia|]. cbn. by rewrite E.
Qed.

Lemma move_forest : is_forest orgs -> is_forest moved <-> ~ exists j, nth_up orgs j b = Some a.
Proof.
  intros Hf. split.
  - intros Hm (j & Hj). destruct (Hf b Hb) as (kb & Hkb).
    assert (nth_up moved j (f b) = Some (f a)) as Hc.
    { rewrite chain_moved, Hj; [done..|]. intros i Hi E. destruct (rooted_nth _ _ _ _ _ Hkb E) as [H1 H2].
      destruct (rooted_nth _ _ _ _ _ Hkb Hj) as [H3 H4]. pose proof (rooted_unique _ _ _ _ H2 H4). lia. }
    destruct (Hm (f a)) as (k & Hk); [by apply in_map|].
    assert (nth_up moved (S j) (f a) = Some (f a)) as Hloop by (cbn; by rewrite up_moved_a).
    destruct (rooted_nth _ _ _ _ _ Hk Hloop) as [H1 H2]. pose proof (rooted_unique _ _ _ _ Hk H2). lia.
  - intros Hno o' (x & <- & Hx)%in_map_iff. destruct (Hf x Hx) as (k & Hk), (Hf b Hb) as (kb & Hkb).
    apply (rooted_moved k); [done..|]. left. apply (rooted_moved kb); [done..|]. right. intros j Hj. apply Hno. by exists j.
Qed.
End Move.

(** ** Searching and showing *)

Definition org_matches (q : string) (o : Organization) : bool :=
  str_includes q (to_lower (name o)) || str_includes q (to_lower (description o)).

(** The loop over the ancestors; [None]: it is still running after [fuel] rounds. *)
Fixpoint climb (fuel : nat) (orgs : list Organization) (current : option Organization) (newExpanded : gset string)
    : option (gset string) :=
  match current with
  | None => Some newExpanded
  | Some o =>
      if String.eqb (parent_id o) "" then Some newExpanded
      else match fuel with
           | O => None
           | S fuel' => climb fuel' orgs (org_at orgs (parent_id o)) ({[parent_id o]} ∪ newExpanded)
           end
  end.

Definition expand_matches (fuel : nat) (orgs : list Organization) (matched : list string) (expanded : gset string)
    : option (gset string) :=
  foldl (fun acc x => e ← acc; climb fuel orgs (org_at orgs x) e) (Some expanded) matched.

(** The effect of a new search text or listing: [matchedIds] and [expanded]. *)
Definition search_effect (fuel : nat) (search : string) (orgs : list Organization) (expanded : gset string)
    : option (gset string * gset string) :=
  if String.eqb (trim search) "" then Some (∅, expanded)
  else
    let matched := map id (List.filter (org_matches (to_lower search)) orgs) in
    match matched with
    | [] => Some (∅, expanded)
    | _ => e ← expand_matches fuel orgs matched expanded; Some (list_to_set matched, e)
    end.

Fixpoint has_matched (matchedIds : gset string) (n : OrgNode) : bool :=
  let '(Node o cs _) := n in bool_decide (id o ∈ matchedIds) || existsb (has_matched matchedIds) cs.

(** [renderNode]: the rows shown, with their depths. *)
Fixpoint renderNode (expanded matchedIds : gset string) (depth : nat) (n : OrgNode) : list (nat * string) :=
  let '(Node o cs _) := n in
  let isMatched := bool_decide (matchedIds <> ∅) && bool_decide (id o ∈ matchedIds) in
  let hasChildren := match cs with [] => false | _ => true end in
  if bool_decide (matchedIds <> ∅) && negb isMatched && negb hasChildren
     && negb (existsb (has_matched matchedIds) cs) then []
  else (depth, id o) ::
    (if bool_decide (id o ∈ expanded) && hasChildren then flat_map (renderNode expanded matchedIds (S depth)) cs else []).

Lemma climb_mono fuel orgs c e e' : climb fuel orgs c e = Some e' -> e ⊆ e'.
Proof.
  revert c e. induction fuel as [|fuel IH]; intros [o|] e; cbn [climb]; try (by intros [= ->]).
  - destruct (String.eqb _ _); [by intros [= ->]|done].
  - destruct (String.eqb _ _); [by intros [= ->]|]. intros H. apply IH in H. set_solver.
Qed.

Section Search.
Context (orgs : list Organization).
Hypothesis (Hids : NoDup (map id orgs)).

Lemma climb_rooted k : forall fuel o e,
  In o orgs -> rooted orgs k o -> (k < fuel)%nat ->
  exists e', climb fuel orgs (Some o) e = Some e' /\ forall i a, nth_up orgs (S i) o = Some a -> id a ∈ e'.
Proof.
  induction k as [|k IH]; intros fuel o e Ho (r & Hr & Hu) Hf; (destruct fuel as [|fuel]; [lia|]); cbn [climb].
  - injection Hr as ->. unfold parent_in in Hu. destruct (String.eqb (parent_id r) "") eqn:E.
    + exists e. split; [done|]. intros i a. cbn. unfold parent_in. by rewrite E.
    + rewrite Hu. exists ({[parent_id r]} ∪ e). split; [by destruct fuel|]. intros i a. cbn. unfold parent_in. by rewrite E, Hu.
  - cbn in Hr. destruct (up orgs o) as [p|] eqn:Ep; [|done]. cbn in Hr.
    pose proof (up_In _ Hids _ _ Ep) as Hp. unfold parent_in in Ep. destruct (String.eqb (parent_id o) "") eqn:E; [done|]. rewrite Ep.
    destruct (IH fuel p ({[parent_id o]} ∪ e)) as (e' & He & Hin); [done|by exists r|lia|].
    exists e'. split; [done|]. intros i a. cbn [nth_up]. unfold parent_in. rewrite E, Ep. cbn [mbind option_bind].
    destruct i as [|i]; [|apply Hin]. intros [= <-]. apply climb_mono in He. apply org_at_Some in Ep as [_ ->]; [|done]. set_solver.
Qed.

Lemma climb_cycle fuel o e : In o orgs -> (forall k, ~ rooted orgs k o) -> climb fuel orgs (Some o) e = None.
Proof.
  revert o e. induction fuel as [|fuel IH]; intros o e Ho Hno; cbn [climb].
  - destruct (String.eqb (parent_id o) "") eqn:E; [|done]. destruct (Hno 0%nat). exists o. split; [done|]. unfold parent_in. by rewrite E.
  - destruct (up orgs o) as [p|] eqn:Ep.
    + pose proof (up_In _ Hids _ _ Ep) as Hp. pose proof Ep as Ep'. unfold parent_in in Ep. destruct (String.eqb (parent_id o) ""); [done|].
      rewrite Ep. apply IH; [done|]. intros k Hk. apply (Hno (S k)). by eapply rooted_up.
    + destruct (Hno 0%nat). by exists o.
Qed.

Lemma expand_matches_forest fuel matched e :
  is_forest orgs -> (length orgs <= fuel)%nat ->
  exists e', expand_matches fuel orgs matched e = Some e' /\ e ⊆ e'
  /\ forall x o i a, In x matched -> org_at orgs x = Some o -> nth_up orgs (S i) o = Some a -> id a ∈ e'.
Proof.
  intros Hf Hl. unfold expand_matches. revert e. induction matched as [|x matched IH]; intros e; [by exists e|].
  cbn [foldl mbind option_bind]. destruct (org_at orgs x) as [o|] eqn:E.
  - pose proof (proj1 (org_at_Some orgs Hids x o) E) as [Ho Hx]. destruct (Hf o Ho) as (k & Hk).
    pose proof (rooted_bound orgs Hids k o Ho Hk) as Hb.
    destruct (climb_rooted k fuel o e Ho Hk) as (e1 & He1 & Hin); [lia|]. rewrite He1.
    destruct (IH e1) as (e2 & He2 & Hsub & Hin2). exists e2. split; [done|]. apply climb_mono in He1. split; [set_solver|].
    intros x' o' i a [<-|Hx'] Ho' Ha; [|by eapply Hin2]. rewrite E in Ho'. injection Ho' as <-. apply Hsub. by eapply Hin.
  - assert (climb fuel orgs None e = Some e) as -> by by destruct fuel.
    destruct (IH e) as (e2 & He2 & Hsub & Hin2). exists e2. split_and!; [done..|].
    intros x' o' i a [<-|Hx'] Ho' Ha; [by rewrite E in Ho'|by eapply Hin2].
Qed.

Lemma expand_matches_cycle fuel matched e x o :
  In x matched -> org_at orgs x = Some o -> (forall k, ~ rooted orgs k o) -> expand_matches fuel orgs matched e = None.
Proof.
  intros Hx Ho Hno. unfold expand_matches. revert e. induction matched as [|x' matched IH]; intros e; [done|].
  assert (forall l, foldl (fun acc x => e ← acc; climb fuel orgs (org_at orgs x) e) None l = None) as Hnone
    by (induction l; done).
  cbn [foldl mbind option_bind]. destruct Hx as [->|Hx].
  - rewrite Ho, climb_cycle; [apply Hnone| |done]. by apply org_at_Some in Ho as [? _].
  - destruct (climb fuel orgs (org_at orgs x') e) as [e1|]; [by apply IH|apply Hnone].
Qed.

(** An organization whose ancestors are expanded is shown. *)
Lemma shown counts expanded matched x j : forall o d k f,
  In x orgs -> id x ∈ matched -> (forall i a, nth_up orgs (S i) x = Some a -> id a ∈ expanded) ->
  In o orgs -> rooted orgs k o -> (length orgs <= f + k)%nat -> nth_up orgs j x = Some o ->
  exists d', In (d', id x) (renderNode expanded matched d (grow orgs counts f o)).
Proof.
  induction j as [|j IH]; intros o d k f Hx Hm He Ho Hr Hf Hj;
    (destruct f as [|f]; [pose proof (rooted_bound orgs Hids k o Ho Hr); lia|]); cbn [grow renderNode].
  - injection Hj as ->. exists d. assert (bool_decide (matched <> ∅) = true) as -> by (apply bool_decide_eq_true; set_solver).
    rewrite (bool_decide_eq_true_2 (id o ∈ matched)) by done. cbn [andb negb]. by left.
  - replace (S j) with (j + 1)%nat in Hj by lia. rewrite nth_up_add in Hj.
    destruct (nth_up orgs j x) as [c|] eqn:Ec; [|done]. cbn in Hj. destruct (up orgs c) as [p|] eqn:Eu; [|done]. injection Hj as ->.
    pose proof (nth_up_In _ Hids _ _ _ Hx Ec) as Hc.
    assert (In c (kids orgs o)) as Hkid by (apply filter_In; split; [done|]; unfold is_child; by rewrite Eu, String.eqb_refl).
    destruct (kid_rooted orgs Hids k o c Hr Ho Hkid) as (_ & _ & Hrc).
    destruct (IH c (S d) (S k) f Hx Hm He Hc Hrc) as (d' & Hd'); [lia|done|]. exists d'.
    destruct (map (grow orgs counts f) (kids orgs o)) as [|n ns] eqn:En.
    { apply (in_map (grow orgs counts f)) in Hkid. by rewrite En in Hkid. }
    rewrite andb_false_r, andb_false_l. right. rewrite bool_decide_eq_true_2.
    + cbn [andb]. apply in_flat_map. exists (grow orgs counts f c). split; [|done]. rewrite <- En. by apply in_map.
    + apply (He j). replace (S j) with (j + 1)%nat by lia. rewrite nth_up_add, Ec. cbn. by rewrite Eu.
Qed.
End Search.

(** ** The page *)

Inductive modal_mode := create_root | create_child | rename.

Record page_state := Page {
  orgs : list Organization;
  memberCounts : gmap string Z;
  loading : bool;
  error_ : option string;
  msg : option string;
  expanded : gset string;
  draggingId : option string;
  dragOverId : option string;
  search : string;
  matchedIds : gset string;
  contextMenu : option (Z * Z * string);
  modalMode : option modal_mode;
  modalOrgId : option string;
  modalName : string;
  modalDesc : string;
  saving : bool }.

Definition setOrgsTo (v : list Organization) : prog page_state unit :=
  upd (fun s => Page v (memberCounts s) (loading s) (error_ s) (msg s) (expanded s) (draggingId s) (dragOverId s) (search s) (matchedIds s) (contextMenu s) (modalMode s) (modalOrgId s) (modalName s) (modalDesc s) (saving s)).
Definition setMemberCounts (v : gmap string Z) : prog page_state unit :=
  upd (fun s => Page (orgs s) v (loading s) (error_ s) (msg s) (expanded s) (draggingId s) (dragOverId s) (search s) (matchedIds s) (contextMenu s) (modalMode s) (modalOrgId s) (modalName s) (modalDesc s) (saving s)).
Definition setLoading (v : bool) : prog page_state unit :=
  upd (fun s => Page (orgs s) (memberCounts s) v (error_ s) (msg s) (expanded s) (draggingId s) (dragOverId s) (search s) (matchedIds s) (contextMenu s) (modalMode s) (modalOrgId s) (modalName s) (modalDesc s) (saving s)).
Definition setError (v : option string) : prog page_state unit :=
  upd (fun s => Page (orgs s) (memberCounts s) (loading s) v (msg s) (expanded s) (draggingId s) (dragOverId s) (search s) (matchedIds s) (contextMenu s) (modalMode s) (modalOrgId s) (modalName s) (modalDesc s) (saving s)).
Definition setMsg (v : option string) : prog page_state unit :=
  upd (fun s => Page (orgs s) (memberCounts s) (loading s) (error_ s) v (expanded s) (draggingId s) (dragOverId s) (search s) (matchedIds s) (contextMenu s) (modalMode s) (modalOrgId s) (modalName s) (modalDesc s) (saving s)).
Definition setExpanded (v : gset string) : prog page_state unit :=
  upd (fun s => Page (orgs s) (memberCounts s) (loading s) (error_ s) (msg s) v (draggingId s) (dragOverId s) (search s) (matchedIds s) (contextMenu s) (modalMode s) (modalOrgId s) (modalName s) (modalDesc s) (saving s)).
Definition setDraggingId (v : option string) : prog page_state unit :=
  upd (fun s => Page (orgs s) (memberCounts s) (loading s) (error_ s) (msg s) (expanded s) v (dragOverId s) (search s) (matchedIds s) (contextMenu s) (modalMode s) (modalOrgId s) (modalName s) (modalDesc s) (saving s)).
Definition setDragOverId (v : option string) : prog page_state unit :=
  upd (fun s => Page (orgs s) (memberCounts s) (loading s) (error_ s) (msg s) (expanded s) (draggingId s) v (search s) (matchedIds s) (contextMenu s) (modalMode s) (modalOrgId s) (modalName s) (modalDesc s) (saving s)).
Definition setSearch (v : string) : prog page_state unit :=
  upd (fun s => Page (orgs s) (memberCounts s) (loading s) (error_ s) (msg s) (expanded s) (draggingId s) (dragOverId s) v (matchedIds s) (contextMenu s) (modalMode s) (modalOrgId s) (modalName s) (modalDesc s) (saving s)).
Definition setMatchedIds (v : gset string) : prog page_state unit :=
  upd (fun s => Page (orgs s) (memberCounts s) (loading s) (error_ s) (msg s) (expanded s) (draggingId s) (dragOverId s) (search s) v (contextMenu s) (modalMode s) (modalOrgId s) (modalName s) (modalDesc s) (saving s)).
Definition setContextMenu (v : option (Z * Z * string)) : prog page_state unit :=
  upd (fun s => Page (orgs s) (memberCounts s) (loading s) (error_ s) (msg s) (expanded s) (draggingId s) (dragOverId s) (search s) (matchedIds s) v (modalMode s) (modalOrgId s) (modalName s) (modalDesc s) (saving s)).
Definition setModalMode (v : option modal_mode) : prog page_state unit :=
  upd (fun s => Page (orgs s) (memberCounts s) (loading s) (error_ s) (msg s) (expanded s) (draggingId s) (dragOverId s) (search s) (matchedIds s) (contextMenu s) v (modalOrgId s) (modalName s) (modalDesc s) (saving s)).
Definition setModalOrgId (v : option string) : prog page_state unit :=
  upd (fun s => Page (orgs s) (memberCounts s) (loading s) (error_ s) (msg s) (expanded s) (draggingId s) (dragOverId s) (search s) (matchedIds s) (contextMenu s) (modalMode s) v (modalName s) (modalDesc s) (saving s)).
Definition setModalName (v : string) : prog page_state unit :=
  upd (fun s => Page (orgs s) (memberCounts s) (loading s) (error_ s) (msg s) (expanded s) (draggingId s) (dragOverId s) (search s) (matchedIds s) (contextMenu s) (modalMode s) (modalOrgId s) v (modalDesc s) (saving s)).
Definition setModalDesc (v : string) : prog page_state unit :=
  upd (fun s => Page (orgs s) (memberCounts s) (loading s) (error_ s) (msg s) (expanded s) (draggingId s) (dragOverId s) (search s) (matchedIds s) (contextMenu s) (modalMode s) (modalOrgId s) (modalName s) v (saving s)).
Definition setSaving (v : bool) : prog page_state unit :=
  upd (fun s => Page (orgs s) (memberCounts s) (loading s) (error_ s) (msg s) (expanded s) (draggingId s) (dragOverId s) (search s) (matchedIds s) (contextMenu s) (modalMode s) (modalOrgId s) (modalName s) (modalDesc s) v).

Definition setOrgs (f : list Organization -> list Organization) : prog page_state unit :=
  s ← get_state; setOrgsTo (f (orgs s)).

Definition page_init : page_state :=
  Page [] ∅ true None None ∅ None None "" ∅ None None None "" "" false.

(** The answer of the listing, as [Organization[]]. *)
Definition text (v : js) (k : string) : string := match opt_prop v k with JStr s => s | _ => "" end.
Definition org_of (v : js) : Organization :=
  Org (text v "id") (text v "name") (text v "path") (text v "parent_id") (text v "description").
Definition listing (v : js) : prog page_state (list Organization) :=
  match v with JArr l => mret (map org_of l) | _ => Throw (type_error "list.map is not a function") end.

(** [memData.members?.length || 0]. *)
Definition members_length (members : js) : Z := match members with JArr l => Z.of_nat (length l) | _ => 0 end.

Definition toggle (x : string) (e : gset string) : gset string :=
  if bool_decide (x ∈ e) then e ∖ {[x]} else {[x]} ∪ e.

Section Page.
Context (API_BASE TENANT_ID : string).

Definition call (m : method) (path : string) (body : option js) : prog page_state js :=
  apiFetch true API_BASE TENANT_ID path (Some {| ri_method := Some m; ri_headers := []; ri_body := stringify <$> body |}).

Definition count_members (org : Organization) : prog page_state Z :=
  try_catch (
    memData ← apiFetch true API_BASE TENANT_ID ("/api/v1/orgs/" +:+ id org +:+ "/members") None;
    members ← get memData "members";
    mret (members_length members))
    (fun _ => mret 0).

Definition loadData : prog page_state unit :=
  setLoading true;;
  finally (try_catch (
      data ← apiFetch true API_BASE TENANT_ID "/api/v1/orgs" None;
      organizations ← get data "organizations";
      list_ ← listing (js_or organizations (JArr []));
      setOrgsTo list_;;
      counts ← promise_all (map count_members list_);
      setMemberCounts (fold_left (fun m oc => <[id oc.1 := oc.2]> m) (zip list_ counts) ∅);;
      setExpanded (list_to_set (map id (List.filter (fun o => String.eqb (parent_id o) "") list_)));;
      setError None)
    (fun err => setError (Some (e_message err))))
  (setLoading false).

(** [loadData], started and not awaited. *)
Definition start_load : prog page_state unit := emit "loadData" JUndef.

Definition toggleExpand (x : string) : prog page_state unit :=
  s ← get_state; setExpanded (toggle x (expanded s)).

(** *** Dragging.  [s] is the state of the render, [tree] what it built. *)

Definition handleDragStart (x : string) : prog page_state unit := setDraggingId (Some x).
Definition handleDragOver (s : page_state) (x : string) : prog page_state unit :=
  match draggingId s with
  | Some d => if negb (String.eqb d "") && negb (String.eqb x d) then setDragOverId (Some x) else mret tt
  | None => mret tt
  end.
Definition handleDragLeave : prog page_state unit := setDragOverId None.
Definition handleDragEnd : prog page_state unit := setDraggingId None;; setDragOverId None.

(** The guard of [handleDrop]: only the roots of the tree are looked at. *)
Definition drop_refused (tree : list OrgNode) (source target : string) : bool :=
  match List.find (fun n => String.eqb (n_id n) source) tree with
  | Some sourceNode => isDescendant sourceNode target
  | None => false
  end.

(** [`${org?.name}`]. *)
Definition name_of (orgs : list Organization) (x : string) : string :=
  match org_at (rev orgs) x with Some o => name o | None => "undefined" end.

Definition quoted (s : string) : string := dq +:+ s +:+ dq.

Definition handleDrop (s : page_state) (tree : list OrgNode) (targetOrgId : string) : prog page_state unit :=
  setDragOverId None;;
  setDraggingId None;;
  match nonempty (draggingId s) with
  | None => mret tt
  | Some source =>
      if String.eqb source targetOrgId then mret tt
      else if drop_refused tree source targetOrgId
      then setError (Some "Cannot reassign an org to its own descendant")
      else
        setOrgs (move_org source targetOrgId);;
        try_catch (
          call PUT ("/api/v1/orgs/" +:+ source) (Some (JObj [("parent_id", JStr targetOrgId)]));;
          setMsg (Some ("Moved " +:+ quoted (name_of (orgs s) source) +:+ " under " +:+ quoted (name_of (orgs s) targetOrgId)));;
          start_load)
          (fun err => setError (Some (e_message err));; start_load)
  end.

(** *** The context menu and the dialog *)

Definition handleContextMenu (x y : Z) (org : string) : prog page_state unit := setContextMenu (Some (x, y, org)).

Definition openModal (mode : option modal_mode) (org : option string) (n d : string) : prog page_state unit :=
  setModalMode mode;; setModalOrgId org;; setModalName n;; setModalDesc d.
Definition openCreateRoot : prog page_state unit := openModal (Some create_root) None "" "".
Definition openCreateChild (parent : string) : prog page_state unit := openModal (Some create_child) (Some parent) "" "".
Definition openRename (s : page_state) (x : string) : prog page_state unit :=
  let org := org_at (rev (orgs s)) x in
  openModal (Some rename) (Some x) (default "" (name <$> org)) (default "" (description <$> org)).
Definition closeModal : prog page_state unit := openModal None None "" "".

Definition save_body (s : page_state) (parent : list (string * js)) : js :=
  JObj ([("name", JStr (modalName s)); ("description", JStr (modalDesc s))] ++ parent).

Definition handleSaveModal (s : page_state) : prog page_state unit :=
  if String.eqb (trim (modalName s)) "" then setError (Some "Organization name is required")
  else
    setSaving true;;
    setError None;;
    finally (try_catch (
        match modalMode s, nonempty (modalOrgId s) with
        | Some create_root, _ =>
            call POST "/api/v1/orgs" (Some (save_body s []));;
            setMsg (Some ("Created root org " +:+ quoted (modalName s)))
        | Some create_child, Some parent =>
            call POST "/api/v1/orgs" (Some (save_body s [("parent_id", JStr parent)]));;
            setMsg (Some ("Created child org " +:+ quoted (modalName s)))
        | Some rename, Some x =>
            call PUT ("/api/v1/orgs/" +:+ x) (Some (save_body s []));;
            setMsg (Some ("Renamed to " +:+ quoted (modalName s)))
        | _, _ => mret tt
        end;;
        closeModal;;
        start_load)
      (fun err => setError (Some (e_message err))))
    (setSaving false).

(** [handleDelete] asks for a confirmation; [delete_confirmed] is its [onConfirm]. *)
Definition handleDelete (s : page_state) (x : string) : prog page_state unit :=
  match org_at (rev (orgs s)) x with
  | None => mret tt
  | Some org => emit "confirm" (JStr ("Delete " +:+ quoted (name org) +:+ "?"))
  end.

Definition delete_confirmed (org : Organization) : prog page_state unit :=
  try_catch (
    call DELETE ("/api/v1/orgs/" +:+ id org) None;;
    setMsg (Some ("Deleted " +:+ quoted (name org)));;
    start_load)
    (fun err => setError (Some (e_message err))).

Definition reorder (x : string) (i : Z) (done_ : string) : prog page_state unit :=
  ok ← try_catch (call PUT ("/api/v1/orgs/" +:+ x) (Some (JObj [("sort_order", JNum i)]));; mret true) (fun _ => mret false);
  setMsg (Some (if ok : bool then done_ else done_ +:+ " (local only)"));;
  start_load.

(** [up = true] for "up". *)
Definition handleMove (tree : list OrgNode) (x : string) (up : bool) : prog page_state unit :=
  match findNode tree x with
  | None => mret tt
  | Some node =>
      let siblings := getSiblings tree (parent_id (n_org node)) None in
      let myIndex := find_index (fun n => String.eqb (n_id n) x) siblings in
      if up && (0 <? myIndex) then reorder x (myIndex - 1) ("Moved " +:+ quoted (name (n_org node)) +:+ " up")
      else if negb up && (myIndex <? Z.of_nat (length siblings) - 1)
      then reorder x (myIndex + 1) ("Moved " +:+ quoted (name (n_org node)) +:+ " down")
      else mret tt
  end.
End Page.

(** ** Properties *)

Lemma sum_Z_perm l l' : l ≡ₚ l' -> sum_Z l = sum_Z l'.
Proof. unfold sum_Z. induction 1; cbn in *; lia. Qed.

(** C31. The tree built from a listing with distinct identifiers has the organizations without
    listed parent as roots, and under every organization, in the order of the listing, those
    that name it as parent; every total is the number of members of the organization and all
    below it.  No organization occurs twice, and those that occur are those with a root above
    them; when that is all of them, the totals of the roots sum up all members. *)
Theorem tree_sound orgs counts :
  NoDup (map id orgs) ->
  exists tree, buildTree orgs counts = Some tree
  /\ map n_org tree = roots_of orgs /\ Forall (node_ok orgs counts) tree
  /\ List.NoDup (flat_map flatten tree)
  /\ (forall o, In o (flat_map flatten tree) <-> In o orgs /\ exists k, rooted orgs k o)
  /\ (is_forest orgs -> sum_Z (map n_total tree) = sum_Z (map (members counts) orgs)).
Proof.
  intros Hids. exists (map (grow orgs counts (length orgs)) (roots_of orgs)).
  assert (Forall (node_ok orgs counts) (map (grow orgs counts (length orgs)) (roots_of orgs))) as Hok.
  { apply Forall_forall. intros n Hn. apply list_elem_of_In, in_map_iff in Hn as (r & <- & Hr).
    apply root_In in Hr as [Ho H0]. apply (grow_ok orgs counts Hids _ 0); [done|done|lia]. }
  split_and!; [by apply buildTree_grow| |done|by apply forest_NoDup|by intros o; apply forest_In|].
  - rewrite map_map. erewrite map_ext; [apply map_id|]. intros o. apply grow_org.
  - intros Hf. rewrite (sum_subtrees orgs counts) by done. apply sum_Z_perm, Permutation_map.
    apply NoDup_Permutation; [by apply NoDup_ListNoDup, forest_NoDup|by apply NoDup_ListNoDup, orgs_NoDup|].
    intros o. rewrite !list_elem_of_In, forest_In by done. split; [by intros [? _]|]. intros Ho. split; [done|by apply Hf].
Qed.

Lemma refused_spec orgs counts tree a b :
  NoDup (map id orgs) -> In a orgs -> In b orgs -> buildTree orgs counts = Some tree ->
  drop_refused tree (id a) (id b) = true <-> up orgs a = None /\ exists j, nth_up orgs j b = Some a.
Proof.
  intros Hids Ha Hb Ht. rewrite buildTree_grow in Ht by done. injection Ht as <-. unfold drop_refused.
  destruct (List.find _ _) as [n|] eqn:E.
  - apply find_some in E as [Hn He]. apply in_map_iff in Hn as (r & <- & Hr). apply String.eqb_eq in He.
    unfold n_id in He. rewrite grow_org in He. apply root_In in Hr as [Hin H0].
    assert (r = a) as -> by by apply (NoDup_map_inj id orgs). rewrite isDescendant_spec.
    assert (up orgs a = None) as Hu by (destruct H0 as (r & [= <-] & Hu); done). split.
    + intros (y & Hy & E). apply (flatten_grow _ _ Hids _ 0) in Hy as [Hy Hj]; [|done|done|lia].
      assert (y = b) as -> by by apply (NoDup_map_inj id orgs). done.
    + intros [_ Hj]. exists b. split; [|done]. apply (flatten_grow _ _ Hids _ 0); [done|done|lia|done].
  - split; [done|]. intros [Hu _].
    assert (In (grow orgs counts (length orgs) a) (map (grow orgs counts (length orgs)) (roots_of orgs))) as Hin
      by (apply in_map, root_In; split; [done|by exists a]).
    apply (find_none _ _ E) in Hin. unfold n_id in Hin. by rewrite grow_org, eqb_refl_str in Hin.
Qed.

(** Dropping an organization on another one ends whatever the server answers; a refused
    drop changes no organization and asks for nothing.  The listing on the screen stays a forest
    exactly when the organization dragged is a root or the target is not below it: the guard
    protects the roots and nothing else. *)
Lemma drop_keeps_forest API_BASE TENANT_ID (e : env) s counts tree a b l :
  NoDup (map id (orgs s)) -> is_forest (orgs s) -> In a (orgs s) -> In b (orgs s) -> a <> b -> id a <> "" -> id b <> "" ->
  draggingId s = Some (id a) -> buildTree (orgs s) counts = Some tree ->
  exists w', run e (handleDrop API_BASE TENANT_ID s tree (id b)) (page s l) = (Done tt, w')
  /\ orgs (w_st w') = (if drop_refused tree (id a) (id b) then orgs s else move_org (id a) (id b) (orgs s))
  /\ (drop_refused tree (id a) (id b) = true -> w_trace w' = [])
  /\ (is_forest (orgs (w_st w')) <-> up (orgs s) a = None \/ ~ exists j, nth_up (orgs s) j b = Some a).
Proof.
  intros Hids Hf Ha Hb Hne Hna Hnb Hd Ht. pose proof (refused_spec _ _ _ _ _ Hids Ha Hb Ht) as Href.
  assert (forall w', orgs (w_st w') = (if drop_refused tree (id a) (id b) then orgs s else move_org (id a) (id b) (orgs s)) ->
    (is_forest (orgs (w_st w')) <-> up (orgs s) a = None \/ ~ exists j, nth_up (orgs s) j b = Some a)) as Hfor.
  { intros w' ->. destruct (drop_refused tree (id a) (id b)).
    - destruct (proj1 Href eq_refl) as [Hu _]. split; [by left|done].
    - rewrite move_forest by done. split; [by right|]. intros [Hu|H]; [|done]. intros Hj. discriminate (proj2 Href (conj Hu Hj)). }
  assert (id a <> id b) as Hab by (intros E; apply Hne; by apply (NoDup_map_inj id (orgs s))).
  unfold handleDrop, setDragOverId, setDraggingId. rewrite Hd, !run_mbind, run_upd, run_mbind, run_upd.
  assert (nonempty (Some (id a)) = Some (id a)) as -> by (cbn; by destruct (id a)).
  rewrite (eqb_str_false (id a) (id b)) by done.
  destruct (drop_refused tree (id a) (id b)) eqn:E.
  - unfold setError. rewrite run_upd. eexists. split; [reflexivity|].
    match goal with |- orgs (w_st ?w) = _ /\ _ => set (w' := w) end.
    assert (orgs (w_st w') = orgs s) as Ho by by unfold w'; autorewrite with world.
    split_and!; [done|by unfold w'; autorewrite with world|by apply Hfor].
  - unfold setOrgs, setOrgsTo. rewrite !run_mbind, run_get_state, run_upd.
    match goal with |- context [run e ?p ?w] => set (w1 := w); set (q := p) end.
    assert (exists w', run e q w1 = (Done tt, w')) as [w' Hr].
    { unfold q. rewrite run_try. destruct (run e _ w1) as [[[]|x] w2]; [by exists w2|].
      unfold start_load, setError. rewrite run_mbind, run_upd, run_emit. by eexists. }
    exists w'. assert (orgs (w_st w') = move_org (id a) (id b) (orgs s)) as Ho.
    { pose proof (tame_run (fun s' => orgs s' = move_org (id a) (id b) (orgs s)) (fun _ => True) e q w1) as H.
      rewrite Hr in H. apply H.
      - unfold q, start_load, setError, setMsg, call. tame_prog; try done; try (by apply tame_apiFetch); by intros; apply tame_upd.
      - split; [|by apply Forall_true]. unfold w1. by autorewrite with world. }
    split_and!; [done|done|done|by apply Hfor].
Qed.

(** A match in a cycle keeps the search running. *)
Lemma search_hangs orgs q e x :
  NoDup (map id orgs) -> trim q <> "" -> In x orgs -> org_matches (to_lower q) x = true -> (forall k, ~ rooted orgs k x) ->
  forall fuel, search_effect fuel q orgs e = None.
Proof.
  intros Hids Hq Hx Hm Hno fuel. unfold search_effect. rewrite eqb_str_false by done.
  assert (In (id x) (map id (List.filter (org_matches (to_lower q)) orgs))) as Hix by by apply in_map, filter_In.
  destruct (map id (List.filter _ _)) as [|y ys]; [done|].
  by rewrite (expand_matches_cycle orgs Hids fuel (y :: ys) e (id x) x); [|done|apply org_at_Some|].
Qed.

(** C23. In a forest a search ends within as many rounds as there are organizations and collapses
    nothing; every match is marked, each organization above it, up to the root, is expanded, and
    its row is among those shown.  When a match has no root
    above it the search never ends, and the page hangs. *)
Theorem search_shows orgs counts q e :
  NoDup (map id orgs) -> trim q <> "" ->
  (is_forest orgs ->
   exists tree m e', buildTree orgs counts = Some tree /\ search_effect (length orgs) q orgs e = Some (m, e') /\ e ⊆ e'
   /\ forall x, In x orgs -> org_matches (to_lower q) x = true ->
      id x ∈ m
      /\ (forall i a, nth_up orgs (S i) x = Some a -> id a ∈ e')
      /\ exists d, In (d, id x) (flat_map (renderNode e' m 0) tree))
  /\ (forall x, In x orgs -> org_matches (to_lower q) x = true -> (forall k, ~ rooted orgs k x) ->
      forall fuel, search_effect fuel q orgs e = None).
Proof.
  intros Hids Hq. split.
  - intros Hf. unfold search_effect. rewrite eqb_str_false by done. set (ms := List.filter (org_matches (to_lower q)) orgs).
    assert (forall x, In x orgs -> org_matches (to_lower q) x = true -> In (id x) (map id ms)) as Hin
      by (intros x Hx Hm; by apply in_map, filter_In).
    exists (map (grow orgs counts (length orgs)) (roots_of orgs)).
    destruct (expand_matches_forest orgs Hids (length orgs) (map id ms) e Hf) as (e' & He & Hsub & Hanc); [lia|].
    destruct (map id ms) as [|y ys] eqn:Em.
    + exists ∅, e. split_and!; [by apply buildTree_grow|done..|]. intros x Hx Hm. by destruct (Hin x Hx Hm).
    + exists (list_to_set (y :: ys)), e'. split_and!; [by apply buildTree_grow|by rewrite He|done|].
      intros x Hx Hm. assert (id x ∈ (list_to_set (y :: ys) : gset string)) as Hmx
        by (by apply elem_of_list_to_set, list_elem_of_In, Hin).
      assert (forall i a, nth_up orgs (S i) x = Some a -> id a ∈ e') as Hup
        by (intros i a; apply (Hanc (id x) x); [by apply Hin|by apply org_at_Some]).
      split; [exact Hmx|]. split; [exact Hup|].
      destruct (proj1 (is_rooted orgs Hids x Hx) (Hf x Hx)) as (r & j & Hr & Hj).
      pose proof (proj1 (root_In orgs r) Hr) as [Hor H0].
      destruct (shown orgs Hids counts e' (list_to_set (y :: ys)) x j r 0 0 (length orgs)) as (d & Hd); [done..|lia|done|].
      exists d. apply in_flat_map. exists (grow orgs counts (length orgs) r). split; [by apply in_map|done].
  - intros x Hx Hm Hno. by apply (search_hangs orgs q e x).
Qed.

(** ** Examples *)

Definition demo_orgs : list Organization :=
  [Org "r" "Root" "/r" "" ""; Org "b" "Beta" "/r/a/b" "a" ""; Org "a" "Alpha" "/r/a" "r" ""; Org "o" "Orphan" "/x/o" "gone" ""].
Definition demo_counts : gmap string Z := {["r" := 1; "a" := 2; "b" := 4; "o" := 8]}.

Example demo_tree :
  buildTree demo_orgs demo_counts
  = Some [Node (Org "r" "Root" "/r" "" "") [Node (Org "a" "Alpha" "/r/a" "r" "") [Node (Org "b" "Beta" "/r/a/b" "a" "") [] 4] 6] 7;
          Node (Org "o" "Orphan" "/x/o" "gone" "") [] 8].
Proof. vm_compute. reflexivity. Qed.

(** Dropped below itself, a branch leaves the tree, and a search that finds it hangs. *)
Example dropped_branch_vanishes :
  let moved := move_org "a" "b" demo_orgs in
  drop_refused (default [] (buildTree demo_orgs demo_counts)) "a" "b" = false
  /\ option_map (map n_id) (buildTree moved demo_counts) = Some ["r"; "o"]
  /\ (forall fuel, search_effect fuel "beta" moved ∅ = None).
Proof.
  split_and!; [vm_compute; reflexivity..|]. intros fuel.
  assert (NoDup (map id (move_org "a" "b" demo_orgs))) as Hn by (compute_done).
  apply (search_hangs _ _ _ (Org "b" "Beta" "/r/a/b" "a" "")); [exact Hn|discriminate|by right; left|vm_compute; reflexivity|].
  intros k (r & Hr & Hu). revert r Hr Hu.
  assert (forall k, nth_up (move_org "a" "b" demo_orgs) k (Org "b" "Beta" "/r/a/b" "a" "") = Some (Org "b" "Beta" "/r/a/b" "a" "")
    \/ nth_up (move_org "a" "b" demo_orgs) k (Org "b" "Beta" "/r/a/b" "a" "") = Some (Org "a" "Alpha" "/r/a" "b" "")) as Hk.
  { clear. induction k as [|k IH]; [by left|]. replace (S k) with (k + 1)%nat by lia. rewrite nth_up_add.
    destruct IH as [-> | ->]; [right|left]; vm_compute; reflexivity. }
  intros r Hr Hu. destruct (Hk k) as [E|E]; rewrite E in Hr; injection Hr as <-; vm_compute in Hu; discriminate.
Qed.

(** An organization whose parent is not listed is shown as a root, and cannot be reordered. *)
Example orphan_not_reordered API_BASE TENANT_ID (e : env) up_ w :
  run e (handleMove API_BASE TENANT_ID (default [] (buildTree demo_orgs demo_counts)) "o" up_) w = (Done tt, w).
Proof. destruct up_; vm_compute; reflexivity. Qed.

(** ** Witnesses *)

Lemma tree_sound_witness : exists tree, buildTree demo_orgs demo_counts = Some tree /\ List.NoDup (flat_map flatten tree).
Proof.
  destruct (tree_sound demo_orgs demo_counts) as (tree & Ht & _ & _ & Hn & _);
    [compute_done|]. exists tree. split; [exact Ht|exact Hn].
Defined.

Lemma demo_forest : is_forest demo_orgs.
Proof.
  intros o [<-|[<-|[<-|[<-|[]]]]];
    [exists 0%nat|exists 2%nat|exists 1%nat|exists 0%nat]; eexists; (split; [vm_compute; reflexivity|vm_compute; reflexivity]).
Qed.

Definition demo_page : page_state :=
  Page demo_orgs demo_counts false None None ∅ (Some "a") None "" ∅ None None None "" "" false.

Lemma drop_keeps_forest_witness :
  exists w', run (const_env (Some (Response 200 "{}")) 0) (handleDrop "https://api" "t" demo_page (default [] (buildTree demo_orgs demo_counts)) "o")
    (page demo_page ∅) = (Done tt, w')
  /\ orgs (w_st w') = move_org "a" "o" demo_orgs /\ is_forest (orgs (w_st w')).
Proof.
  destruct (drop_keeps_forest "https://api" "t" (const_env (Some (Response 200 "{}")) 0) demo_page demo_counts
    (default [] (buildTree demo_orgs demo_counts)) (Org "a" "Alpha" "/r/a" "r" "") (Org "o" "Orphan" "/x/o" "gone" "") ∅)
    as (w' & Hr & Ho & _ & Hf);
    [compute_done|exact demo_forest|by right; right; left|by right; right; right; left
    |discriminate|discriminate|discriminate|reflexivity|vm_compute; reflexivity|].
  exists w'. split; [exact Hr|]. split; [rewrite Ho; vm_compute; reflexivity|]. apply Hf. right.
  intros (j & Hj). destruct j as [|j]; [vm_compute in Hj; discriminate|]. vm_compute in Hj. discriminate.
Defined.

Lemma search_shows_witness :
  exists m e', search_effect 4 "beta" demo_orgs ∅ = Some (m, e') /\ "b" ∈ m /\ "a" ∈ e' /\ "r" ∈ e'
  /\ exists d, In (d, "b") (flat_map (renderNode e' m 0) (default [] (buildTree demo_orgs demo_counts))).
Proof.
  destruct (search_shows demo_orgs demo_counts "beta" ∅) as [H _]; [compute_done|discriminate|].
  destruct (H demo_forest) as (tree & m & e' & Ht & He & _ & Hs). exists m, e'. split; [exact He|].
  rewrite Ht. destruct (Hs (Org "b" "Beta" "/r/a/b" "a" "")) as (Hm & Hup & Hd); [by right; left|vm_compute; reflexivity|].
  split; [exact Hm|]. split; [exact (Hup 0%nat (Org "a" "Alpha" "/r/a" "r" "") eq_refl)|].
  split; [exact (Hup 1%nat (Org "r" "Root" "/r" "" "") eq_refl)|exact Hd].
Defined.
