(* ===== verification/RoleMatrix.v ===== *)
(** * Permission matrices (console/src/app/roles/matrix and roles/permission-matrix)

    Both pages edit a table of roles against permissions.  The first loads the roles, with
    their parents, and what each of them may do, and saves the rows that changed; the second
    edits a fixed set of five roles.  A JavaScript [Set] is a list in the order of insertion.
    The loops along parent roles take fuel, [None] standing for a loop still running. *)

From S2P Require Import Prelude Parents JsValue JsString Json Effects ApiClient.
#[local] Open Scope Z_scope.

(** ** Sets *)

Notation jset := (list string).

Definition has (p : string) (s : jset) : bool := str_mem p s.
Definition add (p : string) (s : jset) : jset := if has p s then s else s ++ [p].
Definition del (p : string) (s : jset) : jset := List.filter (fun q => negb (String.eqb q p)) s.
Definition add_all (l : list string) (s : jset) : jset := fold_left (fun s p => add p s) l s.
Definition set_of (l : list string) : jset := add_all l [].

(** ** Data *)

Record Role := MkRole {
  r_id : string; r_key : string; r_name : string; r_description : string; system_role : bool; parent_role_id : string }.

Record Permission := MkPermission {
  p_id : string; p_key : string; p_name : string; resource_type : string; action : string }.

Definition PERMISSION_GROUPS : list (string * list string) :=
  [("Identity", ["users.create"; "users.read"; "users.update"; "users.delete"; "roles.create"; "roles.read"]);
   ("Policy", ["policies.create"; "policies.read"; "policies.update"]);
   ("OAuth", ["clients.create"; "clients.read"; "tokens.revoke"]);
   ("Audit", ["audit.read"; "audit.export"])].

Notation Matrix := (gmap string jset).

Definition row (m : Matrix) (role : string) : jset := default [] (m !! role).

(** ** What the page derives *)

(** [new Map(roles.map(r => [r.id, r])).get(id)], [permByKey.get(key)]: the last one wins. *)
Definition role_at (roles : list Role) (x : string) : option Role := find_key r_id (rev roles) x.
Definition permByKey (permissions : list Permission) (k : string) : option Permission := find_key p_key (rev permissions) k.

(** [visit] of [inheritanceChain]: the set of visited roles and the chain. *)
Fixpoint visit (fuel : nat) (roles : list Role) (x : string) (st : gset string * list string)
    : option (gset string * list string) :=
  match fuel with
  | O => None
  | S fuel' =>
      if bool_decide (x ∈ st.1) then Some st
      else
        let st := ({[x]} ∪ st.1, st.2) in
        st ← match role_at roles x with
             | Some role => if String.eqb (parent_role_id role) "" then Some st
                            else visit fuel' roles (parent_role_id role) st
             | None => Some st
             end;
        Some (st.1, st.2 ++ [x])
  end.

Definition inheritanceChain (roles : list Role) : option (list string) :=
  st ← foldl (fun acc r => st ← acc; visit (S (S (length roles))) roles (r_id r) st) (Some (∅, [])) roles;
  Some st.2.

Definition orderedRoles (roles : list Role) : option (list Role) :=
  chain ← inheritanceChain roles; Some (omap (role_at roles) (chain : list string)).

(** The loop over the parents of a role whose own permissions are [own]. *)
Fixpoint inherit (fuel : nat) (roles : list Role) (m : Matrix) (own : jset) (parentId : string) (inherited : jset)
    : option jset :=
  if String.eqb parentId "" then Some inherited
  else match fuel with
       | O => None
       | S fuel' =>
           let inherited := fold_left (fun s p => if has p own then s else add p s) (row m parentId) inherited in
           inherit fuel' roles m own (match role_at roles parentId with Some r => parent_role_id r | None => "" end) inherited
       end.

Definition inherit_into (fuel : nat) (roles : list Role) (m : Matrix) (acc : option Matrix) (r : Role) : option Matrix :=
  res ← acc;
  inherited ← inherit fuel roles m (row m (r_id r)) (parent_role_id r) [];
  Some (<[r_id r := inherited]> res).

Definition inheritedPerms (fuel : nat) (roles : list Role) (m : Matrix) : option Matrix :=
  foldl (inherit_into fuel roles m) (Some ∅) roles.

(** The comparison of [isDirty] and [handleSave]. *)
Definition differs (orig curr : jset) : bool :=
  negb (Nat.eqb (length orig) (length curr))
  || existsb (fun p => negb (has p orig)) curr || existsb (fun p => negb (has p curr)) orig.

Definition isDirty (m orig : Matrix) : bool :=
  existsb (fun kv => differs (row orig kv.1) (row m kv.1)) (map_to_list m).

(** The cell of a permission key: the id it stands for, whether it is ticked, locked. *)
Definition cell_id (permissions : list Permission) (k : string) : string :=
  default "" (p_id <$> permByKey permissions k).
Definition isAllowed (permissions : list Permission) (m : Matrix) (role k : string) : bool :=
  has (cell_id permissions k) (row m role).
Definition isInherited (permissions : list Permission) (inherited : Matrix) (role k : string) : bool :=
  has (cell_id permissions k) (row inherited role).

(** ** The page *)

Record matrix_state := MState {
  roles : list Role;
  permissions : list Permission;
  loading : bool;
  error_ : option string;
  msg : option string;
  saving : bool;
  matrix : Matrix;
  originalMatrix : Matrix;
  bulkRole : string;
  bulkGroup : string }.

Definition setRoles (v : list Role) : prog matrix_state unit :=
  upd (fun s => MState v (permissions s) (loading s) (error_ s) (msg s) (saving s) (matrix s) (originalMatrix s) (bulkRole s) (bulkGroup s)).
Definition setPermissions (v : list Permission) : prog matrix_state unit :=
  upd (fun s => MState (roles s) v (loading s) (error_ s) (msg s) (saving s) (matrix s) (originalMatrix s) (bulkRole s) (bulkGroup s)).
Definition setLoading (v : bool) : prog matrix_state unit :=
  upd (fun s => MState (roles s) (permissions s) v (error_ s) (msg s) (saving s) (matrix s) (originalMatrix s) (bulkRole s) (bulkGroup s)).
Definition setError (v : option string) : prog matrix_state unit :=
  upd (fun s => MState (roles s) (permissions s) (loading s) v (msg s) (saving s) (matrix s) (originalMatrix s) (bulkRole s) (bulkGroup s)).
Definition setMsg (v : option string) : prog matrix_state unit :=
  upd (fun s => MState (roles s) (permissions s) (loading s) (error_ s) v (saving s) (matrix s) (originalMatrix s) (bulkRole s) (bulkGroup s)).
Definition setSaving (v : bool) : prog matrix_state unit :=
  upd (fun s => MState (roles s) (permissions s) (loading s) (error_ s) (msg s) v (matrix s) (originalMatrix s) (bulkRole s) (bulkGroup s)).
Definition setOriginalMatrix (v : Matrix) : prog matrix_state unit :=
  upd (fun s => MState (roles s) (permissions s) (loading s) (error_ s) (msg s) (saving s) (matrix s) v (bulkRole s) (bulkGroup s)).
Definition setBulkRole (v : string) : prog matrix_state unit :=
  upd (fun s => MState (roles s) (permissions s) (loading s) (error_ s) (msg s) (saving s) (matrix s) (originalMatrix s) v (bulkGroup s)).
Definition setBulkGroup (v : string) : prog matrix_state unit :=
  upd (fun s => MState (roles s) (permissions s) (loading s) (error_ s) (msg s) (saving s) (matrix s) (originalMatrix s) (bulkRole s) v).
Definition setMatrix (f : Matrix -> Matrix) : prog matrix_state unit :=
  upd (fun s => MState (roles s) (permissions s) (loading s) (error_ s) (msg s) (saving s) (f (matrix s))
                  (originalMatrix s) (bulkRole s) (bulkGroup s)).

Definition matrix_init : matrix_state := MState [] [] true None None false ∅ ∅ "" "".

(** The answers, read as their interfaces declare. *)
Definition text (v : js) (k : string) : string := match opt_prop v k with JStr s => s | _ => "" end.
Definition role_of (v : js) : Role :=
  MkRole (text v "id") (text v "key") (text v "name") (text v "description") (truthy (opt_prop v "system_role")) (text v "parent_role_id").
Definition permission_of (v : js) : Permission :=
  MkPermission (text v "id") (text v "key") (text v "name") (text v "resource_type") (text v "action").
Definition elements {A} (f : js -> A) (v : js) : prog matrix_state (list A) :=
  match v with JArr l => mret (map f l) | _ => Throw (type_error "map is not a function") end.

Section Page.
Context (API_BASE TENANT_ID : string).

Definition load_or_empty (path k : string) : prog matrix_state js :=
  try_catch (apiFetch true API_BASE TENANT_ID path None) (fun _ => mret (JObj [(k, JArr [])])).

Definition permissions_path (role : string) : string := "/api/v1/roles/" +:+ role +:+ "/permissions".

Definition load_row (role : Role) : prog matrix_state jset :=
  try_catch (
    data ← apiFetch true API_BASE TENANT_ID (permissions_path (r_id role)) None;
    perms ← get data "permissions";
    l ← elements (fun p => text p "id") (js_or perms (JArr []));
    mret (set_of l))
    (fun _ => mret []).

Definition loadData : prog matrix_state unit :=
  setLoading true;;
  finally (try_catch (
      resps ← promise_all [load_or_empty "/api/v1/roles" "roles"; load_or_empty "/api/v1/permissions" "permissions"];
      let rolesResp := nth 0 resps JUndef in
      let permsResp := nth 1 resps JUndef in
      rs ← get rolesResp "roles";
      roleList ← elements role_of (js_or_list [rs; opt_prop rolesResp "items"] (JArr []));
      ps ← get permsResp "permissions";
      permList ← elements permission_of (js_or_list [ps; opt_prop permsResp "items"] (JArr []));
      setRoles roleList;;
      setPermissions permList;;
      rows ← promise_all (map load_row roleList);
      let m := fold_left (fun m rr => <[r_id rr.1 := rr.2]> m) (zip roleList rows) ∅ in
      setMatrix (fun _ => m);;
      setOriginalMatrix m;;
      setError None)
    (fun err => setError (Some (e_message err))))
  (setLoading false).

Definition toggle_row (p : string) (current : jset) : jset := if has p current then del p current else add p current.

Definition toggleCell (role p : string) (isInherited : bool) : prog matrix_state unit :=
  if isInherited then mret tt
  else setMatrix (fun prev => <[role := toggle_row p (row prev role)]> prev).

Definition put_row (m : Matrix) (role : Role) : prog matrix_state js :=
  apiFetch true API_BASE TENANT_ID (permissions_path (r_id role))
    (Some {| ri_method := Some PUT; ri_headers := [];
             ri_body := Some (stringify (JObj [("permission_ids", JArr (map JStr (row m (r_id role))))])) |}).

Definition changedRoles (ordered : list Role) (m orig : Matrix) : list Role :=
  List.filter (fun role => differs (row orig (r_id role)) (row m (r_id role))) ordered.

(** [ordered], [m] and [orig] are those of the render. *)
Definition handleSave (ordered : list Role) (m orig : Matrix) : prog matrix_state unit :=
  setSaving true;;
  setError None;;
  finally (try_catch (
      let changed := changedRoles ordered m orig in
      promise_all (map (put_row m) changed);;
      setOriginalMatrix m;;
      setMsg (Some ("Saved permissions for " +:+ string_of_Z (Z.of_nat (length changed)) +:+ " role(s)")))
    (fun err => setError (Some (e_message err))))
  (setSaving false).

(** The identifiers of the permissions of a group that the server lists. *)
Definition group_ids (permissions : list Permission) (keys : list string) : list string :=
  omap (fun k => nonempty (p_id <$> permByKey permissions k)) keys.

Definition handleBulkApply (s : matrix_state) : prog matrix_state unit :=
  if String.eqb (bulkRole s) "" || String.eqb (bulkGroup s) "" then mret tt
  else match List.find (fun g => String.eqb g.1 (bulkGroup s)) PERMISSION_GROUPS with
       | None => mret tt
       | Some g =>
           setMatrix (fun prev => <[bulkRole s := add_all (group_ids (permissions s) g.2) (row prev (bulkRole s))]> prev);;
           setMsg (Some ("Applied all " +:+ bulkGroup s +:+ " permissions to "
             +:+ match find_key r_id (roles s) (bulkRole s) with
                 | Some r => str_or (r_name r) (bulkRole s) | None => bulkRole s end))
       end.
End Page.

(** ** Sets *)

Lemma has_In p s : has p s = true <-> In p s.
Proof. apply str_mem_In. Qed.

Lemma add_In p q s : In q (add p s) <-> q = p \/ In q s.
Proof.
  unfold add. destruct (has p s) eqn:E; [|rewrite in_app_iff; cbn; intuition].
  apply has_In in E. split; [by right|]. by intros [->|].
Qed.

Lemma add_NoDup p s : List.NoDup s -> List.NoDup (add p s).
Proof.
  intros Hs. unfold add. destruct (has p s) eqn:E; [done|]. apply List.NoDup_app; [done|repeat constructor; by intros []|].
  intros q Hq [<-|[]]. apply has_In in Hq. by rewrite E in Hq.
Qed.

Lemma del_In p q s : In q (del p s) <-> q <> p /\ In q s.
Proof.
  unfold del. rewrite filter_In. destruct (String.eqb_spec q p); cbn; intuition congruence.
Qed.

Lemma del_NoDup p s : List.NoDup s -> List.NoDup (del p s).
Proof. apply List.NoDup_filter. Qed.

Lemma add_all_In l s q : In q (add_all l s) <-> In q l \/ In q s.
Proof.
  unfold add_all. revert s. induction l as [|p l IH]; intros s; cbn; [tauto|]. rewrite IH, add_In. intuition.
Qed.

Lemma add_all_NoDup l s : List.NoDup s -> List.NoDup (add_all l s).
Proof. unfold add_all. revert s. induction l as [|p l IH]; intros s Hs; cbn; [done|]. apply IH. by apply add_NoDup. Qed.

Lemma toggle_row_In p q s : In q (toggle_row p s) <-> (if decide (q = p) then ~ In p s else In q s).
Proof.
  unfold toggle_row. destruct (has p s) eqn:E.
  - apply has_In in E. rewrite del_In. case_decide; subst; intuition.
  - assert (~ In p s) by (intros H; apply has_In in H; congruence). rewrite add_In. case_decide; subst; intuition.
Qed.

Lemma toggle_row_NoDup p s : List.NoDup s -> List.NoDup (toggle_row p s).
Proof. intros Hs. unfold toggle_row. destruct (has p s); [by apply del_NoDup|by apply add_NoDup]. Qed.

Lemma existsb_false_In {A} (P : A -> bool) l : existsb P l = false <-> forall x, In x l -> P x = false.
Proof. rewrite Forall_existsb_false, List.Forall_forall. done. Qed.

(** Two rows differ when one has what the other has not. *)
Lemma differs_spec orig curr :
  List.NoDup orig -> List.NoDup curr -> differs orig curr = false <-> (forall p, In p orig <-> In p curr).
Proof.
  intros Ho Hc. unfold differs. split.
  - intros H. apply orb_false_iff in H as [H H3]. apply orb_false_iff in H as [H1 H2]. intros p. split; intros Hp.
    + assert (negb (has p curr) = false) as E by by apply (proj1 (existsb_false_In _ _) H3). apply negb_false_iff in E. by apply has_In.
    + assert (negb (has p orig) = false) as E by by apply (proj1 (existsb_false_In _ _) H2). apply negb_false_iff in E. by apply has_In.
  - intros H. assert (length orig = length curr) as ->.
    { apply Nat.le_antisymm; apply NoDup_incl_length; try done; intros p Hp; by apply H. }
    rewrite Nat.eqb_refl. cbn [negb orb]. apply orb_false_iff. split; apply existsb_false_In; intros p Hp; apply negb_false_iff, has_In; by apply H.
Qed.

(** ** The chain of roles *)

Definition ids (roles : list Role) : gset string := list_to_set (map r_id roles).

(** [h] grows from every parent to its children. *)
Definition rank (roles : list Role) (h : string -> nat) : Prop :=
  forall r, In r roles -> parent_role_id r <> "" -> (h (parent_role_id r) < h (r_id r))%nat.

(** Parents precede their children among [new], visited after [before]. *)
Definition ordered_after (roles : list Role) (before new : list string) : Prop :=
  forall l1 x l2 r, new = l1 ++ x :: l2 -> find_key r_id roles x = Some r -> parent_role_id r <> "" ->
    In (parent_role_id r) (before ++ l1).

Section Chain.
Context (roles : list Role).
Hypothesis (Hids : NoDup (map r_id roles)).

Lemma role_at_find x : role_at roles x = find_key r_id roles x.
Proof. unfold role_at. by apply find_key_rev. Qed.

Lemma ordered_snoc before new x :
  ordered_after roles before new ->
  (forall r, find_key r_id roles x = Some r -> parent_role_id r <> "" -> In (parent_role_id r) (before ++ new)) ->
  ordered_after roles before (new ++ [x]).
Proof.
  intros Hn Hx l1 y l2 r E Hr Hp. destruct l2 as [|z l2] using rev_ind.
  - apply app_inj_tail in E as [-> ->]. by eapply Hx.
  - rewrite app_comm_cons, app_assoc in E. apply app_inj_tail in E as [-> ->]. by eapply Hn.
Qed.

Lemma ordered_app before new new' :
  ordered_after roles before new -> ordered_after roles (before ++ new) new' -> ordered_after roles before (new ++ new').
Proof.
  intros H H'. induction new' as [|x new' IH] using rev_ind; [by rewrite app_nil_r|].
  rewrite app_assoc. apply ordered_snoc.
  - apply IH. intros l1 y l2 r E. apply (H' l1 y (l2 ++ [x])). rewrite E. by rewrite <- app_assoc.
  - intros r Hr Hp. rewrite app_assoc. by apply (H' new' x [] r).
Qed.

Lemma visit_spec fuel : forall x V C,
  (S (size (ids roles ∖ V)) <= fuel)%nat ->
  exists V' new, visit fuel roles x (V, C) = Some (V', C ++ new)
  /\ V' = V ∪ list_to_set new /\ x ∈ V' /\ List.NoDup new /\ (forall y, In y new -> y ∉ V)
  /\ forall h, rank roles h -> (forall z, z ∈ V -> In z C \/ (h x < h z)%nat) ->
     In x (C ++ new) /\ ordered_after roles C new.
Proof.
  induction fuel as [|fuel IH]; intros x V C Hf; [lia|]. cbn [visit fst snd].
  assert (forall h : string -> nat, In x C \/ (h x < h x)%nat -> In x (C ++ [])) as Hin
    by (intros h [H|H]; [apply in_or_app; by left|lia]).
  destruct (decide (x ∈ V)) as [Hx|Hx].
  { rewrite bool_decide_eq_true_2 by done. exists V, []. rewrite app_nil_r. split_and!; [done|set_solver|done|constructor|done|].
    intros h _ HV. split; [|by intros [] ? ? ? ?]. destruct (HV x Hx); [done|lia]. }
  rewrite bool_decide_eq_false_2 by done. rewrite role_at_find.
  assert (forall V' new, V' = {[x]} ∪ V ∪ list_to_set new -> List.NoDup new -> (forall y, In y new -> y ∉ {[x]} ∪ V) ->
    V' = V ∪ list_to_set (new ++ [x]) /\ x ∈ V' /\ List.NoDup (new ++ [x]) /\ (forall y, In y (new ++ [x]) -> y ∉ V)) as Hfin.
  { intros V' new -> Hnd Hnew. rewrite list_to_set_app_L. cbn. split_and!; [set_solver|set_solver| |].
    - apply List.NoDup_app; [done|repeat constructor; by intros []|]. intros y Hy [<-|[]]. apply (Hnew x Hy). set_solver.
    - intros y [Hy|[<-|[]]]%in_app_iff; [|done]. specialize (Hnew y Hy). set_solver. }
  destruct (find_key r_id roles x) as [r|] eqn:E.
  - destruct (String.eqb_spec (parent_role_id r) "") as [Ep|Ep].
    + cbn [mbind option_bind fst snd]. exists ({[x]} ∪ V), [x]. split; [done|].
      destruct (Hfin ({[x]} ∪ V) []) as (H1 & H2 & H3 & H4); [set_solver|constructor|done|]. split_and!; [done..|].
      intros h _ _. split; [apply in_or_app; right; by left|]. intros [|? [|]] y l2 r' Ey Hr' Hp; [|done..].
      injection Ey as <- <-. rewrite E in Hr'. by injection Hr' as <-.
    + destruct (IH (parent_role_id r) ({[x]} ∪ V) C) as (V' & new & Hv & HV' & Hp & Hnd & Hnew & Hord).
      { assert (x ∈ ids roles ∖ V) as Hxi.
        { apply find_key_Some in E as [Hin' <-]; [|done]. apply elem_of_difference. split; [|done].
          apply elem_of_list_to_set, list_elem_of_In. by apply in_map. }
        assert (ids roles ∖ V = {[x]} ∪ (ids roles ∖ ({[x]} ∪ V))) as Es.
        { apply set_eq. intros y. destruct (decide (y = x)); set_solver. }
        rewrite Es, size_union, size_singleton in Hf by set_solver. lia. }
      rewrite Hv. cbn [mbind option_bind fst snd]. exists V', (new ++ [x]). rewrite app_assoc. split; [done|].
      destruct (Hfin V' new HV' Hnd Hnew) as (H1 & H2 & H3 & H4). split_and!; [done..|].
      intros h Hh HV. split; [apply in_or_app; right; by left|].
      destruct (Hord h Hh) as [Hpin Ho].
      { apply find_key_Some in E as [Hin' <-]; [|done]. specialize (Hh r Hin' Ep). intros z [->%elem_of_singleton|Hz]%elem_of_union; [by right|].
        destruct (HV z Hz); [by left|right; lia]. }
      apply ordered_snoc; [done|]. intros r' Hr' _. rewrite E in Hr'. by injection Hr' as <-.
  - cbn [mbind option_bind fst snd]. exists ({[x]} ∪ V), [x]. split; [done|].
    destruct (Hfin ({[x]} ∪ V) []) as (H1 & H2 & H3 & H4); [set_solver|constructor|done|]. split_and!; [done..|].
    intros h _ _. split; [apply in_or_app; right; by left|]. intros [|? [|]] y l2 r' Ey Hr' Hp; [|done..].
    injection Ey as <- <-. by rewrite E in Hr'.
Qed.

Lemma visits_spec fuel l : forall C,
  (S (length roles) <= fuel)%nat -> List.NoDup C ->
  exists C', foldl (fun acc r => st ← acc; visit fuel roles (r_id r) st) (Some (list_to_set C, C)) l = Some (list_to_set C', C')
  /\ List.NoDup C' /\ (forall x, In x C -> In x C') /\ (forall r, In r l -> In (r_id r) C')
  /\ forall h, rank roles h -> ordered_after roles [] C -> ordered_after roles [] C'.
Proof.
  induction l as [|r l IH]; intros C Hf HC; [by exists C; split_and!|]. cbn [foldl mbind option_bind].
  destruct (visit_spec fuel (r_id r) (list_to_set C) C) as (V' & new & -> & HV' & Hx & Hnd & Hnew & Hord).
  { assert (size (ids roles ∖ list_to_set C) <= length roles)%nat; [|lia].
    transitivity (size (ids roles)); [apply subseteq_size; set_solver|]. unfold ids.
    rewrite size_list_to_set by done. by rewrite length_map. }
  assert (V' = list_to_set (C ++ new)) as -> by by rewrite HV', list_to_set_app_L.
  assert (In (r_id r) (C ++ new)) as Hin by (by apply elem_of_list_to_set, list_elem_of_In in Hx).
  destruct (IH (C ++ new) Hf) as (C' & Hr & Hnd' & Hinc & Hall & Ho).
  { apply List.NoDup_app; [done..|]. intros y Hy Hy'. apply (Hnew y Hy'). by apply elem_of_list_to_set, list_elem_of_In. }
  exists C'. split_and!; [done|done| | |].
  - intros x Hxc. apply Hinc. apply in_or_app. by left.
  - intros r' [<-|Hr']; [by apply Hinc|by apply Hall].
  - intros h Hh HoC. apply (Ho h Hh). apply (ordered_app []); [done|]. apply (Hord h Hh).
    intros z Hz. left. by apply elem_of_list_to_set, list_elem_of_In in Hz.
Qed.

(** ** Inherited permissions *)

Notation ancestor := (nth_parent r_id parent_role_id).
Notation rooted := (rooted_in r_id parent_role_id).

Lemma inherit_row own l acc p :
  In p (fold_left (fun s p => if has p own then s else add p s) l acc) <-> In p acc \/ (In p l /\ ~ In p own).
Proof.
  revert acc. induction l as [|q l IH]; intros acc; cbn; [tauto|]. rewrite IH. destruct (has q own) eqn:E.
  - apply has_In in E. intuition. subst. done.
  - assert (~ In q own) by (intros H; apply has_In in H; congruence). rewrite add_In. intuition; subst; tauto.
Qed.

Lemma inherit_rooted k m own : forall fuel r acc,
  (forall x, ~ In x (map r_id roles) -> row m x = []) -> In r roles -> rooted roles k r -> (k < fuel)%nat ->
  exists res, inherit fuel roles m own (parent_role_id r) acc = Some res
  /\ forall p, In p res <-> In p acc \/ (~ In p own /\ exists i a, ancestor roles (S i) r = Some a /\ In p (row m (r_id a))).
Proof.
  induction k as [|k IH]; intros fuel r acc Hm Hr (t & Ht & Hu) Hf; (destruct fuel as [|fuel]; [lia|]); cbn [inherit].
  - injection Ht as ->. assert (forall i, ancestor roles (S i) t = None) as Hno by (intros i; cbn; by rewrite Hu).
    assert (forall p, In p acc <-> In p acc \/ (~ In p own /\ exists i a, ancestor roles (S i) t = Some a /\ In p (row m (r_id a)))) as Hacc.
    { intros p. split; [by left|]. intros [H|(_ & i & a & Ha & _)]; [done|]. by rewrite Hno in Ha. }
    unfold parent_in in Hu. destruct (String.eqb (parent_role_id t) "") eqn:E; [by exists acc|].
    rewrite role_at_find, Hu. rewrite Hm.
    + exists acc. split; [by destruct fuel|done].
    + intros (o & Ho & Hin)%in_map_iff. assert (find_key r_id roles (parent_role_id t) = Some o) by by apply find_key_Some. congruence.
  - cbn in Ht. destruct (parent_in r_id parent_role_id roles r) as [p|] eqn:Ep; [|done]. cbn in Ht.
    pose proof (parent_In _ _ _ Hids _ _ Ep) as Hp. pose proof Ep as Ep'. unfold parent_in in Ep'.
    destruct (String.eqb (parent_role_id r) "") eqn:E; [done|]. rewrite role_at_find, Ep'.
    apply find_key_Some in Ep' as [_ Hk]; [|done].
    destruct (IH fuel p (fold_left (fun s p => if has p own then s else add p s) (row m (parent_role_id r)) acc)) as (res & Hi & Hres);
      [done|done|by exists t|lia|].
    exists res. split; [done|]. intros q. rewrite Hres, inherit_row. split.
    + intros [[H|[H1 H2]]|(H1 & i & a & Ha & Hq)]; [by left|right..].
      * split; [done|]. exists 0%nat, p. cbn. rewrite Ep. by rewrite Hk.
      * split; [done|]. exists (S i), a. cbn. by rewrite Ep.
    + intros [H|(H1 & i & a & Ha & Hq)]; [by left; left|]. cbn in Ha. rewrite Ep in Ha. cbn in Ha.
      destruct i as [|i]; [injection Ha as <-; left; right; by rewrite <- Hk|right]. split; [done|]. by exists i, a.
Qed.

Lemma inherit_cycle m own fuel : forall r acc,
  In r roles -> (forall k, ~ rooted roles k r) -> inherit fuel roles m own (parent_role_id r) acc = None.
Proof.
  induction fuel as [|fuel IH]; intros r acc Hr Hno; cbn [inherit].
  - destruct (String.eqb (parent_role_id r) "") eqn:E; [|done]. destruct (Hno 0%nat). exists r. split; [done|]. unfold parent_in. by rewrite E.
  - destruct (parent_in r_id parent_role_id roles r) as [p|] eqn:Ep; [|destruct (Hno 0%nat); by exists r].
    pose proof (parent_In _ _ _ Hids _ _ Ep) as Hp. pose proof Ep as Ep'. unfold parent_in in Ep'.
    destruct (String.eqb (parent_role_id r) ""); [done|]. rewrite role_at_find, Ep'. apply IH; [done|].
    intros k Hk. apply (Hno (S k)). by eapply rooted_up.
Qed.

Lemma inheritedPerms_fold fuel m l : forall res0,
  NoDup (map r_id l) ->
  (forall r, In r l -> exists i, inherit fuel roles m (row m (r_id r)) (parent_role_id r) [] = Some i) ->
  exists res : Matrix, foldl (inherit_into fuel roles m) (Some res0) l = Some res
  /\ (forall x, ~ In x (map r_id l) -> res !! x = res0 !! x)
  /\ forall r, In r l -> res !! r_id r = inherit fuel roles m (row m (r_id r)) (parent_role_id r) [].
Proof.
  induction l as [|r l IH]; intros res0 Hnd Hall; [by exists res0|].
  destruct (Hall r) as [i Hi]; [by left|]. cbn [foldl].
  assert (inherit_into fuel roles m (Some res0) r = Some (<[r_id r := i]> res0)) as -> by (unfold inherit_into; cbn [mbind option_bind]; by rewrite Hi). cbn [map] in Hnd. apply NoDup_cons in Hnd as [Hr Hnd].
  rewrite list_elem_of_In in Hr.
  destruct (IH (<[r_id r := i]> res0) Hnd) as (res & -> & Hout & Hin); [intros r' Hr'; apply Hall; by right|].
  exists res. split_and!; [done| |].
  - intros x Hx. rewrite Hout by (intros H; apply Hx; by right). apply lookup_insert_ne. intros <-. apply Hx. by left.
  - intros r' [<-|Hr']; [|by apply Hin]. by rewrite Hout, lookup_insert_eq, Hi.
Qed.

Lemma inheritedPerms_cycle fuel m r : In r roles -> (forall k, ~ rooted roles k r) -> inheritedPerms fuel roles m = None.
Proof.
  intros Hr Hno. unfold inheritedPerms. generalize (Some (∅ : Matrix)).
  assert (forall l, foldl (inherit_into fuel roles m) None l = None) as Hnone by (induction l; done).
  assert (forall l acc, In r l -> foldl (inherit_into fuel roles m) acc l = None) as Hl.
  { induction l as [|r' l IH]; intros acc []; cbn [foldl].
    - subst r'. assert (inherit_into fuel roles m acc r = None) as ->; [|apply Hnone].
      unfold inherit_into. destruct acc; cbn [mbind option_bind]; [by rewrite inherit_cycle|done].
    - by apply IH. }
  intros acc. by apply Hl.
Qed.
End Chain.

(** ** Saving *)

Definition row_request (API_BASE : string) (m : Matrix) (role : Role) (headers : list (string * string)) : request :=
  api_request API_BASE (permissions_path (r_id role))
    (Some {| ri_method := Some PUT; ri_headers := [];
             ri_body := Some (stringify (JObj [("permission_ids", JArr (map JStr (row m (r_id role))))])) |}) headers.

(** What a save may do outside of the page. *)
Definition save_obs (API_BASE : string) (changed : Role -> Prop) (m : Matrix) (o : obs) : Prop :=
  match o with
  | ObsFetch rq => (exists role headers, changed role /\ rq = row_request API_BASE m role headers)
                   \/ exists r, rq = refresh_request API_BASE r
  | ObsEmit ev _ => ev = "ggid:unauthorized"
  | _ => False
  end.

Lemma tame_put_row (P : matrix_state -> Prop) API_BASE TENANT_ID changed m role :
  changed role -> tame P (save_obs API_BASE changed m) (put_row API_BASE TENANT_ID m role).
Proof. intros Hr. apply tame_apiFetch; [|intros r; right; by exists r|done]. intros headers. left. by exists role, headers. Qed.

Lemma differs_refl s : differs s s = false.
Proof.
  unfold differs. rewrite Nat.eqb_refl. cbn [negb orb].
  assert (existsb (fun p => negb (has p s)) s = false) as ->; [|done].
  apply existsb_false_In. intros p Hp. by apply negb_false_iff, has_In.
Qed.

Lemma isDirty_refl m : isDirty m m = false.
Proof. unfold isDirty. apply existsb_false_In. intros kv _. apply differs_refl. Qed.

(** ** Properties *)

(** The chain of roles is computed for any parents, cyclic ones included: it has every
    role once, and when no role is its own ancestor, every parent stands before its children. *)
Lemma chain_complete roles :
  NoDup (map r_id roles) ->
  exists chain, inheritanceChain roles = Some chain /\ List.NoDup chain /\ (forall r, In r roles -> In (r_id r) chain)
  /\ (forest r_id parent_role_id roles ->
      forall l1 x l2 r, chain = l1 ++ x :: l2 -> find_key r_id roles x = Some r -> parent_role_id r <> "" ->
      In (parent_role_id r) l1).
Proof.
  intros Hids. destruct (visits_spec roles Hids (S (S (length roles))) roles []) as (chain & Hr & Hnd & _ & Hall & Ho);
    [lia|constructor|].
  exists chain. unfold inheritanceChain. cbn [list_to_set] in Hr. rewrite Hr. split_and!; [done|done|done|].
  intros Hf l1 x l2 r E Hx Hp. destruct (forest_rank _ _ _ Hids Hf) as (h & Hh).
  apply (Ho h) with (x := x) (l2 := l2) (r := r); try done. intros [|] ? ? ? Ey; discriminate.
Qed.

(** When no role is its own ancestor, the permissions shown as inherited by a role are
    those of its ancestors that it does not have itself; a role that is its own ancestor keeps
    the page computing for ever. *)
Lemma inherited_effective roles m :
  NoDup (map r_id roles) -> (forall x, ~ In x (map r_id roles) -> row m x = []) ->
  (forest r_id parent_role_id roles ->
   exists res, inheritedPerms (length roles) roles m = Some res
   /\ forall r p, In r roles ->
      In p (row res (r_id r)) <-> ~ In p (row m (r_id r))
        /\ exists i a, nth_parent r_id parent_role_id roles (S i) r = Some a /\ In p (row m (r_id a)))
  /\ (forall r, In r roles -> (forall k, ~ rooted_in r_id parent_role_id roles k r) ->
      forall fuel, inheritedPerms fuel roles m = None).
Proof.
  intros Hids Hm. split; [|intros r Hr Hno fuel; by eapply inheritedPerms_cycle].
  intros Hf. assert (forall r, In r roles -> exists res, inherit (length roles) roles m (row m (r_id r)) (parent_role_id r) [] = Some res
    /\ forall p, In p res <-> In p [] \/ (~ In p (row m (r_id r)) /\ exists i a, nth_parent r_id parent_role_id roles (S i) r = Some a /\ In p (row m (r_id a)))) as Hi.
  { intros r Hr. destruct (Hf r Hr) as (k & Hk). apply (inherit_rooted roles Hids k); [done..|].
    by apply (rooted_bound r_id parent_role_id roles Hids k r). }
  destruct (inheritedPerms_fold roles (length roles) m roles ∅ Hids) as (res & Hres & _ & Hl).
  { intros r Hr. destruct (Hi r Hr) as (i & Hri & _). by exists i. }
  exists res. split; [exact Hres|]. intros r p Hr. unfold row at 1. rewrite (Hl r Hr).
  destruct (Hi r Hr) as (i & -> & Hp). cbn [default]. rewrite Hp. cbn. tauto.
Qed.

(** A role of the table whose row is not the one last loaded or saved. *)
Definition edited (s : matrix_state) (ordered : list Role) (role : Role) : Prop :=
  In role ordered /\ differs (row (originalMatrix s) (r_id role)) (row (matrix s) (r_id role)) = true.

(** A save ends whatever the server answers.  It sends, for every changed role and for no
    other, all the permissions ticked for it.  It ends without an error when the server took
    all of them, and the table shown then counts as saved; after an error every changed row
    still counts as changed, though the server may have taken some. *)
Lemma save_sends_changes API_BASE TENANT_ID (e : env) s l ordered :
  exists w', run e (handleSave API_BASE TENANT_ID ordered (matrix s) (originalMatrix s)) (page s l) = (Done tt, w')
  /\ saving (w_st w') = false /\ matrix (w_st w') = matrix s
  /\ Forall (save_obs API_BASE (edited s ordered) (matrix s)) (w_trace w')
  /\ (forall role, edited s ordered role ->
      exists headers, In (ObsFetch (row_request API_BASE (matrix s) role headers)) (w_trace w'))
  /\ ((error_ (w_st w') = None /\ isDirty (matrix (w_st w')) (originalMatrix (w_st w')) = false)
      \/ (error_ (w_st w') <> None /\ originalMatrix (w_st w') = originalMatrix s)).
Proof.
  set (m := matrix s). set (orig := originalMatrix s). set (changed := changedRoles ordered m orig).
  assert (forall role, edited s ordered role <-> In role changed) as Hed by (intros role; symmetry; apply filter_In).
  unfold handleSave, setSaving, setError, setOriginalMatrix, setMsg.
  rewrite run_mbind, run_upd, run_mbind, run_upd, run_finally, run_try, run_mbind.
  fold changed. set (w1 := set_st _ _).
  assert (w_trace w1 = [] /\ matrix (w_st w1) = m /\ originalMatrix (w_st w1) = orig /\ error_ (w_st w1) = None) as (Ht & H1 & H2 & H3)
    by (unfold w1; autorewrite with world; done).
  destruct (run_promise_all e (map (put_row API_BASE TENANT_ID m) changed) w1) as (os & w2 & Hs & ->).
  destruct (settle_all_done e (map (put_row API_BASE TENANT_ID m) changed) w1) as (os' & w2' & Hs' & Hlog).
  rewrite Hs in Hs'. injection Hs' as <- <-.
  pose proof (tame_run (fun st => matrix st = m /\ originalMatrix st = orig /\ error_ st = None) (save_obs API_BASE (edited s ordered) m) e
    (settle_all (map (put_row API_BASE TENANT_ID m) changed)) w1) as Hinv. rewrite Hs in Hinv.
  destruct Hinv as [(I1 & I2 & I3) Iobs].
  { apply tame_settle_all, Forall_forall. intros p Hp. apply list_elem_of_In, in_map_iff in Hp as (role & <- & Hr). by apply tame_put_row, Hed. }
  { split; [done|]. rewrite Ht. constructor. }
  cbn [snd] in *.
  assert (forall role, edited s ordered role -> exists headers, In (ObsFetch (row_request API_BASE m role headers)) (w_trace w2)) as Hall.
  { intros role Hr. destruct (Hlog (put_row API_BASE TENANT_ID m role) (fun o => exists headers, o = ObsFetch (row_request API_BASE m role headers)))
      as (o & (headers & ->) & Hin); [by apply in_map, Hed|intros w; apply apiFetch_sends|]. by exists headers. }
  destruct (all_values os) as [x|vs]; cbn match; rewrite ?run_mbind, ?run_upd;
    (eexists; split; [reflexivity|]); autorewrite with world; cbn; rewrite ?I1.
  - split_and!; [done|done|done|done|]. right. by rewrite I2.
  - split_and!; [done|done|done|done|]. left. split; [by rewrite I3|apply isDirty_refl].
Qed.

(** ** Examples *)

(** The permissions of the page that the server does not list have one cell in common: a click
    on any of them turns all of them. *)
Lemma unlisted_cells_share permissions m role k k' :
  permByKey permissions k = None -> permByKey permissions k' = None ->
  isAllowed permissions (<[role := toggle_row (cell_id permissions k) (row m role)]> m) role k'
  = negb (isAllowed permissions m role k').
Proof.
  intros Hk Hk'. unfold isAllowed, cell_id. rewrite Hk, Hk'. cbn [fmap option_fmap option_map default].
  unfold row at 1. rewrite lookup_insert_eq. cbn [default].
  destruct (has "" (row m role)) eqn:E; [apply not_true_iff_false|]; cbn [id]; rewrite has_In; unfold id; rewrite toggle_row_In, decide_True by done.
  - apply has_In in E. tauto.
  - intros H. apply has_In in H. congruence.
Qed.

Definition demo_server (_ : list obs) (rq : request) : option response :=
  let url := rq_url rq in
  if String.eqb url "/api/v1/roles" then
    Some (Response 200 (stringify (JObj [("roles", JArr [JObj [("id", JStr "r1"); ("name", JStr "Auditor")]])])))
  else if String.eqb url "/api/v1/permissions" then
    Some (Response 200 (stringify (JObj [("permissions", JArr [JObj [("id", JStr "p1"); ("key", JStr "audit.read")];
      JObj [("id", JStr "p2"); ("key", JStr "audit.export")]])])))
  else match rq_method rq with
       | PUT => Some (Response 204 "")
       | _ => Some (Response 503 "busy")
       end.
Definition demo_env : env := Env demo_server (fun _ => 0) (fun _ _ => []) (fun _ _ _ => None).

(** A role whose permissions could not be read is shown as having none; ticking one and saving
    replaces all it had by that one. *)
Example unreadable_role_overwritten :
  let w1 := (run demo_env (loadData "" "t") (page matrix_init ∅)).2 in
  let w2 := (run demo_env (toggleCell "r1" "p2" false) w1).2 in
  let s := w_st w2 in
  let w3 := (run demo_env (handleSave "" "t" (default [] (orderedRoles (roles s))) (matrix s) (originalMatrix s)) w2).2 in
  error_ (w_st w1) = None
  /\ option_map rq_body (head (fetches (w_trace w3))) = Some (Some (stringify (JObj [("permission_ids", JArr [JStr "p2"])])))
  /\ error_ (w_st w3) = None.
Proof. vm_compute. done. Qed.

(** ** Witnesses *)

Definition demo_roles : list Role :=
  [MkRole "v" "viewer" "Viewer" "" false "e"; MkRole "e" "editor" "Editor" "" false "a"; MkRole "a" "admin" "Admin" "" true ""].
Definition demo_matrix : Matrix := {["a" := ["p1"; "p2"]; "e" := ["p3"]; "v" := ["p1"]]}.

Lemma demo_roles_forest : forest r_id parent_role_id demo_roles.
Proof.
  intros r [<-|[<-|[<-|[]]]]; [exists 2%nat|exists 1%nat|exists 0%nat]; eexists; (split; vm_compute; reflexivity).
Qed.

Lemma chain_complete_witness : inheritanceChain demo_roles = Some ["a"; "e"; "v"] /\ List.NoDup ["a"; "e"; "v"].
Proof.
  split; [vm_compute; reflexivity|].
  destruct (chain_complete demo_roles) as (chain & Hc & Hn & _); [compute_done|].
  vm_compute in Hc. injection Hc as <-. exact Hn.
Defined.

Lemma inherited_effective_witness :
  exists res, inheritedPerms 3 demo_roles demo_matrix = Some res /\ In "p2" (row res "v") /\ In "p3" (row res "v") /\ ~ In "p1" (row res "v").
Proof.
  destruct (inherited_effective demo_roles demo_matrix) as [H _]; [compute_done| |].
  { intros x Hx. unfold row, demo_matrix. rewrite lookup_insert_ne, lookup_insert_ne, lookup_singleton_ne; [done|..];
      intros <-; apply Hx; vm_compute; tauto. }
  destruct (H demo_roles_forest) as (res & Hr & Hp). exists res. split; [exact Hr|].
  pose (v := MkRole "v" "viewer" "Viewer" "" false "e").
  assert (In v demo_roles) as Hv by by left.
  split; [|split].
  - apply (Hp v "p2" Hv). split; [vm_compute; intuition discriminate|]. exists 1%nat. eexists. split; [vm_compute; reflexivity|vm_compute; tauto].
  - apply (Hp v "p3" Hv). split; [vm_compute; intuition discriminate|]. exists 0%nat. eexists. split; [vm_compute; reflexivity|vm_compute; tauto].
  - intros Hin. apply (Hp v "p1" Hv) in Hin as [Hno _]. apply Hno. vm_compute. tauto.
Defined.
