(* ===== verification/PermMatrix.v ===== *)
(** * The fixed permission matrix (console/src/app/roles/permission-matrix/page.tsx)

    Five roles built into the page against its own list of permissions.  The roles are those
    of RoleMatrix without parents. *)

From S2P Require Import Prelude JsValue JsString Json Effects ApiClient RoleMatrix.
#[local] Open Scope Z_scope.

Definition DEFAULT_ROLES : list Role :=
  [MkRole "admin" "admin" "Admin" "Full system access" true "";
   MkRole "manager" "manager" "Manager" "Manage users and orgs" false "";
   MkRole "editor" "editor" "Editor" "Edit content" false "";
   MkRole "viewer" "viewer" "Viewer" "Read-only access" false "";
   MkRole "guest" "guest" "Guest" "Limited access" false ""].

Record PermGroup := PermGroup_ { label : string; icon : string; group_permissions : list (string * string) }.

Definition GROUPS : list PermGroup :=
  [PermGroup_ "User Management" "users" [("users.create", "Create Users"); ("users.read", "View Users"); ("users.update", "Update Users"); ("users.delete", "Delete Users"); ("users.export", "Export Users")];
   PermGroup_ "Organization" "org" [("orgs.create", "Create Orgs"); ("orgs.read", "View Orgs"); ("orgs.update", "Update Orgs"); ("orgs.delete", "Delete Orgs")];
   PermGroup_ "Policy" "policy" [("policies.create", "Create Policies"); ("policies.read", "View Policies"); ("policies.update", "Update Policies"); ("policies.delete", "Delete Policies"); ("policies.evaluate", "Evaluate Policies")];
   PermGroup_ "Audit" "audit" [("audit.read", "View Audit"); ("audit.export", "Export Audit"); ("audit.delete", "Delete Audit")];
   PermGroup_ "Admin" "admin" [("admin.settings", "Manage Settings"); ("admin.impersonate", "Impersonate Users"); ("admin.apikeys", "Manage API Keys"); ("admin.webhooks", "Manage Webhooks")]].

Definition ALL_PERMS : list (string * string) := flat_map group_permissions GROUPS.

Definition DEFAULT_MATRIX : Matrix :=
  list_to_map (("admin", set_of (map fst ALL_PERMS)) :: map (fun kv => (kv.1, set_of kv.2))
    [("manager", ["users.create"; "users.read"; "users.update"; "users.export"; "orgs.create"; "orgs.read"; "orgs.update"; "policies.read"; "audit.read"]); 
     ("editor", ["users.read"; "orgs.read"; "policies.read"; "policies.evaluate"; "audit.read"]); 
     ("viewer", ["users.read"; "orgs.read"; "policies.read"; "audit.read"]); 
     ("guest", ["users.read"])]).

(** ** What the page derives *)

Definition filteredPerms (search : string) : list (string * string) :=
  if String.eqb search "" then ALL_PERMS
  else let q := to_lower search in
       List.filter (fun p => str_includes q (to_lower p.1) || str_includes q (to_lower p.2)) ALL_PERMS.

Definition visibleRoles (roleFilter : string) : list Role :=
  if String.eqb roleFilter "all" then DEFAULT_ROLES else List.filter (fun r => String.eqb (r_id r) roleFilter) DEFAULT_ROLES.

(** The group as drawn: with the permissions that pass the search. *)
Definition shown_group (search : string) (g : PermGroup) : PermGroup :=
  PermGroup_ (label g) (icon g) (List.filter (fun p => has p.1 (map fst (filteredPerms search))) (group_permissions g)).

(** ** The page *)

Record perm_state := PState {
  matrix : Matrix;
  search : string;
  roleFilter : string;
  collapsedGroups : jset;
  bulkRole : string;
  bulkGroup : string;
  bulkSelected : jset;
  msg : option string;
  error_ : option string;
  saving : bool }.

Definition setSearch (v : string) : prog perm_state unit :=
  upd (fun s => PState (matrix s) v (roleFilter s) (collapsedGroups s) (bulkRole s) (bulkGroup s) (bulkSelected s) (msg s) (error_ s) (saving s)).
Definition setRoleFilter (v : string) : prog perm_state unit :=
  upd (fun s => PState (matrix s) (search s) v (collapsedGroups s) (bulkRole s) (bulkGroup s) (bulkSelected s) (msg s) (error_ s) (saving s)).
Definition setBulkRole (v : string) : prog perm_state unit :=
  upd (fun s => PState (matrix s) (search s) (roleFilter s) (collapsedGroups s) v (bulkGroup s) (bulkSelected s) (msg s) (error_ s) (saving s)).
Definition setBulkGroup (v : string) : prog perm_state unit :=
  upd (fun s => PState (matrix s) (search s) (roleFilter s) (collapsedGroups s) (bulkRole s) v (bulkSelected s) (msg s) (error_ s) (saving s)).
Definition setBulkSelected (v : jset) : prog perm_state unit :=
  upd (fun s => PState (matrix s) (search s) (roleFilter s) (collapsedGroups s) (bulkRole s) (bulkGroup s) v (msg s) (error_ s) (saving s)).
Definition setMsg (v : option string) : prog perm_state unit :=
  upd (fun s => PState (matrix s) (search s) (roleFilter s) (collapsedGroups s) (bulkRole s) (bulkGroup s) (bulkSelected s) v (error_ s) (saving s)).
Definition setError (v : option string) : prog perm_state unit :=
  upd (fun s => PState (matrix s) (search s) (roleFilter s) (collapsedGroups s) (bulkRole s) (bulkGroup s) (bulkSelected s) (msg s) v (saving s)).
Definition setSaving (v : bool) : prog perm_state unit :=
  upd (fun s => PState (matrix s) (search s) (roleFilter s) (collapsedGroups s) (bulkRole s) (bulkGroup s) (bulkSelected s) (msg s) (error_ s) v).
Definition setMatrix (f : Matrix -> Matrix) : prog perm_state unit :=
  upd (fun s => PState (f (matrix s)) (search s) (roleFilter s) (collapsedGroups s) (bulkRole s) (bulkGroup s)
                  (bulkSelected s) (msg s) (error_ s) (saving s)).
Definition setCollapsedGroups (f : jset -> jset) : prog perm_state unit :=
  upd (fun s => PState (matrix s) (search s) (roleFilter s) (f (collapsedGroups s)) (bulkRole s) (bulkGroup s)
                  (bulkSelected s) (msg s) (error_ s) (saving s)).

Definition perm_init : perm_state := PState DEFAULT_MATRIX "" "all" [] "" "" [] None None false.

Definition toggleCell (role p : string) : prog perm_state unit :=
  setMatrix (fun prev => <[role := toggle_row p (row prev role)]> prev).

Definition toggleGroup (groupLabel : string) : prog perm_state unit := setCollapsedGroups (toggle_row groupLabel).

(** [allAssigned], and the row after the click. *)
Definition group_row (g : PermGroup) (s : jset) : jset :=
  let keys := map fst (group_permissions g) in
  if forallb (fun p => has p s) keys then fold_left (fun s p => del p s) keys s else add_all keys s.

Definition toggleEntireGroupForRole (role : string) (g : PermGroup) : prog perm_state unit :=
  setMatrix (fun prev => <[role := group_row g (row prev role)]> prev).

Definition handleBulkTogglePerm (p : string) : prog perm_state unit :=
  upd (fun s => PState (matrix s) (search s) (roleFilter s) (collapsedGroups s) (bulkRole s) (bulkGroup s)
                  (toggle_row p (bulkSelected s)) (msg s) (error_ s) (saving s)).

(** [s] is the state of the render. *)
Definition handleApplyAll (s : perm_state) : prog perm_state unit :=
  if String.eqb (bulkRole s) "" || Nat.eqb (length (bulkSelected s)) 0
  then setError (Some "Select a role and at least one permission to apply")
  else
    setMatrix (fun prev => <[bulkRole s := add_all (bulkSelected s) (row prev (bulkRole s))]> prev);;
    setMsg (Some ("Applied " +:+ string_of_Z (Z.of_nat (length (bulkSelected s))) +:+ " permission(s) to "
      +:+ match find (fun r => String.eqb (r_id r) (bulkRole s)) DEFAULT_ROLES with
          | Some r => str_or (r_name r) (bulkRole s) | None => bulkRole s end));;
    setBulkSelected [];;
    setError None.

Definition selectAllInBulkGroup (s : perm_state) : prog perm_state unit :=
  match find (fun g => String.eqb (label g) (bulkGroup s)) GROUPS with
  | Some g => setBulkSelected (set_of (map fst (group_permissions g)))
  | None => mret tt
  end.

(** The rows of the export, before they are written. *)
Definition export_rows (m : Matrix) : list (list string) :=
  ("Role" :: map fst ALL_PERMS)
  :: map (fun role => r_name role :: map (fun p => if has p.1 (row m (r_id role)) then "Y" else "N") ALL_PERMS) DEFAULT_ROLES.

Definition newline : string := String "010"%char "".
Definition handleExportCSV (m : Matrix) : string :=
  join newline (map (fun r => join "," (map (fun cell => dq +:+ cell +:+ dq) r)) (export_rows m)).

Definition assignments (m : Matrix) : js :=
  JArr (map (fun role => JObj [("role_id", JStr (r_id role)); ("role_key", JStr (r_key role));
                               ("permissions", JArr (map JStr (row m (r_id role))))]) DEFAULT_ROLES).

Definition handleSave (API_BASE TENANT_ID : string) (m : Matrix) : prog perm_state unit :=
  setSaving true;;
  setError None;;
  finally (try_catch (
      apiFetch true API_BASE TENANT_ID "/api/v1/roles/permissions"
        (Some {| ri_method := Some PUT; ri_headers := []; ri_body := Some (stringify (JObj [("assignments", assignments m)])) |});;
      setMsg (Some "Permission matrix saved successfully"))
    (fun _ => setMsg (Some "Saved locally (API may not be available)")))
  (setSaving false).

(** ** Properties *)

#[local] Instance In_decision (p : string) l : Decision (In p l) := in_dec String.string_dec p l.

Lemma del_all_In l s q : In q (fold_left (fun s p => del p s) l s) <-> ~ In q l /\ In q s.
Proof.
  revert s. induction l as [|p l IH]; intros s; cbn; [tauto|]. rewrite IH, del_In. intuition.
Qed.

(** A click on a group gives the role all its permissions, or takes all of them when it had
    all, and leaves the others; so the second of two clicks takes all. *)
Lemma group_row_spec g s p :
  In p (group_row g s) <->
  (if decide (In p (map fst (group_permissions g)))
   then exists q, In q (map fst (group_permissions g)) /\ ~ In q s else In p s).
Proof.
  unfold group_row. destruct (forallb _ _) eqn:E.
  - rewrite forallb_forall in E. rewrite del_all_In. case_decide as Hp; [|tauto]. split; [tauto|].
    intros (q & Hq & Hno). apply E, has_In in Hq. done.
  - rewrite add_all_In. assert (exists q, In q (map fst (group_permissions g)) /\ ~ In q s) as (q & Hq & Hno).
    { apply not_true_iff_false in E. rewrite forallb_forall in E.
      destruct (decide (Exists (fun q => ~ In q s) (map fst (group_permissions g)))) as [H|H].
      - apply Exists_exists in H as (q & Hq & Hs). exists q. split; [by apply list_elem_of_In|done].
      - destruct E. intros q Hq. apply has_In. destruct (decide (In q s)); [done|]. destruct H. apply Exists_exists.
        exists q. split; [by apply list_elem_of_In|done]. }
    case_decide as Hp; split; [by intros _; exists q|by intros _; left|intros [H|H]; done|by right].
Qed.

Lemma group_row_twice g s p :
  In p (map fst (group_permissions g)) -> (exists q, In q (map fst (group_permissions g)) /\ ~ In q s) ->
  In p (group_row g s) /\ ~ In p (group_row g (group_row g s)).
Proof.
  intros Hp Hq. assert (forall p, In p (map fst (group_permissions g)) -> In p (group_row g s)) as Hall
    by (intros p' Hp'; apply group_row_spec; by rewrite decide_True).
  split; [by apply Hall|]. rewrite group_row_spec, decide_True by done. intros (q & Hq1 & Hq2). by apply Hq2, Hall.
Qed.

(** Opened and saved, the page gives the five roles its own defaults: it has asked for nothing
    the server knows about them.  A refusal is reported as a local save, and nothing is stored. *)
Lemma save_overwrites (e : env) API_BASE TENANT_ID l :
  exists w', run e (handleSave API_BASE TENANT_ID (matrix perm_init)) (page perm_init l) = (Done tt, w')
  /\ saving (w_st w') = false /\ matrix (w_st w') = DEFAULT_MATRIX
  /\ exists headers, In (ObsFetch (api_request API_BASE "/api/v1/roles/permissions"
       (Some {| ri_method := Some PUT; ri_headers := []; ri_body := Some (stringify (JObj [("assignments", assignments DEFAULT_MATRIX)])) |})
       headers)) (w_trace w').
Proof.
  unfold handleSave, setSaving, setError, setMsg. rewrite run_mbind, run_upd, run_mbind, run_upd, run_finally, run_try, run_mbind.
  match goal with |- context [run e (apiFetch true _ _ ?p ?o) ?w] =>
    destruct (apiFetch_sends e API_BASE TENANT_ID p o w) as (ob & (headers & ->) & Hin);
    pose proof (keeps_st_run e _ w (keeps_st_apiFetch (S := perm_state) true API_BASE TENANT_ID p o)) as Hst;
    destruct (run e (apiFetch true API_BASE TENANT_ID p o) w) as [[v|x] w1] end;
    cbn [snd] in *; rewrite ?run_upd; (eexists; split; [reflexivity|]); autorewrite with world in *; rewrite Hst;
    (split; [reflexivity|split; [reflexivity|by exists headers]]).
Qed.
