(* ===== verification/CondAccess.v ===== *)
(** * Conditional access (console/src/app/settings/conditional-access/page.tsx)

    The page lists the policies of the server, edits them and tests them: the tester evaluates
    the policies in the browser, against an input made up by the administrator.  A policy's
    conditions are a list while it is edited and an object on the server.  Numerals
    are those of JsNumber. *)

From S2P Require Import Prelude Parents JsSort JsValue JsString JsNumber Json Effects ApiClient Webauthn.
#[local] Open Scope Z_scope.

(** ** Data *)

Record Condition := Cond { c_id : string; operand : string; operator : string; value : string }.

(** What [policy.conditions] may be: missing, something that is no array, or a list. *)
Inductive conditions := NoConditions | OtherConditions | Conditions (l : list Condition).

Record Policy := MkPolicy {
  p_id : string; p_name : string; priority : Z; enabled : bool; p_action : string; p_conditions : conditions; logic : string }.

Definition OPERANDS : list (string * string) :=
  [("device_posture", "number"); ("risk_score", "number"); ("user_group", "text"); ("ip_range", "text");
   ("time_of_day", "number"); ("location", "text"); ("mfa_enrolled", "boolean"); ("auth_method", "text")].

Definition ACTIONS : list string := ["allow"; "require_mfa"; "require_step_up"; "deny"; "block"].

(** A policy of the server, read as its interface declares. *)
Definition text (v : js) (k : string) : string := match opt_prop v k with JStr s => s | _ => "" end.
Definition condition_of (v : js) : Condition := Cond (text v "id") (text v "operand") (text v "operator") (text v "value").
Definition policy_of (v : js) : Policy :=
  MkPolicy (text v "id") (text v "name") (match opt_prop v "priority" with JNum z => z | _ => 0 end)
    (truthy (opt_prop v "enabled")) (text v "action")
    (match opt_prop v "conditions" with
     | JArr l => Conditions (map condition_of l)
     | c => if truthy c then OtherConditions else NoConditions
     end) (text v "logic").

(** ** The tester *)

Definition input_init : list (string * js) :=
  [("device_posture", JNum 75); ("risk_score", JNum 40); ("user_group", JStr "engineers");
   ("ip_address", JStr "192.168.1.100"); ("time_of_day", JNum 14); ("country", JStr "CN");
   ("mfa_enrolled", JBool true); ("auth_method", JStr "passkey")].

Definition num_val (v : js) : decimal :=
  match v with JNum z => Dec z 0 | _ => float_or_0 (to_str v) end.

Definition condition_holds (input : list (string * js)) (c : Condition) : bool :=
  let inputVal := default JUndef (assoc (operand c) input) in
  let condVal := float_or_0 (value c) in
  if String.eqb (operator c) "<" then dec_lt (num_val inputVal) condVal
  else if String.eqb (operator c) ">" then dec_lt condVal (num_val inputVal)
  else if String.eqb (operator c) "=" then String.eqb (to_str inputVal) (value c)
  else if String.eqb (operator c) "≠" then negb (String.eqb (to_str inputVal) (value c))
  else if String.eqb (operator c) "in" then str_mem (to_str inputVal) (map trim (split_on "," (value c)))
  else if String.eqb (operator c) "contains" then str_includes (value c) (to_str inputVal)
  else false.

Definition condition_list (p : Policy) : list Condition :=
  match p_conditions p with Conditions l => l | _ => [] end.

Definition policy_matches (input : list (string * js)) (p : Policy) : bool :=
  let results := map (condition_holds input) (condition_list p) in
  if String.eqb (logic p) "AND" then forallb Datatypes.id results else existsb Datatypes.id results.

(** [[...policies].sort((a, b) => a.priority - b.priority)]. *)
Definition by_priority (p q : Policy) : bool := priority p <=? priority q.

Definition applies (input : list (string * js)) (p : Policy) : bool := enabled p && policy_matches input p.

Definition matched (input : list (string * js)) (policies : list Policy) : option Policy :=
  List.find (applies input) (stable_sort by_priority policies).

Definition verdict (input : list (string * js)) (policies : list Policy) : string * option Policy :=
  let m := matched input policies in
  (match m with Some p => str_or (p_action p) "allow" | None => "allow" end, m).

Record tester_state := Tester {
  input : list (string * js);
  result : option (string * option Policy);
  evaluating : bool }.

Definition setInput (v : list (string * js)) : prog tester_state unit :=
  upd (fun s => Tester v (result s) (evaluating s)).
Definition setResult (v : option (string * option Policy)) : prog tester_state unit :=
  upd (fun s => Tester (input s) v (evaluating s)).
Definition setEvaluating (v : bool) : prog tester_state unit :=
  upd (fun s => Tester (input s) (result s) v).

Definition tester_init : tester_state := Tester input_init None false.

Definition evaluate (policies : list Policy) (input : list (string * js)) : prog tester_state unit :=
  setEvaluating true;;
  Act OYield (fun _ =>
    setResult (Some (verdict input policies));;
    setEvaluating false).

(** [setInput({ ...input, [key]: v })]. *)
Definition changeInput (input : list (string * js)) (k : string) (v : js) : prog tester_state unit :=
  setInput (assoc_set k v input).

(** ** The editor *)

Record editor_state := Editor {
  ed_name : string;
  ed_priority : Z;
  ed_action : string;
  ed_logic : string;
  ed_conditions : list Condition;
  condId : Z }.

Definition setName (v : string) : prog editor_state unit :=
  upd (fun s => Editor v (ed_priority s) (ed_action s) (ed_logic s) (ed_conditions s) (condId s)).
Definition setPriority (v : Z) : prog editor_state unit :=
  upd (fun s => Editor (ed_name s) v (ed_action s) (ed_logic s) (ed_conditions s) (condId s)).
Definition setAction (v : string) : prog editor_state unit :=
  upd (fun s => Editor (ed_name s) (ed_priority s) v (ed_logic s) (ed_conditions s) (condId s)).
Definition setLogic (v : string) : prog editor_state unit :=
  upd (fun s => Editor (ed_name s) (ed_priority s) (ed_action s) v (ed_conditions s) (condId s)).
Definition setConditions (v : list Condition) : prog editor_state unit :=
  upd (fun s => Editor (ed_name s) (ed_priority s) (ed_action s) (ed_logic s) v (condId s)).
Definition setCondId (v : Z) : prog editor_state unit :=
  upd (fun s => Editor (ed_name s) (ed_priority s) (ed_action s) (ed_logic s) (ed_conditions s) v).

(** [c${Date.now()}_${condId++}]. *)
Definition newCondId : prog editor_state string :=
  t ← now;
  s ← get_state;
  setCondId (condId s + 1);;
  mret ("c" +:+ string_of_Z t +:+ "_" +:+ string_of_Z (condId s)).

(** The editor of a policy; [None]: its conditions are no array, and the first render, which
    maps over them, raises. *)
Definition editor_init (first_id : string) (seq : Z) (editing : option Policy) : option editor_state :=
  let fresh := [Cond first_id "device_posture" "<" "70"] in
  match editing with
  | None => Some (Editor "" 10 "require_mfa" "AND" fresh seq)
  | Some p =>
      let state conds := Editor (p_name p) (if priority p =? 0 then 10 else priority p)
        (str_or (p_action p) "require_mfa") (str_or (logic p) "AND") conds seq in
      match p_conditions p with
      | NoConditions => Some (state fresh)
      | OtherConditions => None
      | Conditions l => Some (state l)
      end
  end.

Definition addCondition (conds : list Condition) : prog editor_state unit :=
  i ← newCondId; setConditions (conds ++ [Cond i "risk_score" ">" "50"]).
Definition removeCondition (conds : list Condition) (x : string) : prog editor_state unit :=
  setConditions (List.filter (fun c => negb (String.eqb (c_id c) x)) conds).

(** [{ ...c, [field]: value }]. *)
Definition set_field (field v : string) (c : Condition) : Condition :=
  if String.eqb field "id" then Cond v (operand c) (operator c) (value c)
  else if String.eqb field "operand" then Cond (c_id c) v (operator c) (value c)
  else if String.eqb field "operator" then Cond (c_id c) (operand c) v (value c)
  else if String.eqb field "value" then Cond (c_id c) (operand c) (operator c) v
  else c.
Definition updateCondition (conds : list Condition) (x field v : string) : prog editor_state unit :=
  setConditions (map (fun c => if String.eqb (c_id c) x then set_field field v c else c) conds).

(** [save]: the policy handed to [onSave], if it has a name. *)
Definition save (editing : option Policy) (s : editor_state) : option Policy :=
  if String.eqb (ed_name s) "" then None
  else Some (MkPolicy (match editing with Some p => p_id p | None => "" end) (ed_name s) (ed_priority s)
    (match editing with Some p => enabled p | None => true end) (ed_action s) (Conditions (ed_conditions s)) (ed_logic s)).

(** ** The page *)

Record ca_state := CaPage {
  tab : string;
  policies : list Policy;
  loading : bool;
  editing : option Policy }.

Definition setTab (v : string) : prog ca_state unit :=
  upd (fun s => CaPage v (policies s) (loading s) (editing s)).
Definition setPolicies (v : list Policy) : prog ca_state unit :=
  upd (fun s => CaPage (tab s) v (loading s) (editing s)).
Definition setLoading (v : bool) : prog ca_state unit :=
  upd (fun s => CaPage (tab s) (policies s) v (editing s)).
Definition setEditing (v : option Policy) : prog ca_state unit :=
  upd (fun s => CaPage (tab s) (policies s) (loading s) v).

Definition ca_init : ca_state := CaPage "policies" [] true None.

Section Page.
Context (API_BASE : string).

Definition base : string := API_BASE +:+ "/api/v1/auth/conditional-access/".

Definition load : prog ca_state unit :=
  setLoading true;;
  try_catch (
    auth ← authHeader true;
    res ← fetch (Request GET base auth None);
    if rs_ok res then
      d ← resp_json res;
      l ← (if is_array d then mret d else (ps ← get d "policies"; mret (js_or ps (JArr []))));
      setPolicies (map policy_of (elements_of l))
    else setPolicies [])
    (fun _ => setPolicies []);;
  setLoading false.

(** [load], started and not awaited. *)
Definition start_load : prog ca_state unit := emit "load" JUndef.

(** [{ "Content-Type": "application/json", ...authHeader() }]. *)
Definition json_headers : prog ca_state (list (string * string)) :=
  auth ← authHeader true; mret (hassign [("Content-Type", "application/json")] auth).

Definition onToggle (policies : list Policy) (x : string) : prog ca_state unit :=
  match List.find (fun p => String.eqb (p_id p) x) policies with
  | None => mret tt
  | Some p =>
      try_catch (
        hs ← json_headers;
        fetch (Request PUT (base +:+ x) hs (Some (stringify (JObj [("enabled", JBool (negb (enabled p)))]))));;
        start_load)
        (fun _ => setPolicies (map (fun q => if String.eqb (p_id q) x
           then MkPolicy (p_id q) (p_name q) (priority q) (negb (enabled q)) (p_action q) (p_conditions q) (logic q) else q) policies))
  end.

(** [findIndex]. *)
Fixpoint index_of (x : string) (policies : list Policy) : Z :=
  match policies with
  | [] => -1
  | p :: l => if String.eqb (p_id p) x then 0 else let i := index_of x l in if i =? -1 then -1 else i + 1
  end.

(** [[next[i], next[j]] = [next[j], next[i]]]. *)
Definition swap (i j : nat) (l : list Policy) : list Policy :=
  match l !! i, l !! j with Some a, Some b => <[j := a]> (<[i := b]> l) | _, _ => l end.

(** The list after [onMove]; nothing is sent. *)
Definition moved (policies : list Policy) (x : string) (up : bool) : list Policy :=
  let idx := index_of x policies in
  let target := if up then idx - 1 else idx + 1 in
  if (0 <=? target) && (target <? Z.of_nat (length policies))
  then swap (Z.to_nat idx) (Z.to_nat target) policies else policies.

Definition onMove (policies : list Policy) (x : string) (up : bool) : prog ca_state unit :=
  let idx := index_of x policies in
  let target := if up then idx - 1 else idx + 1 in
  if (0 <=? target) && (target <? Z.of_nat (length policies)) then setPolicies (moved policies x up) else mret tt.

Definition onDelete (policies : list Policy) (x : string) : prog ca_state unit :=
  try_catch (
    auth ← authHeader true;
    fetch (Request DELETE (base +:+ x) auth None);;
    start_load)
    (fun _ => setPolicies (List.filter (fun p => negb (String.eqb (p_id p) x)) policies)).

(** The conditions as the backend wants them. *)
Definition conditionsMap (conds : list Condition) : list (string * js) :=
  fold_left (fun m c => assoc_set (operand c) (number_or_text (value c)) m) conds [].

Definition save_body (p : Policy) : js :=
  JObj [("name", JStr (p_name p)); ("priority", JNum (priority p)); ("enabled", JBool (enabled p));
        ("action", JStr (p_action p)); ("conditions", JObj (conditionsMap (condition_list p)))].

Definition onSave (editing : option Policy) (policies : list Policy) (p : Policy) : prog ca_state unit :=
  try_catch (
    hs ← json_headers;
    match editing with
    | Some old =>
        if String.eqb (p_id old) "" then fetch (Request POST base hs (Some (stringify (save_body p))))
        else fetch (Request PUT (base +:+ p_id old) hs (Some (stringify (save_body p))))
    | None => fetch (Request POST base hs (Some (stringify (save_body p))))
    end;;
    start_load)
    (fun _ =>
      match editing with
      | Some _ => setPolicies (map (fun q => if String.eqb (p_id q) (p_id p) then p else q) policies)
      | None =>
          t ← now;
          setPolicies (policies ++ [MkPolicy ("p" +:+ string_of_Z t) (p_name p) (priority p) (enabled p) (p_action p) (p_conditions p) (logic p)])
      end);;
  setTab "policies".
End Page.

(** ** The tester *)

Lemma by_priority_trans p q r : by_priority p q = true -> by_priority q r = true -> by_priority p r = true.
Proof. unfold by_priority. rewrite !Z.leb_le. lia. Qed.

Lemma by_priority_total p q : by_priority p q = true \/ by_priority q p = true.
Proof. unfold by_priority. rewrite !Z.leb_le. lia. Qed.

Lemma matched_spec input policies p :
  matched input policies = Some p ->
  In p policies /\ applies input p = true /\ (forall q, In q policies -> applies input q = true -> priority p <= priority q)
  /\ List.find (fun q => applies input q && (priority q =? priority p)) policies = Some p.
Proof.
  intros H. pose proof (find_sort by_priority by_priority_trans by_priority_total _ _ _ H) as (H1 & H2 & H3).
  split_and!; [done|done| |].
  - intros q Hq Ha. apply Z.leb_le. by apply H3.
  - apply (find_sort_first by_priority (applies input)); [exact H|by rewrite H2, Z.eqb_refl|by intros q [? _]%andb_true_iff|].
    intros y z [_ Hy%Z.eqb_eq]%andb_true_iff [_ Hz%Z.eqb_eq]%andb_true_iff. unfold by_priority. apply Z.leb_le. lia.
Qed.

Lemma matched_None input policies : matched input policies = None -> forall q, In q policies -> applies input q = false.
Proof. apply find_sort_None. Qed.

(** The tester ends with the verdict of the first enabled policy, by priority and then by
    place in the list, whose conditions hold, and with "allow" when there is none. *)
Lemma evaluate_first_match (e : env) policies input w :
  exists w', run e (evaluate policies input) w = (Done tt, w') /\ evaluating (w_st w') = false
  /\ ((exists p, result (w_st w') = Some (str_or (p_action p) "allow", Some p)
       /\ In p policies /\ applies input p = true
       /\ (forall q, In q policies -> applies input q = true -> priority p <= priority q)
       /\ List.find (fun q => applies input q && (priority q =? priority p)) policies = Some p)
      \/ (result (w_st w') = Some ("allow", None) /\ forall q, In q policies -> applies input q = false)).
Proof.
  unfold evaluate, setEvaluating, setResult. rewrite run_mbind, run_upd. cbn [run handle]. rewrite run_mbind, run_upd, run_upd.
  eexists. split; [reflexivity|]. autorewrite with world. cbn [evaluating result]. split; [done|]. unfold verdict.
  destruct (matched input policies) as [p|] eqn:E.
  - left. exists p. split; [done|]. by apply matched_spec.
  - right. split; [done|]. by apply matched_None.
Qed.

(** [ip_range] and [location] are no keys of the input, which has [ip_address] and [country]:
    such a condition compares with the text "undefined". *)
Lemma unknown_operand input c :
  assoc (operand c) input = None ->
  condition_holds input (Cond (c_id c) (operand c) "=" (value c)) = String.eqb "undefined" (value c).
Proof. intros H. unfold condition_holds. cbn [operand operator value]. by rewrite H. Qed.

Lemma assoc_set_None k k' v l : assoc k (assoc_set k' v l) = None -> assoc k l = None.
Proof.
  induction l as [|[k1 v1] l IH]; [done|]. cbn. destruct (String.eqb_spec k' k1) as [->|Hne]; cbn.
  - by destruct (String.eqb k k1).
  - destruct (String.eqb k k1); [done|apply IH].
Qed.

(** ** Saving *)

(** A server that keeps what it is sent, under an identifier. *)
Definition stored (x : string) (p : Policy) : js :=
  JObj (("id", JStr x) :: match save_body p with JObj l => l | _ => [] end).

Lemma stored_policy x p :
  policy_of (stored x p)
  = MkPolicy x (p_name p) (priority p) (enabled p) (p_action p) OtherConditions "".
Proof. reflexivity. Qed.

Lemma conditionsMap_ext l l' :
  map (fun c => (operand c, value c)) l = map (fun c => (operand c, value c)) l' -> conditionsMap l = conditionsMap l'.
Proof.
  unfold conditionsMap. generalize ([] : list (string * js)) as acc. revert l'.
  induction l as [|c l IH]; intros [|c' l'] acc H; try done. cbn [map] in H. injection H as E1 E2 E.
  cbn [fold_left]. rewrite E1, E2. by apply IH.
Qed.

(** What is saved is not what was edited: neither how the conditions are combined nor how
    they compare is sent, and of two conditions on one operand only the last.  Once read back
    from a server that keeps what it is sent, no policy matches anything, so the tester allows
    every input, and none can be edited again. *)
Lemma saved_policies_allow input sent :
  (forall p p', p_name p' = p_name p -> priority p' = priority p -> enabled p' = enabled p -> p_action p' = p_action p ->
     map (fun c => (operand c, value c)) (condition_list p') = map (fun c => (operand c, value c)) (condition_list p) ->
     save_body p' = save_body p)
  /\ verdict input (map (fun xp => policy_of (stored xp.1 xp.2)) sent) = ("allow", None)
  /\ forall xp first_id seq, In xp sent -> editor_init first_id seq (Some (policy_of (stored xp.1 xp.2))) = None.
Proof.
  split_and!.
  - intros p p' H1 H2 H3 H4 H5. unfold save_body. rewrite H1, H2, H3, H4, (conditionsMap_ext _ _ H5). done.
  - unfold verdict. destruct (matched input _) as [p|] eqn:E; [|done].
    apply matched_spec in E as (Hin & Ha & _). apply in_map_iff in Hin as ([x p'] & <- & _). cbn [fst snd] in Ha.
    rewrite stored_policy in Ha. apply andb_true_iff in Ha as [_ Ha]. done.
  - intros [x p] first_id seq _. reflexivity.
Qed.

(** A refusal of the server is not looked at: the page goes back to the list as after a save. *)
Lemma refused_save_unnoticed (e : env) API_BASE editing l p w resp :
  (forall t rq, server e t rq = Some resp) ->
  exists w', run e (onSave API_BASE editing l p) w = (Done tt, w')
  /\ tab (w_st w') = "policies" /\ policies (w_st w') = policies (w_st w)
  /\ exists t, w_trace w' = ObsEmit "load" JUndef :: t.
Proof.
  intros Hs. unfold onSave, json_headers, start_load, setTab, authHeader, getAuthToken.
  destruct editing as [old|]; [destruct (String.eqb (p_id old) "")|]; run_steps; rewrite Hs; run_steps;
    (eexists; split; [reflexivity|]); autorewrite with world; (split; [done|split; [done|by eexists]]).
Qed.

(** ** Moving *)

Lemma swap_perm i j l : swap i j l ≡ₚ l.
Proof.
  unfold swap. destruct (l !! i) as [a|] eqn:Ei, (l !! j) as [b|] eqn:Ej; try done.
  destruct (decide (i = j)) as [->|Hne].
  - rewrite Ei in Ej. injection Ej as <-. rewrite list_insert_insert_eq. by rewrite list_insert_id.
  - apply Permutation_inj. split; [by rewrite !length_insert|].
    exists (fun k => if decide (k = i) then j else if decide (k = j) then i else k). split.
    + intros x y. repeat case_decide; subst; congruence.
    + intros k. assert (i < length l)%nat by (by eapply lookup_lt_Some). assert (j < length l)%nat by (by eapply lookup_lt_Some).
      repeat case_decide; subst.
      * rewrite list_lookup_insert_ne by done. by rewrite list_lookup_insert_eq.
      * by rewrite list_lookup_insert_eq by (by rewrite length_insert).
      * by rewrite !list_lookup_insert_ne.
Qed.

Lemma moved_perm policies x up : moved policies x up ≡ₚ policies.
Proof. unfold moved. cbv zeta. destruct (_ && _); [apply swap_perm|done]. Qed.

(** Moving a policy up or down changes no verdict as long as the priorities differ: the
    order on the screen, which is not sent anywhere, decides among equal priorities only. *)
Lemma move_keeps_verdict input policies x up :
  NoDup (map priority policies) -> verdict input (moved policies x up) = verdict input policies.
Proof.
  intros Hnd. unfold verdict. assert (matched input (moved policies x up) = matched input policies) as ->; [|done].
  pose proof (moved_perm policies x up) as Hp.
  assert (forall q, In q (moved policies x up) <-> In q policies) as Hin by (intros q; rewrite <- !list_elem_of_In; by rewrite Hp).
  destruct (matched input (moved policies x up)) as [p|] eqn:E, (matched input policies) as [q|] eqn:E'; [|..|done].
  - apply matched_spec in E as (H1 & H2 & H3 & _), E' as (H1' & H2' & H3' & _). f_equal.
    apply (NoDup_map_inj priority policies); [done|by apply Hin|done|].
    apply Z.le_antisymm; [apply H3; [by apply Hin|done]|apply H3'; [by apply Hin|done]].
  - apply matched_spec in E as (H1 & H2 & _). apply Hin in H1. by rewrite (matched_None _ _ E' p H1) in H2.
  - apply matched_spec in E' as (H1 & H2 & _). apply Hin in H1. by rewrite (matched_None _ _ E q H1) in H2.
Qed.

(** ** Witnesses *)

Definition demo_policies : list Policy :=
  [MkPolicy "1" "Risky" 20 true "block" (Conditions [Cond "c" "risk_score" ">" "30.5"]) "AND";
   MkPolicy "2" "Office" 10 true "allow" (Conditions [Cond "c" "country" "in" "DE, FR"]) "AND"].

Lemma move_keeps_verdict_witness :
  moved demo_policies "1" false = rev demo_policies /\ (verdict input_init (moved demo_policies "1" false)).1 = "block".
Proof.
  split; [vm_compute; reflexivity|].
  rewrite (move_keeps_verdict input_init demo_policies "1" false); [vm_compute; reflexivity|compute_done].
Defined.
