(* ===== verification/SessionList.v ===== *)
(** * The list of sessions (console/src/app/sessions/page.tsx)

    The page lists the sessions of the server, filtered and sorted in the browser, revokes
    them, and edits the tenant's session policy.  Optional texts are "" when absent: the page
    tests whether they are truthy.  [t] is the translation, [locale_date] the platform's
    [toLocaleDateString]; the flag of a country is left out. *)

From S2P Require Import Prelude JsSort JsValue JsString JsNumber JsDate Json Effects ApiClient.
#[local] Open Scope Z_scope.

(** ** Data *)

Record Session := MkSession {
  s_id : string; ip_address : string; user_agent : string; created_at : string; last_active_at : string; expires_at : string;
  device_type : string; location : string; city : string; country : string; user_id : string; user_name : string;
  username : string; email : string; current : bool }.

Inductive SortField := by_user | by_ip_address | by_device | by_location | by_last_active_at | by_expires_at.
#[export] Instance SortField_eq_dec : EqDecision SortField.
Proof. solve_decision. Defined.

(** A session of the answer, the [i]-th of the list: without a flag of the server the first
    one counts as the current. *)
Definition text (v : js) (k : string) : string := match opt_prop v k with JStr s => s | _ => "" end.
Definition session_of (i : nat) (v : js) : Session :=
  MkSession (text v "id") (text v "ip_address") (text v "user_agent") (text v "created_at") (text v "last_active_at")
    (text v "expires_at") (text v "device_type") (text v "location") (text v "city") (text v "country") (text v "user_id")
    (text v "user_name") (text v "username") (text v "email")
    (truthy (js_nullish (opt_prop v "current") (JBool (Nat.eqb i 0)))).

(** ** What the page derives *)

Definition upper_char (c : Ascii.ascii) : Ascii.ascii :=
  if (97 <=? Z.of_nat (code c)) && (Z.of_nat (code c) <=? 122) then chr (code c - 32) else c.

(** The pieces of [s.split(/[\s@._]+/).filter(Boolean)]. *)
Definition is_separator (c : Ascii.ascii) : bool := is_space c || in_set "@._" c.
Fixpoint words (word : string) (s : string) : list string :=
  match s with
  | EmptyString => if String.eqb word "" then [] else [word]
  | String c s' =>
      if is_separator c then (if String.eqb word "" then words "" s' else word :: words "" s')
      else words (word +:+ String c "") s'
  end.

Definition first_name (s : Session) (none : string) : string :=
  str_or (user_name s) (str_or (username s) (str_or (email s)
    (if String.eqb (user_id s) "" then none else "User " +:+ String.substring 0 8 (user_id s)))).

Definition getDisplayName (s : Session) : string := first_name s "Unknown User".

Definition getInitials (s : Session) : string :=
  str_or (String.concat "" (map (fun p => match p with String c _ => String (upper_char c) "" | EmptyString => "" end)
            (take 2 (words "" (first_name s "User"))))) "U".

(** [/a|b/i.test(ua)] for plain alternatives. *)
Definition tests (alternatives : list string) (ua : string) : bool :=
  existsb (fun p => str_includes p (to_lower ua)) alternatives.

Definition parseDeviceType (ua : string) : string :=
  if tests ["mobile"; "android"; "iphone"] ua then "Mobile"
  else if tests ["ipad"; "tablet"] ua then "Tablet" else "Desktop".
Definition getDeviceType (s : Session) : string := str_or (device_type s) (parseDeviceType (user_agent s)).
Definition parseBrowser (ua : string) : string :=
  if tests ["edg"] ua then "Edge" else if tests ["chrome"] ua then "Chrome"
  else if tests ["firefox"] ua then "Firefox" else if tests ["safari"] ua then "Safari" else "Browser".
Definition parseOS (ua : string) : string :=
  if tests ["windows nt 10"] ua then "Windows" else if tests ["windows"] ua then "Windows"
  else if tests ["mac os x"; "macintosh"] ua then "macOS" else if tests ["linux"] ua then "Linux"
  else if tests ["android"] ua then "Android" else if tests ["iphone"; "ipad"; "ios"] ua then "iOS" else "Unknown".
Definition getDeviceLabel (s : Session) : string := parseBrowser (user_agent s) +:+ " on " +:+ parseOS (user_agent s).

Definition formatTime (locale_date : string -> string) (now : Z) (ts : string) : string :=
  if String.eqb ts "" then "—"
  else match time_of ts with
       | None => locale_date ts
       | Some time =>
           let mins := (now - time) / 60000 in
           if mins <? 1 then "just now"
           else if mins <? 60 then string_of_Z mins +:+ "m ago"
           else let hours := mins / 60 in
                if hours <? 24 then string_of_Z hours +:+ "h ago"
                else let days := hours / 24 in
                     if days <? 30 then string_of_Z days +:+ "d ago" else locale_date ts
       end.

Definition getExpiresIn (now : Z) (s : Session) : string :=
  if String.eqb (expires_at s) "" then "—"
  else match time_of (expires_at s) with
       | None => "NaNd NaNh"
       | Some time =>
           let remaining := time - now in
           if remaining <=? 0 then "Expired"
           else let mins := remaining / 60000 in
                if mins <? 60 then string_of_Z mins +:+ "m"
                else let hours := mins / 60 in
                     if hours <? 24 then string_of_Z hours +:+ "h " +:+ string_of_Z (mins mod 60) +:+ "m"
                     else string_of_Z (hours / 24) +:+ "d " +:+ string_of_Z (hours mod 24) +:+ "h"
       end.

Definition getLocationStr (s : Session) : string :=
  if negb (String.eqb (city s) "") && negb (String.eqb (country s) "") then city s +:+ ", " +:+ country s
  else str_or (location s) "Unknown".

(** [remaining > 0 && remaining < 60 * 60 * 1000]. *)
Definition near_expiry (now : Z) (s : Session) : bool :=
  match time_of (expires_at s) with
  | Some time => (0 <? time - now) && (time - now <? 3600000)
  | None => false
  end.

Definition last_seen (s : Session) : option Z := time_of (str_or (last_active_at s) (created_at s)).

Definition getSessionStatus (now : Z) (s : Session) : string :=
  if current s then "Current"
  else if near_expiry now s then "Expiring"
  else match last_seen s with
       | Some time => if 86400000 <? now - time then "Idle" else "Active"
       | None => "Active"
       end.

Definition sessionsNearExpiry (now : Z) (l : list Session) : list Session := List.filter (near_expiry now) l.

(** ** Filtering and sorting *)

Definition passes (searchQuery deviceFilter locationFilter : string) (s : Session) : bool :=
  (String.eqb (trim searchQuery) ""
   || (let q := to_lower searchQuery in
       str_includes q (to_lower (getDisplayName s)) || str_includes q (to_lower (email s)) || str_includes q (to_lower (ip_address s))))
  && (String.eqb deviceFilter "All" || String.eqb (getDeviceType s) deviceFilter)
  && (String.eqb locationFilter "" || String.eqb locationFilter "All" || String.eqb (getLocationStr s) locationFilter).

(** What the comparison looks at; dates are numbers, [Infinity], or [NaN]. *)
Inductive sort_key := KStr (s : string) | KNum (z : Z) | KInf | KNaN.
#[export] Instance sort_key_eq_dec : EqDecision sort_key.
Proof. solve_decision. Defined.

(** The locations, each once, in the order of their texts. *)
Definition locationOptions (l : list Session) : list string :=
  let locs := fold_left (fun seen s => let loc := getLocationStr s in
                if String.eqb loc "Unknown" || existsb (String.eqb loc) seen then seen else seen ++ [loc]) l [] in
  "All" :: stable_sort (fun a b => negb (str_ltb b a)) locs.

Definition uniqueDevices (processed : list Session) : list string :=
  fold_left (fun seen s => if existsb (String.eqb (getDeviceType s)) seen then seen else seen ++ [getDeviceType s]) processed [].

Definition key_lt (a b : sort_key) : bool :=
  match a, b with
  | KStr s, KStr t => str_ltb s t
  | KNum x, KNum y => x <? y
  | KNum _, KInf => true
  | _, _ => false
  end.

Definition num_key (o : option Z) : sort_key := match o with Some z => KNum z | None => KNaN end.

Definition key_of (f : SortField) (s : Session) : sort_key :=
  match f with
  | by_user => KStr (to_lower (getDisplayName s))
  | by_ip_address => KStr (ip_address s)
  | by_device => KStr (getDeviceType s)
  | by_location => KStr (getLocationStr s)
  | by_last_active_at => num_key (last_seen s)
  | by_expires_at => if String.eqb (expires_at s) "" then KInf else num_key (time_of (expires_at s))
  end.

(** [compare(a, b) <= 0]. *)
Definition in_order (f : SortField) (asc : bool) (a b : Session) : bool :=
  if asc then negb (key_lt (key_of f b) (key_of f a)) else negb (key_lt (key_of f a) (key_of f b)).

Definition processedSessions (sessions : list Session) (searchQuery deviceFilter locationFilter : string)
    (f : SortField) (asc : bool) : list Session :=
  stable_sort (in_order f asc) (List.filter (passes searchQuery deviceFilter locationFilter) sessions).

(** ** The page *)

Record page_state := Page {
  sessions : list Session;
  loading : bool;
  error_ : option string;
  msg : option string;
  sortField : SortField;
  sortAsc : bool;
  searchQuery : string;
  deviceFilter : string;
  locationFilter : string;
  showRevokeAllModal : bool;
  revokeTarget : option Session;
  revokingAll : bool;
  revokingId : option string;
  sessionTimeout : Z;
  limitConcurrent : bool;
  maxConcurrent : Z;
  savingPolicy : bool }.

Definition setLoading (v : bool) : prog page_state unit :=
  upd (fun s => Page (sessions s) v (error_ s) (msg s) (sortField s) (sortAsc s) (searchQuery s) (deviceFilter s) (locationFilter s) (showRevokeAllModal s) (revokeTarget s) (revokingAll s) (revokingId s) (sessionTimeout s) (limitConcurrent s) (maxConcurrent s) (savingPolicy s)).
Definition setError (v : option string) : prog page_state unit :=
  upd (fun s => Page (sessions s) (loading s) v (msg s) (sortField s) (sortAsc s) (searchQuery s) (deviceFilter s) (locationFilter s) (showRevokeAllModal s) (revokeTarget s) (revokingAll s) (revokingId s) (sessionTimeout s) (limitConcurrent s) (maxConcurrent s) (savingPolicy s)).
Definition setMsg (v : option string) : prog page_state unit :=
  upd (fun s => Page (sessions s) (loading s) (error_ s) v (sortField s) (sortAsc s) (searchQuery s) (deviceFilter s) (locationFilter s) (showRevokeAllModal s) (revokeTarget s) (revokingAll s) (revokingId s) (sessionTimeout s) (limitConcurrent s) (maxConcurrent s) (savingPolicy s)).
Definition setSortField (v : SortField) : prog page_state unit :=
  upd (fun s => Page (sessions s) (loading s) (error_ s) (msg s) v (sortAsc s) (searchQuery s) (deviceFilter s) (locationFilter s) (showRevokeAllModal s) (revokeTarget s) (revokingAll s) (revokingId s) (sessionTimeout s) (limitConcurrent s) (maxConcurrent s) (savingPolicy s)).
Definition setSortDir (v : bool) : prog page_state unit :=
  upd (fun s => Page (sessions s) (loading s) (error_ s) (msg s) (sortField s) v (searchQuery s) (deviceFilter s) (locationFilter s) (showRevokeAllModal s) (revokeTarget s) (revokingAll s) (revokingId s) (sessionTimeout s) (limitConcurrent s) (maxConcurrent s) (savingPolicy s)).
Definition setSearchQuery (v : string) : prog page_state unit :=
  upd (fun s => Page (sessions s) (loading s) (error_ s) (msg s) (sortField s) (sortAsc s) v (deviceFilter s) (locationFilter s) (showRevokeAllModal s) (revokeTarget s) (revokingAll s) (revokingId s) (sessionTimeout s) (limitConcurrent s) (maxConcurrent s) (savingPolicy s)).
Definition setDeviceFilter (v : string) : prog page_state unit :=
  upd (fun s => Page (sessions s) (loading s) (error_ s) (msg s) (sortField s) (sortAsc s) (searchQuery s) v (locationFilter s) (showRevokeAllModal s) (revokeTarget s) (revokingAll s) (revokingId s) (sessionTimeout s) (limitConcurrent s) (maxConcurrent s) (savingPolicy s)).
Definition setLocationFilter (v : string) : prog page_state unit :=
  upd (fun s => Page (sessions s) (loading s) (error_ s) (msg s) (sortField s) (sortAsc s) (searchQuery s) (deviceFilter s) v (showRevokeAllModal s) (revokeTarget s) (revokingAll s) (revokingId s) (sessionTimeout s) (limitConcurrent s) (maxConcurrent s) (savingPolicy s)).
Definition setShowRevokeAllModal (v : bool) : prog page_state unit :=
  upd (fun s => Page (sessions s) (loading s) (error_ s) (msg s) (sortField s) (sortAsc s) (searchQuery s) (deviceFilter s) (locationFilter s) v (revokeTarget s) (revokingAll s) (revokingId s) (sessionTimeout s) (limitConcurrent s) (maxConcurrent s) (savingPolicy s)).
Definition setRevokeTarget (v : option Session) : prog page_state unit :=
  upd (fun s => Page (sessions s) (loading s) (error_ s) (msg s) (sortField s) (sortAsc s) (searchQuery s) (deviceFilter s) (locationFilter s) (showRevokeAllModal s) v (revokingAll s) (revokingId s) (sessionTimeout s) (limitConcurrent s) (maxConcurrent s) (savingPolicy s)).
Definition setRevokingAll (v : bool) : prog page_state unit :=
  upd (fun s => Page (sessions s) (loading s) (error_ s) (msg s) (sortField s) (sortAsc s) (searchQuery s) (deviceFilter s) (locationFilter s) (showRevokeAllModal s) (revokeTarget s) v (revokingId s) (sessionTimeout s) (limitConcurrent s) (maxConcurrent s) (savingPolicy s)).
Definition setRevokingId (v : option string) : prog page_state unit :=
  upd (fun s => Page (sessions s) (loading s) (error_ s) (msg s) (sortField s) (sortAsc s) (searchQuery s) (deviceFilter s) (locationFilter s) (showRevokeAllModal s) (revokeTarget s) (revokingAll s) v (sessionTimeout s) (limitConcurrent s) (maxConcurrent s) (savingPolicy s)).
Definition setSessionTimeout (v : Z) : prog page_state unit :=
  upd (fun s => Page (sessions s) (loading s) (error_ s) (msg s) (sortField s) (sortAsc s) (searchQuery s) (deviceFilter s) (locationFilter s) (showRevokeAllModal s) (revokeTarget s) (revokingAll s) (revokingId s) v (limitConcurrent s) (maxConcurrent s) (savingPolicy s)).
Definition setLimitConcurrent (v : bool) : prog page_state unit :=
  upd (fun s => Page (sessions s) (loading s) (error_ s) (msg s) (sortField s) (sortAsc s) (searchQuery s) (deviceFilter s) (locationFilter s) (showRevokeAllModal s) (revokeTarget s) (revokingAll s) (revokingId s) (sessionTimeout s) v (maxConcurrent s) (savingPolicy s)).
Definition setMaxConcurrent (v : Z) : prog page_state unit :=
  upd (fun s => Page (sessions s) (loading s) (error_ s) (msg s) (sortField s) (sortAsc s) (searchQuery s) (deviceFilter s) (locationFilter s) (showRevokeAllModal s) (revokeTarget s) (revokingAll s) (revokingId s) (sessionTimeout s) (limitConcurrent s) v (savingPolicy s)).
Definition setSavingPolicy (v : bool) : prog page_state unit :=
  upd (fun s => Page (sessions s) (loading s) (error_ s) (msg s) (sortField s) (sortAsc s) (searchQuery s) (deviceFilter s) (locationFilter s) (showRevokeAllModal s) (revokeTarget s) (revokingAll s) (revokingId s) (sessionTimeout s) (limitConcurrent s) (maxConcurrent s) v).
Definition setSessions (f : list Session -> list Session) : prog page_state unit :=
  upd (fun s => Page (f (sessions s)) (loading s) (error_ s) (msg s) (sortField s) (sortAsc s) (searchQuery s) (deviceFilter s) (locationFilter s) (showRevokeAllModal s) (revokeTarget s) (revokingAll s) (revokingId s) (sessionTimeout s) (limitConcurrent s) (maxConcurrent s) (savingPolicy s)).

Definition page_init : page_state :=
  Page [] true None None by_last_active_at true "" "All" "" false None false None 60 false 5 false.

Definition handleSort (sortField_ : SortField) (asc : bool) (f : SortField) : prog page_state unit :=
  if decide (sortField_ = f) then setSortDir (negb asc) else setSortField f;; setSortDir true.

(** The inputs of the policy. *)
(** [v] is [Number(e.target.value)]: a whole number, or [None] for NaN; fractions are left out. *)
Definition changeTimeout (v : option Z) : prog page_state unit := setSessionTimeout (Z.min 1440 (Z.max 5 (num_or 5 v))).
Definition changeMax (v : option Z) : prog page_state unit := setMaxConcurrent (Z.min 100 (Z.max 1 (num_or 1 v))).

Section Page.
Context (API_BASE TENANT_ID : string) (t : string -> string).

(** [apiFetch(...).catch(() => null)]. *)
Definition or_null (p : prog page_state js) : prog page_state js := try_catch p (fun _ => mret JNull).

Definition loadSessions : prog page_state unit :=
  setLoading true;;
  setError None;;
  finally (try_catch (
      data ← or_null (apiFetch true API_BASE TENANT_ID "/api/v1/auth/sessions" None);
      if negb (truthy data) then setSessions (fun _ => [])
      else
        let l := if is_array data then data else js_or (opt_prop data "sessions") (JArr []) in
        match l with
        | JArr l =>
            if existsb is_nullish l then Throw (type_error "Cannot read properties of null (reading 'current')")
            else setSessions (fun _ => imap session_of l)
        | _ => Throw (type_error "list.map is not a function")
        end)
    (fun err => setError (Some (e_message err));; setSessions (fun _ => [])))
  (setLoading false).

(** [Number(v) || d]. *)
Definition js_number_or (d : Z) (v : js) : Z :=
  match v with
  | JNum z => if z =? 0 then d else z
  | JStr s => number_or d s
  | JBool true => 1
  | _ => d
  end.

Definition policy_path : string := "/api/v1/tenants/" +:+ TENANT_ID +:+ "/session-policy".

Definition loadPolicy : prog page_state unit :=
  data ← or_null (apiFetch true API_BASE TENANT_ID policy_path None);
  if truthy data then
    setSessionTimeout (js_number_or 60 (opt_prop data "session_timeout"));;
    setLimitConcurrent (truthy (opt_prop data "limit_concurrent_sessions"));;
    setMaxConcurrent (js_number_or 5 (opt_prop data "max_concurrent_sessions"))
  else mret tt.

(** The timer clears the message, whichever is shown then. *)
Definition showMessage (m : string) : prog page_state unit := setMsg (Some m);; emit "setTimeout" (JNum 3000).
Definition clearMessage : prog page_state unit := setMsg None.

Definition revoke (ids : list string) : prog page_state js :=
  apiFetch true API_BASE TENANT_ID "/api/v1/auth/sessions/revoke"
    (Some {| ri_method := Some POST; ri_headers := [("Content-Type", "application/json")];
             ri_body := Some (stringify (JObj [("session_ids", JArr (map JStr ids))])) |}).

Definition drop_session (x : string) : prog page_state unit :=
  setSessions (List.filter (fun s => negb (String.eqb (s_id s) x)));; showMessage (t "sessions.sessionrevoked").

Definition handleRevoke (x : string) : prog page_state unit :=
  setRevokingId (Some x);;
  finally (try_catch (revoke [x];; drop_session x) (fun _ => drop_session x))
    (setRevokingId None;; setRevokeTarget None).

Definition drop_others : prog page_state unit :=
  setSessions (List.filter current);; showMessage (t "sessions.allothersessionsrevoked").

(** [l]: the sessions of the render. *)
Definition handleRevokeAll (l : list Session) : prog page_state unit :=
  setRevokingAll true;;
  finally (try_catch (
      let otherIds := map s_id (List.filter (fun s => negb (current s)) l) in
      (match otherIds with [] => mret tt | _ => revoke otherIds;; mret tt end);;
      drop_others)
    (fun _ => drop_others))
  (setRevokingAll false;; setShowRevokeAllModal false).

(** [s]: the state of the render. *)
Definition handleSavePolicy (s : page_state) : prog page_state unit :=
  setSavingPolicy true;;
  finally (try_catch (
      try_catch (apiFetch true API_BASE TENANT_ID policy_path
        (Some {| ri_method := Some PUT; ri_headers := [];
                 ri_body := Some (stringify (JObj [("session_timeout", JNum (sessionTimeout s));
                   ("limit_concurrent_sessions", JBool (limitConcurrent s));
                   ("max_concurrent_sessions", JNum (if limitConcurrent s then maxConcurrent s else 0))])) |});; mret tt)
        (fun _ => mret tt);;
      showMessage (t "sessions.sessionpolicysaved"))
    (fun _ => showMessage "Session policy saved (offline mode)"))
  (setSavingPolicy false).
End Page.

(** ** The order of the rows *)

Definition is_str (k : sort_key) : bool := match k with KStr _ => true | _ => false end.

Lemma key_lt_asym a b : key_lt a b = true -> key_lt b a = false.
Proof. destruct a, b; try done; cbn; [apply str_ltb_asym|lia]. Qed.

Lemma key_lt_neg_trans a b c :
  is_str a = is_str b -> is_str b = is_str c -> b <> KNaN ->
  key_lt a b = false -> key_lt b c = false -> key_lt a c = false.
Proof. destruct a, b, c; try done; cbn; intros _ _ _; [apply str_ltb_neg_trans|lia]. Qed.

Lemma key_of_kind f s s' : is_str (key_of f s) = is_str (key_of f s').
Proof.
  assert (forall o, is_str (num_key o) = false) as H by by intros [].
  destruct f; cbn; rewrite ?H; repeat case_match; rewrite ?H; done.
Qed.

(** With a NaN last, the comparison is a total preorder. *)
Definition clean (k : sort_key) : sort_key := match k with KNaN => KInf | _ => k end.
Definition clean_order (f : SortField) (asc : bool) (a b : Session) : bool :=
  if asc then negb (key_lt (clean (key_of f b)) (clean (key_of f a)))
  else negb (key_lt (clean (key_of f a)) (clean (key_of f b))).

Lemma clean_spec k : clean k <> KNaN /\ is_str (clean k) = is_str k /\ (k <> KNaN -> clean k = k).
Proof. by destruct k. Qed.

Lemma clean_order_trans f asc x y z :
  clean_order f asc x y = true -> clean_order f asc y z = true -> clean_order f asc x z = true.
Proof.
  assert (forall a b c, key_lt (clean (key_of f a)) (clean (key_of f b)) = false ->
            key_lt (clean (key_of f b)) (clean (key_of f c)) = false -> key_lt (clean (key_of f a)) (clean (key_of f c)) = false) as H.
  { intros a b c. destruct (clean_spec (key_of f a)) as (_ & Ea & _), (clean_spec (key_of f b)) as (Hb & Eb & _),
      (clean_spec (key_of f c)) as (_ & Ec & _). apply key_lt_neg_trans; [| |done]; rewrite ?Ea, ?Eb, ?Ec; apply key_of_kind. }
  unfold clean_order. destruct asc; rewrite !negb_true_iff; intros H1 H2; by eapply H.
Qed.

Lemma clean_order_total f asc x y : clean_order f asc x y = true \/ clean_order f asc y x = true.
Proof.
  unfold clean_order.
  destruct asc, (key_lt (clean (key_of f x)) (clean (key_of f y))) eqn:E; try (by auto);
    apply key_lt_asym in E; rewrite E; by auto.
Qed.

Lemma in_order_clean f asc a b :
  key_of f a <> KNaN -> key_of f b <> KNaN -> in_order f asc a b = clean_order f asc a b.
Proof.
  intros Ha Hb. unfold in_order, clean_order. by rewrite (proj2 (proj2 (clean_spec _)) Ha), (proj2 (proj2 (clean_spec _)) Hb).
Qed.

(** What the page lists are the sessions that pass the filters, each once, in the order of
    the chosen column and direction; sessions that agree in the column stay in the order of
    the server, in either direction.  The dates must be dates: one that is none is neither
    before nor after any other. *)
Lemma processed_sorted l searchQuery deviceFilter locationFilter f asc :
  (forall s, In s l -> key_of f s <> KNaN) ->
  let kept := List.filter (passes searchQuery deviceFilter locationFilter) l in
  let shown := processedSessions l searchQuery deviceFilter locationFilter f asc in
  shown ≡ₚ kept
  /\ StronglySorted (fun a b => in_order f asc a b = true) shown
  /\ forall k, List.filter (fun s => bool_decide (key_of f s = k)) shown = List.filter (fun s => bool_decide (key_of f s = k)) kept.
Proof.
  intros Hk kept shown.
  assert (forall s, In s kept -> key_of f s <> KNaN) as Hk' by (intros s Hs; apply filter_In in Hs as [Hs _]; by apply Hk).
  assert (shown = stable_sort (clean_order f asc) kept) as E.
  { apply stable_sort_ext. intros a b Ha Hb. apply in_order_clean; by apply Hk'. }
  split_and!.
  - apply sort_perm.
  - pose proof (sort_sorted _ (clean_order_trans f asc) (clean_order_total f asc) kept) as Hs. rewrite <- E in Hs.
    eapply StronglySorted_on; [|exact Hs]. intros a b Ha Hb Hab.
    rewrite in_order_clean; [done|apply Hk'; by apply (sort_In (in_order f asc) _ kept)..].
  - intros k. rewrite E. apply sort_stable. intros a b Ha Hb. apply bool_decide_eq_true in Ha, Hb.
    unfold clean_order. rewrite Ha, Hb. destruct asc; (destruct (key_lt (clean k) (clean k)) eqn:Ek; [|done]);
      pose proof (key_lt_asym _ _ Ek); congruence.
Qed.

(** ** Revoking *)

Lemma st_apiFetch {S} (e : env) API_BASE TENANT_ID path options (w : world S) :
  w_st (run e (apiFetch true API_BASE TENANT_ID path options) w).2 = w_st w.
Proof. apply keeps_st_run, keeps_st_apiFetch. Qed.

Definition revocation (ids : list string) : option RequestInit :=
  Some {| ri_method := Some POST; ri_headers := [("Content-Type", "application/json")];
          ri_body := Some (stringify (JObj [("session_ids", JArr (map JStr ids))])) |}.

(** Whatever the server answers, a refusal and an outage included, the request is sent
    and the page ends on the same screen: the session gone from the list, the dialog
    closed, and the message that it is revoked. *)
Lemma revoke_reports_success (e : env) API_BASE TENANT_ID t x w :
  exists w', run e (handleRevoke API_BASE TENANT_ID t x) w = (Done tt, w')
  /\ sessions (w_st w') = List.filter (fun s => negb (String.eqb (s_id s) x)) (sessions (w_st w))
  /\ msg (w_st w') = Some (t "sessions.sessionrevoked")
  /\ revokeTarget (w_st w') = None /\ revokingId (w_st w') = None
  /\ exists headers, In (ObsFetch (api_request API_BASE "/api/v1/auth/sessions/revoke" (revocation [x]) headers)) (w_trace w').
Proof.
  unfold handleRevoke, drop_session, showMessage, setRevokingId, setRevokeTarget, setSessions, setMsg, revoke.
  fold (revocation [x]). run_steps. set (w0 := set_st _ w).
  destruct (apiFetch_sends e API_BASE TENANT_ID "/api/v1/auth/sessions/revoke" (revocation [x]) w0) as (o & (headers & ->) & Hin).
  pose proof (st_apiFetch e API_BASE TENANT_ID "/api/v1/auth/sessions/revoke" (revocation [x]) w0) as Hst.
  destruct (run e (apiFetch true API_BASE TENANT_ID _ (revocation [x])) w0) as [[data|err] w1]; cbn [snd] in *; run_steps.
  all: eexists; split; [reflexivity|]; destruct w1, w; cbn in *; subst; cbn.
  all: split_and!; try done; exists headers; by right.
Qed.

(** The same for all the others at once. *)
Lemma revoke_all_reports_success (e : env) API_BASE TENANT_ID t l w :
  exists w', run e (handleRevokeAll API_BASE TENANT_ID t l) w = (Done tt, w')
  /\ sessions (w_st w') = List.filter current (sessions (w_st w))
  /\ msg (w_st w') = Some (t "sessions.allothersessionsrevoked") /\ showRevokeAllModal (w_st w') = false.
Proof.
  unfold handleRevokeAll, drop_others, showMessage, setRevokingAll, setShowRevokeAllModal, setSessions, setMsg, revoke. cbv zeta.
  destruct (map s_id _) as [|x ids]; run_steps; [eexists; split; [reflexivity|]; by destruct w|].
  fold (revocation (x :: ids)). set (w0 := set_st _ w).
  pose proof (st_apiFetch e API_BASE TENANT_ID "/api/v1/auth/sessions/revoke" (revocation (x :: ids)) w0) as Hst.
  destruct (run e (apiFetch true API_BASE TENANT_ID _ (revocation (x :: ids))) w0) as [[data|err] w1]; cbn [snd] in *; run_steps.
  all: eexists; split; [reflexivity|]; destruct w1, w; cbn in *; subst; done.
Qed.

(** ** The policy *)

(** What is typed is brought within the bounds at once, whatever is typed. *)
Lemma typed_policy_bounds (e : env) v w :
  5 <= sessionTimeout (w_st (run e (changeTimeout v) w).2) <= 1440
  /\ 1 <= maxConcurrent (w_st (run e (changeMax v) w).2) <= 100.
Proof. unfold changeTimeout, changeMax, setSessionTimeout, setMaxConcurrent. run_steps. destruct w. cbn. lia. Qed.

(** What the server says is not: a stored timeout of a year is shown, and saved again. *)
Example loaded_policy_unbounded :
  let server (_ : list obs) (_ : request) := Some (Response 200 (stringify (JObj [("session_timeout", JNum 525600)]))) in
  sessionTimeout (w_st (run (Env server (fun _ => 0) (fun _ _ => []) (fun _ _ _ => None)) (loadPolicy "" "t") (page page_init ∅)).2) = 525600.
Proof. vm_compute. reflexivity. Qed.

(** Saving ends with the same message whether the server took the policy or not; the message
    of the outer handler is never shown. *)
Lemma save_policy_reports_success (e : env) API_BASE TENANT_ID t s w :
  exists w', run e (handleSavePolicy API_BASE TENANT_ID t s) w = (Done tt, w')
  /\ msg (w_st w') = Some (t "sessions.sessionpolicysaved") /\ savingPolicy (w_st w') = false.
Proof.
  unfold handleSavePolicy, showMessage, setSavingPolicy, setMsg. run_steps. set (w0 := set_st _ w).
  destruct (run e (apiFetch true API_BASE TENANT_ID _ _) w0) as [[data|err] w1]; run_steps;
    (eexists; split; [reflexivity|]); by destruct w1.
Qed.

(** ** What the rows say *)

Definition demo_ipad : string :=
  "Mozilla/5.0 (iPad; CPU OS 15_0 like Mac OS X) AppleWebKit/605.1.15 (KHTML, like Gecko) Version/15.0 Mobile/15E148 Safari/604.1".
Definition demo_android : string :=
  "Mozilla/5.0 (Linux; Android 14; Pixel 8) AppleWebKit/537.36 (KHTML, like Gecko) Chrome/120.0.0.0 Mobile Safari/537.36".
Definition demo_iphone : string :=
  "Mozilla/5.0 (iPhone; CPU iPhone OS 17_0 like Mac OS X) AppleWebKit/605.1.15 (KHTML, like Gecko) Version/17.0 Mobile/15E148 Safari/604.1".

(** The order of the tests hides three of the names they can give. *)
Example devices_misnamed :
  parseDeviceType demo_ipad = "Mobile" /\ parseOS demo_ipad = "macOS"
  /\ parseOS demo_android = "Linux" /\ parseOS demo_iphone = "macOS".
Proof. vm_compute. done. Qed.

Definition demo_session (x name seen expires : string) : Session :=
  MkSession x "10.0.0.1" "" "" seen expires "" "" "" "" "" name "" "" false.

(** A session past its end is listed as active as long as it was used within the day. *)
Example expired_shown_active :
  let now := default 0 (time_of "2024-05-02T12:00:00Z") in
  let s := demo_session "s" "Ann" "2024-05-02T11:00:00Z" "2024-05-02T11:30:00Z" in
  getSessionStatus now s = "Active" /\ getExpiresIn now s = "Expired".
Proof. vm_compute. done. Qed.

(** A server that does not mark the current session lets the page keep the first one of its
    list and revoke the others, whichever of them the user is in. *)
Example first_taken_for_current :
  map current (imap session_of [JObj [("id", JStr "theirs")]; JObj [("id", JStr "mine")]]) = [true; false].
Proof. reflexivity. Qed.

Definition demo_sessions : list Session :=
  [demo_session "1" "Cleo" "2024-05-02T11:00:00Z" ""; demo_session "2" "ann" "2024-05-02T10:00:00Z" "";
   demo_session "3" "Bob" "2024-05-02T11:00:00Z" ""].

Lemma processed_sorted_witness :
  map s_id (processedSessions demo_sessions "" "All" "" by_last_active_at false) = ["1"; "3"; "2"]
  /\ StronglySorted (fun a b => in_order by_last_active_at false a b = true)
      (processedSessions demo_sessions "" "All" "" by_last_active_at false).
Proof.
  split; [vm_compute; reflexivity|].
  refine (proj1 (proj2 (processed_sorted demo_sessions "" "All" "" by_last_active_at false _))).
  intros s [<-|[<-|[<-|[]]]]; vm_compute; discriminate.
Defined.
