(* ===== verification/JsUrl.v ===== *)
(** * Reading a query string

    [new URLSearchParams(s)] for a text [s]: the parser of application/x-www-form-urlencoded,
    the inverse of the serializer of JsString. *)

From S2P Require Import Prelude JsValue JsString.

Definition hex_value (c : Ascii.ascii) : option nat :=
  let n := code c in
  if ((48 <=? n) && (n <=? 57))%nat then Some (n - 48)%nat
  else if ((65 <=? n) && (n <=? 70))%nat then Some (n - 55)%nat
  else if ((97 <=? n) && (n <=? 102))%nat then Some (n - 87)%nat
  else None.

(** The bytes a piece of a query stands for. *)
Fixpoint form_bytes (s : string) : list nat :=
  match s with
  | EmptyString => []
  | String c s' =>
      if Ascii.eqb c "+" then 32%nat :: form_bytes s'
      else if Ascii.eqb c "%" then
        match s' with
        | String a (String b s'') =>
            match hex_value a, hex_value b with
            | Some x, Some y => (16 * x + y)%nat :: form_bytes s''
            | _, _ => code c :: form_bytes s'
            end
        | _ => code c :: form_bytes s'
        end
      else utf8_char c ++ form_bytes s'
  end.

(** The text of UTF-8 bytes; [None] when it has a character that is no code unit below 256. *)
Fixpoint utf8_text (bs : list nat) : option string :=
  match bs with
  | [] => Some ""
  | b :: bs' =>
      if (b <? 128)%nat then String (chr b) <$> utf8_text bs'
      else match bs' with
           | b2 :: bs'' =>
               if ((194 <=? b) && (b <=? 195) && (128 <=? b2) && (b2 <=? 191))%nat
               then String (chr ((b - 192) * 64 + (b2 - 128))) <$> utf8_text bs''
               else None
           | [] => None
           end
  end.

Definition form_decode (s : string) : option string := utf8_text (form_bytes s).

(** A piece without an equals sign is a name with the value "". *)
Definition pair_of (piece : string) : option (string * string) :=
  match split_on "=" piece with
  | n :: vs => name ← form_decode n; v ← form_decode (String.concat "=" vs); Some (name, v)
  | [] => None
  end.

Definition strip_mark (s : string) : string :=
  match s with String c s' => if Ascii.eqb c "?" then s' else s | EmptyString => s end.

Definition params_of (s : string) : option (list (string * string)) :=
  mapM pair_of (List.filter (fun p => negb (String.eqb p "")) (split_on "&" (strip_mark s))).

(** [params.get(k)]: the first value. *)
Definition param (k : string) (ps : list (string * string)) : option string :=
  snd <$> List.find (fun kv => String.eqb kv.1 k) ps.

(** ** The serializer is read back *)

Definition encode_char (c : Ascii.ascii) : string :=
  if is_alnum c || in_set "*-._" c then String c "" else if Ascii.eqb c " " then "+" else pct_char c.

Lemma form_bytes_char c rest : form_bytes (encode_char c +:+ rest) = utf8_char c ++ form_bytes rest.
Proof. destruct c as [[] [] [] [] [] [] [] []]; reflexivity. Qed.

Lemma form_bytes_encode s : form_bytes (form_encode s) = utf8 s.
Proof.
  induction s as [|c s IH]; [done|]. change (utf8 (String c s)) with (utf8_char c ++ utf8 s).
  change (form_encode (String c s)) with (encode_char c +:+ form_encode s). by rewrite form_bytes_char, IH.
Qed.

Lemma utf8_text_char c bs : utf8_text (utf8_char c ++ bs) = String c <$> utf8_text bs.
Proof. destruct c as [[] [] [] [] [] [] [] []]; reflexivity. Qed.

Lemma form_decode_encode s : form_decode (form_encode s) = Some s.
Proof.
  unfold form_decode. rewrite form_bytes_encode. induction s as [|c s IH]; [done|].
  change (utf8 (String c s)) with (utf8_char c ++ utf8 s). by rewrite utf8_text_char, IH.
Qed.

Lemma encode_lacks c s : c = "&"%char \/ c = "="%char -> lacks c (form_encode s) = true.
Proof.
  intros H. apply str_forall_flat_map. intros a. fold (encode_char a).
  destruct H as [->| ->]; destruct a as [[] [] [] [] [] [] [] []]; reflexivity.
Qed.

Lemma pair_read n v : pair_of (form_encode n +:+ "=" +:+ form_encode v) = Some (n, v).
Proof.
  unfold pair_of. cbn [String.append]. rewrite split_on_app by (apply encode_lacks; by right).
  rewrite split_on_lacks by (apply encode_lacks; by right). cbn [String.concat]. by rewrite !form_decode_encode.
Qed.

Lemma pair_text_lacks n v : lacks "&" (form_encode n +:+ "=" +:+ form_encode v) = true.
Proof.
  pose proof (encode_lacks "&" n (or_introl eq_refl)) as Hn. pose proof (encode_lacks "&" v (or_introl eq_refl)) as Hv.
  unfold lacks in *. by rewrite !str_forall_app, Hn, Hv.
Qed.

Lemma split_params l : l <> [] ->
  split_on "&" (URLSearchParams l) = map (fun kv => form_encode kv.1 +:+ "=" +:+ form_encode kv.2) l.
Proof.
  intros Hl. unfold URLSearchParams. induction l as [|kv l IH]; [done|]. cbn [map].
  destruct l as [|kv' l]; [by apply split_on_lacks, pair_text_lacks|].
  cbn [map]. rewrite join_cons2. cbn [String.append]. rewrite split_on_app by apply pair_text_lacks.
  f_equal. by apply IH.
Qed.

Lemma params_kept l : List.filter (fun p => negb (String.eqb p "")) (map (fun kv => form_encode kv.1 +:+ "=" +:+ form_encode kv.2) l)
  = map (fun kv => form_encode kv.1 +:+ "=" +:+ form_encode kv.2) l.
Proof. induction l as [|kv l IH]; [done|]. cbn [map List.filter]. rewrite IH. by destruct (form_encode kv.1). Qed.

(** What [URLSearchParams] prints, with or without the question mark, it reads. *)
Lemma params_read l : params_of (URLSearchParams l) = Some l /\ params_of (String "?" (URLSearchParams l)) = Some l.
Proof.
  assert (mapM pair_of (List.filter (fun p => negb (String.eqb p "")) (split_on "&" (URLSearchParams l))) = Some l) as H.
  { destruct l as [|kv l]; [done|]. rewrite split_params, params_kept by done. generalize (kv :: l). clear.
    intros l. apply mapM_Some_2. induction l as [|[n v] l IH]; constructor; [apply pair_read|done]. }
  split; [|exact H]. unfold params_of. assert (strip_mark (URLSearchParams l) = URLSearchParams l) as ->; [|exact H].
  unfold URLSearchParams. destruct l as [|[n v] l]; [done|].
  assert (exists r, join "&" (map (fun kv => form_encode kv.1 +:+ "=" +:+ form_encode kv.2) ((n, v) :: l)) = form_encode n +:+ "=" +:+ r) as [r ->].
  { cbn [map]. destruct l as [|kv l]; cbn [map]; [by eexists|]. rewrite join_cons2. cbn [fst snd]. rewrite !str_app_assoc. by eexists. }
  destruct n as [|c n]; [done|]. change (form_encode (String c n)) with (encode_char c +:+ form_encode n).
  destruct c as [[] [] [] [] [] [] [] []]; reflexivity.
Qed.
