(* ===== verification/AuditQuery.v ===== *)
(** * Searching the audit log (console/src/app/audit/advanced/page.tsx)

    The page holds a tree of conditions, fetches the last events and shows those the tree
    matches; trees can be saved as searches and reports in the browser's storage.  Optional
    texts are "" when absent: the page tests whether they are truthy. *)

From S2P Require Import Prelude JsSort JsValue JsString JsDate Json Effects ApiClient.
#[local] Open Scope Z_scope.

(** ** Data *)

Record AuditEvent := Event {
  ev_id : string; actor_id : string; actor_name : string; action : string; result : string; created_at : string;
  ip_address : string; user_agent : string; service : string; severity : string }.

Inductive FieldType := f_user | f_action | f_ip | f_service | f_severity | f_result | f_timestamp.
Inductive Operator := o_equals | o_contains | o_starts_with | o_in | o_between.
#[export] Instance FieldType_eq_dec : EqDecision FieldType.
Proof. solve_decision. Defined.

Record Condition := Cond { c_id : string; field : FieldType; operator : Operator; value : string; value2 : string }.

Inductive logic := AND | OR.

Unset Elimination Schemes.
Inductive ConditionGroup := Group (id : string) (l : logic) (conditions : list Condition) (groups : list ConditionGroup).
Set Elimination Schemes.

Section ConditionGroup_ind.
Context (P : ConditionGroup -> Prop).
Hypothesis (Hgroup : forall i l cs gs, Forall P gs -> P (Group i l cs gs)).

Fixpoint ConditionGroup_ind (g : ConditionGroup) : P g :=
  match g with
  | Group i l cs gs =>
      Hgroup i l cs gs ((fix go gs : Forall P gs :=
        match gs with
        | [] => @List.Forall_nil _ P
        | h :: gs' => @List.Forall_cons _ P _ _ (ConditionGroup_ind h) (go gs')
        end) gs)
  end.
End ConditionGroup_ind.

Definition g_id (g : ConditionGroup) : string := let '(Group i _ _ _) := g in i.
Definition g_logic (g : ConditionGroup) : logic := let '(Group _ l _ _) := g in l.
Definition g_conditions (g : ConditionGroup) : list Condition := let '(Group _ _ cs _) := g in cs.
Definition g_groups (g : ConditionGroup) : list ConditionGroup := let '(Group _ _ _ gs) := g in gs.

Record SavedSearch := Search { s_id : string; s_name : string; s_group : ConditionGroup; createdAt : string }.
Inductive frequency := daily | weekly.
Record ScheduledReport := Report {
  r_id : string; r_name : string; r_frequency : frequency; recipients : string; r_time : string; enabled : bool;
  r_group : ConditionGroup }.
(** The report being typed. *)
Record NewReport := Draft { n_name : string; n_frequency : frequency; n_recipients : string; n_time : string }.

(** ** Matching *)

Definition event_value (event : AuditEvent) (f : FieldType) : string :=
  match f with
  | f_user => str_or (actor_name event) (actor_id event)
  | f_action => action event
  | f_ip => ip_address event
  | f_service => str_or (service event) (default "" (head (split_on "." (action event))))
  | f_severity => str_or (severity event) "info"
  | f_result => result event
  | f_timestamp => created_at event
  end.

(** [a <= b] on numbers of which either may be NaN. *)
Definition num_le (a b : option Z) : bool :=
  match a, b with Some x, Some y => x <=? y | _, _ => false end.

Definition matchesCondition (event : AuditEvent) (cond : Condition) : bool :=
  let eventVal := event_value event (field cond) in
  match operator cond with
  | o_equals =>
      if decide (field cond = f_timestamp) then starts_with (value cond) eventVal
      else String.eqb (to_lower eventVal) (to_lower (value cond))
  | o_contains => str_includes (to_lower (value cond)) (to_lower eventVal)
  | o_starts_with => starts_with (to_lower (value cond)) (to_lower eventVal)
  | o_in => str_mem (to_lower eventVal) (map (fun v => to_lower (trim v)) (split_on "," (value cond)))
  | o_between =>
      let upper := str_or (value2 cond) (value cond) in
      if decide (field cond = f_timestamp) then
        num_le (time_of (value cond)) (time_of eventVal) && num_le (time_of eventVal) (time_of upper)
      else negb (str_ltb eventVal (value cond)) && negb (str_ltb upper eventVal)
  end.

Definition combine (l : logic) (results : list bool) : bool :=
  match results, l with
  | [], _ => true
  | _, AND => forallb (fun b => b) results
  | _, OR => existsb (fun b => b) results
  end.

(** The conditions with a value. *)
Definition given (cs : list Condition) : list Condition := List.filter (fun c => negb (String.eqb (value c) "")) cs.

Fixpoint matchesGroup (event : AuditEvent) (group : ConditionGroup) : bool :=
  let '(Group _ l cs gs) := group in
  combine l (map (matchesCondition event) (given cs) ++ map (matchesGroup event) gs).

(** ** Anomalies *)

Definition failed_login (e : AuditEvent) : bool := String.eqb (action e) "user.login" && negb (String.eqb (result e) "success").
Definition count (P : AuditEvent -> bool) (l : list AuditEvent) : nat := length (List.filter P l).
Definition same_actor (event e : AuditEvent) : bool := String.eqb (actor_id e) (actor_id event).

Inductive anomaly := failed_spike | unusual_ip | new_device.

Definition getAnomalyType (event : AuditEvent) (allEvents : list AuditEvent) : option anomaly :=
  if failed_login event && (3 <=? count (fun e => same_actor event e && failed_login e) allEvents)%nat then Some failed_spike
  else if negb (String.eqb (ip_address event) "")
          && (count (fun e => same_actor event e && String.eqb (ip_address e) (ip_address event)) allEvents =? 1)%nat
          && (count (fun e => String.eqb (ip_address e) (ip_address event)) allEvents <=? 2)%nat then Some unusual_ip
  else if negb (String.eqb (user_agent event) "")
          && (count (fun e => same_actor event e && String.eqb (user_agent e) (user_agent event)) allEvents =? 1)%nat
       then Some new_device
  else None.

(** The counts above the table, of the events shown: failed sign-ins, addresses, anomalies. *)
Definition recent (now : Z) (l : list AuditEvent) : list AuditEvent :=
  List.filter (fun e => match time_of (created_at e) with Some t => now - 86400000 <? t | None => false end) l.
Definition unique (l : list string) : list string :=
  fold_left (fun seen x => if str_mem x seen then seen else seen ++ [x]) l [].
Definition unique_ips (l : list AuditEvent) : nat :=
  length (unique (List.filter (fun ip => negb (String.eqb ip "")) (map ip_address l))).
Definition anomalies (l : list AuditEvent) : nat :=
  count (fun e => match getAnomalyType e l with Some _ => true | None => false end) l.

(** ** The page *)

Record page_state := AuditPage {
  rootGroup : ConditionGroup;
  events : list AuditEvent;
  loading : bool;
  error_ : option string;
  expandedRows : gset string;
  savedSearches : list SavedSearch;
  showSaveDialog : bool;
  newSearchName : string;
  scheduledReports : list ScheduledReport;
  showScheduleDialog : bool;
  newReport : NewReport;
  failedLogins24h : nat;
  uniqueIps24h : nat;
  anomaliesDetected : nat }.

Definition setRootTo (v : ConditionGroup) : prog page_state unit :=
  upd (fun s => AuditPage v (events s) (loading s) (error_ s) (expandedRows s) (savedSearches s) (showSaveDialog s) (newSearchName s) (scheduledReports s) (showScheduleDialog s) (newReport s) (failedLogins24h s) (uniqueIps24h s) (anomaliesDetected s)).
Definition setEvents (v : list AuditEvent) : prog page_state unit :=
  upd (fun s => AuditPage (rootGroup s) v (loading s) (error_ s) (expandedRows s) (savedSearches s) (showSaveDialog s) (newSearchName s) (scheduledReports s) (showScheduleDialog s) (newReport s) (failedLogins24h s) (uniqueIps24h s) (anomaliesDetected s)).
Definition setLoading (v : bool) : prog page_state unit :=
  upd (fun s => AuditPage (rootGroup s) (events s) v (error_ s) (expandedRows s) (savedSearches s) (showSaveDialog s) (newSearchName s) (scheduledReports s) (showScheduleDialog s) (newReport s) (failedLogins24h s) (uniqueIps24h s) (anomaliesDetected s)).
Definition setError (v : option string) : prog page_state unit :=
  upd (fun s => AuditPage (rootGroup s) (events s) (loading s) v (expandedRows s) (savedSearches s) (showSaveDialog s) (newSearchName s) (scheduledReports s) (showScheduleDialog s) (newReport s) (failedLogins24h s) (uniqueIps24h s) (anomaliesDetected s)).
Definition setExpandedRows (f : gset string -> gset string) : prog page_state unit :=
  upd (fun s => AuditPage (rootGroup s) (events s) (loading s) (error_ s) (f (expandedRows s)) (savedSearches s) (showSaveDialog s) (newSearchName s) (scheduledReports s) (showScheduleDialog s) (newReport s) (failedLogins24h s) (uniqueIps24h s) (anomaliesDetected s)).
Definition setSavedSearches (f : list SavedSearch -> list SavedSearch) : prog page_state unit :=
  upd (fun s => AuditPage (rootGroup s) (events s) (loading s) (error_ s) (expandedRows s) (f (savedSearches s)) (showSaveDialog s) (newSearchName s) (scheduledReports s) (showScheduleDialog s) (newReport s) (failedLogins24h s) (uniqueIps24h s) (anomaliesDetected s)).
Definition setShowSaveDialog (v : bool) : prog page_state unit :=
  upd (fun s => AuditPage (rootGroup s) (events s) (loading s) (error_ s) (expandedRows s) (savedSearches s) v (newSearchName s) (scheduledReports s) (showScheduleDialog s) (newReport s) (failedLogins24h s) (uniqueIps24h s) (anomaliesDetected s)).
Definition setNewSearchName (v : string) : prog page_state unit :=
  upd (fun s => AuditPage (rootGroup s) (events s) (loading s) (error_ s) (expandedRows s) (savedSearches s) (showSaveDialog s) v (scheduledReports s) (showScheduleDialog s) (newReport s) (failedLogins24h s) (uniqueIps24h s) (anomaliesDetected s)).
Definition setScheduledReports (f : list ScheduledReport -> list ScheduledReport) : prog page_state unit :=
  upd (fun s => AuditPage (rootGroup s) (events s) (loading s) (error_ s) (expandedRows s) (savedSearches s) (showSaveDialog s) (newSearchName s) (f (scheduledReports s)) (showScheduleDialog s) (newReport s) (failedLogins24h s) (uniqueIps24h s) (anomaliesDetected s)).
Definition setShowScheduleDialog (v : bool) : prog page_state unit :=
  upd (fun s => AuditPage (rootGroup s) (events s) (loading s) (error_ s) (expandedRows s) (savedSearches s) (showSaveDialog s) (newSearchName s) (scheduledReports s) v (newReport s) (failedLogins24h s) (uniqueIps24h s) (anomaliesDetected s)).
Definition setNewReport (v : NewReport) : prog page_state unit :=
  upd (fun s => AuditPage (rootGroup s) (events s) (loading s) (error_ s) (expandedRows s) (savedSearches s) (showSaveDialog s) (newSearchName s) (scheduledReports s) (showScheduleDialog s) v (failedLogins24h s) (uniqueIps24h s) (anomaliesDetected s)).
Definition setFailedLogins24h (v : nat) : prog page_state unit :=
  upd (fun s => AuditPage (rootGroup s) (events s) (loading s) (error_ s) (expandedRows s) (savedSearches s) (showSaveDialog s) (newSearchName s) (scheduledReports s) (showScheduleDialog s) (newReport s) v (uniqueIps24h s) (anomaliesDetected s)).
Definition setUniqueIps24h (v : nat) : prog page_state unit :=
  upd (fun s => AuditPage (rootGroup s) (events s) (loading s) (error_ s) (expandedRows s) (savedSearches s) (showSaveDialog s) (newSearchName s) (scheduledReports s) (showScheduleDialog s) (newReport s) (failedLogins24h s) v (anomaliesDetected s)).
Definition setAnomaliesDetected (v : nat) : prog page_state unit :=
  upd (fun s => AuditPage (rootGroup s) (events s) (loading s) (error_ s) (expandedRows s) (savedSearches s) (showSaveDialog s) (newSearchName s) (scheduledReports s) (showScheduleDialog s) (newReport s) (failedLogins24h s) (uniqueIps24h s) v).

Definition draft_init : NewReport := Draft "" daily "" "09:00".

(** [genId] calls the hook [useTranslations]: while a component renders that is a read of the
    context; in an event handler React has no component, and the call raises. *)
Definition base36 (b : Z) : Ascii.ascii :=
  let d := Z.to_nat (b mod 36) in if (d <? 10)%nat then chr (48 + d) else chr (87 + d).
(** [Math.random().toString(36).slice(2, 8)]: digits without the zeros at the end. *)
Definition random_suffix (draws : list Z) : string :=
  String.substring 0 6 (strip_end (fun c => Ascii.eqb c "0") (String.string_of_list_ascii (map base36 draws))).
Definition genId (rendering : bool) : prog page_state string :=
  if rendering then
    t ← now;
    draws ← random_bytes 12;
    mret (string_of_Z t +:+ "-" +:+ random_suffix draws)
  else Throw (type_error "Cannot read properties of null (reading 'useContext')").

Definition emptyGroup (rendering : bool) (l : logic) : prog page_state ConditionGroup :=
  i ← genId rendering; mret (Group i l [] []).
Definition emptyCondition (rendering : bool) : prog page_state Condition :=
  i ← genId rendering; mret (Cond i f_user o_equals "" "").

(** [l.map(f)] where [f] draws identifiers. *)
Fixpoint map_prog {A B} (f : A -> prog page_state B) (l : list A) : prog page_state (list B) :=
  match l with [] => mret [] | x :: l' => y ← f x; ys ← map_prog f l'; mret (y :: ys) end.

Definition clone_condition (rendering : bool) (c : Condition) : prog page_state Condition :=
  i ← genId rendering; mret (Cond i (field c) (operator c) (value c) (value2 c)).
Fixpoint cloneGroup (rendering : bool) (g : ConditionGroup) : prog page_state ConditionGroup :=
  let '(Group _ l cs gs) := g in
  i ← genId rendering;
  cs' ← map_prog (clone_condition rendering) cs;
  gs' ← map_prog (cloneGroup rendering) gs;
  mret (Group i l cs' gs').

(** The state of the first render. *)
Definition first_group : prog page_state ConditionGroup :=
  i ← genId true; c ← emptyCondition true; mret (Group i AND [c] []).
Definition page_init (root : ConditionGroup) : page_state :=
  AuditPage root [] false None ∅ [] false "" [] false draft_init 0 0 0.

(** *** Editing the query.  The function given to [setRootGroup] runs while the page renders. *)

Fixpoint updater (x : string) (f : ConditionGroup -> prog page_state ConditionGroup) (g : ConditionGroup)
    : prog page_state ConditionGroup :=
  let '(Group i l cs gs) := g in
  if String.eqb i x then f g
  else gs' ← map_prog (updater x f) gs; mret (Group i l cs gs').

Definition setRootGroup (x : string) (f : ConditionGroup -> prog page_state ConditionGroup) : prog page_state unit :=
  s ← get_state; g ← updater x f (rootGroup s); setRootTo g.

Definition with_condition (c : Condition) (g : ConditionGroup) : ConditionGroup :=
  Group (g_id g) (g_logic g) (g_conditions g ++ [c]) (g_groups g).
Definition with_group (h g : ConditionGroup) : ConditionGroup :=
  Group (g_id g) (g_logic g) (g_conditions g) (g_groups g ++ [h]).
Definition without_condition (c : string) (g : ConditionGroup) : ConditionGroup :=
  Group (g_id g) (g_logic g) (List.filter (fun d => negb (String.eqb (c_id d) c)) (g_conditions g)) (g_groups g).
Definition without_group (x : string) (g : ConditionGroup) : ConditionGroup :=
  Group (g_id g) (g_logic g) (g_conditions g) (List.filter (fun h => negb (String.eqb (g_id h) x)) (g_groups g)).
Definition toggled (g : ConditionGroup) : ConditionGroup :=
  Group (g_id g) (match g_logic g with AND => OR | OR => AND end) (g_conditions g) (g_groups g).

Inductive patch := to_field (f : FieldType) | to_operator (o : Operator) | to_value (v : string) | to_value2 (v : string).
Definition patched (p : patch) (c : Condition) : Condition :=
  match p with
  | to_field f => Cond (c_id c) f (operator c) (value c) (value2 c)
  | to_operator o => Cond (c_id c) (field c) o (value c) (value2 c)
  | to_value v => Cond (c_id c) (field c) (operator c) v (value2 c)
  | to_value2 v => Cond (c_id c) (field c) (operator c) (value c) v
  end.
Definition with_patch (c : string) (p : patch) (g : ConditionGroup) : ConditionGroup :=
  Group (g_id g) (g_logic g) (map (fun d => if String.eqb (c_id d) c then patched p d else d) (g_conditions g)) (g_groups g).

Definition addCondition (groupId : string) : prog page_state unit :=
  setRootGroup groupId (fun g => c ← emptyCondition true; mret (with_condition c g)).
Definition addGroup (parentId : string) : prog page_state unit :=
  setRootGroup parentId (fun g => h ← emptyGroup true AND; mret (with_group h g)).
Definition removeCondition (groupId condId : string) : prog page_state unit :=
  setRootGroup groupId (fun g => mret (without_condition condId g)).
Definition removeGroup (parentId groupId : string) : prog page_state unit :=
  setRootGroup parentId (fun g => mret (without_group groupId g)).
Definition updateCondition (groupId condId : string) (p : patch) : prog page_state unit :=
  setRootGroup groupId (fun g => mret (with_patch condId p g)).
Definition toggleGroupLogic (groupId : string) : prog page_state unit :=
  setRootGroup groupId (fun g => mret (toggled g)).
(** The cross of a group below the root [root]. *)
Definition cross (root : ConditionGroup) (groupId : string) : prog page_state unit := removeGroup (g_id root) groupId.

(** *** Events *)

Definition text (v : js) (k : string) : string := match opt_prop v k with JStr s => s | _ => "" end.
Definition event_of (v : js) : AuditEvent :=
  Event (text v "id") (text v "actor_id") (text v "actor_name") (text v "action") (text v "result") (text v "created_at")
    (text v "ip_address") (text v "user_agent") (text v "service") (text v "severity").
Definition fetched_events (v : js) : prog page_state (list AuditEvent) :=
  match js_or v (JArr []) with
  | JArr l =>
      if existsb is_nullish l then Throw (type_error "Cannot read properties of null (reading 'created_at')")
      else mret (map event_of l)
  | _ => Throw (type_error "fetched.filter is not a function")
  end.

Section Requests.
Context (API_BASE TENANT_ID : string).

(** [root]: the query of the render. *)
Definition loadData (root : ConditionGroup) : prog page_state unit :=
  setLoading true;;
  setError None;;
  finally (try_catch (
      data ← apiFetch true API_BASE TENANT_ID "/api/v1/audit/events?page_size=100" None;
      listed ← get data "events";
      fetched ← fetched_events listed;
      let shown := List.filter (fun e => matchesGroup e root) fetched in
      setEvents shown;;
      t ← now;
      let recentEvents := recent t shown in
      setFailedLogins24h (count failed_login recentEvents);;
      setUniqueIps24h (unique_ips recentEvents);;
      setAnomaliesDetected (anomalies recentEvents))
    (fun err => setError (Some (e_message err))))
  (setLoading false).

Definition handleExport (format : string) : prog page_state unit :=
  emit "open" (JStr (API_BASE +:+ "/api/v1/audit/export?" +:+ URLSearchParams [("tenant_id", TENANT_ID); ("format", format)])).
End Requests.

Definition toggleExpand (x : string) : prog page_state unit :=
  setExpandedRows (fun e => if bool_decide (x ∈ e) then e ∖ {[x]} else {[x]} ∪ e).

(** *** Saved searches and reports.  [s] is the state of the render. *)

Definition saveSearch (s : page_state) : prog page_state unit :=
  if String.eqb (trim (newSearchName s)) "" then mret tt
  else
    i ← genId false;
    g ← cloneGroup false (rootGroup s);
    t ← now;
    setSavedSearches (fun prev => prev ++ [Search i (newSearchName s) g (toISOString t)]);;
    setShowSaveDialog false;;
    setNewSearchName "".
Definition loadSearch (search : SavedSearch) : prog page_state unit :=
  g ← cloneGroup false (s_group search); setRootTo g.
Definition deleteSearch (x : string) : prog page_state unit :=
  setSavedSearches (List.filter (fun q => negb (String.eqb (s_id q) x))).

Definition addScheduledReport (s : page_state) : prog page_state unit :=
  let draft := newReport s in
  if String.eqb (trim (n_name draft)) "" || String.eqb (trim (n_recipients draft)) "" then mret tt
  else
    i ← genId false;
    g ← cloneGroup false (rootGroup s);
    setScheduledReports (fun prev =>
      prev ++ [Report i (n_name draft) (n_frequency draft) (n_recipients draft) (n_time draft) true g]);;
    setShowScheduleDialog false;;
    setNewReport draft_init.
Definition toggleReport (x : string) : prog page_state unit :=
  setScheduledReports (map (fun r =>
    if String.eqb (r_id r) x
    then Report (r_id r) (r_name r) (r_frequency r) (recipients r) (r_time r) (negb (enabled r)) (r_group r)
    else r)).
Definition deleteReport (x : string) : prog page_state unit :=
  setScheduledReports (List.filter (fun r => negb (String.eqb (r_id r) x))).

(** *** The storage.  What is stored are the objects of the page; the readers take what this
    page writes, with its names of fields and operators. *)

Definition field_name (f : FieldType) : string :=
  match f with
  | f_user => "user" | f_action => "action" | f_ip => "ip" | f_service => "service" | f_severity => "severity"
  | f_result => "result" | f_timestamp => "timestamp"
  end.
Definition field_of (s : string) : FieldType :=
  default f_user (List.find (fun f => String.eqb (field_name f) s)
    [f_user; f_action; f_ip; f_service; f_severity; f_result; f_timestamp]).
Definition operator_name (o : Operator) : string :=
  match o with
  | o_equals => "equals" | o_contains => "contains" | o_starts_with => "starts_with" | o_in => "in" | o_between => "between"
  end.
Definition operator_of (s : string) : Operator :=
  default o_equals (List.find (fun o => String.eqb (operator_name o) s) [o_equals; o_contains; o_starts_with; o_in; o_between]).

Definition js_of_condition (c : Condition) : js :=
  JObj ([("id", JStr (c_id c)); ("field", JStr (field_name (field c))); ("operator", JStr (operator_name (operator c)));
         ("value", JStr (value c))] ++ (if String.eqb (value2 c) "" then [] else [("value2", JStr (value2 c))])).
Definition condition_of (v : js) : Condition :=
  Cond (text v "id") (field_of (text v "field")) (operator_of (text v "operator")) (text v "value") (text v "value2").

Fixpoint js_of_group (g : ConditionGroup) : js :=
  let '(Group i l cs gs) := g in
  JObj [("id", JStr i); ("logic", JStr (match l with AND => "AND" | OR => "OR" end));
        ("conditions", JArr (map js_of_condition cs)); ("groups", JArr (map js_of_group gs))].

(** [depth] levels of nesting are read. *)
Fixpoint group_of (depth : nat) (v : js) : ConditionGroup :=
  Group (text v "id") (if String.eqb (text v "logic") "AND" then AND else OR)
    (map condition_of (elements_of (opt_prop v "conditions")))
    (match depth with O => [] | S d => map (group_of d) (elements_of (opt_prop v "groups")) end).

Definition js_of_search (s : SavedSearch) : js :=
  JObj [("id", JStr (s_id s)); ("name", JStr (s_name s)); ("group", js_of_group (s_group s)); ("createdAt", JStr (createdAt s))].
Definition search_of (v : js) : SavedSearch :=
  let group := opt_prop v "group" in
  Search (text v "id") (text v "name") (group_of (jsize group) group) (text v "createdAt").

Definition frequency_name (f : frequency) : string := match f with daily => "daily" | weekly => "weekly" end.
Definition js_of_report (r : ScheduledReport) : js :=
  JObj [("id", JStr (r_id r)); ("name", JStr (r_name r)); ("frequency", JStr (frequency_name (r_frequency r)));
        ("recipients", JStr (recipients r)); ("time", JStr (r_time r)); ("enabled", JBool (enabled r));
        ("group", js_of_group (r_group r))].
Definition report_of (v : js) : ScheduledReport :=
  let group := opt_prop v "group" in
  Report (text v "id") (text v "name") (if String.eqb (text v "frequency") "weekly" then weekly else daily)
    (text v "recipients") (text v "time") (truthy (opt_prop v "enabled")) (group_of (jsize group) group).

Definition searches_key : string := "ggid_saved_searches".
Definition reports_key : string := "ggid_scheduled_reports".

(** The effects that write: after the first render, and after each change of the list. *)
Definition store_searches (l : list SavedSearch) : prog page_state unit :=
  setItem Local searches_key (stringify (JArr (map js_of_search l))).
Definition store_reports (l : list ScheduledReport) : prog page_state unit :=
  setItem Local reports_key (stringify (JArr (map js_of_report l))).

(** What is stored under [k], for [set]; what is no JSON is left alone.  The render that
    follows maps over it, and raises if it is no array. *)
Definition restore (k : string) (set : list js -> prog page_state unit) : prog page_state unit :=
  stored ← getItem Local k;
  match stored with
  | None | Some "" => mret tt
  | Some s =>
      match JSON_parse s with
      | None => mret tt
      | Some (JArr l) => set l
      | Some _ => Throw (type_error "savedSearches.map is not a function")
      end
  end.

(** The effects of the first render, whose lists are empty, and of the one that follows. *)
Definition mount : prog page_state unit :=
  restore searches_key (fun l => setSavedSearches (fun _ => map search_of l));;
  restore reports_key (fun l => setScheduledReports (fun _ => map report_of l));;
  store_searches [];;
  store_reports [].
Definition rerender : prog page_state unit :=
  s ← get_state; store_searches (savedSearches s);; store_reports (scheduledReports s).

(** ** What the user can do, in any order and with any overlap; [s] is the state of a render. *)

Inductive page_call (API_BASE TENANT_ID : string) : prog page_state unit -> Prop :=
| call_load root : page_call API_BASE TENANT_ID (loadData API_BASE TENANT_ID root)
| call_export format : page_call API_BASE TENANT_ID (handleExport API_BASE TENANT_ID format)
| call_add_condition x : page_call API_BASE TENANT_ID (addCondition x)
| call_add_group x : page_call API_BASE TENANT_ID (addGroup x)
| call_remove_condition x c : page_call API_BASE TENANT_ID (removeCondition x c)
| call_cross root x : page_call API_BASE TENANT_ID (cross root x)
| call_update x c p : page_call API_BASE TENANT_ID (updateCondition x c p)
| call_toggle_logic x : page_call API_BASE TENANT_ID (toggleGroupLogic x)
| call_expand x : page_call API_BASE TENANT_ID (toggleExpand x)
| call_save_dialog b : page_call API_BASE TENANT_ID (setShowSaveDialog b)
| call_type_name v : page_call API_BASE TENANT_ID (setNewSearchName v)
| call_save s : page_call API_BASE TENANT_ID (saveSearch s)
| call_load_search q : page_call API_BASE TENANT_ID (loadSearch q)
| call_delete_search x : page_call API_BASE TENANT_ID (deleteSearch x)
| call_report_dialog b : page_call API_BASE TENANT_ID (setShowScheduleDialog b)
| call_type_report d : page_call API_BASE TENANT_ID (setNewReport d)
| call_add_report s : page_call API_BASE TENANT_ID (addScheduledReport s)
| call_toggle_report x : page_call API_BASE TENANT_ID (toggleReport x)
| call_delete_report x : page_call API_BASE TENANT_ID (deleteReport x)
| call_rerender : page_call API_BASE TENANT_ID rerender.

(** ** Matching and edits *)

(** A group and all below it. *)
Fixpoint all_groups (g : ConditionGroup) : list ConditionGroup :=
  g :: flat_map all_groups (g_groups g).

(** The group at a path of indices, and the query with another group there. *)
Fixpoint group_at (p : list nat) (g : ConditionGroup) : option ConditionGroup :=
  match p with [] => Some g | i :: p' => h ← g_groups g !! i; group_at p' h end.
Fixpoint put (p : list nat) (h g : ConditionGroup) : ConditionGroup :=
  match p with
  | [] => h
  | i :: p' => Group (g_id g) (g_logic g) (g_conditions g)
      (match g_groups g !! i with Some sub => <[i := put p' h sub]> (g_groups g) | None => g_groups g end)
  end.

(** The verdict of a query whose group at [p] has the verdict [b]. *)
Fixpoint with_verdict (event : AuditEvent) (p : list nat) (b : bool) (g : ConditionGroup) : bool :=
  match p with
  | [] => b
  | i :: p' => combine (g_logic g) (map (matchesCondition event) (given (g_conditions g))
      ++ (match g_groups g !! i with
          | Some sub => <[i := with_verdict event p' b sub]> (map (matchesGroup event) (g_groups g))
          | None => map (matchesGroup event) (g_groups g)
          end))
  end.

(** What a group of the conditions [conds] and the groups [subs] asks of an event: all of them
    or any of them, conditions without a value left out; a group of nothing asks nothing. *)
Definition asks (l : logic) (conds : Condition -> Prop) (subs : ConditionGroup -> Prop) (event : AuditEvent) : Prop :=
  match l with
  | AND => (forall c, conds c -> value c <> "" -> matchesCondition event c = true)
           /\ (forall g, subs g -> matchesGroup event g = true)
  | OR => (exists c, conds c /\ value c <> "" /\ matchesCondition event c = true)
          \/ (exists g, subs g /\ matchesGroup event g = true)
          \/ ((forall c, conds c -> value c = "") /\ (forall g, ~ subs g))
  end.

Lemma In_given c cs : In c (given cs) <-> In c cs /\ value c <> "".
Proof. unfold given. rewrite filter_In. destruct (String.eqb_spec (value c) ""); naive_solver. Qed.

Lemma combine_or bs : combine OR bs = true <-> bs = [] \/ In true bs.
Proof.
  destruct bs as [|b bs]; [naive_solver|]. cbn [combine]. rewrite existsb_exists. split.
  - intros (x & Hx & ->). by right.
  - intros [|H]; [done|]. by exists true.
Qed.

Lemma combine_and bs : combine AND bs = true <-> forall b, In b bs -> b = true.
Proof. destruct bs as [|b bs]; [naive_solver|]. cbn [combine]. apply forallb_forall. Qed.

Lemma matchesGroup_asks event i l cs gs :
  matchesGroup event (Group i l cs gs) = true <-> asks l (fun c => In c cs) (fun g => In g gs) event.
Proof.
  cbn [matchesGroup]. destruct l; cbn [asks].
  - rewrite combine_and. setoid_rewrite in_app_iff. setoid_rewrite in_map_iff. setoid_rewrite In_given. naive_solver.
  - rewrite combine_or, in_app_iff, !in_map_iff. setoid_rewrite In_given. split.
    + intros [H|[H|H]]; [|naive_solver..]. apply app_eq_nil in H as [H1 H2]. right. right.
      apply map_eq_nil in H1, H2. subst gs. split; [|by intros g []]. intros c Hc.
      destruct (String.eqb_spec (value c) "") as [|Hv]; [done|].
      assert (In c (given cs)) as Hin by (by apply In_given). by rewrite H1 in Hin.
    + intros [(c & Hc & Hv & Hm)|[(g & Hg & Hm)|[H1 H2]]]; [right; left; eauto|right; right; eauto|left].
      destruct gs as [|g gs]; [|by destruct (H2 g); left]. cbn [map]. rewrite app_nil_r.
      destruct (given cs) as [|c cs'] eqn:E; [done|]. assert (In c (given cs)) as [Hc Hv]%In_given by (rewrite E; by left).
      by apply H1 in Hc.
Qed.

Lemma asks_ext l C C' G G' event :
  (forall c, C c <-> C' c) -> (forall g, G g <-> G' g) -> asks l C G event <-> asks l C' G' event.
Proof. intros HC HG. destruct l; cbn [asks]; setoid_rewrite HC; by setoid_rewrite HG. Qed.

Lemma matches_put event h h' p : forall g, group_at p g = Some h ->
  matchesGroup event (put p h' g) = with_verdict event p (matchesGroup event h') g.
Proof.
  induction p as [|i p IH]; intros g Hg; [done|]. cbn [group_at] in Hg. cbn [put with_verdict matchesGroup].
  destruct (g_groups g !! i) as [sub|] eqn:E; [|done]. cbn in Hg. by rewrite list_fmap_insert, (IH sub Hg).
Qed.

Lemma put_same h p : forall g, group_at p g = Some h -> put p h g = g.
Proof.
  induction p as [|i p IH]; intros g Hg; [by injection Hg|]. cbn [group_at] in Hg. cbn [put].
  destruct g as [x l cs gs]. cbn [g_id g_logic g_conditions g_groups] in *.
  destruct (gs !! i) as [sub|] eqn:E; [|done]. cbn in Hg. by rewrite (IH sub Hg), list_insert_id.
Qed.

Lemma group_at_In h p : forall g, group_at p g = Some h -> In h (all_groups g).
Proof.
  induction p as [|i p IH]; intros g Hg; [injection Hg as ->; destruct h; by left|]. cbn [group_at] in Hg.
  destruct (g_groups g !! i) as [sub|] eqn:E; [|done]. cbn in Hg. destruct g as [x l cs gs]. right. cbn [g_groups] in *.
  apply in_flat_map. exists sub. split; [|by apply IH]. by apply list_elem_of_In, list_elem_of_lookup_2 with i.
Qed.

Lemma run_map_same {A} (e : env) (f : A -> prog page_state A) l w :
  (forall x, In x l -> run e (f x) w = (Done x, w)) -> run e (map_prog f l) w = (Done l, w).
Proof.
  induction l as [|x l IH]; intros H; cbn [map_prog]; run_steps; [done|].
  rewrite (H x) by (by left). run_steps. rewrite IH by (intros y Hy; apply H; by right). by run_steps.
Qed.

Lemma run_map_one {A} (e : env) (f : A -> prog page_state A) l i x y w w' :
  l !! i = Some x -> run e (f x) w = (Done y, w') ->
  (forall j z v, j <> i -> l !! j = Some z -> run e (f z) v = (Done z, v)) ->
  run e (map_prog f l) w = (Done (<[i := y]> l), w').
Proof.
  revert i. induction l as [|z l IH]; intros i Hi Hx Hr; [done|]. cbn [map_prog]. run_steps. destruct i as [|i].
  - injection Hi as ->. rewrite Hx. run_steps. rewrite run_map_same; [by run_steps|].
    intros z Hz. apply list_elem_of_In, list_elem_of_lookup in Hz as [j Hj]. by apply (Hr (S j)).
  - rewrite (Hr O z) by done. run_steps.
    rewrite (IH i Hi Hx) by (intros j v u Hj Hv; apply (Hr (S j)); [lia|done]). by run_steps.
Qed.

(** An edit of a group that is not in the query changes nothing. *)
Lemma updater_absent (e : env) x f g :
  (forall h, In h (all_groups g) -> g_id h <> x) -> forall w, run e (updater x f g) w = (Done g, w).
Proof.
  induction g as [i l cs gs IH] using ConditionGroup_ind. intros H w. cbn [updater].
  rewrite eqb_str_false by (apply (H (Group i l cs gs)); by left). run_steps. rewrite run_map_same; [by run_steps|].
  intros h Hh. rewrite List.Forall_forall in IH. apply (IH h Hh). intros k Hk. apply H. right. apply in_flat_map. eauto.
Qed.

Lemma NoDup_flat {A B} (f : A -> list B) l i j x y z :
  NoDup (flat_map f l) -> l !! i = Some x -> l !! j = Some y -> In z (f x) -> In z (f y) -> i = j.
Proof.
  revert i j. induction l as [|a l IH]; intros i j Hd Hi Hj Hx Hy; [done|]. cbn [flat_map] in Hd.
  apply NoDup_app in Hd as (_ & Hno & Hd).
  assert (forall k v, l !! k = Some v -> In z (f v) -> In z (f a) -> False) as Hout.
  { intros k v Hk Hv Ha. apply (Hno z); [by apply list_elem_of_In|]. apply list_elem_of_In, in_flat_map. exists v.
    split; [|done]. apply list_elem_of_In, list_elem_of_lookup_2 with k. exact Hk. }
  destruct i as [|i], j as [|j]; [done| | |f_equal; by eapply IH]; exfalso.
  - injection Hi as ->. by eapply Hout.
  - injection Hj as ->. by eapply Hout.
Qed.

Definition ids (g : ConditionGroup) : list string := map g_id (all_groups g).

Lemma ids_below g : ids g = g_id g :: flat_map ids (g_groups g).
Proof.
  destruct g as [x l cs gs]. unfold ids. cbn [all_groups map g_id g_groups]. f_equal.
  induction gs as [|h gs IH]; [done|]. cbn [flat_map]. by rewrite map_app, IH.
Qed.

Lemma id_in_ids h g : In h (all_groups g) -> In (g_id h) (ids g).
Proof. apply in_map. Qed.

(** An edit changes the group it names, wherever that is, and nothing else. *)
Lemma updater_at (e : env) f h h' p w w' :
  run e (f h) w = (Done h', w') -> forall g, NoDup (ids g) -> group_at p g = Some h ->
  run e (updater (g_id h) f g) w = (Done (put p h' g), w').
Proof.
  intros Hf. induction p as [|i p IH]; intros g Hd Hg.
  - injection Hg as ->. destruct h as [x l cs gs]. cbn [updater put g_id] in *. by rewrite String.eqb_refl.
  - destruct g as [x l cs gs]. cbn [group_at g_groups] in Hg. destruct (gs !! i) as [sub|] eqn:E; [|done]. cbn in Hg.
    rewrite ids_below in Hd. cbn [g_id g_groups] in Hd. apply NoDup_cons in Hd as [Hx Hd].
    pose proof (id_in_ids _ _ (group_at_In _ _ _ Hg)) as Hid.
    assert (In sub gs) as Hsub by (by apply list_elem_of_In, list_elem_of_lookup_2 with i).
    cbn [updater put g_id g_logic g_conditions g_groups]. rewrite E. rewrite eqb_str_false.
    2: { intros ->. apply Hx, list_elem_of_In, in_flat_map. eauto. }
    run_steps. rewrite (run_map_one e _ gs i sub (put p h' sub) w w' E); [by run_steps| |].
    + apply IH; [|done]. clear -Hd Hsub. induction gs as [|g gs IH]; [done|]. cbn [flat_map] in Hd. apply NoDup_app in Hd as (H1 & _ & H2).
      destruct Hsub as [->|H]; [done|by apply IH].
    + intros j z v Hj Hz. apply updater_absent. intros k Hk Heq. apply Hj. apply id_in_ids in Hk. rewrite Heq in Hk.
      by eapply (NoDup_flat ids).
Qed.

Definition after (e : env) (p : prog page_state unit) (w : world page_state) : ConditionGroup := rootGroup (w_st (run e p w).2).

(** What the input of a condition changes in it. *)
Definition is_patched (p : patch) (d c : Condition) : Prop :=
  c_id c = c_id d
  /\ field c = (match p with to_field f => f | _ => field d end)
  /\ operator c = (match p with to_operator o => o | _ => operator d end)
  /\ value c = (match p with to_value v => v | _ => value d end)
  /\ value2 c = (match p with to_value2 v => v | _ => value2 d end).

Lemma patched_iff p d c : is_patched p d c <-> c = patched p d.
Proof. destruct p, c, d; unfold is_patched; cbn; naive_solver. Qed.

(** [q] gives the group at [p] the conditions, groups and logic named and keeps its identifier
    and all else; the verdict on an event is that of what the group now asks. *)
Definition edits (e : env) (q : prog page_state unit) (w : world page_state) (p : list nat) (x : string) (l : logic)
    (conds : Condition -> Prop) (subs : ConditionGroup -> Prop) : Prop :=
  (exists cs gs, after e q w = put p (Group x l cs gs) (rootGroup (w_st w))
     /\ (forall c, In c cs <-> conds c) /\ (forall g, In g gs <-> subs g))
  /\ forall event, exists b, matchesGroup event (after e q w) = with_verdict event p b (rootGroup (w_st w))
     /\ (b = true <-> asks l conds subs event).

Lemma after_at (e : env) f p h h' w w' :
  NoDup (ids (rootGroup (w_st w))) -> group_at p (rootGroup (w_st w)) = Some h -> run e (f h) w = (Done h', w') ->
  after e (setRootGroup (g_id h) f) w = put p h' (rootGroup (w_st w)).
Proof.
  intros Hd Hp Hf. unfold after, setRootGroup, setRootTo. run_steps. rewrite (updater_at e f h h' p w w' Hf _ Hd Hp).
  run_steps. by destruct w'.
Qed.

Lemma edits_at (e : env) f p h h' w w' (conds : Condition -> Prop) (subs : ConditionGroup -> Prop) :
  NoDup (ids (rootGroup (w_st w))) -> group_at p (rootGroup (w_st w)) = Some h ->
  run e (f h) w = (Done h', w') -> g_id h' = g_id h ->
  (forall c, In c (g_conditions h') <-> conds c) -> (forall g, In g (g_groups h') <-> subs g) ->
  edits e (setRootGroup (g_id h) f) w p (g_id h) (g_logic h') conds subs.
Proof.
  intros Hd Hp Hf Hi Hc Hg.
  pose proof (after_at e f p h h' w w' Hd Hp Hf) as Ha.
  destruct h' as [x l cs gs]. cbn [g_id g_logic g_conditions g_groups] in *. subst x. split.
  - exists cs, gs. by rewrite Ha.
  - intros event. rewrite Ha, (matches_put event h) by done. eexists. split; [reflexivity|].
    rewrite matchesGroup_asks. by apply asks_ext.
Qed.

Lemma setRootGroup_absent (e : env) f x w :
  (forall g, In g (all_groups (rootGroup (w_st w))) -> g_id g <> x) ->
  after e (setRootGroup x f) w = rootGroup (w_st w).
Proof. intros H. unfold after, setRootGroup, setRootTo. run_steps. rewrite updater_absent by done. run_steps. by destruct w. Qed.

(** The identifier drawn while the page renders. *)
Definition new_id (e : env) (w : world page_state) : string :=
  string_of_Z (clock e (w_trace w)) +:+ "-" +:+ random_suffix (entropy e (w_trace (log ObsNow w)) 12).

Lemma with_verdict_same event h p g : group_at p g = Some h -> with_verdict event p (matchesGroup event h) g = matchesGroup event g.
Proof. intros H. rewrite <- (matches_put event h h p g H). by rewrite put_same. Qed.

Lemma with_condition_same g c event : value c = "" -> matchesGroup event (with_condition c g) = matchesGroup event g.
Proof.
  destruct g as [i l cs gs]. intros Hv. unfold with_condition. cbn [g_id g_logic g_conditions g_groups matchesGroup].
  unfold given. rewrite List.filter_app. cbn. rewrite Hv. cbn. by rewrite app_nil_r.
Qed.

Lemma In_one {A} (x y : A) l : In x (l ++ [y]) <-> In x l \/ x = y.
Proof. rewrite in_app_iff. cbn. naive_solver. Qed.

Lemma In_filter_not {A} (f : A -> string) y (x : A) l :
  In x (List.filter (fun z => negb (String.eqb (f z) y)) l) <-> In x l /\ f x <> y.
Proof. rewrite filter_In. destruct (String.eqb_spec (f x) y); naive_solver. Qed.

(** C24. The edits of the query, each on the group at any depth that it names, where the
    identifiers of the groups are distinct: exactly what the group holds after, that nothing
    else changes, and so which events the query lets through.
    A condition added is blank and changes the events of no query; a group added is empty and asks
    nothing; a condition or a group taken out, and only that, is asked no more, in a group of
    which all must match and in one of which any may; an input changes its one member of the
    condition it belongs to; the logic is turned to the other one.  A group that is not in the
    query is never edited. *)
Theorem query_edits (e : env) w :
  let root := rootGroup (w_st w) in
  (forall x y pt q, (forall g, In g (all_groups root) -> g_id g <> x) ->
     In q [addCondition x; addGroup x; removeCondition x y; removeGroup x y; updateCondition x y pt; toggleGroupLogic x] ->
     after e q w = root)
  /\ (NoDup (map g_id (all_groups root)) -> forall p h y pt, group_at p root = Some h ->
      let x := g_id h in
      let l := g_logic h in
      let conds c := In c (g_conditions h) in
      let subs g := In g (g_groups h) in
      (exists i, edits e (addCondition x) w p x l (fun c => conds c \/ c = Cond i f_user o_equals "" "") subs)
      /\ (forall event, matchesGroup event (after e (addCondition x) w) = matchesGroup event root)
      /\ (exists i, edits e (addGroup x) w p x l conds (fun g => subs g \/ g = Group i AND [] []))
      /\ edits e (removeCondition x y) w p x l (fun c => conds c /\ c_id c <> y) subs
      /\ edits e (removeGroup x y) w p x l conds (fun g => subs g /\ g_id g <> y)
      /\ edits e (updateCondition x y pt) w p x l
           (fun c => exists d, conds d /\ (c_id d = y /\ is_patched pt d c \/ c_id d <> y /\ c = d)) subs
      /\ edits e (toggleGroupLogic x) w p x (match l with AND => OR | OR => AND end) conds subs).
Proof.
  intros root. split.
  - intros x y pt q Hx Hq. cbn [In] in Hq. destruct_or! Hq; try done; subst q; by apply setRootGroup_absent.
  - intros Hd p h y pt Hp x l conds subs.
    pose (Cond (new_id e w) f_user o_equals "" "") as blank. pose (log (ObsRand 12) (log ObsNow w)) as drawn. split_and!.
    + exists (new_id e w). apply (edits_at e _ p h (with_condition blank h) w drawn); try done. intros c. apply In_one.
    + intros event. unfold addCondition. rewrite (after_at e _ p h (with_condition blank h) w drawn); [|done..].
      rewrite (matches_put event h), with_condition_same by done. by apply with_verdict_same.
    + exists (new_id e w). apply (edits_at e _ p h (with_group (Group (new_id e w) AND [] []) h) w drawn); try done.
      intros g. apply In_one.
    + apply (edits_at e _ p h (without_condition y h) w w); try done. intros c. apply In_filter_not.
    + apply (edits_at e _ p h (without_group y h) w w); try done. intros g. apply In_filter_not.
    + apply (edits_at e _ p h (with_patch y pt h) w w); try done. intros c. cbn [with_patch g_conditions].
      rewrite in_map_iff. setoid_rewrite patched_iff. unfold conds. split.
      * intros (d & <- & Hin). exists d. split; [done|]. destruct (String.eqb_spec (c_id d) y); naive_solver.
      * intros (d & Hin & Hc). exists d. split; [|done]. destruct (String.eqb_spec (c_id d) y); naive_solver.
    + by apply (edits_at e _ p h (toggled h) w w).
Qed.

(** The cross of a group removes it only directly below the root. *)
Lemma cross_nested (e : env) root x w :
  g_id (rootGroup (w_st w)) = g_id root -> (forall h, In h (g_groups (rootGroup (w_st w))) -> g_id h <> x) ->
  after e (cross root x) w = rootGroup (w_st w).
Proof.
  intros Hr Hx. unfold after, cross, removeGroup, setRootGroup, setRootTo. run_steps.
  destruct (rootGroup (w_st w)) as [i l cs gs] eqn:E. cbn in Hr. subst i. cbn [updater]. rewrite String.eqb_refl. run_steps.
  destruct w. cbn. unfold without_group. cbn. f_equal. induction gs as [|h gs IH]; [done|]. cbn.
  rewrite eqb_str_false by (by apply Hx; left). cbn. f_equal.
  assert (forall h, In h gs -> g_id h <> x) as Hgs by (intros g Hg; apply Hx; by right).
  clear -Hgs. induction gs as [|g gs IH]; [done|]. cbn. rewrite eqb_str_false by (by apply Hgs; left). cbn. f_equal.
  apply IH. intros h Hh. apply Hgs. by right.
Qed.

(** ** Saving *)

(** The three handlers that copy a query raise, once there is something to copy. *)
Lemma copies_raise (e : env) s q w :
  (trim (newSearchName s) <> "" -> exists err, run e (saveSearch s) w = (Raised err, w))
  /\ (exists err, run e (loadSearch q) w = (Raised err, w))
  /\ (trim (n_name (newReport s)) <> "" -> trim (n_recipients (newReport s)) <> "" ->
      exists err, run e (addScheduledReport s) w = (Raised err, w)).
Proof.
  split_and!.
  - intros H. unfold saveSearch. rewrite eqb_str_false by done. unfold genId. run_steps. by eexists.
  - unfold loadSearch. destruct (s_group q) as [i l cs gs]. cbn [cloneGroup]. unfold genId. run_steps. by eexists.
  - intros H1 H2. unfold addScheduledReport. rewrite !eqb_str_false by done. cbn [orb]. unfold genId. run_steps. by eexists.
Qed.

Definition kept (l : list SavedSearch) (ids : list string) (s : page_state) : Prop :=
  savedSearches s `sublist_of` l /\ map r_id (scheduledReports s) `sublist_of` ids.

Lemma filter_sub {A} (P : A -> bool) (l : list A) : List.filter P l `sublist_of` l.
Proof. induction l as [|x l IH]; [done|]. cbn. destruct (P x); by constructor. Qed.

Lemma map_sub {A B} (f : A -> B) (l k : list A) : l `sublist_of` k -> map f l `sublist_of` map f k.
Proof. induction 1; cbn; by constructor. Qed.

Lemma tame_map_prog {A B} (P : page_state -> Prop) O (f : A -> prog page_state B) l :
  (forall x, In x l -> tame P O (f x)) -> tame P O (map_prog f l).
Proof.
  induction l as [|x l IH]; intros H; [done|]. cbn [map_prog]. apply tame_bind; [by apply H; left|intros y].
  apply tame_bind; [|done]. apply IH. intros z Hz. apply H. by right.
Qed.

Lemma tame_updater (P : page_state -> Prop) O x f g : (forall h, tame P O (f h)) -> tame P O (updater x f g).
Proof.
  intros H. induction g as [i l cs gs IH] using ConditionGroup_ind. cbn [updater]. destruct (String.eqb i x); [done|].
  apply tame_bind; [|done]. apply tame_map_prog. rewrite List.Forall_forall in IH. exact IH.
Qed.

Lemma tame_edit l ids O x f :
  (forall h, tame (kept l ids) O (f h)) -> tame (kept l ids) O (setRootGroup x f).
Proof.
  intros H. unfold setRootGroup. apply tame_bind; [by split|intros s]. apply tame_bind; [by apply tame_updater|intros g].
  by apply tame_upd.
Qed.

Lemma toggle_ids x l :
  map r_id (map (fun r => if String.eqb (r_id r) x
    then Report (r_id r) (r_name r) (r_frequency r) (recipients r) (r_time r) (negb (enabled r)) (r_group r) else r) l) = map r_id l.
Proof. induction l as [|r l IH]; [done|]. cbn. rewrite IH. by destruct (String.eqb (r_id r) x). Qed.

Lemma tame_calls API_BASE TENANT_ID l ids p :
  page_call API_BASE TENANT_ID p -> tame (kept l ids) (fun _ => True) p.
Proof.
  assert (forall r, tame (kept l ids) (fun _ => True) (genId r)) as Hid by (by intros []; repeat split).
  assert (forall r, tame (kept l ids) (fun _ => True) (emptyCondition r)) as Hc by (intros r; by apply tame_bind).
  assert (forall r lg, tame (kept l ids) (fun _ => True) (emptyGroup r lg)) as Hg by (intros r lg; by apply tame_bind).
  intros []; try (apply tame_edit; intros h; first [exact I | by apply tame_bind]); try (by apply tame_upd).
  - unfold loadData. tame_prog; try (by apply tame_upd); try (by repeat split); [by apply tame_apiFetch|].
    unfold fetched_events. tame_prog; done.
  - by repeat split.
  - unfold saveSearch. destruct (String.eqb _ _); [done|]. unfold genId. done.
  - unfold loadSearch. destruct (s_group q) as [i lg cs gs]. done.
  - apply tame_upd. intros s [H1 H2]. split; [|done]. cbn. etrans; [apply filter_sub|done].
  - unfold addScheduledReport. cbv zeta. destruct (_ || _); [done|]. done.
  - apply tame_upd. intros s [H1 H2]. split; [done|]. cbn. by rewrite toggle_ids.
  - apply tame_upd. intros s [H1 H2]. split; [done|]. cbn. etrans; [apply map_sub, filter_sub|exact H2].
  - unfold rerender, store_searches, store_reports. tame_prog; try (by apply tame_setItem); by repeat split.
Qed.

(** Nothing is ever saved: whatever the user does on the page, in whatever order and
    overlap, its lists hold what was read from the storage when the page was opened, less what
    was deleted; no search and no report is added. *)
Lemma nothing_is_saved API_BASE TENANT_ID (e : env) answers s0 l c :
  reachable e (fun _ => page_call API_BASE TENANT_ID) answers (page s0 l) c ->
  savedSearches (w_st c.1) `sublist_of` savedSearches s0
  /\ map r_id (scheduledReports (w_st c.1)) `sublist_of` map r_id (scheduledReports s0).
Proof.
  intros Hr.
  assert (tame_inv (kept (savedSearches s0) (map r_id (scheduledReports s0))) (fun _ => True) c.1) as [H _]; [|exact H].
  apply (safe_reachable e (fun _ => page_call API_BASE TENANT_ID) answers
    (tame_inv (kept (savedSearches s0) (map r_id (scheduledReports s0))) (fun _ => True)) (page s0 l) c); [|..|done].
  - by split; [|constructor].
  - intros w p Hw Hp. apply tame_safe; [by eapply tame_calls|done].
Qed.

(** ** What is stored is read back *)

Lemma field_of_name f : field_of (field_name f) = f.
Proof. by destruct f. Qed.
Lemma operator_of_name o : operator_of (operator_name o) = o.
Proof. by destruct o. Qed.

Lemma condition_read c : condition_of (js_of_condition c) = c.
Proof.
  destruct c as [i f o v v2]. unfold condition_of, js_of_condition. cbn [c_id field operator value value2].
  destruct (String.eqb_spec v2 "") as [->|Hv]; cbn -[field_of operator_of]; by rewrite field_of_name, operator_of_name.
Qed.

Lemma map_read {A} (f : A -> js) (g : js -> A) l : (forall x, In x l -> g (f x) = x) -> map g (map f l) = l.
Proof. intros H. rewrite map_map. rewrite <- map_id. by apply map_ext_in. Qed.

Lemma jsize_groups gs h : In h gs -> (jsize (js_of_group h) < jsize (JArr (map js_of_group gs)))%nat.
Proof.
  intros H. cbn [jsize]. induction gs as [|g gs IH]; [done|]. unfold list_sum in *. cbn [map foldr].
  destruct H as [->|H]; [lia|]. specialize (IH H). lia.
Qed.

Lemma group_read g : forall n, (jsize (js_of_group g) <= n)%nat -> group_of n (js_of_group g) = g.
Proof.
  induction g as [i l cs gs IH] using ConditionGroup_ind. intros [|n] Hn; [cbn in Hn; lia|].
  cbn [group_of js_of_group]. unfold text, opt_prop. cbn [prop assoc default String.eqb Ascii.eqb Bool.eqb elements_of].
  f_equal.
  - by destruct l.
  - apply map_read. intros c _. apply condition_read.
  - apply map_read. intros h Hh. rewrite List.Forall_forall in IH. apply (IH h Hh).
    pose proof (jsize_groups gs h Hh). cbn [jsize js_of_group map list_sum foldr snd] in Hn, H |- *. lia.
Qed.

Lemma search_read s : search_of (js_of_search s) = s.
Proof. destruct s as [i n g t]. unfold search_of, js_of_search. cbn -[group_of jsize js_of_group]. by rewrite group_read. Qed.

Lemma report_read r : report_of (js_of_report r) = r.
Proof.
  destruct r as [i n f rc t en g]. unfold report_of, js_of_report. cbn -[group_of jsize js_of_group]. rewrite group_read by done.
  by destruct f.
Qed.

Lemma wf_list {A} (f : A -> js) l : (forall x, In x l -> json_wf (f x) = true) -> json_wf (JArr (map f l)) = true.
Proof. intros H. cbn [json_wf]. apply forallb_forall. intros v Hv. apply in_map_iff in Hv as (x & <- & Hx). by apply H. Qed.

Lemma condition_wf c : json_wf (js_of_condition c) = true.
Proof. unfold js_of_condition. by destruct (String.eqb (value2 c) ""). Qed.

Lemma group_wf g : json_wf (js_of_group g) = true.
Proof.
  induction g as [i l cs gs IH] using ConditionGroup_ind. rewrite List.Forall_forall in IH.
  pose proof (wf_list js_of_condition cs (fun c _ => condition_wf c)) as Hc.
  pose proof (wf_list js_of_group gs IH) as Hg. cbn [js_of_group].
  remember (JArr (map js_of_condition cs)) as vc. remember (JArr (map js_of_group gs)) as vg.
  cbn. by rewrite Hc, Hg.
Qed.

Lemma searches_wf l : json_wf (JArr (map js_of_search l)) = true.
Proof.
  apply wf_list. intros s _. unfold js_of_search. pose proof (group_wf (s_group s)) as H. revert H.
  generalize (js_of_group (s_group s)) as v. intros v H. cbn. by rewrite H.
Qed.

Lemma reports_wf l : json_wf (JArr (map js_of_report l)) = true.
Proof.
  apply wf_list. intros r _. unfold js_of_report. pose proof (group_wf (r_group r)) as H. revert H.
  generalize (js_of_group (r_group r)) as v. intros v H. cbn. by rewrite H.
Qed.

Lemma run_restore (e : env) k set l w :
  json_wf (JArr l) = true -> w_local w !! k = Some (stringify (JArr l)) -> run e (restore k set) w = run e (set l) w.
Proof.
  intros Hwf Hk. unfold restore. run_steps. cbn [w_area]. rewrite Hk.
  pose proof (JSON_parse_stringify (JArr l) Hwf) as Hp. destruct (stringify (JArr l)) as [|c s] eqn:E.
  - cbn in E. destruct l; discriminate.
  - by rewrite Hp.
Qed.

(** The searches and reports in the storage, groups within groups included, are those of
    the page after it is opened and rendered again, and they are in the storage again; between
    the two renders the storage holds empty lists. *)
Lemma stored_lists_return (e : env) searches reports root l :
  l !! searches_key = Some (stringify (JArr (map js_of_search searches))) ->
  l !! reports_key = Some (stringify (JArr (map js_of_report reports))) ->
  exists w1 w2, run e mount (page (page_init root) l) = (Done tt, w1) /\ run e rerender w1 = (Done tt, w2)
  /\ savedSearches (w_st w2) = searches /\ scheduledReports (w_st w2) = reports
  /\ w_local w2 !! searches_key = l !! searches_key /\ w_local w2 !! reports_key = l !! reports_key
  /\ w_local w1 !! searches_key = Some "[]" /\ w_local w1 !! reports_key = Some "[]".
Proof.
  intros H1 H2. unfold mount. run_steps. erewrite run_restore; [|apply (searches_wf searches)|exact H1].
  unfold setSavedSearches at 1. run_steps.
  erewrite run_restore; [|apply (reports_wf reports)|exact H2]. unfold setScheduledReports at 1. run_steps.
  unfold store_searches at 1, store_reports at 1. run_steps.
  eexists _, _. split; [reflexivity|]. unfold rerender, store_searches, store_reports. run_steps. split; [reflexivity|].
  rewrite (map_read js_of_search search_of searches (fun s _ => search_read s)).
  rewrite (map_read js_of_report report_of reports (fun r _ => report_read r)).
  cbn [w_st w_local set_area set_st page savedSearches scheduledReports page_init]. rewrite H1, H2.
  assert (reports_key <> searches_key) as Hk by discriminate.
  split_and!; try done; (rewrite lookup_insert_ne by done) || idtac; apply lookup_insert_eq.
Qed.

(** ** Witnesses *)

Definition demo_query : ConditionGroup :=
  Group "r" AND [Cond "c1" f_action o_starts_with "user." ""; Cond "c2" f_result o_equals "failure" ""]
    [Group "g" OR [Cond "c3" f_ip o_equals "10.0.0.9" ""] []].
Definition demo_event : AuditEvent := Event "e" "u1" "Ann" "user.login" "failure" "2024-05-02T11:00:00Z" "10.0.0.9" "" "" "".
Definition demo_page : page_state := page_init demo_query.

(** A group added to a group of which any may match lets every event through at once. *)
Example empty_group_lets_all :
  let other := Event "e" "u1" "Ann" "user.login" "failure" "2024-05-02T11:00:00Z" "10.0.0.1" "" "" "" in
  let w := page demo_page ∅ in
  matchesGroup other demo_query = false
  /\ matchesGroup other (after (const_env None 0) (addGroup "g") w) = true
  /\ matchesGroup other (after (const_env None 0) (addCondition "g") w) = false.
Proof. vm_compute. done. Qed.

(** In the group below the root: its condition is taken out, and it lets everything through. *)
Lemma query_edits_witness :
  NoDup (map g_id (all_groups demo_query)) /\ group_at [O] demo_query = Some (Group "g" OR [Cond "c3" f_ip o_equals "10.0.0.9" ""] [])
  /\ edits (const_env None 0) (removeCondition "g" "c3") (page demo_page ∅) [O] "g" OR
       (fun c => In c [Cond "c3" f_ip o_equals "10.0.0.9" ""] /\ c_id c <> "c3") (fun g => In g [])
  /\ after (const_env None 0) (toggleGroupLogic "x") (page demo_page ∅) = demo_query.
Proof.
  assert (NoDup (map g_id (all_groups demo_query))) as Hd by (vm_compute; repeat constructor; set_solver).
  split; [exact Hd|]. split; [reflexivity|].
  destruct (query_edits (const_env None 0) (page demo_page ∅)) as [Hno Hat]. split.
  - destruct (Hat Hd [O] _ "c3" (to_value "") eq_refl) as (_ & _ & _ & H & _). exact H.
  - apply (Hno "x" "" (to_value "")); [|by do 5 right; left].
    intros g [<-|[<-|[]]]; discriminate.
Defined.

Definition demo_search : SavedSearch := Search "1" "Failures" demo_query "2024-05-02T11:00:00.000Z".

Lemma stored_lists_return_witness :
  exists w2, savedSearches (w_st w2) = [demo_search]
  /\ w_local w2 !! searches_key = Some (stringify (JArr [js_of_search demo_search])).
Proof.
  destruct (stored_lists_return (const_env None 0) [demo_search] [] demo_query
    {[searches_key := stringify (JArr [js_of_search demo_search]); reports_key := "[]"]}) as (w1 & w2 & _ & _ & H & _ & Hl & _);
    [vm_compute; reflexivity|vm_compute; reflexivity|].
  exists w2. split; [exact H|]. rewrite Hl. vm_compute. reflexivity.
Defined.

(** A page with one search, on which the user types a name and tries to save another. *)
Definition one_search : page_state := AuditPage demo_query [] false None ∅ [demo_search] true "" [] false draft_init 0 0 0.
Definition name_typed : page_state := AuditPage demo_query [] false None ∅ [demo_search] true "Mine" [] false draft_init 0 0 0.

Lemma nothing_is_saved_witness :
  exists c, reachable (const_env None 0) (fun _ => page_call "https://api" "t") (fun _ _ _ => True) (page one_search ∅) c
  /\ length c.2 = 2%nat /\ savedSearches (w_st c.1) `sublist_of` [demo_search].
Proof.
  assert (exists c, reachable (const_env None 0) (fun _ => page_call "https://api" "t") (fun _ _ _ => True) (page one_search ∅) c
          /\ length c.2 = 2%nat) as (c & Hc & Hl).
  { eexists. split; [eapply reach_step; [eapply reach_step; [apply reach_init|]|]|].
    - eapply step_spawn; [apply (call_type_name _ _ "Mine")|reflexivity].
    - eapply step_spawn; [apply (call_save _ _ name_typed)|reflexivity].
    - reflexivity. }
  exists c. split; [exact Hc|]. split; [exact Hl|].
  exact (proj1 (nothing_is_saved "https://api" "t" (const_env None 0) (fun _ _ _ => True) one_search ∅ c Hc)).
Defined.
