(* ===== verification/AuditLog.v ===== *)
(** * The audit log (console/src/app/audit/page.tsx)

    The page lists the events of the tenant by filters it keeps in the address, marks rows and
    raises alerts.  What is loaded for the dashboard is kept as it comes; its charts are in
    AuditCharts.  Events are those of AuditQuery, whose page declares the same type. *)

From S2P Require Import Prelude JsSort JsValue JsString JsDate JsUrl Json Effects ApiClient AuditQuery.
#[local] Open Scope Z_scope.

(** ** Objects used as maps *)

Section Group.
Context {A B : Type} (sel : A -> bool) (key : A -> string) (f : list B -> A -> list B).

(** [if (!m[k]) m[k] = []] and then a change of [m[k]]. *)
Fixpoint upd_key (k : string) (g : list B -> list B) (m : list (string * list B)) : list (string * list B) :=
  match m with
  | [] => [(k, g [])]
  | (k', v) :: m' => if String.eqb k' k then (k', g v) :: m' else (k', v) :: upd_key k g m'
  end.

Definition group (l : list A) : list (string * list B) :=
  fold_left (fun m e => if sel e then upd_key (key e) (fun old => f old e) m else m) l [].
End Group.

(** The names every object has from [Object.prototype]. *)
Definition inherited_names : list string :=
  ["constructor"; "__defineGetter__"; "__defineSetter__"; "hasOwnProperty"; "__lookupGetter__"; "__lookupSetter__";
   "isPrototypeOf"; "propertyIsEnumerable"; "toString"; "valueOf"; "__proto__"; "toLocaleString"].

(** [Object.entries]: the keys that are array indices come first, in their order. *)
Definition array_index (k : string) : option Z :=
  match Z_of_string k with
  | Some z => if (0 <=? z) && (z <? 4294967295) && String.eqb (string_of_Z z) k then Some z else None
  | None => None
  end.
Definition index_le {B} (a b : string * B) : bool :=
  match array_index a.1, array_index b.1 with
  | Some x, Some y => x <=? y
  | Some _, None => true
  | None, Some _ => false
  | None, None => true
  end.
Definition entries {B} (m : list (string * B)) : list (string * B) := stable_sort index_le m.

(** ** Anomalies *)

Definition hour_of (e : AuditEvent) : option Z := option_map (fun t => t mod 86400000 / 3600000) (time_of (created_at e)).
Definition off_hours (e : AuditEvent) : bool :=
  match hour_of e with Some h => (2 <=? h) && (h <? 5) && negb (String.eqb (result e) "success") | None => false end.
Definition denied (e : AuditEvent) : bool := String.eqb (result e) "denied".
Definition number_text (n : nat) : string := string_of_Z (Z.of_nat n).

Definition isAnomalousEvent (events : list AuditEvent) (event : AuditEvent) : option string :=
  let failures := count (fun e => same_actor event e && failed_login e) events in
  let refusals := count (fun e => same_actor event e && denied e) events in
  if failed_login event && (3 <=? failures)%nat then Some ("Brute force: " +:+ number_text failures +:+ " failed logins")
  else if denied event && (3 <=? refusals)%nat then Some ("Repeated access denied: " +:+ number_text refusals +:+ " attempts")
  else if off_hours event then Some "Off-hours suspicious activity"
  else None.

Record AnomalyAlert := Alert { alert_severity : string; title : string; description : string }.

Definition actor_key (e : AuditEvent) : string := str_or (actor_id e) (str_or (actor_name e) "unknown").
Definition has_ip (e : AuditEvent) : bool := negb (String.eqb (ip_address e) "").
Definition shown_actor (name actor : string) : string := str_or name (String.substring 0 8 actor).
Definition first_of (g : AuditEvent -> string) (l : list AuditEvent) : string := match l with e :: _ => g e | [] => "" end.

Definition brute_force (actor : string) (fails : list AuditEvent) : AnomalyAlert :=
  Alert "critical" ("Brute Force Suspected: " +:+ shown_actor (first_of actor_name fails) actor)
    (number_text (length fails) +:+ " failed login attempts detected. IP: " +:+ str_or (first_of ip_address fails) "unknown" +:+ ".").
Definition login_failures (actor : string) (fails : list AuditEvent) : AnomalyAlert :=
  Alert "warning" ("Login Failures: " +:+ shown_actor (first_of actor_name fails) actor)
    (number_text (length fails) +:+ " failed login attempts in current view.").
Definition many_ips (events : list AuditEvent) (actor : string) (ips : list string) : AnomalyAlert :=
  Alert "warning" ("Multiple IP Addresses: "
      +:+ shown_actor (match List.find (fun e => String.eqb (actor_id e) actor) events with Some e => actor_name e | None => "" end) actor)
    ("Activity from " +:+ number_text (length ips) +:+ " unique IP addresses: " +:+ String.concat ", " ips +:+ ".").
Definition denied_spike (n : nat) : AnomalyAlert :=
  Alert "warning" "Access Denied Spike"
    (number_text n +:+ " access denied events in current view. Possible permission misconfiguration or unauthorized access attempt.").
Definition off_hours_alert (n : nat) : AnomalyAlert :=
  Alert "info" "Off-Hours Suspicious Activity"
    (number_text n +:+ " failed/denied events between 2-5 AM UTC. Potential unauthorized access attempt.").

Definition failedLoginsByActor (events : list AuditEvent) : list (string * list AuditEvent) :=
  group failed_login actor_key (fun old e => old ++ [e]) events.
Definition add_ip (ips : list string) (e : AuditEvent) : list string :=
  if str_mem (ip_address e) ips then ips else ips ++ [ip_address e].
Definition ipsByActor (events : list AuditEvent) : list (string * list string) := group has_ip actor_key add_ip events.

Definition login_alerts (af : string * list AuditEvent) : list AnomalyAlert :=
  if (5 <=? length af.2)%nat then [brute_force af.1 af.2]
  else if (3 <=? length af.2)%nat then [login_failures af.1 af.2] else [].

(** An actor with a name that objects inherit finds a function where a list was to be made,
    and the call of [push] or [add] raises: [None]. *)
Definition clashes (events : list AuditEvent) : bool :=
  existsb (fun e => (failed_login e || has_ip e) && str_mem (actor_key e) inherited_names) events.

Definition detectAnomalies (events : list AuditEvent) : option (list AnomalyAlert) :=
  if clashes events then None
  else Some (
    flat_map login_alerts (entries (failedLoginsByActor events))
    ++ flat_map (fun ai => if (3 <? length ai.2)%nat then [many_ips events ai.1 ai.2] else []) (entries (ipsByActor events))
    ++ (if (5 <=? count denied events)%nat then [denied_spike (count denied events)] else [])
    ++ (if (3 <=? count off_hours events)%nat then [off_hours_alert (count off_hours events)] else [])).

(** ** The page.  [search] is the query of the window's address. *)

Record page_state := LogPage {
  dashboard : bool;
  events : list AuditEvent;
  stats : js;
  loading : bool;
  error_ : option string;
  actionFilter : string;
  actorFilter : string;
  resultFilter : string;
  ipFilter : string;
  dateFrom : string;
  dateTo : string;
  pageNo : Z;
  totalPages : Z;
  expandedRow : option string;
  search : string }.

Definition setTab (v : bool) : prog page_state unit :=
  upd (fun s => LogPage v (events s) (stats s) (loading s) (error_ s) (actionFilter s) (actorFilter s) (resultFilter s) (ipFilter s) (dateFrom s) (dateTo s) (pageNo s) (totalPages s) (expandedRow s) (search s)).
Definition setEvents (v : list AuditEvent) : prog page_state unit :=
  upd (fun s => LogPage (dashboard s) v (stats s) (loading s) (error_ s) (actionFilter s) (actorFilter s) (resultFilter s) (ipFilter s) (dateFrom s) (dateTo s) (pageNo s) (totalPages s) (expandedRow s) (search s)).
Definition setStats (v : js) : prog page_state unit :=
  upd (fun s => LogPage (dashboard s) (events s) v (loading s) (error_ s) (actionFilter s) (actorFilter s) (resultFilter s) (ipFilter s) (dateFrom s) (dateTo s) (pageNo s) (totalPages s) (expandedRow s) (search s)).
Definition setLoading (v : bool) : prog page_state unit :=
  upd (fun s => LogPage (dashboard s) (events s) (stats s) v (error_ s) (actionFilter s) (actorFilter s) (resultFilter s) (ipFilter s) (dateFrom s) (dateTo s) (pageNo s) (totalPages s) (expandedRow s) (search s)).
Definition setError (v : option string) : prog page_state unit :=
  upd (fun s => LogPage (dashboard s) (events s) (stats s) (loading s) v (actionFilter s) (actorFilter s) (resultFilter s) (ipFilter s) (dateFrom s) (dateTo s) (pageNo s) (totalPages s) (expandedRow s) (search s)).
Definition setActionFilter (v : string) : prog page_state unit :=
  upd (fun s => LogPage (dashboard s) (events s) (stats s) (loading s) (error_ s) v (actorFilter s) (resultFilter s) (ipFilter s) (dateFrom s) (dateTo s) (pageNo s) (totalPages s) (expandedRow s) (search s)).
Definition setActorFilter (v : string) : prog page_state unit :=
  upd (fun s => LogPage (dashboard s) (events s) (stats s) (loading s) (error_ s) (actionFilter s) v (resultFilter s) (ipFilter s) (dateFrom s) (dateTo s) (pageNo s) (totalPages s) (expandedRow s) (search s)).
Definition setResultFilter (v : string) : prog page_state unit :=
  upd (fun s => LogPage (dashboard s) (events s) (stats s) (loading s) (error_ s) (actionFilter s) (actorFilter s) v (ipFilter s) (dateFrom s) (dateTo s) (pageNo s) (totalPages s) (expandedRow s) (search s)).
Definition setIpFilter (v : string) : prog page_state unit :=
  upd (fun s => LogPage (dashboard s) (events s) (stats s) (loading s) (error_ s) (actionFilter s) (actorFilter s) (resultFilter s) v (dateFrom s) (dateTo s) (pageNo s) (totalPages s) (expandedRow s) (search s)).
Definition setDateFrom (v : string) : prog page_state unit :=
  upd (fun s => LogPage (dashboard s) (events s) (stats s) (loading s) (error_ s) (actionFilter s) (actorFilter s) (resultFilter s) (ipFilter s) v (dateTo s) (pageNo s) (totalPages s) (expandedRow s) (search s)).
Definition setDateTo (v : string) : prog page_state unit :=
  upd (fun s => LogPage (dashboard s) (events s) (stats s) (loading s) (error_ s) (actionFilter s) (actorFilter s) (resultFilter s) (ipFilter s) (dateFrom s) v (pageNo s) (totalPages s) (expandedRow s) (search s)).
Definition setPage (f : Z -> Z) : prog page_state unit :=
  upd (fun s => LogPage (dashboard s) (events s) (stats s) (loading s) (error_ s) (actionFilter s) (actorFilter s) (resultFilter s) (ipFilter s) (dateFrom s) (dateTo s) (f (pageNo s)) (totalPages s) (expandedRow s) (search s)).
Definition setTotalPages (v : Z) : prog page_state unit :=
  upd (fun s => LogPage (dashboard s) (events s) (stats s) (loading s) (error_ s) (actionFilter s) (actorFilter s) (resultFilter s) (ipFilter s) (dateFrom s) (dateTo s) (pageNo s) v (expandedRow s) (search s)).
Definition setExpandedRow (v : option string) : prog page_state unit :=
  upd (fun s => LogPage (dashboard s) (events s) (stats s) (loading s) (error_ s) (actionFilter s) (actorFilter s) (resultFilter s) (ipFilter s) (dateFrom s) (dateTo s) (pageNo s) (totalPages s) v (search s)).
Definition replaceSearch (v : string) : prog page_state unit :=
  upd (fun s => LogPage (dashboard s) (events s) (stats s) (loading s) (error_ s) (actionFilter s) (actorFilter s) (resultFilter s) (ipFilter s) (dateFrom s) (dateTo s) (pageNo s) (totalPages s) (expandedRow s) v).

Definition page_init (search : string) : page_state :=
  LogPage true [] JNull true None "" "" "" "" "" "" 1 1 None search.

Definition given_param (name v : string) : list (string * string) := if String.eqb v "" then [] else [(name, v)].

(** The effects; [s] is the state of the render. *)
Definition url_params (s : page_state) : list (string * string) :=
  given_param "action" (actionFilter s) ++ given_param "actor" (actorFilter s) ++ given_param "result" (resultFilter s)
  ++ given_param "ip" (ipFilter s) ++ given_param "from" (dateFrom s) ++ given_param "to" (dateTo s).
Definition sync_url (s : page_state) : prog page_state unit :=
  let qs := URLSearchParams (url_params s) in
  replaceSearch (if String.eqb qs "" then "" else "?" +:+ qs).
Definition reset_page : prog page_state unit := setPage (fun _ => 1).
Definition read_param (ps : list (string * string)) (k : string) (set : string -> prog page_state unit) : prog page_state unit :=
  match param k ps with
  | Some v => if String.eqb v "" then mret tt else set v
  | None => mret tt
  end.
Definition read_url : prog page_state unit :=
  s ← get_state;
  let ps := default [] (params_of (search s)) in
  read_param ps "action" setActionFilter;;
  read_param ps "actor" setActorFilter;;
  read_param ps "result" setResultFilter;;
  read_param ps "ip" setIpFilter;;
  read_param ps "from" setDateFrom;;
  read_param ps "to" setDateTo.

Section Requests.
Context (API_BASE TENANT_ID : string).

Definition request_params (s : page_state) : list (string * string) :=
  given_param "action" (actionFilter s) ++ given_param "actor_id" (actorFilter s) ++ given_param "result" (resultFilter s)
  ++ given_param "ip_address" (ipFilter s)
  ++ (if String.eqb (dateFrom s) "" then [] else [("from", dateFrom s +:+ "T00:00:00Z")])
  ++ (if String.eqb (dateTo s) "" then [] else [("to", dateTo s +:+ "T23:59:59Z")])
  ++ [("page_size", "20"); ("page", string_of_Z (pageNo s))].

(** [Math.ceil(n / 20)], and 1 for none. *)
Definition pages_of (total : js) : Z := match total with JNum n => if 0 <? n then (n + 19) / 20 else 1 | _ => 1 end.

Definition loadData (s : page_state) : prog page_state unit :=
  setLoading true;;
  setError None;;
  finally (try_catch (
      if dashboard s then
        data ← try_catch (apiFetch true API_BASE TENANT_ID "/api/v1/audit/stats" None) (fun _ => mret JNull);
        setStats data
      else
        data ← apiFetch true API_BASE TENANT_ID ("/api/v1/audit/events?" +:+ URLSearchParams (request_params s)) None;
        total ← get data "total";
        total_count ← get data "total_count";
        setTotalPages (pages_of (js_or total total_count));;
        listed ← get data "events";
        match js_or listed (JArr []) with
        | JArr l =>
            if existsb is_nullish l then Throw (type_error "Cannot read properties of null (reading 'ip_address')")
            else
              let filtered := map event_of l in
              setEvents (if String.eqb (ipFilter s) "" then filtered
                         else List.filter (fun e => str_includes (ipFilter s) (ip_address e)) filtered)
        | _ => Throw (type_error "filtered.filter is not a function")
        end)
    (fun err => setError (Some (e_message err))))
  (setLoading false).

Definition handleExport (s : page_state) (format : string) : prog page_state unit :=
  emit "open" (JStr (API_BASE +:+ "/api/v1/audit/export?"
    +:+ URLSearchParams ([("tenant_id", TENANT_ID); ("format", format)] ++ given_param "action" (actionFilter s)))).

(** The effects of the first render, in their order; all see its state, whose filters are
    empty.  [loadData] is started last. *)
Definition mount (s : page_state) : prog page_state unit := sync_url s;; reset_page;; read_url;; loadData s.
End Requests.

Definition toggle_row (isExpanded : bool) (x : string) : prog page_state unit :=
  setExpandedRow (if isExpanded then None else Some x).
Definition previous_page : prog page_state unit := setPage (fun p => Z.max 1 (p - 1)).
(** [totalPages]: of the render. *)
Definition next_page (totalPages : Z) : prog page_state unit := setPage (fun p => Z.min totalPages (p + 1)).

(** ** Grouping *)

Section GroupFacts.
Context {A B : Type} (sel : A -> bool) (key : A -> string) (f : list B -> A -> list B).

Definition at_key (k : string) (m : list (string * list B)) : option (list B) :=
  snd <$> List.find (fun kv => String.eqb kv.1 k) m.
Definition picked (k : string) (l : list A) : list A := List.filter (fun e => sel e && String.eqb (key e) k) l.

Lemma at_upd k k' g m : at_key k' (upd_key k g m) = if String.eqb k k' then Some (g (default [] (at_key k m))) else at_key k' m.
Proof.
  unfold at_key. induction m as [|[k0 v] m IH]; cbn.
  - by destruct (String.eqb k k').
  - destruct (String.eqb_spec k0 k) as [->|Hne]; cbn.
    + by destruct (String.eqb_spec k k').
    + destruct (String.eqb_spec k0 k') as [->|Hne']; [by rewrite (eqb_str_false k k')|]. exact IH.
Qed.

Lemma upd_keys k g m : NoDup (map fst m) -> NoDup (map fst (upd_key (B := B) k g m)) /\ forall x, x ∈ map fst (upd_key k g m) -> x = k \/ x ∈ map fst m.
Proof.
  induction m as [|[k0 v] m IH]; cbn; intros Hd.
  - split; [repeat constructor; set_solver|set_solver].
  - apply NoDup_cons in Hd as [Hn Hd]. destruct (String.eqb_spec k0 k) as [->|Hne]; cbn.
    + split; [by constructor|set_solver].
    + destruct (IH Hd) as [Hd' Hin]. split; [|set_solver]. constructor; [|done]. intros Hx. apply Hin in Hx as [->|Hx]; done.
Qed.

Lemma group_snoc l e :
  group sel key f (l ++ [e])
  = if sel e then upd_key (key e) (fun old => f old e) (group sel key f l) else group sel key f l.
Proof. unfold group. by rewrite fold_left_app. Qed.

Lemma group_nodup l : NoDup (map fst (group sel key f l)).
Proof.
  induction l as [|e l IH] using rev_ind; [constructor|]. rewrite group_snoc. destruct (sel e); [by apply upd_keys|done].
Qed.

(** Under each key is what the elements with that key make, one after the other. *)
Lemma group_at k l : at_key k (group sel key f l) = match picked k l with [] => None | es => Some (fold_left f es []) end.
Proof.
  induction l as [|e l IH] using rev_ind; [done|]. rewrite group_snoc. unfold picked in *. rewrite List.filter_app. cbn.
  destruct (sel e); cbn; [|by rewrite app_nil_r]. rewrite at_upd. destruct (String.eqb_spec (key e) k) as [<-|Hne].
  - rewrite IH. destruct (List.filter _ l) as [|x xs]; [done|]. cbn. by rewrite fold_left_app.
  - by rewrite app_nil_r.
Qed.

Lemma at_key_In m : NoDup (map fst m) -> forall k v, In (k, v) m <-> at_key k m = Some v.
Proof.
  unfold at_key. induction m as [|[k0 v0] m IH]; cbn; [done|]. intros Hd k v. apply NoDup_cons in Hd as [Hn Hd].
  destruct (String.eqb_spec k0 k) as [->|Hne]; cbn.
  - split; [|naive_solver]. intros [H|H]; [naive_solver|]. destruct Hn. apply list_elem_of_In, in_map_iff. by exists (k, v).
  - rewrite <- (IH Hd). naive_solver.
Qed.

Lemma group_In k v l : In (k, v) (entries (group sel key f l)) <-> picked k l <> [] /\ v = fold_left f (picked k l) [].
Proof.
  unfold entries. rewrite sort_In, (at_key_In _ (group_nodup l)), group_at.
  destruct (picked k l); [naive_solver|]. split; [intros [= <-]; done|by intros [_ ->]].
Qed.
End GroupFacts.

(** ** The alerts *)

Definition failures_of (actor : string) (events : list AuditEvent) : list AuditEvent := picked failed_login actor_key actor events.
Definition addresses_of (actor : string) (events : list AuditEvent) : list string :=
  fold_left add_ip (picked has_ip actor_key actor events) [].

Lemma collect {A} (l acc : list A) : fold_left (fun old e => old ++ [e]) l acc = acc ++ l.
Proof. revert acc. induction l as [|x l IH]; intros acc; cbn; [by rewrite app_nil_r|]. by rewrite IH, <- app_assoc. Qed.

Lemma addresses_spec actor events :
  List.NoDup (addresses_of actor events)
  /\ forall ip, In ip (addresses_of actor events) <-> exists e, In e events /\ has_ip e = true /\ actor_key e = actor /\ ip_address e = ip.
Proof.
  unfold addresses_of.
  assert (forall l acc, List.NoDup acc -> List.NoDup (fold_left add_ip l acc)
    /\ forall ip, In ip (fold_left add_ip l acc) <-> In ip acc \/ exists e, In e l /\ ip_address e = ip) as H.
  { induction l as [|e l IH]; intros acc Hn; cbn; [split; [done|naive_solver]|].
    assert (List.NoDup (add_ip acc e) /\ forall ip, In ip (add_ip acc e) <-> In ip acc \/ ip_address e = ip) as [Hn' Hin].
    { unfold add_ip. destruct (str_mem (ip_address e) acc) eqn:E.
      - split; [done|]. apply str_mem_In in E. intros ip. split; [naive_solver|intros [H| <-]; done].
      - apply str_mem_false in E. split; [|intros ip; rewrite in_app_iff; cbn; naive_solver].
        apply List.NoDup_app; [done|repeat constructor; auto|]. intros x Hx [<-|[]]. done. }
    destruct (IH _ Hn') as [H1 H2]. split; [done|]. intros ip. rewrite H2, Hin. naive_solver. }
  destruct (H (picked has_ip actor_key actor events) [] (List.NoDup_nil _)) as [H1 H2]. split; [done|]. intros ip. rewrite H2.
  unfold picked. setoid_rewrite filter_In. setoid_rewrite andb_true_iff. setoid_rewrite String.eqb_eq. cbn. naive_solver.
Qed.

(** C28. The alerts of a page of events are these and no others: for each actor, "brute force"
    when five or more of the sign-ins failed and a warning when three or four did; a warning
    for each actor with more than three distinct addresses; one for five refusals or more of
    anybody, and one for three failures or more in the small hours.  An actor named as a
    property that every object inherits makes the computation, and so the page, raise. *)
Theorem detect_spec events :
  (clashes events = false ->
   exists alerts, detectAnomalies events = Some alerts
   /\ forall a, In a alerts <->
        (exists actor, (5 <= length (failures_of actor events))%nat /\ a = brute_force actor (failures_of actor events))
        \/ (exists actor, (3 <= length (failures_of actor events) < 5)%nat /\ a = login_failures actor (failures_of actor events))
        \/ (exists actor, (3 < length (addresses_of actor events))%nat /\ a = many_ips events actor (addresses_of actor events))
        \/ ((5 <= count denied events)%nat /\ a = denied_spike (count denied events))
        \/ ((3 <= count off_hours events)%nat /\ a = off_hours_alert (count off_hours events)))
  /\ (clashes events = true -> detectAnomalies events = None).
Proof.
  unfold detectAnomalies. split; intros ->; [|done]. eexists. split; [done|]. intros a.
  rewrite !in_app_iff, !in_flat_map.
  assert ((exists x, In x (entries (failedLoginsByActor events)) /\ In a (login_alerts x)) <->
    (exists actor, (5 <= length (failures_of actor events))%nat /\ a = brute_force actor (failures_of actor events))
    \/ (exists actor, (3 <= length (failures_of actor events) < 5)%nat /\ a = login_failures actor (failures_of actor events))) as ->.
  { unfold login_alerts. split.
    - intros ([actor v] & Hin & Ha). apply group_In in Hin as [Hne ->]. rewrite collect in Ha. cbn [app fst snd] in Ha.
      fold (failures_of actor events) in Ha. destruct (Nat.leb_spec 5 (length (failures_of actor events))).
      + destruct Ha as [<-|[]]. left. by exists actor.
      + destruct (Nat.leb_spec 3 (length (failures_of actor events))); [|done]. destruct Ha as [<-|[]]. right. by exists actor.
    - intros [(actor & Hl & ->)|(actor & Hl & ->)]; exists (actor, failures_of actor events);
        (split; [apply group_In; rewrite collect; split; [|done]; intros E; unfold failures_of in Hl; rewrite E in Hl; cbn in Hl; lia|]);
        cbn [fst snd].
      + destruct (Nat.leb_spec 5 (length (failures_of actor events))); [by left|lia].
      + destruct (Nat.leb_spec 5 (length (failures_of actor events))); [lia|].
        destruct (Nat.leb_spec 3 (length (failures_of actor events))); [by left|lia]. }
  assert ((exists x, In x (entries (ipsByActor events)) /\ In a (if (3 <? length x.2)%nat then [many_ips events x.1 x.2] else [])) <->
    exists actor, (3 < length (addresses_of actor events))%nat /\ a = many_ips events actor (addresses_of actor events)) as ->.
  { split.
    - intros ([actor v] & Hin & Ha). apply group_In in Hin as [Hne ->]. cbn [fst snd] in Ha. fold (addresses_of actor events) in Ha.
      destruct (Nat.ltb_spec 3 (length (addresses_of actor events))); [|done]. destruct Ha as [<-|[]]. by exists actor.
    - intros (actor & Hl & ->). exists (actor, addresses_of actor events). split.
      + apply group_In. split; [|done]. intros E. unfold addresses_of in Hl. rewrite E in Hl. cbn in Hl. lia.
      + cbn [fst snd]. destruct (Nat.ltb_spec 3 (length (addresses_of actor events))); [by left|lia]. }
  destruct (Nat.leb_spec 5 (count denied events)), (Nat.leb_spec 3 (count off_hours events)); cbn [In]; intuition (try lia; try (by subst)).
Qed.

(** ** The address *)

Definition filters_of (s : page_state) : list string :=
  [actionFilter s; actorFilter s; resultFilter s; ipFilter s; dateFrom s; dateTo s].

Definition names : list string := ["action"; "actor"; "result"; "ip"; "from"; "to"].

(** Reading the parameters one page writes gives its filters. *)
Lemma param_given s :
  map (fun k => default "" (param k (url_params s))) names = filters_of s.
Proof.
  unfold url_params, given_param, filters_of.
  destruct (String.eqb_spec (actionFilter s) "") as [E1|E1], (String.eqb_spec (actorFilter s) "") as [E2|E2],
    (String.eqb_spec (resultFilter s) "") as [E3|E3], (String.eqb_spec (ipFilter s) "") as [E4|E4],
    (String.eqb_spec (dateFrom s) "") as [E5|E5], (String.eqb_spec (dateTo s) "") as [E6|E6];
    cbn; rewrite ?E1, ?E2, ?E3, ?E4, ?E5, ?E6; reflexivity.
Qed.

Definition sets (e : env) (i : nat) (set : string -> prog page_state unit) : Prop :=
  forall v w, exists w', run e (set v) w = (Done tt, w')
  /\ filters_of (w_st w') = <[i := v]> (filters_of (w_st w)) /\ search (w_st w') = search (w_st w).

Lemma read_step (e : env) ps k set i w :
  sets e i set -> filters_of (w_st w) !! i = Some "" ->
  exists w', run e (read_param ps k set) w = (Done tt, w')
  /\ filters_of (w_st w') = <[i := default "" (param k ps)]> (filters_of (w_st w)) /\ search (w_st w') = search (w_st w).
Proof.
  intros Hs Hi. unfold read_param. destruct (param k ps) as [v|]; cbn [default].
  - destruct (String.eqb_spec v "") as [->|Hv]; [|apply Hs]. run_steps. exists w. by rewrite list_insert_id.
  - run_steps. exists w. by rewrite list_insert_id.
Qed.

Ltac setter := intros v []; eexists; split; [reflexivity|]; by split.

Lemma run_read_url (e : env) w :
  filters_of (w_st w) = [""; ""; ""; ""; ""; ""] ->
  exists w', run e read_url w = (Done tt, w')
  /\ filters_of (w_st w') = map (fun k => default "" (param k (default [] (params_of (search (w_st w)))))) names
  /\ search (w_st w') = search (w_st w).
Proof.
  intros Hf. unfold read_url. run_steps. set (ps := default [] (params_of (search (w_st w)))). cbv zeta.
  destruct (read_step e ps "action" setActionFilter 0 w) as (w1 & R1 & F1 & S1); [setter|by rewrite Hf|].
  rewrite Hf in F1. destruct (read_step e ps "actor" setActorFilter 1 w1) as (w2 & R2 & F2 & S2); [setter|by rewrite F1|].
  rewrite F1 in F2. destruct (read_step e ps "result" setResultFilter 2 w2) as (w3 & R3 & F3 & S3); [setter|by rewrite F2|].
  rewrite F2 in F3. destruct (read_step e ps "ip" setIpFilter 3 w3) as (w4 & R4 & F4 & S4); [setter|by rewrite F3|].
  rewrite F3 in F4. destruct (read_step e ps "from" setDateFrom 4 w4) as (w5 & R5 & F5 & S5); [setter|by rewrite F4|].
  rewrite F4 in F5. destruct (read_step e ps "to" setDateTo 5 w5) as (w6 & R6 & F6 & S6); [setter|by rewrite F5|].
  rewrite F5 in F6. exists w6.
  rewrite R1. cbn match. run_steps. rewrite R2. cbn match. run_steps. rewrite R3. cbn match. run_steps.
  rewrite R4. cbn match. run_steps. rewrite R5. cbn match. run_steps. rewrite R6.
  split_and!; [done|by rewrite F6|congruence].
Qed.

(** Loading touches neither the filters nor the address. *)
Lemma tame_load (P : page_state -> Prop) API_BASE TENANT_ID s :
  (forall s s', P s -> filters_of s' = filters_of s -> search s' = search s -> pageNo s' = pageNo s ->
     (totalPages s' = totalPages s \/ 1 <= totalPages s') -> P s') ->
  tame P (fun _ => True) (loadData API_BASE TENANT_ID s).
Proof.
  intros HP. assert (forall f, (forall s, filters_of (f s) = filters_of s /\ search (f s) = search s /\ pageNo (f s) = pageNo s
    /\ (totalPages (f s) = totalPages s \/ 1 <= totalPages (f s))) -> tame P (fun _ => True) (upd f)) as Hu.
  { intros f Hf. apply tame_upd. intros s0 H0. destruct (Hf s0) as (H1 & H2 & H3 & H4). by eapply HP. }
  unfold loadData. tame_prog; try (by apply tame_apiFetch); apply Hu; intros s0; split_and!; try done; try (by left).
  right. cbn. unfold pages_of. destruct (js_or _ _); try lia. destruct (Z.ltb_spec 0 z); [|lia].
  apply Z.div_le_lower_bound; lia.
Qed.

(** The address a page writes determines its filters: a page that reads it gets them all
    back.  But opening the page at an address erases it before it is read: whatever the
    address and the server, the page ends without any filter and without a query. *)
Lemma address_filters API_BASE TENANT_ID (e : env) s w0 q l :
  filters_of (w_st (run e read_url (page (page_init (search (w_st (run e (sync_url s) w0).2))) l)).2) = filters_of s
  /\ exists w', run e (mount API_BASE TENANT_ID (page_init q)) (page (page_init q) l) = (Done tt, w')
     /\ filters_of (w_st w') = [""; ""; ""; ""; ""; ""] /\ search (w_st w') = "".
Proof.
  split.
  - destruct (run_read_url e (page (page_init (search (w_st (run e (sync_url s) w0).2))) l)) as (w' & -> & HF & _); [done|].
    cbn [snd]. rewrite HF. unfold sync_url, replaceSearch. cbv zeta. rewrite run_upd. destruct w0 as [st l1 l2 l3 tr].
    cbn [snd set_st w_st search page page_init]. destruct (params_read (url_params s)) as [Hp1 Hp2].
    assert (params_of (if String.eqb (URLSearchParams (url_params s)) "" then "" else "?" +:+ URLSearchParams (url_params s)) = Some (url_params s)) as ->.
    { destruct (String.eqb_spec (URLSearchParams (url_params s)) "") as [E|_]; [by rewrite <- E|exact Hp2]. }
    apply param_given.
  - unfold mount, sync_url, reset_page, replaceSearch, setPage. cbv zeta. run_steps.
    match goal with |- context [run e read_url ?w1] => set (w1' := w1) end.
    destruct (run_read_url e w1') as (w2 & -> & HF & HS); [done|]. cbn match.
    destruct (no_throw_run e (loadData API_BASE TENANT_ID (page_init q)) w2) as ([] & w3 & Hr).
    { unfold loadData. do 2 (apply no_throw_bind; [by split|intros _]). apply no_throw_finally; [apply no_throw_try; by split|by split]. }
    exists w3. split; [exact Hr|].
    pose proof (tame_run (fun s => filters_of s = [""; ""; ""; ""; ""; ""] /\ search s = "") (fun _ => True) e
      (loadData API_BASE TENANT_ID (page_init q)) w2) as H.
    rewrite Hr in H. apply H.
    + apply tame_load. intros s1 s2 [H1 H2] H3 H4 _ _. by rewrite H3, H4.
    + split; [split; [by rewrite HF|by rewrite HS]|]. by apply Forall_true.
Qed.

(** ** Pages *)

(** What may be called; the buttons belong to the render on the screen. *)
Inductive log_call (API_BASE TENANT_ID : string) (w : world page_state) : prog page_state unit -> Prop :=
| log_load s : log_call API_BASE TENANT_ID w (loadData API_BASE TENANT_ID s)
| log_sync : log_call API_BASE TENANT_ID w (sync_url (w_st w))
| log_reset : log_call API_BASE TENANT_ID w reset_page
| log_read : log_call API_BASE TENANT_ID w read_url
| log_tab b : log_call API_BASE TENANT_ID w (setTab b)
| log_action v : log_call API_BASE TENANT_ID w (setActionFilter v)
| log_actor v : log_call API_BASE TENANT_ID w (setActorFilter v)
| log_result v : log_call API_BASE TENANT_ID w (setResultFilter v)
| log_ip v : log_call API_BASE TENANT_ID w (setIpFilter v)
| log_from v : log_call API_BASE TENANT_ID w (setDateFrom v)
| log_to v : log_call API_BASE TENANT_ID w (setDateTo v)
| log_expand b x : log_call API_BASE TENANT_ID w (toggle_row b x)
| log_previous : log_call API_BASE TENANT_ID w previous_page
| log_next : pageNo (w_st w) < totalPages (w_st w) -> log_call API_BASE TENANT_ID w (next_page (totalPages (w_st w)))
| log_export s format : log_call API_BASE TENANT_ID w (handleExport API_BASE TENANT_ID s format).

Definition numbered (s : page_state) : Prop := 1 <= pageNo s /\ 1 <= totalPages s.

Lemma tame_log_call API_BASE TENANT_ID w p :
  numbered (w_st w) -> log_call API_BASE TENANT_ID w p -> tame numbered (fun _ => True) p.
Proof.
  intros [Hp Ht] []; try (by apply tame_upd).
  - apply tame_load. intros s1 s2 [H1 H2] _ _ H3 H4. unfold numbered. rewrite H3. split; [done|]. destruct H4 as [->|H4]; done.
  - apply tame_upd. intros s [_ H]. by split.
  - unfold read_url, read_param. tame_prog; try (by apply tame_upd); by split.
  - apply tame_upd. intros s [_ H]. split; [cbn; lia|done].
  - apply tame_upd. intros s [H1 H2]. split; [cbn; lia|done].
  - by repeat split.
Qed.

(** C30. However the page's loads, filters and buttons overlap and whatever the servers count,
    the page asked for and the number of pages stay at least one. *)
Theorem pages_in_range API_BASE TENANT_ID (e : env) answers q l c :
  reachable e (log_call API_BASE TENANT_ID) answers (page (page_init q) l) c -> numbered (w_st c.1).
Proof.
  intros Hr. assert (tame_inv numbered (fun _ => True) c.1) as [H _]; [|exact H].
  apply (safe_reachable e (log_call API_BASE TENANT_ID) answers (tame_inv numbered (fun _ => True)) (page (page_init q) l) c); [|..|done].
  - split; [split; cbn; lia|constructor].
  - intros w p Hw Hp. apply tame_safe; [|done]. eapply tame_log_call; [apply Hw|done].
Qed.

(** ** Witnesses *)

Definition demo_failure (actor name ip : string) : AuditEvent :=
  Event "e" actor name "user.login" "failure" "2024-05-02T11:00:00Z" ip "" "" "".

(** Three failures: the rows say brute force, the alert above them login failures. *)
Example rows_disagree :
  let events := repeat (demo_failure "u1" "Ann" "10.0.0.1") 3 in
  option_map (map title) (detectAnomalies events) = Some ["Login Failures: Ann"]
  /\ isAnomalousEvent events (demo_failure "u1" "Ann" "10.0.0.1") = Some "Brute force: 3 failed logins".
Proof. vm_compute. done. Qed.

(** One failed sign-in as "constructor", by somebody the server knows no identifier of. *)
Example name_breaks_page : detectAnomalies [demo_failure "" "constructor" "10.0.0.1"] = None.
Proof. reflexivity. Qed.

Lemma detect_spec_witness :
  exists alerts, detectAnomalies (repeat (demo_failure "u1" "Ann" "10.0.0.1") 5) = Some alerts
  /\ In (Alert "critical" "Brute Force Suspected: Ann" "5 failed login attempts detected. IP: 10.0.0.1.") alerts.
Proof.
  destruct (detect_spec (repeat (demo_failure "u1" "Ann" "10.0.0.1") 5)) as [H _].
  destruct H as (alerts & Ha & Hin); [vm_compute; reflexivity|].
  exists alerts. split; [exact Ha|]. apply Hin. left. exists "u1". split; [vm_compute; lia|vm_compute; reflexivity].
Defined.

Lemma pages_in_range_witness :
  exists c, reachable (const_env None 0) (log_call "https://api" "t") (fun _ _ _ => True) (page (page_init "") ∅) c
  /\ length c.2 = 2%nat /\ numbered (w_st c.1).
Proof.
  assert (exists c, reachable (const_env None 0) (log_call "https://api" "t") (fun _ _ _ => True) (page (page_init "") ∅) c
          /\ length c.2 = 2%nat) as (c & Hc & Hl).
  { eexists. split; [eapply reach_step; [eapply reach_step; [apply reach_init|]|]|].
    - eapply step_spawn; [apply log_previous|reflexivity].
    - eapply step_spawn; [apply (log_ip _ _ _ "10.0")|reflexivity].
    - reflexivity. }
  exists c. split; [exact Hc|]. split; [exact Hl|].
  exact (pages_in_range "https://api" "t" (const_env None 0) (fun _ _ _ => True) "" ∅ c Hc).
Defined.
