(* ===== verification/AuditCharts.v ===== *)
(** * The dashboard of the audit log (console/src/app/audit/page.tsx)

    What the charts and the table of the dashboard are drawn from: the statistics of the
    server, of the type the page declares for them.  Objects used as maps are those of
    AuditLog; the time of an hour as the browser writes it is a parameter. *)

From S2P Require Import Prelude JsSort JsValue JsString AuditLog.
#[local] Open Scope Z_scope.

Record top_actor := TopActor { ta_id : string; ta_name : string; ta_count : Z }.

Record Stats := Build_Stats {
  total_events_24h : Z;
  events_by_action : list (string * Z);
  hourly_distribution : list (string * Z);
  top_actors : list top_actor;
  failed_logins_24h : Z }.

(** [l.sort((a, b) => b.count - a.count)]. *)
Definition by_count {A} (cnt : A -> Z) (l : list A) : list A := stable_sort (fun a b => cnt b <=? cnt a) l.

Definition actionData (stats : option Stats) : list (string * Z) :=
  match stats with Some s => take 8 (by_count snd (entries (events_by_action s))) | None => [] end.
Definition actionBarData (stats : option Stats) : list (string * Z) := take 6 (actionData stats).

Definition hourlyData (time_text : string -> string) (stats : option Stats) : list (string * Z) :=
  match stats with Some s => map (fun h => (time_text h.1, h.2)) (hourly_distribution s) | None => [] end.

(** ** The actors *)

Definition NO_ACTOR : string := "00000000-0000-0000-0000-000000000000".

Definition actor_label (a : top_actor) : string :=
  str_or (ta_name a) (if negb (String.eqb (ta_id a) NO_ACTOR) then String.substring 0 8 (ta_id a) else "system").

(** [if (!acc[name]) acc[name] = first; acc[name].count += a.count]. *)
Definition count_actor (old : list top_actor) (a : top_actor) : list top_actor :=
  match old with
  | [] => [TopActor (ta_id a) (actor_label a) (0 + ta_count a)]
  | r :: _ => [TopActor (ta_id r) (ta_name r) (ta_count r + ta_count a)]
  end.

(** A label that names a property every object inherits finds that property, which is no
    row: what is added to it is lost. *)
Definition own_label (a : top_actor) : bool := negb (str_mem (actor_label a) inherited_names).

(** [Object.values(actors.reduce(..., {}))]. *)
Definition counted (actors : list top_actor) : list top_actor :=
  flat_map snd (entries (group own_label actor_label count_actor actors)).

Definition topActorsDeduped (stats : option Stats) : list top_actor :=
  match stats with Some s => by_count ta_count (counted (top_actors s)) | None => [] end.
(** The chart has the same rows without the identifiers. *)
Definition actorData (stats : option Stats) : list (string * Z) :=
  map (fun a => (ta_name a, ta_count a)) (topActorsDeduped stats).
Definition table_rows (stats : option Stats) : list top_actor := take 10 (topActorsDeduped stats).

(** ** Outcomes *)

Definition failedVsSuccess (stats : option Stats) : list (string * Z) :=
  match stats with
  | Some s => List.filter (fun d => 0 <? d.2)
      [("Success", total_events_24h s - failed_logins_24h s); ("Failed Logins", failed_logins_24h s)]
  | None => []
  end.

(** ** Lemmas *)

Definition sum_of (l : list top_actor) : Z := foldr (fun a n => ta_count a + n) 0 l.

#[local] Arguments sum_of : simpl never.
Lemma sum_cons a l : sum_of (a :: l) = ta_count a + sum_of l.
Proof. done. Qed.
Lemma sum_nil : sum_of [] = 0.
Proof. done. Qed.
#[local] Hint Rewrite sum_cons sum_nil : js.

Lemma sum_app a b : sum_of (a ++ b) = sum_of a + sum_of b.
Proof. induction a as [|x a IH]; cbn; autorewrite with js; [done|]. rewrite IH. lia. Qed.

Lemma by_count_perm {A} (cnt : A -> Z) l : by_count cnt l ≡ₚ l.
Proof. apply sort_perm. Qed.

Lemma by_count_sorted {A} (cnt : A -> Z) l : StronglySorted (fun a b => cnt b <= cnt a) (by_count cnt l).
Proof.
  eapply StronglySorted_on; [|apply sort_sorted].
  - intros x y _ _ H. by apply Z.leb_le.
  - intros x y z. rewrite !Z.leb_le. lia.
  - intros x y. rewrite !Z.leb_le. lia.
Qed.

(** The actors of a label become one row: the first's identifier, and all the counts. *)
Definition row_of (label : string) (l : list top_actor) : top_actor :=
  TopActor (match l with a :: _ => ta_id a | [] => "" end) label (sum_of l).
Definition labelled (label : string) (l : list top_actor) : list top_actor := picked own_label actor_label label l.

Lemma count_all l id name n :
  fold_left count_actor l [TopActor id name n] = [TopActor id name (n + sum_of l)].
Proof.
  revert n. induction l as [|a l IH]; intros n; cbn; autorewrite with js; [by rewrite Z.add_0_r|]. rewrite IH. do 2 f_equal. lia.
Qed.

Lemma counted_In row actors :
  In row (counted actors) <-> exists label, labelled label actors <> [] /\ row = row_of label (labelled label actors).
Proof.
  unfold counted. rewrite in_flat_map. unfold labelled.
  assert (forall label, picked own_label actor_label label actors <> [] ->
    fold_left count_actor (picked own_label actor_label label actors) [] = [row_of label (picked own_label actor_label label actors)]) as Hrow.
  { intros label. destruct (picked _ _ label actors) as [|a l] eqn:E; [done|]. intros _. cbn [fold_left count_actor]. rewrite count_all.
    assert (In a (picked own_label actor_label label actors)) as Hin by (rewrite E; by left).
    unfold picked in Hin. apply filter_In in Hin as [_ Hl]. bool_prop. unfold row_of. by rewrite H0. }
  split.
  - intros ([label v] & Hin & Hr). apply group_In in Hin as [Hne ->]. cbn [snd] in Hr. rewrite Hrow in Hr by done.
    destruct Hr as [<-|[]]. by exists label.
  - intros (label & Hne & ->). exists (label, [row_of label (picked own_label actor_label label actors)]).
    split; [|by left]. apply group_In. by rewrite Hrow.
Qed.

(** One more record adds its count to its row, or nothing. *)
Lemma upd_sum k a (m : list (string * list top_actor)) :
  (forall kv, In kv m -> exists r, kv.2 = [r]) ->
  sum_of (flat_map snd (upd_key k (fun old => count_actor old a) m)) = sum_of (flat_map snd m) + ta_count a
  /\ forall kv, In kv (upd_key k (fun old => count_actor old a) m) -> exists r, kv.2 = [r].
Proof.
  induction m as [|[k' v] m IH]; intros Hm; cbn [upd_key].
  - split; [cbn; autorewrite with js; cbn; lia|]. intros kv [<-|[]]. by eexists.
  - destruct (Hm (k', v) (or_introl eq_refl)) as [r Hr]. cbn in Hr. subst v. destruct (String.eqb k' k).
    + split; [cbn; autorewrite with js; cbn; lia|]. intros kv [<-|Hin]; [by eexists|]. apply Hm. by right.
    + destruct IH as [H1 H2]; [intros kv Hin; apply Hm; by right|]. cbn [flat_map snd app]. autorewrite with js. rewrite H1.
      split; [lia|]. intros kv [<-|Hin]; [by eexists|by apply H2].
Qed.

Lemma flat_sum_perm (m m' : list (string * list top_actor)) :
  m ≡ₚ m' -> sum_of (flat_map snd m) = sum_of (flat_map snd m').
Proof.
  induction 1 as [|x m m' _ IH|x y m|m m' m'' _ IH _ IH']; cbn [flat_map]; rewrite ?sum_app; try lia.
Qed.

Lemma sum_perm l l' : l ≡ₚ l' -> sum_of l = sum_of l'.
Proof. induction 1; autorewrite with js; lia. Qed.

Lemma counted_sum actors :
  sum_of (counted actors) = sum_of (List.filter own_label actors).
Proof.
  unfold counted, entries. rewrite (flat_sum_perm _ _ (sort_perm _ _)).
  assert (sum_of (flat_map snd (group own_label actor_label count_actor actors)) = sum_of (List.filter own_label actors)
    /\ forall kv, In kv (group own_label actor_label count_actor actors) -> exists r, kv.2 = [r]) as [H _]; [|exact H].
  induction actors as [|a l [IH1 IH2]] using rev_ind; [done|]. rewrite group_snoc, List.filter_app, sum_app. cbn [List.filter].
  destruct (own_label a); autorewrite with js; [|by rewrite Z.add_0_r].
  destruct (upd_sum (actor_label a) a _ IH2) as [H1 H2]. split; [|done]. rewrite H1, IH1. lia.
Qed.

(** The table of actors has one row for each label, with the identifier of the first of its
    records and the sum of their counts, the largest first; together the rows count what the
    server counted, but for the actors named as a property every object inherits, who are in
    no row. *)
Lemma actors_counted s :
  let rows := topActorsDeduped (Some s) in
  StronglySorted (fun a b => ta_count b <= ta_count a) rows
  /\ (forall row, In row rows <-> exists label, labelled label (top_actors s) <> [] /\ row = row_of label (labelled label (top_actors s)))
  /\ sum_of rows + sum_of (List.filter (fun a => negb (own_label a)) (top_actors s)) = sum_of (top_actors s).
Proof.
  cbv zeta. cbn [topActorsDeduped]. split; [apply by_count_sorted|]. split.
  - intros row. rewrite <- !list_elem_of_In, by_count_perm, list_elem_of_In. apply counted_In.
  - rewrite (sum_perm _ _ (by_count_perm ta_count _)), counted_sum. clear. induction (top_actors s) as [|a l IH]; [done|].
    cbn [List.filter]. destruct (own_label a); cbn [negb]; autorewrite with js; lia.
Qed.

(** The bars of the outcomes are positive and add up to the events of the day, when the failed
    sign-ins are among them. *)
Lemma outcomes_add_up s :
  0 <= failed_logins_24h s <= total_events_24h s ->
  foldr (fun d n => d.2 + n) 0 (failedVsSuccess (Some s)) = total_events_24h s
  /\ Forall (fun d => 0 < d.2) (failedVsSuccess (Some s)).
Proof.
  intros H. cbn [failedVsSuccess List.filter snd]. destruct (Z.ltb_spec 0 (total_events_24h s - failed_logins_24h s)),
    (Z.ltb_spec 0 (failed_logins_24h s)); cbn; (split; [lia|]); repeat constructor; cbn; lia.
Qed.

(** Two records of one actor are a row; an actor called "constructor" is nowhere. *)
Example hidden_actor :
  topActorsDeduped (Some (Build_Stats 9 [] [] [TopActor "u1" "ann" 2; TopActor "u2" "constructor" 4; TopActor "u3" "ann" 3] 0))
  = [TopActor "u1" "ann" 5].
Proof. vm_compute. done. Qed.

(** Actions with numbers for names come before the others of the same count. *)
Example numbers_first :
  actionData (Some (Build_Stats 0 [("login", 1); ("7", 1); ("logout", 3)] [] [] 0)) = [("logout", 3); ("7", 1); ("login", 1)].
Proof. vm_compute. done. Qed.

Lemma outcomes_add_up_witness :
  failedVsSuccess (Some (Build_Stats 9 [] [] [] 2)) = [("Success", 7); ("Failed Logins", 2)]
  /\ foldr (fun d n => d.2 + n) 0 (failedVsSuccess (Some (Build_Stats 9 [] [] [] 2))) = 9.
Proof. split; [reflexivity|]. apply (outcomes_add_up (Build_Stats 9 [] [] [] 2)). cbn. lia. Defined.
