(* ===== verification/JsonPretty.v ===== *)
(** * [JSON.stringify(v, null, 2)]

    The indented text of a value, and that [JSON.parse] reads it back: white space between
    the tokens of a document changes nothing. *)

From S2P Require Import Prelude JsValue JsString Json.

Definition gap : string := "  ".

(** A line end followed by an indent. *)
Definition newline (ind : string) : string := String (chr 10) ind.

Fixpoint pretty_at (ind : string) (v : js) : string :=
  match v with
  | JArr [] => "[]"
  | JArr l =>
      let ind' := ind +:+ gap in
      "[" +:+ newline ind' +:+ join ("," +:+ newline ind') (map (pretty_at ind') l) +:+ newline ind +:+ "]"
  | JObj l =>
      let ind' := ind +:+ gap in
      let fix members (l : list (string * js)) : list string :=
        match l with
        | [] => []
        | (_, JUndef) :: l' => members l'
        | (k, x) :: l' => (quote k +:+ ": " +:+ pretty_at ind' x) :: members l'
        end in
      match members l with
      | [] => "{}"
      | ms => "{" +:+ newline ind' +:+ join ("," +:+ newline ind') ms +:+ newline ind +:+ "}"
      end
  | _ => stringify v
  end.

Definition pretty (v : js) : string := pretty_at "" v.

Example pretty_prints :
  pretty (JObj [("a", JArr [JNum 1; JObj []]); ("b", JUndef); ("c", JArr [])])
  = join (newline "") ["{"; "  " +:+ dq +:+ "a" +:+ dq +:+ ": ["; "    1,"; "    {}"; "  ],"; "  " +:+ dq +:+ "c" +:+ dq +:+ ": []"; "}"].
Proof. vm_compute. done. Qed.

(** ** White space *)

Definition blank (w : string) : Prop := str_forall is_ws w = true.

Lemma skip_blank w s : blank w -> skip_ws (w +:+ s) = skip_ws s.
Proof.
  unfold blank, skip_ws. induction w as [|c w IH]; cbn; [done|]. intros ?; bool_prop. rewrite H. by apply IH.
Qed.

Lemma blank_gap ind : blank ind -> blank (ind +:+ gap).
Proof. unfold blank. intros H. by rewrite str_forall_app, H. Qed.

Lemma blank_newline ind : blank ind -> blank (newline ind).
Proof. intros H. exact H. Qed.

#[export] Hint Resolve blank_gap blank_newline : js.

Lemma value_after_blank n w s : blank w -> parse_value n (w +:+ s) = parse_value n s.
Proof. intros Hw. destruct n as [|n]; [done|]. cbn [parse_value]. by rewrite skip_blank. Qed.

Lemma elems_after_blank n w s : blank w -> parse_elems n (w +:+ s) = parse_elems n s.
Proof. intros Hw. destruct n as [|n]; [done|]. cbn [parse_elems]. by rewrite value_after_blank. Qed.

Lemma members_after_blank n w s : blank w -> parse_members n (w +:+ s) = parse_members n s.
Proof. intros Hw. destruct n as [|n]; [done|]. cbn [parse_members]. by rewrite skip_blank. Qed.

(** ** Printed values *)

Definition pretty_members (ind : string) (l : list (string * js)) : list string :=
  map (fun kv => quote kv.1 +:+ ": " +:+ pretty_at ind kv.2) l.

(** The text of a list of items between two brackets. *)
Definition bracketed (o c : Ascii.ascii) (ind : string) (items : list string) : string :=
  String o (newline (ind +:+ gap) +:+ join ("," +:+ newline (ind +:+ gap)) items +:+ newline ind +:+ String c "").

Lemma pretty_arr ind x l : pretty_at ind (JArr (x :: l)) = bracketed "[" "]" ind (map (pretty_at (ind +:+ gap)) (x :: l)).
Proof. done. Qed.

Lemma pretty_obj ind kv l :
  members_wf (kv :: l) = true ->
  pretty_at ind (JObj (kv :: l)) = bracketed "{" "}" ind (pretty_members (ind +:+ gap) (kv :: l)).
Proof.
  intros Hwf.
  assert (forall l, members_wf l = true ->
    (fix members (l : list (string * js)) : list string :=
       match l with
       | [] => []
       | (_, JUndef) :: l' => members l'
       | (k, x) :: l' => (quote k +:+ ": " +:+ pretty_at (ind +:+ gap) x) :: members l'
       end) l = pretty_members (ind +:+ gap) l) as Hm.
  { clear. induction l as [|[k x] l IH]; intros Hwf; [done|]. apply members_wf_cons in Hwf as (_ & Hx & Hl).
    unfold pretty_members in *. cbn [map fst snd]. rewrite <- IH by done. by destruct x. }
  specialize (Hm _ Hwf). destruct kv as [k x]. apply members_wf_cons in Hwf as (_ & Hx & _).
  cbn [pretty_at]. rewrite Hm. done.
Qed.

Lemma pretty_head ind v : exists c r, pretty_at ind v = String c r /\ is_ws c = false /\ c <> "]"%char.
Proof.
  destruct v as [| |b|z|s|[|x l]|l]; [apply (stringify_head JUndef)|apply (stringify_head JNull)|apply (stringify_head (JBool b))
    |apply (stringify_head (JNum z))|apply (stringify_head (JStr s))|by repeat eexists|by repeat eexists|].
  cbn [pretty_at]. match goal with |- context [match ?m with [] => _ | _ => _ end] => destruct m end; by repeat eexists.
Qed.

Definition reads_pretty (v : js) : Prop :=
  json_wf v = true -> forall ind n rest, blank ind -> jsize v <= n -> stops rest = true ->
  parse_value n (pretty_at ind v +:+ rest) = Some (v, rest).

Lemma elems_close n s v w r :
  blank w -> parse_value n s = Some (v, w +:+ String "]"%char r) -> parse_elems (S n) s = Some ([v], r).
Proof. intros Hw H. cbn [parse_elems]. rewrite H. cbn. by rewrite skip_blank. Qed.

Lemma members_step n k s :
  parse_members (S n) (quote k +:+ ": " +:+ s)
  = '(v, r3) ← parse_value n s;
    match skip_ws r3 with
    | String "," r' => '(kvs, r'') ← parse_members n r'; Some ((k, v) :: kvs, r'')
    | String "}" r' => Some ([(k, v)], r')
    | _ => None
    end.
Proof.
  rewrite quote_app. parser_step. rewrite parse_str_quote. parser_step.
  change (String.append ": " s) with (String ":"%char (" " +:+ s)). parser_step. by rewrite (value_after_blank n " " s).
Qed.

Lemma elems_print ind x l n rest :
  blank ind -> Forall reads_pretty (x :: l) -> forallb json_wf (x :: l) = true ->
  list_sum (map (fun v => 1 + jsize v) (x :: l)) <= n ->
  parse_elems n (join ("," +:+ newline (ind +:+ gap)) (map (pretty_at (ind +:+ gap)) (x :: l)) +:+ newline ind +:+ "]" +:+ rest)
  = Some (x :: l, rest).
Proof.
  intros Hb. pose proof (blank_gap ind Hb) as Hb'. revert x n. induction l as [|y l IH]; intros x n HF Hwf Hn;
    apply Forall_cons in HF as [Hx HF]; apply andb_true_iff in Hwf as [Hwx Hwf];
    (destruct n as [|n]; [simpl in Hn; lia|]); pose proof (jsize_pos x); cbn [map].
  - eapply (elems_close n _ x (newline ind)); [done|]. apply Hx; simpl in *; done || lia.
  - rewrite join_cons2, !str_app_assoc.
    erewrite parse_elems_comma by (apply Hx; simpl in *; done || lia).
    rewrite elems_after_blank by by apply blank_newline. specialize (IH y n HF). cbn [map] in IH.
    rewrite IH by (done || simpl in *; lia). done.
Qed.

Lemma members_print ind kv l n rest :
  blank ind -> Forall (fun kv => reads_pretty kv.2) (kv :: l) -> members_wf (kv :: l) = true ->
  list_sum (map (fun kv => 1 + jsize kv.2) (kv :: l)) <= n ->
  parse_members n (join ("," +:+ newline (ind +:+ gap)) (pretty_members (ind +:+ gap) (kv :: l)) +:+ newline ind +:+ "}" +:+ rest)
  = Some (kv :: l, rest).
Proof.
  intros Hb. pose proof (blank_gap ind Hb) as Hb'. revert kv n. induction l as [|kv' l IH]; intros [k x] n HF Hwf Hn;
    apply Forall_cons in HF as [Hx HF]; apply members_wf_cons in Hwf as (_ & Hwx & Hwf);
    (destruct n as [|n]; [simpl in Hn; lia|]); pose proof (jsize_pos x); unfold pretty_members; cbn [map fst snd].
  - cbn [join]. rewrite !str_app_assoc, members_step. rewrite Hx by (simpl in *; done || lia).
    cbn [mbind option_bind]. rewrite skip_blank by by apply blank_newline. done.
  - rewrite join_cons2, !str_app_assoc, members_step. rewrite Hx by (simpl in *; done || lia).
    cbn [mbind option_bind]. change ("," +:+ ?t) with (String ","%char t). rewrite (skip_ws_char ","%char) by done. cbv iota beta.
    cbn [String.append]. rewrite members_after_blank by by apply blank_newline.
    specialize (IH kv' n HF Hwf). unfold pretty_members in IH.
    cbn [map fst snd String.append] in IH. rewrite IH by (simpl in *; lia). done.
Qed.

Lemma bracketed_app o c ind items rest :
  bracketed o c ind items +:+ rest
  = String o (newline (ind +:+ gap) +:+ join ("," +:+ newline (ind +:+ gap)) items +:+ newline ind +:+ String c rest).
Proof. unfold bracketed. cbn [String.append]. by rewrite !str_app_assoc. Qed.

Lemma join_head sep x l c r : x = String c r -> exists t, join sep (x :: l) = String c t.
Proof. intros ->. destruct l; [by eexists|]. rewrite join_cons2. by eexists. Qed.

Lemma reads_pretty_all v : reads_pretty v.
Proof.
  induction v as [| |b|z|s|l IH|l IH] using js_ind'; intros Hwf ind [|n] rest Hb Hn Hr;
    try done; try (simpl in Hn; lia).
  - by destruct b.
  - by apply parse_num_value.
  - apply parse_str_value.
  - destruct l as [|x l]; [done|]. rewrite pretty_arr, bracketed_app.
    destruct (pretty_head (ind +:+ gap) x) as (c & r & E & Hws & Hc).
    destruct (join_head ("," +:+ newline (ind +:+ gap)) _ (map (pretty_at (ind +:+ gap)) l) c r E) as (t & Ht).
    assert (parse_elems n (String c t +:+ newline ind +:+ "]" +:+ rest) = Some (x :: l, rest)) as Hp.
    { rewrite <- Ht. apply elems_print; try done. simpl in *. lia. }
    cbn [map]. rewrite Ht. cbn [parse_value]. rewrite (skip_ws_char "["%char) by done. cbv iota beta.
    rewrite skip_blank by auto with js. change (String "]"%char rest) with ("]" +:+ rest). cbn [String.append] in Hp |- *.
    rewrite (skip_ws_char c) by done.
    destruct c as [[] [] [] [] [] [] [] []]; try (rewrite Hp; reflexivity); done.
  - destruct l as [|kv l]; [done|]. rewrite pretty_obj, bracketed_app by done.
    destruct (join_head ("," +:+ newline (ind +:+ gap)) (quote kv.1 +:+ ": " +:+ pretty_at (ind +:+ gap) kv.2)
      (pretty_members (ind +:+ gap) l) "034"%char (str_flat_map quote_char kv.1 +:+ dq +:+ ": " +:+ pretty_at (ind +:+ gap) kv.2)) as (t & Ht);
      [by rewrite quote_app|].
    assert (parse_members n (String "034"%char t +:+ newline ind +:+ "}" +:+ rest) = Some (kv :: l, rest)) as Hp.
    { rewrite <- Ht. apply (members_print ind kv l); try done. simpl in *. lia. }
    unfold pretty_members. cbn [map]. fold (pretty_members (ind +:+ gap) l). rewrite Ht.
    cbn [parse_value]. rewrite (skip_ws_char "{"%char) by done. cbv iota beta.
    rewrite skip_blank by auto with js. change (String "}"%char rest) with ("}" +:+ rest). cbn [String.append] in Hp |- *.
    rewrite (skip_ws_char "034"%char) by done. cbv iota beta. rewrite Hp. cbn [mbind option_bind].
    by rewrite spread_wf by (done || naive_solver).
Qed.

Lemma sum_le_length (sep : string) (sizes : list (nat * string)) :
  1 <= String.length sep -> Forall (fun p => p.1 <= String.length p.2) sizes ->
  list_sum (map (fun p => 1 + p.1) sizes) <= 1 + String.length (join sep (map snd sizes)).
Proof.
  intros Hs. induction 1 as [|p l Hp Hl IH]; [simpl; lia|]. destruct l as [|q l]; [simpl in *; lia|].
  cbn [map] in *. rewrite join_cons2, !str_length_app. unfold list_sum in *. cbn [foldr] in *. lia.
Qed.

Lemma jsize_le_pretty v : json_wf v = true -> forall ind, jsize v <= String.length (pretty_at ind v).
Proof.
  induction v as [| |b|z|s|l IH|l IH] using js_ind'; intros Hwf ind; try (apply (jsize_le_length _ Hwf)).
  - destruct l as [|x l]; [simpl; lia|]. rewrite pretty_arr. unfold bracketed. cbn [String.length]. rewrite !str_length_app.
    pose proof (sum_le_length ("," +:+ newline (ind +:+ gap)) (map (fun v => (jsize v, pretty_at (ind +:+ gap) v)) (x :: l))) as H.
    rewrite !map_map in H. cbn [fst snd] in H. cbn [jsize String.length] in *.
    assert (forallb json_wf (x :: l) = true) as Hf by done. clear Hwf.
    enough (list_sum (map (fun v => 1 + jsize v) (x :: l)) <= 1 + String.length (join ("," +:+ newline (ind +:+ gap)) (map (pretty_at (ind +:+ gap)) (x :: l)))) by (unfold newline in *; cbn [String.length] in *; lia).
    apply H; [cbn; lia|]. rewrite List.Forall_forall in IH |- *. rewrite forallb_forall in Hf.
    intros p Hp. apply in_map_iff in Hp as (v & <- & Hv). cbn. by apply IH, Hf.
  - destruct l as [|kv l]; [simpl; lia|]. rewrite pretty_obj by done. unfold bracketed. cbn [String.length]. rewrite !str_length_app.
    pose proof (sum_le_length ("," +:+ newline (ind +:+ gap))
      (map (fun kv => (jsize kv.2, quote kv.1 +:+ ": " +:+ pretty_at (ind +:+ gap) kv.2)) (kv :: l))) as H.
    rewrite !map_map in H. cbn [fst snd] in H.
    enough (list_sum (map (fun kv => 1 + jsize kv.2) (kv :: l)) <= 1 + String.length (join ("," +:+ newline (ind +:+ gap)) (pretty_members (ind +:+ gap) (kv :: l))))
      by (cbn [jsize]; unfold newline in *; cbn [String.length] in *; lia).
    apply H; [cbn; lia|]. clear H. assert (forall k x, In (k, x) (kv :: l) -> json_wf x = true) as Hf.
    { clear IH. revert Hwf. generalize (kv :: l) as m. induction m as [|[k x] m IHm]; intros Hwf k' x'; [done|].
      apply members_wf_cons in Hwf as (_ & Hx & Hm). intros [[= -> ->]|Hin]; [done|by eapply IHm]. }
    rewrite List.Forall_forall in IH |- *. intros p Hp. apply in_map_iff in Hp as ([k x] & <- & Hv). cbn [fst snd].
    rewrite !str_length_app. specialize (IH (k, x) Hv (Hf k x Hv) (ind +:+ gap)). cbn [snd] in IH. lia.
Qed.

(** [JSON.parse(JSON.stringify(v, null, 2))] is [v]. *)
Lemma JSON_parse_pretty v : json_wf v = true -> JSON_parse (pretty v) = Some v.
Proof.
  intros Hwf. unfold JSON_parse, pretty. pose proof (jsize_le_pretty v Hwf "").
  rewrite <- (str_app_nil_r (pretty_at "" v)) at 2. by rewrite reads_pretty_all by (done || lia).
Qed.

#[global] Arguments pretty : simpl never.
