(* ===== verification/Passwords.v ===== *)
(** * How strong a password is (console/src/app/settings/password-strength and settings/password)

    The two pages rate a password each in its own way, by its length, the kinds of its
    characters and, on the first, the patterns in it.  Numbers are exact: the entropy is the
    whole number closest to its real value, the times are rounded quotients. *)

From S2P Require Import Prelude JsValue JsString.
#[local] Open Scope Z_scope.

(** ** Kinds of characters *)

Definition is_lower (c : Ascii.ascii) : bool := let n := code c in ((97 <=? n) && (n <=? 122))%nat.
Definition is_upper (c : Ascii.ascii) : bool := let n := code c in ((65 <=? n) && (n <=? 90))%nat.
Definition is_symbol (c : Ascii.ascii) : bool := negb (is_alnum c).

(** [/[...]/.test(s)]. *)
Definition has (P : Ascii.ascii -> bool) (s : string) : bool := negb (str_forall (fun c => negb (P c)) s).

Definition weigh (b : bool) (n : Z) : Z := if b then n else 0.

Definition charset_size (pw : string) : Z :=
  weigh (has is_lower pw) 26 + weigh (has is_upper pw) 26 + weigh (has is_digit pw) 10 + weigh (has is_symbol pw) 32.

Definition len (pw : string) : Z := Z.of_nat (String.length pw).

(** [Math.round(a / b)]. *)
Definition round_div (a b : Z) : Z := (2 * a + b) / (2 * b).

(** Guesses in a second. *)
Definition rate : Z := 10 ^ 10.
Definition year : Z := 31536000.

(** ** The strength tester *)

Definition COMMON : list string :=
  ["password"; "123456"; "qwerty"; "admin"; "welcome"; "letmein"; "monkey"; "dragon"; "master"; "login"].
Definition SEQUENCES : list string := ["abcdefghijklmnopqrstuvwxyz"; "0123456789"; "qwertyuiop"; "asdfghjkl"].

(** Four letters of the row, or its last three. *)
Definition row_found (lower row : string) : bool :=
  existsb (fun i => str_includes (String.substring i 4 row) lower) (seq 0 (String.length row - 2)).

(** [/(.)\1{2,}/]: a character three times, line ends apart. *)
Definition not_line_end (c : Ascii.ascii) : bool := negb (Ascii.eqb c (chr 10) || Ascii.eqb c (chr 13)).
Fixpoint repeats (s : string) : bool :=
  match s with
  | String a ((String b (String c _)) as s') => Ascii.eqb a b && Ascii.eqb b c && not_line_end a || repeats s'
  | _ => false
  end.

Definition find_patterns (pw : string) : list string :=
  let lower := to_lower pw in
  map (fun _ => "sequence") (List.filter (row_found lower) SEQUENCES)
  ++ (if repeats pw then ["repeat"] else [])
  ++ (if existsb (fun c => str_includes c lower) COMMON then ["common"] else []).

Definition entropy_of (pw : string) : Z :=
  (Z.log2 (Z.max (charset_size pw) 1 ^ (2 * len pw)) + 1) / 2.

(** [if (b) score++]. *)
Definition bump (b : bool) (score : Z) : Z := if b then score + 1 else score.

Definition score_of (pw : string) : Z :=
  let patterns := find_patterns pw in
  let score := bump (8 <=? len pw) 0 in
  let score := bump ((12 <=? len pw) && (36 <=? charset_size pw)) score in
  let score := bump ((16 <=? len pw) && (62 <=? charset_size pw)) score in
  let score := bump (Nat.eqb (length patterns) 0 && (60 <=? entropy_of pw)) score in
  let score := if str_mem "common" patterns || (len pw <? 6) then 0 else score in
  let score := if (1 <? length patterns)%nat && (1 <? score) then 1 else score in
  Z.min 4 (Z.max 0 score).

Definition guesses_of (pw : string) : Z := Z.max (charset_size pw) 1 ^ len pw.

Definition crack_time (guesses : Z) : string :=
  let rounded d := string_of_Z (round_div guesses (rate * d)) in
  if guesses <? rate then "instant"
  else if guesses <? rate * 60 then rounded 1 +:+ " seconds"
  else if guesses <? rate * 3600 then rounded 60 +:+ " minutes"
  else if guesses <? rate * 86400 then rounded 3600 +:+ " hours"
  else if guesses <? rate * year then rounded 86400 +:+ " days"
  else if guesses <? rate * (year * 1000) then rounded year +:+ " years"
  else if guesses <? rate * (year * 10 ^ 9) then rounded (year * 1000) +:+ " thousand years"
  else "centuries".

Definition warning_of (patterns : list string) : string :=
  let warning := if str_mem "common" patterns then "Contains a common password" else "" in
  let warning := if str_mem "sequence" patterns then str_or warning "Contains a sequence" else warning in
  if str_mem "repeat" patterns then str_or warning "Contains repeated characters" else warning.

(** [if (b) suggestions.push(s)]. *)
Definition push_if (b : bool) (s : string) (l : list string) : list string := if b then l ++ [s] else l.

Definition suggestions_of (pw : string) : list string :=
  let patterns := find_patterns pw in
  let l := push_if (str_mem "common" patterns) "Avoid common words and patterns" [] in
  let l := push_if (str_mem "sequence" patterns) "Avoid sequences (abc, 123, qwerty)" l in
  let l := push_if (str_mem "repeat" patterns) "Avoid repeated characters (aaa, 111)" l in
  let l := push_if (len pw <? 12) "Use 12+ characters" l in
  let l := push_if (negb (has is_upper pw)) "Add uppercase letters" l in
  let l := push_if (negb (has is_digit pw)) "Add numbers" l in
  let l := push_if (negb (has is_symbol pw)) "Add symbols (!@#$)" l in
  let l := push_if ((4 <=? score_of pw) && Nat.eqb (length l) 0) "" l in
  List.filter (fun s => negb (String.eqb s "")) l.

Record rating := Rating {
  score : Z; guesses : Z; crackTime : string; entropy : Z; warning : string; suggestions : list string; patterns : list string }.

Definition scorePassword (pw : string) : rating :=
  if String.eqb pw "" then Rating 0 0 "—" 0 "" [] []
  else Rating (score_of pw) (guesses_of pw) (crack_time (guesses_of pw)) (entropy_of pw)
         (warning_of (find_patterns pw)) (suggestions_of pw) (find_patterns pw).

(** ** The meter of the policy page *)

Record strength := Strength { st_score : Z; st_label : string; st_color : string; st_crackTime : string }.

Definition meter_score (pw : string) : Z :=
  let score := bump (8 <=? len pw) 0 in
  let score := bump (12 <=? len pw) score in
  let score := bump (16 <=? len pw) score in
  let score := bump (has is_lower pw) score in
  let score := bump (has is_upper pw) score in
  let score := bump (has is_digit pw) score in
  bump (has is_symbol pw) score.

Definition meter_time (pw : string) : string :=
  let combinations := charset_size pw ^ len pw in
  let rounded d := string_of_Z (round_div combinations (rate * d)) in
  if combinations <? rate then "instant"
  else if combinations <? rate * 60 then rounded 1 +:+ " seconds"
  else if combinations <? rate * 3600 then rounded 60 +:+ " minutes"
  else if combinations <? rate * 86400 then rounded 3600 +:+ " hours"
  else if combinations <? rate * year then rounded 86400 +:+ " days"
  else if combinations <? rate * (year * 100) then rounded year +:+ " years"
  else if combinations <? rate * (year * 10 ^ 6) then rounded (year * 1000) +:+ "K years"
  else "centuries+".

Definition meter_grade (score : Z) : string * string :=
  if score <=? 2 then ("Very Weak", "bg-red-500")
  else if score <=? 3 then ("Weak", "bg-orange-500")
  else if score <=? 4 then ("Fair", "bg-yellow-500")
  else if score <=? 5 then ("Strong", "bg-green-500")
  else ("Very Strong", "bg-emerald-600").

Definition estimateStrength (pw : string) : strength :=
  if String.eqb pw "" then Strength 0 "—" "bg-gray-300" "—"
  else Strength (meter_score pw) (meter_grade (meter_score pw)).1 (meter_grade (meter_score pw)).2 (meter_time pw).

(** The bars of the meter that are lit, of six. *)
Definition bars (s : strength) : list bool := map (fun i => i <=? st_score s) [1; 2; 3; 4; 5; 6].

(** ** Kinds, counted *)

Lemma has_app P a b : has P (a +:+ b) = has P a || has P b.
Proof. unfold has. by rewrite str_forall_app, negb_andb. Qed.

Lemma len_app a b : len (a +:+ b) = len a + len b.
Proof. unfold len. rewrite str_length_app. lia. Qed.

Lemma len_pos pw : pw <> "" -> 1 <= len pw.
Proof. destruct pw; [done|]. unfold len. cbn [String.length]. lia. Qed.

Lemma weigh_or b c n : 0 <= n -> weigh b n <= weigh (b || c) n /\ weigh c n <= weigh (b || c) n.
Proof. destruct b, c; cbn; lia. Qed.

(** Every character is of one of the four kinds. *)
Lemma kind_of c : is_lower c || is_upper c || is_digit c || is_symbol c = true.
Proof.
  unfold is_symbol, is_alnum, is_lower, is_upper, is_digit. cbv zeta.
  destruct (code c <=? 57)%nat, (48 <=? code c)%nat, (65 <=? code c)%nat, (code c <=? 90)%nat,
    (97 <=? code c)%nat, (code c <=? 122)%nat; reflexivity.
Qed.

Lemma charset_bounds pw : pw <> "" -> 10 <= charset_size pw <= 94.
Proof.
  destruct pw as [|c s]; [done|]. intros _. unfold charset_size, has. cbn [str_forall]. pose proof (kind_of c) as H.
  rewrite !negb_andb, !negb_involutive.
  repeat match goal with |- context [negb (str_forall ?P s)] => generalize (negb (str_forall P s)); intros ? end.
  revert H. destruct (is_lower c), (is_upper c), (is_digit c), (is_symbol c); cbn [orb]; try discriminate; intros _;
    cbn [weigh]; repeat match goal with b : bool |- _ => destruct b end; cbn [weigh]; lia.
Qed.

Lemma charset_app a b : charset_size a <= charset_size (a +:+ b) /\ charset_size b <= charset_size (a +:+ b).
Proof.
  unfold charset_size. rewrite !has_app.
  pose proof (weigh_or (has is_lower a) (has is_lower b) 26). pose proof (weigh_or (has is_upper a) (has is_upper b) 26).
  pose proof (weigh_or (has is_digit a) (has is_digit b) 10). pose proof (weigh_or (has is_symbol a) (has is_symbol b) 32). lia.
Qed.

Lemma charset_nonneg pw : 0 <= charset_size pw.
Proof. unfold charset_size. by destruct (has is_lower pw), (has is_upper pw), (has is_digit pw), (has is_symbol pw). Qed.

(** ** The tester *)

(** The entropy is the whole number closest to [len * log2 charset]: that number lies within
    a half of it. *)
Lemma entropy_nearest pw :
  pw <> "" ->
  2 ^ (2 * entropy_of pw - 1) <= charset_size pw ^ (2 * len pw) < 2 ^ (2 * entropy_of pw + 1).
Proof.
  intros Hne. pose proof (charset_bounds pw Hne) as Hc. pose proof (len_pos pw Hne) as Hl.
  unfold entropy_of. rewrite Z.max_l by lia. set (x := charset_size pw ^ (2 * len pw)).
  assert (0 < x) as Hx by (apply Z.pow_pos_nonneg; lia).
  destruct (Z.log2_spec x Hx) as [H1 H2]. pose proof (Z.log2_nonneg x).
  pose proof (Z.div_mod (Z.log2 x + 1) 2 ltac:(lia)). pose proof (Z.mod_pos_bound (Z.log2 x + 1) 2 ltac:(lia)).
  split.
  - etrans; [|exact H1]. apply Z.pow_le_mono_r; lia.
  - eapply Z.lt_le_trans; [exact H2|]. apply Z.pow_le_mono_r; lia.
Qed.

Lemma entropy_least pw c n :
  1 <= c -> c <= charset_size pw -> 0 <= n -> n <= len pw -> (Z.log2 (c ^ (2 * n)) + 1) / 2 <= entropy_of pw.
Proof.
  intros Hc Hcs Hn Hl. unfold entropy_of. rewrite Z.max_l by lia. apply Z.div_le_mono; [lia|].
  apply Z.add_le_mono_r, Z.log2_le_mono. etrans; [apply Z.pow_le_mono_l; split; [|exact Hcs]; lia|].
  apply Z.pow_le_mono_r; lia.
Qed.

Lemma charset_three pw :
  has is_upper pw = true -> has is_digit pw = true -> has is_symbol pw = true -> 68 <= charset_size pw.
Proof. unfold charset_size. intros -> -> ->. by destruct (has is_lower pw). Qed.

(** The patterns found are among the three. *)
Lemma patterns_known pw p : In p (find_patterns pw) -> p = "sequence" \/ p = "repeat" \/ p = "common".
Proof.
  unfold find_patterns. rewrite !in_app_iff, in_map_iff. intros [(x & <- & _)|[H|H]]; [by left|right; left|right; right].
  - destruct (repeats pw); [by destruct H as [<-|[]]|done].
  - destruct (existsb _ _); [by destruct H as [<-|[]]|done].
Qed.

Lemma no_patterns pw :
  find_patterns pw = []
  <-> str_mem "common" (find_patterns pw) = false /\ str_mem "sequence" (find_patterns pw) = false
      /\ str_mem "repeat" (find_patterns pw) = false.
Proof.
  split; [by intros ->|]. intros (H1 & H2 & H3). destruct (find_patterns pw) as [|p l] eqn:E; [done|].
  apply str_mem_false in H1, H2, H3. destruct (patterns_known pw p) as [->|[->| ->]]; [by rewrite E; left|..];
    exfalso; [apply H2|apply H3|apply H1]; by left.
Qed.

Lemma common_found pw c :
  In c COMMON -> str_includes c (to_lower pw) = true -> str_mem "common" (find_patterns pw) = true.
Proof.
  intros Hc Hi. apply str_mem_In. unfold find_patterns. rewrite !in_app_iff. right. right.
  replace (existsb _ COMMON) with true; [by left|]. symmetry. apply existsb_exists. by exists c.
Qed.

Lemma filter_push b s l P :
  List.filter P (push_if b s l) = List.filter P l ++ (if b then List.filter P [s] else []).
Proof. unfold push_if. destruct b; [apply List.filter_app|by rewrite app_nil_r]. Qed.

(** No suggestion is left exactly when all hold. *)
Lemma no_suggestions pw :
  suggestions_of pw = []
  <-> find_patterns pw = [] /\ 12 <= len pw /\ has is_upper pw = true /\ has is_digit pw = true /\ has is_symbol pw = true.
Proof.
  rewrite no_patterns. unfold suggestions_of. cbv zeta. rewrite !filter_push. cbn [List.filter String.eqb Ascii.eqb Bool.eqb negb].
  destruct (Z.ltb_spec (len pw) 12) as [Hl|Hl], (str_mem "common" _), (str_mem "sequence" _), (str_mem "repeat" _),
    (has is_upper pw), (has is_digit pw), (has is_symbol pw), (_ && _); cbn;
    (split; [intros H; first [discriminate | by split_and!] | intros H; first [done | exfalso; naive_solver lia]]).
Qed.

Lemma score_range pw : 0 <= score_of pw <= 4.
Proof. unfold score_of. cbv zeta. lia. Qed.

(** Without patterns the score counts what the password has. *)
Lemma score_clean pw :
  find_patterns pw = [] -> 6 <= len pw ->
  score_of pw = bump (60 <=? entropy_of pw) (bump ((16 <=? len pw) && (62 <=? charset_size pw))
                  (bump ((12 <=? len pw) && (36 <=? charset_size pw)) (bump (8 <=? len pw) 0))).
Proof.
  intros Hp Hl. unfold score_of. rewrite Hp. cbn [length Nat.eqb Nat.ltb Nat.leb str_mem existsb orb andb]. rewrite (proj2 (Z.ltb_ge _ _)) by done. cbv zeta.
  destruct (8 <=? len pw), (_ && _), (_ && _), (60 <=? entropy_of pw); cbn; lia.
Qed.

Lemma score_dirty pw : find_patterns pw <> [] -> score_of pw <= 3.
Proof.
  intros Hp. unfold score_of. destruct (find_patterns pw) as [|p l]; [done|]. cbv zeta. cbn [length].
  destruct (8 <=? len pw), ((12 <=? len pw) && _), ((16 <=? len pw) && _), (_ || _), (1 <? _)%nat; by vm_compute.
Qed.

Lemma score_four pw : score_of pw = 4 <-> 16 <= len pw /\ 62 <= charset_size pw /\ find_patterns pw = [].
Proof.
  split.
  - intros H4. destruct (decide (find_patterns pw = [])) as [Hp|Hp]; [|pose proof (score_dirty pw Hp); lia].
    destruct (Z.lt_ge_cases (len pw) 6) as [Hl|Hl].
    { revert H4. unfold score_of. rewrite (proj2 (Z.ltb_lt _ _) Hl), orb_true_r. cbv zeta. rewrite andb_false_r. done. }
    rewrite score_clean in H4 by done. split_and!; [..|done]; revert H4;
      destruct (Z.leb_spec 16 (len pw)), (Z.leb_spec 62 (charset_size pw)); cbn [andb bump];
      try lia; destruct (8 <=? len pw), (_ && _), (60 <=? entropy_of pw); cbn; lia.
  - intros (Hl & Hc & Hp). rewrite score_clean by (done || lia).
    pose proof (entropy_least pw 62 16 ltac:(lia) Hc ltac:(lia) Hl) as He.
    change ((Z.log2 (62 ^ (2 * 16)) + 1) / 2) with 95 in He. rewrite !(proj2 (Z.leb_le _ _)) by lia. done.
Qed.

(** C38. The score of the tester: between 0 and 4, and 4 exactly for sixteen characters of 62
    without a pattern.  A common word in it gives 0, two patterns at most 1.  No suggestion is
    made exactly when the password has no pattern, twelve characters, a capital, a digit and a
    symbol, and then its score is 3 or 4. *)
Theorem score_spec pw :
  let r := scorePassword pw in
  0 <= score r <= 4
  /\ (score r = 4 <-> 16 <= len pw /\ 62 <= charset_size pw /\ patterns r = [])
  /\ (forall c, In c COMMON -> str_includes c (to_lower pw) = true -> score r = 0)
  /\ ((1 < length (patterns r))%nat -> score r <= 1)
  /\ (pw <> "" ->
      (suggestions r = []
       <-> patterns r = [] /\ 12 <= len pw /\ has is_upper pw = true /\ has is_digit pw = true /\ has is_symbol pw = true)
      /\ (suggestions r = [] -> 3 <= score r)).
Proof.
  cbv zeta. unfold scorePassword. destruct (String.eqb_spec pw "") as [->|Hne]; cbn [score patterns suggestions].
  { split; [done|]. split; [|split; [|by split]]; [|by intros]. split; [done|]. unfold len. cbn. lia. }
  split; [apply score_range|]. split; [|split; [|split]].
  - apply score_four.
  - intros c Hc Hi. unfold score_of. rewrite (common_found pw c) by done. cbn [orb]. cbv zeta. by rewrite andb_false_r.
  - intros Hp. unfold score_of. rewrite (proj2 (Nat.ltb_lt _ _)) by done. cbv zeta. cbn [andb].
    match goal with |- context [1 <? ?x] => destruct (Z.ltb_spec 1 x); lia end.
  - intros _. split; [apply no_suggestions|]. intros Hs. apply no_suggestions in Hs as (Hp & Hl & Hu & Hd & Hsy).
    pose proof (charset_three pw Hu Hd Hsy) as Hc. rewrite score_clean by (done || lia).
    pose proof (entropy_least pw 68 12 ltac:(lia) Hc ltac:(lia) Hl) as He.
    change ((Z.log2 (68 ^ (2 * 12)) + 1) / 2) with 73 in He.
    rewrite (proj2 (Z.leb_le 60 _)), (proj2 (Z.leb_le 12 _)), (proj2 (Z.leb_le 36 _)), (proj2 (Z.leb_le 8 _)) by lia.
    cbn [andb bump]. destruct (_ && _); cbn; lia.
Qed.

(** ** The meter *)

Definition kinds (pw : string) : Z :=
  weigh (has is_lower pw) 1 + weigh (has is_upper pw) 1 + weigh (has is_digit pw) 1 + weigh (has is_symbol pw) 1.

Lemma bump_weigh b n : bump b n = n + weigh b 1.
Proof. destruct b; cbn; lia. Qed.

Lemma meter_counts pw :
  meter_score pw = weigh (8 <=? len pw) 1 + weigh (12 <=? len pw) 1 + weigh (16 <=? len pw) 1 + kinds pw.
Proof. unfold meter_score, kinds. cbv zeta. rewrite !bump_weigh. lia. Qed.

Lemma kinds_app a b : kinds a <= kinds (a +:+ b) /\ kinds b <= kinds (a +:+ b).
Proof.
  unfold kinds. rewrite !has_app.
  pose proof (weigh_or (has is_lower a) (has is_lower b) 1). pose proof (weigh_or (has is_upper a) (has is_upper b) 1).
  pose proof (weigh_or (has is_digit a) (has is_digit b) 1). pose proof (weigh_or (has is_symbol a) (has is_symbol b) 1). lia.
Qed.

Lemma weigh_le k m n : m <= n -> weigh (k <=? m) 1 <= weigh (k <=? n) 1.
Proof. intros H. destruct (Z.leb_spec k m), (Z.leb_spec k n); cbn; lia. Qed.

Lemma weigh_bit b : 0 <= weigh b 1 <= 1.
Proof. by destruct b. Qed.

Lemma kinds_bounds pw : 0 <= kinds pw <= 4.
Proof.
  unfold kinds. pose proof (weigh_bit (has is_lower pw)). pose proof (weigh_bit (has is_upper pw)).
  pose proof (weigh_bit (has is_digit pw)). pose proof (weigh_bit (has is_symbol pw)). lia.
Qed.

Lemma kinds_of_charset pw : 62 <= charset_size pw -> 3 <= kinds pw.
Proof. unfold charset_size, kinds. by destruct (has is_lower pw), (has is_upper pw), (has is_digit pw), (has is_symbol pw). Qed.

Lemma meter_score_app a b : meter_score a <= meter_score (a +:+ b) /\ meter_score b <= meter_score (a +:+ b).
Proof.
  rewrite !meter_counts, len_app. destruct (kinds_app a b). pose proof (Zle_0_nat (String.length a)). pose proof (Zle_0_nat (String.length b)).
  assert (forall k, weigh (k <=? len a) 1 <= weigh (k <=? len a + len b) 1) as Ha by (intros; apply weigh_le; unfold len; lia).
  assert (forall k, weigh (k <=? len b) 1 <= weigh (k <=? len a + len b) 1) as Hb by (intros; apply weigh_le; unfold len; lia).
  pose proof (Ha 8). pose proof (Ha 12). pose proof (Ha 16). pose proof (Hb 8). pose proof (Hb 12). pose proof (Hb 16). lia.
Qed.

Lemma meter_bounds pw : 0 <= meter_score pw <= 7.
Proof.
  rewrite meter_counts. pose proof (kinds_bounds pw).
  pose proof (weigh_bit (8 <=? len pw)). pose proof (weigh_bit (12 <=? len pw)). pose proof (weigh_bit (16 <=? len pw)). lia.
Qed.

Lemma combinations_app a b :
  charset_size a ^ len a <= charset_size (a +:+ b) ^ len (a +:+ b)
  /\ charset_size b ^ len b <= charset_size (a +:+ b) ^ len (a +:+ b).
Proof.
  destruct (charset_app a b) as [Ha Hb]. pose proof (charset_nonneg a). pose proof (charset_nonneg b). rewrite len_app.
  assert (a +:+ b = "" \/ 10 <= charset_size (a +:+ b)) as [E|Hc].
  { destruct (decide (a +:+ b = "")) as [E|E]; [by left|right]. apply charset_bounds, E. }
  - destruct a; [|discriminate]. destruct b; [|discriminate]. done.
  - assert (forall s, 0 <= len s) as Hl by (intros; unfold len; lia). pose proof (Hl a). pose proof (Hl b).
    split; (etrans; [apply Z.pow_le_mono_l; split; [|eassumption]; lia|apply Z.pow_le_mono_r; lia]).
Qed.

Lemma estimate_score pw : st_score (estimateStrength pw) = meter_score pw.
Proof. unfold estimateStrength. by destruct (String.eqb_spec pw "") as [->|]. Qed.

(** The meter counts: its score, between 0 and 7, is the three lengths reached and the
    kinds of characters, and nothing put before or after a password lowers it, nor the number
    of combinations behind the time it shows.  A password the tester gives its full score is
    "Very Strong" here; the meter looks at no pattern, so the converse fails. *)
Lemma meter_grows a pw b :
  let st s := st_score (estimateStrength s) in
  0 <= st pw <= 7 /\ st pw <= st (a +:+ pw +:+ b)
  /\ charset_size pw ^ len pw <= charset_size (a +:+ pw +:+ b) ^ len (a +:+ pw +:+ b)
  /\ (score (scorePassword pw) = 4 -> st_label (estimateStrength pw) = "Very Strong").
Proof.
  cbv beta zeta. rewrite !estimate_score. split; [apply meter_bounds|]. split; [|split].
  - etrans; [apply (meter_score_app pw b)|apply meter_score_app].
  - etrans; [apply (combinations_app pw b)|apply combinations_app].
  - intros H4. destruct (decide (pw = "")) as [->|Hne]; [discriminate|].
    assert (16 <= len pw /\ 62 <= charset_size pw) as [Hl Hc].
    { unfold scorePassword in H4. rewrite eqb_str_false in H4 by done. cbn [score] in H4. by apply score_four in H4 as (? & ? & _). }
    unfold estimateStrength. rewrite eqb_str_false by done. cbn [st_label]. pose proof (kinds_of_charset pw Hc).
    assert (6 <= meter_score pw).
    { rewrite meter_counts. rewrite !(proj2 (Z.leb_le _ _)) by lia. cbn [weigh]. lia. }
    unfold meter_grade. rewrite !(proj2 (Z.leb_gt _ _)) by lia. done.
Qed.

(** ** What the pages say *)

(** The two pages disagree on a word with decorations. *)
Example pages_disagree :
  st_label (estimateStrength "Password1234!") = "Very Strong" /\ score (scorePassword "Password1234!") = 0.
Proof. vm_compute. done. Qed.

(** The tester's advice names sequences it does not look for: three letters count only at
    the end of a row. *)
Example short_sequences :
  patterns (scorePassword "Kabc_99t4W") = [] /\ patterns (scorePassword "Kxyz_99t4W") = ["sequence"]
  /\ patterns (scorePassword "K123_t4Waa") = [] /\ patterns (scorePassword "K789_t4Waa") = ["sequence"].
Proof. vm_compute. done. Qed.

(** Adding to a password can lower its score on the tester. *)
Example tester_falls :
  score (scorePassword "vT7#mQ2x!rK9zW4p") = 4 /\ score (scorePassword "vT7#mQ2x!rK9zW4padmin") = 0
  /\ suggestions (scorePassword "vT7#mQ2x!rK9zW4p") = []
  /\ crackTime (scorePassword "hunter2") = "8 seconds" /\ entropy (scorePassword "hunter2") = 36.
Proof. vm_compute. done. Qed.

Lemma score_spec_witness :
  suggestions (scorePassword "vT7#mQ2x!rK9") = [] /\ 3 <= score (scorePassword "vT7#mQ2x!rK9")
  /\ score (scorePassword "my-Welcome-2024!") = 0.
Proof.
  split; [vm_compute; reflexivity|]. split.
  - refine (proj2 (proj2 (proj2 (proj2 (proj2 (score_spec "vT7#mQ2x!rK9")))) _) _); [discriminate|vm_compute; reflexivity].
  - refine (proj1 (proj2 (proj2 (score_spec "my-Welcome-2024!"))) "welcome" _ _); [cbn; tauto|vm_compute; reflexivity].
Defined.
