(* ===== verification/PasswordPolicy.v ===== *)
(** * The password policy (console/src/app/settings/password, password-policy, password-strength)

    Two pages edit the same policy: [InBrowser] keeps it in the browser's storage and sends it to
    the server, [OnServer] reads it from the server and keeps it in the storage when the server
    fails; [Tester] is the settings tab of the strength tester.  The policy is the object the
    code spreads, member by member.  [t] is the translation. *)

From S2P Require Import Prelude JsValue JsString JsNumber Json Effects ApiClient Webauthn Passwords.
#[local] Open Scope Z_scope.

(** ** The policy *)

Notation config := (list (string * js)).

Definition STORAGE_KEY : string := "ggid_password_policy".

Definition cfg (c : config) (k : string) : js := default JUndef (assoc k c).
Definition on (c : config) (k : string) : bool := truthy (cfg c k).

(** [Number(v)]; [None] is NaN. *)
Definition to_number (v : js) : option Z :=
  match v with
  | JUndef => None
  | JNull => Some 0
  | JBool b => Some (if b then 1 else 0)
  | JNum z => Some z
  | _ => match number_or_text (to_str v) with JNum z => Some z | _ => None end
  end.

(** [n >= v]. *)
Definition at_least (n : Z) (v : js) : bool := match to_number v with Some z => z <=? n | None => false end.

(** [Math.max(lo, Math.min(hi, n || d))], where [n] is what [Number(e.target.value)] reads: a
    whole number, or [None] for NaN.  A typed fraction is left out: numbers are whole here. *)
Definition clamp (lo hi d : Z) (n : option Z) : Z := Z.max lo (Z.min hi (num_or d n)).

Inductive rule :=
| min_length | require_uppercase | require_lowercase | require_digit | require_special | prevent_username
| prevent_common | history_count | expiry_days | force_change_on_next_login.

(** The test both pages make, each with its own list of common passwords. *)
Definition rule_holds (COMMON_PASSWORDS : list string) (c : config) (testPw testUsername : string) (r : rule) : bool :=
  if String.eqb testPw "" then false else
  match r with
  | min_length => at_least (len testPw) (cfg c "min_length")
  | require_uppercase => has is_upper testPw
  | require_lowercase => has is_lower testPw
  | require_digit => has is_digit testPw
  | require_special => has is_symbol testPw
  | prevent_username =>
      if negb (on c "prevent_username") || String.eqb testUsername "" then true
      else negb (str_includes (to_lower testUsername) (to_lower testPw))
  | prevent_common =>
      if negb (on c "prevent_common") then true
      else negb (str_mem (to_lower testPw) COMMON_PASSWORDS)
  | _ => false
  end.

Definition base_config : config :=
  [("min_length", JNum 12); ("require_uppercase", JBool true); ("require_lowercase", JBool true); ("require_digit", JBool true);
   ("require_special", JBool true); ("prevent_username", JBool true); ("prevent_common", JBool false); ("history_count", JNum 5);
   ("expiry_days", JNum 90)].

(** ** The policy kept in the browser (settings/password) *)

Module InBrowser.

Definition defaultConfig : config := base_config ++ [("force_change_on_next_login", JBool false)].

Definition COMMON_PASSWORDS : list string :=
  ["password"; "12345678"; "qwerty"; "abc123"; "letmein"; "admin"; "welcome"; "monkey"; "dragon"; "master";
   "sunshine"; "iloveyou"; "princess"; "passw0rd"; "football"; "baseball"; "superman"; "trustno1"; "hello123"; "charlie";
   "00000000"; "11111111"; "12341234"; "password1"; "qwerty123"; "welcome1"; "admin123"; "letmein1"; "abc12345"; "test1234";
   "iloveyou1"; "welcome123"; "1q2w3e4r"; "passw0rd1"; "princess1"; "football1"; "baseball1"; "dragon1"; "master1"; "monkey1";
   "shadow"; "michael"; "jennifer"; "jordan"; "hunter"; "robert"; "andrew"; "jessica"; "harley"; "ranger";
   "pepper"; "ginger"; "austin"; "joshua"; "thomas"].

Definition TOTAL_BLACKLIST : Z := 10000.

Inductive message := success | failure.

Record page_state := Page {
  policy : config;
  msg : option string;
  msgType : message;
  saving : bool;
  testPw : string;
  testUsername : string;
  showPassword : bool;
  showBlacklist : bool }.

Definition setConfig (v : config) : prog page_state unit :=
  upd (fun s => Page v (msg s) (msgType s) (saving s) (testPw s) (testUsername s) (showPassword s) (showBlacklist s)).
Definition setMsg (v : option string) : prog page_state unit :=
  upd (fun s => Page (policy s) v (msgType s) (saving s) (testPw s) (testUsername s) (showPassword s) (showBlacklist s)).
Definition setMsgType (v : message) : prog page_state unit :=
  upd (fun s => Page (policy s) (msg s) v (saving s) (testPw s) (testUsername s) (showPassword s) (showBlacklist s)).
Definition setSaving (v : bool) : prog page_state unit :=
  upd (fun s => Page (policy s) (msg s) (msgType s) v (testPw s) (testUsername s) (showPassword s) (showBlacklist s)).
Definition setTestPw (v : string) : prog page_state unit :=
  upd (fun s => Page (policy s) (msg s) (msgType s) (saving s) v (testUsername s) (showPassword s) (showBlacklist s)).
Definition setTestUsername (v : string) : prog page_state unit :=
  upd (fun s => Page (policy s) (msg s) (msgType s) (saving s) (testPw s) v (showPassword s) (showBlacklist s)).
Definition setShowPassword (v : bool) : prog page_state unit :=
  upd (fun s => Page (policy s) (msg s) (msgType s) (saving s) (testPw s) (testUsername s) v (showBlacklist s)).
Definition setShowBlacklist (v : bool) : prog page_state unit :=
  upd (fun s => Page (policy s) (msg s) (msgType s) (saving s) (testPw s) (testUsername s) (showPassword s) v).

Definition page_init : page_state := Page defaultConfig None success false "" "" false false.

Section Handlers.
Context (API_BASE TENANT_ID : string).

Definition stored_policy (defaults : config) (stored : string) : option config :=
  (fun v => spread defaults (own_members v)) <$> JSON_parse stored.

Definition mount : prog page_state unit :=
  stored ← getItem Local STORAGE_KEY;
  match nonempty stored with
  | Some text => match stored_policy defaultConfig text with Some c => setConfig c | None => mret tt end
  | None => mret tt
  end.

(** The timer of a message. *)
Definition clear_message : prog page_state unit := setMsg None.

Definition save_request (c : config) : option RequestInit :=
  Some {| ri_method := Some PUT; ri_headers := []; ri_body := Some (stringify (JObj c)) |}.

Definition handleSave (s : page_state) : prog page_state unit :=
  setSaving true;;
  finally
    (try_catch
       (apiFetch true API_BASE TENANT_ID "/api/v1/auth/password-policy" (save_request (policy s));;
        setMsg (Some "Password policy saved to server");;
        setMsgType success;;
        setItem Local STORAGE_KEY (stringify (JObj (policy s))))
       (fun _ =>
        setItem Local STORAGE_KEY (stringify (JObj (policy s)));;
        setMsg (Some "Endpoint unavailable — saved to localStorage");;
        setMsgType failure))
    (setSaving false).

Definition handleReset : prog page_state unit :=
  setConfig defaultConfig;;
  setTestPw "";;
  setTestUsername "";;
  removeItem Local STORAGE_KEY;;
  setMsg (Some "Policy reset to defaults");;
  setMsgType success.

(** [setConfig({ ...config, [k]: v })]. *)
Definition change (s : page_state) (k : string) (v : js) : prog page_state unit := setConfig (assoc_set k v (policy s)).

(** The toggles and checkboxes. *)
Definition flags : list string :=
  ["require_uppercase"; "require_lowercase"; "require_digit"; "require_special"; "prevent_username"; "prevent_common";
   "force_change_on_next_login"].
Definition toggle (s : page_state) (k : string) (v : bool) : prog page_state unit := change s k (JBool v).

(** The sliders give a number of their range. *)
Definition slide (s : page_state) (k : string) (v : Z) : prog page_state unit := change s k (JNum v).
Definition type_expiry (s : page_state) (v : option Z) : prog page_state unit := change s "expiry_days" (JNum (clamp 0 365 0 v)).
Definition type_history (s : page_state) (v : option Z) : prog page_state unit := change s "history_count" (JNum (clamp 0 24 0 v)).
End Handlers.

(** *** The test of a password *)

Definition checkRule (s : page_state) (r : rule) : bool :=
  rule_holds COMMON_PASSWORDS (policy s) (testPw s) (testUsername s) r.

(** [if (b) rules.push(r)]. *)
Definition push_rule (b : bool) (r : rule) (l : list rule) : list rule := if b then l ++ [r] else l.

Definition rules_checked (c : config) : list rule :=
  let rules := [min_length] in
  let rules := push_rule (on c "require_uppercase") require_uppercase rules in
  let rules := push_rule (on c "require_lowercase") require_lowercase rules in
  let rules := push_rule (on c "require_digit") require_digit rules in
  let rules := push_rule (on c "require_special") require_special rules in
  let rules := push_rule (on c "prevent_username") prevent_username rules in
  push_rule (on c "prevent_common") prevent_common rules.

Definition allRulesPass (s : page_state) : bool :=
  if String.eqb (testPw s) "" then false else forallb (checkRule s) (rules_checked (policy s)).

Definition strength_shown (s : page_state) : strength := estimateStrength (testPw s).
End InBrowser.

(** ** The policy of the server (settings/password-policy) *)

Module OnServer.

Definition defaultConfig : config := base_config.

Definition COMMON_PASSWORDS : list string :=
  ["password"; "12345678"; "qwerty"; "abc123"; "letmein"; "admin"; "welcome"; "monkey"; "dragon"; "master";
   "sunshine"; "iloveyou"; "princess"; "passw0rd"; "football"; "baseball"; "superman"; "trustno1"; "hello123"; "charlie"].

(** [cancelled] is the flag of the effect that loads. *)
Record page_state := Page {
  policy : config;
  msg : option string;
  saving : bool;
  testPw : string;
  testUsername : string;
  loading : bool;
  error_ : option string;
  cancelled : bool }.

Definition setConfig (v : config) : prog page_state unit :=
  upd (fun s => Page v (msg s) (saving s) (testPw s) (testUsername s) (loading s) (error_ s) (cancelled s)).
Definition setMsg (v : option string) : prog page_state unit :=
  upd (fun s => Page (policy s) v (saving s) (testPw s) (testUsername s) (loading s) (error_ s) (cancelled s)).
Definition setSaving (v : bool) : prog page_state unit :=
  upd (fun s => Page (policy s) (msg s) v (testPw s) (testUsername s) (loading s) (error_ s) (cancelled s)).
Definition setTestPw (v : string) : prog page_state unit :=
  upd (fun s => Page (policy s) (msg s) (saving s) v (testUsername s) (loading s) (error_ s) (cancelled s)).
Definition setTestUsername (v : string) : prog page_state unit :=
  upd (fun s => Page (policy s) (msg s) (saving s) (testPw s) v (loading s) (error_ s) (cancelled s)).
Definition setLoading (v : bool) : prog page_state unit :=
  upd (fun s => Page (policy s) (msg s) (saving s) (testPw s) (testUsername s) v (error_ s) (cancelled s)).
Definition setCancelled (v : bool) : prog page_state unit :=
  upd (fun s => Page (policy s) (msg s) (saving s) (testPw s) (testUsername s) (loading s) (error_ s) v).

Definition page_init : page_state := Page defaultConfig None false "" "" true None false.

(** [v?.length ? true : false]. *)
Definition has_length (v : js) : bool :=
  match v with
  | JArr l => negb (Nat.eqb (length l) 0)
  | JStr s => negb (String.eqb s "")
  | JObj _ => truthy (opt_prop v "length")
  | _ => false
  end.

(** [data.k1 ?? data.k2 ?? ... ?? defaultConfig.k]. *)
Definition first_given (data : js) (ks : list string) (k : string) : js :=
  foldr (fun k' rest => js_nullish (opt_prop data k') rest) (cfg defaultConfig k) ks.

(** Members of the server's answer, under the names the page knows. *)
Definition from_server (data : js) : config :=
  [("min_length", first_given data ["min_length"; "MinLength"] "min_length");
   ("require_uppercase", first_given data ["require_uppercase"; "require_upper"; "RequireUpper"] "require_uppercase");
   ("require_lowercase", first_given data ["require_lowercase"; "require_lower"; "RequireLower"] "require_lowercase");
   ("require_digit", first_given data ["require_digit"; "RequireDigit"] "require_digit");
   ("require_special", first_given data ["require_special"; "RequireSpecial"] "require_special");
   ("prevent_username", first_given data ["prevent_username"] "prevent_username");
   ("prevent_common", js_or (opt_prop data "prevent_common")
                        (js_or (JBool (has_length (opt_prop data "Blacklist"))) (cfg defaultConfig "prevent_common")));
   ("history_count", first_given data ["history_count"; "HistoryCount"] "history_count");
   ("expiry_days", first_given data ["expiry_days"; "max_age_days"; "MaxAgeDays"] "expiry_days")].

Section Handlers.
Context (API_BASE TENANT_ID : string) (t : string -> string).

Definition mount : prog page_state unit :=
  try_catch
    (data ← apiFetch true API_BASE TENANT_ID "/api/v1/auth/password/policy" None;
     s ← get_state;
     if negb (cancelled s) && truthy data then setConfig (from_server data) else mret tt)
    (fun _ =>
     stored ← getItem Local STORAGE_KEY;
     match nonempty stored with
     | Some text => match InBrowser.stored_policy defaultConfig text with Some c => setConfig c | None => mret tt end
     | None => mret tt
     end);;
  s ← get_state;
  if negb (cancelled s) then setLoading false else mret tt.

Definition unmount : prog page_state unit := setCancelled true.
Definition clear_message : prog page_state unit := setMsg None.

Definition blacklist (c : config) : js := strs (if on c "prevent_common" then COMMON_PASSWORDS else []).

Definition post_body (c : config) : js :=
  JObj [("min_length", cfg c "min_length"); ("require_uppercase", cfg c "require_uppercase");
        ("require_lowercase", cfg c "require_lowercase"); ("require_digit", cfg c "require_digit");
        ("require_special", cfg c "require_special"); ("blacklist", blacklist c)].
Definition put_body (c : config) : js :=
  JObj [("min_length", cfg c "min_length"); ("require_upper", cfg c "require_uppercase");
        ("require_lower", cfg c "require_lowercase"); ("require_digit", cfg c "require_digit");
        ("require_special", cfg c "require_special"); ("history_count", cfg c "history_count"); ("blacklist", blacklist c)].

Definition sending (m : method) (body : js) : option RequestInit :=
  Some {| ri_method := Some m; ri_headers := []; ri_body := Some (stringify body) |}.

Definition handleSave (s : page_state) : prog page_state unit :=
  let c := policy s in
  setSaving true;;
  finally
    (try_catch
       (apiFetch true API_BASE TENANT_ID "/api/v1/auth/password-policy" (sending POST (post_body c));;
        setMsg (Some (t "passwordPolicy.policySaved")))
       (fun _ =>
        try_catch
          (apiFetch true API_BASE TENANT_ID "/api/v1/security/password-policy" (sending PUT (put_body c));;
           setMsg (Some (t "passwordPolicy.policySaved")))
          (fun _ =>
           setItem Local STORAGE_KEY (stringify (JObj c));;
           setMsg (Some (t "settings.endpointUnavailable")))))
    (setSaving false).

(** [setConfig({ ...config, [k]: v })]: the toggles, the sliders and the typed numbers. *)
Definition change (s : page_state) (k : string) (v : js) : prog page_state unit := setConfig (assoc_set k v (policy s)).
Definition toggle (s : page_state) (k : string) (v : bool) : prog page_state unit := change s k (JBool v).
Definition slide (s : page_state) (k : string) (v : Z) : prog page_state unit := change s k (JNum v).
Definition type_length (s : page_state) (v : option Z) : prog page_state unit := change s "min_length" (JNum (clamp 8 128 8 v)).
Definition type_history (s : page_state) (v : option Z) : prog page_state unit := change s "history_count" (JNum (clamp 0 24 0 v)).
Definition type_expiry (s : page_state) (v : option Z) : prog page_state unit := change s "expiry_days" (JNum (clamp 0 365 0 v)).
End Handlers.

Definition checkRule (s : page_state) (r : rule) : bool :=
  rule_holds COMMON_PASSWORDS (policy s) (testPw s) (testUsername s) r.

(** The marks below the test password. *)
Definition marks (s : page_state) : list bool :=
  let c := policy s in
  if String.eqb (testPw s) "" then [] else
  [checkRule s min_length;
   checkRule s require_uppercase || negb (on c "require_uppercase");
   checkRule s require_lowercase || negb (on c "require_lowercase");
   checkRule s require_digit || negb (on c "require_digit");
   checkRule s require_special || negb (on c "require_special")]
  ++ (if on c "prevent_username" then [checkRule s prevent_username] else [])
  ++ (if on c "prevent_common" then [checkRule s prevent_common] else []).
End OnServer.

(** ** The settings of the strength tester *)

Module Tester.

Record tab_state := Tab {
  minScore : Z;
  dictCheck : bool;
  breachCheck : bool;
  blocklist : string;
  saving : bool;
  msg : option string }.

Definition setMinScore (v : Z) : prog tab_state unit :=
  upd (fun s => Tab v (dictCheck s) (breachCheck s) (blocklist s) (saving s) (msg s)).
Definition setDictCheck (v : bool) : prog tab_state unit :=
  upd (fun s => Tab (minScore s) v (breachCheck s) (blocklist s) (saving s) (msg s)).
Definition setBreachCheck (v : bool) : prog tab_state unit :=
  upd (fun s => Tab (minScore s) (dictCheck s) v (blocklist s) (saving s) (msg s)).
Definition setBlocklist (v : string) : prog tab_state unit :=
  upd (fun s => Tab (minScore s) (dictCheck s) (breachCheck s) v (saving s) (msg s)).
Definition setSaving (v : bool) : prog tab_state unit :=
  upd (fun s => Tab (minScore s) (dictCheck s) (breachCheck s) (blocklist s) v (msg s)).
Definition setMsg (v : option string) : prog tab_state unit :=
  upd (fun s => Tab (minScore s) (dictCheck s) (breachCheck s) (blocklist s) (saving s) v).

Definition line_end : string := String (chr 10) "".

Definition tab_init : tab_state :=
  Tab 3 true true (join line_end ["company"; "password"; "admin"; "welcome"; "ggid"]) false None.

(** [blocklist.split("\n").filter(Boolean)]. *)
Definition words_of (blocklist : string) : list string :=
  List.filter (fun w => negb (String.eqb w "")) (split_on (chr 10) blocklist).

Definition body_of (s : tab_state) : js :=
  JObj [("min_score", JNum (minScore s)); ("dictionary_check", JBool (dictCheck s)); ("breach_check", JBool (breachCheck s));
        ("custom_blocklist", strs (words_of (blocklist s)))].

Section Save.
Context (API_BASE : string) (t : string -> string).

Definition save (s : tab_state) : prog tab_state unit :=
  setSaving true;;
  try_catch
    (auth ← authHeader true;
     fetch (Request PUT (API_BASE +:+ "/api/v1/auth/password-policy/check")
              (hassign [("Content-Type", "application/json")] auth) (Some (stringify (body_of s))));;
     mret tt)
    (fun _ => mret tt);;
  setSaving false;;
  setMsg (Some (t "passwordStrength.config.saved")).

Definition clear_message : prog tab_state unit := setMsg None.
End Save.
End Tester.

(** ** Well-formed policies *)

Definition within (lo hi n : Z) : bool := (lo <=? n) && (n <=? hi).

Definition field_ok (kv : string * js) : bool :=
  let '(k, v) := kv in
  match v with
  | JNum n =>
      String.eqb k "min_length" && within 8 128 n || String.eqb k "history_count" && within 0 24 n
      || String.eqb k "expiry_days" && within 0 365 n
  | JBool _ => str_mem k InBrowser.flags
  | _ => false
  end.

Definition fields_ok (c : config) : Prop := Forall (fun kv => field_ok kv = true) c.

Definition names (c : config) : list string := map fst c.

(** A policy of the first page: its ten members, in their order and their ranges. *)
Definition shaped (c : config) : Prop := names c = names InBrowser.defaultConfig /\ fields_ok c.

Lemma field_named kv : field_ok kv = true -> In kv.1 (names InBrowser.defaultConfig).
Proof.
  destruct kv as [k v]. cbn [field_ok fst]. destruct v; try discriminate.
  - intros H%str_mem_In. cbn in H |- *. tauto.
  - intros H. bool_prop. destruct H as [H|H]; bool_prop; [destruct H as [H|H]; bool_prop|]; subst; cbn; tauto.
Qed.

Lemma field_wf kv : field_ok kv = true -> json_wf kv.2 = true.
Proof. destruct kv as [k []]; done. Qed.

Lemma assoc_set_names k v l : In k (names l) -> names (assoc_set k v l) = names l.
Proof.
  unfold names. induction l as [|[k' v'] l IH]; cbn; [done|]. destruct (String.eqb_spec k k') as [->|Hne]; [done|].
  intros [->|H]; [done|]. cbn. by rewrite IH.
Qed.

Lemma assoc_set_ok k v l : field_ok (k, v) = true -> fields_ok l -> fields_ok (assoc_set k v l).
Proof.
  intros Hf. induction 1 as [|[k' v'] l Hkv Hl IH]; cbn; [by constructor|]. destruct (String.eqb k k'); by constructor.
Qed.

Lemma change_shaped k v c : field_ok (k, v) = true -> shaped c -> shaped (assoc_set k v c).
Proof.
  intros Hf [Hn Hc]. split; [|by apply assoc_set_ok]. rewrite assoc_set_names; [done|]. rewrite Hn. by apply (field_named (k, v)).
Qed.

Lemma spread_shaped c m : shaped c -> fields_ok m -> shaped (spread c m).
Proof.
  unfold spread. intros Hc Hm. revert c Hc. induction Hm as [|[k v] m Hkv Hm IH]; intros c Hc; [done|].
  cbn [fold_left fst snd]. by apply IH, change_shaped.
Qed.

Lemma default_shaped : shaped InBrowser.defaultConfig.
Proof. split; [done|]. repeat constructor. Qed.

Lemma members_wf_of c : NoDup (names c) -> fields_ok c -> json_wf (JObj c) = true.
Proof.
  intros Hn Hc. induction Hc as [|[k v] c Hkv Hc IH]; [done|]. cbn [names map fst] in Hn.
  apply NoDup_cons in Hn as [Hk Hn]. apply members_wf_intro; [|by apply (field_wf (k, v))|by apply IH].
  intros Hin. apply Hk. by apply list_elem_of_In.
Qed.

Lemma shaped_wf c : shaped c -> json_wf (JObj c) = true.
Proof. intros [Hn Hc]. apply members_wf_of; [|done]. rewrite Hn. by apply (bool_decide_unpack _). Qed.

(** A policy spread over the defaults it extends is itself. *)
Lemma spread_over (p d c : config) :
  NoDup (names p ++ names c) -> names d `prefix_of` names c -> spread (p ++ d) c = p ++ c.
Proof.
  unfold spread. revert p d. induction c as [|[k v] c IH]; intros p d Hn Hd.
  - cbn in Hd. apply prefix_nil_inv in Hd. destruct d; [by rewrite app_nil_r|done].
  - cbn [fold_left fst snd]. assert (~ In k (names p)) as Hk.
    { intros Hin. cbn [names map fst] in Hn. apply NoDup_app in Hn as (_ & H & _).
      apply (H k); [by apply list_elem_of_In|by left]. }
    assert (exists d', assoc_set k v (p ++ d) = (p ++ [(k, v)]) ++ d' /\ names d' `prefix_of` names c) as (d' & -> & Hd').
    { destruct d as [|[k' v'] d].
      - exists []. rewrite !app_nil_r. split; [by apply assoc_set_fresh|apply prefix_nil].
      - cbn [names map fst] in Hd. pose proof (prefix_cons_inv_1 _ _ _ _ Hd) as ->. apply prefix_cons_inv_2 in Hd.
        exists d. split; [|done]. rewrite <- app_assoc. cbn. clear -Hk. induction p as [|[k2 v2] p IH]; cbn.
        + by rewrite String.eqb_refl.
        + cbn in Hk. rewrite eqb_str_false by naive_solver. f_equal. apply IH. naive_solver. }
    rewrite IH; [by rewrite <- app_assoc| |done]. unfold names in *. rewrite map_app, <- app_assoc. exact Hn.
Qed.

Lemma stored_again defaults c :
  names defaults `prefix_of` names c -> NoDup (names c) -> fields_ok c ->
  InBrowser.stored_policy defaults (stringify (JObj c)) = Some c.
Proof.
  intros Hp Hn Hc. unfold InBrowser.stored_policy. rewrite JSON_parse_stringify by by apply members_wf_of. cbn [fmap option_fmap option_map own_members].
  f_equal. exact (spread_over [] defaults c Hn Hp).
Qed.

(** ** The policy under every history *)

(** What the first page may be asked, by its last render. *)
Inductive policy_call (API_BASE TENANT_ID : string) (w : world InBrowser.page_state) : prog InBrowser.page_state unit -> Prop :=
| call_mount : policy_call API_BASE TENANT_ID w InBrowser.mount
| call_save : policy_call API_BASE TENANT_ID w (InBrowser.handleSave API_BASE TENANT_ID (w_st w))
| call_reset : policy_call API_BASE TENANT_ID w InBrowser.handleReset
| call_toggle k v : In k InBrowser.flags -> policy_call API_BASE TENANT_ID w (InBrowser.toggle (w_st w) k v)
| call_slide_length v : 8 <= v <= 128 -> policy_call API_BASE TENANT_ID w (InBrowser.slide (w_st w) "min_length" v)
| call_slide_history v : 0 <= v <= 24 -> policy_call API_BASE TENANT_ID w (InBrowser.slide (w_st w) "history_count" v)
| call_slide_expiry v : 0 <= v <= 365 -> policy_call API_BASE TENANT_ID w (InBrowser.slide (w_st w) "expiry_days" v)
| call_type_expiry v : policy_call API_BASE TENANT_ID w (InBrowser.type_expiry (w_st w) v)
| call_type_history v : policy_call API_BASE TENANT_ID w (InBrowser.type_history (w_st w) v)
| call_type_pw v : policy_call API_BASE TENANT_ID w (InBrowser.setTestPw v)
| call_type_user v : policy_call API_BASE TENANT_ID w (InBrowser.setTestUsername v)
| call_show_pw v : policy_call API_BASE TENANT_ID w (InBrowser.setShowPassword v)
| call_show_list v : policy_call API_BASE TENANT_ID w (InBrowser.setShowBlacklist v)
| call_timer : policy_call API_BASE TENANT_ID w InBrowser.clear_message.

(** What may be stored under the policy's key: what was there, or a whole policy. *)
Definition policy_item (initial : option string) (a : area) (k text : string) : Prop :=
  a = Local -> k = STORAGE_KEY -> initial = Some text \/ exists c, shaped c /\ text = stringify (JObj c).

Definition valid (s : InBrowser.page_state) : Prop := shaped (InBrowser.policy s).

Lemma policy_item_of i c : shaped c -> policy_item i Local STORAGE_KEY (stringify (JObj c)).
Proof. intros Hc _ _. right. by exists c. Qed.

Lemma token_item i a k text : In k token_keys -> policy_item i a k text.
Proof. intros Hk _ ->. cbn in Hk. naive_solver. Qed.

Lemma stores_apiFetch {S} i API_BASE TENANT_ID path options :
  stores_ok (policy_item i) (apiFetch (S:=S) true API_BASE TENANT_ID path options).
Proof.
  unfold apiFetch, getAuthToken, session_expired, refresh_and_retry, update_scopes, emit, fetch, resp_json, resp_text, get, setItem.
  repeat first [ apply stores_ok_bind | apply stores_ok_try | (by apply token_item; cbn; tauto) | intro | split_match | split | exact I ].
Qed.

Lemma clamp_within lo hi d v : lo <= hi -> within lo hi (clamp lo hi d v) = true.
Proof. intros H. unfold within, clamp. rewrite andb_true_iff, !Z.leb_le. lia. Qed.

Lemma calls_tame API_BASE TENANT_ID w p :
  valid (w_st w) -> policy_call API_BASE TENANT_ID w p -> p = InBrowser.mount \/ tame valid (fun _ => True) p.
Proof.
  assert (forall k v, field_ok (k, v) = true -> valid (w_st w) -> tame valid (fun _ => True) (InBrowser.change (w_st w) k v)) as Hch.
  { intros k v Hf Hw. apply tame_upd. intros s _. by apply change_shaped. }
  intros Hw []; [by left|..]; right; try (by apply tame_upd).
  - unfold InBrowser.handleSave. tame_prog; try (by apply tame_upd). by apply tame_apiFetch.
  - unfold InBrowser.handleReset. tame_prog; try (by apply tame_upd); [|by split].
    apply tame_upd. intros s _. apply default_shaped.
  - apply Hch; [|done]. by apply str_mem_In.
  - apply Hch; [|done]. cbn. unfold within. by rewrite (proj2 (Z.leb_le 8 v)), (proj2 (Z.leb_le v 128)) by lia.
  - apply Hch; [|done]. cbn. unfold within. by rewrite (proj2 (Z.leb_le 0 v)), (proj2 (Z.leb_le v 24)) by lia.
  - apply Hch; [|done]. cbn. unfold within. by rewrite (proj2 (Z.leb_le 0 v)), (proj2 (Z.leb_le v 365)) by lia.
  - apply Hch; [|done]. cbn. by apply clamp_within.
  - apply Hch; [|done]. cbn. by rewrite clamp_within.
Qed.

Lemma calls_store i API_BASE TENANT_ID w p :
  valid (w_st w) -> policy_call API_BASE TENANT_ID w p -> stores_ok (policy_item i) p.
Proof.
  intros Hw []; try (by repeat split).
  - unfold InBrowser.mount. stores_prog. all: by repeat split.
  - unfold InBrowser.handleSave. stores_prog; try (by repeat split); [apply stores_apiFetch|..];
      (split; [by apply policy_item_of|done]).
Qed.

(** Members of a policy, in their ranges, as far as the text is JSON: what the page expects. *)
Definition expected (item : option string) : Prop :=
  forall text v, item = Some text -> JSON_parse text = Some v -> fields_ok (own_members v).

Section History.
Context (l : gmap string string) (Hl : expected (l !! STORAGE_KEY)).

Definition policy_inv (w : world InBrowser.page_state) : Prop :=
  tame_inv valid (fun _ => True) w /\ stored_ok (policy_item (l !! STORAGE_KEY)) w.

Lemma item_expected {S} (w : world S) : stored_ok (policy_item (l !! STORAGE_KEY)) w -> expected (w_local w !! STORAGE_KEY).
Proof.
  intros Hst text v Ht Hp. destruct (Hst Local STORAGE_KEY text Ht eq_refl eq_refl) as [Hi|(c & Hc & ->)]; [by apply (Hl text)|].
  rewrite JSON_parse_stringify in Hp by by apply shaped_wf. injection Hp as <-. apply Hc.
Qed.

Lemma read_shaped item text c :
  expected item -> nonempty item = Some text -> InBrowser.stored_policy InBrowser.defaultConfig text = Some c -> shaped c.
Proof.
  intros Hi Ht Hs. unfold InBrowser.stored_policy in Hs. destruct (JSON_parse text) as [v|] eqn:Ep; [|done]. injection Hs as <-.
  apply spread_shaped; [apply default_shaped|]. apply (Hi text); [|done].
  destruct item as [x|]; [|done]. unfold nonempty in Ht. cbn in Ht. by destruct x; simplify_eq/=.
Qed.

Lemma mount_safe answers w : policy_inv w -> safe answers policy_inv InBrowser.mount w.
Proof.
  intros [[Hw Ht] Hst]. unfold InBrowser.mount, safe. cbn. intros r w1 [-> ->].
  destruct (nonempty _) as [text|] eqn:E; [|by split].
  destruct (InBrowser.stored_policy _ text) as [c|] eqn:Ec; [|by split]. cbn. intros _ w' ->.
  split; [|eapply stored_ok_same; [|exact Hst]; by destruct w]. apply tame_set_st; [|by split].
  intros _. apply (read_shaped (w_local w !! STORAGE_KEY) text); [by apply item_expected|done..].
Qed.

Lemma history_inv API_BASE TENANT_ID (e : env) answers c :
  reachable e (policy_call API_BASE TENANT_ID) answers (page InBrowser.page_init l) c -> policy_inv c.1.
Proof.
  intros Hr. apply (safe_reachable e (policy_call API_BASE TENANT_ID) answers policy_inv (page InBrowser.page_init l) c); [split|..|done].
  - split; [apply default_shaped|constructor].
  - intros a k text H -> ->. by left.
  - intros w p [Hw Hst] Hp. destruct (calls_tame API_BASE TENANT_ID w p (proj1 Hw) Hp) as [->|Ht]; [by apply mount_safe|].
    apply safe_both; [by apply tame_safe|]. apply stores_ok_safe; [|done]. eapply calls_store; [exact (proj1 Hw)|exact Hp].
Qed.

Lemma opened_shaped (e : env) m :
  expected (m !! STORAGE_KEY) -> shaped (InBrowser.policy (w_st (run e InBrowser.mount (page InBrowser.page_init m)).2)).
Proof.
  intros Hm. unfold InBrowser.mount, InBrowser.setConfig. run_steps. cbn [w_area w_local page].
  destruct (nonempty _) as [text|] eqn:E; [|run_steps; apply default_shaped].
  destruct (InBrowser.stored_policy _ text) as [c|] eqn:Ec; run_steps; [|apply default_shaped]. by eapply read_shaped.
Qed.
End History.

(** C36. A page opened at a storage whose item, as far as it is JSON, has only members of a
    policy in their ranges, which the page does not check.  Under every history of the page,
    whatever the server answers and however the calls overlap, the policy shown is well-formed:
    its ten members, in their order, the minimal length between 8 and 128, the history up to
    24, the expiry up to 365, the rest booleans.  Under its key the storage then holds nothing,
    what it held at first, or the text of a whole such policy, never part of one; and the page
    opened again at that storage shows a well-formed policy. *)
Theorem policy_stays_valid API_BASE TENANT_ID (e : env) answers l c :
  expected (l !! STORAGE_KEY) ->
  reachable e (policy_call API_BASE TENANT_ID) answers (page InBrowser.page_init l) c ->
  shaped (InBrowser.policy (w_st c.1))
  /\ match w_local c.1 !! STORAGE_KEY with
     | None => True
     | Some text => l !! STORAGE_KEY = Some text \/ exists p, shaped p /\ text = stringify (JObj p)
     end
  /\ forall e', shaped (InBrowser.policy (w_st (run e' InBrowser.mount (page InBrowser.page_init (w_local c.1))).2)).
Proof.
  intros Hl Hr. destruct (history_inv l Hl API_BASE TENANT_ID e answers c Hr) as [[Hv _] Hs]. split; [exact Hv|]. split.
  - destruct (w_local c.1 !! STORAGE_KEY) as [text|] eqn:E; [|done]. by apply (Hs Local STORAGE_KEY).
  - intros e'. by eapply opened_shaped, item_expected.
Qed.

(** An item out of range is shown as it is. *)
Example stored_item_unchecked :
  let w := page InBrowser.page_init {[STORAGE_KEY := stringify (JObj [("min_length", JNum 0)])]} in
  cfg (InBrowser.policy (w_st (run (const_env None 0) InBrowser.mount w).2)) "min_length" = JNum 0.
Proof. vm_compute. done. Qed.

(** ** What a save leaves *)

(** A call of [apiFetch] on one of the pages: the state and the policy's item stay, and its
    request is sent. *)
Lemma fetch_frame {S} (e : env) API_BASE TENANT_ID path options (w : world S) :
  exists o w1, run e (apiFetch true API_BASE TENANT_ID path options) w = (o, w1)
  /\ w_st w1 = w_st w /\ w_local w1 !! STORAGE_KEY = w_local w !! STORAGE_KEY
  /\ exists headers, In (ObsFetch (api_request API_BASE path options headers)) (w_trace w1).
Proof.
  destruct (run e (apiFetch true API_BASE TENANT_ID path options) w) as [o w1] eqn:E. exists o, w1. split; [done|].
  pose proof (keeps_st_run e (apiFetch true API_BASE TENANT_ID path options) w (keeps_st_apiFetch _ _ _ _ _)) as H1.
  pose proof (keeps_item_run STORAGE_KEY e (apiFetch true API_BASE TENANT_ID path options) w) as H2.
  destruct (apiFetch_sends e API_BASE TENANT_ID path options w) as (ob & (headers & ->) & H3).
  rewrite E in *. cbn [snd] in *. split_and!; [done|apply H2|by exists headers].
  apply keeps_item_apiFetch. intros H%str_mem_In. by vm_compute in H.
Qed.

Lemma stored_nonempty c : nonempty (Some (stringify (JObj c))) = Some (stringify (JObj c)).
Proof. by apply nonempty_some. Qed.

(** Opening the first page at a storage that holds a policy. *)
Lemma opened_local (e : env) c l :
  shaped c -> l !! STORAGE_KEY = Some (stringify (JObj c)) ->
  InBrowser.policy (w_st (run e InBrowser.mount (page InBrowser.page_init l)).2) = c.
Proof.
  intros [Hn Hc] Hl. unfold InBrowser.mount. run_steps. cbn [w_area w_local page]. rewrite Hl, stored_nonempty.
  rewrite stored_again; [|by rewrite Hn|by rewrite Hn; apply (bool_decide_unpack _)|done]. unfold InBrowser.setConfig. by run_steps.
Qed.

(** C37. Saving on the first page sends the policy as it is, stores it, and ends with the button
    free, whatever the server answers; the message tells a refusal from an acceptance.  The page
    opened again shows that policy: it reads the storage and never asks the server, so a policy
    the server refused is shown like one it keeps. *)
Theorem saved_policy_returns (e : env) API_BASE TENANT_ID s w :
  shaped (InBrowser.policy s) ->
  exists w', run e (InBrowser.handleSave API_BASE TENANT_ID s) w = (Done tt, w')
  /\ InBrowser.saving (w_st w') = false
  /\ (InBrowser.msgType (w_st w') = InBrowser.success /\ InBrowser.msg (w_st w') = Some "Password policy saved to server"
      \/ InBrowser.msgType (w_st w') = InBrowser.failure /\ InBrowser.msg (w_st w') = Some "Endpoint unavailable — saved to localStorage")
  /\ (exists headers, In (ObsFetch (Request PUT (API_BASE +:+ "/api/v1/auth/password-policy") headers
        (Some (stringify (JObj (InBrowser.policy s)))))) (w_trace w'))
  /\ w_local w' !! STORAGE_KEY = Some (stringify (JObj (InBrowser.policy s)))
  /\ InBrowser.policy (w_st (run e InBrowser.mount (page InBrowser.page_init (w_local w'))).2) = InBrowser.policy s.
Proof.
  intros Hs. unfold InBrowser.handleSave, InBrowser.setSaving, InBrowser.setMsg, InBrowser.setMsgType. run_steps.
  set (w0 := set_st _ w). destruct (fetch_frame e API_BASE TENANT_ID "/api/v1/auth/password-policy"
    (InBrowser.save_request (InBrowser.policy s)) w0) as (o & w1 & -> & _ & _ & headers & Hin).
  destruct o as [data|x]; run_steps.
  all: eexists; split; [reflexivity|].
  all: match goal with |- context [InBrowser.saving (w_st ?x)] => set (w2 := x) end.
  all: assert (w_local w2 !! STORAGE_KEY = Some (stringify (JObj (InBrowser.policy s)))) as Hk by (unfold w2; destruct w1; cbn; apply lookup_insert_eq).
  all: split; [unfold w2; by destruct w1|]; split; [unfold w2; destruct w1; cbn; tauto|]; split;
    [exists headers; unfold w2; by destruct w1|]; split; [done|]; by apply opened_local.
Qed.

(** Opening the second page while no server answers. *)
Lemma opened_server API_BASE TENANT_ID c l :
  names OnServer.defaultConfig `prefix_of` names c -> NoDup (names c) -> fields_ok c ->
  l !! STORAGE_KEY = Some (stringify (JObj c)) ->
  OnServer.policy (w_st (run (const_env None 0) (OnServer.mount API_BASE TENANT_ID) (page OnServer.page_init l)).2) = c.
Proof.
  intros Hn Hd Hf Hl. unfold OnServer.mount, apiFetch, getAuthToken. run_steps. cbn [server const_env w_area w_local log page].
  run_steps. cbn [w_area w_local log page]. rewrite Hl, stored_nonempty, stored_again by done.
  unfold OnServer.setConfig, OnServer.setLoading. by run_steps.
Qed.

(** What the first page stores, its tenth member included, the second shows. *)
Lemma first_to_second API_BASE TENANT_ID c l :
  shaped c -> l !! STORAGE_KEY = Some (stringify (JObj c)) ->
  OnServer.policy (w_st (run (const_env None 0) (OnServer.mount API_BASE TENANT_ID) (page OnServer.page_init l)).2) = c.
Proof.
  intros [Hn Hc]. apply opened_server; [|rewrite Hn; by apply (bool_decide_unpack _)|done].
  rewrite Hn. by exists ["force_change_on_next_login"].
Qed.

(** C40. Saving on the second page tries three places in order, each only when the one before
    failed.  A POST that succeeds ends it: nothing else is sent or stored, and the message says
    the policy is saved.  When it fails the PUT is sent; one that succeeds ends it the same
    way.  When both fail, and only then, the policy is stored as it is and the message says
    the server is unavailable; the page opened again shows that policy as long as the server
    does not answer.  In every case the button is free and the policy shown is kept. *)
Theorem save_falls_back (e : env) API_BASE TENANT_ID t s w :
  names OnServer.defaultConfig `prefix_of` names (OnServer.policy s) -> NoDup (names (OnServer.policy s)) -> fields_ok (OnServer.policy s) ->
  let c := OnServer.policy s in
  let request m path body w' := exists headers,
    In (ObsFetch (Request m (API_BASE +:+ path) headers (Some (stringify body)))) (w_trace w') in
  let post := run e (apiFetch true API_BASE TENANT_ID "/api/v1/auth/password-policy" (OnServer.sending POST (OnServer.post_body c)))
    (run e (OnServer.setSaving true) w).2 in
  let put := run e (apiFetch true API_BASE TENANT_ID "/api/v1/security/password-policy" (OnServer.sending PUT (OnServer.put_body c)))
    post.2 in
  exists w', run e (OnServer.handleSave API_BASE TENANT_ID t s) w = (Done tt, w')
  /\ OnServer.saving (w_st w') = false /\ OnServer.policy (w_st w') = OnServer.policy (w_st w)
  /\ request POST "/api/v1/auth/password-policy" (OnServer.post_body c) w'
  /\ match post.1 with
     | Done _ => OnServer.msg (w_st w') = Some (t "passwordPolicy.policySaved")
         /\ w_local w' = w_local post.2 /\ w_local w' !! STORAGE_KEY = w_local w !! STORAGE_KEY /\ w_trace w' = w_trace post.2
     | Raised _ => request PUT "/api/v1/security/password-policy" (OnServer.put_body c) w' /\ w_trace w' = w_trace put.2
         /\ match put.1 with
            | Done _ => OnServer.msg (w_st w') = Some (t "passwordPolicy.policySaved")
                /\ w_local w' = w_local put.2 /\ w_local w' !! STORAGE_KEY = w_local w !! STORAGE_KEY
            | Raised _ => OnServer.msg (w_st w') = Some (t "settings.endpointUnavailable")
                /\ w_local w' !! STORAGE_KEY = Some (stringify (JObj c))
                /\ OnServer.policy (w_st (run (const_env None 0) (OnServer.mount API_BASE TENANT_ID)
                     (page OnServer.page_init (w_local w'))).2) = c
            end
     end.
Proof.
  intros Hn Hd Hf c request post put. unfold OnServer.handleSave, OnServer.setMsg. fold c.
  subst put post. unfold OnServer.setSaving. run_steps. cbn [snd]. set (w0 := set_st _ w).
  destruct (fetch_frame e API_BASE TENANT_ID "/api/v1/auth/password-policy" (OnServer.sending POST (OnServer.post_body c)) w0)
    as (o & w1 & E1 & Hs1 & Hl1 & headers & Hin). rewrite E1.
  destruct o as [data|x]; run_steps; cbn [fst snd].
  { eexists. split; [reflexivity|]. destruct w1, w; cbn in *; subst. split_and!; try done. by exists headers. }
  destruct (fetch_frame e API_BASE TENANT_ID "/api/v1/security/password-policy" (OnServer.sending PUT (OnServer.put_body c)) w1)
    as (o2 & w2 & E2 & Hs2 & Hl2 & headers2 & Hin2).
  pose proof (run_trace_In e (apiFetch true API_BASE TENANT_ID "/api/v1/security/password-policy"
    (OnServer.sending PUT (OnServer.put_body c))) w1 _ Hin) as Hin1. rewrite E2 in Hin1 |- *. cbn [fst snd] in *.
  destruct o2 as [data|x2]; run_steps; cbn [fst snd].
  all: eexists; split; [reflexivity|]; rewrite Hs1 in Hs2; rewrite Hl1 in Hl2; clear Hs1 Hl1 E1 E2 Hin.
  all: destruct w2, w; cbn in *; subst.
  - split_and!; try done; [by exists headers|by exists headers2].
  - split_and!; try done; [by exists headers|by exists headers2|by apply lookup_insert_eq|].
    apply opened_server; [done..|apply lookup_insert_eq].
Qed.

(** What the second page posts, read as it reads an answer: the length and the kinds come
    back, the other four are the defaults; a list of blocked words has another name there. *)
Lemma posted_comes_back c k :
  names c = names OnServer.defaultConfig -> fields_ok c -> In k (names c) ->
  cfg (OnServer.from_server (OnServer.post_body c)) k
  = if str_mem k ["prevent_username"; "prevent_common"; "history_count"; "expiry_days"] then cfg OnServer.defaultConfig k else cfg c k.
Proof.
  intros Hn Hf Hk. rewrite Hn in Hk.
  assert (forall k, In k (names OnServer.defaultConfig) -> is_nullish (cfg c k) = false) as Hgiven.
  { intros k' Hk'. unfold cfg. rewrite <- Hn in Hk'. clear -Hf Hk'. induction Hf as [|[k2 v] c Hkv Hf IH]; [done|]. cbn.
    destruct (String.eqb_spec k' k2) as [->|Hne]; [by destruct v|]. apply IH. cbn in Hk'. by destruct Hk' as [E|]; [congruence|]. }
  cbn in Hk. unfold OnServer.from_server, OnServer.first_given, OnServer.post_body, js_nullish. cbn [foldr opt_prop].
  repeat (destruct Hk as [<-|Hk]); try done; cbn -[cfg OnServer.defaultConfig]; rewrite ?Hgiven by (cbn; tauto); done.
Qed.

(** ** The verdict on a password *)

(** What a policy asks of a password. *)
Definition contains (P : Ascii.ascii -> bool) (s : string) : Prop := exists c, In c (String.list_ascii_of_string s) /\ P c = true.

Definition meets (COMMON_PASSWORDS : list string) (c : config) (pw user : string) : Prop :=
  pw <> "" /\ (exists n, cfg c "min_length" = JNum n /\ n <= len pw)
  /\ (on c "require_uppercase" = true -> contains is_upper pw) /\ (on c "require_lowercase" = true -> contains is_lower pw)
  /\ (on c "require_digit" = true -> contains is_digit pw) /\ (on c "require_special" = true -> contains is_symbol pw)
  /\ (on c "prevent_username" = true -> user <> "" -> ~ exists a b, to_lower pw = a +:+ to_lower user +:+ b)
  /\ (on c "prevent_common" = true -> ~ In (to_lower pw) COMMON_PASSWORDS).

Lemma has_contains P s : has P s = true <-> contains P s.
Proof.
  unfold has, contains. induction s as [|c s IH]; cbn [str_forall String.list_ascii_of_string].
  - split; [done|by intros (x & [] & _)].
  - rewrite negb_andb, negb_involutive, orb_true_iff, IH. split.
    + intros [H|(x & Hx & H)]; [exists c|exists x]; split; try done; [by left|by right].
    + intros (x & [->|Hx] & H); [by left|right; by exists x].
Qed.

Lemma forallb_push P b r l : forallb P (InBrowser.push_rule b r l) = forallb P l && (negb b || P r).
Proof. unfold InBrowser.push_rule. destruct b; [|by rewrite andb_true_r]. rewrite forallb_app. cbn. by rewrite andb_true_r. Qed.

(** The verdict of the rules, one by one. *)
Definition verdict (COMMON : list string) (c : config) (pw user : string) : bool :=
  let ok := rule_holds COMMON c pw user in
  ok min_length && (negb (on c "require_uppercase") || ok require_uppercase)
  && (negb (on c "require_lowercase") || ok require_lowercase) && (negb (on c "require_digit") || ok require_digit)
  && (negb (on c "require_special") || ok require_special) && (negb (on c "prevent_username") || ok prevent_username)
  && (negb (on c "prevent_common") || ok prevent_common).

Lemma implb_true b c : negb b || c = true <-> (b = true -> c = true).
Proof. by destruct b, c; cbn; naive_solver. Qed.

Lemma verdict_spec COMMON c pw user n :
  cfg c "min_length" = JNum n -> (verdict COMMON c pw user = true <-> meets COMMON c pw user).
Proof.
  intros Hn. unfold verdict, meets. cbv zeta. rewrite !andb_true_iff, !implb_true. unfold rule_holds.
  destruct (String.eqb_spec pw "") as [->|Hne]; [split; [naive_solver|by intros [? _]]|].
  rewrite !has_contains, Hn. cbn [at_least to_number]. rewrite Z.leb_le.
  split.
  - intros ((((((H1 & H2) & H3) & H4) & H5) & H6) & H7). split_and!; try done; [by exists n| |].
    + intros Ho Hu. specialize (H6 Ho). rewrite Ho, eqb_str_false in H6 by done. cbn in H6.
      intros Hex. apply str_includes_spec in Hex. by rewrite Hex in H6.
    + intros Ho. specialize (H7 Ho). rewrite Ho in H7. cbn in H7. apply negb_true_iff in H7. by apply str_mem_false.
  - intros (_ & (n' & [= <-] & Hl) & H2 & H3 & H4 & H5 & H6 & H7). split_and!; try done.
    + intros Ho. rewrite Ho. cbn. destruct (String.eqb_spec user "") as [|Hu]; [done|]. apply negb_true_iff.
      destruct (str_includes _ _) eqn:E; [|done]. apply str_includes_spec in E. by destruct (H6 Ho Hu).
    + intros Ho. rewrite Ho. cbn. apply negb_true_iff, str_mem_false. by apply H7.
Qed.

Lemma allRulesPass_verdict s :
  InBrowser.allRulesPass s = verdict InBrowser.COMMON_PASSWORDS (InBrowser.policy s) (InBrowser.testPw s) (InBrowser.testUsername s).
Proof.
  unfold InBrowser.allRulesPass, verdict, InBrowser.checkRule. cbv zeta.
  destruct (String.eqb_spec (InBrowser.testPw s) "") as [E|Hne]; [by rewrite E|].
  unfold InBrowser.rules_checked. cbv zeta. rewrite !forallb_push. cbn [forallb]. by rewrite andb_true_r.
Qed.

Lemma marks_verdict s :
  OnServer.testPw s <> "" ->
  forallb (fun b => b) (OnServer.marks s)
  = verdict OnServer.COMMON_PASSWORDS (OnServer.policy s) (OnServer.testPw s) (OnServer.testUsername s).
Proof.
  intros Hne. unfold OnServer.marks, verdict, OnServer.checkRule. cbv zeta. rewrite eqb_str_false by done.
  rewrite !forallb_app. cbn [forallb]. rewrite andb_true_r.
  rewrite (orb_comm _ (negb (on _ "require_uppercase"))), (orb_comm _ (negb (on _ "require_lowercase"))),
    (orb_comm _ (negb (on _ "require_digit"))), (orb_comm _ (negb (on _ "require_special"))), !andb_assoc.
  destruct (on _ "prevent_username"), (on _ "prevent_common"); cbn [forallb negb orb]; by rewrite ?andb_true_r.
Qed.

(** C34. The verdict of the first page, and the marks of the second, are what the policy
    asks: a length, the kinds required, the user name not within, case apart, and not a common
    password.  For the same policy the first accepts what the second does, but for the words
    only its own list has. *)
Theorem verdicts_meet s s' n :
  cfg (InBrowser.policy s) "min_length" = JNum n ->
  OnServer.policy s' = InBrowser.policy s -> OnServer.testPw s' = InBrowser.testPw s -> OnServer.testUsername s' = InBrowser.testUsername s ->
  let c := InBrowser.policy s in let pw := InBrowser.testPw s in let user := InBrowser.testUsername s in
  (InBrowser.allRulesPass s = true <-> meets InBrowser.COMMON_PASSWORDS c pw user)
  /\ (pw <> "" /\ forallb (fun b => b) (OnServer.marks s') = true <-> meets OnServer.COMMON_PASSWORDS c pw user)
  /\ (InBrowser.allRulesPass s = true
      <-> pw <> "" /\ forallb (fun b => b) (OnServer.marks s') = true
          /\ (on c "prevent_common" = true -> ~ In (to_lower pw) (drop 20 InBrowser.COMMON_PASSWORDS))).
Proof.
  intros Hn Hc Hp Hu. cbv zeta.
  assert (pw_spec : InBrowser.testPw s <> "" /\ forallb (fun b => b) (OnServer.marks s') = true
    <-> meets OnServer.COMMON_PASSWORDS (InBrowser.policy s) (InBrowser.testPw s) (InBrowser.testUsername s)).
  { split.
    - intros [Hne H]. rewrite marks_verdict, Hc, Hp, Hu in H by by rewrite Hp. by apply (verdict_spec _ _ _ _ n).
    - intros H. split; [apply H|]. rewrite marks_verdict, Hc, Hp, Hu by (rewrite Hp; apply H). by apply (verdict_spec _ _ _ _ n). }
  rewrite allRulesPass_verdict. split; [by apply (verdict_spec _ _ _ _ n)|]. split; [done|].
  assert (forall x, In x InBrowser.COMMON_PASSWORDS <-> In x OnServer.COMMON_PASSWORDS \/ In x (drop 20 InBrowser.COMMON_PASSWORDS)) as Hin.
  { intros x. change InBrowser.COMMON_PASSWORDS with (OnServer.COMMON_PASSWORDS ++ drop 20 InBrowser.COMMON_PASSWORDS). apply in_app_iff. }
  rewrite (verdict_spec _ _ _ _ n Hn). transitivity (meets OnServer.COMMON_PASSWORDS (InBrowser.policy s) (InBrowser.testPw s) (InBrowser.testUsername s)
    /\ (on (InBrowser.policy s) "prevent_common" = true -> ~ In (to_lower (InBrowser.testPw s)) (drop 20 InBrowser.COMMON_PASSWORDS))).
  - unfold meets. rewrite Hin. tauto.
  - rewrite <- pw_spec. tauto.
Qed.

(** ** The tab of the tester *)

(** Whatever the server answers, and if it never does, the tab says the settings are saved. *)
Lemma tester_reports_saved (e : env) API_BASE t s w :
  exists w', run e (Tester.save API_BASE t s) w = (Done tt, w')
  /\ Tester.msg (w_st w') = Some (t "passwordStrength.config.saved") /\ Tester.saving (w_st w') = false.
Proof.
  unfold Tester.save, Tester.setSaving, Tester.setMsg, authHeader, getAuthToken. run_steps.
  match goal with |- context [server e ?tr ?rq] => destruct (server e tr rq) end; run_steps;
    (eexists; split; [reflexivity|]); by destruct w.
Qed.

(** ** Witnesses *)

Definition demo_policy : config := assoc_set "min_length" (JNum 20) InBrowser.defaultConfig.
Definition demo_item : gmap string string := {[STORAGE_KEY := stringify (JObj [("min_length", JNum 20)])]}.
Definition demo_page (c : config) (pw user : string) : InBrowser.page_state :=
  InBrowser.Page c None InBrowser.success false pw user false false.

(** The minimal length of the server counts for nothing once one is stored. *)
Example stored_policy_wins :
  InBrowser.policy (w_st (run (const_env (Some (Response 200 "{}")) 0) InBrowser.mount (page InBrowser.page_init demo_item)).2) = demo_policy.
Proof. vm_compute. done. Qed.

(** An answer with a list of blocked words, under the name this server uses. *)
Example blocked_words_unread :
  cfg (OnServer.from_server (JObj [("min_length", JNum 8); ("blacklist", strs ["password"])])) "prevent_common" = JBool false
  /\ cfg (OnServer.from_server (JObj [("MinLength", JNum 8); ("Blacklist", strs ["password"])])) "prevent_common" = JBool true.
Proof. vm_compute. done. Qed.

Lemma policy_stays_valid_witness :
  exists c, reachable (const_env None 0) (policy_call "https://api" "t") (fun _ _ _ => True) (page InBrowser.page_init demo_item) c
  /\ length c.2 = 2%nat /\ shaped (InBrowser.policy (w_st c.1))
  /\ forall e', shaped (InBrowser.policy (w_st (run e' InBrowser.mount (page InBrowser.page_init (w_local c.1))).2)).
Proof.
  assert (exists c, reachable (const_env None 0) (policy_call "https://api" "t") (fun _ _ _ => True) (page InBrowser.page_init demo_item) c
          /\ length c.2 = 2%nat) as (c & Hc & Hl).
  { eexists. split; [eapply reach_step; [eapply reach_step; [apply reach_init|]|]|].
    - eapply step_spawn; [apply call_mount|reflexivity].
    - eapply step_spawn; [apply call_save|reflexivity].
    - reflexivity. }
  exists c. split; [exact Hc|]. split; [exact Hl|].
  assert (expected (demo_item !! STORAGE_KEY)) as Hi.
  { intros text v H Hp. assert (text = stringify (JObj [("min_length", JNum 20)])) as E by (revert H; vm_compute; congruence).
    assert (v = JObj [("min_length", JNum 20)]) as Ev by (revert Hp; rewrite E; vm_compute; congruence).
    rewrite Ev. repeat constructor. }
  destruct (policy_stays_valid "https://api" "t" (const_env None 0) (fun _ _ _ => True) demo_item c Hi Hc) as (Hv & _ & Ho).
  split; [exact Hv|exact Ho].
Defined.

Lemma saved_policy_returns_witness :
  exists w' : world InBrowser.page_state, w_local w' !! STORAGE_KEY = Some (stringify (JObj demo_policy))
  /\ InBrowser.policy (w_st (run (const_env None 0) InBrowser.mount (page InBrowser.page_init (w_local w'))).2) = demo_policy.
Proof.
  destruct (saved_policy_returns (const_env None 0) "https://api" "t" (demo_page demo_policy "" "") (page InBrowser.page_init ∅))
    as (w' & _ & _ & _ & _ & Hl & Hp); [apply change_shaped; [reflexivity|apply default_shaped]|].
  exists w'. split; [exact Hl|exact Hp].
Defined.

Definition demo_server_page (c : config) (pw user : string) : OnServer.page_state :=
  OnServer.Page c None false pw user false None false.

(** No server answers: both requests are sent, and the policy is in the storage. *)
Lemma save_falls_back_witness :
  exists w', run (const_env None 0) (OnServer.handleSave "https://api" "t" (fun k => k) (demo_server_page base_config "" ""))
      (page (demo_server_page base_config "" "") ∅) = (Done tt, w')
  /\ OnServer.saving (w_st w') = false /\ OnServer.msg (w_st w') = Some "settings.endpointUnavailable".
Proof.
  destruct (save_falls_back (const_env None 0) "https://api" "t" (fun k => k) (demo_server_page base_config "" "")
    (page (demo_server_page base_config "" "") ∅)) as (w' & Hr & Hs & _ & _ & Hm); [by exists []|by apply (bool_decide_unpack _)|repeat constructor|].
  exists w'. split; [exact Hr|]. split; [exact Hs|]. cbv zeta in Hm.
  match type of Hm with match ?o with _ => _ end => replace o with (@Raised js network_error) in Hm by (vm_compute; reflexivity) end.
  destruct Hm as (_ & _ & Hm).
  match type of Hm with match ?o with _ => _ end => replace o with (@Raised js network_error) in Hm by (vm_compute; reflexivity) end.
  exact (proj1 Hm).
Defined.

(** A password without the user's name, and one that only the longer list blocks. *)
Lemma verdicts_meet_witness :
  let c := assoc_set "prevent_common" (JBool true) InBrowser.defaultConfig in
  InBrowser.allRulesPass (demo_page c "Correct-Horse-7" "ann") = true /\ InBrowser.allRulesPass (demo_page c "Joanna-Horse-7" "ANN") = false
  /\ (InBrowser.allRulesPass (demo_page c "Correct-Horse-7" "ann") = true
      <-> meets InBrowser.COMMON_PASSWORDS c "Correct-Horse-7" "ann").
Proof.
  cbv zeta. split; [vm_compute; reflexivity|]. split; [vm_compute; reflexivity|].
  refine (proj1 (verdicts_meet (demo_page (assoc_set "prevent_common" (JBool true) InBrowser.defaultConfig) "Correct-Horse-7" "ann")
    (demo_server_page (assoc_set "prevent_common" (JBool true) InBrowser.defaultConfig) "Correct-Horse-7" "ann") 12 _ _ _ _)); reflexivity.
Defined.
