(* ===== verification/PolicyEditor.v ===== *)
(** * The policy editor (console/src/app/policies/page.tsx)

    The page lists the policies, edits one with its rules, a table of roles and attribute
    rules, tries a request against the server, and exports and imports files.  What comes from
    the server, a file or the text area is whatever JSON it holds: those cells are values, and
    the operations raise where JavaScript does.  Identifiers are texts or numbers. *)

From S2P Require Import Prelude JsValue JsString JsNumber JsDate Json JsonPretty Effects ApiClient.
#[local] Open Scope Z_scope.

(** ** The page *)

(** The cells of the page, and the two counters of its module. *)
Record page_state := Editor {
  policies : js;
  loading : bool;
  error_ : option string;
  msg : option string;
  selectedPolicy : js;
  policyJson : string;
  rules : js;
  policyName : js;
  dryRunSubject : string;
  dryRunResource : string;
  dryRunAction : string;
  dryRunResult : option (js * js);
  dryRunLoading : bool;
  policyPriority : js;
  policyEffect : js;
  rbacEntries : list js;
  rbacCollapsed : bool;
  abacRules : list js;
  abacCollapsed : bool;
  deleteTarget : option (js * js);
  condSeq : Z;
  abacSeq : Z }.

Definition setPolicies (v : js) : prog page_state unit :=
  upd (fun s => Editor v (loading s) (error_ s) (msg s) (selectedPolicy s) (policyJson s) (rules s) (policyName s) (dryRunSubject s) (dryRunResource s) (dryRunAction s) (dryRunResult s) (dryRunLoading s) (policyPriority s) (policyEffect s) (rbacEntries s) (rbacCollapsed s) (abacRules s) (abacCollapsed s) (deleteTarget s) (condSeq s) (abacSeq s)).
Definition setLoading (v : bool) : prog page_state unit :=
  upd (fun s => Editor (policies s) v (error_ s) (msg s) (selectedPolicy s) (policyJson s) (rules s) (policyName s) (dryRunSubject s) (dryRunResource s) (dryRunAction s) (dryRunResult s) (dryRunLoading s) (policyPriority s) (policyEffect s) (rbacEntries s) (rbacCollapsed s) (abacRules s) (abacCollapsed s) (deleteTarget s) (condSeq s) (abacSeq s)).
Definition setError (v : option string) : prog page_state unit :=
  upd (fun s => Editor (policies s) (loading s) v (msg s) (selectedPolicy s) (policyJson s) (rules s) (policyName s) (dryRunSubject s) (dryRunResource s) (dryRunAction s) (dryRunResult s) (dryRunLoading s) (policyPriority s) (policyEffect s) (rbacEntries s) (rbacCollapsed s) (abacRules s) (abacCollapsed s) (deleteTarget s) (condSeq s) (abacSeq s)).
Definition setMsg (v : option string) : prog page_state unit :=
  upd (fun s => Editor (policies s) (loading s) (error_ s) v (selectedPolicy s) (policyJson s) (rules s) (policyName s) (dryRunSubject s) (dryRunResource s) (dryRunAction s) (dryRunResult s) (dryRunLoading s) (policyPriority s) (policyEffect s) (rbacEntries s) (rbacCollapsed s) (abacRules s) (abacCollapsed s) (deleteTarget s) (condSeq s) (abacSeq s)).
Definition setSelectedPolicy (v : js) : prog page_state unit :=
  upd (fun s => Editor (policies s) (loading s) (error_ s) (msg s) v (policyJson s) (rules s) (policyName s) (dryRunSubject s) (dryRunResource s) (dryRunAction s) (dryRunResult s) (dryRunLoading s) (policyPriority s) (policyEffect s) (rbacEntries s) (rbacCollapsed s) (abacRules s) (abacCollapsed s) (deleteTarget s) (condSeq s) (abacSeq s)).
Definition setPolicyJson (v : string) : prog page_state unit :=
  upd (fun s => Editor (policies s) (loading s) (error_ s) (msg s) (selectedPolicy s) v (rules s) (policyName s) (dryRunSubject s) (dryRunResource s) (dryRunAction s) (dryRunResult s) (dryRunLoading s) (policyPriority s) (policyEffect s) (rbacEntries s) (rbacCollapsed s) (abacRules s) (abacCollapsed s) (deleteTarget s) (condSeq s) (abacSeq s)).
Definition setRules (v : js) : prog page_state unit :=
  upd (fun s => Editor (policies s) (loading s) (error_ s) (msg s) (selectedPolicy s) (policyJson s) v (policyName s) (dryRunSubject s) (dryRunResource s) (dryRunAction s) (dryRunResult s) (dryRunLoading s) (policyPriority s) (policyEffect s) (rbacEntries s) (rbacCollapsed s) (abacRules s) (abacCollapsed s) (deleteTarget s) (condSeq s) (abacSeq s)).
Definition setPolicyName (v : js) : prog page_state unit :=
  upd (fun s => Editor (policies s) (loading s) (error_ s) (msg s) (selectedPolicy s) (policyJson s) (rules s) v (dryRunSubject s) (dryRunResource s) (dryRunAction s) (dryRunResult s) (dryRunLoading s) (policyPriority s) (policyEffect s) (rbacEntries s) (rbacCollapsed s) (abacRules s) (abacCollapsed s) (deleteTarget s) (condSeq s) (abacSeq s)).
Definition setDryRunSubject (v : string) : prog page_state unit :=
  upd (fun s => Editor (policies s) (loading s) (error_ s) (msg s) (selectedPolicy s) (policyJson s) (rules s) (policyName s) v (dryRunResource s) (dryRunAction s) (dryRunResult s) (dryRunLoading s) (policyPriority s) (policyEffect s) (rbacEntries s) (rbacCollapsed s) (abacRules s) (abacCollapsed s) (deleteTarget s) (condSeq s) (abacSeq s)).
Definition setDryRunResource (v : string) : prog page_state unit :=
  upd (fun s => Editor (policies s) (loading s) (error_ s) (msg s) (selectedPolicy s) (policyJson s) (rules s) (policyName s) (dryRunSubject s) v (dryRunAction s) (dryRunResult s) (dryRunLoading s) (policyPriority s) (policyEffect s) (rbacEntries s) (rbacCollapsed s) (abacRules s) (abacCollapsed s) (deleteTarget s) (condSeq s) (abacSeq s)).
Definition setDryRunAction (v : string) : prog page_state unit :=
  upd (fun s => Editor (policies s) (loading s) (error_ s) (msg s) (selectedPolicy s) (policyJson s) (rules s) (policyName s) (dryRunSubject s) (dryRunResource s) v (dryRunResult s) (dryRunLoading s) (policyPriority s) (policyEffect s) (rbacEntries s) (rbacCollapsed s) (abacRules s) (abacCollapsed s) (deleteTarget s) (condSeq s) (abacSeq s)).
Definition setDryRunResult (v : option (js * js)) : prog page_state unit :=
  upd (fun s => Editor (policies s) (loading s) (error_ s) (msg s) (selectedPolicy s) (policyJson s) (rules s) (policyName s) (dryRunSubject s) (dryRunResource s) (dryRunAction s) v (dryRunLoading s) (policyPriority s) (policyEffect s) (rbacEntries s) (rbacCollapsed s) (abacRules s) (abacCollapsed s) (deleteTarget s) (condSeq s) (abacSeq s)).
Definition setDryRunLoading (v : bool) : prog page_state unit :=
  upd (fun s => Editor (policies s) (loading s) (error_ s) (msg s) (selectedPolicy s) (policyJson s) (rules s) (policyName s) (dryRunSubject s) (dryRunResource s) (dryRunAction s) (dryRunResult s) v (policyPriority s) (policyEffect s) (rbacEntries s) (rbacCollapsed s) (abacRules s) (abacCollapsed s) (deleteTarget s) (condSeq s) (abacSeq s)).
Definition setPolicyPriority (v : js) : prog page_state unit :=
  upd (fun s => Editor (policies s) (loading s) (error_ s) (msg s) (selectedPolicy s) (policyJson s) (rules s) (policyName s) (dryRunSubject s) (dryRunResource s) (dryRunAction s) (dryRunResult s) (dryRunLoading s) v (policyEffect s) (rbacEntries s) (rbacCollapsed s) (abacRules s) (abacCollapsed s) (deleteTarget s) (condSeq s) (abacSeq s)).
Definition setPolicyEffect (v : js) : prog page_state unit :=
  upd (fun s => Editor (policies s) (loading s) (error_ s) (msg s) (selectedPolicy s) (policyJson s) (rules s) (policyName s) (dryRunSubject s) (dryRunResource s) (dryRunAction s) (dryRunResult s) (dryRunLoading s) (policyPriority s) v (rbacEntries s) (rbacCollapsed s) (abacRules s) (abacCollapsed s) (deleteTarget s) (condSeq s) (abacSeq s)).
Definition setRbacEntries (v : list js) : prog page_state unit :=
  upd (fun s => Editor (policies s) (loading s) (error_ s) (msg s) (selectedPolicy s) (policyJson s) (rules s) (policyName s) (dryRunSubject s) (dryRunResource s) (dryRunAction s) (dryRunResult s) (dryRunLoading s) (policyPriority s) (policyEffect s) v (rbacCollapsed s) (abacRules s) (abacCollapsed s) (deleteTarget s) (condSeq s) (abacSeq s)).
Definition setRbacCollapsed (v : bool) : prog page_state unit :=
  upd (fun s => Editor (policies s) (loading s) (error_ s) (msg s) (selectedPolicy s) (policyJson s) (rules s) (policyName s) (dryRunSubject s) (dryRunResource s) (dryRunAction s) (dryRunResult s) (dryRunLoading s) (policyPriority s) (policyEffect s) (rbacEntries s) v (abacRules s) (abacCollapsed s) (deleteTarget s) (condSeq s) (abacSeq s)).
Definition setAbacRules (v : list js) : prog page_state unit :=
  upd (fun s => Editor (policies s) (loading s) (error_ s) (msg s) (selectedPolicy s) (policyJson s) (rules s) (policyName s) (dryRunSubject s) (dryRunResource s) (dryRunAction s) (dryRunResult s) (dryRunLoading s) (policyPriority s) (policyEffect s) (rbacEntries s) (rbacCollapsed s) v (abacCollapsed s) (deleteTarget s) (condSeq s) (abacSeq s)).
Definition setAbacCollapsed (v : bool) : prog page_state unit :=
  upd (fun s => Editor (policies s) (loading s) (error_ s) (msg s) (selectedPolicy s) (policyJson s) (rules s) (policyName s) (dryRunSubject s) (dryRunResource s) (dryRunAction s) (dryRunResult s) (dryRunLoading s) (policyPriority s) (policyEffect s) (rbacEntries s) (rbacCollapsed s) (abacRules s) v (deleteTarget s) (condSeq s) (abacSeq s)).
Definition setDeleteTarget (v : option (js * js)) : prog page_state unit :=
  upd (fun s => Editor (policies s) (loading s) (error_ s) (msg s) (selectedPolicy s) (policyJson s) (rules s) (policyName s) (dryRunSubject s) (dryRunResource s) (dryRunAction s) (dryRunResult s) (dryRunLoading s) (policyPriority s) (policyEffect s) (rbacEntries s) (rbacCollapsed s) (abacRules s) (abacCollapsed s) v (condSeq s) (abacSeq s)).
Definition setCondSeq (v : Z) : prog page_state unit :=
  upd (fun s => Editor (policies s) (loading s) (error_ s) (msg s) (selectedPolicy s) (policyJson s) (rules s) (policyName s) (dryRunSubject s) (dryRunResource s) (dryRunAction s) (dryRunResult s) (dryRunLoading s) (policyPriority s) (policyEffect s) (rbacEntries s) (rbacCollapsed s) (abacRules s) (abacCollapsed s) (deleteTarget s) v (abacSeq s)).
Definition setAbacSeq (v : Z) : prog page_state unit :=
  upd (fun s => Editor (policies s) (loading s) (error_ s) (msg s) (selectedPolicy s) (policyJson s) (rules s) (policyName s) (dryRunSubject s) (dryRunResource s) (dryRunAction s) (dryRunResult s) (dryRunLoading s) (policyPriority s) (policyEffect s) (rbacEntries s) (rbacCollapsed s) (abacRules s) (abacCollapsed s) (deleteTarget s) (condSeq s) v).

Definition PERMISSION_COLUMNS : list string := ["read"; "write"; "delete"; "admin"].
Definition OPERATORS : list string := ["eq"; "ne"; "in"; "contains"].

Definition permissions_of (read write delete admin : bool) : js :=
  JObj [("read", JBool read); ("write", JBool write); ("delete", JBool delete); ("admin", JBool admin)].
Definition rbac_entry (role : string) (permissions : js) : js := JObj [("role", JStr role); ("permissions", permissions)].

Definition initial_rbac : list js :=
  [rbac_entry "admin" (permissions_of true true true true); rbac_entry "editor" (permissions_of true true false false);
   rbac_entry "viewer" (permissions_of true false false false)].

Definition page_init : page_state :=
  Editor (JArr []) true None None JNull "" (JArr []) (JStr "") "" "" "" None false (JNum 50) (JStr "allow")
    initial_rbac false [] false None 0 0.

(** ** Operations on values *)

(** [[...v]]. *)
Definition spread_items (v : js) : prog page_state (list js) :=
  match v with
  | JArr l => mret l
  | JStr s => mret (map (fun c => JStr (String c "")) (String.list_ascii_of_string s))
  | _ => Throw (type_error "value is not iterable")
  end.

(** [v.map], [v.filter]: only arrays have them. *)
Definition array_items (v : js) : prog page_state (list js) :=
  match v with
  | JArr l => mret l
  | JUndef | JNull => Throw (type_error "Cannot read properties of undefined")
  | _ => Throw (type_error "value is not a function")
  end.

(** [{ ...v, [k]: x }]. *)
Definition with_member (v : js) (k : string) (x : js) : js := JObj (assoc_set k x (spread [] (own_members v))).

Fixpoint map_prog {A B} (f : A -> prog page_state B) (l : list A) : prog page_state (list B) :=
  match l with [] => mret [] | x :: l' => y ← f x; ys ← map_prog f l'; mret (y :: ys) end.

Fixpoint filter_prog {A} (f : A -> prog page_state bool) (l : list A) : prog page_state (list A) :=
  match l with
  | [] => mret []
  | x :: l' => b ← f x; ys ← filter_prog f l'; mret (if b : bool then x :: ys else ys)
  end.

(** [l.filter((_, i) => i !== index)], [l.map((x, i) => i === index ? f(x) : x)]. *)
Definition without_nth {A} (index : nat) (l : list A) : list A := take index l ++ drop (S index) l.
Definition map_nth {A} (index : nat) (f : A -> prog page_state A) (l : list A) : prog page_state (list A) :=
  map_prog (fun ix => if Nat.eqb ix.1 index then f ix.2 else mret ix.2) (zip (seq 0 (length l)) l).

(** [x.id === id]. *)
Definition has_id (id : js) (x : js) : prog page_state bool := i ← get x "id"; mret (bool_decide (i = id)).

(** ** Loading, selecting, saving *)

Section Page.
Context (API_BASE TENANT_ID : string).

Definition call (path : string) (options : option RequestInit) : prog page_state js :=
  apiFetch true API_BASE TENANT_ID path options.
Definition sending (m : method) (body : option js) : option RequestInit :=
  Some {| ri_method := Some m; ri_headers := []; ri_body := stringify <$> body |}.

Definition refresh : prog page_state unit :=
  setLoading true;;
  finally
    (try_catch
       (data ← call "/api/v1/policies" None;
        ps ← get data "policies";
        setPolicies (js_or ps (js_or (opt_prop data "items") (JArr [])));;
        setError None)
       (fun err => setError (Some (e_message err))))
    (setLoading false).

(** [refresh], started and not awaited. *)
Definition start_refresh : prog page_state unit := emit "refresh" JUndef.
Definition clear_message : prog page_state unit := setMsg None.

Definition selectPolicy (p : js) : prog page_state unit :=
  setSelectedPolicy p;;
  setPolicyName (opt_prop p "name");;
  setRules (js_or (opt_prop p "rules") (JArr []));;
  setPolicyPriority (js_nullish (opt_prop p "priority") (JNum 50));;
  setPolicyEffect (js_nullish (opt_prop p "effect") (JStr "allow"));;
  setPolicyJson (pretty p).

Definition resetEditor : prog page_state unit :=
  setSelectedPolicy JNull;;
  setPolicyName (JStr "");;
  setRules (JArr []);;
  setPolicyJson "";;
  setPolicyPriority (JNum 50);;
  setPolicyEffect (JStr "allow").

Definition payload (s : page_state) : js :=
  JObj [("name", js_or (policyName s) (JStr "Untitled Policy")); ("rules", rules s); ("priority", policyPriority s);
        ("effect", policyEffect s)].

Definition handleCreatePolicy (s : page_state) : prog page_state unit :=
  try_catch
    (call "/api/v1/policies" (sending POST (Some (payload s)));;
     setMsg (Some "Policy created successfully");;
     start_refresh;;
     resetEditor)
    (fun err => setError (Some (e_message err))).

Definition handleDeletePolicy (s : page_state) (id : js) : prog page_state unit :=
  try_catch
    (call ("/api/v1/policies/" +:+ to_str id) (sending DELETE None);;
     setMsg (Some "Policy deleted");;
     start_refresh;;
     (if bool_decide (opt_prop (selectedPolicy s) "id" = id) then resetEditor else mret tt))
    (fun err => setError (Some (e_message err)));;
  setDeleteTarget None.

(** The bin of a policy in the list asks first. *)
Definition ask_delete (p : js) : prog page_state unit := setDeleteTarget (Some (opt_prop p "id", opt_prop p "name")).

Definition dry_run_body (s : page_state) : js :=
  JObj [("subject", JStr (dryRunSubject s)); ("resource", JStr (dryRunResource s)); ("action", JStr (dryRunAction s))].

Definition handleDryRun (s : page_state) : prog page_state unit :=
  setDryRunLoading true;;
  setDryRunResult None;;
  finally
    (try_catch
       (data ← call "/api/v1/policies/dry-run" (sending POST (Some (dry_run_body s)));
        a ← get data "allow";
        let allow := js_nullish a (JBool (js_is_str (opt_prop data "decision") "allow")) in
        setDryRunResult (Some (allow, opt_prop data "detail")))
       (fun err => setDryRunResult (Some (JBool false, JStr (e_message err)))))
    (setDryRunLoading false).

(** *** The rules *)

Definition empty_rule : js :=
  JObj [("subject", JStr ""); ("resource", JStr ""); ("action", JStr ""); ("effect", JStr "allow")].

Definition addRule (s : page_state) : prog page_state unit :=
  l ← spread_items (rules s); setRules (JArr (l ++ [empty_rule])).
Definition removeRule (s : page_state) (index : nat) : prog page_state unit :=
  l ← array_items (rules s); setRules (JArr (without_nth index l)).
Definition updateRule (s : page_state) (index : nat) (field value : string) : prog page_state unit :=
  l ← array_items (rules s);
  l' ← map_nth index (fun r => mret (with_member r field (JStr value))) l;
  setRules (JArr l').

Definition syncJsonToRules (s : page_state) : prog page_state unit :=
  try_catch
    (parsed ← json_parse (policyJson s);
     r ← get parsed "rules";
     setRules (js_or r (JArr []));;
     setPolicyName (js_or (opt_prop parsed "name") (policyName s));;
     setMsg (Some "JSON parsed and synced to rules"))
    (fun err => setError (Some ("Invalid JSON: " +:+ e_message err))).

(** *** Files *)

Definition download (name text : string) : prog page_state unit :=
  emit "download" (JObj [("name", JStr name); ("text", JStr text)]).

Definition handleExportAllJson (s : page_state) : prog page_state unit :=
  t1 ← now;
  t2 ← now;
  download ("all_policies_" +:+ String.substring 0 10 (toISOString t2) +:+ ".json")
    (pretty (JObj [("exported_at", JStr (toISOString t1)); ("policies", policies s)]));;
  setMsg (Some "All policies exported as JSON").

Definition export_data (s : page_state) : js :=
  JObj [("name", js_or (policyName s) (JStr "Untitled Policy")); ("rules", rules s); ("priority", policyPriority s);
        ("effect", policyEffect s); ("rbac", JArr (rbacEntries s)); ("abac", JArr (abacRules s))].

(** [s.replace(/[^a-z0-9]/gi, "_")]. *)
Definition file_name (v : js) : prog page_state string :=
  match v with
  | JStr s => mret (str_flat_map (fun c => if is_alnum c then String c "" else "_") s)
  | _ => Throw (type_error "replace is not a function")
  end.

Definition handleExportJson (s : page_state) : prog page_state unit :=
  n ← file_name (js_or (policyName s) (JStr "policy"));
  download (n +:+ ".json") (pretty (export_data s));;
  setMsg (Some "Policy exported as JSON").

(** The file read: what [reader.onload] does. *)
Definition import_text (text : string) : prog page_state unit :=
  try_catch
    (parsed ← json_parse text;
     name ← get parsed "name";
     setPolicyName (js_or name (JStr "Imported Policy"));;
     setRules (js_or (opt_prop parsed "rules") (JArr []));;
     setPolicyPriority (match opt_prop parsed "priority" with JNum n => JNum n | _ => JNum 50 end);;
     setPolicyEffect (JStr (if js_is_str (opt_prop parsed "effect") "deny" then "deny" else "allow"));;
     setPolicyJson (pretty parsed);;
     (match opt_prop parsed "rbac" with JArr l => setRbacEntries l | _ => mret tt end);;
     (match opt_prop parsed "abac" with JArr l => setAbacRules l | _ => mret tt end);;
     setMsg (Some "Policy imported successfully"))
    (fun err => setError (Some ("Failed to parse JSON file: " +:+ e_message err))).

Definition handleImportJson (file : option string) : prog page_state unit :=
  match file with
  | None => mret tt
  | Some text => Act OYield (fun _ => import_text text)
  end.

(** *** The table of roles.  [name] is what the prompt returns. *)

Definition addRbacRole (s : page_state) (name : option string) : prog page_state unit :=
  match nonempty name with
  | None => mret tt
  | Some n => setRbacEntries (rbacEntries s ++ [rbac_entry n (permissions_of false false false false)])
  end.
Definition removeRbacRole (s : page_state) (index : nat) : prog page_state unit :=
  setRbacEntries (without_nth index (rbacEntries s)).
Definition toggle_entry (perm : string) (entry : js) : prog page_state js :=
  ps ← get entry "permissions";
  p ← get ps perm;
  mret (with_member entry "permissions" (with_member ps perm (JBool (negb (truthy p))))).
Definition toggleRbacPermission (s : page_state) (roleIndex : nat) (perm : string) : prog page_state unit :=
  l ← map_nth roleIndex (toggle_entry perm) (rbacEntries s); setRbacEntries l.
Definition renameRbacRole (s : page_state) (index : nat) (name : string) : prog page_state unit :=
  l ← map_nth index (fun entry => mret (with_member entry "role" (JStr name))) (rbacEntries s); setRbacEntries l.

(** *** The attribute rules *)

(** [`${prefix}-${Date.now()}-${n}`]. *)
Definition stamped (prefix : string) (t n : Z) : string := prefix +:+ "-" +:+ string_of_Z t +:+ "-" +:+ string_of_Z n.

Definition makeCondition : prog page_state js :=
  t ← now;
  s ← get_state;
  setCondSeq (condSeq s + 1);;
  mret (JObj [("id", JStr (stamped "cond" t (condSeq s))); ("target", JStr "subject"); ("attribute", JStr "");
              ("operator", JStr "eq"); ("value", JStr "")]).

Definition makeAbacRule : prog page_state js :=
  t ← now;
  s ← get_state;
  setAbacSeq (abacSeq s + 1);;
  c ← makeCondition;
  mret (JObj [("id", JStr (stamped "abac" t (abacSeq s))); ("conditions", JArr [c]); ("effect", JStr "allow")]).

Definition addAbacRule (s : page_state) : prog page_state unit :=
  r ← makeAbacRule; setAbacRules (abacRules s ++ [r]).
Definition removeAbacRule (s : page_state) (ruleId : js) : prog page_state unit :=
  l ← filter_prog (fun r => b ← has_id ruleId r; mret (negb b)) (abacRules s); setAbacRules l.

(** [abacRules.map(r => r.id === ruleId ? f(r) : r)]. *)
Definition map_rule (s : page_state) (ruleId : js) (f : js -> prog page_state js) : prog page_state unit :=
  l ← map_prog (fun r => b ← has_id ruleId r; if b : bool then f r else mret r) (abacRules s); setAbacRules l.

Definition addAbacCondition (s : page_state) (ruleId : js) : prog page_state unit :=
  map_rule s ruleId (fun r =>
    cs ← get r "conditions";
    l ← spread_items cs;
    c ← makeCondition;
    mret (with_member r "conditions" (JArr (l ++ [c])))).
Definition removeAbacCondition (s : page_state) (ruleId condId : js) : prog page_state unit :=
  map_rule s ruleId (fun r =>
    cs ← get r "conditions";
    l ← array_items cs;
    l' ← filter_prog (fun c => b ← has_id condId c; mret (negb b)) l;
    mret (with_member r "conditions" (JArr l'))).
Definition updateAbacCondition (s : page_state) (ruleId condId : js) (field value : string) : prog page_state unit :=
  map_rule s ruleId (fun r =>
    cs ← get r "conditions";
    l ← array_items cs;
    l' ← map_prog (fun c => b ← has_id condId c; mret (if b : bool then with_member c field (JStr value) else c)) l;
    mret (with_member r "conditions" (JArr l'))).
Definition updateAbacEffect (s : page_state) (ruleId : js) (effect : string) : prog page_state unit :=
  map_rule s ruleId (fun r => mret (with_member r "effect" (JStr effect))).
End Page.

(** ** What is rendered *)

(** Whether the lists of the page can be rendered; a render that raises takes the page down. *)
Definition row_list (row : js -> bool) (v : js) : bool :=
  match v with
  | JArr l => forallb row l
  | JStr s => String.eqb s ""
  | JObj _ => match opt_prop v "length" with JNum n => n =? 0 | _ => false end
  | _ => false
  end.
Definition not_nullish (v : js) : bool := negb (is_nullish v).
Definition rbac_row (entry : js) : bool := not_nullish entry && not_nullish (opt_prop entry "permissions").
Definition abac_row (rule : js) : bool :=
  not_nullish rule && match opt_prop rule "conditions" with JArr l => forallb not_nullish l | _ => false end.

Definition renders (s : page_state) : bool :=
  (loading s || row_list not_nullish (policies s)) && row_list not_nullish (rules s)
  && (rbacCollapsed s || forallb rbac_row (rbacEntries s))
  && (abacCollapsed s || forallb abac_row (abacRules s)).

(** The test runs when its three fields are filled in. *)
Definition dry_run_enabled (s : page_state) : bool :=
  negb (String.eqb (dryRunSubject s) "" || String.eqb (dryRunResource s) "" || String.eqb (dryRunAction s) "" || dryRunLoading s).

(** ** Files *)

Definition exportable (s : page_state) : Prop :=
  (exists n, policyName s = JStr n) /\ json_wf (rules s) = true /\ truthy (rules s) = true
  /\ (exists n, policyPriority s = JNum n) /\ (policyEffect s = JStr "allow" \/ policyEffect s = JStr "deny")
  /\ json_wf (JArr (rbacEntries s)) = true /\ json_wf (JArr (abacRules s)) = true.

Lemma exported_wf s : exportable s -> json_wf (export_data s) = true.
Proof.
  intros ((n & Hn) & Hr & _ & (p & Hp) & He & Hb & Ha). unfold export_data. rewrite Hn, Hp.
  assert (json_wf (js_or (JStr n) (JStr "Untitled Policy")) = true) as Hname by (unfold js_or; by destruct (truthy (JStr n))).
  revert Hname Hr Hb Ha. generalize (js_or (JStr n) (JStr "Untitled Policy")) (rules s) (JArr (rbacEntries s)) (JArr (abacRules s)).
  intros v1 v2 v3 v4 H1 H2 H3 H4. cbn. rewrite H1, H2, H3, H4. by destruct He as [-> | ->].
Qed.

(** What the editor holds. *)
Definition same_policy (s s' : page_state) : Prop :=
  policyName s = policyName s' /\ rules s = rules s' /\ policyPriority s = policyPriority s' /\ policyEffect s = policyEffect s'
  /\ rbacEntries s = rbacEntries s' /\ abacRules s = abacRules s'.

(** C29. A policy exported and imported again, on any page at any time, is the policy: its
    name (or the one given in its place), its rules, priority and effect, the table of roles
    and the attribute rules; and the text area shows the file. *)
Theorem export_then_import (e e' : env) s w w' :
  exportable s ->
  exists file text w1 w2,
    run e (handleExportJson s) w = (Done tt, w1)
    /\ w_trace w1 = ObsEmit "download" (JObj [("name", JStr file); ("text", JStr text)]) :: w_trace w
    /\ run e' (handleImportJson (Some text)) w' = (Done tt, w2)
    /\ policyName (w_st w2) = js_or (policyName s) (JStr "Untitled Policy")
    /\ (truthy (policyName s) = true -> same_policy (w_st w2) s)
    /\ policyJson (w_st w2) = text /\ msg (w_st w2) = Some "Policy imported successfully".
Proof.
  intros Hx. pose proof (exported_wf s Hx) as Hwf. destruct Hx as ((n & Hn) & Hr & Ht & (p & Hp) & He & _).
  assert (exists f, js_or (policyName s) (JStr "policy") = JStr f) as (f & Hf).
  { rewrite Hn. unfold js_or. destruct (truthy (JStr n)); by eexists. }
  exists (str_flat_map (fun c => if is_alnum c then String c "" else "_") f +:+ ".json"), (pretty (export_data s)).
  unfold handleExportJson. rewrite Hf. unfold file_name, download, setMsg. run_steps.
  eexists _, _. split; [reflexivity|]. split; [by destruct w|].
  unfold handleImportJson. cbn [run handle]. unfold import_text. run_steps. rewrite JSON_parse_pretty by done. run_steps.
  unfold setPolicyName, setRules, setPolicyPriority, setPolicyEffect, setPolicyJson, setRbacEntries, setAbacRules, setMsg.
  assert (forall k, prop (export_data s) k = Some (opt_prop (export_data s) k)) as Hprop by done.
  erewrite run_get by apply Hprop. run_steps.
  change (opt_prop (export_data s) "rbac") with (JArr (rbacEntries s)). change (opt_prop (export_data s) "abac") with (JArr (abacRules s)).
  change (opt_prop (export_data s) "name") with (js_or (policyName s) (JStr "Untitled Policy")).
  change (opt_prop (export_data s) "rules") with (rules s). change (opt_prop (export_data s) "priority") with (policyPriority s).
  change (opt_prop (export_data s) "effect") with (policyEffect s). run_steps.
  split; [reflexivity|]. match goal with |- context [policyName (w_st ?x)] => set (w2 := x) end.
  assert (policyName (w_st w2) = js_or (js_or (policyName s) (JStr "Untitled Policy")) (JStr "Imported Policy")
    /\ rules (w_st w2) = js_or (rules s) (JArr [])
    /\ policyPriority (w_st w2) = match policyPriority s with JNum n => JNum n | _ => JNum 50 end
    /\ policyEffect (w_st w2) = JStr (if js_is_str (policyEffect s) "deny" then "deny" else "allow")
    /\ rbacEntries (w_st w2) = rbacEntries s /\ abacRules (w_st w2) = abacRules s
    /\ policyJson (w_st w2) = pretty (export_data s) /\ msg (w_st w2) = Some "Policy imported successfully")
    as (-> & H2 & H3 & H4 & H5 & H6 & -> & ->).
  { unfold w2. destruct w' as [s0 l1 l2 l3 tr]. split_and!; reflexivity. }
  assert (truthy (js_or (policyName s) (JStr "Untitled Policy")) = true) as Htn.
  { unfold js_or. by destruct (truthy (policyName s)) eqn:E. }
  unfold js_or at 1. rewrite Htn. split; [done|]. split; [|done].
  intros Hname. unfold same_policy. rewrite H2, H3, H4, H5, H6. unfold js_or. rewrite Ht, Hp.
  assert (policyName (w_st w2) = policyName s) as ->; [|by destruct He as [-> | ->]].
  unfold w2. destruct w' as [s0 l1 l2 l3 tr]. transitivity (js_or (js_or (policyName s) (JStr "Untitled Policy")) (JStr "Imported Policy")); [reflexivity|].
  unfold js_or. by rewrite Hname, Hname.
Qed.

(** A text that is no JSON, or [null], changes the message only. *)
Lemma bad_file (e : env) text w :
  JSON_parse text = None \/ JSON_parse text = Some JNull ->
  exists x, run e (import_text text) w = (Done tt, (run e (setError (Some x)) w).2).
Proof.
  intros H. unfold import_text, setError. run_steps. destruct H as [-> | ->]; run_steps; [by eexists|].
  unfold get. cbn [prop]. run_steps. by eexists.
Qed.

(** ** What the page asks of the server *)

Section Requests.
Context (API_BASE TENANT_ID : string).

(** Every call of the page, by the render [w] it was made from; [import_text] apart. *)
Inductive editor_call (w : world page_state) : prog page_state unit -> Prop :=
| call_refresh : editor_call w (refresh API_BASE TENANT_ID)
| call_clear : editor_call w clear_message
| call_select p : editor_call w (selectPolicy p)
| call_new : editor_call w resetEditor
| call_create : editor_call w (handleCreatePolicy API_BASE TENANT_ID (w_st w))
| call_ask p : editor_call w (ask_delete p)
| call_cancel : editor_call w (setDeleteTarget None)
| call_delete id : editor_call w (handleDeletePolicy API_BASE TENANT_ID (w_st w) id)
| call_try : editor_call w (handleDryRun API_BASE TENANT_ID (w_st w))
| call_type_name v : editor_call w (setPolicyName (JStr v))
| call_type_json v : editor_call w (setPolicyJson v)
| call_type_subject v : editor_call w (setDryRunSubject v)
| call_type_resource v : editor_call w (setDryRunResource v)
| call_type_action v : editor_call w (setDryRunAction v)
| call_priority v : editor_call w (setPolicyPriority (JNum v))
| call_effect v : editor_call w (setPolicyEffect (JStr v))
| call_fold_rbac b : editor_call w (setRbacCollapsed b)
| call_fold_abac b : editor_call w (setAbacCollapsed b)
| call_add_rule : editor_call w (addRule (w_st w))
| call_remove_rule i : editor_call w (removeRule (w_st w) i)
| call_update_rule i k v : editor_call w (updateRule (w_st w) i k v)
| call_sync : editor_call w (syncJsonToRules (w_st w))
| call_export_all : editor_call w (handleExportAllJson (w_st w))
| call_export : editor_call w (handleExportJson (w_st w))
| call_add_role n : editor_call w (addRbacRole (w_st w) n)
| call_remove_role i : editor_call w (removeRbacRole (w_st w) i)
| call_toggle_role i k : In k PERMISSION_COLUMNS -> editor_call w (toggleRbacPermission (w_st w) i k)
| call_rename_role i v : editor_call w (renameRbacRole (w_st w) i v)
| call_add_abac : editor_call w (addAbacRule (w_st w))
| call_remove_abac i : editor_call w (removeAbacRule (w_st w) i)
| call_add_cond i : editor_call w (addAbacCondition (w_st w) i)
| call_remove_cond i j : editor_call w (removeAbacCondition (w_st w) i j)
| call_update_cond i j k v :
    In k ["target"; "attribute"; "operator"; "value"] -> editor_call w (updateAbacCondition (w_st w) i j k v)
| call_update_effect i v : editor_call w (updateAbacEffect (w_st w) i v).

(** The bodies the page sends: of a new policy, and of a trial. *)
Definition policy_body (name rules priority effect : js) : js :=
  JObj [("name", name); ("rules", rules); ("priority", priority); ("effect", effect)].
Definition trial_body (subject resource action : string) : js :=
  JObj [("subject", JStr subject); ("resource", JStr resource); ("action", JStr action)].

(** The requests of the page: the list, a new policy with its four members, a deletion, a
    trial, and the refresh of the session. *)
Inductive page_request : request -> Prop :=
| req_list hs : page_request (Request GET (API_BASE +:+ "/api/v1/policies") hs None)
| req_create hs name rules priority effect :
    page_request (Request POST (API_BASE +:+ "/api/v1/policies") hs (Some (stringify (policy_body name rules priority effect))))
| req_delete hs id : page_request (Request DELETE (API_BASE +:+ ("/api/v1/policies/" +:+ id)) hs None)
| req_try hs subject resource action :
    page_request (Request POST (API_BASE +:+ "/api/v1/policies/dry-run") hs (Some (stringify (trial_body subject resource action))))
| req_session r : page_request (refresh_request API_BASE r).

Definition asks_only (o : obs) : Prop := match o with ObsFetch r => page_request r | _ => True end.

Lemma tame_map_values {A B} (P : page_state -> Prop) O (f : A -> prog page_state B) l :
  (forall x, tame P O (f x)) -> tame P O (map_prog f l).
Proof.
  intros H. induction l as [|x l IH]; [done|]. cbn [map_prog]. apply tame_bind; [done|intros y]. by apply tame_bind.
Qed.

Lemma tame_filter_prog {A} (P : page_state -> Prop) O (f : A -> prog page_state bool) l :
  (forall x, tame P O (f x)) -> tame P O (filter_prog f l).
Proof.
  intros H. induction l as [|x l IH]; [done|]. cbn [filter_prog]. apply tame_bind; [done|intros y]. by apply tame_bind.
Qed.

Lemma tame_items (P : page_state -> Prop) O v : tame P O (spread_items v) /\ tame P O (array_items v).
Proof. by destruct v. Qed.

Notation quiet := (tame (fun _ => True) asks_only).

Lemma quiet_call path options :
  (forall hs, page_request (api_request API_BASE path options hs)) -> quiet (call API_BASE TENANT_ID path options).
Proof. intros H. apply tame_apiFetch; [done|intros r; apply req_session|done]. Qed.

Lemma quiet_has_id id x : quiet (has_id id x).
Proof. unfold has_id. tame_prog. Qed.

Lemma quiet_condition : quiet makeCondition.
Proof. by repeat split. Qed.

Lemma quiet_map_rule s id f : (forall r, quiet (f r)) -> quiet (map_rule s id f).
Proof.
  intros H. unfold map_rule. apply tame_bind; [|by split]. apply tame_map_values. intros r.
  apply tame_bind; [apply quiet_has_id|]. by intros [].
Qed.

Lemma quiet_map_nth {A} i (f : A -> prog page_state A) l : (forall x, quiet (f x)) -> quiet (map_nth i f l).
Proof. intros H. apply tame_map_values. intros [j x]. cbn. by destruct (Nat.eqb j i). Qed.

Lemma quiet_import text : quiet (import_text text).
Proof.
  unfold import_text, json_parse. tame_prog; try (by split). all: destruct (opt_prop _ _); by split.
Qed.

Lemma quiet_editor_call w p : editor_call w p -> quiet p.
Proof.
  intros []; try (by repeat split).
  - unfold refresh. tame_prog; try (by split). apply quiet_call, req_list.
  - unfold handleCreatePolicy, start_refresh, resetEditor. tame_prog; try (by split). apply quiet_call. intros hs. apply req_create.
  - unfold handleDeletePolicy, start_refresh, resetEditor. tame_prog; try (by split). apply quiet_call. intros hs. apply req_delete.
  - unfold handleDryRun. tame_prog; try (by split). apply quiet_call. intros hs. apply req_try.
  - unfold addRule. apply tame_bind; [apply tame_items|by split].
  - unfold removeRule. apply tame_bind; [apply tame_items|by split].
  - unfold updateRule. apply tame_bind; [apply tame_items|intros l]. apply tame_bind; [by apply quiet_map_nth|by split].
  - unfold syncJsonToRules, json_parse. tame_prog; by split.
  - unfold handleExportJson, file_name, download. tame_prog; by split.
  - unfold addRbacRole. destruct (nonempty n); by split.
  - unfold toggleRbacPermission. apply tame_bind; [|by split]. apply quiet_map_nth. intros x. unfold toggle_entry. tame_prog.
  - unfold renameRbacRole. apply tame_bind; [by apply quiet_map_nth|by split].
  - unfold removeAbacRule. apply tame_bind; [|by split]. apply tame_filter_prog. intros r. apply tame_bind; [apply quiet_has_id|done].
  - apply quiet_map_rule. intros r. tame_prog; [apply tame_items|apply quiet_condition].
  - apply quiet_map_rule. intros r. tame_prog; [apply tame_items|]. apply tame_filter_prog. intros c. apply tame_bind; [apply quiet_has_id|done].
  - apply quiet_map_rule. intros r. tame_prog; [apply tame_items|]. apply tame_map_values. intros c. apply tame_bind; [apply quiet_has_id|done].
  - by apply quiet_map_rule.
Qed.

(** C39. Whatever the user does on the page, files included, in any order and overlap, and
    whatever the server answers, each of its requests is the list, a policy posted, a deletion,
    a trial or the refresh of the session.  None is a PUT or a PATCH, so a policy once made is
    never changed, only made anew or deleted.  A policy posted is a name, rules, a priority and
    an effect, and a trial a subject, a resource and an action, with no other member: the table
    of roles and the attribute rules are sent in neither, and the list and a deletion send no
    body. *)
Theorem requests_known (e : env) answers l c r :
  reachable e (fun w p => editor_call w p \/ exists file, p = handleImportJson file) answers (page page_init l) c ->
  In r (fetches (w_trace c.1)) ->
  rq_method r <> PUT /\ rq_method r <> PATCH
  /\ ((rq_method r = GET /\ rq_url r = API_BASE +:+ "/api/v1/policies" /\ rq_body r = None)
      \/ (rq_method r = POST /\ rq_url r = API_BASE +:+ "/api/v1/policies"
          /\ exists name rules priority effect, rq_body r
             = Some (stringify (JObj [("name", name); ("rules", rules); ("priority", priority); ("effect", effect)])))
      \/ (rq_method r = DELETE /\ (exists id, rq_url r = API_BASE +:+ "/api/v1/policies/" +:+ id) /\ rq_body r = None)
      \/ (rq_method r = POST /\ rq_url r = API_BASE +:+ "/api/v1/policies/dry-run"
          /\ exists subject resource action, rq_body r
             = Some (stringify (JObj [("subject", JStr subject); ("resource", JStr resource); ("action", JStr action)])))
      \/ exists token, r = refresh_request API_BASE token).
Proof.
  intros Hr Hin.
  assert (tame_inv (fun _ => True) asks_only c.1) as [_ Ht].
  { eapply (safe_reachable e _ answers (tame_inv (fun _ => True) asks_only)); [| |exact Hr]; [by repeat constructor|].
    intros w p Hw Hp. apply tame_safe; [|done]. destruct Hp as [Hp|([text|] & ->)]; [by eapply quiet_editor_call| |done].
    split; [done|]. intros _. apply quiet_import. }
  assert (page_request r) as Hq.
  { clear Hr. induction Ht as [|o tr Ho Htr IH]; [done|]. destruct o; cbn in Hin; try (by apply IH).
    destruct Hin as [->|Hin]; [done|by apply IH]. }
  destruct Hq; cbn; (split; [done|]; split; [done|]); naive_solver.
Qed.
End Requests.

(** ** Edits *)

Lemma run_map_pure {A B} (e : env) (f : A -> prog page_state B) (g : A -> B) l w :
  (forall x w, In x l -> run e (f x) w = (Done (g x), w)) -> run e (map_prog f l) w = (Done (map g l), w).
Proof.
  intros H. revert w. induction l as [|x l IH]; intros w; [done|]. cbn [map_prog]. run_steps.
  rewrite H by by left. cbn iota. run_steps. rewrite IH by (intros; apply H; by right). by run_steps.
Qed.

(** [l] with its [i]-th element changed. *)
Lemma run_map_nth {A} (e : env) (f : A -> prog page_state A) (g : A -> A) i l w :
  (forall x w, l !! i = Some x -> run e (f x) w = (Done (g x), w)) -> run e (map_nth i f l) w = (Done (alter g i l), w).
Proof.
  intros H. unfold map_nth.
  assert (forall k l', (forall x w, l' !! i = Some x -> run e (f x) w = (Done (g x), w)) ->
    run e (map_prog (fun ix => if Nat.eqb ix.1 (k + i) then f ix.2 else mret ix.2) (zip (seq k (length l')) l')) w = (Done (alter g i l'), w)) as Hk.
  { clear H l. revert w. intros w k l. revert i k w. induction l as [|x l IH]; intros i k w Hf; [by destruct i|].
    cbn [length seq zip zip_with map_prog]. run_steps. cbn [fst snd]. destruct i as [|i].
    - rewrite Nat.add_0_r, Nat.eqb_refl. rewrite Hf by done. cbn iota. run_steps.
      rewrite (run_map_pure e _ snd); [run_steps|].
      + assert (forall j, map snd (zip (seq j (length l)) l) = l) as Hz.
        { clear. induction l as [|y l IH]; intros j; [done|]. cbn. by rewrite IH. }
        by rewrite Hz.
      + intros [j y] w' Hin. assert (k < j)%nat as Hj; [|by rewrite (proj2 (Nat.eqb_neq _ _)) by (cbn; lia)].
        apply list_elem_of_In, elem_of_zip_l, elem_of_seq in Hin. cbn in Hin. lia.
    - rewrite (proj2 (Nat.eqb_neq _ _)) by lia. run_steps.
      replace (k + S i)%nat with (S k + i)%nat by lia. rewrite IH by exact Hf. by run_steps. }
  by apply (Hk O).
Qed.

(** Rules are added at the end, and removed and changed by their place, the others as they were. *)
Lemma rule_edits (e : env) s l i k v w :
  rules s = JArr l ->
  rules (w_st (run e (addRule s) w).2) = JArr (l ++ [empty_rule])
  /\ rules (w_st (run e (removeRule s i) w).2) = JArr (without_nth i l)
  /\ rules (w_st (run e (updateRule s i k v) w).2) = JArr (alter (fun r => with_member r k (JStr v)) i l).
Proof.
  intros Hl. unfold addRule, removeRule, updateRule, setRules. rewrite Hl. cbn [spread_items array_items]. run_steps.
  rewrite (run_map_nth e _ (fun r => with_member r k (JStr v))) by done. run_steps. by destruct w.
Qed.

(** The rules of a file that are no list of rules take the page down. *)
Example import_breaks_page :
  let w := (run (const_env None 0) (import_text (stringify (JObj [("rules", JStr "all")]))) (page page_init ∅)).2 in
  renders (w_st w) = false /\ msg (w_st w) = Some "Policy imported successfully".
Proof. vm_compute. done. Qed.

(** A policy selected and saved is posted without its identifier and its description. *)
Definition demo_policy : js :=
  JObj [("id", JStr "p1"); ("name", JStr "Readers"); ("description", JStr "May read"); ("rules", JArr [empty_rule]);
        ("priority", JNum 10); ("effect", JStr "deny")].
Example saving_makes_another :
  let s := w_st (run (const_env None 0) (selectPolicy demo_policy) (page page_init ∅)).2 in
  payload s = JObj [("name", JStr "Readers"); ("rules", JArr [empty_rule]); ("priority", JNum 10); ("effect", JStr "deny")].
Proof. vm_compute. done. Qed.

(** ** Witnesses *)

Definition demo_state : page_state := w_st (run (const_env None 0) (selectPolicy demo_policy) (page page_init ∅)).2.

Lemma export_then_import_witness :
  exists text w2, run (const_env None 0) (handleImportJson (Some text)) (page page_init ∅) = (Done tt, w2)
  /\ same_policy (w_st w2) demo_state.
Proof.
  destruct (export_then_import (const_env None 0) (const_env None 0) demo_state (page demo_state ∅) (page page_init ∅))
    as (file & text & w1 & w2 & _ & _ & Hr & _ & Hs & _).
  - split; [by exists "Readers"|]. split; [reflexivity|]. split; [reflexivity|]. split; [by exists 10|].
    split; [by right|]. split; reflexivity.
  - exists text, w2. split; [exact Hr|]. apply Hs. reflexivity.
Defined.

Lemma requests_known_witness :
  exists c r, reachable (const_env None 0) (fun w p => editor_call "https://api" "t" w p \/ exists file, p = handleImportJson file)
      (fun _ _ _ => True) (page page_init ∅) c
  /\ In r (fetches (w_trace c.1)) /\ rq_method r <> PUT.
Proof.
  assert (exists c r, reachable (const_env None 0) (fun w p => editor_call "https://api" "t" w p \/ exists file, p = handleImportJson file)
      (fun _ _ _ => True) (page page_init ∅) c /\ In r (fetches (w_trace c.1))) as (c & r & Hc & Hin).
  { eexists _, _. split; [eapply reach_step; [eapply reach_step; [apply reach_init|]|]|].
    - eapply step_spawn; [left; apply (call_type_name _ _ _ "Mine")|reflexivity].
    - eapply step_spawn; [left; apply call_create|reflexivity].
    - cbn. by left. }
  exists c, r. split; [exact Hc|]. split; [exact Hin|].
  exact (proj1 (requests_known "https://api" "t" (const_env None 0) (fun _ _ _ => True) ∅ c r Hc Hin)).
Defined.
