(* ===== verification/UsersPage.v ===== *)
(** * The list of users (console/src/app/users/page.tsx)

    The page lists the users of [useUsers], filtered and paged, creates, locks and deletes
    them one by one or together, and imports them from a pasted text or a CSV file.  Users are
    the JSON values of the server: the filter raises where JavaScript does ([None]).  [refresh]
    is started and not awaited; the timers that clear a message or refresh are calls of their
    own.  The text of an import is read as the wizard reads it (UserImport). *)

From S2P Require Import Prelude JsValue JsString Json JsonPretty Effects ApiClient UserImport.
#[local] Open Scope Z_scope.

Definition PAGE_SIZE : nat := 10.
Definition GGID_FIELDS : list GgidField :=
  [Field "username" "Username" true; Field "email" "Email" true; Field "display_name" "Display Name" false; Field "phone" "Phone" false].

(** ** Filter and pages *)

(** [l.filter(f)] where [f] may raise. *)
Fixpoint filter_opt {A} (f : A -> option bool) (l : list A) : option (list A) :=
  match l with
  | [] => Some []
  | x :: l' => b ← f x; ys ← filter_opt f l'; Some (if b : bool then x :: ys else ys)
  end.

(** [v.toLowerCase().includes(q)]. *)
Definition lower_has (v : js) (q : string) : option bool := s ← js_lower v; Some (str_includes q s).

Definition searched (search : string) (u : js) : option bool :=
  if String.eqb search "" then Some true else
  let q := to_lower search in
  name ← prop u "username";
  b ← lower_has name q;
  if (b : bool) then Some true else lower_has (opt_prop u "email") q.

Definition role_name (r : js) : option js :=
  match r with
  | JStr _ => Some r
  | _ => n ← prop r "role_name"; Some (js_or n (js_or (opt_prop r "name") (js_or (opt_prop r "key") (JStr ""))))
  end.
Definition has_role (roleFilter : string) (u : js) : option bool :=
  if String.eqb roleFilter "" then Some true else
  roles ← prop u "roles";
  js_some (js_or roles (JArr [])) (fun r => n ← role_name r; lower_has n (to_lower roleFilter)).

Definition passes (search roleFilter : string) (u : js) : option bool :=
  b ← searched search u;
  if (b : bool) then has_role roleFilter u else Some false.

(** [users.filter(...)]: raises on what is no array. *)
Definition filtered_users (users : js) (search roleFilter : string) : option (list js) :=
  match users with JArr l => filter_opt (passes search roleFilter) l | _ => None end.

Definition pages (n : nat) : nat := (n + PAGE_SIZE - 1) / PAGE_SIZE.
Definition paginated {A} (page : nat) (l : list A) : list A := take PAGE_SIZE (drop (page * PAGE_SIZE) l).

(** ** The page *)

Record page_state := UsersPage {
  hook : users_state;
  search : string;
  roleFilter : string;
  showCreate : bool;
  page_ : nat;
  selected : list js;
  batchRole : string;
  msg : option string;
  roles : js;
  showImport : bool;
  importText : string;
  importResult : option string;
  showCsvImport : bool;
  csvData : list (list string);
  csvHeaders : list string;
  columnMapping : ColumnMap;
  csvImporting : bool;
  csvImportResult : option string;
  deleteTarget : option (list js * string);
  showExportMenu : bool;
  creating : bool;
  formError : string;
  formSuccess : string;
  showPassword : bool;
  pwStrength : js;
  pwFeedback : string;
  fieldErrors : gmap string string }.

Definition setSearch (v : string) : prog page_state unit :=
  upd (fun s => UsersPage (hook s) v (roleFilter s) (showCreate s) (page_ s) (selected s) (batchRole s) (msg s) (roles s) (showImport s) (importText s) (importResult s) (showCsvImport s) (csvData s) (csvHeaders s) (columnMapping s) (csvImporting s) (csvImportResult s) (deleteTarget s) (showExportMenu s) (creating s) (formError s) (formSuccess s) (showPassword s) (pwStrength s) (pwFeedback s) (fieldErrors s)).
Definition setRoleFilter (v : string) : prog page_state unit :=
  upd (fun s => UsersPage (hook s) (search s) v (showCreate s) (page_ s) (selected s) (batchRole s) (msg s) (roles s) (showImport s) (importText s) (importResult s) (showCsvImport s) (csvData s) (csvHeaders s) (columnMapping s) (csvImporting s) (csvImportResult s) (deleteTarget s) (showExportMenu s) (creating s) (formError s) (formSuccess s) (showPassword s) (pwStrength s) (pwFeedback s) (fieldErrors s)).
Definition setShowCreate (v : bool) : prog page_state unit :=
  upd (fun s => UsersPage (hook s) (search s) (roleFilter s) v (page_ s) (selected s) (batchRole s) (msg s) (roles s) (showImport s) (importText s) (importResult s) (showCsvImport s) (csvData s) (csvHeaders s) (columnMapping s) (csvImporting s) (csvImportResult s) (deleteTarget s) (showExportMenu s) (creating s) (formError s) (formSuccess s) (showPassword s) (pwStrength s) (pwFeedback s) (fieldErrors s)).
Definition setPage (v : nat) : prog page_state unit :=
  upd (fun s => UsersPage (hook s) (search s) (roleFilter s) (showCreate s) v (selected s) (batchRole s) (msg s) (roles s) (showImport s) (importText s) (importResult s) (showCsvImport s) (csvData s) (csvHeaders s) (columnMapping s) (csvImporting s) (csvImportResult s) (deleteTarget s) (showExportMenu s) (creating s) (formError s) (formSuccess s) (showPassword s) (pwStrength s) (pwFeedback s) (fieldErrors s)).
Definition setSelected (f : list js -> list js) : prog page_state unit :=
  upd (fun s => UsersPage (hook s) (search s) (roleFilter s) (showCreate s) (page_ s) (f (selected s)) (batchRole s) (msg s) (roles s) (showImport s) (importText s) (importResult s) (showCsvImport s) (csvData s) (csvHeaders s) (columnMapping s) (csvImporting s) (csvImportResult s) (deleteTarget s) (showExportMenu s) (creating s) (formError s) (formSuccess s) (showPassword s) (pwStrength s) (pwFeedback s) (fieldErrors s)).
Definition setBatchRole (v : string) : prog page_state unit :=
  upd (fun s => UsersPage (hook s) (search s) (roleFilter s) (showCreate s) (page_ s) (selected s) v (msg s) (roles s) (showImport s) (importText s) (importResult s) (showCsvImport s) (csvData s) (csvHeaders s) (columnMapping s) (csvImporting s) (csvImportResult s) (deleteTarget s) (showExportMenu s) (creating s) (formError s) (formSuccess s) (showPassword s) (pwStrength s) (pwFeedback s) (fieldErrors s)).
Definition setMsg (v : option string) : prog page_state unit :=
  upd (fun s => UsersPage (hook s) (search s) (roleFilter s) (showCreate s) (page_ s) (selected s) (batchRole s) v (roles s) (showImport s) (importText s) (importResult s) (showCsvImport s) (csvData s) (csvHeaders s) (columnMapping s) (csvImporting s) (csvImportResult s) (deleteTarget s) (showExportMenu s) (creating s) (formError s) (formSuccess s) (showPassword s) (pwStrength s) (pwFeedback s) (fieldErrors s)).
Definition setRoles (v : js) : prog page_state unit :=
  upd (fun s => UsersPage (hook s) (search s) (roleFilter s) (showCreate s) (page_ s) (selected s) (batchRole s) (msg s) v (showImport s) (importText s) (importResult s) (showCsvImport s) (csvData s) (csvHeaders s) (columnMapping s) (csvImporting s) (csvImportResult s) (deleteTarget s) (showExportMenu s) (creating s) (formError s) (formSuccess s) (showPassword s) (pwStrength s) (pwFeedback s) (fieldErrors s)).
Definition setShowImport (v : bool) : prog page_state unit :=
  upd (fun s => UsersPage (hook s) (search s) (roleFilter s) (showCreate s) (page_ s) (selected s) (batchRole s) (msg s) (roles s) v (importText s) (importResult s) (showCsvImport s) (csvData s) (csvHeaders s) (columnMapping s) (csvImporting s) (csvImportResult s) (deleteTarget s) (showExportMenu s) (creating s) (formError s) (formSuccess s) (showPassword s) (pwStrength s) (pwFeedback s) (fieldErrors s)).
Definition setImportText (v : string) : prog page_state unit :=
  upd (fun s => UsersPage (hook s) (search s) (roleFilter s) (showCreate s) (page_ s) (selected s) (batchRole s) (msg s) (roles s) (showImport s) v (importResult s) (showCsvImport s) (csvData s) (csvHeaders s) (columnMapping s) (csvImporting s) (csvImportResult s) (deleteTarget s) (showExportMenu s) (creating s) (formError s) (formSuccess s) (showPassword s) (pwStrength s) (pwFeedback s) (fieldErrors s)).
Definition setImportResult (v : option string) : prog page_state unit :=
  upd (fun s => UsersPage (hook s) (search s) (roleFilter s) (showCreate s) (page_ s) (selected s) (batchRole s) (msg s) (roles s) (showImport s) (importText s) v (showCsvImport s) (csvData s) (csvHeaders s) (columnMapping s) (csvImporting s) (csvImportResult s) (deleteTarget s) (showExportMenu s) (creating s) (formError s) (formSuccess s) (showPassword s) (pwStrength s) (pwFeedback s) (fieldErrors s)).
Definition setShowCsvImport (v : bool) : prog page_state unit :=
  upd (fun s => UsersPage (hook s) (search s) (roleFilter s) (showCreate s) (page_ s) (selected s) (batchRole s) (msg s) (roles s) (showImport s) (importText s) (importResult s) v (csvData s) (csvHeaders s) (columnMapping s) (csvImporting s) (csvImportResult s) (deleteTarget s) (showExportMenu s) (creating s) (formError s) (formSuccess s) (showPassword s) (pwStrength s) (pwFeedback s) (fieldErrors s)).
Definition setCsvData (v : list (list string)) : prog page_state unit :=
  upd (fun s => UsersPage (hook s) (search s) (roleFilter s) (showCreate s) (page_ s) (selected s) (batchRole s) (msg s) (roles s) (showImport s) (importText s) (importResult s) (showCsvImport s) v (csvHeaders s) (columnMapping s) (csvImporting s) (csvImportResult s) (deleteTarget s) (showExportMenu s) (creating s) (formError s) (formSuccess s) (showPassword s) (pwStrength s) (pwFeedback s) (fieldErrors s)).
Definition setCsvHeaders (v : list string) : prog page_state unit :=
  upd (fun s => UsersPage (hook s) (search s) (roleFilter s) (showCreate s) (page_ s) (selected s) (batchRole s) (msg s) (roles s) (showImport s) (importText s) (importResult s) (showCsvImport s) (csvData s) v (columnMapping s) (csvImporting s) (csvImportResult s) (deleteTarget s) (showExportMenu s) (creating s) (formError s) (formSuccess s) (showPassword s) (pwStrength s) (pwFeedback s) (fieldErrors s)).
Definition setColumnMapping (f : ColumnMap -> ColumnMap) : prog page_state unit :=
  upd (fun s => UsersPage (hook s) (search s) (roleFilter s) (showCreate s) (page_ s) (selected s) (batchRole s) (msg s) (roles s) (showImport s) (importText s) (importResult s) (showCsvImport s) (csvData s) (csvHeaders s) (f (columnMapping s)) (csvImporting s) (csvImportResult s) (deleteTarget s) (showExportMenu s) (creating s) (formError s) (formSuccess s) (showPassword s) (pwStrength s) (pwFeedback s) (fieldErrors s)).
Definition setCsvImporting (v : bool) : prog page_state unit :=
  upd (fun s => UsersPage (hook s) (search s) (roleFilter s) (showCreate s) (page_ s) (selected s) (batchRole s) (msg s) (roles s) (showImport s) (importText s) (importResult s) (showCsvImport s) (csvData s) (csvHeaders s) (columnMapping s) v (csvImportResult s) (deleteTarget s) (showExportMenu s) (creating s) (formError s) (formSuccess s) (showPassword s) (pwStrength s) (pwFeedback s) (fieldErrors s)).
Definition setCsvImportResult (v : option string) : prog page_state unit :=
  upd (fun s => UsersPage (hook s) (search s) (roleFilter s) (showCreate s) (page_ s) (selected s) (batchRole s) (msg s) (roles s) (showImport s) (importText s) (importResult s) (showCsvImport s) (csvData s) (csvHeaders s) (columnMapping s) (csvImporting s) v (deleteTarget s) (showExportMenu s) (creating s) (formError s) (formSuccess s) (showPassword s) (pwStrength s) (pwFeedback s) (fieldErrors s)).
Definition setDeleteTarget (v : option (list js * string)) : prog page_state unit :=
  upd (fun s => UsersPage (hook s) (search s) (roleFilter s) (showCreate s) (page_ s) (selected s) (batchRole s) (msg s) (roles s) (showImport s) (importText s) (importResult s) (showCsvImport s) (csvData s) (csvHeaders s) (columnMapping s) (csvImporting s) (csvImportResult s) v (showExportMenu s) (creating s) (formError s) (formSuccess s) (showPassword s) (pwStrength s) (pwFeedback s) (fieldErrors s)).
Definition setShowExportMenu (v : bool) : prog page_state unit :=
  upd (fun s => UsersPage (hook s) (search s) (roleFilter s) (showCreate s) (page_ s) (selected s) (batchRole s) (msg s) (roles s) (showImport s) (importText s) (importResult s) (showCsvImport s) (csvData s) (csvHeaders s) (columnMapping s) (csvImporting s) (csvImportResult s) (deleteTarget s) v (creating s) (formError s) (formSuccess s) (showPassword s) (pwStrength s) (pwFeedback s) (fieldErrors s)).
Definition setCreating (v : bool) : prog page_state unit :=
  upd (fun s => UsersPage (hook s) (search s) (roleFilter s) (showCreate s) (page_ s) (selected s) (batchRole s) (msg s) (roles s) (showImport s) (importText s) (importResult s) (showCsvImport s) (csvData s) (csvHeaders s) (columnMapping s) (csvImporting s) (csvImportResult s) (deleteTarget s) (showExportMenu s) v (formError s) (formSuccess s) (showPassword s) (pwStrength s) (pwFeedback s) (fieldErrors s)).
Definition setFormError (v : string) : prog page_state unit :=
  upd (fun s => UsersPage (hook s) (search s) (roleFilter s) (showCreate s) (page_ s) (selected s) (batchRole s) (msg s) (roles s) (showImport s) (importText s) (importResult s) (showCsvImport s) (csvData s) (csvHeaders s) (columnMapping s) (csvImporting s) (csvImportResult s) (deleteTarget s) (showExportMenu s) (creating s) v (formSuccess s) (showPassword s) (pwStrength s) (pwFeedback s) (fieldErrors s)).
Definition setFormSuccess (v : string) : prog page_state unit :=
  upd (fun s => UsersPage (hook s) (search s) (roleFilter s) (showCreate s) (page_ s) (selected s) (batchRole s) (msg s) (roles s) (showImport s) (importText s) (importResult s) (showCsvImport s) (csvData s) (csvHeaders s) (columnMapping s) (csvImporting s) (csvImportResult s) (deleteTarget s) (showExportMenu s) (creating s) (formError s) v (showPassword s) (pwStrength s) (pwFeedback s) (fieldErrors s)).
Definition setShowPassword (v : bool) : prog page_state unit :=
  upd (fun s => UsersPage (hook s) (search s) (roleFilter s) (showCreate s) (page_ s) (selected s) (batchRole s) (msg s) (roles s) (showImport s) (importText s) (importResult s) (showCsvImport s) (csvData s) (csvHeaders s) (columnMapping s) (csvImporting s) (csvImportResult s) (deleteTarget s) (showExportMenu s) (creating s) (formError s) (formSuccess s) v (pwStrength s) (pwFeedback s) (fieldErrors s)).
Definition setPwStrength (v : js) : prog page_state unit :=
  upd (fun s => UsersPage (hook s) (search s) (roleFilter s) (showCreate s) (page_ s) (selected s) (batchRole s) (msg s) (roles s) (showImport s) (importText s) (importResult s) (showCsvImport s) (csvData s) (csvHeaders s) (columnMapping s) (csvImporting s) (csvImportResult s) (deleteTarget s) (showExportMenu s) (creating s) (formError s) (formSuccess s) (showPassword s) v (pwFeedback s) (fieldErrors s)).
Definition setPwFeedback (v : string) : prog page_state unit :=
  upd (fun s => UsersPage (hook s) (search s) (roleFilter s) (showCreate s) (page_ s) (selected s) (batchRole s) (msg s) (roles s) (showImport s) (importText s) (importResult s) (showCsvImport s) (csvData s) (csvHeaders s) (columnMapping s) (csvImporting s) (csvImportResult s) (deleteTarget s) (showExportMenu s) (creating s) (formError s) (formSuccess s) (showPassword s) (pwStrength s) v (fieldErrors s)).
Definition setFieldErrors (f : gmap string string -> gmap string string) : prog page_state unit :=
  upd (fun s => UsersPage (hook s) (search s) (roleFilter s) (showCreate s) (page_ s) (selected s) (batchRole s) (msg s) (roles s) (showImport s) (importText s) (importResult s) (showCsvImport s) (csvData s) (csvHeaders s) (columnMapping s) (csvImporting s) (csvImportResult s) (deleteTarget s) (showExportMenu s) (creating s) (formError s) (formSuccess s) (showPassword s) (pwStrength s) (pwFeedback s) (f (fieldErrors s))).

Definition hook_lens : lens page_state users_state :=
  Lens hook (fun f s => UsersPage (f (hook s)) (search s) (roleFilter s) (showCreate s) (page_ s) (selected s) (batchRole s) (msg s) (roles s) (showImport s) (importText s) (importResult s) (showCsvImport s) (csvData s) (csvHeaders s) (columnMapping s) (csvImporting s) (csvImportResult s) (deleteTarget s) (showExportMenu s) (creating s) (formError s) (formSuccess s) (showPassword s) (pwStrength s) (pwFeedback s) (fieldErrors s)).

#[export] Instance hook_laws : LensLaws hook_lens.
Proof. split; intros; cbn; try done; [by destruct s|by f_equal]. Qed.

Definition page_init : page_state :=
  UsersPage useUsers_init "" "" false 0 [] "" None (JArr []) false "" None false [] [] ∅ false None None false false "" "" false (JNum 0) "" ∅.

Definition filtered (s : page_state) : option (list js) := filtered_users (users (hook s)) (search s) (roleFilter s).
Definition totalPages (s : page_state) : option nat := pages ∘ length <$> filtered s.
Definition shown (s : page_state) : option (list js) := paginated (page_ s) <$> filtered s.

(** *** The selection: a [Set] of identifiers, in order of insertion *)

Definition mem (x : js) (l : list js) : bool := bool_decide (x ∈ l).
Definition set_add (x : js) (l : list js) : list js := if mem x l then l else l ++ [x].
Definition set_toggle (x : js) (l : list js) : list js :=
  if mem x l then List.filter (fun y => negb (bool_decide (y = x))) l else l ++ [x].
Definition set_of (l : list js) : list js := fold_left (fun acc x => set_add x acc) l [].

Definition toggleSelect (id : js) : prog page_state unit := setSelected (set_toggle id).
(** [paginated] is the list of the render. *)
Definition toggleSelectAll (s : page_state) (paginated : list js) : prog page_state unit :=
  if Nat.eqb (length (selected s)) (length paginated) then setSelected (fun _ => [])
  else setSelected (fun _ => set_of (map (fun u => opt_prop u "id") paginated)).
Definition all_checked (s : page_state) (paginated : list js) : bool :=
  Nat.eqb (length (selected s)) (length paginated) && negb (Nat.eqb (length paginated) 0).

Definition change_search (v : string) : prog page_state unit := setSearch v;; setPage 0.
Definition change_role (v : string) : prog page_state unit := setRoleFilter v;; setPage 0.
Definition previous_page (s : page_state) : prog page_state unit := setPage (Nat.pred (page_ s)).
Definition next_page (s : page_state) (totalPages : nat) : prog page_state unit := setPage (Nat.min (Nat.pred totalPages) (page_ s + 1)).

(** *** Requests *)

Section Handlers.
Context (API_BASE TENANT_ID : string).

Definition call (path : string) (options : option RequestInit) : prog page_state js :=
  apiFetch true API_BASE TENANT_ID path options.
Definition sending (m : method) (body : option js) : option RequestInit :=
  Some {| ri_method := Some m; ri_headers := []; ri_body := stringify <$> body |}.

Definition refresh : prog page_state unit := zoom hook_lens (useUsers_refresh true API_BASE TENANT_ID).
Definition start_refresh : prog page_state unit := emit "refresh" JUndef.

Definition load_roles : prog page_state unit :=
  try_catch (data ← call "/api/v1/roles" None; rs ← get data "roles"; setRoles (js_or rs (JArr []))) (fun _ => mret tt).

(** **** Creating a user *)

Definition create_errors (username email password : string) : gmap string string :=
  let errs := if (String.length username <? 2)%nat then <["username" := "Username must be at least 2 characters"]> ∅ else ∅ in
  let errs := if isValidEmail email then errs else <["email" := "Please enter a valid email address"]> errs in
  if (String.length password <? 12)%nat then <["password" := "Password must be at least 12 characters"]> errs else errs.

Definition text_or_undefined (s : string) : js := if String.eqb s "" then JUndef else JStr s.
Definition create_body (username email password displayName : string) : js :=
  JObj [("username", JStr username); ("email", JStr email); ("password", JStr password); ("display_name", text_or_undefined displayName)].
Definition role_body (role : string) : js := JObj [("role_id", JStr role)].
Definition users_path (id : js) (what : string) : string := "/api/v1/users/" +:+ to_str id +:+ what.

Definition created_text (username : string) : string := "User " +:+ dq +:+ username +:+ dq +:+ " created".

(** The message of a user who was created, with or without the role; the form closes. *)
Definition created_message (text : string) : prog page_state unit := setFormSuccess text;; setShowCreate false.

(** What follows the creation: the role, if one was chosen. *)
Definition finish_create (username role : string) (resp : js) : prog page_state unit :=
  if String.eqb role "" then created_message (created_text username +:+ " successfully.") else
  id ← get resp "id";
  let newUserId := js_or id (opt_prop resp "user_id") in
  if truthy newUserId then
    failed ← try_catch (call (users_path newUserId "/roles") (sending POST (Some (role_body role)));; mret None)
                       (fun err => mret (Some (e_message err)));
    match failed with
    | Some m => created_message (created_text username +:+ (", but role assignment failed: " +:+ m +:+ ". Please assign role manually."))
    | None => created_message (created_text username +:+ " successfully and assigned role.")
    end
  else created_message (created_text username +:+ ", but user ID not returned — please assign role manually.").

Definition handleCreate (username email password displayName role : string) : prog page_state unit :=
  setFormError "";;
  setFieldErrors (fun _ => ∅);;
  let errs := create_errors username email password in
  if negb (bool_decide (errs = ∅)) then setFieldErrors (fun _ => errs) else
  setCreating true;;
  finally
    (try_catch
       (resp ← call "/api/v1/users" (sending POST (Some (create_body username email password displayName)));
        finish_create username role resp)
       (fun err => setFormError (e_message err)))
    (setCreating false).

Definition clear_success : prog page_state unit := setFormSuccess "".
Definition cancel_create : prog page_state unit := setShowCreate false;; setFormError "";; setFieldErrors (fun _ => ∅).

Definition local_strength (pw : string) : Z :=
  let any P := negb (str_forall (fun c => negb (P c)) pw) in
  let upper c := (65 <=? code c)%nat && (code c <=? 90)%nat in
  let score := if any upper then 3 else 2 in
  let score := if any is_digit then score + 1 else score in
  if any (fun c => negb (is_alnum c)) then score + 1 else score.

Definition checkPasswordStrength (pw : string) : prog page_state unit :=
  if String.eqb pw "" then setPwStrength (JNum 0);; setPwFeedback ""
  else if (String.length pw <? 12)%nat then setPwStrength (JNum 1);; setPwFeedback "Too short (min 12 characters)"
  else
    let score := local_strength pw in
    setPwStrength (JNum score);;
    setPwFeedback (if score <? 3 then "Weak — add uppercase, numbers, symbols" else if score <? 5 then "Fair" else "Strong");;
    res ← try_catch (call "/api/v1/auth/password/strength" (sending POST (Some (JObj [("password", JStr pw)])))) (fun _ => mret JNull);
    if is_nullish (opt_prop res "score") then mret tt else setPwStrength (opt_prop res "score").

(** [next.name = text] or [delete next.name], by the value typed. *)
Definition check_field (name value : string) (next : gmap string string) : gmap string string :=
  let verdict (bad : bool) (text : string) :=
    if String.eqb value "" then delete name next else if bad then <[name := text]> next else delete name next in
  if String.eqb name "username" then verdict (String.length value <? 2)%nat "Min 2 characters"
  else if String.eqb name "email" then verdict (negb (isValidEmail value)) "Invalid email format"
  else if String.eqb name "password" then verdict (String.length value <? 12)%nat "Min 12 characters"
  else next.
Definition validateField (name value : string) : prog page_state unit := setFieldErrors (check_field name value).

(** **** Locking and deleting *)

Definition handleLock (userId : js) (currentStatus : js) : prog page_state unit :=
  let action := if js_is_str currentStatus "active" then "lock" else "unlock" in
  try_catch (call (users_path userId ("/" +:+ action)) (sending POST None);; start_refresh) (fun _ => mret tt).

Definition handleDelete (userId : js) (username : string) : prog page_state unit :=
  setDeleteTarget (Some ([userId], "user " +:+ dq +:+ username +:+ dq)).
Definition handleBatchDelete (s : page_state) : prog page_state unit :=
  if Nat.eqb (length (selected s)) 0 then mret tt
  else setDeleteTarget (Some (selected s, string_of_Z (Z.of_nat (length (selected s))) +:+ " selected users")).

Definition deleted_text (ids : list js) (label : string) : string :=
  (if Nat.eqb (length ids) 1 then "User " +:+ dq +:+ label +:+ dq else string_of_Z (Z.of_nat (length ids)) +:+ " users") +:+ " deleted.".

Definition doDelete (ids : list js) (label : string) : prog page_state unit :=
  try_catch
    (promise_all (map (fun id => call (users_path id "") (sending DELETE None)) ids);;
     start_refresh;;
     setSelected (fun _ => []);;
     setFormSuccess (deleted_text ids label))
    (fun err => setFormError (e_message err)).

(** The button of the dialog. *)
Definition confirm_delete (ids : list js) (label : string) : prog page_state unit := doDelete ids label;; setDeleteTarget None.

(** **** The selected users together *)

Definition how_many (s : page_state) : string := string_of_Z (Z.of_nat (length (selected s))).

Definition handleBatchAssignRole (s : page_state) : prog page_state unit :=
  if Nat.eqb (length (selected s)) 0 || String.eqb (batchRole s) "" then mret tt else
  try_catch
    (promise_all (map (fun id => call (users_path id "/roles") (sending POST (Some (role_body (batchRole s))))) (selected s));;
     setMsg (Some ("Role assigned to " +:+ how_many s +:+ " users"));;
     setSelected (fun _ => []);;
     setBatchRole "")
    (fun _ => mret tt).

(** [what] is "activate" or "deactivate". *)
Definition batch (what : string) (s : page_state) : prog page_state unit :=
  if Nat.eqb (length (selected s)) 0 then mret tt else
  try_catch
    (promise_all (map (fun id => call (users_path id ("/" +:+ what)) (sending POST None)) (selected s));;
     setMsg (Some (how_many s +:+ " users " +:+ what +:+ "d"));;
     setSelected (fun _ => []);;
     start_refresh)
    (fun err => setMsg (Some (e_message err))).
Definition handleBatchActivate : page_state -> prog page_state unit := batch "activate".
Definition handleBatchDeactivate : page_state -> prog page_state unit := batch "deactivate".

(** **** Exports *)

Definition download (name text : string) : prog page_state unit :=
  emit "download" (JObj [("name", JStr name); ("text", JStr text)]).

(** [String(u.k || d)]. *)
Definition cell (u : js) (k d : string) : string := to_str (js_or (opt_prop u k) (JStr d)).
Definition export_cells (u : js) : list string :=
  [cell u "username" ""; cell u "email" ""; cell u "display_name" ""; cell u "phone" ""; cell u "status" "active"; cell u "created_at" ""].
Definition export_text (filtered : list js) : string :=
  export_header +:+ String newline "" +:+ join (String newline "") (map (fun u => csv_row (export_cells u)) filtered).

Definition handleExportCSV (filtered : list js) : prog page_state unit :=
  download "users_export.csv" (export_text filtered);; setShowExportMenu false.
Definition handleExportJSON (filtered : list js) : prog page_state unit :=
  download "users_export.json" (pretty (JArr filtered));; setShowExportMenu false.

(** **** The pasted text *)

Definition paste_lines (text : string) : list string :=
  List.filter (fun l => negb (String.eqb (trim l) "") && negb (starts_with "username," l)) (split_on newline (trim text)).

Definition temporary : string := "TempPass123!".
Definition row_error (i : nat) (text : string) : string := "Row " +:+ string_of_Z (Z.of_nat i) +:+ ": " +:+ text.

(** One row: a body to send, or the reason it is not sent. *)
Definition paste_row (line : string) : string + js :=
  let cells := map trim (split_on ","%char line) in
  let username := nth 0 cells "" in let email := nth 1 cells "" in let password := nth 2 cells "" in
  if String.eqb username "" || String.eqb email "" then inl "missing username or email"
  else inr (JObj [("username", JStr username); ("email", JStr email); ("password", JStr (str_or password temporary))]).

(** The loop over the rows: what was created, and the errors, each with its number, counted
    from [first]. *)
Fixpoint create_rows (first : nat) (rows : list (string + js)) (created : nat) (errors : list string)
    : prog page_state (nat * list string) :=
  match rows with
  | [] => mret (created, errors)
  | inl why :: rows' => create_rows (S first) rows' created (errors ++ [row_error first why])
  | inr body :: rows' =>
      failed ← try_catch (call "/api/v1/users" (sending POST (Some body));; mret None) (fun err => mret (Some (e_message err)));
      match failed with
      | None => create_rows (S first) rows' (S created) errors
      | Some m => create_rows (S first) rows' created (errors ++ [row_error first m])
      end
  end.

Definition errors_text (errors shown : list string) (more : string) : string :=
  if Nat.eqb (length errors) 0 then ""
  else ", " +:+ string_of_Z (Z.of_nat (length errors)) +:+ " errors: " +:+ join "; " shown +:+ more.

Definition handleImportCSV (s : page_state) : prog page_state unit :=
  '(created, errors) ← create_rows 1 (map paste_row (paste_lines (importText s))) 0 [];
  setImportResult (Some ("Created " +:+ string_of_Z (Z.of_nat created) +:+ " users" +:+ errors_text errors errors ""));;
  setImportText "";;
  start_refresh.

(** **** The CSV file *)

Definition field_aliases : list (string * list string) :=
  [("username", ["username"; "user_name"; "login"]); ("email", ["email"; "e-mail"; "mail"]);
   ("display_name", ["display_name"; "displayname"; "name"; "full_name"]); ("phone", ["phone"; "phone_number"; "tel"])].
Definition detect_field (header : string) : option string :=
  fst <$> List.find (fun fn => str_mem (trim (to_lower header)) fn.2) field_aliases.
Definition auto_mapping (headers : list string) : ColumnMap :=
  fold_left (fun m h => match detect_field h with Some f => <[h := f]> m | None => m end) headers ∅.

Definition parseCsv (text : string) : prog page_state unit :=
  if String.eqb (trim text) "" then mret tt else
  let '(headers, dataRows) := parseCsvText text in
  setCsvHeaders headers;;
  setCsvData dataRows;;
  setColumnMapping (fun _ => auto_mapping headers);;
  setCsvImportResult None;;
  setShowCsvImport true.
Definition handleCsvFileSelect (file : option string) : prog page_state unit :=
  match file with None => mret tt | Some text => Act OYield (fun _ => parseCsv text) end.

Definition map_column (csvColumn ggidField : string) (prev : ColumnMap) : ColumnMap :=
  if String.eqb ggidField "" then delete csvColumn prev else <[csvColumn := ggidField]> prev.
Definition handleMappingChange (csvColumn ggidField : string) : prog page_state unit :=
  setColumnMapping (map_column csvColumn ggidField).

Definition is_mapped (m : ColumnMap) (field : string) : bool := bool_decide (map_Exists (fun _ v => v = field) m).

(** The row as a body, with the same password for all. *)
Definition csv_row_body (headers : list string) (m : ColumnMap) (row : list string) : string + js :=
  let payload := mapped headers row m in
  let text k := default "" (payload !! k) in
  if String.eqb (text "username") "" || String.eqb (text "email") "" then inl "missing required field"
  else inr (JObj [("username", JStr (text "username")); ("email", JStr (text "email"));
                  ("display_name", text_or_undefined (text "display_name")); ("phone", text_or_undefined (text "phone"));
                  ("password", JStr temporary)]).

Definition handleCsvImport (s : page_state) : prog page_state unit :=
  if negb (is_mapped (columnMapping s) "username") then setCsvImportResult (Some "Error: username field must be mapped")
  else if negb (is_mapped (columnMapping s) "email") then setCsvImportResult (Some "Error: email field must be mapped")
  else
    setCsvImporting true;;
    '(created, errors) ← create_rows 2 (map (csv_row_body (csvHeaders s) (columnMapping s)) (csvData s)) 0 [];
    setCsvImporting false;;
    setCsvImportResult (Some ("Imported " +:+ string_of_Z (Z.of_nat created) +:+ " users"
      +:+ errors_text errors (take 5 errors) (if (5 <? length errors)%nat then "..." else "")));;
    (if (0 <? created)%nat then start_refresh else mret tt).

Definition closeCsvImport : prog page_state unit :=
  setShowCsvImport false;; setCsvData [];; setCsvHeaders [];; setColumnMapping (fun _ => ∅);; setCsvImportResult None.
End Handlers.

(** The badge of a user that was provisioned: no badge, or its label; [None] raises. *)
Definition getScimBadge (u : js) : option (option string) :=
  source ← prop u "scim_source";
  if negb (truthy source) then Some None else
  lower ← js_lower source;
  let has p := str_includes p lower in
  Some (Some (if has "okta" then "Okta"
              else if has "azure" || has "entra" || has "microsoft" then "Azure AD"
              else if has "google" then "Google"
              else if has "scim" then "SCIM"
              else to_str source)).

(** ** Pages *)

Lemma pages_bounds n : (pages n * PAGE_SIZE < n + PAGE_SIZE /\ n <= pages n * PAGE_SIZE)%nat.
Proof.
  unfold pages, PAGE_SIZE. pose proof (Nat.div_mod (n + 10 - 1) 10 ltac:(lia)).
  pose proof (Nat.mod_upper_bound (n + 10 - 1) 10 ltac:(lia)). lia.
Qed.

Lemma paginated_concat {A} (l : list A) k : concat (map (fun p => paginated p l) (seq 0 k)) = take (k * PAGE_SIZE) l.
Proof.
  induction k as [|k IH]; [done|]. rewrite seq_S, map_app, concat_app, IH. cbn [map concat Nat.add]. rewrite app_nil_r.
  unfold paginated. replace (S k * PAGE_SIZE)%nat with (k * PAGE_SIZE + PAGE_SIZE)%nat by lia. apply take_take_drop.
Qed.

(** The pages are the users that pass the filter, in their order, each on one page; every
    page but the last is full, none is empty, and past the last there is nothing. *)
Lemma user_pages_partition s l :
  filtered s = Some l ->
  totalPages s = Some (pages (length l))
  /\ concat (map (fun p => paginated p l) (seq 0 (pages (length l)))) = l
  /\ (forall p, (S p < pages (length l))%nat -> length (paginated p l) = PAGE_SIZE)
  /\ (forall p, (p < pages (length l))%nat <-> paginated p l <> []).
Proof.
  intros Hf. unfold totalPages. rewrite Hf. split; [done|]. destruct (pages_bounds (length l)) as [H1 H2].
  split; [rewrite paginated_concat; by apply take_ge|]. split.
  - intros p Hp. unfold paginated. rewrite length_take, length_drop. unfold PAGE_SIZE in *. nia.
  - intros p. unfold paginated. split.
    + intros Hp Hnil. apply (f_equal length) in Hnil. rewrite length_take, length_drop in Hnil. cbn [length] in Hnil.
      unfold PAGE_SIZE in *. nia.
    + intros Hne. destruct (le_lt_dec (pages (length l)) p) as [Hge|]; [|done]. exfalso. apply Hne.
      rewrite drop_ge by (unfold PAGE_SIZE in *; nia). done.
Qed.

Lemma filter_opt_pure {A} (f : A -> option bool) (g : A -> bool) l :
  (forall x, In x l -> f x = Some (g x)) -> filter_opt f l = Some (List.filter g l).
Proof.
  induction l as [|x l IH]; intros H; [done|]. cbn. rewrite H by by left. cbn. rewrite IH by (intros; apply H; by right). cbn.
  by destruct (g x).
Qed.

(** The search keeps the users whose name or address contains the text, case apart. *)
Lemma search_keeps s l (name email : js -> string) :
  users (hook s) = JArr l -> roleFilter s = "" -> search s <> "" ->
  (forall u, In u l -> prop u "username" = Some (JStr (name u)) /\ opt_prop u "email" = JStr (email u)) ->
  filtered s = Some (List.filter (fun u => str_includes (to_lower (search s)) (to_lower (name u))
                                         || str_includes (to_lower (search s)) (to_lower (email u))) l).
Proof.
  intros Hl Hr Hs Hu. unfold filtered, filtered_users. rewrite Hl, Hr. apply filter_opt_pure. intros u Hin.
  destruct (Hu u Hin) as [Hn He]. unfold passes, searched, has_role. rewrite (eqb_str_false (search s) "" Hs). rewrite Hn. cbn [mbind option_bind].
  unfold lower_has. cbn [js_lower mbind option_bind]. rewrite He. cbn [js_lower mbind option_bind].
  destruct (str_includes _ (to_lower (name u))); [done|]. cbn [mbind option_bind orb].
  by destruct (str_includes _ (to_lower (email u))).
Qed.

(** ** Several requests at once *)

Section Together.
Context (e : env) (API_BASE TENANT_ID : string).

Lemma tame_call_st (s0 : page_state) path options : tame (fun s => s = s0) (fun _ => True) (call API_BASE TENANT_ID path options).
Proof. by apply tame_apiFetch. Qed.

(** [Promise.all] of calls: all are sent, the page is left as it is, and what follows is
    decided by the outcomes of the calls, of which the first failure counts. *)
Lemma run_together (f : js -> string * option RequestInit) ids w :
  let ps := map (fun id => call API_BASE TENANT_ID (f id).1 (f id).2) ids in
  exists os w1, run e (promise_all ps) w = (match all_values os with inl x => Raised x | inr l => Done l end, w1) /\ w_st w1 = w_st w
  /\ Forall2 (fun id o => exists w0, o = settled (run e (call API_BASE TENANT_ID (f id).1 (f id).2) w0).1) ids os
  /\ (forall id, In id ids -> exists headers, In (ObsFetch (api_request API_BASE (f id).1 (f id).2 headers)) (w_trace w1)).
Proof.
  cbv zeta. set (ps := map _ ids). destruct (settle_all_done e ps w) as (os & w1 & Hr & Hsent).
  destruct (run_promise_all e ps w) as (os' & w1' & Hr' & Hp). rewrite Hr in Hr'. injection Hr' as <- <-. exists os, w1.
  split; [exact Hp|]. split; [|split].
  - assert (tame (fun s => s = w_st w) (fun _ => True) (promise_all ps)) as Ht.
    { apply tame_promise_all. apply List.Forall_forall. intros p Hin. apply in_map_iff in Hin as (id & <- & _). apply tame_call_st. }
    pose proof (tame_run _ _ e _ w Ht) as H. rewrite Hp in H. apply H. split; [done|]. by apply Forall_true.
  - apply (settle_all_each e) in Hr. by apply Forall2_fmap_l in Hr.
  - intros id Hin.
    destruct (Hsent (call API_BASE TENANT_ID (f id).1 (f id).2) (fun o => exists headers, o = ObsFetch (api_request API_BASE (f id).1 (f id).2 headers)))
      as (o & (headers & ->) & Ho); [by apply in_map_iff; exists id|intros w0; apply apiFetch_sends|].
    by exists headers.
Qed.
End Together.

(** C33. Deleting several users sends the request of each, whatever becomes of the others.
    When all are accepted the selection is emptied and the message says so; when one is
    refused the page says why the first was, and keeps the list and the selection it had,
    although the others may be gone. *)
Theorem delete_together (e : env) API_BASE TENANT_ID ids label w :
  exists outcomes w', run e (doDelete API_BASE TENANT_ID ids label) w = (Done tt, w')
  /\ Forall2 (fun id o => exists w0, o = settled (run e (call API_BASE TENANT_ID (users_path id "") (sending DELETE None)) w0).1) ids outcomes
  /\ (forall id, In id ids -> exists headers,
        In (ObsFetch (Request DELETE (API_BASE +:+ users_path id "") headers None)) (w_trace w'))
  /\ hook (w_st w') = hook (w_st w)
  /\ match all_values outcomes with
     | inr _ => selected (w_st w') = [] /\ formSuccess (w_st w') = deleted_text ids label /\ formError (w_st w') = formError (w_st w)
     | inl x => selected (w_st w') = selected (w_st w) /\ formSuccess (w_st w') = formSuccess (w_st w)
                /\ formError (w_st w') = e_message x
     end.
Proof.
  unfold doDelete, start_refresh, setSelected, setFormSuccess, setFormError. run_steps.
  destruct (run_together e API_BASE TENANT_ID (fun id => (users_path id "", sending DELETE None)) ids w) as (os & w1 & Hr & Hst & Hos & Hsent).
  cbv zeta in Hr. cbn [fst snd] in Hr, Hos, Hsent. rewrite Hr. exists os. destruct (all_values os) as [x|vs]; run_steps.
  - eexists. split; [reflexivity|]. destruct w1, w; cbn in *; subst. by split_and!.
  - eexists. split; [reflexivity|]. destruct w1, w; cbn in *; subst. split; [done|]. split; [|by split_and!].
    intros id Hin. destruct (Hsent id Hin) as (hs & H). exists hs. by right.
Qed.

(** ** Imports *)

Section Rows.
Context (e : env) (API_BASE TENANT_ID : string).

Definition bodies (rows : list (string + js)) : list js := omap (fun r => match r with inr b => Some b | inl _ => None end) rows.

Lemma run_create (body : js) w :
  exists r w1, run e (try_catch (call API_BASE TENANT_ID "/api/v1/users" (sending POST (Some body));; mret None)
                        (fun err => mret (Some (e_message err)))) w = (Done r, w1)
  /\ w_st w1 = w_st w /\ (forall o, In o (w_trace w) -> In o (w_trace w1))
  /\ exists headers, In (ObsFetch (api_request API_BASE "/api/v1/users" (sending POST (Some body)) headers)) (w_trace w1).
Proof.
  run_steps. unfold call. pose proof (keeps_st_run e (apiFetch true API_BASE TENANT_ID "/api/v1/users" (sending POST (Some body))) w (keeps_st_apiFetch _ _ _ _ _)) as H1.
  destruct (apiFetch_sends e API_BASE TENANT_ID "/api/v1/users" (sending POST (Some body)) w) as (o & (headers & ->) & H2).
  pose proof (fun o => run_trace_In e (apiFetch true API_BASE TENANT_ID "/api/v1/users" (sending POST (Some body))) w o) as H3.
  destruct (run e (apiFetch true API_BASE TENANT_ID _ _) w) as [[v|x] w1]; cbn [snd] in *; run_steps;
    eexists _, w1; (split; [reflexivity|]); (split; [done|]); (split; [done|]); by exists headers.
Qed.

(** Every row ends as a user created or as an error, and every complete row is sent. *)
Lemma run_create_rows first rows created errors w :
  exists created' errors' w1, run e (create_rows API_BASE TENANT_ID first rows created errors) w = (Done (created', errors'), w1)
  /\ w_st w1 = w_st w /\ (forall o, In o (w_trace w) -> In o (w_trace w1))
  /\ (created' + length errors' = created + length errors + length rows)%nat
  /\ (created' <= created + length (bodies rows))%nat
  /\ (forall body, In body (bodies rows) -> exists headers,
        In (ObsFetch (api_request API_BASE "/api/v1/users" (sending POST (Some body)) headers)) (w_trace w1)).
Proof.
  revert first created errors w. induction rows as [|[why|body] rows IH]; intros first created errors w.
  - eexists _, _, w. split; [reflexivity|]. split_and!; try done; cbn; lia.
  - cbn [create_rows]. destruct (IH (S first) created (errors ++ [row_error first why]) w) as (c & es & w1 & Hr & Hst & Ht & Hn & Hc & Hb).
    exists c, es, w1. split; [done|]. rewrite length_app in Hn. cbn in *. split_and!; try done; lia.
  - cbn [create_rows]. rewrite run_mbind. destruct (run_create body w) as (r & w1 & -> & Hst & Ht & hs & Hin).
    cbn [bodies omap list_omap length]. fold (bodies rows).
    destruct r as [m|]; [destruct (IH (S first) created (errors ++ [row_error first m]) w1) as (c & es & w2 & Hr2 & Hst2 & Ht2 & Hn & Hc & Hb)
      |destruct (IH (S first) (S created) errors w1) as (c & es & w2 & Hr2 & Hst2 & Ht2 & Hn & Hc & Hb)];
      exists c, es, w2; (split; [done|]); (split; [by rewrite Hst2|]); (split; [by auto|]); rewrite ?length_app in Hn; cbn [length] in Hn;
      (split; [lia|]); (split; [lia|]); intros b [<-|Hb']; eauto.
Qed.
End Rows.

(** C35. The import of a file whose columns are mapped ends with every row counted once, as a
    user created or as an error, at most as many created as rows are complete; the request of
    every complete row is sent, whatever becomes of the others, and each carries the same
    password.  Without the two mappings nothing is sent. *)
Theorem csv_import_accounts (e : env) API_BASE TENANT_ID s w :
  exists w', run e (handleCsvImport API_BASE TENANT_ID s) w = (Done tt, w')
  /\ (is_mapped (columnMapping s) "username" && is_mapped (columnMapping s) "email" = false -> w_trace w' = w_trace w)
  /\ (is_mapped (columnMapping s) "username" && is_mapped (columnMapping s) "email" = true ->
      let rows := map (csv_row_body (csvHeaders s) (columnMapping s)) (csvData s) in
      csvImporting (w_st w') = false
      /\ (exists created errors, (created + length errors = length (csvData s))%nat /\ (created <= length (bodies rows))%nat
          /\ csvImportResult (w_st w') = Some ("Imported " +:+ string_of_Z (Z.of_nat created) +:+ " users"
               +:+ errors_text errors (take 5 errors) (if (5 <? length errors)%nat then "..." else "")))
      /\ (forall body, In body (bodies rows) -> opt_prop body "password" = JStr temporary
          /\ exists headers, In (ObsFetch (Request POST (API_BASE +:+ "/api/v1/users") headers (Some (stringify body)))) (w_trace w'))).
Proof.
  unfold handleCsvImport, setCsvImportResult, setCsvImporting, start_refresh.
  destruct (is_mapped (columnMapping s) "username"); cbn [negb andb]; [|run_steps; eexists; split; [reflexivity|]; by destruct w].
  destruct (is_mapped (columnMapping s) "email"); cbn [negb]; [|run_steps; eexists; split; [reflexivity|]; by destruct w].
  run_steps. set (rows := map (csv_row_body (csvHeaders s) (columnMapping s)) (csvData s)).
  match goal with |- context [run e (create_rows _ _ 2 rows 0 []) ?w0] =>
    destruct (run_create_rows e API_BASE TENANT_ID 2 rows 0 [] w0) as (created & errors & w1 & -> & Hst & _ & Hn & Hc & Hb) end.
  run_steps. cbn [length Nat.add] in Hn, Hc. unfold rows at 1 in Hn. rewrite length_map in Hn.
  assert (forall body, In body (bodies rows) -> opt_prop body "password" = JStr temporary) as Hpw.
  { intros body Hin. unfold rows, bodies in Hin. clear -Hin. induction (csvData s) as [|row l IH]; [done|]. cbn in Hin.
    unfold csv_row_body at 1 in Hin. destruct (_ || _); [by apply IH|]. destruct Hin as [<-|Hin]; [done|by apply IH]. }
  destruct (0 <? created)%nat; run_steps; (eexists; split; [reflexivity|]); (split; [done|]); intros _;
    destruct w1, w; cbn in *; subst; (split; [done|]); (split; [by exists created, errors|]);
    intros body Hin; (split; [by apply Hpw|]); destruct (Hb body Hin) as (hs & H); exists hs; [by right|done].
Qed.

(** The pasted text likewise, with the password of the row where it has one. *)
Lemma paste_accounts (e : env) API_BASE TENANT_ID s w :
  exists w' created errors, run e (handleImportCSV API_BASE TENANT_ID s) w = (Done tt, w')
  /\ (created + length errors = length (paste_lines (importText s)))%nat
  /\ importResult (w_st w') = Some ("Created " +:+ string_of_Z (Z.of_nat created) +:+ " users" +:+ errors_text errors errors "")
  /\ importText (w_st w') = "".
Proof.
  unfold handleImportCSV, setImportResult, setImportText, start_refresh. run_steps.
  destruct (run_create_rows e API_BASE TENANT_ID 1 (map paste_row (paste_lines (importText s))) 0 [] w)
    as (created & errors & w1 & -> & Hst & _ & Hn & _). run_steps.
  eexists _, created, errors. split; [reflexivity|]. rewrite length_map in Hn. cbn [length Nat.add] in Hn.
  split; [done|]. by destruct w1.
Qed.

(** ** Creating *)

Section Create.
Context (e : env) (API_BASE TENANT_ID : string).

Lemma call_st path options (w : world page_state) :
  w_st (run e (call API_BASE TENANT_ID path options) w).2 = w_st w.
Proof. apply keeps_st_run, keeps_st_apiFetch. Qed.

Lemma run_created_message text w :
  exists w', run e (created_message text) w = (Done tt, w') /\ showCreate (w_st w') = false /\ formSuccess (w_st w') = text
  /\ formError (w_st w') = formError (w_st w) /\ fieldErrors (w_st w') = fieldErrors (w_st w).
Proof. unfold created_message, setFormSuccess, setShowCreate. run_steps. eexists. split; [reflexivity|]. by destruct w. Qed.

(** Once the user exists the message says so, unless the answer is [null] and a role was chosen. *)
Lemma run_finish_create username role resp w :
  role = "" \/ is_nullish resp = false ->
  exists rest w', run e (finish_create API_BASE TENANT_ID username role resp) w = (Done tt, w')
  /\ showCreate (w_st w') = false /\ formSuccess (w_st w') = created_text username +:+ rest
  /\ formError (w_st w') = formError (w_st w) /\ fieldErrors (w_st w') = fieldErrors (w_st w).
Proof.
  intros Hr. unfold finish_create. destruct (String.eqb_spec role "") as [_|Hrole]; [eexists; apply run_created_message|].
  destruct Hr as [|Hn]; [done|]. assert (prop resp "id" = Some (opt_prop resp "id")) as Hp by (by destruct resp).
  rewrite run_mbind, (run_get e w _ _ _ Hp). cbv zeta iota beta.
  destruct (truthy _); [|eexists; apply run_created_message]. run_steps.
  match goal with |- context [call _ _ ?p ?o] => pose proof (call_st p o w) as Hst; destruct (run e (call API_BASE TENANT_ID p o) w) as [[v|x] w1] end;
    cbn [snd] in Hst; run_steps.
  - destruct (run_created_message (created_text username +:+ " successfully and assigned role.") w1) as (w' & H & H1 & H2 & H3 & H4).
    eexists _, w'. split; [exact H|]. by rewrite H3, H4, Hst.
  - destruct (run_created_message (created_text username +:+ (", but role assignment failed: " +:+ e_message x +:+ ". Please assign role manually.")) w1)
      as (w' & H & H1 & H2 & H3 & H4).
    eexists _, w'. split; [exact H|]. by rewrite H3, H4, Hst.
Qed.
End Create.

(** A form with errors shows them and sends nothing.  A complete one is sent, and the form
    ends free: a refusal is shown as an error and keeps the form open; once the user exists
    the form closes with a message that begins by saying so, whether or not the role could be
    assigned, unless the answer is [null] and a role was chosen. *)
Lemma create_outcome (e : env) API_BASE TENANT_ID username email password displayName role w :
  let errs := create_errors username email password in
  exists w', (run e (handleCreate API_BASE TENANT_ID username email password displayName role) w).2 = w'
  /\ (errs <> ∅ -> fieldErrors (w_st w') = errs /\ w_trace w' = w_trace w)
  /\ (errs = ∅ ->
      exists o w0 w1, run e (call API_BASE TENANT_ID "/api/v1/users"
           (sending POST (Some (create_body username email password displayName)))) w0 = (o, w1)
      /\ w_local w0 = w_local w /\ w_trace w0 = w_trace w
      /\ match o with
         | Raised x => creating (w_st w') = false /\ formError (w_st w') = e_message x /\ showCreate (w_st w') = showCreate (w_st w)
                       /\ formSuccess (w_st w') = formSuccess (w_st w)
         | Done v => role = "" \/ is_nullish v = false ->
             creating (w_st w') = false /\ showCreate (w_st w') = false /\ formError (w_st w') = ""
             /\ exists rest, formSuccess (w_st w') = created_text username +:+ rest
         end).
Proof.
  cbv zeta. eexists. split; [reflexivity|]. unfold handleCreate, setFormError, setFieldErrors, setCreating. run_steps.
  set (errs := create_errors username email password). destruct (decide (errs = ∅)) as [He|He].
  2:{ rewrite bool_decide_false by done. cbn [negb]. run_steps. destruct w. by split. }
  rewrite bool_decide_true by done. cbn [negb]. run_steps. split; [done|]. intros _.
  match goal with |- context [run e (call _ _ "/api/v1/users" ?o) (set_st ?f (set_st ?g ?w))] =>
    set (opts := o); set (w2 := set_st f (set_st g w)) end.
  pose proof (call_st e API_BASE TENANT_ID "/api/v1/users" opts w2) as Hst.
  destruct (run e (call API_BASE TENANT_ID "/api/v1/users" opts) w2) as [o w1] eqn:E. cbn [snd] in Hst.
  exists o, w2, w1. split; [exact E|]. split; [unfold w2; by destruct w|]. split; [unfold w2; by destruct w|].
  destruct o as [v|x]; run_steps.
  - intros Hr. destruct (run_finish_create e API_BASE TENANT_ID username role v w1 Hr) as (rest & w3 & -> & H1 & H2 & H3 & _). run_steps.
    split; [by destruct w3|]. split; [by destruct w3|]. split; [|exists rest; by destruct w3].
    transitivity (formError (w_st w3)); [by destruct w3|]. rewrite H3, Hst. unfold w2. by destruct w.
  - destruct w1. cbn in Hst. cbn. rewrite Hst. unfold w2. by destruct w.
Qed.

(** ** What the page says *)

Definition demo_user (n : nat) : js :=
  let i := string_of_Z (Z.of_nat n) in
  JObj [("id", JStr ("u" +:+ i)); ("username", JStr ("user" +:+ i)); ("email", JStr ("user" +:+ i +:+ "@example.org"))].
Definition demo_users (n : nat) : list js := map demo_user (seq 0 n).
(** The page with [n] users, page [p] shown and [ids] selected. *)
Definition demo_page (n p : nat) (ids : list js) : page_state :=
  UsersPage (Build_users_state (JArr (demo_users n)) false None) "" "" false p ids "" None (JArr []) false "" None false [] [] ∅ false None None
    false false "" "" false (JNum 0) "" ∅.
Definition after (p : prog page_state unit) (s : page_state) : page_state := w_st (run (const_env None 0) p (page s ∅)).2.

(** The box of the header compares sizes: with the ten users of the first page selected it is
    checked on the second, and unchecking it there drops them. *)
Example box_of_another_page :
  let ids := map (fun u => opt_prop u "id") (paginated 0 (demo_users 20)) in
  let s := demo_page 20 1 ids in
  let rows := paginated 1 (demo_users 20) in
  shown s = Some rows /\ all_checked s rows = true /\ existsb (fun u => mem (opt_prop u "id") (selected s)) rows = false
  /\ selected (after (toggleSelectAll s rows) s) = [].
Proof. vm_compute. done. Qed.

(** The page shown is kept when the list shrinks: past the last page nothing is listed, and
    with one page left there is no button to go back. *)
Example page_left_behind :
  shown (demo_page 11 1 []) = Some [demo_user 10] /\ shown (demo_page 10 1 []) = Some [] /\ totalPages (demo_page 10 1 []) = Some 1%nat.
Proof. vm_compute. done. Qed.

(** The selection outlives the filter, so that users that are not shown are deleted too. *)
Example hidden_users_selected :
  let s := after (change_search "user1") (demo_page 3 0 [JStr "u0"; JStr "u1"]) in
  shown s = Some [demo_user 1] /\ deleteTarget (after (handleBatchDelete s) s) = Some ([JStr "u0"; JStr "u1"], "2 selected users").
Proof. vm_compute. done. Qed.

(** The message of one deletion has the label in quotes twice. *)
Example label_twice : deleted_text [JStr "u1"] ("user " +:+ dq +:+ "ann" +:+ dq) = "User " +:+ dq +:+ "user " +:+ dq +:+ "ann" +:+ dq +:+ dq +:+ " deleted.".
Proof. vm_compute. done. Qed.

(** Answers about the strength of a password are not told apart: one that comes late sets the
    meter of the text typed since. *)
Lemma late_strength_wins :
  exists c, reachable (const_env None 0)
      (fun _ p => exists v, p = checkPasswordStrength "https://api" "t" v) (fun _ _ _ => True) (page (demo_page 0 0 []) ∅) c
  /\ pwStrength (w_st c.1) = JNum 5 /\ pwFeedback (w_st c.1) = "Too short (min 12 characters)".
Proof.
  eexists. split.
  - eapply reach_step.
    + eapply (reach_answer _ _ _ _ _ _ 0%nat _ _ (Some (Response 200 (stringify (JObj [("score", JNum 5)]))))).
      * eapply (reach_spawn _ _ _ _ _ _ (checkPasswordStrength "https://api" "t" "short")); [|by eexists].
        eapply (reach_spawn _ _ _ _ _ _ (checkPasswordStrength "https://api" "t" "Correct-Horse-7")); [apply reach_init|by eexists].
      * reflexivity.
      * done.
    + eapply (step_resume _ _ _ _ _ 0%nat _ OYield _ tt); reflexivity || done.
  - vm_compute. done.
Qed.

(** ** Witnesses *)

Lemma user_pages_partition_witness :
  totalPages (demo_page 21 0 []) = Some 3%nat
  /\ concat (map (fun p => paginated p (demo_users 21)) (seq 0 3)) = demo_users 21.
Proof.
  destruct (user_pages_partition (demo_page 21 0 []) (demo_users 21)) as (H1 & H2 & _); [vm_compute; reflexivity|].
  split; [exact H1|exact H2].
Defined.
