(* ===== verification/Toasts.v ===== *)
(** * Notifications (console/src/components/Toast.tsx)

    The provider keeps a list of notifications, each drawn with an effect that starts its
    timer.  The function that closes one is made anew whenever the provider renders, and the
    effect depends on it: every change of the list starts the timers of all of them again.
    Time is part of the state; a timer may fire at its deadline or later. *)

From stdpp Require Import relations.
From S2P Require Import Prelude JsValue.
#[local] Open Scope Z_scope.

Inductive ToastType := tsuccess | terror | twarning | tinfo.

(** A notification with the state of its item: [timer] is the deadline of the pending timer. *)
Record Toast := Build_Toast {
  t_id : string;
  t_type : ToastType;
  t_message : string;
  duration : Z;
  visible : bool;
  timer : option Z }.

(** [closings] are the pending calls of [onClose], with their deadlines. *)
Record provider := Provider { toasts : list Toast; closings : list (Z * string); clock : Z }.

Definition start : provider := Provider [] [] 0.

(** ** Rendering *)

(** The effect of an item: its timer starts, the one before is cleared. *)
Definition item_effect (now : Z) (t : Toast) : Toast :=
  Build_Toast (t_id t) (t_type t) (t_message t) (duration t) true (Some (now + duration t)).

(** A render of the provider hands every item a new [onClose]. *)
Definition render (p : provider) : provider := Provider (map (item_effect (clock p)) (toasts p)) (closings p) (clock p).

Definition setToasts (f : list Toast -> list Toast) (p : provider) : provider :=
  render (Provider (f (toasts p)) (closings p) (clock p)).

(** ** The operations *)

Definition not_id (id : string) (t : Toast) : bool := negb (String.eqb (t_id t) id).
Definition remove (id : string) : provider -> provider := setToasts (List.filter (not_id id)).

(** [id] is the text of a random number. *)
Definition toast (id message : string) (type : ToastType) (d : Z) : provider -> provider :=
  setToasts (fun prev => prev ++ [Build_Toast id type message d false None]).
Definition success (id m : string) : provider -> provider := toast id m tsuccess 4000.
Definition error (id m : string) : provider -> provider := toast id m terror 6000.
Definition warning (id m : string) : provider -> provider := toast id m twarning 4000.
Definition info (id m : string) : provider -> provider := toast id m tinfo 4000.

(** The timer of the [i]-th item: it fades, and is closed in 200 ms. *)
Definition fade (t : Toast) : Toast := Build_Toast (t_id t) (t_type t) (t_message t) (duration t) false None.
Definition timeout (i : nat) (p : provider) : option provider :=
  match toasts p !! i with
  | Some t =>
      match timer t with
      | Some deadline =>
          if deadline <=? clock p
          then Some (Provider (<[i := fade t]> (toasts p)) (closings p ++ [(clock p + 200, t_id t)]) (clock p))
          else None
      | None => None
      end
  | None => None
  end.

(** The [j]-th pending [onClose]. *)
Definition close (j : nat) (p : provider) : option provider :=
  match closings p !! j with
  | Some (deadline, id) =>
      if deadline <=? clock p then Some (remove id (Provider (toasts p) (delete j (closings p)) (clock p))) else None
  | None => None
  end.

Definition wait (n : Z) (p : provider) : provider := Provider (toasts p) (closings p) (clock p + n).

(** What the browser does by itself, ... *)
Inductive timer_step (p : provider) : provider -> Prop :=
| step_wait n : 0 <= n -> timer_step p (wait n p)
| step_timeout i p' : timeout i p = Some p' -> timer_step p p'
| step_close j p' : close j p = Some p' -> timer_step p p'.

(** ... and what the page and the user do: a click closes an item. *)
Inductive step (p : provider) : provider -> Prop :=
| step_timer p' : timer_step p p' -> step p p'
| step_toast id m type d : 0 <= d -> step p (toast id m type d p)
| step_click t : In t (toasts p) -> step p (remove (t_id t) p)
| step_render : step p (render p).

(** ** No notification is stuck *)

(** An item shown waits for its timer; one that fades waits for its [onClose]. *)
Definition awaited (p : provider) (t : Toast) : Prop :=
  0 <= duration t
  /\ match timer t with
     | Some deadline => visible t = true /\ deadline <= clock p + duration t
     | None => exists deadline, In (deadline, t_id t) (closings p) /\ deadline <= clock p + 200
     end.
Definition sound (p : provider) : Prop :=
  Forall (awaited p) (toasts p) /\ Forall (fun c => c.1 <= clock p + 200) (closings p).

Lemma awaited_effect p t : 0 <= duration t -> awaited p (item_effect (clock p) t).
Proof. split; [done|]. cbn. split; [done|lia]. Qed.

Lemma sound_set f p : Forall (fun t => 0 <= duration t) (f (toasts p)) -> Forall (fun c => c.1 <= clock p + 200) (closings p) -> sound (setToasts f p).
Proof.
  intros Hf Hc. split; [|done]. unfold setToasts, render. cbn [toasts clock closings]. apply List.Forall_map.
  eapply List.Forall_impl; [|exact Hf]. intros t Ht. split; [done|]. cbn. split; [done|lia].
Qed.

Lemma sound_durations p : sound p -> Forall (fun t => 0 <= duration t) (toasts p).
Proof. intros [H _]. eapply List.Forall_impl; [|exact H]. by intros t [? _]. Qed.

Lemma sound_timer p p' : sound p -> timer_step p p' -> sound p'.
Proof.
  intros Hs Hstep. pose proof (sound_durations p Hs) as Hd. destruct Hs as [Ht Hc]. destruct Hstep as [n Hn|i p' H|j p' H].
  - split; cbn.
    + eapply List.Forall_impl; [|exact Ht]. intros t [Hdt H]. split; [done|]. destruct (timer t) as [d|]; cbn; [split; [tauto|lia]|].
      destruct H as (d & Hin & Hle). exists d. split; [done|]. cbn. lia.
    + eapply List.Forall_impl; [|exact Hc]. intros c H. cbn in H. cbn. lia.
  - unfold timeout in H. destruct (toasts p !! i) as [t|] eqn:Ei; [|done]. destruct (timer t) as [d|]; [|done].
    destruct (d <=? clock p); [|done]. injection H as <-.
    assert (0 <= duration t) as Hdt by (rewrite Forall_lookup in Hd; by eapply Hd).
    split; cbn.
    + apply Forall_insert.
      * eapply List.Forall_impl; [|exact Ht]. intros t' [Hd' H']. split; [done|]. destruct (timer t'); [done|].
        destruct H' as (d' & Hin & Hle). exists d'. cbn. split; [apply in_or_app; by left|done].
      * split; [done|]. cbn. exists (clock p + 200). split; [apply in_or_app; right; by left|lia].
    + apply Forall_app. split; [done|]. repeat constructor. cbn. lia.
  - unfold close in H. destruct (closings p !! j) as [[d id]|]; [|done]. destruct (d <=? clock p); [|done]. injection H as <-.
    apply sound_set; cbn; [|by apply Forall_delete]. apply List.Forall_forall. intros t Hin. apply filter_In in Hin as [Hin _].
    rewrite List.Forall_forall in Hd. by apply Hd.
Qed.

Lemma toasts_sound_step p p' : sound p -> step p p' -> sound p'.
Proof.
  intros Hs Hstep. pose proof (sound_durations p Hs) as Hd. destruct Hstep as [p' H|id m type d Hge|t Hin|].
  - by eapply sound_timer.
  - apply sound_set; [|apply Hs]. apply Forall_app. split; [done|]. by repeat constructor.
  - apply sound_set; [|apply Hs]. apply List.Forall_forall. intros t' Ht'. apply filter_In in Ht' as [Ht' _].
    rewrite List.Forall_forall in Hd. by apply Hd.
  - apply (sound_set (fun l => l)); [done|apply Hs].
Qed.

Lemma sound_reachable p : rtc step start p -> sound p.
Proof.
  intros H. assert (sound start) as H0 by by split.
  revert H0. induction H as [p|p q r Hpq _ IH]; [done|]. intros H0. apply IH. by eapply toasts_sound_step.
Qed.

Lemma filter_shorter {A} (f : A -> bool) l x : In x l -> f x = false -> (length (List.filter f l) < length l)%nat.
Proof.
  induction l as [|y l IH]; [done|]. intros [->|Hin] Hf; cbn.
  - rewrite Hf. pose proof (List.filter_length_le f l). lia.
  - specialize (IH Hin Hf). destruct (f y); cbn; lia.
Qed.

(** A pending [onClose] of an item takes it away within 200 ms. *)
Lemma closed_soon p t d :
  sound p -> In t (toasts p) -> In (d, t_id t) (closings p) ->
  exists p', rtc timer_step p p' /\ (length (toasts p') < length (toasts p))%nat /\ clock p' = clock p + 200
  /\ forall x, In x (toasts p') -> exists y, In y (toasts p) /\ duration x = duration y.
Proof.
  intros [_ Hc] Ht Hd. apply list_elem_of_In, list_elem_of_lookup in Hd as [j Hj].
  assert (d <= clock p + 200) as Hle by (rewrite Forall_lookup in Hc; by eapply (Hc j (d, t_id t))).
  eexists. split; [|split; [|split]].
  - eapply rtc_l; [apply (step_wait p 200); lia|]. apply rtc_once. apply (step_close _ j). unfold close. cbn. rewrite Hj.
    apply Z.leb_le in Hle. by rewrite Hle.
  - cbn. rewrite length_map. apply (filter_shorter _ _ t); [done|]. unfold not_id. by rewrite String.eqb_refl.
  - done.
  - cbn. intros x Hx. apply in_map_iff in Hx as (y & <- & Hy). exists y. split; [|done]. by apply filter_In in Hy as [? _].
Qed.

(** One of the items shown goes within its duration and 200 ms. *)
Lemma one_leaves p t :
  sound p -> In t (toasts p) ->
  exists p', rtc timer_step p p' /\ (length (toasts p') < length (toasts p))%nat /\ clock p' <= clock p + duration t + 200
  /\ forall x, In x (toasts p') -> exists y, In y (toasts p) /\ duration x = duration y.
Proof.
  intros Hs Hin. pose proof Hs as [Ht _]. rewrite List.Forall_forall in Ht. destruct (Ht t Hin) as [Hd H].
  destruct (timer t) as [d|] eqn:Et.
  - destruct H as [_ Hle]. set (p1 := wait (Z.max 0 (d - clock p)) p).
    assert (timer_step p p1) as H1 by (apply step_wait; lia). pose proof (sound_timer _ _ Hs H1) as Hs1.
    apply list_elem_of_In, list_elem_of_lookup in Hin as [i Hi].
    assert (timeout i p1 = Some (Provider (<[i := fade t]> (toasts p)) (closings p ++ [(clock p1 + 200, t_id t)]) (clock p1))) as H2.
    { unfold timeout. cbn. rewrite Hi, Et. rewrite (proj2 (Z.leb_le _ _)) by lia. done. }
    apply (step_timeout _ i) in H2. pose proof (sound_timer _ _ Hs1 H2) as Hs2.
    pose proof (lookup_lt_Some _ _ _ Hi) as Hlt.
    edestruct (closed_soon _ (fade t) (clock p1 + 200) Hs2) as (p' & Hr & Hl & Hc & Hdur).
    + cbn. apply list_elem_of_In, list_elem_of_lookup. exists i. by apply list_lookup_insert_eq.
    + cbn. apply in_or_app. right. by left.
    + exists p'. split; [by eapply rtc_l, rtc_l|]. cbn in Hl, Hc. rewrite length_insert in Hl. split; [done|]. split; [lia|].
      intros x Hx. destruct (Hdur x Hx) as (y & Hy & Hxy). cbn in Hy. apply list_elem_of_In, list_elem_of_lookup in Hy as [k Hk].
      destruct (decide (k = i)) as [->|Hne].
      * rewrite list_lookup_insert_eq in Hk by done. injection Hk as <-. exists t. split; [|done].
        apply list_elem_of_In, list_elem_of_lookup. by exists i.
      * rewrite list_lookup_insert_ne in Hk by done. exists y. split; [|done]. apply list_elem_of_In, list_elem_of_lookup. by exists k.
  - destruct H as (d & Hc & _). destruct (closed_soon p t d Hs Hin Hc) as (p' & Hr & Hl & Hcl & Hdur).
    exists p'. split; [done|]. split; [done|]. split; [lia|done].
Qed.

(** Left alone, the page ends without notifications, within the longest duration and 200 ms
    for each of them: nothing the page or the user did before can leave one behind. *)
Lemma toasts_leave p D :
  rtc step start p -> 0 <= D -> (forall t, In t (toasts p) -> duration t <= D) ->
  exists p', rtc timer_step p p' /\ toasts p' = [] /\ clock p' <= clock p + Z.of_nat (length (toasts p)) * (D + 200).
Proof.
  intros Hr HD Hdur. apply sound_reachable in Hr. remember (length (toasts p)) as n eqn:Hn.
  assert (length (toasts p) <= n)%nat as Hle by lia. clear Hn. revert p Hr Hdur Hle.
  induction n as [|n IH]; intros p Hs Hdur Hle.
  - exists p. split; [done|]. destruct (toasts p); [split; [done|lia]|cbn in Hle; lia].
  - destruct (toasts p) as [|t l] eqn:E; [exists p; split; [done|]; rewrite E; split; [done|lia]|].
    assert (In t (toasts p)) as Hin by (rewrite E; by left).
    destruct (one_leaves p t Hs Hin) as (p1 & Hr1 & Hl1 & Hc1 & Hd1). rewrite E in Hl1.
    assert (sound p1) as Hs1.
    { clear -Hs Hr1. revert Hs. induction Hr1 as [q|q q' q'' Hq _ IHq]; [done|]. intros Hs. by eapply IHq, sound_timer. }
    destruct (IH p1 Hs1) as (p' & Hr' & He & Hc').
    + intros x Hx. destruct (Hd1 x Hx) as (y & Hy & ->). apply Hdur. by rewrite <- E.
    + cbn in Hl1, Hle. lia.
    + exists p'. split; [by eapply rtc_trans|]. split; [done|]. assert (duration t <= D) by (apply Hdur; by left). lia.
Qed.

(** ** A notification stays while others keep coming *)

(** Others arrive, each with its own text and after its own pause. *)
Definition arrivals (l : list (Z * (string * string))) (p : provider) : provider :=
  fold_left (fun p x => info x.2.1 x.2.2 (wait x.1 p)) l p.

(** However many come, a notification whose duration is longer than every pause is shown all
    along: before each arrival its timer is not due, and after it the timer starts again. *)
Lemma kept_by_others id m type d l p i :
  toasts p !! i = Some (Build_Toast id type m d true (Some (clock p + d))) ->
  Forall (fun x => 0 <= x.1 < d) l ->
  toasts (arrivals l p) !! i = Some (Build_Toast id type m d true (Some (clock (arrivals l p) + d)))
  /\ Forall (fun k => timeout i (wait (fst (nth k l (0, ("", "")))) (arrivals (take k l) p)) = None) (seq 0 (length l)).
Proof.
  assert (forall l p, toasts p !! i = Some (Build_Toast id type m d true (Some (clock p + d))) ->
    Forall (fun x => 0 <= x.1 < d) l ->
    toasts (arrivals l p) !! i = Some (Build_Toast id type m d true (Some (clock (arrivals l p) + d)))) as H.
  { clear l p. induction l as [|[g [id' m']] l IH]; intros p Hi Hl; [done|]. apply Forall_cons in Hl as [Hg Hl].
    cbn [arrivals fold_left fst snd]. apply (IH (info id' m' (wait g p))); [|done]. cbn. rewrite list_lookup_fmap.
    rewrite lookup_app_l by by eapply lookup_lt_Some. rewrite Hi. done. }
  intros Hi Hl. split; [by apply H|]. apply Forall_forall. intros k Hk. apply elem_of_seq in Hk.
  specialize (H (take k l) p Hi (Forall_take _ _ _ Hl)). unfold timeout. cbn. rewrite H. cbn.
  assert (fst (nth k l (0, ("", ""))) < d) as Hlt.
  { rewrite List.Forall_forall in Hl. apply Hl. apply nth_In. lia. }
  rewrite (proj2 (Z.leb_gt _ _)) by lia. done.
Qed.

(** ** Witnesses *)

Definition two_shown : provider := info "b" "Saved" (wait 3000 (error "a" "Offline" start)).

Lemma two_reachable : rtc step start two_shown.
Proof.
  eapply rtc_l; [apply (step_toast start "a" "Offline" terror 6000); lia|].
  eapply rtc_l; [apply step_timer, (step_wait _ 3000); lia|].
  apply rtc_once, (step_toast _ "b" "Saved" tinfo 4000). lia.
Qed.

Lemma toasts_leave_witness :
  exists p', rtc timer_step two_shown p' /\ toasts p' = [] /\ clock p' <= 3000 + 2 * 6200.
Proof.
  apply (toasts_leave two_shown 6000 two_reachable); [lia|]. intros t [<-|[<-|[]]]; cbn; lia.
Defined.

(** A message of four seconds is still there after a minute of others, one every three. *)
Lemma kept_by_others_witness :
  exists t, toasts (arrivals (map (fun n => (3000, (string_of_Z (Z.of_nat n), "More"))) (seq 0 20)) (info "a" "Hello" start)) !! 0%nat = Some t
  /\ t_message t = "Hello" /\ visible t = true.
Proof.
  eexists. split.
  - refine (proj1 (kept_by_others "a" "Hello" tinfo 4000 _ _ 0 _ _)); [reflexivity|].
    apply Forall_forall. intros x Hx. apply list_elem_of_In, in_map_iff in Hx as (n & <- & _). cbn. lia.
  - split; reflexivity.
Defined.
