(* ===== verification/Widgets.v ===== *)
(** * Small parts of the console and the React SDK

    The error boundary of the React SDK (ErrorBoundary.tsx); of the console, the timings of
    pages (lib/performance.ts), attributes of elements (lib/a11y.ts), titles
    (lib/page-meta.ts, lib/usePageTitle.ts), the presets of directory servers
    (lib/ldap-vendor-presets.ts) and the service worker (components/PWARegister.tsx), all as
    they run in a browser. *)

From S2P Require Import Prelude JsValue JsString Json Effects ApiClient.
#[local] Open Scope Z_scope.

(** ** ErrorBoundary.tsx *)

Module ErrorBoundary.

Record boundary := Boundary { hasError : bool; error : js }.
Definition boundary_init : boundary := Boundary false JNull.

Definition auth_words : list string := ["401"; "403"; "token"; "unauthorized"; "session expired"].

(** [m.includes(w1) || m.includes(w2) || ...]: raises on what has no [includes]. *)
Fixpoint includes_any (m : js) (words : list string) : option bool :=
  match words with
  | [] => Some false
  | w :: words' => b ← js_includes m w; if (b : bool) then Some true else includes_any m words'
  end.

(** What is caught may be any value. *)
Definition getDerivedStateFromError (err : js) : prog boundary unit := upd (fun _ => Boundary true err).

Definition componentDidCatch (onError : bool) (err : js) : prog boundary unit :=
  (if onError then emit "onError" err else mret tt);;
  m ← get err "message";
  isAuthError ← or_throw (type_error "includes is not a function") (includes_any m auth_words);
  if (isAuthError : bool) then emit "console.warn" m else mret tt.

(** A child that raises. *)
Definition catch (onError : bool) (err : js) : prog boundary unit :=
  getDerivedStateFromError err;; componentDidCatch onError err.

Definition handleRetry (onRetry : bool) : prog boundary unit :=
  upd (fun _ => boundary_init);;
  if onRetry then emit "onRetry" JUndef else mret tt.

Inductive view := Children | Fallback | Message (text : js).
Definition view_of (fallback : bool) (s : boundary) : view :=
  if hasError s then
    if fallback then Fallback
    else Message (js_or (opt_prop (error s) "message") (JStr "An unexpected error occurred."))
  else Children.
End ErrorBoundary.

(** ** lib/performance.ts *)

Module Performance.

(** The rounded differences of the browser's entry for the navigation. *)
Record timing := Timing { domContentLoaded : Z; loadComplete : Z; ttfb : Z; domInteractive : Z; transferSize : Z }.

Definition PERF_KEY : string := "ggid_perf".

Definition metrics (pageName : string) (t : timing) : list (string * js) :=
  [("page", JStr pageName); ("domContentLoaded", JNum (domContentLoaded t)); ("loadComplete", JNum (loadComplete t));
   ("ttfb", JNum (ttfb t)); ("domInteractive", JNum (domInteractive t)); ("transferSize", JNum (transferSize t))].
Definition entry (pageName : string) (t : timing) (now : Z) : js := JObj (metrics pageName t ++ [("timestamp", JNum now)]).

(** [if (l.length > 50) l.shift()]. *)
Definition keep_50 (l : list js) : list js := if (50 <? length l)%nat then tail l else l.

Definition trackPageLoad (development : bool) (nav : option timing) (pageName : string) : prog unit unit :=
  match nav with
  | None => mret tt
  | Some t =>
      (if development then emit "console.debug" (JObj (metrics pageName t)) else mret tt);;
      item ← getItem Session PERF_KEY;
      stored ← json_parse (default "[]" (nonempty item));
      match stored with
      | JArr l =>
          n ← now;
          setItem Session PERF_KEY (stringify (JArr (keep_50 (l ++ [entry pageName t n]))))
      | _ => Throw (type_error "stored.push is not a function")
      end
  end.

(** The effect of a page, whose timer calls the tracker, and its cleanup. *)
Definition usePagePerformance : prog unit unit := emit "setTimeout" (JNum 0).
Definition leave : prog unit unit := emit "clearTimeout" JUndef.

Definition clearPerfData : prog unit unit := removeItem Session PERF_KEY.

(** The browser's resources by name and size: the size of the scripts and their number. *)
Definition ends_with (suffix s : string) : bool :=
  let n := String.length suffix in
  (n <=? String.length s)%nat && String.eqb (String.substring (String.length s - n) n s) suffix.
Definition getBundleMetrics (resources : list (string * Z)) : Z * nat :=
  let jsResources := List.filter (fun r => ends_with ".js" r.1) resources in
  (fold_left (fun sum r => sum + r.2) jsResources 0, length jsResources).
End Performance.

(** ** lib/page-meta.ts, lib/usePageTitle.ts *)

Definition pageMeta (title : string) (description : option string) : string * string :=
  (title, default (title +:+ " — GGID Identity & Access Management") (nonempty description)).

(** The state is the title of the document. *)
Definition usePageTitle (title : string) : prog string unit := upd (fun _ => title +:+ " | GGID Console").
Definition leave_page : prog string unit := upd (fun _ => "GGID Console").

(** ** components/PWARegister.tsx *)

Module ServiceWorker.

(** The state is [refreshing]; [registered] is what follows a registration that succeeds. *)
Definition mount (supported production : bool) : prog bool unit :=
  if negb supported then mret tt
  else if negb production then mret tt
  else emit "serviceWorker.register" (JStr "/sw.js");; emit "addEventListener" (JStr "controllerchange").
Definition registered : prog bool unit := emit "setInterval" (JNum 3600000).
Definition failed (err : js) : prog bool unit := emit "console.debug" err.
Definition controllerchange : prog bool unit :=
  refreshing ← get_state;
  if (refreshing : bool) then mret tt else upd (fun _ => true);; emit "location.reload" JUndef.
End ServiceWorker.

(** ** lib/a11y.ts *)

Module A11y.

Definition ariaLabel (key : string) (t : option (string -> string)) : string :=
  match t with Some t => t key | None => key end.

Definition iconButton (label : string) : js := JObj [("aria-label", JStr label); ("role", JStr "button")].
Definition switch (checked : bool) (label : string) : js :=
  JObj [("role", JStr "switch"); ("aria-checked", JBool checked); ("aria-label", JStr label); ("tabIndex", JNum 0)].
Definition tab (active : bool) (id : string) : js :=
  JObj [("role", JStr "tab"); ("aria-selected", JBool active); ("aria-controls", JStr (id +:+ "-panel"));
        ("id", JStr (id +:+ "-tab")); ("tabIndex", JNum (if active then 0 else -1))].
Definition tabPanel (id : string) : js :=
  JObj [("role", JStr "tabpanel"); ("id", JStr (id +:+ "-panel")); ("aria-labelledby", JStr (id +:+ "-tab"))].
Definition field (label : string) (required : bool) : js :=
  JObj [("aria-label", JStr label); ("aria-required", if required then JBool true else JUndef)].
Definition loading (isLoading : bool) : js := JObj [("aria-busy", JBool isLoading); ("aria-live", JStr "polite")].
Definition live : js := JObj [("aria-live", JStr "polite"); ("aria-atomic", JBool true)].
Definition modal (labelledBy : string) : js :=
  JObj [("role", JStr "dialog"); ("aria-modal", JBool true); ("aria-labelledby", JStr labelledBy)].
Definition expandable (expanded : bool) (controlId : option string) : js :=
  JObj [("aria-expanded", JBool expanded); ("aria-controls", match controlId with Some c => JStr c | None => JUndef end)].

Definition onEnterKey {S} (fn : prog S unit) (key : string) : prog S unit :=
  if String.eqb key "Enter" || String.eqb key " " then emit "preventDefault" JUndef;; fn else mret tt.
End A11y.

(** ** lib/ldap-vendor-presets.ts *)

Record ldap_config := Ldap {
  server_url : string; bind_dn : string; base_dn : string; user_filter : string; group_filter : string; start_tls : bool;
  attribute_mapping : list (string * string) }.
Record LDAPVendorPreset := Preset { preset_id : string; preset_label : string; preset_description : string; preset_config : ldap_config }.

Definition LDAP_VENDOR_PRESETS : list LDAPVendorPreset :=
  [Preset "custom" "Custom LDAP" "Generic LDAP v3 directory server"
     (Ldap "" "" ""
        "(objectClass=person)"
        "(objectClass=groupOfNames)" true
        [("uid", "username"); ("mail", "email"); ("cn", "display_name"); ("memberOf", "groups")]);
   Preset "active-directory" "Active Directory" "Microsoft AD / Windows Server"
     (Ldap "ldap://dc01.corp.local:389" "CN=svc-ldap,OU=Service Accounts,DC=corp,DC=local" "DC=corp,DC=local"
        "(&(objectClass=user)(objectCategory=person)(!(userAccountControl:1.2.840.113556.1.4.803:=2)))"
        "(objectClass=group)" true
        [("sAMAccountName", "username"); ("userPrincipalName", "email"); ("displayName", "display_name"); ("memberOf", "groups"); ("givenName", "first_name"); ("sn", "last_name")]);
   Preset "openldap" "OpenLDAP" "Open-source LDAP server"
     (Ldap "ldap://ldap.example.com:389" "cn=admin,dc=example,dc=com" "dc=example,dc=com"
        "(objectClass=inetOrgPerson)"
        "(objectClass=groupOfNames)" true
        [("uid", "username"); ("mail", "email"); ("cn", "display_name"); ("memberOf", "groups")]);
   Preset "freeipa" "FreeIPA / IdM" "Red Hat Identity Management"
     (Ldap "ldap://ipa.example.com:389" "uid=ldap-sync,cn=users,cn=accounts,dc=example,dc=com" "dc=example,dc=com"
        "(objectClass=posixAccount)"
        "(objectClass=posixGroup)" true
        [("uid", "username"); ("mail", "email"); ("displayName", "display_name"); ("memberOf", "groups")]);
   Preset "389ds" "389 Directory Server" "Red Hat 389 DS"
     (Ldap "ldap://dir.example.com:389" "cn=Directory Manager" "dc=example,dc=com"
        "(objectClass=inetOrgPerson)"
        "(objectClass=groupOfUniqueNames)" true
        [("uid", "username"); ("mail", "email"); ("cn", "display_name"); ("uniqueMember", "groups")]);
   Preset "open-dj" "OpenDJ" "ForgeRock OpenDJ"
     (Ldap "ldap://opendj.example.com:389" "cn=Directory Manager" "dc=example,dc=com"
        "(objectClass=person)"
        "(objectClass=groupOfUniqueNames)" true
        [("uid", "username"); ("mail", "email"); ("cn", "display_name"); ("isMemberOf", "groups")])].

(** ** The boundary *)

Lemma includes_any_text m words :
  ErrorBoundary.includes_any (JStr m) words = Some (existsb (fun w => str_includes w m) words).
Proof.
  induction words as [|w words IH]; [done|]. cbn. destruct (str_includes w m); [done|]. exact IH.
Qed.

(** An error with a message is kept and shown, whatever it is about; only the warning tells
    the errors of authentication apart, by the words in their messages.  A retry shows the
    children again. *)
Lemma error_is_shown (e : env) onError err m w :
  opt_prop err "message" = JStr m -> is_nullish err = false ->
  exists w', run e (ErrorBoundary.catch onError err) w = (Done tt, w')
  /\ w_st w' = ErrorBoundary.Boundary true err
  /\ (m <> "" -> ErrorBoundary.view_of false (w_st w') = ErrorBoundary.Message (JStr m))
  /\ (existsb (fun word => str_includes word m) ErrorBoundary.auth_words = true -> In (ObsEmit "console.warn" (JStr m)) (w_trace w'))
  /\ forall onRetry, ErrorBoundary.view_of true (w_st (run e (ErrorBoundary.handleRetry onRetry) w').2) = ErrorBoundary.Children.
Proof.
  intros Hm Hn. unfold ErrorBoundary.catch, ErrorBoundary.getDerivedStateFromError, ErrorBoundary.componentDidCatch.
  assert (prop err "message" = Some (JStr m)) as Hp by (rewrite <- Hm; by destruct err).
  assert (forall s : world ErrorBoundary.boundary, w_st s = ErrorBoundary.Boundary true err -> m <> "" ->
    ErrorBoundary.view_of false (w_st s) = ErrorBoundary.Message (JStr m)) as Hview.
  { intros s -> Hne. cbn. rewrite Hm. by destruct m. }
  destruct onError; run_steps; rewrite (run_get e _ _ _ _ Hp); run_steps; rewrite includes_any_text; cbn [or_throw]; run_steps;
    destruct (existsb _ _); run_steps; (eexists; split; [reflexivity|]);
    (split; [by destruct w|]); (split; [by apply Hview; destruct w|]); (split; [intros; try done; destruct w; cbn; tauto|]);
    intros []; unfold ErrorBoundary.handleRetry; run_steps; by destruct w.
Qed.

(** What is thrown without a text for a message makes the boundary itself raise. *)
Lemma boundary_raises (e : env) v w :
  (v = JNull \/ v = JUndef \/ exists s, v = JStr s) ->
  exists x w', run e (ErrorBoundary.catch false v) w = (Raised x, w').
Proof.
  intros Hv. unfold ErrorBoundary.catch, ErrorBoundary.getDerivedStateFromError, ErrorBoundary.componentDidCatch, get. run_steps.
  destruct Hv as [->|[->|[s ->]]]; cbn [prop]; run_steps; by eexists _, _.
Qed.

(** A text that is no JSON, as a server's page in place of an answer, counts as an error of
    authentication: the browser's message names a token. *)
Example json_errors_warn :
  existsb (fun word => str_includes word "Unexpected token < in JSON at position 0") ErrorBoundary.auth_words = true.
Proof. reflexivity. Qed.

(** ** The timings *)

(** The last [n] elements. *)
Definition lastn {A} (n : nat) (l : list A) : list A := drop (length l - n) l.

Lemma lastn_snoc {A} n (l : list A) x : (0 < n)%nat -> lastn n (l ++ [x]) = drop (length (lastn n l ++ [x]) - n) (lastn n l ++ [x]).
Proof.
  intros Hn. unfold lastn. rewrite !length_app, length_drop. cbn. destruct (Nat.le_gt_cases (length l) n) as [Hle|Hgt].
  - replace (length l - n)%nat with 0%nat by lia. rewrite drop_0. f_equal. lia.
  - rewrite !(drop_app_le l), (drop_app_le (drop _ l)), drop_drop by (rewrite ?length_drop; lia). do 2 f_equal. lia.
Qed.

(** The stored list is of whole entries, of the pages [ps] in their order. *)
Definition entries_of (ps : list string) (l : list js) : Prop :=
  Forall2 (fun p v => exists t n, v = Performance.entry p t n) ps l.

Lemma entries_wf ps l : entries_of ps l -> json_wf (JArr l) = true.
Proof. intros H. cbn. induction H as [|p v ps l (t & n & ->) _ IH]; [done|]. cbn [forallb]. by rewrite IH. Qed.

Lemma keep_last l x : (length l <= 50)%nat -> Performance.keep_50 (l ++ [x]) = drop (length (l ++ [x]) - 50) (l ++ [x]).
Proof.
  intros Hl. unfold Performance.keep_50. rewrite length_app. cbn [length]. destruct (Nat.ltb_spec 50 (length l + 1)) as [H|H].
  - replace (length l + 1 - 50)%nat with 1%nat by lia. by destruct l.
  - by replace (length l + 1 - 50)%nat with 0%nat by lia.
Qed.

(** What is stored after the pages [ps], one after the other: the entries of the last fifty,
    the latest at the end. *)
Definition holds (w : world unit) (ps : list string) : Prop :=
  exists l, entries_of (lastn 50 ps) l
  /\ (w_session w !! Performance.PERF_KEY = Some (stringify (JArr l)) \/ l = [] /\ w_session w !! Performance.PERF_KEY = None).

Lemma track_holds (e : env) dev t p w ps :
  holds w ps ->
  exists w', run e (Performance.trackPageLoad dev (Some t) p) w = (Done tt, w') /\ holds w' (ps ++ [p]).
Proof.
  intros (l & Hl & Hi). pose proof (entries_wf _ _ Hl) as Hwf. pose proof (Forall2_length _ _ _ Hl) as Hlen.
  assert (length l <= 50)%nat as H50 by (rewrite <- Hlen; unfold lastn; rewrite length_drop; lia).
  assert (JSON_parse (default "[]" (nonempty (w_session w !! Performance.PERF_KEY))) = Some (JArr l)) as Hp.
  { destruct Hi as [Hi|[-> Hi]]; rewrite Hi; [|reflexivity]. rewrite <- (JSON_parse_stringify (JArr l) Hwf). by destruct l. }
  unfold Performance.trackPageLoad, json_parse.
  destruct dev; run_steps; cbn [w_area]; autorewrite with world; rewrite Hp; run_steps;
    (eexists; split; [reflexivity|]); (eexists (Performance.keep_50 (l ++ [Performance.entry p t _])); split; [|left; destruct w; apply lookup_insert_eq]);
    rewrite keep_last by done; rewrite lastn_snoc by lia; unfold entries_of; rewrite !length_app, Hlen; cbn [length];
    apply Forall2_drop, Forall2_app; [done|by repeat econstructor|done|by repeat econstructor].
Qed.

(** The tracker keeps the timings of the last fifty pages, in their order, whatever their
    number. *)
Lemma timings_kept (e : env) dev t ps w :
  w_session w !! Performance.PERF_KEY = None ->
  exists w', run e (foldr (fun p rest => Performance.trackPageLoad dev (Some t) p;; rest) (mret tt) ps) w = (Done tt, w') /\ holds w' ps.
Proof.
  intros Hw. assert (holds w []) as H by (exists []; split; [constructor|by right]). clear Hw.
  assert (forall before w, holds w before ->
    exists w', run e (foldr (fun p rest => Performance.trackPageLoad dev (Some t) p;; rest) (mret tt) ps) w = (Done tt, w')
    /\ holds w' (before ++ ps)) as Hall; [|by apply (Hall [])].
  clear w H. induction ps as [|p ps IH]; intros before w H.
  - exists w. rewrite app_nil_r. by run_steps.
  - cbn [foldr]. run_steps. destruct (track_holds e dev t p w before H) as (w1 & -> & H1). run_steps.
    destruct (IH (before ++ [p]) w1 H1) as (w2 & -> & H2). exists w2. split; [done|]. by rewrite <- app_assoc in H2.
Qed.

(** What is no list under the key makes the tracker raise, and is left there. *)
Lemma foreign_timings (e : env) dev t p w text v :
  w_session w !! Performance.PERF_KEY = Some text -> text <> "" -> JSON_parse text = Some v -> is_array v = false ->
  exists x w', run e (Performance.trackPageLoad dev (Some t) p) w = (Raised x, w') /\ w_session w' = w_session w.
Proof.
  intros Hi Ht Hp Hv. unfold Performance.trackPageLoad, json_parse.
  destruct dev; run_steps; cbn [w_area]; autorewrite with world; rewrite Hi; (replace (nonempty (Some text)) with (Some text) by by destruct text);
    change (default "[]" (Some text)) with text; rewrite Hp; run_steps; destruct v; try done; run_steps; eexists _, _; (split; [reflexivity|]); by destruct w.
Qed.

(** ** The others *)

(** The event [n] times. *)
Fixpoint changes (n : nat) : prog bool unit :=
  match n with O => mret tt | S n => ServiceWorker.controllerchange;; changes n end.

Lemma run_controllerchange (e : env) w :
  run e ServiceWorker.controllerchange w
  = (Done tt, if w_st w then w else log (ObsEmit "location.reload" JUndef) (set_st (fun _ => true) w)).
Proof. unfold ServiceWorker.controllerchange. run_steps. by destruct (w_st w) eqn:E; run_steps. Qed.

(** However often the service worker changes, the page reloads itself once. *)
Lemma reloads_once (e : env) n w :
  w_st w = false -> w_trace (run e (changes (S n)) w).2 = ObsEmit "location.reload" JUndef :: w_trace w.
Proof.
  intros Hw.
  assert (forall w, w_st w = true -> w_trace (run e (changes n) w).2 = w_trace w) as Hrest.
  { clear. induction n as [|n IH]; intros w Hw; [done|]. cbn [changes]. rewrite run_mbind, run_controllerchange, Hw. by apply IH. }
  cbn [changes]. rewrite run_mbind, run_controllerchange, Hw. cbn iota beta. rewrite Hrest by by destruct w. by destruct w.
Qed.

(** A tab names its panel, and the panel its tab. *)
Lemma tab_and_panel active id :
  opt_prop (A11y.tab active id) "aria-controls" = opt_prop (A11y.tabPanel id) "id"
  /\ opt_prop (A11y.tabPanel id) "aria-labelledby" = opt_prop (A11y.tab active id) "id".
Proof. done. Qed.

(** The presets have names of their own, and each says where the four fields of a user come from. *)
Lemma presets_complete :
  List.NoDup (map preset_id LDAP_VENDOR_PRESETS)
  /\ forall p f, In p LDAP_VENDOR_PRESETS -> In f ["username"; "email"; "display_name"; "groups"] ->
       In f (map snd (attribute_mapping (preset_config p))).
Proof.
  split; [repeat constructor; cbn; intuition discriminate|].
  assert (forallb (fun p => forallb (fun f => str_mem f (map snd (attribute_mapping (preset_config p))))
    ["username"; "email"; "display_name"; "groups"]) LDAP_VENDOR_PRESETS = true) as H by reflexivity.
  intros p f Hp Hf. rewrite forallb_forall in H. specialize (H p Hp). rewrite forallb_forall in H. apply str_mem_In, H, Hf.
Qed.

(** ** Witnesses *)

Lemma error_is_shown_witness :
  exists w', run (const_env None 0) (ErrorBoundary.catch true (JObj [("message", JStr "HTTP 401")])) (page ErrorBoundary.boundary_init ∅) = (Done tt, w')
  /\ In (ObsEmit "console.warn" (JStr "HTTP 401")) (w_trace w').
Proof.
  destruct (error_is_shown (const_env None 0) true (JObj [("message", JStr "HTTP 401")]) "HTTP 401" (page ErrorBoundary.boundary_init ∅))
    as (w' & Hr & _ & _ & Hw & _); [reflexivity|reflexivity|]. exists w'. split; [exact Hr|]. apply Hw. reflexivity.
Defined.

Lemma timings_kept_witness :
  exists w', run (const_env None 0) (foldr (fun p rest => Performance.trackPageLoad false (Some (Performance.Timing 1 2 3 4 5)) p;; rest) (mret tt)
      (map (fun n => string_of_Z (Z.of_nat n)) (seq 0 60))) (page tt ∅) = (Done tt, w')
  /\ holds w' (map (fun n => string_of_Z (Z.of_nat n)) (seq 0 60)).
Proof. apply (timings_kept (const_env None 0) false (Performance.Timing 1 2 3 4 5)). reflexivity. Defined.
