(* ===== verification/LdapSync.v ===== *)
(** * Synchronising a directory (console/src/app/settings/ldap-sync-config/page.tsx)

    The page edits how a directory server is reached, with presets for the common ones, saves
    and tests the settings, and starts a synchronisation.  Settings and status are what the
    server has sent, laid over the defaults. *)

From S2P Require Import Prelude JsValue JsString Json Effects ApiClient Webauthn Shell AuditLog Widgets.
#[local] Open Scope Z_scope.

(** ** The page *)

Record page_state := LdapPage {
  config : list (string * js);
  testing : bool;
  testResult : js;
  saving : bool;
  saved : bool;
  loading : bool;
  error_ : option string;
  syncStatus : js;
  syncing : bool;
  history : js;
  selectedVendor : string }.

Definition setTesting (v : bool) : prog page_state unit :=
  upd (fun s => LdapPage (config s) v (testResult s) (saving s) (saved s) (loading s) (error_ s) (syncStatus s) (syncing s) (history s) (selectedVendor s)).
Definition setTestResult (v : js) : prog page_state unit :=
  upd (fun s => LdapPage (config s) (testing s) v (saving s) (saved s) (loading s) (error_ s) (syncStatus s) (syncing s) (history s) (selectedVendor s)).
Definition setSaving (v : bool) : prog page_state unit :=
  upd (fun s => LdapPage (config s) (testing s) (testResult s) v (saved s) (loading s) (error_ s) (syncStatus s) (syncing s) (history s) (selectedVendor s)).
Definition setSaved (v : bool) : prog page_state unit :=
  upd (fun s => LdapPage (config s) (testing s) (testResult s) (saving s) v (loading s) (error_ s) (syncStatus s) (syncing s) (history s) (selectedVendor s)).
Definition setLoading (v : bool) : prog page_state unit :=
  upd (fun s => LdapPage (config s) (testing s) (testResult s) (saving s) (saved s) v (error_ s) (syncStatus s) (syncing s) (history s) (selectedVendor s)).
Definition setError (v : option string) : prog page_state unit :=
  upd (fun s => LdapPage (config s) (testing s) (testResult s) (saving s) (saved s) (loading s) v (syncStatus s) (syncing s) (history s) (selectedVendor s)).
Definition setSyncStatus (v : js) : prog page_state unit :=
  upd (fun s => LdapPage (config s) (testing s) (testResult s) (saving s) (saved s) (loading s) (error_ s) v (syncing s) (history s) (selectedVendor s)).
Definition setSyncing (v : bool) : prog page_state unit :=
  upd (fun s => LdapPage (config s) (testing s) (testResult s) (saving s) (saved s) (loading s) (error_ s) (syncStatus s) v (history s) (selectedVendor s)).
Definition setHistory (v : js) : prog page_state unit :=
  upd (fun s => LdapPage (config s) (testing s) (testResult s) (saving s) (saved s) (loading s) (error_ s) (syncStatus s) (syncing s) v (selectedVendor s)).
Definition setSelectedVendor (v : string) : prog page_state unit :=
  upd (fun s => LdapPage (config s) (testing s) (testResult s) (saving s) (saved s) (loading s) (error_ s) (syncStatus s) (syncing s) (history s) v).
Definition setConfig (f : list (string * js) -> list (string * js)) : prog page_state unit :=
  upd (fun s => LdapPage (f (config s)) (testing s) (testResult s) (saving s) (saved s) (loading s) (error_ s) (syncStatus s) (syncing s) (history s) (selectedVendor s)).

Definition mapped (ldap_attr : string) (local_attr : js) : js := JObj [("ldap_attr", JStr ldap_attr); ("local_attr", local_attr)].

Definition DEFAULT_CONFIG : list (string * js) :=
  [("server_url", JStr ""); ("bind_dn", JStr ""); ("base_dn", JStr ""); ("user_filter", JStr "(objectClass=person)");
   ("group_filter", JStr "(objectClass=groupOfNames)"); ("start_tls", JBool true);
   ("attribute_mapping", JArr [mapped "uid" (JStr "username"); mapped "mail" (JStr "email"); mapped "cn" (JStr "display_name")]);
   ("sync_interval_minutes", JNum 360); ("auto_provision", JBool true)].

Definition status (v : string) : js := JObj [("status", JStr v); ("last_sync", JNull)].

Definition page_init : page_state :=
  LdapPage DEFAULT_CONFIG false JNull false false true None (status "idle") false (JArr []) "custom".

Definition member (c : list (string * js)) (k : string) : js := opt_prop (JObj c) k.

(** ** Presets *)

(** [{ ...prev, server_url: ..., ..., attribute_mapping: ... }]. *)
Definition with_preset (p : ldap_config) (prev : list (string * js)) : list (string * js) :=
  let mapping := map (fun m => mapped m.1 (JStr m.2)) (attribute_mapping p) in
  spread prev
    [("server_url", js_or (member prev "server_url") (JStr (server_url p))); ("user_filter", JStr (user_filter p));
     ("group_filter", JStr (group_filter p)); ("start_tls", JBool (start_tls p));
     ("attribute_mapping", if (0 <? length mapping)%nat then JArr mapping else member prev "attribute_mapping")].

Definition find_preset (vendorId : string) : option LDAPVendorPreset :=
  List.find (fun v => String.eqb (preset_id v) vendorId) LDAP_VENDOR_PRESETS.

Definition applyVendorPreset (vendorId : string) : prog page_state unit :=
  setSelectedVendor vendorId;;
  match find_preset vendorId with
  | None => mret tt
  | Some preset => setConfig (with_preset (preset_config preset))
  end.

(** ** Requests *)

(** The headers every request has. *)
Definition tenant_headers : prog page_state (list (string * string)) :=
  auth ← authHeader true;
  tenant ← getItem Local "ggid_tenant_id";
  mret (hassign auth [("X-Tenant-ID", default "" tenant)]).

(** The saving requests have the type of their body between the two. *)
Definition body_headers : prog page_state (list (string * string)) :=
  auth ← authHeader true;
  tenant ← getItem Local "ggid_tenant_id";
  mret (hassign auth [("Content-Type", "application/json"); ("X-Tenant-ID", default "" tenant)]).

(** [fetch(...).catch(() => null)]. *)
Definition fetch_or_null (path : string) (headers : list (string * string)) : prog page_state (option response) :=
  try_catch (r ← fetch (Request GET path headers None); mret (Some r)) (fun _ => mret None).

(** The mapping of an answer as a list: an object there becomes the list of its members. *)
Definition list_mapping (c : js) : js :=
  match c with
  | JObj l =>
      let m := opt_prop c "attribute_mapping" in
      if truthy m && negb (is_array m)
      then JObj (assoc_set "attribute_mapping" (JArr (map (fun kv => mapped kv.1 kv.2) (entries (own_members m)))) l)
      else c
  | _ => c
  end.

(** What is done with an answer that has come and is a success. *)
Definition when_ok (res : option response) (f : js -> prog page_state unit) : prog page_state unit :=
  match res with
  | Some r => if rs_ok r then d ← resp_json r; f d else mret tt
  | None => mret tt
  end.

Definition loadData : prog page_state unit :=
  setLoading true;;
  setError None;;
  finally
    (try_catch
       (headers ← tenant_headers;
        answers ← promise_all (map (fun path => fetch_or_null path headers)
          ["/api/v1/identity/ldap/sync-config"; "/api/v1/identity/ldap/sync-status"; "/api/v1/identity/ldap/sync-history"]);
        match answers with
        | [configRes; statusRes; historyRes] =>
            when_ok configRes (fun d =>
              c0 ← get d "config";
              let c := js_or c0 d in
              if truthy c then setConfig (fun prev => spread prev (own_members (list_mapping c))) else mret tt);;
            when_ok statusRes setSyncStatus;;
            when_ok historyRes (fun d => h ← get d "history"; setHistory (js_or h (JArr [])))
        | _ => mret tt
        end)
       (fun _ => setError (Some "Failed to load LDAP configuration")))
    (setLoading false).

Definition config_body (s : page_state) : js := JObj [("config", JObj (config s))].

Definition save (s : page_state) : prog page_state unit :=
  setSaving true;;
  setSaved false;;
  finally
    (try_catch
       (headers ← body_headers;
        res ← fetch (Request PUT "/api/v1/identity/ldap/sync-config" headers (Some (stringify (config_body s))));
        if rs_ok res then setSaved true else mret tt)
       (fun _ => mret tt))
    (setSaving false).

Definition failed_test (why : string) : js :=
  JObj [("status", JStr "failed"); ("latency_ms", JNum 0); ("users_found", JNum 0); ("groups_found", JNum 0); ("error", JStr why)].

Definition test (s : page_state) : prog page_state unit :=
  setTesting true;;
  setTestResult JNull;;
  finally
    (try_catch
       (headers ← body_headers;
        res ← fetch (Request POST "/api/v1/identity/ldap/sync-config/test" headers (Some (stringify (config_body s))));
        if rs_ok res then d ← resp_json res; setTestResult d
        else setTestResult (failed_test ("HTTP " +:+ string_of_Z (rs_status res))))
       (fun e => setTestResult (failed_test (e_message e))))
    (setTesting false).

(** The timer of three seconds is [loadData]. *)
Definition triggerSync : prog page_state unit :=
  setSyncing true;;
  finally
    (try_catch
       (headers ← tenant_headers;
        res ← fetch (Request POST "/api/v1/identity/ldap/sync" headers None);
        if rs_ok res then setSyncStatus (status "syncing");; emit "setTimeout" (JNum 3000) else mret tt)
       (fun _ => mret tt))
    (setSyncing false).

(** ** The form *)

(** [setConfig({ ...config, [k]: v })]. *)
Definition change (s : page_state) (k : string) (v : js) : prog page_state unit := setConfig (fun _ => assoc_set k v (config s)).
Definition type_text (s : page_state) (k v : string) : prog page_state unit := change s k (JStr v).
Definition tick_box (s : page_state) (k : string) (v : bool) : prog page_state unit := change s k (JBool v).
(** [parseInt(v) || 360]. *)
Definition interval_of (v : string) : Z :=
  let n := match trim_start v with
           | String "-" v' => Z.opp <$> Z_of_string (take_digits v')
           | String "+" v' => Z_of_string (take_digits v')
           | v' => Z_of_string (take_digits v')
           end in
  match n with Some n => if n =? 0 then 360 else n | None => 360 end.
Definition type_interval (s : page_state) (v : string) : prog page_state unit :=
  change s "sync_interval_minutes" (JNum (interval_of v)).

(** ** What is shown *)

Inductive view := Spinner | Failed (message : string) | Form.
Definition view_of (s : page_state) : view :=
  if loading s then Spinner else match nonempty (error_ s) with Some e => Failed e | None => Form end.

(** [syncStatus?.status || "idle"], and when the button is disabled. *)
Definition shown_status (s : page_state) : js := js_or (opt_prop (syncStatus s) "status") (JStr "idle").
Definition sync_disabled (s : page_state) : bool := syncing s || js_is_str (shown_status s) "syncing".
Definition mapping_rows (s : page_state) : list js :=
  match member (config s) "attribute_mapping" with JArr l => l | _ => [] end.

(** ** The mapping *)

(** The mapping of the page is a list, or nothing. *)
Definition listed (v : js) : Prop := truthy v = true -> is_array v = true.
Definition mapping_listed (s : page_state) : Prop := listed (member (config s) "attribute_mapping").

Lemma member_set c k k' v : member (assoc_set k v c) k' = if String.eqb k k' then v else member c k'.
Proof.
  unfold member. cbn. destruct (String.eqb_spec k k') as [->|Hne]; [by rewrite assoc_set_eq|by rewrite assoc_set_ne].
Qed.

Lemma member_spread k m c :
  listed (member c k) -> Forall (fun kv => kv.1 = k -> listed kv.2) m -> listed (member (spread c m) k).
Proof.
  unfold spread. revert c. induction m as [|[k' v] m IH]; intros c Hc Hm; [done|]. apply Forall_cons in Hm as [Hv Hm]. cbn [fold_left fst snd] in *.
  apply IH; [|done]. rewrite member_set. destruct (String.eqb_spec k' k); [by apply Hv|done].
Qed.

Lemma index_no_name k n : Z_of_string k = None -> string_of_Z n <> k.
Proof. intros H E. rewrite <- E, Z_of_string_of_Z in H. discriminate. Qed.

Lemma imap_names {A} (f : A -> js) k l :
  Z_of_string k = None -> Forall (fun kv => kv.1 = k -> listed kv.2) (imap (fun i x => (string_of_Z (Z.of_nat i), f x)) l).
Proof.
  intros Hk. apply Forall_lookup. intros i kv H. rewrite list_lookup_imap in H. destruct (l !! i); [|done]. injection H as <-.
  cbn. intros E. by apply (index_no_name k (Z.of_nat i)) in Hk.
Qed.

Lemma unique_member k l : members_wf l = true -> forall v, In (k, v) l -> member l k = v.
Proof.
  induction l as [|[k' x] l IH]; [done|]. intros Hwf v Hin. apply members_wf_cons in Hwf as (Hk & _ & Hl). unfold member in *. cbn in *.
  destruct Hin as [[= -> ->]|Hin]; [by rewrite eqb_refl_str|]. rewrite eqb_str_false; [by apply IH|].
  intros ->. apply Hk. by apply (in_map fst) in Hin.
Qed.

(** Whatever well-formed value the server sent, what is laid over the settings has a list. *)
Lemma answer_listed c :
  json_wf c = true -> Forall (fun kv => kv.1 = "attribute_mapping" -> listed kv.2) (own_members (list_mapping c)).
Proof.
  intros Hwf. destruct c as [| | | |s|l|l]; try (by constructor).
  - by apply imap_names.
  - by apply (imap_names id).
  - cbn [list_mapping]. change (opt_prop (JObj l) "attribute_mapping") with (member l "attribute_mapping").
    set (rows := JArr _). assert (forall l', (forall v, In ("attribute_mapping", v) l' -> listed v) ->
      Forall (fun kv => kv.1 = "attribute_mapping" -> listed kv.2) l') as Hall.
    { intros l' H. apply List.Forall_forall. intros [k v] Hin E. cbn in *. subst k. by apply H. }
    destruct (truthy _ && _) eqn:E; cbn [own_members]; apply Hall; intros v Hin.
    + assert (listed rows) as Hrows by done. clearbody rows. clear E. induction l as [|[k x] l IH]; cbn [assoc_set] in Hin.
      * by destruct Hin as [[= <-]|[]].
      * apply members_wf_cons in Hwf as (Hk & _ & Hl). destruct (String.eqb_spec "attribute_mapping" k) as [<-|Hne].
        -- destruct Hin as [[= <-]|Hin]; [done|]. destruct Hk. by apply (in_map fst) in Hin.
        -- destruct Hin as [[= -> ->]|Hin]; [done|]. by apply IH.
    + apply (unique_member _ _ Hwf) in Hin. rewrite <- Hin. intros Ht. rewrite Ht in E. cbn in E. by apply negb_false_iff in E.
Qed.

(** The calls of the page by the render [w] they were made from; the load is also the timer of
    a synchronisation. *)
Inductive sync_call (w : world page_state) : prog page_state unit -> Prop :=
| call_load : sync_call w loadData
| call_preset v : sync_call w (applyVendorPreset v)
| call_save : sync_call w (save (w_st w))
| call_test : sync_call w (test (w_st w))
| call_sync : sync_call w triggerSync
| call_text k v : In k ["server_url"; "bind_dn"; "base_dn"; "user_filter"; "group_filter"] -> sync_call w (type_text (w_st w) k v)
| call_box k v : In k ["start_tls"; "auto_provision"] -> sync_call w (tick_box (w_st w) k v)
| call_interval v : sync_call w (type_interval (w_st w) v).

Lemma change_listed s k v : mapping_listed s -> k <> "attribute_mapping" -> tame mapping_listed (fun _ => True) (change s k v).
Proof.
  intros Hs Hk. apply tame_upd. intros s' _. change (listed (member (assoc_set k v (config s)) "attribute_mapping")). by rewrite member_set, eqb_str_false.
Qed.

Notation lists := (tame mapping_listed (fun _ => True)).

Lemma when_ok_lists res f : (forall d, json_wf d = true -> lists (f d)) -> lists (when_ok res f).
Proof. destruct res as [r|]; [|done]. intros Hf. cbn. destruct (rs_ok r); [|done]. by apply tame_json_bind. Qed.

Lemma config_lists d :
  json_wf d = true ->
  lists (c0 ← get d "config";
         let c := js_or c0 d in
         if truthy c then setConfig (fun prev => spread prev (own_members (list_mapping c))) else mret tt).
Proof.
  intros Hd. unfold get. destruct (prop d "config") as [c0|] eqn:Ec; [|done].
  assert (json_wf (js_or c0 d) = true) as Hwf.
  { unfold js_or. destruct (truthy c0) eqn:Et; [|done]. assert (opt_prop d "config" = c0) as <- by (unfold opt_prop; by rewrite Ec).
    by apply opt_prop_wf. }
  change (lists (if truthy (js_or c0 d) then setConfig (fun prev => spread prev (own_members (list_mapping (js_or c0 d)))) else mret tt)).
  destruct (truthy (js_or c0 d)); [|done]. apply tame_upd. intros s Hs. by apply member_spread, answer_listed.
Qed.

Lemma load_listed : lists loadData.
Proof.
  unfold loadData, tenant_headers, authHeader, getAuthToken, fetch_or_null, setLoading, setError, setSyncStatus, setHistory.
  tame_prog; try (by apply tame_upd); try done.
  all: try (apply when_ok_lists; intros d Hd; first [by apply config_lists | by apply tame_upd | tame_prog; by apply tame_upd]).
  all: apply tame_promise_all, List.Forall_map, List.Forall_forall; intros p _; by tame_prog.
Qed.

Lemma calls_lists w p : mapping_listed (w_st w) -> sync_call w p -> lists p.
Proof.
  intros Hw [|v| | | |k v Hk|k v Hk|v].
  - apply load_listed.
  - unfold applyVendorPreset, setSelectedVendor. tame_prog; [by apply tame_upd|].
    apply tame_upd. intros s Hs. apply member_spread; [exact Hs|]. repeat constructor; cbn; try done. intros _.
    by destruct (attribute_mapping _).
  - unfold save, body_headers, authHeader, getAuthToken. tame_prog; try (by apply tame_upd); done.
  - unfold test, body_headers, authHeader, getAuthToken. tame_prog; try (by apply tame_upd); done.
  - unfold triggerSync, tenant_headers, authHeader, getAuthToken. tame_prog; try (by apply tame_upd); done.
  - apply change_listed; [done|]. intros ->. cbn in Hk. naive_solver.
  - apply change_listed; [done|]. intros ->. cbn in Hk. naive_solver.
  - by apply change_listed.
Qed.

(** Under every history and interleaving, whatever the server sends in its place, the mapping
    of the page is a list or nothing: the table is drawn from it and it is saved as it is
    drawn. *)
Lemma mapping_stays_listed (e : env) answers l c :
  reachable e sync_call answers (page page_init l) c -> mapping_listed (w_st c.1).
Proof.
  intros Hr. apply (safe_reachable e sync_call answers (tame_inv mapping_listed (fun _ => True)) (page page_init l) c); [|..|done].
  - split; [done|]. by constructor.
  - intros w p [Hw Ht] Hp. apply tame_safe; [|done]. by apply (calls_lists w).
Qed.

(** ** Presets *)

(** A preset of the list replaces the filters, the encryption and the mapping; the rest stays,
    and the address unless there was none. *)
Lemma preset_applied (e : env) p w :
  find_preset (preset_id p) = Some p ->
  let c := config (w_st w) in
  let s := w_st (run e (applyVendorPreset (preset_id p)) w).2 in
  selectedVendor s = preset_id p
  /\ member (config s) "server_url" = js_or (member c "server_url") (JStr (server_url (preset_config p)))
  /\ member (config s) "user_filter" = JStr (user_filter (preset_config p))
  /\ member (config s) "group_filter" = JStr (group_filter (preset_config p))
  /\ member (config s) "start_tls" = JBool (start_tls (preset_config p))
  /\ forall k, In k ["bind_dn"; "base_dn"; "sync_interval_minutes"; "auto_provision"] -> member (config s) k = member c k.
Proof.
  intros Hp. cbv zeta. unfold applyVendorPreset, setSelectedVendor, setConfig. rewrite Hp. run_steps. destruct w as [s0 l1 l2 l3 tr].
  cbn [w_st set_st snd config selectedVendor]. unfold with_preset, spread. cbn [fold_left fst snd]. rewrite !member_set. cbn [String.eqb Ascii.eqb Bool.eqb].
  split_and!; try done. intros k Hk. rewrite !member_set. cbn in Hk. by repeat destruct Hk as [<-|Hk].
Qed.

(** The address and the mapping of one server under the filters of another: the second preset
    keeps the address the first has filled in. *)
Lemma presets_mix (e : env) p q w :
  find_preset (preset_id p) = Some p -> find_preset (preset_id q) = Some q -> server_url (preset_config p) <> "" ->
  truthy (member (config (w_st w)) "server_url") = false ->
  let s := w_st (run e (applyVendorPreset (preset_id p);; applyVendorPreset (preset_id q)) w).2 in
  member (config s) "server_url" = JStr (server_url (preset_config p))
  /\ member (config s) "user_filter" = JStr (user_filter (preset_config q)).
Proof.
  intros Hp Hq Hne Ht. cbv zeta. rewrite run_mbind.
  destruct (preset_applied e p w Hp) as (_ & Hu & _).
  assert (exists w1, run e (applyVendorPreset (preset_id p)) w = (Done tt, w1)) as [w1 E].
  { unfold applyVendorPreset, setSelectedVendor, setConfig. rewrite Hp. run_steps. by eexists. }
  rewrite E in Hu. cbn [snd] in Hu. rewrite E. destruct (preset_applied e q w1 Hq) as (_ & Hu2 & Hf & _).
  rewrite Hu2, Hu, Hf. unfold js_or. rewrite Ht. split; [|done]. by destruct (server_url (preset_config p)).
Qed.

(** ** Saving and testing *)

(** A save sends the settings of its render once; the page says so when the server agrees, and
    nothing otherwise: a refusal or a failure leaves no trace on it. *)
Lemma save_outcome (e : env) s w :
  exists hs tr w', run e (save s) w = (Done tt, w')
  /\ fetches (w_trace w') = Request PUT "/api/v1/identity/ldap/sync-config" hs (Some (stringify (config_body s))) :: fetches (w_trace w)
  /\ saving (w_st w') = false /\ config (w_st w') = config (w_st w) /\ error_ (w_st w') = error_ (w_st w)
  /\ saved (w_st w') = match server e tr (Request PUT "/api/v1/identity/ldap/sync-config" hs (Some (stringify (config_body s)))) with
                       | Some r => rs_ok r | None => false end.
Proof.
  unfold save, body_headers, authHeader, getAuthToken, setSaving, setSaved. run_steps.
  match goal with |- context [server e ?tr (Request PUT ?u ?hs ?b)] => exists hs, tr; destruct (server e tr (Request PUT u hs b)) as [r|] end; run_steps.
  - destruct (rs_ok r); run_steps; (eexists; split; [reflexivity|]); by destruct w.
  - eexists. split; [reflexivity|]. by destruct w.
Qed.

(** A test ends with the server's verdict, or with a failure that names the status or the error. *)
Lemma test_outcome (e : env) s w :
  exists hs tr w', run e (test s) w = (Done tt, w')
  /\ testing (w_st w') = false /\ config (w_st w') = config (w_st w)
  /\ testResult (w_st w')
     = match server e tr (Request POST "/api/v1/identity/ldap/sync-config/test" hs (Some (stringify (config_body s)))) with
       | Some r => if rs_ok r then match JSON_parse (rs_body r) with Some d => d | None => failed_test (e_message syntax_error) end
                   else failed_test ("HTTP " +:+ string_of_Z (rs_status r))
       | None => failed_test (e_message network_error)
       end.
Proof.
  unfold test, body_headers, authHeader, getAuthToken, setTesting, setTestResult. run_steps.
  match goal with |- context [server e ?tr (Request POST ?u ?hs ?b)] => exists hs, tr; destruct (server e tr (Request POST u hs b)) as [r|] end; run_steps.
  - destruct (rs_ok r); run_steps; [destruct (JSON_parse (rs_body r)); run_steps|]; (eexists; split; [reflexivity|]); by destruct w.
  - eexists. split; [reflexivity|]. by destruct w.
Qed.

(** ** What the page says *)

(** A synchronisation that is under way disables the button; the status is asked for once, after
    three seconds, and when that fails, or is too early, nothing on the page enables it again. *)
Example never_asked_again :
  let w := (run (const_env None 0) loadData (page (w_st (run (const_env (Some (Response 200 "{}")) 0) triggerSync (page page_init ∅)).2) ∅)).2 in
  sync_disabled (w_st w) = true /\ view_of (w_st w) = Form /\ existsb (fun o => match o with ObsEmit _ _ => true | _ => false end) (w_trace w) = false.
Proof. vm_compute. done. Qed.

(** That load also lays the settings of the server over what was typed and not saved. *)
Example edits_are_lost :
  let stored := stringify (JObj [("config", JObj [("server_url", JStr "ldap://old")])]) in
  let s := w_st (run (const_env None 0) (type_text page_init "server_url" "ldap://new") (page page_init ∅)).2 in
  member (config s) "server_url" = JStr "ldap://new"
  /\ member (config (w_st (run (const_env (Some (Response 200 stored)) 0) loadData (page s ∅)).2)) "server_url" = JStr "ldap://old".
Proof. vm_compute. done. Qed.

(** A mapping as an object is shown as rows; an answer that is [null] is the only failure the
    page reports, since one that does not come is taken for none. *)
Example answers_read :
  let body := stringify (JObj [("attribute_mapping", JObj [("uid", JStr "username")])]) in
  let after body := w_st (run (const_env body 0) loadData (page page_init ∅)).2 in
  mapping_rows (after (Some (Response 200 body))) = [mapped "uid" (JStr "username")]
  /\ view_of (after (Some (Response 200 "null"))) = Failed "Failed to load LDAP configuration"
  /\ view_of (after None) = Form.
Proof. vm_compute. done. Qed.

(** ** Witnesses *)

Lemma presets_mix_witness :
  let s := w_st (run (const_env None 0) (applyVendorPreset "active-directory";; applyVendorPreset "openldap") (page page_init ∅)).2 in
  member (config s) "server_url" = JStr "ldap://dc01.corp.local:389" /\ member (config s) "user_filter" = JStr "(objectClass=inetOrgPerson)".
Proof.
  refine (presets_mix (const_env None 0) (nth 1 LDAP_VENDOR_PRESETS (hd (Preset "" "" "" (Ldap "" "" "" "" "" true [])) LDAP_VENDOR_PRESETS))
    (nth 2 LDAP_VENDOR_PRESETS (hd (Preset "" "" "" (Ldap "" "" "" "" "" true [])) LDAP_VENDOR_PRESETS)) (page page_init ∅) _ _ _ _);
    [reflexivity|reflexivity|discriminate|reflexivity].
Defined.

Lemma mapping_stays_listed_witness :
  exists c, reachable (const_env None 0) sync_call (fun _ _ _ => True) (page page_init ∅) c /\ mapping_listed (w_st c.1)
  /\ selectedVendor (w_st c.1) = "freeipa".
Proof.
  assert (exists c, reachable (const_env None 0) sync_call (fun _ _ _ => True) (page page_init ∅) c /\ selectedVendor (w_st c.1) = "freeipa") as (c & Hc & Hv).
  { eexists. split; [eapply reach_step; [apply reach_init|]|].
    - eapply step_spawn; [apply (call_preset _ "freeipa")|reflexivity].
    - reflexivity. }
  exists c. split; [exact Hc|]. split; [|exact Hv]. exact (mapping_stays_listed (const_env None 0) (fun _ _ _ => True) ∅ c Hc).
Defined.
